(* ===== verification/_CoqProject ===== *)
-Q . S2P
Prelude.v
Domain.v
Sql.v
McEpoch.v
Slots.v
BlockSearch.v
McHash.v
DbBlocks.v
Cbor.v
Json.v
PlutusDatums.v
Selection.v
Ariadne.v
Committee.v
AriadneInherent.v
Query.v
Agreement.v
Session.v
NativeToken.v
DbNativeToken.v
DbCandidates.v
DbInputs.v
CandidatesCache.v
BlockRewards.v
Runtime.v
ChainQueries.v
Aura.v
NodeInherents.v
Authoring.v
Ogmios.v
OffchainCsl.v
Offchain.v
OffchainUpsert.v
CliConfig.v
CliPrepare.v
CliRegister.v
CliNode.v
NodeCommands.v
NodeSpec.v
Consensus.v
MockSources.v
DbSources.v
Service.v
NodeMain.v
CliIo.v
PalletTests.v
RuntimeTests.v
Weights.v
CliMock.v
RegisterTests.v
WizardTests.v
