(* ===== verification/Prelude.v ===== *)
(** * A verification of the partner chains node and toolkit

    A partner chain is a Substrate chain whose committee, registrations and token supply
    are governed by contracts on Cardano, the main chain. A node follows the main chain
    through a db-sync database, refers to a stable main chain block in every block it
    authors, selects the committee of every epoch from the main chain's data, and releases
    tokens that were locked there; off-chain clients and a wizard write the contracts' data.
    The development models these parts from the sources under [src/] and proves what makes
    them correct alone and together.

    ** Files and sources

    - [Prelude]: results, panics and state as monads ([result], [outcome], [fallible],
      [stateful]), unsigned integers of a width with their wrap-around, stable sorting,
      sums, tactics.
    - [Domain]: [toolkit/primitives/domain/src/lib.rs] and the code that
      [toolkit/utils/byte-string-derivation] generates: identifiers and their text form,
      registrations, candidates, the D-parameter.
    - [Sql]: the relational operations that the queries of db-sync use.
    - [McEpoch]: [domain/src/mainchain_epoch.rs]. [Slots]: [primitives/sidechain-slots],
      [pallets/sidechain] and its RPC. [BlockSearch]: [primitives/sidechain-block-search].
    - [McHash]: [primitives/sidechain-mc-hash]; [DbBlocks]: the blocks of
      [mainchain-follower/db-sync-follower] and their cache.
    - [Cbor], [Json]: [utils/plutus]; [PlutusDatums]: [primitives/plutus-data].
    - [Selection]: [primitives/selection]; [Ariadne]: [filter_invalid_candidates.rs] and
      [select_authorities.rs] of [primitives/authority-selection-inherents]; [Committee]:
      [pallets/session-validator-management]; [AriadneInherent]: the inherent data of the
      selection; [Query]: [session-validator-management/query]; [Agreement]: what two nodes
      compute from the same main chain; [ChainQueries]: the runtime APIs that the queries
      call, on the chain that the runtime produces.
    - [Session]: [pallets/partner-chains-session] and [primitives/session-manager].
    - [NativeToken]: [pallets/native-token-management] and its inherent data;
      [DbNativeToken]: its data source and cache.
    - [DbCandidates], [CandidatesCache]: [db-sync-follower/src/candidates]; [DbInputs]: the
      integer types of what is read there; [DbSources]: the settings, metrics and command line of
      the db-sync sources.
    - [BlockRewards]: [pallets/block-rewards].
    - [Runtime]: the wiring of [node/runtime/src/lib.rs]; [Aura]: [client/consensus/aura];
      [NodeInherents]: [node/node/src/inherent_data.rs]; [Authoring]: a block from its
      author's inherent data to its import by another node.
    - [Ogmios]: [utils/ogmios-client]; [OffchainCsl], [Offchain], [OffchainUpsert]:
      [toolkit/offchain].
    - [CliConfig]: [partner-chains-cli/src/config.rs] and [io.rs], the files of the wizard;
      [CliPrepare]: [prepare_configuration] and what it uses; [CliRegister]:
      [toolkit/cli/commands] and the registration wizards; [CliNode]: the wizards for keys,
      chain specification, main chain state and node start, and [main.rs].
    - [NodeCommands]: [session-validator-management/query/src/commands.rs],
      [primitives/sidechain/src/query.rs], the RPC servers' methods, [toolkit/cli/node-commands]
      and [toolkit/cli/smart-contracts-commands].
    - [NodeSpec]: [chain_spec.rs], [template_chain_spec.rs], [staging.rs] and [testnet.rs] of
      [node/node/src], the genesis of the runtime, and what the wizard makes of them;
      [MockSources]: [mainchain-follower/mock] and [node/node/src/main_chain_follower.rs].
    - [Consensus]: the session handler for tuples of [pallets/partner-chains-session], the
      session keys and the consensus APIs of the runtime; [Service]: [node/node/src/service.rs]
      and what it starts; [NodeMain]: [rpc.rs], [command/mod.rs] and [benchmarking.rs] of the node;
      [CliIo]: the console, files and processes behind the wizard's [IOContext].
    - [Weights]: [node/runtime/src/weights], the limits of a block and what the hooks cost;
      [PalletTests]: the tests and mocks of the committee, native token, sidechain and block rewards
      pallets; [RuntimeTests]: [node/runtime/src/mock.rs] and the rotation tests of the runtime;
      [CliMock]: the wizard's mock context, [partner-chains-cli/src/tests/mod.rs];
      [RegisterTests], [WizardTests]: the tests of the wizards, run in it.

    ** State and operations

    A pallet's storage is a record, its hooks, calls and inherents are functions on that
    record, with [Panic] where the code panics. A data source is a class of operations
    that a client of it is proved against; the db-sync implementations are instances on
    tables. Caches and remote clients are passed as state; environment variables
    are a map. The wizard's console, files and
    commands are a class of operations on a world ([IOContext]), and a run is a function on
    that world ([action], [stateful]); [frame] says which fields a run may change. Rust's operators are written at
    the width of their type ([a +[w] b] wraps, as in a release build).

    ** What is proved

    - The chain: no hook, inherent or dispatch of the runtime panics or is refused on any
      chain of blocks at non-decreasing slots, and the committee catches up
      ([runtime_chain_is_safe], [committee_catches_up]); that chain is a refinement of one
      committee per session ([runtime_refines_committees]), which the node's queries
      report ([node_answers_committees]) and which Aura and Grandpa follow
      ([consensus_follows_committees]); a block that a node authors is
      imported by its peers ([running_nodes_import_blocks], from
      [authored_block_is_imported]; [aura_verify_exact],
      [created_inherent_is_accepted], [proposed_reference_is_verified],
      [reference_verification]).
    - The committee: its size, members and weights ([ariadne_committee],
      [weights_follow_d_parameter], [select_authorities_total],
      [latest_valid_registration], [signed_message_binds]); nodes with the same main chain
      data agree on it ([nodes_agree_on_committee], [db_nodes_agree]), except when two
      candidates with a seat share an account ([shared_account_splits_nodes]); sessions follow it
      ([session_handover], [disable_index_correct]).
    - The main chain's data: the queries return what the ledger holds
      ([candidates_are_active_registrations], [token_requests_answered],
      [ariadne_data_available], [registrations_query_matches_selection],
      [epoch_committee_query], [find_block_by_epoch]) and caches do not change an answer
      ([block_cache_transparent], and [candidate_cache_transparent] but for errors of its own); every number read from a
      datum or a row fits the type that it is given ([db_inputs_fit_types]); nodes that
      follow the same mock configuration agree ([mock_nodes_agree]); the sources of a node share
      their settings, and the command line answers as they do ([sources_share_settings],
      [cli_answers_as_node]).
    - Tokens and rewards: what is locked is released once, also across changes of the scripts,
      if the data source says what was locked ([native_tokens_conserved]); db-sync's does when
      the supply address holds no other tokens ([token_requests_answered]), which its query
      would count too ([foreign_tokens_are_counted]); rewards count
      blocks ([rewards_count_blocks]).
    - Formats: round trips of datums, CBOR, identifiers and epochs
      ([contract_datums_round_trip], [datum_cbor_round_trip],
      [identifier_text_round_trip], [epoch_for_slot_iff], [epochs_are_announced_in_order]).
    - The clients: an upsert leaves the requested value in the contract
      ([upsert_sets_d_parameter], [upsert_sets_permissioned_candidates]), with the scripts
      that are reported ([clients_use_reported_scripts]), except that an update of the
      permissioned candidates lacks the script it needs
      ([permissioned_update_lacks_validator]); collateral selection ends and is optimal
      ([balance_takes_fewest_collaterals], [largest_first_terminates],
      [largest_first_optimal]).
    - The wizard: a field is loaded as it was saved, and no other changes
      ([saved_field_is_loaded]); what prepare-configuration leaves in the file, with the
      genesis UTXO that it does not replace ([prepared_configuration]); the chain
      specification gets the configured candidates ([chain_spec_gets_candidates]) and the
      runtime builds its genesis from it ([created_chain_spec_is_accepted]); what
      the registration commands sign is accepted by the validation of registrations
      ([registration_signatures_are_accepted], [wizards_register_a_valid_candidate]); what
      the setup wizard reads from the node's command are the candidates that the selection
      accepts ([wizard_finds_selectable_candidates], [setup_wizard_reads_output]), and the
      commands print what the RPC servers answer ([commands_print_rpc_answers]). A started node
      answers every request ([started_node_answers]), blocks from files are verified as by it
      ([files_are_verified_as_by_node]), and the commands that prepare a chain need no access to
      the main chain ([setup_needs_no_sources]). The wizard's own context keeps the promises that
      its theorems use ([default_context_files], [default_context_env]), but a command that writes
      more than a pipe holds, while its error output is open, stops it ([run_command_ends]).
    - Weights: every call fits a block ([calls_fit_a_block]), but the block that ends a session
      takes no transactions ([session_ends_without_transactions]); any other has room for all
      inherents and any call ([other_blocks_have_room]).
    - Conformance: the repository's own tests of the pallets, of the rotation of authorities and of
      the wizards hold of the definitions ([committee_tests_pass], [native_token_tests_pass],
      [sidechain_tests_pass], [block_rewards_tests_pass], [rotation_tests_pass],
      [registration_wizard_tests_pass], [wizard_tests_pass]).

    ** Bounds and fuel

    The binary search over blocks has fuel 32: block numbers are below [2^31], and a step
    halves the range. Readers of CBOR have the length of their input as fuel, and
    [largest_first] one step per input. Both are proved to be enough. Integers are kept at
    the width of the source; theorems that need no overflow say so in a hypothesis.

    ** Third-party code

    It is a parameter with its documented behaviour as laws: hashing and signatures, SCALE,
    ChaCha20, the client and consensus crates of
    Substrate ([AuraClient], [AuraStandalone], [SubstrateService]), Aura's and Grandpa's pallets
    ([ConsensusPallets]) and FRAME's others, its weights and limits ([SpWeights], [FrameLimits]),
    [hex], [minicbor],
    [serde_json] values, [lru], PostgreSQL's order of unordered rows ([AnyOrder]),
    [cardano-serialization-lib] ([Csl], [CslLib]), [uplc], the compiled contracts and the
    Ogmios server; the console and the file system, the text form of JSON ([SerdeJson]),
    floating point numbers ([F64]) and key pairs ([SigningKeys]). A property with laws in its hypotheses has a witness with a concrete
    instance.

    ** Not modelled

    Logging and benchmarks of pallets, which are calls of third-party frameworks; what the commands
    and RPC modules of Substrate do; derived serialization; the configuration of FRAME's own
    pallets; tests of the clients; declarations of command line arguments. *)


From stdpp Require Export prelude gmap strings.
From Stdlib Require Export ZArith Lia.
From stdpp Require Export sorting.

#[global] Open Scope Z_scope.

(** ** Fallible and panicking computations

    [result] is Rust's [Result<A, E>] (the error type comes first so that
    [result E] is a monad); [outcome] is a computation that may panic
    ([panic!], [expect], [unwrap], division by zero, [assert!]). *)

Inductive result (E A : Type) : Type :=
| Ok (a : A)
| Err (e : E).
Arguments Ok {E A} _.
Arguments Err {E A} _.

Inductive outcome (A : Type) : Type :=
| Done (a : A)
| Panic.
Arguments Done {A} _.
Arguments Panic {A}.

#[export] Instance result_ret {E} : MRet (result E) := @Ok E.
#[export] Instance result_bind {E} : MBind (result E) := fun A B f m =>
  match m with Ok a => f a | Err e => Err e end.
#[export] Instance result_fmap {E} : FMap (result E) := fun A B f m =>
  match m with Ok a => Ok (f a) | Err e => Err e end.

#[export] Instance outcome_ret : MRet outcome := @Done.
#[export] Instance outcome_bind : MBind outcome := fun A B f m =>
  match m with Done a => f a | Panic => Panic end.
#[export] Instance outcome_fmap : FMap outcome := fun A B f m =>
  match m with Done a => Done (f a) | Panic => Panic end.

#[export] Instance result_eq_dec `{EqDecision E, EqDecision A} : EqDecision (result E A).
Proof. solve_decision. Defined.
#[export] Instance outcome_eq_dec `{EqDecision A} : EqDecision (outcome A).
Proof. solve_decision. Defined.

(** [opt.ok_or(e)], [res.ok()], [res.err()], [res.map_err(f)], [opt.expect(..)]. *)
Definition ok_or {E A} (o : option A) (e : E) : result E A :=
  match o with Some a => Ok a | None => Err e end.
Definition ok {E A} (r : result E A) : option A :=
  match r with Ok a => Some a | Err _ => None end.
Definition err {E A} (r : result E A) : option E :=
  match r with Ok _ => None | Err e => Some e end.
Definition map_err {E F A} (f : E -> F) (r : result E A) : result F A :=
  match r with Ok a => Ok a | Err e => Err (f e) end.
Definition expect {A} (o : option A) : outcome A :=
  match o with Some a => Done a | None => Panic end.

(** A computation that may panic or return an error, and its [?]. *)
Definition fallible (E A : Type) : Type := outcome (result E A).
Definition bind_fallible {E A B} (m : fallible E A) (k : A -> fallible E B) : fallible E B :=
  match m with Panic => Panic | Done (Err e) => Done (Err e) | Done (Ok a) => k a end.
Notation "x ←? m ; k" := (bind_fallible m (fun x => k))
  (at level 20, m at level 100, k at level 200, only parsing) : stdpp_scope.
(** Lifts a [Result] that cannot panic and a value that cannot fail. *)
Definition lift {E A} (r : result E A) : fallible E A := Done r.
Definition run {E A} (m : outcome A) : fallible E A :=
  match m with Done a => Done (Ok a) | Panic => Panic end.

(** A fallible computation that also changes a state (a cache behind a mutex); the state
    changes made before an error remain. *)
Definition stateful (S E A : Type) : Type := S -> S * fallible E A.
Definition bind_stateful {S E A B} (m : stateful S E A) (k : A -> stateful S E B) : stateful S E B := fun s =>
  match m s with
  | (s, Panic) => (s, Panic)
  | (s, Done (Err e)) => (s, Done (Err e))
  | (s, Done (Ok a)) => k a s
  end.
Notation "x ←! m ; k" := (bind_stateful m (fun x => k))
  (at level 20, m at level 100, k at level 200, only parsing) : stdpp_scope.
Definition stateless {S E A} (m : fallible E A) : stateful S E A := fun s => (s, m).
Definition map_err_stateful {S E F A} (f : E -> F) (m : stateful S E A) : stateful S F A := fun s =>
  match m s with
  | (s, Panic) => (s, Panic)
  | (s, Done r) => (s, Done (map_err f r))
  end.

(** Collecting an iterator of [Result]s stops at the first error. *)
Section CollectResults.
Context {E A B : Type} (f : A -> result E B).
Fixpoint collect_results (l : list A) : result E (list B) :=
  match l with
  | [] => Ok []
  | x :: l' => match f x with
               | Err e => Err e
               | Ok y => match collect_results l' with
                         | Err e => Err e
                         | Ok ys => Ok (y :: ys)
                         end
               end
  end.
End CollectResults.

(** A loop that updates an accumulator and returns early on an error. *)
Section TryFold.
Context {E A B : Type} (f : B -> A -> result E B).
Fixpoint try_fold (l : list A) (acc : B) : result E B :=
  match l with
  | [] => Ok acc
  | x :: l' => match f acc x with Err e => Err e | Ok acc => try_fold l' acc end
  end.
End TryFold.

(** Mapping a panicking function over a vector, in order. *)
Section MapOutcome.
Context {A B : Type} (f : A -> outcome B).
Fixpoint map_outcome (l : list A) : outcome (list B) :=
  match l with
  | [] => Done []
  | x :: l' => match f x with
               | Panic => Panic
               | Done y => match map_outcome l' with
                           | Panic => Panic
                           | Done ys => Done (y :: ys)
                           end
               end
  end.
End MapOutcome.

(** ** Machine integers

    A [w]-bit unsigned integer is a [Z] in [[0, 2^w)].  The plain operators
    [+], [-], [*] are Rust's in a build without overflow checks (the release
    and production profiles, and the wasm runtime): they wrap.  The bounds
    theorems say where they do not, and there a checked build agrees. *)

Definition in_width (w n : Z) : Prop := 0 <= n < 2 ^ w.
Definition max_value (w : Z) : Z := 2 ^ w - 1.
Definition wrap (w n : Z) : Z := n mod 2 ^ w.
Definition wrapping_add (w a b : Z) : Z := wrap w (a + b).
Definition wrapping_sub (w a b : Z) : Z := wrap w (a - b).
Definition wrapping_mul (w a b : Z) : Z := wrap w (a * b).
Definition checked_sub (a b : Z) : option Z := if b <=? a then Some (a - b) else None.
Definition saturating_add (w a b : Z) : Z := Z.min (max_value w) (a + b).
Definition saturating_sub (a b : Z) : Z := Z.max 0 (a - b).
(** [u32::try_from(n)] and the like, for a target of [w] bits. *)
Definition try_into_width (w n : Z) : option Z :=
  if (0 <=? n) && (n <? 2 ^ w) then Some n else None.
(** Integer division panics on a zero divisor. *)
Definition checked_div (a b : Z) : outcome Z := if b =? 0 then Panic else Done (a / b).

Declare Scope rust_scope.
Delimit Scope rust_scope with rust.
Notation "a +[ w ] b" := (wrapping_add w a b) (at level 50, left associativity) : rust_scope.
Notation "a -[ w ] b" := (wrapping_sub w a b) (at level 50, left associativity) : rust_scope.
Notation "a *[ w ] b" := (wrapping_mul w a b) (at level 40, left associativity) : rust_scope.
#[global] Open Scope rust_scope.

(** ** Automation *)

Create HintDb rust discriminated.
#[export] Hint Constants Transparent : rust.

Ltac unfold_width :=
  unfold in_width, max_value, wrap, wrapping_add, wrapping_sub, wrapping_mul,
    saturating_add, saturating_sub in *.

(** Reduces the binds of the goal, and nothing else. *)
Ltac simpl_monad :=
  cbn [mbind fmap outcome_bind outcome_fmap result_bind result_fmap option_bind
       bind_fallible lift run ok_or ok err map_err expect].

(** Splits the [match]es and [if]s of the goal or of a hypothesis. *)
Ltac split_match :=
  match goal with
  | |- context [match ?x with _ => _ end] => destruct x eqn:?
  end.
Ltac split_match_in H :=
  match type of H with
  | context [match ?x with _ => _ end] => destruct x eqn:?
  end.
(** The calls that a fallible computation made before it returned [Ok]. *)
Ltac inv_fallible H := repeat match type of H with
  | bind_fallible ?m _ = Done (Ok _) =>
      let E := fresh "E" in destruct m as [[?|]|] eqn:E; cbn [bind_fallible] in H; [|discriminate H ..]
  | (let '(_, _) := ?p in _) = Done (Ok _) => destruct p
  end.
Ltac inv_result := repeat match goal with
  | H : Ok _ = Ok _ |- _ => injection H; clear H; intros; subst
  | H : Err _ = Err _ |- _ => injection H; clear H; intros; subst
  | H : Done _ = Done _ |- _ => injection H; clear H; intros; subst
  | H : Some _ = Some _ |- _ => injection H; clear H; intros; subst
  | H : _ |- _ => discriminate H
  end.

(** Reflects the boolean comparisons of [Z] in the context and the goal. *)
Ltac zbool := repeat match goal with
  | H : (_ =? _) = true |- _ => apply Z.eqb_eq in H
  | H : (_ =? _) = false |- _ => apply Z.eqb_neq in H
  | H : (_ <=? _) = true |- _ => apply Z.leb_le in H
  | H : (_ <=? _) = false |- _ => apply Z.leb_gt in H
  | H : (_ <? _) = true |- _ => apply Z.ltb_lt in H
  | H : (_ <? _) = false |- _ => apply Z.ltb_ge in H
  | H : (_ && _) = true |- _ => apply andb_true_iff in H; destruct H
  | H : (_ && _) = false |- _ => apply andb_false_iff in H
  end.

Lemma pow2_pos w : 0 <= w -> 0 < 2 ^ w.
Proof. intros; apply Z.pow_pos_nonneg; lia. Qed.

Lemma wrap_small w n : in_width w n -> wrap w n = n.
Proof. apply Z.mod_small. Qed.

Lemma wrap_in_width w n : 0 <= w -> in_width w (wrap w n).
Proof. intros Hw. apply Z.mod_pos_bound, pow2_pos, Hw. Qed.

Lemma wrapping_add_small w a b : in_width w (a + b) -> a +[w] b = a + b.
Proof. apply wrap_small. Qed.

Lemma wrapping_mul_small w a b : in_width w (a * b) -> a *[w] b = a * b.
Proof. apply wrap_small. Qed.

Lemma mul_bounds a b x y : 0 <= a < x -> 0 <= b < y -> 0 <= a * b < x * y.
Proof. nia. Qed.

Lemma in_width_mul w v a b : 0 <= w -> 0 <= v -> in_width w a -> in_width v b -> in_width (w + v) (a * b).
Proof. intros. unfold in_width in *. rewrite Z.pow_add_r by done. by apply mul_bounds. Qed.

Lemma in_width_le w v n : w <= v -> in_width w n -> in_width v n.
Proof.
  unfold in_width. intros Hle Hn. assert (2 ^ w <= 2 ^ v) by (apply Z.pow_le_mono_r; lia). lia.
Qed.

Lemma checked_sub_Some a b c : checked_sub a b = Some c <-> b <= a /\ c = a - b.
Proof.
  unfold checked_sub. destruct (Z.leb_spec b a); split; intros H'; try lia.
  - split; [done | congruence].
  - f_equal; lia.
  - discriminate H'.
Qed.

Lemma checked_sub_None a b : checked_sub a b = None <-> a < b.
Proof. unfold checked_sub. destruct (Z.leb_spec b a); split; intros; try lia; done. Qed.

Lemma try_into_width_Some w n m : try_into_width w n = Some m <-> in_width w n /\ m = n.
Proof.
  unfold try_into_width, in_width.
  destruct (Z.leb_spec 0 n), (Z.ltb_spec n (2 ^ w)); simpl; split; intros H';
    try discriminate; try lia; [split; [lia|congruence] | f_equal; lia].
Qed.

Lemma try_into_width_None w n : try_into_width w n = None <-> ~ in_width w n.
Proof.
  unfold try_into_width, in_width.
  destruct (Z.leb_spec 0 n), (Z.ltb_spec n (2 ^ w)); simpl; split; intros H'; try done; lia.
Qed.

#[export] Hint Resolve wrap_in_width wrap_small : rust.

Lemma ok_Some {E A} (r : result E A) a : ok r = Some a <-> r = Ok a.
Proof. destruct r; simpl; split; congruence. Qed.

Lemma ok_None {E A} (r : result E A) : ok r = None <-> exists e, r = Err e.
Proof. destruct r as [a|e]; simpl; split; [done | by intros [? [=]] | by exists e | done]. Qed.

Lemma collect_results_Ok {E A B} (f : A -> result E B) l ys :
  collect_results f l = Ok ys <-> Forall2 (fun x y => f x = Ok y) l ys.
Proof.
  revert ys; induction l as [|x l IH]; intros ys; simpl.
  - split; [intros [= <-]; constructor | by inversion 1].
  - destruct (f x) as [y|e] eqn:Hf.
    + destruct (collect_results f l) as [ys'|e] eqn:Hl.
      * split.
        -- intros [= <-]. constructor; [done|]. by apply IH.
        -- inversion 1; subst. assert (Ok ys' = Ok l') as [= ->] by (by apply IH). congruence.
      * split; [done|]. inversion 1; subst. by assert (Err e = Ok l') by (by apply IH).
    + split; [done|]. inversion 1; congruence.
Qed.

(** A decidable property of the numbers of a range, checked by evaluation. *)
Lemma check_range (P : Z -> bool) lo len n :
  forallb P (seqZ lo len) = true -> lo <= n < lo + len -> P n = true.
Proof. rewrite forallb_forall. intros Hall Hn. apply Hall, list_elem_of_In, elem_of_seqZ. lia. Qed.

(** ** Iterators over vectors *)

Definition sum_list (l : list Z) : Z := foldr Z.add 0 l.
(** [iter().sum()] at width [w]. *)
Definition sum_width (w : Z) (l : list Z) : Z := foldl (fun a x => a +[w] x) 0 l.

Lemma sum_list_app l k : sum_list (l ++ k) = sum_list l + sum_list k.
Proof. induction l as [|x l IH]; cbn in *; [done | unfold sum_list in *; lia]. Qed.

Lemma sum_list_nonneg l : Forall (fun x => 0 <= x) l -> 0 <= sum_list l.
Proof. induction 1; cbn in *; [done | unfold sum_list in *; lia]. Qed.

Lemma sum_list_perm l k : l ≡ₚ k -> sum_list l = sum_list k.
Proof. induction 1; cbn in *; unfold sum_list in *; lia. Qed.

Lemma sum_list_const c n : sum_list (replicate n c) = Z.of_nat n * c.
Proof. induction n as [|n IH]; cbn [replicate sum_list foldr]; [lia|]. unfold sum_list in IH. lia. Qed.

Lemma sum_list_scale c l : sum_list (map (fun x => x * c) l) = sum_list l * c.
Proof. induction l as [|x l IH]; cbn in *; [done|]. unfold sum_list in *. lia. Qed.

Lemma sum_width_acc w l a :
  0 <= w -> foldl (fun a x => a +[w] x) (wrap w a) l = wrap w (a + sum_list l).
Proof.
  intros Hw. revert a; induction l as [|x l IH]; intros a; cbn.
  - f_equal; lia.
  - assert (wrap w a +[w] x = wrap w (a + x)) as ->
      by (unfold wrapping_add, wrap; by rewrite Zplus_mod_idemp_l).
    rewrite IH. f_equal. unfold sum_list. lia.
Qed.

(** The machine sum is the mathematical sum modulo [2^w] ... *)
Lemma sum_width_spec w l : 0 <= w -> sum_width w l = wrap w (sum_list l).
Proof.
  intros Hw. unfold sum_width. rewrite <- (Z.add_0_l (sum_list l)), <- sum_width_acc by done.
  done.
Qed.

(** ... and the sum itself when that fits. *)
Lemma sum_width_small w l : 0 <= w -> in_width w (sum_list l) -> sum_width w l = sum_list l.
Proof. intros. rewrite sum_width_spec by done. by apply wrap_small. Qed.

(** [slice::sort_by] is a stable sort: insertion sort that keeps equal elements
    in their order. [leb x y] is "not [Greater]". *)
Fixpoint insert_by {A} (leb : A -> A -> bool) (x : A) (l : list A) : list A :=
  match l with
  | [] => [x]
  | y :: l' => if leb x y then x :: y :: l' else y :: insert_by leb x l'
  end.
Definition sort_by {A} (leb : A -> A -> bool) (l : list A) : list A :=
  foldr (insert_by leb) [] l.

(** [Iterator::max_by_key]: the last of the maximal elements. *)
Definition max_by {A} (leb : A -> A -> bool) (l : list A) : option A :=
  foldl (fun acc y => match acc with
                      | None => Some y
                      | Some x => if leb x y then Some y else Some x
                      end) None l.

Section Sorting.
Context {A : Type} (leb : A -> A -> bool).
Context (leb_total : forall x y, leb x y = true \/ leb y x = true).
Context (leb_trans : forall x y z, leb x y = true -> leb y z = true -> leb x z = true).

Lemma insert_by_perm x l : insert_by leb x l ≡ₚ x :: l.
Proof.
  induction l as [|y l IH]; simpl; [done|].
  destruct (leb x y); [done|]. by rewrite IH, Permutation_swap.
Qed.

Lemma sort_by_perm l : sort_by leb l ≡ₚ l.
Proof.
  induction l as [|x l IH]; simpl; [done|]. by rewrite insert_by_perm, IH.
Qed.

Lemma sort_by_nil l : sort_by leb l = [] <-> l = [].
Proof.
  split; [|by intros ->]. intros Hs. apply Permutation_nil. rewrite <- Hs. apply sort_by_perm.
Qed.

Lemma insert_by_sorted x l :
  StronglySorted (fun x y => leb x y = true) l ->
  StronglySorted (fun x y => leb x y = true) (insert_by leb x l).
Proof.
  induction 1 as [|y l Hs IH Hall]; simpl; [by repeat constructor|].
  destruct (leb x y) eqn:Hxy.
  - constructor; [by constructor|]. constructor; [done|].
    eapply Forall_impl; [exact Hall|]. intros z Hz. by eapply leb_trans.
  - constructor; [done|]. rewrite insert_by_perm. constructor; [|done].
    destruct (leb_total x y); congruence.
Qed.

Lemma sort_by_sorted l : StronglySorted (fun x y => leb x y = true) (sort_by leb l).
Proof. induction l; simpl; [constructor | by apply insert_by_sorted]. Qed.

(** Sorting commutes with filtering: this is what stability means. *)
Lemma insert_by_filter (P : A -> Prop) `{!forall x, Decision (P x)} x l :
  StronglySorted (fun x y => leb x y = true) l ->
  filter P (insert_by leb x l) =
    if decide (P x) then insert_by leb x (filter P l) else filter P l.
Proof.
  induction 1 as [|y l Hs IH Hall]; simpl; [by rewrite filter_cons, filter_nil|].
  destruct (leb x y) eqn:Hxy.
  - rewrite filter_cons. case_decide; [|done].
    rewrite !filter_cons. case_decide; simpl; [by rewrite Hxy|].
    assert (Forall (fun z => leb x z = true) l) as Hx.
    { eapply Forall_impl; [exact Hall|]. intros z Hz. by eapply leb_trans. }
    destruct (filter P l) as [|z k] eqn:Hf; simpl; [done|].
    rewrite (proj1 (Forall_forall _ _) Hx z); [done|].
    assert (z ∈ filter P l) as Hz by (rewrite Hf; left).
    by apply list_elem_of_filter in Hz as [_ Hz].
  - rewrite !filter_cons. rewrite IH. repeat case_decide; simpl; try done. by rewrite Hxy.
Qed.

Lemma sort_by_filter (P : A -> Prop) `{!forall x, Decision (P x)} l :
  filter P (sort_by leb l) = sort_by leb (filter P l).
Proof.
  induction l as [|x l IH]; simpl; [done|].
  rewrite insert_by_filter by apply sort_by_sorted. rewrite filter_cons, IH.
  by case_decide.
Qed.

Lemma last_insert_by x l :
  StronglySorted (fun x y => leb x y = true) l ->
  last (insert_by leb x l) =
    match last l with
    | None => Some x
    | Some y => if leb x y then Some y else Some x
    end.
Proof.
  induction 1 as [|y l Hs IH Hall]; [done|].
  simpl insert_by. rewrite (last_cons y l). destruct (leb x y) eqn:Hxy.
  - rewrite last_cons, last_cons. destruct (last l) as [w|] eqn:Hl; [|by rewrite Hxy].
    apply last_Some_elem_of in Hl. rewrite (leb_trans x y w); [done|done|].
    by apply (proj1 (Forall_forall _ _) Hall).
  - rewrite last_cons, IH. destruct (last l) as [w|] eqn:Hl; [by destruct (leb x w)|].
    by rewrite Hxy.
Qed.

(** Folding the maximum from the right or from the left is the same. *)
Let step (x : A) (o : option A) : option A :=
  match o with None => Some x | Some y => if leb x y then Some y else Some x end.

Lemma max_by_foldr l : max_by leb l = foldr step None l.
Proof.
  unfold max_by. destruct l as [|x l]; [done|]. simpl.
  revert x. induction l as [|y l IH]; intros x; [done|].
  simpl. destruct (leb x y) eqn:Hxy; rewrite IH; unfold step.
  - destruct (foldr _ _ l) as [z|] eqn:Hz; [|by rewrite Hxy].
    destruct (leb y z) eqn:Hyz; [by rewrite (leb_trans x y z)|by rewrite Hxy].
  - assert (leb y x = true) by (destruct (leb_total x y); congruence).
    destruct (foldr _ _ l) as [z|] eqn:Hz; [|by rewrite Hxy].
    destruct (leb x z) eqn:Hxz; [by rewrite (leb_trans y x z), Hxz|].
    destruct (leb y z) eqn:Hyz; [by rewrite Hxz|by rewrite Hxy].
Qed.

(** The last element of the sorted vector is the one [max_by_key] picks. *)
Lemma last_sort_by l : last (sort_by leb l) = max_by leb l.
Proof.
  rewrite max_by_foldr. induction l as [|x l IH]; [done|].
  simpl. rewrite last_insert_by by apply sort_by_sorted. by rewrite IH.
Qed.

Lemma max_by_Some_max l x y :
  max_by leb l = Some x -> y ∈ l -> leb y x = true.
Proof.
  rewrite <- last_sort_by. intros Hx Hy.
  assert (y ∈ sort_by leb l) as Hy' by (by rewrite sort_by_perm).
  apply last_Some in Hx as [k Hk].
  pose proof (sort_by_sorted l) as Hs. rewrite Hk in *.
  apply elem_of_app in Hy' as [Hy'|Hy'%list_elem_of_singleton].
  - clear Hk. induction k as [|z k IH]; [by apply not_elem_of_nil in Hy'|].
    inversion Hs as [|? ? Hs' Hall]; subst. apply elem_of_cons in Hy' as [->|Hy']; [|by apply IH].
    apply (proj1 (Forall_forall _ _) Hall). apply elem_of_app; right; by left.
  - subst. destruct (leb_total x x); done.
Qed.

Lemma max_by_Some_elem l x : max_by leb l = Some x -> x ∈ l.
Proof.
  rewrite <- last_sort_by. intros Hx%last_Some_elem_of. by rewrite sort_by_perm in Hx.
Qed.

Lemma max_by_None l : max_by leb l = None <-> l = [].
Proof.
  rewrite <- last_sort_by. rewrite last_None. split; [|by intros ->].
  intros H. apply Permutation_nil. rewrite <- H. apply sort_by_perm.
Qed.
End Sorting.

(** A sorted list is renamed in place by what respects the order. *)
Lemma insert_by_map {A B} (f : A -> B) leb leb' x l :
  (forall x y, leb' (f x) (f y) = leb x y) -> insert_by leb' (f x) (map f l) = map f (insert_by leb x l).
Proof. intros Hf. induction l as [|y l IH]; cbn; [done|]. rewrite Hf, IH. by destruct (leb x y). Qed.
Lemma sort_by_map {A B} (f : A -> B) leb leb' l :
  (forall x y, leb' (f x) (f y) = leb x y) -> sort_by leb' (map f l) = map f (sort_by leb l).
Proof. intros Hf. unfold sort_by. induction l as [|y l IH]; cbn; [done|]. rewrite IH. by apply insert_by_map. Qed.
