(* ===== verification/Domain.v ===== *)
(** * Domain types of the main chain and of the partner chain

    The types of [toolkit/primitives/domain/src/lib.rs] and their operations:
    epoch, slot and block numbers, byte-string newtypes, UTXO identifiers with
    their textual form, registrations and candidates, the D-parameter, and the
    key orders used to sort committees; and the code that the [byte_string]
    attribute ([toolkit/utils/byte-string-derivation]) generates for them. *)

From S2P Require Import Prelude.
#[local] Open Scope list_scope.

(** ** Bytes *)

(** [Vec<u8>] and [[u8; N]]: the bytes as integers. *)
Abbreviation bytes := (list Z).
Definition wf_bytes (bs : bytes) : Prop := Forall (in_width 8) bs.

(** [<[u8; N]>::try_from(slice)]. *)
Definition to_array (n : nat) (bs : bytes) : option bytes :=
  if decide (length bs = n) then Some bs else None.
(** [BoundedVec::<u8, ConstU32<N>>::try_from(vec)]. *)
Definition to_bounded (n : nat) (bs : bytes) : option bytes :=
  if decide (length bs <= n)%nat then Some bs else None.

(** Big-endian value of bytes, and the big-endian bytes of a number. *)
Fixpoint be_value_acc (acc : Z) (bs : bytes) : Z :=
  match bs with [] => acc | b :: bs' => be_value_acc (acc * 256 + b) bs' end.
Definition be_value (bs : bytes) : Z := be_value_acc 0 bs.
Fixpoint to_be_bytes (n : nat) (z : Z) : bytes :=
  match n with O => [] | S n' => to_be_bytes n' (z / 256) ++ [z mod 256] end.

(** The lexicographic [Ord] of slices, as "not greater". *)
Fixpoint bytes_leb (a b : bytes) : bool :=
  match a, b with
  | [], _ => true
  | _ :: _, [] => false
  | x :: a', y :: b' => if x <? y then true else if y <? x then false else bytes_leb a' b'
  end.

(** [String::from_utf8] accepts well-formed UTF-8 only: the shortest form, no surrogates,
    nothing above U+10FFFF. *)
Definition utf8_tail (b : Z) : bool := (128 <=? b) && (b <=? 191).
Fixpoint utf8_valid (bs : bytes) : bool :=
  match bs with
  | [] => true
  | b :: r =>
      if b <=? 127 then utf8_valid r else
      match r with
      | [] => false
      | b1 :: r1 =>
          if (194 <=? b) && (b <=? 223) then utf8_tail b1 && utf8_valid r1 else
          match r1 with
          | [] => false
          | b2 :: r2 =>
              if (224 <=? b) && (b <=? 239) then
                (if b =? 224 then (160 <=? b1) && (b1 <=? 191)
                 else if b =? 237 then (128 <=? b1) && (b1 <=? 159) else utf8_tail b1) &&
                utf8_tail b2 && utf8_valid r2
              else
              match r2 with
              | [] => false
              | b3 :: r3 =>
                  (240 <=? b) && (b <=? 244) &&
                  (if b =? 240 then (144 <=? b1) && (b1 <=? 191)
                   else if b =? 244 then (128 <=? b1) && (b1 <=? 143) else utf8_tail b1) &&
                  utf8_tail b2 && utf8_tail b3 && utf8_valid r3
              end
          end
      end
  end.
Definition from_utf8 (bs : bytes) : option bytes := if utf8_valid bs then Some bs else None.

(** ** Numbers *)

Definition McEpochNumber : Type := Z.
Definition StakeDelegation : Type := Z.
Definition NativeTokenAmount : Type := Z.
Definition McBlockNumber : Type := Z.
Definition McSlotNumber : Type := Z.
Definition ScSlotNumber : Type := Z.
Definition McTxIndexInBlock : Type := Z.
Definition ScEpochNumber : Type := Z.
Definition UtxoIndex : Type := Z.

Definition McEpochNumber_next (e : McEpochNumber) : McEpochNumber := e +[32] 1.
Definition is_zero (s : StakeDelegation) : bool := s =? 0.
Definition ScEpochNumber_next (e : ScEpochNumber) : ScEpochNumber := e +[64] 1.
Definition ScEpochNumber_prev (e : ScEpochNumber) : option ScEpochNumber := checked_sub e 1.

(** ** Byte-string newtypes *)

Definition MAX_MAINCHAIN_ADDRESS_BYTES : nat := 120.
Definition MainchainAddress : Type := bytes.
(** [address.to_string()]; a [String] is its UTF-8 bytes. *)
Definition MainchainAddress_to_string (a : MainchainAddress) : outcome bytes := expect (from_utf8 a).
Definition POLICY_ID_LEN : nat := 28.
Definition PolicyId : Type := bytes.
Definition MAX_ASSET_NAME_LEN : nat := 32.
Definition AssetName : Type := bytes.
Definition MainchainPublicKey : Type := bytes.
Definition MAINCHAIN_ADDRESS_HASH_LEN : nat := 28.
Definition MainchainAddressHash : Type := bytes.
Definition MainchainSignature : Type := bytes.
Definition SidechainPublicKey : Type := bytes.
Definition SidechainSignature : Type := bytes.
Definition CrossChainPublicKey : Type := bytes.
Definition CrossChainSignature : Type := bytes.
Definition EpochNonce : Type := bytes.
Definition McTxHash : Type := bytes.
Definition McBlockHash : Type := bytes.
Definition AuraPublicKey : Type := bytes.
Definition GrandpaPublicKey : Type := bytes.

Definition MainchainPublicKey_try_from (value : bytes) : result string MainchainPublicKey :=
  ok_or (to_array 32 value) "Mainchain public key must be 32 bytes long"%string.
Definition McTxHash_try_from (value : bytes) : result string McTxHash :=
  ok_or (to_array 32 value) "McTxHash must be 32 bytes long"%string.
Definition SizedByteString_try_from (n : nat) (value : bytes) : option bytes := to_array n value.
Definition try_into_sr25519 (k : AuraPublicKey) : option bytes := to_array 32 k.
Definition try_into_ed25519 (k : GrandpaPublicKey) : option bytes := to_array 32 k.

(** ** Records *)

Record MainchainBlock := mkMainchainBlock {
  mb_number : McBlockNumber;
  mb_hash : McBlockHash;
  mb_epoch : McEpochNumber;
  mb_slot : McSlotNumber;
  mb_timestamp : Z
}.

Record UtxoId := mkUtxoId { tx_hash : McTxHash; index : UtxoIndex }.
Definition UtxoId_new (hash : bytes) (index : Z) : UtxoId := mkUtxoId hash index.

Record UtxoInfo := mkUtxoInfo {
  utxo_id : UtxoId;
  ui_epoch_number : McEpochNumber;
  ui_block_number : McBlockNumber;
  ui_slot_number : McSlotNumber;
  ui_tx_index_within_block : McTxIndexInBlock
}.

Record UtxoInfoOrderingKey := mkOrderingKey {
  ok_block_number : McBlockNumber;
  ok_tx_index_within_block : McTxIndexInBlock;
  ok_utxo_id_index : UtxoIndex
}.

Definition ordering_key (u : UtxoInfo) : UtxoInfoOrderingKey :=
  mkOrderingKey (ui_block_number u) (ui_tx_index_within_block u) (index (utxo_id u)).

(** The derived [Ord]: lexicographic in the order of the fields. *)
Definition ordering_key_leb (a b : UtxoInfoOrderingKey) : bool :=
  if ok_block_number a <? ok_block_number b then true
  else if ok_block_number b <? ok_block_number a then false
  else if ok_tx_index_within_block a <? ok_tx_index_within_block b then true
  else if ok_tx_index_within_block b <? ok_tx_index_within_block a then false
  else ok_utxo_id_index a <=? ok_utxo_id_index b.

Inductive NetworkType := Mainnet | Testnet.

Record RegistrationData := mkRegistrationData {
  consumed_input : UtxoId;
  sidechain_signature : SidechainSignature;
  mainchain_signature : MainchainSignature;
  cross_chain_signature : CrossChainSignature;
  sidechain_pub_key : SidechainPublicKey;
  cross_chain_pub_key : CrossChainPublicKey;
  utxo_info : UtxoInfo;
  tx_inputs : list UtxoId;
  aura_pub_key : AuraPublicKey;
  grandpa_pub_key : GrandpaPublicKey
}.

Record CandidateRegistrations := mkCandidateRegistrations {
  mainchain_pub_key : MainchainPublicKey;
  registrations : list RegistrationData;
  stake_delegation : option StakeDelegation
}.

Record DParameter := mkDParameter {
  num_permissioned_candidates : Z;
  num_registered_candidates : Z
}.

Record PermissionedCandidateData := mkPermissionedCandidateData {
  sidechain_public_key : SidechainPublicKey;
  aura_public_key : AuraPublicKey;
  grandpa_public_key : GrandpaPublicKey
}.

(** Domain values fit their integer types. *)
Definition wf_DParameter (d : DParameter) : Prop :=
  in_width 16 (num_permissioned_candidates d) /\ in_width 16 (num_registered_candidates d).
Definition wf_StakeDelegation (s : StakeDelegation) : Prop := in_width 64 s.

#[export] Instance UtxoId_eq_dec : EqDecision UtxoId.
Proof. solve_decision. Defined.
#[export] Instance UtxoInfo_eq_dec : EqDecision UtxoInfo.
Proof. solve_decision. Defined.
#[export] Instance UtxoInfoOrderingKey_eq_dec : EqDecision UtxoInfoOrderingKey.
Proof. solve_decision. Defined.
#[export] Instance MainchainBlock_eq_dec : EqDecision MainchainBlock.
Proof. solve_decision. Defined.
#[export] Instance RegistrationData_eq_dec : EqDecision RegistrationData.
Proof. solve_decision. Defined.
#[export] Instance CandidateRegistrations_eq_dec : EqDecision CandidateRegistrations.
Proof. solve_decision. Defined.
#[export] Instance DParameter_eq_dec : EqDecision DParameter.
Proof. solve_decision. Defined.
#[export] Instance PermissionedCandidateData_eq_dec : EqDecision PermissionedCandidateData.
Proof. solve_decision. Defined.

(** ** Sorted keys *)

Definition SidechainPublicKeysSorted_new (keys : list SidechainPublicKey) : list SidechainPublicKey :=
  sort_by bytes_leb keys.
(** [blake2_256] is a hash of the host; the key hashes the sorted, concatenated keys. *)
Definition ATMSPlainAggregatePubKey_new (blake2_256 : bytes -> bytes)
    (keys : list SidechainPublicKey) : bytes :=
  blake2_256 (concat (sort_by bytes_leb keys)).

Lemma be_value_acc_app acc a b : be_value_acc acc (a ++ b) = be_value_acc (be_value_acc acc a) b.
Proof. revert acc; induction a as [|x a IH]; intros acc; cbn; auto. Qed.

Lemma length_to_be_bytes n z : length (to_be_bytes n z) = n.
Proof. revert z; induction n as [|n IH]; intros z; cbn; [done|]. rewrite length_app, IH. cbn. lia. Qed.

Lemma to_be_bytes_wf n z : wf_bytes (to_be_bytes n z).
Proof.
  revert z; induction n as [|n IH]; intros z; cbn; [constructor|].
  apply Forall_app_2; [apply IH|]. repeat constructor; by apply Z.mod_pos_bound.
Qed.

Lemma be_value_to_be_bytes n z : be_value (to_be_bytes n z) = z mod 256 ^ Z.of_nat n.
Proof.
  unfold be_value. revert z; induction n as [|n IH]; intros z; cbn [to_be_bytes].
  { cbn. by rewrite Z.mod_1_r. }
  rewrite be_value_acc_app, IH. cbn. rewrite Nat2Z.inj_succ, Z.pow_succ_r by lia.
  rewrite Z.rem_mul_r by (try apply Z.pow_pos_nonneg; lia). lia.
Qed.

Lemma be_value_acc_bounds acc bs :
  0 <= acc -> wf_bytes bs -> 0 <= be_value_acc acc bs < (acc + 1) * 256 ^ Z.of_nat (length bs).
Proof.
  intros Hacc Hbs. revert acc Hacc; induction Hbs as [|b bs Hb Hbs IH]; intros acc Hacc; cbn [be_value_acc length].
  { cbn. lia. }
  unfold in_width in Hb. specialize (IH (acc * 256 + b) ltac:(lia)).
  rewrite Nat2Z.inj_succ, Z.pow_succ_r by lia.
  pose proof (Z.pow_pos_nonneg 256 (Z.of_nat (length bs)) ltac:(lia) ltac:(lia)). nia.
Qed.

Lemma be_value_bounds bs : wf_bytes bs -> 0 <= be_value bs < 256 ^ Z.of_nat (length bs).
Proof. intros Hbs. pose proof (be_value_acc_bounds 0 bs ltac:(lia) Hbs). unfold be_value. lia. Qed.

Lemma bytes_leb_total a b : bytes_leb a b = true \/ bytes_leb b a = true.
Proof.
  revert b; induction a as [|x a IH]; intros [|y b]; simpl; auto.
  destruct (Z.ltb_spec x y), (Z.ltb_spec y x); auto; lia.
Qed.

Lemma bytes_leb_trans a b c : bytes_leb a b = true -> bytes_leb b c = true -> bytes_leb a c = true.
Proof.
  revert b c; induction a as [|x a IH]; intros [|y b] [|z c]; simpl; try done.
  destruct (Z.ltb_spec x y), (Z.ltb_spec y x), (Z.ltb_spec y z), (Z.ltb_spec z y),
    (Z.ltb_spec x z), (Z.ltb_spec z x); try done; try lia; apply IH.
Qed.

Lemma bytes_leb_antisymm a b : bytes_leb a b = true -> bytes_leb b a = true -> a = b.
Proof.
  revert b; induction a as [|x a IH]; intros [|y b]; simpl; try done.
  destruct (Z.ltb_spec x y), (Z.ltb_spec y x); try done; try lia.
  intros. f_equal; [lia | by apply IH].
Qed.

Lemma ordering_key_leb_total a b : ordering_key_leb a b = true \/ ordering_key_leb b a = true.
Proof.
  unfold ordering_key_leb. repeat case_match; zbool; auto; lia.
Qed.

Lemma ordering_key_leb_trans a b c :
  ordering_key_leb a b = true -> ordering_key_leb b c = true -> ordering_key_leb a c = true.
Proof.
  unfold ordering_key_leb.
  intros H1 H2; repeat case_match; zbool; try done; try lia; apply Z.leb_le; lia.
Qed.

Lemma ordering_key_leb_antisymm a b :
  ordering_key_leb a b = true -> ordering_key_leb b a = true -> a = b.
Proof.
  destruct a as [a1 a2 a3], b as [b1 b2 b3]. unfold ordering_key_leb; simpl.
  intros H1 H2; repeat case_match; zbool; try done; try lia; f_equal; lia.
Qed.

(** A total antisymmetric order sorts the permutations of a list alike. *)
Lemma sorted_unique {A} (leb : A -> A -> bool) (Hanti : forall x y, leb x y = true -> leb y x = true -> x = y) l k :
  StronglySorted (fun x y => leb x y = true) l -> StronglySorted (fun x y => leb x y = true) k ->
  l ≡ₚ k -> l = k.
Proof.
  intros Hl. revert k. induction Hl as [|x l Hl IH Hx]; intros k Hk Hp.
  - symmetry. by apply Permutation_nil.
  - destruct Hk as [|y k Hk Hy]; [by apply Permutation_nil_r in Hp|].
    assert (x = y) as ->.
    { assert (x ∈ y :: k) as Hxk by (rewrite <- Hp; left).
      assert (y ∈ x :: l) as Hyl by (rewrite Hp; left).
      apply elem_of_cons in Hxk as [?|Hxk]; [done|]. apply elem_of_cons in Hyl as [?|Hyl]; [done|].
      apply Hanti; [by apply (proj1 (Forall_forall _ _) Hx) | by apply (proj1 (Forall_forall _ _) Hy)]. }
    f_equal. apply IH; [done|]. by apply Permutation_cons_inv in Hp.
Qed.

(** The aggregate key does not depend on the order of the committee. *)
Lemma SidechainPublicKeysSorted_perm keys keys' :
  keys ≡ₚ keys' -> SidechainPublicKeysSorted_new keys = SidechainPublicKeysSorted_new keys'.
Proof.
  intros Hp. unfold SidechainPublicKeysSorted_new.
  apply (sorted_unique bytes_leb bytes_leb_antisymm);
    [apply sort_by_sorted; eauto using bytes_leb_total, bytes_leb_trans ..|].
  by rewrite !sort_by_perm.
Qed.

(** ** Text *)

Definition str : Type := list Ascii.ascii.
Definition chr (n : nat) : Ascii.ascii := Ascii.ascii_of_nat n.
Definition HASH_SIGN : Ascii.ascii := chr 35.
Definition PLUS : Ascii.ascii := chr 43.
Definition MINUS : Ascii.ascii := chr 45.

(** [str::split(c)]: the pieces between separators, one more than there are of them. *)
Fixpoint split_on (c : Ascii.ascii) (s : str) : list str :=
  match s with
  | [] => [[]]
  | x :: s' =>
      if decide (x = c) then [] :: split_on c s'
      else match split_on c s' with
           | p :: ps => (x :: p) :: ps
           | [] => [[x]]
           end
  end.

Inductive ParseIntError := Empty | InvalidDigit | PosOverflow | NegOverflow.
#[export] Instance ParseIntError_eq_dec : EqDecision ParseIntError.
Proof. solve_decision. Defined.

Definition to_digit (c : Ascii.ascii) : option Z :=
  let n := Z.of_nat (Ascii.nat_of_ascii c) in
  if (48 <=? n) && (n <=? 57) then Some (n - 48) else None.
Definition from_digit (d : Z) : Ascii.ascii := chr (Z.to_nat (48 + d)).

(** The accumulation loops of [from_str_radix]. *)
Fixpoint parse_positive (max acc : Z) (s : str) : result ParseIntError Z :=
  match s with
  | [] => Ok acc
  | c :: s' =>
      match to_digit c with
      | None => Err InvalidDigit
      | Some d => if max <? acc * 10 then Err PosOverflow
                  else if max <? acc * 10 + d then Err PosOverflow
                  else parse_positive max (acc * 10 + d) s'
      end
  end.
Fixpoint parse_negative (min acc : Z) (s : str) : result ParseIntError Z :=
  match s with
  | [] => Ok acc
  | c :: s' =>
      match to_digit c with
      | None => Err InvalidDigit
      | Some d => if acc * 10 <? min then Err NegOverflow
                  else if acc * 10 - d <? min then Err NegOverflow
                  else parse_negative min (acc * 10 - d) s'
      end
  end.

(** [uN::from_str] when [signed] is false, [iN::from_str] when it is true. *)
Definition int_from_str (signed : bool) (min max : Z) (s : str) : result ParseIntError Z :=
  match s with
  | [] => Err Empty
  | c :: rest =>
      if (bool_decide (c = PLUS) || bool_decide (c = MINUS)) && bool_decide (rest = [])
      then Err InvalidDigit
      else if bool_decide (c = PLUS) then parse_positive max 0 rest
      else if bool_decide (c = MINUS) && signed then parse_negative min 0 rest
      else parse_positive max 0 s
  end.
Definition u32_from_str := int_from_str false 0 (max_value 32).
Definition i32_from_str := int_from_str true (- 2 ^ 31) (max_value 31).
Definition u16_from_str := int_from_str false 0 (max_value 16).
Definition i16_from_str := int_from_str true (- 2 ^ 15) (max_value 15).

Definition McTxIndexInBlock_from_str (s : str) : result ParseIntError McTxIndexInBlock :=
  parsed ← u32_from_str s; _ ← i32_from_str s; Ok parsed.
Definition UtxoIndex_from_str (s : str) : result ParseIntError UtxoIndex :=
  parsed ← u16_from_str s; _ ← i16_from_str s; Ok parsed.

(** Decimal [Display] of unsigned integers; 40 digits are enough for [u128]. *)
Fixpoint dec_aux (fuel : nat) (n : Z) (acc : str) : str :=
  match fuel with
  | O => acc
  | S f => if n <? 10 then from_digit n :: acc
           else dec_aux f (n / 10) (from_digit (n mod 10) :: acc)
  end.
Definition dec_display (n : Z) : str := dec_aux 40 n [].

(** The hexadecimal codec of [sp_core]: [HexDisplay], [bytes::to_hex(_, false)]
    and [bytes::from_hex]. *)
Class HexCodec := {
  hex_display : bytes -> str;
  to_hex : bytes -> str;
  (* the error is its [to_string()] *)
  from_hex : str -> result string bytes
}.
Class HexCodecLaws `{HexCodec} : Prop := {
  from_hex_display : forall bs, wf_bytes bs -> from_hex (hex_display bs) = Ok bs;
  from_hex_to_hex : forall bs, wf_bytes bs -> from_hex (to_hex bs) = Ok bs;
  hex_display_no_hash : forall bs, HASH_SIGN ∉ hex_display bs
}.

(** ** What [#[byte_string(..)]] generates *)
Module ByteString.
Section Generated.
Context `{HexCodec}.

Inductive SupportedType := Array (n : nat) | Vec | BoundedVec (n : nat).

Definition wf (ty : SupportedType) (bs : bytes) : Prop :=
  wf_bytes bs /\
  match ty with Array n => length bs = n | Vec => True | BoundedVec n => (length bs <= n)%nat end.

Definition hex_serialize (self : bytes) : str := to_hex self.
Definition hex_deserialize (ty : SupportedType) (s : str) : result string bytes :=
  inner ← from_hex s;
  match ty with
  | Array n => ok_or (to_array n inner) "Can't deserialize"%string
  | BoundedVec n => ok_or (to_bounded n inner) "Invalid length"%string
  | Vec => Ok inner
  end.
Definition decode_hex (ty : SupportedType) (s : str) : result string bytes :=
  inner ← map_err (fun _ => "Cannot decode bytes from hex string"%string) (from_hex s);
  match ty with
  | Array n => ok_or (to_array n inner) "Invalid length"%string
  | BoundedVec n => ok_or (to_bounded n inner) "Invalid length"%string
  | Vec => Ok inner
  end.
Definition from_hex_unsafe (ty : SupportedType) (s : str) : outcome bytes :=
  match decode_hex ty s with Ok v => Done v | Err _ => Panic end.
Definition to_hex_string (self : bytes) : str := to_hex self.
Definition from_bytes (ty : SupportedType) (bs : bytes) : option bytes :=
  match ty with Array n => to_array n bs | _ => Some bs end.
(** [n.to_be_bytes()] of a [u64]. *)
Definition to_be_bytes64 (n : Z) : bytes :=
  map (fun i => Z.land (Z.shiftr n (8 * i)) 255) [7; 6; 5; 4; 3; 2; 1; 0].
Definition from_num (ty : SupportedType) (n : Z) : outcome bytes :=
  match ty with
  | Array len => if (len <? 8)%nat then Panic
                 else Done (replicate (len - 8) 0 ++ to_be_bytes64 n)
  | _ => Done (to_be_bytes64 n)
  end.

Context `{!HexCodecLaws}.

(** Every serialized byte string deserializes and decodes to itself. *)
Lemma hex_round_trip ty bs :
  wf ty bs -> hex_deserialize ty (hex_serialize bs) = Ok bs /\ decode_hex ty (to_hex_string bs) = Ok bs.
Proof.
  intros [Hbs Hty]. unfold hex_deserialize, hex_serialize, decode_hex, to_hex_string.
  rewrite from_hex_to_hex by done. unfold to_array, to_bounded.
  destruct ty; simpl; rewrite ?decide_True by done; done.
Qed.

End Generated.
End ByteString.

Section Text.
Context `{HexCodec}.

Definition MainchainPublicKey_from_str (s : str) : result string MainchainPublicKey :=
  bytes_vec ← map_err (fun _ => "Mainchain Public Key must be a valid hex string"%string) (from_hex s);
  MainchainPublicKey_try_from bytes_vec.
Definition McTxHash_from_str (s : str) : result string McTxHash :=
  ByteString.decode_hex (ByteString.Array 32) s.

Definition UtxoId_from_str (s : str) : result string UtxoId :=
  match split_on HASH_SIGN s with
  | [hash_str; index_str] =>
      tx_hash ← map_err (fun _ => "invalid string input for McTxHash"%string) (McTxHash_from_str hash_str);
      index ← map_err (fun _ => "invalid string input for OutputIndex"%string) (UtxoIndex_from_str index_str);
      Ok (mkUtxoId tx_hash index)
  | _ => Err "UtxoId string must conform to format: '<hash>#<index>'"%string
  end.
Definition UtxoId_display (u : UtxoId) : str :=
  hex_display (tx_hash u) ++ HASH_SIGN :: dec_display (index u).

Definition wf_UtxoId (u : UtxoId) : Prop :=
  wf_bytes (tx_hash u) /\ length (tx_hash u) = 32%nat /\ in_width 16 (index u).

Lemma split_on_no_sep c s : c ∉ s -> split_on c s = [s].
Proof.
  induction s as [|x s IH]; simpl; [done|]. rewrite not_elem_of_cons. intros [Hx Hs].
  rewrite decide_False by done. by rewrite IH.
Qed.

Lemma split_on_app c s t : c ∉ s -> split_on c (s ++ c :: t) = s :: split_on c t.
Proof.
  induction s as [|x s IH]; simpl; [by rewrite decide_True|].
  rewrite not_elem_of_cons. intros [Hx Hs]. rewrite decide_False by done. by rewrite IH.
Qed.

(** The ten digits, by cases. *)
Lemma digit_cases (P : Z -> Prop) d :
  0 <= d < 10 -> P 0 -> P 1 -> P 2 -> P 3 -> P 4 -> P 5 -> P 6 -> P 7 -> P 8 -> P 9 -> P d.
Proof.
  intros Hd. intros. assert (d ∈ [0;1;2;3;4;5;6;7;8;9]) as Hin by (rewrite !elem_of_cons; lia).
  repeat (apply elem_of_cons in Hin as [->|Hin]; [done|]). by apply not_elem_of_nil in Hin.
Qed.

Lemma to_digit_from_digit d : 0 <= d < 10 -> to_digit (from_digit d) = Some d.
Proof. intros Hd. by apply (digit_cases (fun d => to_digit (from_digit d) = Some d)). Qed.

Lemma from_digit_not c d :
  0 <= d < 10 -> to_digit c = None -> from_digit d <> c.
Proof. intros Hd Hc <-. by rewrite to_digit_from_digit in Hc. Qed.

Lemma dec_aux_digits fuel n acc c :
  0 <= n -> to_digit c = None -> c ∉ acc -> c ∉ dec_aux fuel n acc.
Proof.
  revert n acc; induction fuel as [|f IH]; intros n acc Hn Hc Ha; simpl; [done|].
  destruct (Z.ltb_spec n 10); rewrite ?not_elem_of_cons.
  - split; [|done]. intros ->. by apply (from_digit_not _ _ (conj Hn H0) Hc).
  - apply IH; [by apply Z.div_pos; lia|done|]. rewrite not_elem_of_cons. split; [|done].
    intros ->. apply (from_digit_not _ (n mod 10)) in Hc; [done|]. by apply Z.mod_pos_bound.
Qed.

(** Parsing the printed number gives it back, or overflows. *)
Lemma parse_dec_aux max fuel n acc :
  0 <= max -> 0 <= n < 10 ^ Z.of_nat fuel -> (0 < fuel)%nat ->
  parse_positive max 0 (dec_aux fuel n acc) =
    if n <=? max then parse_positive max n acc else Err PosOverflow.
Proof.
  intros Hmax. revert n acc; induction fuel as [|f IH]; intros n acc Hn Hf; [lia|].
  rewrite Nat2Z.inj_succ, Z.pow_succ_r in Hn by lia. cbn [dec_aux].
  destruct (Z.ltb_spec n 10).
  - cbn [parse_positive]. rewrite to_digit_from_digit by lia.
    rewrite (proj2 (Z.ltb_ge max (0 * 10))) by lia.
    replace (0 * 10 + n) with n by lia.
    destruct (Z.leb_spec n max), (Z.ltb_spec max n); try done; lia.
  - assert (f <> 0)%nat by (intros ->; simpl in Hn; lia).
    pose proof (Z_div_mod_eq_full n 10). pose proof (Z.mod_pos_bound n 10 ltac:(lia)).
    rewrite IH by (first [lia | split; [apply Z.div_pos; lia | apply Z.div_lt_upper_bound; lia]]).
    cbn [parse_positive]. rewrite to_digit_from_digit by done.
    replace (n / 10 * 10 + n mod 10) with n by lia.
    destruct (Z.leb_spec (n / 10) max), (Z.leb_spec n max), (Z.ltb_spec max (n / 10 * 10)),
      (Z.ltb_spec max n); try done; lia.
Qed.

Lemma dec_aux_nonempty f n acc : dec_aux (S f) n acc <> [].
Proof.
  revert n acc; induction f as [|f IH]; intros n acc; cbn [dec_aux].
  - by destruct (n <? 10).
  - destruct (n <? 10); [done|]. apply IH.
Qed.

Lemma int_from_str_dec_display signed min max n :
  0 <= max -> 0 <= n < 10 ^ 40 ->
  int_from_str signed min max (dec_display n) = if n <=? max then Ok n else Err PosOverflow.
Proof.
  intros Hmax Hn.
  pose proof (parse_dec_aux max 40 n [] Hmax Hn ltac:(lia)) as Hp.
  assert (PLUS ∉ dec_display n) as H1 by (apply dec_aux_digits; [lia|done|apply not_elem_of_nil]).
  assert (MINUS ∉ dec_display n) as H2 by (apply dec_aux_digits; [lia|done|apply not_elem_of_nil]).
  fold (dec_display n) in Hp. destruct (dec_display n) as [|c s] eqn:Hs.
  { by apply (dec_aux_nonempty 39 n []) in Hs. }
  apply not_elem_of_cons in H1 as [H1 _], H2 as [H2 _]. unfold int_from_str.
  rewrite !bool_decide_eq_false_2 by congruence. exact Hp.
Qed.

Context `{!HexCodecLaws}.

(** An output index parses back exactly in its documented range [[0, 2^15-1]]. *)
Lemma UtxoIndex_from_str_display i :
  in_width 16 i ->
  UtxoIndex_from_str (dec_display i) = if i <? 2 ^ 15 then Ok i else Err PosOverflow.
Proof.
  unfold in_width. intros Hi. unfold UtxoIndex_from_str, u16_from_str, i16_from_str.
  rewrite !int_from_str_dec_display by (unfold max_value; lia).
  unfold max_value. destruct (Z.leb_spec i (2 ^ 16 - 1)), (Z.leb_spec i (2 ^ 15 - 1)),
    (Z.ltb_spec i (2 ^ 15)); try lia; done.
Qed.

(** The textual form of a UTXO id parses back exactly when its index is below
    2^15, the documented range of an output index; beyond it parsing fails. *)
Lemma UtxoId_from_str_display u :
  wf_UtxoId u ->
  UtxoId_from_str (UtxoId_display u) =
    if index u <? 2 ^ 15 then Ok u else Err "invalid string input for OutputIndex"%string.
Proof.
  intros (Hb & Hl & Hi). unfold UtxoId_from_str, UtxoId_display.
  rewrite split_on_app by apply hex_display_no_hash.
  rewrite split_on_no_sep
    by (apply dec_aux_digits; [unfold in_width in Hi; lia|done|apply not_elem_of_nil]).
  rewrite UtxoIndex_from_str_display by done.
  unfold McTxHash_from_str, ByteString.decode_hex. rewrite from_hex_display by done.
  unfold to_array. destruct u as [h i]; cbn - [Z.ltb Z.pow]. rewrite decide_True by done.
  by destruct (i <? 2 ^ 15).
Qed.

End Text.

(** Identifiers survive their textual form: a UTXO id prints as [hash#index] and parses
    back to itself exactly when its index is in the documented range below 2^15 (beyond it
    parsing fails), and every byte string type reads back its hexadecimal form. *)
Theorem identifier_text_round_trip `{HexCodecLaws} :
  (forall u, wf_UtxoId u -> UtxoId_from_str (UtxoId_display u) =
    if index u <? 2 ^ 15 then Ok u else Err "invalid string input for OutputIndex"%string) /\
  (forall ty bs, ByteString.wf ty bs -> ByteString.hex_deserialize ty (ByteString.hex_serialize bs) = Ok bs /\
    ByteString.decode_hex ty (ByteString.to_hex_string bs) = Ok bs).
Proof. split; [apply UtxoId_from_str_display | apply ByteString.hex_round_trip]. Qed.
