(* ===== verification/Sql.v ===== *)
(** * Relational queries

    The operations of SQL that the queries of
    [toolkit/mainchain-follower/db-sync-follower/src/db_model.rs] are made of, on tables that
    are lists of rows, and how sums go through them. A comparison with a null is not true. *)

From S2P Require Import Prelude.
#[local] Open Scope list_scope.

Section Operations.
Context {A B : Type}.
(** [INNER JOIN r ON on]. *)
Definition inner_join (on : A -> B -> bool) (l : list A) (r : list B) : list (A * B) :=
  l ≫= fun a => map (pair a) (List.filter (on a) r).
(** [LEFT JOIN r ON on]: a row without a partner is kept, with nulls. *)
Definition left_join (on : A -> B -> bool) (l : list A) (r : list B) : list (A * option B) :=
  l ≫= fun a => match List.filter (on a) r with
                | [] => [(a, None)]
                | bs => map (fun b => (a, Some b)) bs
                end.
(** [GROUP BY key]; the order of the groups is unspecified. *)
Definition group_by `{EqDecision B} (key : A -> B) (l : list A) : list (B * list A) :=
  map (fun k => (k, List.filter (fun x => bool_decide (key x = k)) l)) (remove_dups (map key l)).
End Operations.

(** A condition on a nullable column. *)
Definition sql_true {A} (p : A -> bool) (column : option A) : bool :=
  match column with Some a => p a | None => false end.

(** ** Sums *)
Definition sum_of {A} (f : A -> Z) (l : list A) : Z := sum_list (map f l).
(** [COALESCE(SUM(column), 0)]: nulls are skipped. *)
Definition sql_sum {A} (column : A -> option Z) (l : list A) : Z := sum_of (fun a => default 0 (column a)) l.

Section Sums.
Context {A : Type}.
Implicit Types (f g : A -> Z) (l : list A).

Lemma sum_of_cons f x l : sum_of f (x :: l) = f x + sum_of f l.
Proof. done. Qed.
Lemma sum_of_app f l k : sum_of f (l ++ k) = sum_of f l + sum_of f k.
Proof. unfold sum_of. by rewrite map_app, sum_list_app. Qed.
Lemma sum_of_ext f g l : (forall x, x ∈ l -> f x = g x) -> sum_of f l = sum_of g l.
Proof.
  induction l as [|x l IH]; intros Hfg; [done|]. rewrite !sum_of_cons, IH by (intros; apply Hfg; by right).
  by rewrite Hfg by left.
Qed.
Lemma sum_of_zero f l : (forall x, x ∈ l -> f x = 0) -> sum_of f l = 0.
Proof. intros Hf. rewrite (sum_of_ext f (fun _ => 0) l Hf). clear Hf. by induction l as [|x l IH]; [|rewrite sum_of_cons, IH]. Qed.
Lemma sum_of_plus f g l : sum_of (fun x => f x + g x) l = sum_of f l + sum_of g l.
Proof. induction l as [|x l IH]; [done|]. rewrite !sum_of_cons. lia. Qed.
Lemma sum_of_nonneg f l : (forall x, x ∈ l -> 0 <= f x) -> 0 <= sum_of f l.
Proof.
  intros Hf. unfold sum_of. apply sum_list_nonneg, Forall_forall. intros y Hy.
  apply list_elem_of_In, in_map_iff in Hy as (x & <- & Hx). by apply Hf, list_elem_of_In.
Qed.
Lemma sum_of_le f g l : (forall x, x ∈ l -> f x <= g x) -> sum_of f l <= sum_of g l.
Proof.
  induction l as [|x l IH]; intros Hfg; [done|]. rewrite !sum_of_cons.
  pose proof (Hfg x ltac:(left)). specialize (IH (fun y Hy => Hfg y (list_elem_of_further _ _ _ Hy))). lia.
Qed.
Lemma sum_of_filter f (p : A -> bool) l : sum_of f (List.filter p l) = sum_of (fun x => if p x then f x else 0) l.
Proof. induction l as [|x l IH]; [done|]. cbn [List.filter]. rewrite sum_of_cons. destruct (p x); rewrite ?sum_of_cons; lia. Qed.
Lemma sum_of_filter_le f (p q : A -> bool) l :
  (forall x, x ∈ l -> 0 <= f x) -> (forall x, x ∈ l -> p x = true -> q x = true) ->
  sum_of f (List.filter p l) <= sum_of f (List.filter q l).
Proof.
  intros Hf Hpq. rewrite !sum_of_filter. apply sum_of_le. intros x Hx. specialize (Hf x Hx). specialize (Hpq x Hx).
  destruct (p x), (q x); [lia | by specialize (Hpq eq_refl) | lia..].
Qed.

Lemma sum_of_elem_le f l x : (forall y, y ∈ l -> 0 <= f y) -> x ∈ l -> f x <= sum_of f l.
Proof.
  intros Hf Hx. apply list_elem_of_split in Hx as (k & l' & ->). rewrite sum_of_app, sum_of_cons.
  assert (0 <= sum_of f k) by (apply sum_of_nonneg; intros; apply Hf, elem_of_app; by left).
  assert (0 <= sum_of f l') by (apply sum_of_nonneg; intros; apply Hf, elem_of_app; right; by right). lia.
Qed.

(** A sum with one summand that counts. *)
Lemma sum_of_single f l x :
  NoDup l -> x ∈ l -> (forall y, y ∈ l -> y <> x -> f y = 0) -> sum_of f l = f x.
Proof.
  induction 1 as [|y l Hy Hl IH]; intros Hx Hf; [by apply elem_of_nil in Hx|]. rewrite sum_of_cons.
  apply elem_of_cons in Hx as [->|Hx].
  - rewrite (sum_of_zero f l); [lia|]. intros z Hz. apply Hf; [by right|]. by intros ->.
  - rewrite IH by (done || (intros; apply Hf; [by right | done])).
    rewrite (Hf y) by (left || by intros ->). done.
Qed.
End Sums.

Lemma sum_of_bind {A B} (f : B -> Z) (g : A -> list B) l :
  sum_of f (l ≫= g) = sum_of (fun a => sum_of f (g a)) l.
Proof. induction l as [|x l IH]; [done|]. cbn [mbind list_bind]. rewrite sum_of_app, sum_of_cons. by f_equal. Qed.
Lemma sum_of_map {A B} (f : B -> Z) (g : A -> B) l : sum_of f (map g l) = sum_of (fun a => f (g a)) l.
Proof. unfold sum_of. by rewrite map_map. Qed.

(** *** Exchanging sums *)
Lemma sum_pull {A B} la lb (f : A -> B -> Z) :
  sum_of (fun a => sum_of (fun b => f a b) lb) la = sum_of (fun b => sum_of (fun a => f a b) la) lb.
Proof.
  induction la as [|a l IH]; [symmetry; by apply sum_of_zero|].
  rewrite sum_of_cons, IH, <- sum_of_plus. done.
Qed.
Lemma sum_pull2 {A B C} la lb lc (f : A -> B -> C -> Z) :
  sum_of (fun a => sum_of (fun b => sum_of (fun c => f a b c) lc) lb) la =
  sum_of (fun c => sum_of (fun a => sum_of (fun b => f a b c) lb) la) lc.
Proof.
  rewrite <- (sum_pull la lc (fun a c => sum_of (fun b => f a b c) lb)).
  apply sum_of_ext. intros a _. apply sum_pull.
Qed.
Lemma sum_pull3 {A B C D} la lb lc ld (f : A -> B -> C -> D -> Z) :
  sum_of (fun a => sum_of (fun b => sum_of (fun c => sum_of (fun d => f a b c d) ld) lc) lb) la =
  sum_of (fun d => sum_of (fun a => sum_of (fun b => sum_of (fun c => f a b c d) lc) lb) la) ld.
Proof.
  rewrite <- (sum_pull la ld (fun a d => sum_of (fun b => sum_of (fun c => f a b c d) lc) lb)).
  apply sum_of_ext. intros a _. apply sum_pull2.
Qed.
Lemma sum_pull4 {A B C D E} la lb lc ld le (f : A -> B -> C -> D -> E -> Z) :
  sum_of (fun a => sum_of (fun b => sum_of (fun c => sum_of (fun d => sum_of (fun e => f a b c d e) le) ld) lc) lb) la =
  sum_of (fun e => sum_of (fun a => sum_of (fun b => sum_of (fun c => sum_of (fun d => f a b c d e) ld) lc) lb) la) le.
Proof.
  rewrite <- (sum_pull la le (fun a e => sum_of (fun b => sum_of (fun c => sum_of (fun d => f a b c d e) ld) lc) lb)).
  apply sum_of_ext. intros a _. apply sum_pull3.
Qed.

(** *** Sums over joins *)
Section Joins.
Context {A B : Type} (on : A -> B -> bool) (l : list A) (r : list B).

Lemma sum_inner_join (f : A * B -> Z) :
  sum_of f (inner_join on l r) = sum_of (fun a => sum_of (fun b => if on a b then f (a, b) else 0) r) l.
Proof.
  unfold inner_join. rewrite sum_of_bind. apply sum_of_ext. intros a _. by rewrite sum_of_map, sum_of_filter.
Qed.

(** When rows without a partner do not count. *)
Lemma sum_left_join (f : A * option B -> Z) :
  (forall a, f (a, None) = 0) ->
  sum_of f (left_join on l r) = sum_of (fun a => sum_of (fun b => if on a b then f (a, Some b) else 0) r) l.
Proof.
  intros Hf. unfold left_join. rewrite sum_of_bind. apply sum_of_ext. intros a _.
  rewrite <- (sum_of_filter (fun b => f (a, Some b))). destruct (List.filter (on a) r) as [|b bs].
  - rewrite sum_of_cons, Hf. done.
  - by rewrite sum_of_map.
Qed.

(** Joining a table with at most one partner per row leaves a sum over the left alone. *)
Lemma sum_left_join_unique (f : A -> Z) :
  (forall a b b', b ∈ r -> b' ∈ r -> on a b = true -> on a b' = true -> b = b') -> NoDup r ->
  sum_of (fun x => f (fst x)) (left_join on l r) = sum_of f l.
Proof.
  intros Hon Hnd. unfold left_join. rewrite sum_of_bind. apply sum_of_ext. intros a _.
  assert (NoDup (List.filter (on a) r)) as Hnd' by by apply NoDup_ListNoDup, List.NoDup_filter, NoDup_ListNoDup.
  assert (forall b, b ∈ List.filter (on a) r -> b ∈ r /\ on a b = true) as Hin.
  { intros b Hb%list_elem_of_In%filter_In. by rewrite <- list_elem_of_In in Hb. }
  destruct (List.filter (on a) r) as [|b [|b' bs]]; [unfold sum_of; cbn; lia..|].
  exfalso. apply NoDup_cons in Hnd' as [Hb _]. apply Hb. destruct (Hin b) as [? ?]; [left|].
  destruct (Hin b') as [? ?]; [right; left|]. rewrite (Hon a b b') by done. left.
Qed.

Lemma elem_of_left_join a : (exists b, (a, b) ∈ left_join on l r) <-> a ∈ l.
Proof.
  unfold left_join. setoid_rewrite list_elem_of_bind. split.
  - intros (b & a' & Hin & Ha'). destruct (List.filter (on a') r) as [|b' bs].
    + apply list_elem_of_singleton in Hin. by simplify_eq.
    + apply list_elem_of_In, in_map_iff in Hin as (? & [= <- _] & _). done.
  - intros Ha. destruct (List.filter (on a) r) as [|b bs] eqn:Hf.
    + exists None, a. rewrite Hf. split; [left|done].
    + exists (Some b), a. rewrite Hf. split; [left|done].
Qed.
End Joins.

(** A column without duplicates is a key. *)
Lemma NoDup_key {A K} (key : A -> K) l x y : NoDup (map key l) -> x ∈ l -> y ∈ l -> key x = key y -> x = y.
Proof.
  induction l as [|z l IH]; cbn; [by intros _ ?%elem_of_nil|]. intros [Hz Hl]%NoDup_cons.
  assert (forall w, w ∈ l -> key w <> key z) as Hne.
  { intros w Hw Heq. apply Hz. rewrite <- Heq. by apply list_elem_of_fmap_2. }
  intros [->|Hx]%elem_of_cons [->|Hy]%elem_of_cons Heq; [done | by edestruct Hne | by edestruct Hne | by apply IH].
Qed.

Lemma NoDup_map_filter {A K} (key : A -> K) (p : A -> bool) l : NoDup (map key l) -> NoDup (map key (List.filter p l)).
Proof.
  induction l as [|x l IH]; cbn; [done|]. intros [Hx Hl]%NoDup_cons. destruct (p x); [|by apply IH]. cbn.
  apply NoDup_cons. split; [|by apply IH]. intros (y & Hy & [Hin _]%list_elem_of_In%filter_In)%list_elem_of_fmap.
  apply Hx. rewrite Hy. apply (list_elem_of_fmap_2 key), list_elem_of_In, Hin.
Qed.

(** ** Groups *)
Section Groups.
Context {A K : Type} `{EqDecision K} (key : A -> K) (l : list A).
Lemma group_by_keys : map fst (group_by key l) = remove_dups (map key l).
Proof. unfold group_by. rewrite map_map. apply map_id. Qed.
Lemma elem_of_group_by k rows :
  (k, rows) ∈ group_by key l <->
    rows = List.filter (fun x => bool_decide (key x = k)) l /\ exists x, x ∈ l /\ key x = k.
Proof.
  unfold group_by. rewrite list_elem_of_In, in_map_iff. split.
  - intros (k' & [= -> <-] & Hk%list_elem_of_In). rewrite elem_of_remove_dups in Hk.
    apply list_elem_of_In, in_map_iff in Hk as (x & Hx & Hin). split; [done|]. exists x.
    by rewrite list_elem_of_In.
  - intros (-> & x & Hx & Hk). exists k. split; [done|]. apply list_elem_of_In. rewrite elem_of_remove_dups.
    apply list_elem_of_In, in_map_iff. exists x. by rewrite <- list_elem_of_In.
Qed.
End Groups.

(** ** Joins on a key *)
Section KeyJoins.
Context {A B : Type} (on : A -> B -> bool) (l : list A) (r : list B).
Context (on_unique : forall a b b', a ∈ l -> b ∈ r -> b' ∈ r -> on a b = true -> on a b' = true -> b = b').
Context (r_nodup : NoDup r).

Lemma filter_find a : a ∈ l -> List.filter (on a) r = option_list (List.find (on a) r).
Proof.
  intros Ha. assert (NoDup (List.filter (on a) r)) as Hnd by by apply NoDup_ListNoDup, List.NoDup_filter, NoDup_ListNoDup.
  assert (forall b, b ∈ List.filter (on a) r <-> b ∈ r /\ on a b = true) as Hin
    by (intros; by rewrite !list_elem_of_In, filter_In).
  assert (List.find (on a) r = head (List.filter (on a) r)) as ->.
  { clear. induction r as [|b r' IH]; [done|]. cbn. by destruct (on a b). }
  destruct (List.filter (on a) r) as [|b [|b' bs]]; [done..|]. exfalso. apply NoDup_cons in Hnd as [Hb _]. apply Hb.
  destruct (proj1 (Hin b) ltac:(left)) as [? ?]. destruct (proj1 (Hin b') ltac:(right; left)) as [? ?].
  rewrite (on_unique a b b') by done. left.
Qed.

Lemma left_join_key : left_join on l r = map (fun a => (a, List.find (on a) r)) l.
Proof.
  pose proof filter_find as Hf. clear on_unique. unfold left_join.
  induction l as [|a l' IH]; [done|]. rewrite bind_cons, Hf by left.
  assert (forall x, x ∈ l' -> List.filter (on x) r = option_list (List.find (on x) r)) as Hf' by (intros; apply Hf; by right).
  rewrite (IH Hf'). cbn. by destruct (List.find (on a) r).
Qed.

Lemma inner_join_key : inner_join on l r = omap (fun a => option_map (pair a) (List.find (on a) r)) l.
Proof.
  pose proof filter_find as Hf. clear on_unique. unfold inner_join.
  induction l as [|a l' IH]; [done|]. rewrite bind_cons, Hf by left.
  assert (forall x, x ∈ l' -> List.filter (on x) r = option_list (List.find (on x) r)) as Hf' by (intros; apply Hf; by right).
  rewrite (IH Hf'). cbn. by destruct (List.find (on a) r).
Qed.
End KeyJoins.

(** Looking a row up by its key. *)
Lemma find_key {A K} (key : A -> K) (p : A -> bool) (k : K) l x :
  NoDup (map key l) -> (forall y, p y = true <-> key y = k) -> List.find p l = Some x <-> x ∈ l /\ key x = k.
Proof.
  intros Hnd Hp. split.
  - intros [Hx Hpx]%List.find_some. by rewrite list_elem_of_In, <- Hp.
  - intros [Hx Hk]. destruct (List.find p l) as [y|] eqn:Hf.
    + apply List.find_some in Hf as [Hy Hpy]. f_equal. apply (NoDup_key key l); [done | by apply list_elem_of_In | done |].
      apply Hp in Hpy. congruence.
    + apply List.find_none with (x := x) in Hf; [|by apply list_elem_of_In]. apply Hp in Hk. congruence.
Qed.
Lemma find_key_None {A K} (key : A -> K) (p : A -> bool) (k : K) l :
  (forall y, p y = true <-> key y = k) -> List.find p l = None <-> forall x, x ∈ l -> key x <> k.
Proof.
  intros Hp. split.
  - intros Hf x Hx Hk. apply List.find_none with (x := x) in Hf; [|by apply list_elem_of_In]. apply Hp in Hk. congruence.
  - intros Hno. destruct (List.find p l) as [x|] eqn:Hf; [|done]. apply List.find_some in Hf as [Hx Hpx].
    apply list_elem_of_In in Hx. apply Hp in Hpx. by destruct (Hno x Hx).
Qed.

(** Rows that come in blocks with a key each. *)
Lemma group_by_blocks {A B K} `{EqDecision K} (key : B -> K) (k : A -> K) (f : A -> list B) l :
  NoDup (map k l) -> (forall a, a ∈ l -> f a <> []) -> (forall a b, a ∈ l -> b ∈ f a -> key b = k a) ->
  group_by key (l ≫= f) = map (fun a => (k a, f a)) l.
Proof.
  intros Hnd Hne Hk.
  assert (remove_dups (map key (l ≫= f)) = map k l) as Hkeys.
  { induction l as [|a l IH]; [done|]. apply NoDup_cons in Hnd as [Ha Hnd]. rewrite bind_cons. cbn [map].
    assert (k a ∉ map key (l ≫= f)) as Hout.
    { intros (b & Hb & (a' & Hin & Ha')%list_elem_of_bind)%list_elem_of_fmap. apply Ha.
      rewrite Hb, (Hk a' b) by (done || by right). by apply list_elem_of_fmap_2. }
    pose proof (Hne a ltac:(left)) as Hfa. pose proof (fun b => Hk a b ltac:(left)) as Hka. rewrite map_app.
    rewrite <- IH by (done || (intros; apply Hne; by right) || (intros; apply Hk; [by right | done])).
    clear Hne Hk IH Hnd Ha. induction (f a) as [|b bs IHb]; [done|]. cbn. rewrite (Hka b) by left. destruct bs as [|b' bs].
    - cbn. by destruct (decide_rel _ _ _).
    - destruct (decide_rel _ _ _) as [_|Hnin]; [apply IHb; [done | intros; apply Hka; by right]|]. exfalso. apply Hnin.
      apply elem_of_app. left. cbn. rewrite (Hka b') by (right; left). left. }
  unfold group_by. rewrite Hkeys, map_map. apply map_ext_in. intros a Ha%list_elem_of_In. f_equal.
  clear Hkeys. induction l as [|a' l IH]; [by apply elem_of_nil in Ha|]. apply NoDup_cons in Hnd as [Ha' Hnd].
  rewrite bind_cons, List.filter_app.
  assert (forall x, x ∈ a' :: l -> x <> a -> k x <> k a) as Hneq.
  { intros x Hx Hxa Heq. apply Hxa. apply (NoDup_key k (a' :: l)); [by constructor | done | done | done]. }
  assert (forall x bs, (forall b, b ∈ bs -> key b = k x) -> k x = k a -> List.filter (fun y => bool_decide (key y = k a)) bs = bs) as Hall.
  { intros x bs Hbs Hx. induction bs as [|b bs IHb]; [done|]. cbn. rewrite bool_decide_eq_true_2 by (rewrite Hbs by left; done).
    f_equal. apply IHb. intros; apply Hbs; by right. }
  assert (forall bs, (forall b, b ∈ bs -> key b <> k a) -> List.filter (fun y => bool_decide (key y = k a)) bs = []) as Hnone.
  { intros bs Hbs. induction bs as [|b bs IHb]; [done|]. cbn. rewrite bool_decide_eq_false_2 by (apply Hbs; left).
    apply IHb. intros; apply Hbs; by right. }
  apply elem_of_cons in Ha as [->|Ha].
  - rewrite (Hall a') by (done || (intros; apply Hk; [left | done])). rewrite Hnone; [apply app_nil_r|].
    intros b (x & Hb & Hx)%list_elem_of_bind. rewrite (Hk x b) by (done || by right). apply Hneq; [by right|]. intros ->.
    apply Ha'. by apply list_elem_of_fmap_2.
  - rewrite Hnone; [cbn; apply IH; [done | intros; apply Hne; by right | intros; apply Hk; [by right | done] | done]|].
    intros b Hb. rewrite (Hk a' b) by (left || done). intros Heq. apply Ha'. rewrite Heq. by apply list_elem_of_fmap_2.
Qed.

(** ** Rearranging row pipelines *)
Section Pipelines.
Context {A B C : Type}.
Lemma omap_pointwise (f g : A -> option B) (l : list A) : (forall a, f a = g a) -> omap f l = omap g l.
Proof. intros Hfg. induction l as [|a l IH]; [done|]. cbn. rewrite Hfg. destruct (g a); cbn; by rewrite <- IH. Qed.
Lemma omap_omap (f : A -> option B) (g : B -> option C) (l : list A) : omap g (omap f l) = omap (fun a => option_bind _ _ g (f a)) l.
Proof. induction l as [|a l IH]; [done|]. cbn. destruct (f a); cbn; by rewrite <- IH. Qed.
Lemma map_omap (f : A -> option B) (g : B -> C) (l : list A) : map g (omap f l) = omap (fun a => option_map g (f a)) l.
Proof. induction l as [|a l IH]; [done|]. cbn. destruct (f a); cbn; by rewrite <- IH. Qed.
Lemma map_bind (f : A -> list B) (g : B -> C) l : map g (l ≫= f) = l ≫= fun a => map g (f a).
Proof. induction l as [|a l IH]; [done|]. by rewrite !bind_cons, map_app, IH. Qed.
(** A condition that is the same for the rows of a block. *)
Lemma filter_bind (f : A -> list B) (p : B -> bool) (q : A -> bool) l :
  (forall a b, a ∈ l -> b ∈ f a -> p b = q a) -> List.filter p (l ≫= f) = List.filter q l ≫= f.
Proof.
  induction l as [|a l IH]; intros Hpq; [done|]. rewrite bind_cons, List.filter_app. cbn [List.filter].
  rewrite IH by (intros; apply Hpq; [by right | done]).
  assert (forall b, b ∈ f a -> p b = q a) as Ha by (intros; apply Hpq; [left | done]). clear Hpq IH.
  destruct (q a).
  - rewrite bind_cons. f_equal. induction (f a) as [|b bs IHb]; [done|]. cbn. rewrite Ha by left.
    f_equal. apply IHb. intros; apply Ha; by right.
  - induction (f a) as [|b bs IHb]; [done|]. cbn. rewrite Ha by left. apply IHb. intros; apply Ha; by right.
Qed.
Lemma NoDup_map_coarser (f : A -> B) (g : A -> C) l :
  NoDup (map f l) -> (forall x y, x ∈ l -> y ∈ l -> g x = g y -> f x = f y) -> NoDup (map g l).
Proof.
  induction l as [|a l IH]; cbn; [constructor|]. intros [Ha Hl]%NoDup_cons Hfg. apply NoDup_cons. split.
  - intros (b & Hb & Hin)%list_elem_of_fmap. apply Ha. rewrite (Hfg a b) by (left || by right || done). by apply list_elem_of_fmap_2.
  - apply IH; [done|]. intros; apply Hfg; [by right | by right | done].
Qed.
End Pipelines.

(** Decoding all rows, in any order. *)
Lemma collect_results_omap {E A B} (f : A -> result E B) l ys :
  collect_results f l = Ok ys <-> (forall x, x ∈ l -> exists y, f x = Ok y) /\ ys = omap (fun x => ok (f x)) l.
Proof.
  rewrite collect_results_Ok. split.
  - induction 1 as [|x y l ys Hxy _ [IH1 ->]]; [split; [by intros x ?%elem_of_nil | done]|]. split.
    + intros z [->|Hz]%elem_of_cons; [by exists y | by apply IH1].
    + cbn. by rewrite Hxy.
  - intros [Hall ->]. induction l as [|x l IH]; [constructor|]. destruct (Hall x ltac:(left)) as [y Hy]. cbn. rewrite Hy. cbn.
    constructor; [done|]. apply IH. intros; apply Hall; by right.
Qed.
Lemma collect_results_perm {E A B} (f : A -> result E B) l l' ys :
  l ≡ₚ l' -> collect_results f l = Ok ys -> exists ys', collect_results f l' = Ok ys' /\ ys ≡ₚ ys'.
Proof.
  intros Hp [Hall ->]%collect_results_omap. exists (omap (fun x => ok (f x)) l'). split; [|by rewrite Hp].
  apply collect_results_omap. split; [|done]. intros x Hx. apply Hall. by rewrite Hp.
Qed.
Lemma find_perm {A K} (key : A -> K) (p : A -> bool) (k : K) l l' :
  NoDup (map key l) -> (forall y, p y = true <-> key y = k) -> l ≡ₚ l' -> List.find p l = List.find p l'.
Proof.
  intros Hnd Hp Hperm. assert (NoDup (map key l')) as Hnd' by by rewrite <- Hperm.
  destruct (List.find p l) as [x|] eqn:Hf; symmetry.
  - apply (find_key key p k) in Hf as [Hx Hk]; [|done..]. apply (find_key key p k); [done..|]. by rewrite <- Hperm.
  - rewrite (find_key_None key p k) in Hf |- * by done. intros x Hx. apply Hf. by rewrite Hperm.
Qed.
(** A column that rows keep when they are translated. *)
Lemma NoDup_omap_key {A B K} (f : A -> K) (g : A -> option B) (h : B -> K) l :
  NoDup (map f l) -> (forall x y, g x = Some y -> h y = f x) -> NoDup (map h (omap g l)).
Proof.
  intros Hnd Hg. induction l as [|x l IH]; cbn; [constructor|]. cbn in Hnd. apply NoDup_cons in Hnd as [Hx Hnd].
  specialize (IH Hnd). destruct (g x) as [y|] eqn:Hy; [|done]. cbn. apply NoDup_cons. split; [|done].
  intros (z & Hz & (x' & Hx' & Hgz)%list_elem_of_omap)%list_elem_of_fmap. apply Hx.
  rewrite <- (Hg x y Hy), Hz, (Hg x' z Hgz). by apply list_elem_of_fmap_2.
Qed.
