(* ===== verification/McEpoch.v ===== *)
(** * Main chain epochs, slots and timestamps

    [toolkit/primitives/domain/src/mainchain_epoch.rs]: the configuration of a
    main chain and the derivation of its epochs and slots from timestamps and
    back. Timestamps and durations are [u64] milliseconds, slots [u64], epoch
    numbers [u32]. *)

From S2P Require Import Prelude Domain.

Record MainchainEpochConfig := mkMainchainEpochConfig {
  first_epoch_timestamp_millis : Z;
  epoch_duration_millis : Z;
  first_epoch_number : Z;
  first_slot_number : Z
}.

Inductive EpochDerivationError := TimestampTooSmall | EpochTooBig | EpochTooSmall | SlotTooSmall.
#[export] Instance EpochDerivationError_eq_dec : EqDecision EpochDerivationError.
Proof. solve_decision. Defined.

(** What one asks of a derivation, [trait MainchainEpochDerivation]. *)
Class MainchainEpochDerivation (C : Type) := {
  epochs_passed : C -> Z -> fallible EpochDerivationError Z;
  timestamp_to_mainchain_epoch : C -> Z -> fallible EpochDerivationError McEpochNumber;
  timestamp_to_mainchain_slot_number : C -> Z -> fallible EpochDerivationError Z;
  mainchain_epoch_to_timestamp : C -> McEpochNumber -> Z;
  first_slot_of_epoch : C -> McEpochNumber -> fallible EpochDerivationError McSlotNumber;
  epoch_for_slot : C -> McSlotNumber -> fallible EpochDerivationError McEpochNumber
}.

Definition slots_per_epoch (c : MainchainEpochConfig) : Z := epoch_duration_millis c / 1000.

Definition config_epochs_passed (c : MainchainEpochConfig) (timestamp : Z)
    : fallible EpochDerivationError Z :=
  time_elapsed ←? lift (ok_or (checked_sub timestamp (first_epoch_timestamp_millis c)) TimestampTooSmall);
  quotient ←? run (checked_div time_elapsed (epoch_duration_millis c));
  res ←? lift (ok_or (try_into_width 32 quotient) EpochTooBig);
  if max_value 31 <? res then Done (Err EpochTooBig) else Done (Ok res).

Definition config_timestamp_to_mainchain_epoch (c : MainchainEpochConfig) (timestamp : Z)
    : fallible EpochDerivationError McEpochNumber :=
  epochs_passed ←? config_epochs_passed c timestamp;
  Done (Ok (saturating_add 32 (first_epoch_number c) epochs_passed)).

Definition config_timestamp_to_mainchain_slot_number (c : MainchainEpochConfig) (timestamp : Z)
    : fallible EpochDerivationError Z :=
  time_elapsed ←? lift (ok_or (checked_sub timestamp (first_epoch_timestamp_millis c)) TimestampTooSmall);
  let mainchain_slot_duration := 1000 in
  Done (Ok (first_slot_number c +[64] time_elapsed / mainchain_slot_duration)).

Definition config_mainchain_epoch_to_timestamp (c : MainchainEpochConfig) (epoch : McEpochNumber) : Z :=
  let time_elapsed := epoch_duration_millis c *[64] epoch in
  first_epoch_timestamp_millis c +[64] time_elapsed.

Definition config_first_slot_of_epoch (c : MainchainEpochConfig) (epoch : McEpochNumber)
    : fallible EpochDerivationError McSlotNumber :=
  epochs_since_first_epoch ←? lift (ok_or (checked_sub epoch (first_epoch_number c)) EpochTooSmall);
  let slots_since_first_epoch := epochs_since_first_epoch *[64] slots_per_epoch c in
  Done (Ok (slots_since_first_epoch +[64] first_slot_number c)).

Definition config_epoch_for_slot (c : MainchainEpochConfig) (slot : McSlotNumber)
    : fallible EpochDerivationError McEpochNumber :=
  slots_since_first_slot ←? lift (ok_or (checked_sub slot (first_slot_number c)) SlotTooSmall);
  quotient ←? run (checked_div slots_since_first_slot (slots_per_epoch c));
  epochs_since_first_epoch ←? lift (ok_or (try_into_width 32 quotient) EpochTooBig);
  Done (Ok (first_epoch_number c +[32] epochs_since_first_epoch)).

#[export] Instance MainchainEpochConfig_derivation : MainchainEpochDerivation MainchainEpochConfig := {
  epochs_passed := config_epochs_passed;
  timestamp_to_mainchain_epoch := config_timestamp_to_mainchain_epoch;
  timestamp_to_mainchain_slot_number := config_timestamp_to_mainchain_slot_number;
  mainchain_epoch_to_timestamp := config_mainchain_epoch_to_timestamp;
  first_slot_of_epoch := config_first_slot_of_epoch;
  epoch_for_slot := config_epoch_for_slot
}.

Record wf_config (c : MainchainEpochConfig) : Prop := {
  wf_timestamp : in_width 64 (first_epoch_timestamp_millis c);
  wf_duration : in_width 64 (epoch_duration_millis c);
  wf_epoch : in_width 32 (first_epoch_number c);
  wf_slot : in_width 64 (first_slot_number c);
  wf_second : 1000 <= epoch_duration_millis c
}.

Ltac unfold_derivation :=
  cbn [epochs_passed timestamp_to_mainchain_epoch timestamp_to_mainchain_slot_number
       mainchain_epoch_to_timestamp first_slot_of_epoch epoch_for_slot
       MainchainEpochConfig_derivation] in *;
  unfold config_epochs_passed, config_timestamp_to_mainchain_epoch,
    config_timestamp_to_mainchain_slot_number, config_mainchain_epoch_to_timestamp,
    config_first_slot_of_epoch, config_epoch_for_slot, bind_fallible, lift, run, ok_or,
    checked_div in *.

Section Config.
Context (c : MainchainEpochConfig) (Hc : wf_config c).

Lemma slots_per_epoch_pos : 1 <= slots_per_epoch c.
Proof. destruct Hc. unfold slots_per_epoch. apply Z.div_le_lower_bound; lia. Qed.

(** The epochs passed since the first one, on every branch. *)
Lemma epochs_passed_spec t :
  in_width 64 t ->
  epochs_passed c t = Done (
    if t <? first_epoch_timestamp_millis c then Err TimestampTooSmall
    else let n := (t - first_epoch_timestamp_millis c) / epoch_duration_millis c in
         if n <? 2 ^ 31 then Ok n else Err EpochTooBig).
Proof.
  intros Ht. destruct Hc. unfold_derivation. unfold checked_sub.
  destruct (Z.ltb_spec t (first_epoch_timestamp_millis c)).
  { by rewrite (proj2 (Z.leb_gt _ _)). }
  rewrite (proj2 (Z.leb_le _ _)) by done.
  rewrite (proj2 (Z.eqb_neq _ _)) by lia. cbn zeta.
  set (n := _ / _). assert (0 <= n) by (apply Z.div_pos; lia).
  unfold try_into_width, max_value. rewrite (proj2 (Z.leb_le 0 n)) by done. cbn [andb].
  destruct (Z.ltb_spec n (2 ^ 32)), (Z.ltb_spec n (2 ^ 31)); try lia; try done;
    destruct (Z.ltb_spec (2 ^ 31 - 1) n); lia || done.
Qed.

(** [epoch_for_slot] on every branch. *)
Lemma epoch_for_slot_spec s :
  epoch_for_slot c s = Done (
    if s <? first_slot_number c then Err SlotTooSmall
    else let n := (s - first_slot_number c) / slots_per_epoch c in
         if n <? 2 ^ 32 then Ok (first_epoch_number c +[32] n) else Err EpochTooBig).
Proof.
  pose proof slots_per_epoch_pos. unfold_derivation. unfold checked_sub.
  destruct (Z.ltb_spec s (first_slot_number c)).
  { by rewrite (proj2 (Z.leb_gt _ _)). }
  rewrite (proj2 (Z.leb_le _ _)) by done.
  rewrite (proj2 (Z.eqb_neq _ _)) by lia. cbn zeta.
  set (n := _ / slots_per_epoch c). assert (0 <= n) by (apply Z.div_pos; lia).
  unfold try_into_width. rewrite (proj2 (Z.leb_le 0 n)) by done. cbn [andb].
  by destruct (n <? 2 ^ 32).
Qed.

(** [first_slot_of_epoch] on every branch, where the slot number fits. *)
Lemma first_slot_of_epoch_spec e :
  in_width 64 ((e - first_epoch_number c) * slots_per_epoch c + first_slot_number c) ->
  first_slot_of_epoch c e = Done (
    if e <? first_epoch_number c then Err EpochTooSmall
    else Ok ((e - first_epoch_number c) * slots_per_epoch c + first_slot_number c)).
Proof.
  intros He. pose proof slots_per_epoch_pos. destruct Hc as [_ _ _ Hs _]. unfold_derivation.
  unfold checked_sub. destruct (Z.ltb_spec e (first_epoch_number c)).
  { by rewrite (proj2 (Z.leb_gt _ _)). }
  rewrite (proj2 (Z.leb_le _ _)) by done. unfold in_width in *.
  rewrite wrapping_mul_small by (split; nia). by rewrite wrapping_add_small.
Qed.

End Config.

(** ** Round trips *)

(** The slots of an epoch are exactly the [slots_per_epoch] slots from its first
    one on: [first_slot_of_epoch] and [epoch_for_slot] are inverse to each other, as
    long as the slot numbers fit [u64]. *)
Theorem epoch_for_slot_iff c e a s :
  wf_config c -> in_width 32 e ->
  in_width 64 ((e - first_epoch_number c) * slots_per_epoch c + first_slot_number c) ->
  first_slot_of_epoch c e = Done (Ok a) ->
  (epoch_for_slot c s = Done (Ok e) <-> a <= s < a + slots_per_epoch c).
Proof.
  intros Hc He Hfit Ha. pose proof (slots_per_epoch_pos c Hc) as Hpos.
  rewrite first_slot_of_epoch_spec in Ha by done.
  destruct (Z.ltb_spec e (first_epoch_number c)) as [|Hle]; [done|]. inv_result.
  rewrite epoch_for_slot_spec by done. destruct Hc as [_ _ Hep Hsl _]. unfold in_width in *.
  set (d := slots_per_epoch c) in *. set (f := first_epoch_number c) in *.
  set (s0 := first_slot_number c) in *. cbn zeta.
  destruct (Z.ltb_spec s s0); [split; [done | nia]|].
  pose proof (Z_div_mod_eq_full (s - s0) d). pose proof (Z.mod_pos_bound (s - s0) d ltac:(lia)).
  set (n := (s - s0) / d) in *. assert (0 <= n) by (apply Z.div_pos; lia).
  split.
  - destruct (Z.ltb_spec n (2 ^ 32)); [|done]. intros [= Heq].
    unfold wrapping_add, wrap in Heq. destruct (Z.lt_ge_cases (f + n) (2 ^ 32)).
    + rewrite (Z.mod_small (f + n)) in Heq by lia. nia.
    + rewrite <- (Z.mod_unique (f + n) (2 ^ 32) 1 (f + n - 2 ^ 32)) in Heq by lia. lia.
  - intros Hs. assert (n = e - f) as -> by nia.
    rewrite (proj2 (Z.ltb_lt _ _)) by lia. do 2 f_equal. rewrite wrapping_add_small; unfold in_width; lia.
Qed.

(** The two ways to find the epoch of a moment agree: the epoch of the slot of a
    timestamp is the epoch of the timestamp, when an epoch is a whole number of seconds
    and the numbers do not saturate. *)
Theorem epoch_of_slot_of_timestamp c t e s :
  wf_config c -> in_width 64 t -> epoch_duration_millis c mod 1000 = 0 ->
  in_width 64 (first_slot_number c + t / 1000) ->
  timestamp_to_mainchain_epoch c t = Done (Ok e) -> e < max_value 32 ->
  timestamp_to_mainchain_slot_number c t = Done (Ok s) ->
  epoch_for_slot c s = Done (Ok e).
Proof.
  intros Hc Ht Hd Hfit Htime Hmax Hslot. cbn in Htime. unfold config_timestamp_to_mainchain_epoch in Htime.
  pose proof (epochs_passed_spec c Hc t Ht) as Hp. cbn [epochs_passed MainchainEpochConfig_derivation] in Hp.
  rewrite Hp in Htime. clear Hp. pose proof (slots_per_epoch_pos c Hc) as Hpos.
  destruct (Z.ltb_spec t (first_epoch_timestamp_millis c)) as [|Hle]; [done|]. cbn zeta in Htime.
  destruct (Z.ltb_spec ((t - first_epoch_timestamp_millis c) / epoch_duration_millis c) (2 ^ 31)) as [Hn|];
    [|done].
  cbn [bind_fallible] in Htime. inv_result.
  unfold_derivation. unfold checked_sub in *. rewrite (proj2 (Z.leb_le _ _)) in Hslot by done. inv_result.
  destruct Hc as [Ht0 Hdur Hep Hsl Hsec]. unfold slots_per_epoch in *. unfold in_width in *.
  set (t0 := first_epoch_timestamp_millis c) in *. set (d := epoch_duration_millis c) in *.
  set (f := first_epoch_number c) in *. set (s0 := first_slot_number c) in *.
  assert ((t - t0) / 1000 <= t / 1000) by (apply Z.div_le_mono; lia).
  assert (0 <= (t - t0) / 1000) by (apply Z.div_pos; lia).
  rewrite (wrapping_add_small 64) by (unfold in_width; lia).
  rewrite (proj2 (Z.leb_le s0 _)), (proj2 (Z.eqb_neq (d / 1000) 0)) by lia.
  replace (s0 + (t - t0) / 1000 - s0) with ((t - t0) / 1000) by lia.
  assert ((t - t0) / 1000 / (d / 1000) = (t - t0) / d) as ->.
  { rewrite Z.div_div by lia. f_equal. pose proof (Z_div_mod_eq_full d 1000). lia. }
  assert (0 <= (t - t0) / d) by (apply Z.div_pos; lia).
  unfold try_into_width. rewrite (proj2 (Z.leb_le 0 _)), (proj2 (Z.ltb_lt _ (2 ^ 32))) by lia.
  unfold saturating_add, max_value in *. cbn [andb]. rewrite Z.min_r by lia.
  by rewrite wrapping_add_small by (unfold in_width; lia).
Qed.

(** [mainchain_epoch_to_timestamp] leaves [first_epoch_number] out: going from an
    epoch to its timestamp and back adds the number of the first epoch, so the two
    functions are inverse only for a chain whose first epoch is number 0. *)
Theorem epoch_to_timestamp_shifts c e :
  wf_config c -> in_width 31 e ->
  in_width 64 (first_epoch_timestamp_millis c + epoch_duration_millis c * e) ->
  first_epoch_number c + e < 2 ^ 32 ->
  timestamp_to_mainchain_epoch c (mainchain_epoch_to_timestamp c e) =
    Done (Ok (first_epoch_number c + e)).
Proof.
  intros Hc He Hfit Hsum. pose proof Hc as [Ht0 Hdur Hep _ Hsec]. unfold in_width in *.
  assert (mainchain_epoch_to_timestamp c e = first_epoch_timestamp_millis c + epoch_duration_millis c * e) as ->.
  { cbn. unfold config_mainchain_epoch_to_timestamp.
    rewrite wrapping_mul_small, wrapping_add_small; unfold in_width; nia. }
  cbn. unfold config_timestamp_to_mainchain_epoch.
  pose proof (epochs_passed_spec c Hc _ Hfit) as Hp. cbn [epochs_passed MainchainEpochConfig_derivation] in Hp.
  rewrite Hp. rewrite (proj2 (Z.ltb_ge _ _)) by nia. cbn zeta.
  rewrite Z.add_simpl_l, (Z.mul_comm _ e), Z.div_mul by lia.
  rewrite (proj2 (Z.ltb_lt _ _)) by lia. cbn [bind_fallible].
  unfold saturating_add, max_value. by rewrite Z.min_r by lia.
Qed.

(** The configuration of the preprod testnet. *)
Definition preprod : MainchainEpochConfig :=
  mkMainchainEpochConfig 1655798400000 432000000 4 86400.

Lemma preprod_wf : wf_config preprod.
Proof. constructor; unfold in_width; cbn; lia. Qed.

Lemma epoch_for_slot_iff_witness :
  epoch_for_slot preprod 518400 = Done (Ok 5) <-> 518400 <= 518400 < 518400 + slots_per_epoch preprod.
Proof.
  apply (epoch_for_slot_iff preprod 5 518400 518400 preprod_wf);
    [unfold in_width; lia | unfold in_width; vm_compute; intuition discriminate | reflexivity].
Defined.

Lemma epoch_of_slot_of_timestamp_witness :
  epoch_for_slot preprod 648000 = Done (Ok 5).
Proof.
  apply (epoch_of_slot_of_timestamp preprod 1656360000000 5 648000 preprod_wf);
    solve [reflexivity | unfold in_width; vm_compute; intuition discriminate].
Defined.

Lemma epoch_to_timestamp_shifts_witness :
  timestamp_to_mainchain_epoch preprod (mainchain_epoch_to_timestamp preprod 5) = Done (Ok 9).
Proof.
  apply (epoch_to_timestamp_shifts preprod 5 preprod_wf);
    solve [reflexivity | unfold in_width; vm_compute; intuition discriminate].
Defined.
