(* ===== verification/Slots.v ===== *)
(** * Partner chain slots and epochs

    [toolkit/primitives/sidechain-slots]: epochs of a fixed number of slots; the
    [sidechain] pallet, which notices that an epoch has started; and the
    [sidechain_getStatus] RPC, which reports both chains' epochs.

    [Slot] of [sp_consensus_slots] is third-party: [SlotOps] states its documented
    behaviour. Dispatch weights are not modelled. *)

From S2P Require Import Prelude Domain McEpoch.

Class SlotOps := {
  Slot_from_timestamp : Z -> Z -> outcome Z;
  Slot_timestamp : Z -> Z -> option Z
}.
Class SlotOpsLaws `{SlotOps} : Prop := {
  Slot_from_timestamp_spec : forall t d, 0 < d -> Slot_from_timestamp t d = Done (t / d);
  Slot_timestamp_spec : forall s d, 0 <= s -> 0 <= d ->
    Slot_timestamp s d = if s * d <? 2 ^ 64 then Some (s * d) else None
}.

(** ** Epochs of slots *)
Module Slots.
Definition default_slots_per_epoch : Z := 60.

Definition epoch_number (slot slots_per_epoch : Z) : outcome ScEpochNumber :=
  checked_div slot slots_per_epoch.
Definition first_slot_number (epoch : ScEpochNumber) (slots_per_epoch : Z) : Z :=
  epoch *[64] slots_per_epoch.
Definition slot_number_in_epoch (slot slots_per_epoch : Z) : outcome Z :=
  if slots_per_epoch =? 0 then Panic else expect (try_into_width 32 (slot mod slots_per_epoch)).
Definition is_last_slot_of_an_epoch (slot slots_per_epoch : Z) : outcome bool :=
  n ← slot_number_in_epoch slot slots_per_epoch; Done (n =? slots_per_epoch -[32] 1).

Record ScSlotConfig := mkScSlotConfig { slots_per_epoch : Z; slot_duration : Z }.

Section Config.
Context `{SlotOps}.
Definition config_epoch_number (c : ScSlotConfig) (slot : Z) : outcome ScEpochNumber :=
  epoch_number slot (slots_per_epoch c).
Definition config_first_slot_number (c : ScSlotConfig) (epoch : ScEpochNumber) : Z :=
  first_slot_number epoch (slots_per_epoch c).
Definition slot_from_timestamp (c : ScSlotConfig) (timestamp : Z) : outcome Z :=
  Slot_from_timestamp timestamp (slot_duration c).
Definition epoch_start_time (c : ScSlotConfig) (epoch : ScEpochNumber) : option Z :=
  Slot_timestamp (config_first_slot_number c epoch) (slot_duration c).
End Config.

Lemma epoch_number_pos s spe : 0 < spe -> epoch_number s spe = Done (s / spe).
Proof. intros. unfold epoch_number, checked_div. by rewrite (proj2 (Z.eqb_neq _ _)) by lia. Qed.

Lemma slot_number_in_epoch_pos s spe :
  0 < spe < 2 ^ 32 -> slot_number_in_epoch s spe = Done (s mod spe).
Proof.
  intros Hspe. unfold slot_number_in_epoch. rewrite (proj2 (Z.eqb_neq _ _)) by lia.
  pose proof (Z.mod_pos_bound s spe ltac:(lia)).
  by rewrite (proj2 (try_into_width_Some 32 _ (s mod spe))) by (unfold in_width; lia).
Qed.

Lemma first_slot_number_small e spe :
  in_width 64 (e * spe) -> first_slot_number e spe = e * spe.
Proof. apply wrapping_mul_small. Qed.
End Slots.

(** Slots and epochs fit together: with at least one slot per epoch nothing panics;
    a slot's epoch is the one whose first slot is at most it and whose next epoch starts
    after it, its position is counted from that first slot, and it is the last slot of
    an epoch exactly when the next slot belongs to the next epoch. *)
Theorem slots_of_epoch s spe :
  in_width 64 s -> 0 < spe < 2 ^ 32 ->
  exists e n b, Slots.epoch_number s spe = Done e /\ Slots.slot_number_in_epoch s spe = Done n /\
    Slots.is_last_slot_of_an_epoch s spe = Done b /\
    Slots.first_slot_number e spe + n = s /\ 0 <= n < spe /\
    Slots.epoch_number (Slots.first_slot_number e spe) spe = Done e /\
    (b = true <-> Slots.epoch_number (s + 1) spe = Done (e + 1)).
Proof.
  intros Hs Hspe. unfold in_width in Hs.
  exists (s / spe), (s mod spe), (s mod spe =? spe - 1).
  unfold Slots.is_last_slot_of_an_epoch.
  rewrite Slots.slot_number_in_epoch_pos, !Slots.epoch_number_pos by lia. simpl_monad.
  pose proof (Z_div_mod_eq_full s spe). pose proof (Z.mod_pos_bound s spe ltac:(lia)).
  assert (0 <= s / spe) by (apply Z.div_pos; lia).
  rewrite Slots.first_slot_number_small by (unfold in_width; nia).
  assert (spe -[32] 1 = spe - 1) as -> by (apply wrap_small; unfold in_width; lia).
  split_and!; try done; try lia.
  - f_equal. by apply Z.div_mul; lia.
  - rewrite Z.eqb_eq. split.
    + intros Hl. f_equal. symmetry. apply (Z.div_unique _ _ _ 0); lia.
    + intros [= He]. pose proof (Z_div_mod_eq_full (s + 1) spe).
      pose proof (Z.mod_pos_bound (s + 1) spe ltac:(lia)). rewrite He in *. lia.
Qed.

(** ** The sidechain pallet *)
Module SidechainPallet.
Record State := mkState {
  EpochNumber : option ScEpochNumber;
  SlotsPerEpoch : Z;
  GenesisUtxo : UtxoId
}.
Record GenesisConfig := mkGenesisConfig { genesis_utxo : UtxoId; genesis_slots_per_epoch : Z }.
(** Storage before genesis holds the defaults. *)
Definition build (g : GenesisConfig) : State := mkState None (genesis_slots_per_epoch g) (genesis_utxo g).

Definition current_epoch_number (st : State) (current_slot : ScSlotNumber) : outcome ScEpochNumber :=
  Slots.epoch_number current_slot (SlotsPerEpoch st).

(** [T::OnNewEpoch] on a tuple calls its parts in order. [R] is the state they change. *)
Definition OnNewEpoch (R : Type) : Type := ScEpochNumber -> ScEpochNumber -> R -> R.
Definition on_new_epoch_tuple {R} (hooks : list (OnNewEpoch R)) : OnNewEpoch R := fun old new r =>
  foldl (fun r hook => hook old new r) r hooks.

Definition on_initialize {R} (on_new_epoch : OnNewEpoch R) (current_slot : ScSlotNumber) (st : State) (r : R)
    : outcome (State * R) :=
  real_epoch ← current_epoch_number st current_slot;
  match EpochNumber st with
  | Some saved_epoch =>
      if saved_epoch =? real_epoch then Done (st, r)
      else Done (mkState (Some real_epoch) (SlotsPerEpoch st) (GenesisUtxo st), on_new_epoch saved_epoch real_epoch r)
  | None => Done (mkState (Some real_epoch) (SlotsPerEpoch st) (GenesisUtxo st), r)
  end.

Record SidechainStatus := mkSidechainStatus { epoch : ScEpochNumber; slot : ScSlotNumber; status_slots_per_epoch : Z }.
(** [get_sidechain_status] of the runtime. *)
Definition get_sidechain_status (st : State) (current_slot : ScSlotNumber) : outcome SidechainStatus :=
  e ← current_epoch_number st current_slot; Done (mkSidechainStatus e current_slot (SlotsPerEpoch st)).

(** A chain of blocks at the given slots; the hook records its calls. *)
Definition log_call : OnNewEpoch (list (ScEpochNumber * ScEpochNumber)) := fun old new log => log ++ [(old, new)].
Fixpoint run_blocks (slots : list ScSlotNumber) (st : State) (log : list (ScEpochNumber * ScEpochNumber))
    : outcome (State * list (ScEpochNumber * ScEpochNumber)) :=
  match slots with
  | [] => Done (st, log)
  | s :: slots' => '(st, log) ← on_initialize log_call s st log; run_blocks slots' st log
  end.

(** [log] leads from epoch [e] to epoch [e'], each entry a strict increase. *)
Fixpoint chain (e : ScEpochNumber) (log : list (ScEpochNumber * ScEpochNumber)) (e' : ScEpochNumber) : Prop :=
  match log with
  | [] => e = e'
  | (a, b) :: log' => a = e /\ a < b /\ chain b log' e'
  end.

Lemma chain_app e log e' a b : chain e log e' -> e' = a -> a < b -> chain e (log ++ [(a, b)]) b.
Proof.
  revert e; induction log as [|[x y] log IH]; intros e; cbn; [intros; lia|].
  intros (-> & ? & Hc) ? ?. split_and!; [done..|]. by apply IH.
Qed.

Lemma run_blocks_chain slots s0 e0 st log :
  0 < SlotsPerEpoch st -> StronglySorted Z.le (s0 :: slots) ->
  EpochNumber st = Some (s0 / SlotsPerEpoch st) -> chain e0 log (s0 / SlotsPerEpoch st) ->
  exists log', run_blocks slots st log =
      Done (mkState (Some (List.last slots s0 / SlotsPerEpoch st)) (SlotsPerEpoch st) (GenesisUtxo st), log') /\
    chain e0 log' (List.last slots s0 / SlotsPerEpoch st).
Proof.
  revert s0 st log; induction slots as [|s slots IH]; intros s0 st log Hpos Hs He Hc.
  { exists log. cbn. split; [|done]. destruct st; cbn in *. by rewrite He. }
  inversion Hs as [|? ? Hs' Hall]; subst. inversion Hall as [|? ? Hle _]; subst.
  cbn [run_blocks]. unfold on_initialize, current_epoch_number.
  rewrite Slots.epoch_number_pos, He by done. simpl_monad.
  assert (s0 / SlotsPerEpoch st <= s / SlotsPerEpoch st) by (apply Z.div_le_mono; lia).
  assert (List.last (s :: slots) s0 = List.last slots s) as Hlast.
  { clear. revert s s0; induction slots as [|t l IH]; intros s s0; [done|].
    transitivity (List.last (t :: l) s0); [done|]. by rewrite !IH. }
  rewrite Hlast. destruct (Z.eqb_spec (s0 / SlotsPerEpoch st) (s / SlotsPerEpoch st)) as [Heq|Hne]; simpl_monad.
  - apply IH; [done | done | congruence | by rewrite <- Heq].
  - set (st' := mkState _ _ _). change (SlotsPerEpoch st) with (SlotsPerEpoch st').
    change (GenesisUtxo st) with (GenesisUtxo st'). apply (IH s st'); try done.
    cbn. unfold log_call. eapply chain_app; [exact Hc | done | lia].
Qed.
End SidechainPallet.

(** C40: Over any chain of blocks at non-decreasing slots, from genesis: the pallet ends
    with the epoch of the last slot stored, and the calls it made to [OnNewEpoch] lead in
    strictly increasing steps from the epoch of the first block to that of the last, none
    missing in between, none repeated. *)
Theorem epochs_are_announced_in_order g s slots :
  0 < SidechainPallet.genesis_slots_per_epoch g -> StronglySorted Z.le (s :: slots) ->
  exists st log, SidechainPallet.run_blocks (s :: slots) (SidechainPallet.build g) [] = Done (st, log) /\
    SidechainPallet.EpochNumber st =
      Some (List.last slots s / SidechainPallet.genesis_slots_per_epoch g) /\
    SidechainPallet.chain (s / SidechainPallet.genesis_slots_per_epoch g) log
      (List.last slots s / SidechainPallet.genesis_slots_per_epoch g).
Proof.
  intros Hpos Hs. set (spe := SidechainPallet.genesis_slots_per_epoch g) in *.
  set (st0 := SidechainPallet.mkState (Some (s / spe)) spe (SidechainPallet.genesis_utxo g)).
  destruct (SidechainPallet.run_blocks_chain slots s (s / spe) st0 []) as (log & Hrun & Hc); try done.
  exists (SidechainPallet.mkState (Some (List.last slots s / spe)) spe (SidechainPallet.genesis_utxo g)), log.
  split; [|done].
  cbn [SidechainPallet.run_blocks]. unfold SidechainPallet.on_initialize, SidechainPallet.current_epoch_number.
  cbn [SidechainPallet.build SidechainPallet.SlotsPerEpoch SidechainPallet.EpochNumber SidechainPallet.GenesisUtxo].
  rewrite Slots.epoch_number_pos by done. simpl_monad. exact Hrun.
Qed.

(** ** [sidechain_getStatus] *)
Module Rpc.
Record SidechainData := mkSidechainData { sc_epoch : Z; sc_slot : Z; sc_next_epoch_timestamp : Z }.
Record MainchainData := mkMainchainData { mc_epoch : Z; mc_slot : Z; mc_next_epoch_timestamp : Z }.
Record GetStatusResponse := mkGetStatusResponse { sidechain : SidechainData; mainchain : MainchainData }.
Inductive GetStatusRpcError :=
| ApiFailure | CannotConvertSidechainSlotToTimestamp | CannotConvertTimestampToMainchainData | InternalError.

Section GetStatus.
Context `{SlotOps}.
(** [slot_config] is what the runtime API returns at the best block, [latest_block] what
    the data source does, and [now] the time source's current time. *)
Definition get_status (mc_epoch_config : MainchainEpochConfig) (slot_config : result string Slots.ScSlotConfig)
    (latest_block : result string MainchainBlock) (now : Z) : fallible GetStatusRpcError GetStatusResponse :=
  slot_config ←? lift (map_err (fun _ => ApiFailure) slot_config);
  current_sidechain_slot ←? run (Slots.slot_from_timestamp slot_config now);
  current_sidechain_epoch ←? run (Slots.config_epoch_number slot_config current_sidechain_slot);
  next_sidechain_epoch_timestamp ←? lift (ok_or
    (Slots.epoch_start_time slot_config (ScEpochNumber_next current_sidechain_epoch))
    CannotConvertSidechainSlotToTimestamp);
  latest_mainchain_block ←? lift (map_err (fun _ => InternalError) latest_block);
  let next_mainchain_epoch_timestamp :=
    mainchain_epoch_to_timestamp mc_epoch_config (McEpochNumber_next (mb_epoch latest_mainchain_block)) in
  Done (Ok (mkGetStatusResponse
    (mkSidechainData current_sidechain_epoch current_sidechain_slot next_sidechain_epoch_timestamp)
    (mkMainchainData (mb_epoch latest_mainchain_block) (mb_slot latest_mainchain_block)
       next_mainchain_epoch_timestamp))).
End GetStatus.
End Rpc.

Module ConcreteSlot.
#[export] Instance slot_ops : SlotOps := {|
  Slot_from_timestamp t d := checked_div t d;
  Slot_timestamp s d := if s * d <? 2 ^ 64 then Some (s * d) else None
|}.
#[export] Instance slot_ops_laws : SlotOpsLaws.
Proof. split; [|done]. intros t d Hd. cbn. by apply Slots.epoch_number_pos. Qed.
End ConcreteSlot.

(** [sidechain_getStatus] answers with the current partner chain epoch, whose next
    epoch starts strictly after now and at most an epoch later; but the main chain's
    "next epoch timestamp" is [first_epoch_number] epochs too late, since
    [mainchain_epoch_to_timestamp] counts from epoch 0. *)
Theorem get_status_timestamps `{SlotOpsLaws} c sc block now :
  wf_config c -> in_width 64 now -> 0 < Slots.slot_duration sc -> 0 < Slots.slots_per_epoch sc ->
  (now / Slots.slot_duration sc / Slots.slots_per_epoch sc + 1) *
    Slots.slots_per_epoch sc * Slots.slot_duration sc < 2 ^ 64 ->
  first_epoch_number c <= mb_epoch block < max_value 32 ->
  in_width 64 (first_epoch_timestamp_millis c + epoch_duration_millis c * (mb_epoch block + 1)) ->
  exists r, Rpc.get_status c (Ok sc) (Ok block) now = Done (Ok r) /\
    now < Rpc.sc_next_epoch_timestamp (Rpc.sidechain r) <=
      now + Slots.slots_per_epoch sc * Slots.slot_duration sc /\
    Rpc.mc_next_epoch_timestamp (Rpc.mainchain r) =
      first_epoch_timestamp_millis c + epoch_duration_millis c * (mb_epoch block + 1 - first_epoch_number c)
      + epoch_duration_millis c * first_epoch_number c.
Proof.
  intros Hc Hnow Hd Hspe Hfit Hb Hts. destruct Hc as [Ht0 Hdur Hep _ Hsec]. unfold in_width in *.
  set (d := Slots.slot_duration sc) in *. set (spe := Slots.slots_per_epoch sc) in *.
  pose proof (Z_div_mod_eq_full now d). pose proof (Z.mod_pos_bound now d Hd).
  pose proof (Z_div_mod_eq_full (now / d) spe). pose proof (Z.mod_pos_bound (now / d) spe Hspe).
  assert (0 <= now / d) by (apply Z.div_pos; lia). assert (0 <= now / d / spe) by (apply Z.div_pos; lia).
  assert (ScEpochNumber_next (now / d / spe) = now / d / spe + 1) as Hn.
  { apply wrapping_add_small. unfold in_width. nia. }
  unfold Rpc.get_status, Slots.slot_from_timestamp, Slots.config_epoch_number, Slots.epoch_start_time,
    Slots.config_first_slot_number. simpl_monad. fold d spe.
  rewrite Slot_from_timestamp_spec by done. simpl_monad. rewrite Slots.epoch_number_pos by done. simpl_monad.
  rewrite Hn, Slots.first_slot_number_small by (unfold in_width; nia).
  rewrite Slot_timestamp_spec by nia. rewrite (proj2 (Z.ltb_lt _ _)) by nia. simpl_monad.
  eexists. split; [done|]. cbn [Rpc.sidechain Rpc.mainchain Rpc.sc_next_epoch_timestamp Rpc.mc_next_epoch_timestamp].
  split; [nia|]. unfold max_value in Hb. cbn [mainchain_epoch_to_timestamp MainchainEpochConfig_derivation].
  unfold config_mainchain_epoch_to_timestamp, McEpochNumber_next.
  rewrite (wrapping_add_small 32), wrapping_mul_small, wrapping_add_small by (unfold in_width; nia). lia.
Qed.

Section Witnesses.
Import ConcreteSlot.
Lemma slots_of_epoch_witness :
  exists e n b, Slots.epoch_number 119 60 = Done e /\ Slots.slot_number_in_epoch 119 60 = Done n /\
    Slots.is_last_slot_of_an_epoch 119 60 = Done b /\
    Slots.first_slot_number e 60 + n = 119 /\ 0 <= n < 60 /\
    Slots.epoch_number (Slots.first_slot_number e 60) 60 = Done e /\
    (b = true <-> Slots.epoch_number (119 + 1) 60 = Done (e + 1)).
Proof. apply slots_of_epoch; [unfold in_width; lia | lia]. Defined.

#[local] Definition genesis := SidechainPallet.mkGenesisConfig (mkUtxoId [] 0) 60.
Lemma epochs_are_announced_in_order_witness :
  exists st log, SidechainPallet.run_blocks (30 :: [59; 60; 200]) (SidechainPallet.build genesis) [] = Done (st, log) /\
    SidechainPallet.EpochNumber st =
      Some (List.last [59; 60; 200] 30 / SidechainPallet.genesis_slots_per_epoch genesis) /\
    SidechainPallet.chain (30 / SidechainPallet.genesis_slots_per_epoch genesis) log
      (List.last [59; 60; 200] 30 / SidechainPallet.genesis_slots_per_epoch genesis).
Proof. apply epochs_are_announced_in_order; [cbn; lia | repeat constructor; lia]. Defined.

#[local] Definition some_block := mkMainchainBlock 100 [] 30 12000000 1667000000.
#[local] Definition some_config := Slots.mkScSlotConfig 60 6000.
Lemma get_status_timestamps_witness :
  exists r, Rpc.get_status preprod (Ok some_config) (Ok some_block) 1667000000000 = Done (Ok r) /\
    1667000000000 < Rpc.sc_next_epoch_timestamp (Rpc.sidechain r) <=
      1667000000000 + Slots.slots_per_epoch some_config * Slots.slot_duration some_config /\
    Rpc.mc_next_epoch_timestamp (Rpc.mainchain r) =
      first_epoch_timestamp_millis preprod + epoch_duration_millis preprod * (mb_epoch some_block + 1 - first_epoch_number preprod)
      + epoch_duration_millis preprod * first_epoch_number preprod.
Proof.
  apply get_status_timestamps; first [exact preprod_wf | unfold in_width; vm_compute; intuition discriminate].
Defined.
End Witnesses.
