(* ===== verification/BlockSearch.v ===== *)
(** * Finding a partner chain block by epoch or slot

    [toolkit/primitives/sidechain-block-search]: a binary search over block
    numbers whose probes ask the runtime for a block's slot and epoch. Block
    numbers are [u32]. The client (headers and runtime API) is third-party: it
    is the record [Client], and [chain_view] states what one relies on. *)

From S2P Require Import Prelude Domain Slots.

(** ** [binary_search_by] *)
Section BinarySearch.
Context {E : Type} (f : Z -> result E comparison).

(** One step of the [while] loop per unit of fuel. The outer [None] means that the fuel
    is used up; the inner option is what the function returns. *)
Fixpoint binary_search_loop (fuel : nat) (left right : Z) : option (option Z) :=
  if left <=? right then
    match fuel with
    | O => None
    | S fuel =>
        let middle := (left +[32] right) / 2 in
        match f middle with
        | Err _ => Some None
        | Ok Eq => Some (Some middle)
        | Ok Lt => binary_search_loop fuel (middle +[32] 1) right
        | Ok Gt => binary_search_loop fuel left (middle -[32] 1)
        end
    end
  else Some None.

Definition binary_search_by (fuel : nat) (start end_ : Z) : option (option Z) :=
  binary_search_loop fuel start end_.

Lemma middle_spec left right :
  1 <= left <= right -> right < 2 ^ 31 ->
  exists m, (left +[32] right) / 2 = m /\ left <= m <= right /\ (m = right -> left = right) /\
    m +[32] 1 = m + 1 /\ m -[32] 1 = m - 1 /\ 2 * (m - left) <= right - left /\
    2 * (right - m) <= right - left + 1.
Proof.
  intros. exists ((left + right) / 2). rewrite wrapping_add_small by (unfold in_width; lia).
  pose proof (Z_div_mod_eq_full (left + right) 2). pose proof (Z.mod_pos_bound (left + right) 2 ltac:(lia)).
  split_and!; try lia; apply wrap_small; unfold in_width; lia.
Qed.

(** The range is halved in every step, and the result is a match. *)
Lemma binary_search_terminates fuel left right :
  1 <= left -> right < 2 ^ 31 -> right - left + 1 < 2 ^ Z.of_nat fuel ->
  exists o, binary_search_loop fuel left right = Some o /\
    forall m, o = Some m -> f m = Ok Eq /\ left <= m <= right.
Proof.
  revert left right; induction fuel as [|fuel IH]; intros left right Hl Hr Hf;
    cbn [binary_search_loop]; destruct (Z.leb_spec left right); try by eexists.
  { change (2 ^ Z.of_nat 0) with 1 in Hf. lia. }
  rewrite Nat2Z.inj_succ, Z.pow_succ_r in Hf by lia.
  destruct (middle_spec left right) as (m & -> & Hm & _ & -> & -> & H1 & H2); [lia..|].
  destruct (f m) as [[]|] eqn:Hfm; [| | |by eexists].
  - exists (Some m). split; [done|]. intros ? [= <-]. done.
  - destruct (IH (m + 1) right) as (o & Ho & Hs); [lia..|]. exists o. split; [done|].
    intros k Hk. apply Hs in Hk as [? ?]. split; [done|lia].
  - destruct (IH left (m - 1)) as (o & Ho & Hs); [lia..|]. exists o. split; [done|].
    intros k Hk. apply Hs in Hk as [? ?]. split; [done|lia].
Qed.

(** If [t] matches, what is below is not greater and what is above, short of the end of
    the range, is not less, then a match is found. The end itself may be an error. *)
Lemma binary_search_finds fuel left right bound t :
  1 <= left <= t -> t <= right <= bound -> bound < 2 ^ 31 -> t < bound ->
  right - left + 1 < 2 ^ Z.of_nat fuel ->
  f t = Ok Eq ->
  (forall m, left <= m < t -> f m = Ok Lt \/ f m = Ok Eq) ->
  (forall m, t < m < bound -> f m = Ok Gt \/ f m = Ok Eq) ->
  exists m, binary_search_loop fuel left right = Some (Some m) /\ f m = Ok Eq /\ left <= m < bound.
Proof.
  revert left right; induction fuel as [|fuel IH]; intros left right Hl Hr Hb Ht Hf Heq Hlo Hhi;
    cbn [binary_search_loop]; rewrite (proj2 (Z.leb_le _ _)) by lia.
  { change (2 ^ Z.of_nat 0) with 1 in Hf. lia. }
  rewrite Nat2Z.inj_succ, Z.pow_succ_r in Hf by lia.
  destruct (middle_spec left right) as (m & -> & Hm & Hend & -> & -> & H1 & H2); [lia..|].
  destruct (Z.lt_trichotomy m t) as [Hmt|[->|Hmt]].
  - destruct (Hlo m) as [->| Hfm]; [lia| |rewrite Hfm; exists m; split; [done|]; split; [done|lia]].
    destruct (IH (m + 1) right) as (k & -> & Hk & ?); try done; [lia..| |].
    { intros; apply Hlo; lia. }
    exists k. split_and!; [done|done|lia..].
  - rewrite Heq. exists t. split_and!; [done|done|lia..].
  - destruct (Hhi m) as [->| Hfm]; [lia| |rewrite Hfm; exists m; split; [done|]; split; [done|lia]].
    destruct (IH left (m - 1)) as (k & -> & Hk & ?); try done; [lia..|].
    exists k. split_and!; [done|done|lia..].
Qed.
End BinarySearch.

(** ** The client *)
Inductive ApiError := UnknownBlock (block_number : Z) | Application (msg : string) | ClientFailure (msg : string).

Record Client := mkClient {
  best_number : Z;
  hash : Z -> result ApiError (option bytes);
  runtime_get_sidechain_status : bytes -> result ApiError SidechainPallet.SidechainStatus
}.

Definition get_slot_of_block (c : Client) (block_number : Z) : result ApiError ScSlotNumber :=
  h ← hash c block_number;
  block_hash ← ok_or h (UnknownBlock block_number);
  sidechain_status ← runtime_get_sidechain_status c block_hash;
  Ok (SidechainPallet.slot sidechain_status).
Definition get_epoch_of_block (c : Client) (block_number : Z) : result ApiError ScEpochNumber :=
  h ← hash c block_number;
  block_hash ← ok_or h (UnknownBlock block_number);
  sidechain_status ← runtime_get_sidechain_status c block_hash;
  Ok (SidechainPallet.epoch sidechain_status).

(** ** Strategies *)
Record AnyBlockInEpoch := { any_epoch : ScEpochNumber }.
Record LastBlockInEpoch := { last_epoch : ScEpochNumber }.
Record AnyBlockInSlotRange := { range_start : ScSlotNumber; range_end : ScSlotNumber }.
Record LatestBlockInSlotRange := { latest_start : ScSlotNumber; latest_end : ScSlotNumber; latest_block : Z }.

Class CompareStrategy (CS : Type) := compare_block : CS -> Z -> Client -> result ApiError comparison.

#[export] Instance compare_any_block_in_epoch : CompareStrategy AnyBlockInEpoch := fun cs block c =>
  epoch_block ← get_epoch_of_block c block; Ok (epoch_block ?= any_epoch cs).

#[export] Instance compare_last_block_in_epoch : CompareStrategy LastBlockInEpoch := fun cs block c =>
  epoch_block ← get_epoch_of_block c block;
  match epoch_block ?= last_epoch cs with
  | Eq =>
      next ← get_epoch_of_block c (block +[32] 1);
      Ok (match next ?= last_epoch cs with Gt => Eq | _ => Lt end)
  | ordering => Ok ordering
  end.

#[export] Instance compare_any_block_in_slot_range : CompareStrategy AnyBlockInSlotRange := fun cs block c =>
  slot_of_block ← get_slot_of_block c block;
  Ok (if slot_of_block <? range_start cs then Lt
      else if range_end cs <=? slot_of_block then Gt else Eq).

#[export] Instance compare_latest_block_in_slot_range : CompareStrategy LatestBlockInSlotRange := fun cs block c =>
  let any := {| range_start := latest_start cs; range_end := latest_end cs |} in
  current_block_ordering ← compare_block any block c;
  match current_block_ordering with
  | Eq =>
      if block <? latest_block cs then
        next_block_ordering ← compare_block any (block +[32] 1) c;
        Ok (match next_block_ordering with Gt => Eq | _ => Lt end)
      else Ok Eq
  | ordering => Ok ordering
  end.

(** ** [FindSidechainBlock] *)
(** 32 steps are enough for block numbers below [2^31] ([binary_search_terminates]). *)
Definition search_fuel : nat := 32.

Section FindBlock.
Context `{CompareStrategy CS}.
Definition find_block_number (c : Client) (compare_strategy : CS) : option (result ApiError Z) :=
  let '(left_block, right_block) := (1, best_number c) in
  found ← binary_search_by (fun block => compare_block compare_strategy block c) search_fuel
            left_block (right_block +[32] 1);
  Some (ok_or found (Application "Could not find block number")).

Definition find_block (c : Client) (compare_strategy : CS) : option (fallible ApiError bytes) :=
  number ← find_block_number c compare_strategy;
  Some (block_number ←? lift number;
        h ←? lift (hash c block_number);
        run (expect h)).
End FindBlock.

(** What one relies on: the chain's blocks up to the best one are known, the runtime
    reports for each its slot and the slot's epoch, and slots do not decrease. *)
Record chain_view (c : Client) (slot : Z -> ScSlotNumber) (slots_per_epoch : Z) : Prop := {
  cv_best : 0 <= best_number c < 2 ^ 31 - 1;
  cv_slots_per_epoch : 0 < slots_per_epoch;
  cv_known : forall n, 0 <= n <= best_number c -> exists h, hash c n = Ok (Some h) /\
    runtime_get_sidechain_status c h =
      Ok (SidechainPallet.mkSidechainStatus (slot n / slots_per_epoch) (slot n) slots_per_epoch);
  cv_unknown : forall n, best_number c < n -> hash c n = Ok None;
  cv_slots : forall m n, 1 <= m <= n -> n <= best_number c -> slot m <= slot n
}.

Section View.
Context (c : Client) (slot : Z -> ScSlotNumber) (spe : Z) (V : chain_view c slot spe).

Lemma slot_of_known n : 1 <= n <= best_number c -> get_slot_of_block c n = Ok (slot n).
Proof.
  intros Hn. destruct (cv_known _ _ _ V n) as (h & Hh & Hs); [lia|]. unfold get_slot_of_block.
  rewrite Hh. simpl_monad. by rewrite Hs.
Qed.
Lemma epoch_of_known n : 0 <= n <= best_number c -> get_epoch_of_block c n = Ok (slot n / spe).
Proof.
  intros Hn. destruct (cv_known _ _ _ V n) as (h & Hh & Hs); [lia|]. unfold get_epoch_of_block.
  rewrite Hh. simpl_monad. by rewrite Hs.
Qed.
Lemma epoch_of_unknown n : best_number c < n -> get_epoch_of_block c n = Err (UnknownBlock n).
Proof. intros Hn. unfold get_epoch_of_block. by rewrite (cv_unknown _ _ _ V n). Qed.
Lemma slot_of_unknown n : best_number c < n -> get_slot_of_block c n = Err (UnknownBlock n).
Proof. intros Hn. unfold get_slot_of_block. by rewrite (cv_unknown _ _ _ V n). Qed.
Lemma epochs_sorted m n : 1 <= m <= n -> n <= best_number c -> slot m / spe <= slot n / spe.
Proof.
  intros. pose proof (cv_slots_per_epoch _ _ _ V). apply Z.div_le_mono; [lia|]. by apply (cv_slots _ _ _ V).
Qed.

(** A strategy finds a block when one matches between blocks that do not overshoot. *)
Lemma find_block_finds `{CompareStrategy CS} (cs : CS) t :
  1 <= t <= best_number c -> compare_block cs t c = Ok Eq ->
  (forall m, 1 <= m < t -> compare_block cs m c = Ok Lt \/ compare_block cs m c = Ok Eq) ->
  (forall m, t < m <= best_number c -> compare_block cs m c = Ok Gt \/ compare_block cs m c = Ok Eq) ->
  exists n h, find_block_number c cs = Some (Ok n) /\ find_block c cs = Some (Done (Ok h)) /\
    1 <= n <= best_number c /\ hash c n = Ok (Some h) /\ compare_block cs n c = Ok Eq.
Proof.
  intros Ht Heq Hlo Hhi. pose proof (cv_best _ _ _ V) as Hb.
  destruct (binary_search_finds (fun block => compare_block cs block c) search_fuel 1
    (best_number c + 1) (best_number c + 1) t) as (m & Hm & Hme & Hr); try done; try lia.
  { change (2 ^ Z.of_nat search_fuel) with (2 ^ 32). lia. }
  { intros; apply Hhi; lia. }
  destruct (cv_known _ _ _ V m) as (h & Hh & _); [lia|].
  assert (find_block_number c cs = Some (Ok m)) as Hf.
  { unfold find_block_number, binary_search_by. rewrite wrapping_add_small by (unfold in_width; lia).
    by rewrite Hm. }
  exists m, h. unfold find_block. rewrite Hf. cbn [mbind option_bind]. simpl_monad. rewrite Hh. simpl_monad.
  split_and!; done || lia.
Qed.

(** Without a matching block the search ends with an error; it never panics. *)
Lemma find_block_misses `{CompareStrategy CS} (cs : CS) :
  (forall m, 1 <= m <= best_number c + 1 -> compare_block cs m c <> Ok Eq) ->
  find_block c cs = Some (Done (Err (Application "Could not find block number"))).
Proof.
  intros Hno. pose proof (cv_best _ _ _ V) as Hb.
  destruct (binary_search_terminates (fun block => compare_block cs block c) search_fuel 1
    (best_number c + 1)) as (o & Ho & Hs); [lia|lia| |].
  { change (2 ^ Z.of_nat search_fuel) with (2 ^ 32). lia. }
  assert (o = None) as -> by (destruct o as [m|]; [|done]; destruct (Hs m eq_refl); by destruct (Hno m)).
  unfold find_block, find_block_number, binary_search_by.
  rewrite wrapping_add_small by (unfold in_width; lia). by rewrite Ho.
Qed.

(** *** Each strategy on the chain *)
Lemma compare_any_epoch e n :
  1 <= n <= best_number c -> compare_block {| any_epoch := e |} n c = Ok (slot n / spe ?= e).
Proof. intros. unfold compare_block, compare_any_block_in_epoch. by rewrite (epoch_of_known n) by lia. Qed.

Lemma compare_last_epoch e n :
  1 <= n <= best_number c -> compare_block {| last_epoch := e |} n c =
    match slot n / spe ?= e with
    | Eq => if n <? best_number c
            then Ok (match slot (n + 1) / spe ?= e with Gt => Eq | _ => Lt end)
            else Err (UnknownBlock (n + 1))
    | o => Ok o
    end.
Proof.
  intros Hn. pose proof (cv_best _ _ _ V). unfold compare_block, compare_last_block_in_epoch. cbn [last_epoch].
  rewrite (epoch_of_known n) by lia. simpl_monad. rewrite wrapping_add_small by (unfold in_width; lia).
  destruct (Z.ltb_spec n (best_number c)).
  - by rewrite (epoch_of_known (n + 1)) by lia.
  - by rewrite (epoch_of_unknown (n + 1)) by lia.
Qed.

Definition in_range (a b n : Z) : comparison := if slot n <? a then Lt else if b <=? slot n then Gt else Eq.

Lemma compare_any_range a b n :
  1 <= n <= best_number c ->
  compare_block {| range_start := a; range_end := b |} n c = Ok (in_range a b n).
Proof. intros. unfold compare_block, compare_any_block_in_slot_range. by rewrite (slot_of_known n) by lia. Qed.

Lemma compare_latest_range a b n :
  1 <= n <= best_number c ->
  compare_block {| latest_start := a; latest_end := b; latest_block := best_number c |} n c =
    Ok (match in_range a b n with
        | Eq => if n <? best_number c then match in_range a b (n + 1) with Gt => Eq | _ => Lt end else Eq
        | o => o
        end).
Proof.
  intros Hn. pose proof (cv_best _ _ _ V).
  unfold compare_block at 1, compare_latest_block_in_slot_range. cbn [latest_start latest_end latest_block].
  rewrite (compare_any_range a b n) by lia. simpl_monad. destruct (in_range a b n); try done.
  destruct (Z.ltb_spec n (best_number c)); [|done].
  rewrite wrapping_add_small by (unfold in_width; lia). by rewrite (compare_any_range a b (n + 1)) by lia.
Qed.

(** Beyond the best block every strategy gets an error. *)
Ltac beyond m := unfold compare_block, compare_any_block_in_epoch, compare_last_block_in_epoch,
  compare_latest_block_in_slot_range, compare_block, compare_any_block_in_slot_range;
  first [rewrite (epoch_of_unknown m) by lia | rewrite (slot_of_unknown m) by lia]; done.

Lemma find_any_epoch e n :
  1 <= n <= best_number c -> slot n / spe = e ->
  exists m h, find_block c {| any_epoch := e |} = Some (Done (Ok h)) /\
    1 <= m <= best_number c /\ hash c m = Ok (Some h) /\ slot m / spe = e.
Proof.
  intros Hn He. destruct (find_block_finds {| any_epoch := e |} n Hn) as (m & h & _ & Hf & Hm & Hh & Hc).
  - rewrite compare_any_epoch, He by done. by rewrite Z.compare_refl.
  - intros m Hm. rewrite compare_any_epoch by lia. pose proof (epochs_sorted m n ltac:(lia) ltac:(lia)).
    destruct (Z.compare_spec (slot m / spe) e); [by right|by left|lia].
  - intros m Hm. rewrite compare_any_epoch by lia. pose proof (epochs_sorted n m ltac:(lia) ltac:(lia)).
    destruct (Z.compare_spec (slot m / spe) e); [by right|lia|by left].
  - exists m, h. rewrite compare_any_epoch in Hc by done. injection Hc as Hc. by apply Z.compare_eq in Hc.
Qed.

Lemma miss_any_epoch e :
  (forall n, 1 <= n <= best_number c -> slot n / spe <> e) ->
  find_block c {| any_epoch := e |} = Some (Done (Err (Application "Could not find block number"))).
Proof.
  intros Hno. apply find_block_misses. intros m Hm. destruct (decide (m <= best_number c)); [|beyond m].
  rewrite compare_any_epoch by lia. intros [= Hc%Z.compare_eq]. apply (Hno m); [lia|done].
Qed.

Lemma find_last_epoch e n :
  1 <= n < best_number c -> slot n / spe = e -> e < slot (n + 1) / spe ->
  exists h, find_block c {| last_epoch := e |} = Some (Done (Ok h)) /\ hash c n = Ok (Some h).
Proof.
  intros Hn He Hnext.
  destruct (find_block_finds {| last_epoch := e |} n ltac:(lia)) as (m & h & _ & Hf & Hm & Hh & Hc).
  - rewrite compare_last_epoch, He, Z.compare_refl by lia. rewrite (proj2 (Z.ltb_lt _ _)) by lia.
    by rewrite (proj2 (Z.compare_gt_iff _ _)).
  - intros m Hm. rewrite compare_last_epoch by lia. pose proof (epochs_sorted m n ltac:(lia) ltac:(lia)).
    destruct (Z.compare_spec (slot m / spe) e); [|by left|lia].
    rewrite (proj2 (Z.ltb_lt _ _)) by lia. destruct (_ ?= _); auto.
  - intros m Hm. rewrite compare_last_epoch by lia. pose proof (epochs_sorted (n + 1) m ltac:(lia) ltac:(lia)).
    left. by rewrite (proj2 (Z.compare_gt_iff _ _)) by lia.
  - exists h. split; [done|]. rewrite compare_last_epoch in Hc by done.
    destruct (Z.compare_spec (slot m / spe) e) as [Hme|?|?]; [|done..].
    destruct (Z.ltb_spec m (best_number c)); [|done].
    destruct (Z.compare_spec (slot (m + 1) / spe) e); [done|done|].
    destruct (Z.lt_trichotomy m n) as [?|[->|?]]; [|done|].
    + pose proof (epochs_sorted (m + 1) n ltac:(lia) ltac:(lia)). lia.
    + pose proof (epochs_sorted (n + 1) m ltac:(lia) ltac:(lia)). lia.
Qed.

Lemma miss_last_epoch e :
  (forall n, 1 <= n < best_number c -> slot n / spe = e -> slot (n + 1) / spe <= e) ->
  find_block c {| last_epoch := e |} = Some (Done (Err (Application "Could not find block number"))).
Proof.
  intros Hno. apply find_block_misses. intros m Hm. destruct (decide (m <= best_number c)); [|beyond m].
  rewrite compare_last_epoch by lia. destruct (Z.compare_spec (slot m / spe) e); [|done..].
  destruct (Z.ltb_spec m (best_number c)); [|done].
  destruct (Z.compare_spec (slot (m + 1) / spe) e); [done..|]. pose proof (Hno m ltac:(lia) ltac:(done)). lia.
Qed.

Lemma in_range_spec a b n :
  CompareSpec (a <= slot n < b) (slot n < a) (a <= slot n /\ b <= slot n) (in_range a b n).
Proof.
  unfold in_range. destruct (Z.ltb_spec (slot n) a); [by constructor|].
  destruct (Z.leb_spec b (slot n)); constructor; lia.
Qed.

Lemma find_any_range a b n :
  1 <= n <= best_number c -> a <= slot n < b ->
  exists m h, find_block c {| range_start := a; range_end := b |} = Some (Done (Ok h)) /\
    1 <= m <= best_number c /\ hash c m = Ok (Some h) /\ a <= slot m < b.
Proof.
  intros Hn Hs.
  destruct (find_block_finds {| range_start := a; range_end := b |} n Hn) as (m & h & _ & Hf & Hm & Hh & Hc).
  - rewrite compare_any_range by done. destruct (in_range_spec a b n); lia || done.
  - intros m Hm. rewrite compare_any_range by lia. pose proof (cv_slots _ _ _ V m n ltac:(lia) ltac:(lia)).
    destruct (in_range_spec a b m); [by right|by left|lia].
  - intros m Hm. rewrite compare_any_range by lia. pose proof (cv_slots _ _ _ V n m ltac:(lia) ltac:(lia)).
    destruct (in_range_spec a b m); [by right|lia|by left].
  - exists m, h. rewrite compare_any_range in Hc by done. by destruct (in_range_spec a b m).
Qed.

Lemma find_latest_range a b n :
  1 <= n <= best_number c -> a <= slot n < b -> (n < best_number c -> b <= slot (n + 1)) ->
  exists h, find_block c {| latest_start := a; latest_end := b; latest_block := best_number c |} =
    Some (Done (Ok h)) /\ hash c n = Ok (Some h).
Proof.
  intros Hn Hs Hnext. set (cs := {| latest_start := a |}).
  destruct (find_block_finds cs n Hn) as (m & h & _ & Hf & Hm & Hh & Hc).
  - unfold cs. rewrite compare_latest_range by done. destruct (in_range_spec a b n); [|lia..].
    destruct (Z.ltb_spec n (best_number c)); [|done]. destruct (in_range_spec a b (n + 1)); [lia| |done].
    pose proof (cv_slots _ _ _ V n (n + 1) ltac:(lia) ltac:(lia)). lia.
  - intros m Hm. unfold cs. rewrite compare_latest_range by lia.
    pose proof (cv_slots _ _ _ V m n ltac:(lia) ltac:(lia)). destruct (in_range_spec a b m); [|by left|lia].
    rewrite (proj2 (Z.ltb_lt _ _)) by lia. destruct (in_range a b (m + 1)); auto.
  - intros m Hm. unfold cs. rewrite compare_latest_range by lia.
    pose proof (cv_slots _ _ _ V (n + 1) m ltac:(lia) ltac:(lia)).
    destruct (in_range_spec a b m); [lia|lia|by left].
  - exists h. split; [done|]. unfold cs in Hc. rewrite compare_latest_range in Hc by done. injection Hc as Hc.
    destruct (in_range_spec a b m); [|done..].
    destruct (Z.lt_trichotomy m n) as [?|[->|?]]; [|done|].
    + rewrite (proj2 (Z.ltb_lt _ _)) in Hc by lia. pose proof (cv_slots _ _ _ V (m + 1) n ltac:(lia) ltac:(lia)).
      destruct (in_range_spec a b (m + 1)); [done..|lia].
    + pose proof (cv_slots _ _ _ V (n + 1) m ltac:(lia) ltac:(lia)). lia.
Qed.

Lemma miss_range a b :
  (forall n, 1 <= n <= best_number c -> ~ a <= slot n < b) ->
  find_block c {| range_start := a; range_end := b |} =
    Some (Done (Err (Application "Could not find block number"))) /\
  find_block c {| latest_start := a; latest_end := b; latest_block := best_number c |} =
    Some (Done (Err (Application "Could not find block number"))).
Proof.
  intros Hno. split; apply find_block_misses; intros m Hm; (destruct (decide (m <= best_number c)); [|beyond m]).
  - rewrite compare_any_range by lia. pose proof (Hno m). destruct (in_range_spec a b m); [lia|done..].
  - rewrite compare_latest_range by lia. pose proof (Hno m). destruct (in_range_spec a b m); [lia|done..].
Qed.
End View.

(** Searching by epoch always ends and never panics. [AnyBlockInEpoch] finds the hash
    of a block of the epoch exactly when the chain has one; [LastBlockInEpoch] finds the
    hash of the last block of the epoch exactly when the epoch has a block and a block of
    a later epoch exists; otherwise both report that no block could be found. *)
Theorem find_block_by_epoch c slot spe e :
  chain_view c slot spe ->
  (forall n, 1 <= n <= best_number c -> slot n / spe = e ->
    exists m h, find_block c {| any_epoch := e |} = Some (Done (Ok h)) /\
      1 <= m <= best_number c /\ hash c m = Ok (Some h) /\ slot m / spe = e) /\
  ((forall n, 1 <= n <= best_number c -> slot n / spe <> e) ->
    find_block c {| any_epoch := e |} = Some (Done (Err (Application "Could not find block number")))) /\
  (forall n, 1 <= n < best_number c -> slot n / spe = e -> e < slot (n + 1) / spe ->
    exists h, find_block c {| last_epoch := e |} = Some (Done (Ok h)) /\ hash c n = Ok (Some h)) /\
  ((forall n, 1 <= n < best_number c -> slot n / spe = e -> slot (n + 1) / spe <= e) ->
    find_block c {| last_epoch := e |} = Some (Done (Err (Application "Could not find block number")))).
Proof.
  intros V. split_and!; [by apply find_any_epoch | by apply (miss_any_epoch c slot spe V)
    | intros; by eapply find_last_epoch | by apply (miss_last_epoch c slot spe V)].
Qed.

(** Searching by slot range always ends and never panics. [AnyBlockInSlotRange] finds
    the hash of a block in the range exactly when there is one, and
    [LatestBlockInSlotRange], given the best block, finds the hash of the last block in
    the range, also when that is the best block itself. *)
Theorem find_block_by_slot_range c slot spe a b :
  chain_view c slot spe ->
  let latest := {| latest_start := a; latest_end := b; latest_block := best_number c |} in
  (forall n, 1 <= n <= best_number c -> a <= slot n < b ->
    exists m h, find_block c {| range_start := a; range_end := b |} = Some (Done (Ok h)) /\
      1 <= m <= best_number c /\ hash c m = Ok (Some h) /\ a <= slot m < b) /\
  (forall n, 1 <= n <= best_number c -> a <= slot n < b -> (n < best_number c -> b <= slot (n + 1)) ->
    exists h, find_block c latest = Some (Done (Ok h)) /\ hash c n = Ok (Some h)) /\
  ((forall n, 1 <= n <= best_number c -> ~ a <= slot n < b) ->
    find_block c {| range_start := a; range_end := b |} =
      Some (Done (Err (Application "Could not find block number"))) /\
    find_block c latest = Some (Done (Err (Application "Could not find block number")))).
Proof.
  intros V latest. split_and!; [by apply (find_any_range c slot spe V) | by apply (find_latest_range c slot spe V)
    | by apply (miss_range c slot spe V)].
Qed.

(** ** A small chain *)
Module ExampleChain.
(** Ten blocks, two slots apart; the hash of block [n] is the byte string [[n]]. *)
Definition example_slot (n : Z) : ScSlotNumber := 2 * n.
Definition example_client : Client := mkClient 10
  (fun n => Ok (if n <=? 10 then Some [n] else None))
  (fun h => Ok (SidechainPallet.mkSidechainStatus (example_slot (nth 0 h 0) / 5) (example_slot (nth 0 h 0)) 5)).

Lemma example_view : chain_view example_client example_slot 5.
Proof.
  split; cbn [best_number hash runtime_get_sidechain_status example_client]; try lia.
  - intros n Hn. exists [n]. rewrite (proj2 (Z.leb_le _ _)) by lia. done.
  - intros n Hn. by rewrite (proj2 (Z.leb_gt _ _)) by lia.
  - unfold example_slot. lia.
Qed.
End ExampleChain.

Section Witnesses.
Import ExampleChain.
(** Epoch 1 holds blocks 3 and 4; epoch 9 is beyond the chain; epoch 4 is not over. *)
Lemma find_block_by_epoch_witness :
  (exists m h, find_block example_client {| any_epoch := 1 |} = Some (Done (Ok h)) /\
    1 <= m <= best_number example_client /\ hash example_client m = Ok (Some h) /\ example_slot m / 5 = 1) /\
  find_block example_client {| last_epoch := 1 |} = Some (Done (Ok [4])) /\
  find_block example_client {| last_epoch := 4 |} = Some (Done (Err (Application "Could not find block number"))).
Proof.
  destruct (find_block_by_epoch _ _ _ 1 example_view) as (H1 & _ & H3 & _).
  destruct (find_block_by_epoch _ _ _ 4 example_view) as (_ & _ & _ & H4).
  split_and!.
  - apply (H1 3); [cbn; lia | reflexivity].
  - destruct (H3 4) as (h & Hh & Hn); [cbn; lia | reflexivity | reflexivity | ].
    injection Hn as <-. exact Hh.
  - apply H4. intros n Hn He. cbn in Hn. unfold example_slot in *.
    apply Z.leb_le.
    assert (negb (2 * n / 5 =? 4) || (2 * (n + 1) / 5 <=? 4) = true) as Hc.
    { apply (check_range (fun n => negb (2 * n / 5 =? 4) || (2 * (n + 1) / 5 <=? 4)) 1 9); [reflexivity|lia]. }
    by rewrite He in Hc.
Defined.

Lemma find_block_by_slot_range_witness :
  (exists m h, find_block example_client {| range_start := 7; range_end := 13 |} = Some (Done (Ok h)) /\
    1 <= m <= best_number example_client /\ hash example_client m = Ok (Some h) /\ 7 <= example_slot m < 13) /\
  find_block example_client {| latest_start := 7; latest_end := 13; latest_block := 10 |} = Some (Done (Ok [6])).
Proof.
  destruct (find_block_by_slot_range _ _ _ 7 13 example_view) as (H1 & H2 & _).
  split.
  - apply (H1 5); cbn; unfold example_slot; lia.
  - destruct (H2 6) as (h & Hh & Hn); [cbn; lia | unfold example_slot; lia | unfold example_slot; lia | ].
    injection Hn as <-. exact Hh.
Defined.
End Witnesses.
