(* ===== verification/McHash.v ===== *)
(** * The main chain reference of a block

    [toolkit/primitives/sidechain-mc-hash]: every partner chain block refers to a stable
    main chain block, in its header digest. A block author proposes one, an importing node
    verifies it. The data source is the interface [McHashDataSource]; what one relies on
    is [McHashDataSourceLaws], which [DbBlocks] discharges for db-sync. *)

From S2P Require Import Prelude Domain McEpoch Slots.

(** Digest items and headers of the substrate framework. *)
Inductive DigestItem :=
| PreRuntime (engine_id data : bytes)
| Consensus (engine_id data : bytes)
| Seal (engine_id data : bytes)
| Other (data : bytes)
| RuntimeEnvironmentUpdated.
Record Header := mkHeader { header_number : Z; digest_logs : list DigestItem }.

(** ** The data source *)
(** [Source] is the state of the data source: the main chain it follows and its caches. *)
Class McHashDataSource (Source : Type) := {
  get_latest_stable_block_for : Z -> Source -> fallible string (option MainchainBlock);
  get_stable_block_for : McBlockHash -> Z -> stateful Source string (option MainchainBlock)
}.

Module McHash.
(** [MC_HASH_DIGEST_ID] is [b"mcsh"]. *)
Definition MC_HASH_DIGEST_ID : bytes := [109; 99; 115; 104].
Definition INHERENT_IDENTIFIER : string := "scmchash".

Inductive McHashInherentError :=
| DataSourceError (e : string)
| StableBlockNotFound (timestamp : Z)
| SlotTooBig
| McStateReferenceInvalid (hash : McBlockHash) (slot timestamp : Z)
| McStateReferenceRegressed (hash : McBlockHash) (slot : Z) (number parent_number : McBlockNumber)
| DigestError (e : string).

(** ** The digest *)
Definition from_mc_block_hash (mc_block_hash : McBlockHash) : list DigestItem :=
  [PreRuntime MC_HASH_DIGEST_ID mc_block_hash].

(** [inherent_data] is what [get_data] returns for the identifier. *)
Definition from_inherent_data (inherent_data : result string (option McBlockHash)) : result string (list DigestItem) :=
  data ← map_err (fun e => ("Failed to retrieve main chain hash from inherent data: " +:+ e)%string) inherent_data;
  mc_hash ← ok_or data "Main chain hash missing from inherent data"%string;
  Ok (from_mc_block_hash mc_hash).

Fixpoint value_from_digest (digest : list DigestItem) : result string McBlockHash :=
  match digest with
  | [] => Err "Main chain block hash missing from digest"%string
  | PreRuntime id data :: digest' =>
      if bool_decide (id = MC_HASH_DIGEST_ID)
      then ok_or (to_array 32 data) "Invalid MC hash referenced by block author in digest"%string
      else value_from_digest digest'
  | _ :: digest' => value_from_digest digest'
  end.

(** [header] is what the client returns for the block hash. *)
Definition get_mc_hash_for_block (header : result string (option Header)) : result string (option McBlockHash) :=
  header ← map_err (fun e => ("Failed to retrieve header: " +:+ e)%string) header;
  header ← ok_or header "Header does not exist"%string;
  if header_number header =? 0 then Ok None
  else
    value ← map_err (fun e => ("Failed to retrieve inherent digest from header: " +:+ e)%string)
              (value_from_digest (digest_logs header));
    Ok (Some value).

(** ** The provider, a wrapped [MainchainBlock] *)
Section Provider.
Context `{SlotOps} {Source : Type} `{McHashDataSource Source}.

Definition new_proposal (slot slot_duration : Z) (s : Source) : fallible McHashInherentError MainchainBlock :=
  slot_start_timestamp ←? lift (ok_or (Slot_timestamp slot slot_duration) SlotTooBig);
  match get_latest_stable_block_for slot_start_timestamp s with
  | Panic => Panic
  | Done r =>
      mc_block ←? lift (map_err DataSourceError r);
      lift (ok_or mc_block (StableBlockNotFound slot_start_timestamp))
  end.

Definition get_mc_state_reference (verified_block_slot : Z) (verified_block_mc_hash : McBlockHash)
    (slot_duration : Z) : stateful Source McHashInherentError MainchainBlock :=
  timestamp ←! stateless (lift (ok_or (Slot_timestamp verified_block_slot slot_duration) SlotTooBig));
  block ←! map_err_stateful DataSourceError (get_stable_block_for verified_block_mc_hash timestamp);
  stateless (lift (ok_or block (McStateReferenceInvalid verified_block_mc_hash verified_block_slot timestamp))).

Definition new_verification (parent_header : Header) (parent_slot : option Z) (verified_block_slot : Z)
    (mc_state_reference_hash : McBlockHash) (slot_duration : Z) : stateful Source McHashInherentError MainchainBlock :=
  mc_state_reference_block ←! get_mc_state_reference verified_block_slot mc_state_reference_hash slot_duration;
  match parent_slot with
  | None => stateless (Done (Ok mc_state_reference_block))
  | Some parent_slot =>
      parent_mc_hash ←! stateless (lift (map_err DigestError (value_from_digest (digest_logs parent_header))));
      parent_mc_state_reference_block ←! get_mc_state_reference parent_slot parent_mc_hash slot_duration;
      if mb_number mc_state_reference_block <? mb_number parent_mc_state_reference_block then
        stateless (Done (Err (McStateReferenceRegressed mc_state_reference_hash verified_block_slot
          (mb_number mc_state_reference_block) (mb_number parent_mc_state_reference_block))))
      else stateless (Done (Ok mc_state_reference_block))
  end.
End Provider.

Definition provider_mc_epoch (mc_block : MainchainBlock) : McEpochNumber := mb_epoch mc_block.
Definition provider_mc_block (mc_block : MainchainBlock) : McBlockNumber := mb_number mc_block.
Definition provider_mc_hash (mc_block : MainchainBlock) : McBlockHash := mb_hash mc_block.
(** What [put_data] followed by [get_data] delivers. *)
Definition provide_inherent_data (mc_block : MainchainBlock) : result string (option McBlockHash) :=
  Ok (Some (mb_hash mc_block)).
(** An error of this inherent is a bug. *)
Definition try_handle_error (identifier : string) : outcome (option ()) :=
  if bool_decide (identifier = INHERENT_IDENTIFIER) then Panic else Done None.

Lemma value_from_own_digest h logs :
  length h = 32%nat -> value_from_digest (from_mc_block_hash h ++ logs) = Ok h.
Proof.
  intros Hl. cbn [from_mc_block_hash app value_from_digest]. rewrite bool_decide_eq_true_2 by done.
  unfold to_array. by rewrite decide_True.
Qed.
End McHash.

(** ** What verification relies on *)

(** [serves s ts b]: in state [s] the block [b] is stable and in the allowable range of
    [ts]. Such a block is found by its hash, only such blocks are found, and asking does
    not change which blocks are served. *)
Class McHashDataSourceLaws Source `{McHashDataSource Source} := {
  serves : Source -> Z -> MainchainBlock -> Prop;
  source_ok : Source -> Prop;
  serves_found : forall s ts b, source_ok s -> serves s ts b ->
    exists s', get_stable_block_for (mb_hash b) ts s = (s', Done (Ok (Some b)));
  found_serves : forall s ts h s' b, source_ok s ->
    get_stable_block_for h ts s = (s', Done (Ok (Some b))) -> serves s ts b /\ mb_hash b = h;
  asking_preserves : forall s ts h s' r, source_ok s -> get_stable_block_for h ts s = (s', r) ->
    source_ok s' /\ forall ts b, serves s' ts b <-> serves s ts b
}.

Section Verification.
Context `{SlotOps} {Source : Type} `{McHashDataSourceLaws Source}.

Lemma get_mc_state_reference_Ok slot h d s s' b :
  source_ok s -> McHash.get_mc_state_reference slot h d s = (s', Done (Ok b)) ->
  mb_hash b = h /\ (exists ts, Slot_timestamp slot d = Some ts /\ serves s ts b) /\
  source_ok s' /\ forall ts b, serves s' ts b <-> serves s ts b.
Proof.
  intros Hs. unfold McHash.get_mc_state_reference, bind_stateful, map_err_stateful, stateless, lift.
  destruct (Slot_timestamp slot d) as [ts|]; simpl_monad; [|by intros [= _]].
  destruct (get_stable_block_for h ts s) as [s1 [[[b1|]|]|]] eqn:Hg; simpl_monad; intros Heq; simplify_eq.
  destruct (found_serves _ _ _ _ _ Hs Hg) as [Hserves Hh]. destruct (asking_preserves _ _ _ _ _ Hs Hg) as [Hs1 Hpres].
  split_and!; [done | by exists ts | done | done].
Qed.

Lemma get_mc_state_reference_found slot d ts s b :
  source_ok s -> Slot_timestamp slot d = Some ts -> serves s ts b ->
  exists s', McHash.get_mc_state_reference slot (mb_hash b) d s = (s', Done (Ok b)) /\
    source_ok s' /\ forall ts b, serves s' ts b <-> serves s ts b.
Proof.
  intros Hs Hts Hb. unfold McHash.get_mc_state_reference, bind_stateful, map_err_stateful, stateless, lift.
  rewrite Hts. simpl_monad. destruct (serves_found _ _ _ Hs Hb) as (s' & Hg). rewrite Hg. simpl_monad.
  destruct (asking_preserves _ _ _ _ _ Hs Hg) as [Hs1 Hpres]. by exists s'.
Qed.
End Verification.

Lemma reference_verification_iff `{SlotOps} {Source} `{McHashDataSourceLaws Source} parent parent_slot slot h d s b :
  source_ok s ->
  (exists s', McHash.new_verification parent parent_slot slot h d s = (s', Done (Ok b))) <->
  mb_hash b = h /\ (exists ts, Slot_timestamp slot d = Some ts /\ serves s ts b) /\
  match parent_slot with
  | None => True
  | Some p => exists bp ts, McHash.value_from_digest (digest_logs parent) = Ok (mb_hash bp) /\
      Slot_timestamp p d = Some ts /\ serves s ts bp /\ mb_number bp <= mb_number b
  end.
Proof.
  intros Hs. unfold McHash.new_verification. split.
  - intros [s' Hv]. unfold bind_stateful at 1 in Hv.
    destruct (McHash.get_mc_state_reference slot h d s) as [s1 [[b1|]|]] eqn:Hr1; [|done..].
    apply get_mc_state_reference_Ok in Hr1 as (Hh & Hts & Hs1 & Hpres); [|done].
    destruct parent_slot as [p|]; [|by injection Hv as <- <-].
    unfold bind_stateful, stateless, lift in Hv.
    destruct (McHash.value_from_digest (digest_logs parent)) as [hp|] eqn:Hd; cbn [map_err] in Hv; [|done].
    destruct (McHash.get_mc_state_reference p hp d s1) as [s2 [[bp|]|]] eqn:Hr2; [|done..].
    apply get_mc_state_reference_Ok in Hr2 as (Hhp & (ts & Hp & Hsp) & _); [|done].
    destruct (Z.ltb_spec (mb_number b1) (mb_number bp)); [done|]. injection Hv as <- <-.
    split_and!; try done. exists bp, ts. rewrite Hhp. split_and!; try done. by apply Hpres.
  - intros (Hh & (ts & Hts & Hb) & Hp). subst h. unfold bind_stateful at 1.
    destruct (get_mc_state_reference_found slot d ts s b Hs Hts Hb) as (s1 & -> & Hs1 & Hpres).
    destruct parent_slot as [p|]; [|by eexists].
    destruct Hp as (bp & tsp & Hd & Htsp & Hbp & Hle). unfold bind_stateful, stateless, lift. rewrite Hd. cbn [map_err].
    destruct (get_mc_state_reference_found p d tsp s1 bp Hs1 Htsp) as (s2 & -> & _); [by apply Hpres|].
    rewrite (proj2 (Z.ltb_ge _ _)) by done. by eexists.
Qed.

(** C12: Verification of a block's main chain reference is sound and complete. It accepts a
    reference exactly when it is the hash of a block that is stable and recent enough for
    the block's slot and whose number is not below that of the parent's reference, itself
    checked against the parent's slot; the first block after genesis has no parent
    reference to compare with. *)
Theorem reference_verification `{SlotOps} {Source} `{McHashDataSourceLaws Source} parent parent_slot slot h d s b :
  source_ok s ->
  (exists s', McHash.new_verification parent parent_slot slot h d s = (s', Done (Ok b))) <->
  mb_hash b = h /\ (exists ts, Slot_timestamp slot d = Some ts /\ serves s ts b) /\
  match parent_slot with
  | None => True
  | Some p => exists bp ts, McHash.value_from_digest (digest_logs parent) = Ok (mb_hash bp) /\
      Slot_timestamp p d = Some ts /\ serves s ts bp /\ mb_number bp <= mb_number b
  end.
Proof. apply reference_verification_iff. Qed.
