(* ===== verification/DbBlocks.v ===== *)
(** * Main chain blocks from db-sync

    [toolkit/mainchain-follower/db-sync-follower]: the [block] table of db-sync, the
    queries on it ([db_model.rs]) and the block data source with its cache ([block/mod.rs],
    [mc_hash/mod.rs]). The database is a list of rows and a query is a function on it;
    connection errors are not modelled. Dates are milliseconds since the Unix epoch; the
    [chrono] crate is third-party ([Chrono]). *)

From S2P Require Import Prelude Domain McEpoch Slots McHash.

Class Chrono := {
  from_timestamp_millis : Z -> option Z;
  naive_sub_seconds : Z -> Z -> outcome Z
}.
(** Dates up to some 250,000 years from the epoch are representable. *)
Class ChronoLaws `{Chrono} : Prop := {
  from_timestamp_millis_value : forall ms dt, from_timestamp_millis ms = Some dt -> dt = ms;
  from_timestamp_millis_range : forall ms, -8 * 10 ^ 15 <= ms <= 8 * 10 ^ 15 -> from_timestamp_millis ms = Some ms;
  naive_sub_value : forall dt d r, naive_sub_seconds dt d = Done r -> r = dt - 1000 * d;
  naive_sub_range : forall dt d, -8 * 10 ^ 15 <= dt - 1000 * d <= 8 * 10 ^ 15 ->
    naive_sub_seconds dt d = Done (dt - 1000 * d)
}.

(** ** Rows and queries *)
Module Db.
(** A row of [block]; block and slot numbers are null for some Byron blocks. *)
Record BlockRow := mkBlockRow {
  row_block_no : option Z;
  row_hash : bytes;
  row_epoch_no : option Z;
  row_slot_no : option Z;
  row_time : Z
}.
Record Block := mkBlock { block_no : Z; hash : bytes; epoch_no : Z; slot_no : Z; time : Z }.
#[export] Instance Block_eq_dec : EqDecision Block.
Proof. solve_decision. Defined.

(** Signed columns decode to unsigned numbers, and an unsigned parameter of [w] bits is
    sent as the signed number with the same bytes. *)
Definition decode_unsigned (column : option Z) : result string Z :=
  n ← ok_or column "unexpected null; try decoding as an `Option`"%string;
  if 0 <=? n then Ok n else Err "out of range integral type conversion attempted"%string.
Definition sql_int (w n : Z) : Z := if n <? 2 ^ (w - 1) then n else n - 2 ^ w.

Definition decode_block (r : BlockRow) : result string Block :=
  block_no ← decode_unsigned (row_block_no r);
  hash ← ok_or (to_array 32 (row_hash r)) "invalid length"%string;
  epoch_no ← decode_unsigned (row_epoch_no r);
  slot_no ← decode_unsigned (row_slot_no r);
  Ok (mkBlock block_no hash epoch_no slot_no (row_time r)).
(** [fetch_optional]. *)
Definition decode_optional (r : option BlockRow) : result string (option Block) :=
  match r with None => Ok None | Some r => b ← decode_block r; Ok (Some b) end.

Definition to_mainchain_block (b : Block) : outcome MainchainBlock :=
  timestamp ← expect (try_into_width 64 (time b / 1000));
  Done (mkMainchainBlock (block_no b) (hash b) (epoch_no b) (slot_no b) timestamp).

(** [ORDER BY block_no]. *)
Definition row_no_leb (a b : BlockRow) : bool := default (-1) (row_block_no a) <=? default (-1) (row_block_no b).

Definition get_latest_block_info (db : list BlockRow) : result string (option Block) :=
  decode_optional (max_by row_no_leb (filter (fun r => is_Some (row_block_no r)) db)).

Definition numbered_between (from to : Z) (r : BlockRow) : bool :=
  match row_block_no r with Some n => (from <=? n) && (n <=? to) | None => false end.
Definition get_blocks_by_numbers (db : list BlockRow) (from to : Z) : result string (list Block) :=
  collect_results decode_block (sort_by row_no_leb (filter (numbered_between (sql_int 32 from) (sql_int 32 to)) db)).

Definition in_window (max_block min_time min_slot max_time max_slot : Z) (r : BlockRow) : bool :=
  match row_block_no r, row_slot_no r with
  | Some n, Some s => (n <=? max_block) && (min_slot <=? s) && (s <=? max_slot) &&
                      (min_time <=? row_time r) && (row_time r <=? max_time)
  | _, _ => false
  end.
Definition get_highest_block (db : list BlockRow) (max_block_number min_time min_slot max_time max_slot : Z)
    : result string (option Block) :=
  decode_optional (max_by row_no_leb (filter (in_window (sql_int 32 max_block_number) min_time
    (sql_int 64 min_slot) max_time (sql_int 64 max_slot)) db)).

Definition get_block_by_hash (db : list BlockRow) (h : McBlockHash) : result string (option Block) :=
  decode_optional (List.find (fun r => bool_decide (row_hash r = h)) db).
End Db.

(** ** The block data source *)
Module BlockDataSource.
Import Db.
Record BlockDataSourceImpl := mkBlockDataSourceImpl {
  security_parameter : Z;
  min_slot_boundary_as_seconds : Z;
  max_slot_boundary_as_seconds : Z;
  mainchain_epoch_config : MainchainEpochConfig;
  block_stability_margin : Z;
  cache_size : Z
}.
(** The data source, the database behind its pool and its cache ([BlocksCache]). *)
Record Source := mkSource {
  impl : BlockDataSourceImpl;
  pool : list BlockRow;
  from_last_by_hash : list Block
}.

Definition find_by_hash (cache : list Block) (h : McBlockHash) : option Block :=
  List.find (fun b => bool_decide (hash b = h)) cache.
Definition update (cache : list Block) (s : Source) : Source := mkSource (impl s) (pool s) cache.

Section Impl.
Context `{Chrono}.
Implicit Types (c : BlockDataSourceImpl) (s : Source).

Definition timestamp_to_db_type (timestamp : Z) : result string Z :=
  ok_or (millis ← if timestamp <? 2 ^ 63 then Some timestamp else None; from_timestamp_millis millis)
    "Timestamp out of range"%string.

Definition date_time_to_slot c (dt : Z) : fallible string Z :=
  millis ←? lift (ok_or (try_into_width 64 dt) "Datetime out of range"%string);
  match timestamp_to_mainchain_slot_number (mainchain_epoch_config c) millis with
  | Panic => Panic
  | Done (Ok slot) => Done (Ok slot)
  | Done (Err _) => Done (Ok (first_slot_number (mainchain_epoch_config c)))
  end.

Definition min_block_allowed_time c (reference_timestamp : Z) : outcome Z :=
  naive_sub_seconds reference_timestamp (max_slot_boundary_as_seconds c).
Definition max_allowed_block_time c (reference_timestamp : Z) : outcome Z :=
  naive_sub_seconds reference_timestamp (min_slot_boundary_as_seconds c).
Definition is_block_time_valid c (block : Block) (timestamp : Z) : outcome bool :=
  lo ← min_block_allowed_time c timestamp;
  if lo <=? time block then hi ← max_allowed_block_time c timestamp; Done (time block <=? hi) else Done false.

Definition source_latest_block_info s : fallible string MainchainBlock :=
  block ←? lift (get_latest_block_info (pool s));
  match block with
  | None => Done (Err "No latest block on chain."%string)
  | Some b => run (to_mainchain_block b)
  end.

Definition get_latest_block s (max_block reference_timestamp : Z) : fallible string (option Block) :=
  min_time ←? run (min_block_allowed_time (impl s) reference_timestamp);
  min_slot ←? date_time_to_slot (impl s) min_time;
  max_time ←? run (max_allowed_block_time (impl s) reference_timestamp);
  max_slot ←? date_time_to_slot (impl s) max_time;
  lift (get_highest_block (pool s) max_block min_time min_slot max_time max_slot).

Definition latest_stable_block_for (reference_timestamp : Z) s : fallible string (option MainchainBlock) :=
  reference_timestamp ←? lift (timestamp_to_db_type reference_timestamp);
  latest ←? source_latest_block_info s;
  let offset := security_parameter (impl s) +[32] block_stability_margin (impl s) in
  let stable := saturating_sub (mb_number latest) offset in
  block ←? get_latest_block s stable reference_timestamp;
  match block with
  | None => Done (Ok None)
  | Some b => b ←? run (to_mainchain_block b); Done (Ok (Some b))
  end.

(** [Option::filter] with a predicate that may panic. *)
Definition filter_outcome {A} (p : A -> outcome bool) (o : option A) : outcome (option A) :=
  match o with
  | None => Done None
  | Some a => keep ← p a; Done (if keep : bool then Some a else None)
  end.

Definition get_stable_block_by_hash_from_cache s (h : McBlockHash) (reference_timestamp : Z) : outcome (option Block) :=
  filter_outcome (fun block => is_block_time_valid (impl s) block reference_timestamp)
    (find_by_hash (from_last_by_hash s) h).

Definition get_stable_block_by_hash_from_db s (h : McBlockHash) (reference_timestamp : Z)
    : fallible string (option Block) :=
  block ←? lift (get_block_by_hash (pool s) h);
  latest_block ←? lift (get_latest_block_info (pool s));
  match block, latest_block with
  | Some block, Some latest_block =>
      run (filter_outcome (fun block =>
        if block_no block +[32] security_parameter (impl s) <=? block_no latest_block
        then is_block_time_valid (impl s) block reference_timestamp else Done false) (Some block))
  | _, _ => Done (Ok None)
  end.

Definition fill_cache (from_block : Block) : stateful Source string () := fun s =>
  let from_block_no := block_no from_block in
  let size := cache_size (impl s) in
  let blocks : result string (list Block) :=
    latest ← get_latest_block_info (pool s);
    latest_block ← ok_or latest "No latest block when filling the caches."%string;
    let latest_block_num := block_no latest_block in
    let stable_block_num := saturating_sub latest_block_num (security_parameter (impl s)) in
    let to_block_no := Z.min (saturating_add 32 from_block_no size) stable_block_num in
    if from_block_no <? to_block_no then get_blocks_by_numbers (pool s) from_block_no to_block_no
    else Ok [from_block] in
  match blocks with
  | Err e => (s, Done (Err e))
  | Ok blocks => (update blocks s, Done (Ok ()))
  end.

Definition get_stable_block_by_hash (h : McBlockHash) (reference_timestamp : Z)
    : stateful Source string (option MainchainBlock) := fun s =>
  match get_stable_block_by_hash_from_cache s h reference_timestamp with
  | Panic => (s, Panic)
  | Done (Some block) => (s, b ←? run (to_mainchain_block block); Done (Ok (Some b)))
  | Done None =>
      (block_by_hash ←! stateless (get_stable_block_by_hash_from_db s h reference_timestamp);
       match block_by_hash with
       | None => stateless (Done (Ok None))
       | Some block_by_hash =>
           _ ←! fill_cache block_by_hash;
           stateless (b ←? run (to_mainchain_block block_by_hash); Done (Ok (Some b)))
       end) s
  end.

Definition stable_block_for (h : McBlockHash) (reference_timestamp : Z)
    : stateful Source string (option MainchainBlock) :=
  reference_timestamp ←! stateless (lift (timestamp_to_db_type reference_timestamp));
  get_stable_block_by_hash h reference_timestamp.

#[export] Instance db_sync_mc_hash : McHashDataSource Source := {|
  get_latest_stable_block_for := latest_stable_block_for;
  get_stable_block_for := stable_block_for
|}.
End Impl.
End BlockDataSource.
Export (hints) BlockDataSource.

(** ** Well-formed databases *)
Section Rows.
Import Db.

(** The blocks with a number, decoded. *)
Definition blocks (db : list BlockRow) : list Block := omap (fun r => ok (decode_block r)) db.

Lemma elem_of_blocks db b : b ∈ blocks db <-> exists r, r ∈ db /\ decode_block r = Ok b.
Proof. unfold blocks. rewrite list_elem_of_omap. by setoid_rewrite ok_Some. Qed.

Lemma decode_unsigned_Ok o n : decode_unsigned o = Ok n <-> o = Some n /\ 0 <= n.
Proof.
  unfold decode_unsigned. destruct o as [m|]; simpl_monad; [|split; [done | by intros []]].
  destruct (Z.leb_spec 0 m); split; [intros [= ->]; done | by intros [[= ->] _] | done | intros [[= ->] ?]; lia].
Qed.

Lemma decode_block_Ok r b :
  decode_block r = Ok b ->
  row_block_no r = Some (block_no b) /\ row_hash r = hash b /\ row_slot_no r = Some (slot_no b) /\
  row_time r = time b /\ 0 <= block_no b /\ 0 <= slot_no b.
Proof.
  unfold decode_block. destruct (decode_unsigned (row_block_no r)) as [n|] eqn:Hn; simpl_monad; [|done].
  destruct (to_array 32 (row_hash r)) as [h|] eqn:Hh; simpl_monad; [|done].
  destruct (decode_unsigned (row_epoch_no r)) as [e|]; simpl_monad; [|done].
  destruct (decode_unsigned (row_slot_no r)) as [s|] eqn:Hs; simpl_monad; [|done]. intros [= <-]. cbn.
  apply decode_unsigned_Ok in Hn as [-> ?], Hs as [-> ?]. unfold to_array in Hh. case_decide; [|done].
  by injection Hh as <-.
Qed.

Lemma decode_hash_length r b : decode_block r = Ok b -> length (hash b) = 32%nat.
Proof.
  unfold decode_block. destruct (decode_unsigned (row_block_no r)) as [n|]; simpl_monad; [|done].
  destruct (to_array 32 (row_hash r)) as [h|] eqn:Hh; simpl_monad; [|done].
  destruct (decode_unsigned (row_epoch_no r)) as [e|]; simpl_monad; [|done].
  destruct (decode_unsigned (row_slot_no r)) as [s|]; simpl_monad; [|done]. intros [= <-]. cbn.
  unfold to_array in Hh. case_decide; [|done]. by injection Hh as <-.
Qed.

Record wf_db (db : list BlockRow) : Prop := {
  wf_decode : forall r, r ∈ db -> is_Some (row_block_no r) -> exists b, decode_block r = Ok b;
  wf_numbers : forall b, b ∈ blocks db -> block_no b < 2 ^ 31 /\ slot_no b < 2 ^ 63;
  wf_times : forall b, b ∈ blocks db -> 0 <= time b <= 4 * 10 ^ 15;
  wf_hashes : forall r r', r ∈ db -> r' ∈ db -> row_hash r = row_hash r' -> r = r';
  wf_unique : forall b b', b ∈ blocks db -> b' ∈ blocks db -> block_no b = block_no b' -> b = b';
  wf_order : forall b b', b ∈ blocks db -> b' ∈ blocks db -> block_no b < block_no b' -> time b < time b'
}.

Lemma row_no_total a b : row_no_leb a b = true \/ row_no_leb b a = true.
Proof. unfold row_no_leb. rewrite !Z.leb_le. lia. Qed.
Lemma row_no_trans a b c : row_no_leb a b = true -> row_no_leb b c = true -> row_no_leb a c = true.
Proof. unfold row_no_leb. rewrite !Z.leb_le. lia. Qed.

(** The row that [ORDER BY block_no DESC LIMIT 1] picks, decoded. *)
Lemma decode_max_spec db (P : BlockRow -> Prop) `{!forall r, Decision (P r)} :
  wf_db db -> (forall r, P r -> is_Some (row_block_no r)) ->
  match decode_optional (max_by row_no_leb (filter P db)) with
  | Err _ => False
  | Ok None => forall r, r ∈ db -> ~ P r
  | Ok (Some b) => (exists r, r ∈ db /\ P r /\ decode_block r = Ok b) /\
      forall r b', r ∈ db -> P r -> decode_block r = Ok b' -> block_no b' <= block_no b
  end.
Proof.
  intros Hw HP. destruct (max_by row_no_leb (filter P db)) as [r|] eqn:Hm; cbn [decode_optional].
  - pose proof (max_by_Some_elem _ row_no_total row_no_trans _ _ Hm) as [Hr Hin]%list_elem_of_filter.
    destruct (wf_decode _ Hw r Hin (HP r Hr)) as [b Hb]. rewrite Hb. simpl_monad. split; [by exists r|].
    intros r' b' Hr' HP' Hb'. apply decode_block_Ok in Hb as [Hn _], Hb' as [Hn' _].
    pose proof (max_by_Some_max _ row_no_total row_no_trans _ _ r' Hm) as Hmax.
    rewrite list_elem_of_filter in Hmax. specialize (Hmax (conj HP' Hr')). unfold row_no_leb in Hmax.
    rewrite Hn, Hn' in Hmax. cbn in Hmax. by apply Z.leb_le in Hmax.
  - apply (max_by_None _ row_no_total row_no_trans) in Hm. intros r Hr HPr.
    assert (r ∈ filter P db) as Hf by by apply list_elem_of_filter. rewrite Hm in Hf. by apply elem_of_nil in Hf.
Qed.

Lemma latest_spec db :
  wf_db db ->
  match get_latest_block_info db with
  | Err _ => False
  | Ok None => forall b, b ∉ blocks db
  | Ok (Some l) => l ∈ blocks db /\ forall b, b ∈ blocks db -> block_no b <= block_no l
  end.
Proof.
  intros Hw. pose proof (decode_max_spec db (fun r => is_Some (row_block_no r)) Hw (fun r H => H)) as Hs.
  unfold get_latest_block_info. destruct (decode_optional _) as [[l|]|]; [| |done].
  - destruct Hs as [(r & Hr & _ & Hb) Hmax]. split; [apply elem_of_blocks; eauto|].
    intros b (r' & Hr' & Hb')%elem_of_blocks. eapply Hmax; [done| |done].
    apply decode_block_Ok in Hb' as [-> _]. by eexists.
  - intros b (r & Hr & Hb)%elem_of_blocks. apply (Hs r Hr). apply decode_block_Ok in Hb as [-> _]. by eexists.
Qed.

Lemma by_hash_found db b : wf_db db -> b ∈ blocks db -> get_block_by_hash db (hash b) = Ok (Some b).
Proof.
  intros Hw (r & Hr & Hb)%elem_of_blocks. unfold get_block_by_hash.
  pose proof (decode_block_Ok _ _ Hb) as (_ & Hh & _).
  destruct (List.find _ db) as [r'|] eqn:Hf.
  - apply List.find_some in Hf as [Hin Heq%bool_decide_eq_true]. apply list_elem_of_In in Hin.
    rewrite (wf_hashes _ Hw r' r) by (done || congruence). cbn. by rewrite Hb.
  - apply (List.find_none _ _ ) with (x := r) in Hf; [|by apply list_elem_of_In].
    by rewrite bool_decide_eq_true_2 in Hf.
Qed.

Lemma by_hash_Some db h b : get_block_by_hash db h = Ok (Some b) -> b ∈ blocks db /\ hash b = h.
Proof.
  unfold get_block_by_hash. destruct (List.find _ db) as [r|] eqn:Hf; cbn [decode_optional]; [|done].
  apply List.find_some in Hf as [Hin Heq%bool_decide_eq_true]. apply list_elem_of_In in Hin.
  destruct (decode_block r) as [b'|] eqn:Hb; simpl_monad; [|done]. intros [= <-]. split.
  - apply elem_of_blocks. eauto.
  - apply decode_block_Ok in Hb as (_ & Hh & _). congruence.
Qed.

Lemma blocks_by_numbers db from to :
  wf_db db -> 0 <= from < 2 ^ 31 -> 0 <= to < 2 ^ 31 ->
  exists l, get_blocks_by_numbers db from to = Ok l /\
    forall b, b ∈ l -> b ∈ blocks db /\ from <= block_no b <= to.
Proof.
  intros Hw Hf Ht. unfold get_blocks_by_numbers, sql_int.
  rewrite !(proj2 (Z.ltb_lt _ _)) by lia. set (rows := sort_by _ _).
  assert (forall r, r ∈ rows -> r ∈ db /\ numbered_between from to r = true) as Hrows.
  { intros r Hr. unfold rows in Hr. rewrite sort_by_perm in Hr. apply list_elem_of_filter in Hr as [Hn Hr].
    split; [done|]. by apply Is_true_true in Hn. }
  clearbody rows. induction rows as [|r rows IH].
  - exists []. split; [done|]. intros b Hb. by apply elem_of_nil in Hb.
  - destruct IH as (l & Hl & Hs); [intros; apply Hrows; by right|].
    destruct (Hrows r ltac:(left)) as [Hr Hn]. unfold numbered_between in Hn.
    destruct (row_block_no r) as [n|] eqn:Hno; [|done]. zbool.
    destruct (wf_decode _ Hw r Hr) as [b Hb]; [by eexists|].
    exists (b :: l). cbn [collect_results]. rewrite Hb, Hl. split; [done|].
    intros b' [->|Hb']%elem_of_cons; [|by apply Hs]. split; [apply elem_of_blocks; eauto|].
    apply decode_block_Ok in Hb as [Hb _]. simplify_eq. lia.
Qed.
End Rows.

(** ** The cache is transparent *)
Section Cache.
Import Db BlockDataSource.
Context `{ChronoLaws}.
Implicit Types (c : BlockDataSourceImpl) (s : Source) (b : Block).

Record wf_impl c : Prop := {
  wf_security : 0 <= security_parameter c;
  wf_margin : 0 <= block_stability_margin c;
  wf_offset : security_parameter c + block_stability_margin c < 2 ^ 31;
  wf_boundaries : 0 <= min_slot_boundary_as_seconds c <= max_slot_boundary_as_seconds c;
  wf_max_boundary : max_slot_boundary_as_seconds c <= 10 ^ 12;
  wf_cache_size : 0 <= cache_size c < 2 ^ 16
}.

(** A block of the database with [security_parameter] blocks on top of it. *)
Definition stable s b : Prop :=
  b ∈ blocks (pool s) /\
  exists l, get_latest_block_info (pool s) = Ok (Some l) /\ block_no b + security_parameter (impl s) <= block_no l.
Record sound s : Prop := {
  sound_impl : wf_impl (impl s);
  sound_db : wf_db (pool s);
  sound_cache : forall b, b ∈ from_last_by_hash s -> stable s b
}.

Lemma stable_number s b : sound s -> stable s b -> 0 <= block_no b < 2 ^ 31 - security_parameter (impl s).
Proof.
  intros [Hi Hw _] (Hb & l & Hl & Hle). pose proof (latest_spec _ Hw) as Hs. rewrite Hl in Hs.
  destruct Hs as [Hin _]. pose proof (wf_numbers _ Hw l Hin). apply elem_of_blocks in Hb as (r & _ & Hr).
  apply decode_block_Ok in Hr as (_ & _ & _ & _ & ? & _). lia.
Qed.

Lemma to_mainchain_block_Done s b :
  sound s -> b ∈ blocks (pool s) ->
  to_mainchain_block b = Done (mkMainchainBlock (block_no b) (hash b) (epoch_no b) (slot_no b) (time b / 1000)).
Proof.
  intros Hs Hb. destruct (wf_times _ (sound_db _ Hs) b Hb). unfold to_mainchain_block.
  pose proof (Z.div_le_upper_bound (time b) 1000 (4 * 10 ^ 12) ltac:(lia) ltac:(lia)).
  pose proof (Z.div_pos (time b) 1000 ltac:(lia) ltac:(lia)).
  by rewrite (proj2 (try_into_width_Some 64 _ (time b / 1000))) by (unfold in_width; lia).
Qed.

(** A stable block, looked up in the database. *)
Lemma from_db_stable s b t :
  sound s -> stable s b ->
  get_stable_block_by_hash_from_db s (hash b) t =
    match is_block_time_valid (impl s) b t with
    | Panic => Panic
    | Done valid => Done (Ok (if valid then Some b else None))
    end.
Proof.
  intros Hs Hb. pose proof (stable_number _ _ Hs Hb) as Hn. destruct Hb as (Hb & l & Hl & Hle).
  unfold get_stable_block_by_hash_from_db. rewrite by_hash_found, Hl by (done || apply Hs). simpl_monad.
  cbn [filter_outcome]. pose proof (wf_security _ (sound_impl _ Hs)).
  rewrite wrapping_add_small by (unfold in_width; lia). rewrite (proj2 (Z.leb_le _ _)) by done.
  by destruct (is_block_time_valid (impl s) b t).
Qed.

(** What the database finds is stable. *)
Lemma from_db_Some s h t b :
  sound s -> get_stable_block_by_hash_from_db s h t = Done (Ok (Some b)) ->
  stable s b /\ hash b = h /\ is_block_time_valid (impl s) b t = Done true.
Proof.
  intros Hs. unfold get_stable_block_by_hash_from_db.
  destruct (get_block_by_hash (pool s) h) as [[b'|]|] eqn:Hb; simpl_monad;
    [|by destruct (get_latest_block_info _) as [[]|]|done].
  destruct (get_latest_block_info (pool s)) as [[l|]|] eqn:Hl; simpl_monad; [|done..].
  cbn [filter_outcome]. apply by_hash_Some in Hb as [Hb Hh].
  destruct (wf_numbers _ (sound_db _ Hs) b' Hb) as [Hn _]. pose proof (wf_security _ (sound_impl _ Hs)).
  pose proof (wf_offset _ (sound_impl _ Hs)). pose proof (wf_margin _ (sound_impl _ Hs)).
  assert (0 <= block_no b') by (pose proof Hb as (r & _ & Hr)%elem_of_blocks;
    by apply decode_block_Ok in Hr as (_ & _ & _ & _ & ? & _)).
  rewrite wrapping_add_small by (unfold in_width; lia).
  destruct (Z.leb_spec (block_no b' + security_parameter (impl s)) (block_no l)); [|by simpl_monad].
  destruct (is_block_time_valid (impl s) b' t) as [[]|] eqn:Hv; simpl_monad; intros [= <-].
  split_and!; [split; [done|eauto] | done | done].
Qed.

Lemma fill_cache_sound s b :
  sound s -> stable s b ->
  exists cache, fill_cache b s = (update cache s, Done (Ok ())) /\ sound (update cache s).
Proof.
  intros Hs Hb. pose proof (stable_number _ _ Hs Hb) as Hn. pose proof Hb as (Hin & l & Hl & Hle).
  pose proof (latest_spec _ (sound_db _ Hs)) as Hsp. rewrite Hl in Hsp. destruct Hsp as [Hlin _].
  destruct (wf_numbers _ (sound_db _ Hs) l Hlin) as [Hln _]. pose proof (wf_security _ (sound_impl _ Hs)).
  pose proof (wf_cache_size _ (sound_impl _ Hs)).
  unfold fill_cache. rewrite Hl. simpl_monad. unfold saturating_add, saturating_sub, max_value.
  set (to := Z.min _ _). destruct (Z.ltb_spec (block_no b) to) as [Hto|Hto].
  - destruct (blocks_by_numbers (pool s) (block_no b) to) as (cache & -> & Hc); [apply Hs|lia|lia|].
    exists cache. split; [done|]. split; [apply Hs|apply Hs|]. intros b' Hb'. apply Hc in Hb' as [Hb' ?].
    split; [done|]. exists l. split; [done|]. cbn [update impl]. lia.
  - exists [b]. split; [done|]. split; [apply Hs|apply Hs|]. by intros b' ->%list_elem_of_singleton.
Qed.

Lemma find_by_hash_Some cache h b : find_by_hash cache h = Some b -> b ∈ cache /\ hash b = h.
Proof.
  intros Hf. apply List.find_some in Hf as [Hin Heq%bool_decide_eq_true].
  split; [by apply list_elem_of_In | done].
Qed.

(** Looking a block up, with the cache and without it. *)
Lemma get_stable_by_hash_spec s h t :
  sound s ->
  exists cache, get_stable_block_by_hash h t s =
    (update cache s,
     match get_stable_block_by_hash_from_db s h t with
     | Panic => Panic
     | Done (Err e) => Done (Err e)
     | Done (Ok None) => Done (Ok None)
     | Done (Ok (Some b)) => b ←? run (to_mainchain_block b); Done (Ok (Some b))
     end) /\ sound (update cache s).
Proof.
  intros Hs. assert (update (from_last_by_hash s) s = s) as Hid by by destruct s.
  unfold get_stable_block_by_hash, get_stable_block_by_hash_from_cache.
  assert (forall r, get_stable_block_by_hash_from_db s h t = r ->
    exists cache, (block_by_hash ←! stateless r;
       match block_by_hash with
       | None => stateless (Done (Ok None))
       | Some block_by_hash =>
           _ ←! fill_cache block_by_hash;
           stateless (b ←? run (to_mainchain_block block_by_hash); Done (Ok (Some b)))
       end) s = (update cache s, match r with
         | Panic => Panic | Done (Err e) => Done (Err e) | Done (Ok None) => Done (Ok None)
         | Done (Ok (Some b)) => b ←? run (to_mainchain_block b); Done (Ok (Some b)) end) /\
      sound (update cache s)) as Hdb.
  { intros r Hr. unfold bind_stateful, stateless. destruct r as [[[b|]|e]|];
      try (exists (from_last_by_hash s); by rewrite Hid).
    apply from_db_Some in Hr as (Hb & _ & _); [|done].
    destruct (fill_cache_sound s b Hs Hb) as (cache & -> & Hc). by exists cache. }
  destruct (find_by_hash (from_last_by_hash s) h) as [b|] eqn:Hf; cbn [filter_outcome]; [|by apply Hdb].
  apply find_by_hash_Some in Hf as [Hc <-]. pose proof (sound_cache _ Hs b Hc) as Hb.
  pose proof (from_db_stable s b t Hs Hb) as Heq.
  destruct (is_block_time_valid (impl s) b t) as [[]|] eqn:Hv; simpl_monad; [|by apply Hdb|];
    rewrite Heq; exists (from_last_by_hash s); by rewrite Hid.
Qed.


Lemma stable_block_for_spec s h ts :
  sound s ->
  exists cache, stable_block_for h ts s =
    (update cache s,
     t ←? lift (timestamp_to_db_type ts);
     match get_stable_block_by_hash_from_db s h t with
     | Panic => Panic
     | Done (Err e) => Done (Err e)
     | Done (Ok None) => Done (Ok None)
     | Done (Ok (Some b)) => b ←? run (to_mainchain_block b); Done (Ok (Some b))
     end) /\ sound (update cache s).
Proof.
  intros Hs. unfold stable_block_for, bind_stateful, stateless, lift.
  destruct (timestamp_to_db_type ts) as [t|e]; simpl_monad.
  - by apply get_stable_by_hash_spec.
  - exists (from_last_by_hash s). by destruct s.
Qed.

(** *** The laws of the interface *)
Definition db_serves s (ts : Z) (m : MainchainBlock) : Prop :=
  exists b t, stable s b /\ to_mainchain_block b = Done m /\
    timestamp_to_db_type ts = Ok t /\ is_block_time_valid (impl s) b t = Done true.

#[export] Instance db_sync_mc_hash_laws : McHashDataSourceLaws Source.
Proof.
  refine {| serves := db_serves; source_ok := sound |}.
  - intros s ts m Hs (b & t & Hb & Hm & Ht & Hv). destruct (stable_block_for_spec s (mb_hash m) ts Hs) as (cache & Heq & _).
    cbn [get_stable_block_for db_sync_mc_hash]. rewrite Heq, Ht. simpl_monad.
    assert (hash b = mb_hash m) as <-.
    { rewrite (to_mainchain_block_Done s) in Hm by (done || apply Hb). by injection Hm as <-. }
    rewrite from_db_stable, Hv by done. cbn iota. rewrite Hm. by eexists.
  - intros s ts h s' m Hs. cbn [get_stable_block_for db_sync_mc_hash].
    destruct (stable_block_for_spec s h ts Hs) as (cache & -> & _).
    destruct (timestamp_to_db_type ts) as [t|] eqn:Ht; simpl_monad; [|by intros [= _]].
    destruct (get_stable_block_by_hash_from_db s h t) as [[[b|]|]|] eqn:Hb; try by intros [= _].
    apply from_db_Some in Hb as (Hb & <- & Hv); [|done].
    rewrite (to_mainchain_block_Done s) by (done || apply Hb). simpl_monad. intros [= _ <-].
    split; [|done]. exists b, t. by rewrite (to_mainchain_block_Done s) by (done || apply Hb).
  - intros s ts h s' r Hs. cbn [get_stable_block_for db_sync_mc_hash].
    destruct (stable_block_for_spec s h ts Hs) as (cache & -> & Hs'). intros [= <- _]. done.
Defined.
End Cache.

(** A node asks for blocks while its database grows; [answer_all] keeps the cache. *)
Section Requests.
Import Db BlockDataSource.
Context `{Chrono}.
Definition Request : Type := list BlockRow * McBlockHash * Z.
Fixpoint answer_all (c : BlockDataSourceImpl) (cache : list Block) (requests : list Request)
    : list (fallible string (option MainchainBlock)) :=
  match requests with
  | [] => []
  | (db, h, ts) :: requests' =>
      let '(s, r) := get_stable_block_for h ts (mkSource c db cache) in
      r :: answer_all c (from_last_by_hash s) requests'
  end.
(** Each request answered by a data source that has just started. *)
Definition answer_uncached (c : BlockDataSourceImpl) (request : Request) : fallible string (option MainchainBlock) :=
  let '(db, h, ts) := request in snd (get_stable_block_for h ts (mkSource c db [])).

(** The database grows: blocks that are stable stay. *)
Fixpoint growing (c : BlockDataSourceImpl) (db : list BlockRow) (requests : list Request) : Prop :=
  match requests with
  | [] => True
  | (db', _, _) :: requests' =>
      wf_db db' /\ (forall b, stable (mkSource c db []) b -> stable (mkSource c db' []) b) /\ growing c db' requests'
  end.
End Requests.

(** C13: The cache of stable blocks is transparent: however a node's database grows (rolling
    back at most unstable blocks) between requests, every request for a block by its hash
    is answered as if there were no cache, errors and panics included. *)
Theorem block_cache_transparent `{ChronoLaws} c db requests :
  wf_impl c -> growing c db requests ->
  answer_all c [] requests = map (answer_uncached c) requests.
Proof.
  intros Hc Hg.
  assert (forall b, b ∈ [] -> stable (BlockDataSource.mkSource c db []) b) as Hcache by (intros b Hb; by apply elem_of_nil in Hb).
  revert Hcache. generalize (@nil Db.Block) at 1 3. revert db Hg.
  induction requests as [|[[db' h] ts] requests IH]; intros db Hg cache Hcache; [done|].
  destruct Hg as (Hw & Hgrow & Hg). cbn [answer_all map answer_uncached].
  assert (sound (BlockDataSource.mkSource c db' cache)) as Hs.
  { split; [done|done|]. intros b Hb. apply (Hgrow b), Hcache, Hb. }
  assert (sound (BlockDataSource.mkSource c db' [])) as Hs0 by (split; [done|done|intros b Hb; by apply elem_of_nil in Hb]).
  cbn [get_stable_block_for BlockDataSource.db_sync_mc_hash].
  destruct (stable_block_for_spec _ h ts Hs) as (cache1 & -> & Hs1).
  destruct (stable_block_for_spec _ h ts Hs0) as (cache2 & -> & _). cbn [snd BlockDataSource.update].
  f_equal. apply (IH db'); [done|]. apply (sound_cache _ Hs1).
Qed.

(** ** Proposals *)
Section Proposals.
Import Db BlockDataSource.
Context `{ChronoLaws}.
Implicit Types (c : BlockDataSourceImpl) (s : Source) (b : Block).

Definition offset c : Z := security_parameter c + block_stability_margin c.

(** The window of times and slots for a reference timestamp. *)
Record window c (ts lo lo_slot hi hi_slot : Z) : Prop := {
  window_ts : exists t, timestamp_to_db_type ts = Ok t /\
    min_block_allowed_time c t = Done lo /\ max_allowed_block_time c t = Done hi;
  window_lo : date_time_to_slot c lo = Done (Ok lo_slot);
  window_hi : date_time_to_slot c hi = Done (Ok hi_slot)
}.
Definition eligible s (l : Block) (lo lo_slot hi hi_slot : Z) b : Prop :=
  b ∈ blocks (pool s) /\ block_no b <= saturating_sub (block_no l) (offset (impl s)) /\
  lo <= time b <= hi /\ sql_int 64 lo_slot <= slot_no b <= sql_int 64 hi_slot.

(** A proposal is the highest eligible block. *)
Lemma proposal_spec s ts m :
  sound s -> latest_stable_block_for ts s = Done (Ok (Some m)) ->
  exists l lo lo_slot hi hi_slot b, get_latest_block_info (pool s) = Ok (Some l) /\
    window (impl s) ts lo lo_slot hi hi_slot /\ to_mainchain_block b = Done m /\
    eligible s l lo lo_slot hi hi_slot b /\
    forall b', eligible s l lo lo_slot hi hi_slot b' -> block_no b' <= block_no b.
Proof.
  intros Hs. pose proof (latest_spec _ (sound_db _ Hs)) as Hl.
  unfold latest_stable_block_for, source_latest_block_info, get_latest_block. simpl_monad.
  destruct (timestamp_to_db_type ts) as [t|] eqn:Ht; simpl_monad; [|done].
  destruct (get_latest_block_info (pool s)) as [[l|]|] eqn:Hlat; simpl_monad; [|done|done].
  destruct Hl as [Hlin _]. destruct (wf_numbers _ (sound_db _ Hs) l Hlin) as [Hln _].
  rewrite (to_mainchain_block_Done s l Hs Hlin). simpl_monad. cbn [mb_number].
  destruct (min_block_allowed_time (impl s) t) as [lo|] eqn:Hlo; simpl_monad; [|done].
  destruct (date_time_to_slot (impl s) lo) as [[lo_slot|]|] eqn:Hlos; simpl_monad; [|done..].
  destruct (max_allowed_block_time (impl s) t) as [hi|] eqn:Hhi; simpl_monad; [|done].
  destruct (date_time_to_slot (impl s) hi) as [[hi_slot|]|] eqn:Hhis; simpl_monad; [|done..].
  destruct (sound_impl _ Hs) as [Hk Hmg Hoff _ _ _].
  rewrite wrapping_add_small by (unfold in_width; lia). fold (offset (impl s)).
  set (top := saturating_sub (block_no l) (offset (impl s))).
  assert (sql_int 32 top = top) as Htop.
  { unfold sql_int, top, saturating_sub, offset. rewrite (proj2 (Z.ltb_lt _ _)) by lia. done. }
  unfold get_highest_block. rewrite Htop.
  set (P := in_window top lo (sql_int 64 lo_slot) hi (sql_int 64 hi_slot)).
  assert (forall r, P r -> is_Some (row_block_no r)) as HP.
  { intros r. unfold P, in_window. destruct (row_block_no r); [by eexists|done]. }
  pose proof (decode_max_spec (pool s) P (sound_db _ Hs) HP) as Hmax.
  assert (forall r b, decode_block r = Ok b -> r ∈ pool s -> P r <-> eligible s l lo lo_slot hi hi_slot b) as HPe.
  { intros r b Hb Hr. assert (b ∈ blocks (pool s)) by (apply elem_of_blocks; eauto).
    apply decode_block_Ok in Hb as (Hn & _ & Hsl & Hti & _ & _). unfold P, in_window, eligible.
    rewrite Hn, Hsl, Hti, !andb_True, !Is_true_true, !Z.leb_le. fold top. tauto. }
  destruct (decode_optional _) as [[b|]|]; [|done|done]. simpl_monad. destruct Hmax as [(r & Hr & HPr & Hb) Hmax].
  assert (b ∈ blocks (pool s)) as Hbin by (apply elem_of_blocks; eauto).
  rewrite (to_mainchain_block_Done s b Hs Hbin). simpl_monad. intros [= <-].
  exists l, lo, lo_slot, hi, hi_slot, b. split_and!; [done | by split; [exists t|..] |
    by apply (to_mainchain_block_Done s) | by apply (HPe r) | ].
  intros b' He. pose proof He as ((r' & Hr' & Hb')%elem_of_blocks & _). eapply Hmax; [done| |done]. by apply (HPe r' b').
Qed.

Lemma date_time_to_slot_mono c dt dt' n n' :
  wf_config (mainchain_epoch_config c) -> first_slot_number (mainchain_epoch_config c) < 2 ^ 62 ->
  dt <= dt' <= 8 * 10 ^ 15 ->
  date_time_to_slot c dt = Done (Ok n) -> date_time_to_slot c dt' = Done (Ok n') -> n <= n' < 2 ^ 63.
Proof.
  intros [Ht0 _ _ Hs0 _] Hf Hle.
  assert (forall x m, x <= 8 * 10 ^ 15 -> date_time_to_slot c x = Done (Ok m) -> 0 <= x /\
    m = first_slot_number (mainchain_epoch_config c) +
        Z.max 0 (x - first_epoch_timestamp_millis (mainchain_epoch_config c)) / 1000) as Hspec.
  { intros x m Hx. unfold date_time_to_slot.
    destruct (try_into_width 64 x) as [y|] eqn:Hy; simpl_monad; [|done].
    apply try_into_width_Some in Hy as [Hxw ->]. unfold in_width in *.
    cbn [timestamp_to_mainchain_slot_number MainchainEpochConfig_derivation].
    unfold config_timestamp_to_mainchain_slot_number, checked_sub.
    destruct (Z.leb_spec (first_epoch_timestamp_millis (mainchain_epoch_config c)) x); simpl_monad; intros [= <-].
    - rewrite Z.max_r by lia. split; [lia|]. apply wrapping_add_small. unfold in_width.
      pose proof (Z.div_pos (x - first_epoch_timestamp_millis (mainchain_epoch_config c)) 1000 ltac:(lia) ltac:(lia)).
      pose proof (Z.div_le_upper_bound (x - first_epoch_timestamp_millis (mainchain_epoch_config c)) 1000
        (8 * 10 ^ 15) ltac:(lia) ltac:(lia)). lia.
    - rewrite Z.max_l by lia. split; [lia|]. rewrite Zdiv_0_l. lia. }
  intros [H1 ->]%Hspec [H2 ->]%Hspec; [|lia|lia]. unfold in_width in *. split.
  - apply Zplus_le_compat_l, Z.div_le_mono; lia.
  - pose proof (Z.div_le_upper_bound (Z.max 0 (dt' - first_epoch_timestamp_millis (mainchain_epoch_config c))) 1000
      (8 * 10 ^ 15) ltac:(lia) ltac:(lia)). lia.
Qed.

(** [s'] has every block that [s] holds deep enough to propose, as deep. *)
Definition keeps_up s s' : Prop := impl s' = impl s /\
  forall l l', get_latest_block_info (pool s) = Ok (Some l) -> get_latest_block_info (pool s') = Ok (Some l') ->
    block_no l <= block_no l' /\
    forall b, b ∈ blocks (pool s) -> block_no b + offset (impl s) <= block_no l -> b ∈ blocks (pool s').
(** [s'] may lag behind [s], but by no more than the stability margin. *)
Definition lags_within_margin s s' : Prop := impl s' = impl s /\
  forall l b, get_latest_block_info (pool s) = Ok (Some l) -> b ∈ blocks (pool s) ->
    block_no b + offset (impl s) <= block_no l -> stable s' b.
(** The chain is longer than the offset. *)
Definition long_chain s : Prop :=
  forall l, get_latest_block_info (pool s) = Ok (Some l) -> offset (impl s) <= block_no l.
(** Slots and times of blocks are those of the main chain's configuration. *)
Definition slots_match s : Prop :=
  forall b, b ∈ blocks (pool s) -> date_time_to_slot (impl s) (time b) = Done (Ok (slot_no b)).

Lemma proposal_served s s' ts m :
  sound s -> sound s' -> long_chain s -> lags_within_margin s s' ->
  latest_stable_block_for ts s = Done (Ok (Some m)) -> db_serves s' ts m.
Proof.
  intros Hs Hs' Hlong [Hi Hlag] Hp. apply proposal_spec in Hp as
    (l & lo & lo_slot & hi & hi_slot & b & Hl & [(t & Ht & Hlo & Hhi) _ _] & Hm & (Hb & Hn & Hti & _) & _); [|done].
  specialize (Hlong l Hl). unfold saturating_sub in Hn.
  exists b, t. split_and!; [apply (Hlag l); [done|done|lia] | done | done |].
  unfold is_block_time_valid. rewrite Hi, Hlo. simpl_monad. rewrite (proj2 (Z.leb_le _ _)) by lia.
  rewrite Hhi. simpl_monad. by rewrite (proj2 (Z.leb_le _ _)) by lia.
Qed.

Lemma window_bounds c ts lo lo_slot hi hi_slot :
  window c ts lo lo_slot hi hi_slot ->
  lo = ts - 1000 * max_slot_boundary_as_seconds c /\ hi = ts - 1000 * min_slot_boundary_as_seconds c.
Proof.
  intros [(t & Ht & Hlo & Hhi) _ _]. unfold timestamp_to_db_type in Ht. destruct (ts <? 2 ^ 63); [|done].
  cbn in Ht. destruct (from_timestamp_millis ts) eqn:Hf; [|done]. cbn in Ht. injection Ht as ->.
  apply from_timestamp_millis_value in Hf as ->. split; by apply naive_sub_value.
Qed.

(** A later proposal is not lower, if it is made from a chain that is as long. *)
Lemma proposals_monotone s s' ts ts' m m' :
  sound s -> sound s' -> long_chain s -> keeps_up s s' -> slots_match s' ->
  wf_config (mainchain_epoch_config (impl s')) -> first_slot_number (mainchain_epoch_config (impl s')) < 2 ^ 62 ->
  ts <= ts' <= 8 * 10 ^ 15 ->
  latest_stable_block_for ts s = Done (Ok (Some m)) -> latest_stable_block_for ts' s' = Done (Ok (Some m')) ->
  mb_number m <= mb_number m'.
Proof.
  intros Hs Hs' Hlong [Hi Hk] Hslots Hcfg Hfirst Hts Hp Hp'.
  apply proposal_spec in Hp as (l & lo & ls & hi & hs & b & Hl & Hw & Hm & (Hb & Hn & Hti & _) & _); [|done].
  apply proposal_spec in Hp' as (l' & lo' & ls' & hi' & hs' & b' & Hl' & Hw' & Hm' & He' & Hmax); [|done].
  pose proof He' as (Hb' & Hn' & Hti' & _).
  destruct (Hk l l' Hl Hl') as [Hle Hin]. specialize (Hlong l Hl). unfold saturating_sub in Hn.
  assert (b ∈ blocks (pool s')) as Hbin by (apply Hin; [done|lia]).
  rewrite (to_mainchain_block_Done s') in Hm, Hm' by done. injection Hm as <-. injection Hm' as <-. cbn.
  pose proof (wf_boundaries _ (sound_impl _ Hs')). rewrite Hi in *.
  destruct (window_bounds _ _ _ _ _ _ Hw) as [_ ->]. destruct (window_bounds _ _ _ _ _ _ Hw') as [-> ->].
  destruct (Z.le_gt_cases (ts' - 1000 * max_slot_boundary_as_seconds (impl s)) (time b)) as [Hge|Hlt].
  - apply Hmax. split; [done|]. split; [|split; [lia|]]. { unfold saturating_sub. rewrite Hi. lia. }
    pose proof (wf_times _ (sound_db _ Hs') b Hbin). destruct Hw' as [_ Hwlo Hwhi]. specialize (Hslots b Hbin). rewrite Hi in Hslots.
    assert (time b <= 8 * 10 ^ 15) as Hb15 by lia.
    destruct (date_time_to_slot_mono (impl s) _ _ _ _ Hcfg Hfirst (conj Hge Hb15) Hwlo Hslots).
    destruct (date_time_to_slot_mono (impl s) (time b) (ts' - 1000 * min_slot_boundary_as_seconds (impl s)) _ _ Hcfg Hfirst ltac:(lia) Hslots Hwhi).
    unfold sql_int. rewrite !(proj2 (Z.ltb_lt _ _)) by lia. lia.
  - destruct (Z.le_gt_cases (block_no b) (block_no b')) as [|Hgt]; [done|].
    pose proof (wf_order _ (sound_db _ Hs') b' b Hb' Hbin ltac:(lia)). lia.
Qed.
End Proposals.

(** C11: A proposed main chain reference is accepted. The author of the parent proposed a
    reference for slot [p] from its database [P], the author of the block proposes one for
    a later slot from [A], which has followed the main chain at least as far; then a node
    with database [V] accepts the block's reference, although [V] may lag behind both
    authors by up to [block_stability_margin] blocks. The main chain is longer than the security
    parameter and that margin together, and its slots and times match its configuration. *)
Theorem proposed_reference_is_verified `{SlotOpsLaws, ChronoLaws} P A V n logs p slot d bp b :
  sound P -> sound A -> sound V -> long_chain P -> long_chain A ->
  keeps_up P A -> lags_within_margin P V -> lags_within_margin A V -> slots_match A ->
  wf_config (BlockDataSource.mainchain_epoch_config (BlockDataSource.impl A)) ->
  first_slot_number (BlockDataSource.mainchain_epoch_config (BlockDataSource.impl A)) < 2 ^ 62 ->
  0 <= d -> 0 <= p <= slot -> slot * d <= 8 * 10 ^ 15 ->
  McHash.new_proposal p d P = Done (Ok bp) -> McHash.new_proposal slot d A = Done (Ok b) ->
  let parent := mkHeader n (McHash.from_mc_block_hash (mb_hash bp) ++ logs) in
  exists V', McHash.new_verification parent (Some p) slot (mb_hash b) d V = (V', Done (Ok b)).
Proof.
  intros HP HA HV HlP HlA Hk HlagP HlagA Hslots Hcfg Hfirst Hd Hp Hmax Hbp Hb parent.
  assert (forall k, 0 <= k <= slot -> Slot_timestamp k d = Some (k * d)) as Hts.
  { intros k Hk'. rewrite Slot_timestamp_spec by lia. rewrite (proj2 (Z.ltb_lt _ _)); [done|]. nia. }
  unfold McHash.new_proposal in Hbp, Hb. rewrite Hts in Hbp, Hb by lia. cbn [ok_or lift bind_fallible] in Hbp, Hb.
  cbn [get_latest_stable_block_for BlockDataSource.db_sync_mc_hash] in Hbp, Hb.
  destruct (BlockDataSource.latest_stable_block_for (p * d) P) as [[[mp|]|]|] eqn:Hprop; [|done..].
  destruct (BlockDataSource.latest_stable_block_for (slot * d) A) as [[[m|]|]|] eqn:Hprop'; [|done..].
  cbn in Hbp, Hb. injection Hbp as ->. injection Hb as ->.
  assert (length (mb_hash bp) = 32%nat) as Hlen.
  { apply proposal_spec in Hprop as (_ & _ & _ & _ & _ & blk & _ & _ & Hm & (Hin & _) & _); [|done].
    rewrite (to_mainchain_block_Done P) in Hm by done. injection Hm as <-. cbn.
    apply elem_of_blocks in Hin as (r & _ & Hr). by apply decode_hash_length in Hr. }
  apply (reference_verification_iff (H1 := db_sync_mc_hash_laws) parent (Some p) slot (mb_hash b) d V b HV).
  split_and!; [done| |].
  - exists (slot * d). rewrite Hts by lia. split; [done|]. by apply (proposal_served A).
  - exists bp, (p * d). subst parent. cbn [digest_logs]. rewrite McHash.value_from_own_digest, Hts by (done || lia).
    split_and!; try done; [by apply (proposal_served P)|].
    eapply (proposals_monotone P A (p * d) (slot * d)); try done; nia.
Qed.

(** ** A main chain of one block per second *)
Module ExampleChain2.
Import Db BlockDataSource.
#[export] Instance unbounded_chrono : Chrono := {|
  from_timestamp_millis := Some; naive_sub_seconds dt d := Done (dt - 1000 * d) |}.
#[export] Instance unbounded_chrono_laws : ChronoLaws.
Proof. split; cbn; [by intros ? ? [= ->] | done | by intros ? ? ? [= <-] | done]. Qed.

Definition row (i : Z) : BlockRow := mkBlockRow (Some i) (replicate 32 i) (Some 0) (Some (100 + i)) (1000 * (100 + i)).
Definition block (i : Z) : Block := mkBlock i (replicate 32 i) 0 (100 + i) (1000 * (100 + i)).
Definition rows (n : Z) : list BlockRow := map row (seqZ 0 n).
Definition config : BlockDataSourceImpl :=
  mkBlockDataSourceImpl 2 4 12 (mkMainchainEpochConfig 0 10000 0 0) 1 3.
Definition source (n : Z) : Source := mkSource config (rows n) [].

Lemma decode_row i : 0 <= i -> decode_block (row i) = Ok (block i).
Proof.
  intros Hi. unfold decode_block, decode_unsigned, row. cbn [row_block_no row_hash row_epoch_no row_slot_no ok_or mbind result_bind].
  rewrite (proj2 (Z.leb_le 0 i)) by done. cbn - [Z.add Z.mul Z.leb]. by rewrite (proj2 (Z.leb_le 0 (100 + i))) by lia.
Qed.
Lemma elem_of_rows n r : r ∈ rows n <-> exists i, 0 <= i < n /\ r = row i.
Proof.
  unfold rows. rewrite list_elem_of_fmap. setoid_rewrite elem_of_seqZ. split.
  - intros (i & -> & Hi). exists i. split; [lia|done].
  - intros (i & Hi & ->). exists i. split; [done|lia].
Qed.
Lemma elem_of_row_blocks n b : b ∈ blocks (rows n) <-> exists i, 0 <= i < n /\ b = block i.
Proof.
  rewrite elem_of_blocks. split.
  - intros (r & (i & Hi & ->)%elem_of_rows & Hb). rewrite decode_row in Hb by lia. injection Hb as <-. eauto.
  - intros (i & Hi & ->). exists (row i). rewrite elem_of_rows, decode_row by lia. eauto.
Qed.
Lemma rows_wf n : n <= 2 ^ 20 -> wf_db (rows n).
Proof.
  intros Hn. split.
  - intros r (i & Hi & ->)%elem_of_rows _. exists (block i). apply decode_row. lia.
  - intros b (i & Hi & ->)%elem_of_row_blocks. cbn [block block_no slot_no]. lia.
  - intros b (i & Hi & ->)%elem_of_row_blocks. cbn [block time]. lia.
  - intros r r' (i & Hi & ->)%elem_of_rows (j & Hj & ->)%elem_of_rows. cbn. by intros [= ->].
  - intros b b' (i & Hi & ->)%elem_of_row_blocks (j & Hj & ->)%elem_of_row_blocks. cbn. by intros ->.
  - intros b b' (i & Hi & ->)%elem_of_row_blocks (j & Hj & ->)%elem_of_row_blocks. cbn [block block_no time]. lia.
Qed.
Lemma source_sound n : n <= 2 ^ 20 -> sound (source n).
Proof.
  intros Hn. split; [split; cbn; lia | by apply rows_wf | intros b Hb; by apply elem_of_nil in Hb].
Qed.
End ExampleChain2.

Section Witnesses.
Import ExampleChain2 ConcreteSlot.
#[local] Definition reference4 := mkMainchainBlock 4 (replicate 32 4) 0 104 104.
#[local] Definition reference6 := mkMainchainBlock 6 (replicate 32 6) 0 106 106.

Lemma latest_of_rows n l :
  1 <= n <= 2 ^ 20 -> Db.get_latest_block_info (rows n) = Ok (Some l) -> l = block (n - 1).
Proof.
  intros Hn Hl. pose proof (latest_spec _ (rows_wf n ltac:(lia))) as Hs. rewrite Hl in Hs.
  destruct Hs as [(i & Hi & ->)%elem_of_row_blocks Hmax].
  pose proof (Hmax (block (n - 1))) as Hm. rewrite elem_of_row_blocks in Hm.
  specialize (Hm ltac:(exists (n - 1); split; [lia|done])). cbn in Hm. by replace i with (n - 1) by lia.
Qed.

Lemma rows_lag n m :
  1 <= n <= 2 ^ 20 -> 1 <= m <= 2 ^ 20 -> n <= m + 1 ->
  Db.get_latest_block_info (rows m) = Ok (Some (block (m - 1))) -> lags_within_margin (source n) (source m).
Proof.
  intros Hn Hm Hle Hlat. split; [done|]. intros l b Hl (i & Hi & ->)%elem_of_row_blocks Hdeep.
  apply latest_of_rows in Hl as ->; [|done]. unfold offset in Hdeep; cbn in Hdeep. split; [apply elem_of_row_blocks; exists i; split; [lia|done]|].
  exists (block (m - 1)). split; [done|]. cbn. lia.
Qed.

(** The authors have seen blocks 0 to 7 and 0 to 9, the importing node 0 to 8. *)
Lemma proposed_reference_is_verified_witness :
  McHash.new_proposal 108 1000 (source 8) = Done (Ok reference4) /\
  McHash.new_proposal 110 1000 (source 10) = Done (Ok reference6) /\
  let parent := mkHeader 7 (McHash.from_mc_block_hash (mb_hash reference4) ++ []) in
  exists V', McHash.new_verification parent (Some 108) 110 (mb_hash reference6) 1000 (source 9) = (V', Done (Ok reference6)).
Proof.
  assert (McHash.new_proposal 108 1000 (source 8) = Done (Ok reference4)) as H4 by (vm_compute; reflexivity).
  assert (McHash.new_proposal 110 1000 (source 10) = Done (Ok reference6)) as H6 by (vm_compute; reflexivity).
  split; [exact H4|]. split; [exact H6|].
  apply (proposed_reference_is_verified (source 8) (source 10)); try exact H4; try exact H6; try lia.
  - apply source_sound; lia.
  - apply source_sound; lia.
  - apply source_sound; lia.
  - intros l Hl. apply latest_of_rows in Hl as ->; [|lia]. unfold offset. cbn. lia.
  - intros l Hl. apply latest_of_rows in Hl as ->; [|lia]. unfold offset. cbn. lia.
  - split; [done|]. intros l l' Hl Hl'. apply latest_of_rows in Hl as ->; [|lia]. apply latest_of_rows in Hl' as ->; [|lia].
    split; [cbn; lia|]. intros b (i & Hi & ->)%elem_of_row_blocks _. apply elem_of_row_blocks. exists i. split; [lia|done].
  - apply rows_lag; [lia..|reflexivity].
  - apply rows_lag; [lia..|reflexivity].
  - intros b (i & Hi & ->)%elem_of_row_blocks.
    pose proof (check_range (fun i => match BlockDataSource.date_time_to_slot config (Db.time (block i)) with
      | Done (Ok s) => s =? Db.slot_no (block i) | _ => false end) 0 10 i eq_refl ltac:(lia)) as Hd. cbn beta in Hd.
    cbn [source BlockDataSource.impl].
    destruct (BlockDataSource.date_time_to_slot config (Db.time (block i))) as [[s|]|]; [|done..].
    by apply Z.eqb_eq in Hd as ->.
  - split; cbn; unfold in_width; lia.
  - cbn. lia.
Defined.

Lemma block_cache_transparent_witness :
  let requests := [(rows 8, replicate 32 4, 108000); (rows 9, replicate 32 5, 109000); (rows 9, replicate 32 9, 109000)] in
  answer_all config [] requests = map (answer_uncached config) requests /\
  map (answer_uncached config) requests =
    [Done (Ok (Some reference4)); Done (Ok (Some (mkMainchainBlock 5 (replicate 32 5) 0 105 105))); Done (Ok None)].
Proof.
  cbn zeta. split; [|vm_compute; reflexivity]. apply (block_cache_transparent config (rows 8)).
  - split; cbn; lia.
  - split; [by apply rows_wf; lia|]. split; [done|]. split; [by apply rows_wf; lia|]. split.
    { intros b [Hb (l & Hl & Hle)]. cbn [BlockDataSource.pool] in *. apply latest_of_rows in Hl as ->; [|lia].
      cbn in Hle. apply elem_of_row_blocks in Hb as (i & Hi & ->). split; [apply elem_of_row_blocks; exists i; split; [lia|done]|].
      exists (block 8). split; [reflexivity|]. cbn in *. lia. }
    split; [by apply rows_wf; lia|]. done.
Defined.

Lemma reference_verification_witness :
  (exists s', McHash.new_verification (mkHeader 0 []) None 108 (mb_hash reference4) 1000 (source 8) =
     (s', Done (Ok reference4))) <->
  mb_hash reference4 = mb_hash reference4 /\
  (exists ts, Slot_timestamp 108 1000 = Some ts /\ serves (source 8) ts reference4) /\ True.
Proof. apply (reference_verification (mkHeader 0 []) None). apply source_sound. lia. Defined.
End Witnesses.
