(* ===== verification/Cbor.v ===== *)
(** * Plutus data: datums, their CBOR and JSON forms

    [toolkit/utils/plutus]: the type [Datum], the trait [ToDatum] and what its
    derive macro generates ([plutus-datum-derive]), the CBOR encoding
    ([cbor.rs]) and the JSON conversions ([lib.rs]).

    [minicbor]'s encoder, [num_bigint]'s [to_bytes_be] and [hex] are
    third-party. [Minicbor] has one operation per encoder method the code calls;
    its laws say that each call writes one self-delimiting head of RFC 8949,
    which the reader [next] recognizes. *)

From S2P Require Import Prelude Domain.
#[local] Set Warnings "-register-all".

(** ** Datums *)

Inductive Datum : Type :=
| IntegerDatum (i : Z)
| ByteStringDatum (bs : bytes)
| ConstructorDatum (constructor : Z) (fields : list Datum)
| ListDatum (items : list Datum)
| MapDatum (entries : list (Datum * Datum)).

Section DatumInd.
Context (P : Datum -> Prop).
Context (HI : forall i, P (IntegerDatum i)) (HB : forall bs, P (ByteStringDatum bs)).
Context (HC : forall c fs, Forall P fs -> P (ConstructorDatum c fs)).
Context (HL : forall ds, Forall P ds -> P (ListDatum ds)).
Context (HM : forall es, Forall (fun e => P (fst e) /\ P (snd e)) es -> P (MapDatum es)).

Fixpoint Datum_nested_ind (d : Datum) : P d :=
  match d with
  | IntegerDatum i => HI i
  | ByteStringDatum bs => HB bs
  | ConstructorDatum c fs => HC c fs
      ((fix go l : Forall P l := match l with
        | [] => Forall_nil_2 _
        | d :: l' => Forall_cons_2 _ _ _ (Datum_nested_ind d) (go l')
        end) fs)
  | ListDatum ds => HL ds
      ((fix go l : Forall P l := match l with
        | [] => Forall_nil_2 _
        | d :: l' => Forall_cons_2 _ _ _ (Datum_nested_ind d) (go l')
        end) ds)
  | MapDatum es => HM es
      ((fix go l : Forall (fun e => P (fst e) /\ P (snd e)) l := match l with
        | [] => Forall_nil_2 _
        | (k, v) :: l' => Forall_cons_2 (fun e => P (fst e) /\ P (snd e)) (k, v) l'
            (conj (Datum_nested_ind k) (Datum_nested_ind v)) (go l')
        end) es)
  end.
End DatumInd.

Class ToDatum (A : Type) := to_datum : A -> Datum.
#[export] Instance bytes_to_datum : ToDatum bytes := ByteStringDatum.
#[export] Instance option_to_datum `{ToDatum A} : ToDatum (option A) := fun o =>
  match o with
  | Some value => ConstructorDatum 0 [to_datum value]
  | None => ConstructorDatum 1 []
  end.
#[export] Instance list_to_datum `{ToDatum A} : ToDatum (list A) := fun l =>
  ListDatum (map to_datum l).
#[export] Instance datum_to_datum : ToDatum Datum := fun d => d.
(** [Datum::integer], for [u16], [u32], [u64] and [u128]. *)
Definition integer (value : Z) : Datum := IntegerDatum value.
Definition as_bytestring (d : Datum) : option bytes :=
  match d with ByteStringDatum bs => Some bs | _ => None end.

(** The body that [#[derive(ToDatum)]] generates from the datums of the fields:
    a single field is its own datum unless [constructor_datum] is set. *)
Definition impl_to_datum_derive (has_constructor_datum_attribute : bool) (fields : list Datum) : Datum :=
  match fields, has_constructor_datum_attribute with
  | [field], false => field
  | _, _ => ConstructorDatum 0 fields
  end.

Definition McTxHash_to_datum (h : McTxHash) : Datum :=
  impl_to_datum_derive true [bytes_to_datum h].
Definition UtxoIndex_to_datum (i : UtxoIndex) : Datum := impl_to_datum_derive false [integer i].
#[export] Instance UtxoId_to_datum : ToDatum UtxoId := fun u =>
  impl_to_datum_derive false [McTxHash_to_datum (tx_hash u); UtxoIndex_to_datum (index u)].

(** ** CBOR *)

(** Heads of RFC 8949 data items. *)
Inductive Item :=
| IInt (n : Z) | IBytes (bs : bytes) | IBeginBytes | ITag (t : Z)
| IArray (n : Z) | IBeginArray | IMap (n : Z) | IBreak.

Class Minicbor := {
  enc_i64 : Z -> bytes; enc_u64 : Z -> bytes; enc_bytes : bytes -> bytes; enc_begin_bytes : bytes;
  enc_tag : Z -> bytes; enc_array : Z -> bytes; enc_begin_array : bytes; enc_map : Z -> bytes;
  enc_end : bytes;
  (* [BigInt::to_bytes_be] of a number's magnitude *)
  to_bytes_be : Z -> bytes;
  next : bytes -> option (Item * bytes)
}.
Class MinicborLaws `{Minicbor} : Prop := {
  next_i64 : forall n r, - 2 ^ 63 <= n < 2 ^ 63 -> next (enc_i64 n ++ r) = Some (IInt n, r);
  next_u64 : forall n r, in_width 64 n -> next (enc_u64 n ++ r) = Some (IInt n, r);
  next_bytes : forall bs r, in_width 64 (Z.of_nat (length bs)) ->
    next (enc_bytes bs ++ r) = Some (IBytes bs, r);
  next_begin_bytes : forall r, next (enc_begin_bytes ++ r) = Some (IBeginBytes, r);
  next_tag : forall t r, in_width 64 t -> next (enc_tag t ++ r) = Some (ITag t, r);
  next_array : forall n r, in_width 64 n -> next (enc_array n ++ r) = Some (IArray n, r);
  next_begin_array : forall r, next (enc_begin_array ++ r) = Some (IBeginArray, r);
  next_map : forall n r, in_width 64 n -> next (enc_map n ++ r) = Some (IMap n, r);
  next_end : forall r, next (enc_end ++ r) = Some (IBreak, r);
  be_value_to_bytes_be : forall n, 0 <= n -> be_value (to_bytes_be n) = n
}.

Section Encode.
Context `{Minicbor}.

Definition BYTES_CHUNK_SIZE_LIMIT : nat := 64.

(** [slice::chunks(n)]; the length of the slice is enough fuel. *)
Fixpoint chunks_aux (fuel n : nat) (bs : bytes) : list bytes :=
  match fuel with
  | O => []
  | S f => if bool_decide (bs = []) then [] else take n bs :: chunks_aux f n (drop n bs)
  end.
Definition chunks (n : nat) (bs : bytes) : list bytes := chunks_aux (length bs) n bs.

Definition encode_bytestring (bs : bytes) : bytes :=
  if (length bs <=? BYTES_CHUNK_SIZE_LIMIT)%nat then enc_bytes bs
  else enc_begin_bytes ++ concat (map enc_bytes (chunks BYTES_CHUNK_SIZE_LIMIT bs)) ++ enc_end.

(** [Tag::PosBignum] and [Tag::NegBignum] are the tags 2 and 3. *)
Definition encode_integer (i : Z) : bytes :=
  if (- 2 ^ 63 <=? i) && (i <? 2 ^ 63) then enc_i64 i
  else (if 0 <? i then enc_tag 2 else enc_tag 3) ++ encode_bytestring (to_bytes_be (Z.abs i)).

Definition constructor_small_tag (value : Z) : Z := value +[64] 121.
Definition constructor_big_tag (value : Z) : Z := (1280 +[64] value) -[64] 7.
Definition CONSTRUCTOR_OVER_LIMIT_TAG : Z := 102.

Definition encode_linear_seq (encode_datum : Datum -> bytes) (ds : list Datum) : bytes :=
  match ds with
  | [] => enc_array 0
  | _ => enc_begin_array ++ concat (map encode_datum ds) ++ enc_end
  end.
Definition encode_constructor_over_limit_fields (encode_datum : Datum -> bytes) (constructor : Z)
    (ds : list Datum) : bytes :=
  enc_array 2 ++ enc_u64 constructor ++ encode_linear_seq encode_datum ds.
Definition encode_constructor (encode_datum : Datum -> bytes) (constructor : Z) (fields : list Datum) : bytes :=
  if constructor <? 7 then
    enc_tag (constructor_small_tag constructor) ++ encode_linear_seq encode_datum fields
  else if (7 <=? constructor) && (constructor <? 128) then
    enc_tag (constructor_big_tag constructor) ++ encode_linear_seq encode_datum fields
  else enc_tag CONSTRUCTOR_OVER_LIMIT_TAG ++
       encode_constructor_over_limit_fields encode_datum constructor fields.
Definition encode_entries (encode_datum : Datum -> bytes) (entries : list (Datum * Datum)) : bytes :=
  enc_map (Z.of_nat (length entries)) ++
  concat (map (fun e => encode_datum (fst e) ++ encode_datum (snd e)) entries).

Fixpoint encode_datum (d : Datum) : bytes :=
  match d with
  | IntegerDatum bi => encode_integer bi
  | ByteStringDatum bs => encode_bytestring bs
  | ConstructorDatum constructor fields => encode_constructor encode_datum constructor fields
  | ListDatum items => encode_linear_seq encode_datum items
  | MapDatum entries => encode_entries encode_datum entries
  end.

(** [minicbor::to_vec(msg.to_datum())]; writing to a vector cannot fail. *)
Definition to_datum_cbor_bytes `{ToDatum A} (msg : A) : bytes := encode_datum (to_datum msg).
End Encode.

(** ** A reference reader

    Plutus data as RFC 8949 and the Plutus specification read it; in particular a
    negative bignum (tag 3) with bytes of value [n] is [-1 - n]. *)
Section Decode.
Context `{Minicbor}.

Fixpoint read_chunks (fuel : nat) (bs : bytes) : option (bytes * bytes) :=
  match fuel with
  | O => None
  | S f => match next bs with
           | Some (IBreak, r) => Some ([], r)
           | Some (IBytes c, r) => '(cs, r) ← read_chunks f r; Some (c ++ cs, r)
           | _ => None
           end
  end.
Definition read_bytestring (fuel : nat) (bs : bytes) : option (bytes * bytes) :=
  match next bs with
  | Some (IBytes c, r) => Some (c, r)
  | Some (IBeginBytes, r) => read_chunks fuel r
  | _ => None
  end.
Fixpoint read_until_break (dec : bytes -> option (Datum * bytes)) (fuel : nat) (bs : bytes)
    : option (list Datum * bytes) :=
  match fuel with
  | O => None
  | S f => match next bs with
           | Some (IBreak, r) => Some ([], r)
           | _ => '(d, r) ← dec bs; '(ds, r) ← read_until_break dec f r; Some (d :: ds, r)
           end
  end.
Definition read_seq (dec : bytes -> option (Datum * bytes)) (fuel : nat) (bs : bytes)
    : option (list Datum * bytes) :=
  match next bs with
  | Some (IArray 0, r) => Some ([], r)
  | Some (IBeginArray, r) => read_until_break dec fuel r
  | _ => None
  end.
Fixpoint read_entries (dec : bytes -> option (Datum * bytes)) (n : nat) (bs : bytes)
    : option (list (Datum * Datum) * bytes) :=
  match n with
  | O => Some ([], bs)
  | S m => '(k, r) ← dec bs; '(v, r) ← dec r; '(es, r) ← read_entries dec m r; Some ((k, v) :: es, r)
  end.

Fixpoint decode (fuel : nat) (bs : bytes) : option (Datum * bytes) :=
  match fuel with
  | O => None
  | S f =>
      match next bs with
      | Some (IInt n, r) => Some (IntegerDatum n, r)
      | Some (IBytes _, _) | Some (IBeginBytes, _) =>
          '(c, r) ← read_bytestring f bs; Some (ByteStringDatum c, r)
      | Some (IArray _, _) | Some (IBeginArray, _) =>
          '(ds, r) ← read_seq (decode f) f bs; Some (ListDatum ds, r)
      | Some (IMap n, r) => '(es, r) ← read_entries (decode f) (Z.to_nat n) r; Some (MapDatum es, r)
      | Some (ITag t, r) =>
          if t =? 2 then '(c, r) ← read_bytestring f r; Some (IntegerDatum (be_value c), r)
          else if t =? 3 then '(c, r) ← read_bytestring f r; Some (IntegerDatum (-1 - be_value c), r)
          else if (121 <=? t) && (t <=? 127) then
            '(ds, r) ← read_seq (decode f) f r; Some (ConstructorDatum (t - 121) ds, r)
          else if (1280 <=? t) && (t <=? 1400) then
            '(ds, r) ← read_seq (decode f) f r; Some (ConstructorDatum (t - 1280 + 7) ds, r)
          else if t =? 102 then
            match next r with
            | Some (IArray 2, r) =>
                match next r with
                | Some (IInt c, r) => '(ds, r) ← read_seq (decode f) f r; Some (ConstructorDatum c ds, r)
                | _ => None
                end
            | _ => None
            end
          else None
      | _ => None
      end
  end.

(** Fuel enough to read an encoded datum. *)
Fixpoint datum_size (d : Datum) : nat :=
  match d with
  | IntegerDatum i => S (S (length (to_bytes_be (Z.abs i))))
  | ByteStringDatum bs => S (S (length bs))
  | ConstructorDatum _ ds | ListDatum ds =>
      S (S (foldr (fun d n => S (datum_size d) + n)%nat O ds))
  | MapDatum es => S (foldr (fun e n => datum_size (fst e) + datum_size (snd e) + n)%nat O es)
  end.

(** Datums the code can hold: [u64] constructors and vectors of [u64] length. *)
Fixpoint wf_datum (d : Datum) : Prop :=
  match d with
  | IntegerDatum _ | ByteStringDatum _ => True
  | ConstructorDatum c ds => in_width 64 c /\ foldr (fun d P => wf_datum d /\ P) True ds
  | ListDatum ds => foldr (fun d P => wf_datum d /\ P) True ds
  | MapDatum es => in_width 64 (Z.of_nat (length es)) /\
                   foldr (fun e P => (wf_datum (fst e) /\ wf_datum (snd e)) /\ P) True es
  end.

(** What the reader makes of an encoded datum: an integer below [-2^63] is written as a negative
    bignum that holds its magnitude, where RFC 8949 puts [-1 - i]. *)
Definition read_integer (i : Z) : Z := if i <? - 2 ^ 63 then i - 1 else i.
Fixpoint as_read (d : Datum) : Datum :=
  match d with
  | IntegerDatum i => IntegerDatum (read_integer i)
  | ByteStringDatum bs => ByteStringDatum bs
  | ConstructorDatum c ds => ConstructorDatum c (map as_read ds)
  | ListDatum ds => ListDatum (map as_read ds)
  | MapDatum es => MapDatum (map (fun e => (as_read (fst e), as_read (snd e))) es)
  end.
Fixpoint integers_fit (d : Datum) : Prop :=
  match d with
  | IntegerDatum i => - 2 ^ 63 <= i
  | ByteStringDatum _ => True
  | ConstructorDatum _ ds | ListDatum ds => foldr (fun d P => integers_fit d /\ P) True ds
  | MapDatum es => foldr (fun e P => (integers_fit (fst e) /\ integers_fit (snd e)) /\ P) True es
  end.
End Decode.

Lemma map_inj_Forall {A B} (f : A -> B) l l' : Forall (fun x => forall y, f x = f y -> x = y) l -> map f l = map f l' -> l = l'.
Proof.
  intros Hl. revert l'. induction Hl as [|x l Hx _ IH]; intros [|y l']; try done. cbn. intros [= Hxy Hll]. f_equal; auto.
Qed.
Lemma map_id_Forall {A} (f : A -> A) (P : A -> Prop) l : Forall (fun x => f x = x <-> P x) l -> map f l = l <-> Forall P l.
Proof.
  induction 1 as [|x l Hx _ IH]; cbn; [by rewrite Forall_nil|]. rewrite Forall_cons, <- Hx, <- IH.
  split; [by intros [= -> ->]|by intros [-> ->]].
Qed.
Lemma foldr_and_Forall {A} (Q : A -> Prop) l : foldr (fun x P => Q x /\ P) True l <-> Forall Q l.
Proof. induction l as [|x l IH]; cbn; [by rewrite Forall_nil | by rewrite Forall_cons, IH]. Qed.

Lemma as_read_inj d d' : as_read d = as_read d' -> d = d'.
Proof.
  revert d'. induction d as [i|bs|c fs IH|ds IH|es IH] using Datum_nested_ind; intros [i'|bs'|c' fs'|ds'|es']; cbn; try done.
  - unfold read_integer. intros [= Hi]. f_equal. destruct (Z.ltb_spec i (- 2 ^ 63)), (Z.ltb_spec i' (- 2 ^ 63)); lia.
  - intros [= -> Hf]. f_equal. by apply (map_inj_Forall as_read).
  - intros [= Hf]. f_equal. by apply (map_inj_Forall as_read).
  - intros [= Hf]. f_equal. revert Hf. apply map_inj_Forall. eapply Forall_impl; [exact IH|].
    intros [k v] [Hk Hv] [k' v'] [= E1 E2]. f_equal; auto.
Qed.
Lemma as_read_id d : as_read d = d <-> integers_fit d.
Proof.
  assert (forall ds, Forall (fun d => as_read d = d <-> integers_fit d) ds ->
    map as_read ds = ds <-> foldr (fun d P => integers_fit d /\ P) True ds) as Hs.
  { intros ds IH. rewrite foldr_and_Forall. by apply map_id_Forall. }
  induction d as [i|bs|c fs IH|ds IH|es IH] using Datum_nested_ind; cbn [as_read integers_fit].
  - unfold read_integer. destruct (Z.ltb_spec i (- 2 ^ 63)); split; [intros [=]; lia | lia | lia | done].
  - done.
  - rewrite <- (Hs fs IH). split; [by intros [= ->]|by intros ->].
  - rewrite <- (Hs ds IH). split; [by intros [= ->]|by intros ->].
  - rewrite (foldr_and_Forall (fun e => integers_fit (fst e) /\ integers_fit (snd e))).
    rewrite <- (map_id_Forall (fun e => (as_read (fst e), as_read (snd e)))); [split; [by intros [= ->]|by intros ->]|].
    eapply Forall_impl; [exact IH|]. intros [k v] [Hk Hv]. cbn in *. rewrite <- Hk, <- Hv. split; [by intros [= -> ->]|by intros [-> ->]].
Qed.

Section RoundTrip.
Context `{MinicborLaws}.

Lemma foldr_add_bounds {A} (sz : A -> nat) l x :
  x ∈ l -> (sz x <= foldr (fun x n => sz x + n) 0 l)%nat.
Proof.
  induction l as [|y l IH]; [by intros ?%elem_of_nil|].
  intros [->|Hx]%elem_of_cons; cbn; [lia|]. specialize (IH Hx). lia.
Qed.

Lemma foldr_S_length {A} (sz : A -> nat) l :
  (length l <= foldr (fun x n => S (sz x) + n) 0 l)%nat.
Proof. induction l as [|x l IH]; cbn in *; lia. Qed.

Lemma chunks_aux_spec fuel n bs :
  (0 < n)%nat -> (length bs <= fuel)%nat ->
  concat (chunks_aux fuel n bs) = bs /\ (length (chunks_aux fuel n bs) <= length bs)%nat /\
  Forall (fun c => length c <= n)%nat (chunks_aux fuel n bs).
Proof.
  intros Hn. revert bs; induction fuel as [|f IH]; intros bs Hl.
  { destruct bs; [|cbn in Hl; lia]. cbn. split_and!; [done | lia | constructor]. }
  cbn [chunks_aux]. case_bool_decide as Hbs; [subst; cbn; split_and!; [done|lia|constructor]|].
  assert (0 < length bs)%nat by (destruct bs; cbn; [done|lia]).
  destruct (IH (drop n bs)) as (Hc & Hlen & Hf); [rewrite length_drop; lia|].
  cbn. rewrite Hc, take_drop. rewrite length_drop in Hlen.
  split_and!; [done | lia |]. constructor; [rewrite length_take; lia | done].
Qed.

Lemma read_chunks_spec cs fuel r :
  (length cs < fuel)%nat -> Forall (fun c => length c <= 64)%nat cs ->
  read_chunks fuel (concat (map enc_bytes cs) ++ enc_end ++ r) = Some (concat cs, r).
Proof.
  intros Hl Hcs. revert fuel Hl; induction Hcs as [|c cs Hc Hcs IH]; intros [|f] Hl; cbn in Hl; try lia.
  - cbn. by rewrite next_end.
  - cbn [map concat read_chunks]. rewrite <- (app_assoc (enc_bytes c)).
    rewrite next_bytes by (unfold in_width; lia). rewrite IH by lia. done.
Qed.

Lemma read_bytestring_spec bs fuel r :
  (length bs < fuel)%nat -> read_bytestring fuel (encode_bytestring bs ++ r) = Some (bs, r).
Proof.
  intros Hf. unfold read_bytestring, encode_bytestring, BYTES_CHUNK_SIZE_LIMIT.
  destruct (Nat.leb_spec (length bs) 64).
  - by rewrite next_bytes by (unfold in_width; lia).
  - rewrite <- !app_assoc, next_begin_bytes.
    destruct (chunks_aux_spec (length bs) 64 bs) as (Hc & Hl & Hall); [lia..|].
    unfold chunks. rewrite read_chunks_spec; [by rewrite Hc | lia | exact Hall].
Qed.

(** No datum starts with a break. *)
Lemma next_encode_bytestring bs r :
  exists i r', next (encode_bytestring bs ++ r) = Some (i, r') /\ (i = IBytes bs \/ i = IBeginBytes).
Proof.
  unfold encode_bytestring, BYTES_CHUNK_SIZE_LIMIT. destruct (Nat.leb_spec (length bs) 64).
  - rewrite next_bytes by (unfold in_width; lia). eauto.
  - rewrite <- !app_assoc, next_begin_bytes. eauto.
Qed.

Lemma next_encode_linear_seq enc ds r :
  exists i r', next (encode_linear_seq enc ds ++ r) = Some (i, r') /\ (i = IArray 0 \/ i = IBeginArray).
Proof.
  destruct ds as [|d ds]; cbn [encode_linear_seq].
  - rewrite next_array by (unfold in_width; lia). eauto.
  - rewrite <- !app_assoc, next_begin_array. eauto.
Qed.

Lemma constructor_tags c :
  in_width 64 c ->
  (c < 7 -> constructor_small_tag c = c + 121) /\ (7 <= c < 128 -> constructor_big_tag c = 1280 + c - 7).
Proof.
  unfold constructor_small_tag, constructor_big_tag, in_width. intros Hc.
  split; intros; rewrite (wrapping_add_small 64) by (unfold in_width; lia); [done|].
  unfold wrapping_sub. apply wrap_small. unfold in_width. lia.
Qed.

Lemma next_encode_datum d r :
  wf_datum d -> exists i r', next (encode_datum d ++ r) = Some (i, r') /\ i <> IBreak.
Proof.
  destruct d as [i|bs|c fs|ds|es]; cbn [encode_datum wf_datum].
  - intros _. unfold encode_integer. destruct (Z.leb_spec (- 2 ^ 63) i), (Z.ltb_spec i (2 ^ 63)); cbn [andb];
      [rewrite next_i64 by lia; by eauto|..]; rewrite <- app_assoc; destruct (0 <? i); rewrite next_tag by (unfold in_width; lia); eauto.
  - intros _. destruct (next_encode_bytestring bs r) as (i & r' & -> & [->| ->]); eauto.
  - intros [Hc _]. destruct (constructor_tags c Hc) as [Hs Hb]. unfold encode_constructor, in_width in *.
    destruct (Z.ltb_spec c 7), (Z.leb_spec 7 c), (Z.ltb_spec c 128); try lia; cbn [andb];
      rewrite <- app_assoc, next_tag by (rewrite ?Hs, ?Hb by lia; unfold in_width, CONSTRUCTOR_OVER_LIMIT_TAG; lia);
      eauto.
  - intros _. destruct (next_encode_linear_seq encode_datum ds r) as (i & r' & -> & [->| ->]); eauto.
  - intros [Hl _]. unfold encode_entries. rewrite <- app_assoc, next_map by done. eauto.
Qed.

Definition reads (dec : bytes -> option (Datum * bytes)) (d : Datum) : Prop :=
  forall r, dec (encode_datum d ++ r) = Some (as_read d, r).

Lemma read_until_break_spec dec ds fuel r :
  Forall (fun d => wf_datum d /\ reads dec d) ds -> (length ds < fuel)%nat ->
  read_until_break dec fuel (concat (map encode_datum ds) ++ enc_end ++ r) = Some (map as_read ds, r).
Proof.
  intros Hds. revert fuel; induction Hds as [|d ds [Hwf Hd] Hds IH]; intros [|f] Hl; cbn in Hl; try lia.
  - cbn. by rewrite next_end.
  - cbn [map concat read_until_break]. rewrite <- (app_assoc (encode_datum d)).
    destruct (next_encode_datum d (concat (map encode_datum ds) ++ enc_end ++ r) Hwf) as (i & r' & -> & Hi).
    rewrite Hd. simpl_monad. rewrite IH by lia. by destruct i.
Qed.

Lemma read_seq_spec dec ds fuel r :
  Forall (fun d => wf_datum d /\ reads dec d) ds -> (length ds < fuel)%nat ->
  read_seq dec fuel (encode_linear_seq encode_datum ds ++ r) = Some (map as_read ds, r).
Proof.
  intros Hds Hl. unfold read_seq. destruct ds as [|d ds].
  - cbn. by rewrite next_array by (unfold in_width; lia).
  - cbn [encode_linear_seq]. rewrite <- !app_assoc, next_begin_array. by apply read_until_break_spec.
Qed.

Lemma read_entries_spec dec es r :
  Forall (fun e => reads dec (fst e) /\ reads dec (snd e)) es ->
  read_entries dec (length es)
    (concat (map (fun e => encode_datum (fst e) ++ encode_datum (snd e)) es) ++ r) =
    Some (map (fun e => (as_read (fst e), as_read (snd e))) es, r).
Proof.
  induction 1 as [|[k v] es [Hk Hv] Hes IH]; [done|].
  cbn [length map concat read_entries fst snd]. rewrite <- !app_assoc, Hk. simpl_monad.
  rewrite Hv. simpl_monad. by rewrite IH.
Qed.
(** Reading the fields of a constructor or the items of a list. *)
Lemma nested_reads ds f :
  Forall (fun d => wf_datum d -> forall fuel, (datum_size d <= fuel)%nat -> reads (decode fuel) d) ds ->
  Forall wf_datum ds -> (foldr (fun d n => S (datum_size d) + n)%nat O ds < f)%nat ->
  Forall (fun d => wf_datum d /\ reads (decode f) d) ds /\ (length ds < f)%nat.
Proof.
  rewrite !Forall_forall. intros IH Hwf Hf.
  pose proof (foldr_S_length datum_size ds). split; [|lia].
  intros d Hd. split; [by apply Hwf|]. apply IH; [done | by apply Hwf |].
  pose proof (foldr_add_bounds (fun d => S (datum_size d)) ds d Hd). cbn in *. lia.
Qed.

Lemma decode_constructor c fs f r :
  in_width 64 c -> Forall (fun d => wf_datum d /\ reads (decode f) d) fs -> (length fs < f)%nat ->
  decode (S f) (encode_constructor encode_datum c fs ++ r) = Some (ConstructorDatum c (map as_read fs), r).
Proof.
  intros Hc Hfs Hl. destruct (constructor_tags c Hc) as [Hs Hb].
  unfold encode_constructor, encode_constructor_over_limit_fields, CONSTRUCTOR_OVER_LIMIT_TAG, in_width in *.
  cbn [decode]. destruct (Z.ltb_spec c 7), (Z.leb_spec 7 c), (Z.ltb_spec c 128); try lia; cbn [andb];
    rewrite <- !app_assoc, next_tag by (rewrite ?Hs, ?Hb by lia; unfold in_width; lia).
  - rewrite Hs by lia. rewrite !(proj2 (Z.eqb_neq _ _)), !(proj2 (Z.leb_le _ _)) by lia. cbn [andb].
    rewrite read_seq_spec by done. simpl_monad. do 3 f_equal. lia.
  - rewrite Hb by lia. rewrite !(proj2 (Z.eqb_neq _ _)), (proj2 (Z.leb_gt _ 127)), !(proj2 (Z.leb_le _ _)) by lia.
    rewrite andb_false_r. cbn [andb]. rewrite read_seq_spec by done. simpl_monad. do 3 f_equal. lia.
  - cbn [Z.eqb Z.leb Z.compare Pos.compare Pos.compare_cont andb Pos.eqb].
    rewrite next_array, next_u64 by (unfold in_width; lia). by rewrite read_seq_spec.
Qed.

Lemma decode_encode d fuel : wf_datum d -> (datum_size d <= fuel)%nat -> reads (decode fuel) d.
Proof.
  revert fuel. induction d as [i|bs|c fs IH|ds IH|es IH] using Datum_nested_ind;
    intros [|f] Hwf Hf r; cbn [datum_size] in Hf; try lia; cbn [wf_datum encode_datum] in *.
  - unfold encode_integer. cbn [decode].
    cbn [as_read]. unfold read_integer. destruct (Z.leb_spec (- 2 ^ 63) i), (Z.ltb_spec i (2 ^ 63)); cbn [andb]; try lia.
    + rewrite next_i64 by done. by rewrite (proj2 (Z.ltb_ge i _)) by lia.
    + rewrite (proj2 (Z.ltb_lt 0 i)) by lia. rewrite <- app_assoc, next_tag by (unfold in_width; lia).
      cbn [Z.eqb Pos.eqb]. rewrite read_bytestring_spec by lia. simpl_monad.
      by rewrite be_value_to_bytes_be, Z.abs_eq, (proj2 (Z.ltb_ge i _)) by lia.
    + rewrite (proj2 (Z.ltb_ge 0 i)) by lia. rewrite <- app_assoc, next_tag by (unfold in_width; lia).
      cbn [Z.eqb Pos.eqb]. rewrite read_bytestring_spec by lia. simpl_monad.
      rewrite be_value_to_bytes_be, Z.abs_neq, (proj2 (Z.ltb_lt i _)) by lia. do 3 f_equal. lia.
  - cbn [decode]. destruct (next_encode_bytestring bs r) as (i & r' & -> & [->| ->]);
      by rewrite read_bytestring_spec by lia.
  - destruct Hwf as [Hc Hwf]. rewrite foldr_and_Forall in Hwf.
    destruct (nested_reads fs f) as [? ?]; [by eapply Forall_impl; [exact IH|]; auto | done | lia |].
    by apply decode_constructor.
  - rewrite foldr_and_Forall in Hwf. cbn [decode].
    destruct (nested_reads ds f) as [? ?]; [by eapply Forall_impl; [exact IH|]; auto | done | lia |].
    destruct (next_encode_linear_seq encode_datum ds r) as (i & r' & -> & [->| ->]);
      by rewrite read_seq_spec.
  - destruct Hwf as [Hl Hwf]. rewrite foldr_and_Forall in Hwf. cbn [decode]. unfold encode_entries.
    rewrite <- app_assoc, next_map, Nat2Z.id by done. rewrite read_entries_spec; [done|].
    rewrite Forall_forall in *. intros e He.
    pose proof (foldr_add_bounds (fun e => datum_size (fst e) + datum_size (snd e))%nat es e He).
    destruct (IH e He), (Hwf e He). cbn in *. split; eauto with lia.
Qed.

Lemma encode_datum_prefix d d' r r' :
  wf_datum d -> wf_datum d' -> encode_datum d ++ r = encode_datum d' ++ r' -> d = d' /\ r = r'.
Proof.
  intros Hd Hd' Heq. set (f := (datum_size d + datum_size d')%nat).
  pose proof (decode_encode d f Hd ltac:(lia) r) as H1.
  pose proof (decode_encode d' f Hd' ltac:(lia) r') as H2.
  rewrite Heq, H2 in H1. injection H1 as Ha ->. by apply as_read_inj in Ha.
Qed.
Lemma encode_datum_inj d d' : wf_datum d -> wf_datum d' -> encode_datum d = encode_datum d' -> d = d'.
Proof. intros Hd Hd' Heq. apply (encode_datum_prefix d d' [] []); by rewrite ?Heq. Qed.

End RoundTrip.

(** ** RFC 8949, concretely *)
Module Rfc8949.
Definition enc_head (m n : Z) : bytes :=
  if n <? 24 then [m * 32 + n]
  else if n <? 2 ^ 8 then (m * 32 + 24) :: to_be_bytes 1 n
  else if n <? 2 ^ 16 then (m * 32 + 25) :: to_be_bytes 2 n
  else if n <? 2 ^ 32 then (m * 32 + 26) :: to_be_bytes 4 n
  else (m * 32 + 27) :: to_be_bytes 8 n.
Definition read_head (bs : bytes) : option (Z * Z * bytes) :=
  match bs with
  | [] => None
  | b :: r =>
      let info := b mod 32 in
      if info <? 24 then Some (b / 32, info, r)
      else let k := Z.to_nat (2 ^ (info - 24)) in
           if (info <? 28) && (k <=? length r)%nat then Some (b / 32, be_value (take k r), drop k r) else None
  end.
Definition read_item (bs : bytes) : option (Item * bytes) :=
  match bs with
  | 95 :: r => Some (IBeginBytes, r)
  | 159 :: r => Some (IBeginArray, r)
  | 255 :: r => Some (IBreak, r)
  | _ => '(m, n, r) ← read_head bs;
         if m =? 0 then Some (IInt n, r) else if m =? 1 then Some (IInt (-1 - n), r)
         else if m =? 2 then Some (IBytes (take (Z.to_nat n) r), drop (Z.to_nat n) r)
         else if m =? 4 then Some (IArray n, r) else if m =? 5 then Some (IMap n, r)
         else if m =? 6 then Some (ITag n, r) else None
  end.

#[export] Instance rfc8949 : Minicbor := {|
  enc_i64 n := if 0 <=? n then enc_head 0 n else enc_head 1 (-1 - n);
  enc_u64 := enc_head 0;
  enc_bytes bs := enc_head 2 (Z.of_nat (length bs)) ++ bs;
  enc_begin_bytes := [95]; enc_tag := enc_head 6; enc_array := enc_head 4; enc_begin_array := [159];
  enc_map := enc_head 5; enc_end := [255];
  to_bytes_be n := to_be_bytes (Z.to_nat (Z.log2 n / 8 + 1)) n;
  next := read_item
|}.

Lemma read_head_wide m i n r :
  0 <= m < 8 -> 0 <= i < 4 -> 0 <= n < 256 ^ 2 ^ i ->
  read_head ((m * 32 + (24 + i)) :: to_be_bytes (Z.to_nat (2 ^ i)) n ++ r) = Some (m, n, r).
Proof.
  intros Hm Hi Hn. unfold read_head.
  assert ((m * 32 + (24 + i)) mod 32 = 24 + i) as ->
    by (rewrite Z.add_comm, Z.mod_add, Z.mod_small by lia; done).
  assert ((m * 32 + (24 + i)) / 32 = m) as -> by (rewrite Z.div_add_l, Z.div_small by lia; lia).
  rewrite (proj2 (Z.ltb_ge _ 24)), (proj2 (Z.ltb_lt _ 28)), Z.add_simpl_l by lia. cbn zeta.
  rewrite length_app, length_to_be_bytes, (proj2 (Nat.leb_le _ _)) by lia. cbn [andb].
  rewrite take_app_length', drop_app_length' by (symmetry; apply length_to_be_bytes).
  rewrite be_value_to_be_bytes, Z2Nat.id, Z.mod_small by (done || apply Z.pow_nonneg; lia). done.
Qed.

Lemma read_head_enc m n r : 0 <= m < 8 -> in_width 64 n -> read_head (enc_head m n ++ r) = Some (m, n, r).
Proof.
  unfold in_width. intros Hm Hn. unfold enc_head. destruct (Z.ltb_spec n 24).
  { cbn. rewrite (Z.add_comm (m * 32)), Z.mod_add, Z.mod_small by lia.
    rewrite (proj2 (Z.ltb_lt n 24)) by done. by rewrite Z.div_add, Z.div_small by lia. }
  destruct (Z.ltb_spec n (2 ^ 8)); [exact (read_head_wide m 0 n r Hm ltac:(lia) ltac:(cbn; lia))|].
  destruct (Z.ltb_spec n (2 ^ 16)); [exact (read_head_wide m 1 n r Hm ltac:(lia) ltac:(cbn; lia))|].
  destruct (Z.ltb_spec n (2 ^ 32)); [exact (read_head_wide m 2 n r Hm ltac:(lia) ltac:(cbn; lia))|].
  exact (read_head_wide m 3 n r Hm ltac:(lia) ltac:(cbn; lia)).
Qed.

(** The first byte of a head is none of the three markers. *)
Lemma read_item_enc m n r :
  0 <= m < 8 -> in_width 64 n ->
  read_item (enc_head m n ++ r) =
    if m =? 0 then Some (IInt n, r) else if m =? 1 then Some (IInt (-1 - n), r)
    else if m =? 2 then Some (IBytes (take (Z.to_nat n) r), drop (Z.to_nat n) r)
    else if m =? 4 then Some (IArray n, r) else if m =? 5 then Some (IMap n, r)
    else if m =? 6 then Some (ITag n, r) else None.
Proof.
  intros Hm Hn. pose proof (read_head_enc m n r Hm Hn) as Hh.
  assert (exists b t, enc_head m n = b :: t /\ b mod 32 < 28) as (b & t & Hb & Hmod).
  { unfold in_width in Hn. unfold enc_head.
    repeat match goal with |- context [if ?c then _ else _] => destruct c eqn:?; zbool end;
      (do 2 eexists; split; [reflexivity|]); rewrite Z.add_comm, Z.mod_add, Z.mod_small by lia; lia. }
  rewrite Hb in *. cbn [app] in *. unfold read_item. rewrite Hh. simpl_monad.
  destruct b as [|b|b]; [done| |done].
  do 8 (destruct b as [b|b|]; try done).
Qed.

#[export] Instance rfc8949_laws : MinicborLaws.
Proof.
  split; cbn [next enc_i64 enc_u64 enc_bytes enc_begin_bytes enc_tag enc_array enc_begin_array enc_map
              enc_end to_bytes_be rfc8949]; try done.
  - intros n r Hn. destruct (Z.leb_spec 0 n); rewrite read_item_enc by (unfold in_width; lia); [done|].
    cbn [Z.eqb]. do 3 f_equal. lia.
  - intros n r Hn. by rewrite read_item_enc.
  - intros bs r Hn. rewrite <- app_assoc, read_item_enc by done. cbn [Z.eqb Pos.eqb].
    by rewrite Nat2Z.id, take_app_length, drop_app_length.
  - intros n r Hn. by rewrite read_item_enc.
  - intros n r Hn. by rewrite read_item_enc.
  - intros n r Hn. by rewrite read_item_enc.
  - intros n Hn. rewrite be_value_to_be_bytes. apply Z.mod_small. split; [done|].
    pose proof (Z.log2_nonneg n). rewrite Z2Nat.id by (apply Z.add_nonneg_nonneg; [apply Z.div_pos|]; lia).
    destruct (Z.eq_dec n 0) as [->|Hnz]; [by cbn|].
    destruct (Z.log2_spec n ltac:(lia)) as [_ Hlt]. eapply Z.lt_le_trans; [exact Hlt|].
    change 256 with (2 ^ 8). rewrite <- Z.pow_mul_r by (try apply Z.add_nonneg_nonneg; try apply Z.div_pos; lia).
    apply Z.pow_le_mono_r; [lia|]. pose proof (Z_div_mod_eq_full (Z.log2 n) 8).
    pose proof (Z.mod_pos_bound (Z.log2 n) 8 ltac:(lia)). lia.
Qed.
End Rfc8949.

(** C24: The encoding of Plutus data is prefix-free and injective, for all integers: what is
    encoded at the start of some bytes determines the datum and what follows it. A reader of RFC 8949
    and of Plutus' constructor tags reads an encoded datum back, whatever follows it, except that an
    integer below [-2^63] is read as the one before it; so it reads back exactly the datums without
    such integers. The fuel [datum_size] is enough for it. *)
Theorem datum_cbor_round_trip `{MinicborLaws} d d' r r' :
  wf_datum d -> wf_datum d' ->
  (encode_datum d ++ r = encode_datum d' ++ r' -> d = d' /\ r = r') /\
  decode (datum_size d) (encode_datum d ++ r) = Some (as_read d, r) /\
  (decode (datum_size d) (encode_datum d ++ r) = Some (d, r) <-> integers_fit d).
Proof.
  intros Hd Hd'. pose proof (decode_encode d (datum_size d) Hd ltac:(lia) r) as Hr.
  split; [by apply encode_datum_prefix|]. split; [done|]. rewrite Hr, <- as_read_id. split; [by intros [= ->]|by intros ->].
Qed.

(** An integer below [-2^63] reads back as the one before it. *)
Theorem negative_bignum_off_by_one `{MinicborLaws} i r :
  i < - 2 ^ 63 ->
  decode (datum_size (IntegerDatum i)) (encode_datum (IntegerDatum i) ++ r) = Some (IntegerDatum (i - 1), r).
Proof.
  intros Hi. rewrite (decode_encode (IntegerDatum i)) by done. cbn [as_read]. unfold read_integer.
  by rewrite (proj2 (Z.ltb_lt i _)) by lia.
Qed.

Section Witnesses.
Import Rfc8949.
#[local] Definition sample : Datum :=
  ConstructorDatum 0 [ConstructorDatum 130 [IntegerDatum 5]; ByteStringDatum (replicate 70 1);
    MapDatum [(IntegerDatum (2 ^ 70), ListDatum [])]].
#[local] Definition other : Datum := ConstructorDatum 7 [IntegerDatum (-3)].

Lemma datum_cbor_round_trip_witness :
  encode_datum other = [217; 5; 0; 159; 34; 255] /\
  (encode_datum sample ++ [1] = encode_datum other ++ [2] -> sample = other /\ [1] = [2]) /\
  decode (datum_size sample) (encode_datum sample ++ [1]) = Some (sample, [1]).
Proof.
  split; [reflexivity|]. destruct (datum_cbor_round_trip sample other [1] [2]) as (Hp & Hd & _);
    [cbn; unfold in_width; lia..|]. split; [exact Hp|]. etransitivity; [exact Hd|]. reflexivity.
Defined.

Lemma negative_bignum_off_by_one_witness :
  decode (datum_size (IntegerDatum (- 2 ^ 63 - 1))) (encode_datum (IntegerDatum (- 2 ^ 63 - 1)) ++ []) =
    Some (IntegerDatum (- 2 ^ 63 - 1 - 1), []).
Proof. apply negative_bignum_off_by_one. lia. Defined.
End Witnesses.
