(* ===== verification/Json.v ===== *)
(** * JSON form of Plutus data

    The conversions between [Datum] and [serde_json::Value] of
    [toolkit/utils/plutus/src/lib.rs]. A JSON object is the list of its entries in
    iteration order; the [hex] crate is third-party. *)

From S2P Require Import Prelude Domain Cbor.
#[local] Set Warnings "-register-all".

Inductive JValue :=
| JNull
| JBool (b : bool)
| JNumber (n : Z)  (* an integer *)
| JFloat           (* any other number *)
| JString (s : str)
| JArray (vs : list JValue)
| JObject (map : list (string * JValue)).

Definition as_u64 (v : JValue) : option Z :=
  match v with JNumber n => try_into_width 64 n | _ => None end.

Inductive FromJsonError :=
| ExpectedArrayOfDatums | ExpectedHexEncodedBytes | ExpectedConstructorKeyValue | ExpectedDatum
| ExpectedFieldsKeyValue | ExpectedIntegerDatumValue | ExpectedDatumMapEntry.
#[export] Instance FromJsonError_eq_dec : EqDecision FromJsonError.
Proof. solve_decision. Defined.

Class Hex := { hex_encode : bytes -> str; hex_decode : str -> option bytes }.
Class HexLaws `{Hex} : Prop := {
  hex_decode_encode : forall bs, wf_bytes bs -> hex_decode (hex_encode bs) = Some bs
}.

(** [map.get(key)]. *)
Fixpoint jget (key : string) (map : list (string * JValue)) : option JValue :=
  match map with
  | [] => None
  | (k, v) :: map' => if decide (k = key) then Some v else jget key map'
  end.

Section Conversions.
Context `{Hex}.
#[local] Open Scope string_scope.

Definition expect_list (try_from : JValue -> result FromJsonError Datum) (value : JValue)
    : result FromJsonError (list Datum) :=
  match value with JArray vs => collect_results try_from vs | _ => Err ExpectedArrayOfDatums end.

(** [iter.next()] on what is left of the object. *)
Definition expect_fields (try_from : JValue -> result FromJsonError Datum) (iter : list (string * JValue))
    : result FromJsonError (list Datum) :=
  match iter with
  | (key, value) :: _ =>
      if decide (key = "fields") then map_err (fun _ => ExpectedFieldsKeyValue) (expect_list try_from value)
      else Err ExpectedFieldsKeyValue
  | [] => Err ExpectedFieldsKeyValue
  end.

Definition expect_constructor (iter : list (string * JValue)) : result FromJsonError Z :=
  match iter with
  | (key, value) :: _ =>
      if decide (key = "constructor") then ok_or (as_u64 value) ExpectedConstructorKeyValue
      else Err ExpectedConstructorKeyValue
  | [] => Err ExpectedConstructorKeyValue
  end.

(** [map.get(key)] followed by the conversion of the value found. *)
Section GetDatum.
Context (try_from : JValue -> result FromJsonError Datum) (key : string).
Fixpoint get_datum (map : list (string * JValue)) : result FromJsonError Datum :=
  match map with
  | [] => Err ExpectedDatumMapEntry
  | (k, v) :: map' => if decide (k = key) then try_from v else get_datum map'
  end.
End GetDatum.

Definition expect_map_entry (try_from : JValue -> result FromJsonError Datum) (value : JValue)
    : result FromJsonError (Datum * Datum) :=
  match value with
  | JObject map =>
      key ← get_datum try_from "key" map;
      value ← get_datum try_from "value" map;
      Ok (key, value)
  | _ => Err ExpectedDatumMapEntry
  end.

Definition from_map (try_from : JValue -> result FromJsonError Datum) (map : list (string * JValue))
    : result FromJsonError Datum :=
  match map with
  | (key, value) :: rest =>
      if decide (key = "int") then integer <$> ok_or (as_u64 value) ExpectedIntegerDatumValue
      else if decide (key = "bytes") then
        match value with
        | JString s => ByteStringDatum <$> ok_or (hex_decode s) ExpectedHexEncodedBytes
        | _ => Err ExpectedHexEncodedBytes
        end
      else if decide (key = "list") then ListDatum <$> expect_list try_from value
      else if decide (key = "constructor") then
        constructor ← ok_or (as_u64 value) ExpectedConstructorKeyValue;
        fields ← expect_fields try_from rest;
        Ok (ConstructorDatum constructor fields)
      else if decide (key = "fields") then
        fields ← map_err (fun _ => ExpectedFieldsKeyValue) (expect_list try_from value);
        constructor ← expect_constructor rest;
        Ok (ConstructorDatum constructor fields)
      else if decide (key = "map") then
        match value with
        | JArray vs => MapDatum <$> collect_results (expect_map_entry try_from) vs
        | _ => Err ExpectedArrayOfDatums
        end
      else Err ExpectedDatum
  | [] => Err ExpectedDatum
  end.

Fixpoint datum_try_from (value : JValue) : result FromJsonError Datum :=
  match value with
  | JObject map => from_map datum_try_from map
  | _ => Err ExpectedDatum
  end.

(** [JValue::from(&datum)]; an integer beyond [i64] panics. *)
Fixpoint json_from (d : Datum) : outcome JValue :=
  match d with
  | IntegerDatum int =>
      if ((- 2 ^ 63 <=? int) && (int <? 2 ^ 63))%Z then Done (JObject [("int", JNumber int)]) else Panic
  | ByteStringDatum bs => Done (JObject [("bytes", JString (hex_encode bs))])
  | ListDatum ds => vs ← map_outcome json_from ds; Done (JObject [("list", JArray vs)])
  | ConstructorDatum constructor fields =>
      vs ← map_outcome json_from fields;
      Done (JObject [("constructor", JNumber constructor); ("fields", JArray vs)])
  | MapDatum es =>
      vs ← map_outcome (fun e => k ← json_from (fst e); v ← json_from (snd e);
                                 Done (JObject [("key", k); ("value", v)])) es;
      Done (JObject [("map", JArray vs)])
  end.

(** Datums of bytes, with [u64] constructors and integers in [[0, 2^63)]. *)
Fixpoint json_datum (d : Datum) : Prop :=
  match d with
  | IntegerDatum i => in_width 63 i
  | ByteStringDatum bs => wf_bytes bs
  | ConstructorDatum c ds => in_width 64 c /\ foldr (fun d P => json_datum d /\ P) True ds
  | ListDatum ds => foldr (fun d P => json_datum d /\ P) True ds
  | MapDatum es => foldr (fun e P => (json_datum (fst e) /\ json_datum (snd e)) /\ P) True es
  end.

Lemma map_outcome_collect {E A B} (f : A -> outcome B) (g : B -> result E A) l :
  Forall (fun x => exists y, f x = Done y /\ g y = Ok x) l ->
  exists ys, map_outcome f l = Done ys /\ collect_results g ys = Ok l.
Proof.
  induction 1 as [|x l (y & Hf & Hg) Hl (ys & Hfs & Hgs)]; [by exists []|].
  exists (y :: ys). cbn. by rewrite Hf, Hfs, Hg, Hgs.
Qed.

Context `{!HexLaws}.

Lemma json_round_trip_aux d :
  json_datum d -> exists v, json_from d = Done v /\ datum_try_from v = Ok d.
Proof.
  induction d as [i|bs|c fs IH|ds IH|es IH] using Datum_nested_ind; cbn [json_datum json_from].
  - unfold in_width. intros Hi. rewrite (proj2 (Z.leb_le _ _)), (proj2 (Z.ltb_lt _ _)) by lia.
    eexists. split; [done|]. cbn. unfold try_into_width.
    by rewrite (proj2 (Z.leb_le _ _)), (proj2 (Z.ltb_lt _ _)) by lia.
  - intros Hbs. eexists. split; [done|]. cbn. by rewrite hex_decode_encode.
  - rewrite foldr_and_Forall. intros [Hc Hfs].
    destruct (map_outcome_collect json_from datum_try_from fs) as (ys & -> & Hys).
    { rewrite Forall_forall in *. auto. }
    eexists. split; [done|]. cbn. rewrite (proj2 (try_into_width_Some 64 c c)) by done.
    cbn. by rewrite Hys.
  - rewrite foldr_and_Forall. intros Hds.
    destruct (map_outcome_collect json_from datum_try_from ds) as (ys & -> & Hys).
    { rewrite Forall_forall in *. auto. }
    eexists. split; [done|]. cbn. by rewrite Hys.
  - rewrite foldr_and_Forall. intros Hes.
    destruct (map_outcome_collect (fun e => k ← json_from (fst e); v ← json_from (snd e);
      Done (JObject [("key", k); ("value", v)])) (expect_map_entry datum_try_from) es) as (ys & -> & Hys).
    { rewrite Forall_forall in *. intros e He. destruct (Hes e He) as [Hk Hv], (IH e He) as [IHk IHv].
      destruct (IHk Hk) as (k & -> & Hk'), (IHv Hv) as (v & -> & Hv').
      eexists. split; [done|]. cbn. rewrite Hk'. cbn. rewrite Hv'. by destruct e. }
    eexists. split; [done|]. cbn. by rewrite Hys.
Qed.
End Conversions.

(** Datums whose integers are in [[0, 2^63)] convert to JSON and back to themselves,
    for every nesting of constructors, lists and maps. *)
Theorem json_round_trip `{HexLaws} d :
  json_datum d -> exists v, json_from d = Done v /\ datum_try_from v = Ok d.
Proof. apply json_round_trip_aux. Qed.

(** Outside that range integers do not survive: a negative [i64] is written but not
    read back ([as_u64]), and beyond [i64] the conversion panics. *)
Theorem json_integer_limits `{Hex} i :
  match json_from (IntegerDatum i) with
  | Panic => i < - 2 ^ 63 \/ 2 ^ 63 <= i
  | Done v => datum_try_from v = if 0 <=? i then Ok (IntegerDatum i) else Err ExpectedIntegerDatumValue
  end.
Proof.
  cbn [json_from]. destruct (Z.leb_spec (- 2 ^ 63) i), (Z.ltb_spec i (2 ^ 63)); cbn [andb]; try lia.
  cbn. unfold try_into_width. destruct (Z.leb_spec 0 i); [|done].
  by rewrite (proj2 (Z.ltb_lt _ _)) by lia.
Qed.

(** A hexadecimal codec that satisfies the law. *)
Module ConcreteHex.
Definition nibble (n : Z) : Ascii.ascii := chr (Z.to_nat (if n <? 10 then 48 + n else 87 + n)).
Definition unnibble (c : Ascii.ascii) : option Z :=
  let n := Z.of_nat (Ascii.nat_of_ascii c) in
  if (48 <=? n) && (n <=? 57) then Some (n - 48)
  else if (97 <=? n) && (n <=? 102) then Some (n - 87) else None.
Fixpoint unhex (s : str) : option bytes :=
  match s with
  | [] => Some []
  | a :: b :: s' => x ← unnibble a; y ← unnibble b; bs ← unhex s'; Some (x * 16 + y :: bs)
  | _ => None
  end.
Definition hex (bs : bytes) : str := concat (map (fun b => [nibble (b / 16); nibble (b mod 16)]) bs).

Lemma unnibble_nibble n : 0 <= n < 16 -> unnibble (nibble n) = Some n.
Proof.
  intros Hn. destruct (decide (n < 10)).
  - apply (digit_cases (fun n => unnibble (nibble n) = Some n)); lia || done.
  - assert (n = 10 \/ n = 11 \/ n = 12 \/ n = 13 \/ n = 14 \/ n = 15) as Hin by lia.
    by destruct Hin as [->|[->|[->|[->|[->| ->]]]]].
Qed.

Lemma unhex_hex bs : wf_bytes bs -> unhex (hex bs) = Some bs.
Proof.
  induction 1 as [|b bs Hb Hbs IH]; [done|]. unfold in_width in Hb. unfold hex in *.
  cbn [map concat app unhex].
  pose proof (Z.mod_pos_bound b 16 ltac:(lia)).
  assert (0 <= b / 16 < 16) by (split; [apply Z.div_pos | apply Z.div_lt_upper_bound]; lia).
  rewrite (unnibble_nibble (b / 16)), (unnibble_nibble (b mod 16)), IH by done.
  simpl_monad. do 2 f_equal. pose proof (Z_div_mod_eq_full b 16). lia.
Qed.

#[export] Instance concrete_hex : Hex := {| hex_encode := hex; hex_decode := unhex |}.
#[export] Instance concrete_hex_laws : HexLaws.
Proof. split. apply unhex_hex. Qed.

(** [HexDisplay] prints bare digits, [to_hex] a prefix; [from_hex] takes both. *)
Definition prefix : str := [chr 48; chr 120].
Definition strip (s : str) : str := if decide (take 2 s = prefix) then drop 2 s else s.
#[export] Instance concrete_codec : HexCodec := {|
  hex_display bs := hex (map (wrap 8) bs); to_hex bs := prefix ++ hex bs;
  from_hex s := ok_or (unhex (strip s)) "invalid hex"%string |}.

Lemma nibble_digit n : 0 <= n < 16 -> nibble n <> chr 120 /\ nibble n <> HASH_SIGN.
Proof.
  intros Hn.
  pose proof (check_range (fun m => bool_decide (nibble m <> chr 120 /\ nibble m <> HASH_SIGN)) 0 16 n eq_refl Hn) as Hd.
  by apply bool_decide_eq_true in Hd.
Qed.
Lemma strip_hex bs : wf_bytes bs -> strip (hex bs) = hex bs.
Proof.
  intros Hbs. unfold strip. case_decide as Hp; [|done]. exfalso. unfold hex in Hp.
  destruct Hbs as [|b bs Hb _]; [done|]. cbn in Hp. injection Hp as _ Hp.
  by apply (nibble_digit (b mod 16)) in Hp; [|apply Z.mod_pos_bound].
Qed.
Lemma wrap_wf bs : wf_bytes bs -> map (wrap 8) bs = bs.
Proof. induction 1 as [|b bs Hb _ IH]; [done|]. cbn. by rewrite IH, wrap_small. Qed.
Lemma hex_no_hash bs : HASH_SIGN ∉ hex (map (wrap 8) bs).
Proof.
  induction bs as [|b bs IH]; [apply not_elem_of_nil|]. unfold hex in *. cbn [map concat app].
  pose proof (wrap_in_width 8 b ltac:(lia)) as Hw. unfold in_width in Hw.
  pose proof (Z.mod_pos_bound (wrap 8 b) 16 ltac:(lia)).
  assert (0 <= wrap 8 b / 16 < 16) by (split; [apply Z.div_pos | apply Z.div_lt_upper_bound]; lia).
  rewrite !not_elem_of_cons. split_and!; [..|done]; apply not_eq_sym, nibble_digit; done.
Qed.
#[export] Instance concrete_codec_laws : HexCodecLaws.
Proof.
  split; cbn [from_hex hex_display to_hex concrete_codec].
  - intros bs Hbs. by rewrite wrap_wf, strip_hex, unhex_hex.
  - intros bs Hbs. unfold strip. rewrite decide_True by done.
    change (ok_or (unhex (hex bs)) "invalid hex"%string = Ok bs). by rewrite unhex_hex.
  - apply hex_no_hash.
Qed.
End ConcreteHex.

Section Witnesses.
Import ConcreteHex.
Lemma json_round_trip_witness :
  exists v, json_from (ConstructorDatum 3 [MapDatum [(ByteStringDatum [255; 10], IntegerDatum 7)]]) = Done v /\
    datum_try_from v = Ok (ConstructorDatum 3 [MapDatum [(ByteStringDatum [255; 10], IntegerDatum 7)]]).
Proof. apply json_round_trip. cbn. unfold in_width. repeat constructor; lia. Defined.

Lemma identifier_text_round_trip_witness :
  UtxoId_from_str (UtxoId_display (mkUtxoId (replicate 32 171) 17)) = Ok (mkUtxoId (replicate 32 171) 17).
Proof.
  destruct identifier_text_round_trip as [Hu _]. rewrite Hu; [reflexivity|].
  split; [repeat constructor; lia|]. split; [reflexivity|]. unfold in_width. cbn. lia.
Defined.
End Witnesses.
