(* ===== verification/PlutusDatums.v ===== *)
(** * Datums of the partner chain's contracts

    [toolkit/primitives/plutus-data]: the D-parameter, the permissioned candidates, the
    registrations and the version oracle as Plutus data, versioned and in the legacy
    schema. Plutus data itself is a type of [cardano-serialization-lib]: its constructors
    and accessors are the class [Csl], whose laws say that an accessor inverts its
    constructor and refuses the others. *)

From stdpp Require Import pretty.
From S2P Require Import Prelude Domain.

Class Csl := {
  PlutusData : Type;
  as_integer : PlutusData -> option Z;
  as_bytes : PlutusData -> option bytes;
  as_list : PlutusData -> option (list PlutusData);
  as_constr_plutus_data : PlutusData -> option (Z * list PlutusData);
  new_integer : Z -> PlutusData;
  new_bytes : bytes -> PlutusData;
  new_list : list PlutusData -> PlutusData;
  new_constr_plutus_data : Z -> list PlutusData -> PlutusData
}.
Class CslLaws `{Csl} : Prop := {
  as_integer_new : forall n, as_integer (new_integer n) = Some n;
  as_integer_list : forall l, as_integer (new_list l) = None;
  as_bytes_new : forall b, as_bytes (new_bytes b) = Some b;
  as_list_new : forall l, as_list (new_list l) = Some l;
  as_list_constr : forall n l, as_list (new_constr_plutus_data n l) = None;
  as_constr_new : forall n l, as_constr_plutus_data (new_constr_plutus_data n l) = Some (n, l)
}.

Section Extensions.
Context `{Csl}.
(** [BigInt::as_u64] and [u32::try_from], [u16::try_from]. *)
Definition as_u32 (d : PlutusData) : option Z :=
  n ← as_integer d; n ← try_into_width 64 n; try_into_width 32 n.
Definition as_u16 (d : PlutusData) : option Z := n ← as_u32 d; try_into_width 16 n.

(** The three fields of a versioned datum: immutable part, mutable part, version.
    [PlutusList::get] is within bounds after the check of the length. *)
Definition plutus_data_version_and_payload (data : PlutusData) : option (Z * PlutusData * PlutusData) :=
  fields ← as_list data;
  if (length fields =? 3)%nat then
    v ← fields !! 2%nat; version ← as_u32 v; c ← fields !! 0%nat; m ← fields !! 1%nat; Some (version, c, m)
  else None.

Record DataDecodingError := mkDataDecodingError { datum : PlutusData; to : string; msg : string }.
Definition DecodingResult (T : Type) : Type := result DataDecodingError T.

(** [trait VersionedDatum] and its [decode]. *)
Class VersionedDatum (T : Type) := {
  NAME : string;
  decode_legacy : PlutusData -> result string T;
  decode_versioned : Z -> PlutusData -> PlutusData -> result string T
}.
Definition decode `{VersionedDatum T} (data : PlutusData) : DecodingResult T :=
  map_err (mkDataDecodingError data NAME)
    (match plutus_data_version_and_payload data with
     | None => decode_legacy data
     | Some (version, const_payload, mut_payload) => decode_versioned version const_payload mut_payload
     end).

(** [VersionedGenericDatumShape] and its conversion. *)
Definition versioned_generic_datum (datum generic_data : PlutusData) (version : Z) : PlutusData :=
  new_list [datum; generic_data; new_integer version].

Definition unknown_version {T} (version : Z) : result string T := Err ("Unknown version: " +:+ pretty version)%string.
Definition cannot_parse_mutable (e : string) : string := ("Can not parse mutable part of data: " +:+ e)%string.

(** ** D-parameter *)
Inductive DParamDatum := DParamV0 (num_permissioned_candidates num_registered_candidates : Z).
Definition DParameter_from (d : DParamDatum) : DParameter := let 'DParamV0 p r := d in mkDParameter p r.
Definition d_parameter_to_plutus_data (d : DParameter) : PlutusData :=
  let generic_data := new_list [new_integer (num_permissioned_candidates d); new_integer (num_registered_candidates d)] in
  versioned_generic_datum (new_constr_plutus_data 0 []) generic_data 0.

Definition decode_legacy_d_param (data : PlutusData) : result string DParamDatum :=
  ok_or (items ← as_list data;
         if (length items =? 2)%nat then
           p ← items !! 0%nat; p ← as_u16 p; r ← items !! 1%nat; r ← as_u16 r; Some (DParamV0 p r)
         else None) "Expected [u16, u16]"%string.
#[export] Instance DParamDatum_versioned : VersionedDatum DParamDatum := {|
  NAME := "DParamDatum";
  decode_legacy := decode_legacy_d_param;
  decode_versioned version _ mut_data :=
    if version =? 0 then map_err cannot_parse_mutable (decode_legacy_d_param mut_data) else unknown_version version
|}.

(** ** Permissioned candidates *)
Record PermissionedCandidateDatumV0 := mkPermissionedCandidateDatumV0 {
  pcd_sidechain_public_key : SidechainPublicKey;
  pcd_aura_public_key : AuraPublicKey;
  pcd_grandpa_public_key : GrandpaPublicKey
}.
Inductive PermissionedCandidateDatums := PermissionedV0 (candidates : list PermissionedCandidateDatumV0).
Definition PermissionedCandidateData_from (v : PermissionedCandidateDatumV0) : PermissionedCandidateData :=
  mkPermissionedCandidateData (pcd_sidechain_public_key v) (pcd_aura_public_key v) (pcd_grandpa_public_key v).
Definition PermissionedCandidates_from (v : PermissionedCandidateDatums) : list PermissionedCandidateData :=
  let 'PermissionedV0 v := v in map PermissionedCandidateData_from v.

Definition candidate_to_plutus_data (c : PermissionedCandidateData) : PlutusData :=
  new_list [new_bytes (sidechain_public_key c); new_bytes (aura_public_key c); new_bytes (grandpa_public_key c)].
Definition permissioned_candidates_to_plutus_data (candidates : list PermissionedCandidateData) : PlutusData :=
  let generic_data := new_list (map candidate_to_plutus_data candidates) in
  versioned_generic_datum (new_constr_plutus_data 0 []) generic_data 0.

Definition decode_legacy_candidate_datum (datum : PlutusData) : option PermissionedCandidateDatumV0 :=
  datums ← as_list datum;
  if (length datums =? 3)%nat then
    sc ← datums !! 0%nat; sc ← as_bytes sc;
    aura ← datums !! 1%nat; aura ← as_bytes aura;
    grandpa ← datums !! 2%nat; grandpa ← as_bytes grandpa;
    Some (mkPermissionedCandidateDatumV0 sc aura grandpa)
  else None.
Definition decode_legacy_permissioned (data : PlutusData) : result string PermissionedCandidateDatums :=
  candidates ← ok_or (list_datums ← as_list data; mapM decode_legacy_candidate_datum list_datums)
    "Expected [[ByteString, ByteString, ByteString]]"%string;
  Ok (PermissionedV0 candidates).
#[export] Instance PermissionedCandidateDatums_versioned : VersionedDatum PermissionedCandidateDatums := {|
  NAME := "PermissionedCandidateDatums";
  decode_legacy := decode_legacy_permissioned;
  decode_versioned version _ mut_data :=
    if version =? 0 then map_err cannot_parse_mutable (decode_legacy_permissioned mut_data) else unknown_version version
|}.

(** ** Registrations *)
Record AdaBasedStaking := mkAdaBasedStaking { abs_pub_key : MainchainPublicKey; abs_signature : MainchainSignature }.
Record RegisterValidatorDatumV0 := mkRegisterValidatorDatumV0 {
  rv_stake_ownership : AdaBasedStaking;
  rv_sidechain_pub_key : SidechainPublicKey;
  rv_sidechain_signature : SidechainSignature;
  rv_consumed_input : UtxoId;
  rv_own_pkh : MainchainAddressHash;
  rv_aura_pub_key : AuraPublicKey;
  rv_grandpa_pub_key : GrandpaPublicKey
}.
Inductive RegisterValidatorDatum := RegisterV0 (v : RegisterValidatorDatumV0).

(** The fields of constructor 0 with at least [n] fields. *)
Definition constr0_fields (n : nat) (datum : PlutusData) : option (list PlutusData) :=
  '(alternative, data) ← as_constr_plutus_data datum;
  if alternative =? 0 then if (n <=? length data)%nat then Some data else None else None.
Definition get_bytes (fields : list PlutusData) (i : nat) : option bytes := d ← fields !! i; as_bytes d.

Definition decode_tx_hash_datum (datum : PlutusData) : option McTxHash :=
  fields ← constr0_fields 1 datum; bytes ← get_bytes fields 0; to_array 32 bytes.
Definition decode_utxo_id_datum (datum : PlutusData) : option UtxoId :=
  fields ← constr0_fields 2 datum;
  h ← fields !! 0%nat; tx_hash ← decode_tx_hash_datum h;
  i ← fields !! 1%nat; index ← as_u16 i;
  Some (mkUtxoId tx_hash index).
Definition decode_ada_based_staking_datum (datum : PlutusData) : option AdaBasedStaking :=
  fields ← constr0_fields 2 datum;
  k ← get_bytes fields 0; pub_key ← ok (MainchainPublicKey_try_from k);
  signature ← get_bytes fields 1;
  Some (mkAdaBasedStaking pub_key signature).

Definition decode_v0_register_validator_datum (const_data mut_data : PlutusData) : option RegisterValidatorDatum :=
  fields ← constr0_fields 6 mut_data;
  s ← fields !! 0%nat; stake_ownership ← decode_ada_based_staking_datum s;
  sidechain_pub_key ← get_bytes fields 1;
  sidechain_signature ← get_bytes fields 2;
  u ← fields !! 3%nat; consumed_input ← decode_utxo_id_datum u;
  aura_pub_key ← get_bytes fields 4;
  grandpa_pub_key ← get_bytes fields 5;
  pkh ← as_bytes const_data; own_pkh ← to_array 28 pkh;
  Some (RegisterV0 (mkRegisterValidatorDatumV0 stake_ownership sidechain_pub_key sidechain_signature consumed_input
    own_pkh aura_pub_key grandpa_pub_key)).
Definition decode_legacy_register_validator_datum (datum : PlutusData) : option RegisterValidatorDatum :=
  fields ← constr0_fields 7 datum;
  s ← fields !! 0%nat; stake_ownership ← decode_ada_based_staking_datum s;
  sidechain_pub_key ← get_bytes fields 1;
  sidechain_signature ← get_bytes fields 2;
  u ← fields !! 3%nat; consumed_input ← decode_utxo_id_datum u;
  pkh ← get_bytes fields 4; own_pkh ← to_array 28 pkh;
  aura_pub_key ← get_bytes fields 5;
  grandpa_pub_key ← get_bytes fields 6;
  Some (RegisterV0 (mkRegisterValidatorDatumV0 stake_ownership sidechain_pub_key sidechain_signature consumed_input
    own_pkh aura_pub_key grandpa_pub_key)).
#[export] Instance RegisterValidatorDatum_versioned : VersionedDatum RegisterValidatorDatum := {|
  NAME := "RegisterValidatorDatum";
  decode_legacy data := ok_or (decode_legacy_register_validator_datum data) "Invalid data"%string;
  decode_versioned version const_data mut_data :=
    if version =? 0 then ok_or (decode_v0_register_validator_datum const_data mut_data)
                           "Can not parse mutable part of data"%string
    else unknown_version version
|}.

Definition tx_hash_to_plutus_data (v : McTxHash) : PlutusData := new_constr_plutus_data 0 [new_bytes v].
Definition utxo_id_to_plutus_data (v : UtxoId) : PlutusData :=
  new_constr_plutus_data 0 [tx_hash_to_plutus_data (tx_hash v); new_integer (index v)].
Definition stake_ownership_to_plutus_data (v : AdaBasedStaking) : PlutusData :=
  new_constr_plutus_data 0 [new_bytes (abs_pub_key v); new_bytes (abs_signature v)].
Definition register_to_plutus_data (v : RegisterValidatorDatum) : PlutusData :=
  let 'RegisterV0 v := v in
  let generic_data_fields := [stake_ownership_to_plutus_data (rv_stake_ownership v); new_bytes (rv_sidechain_pub_key v);
    new_bytes (rv_sidechain_signature v); utxo_id_to_plutus_data (rv_consumed_input v);
    new_bytes (rv_aura_pub_key v); new_bytes (rv_grandpa_pub_key v)] in
  versioned_generic_datum (new_bytes (rv_own_pkh v)) (new_constr_plutus_data 0 generic_data_fields) 0.

(** ** Version oracle *)
Record VersionOracleDatum := mkVersionOracleDatum { version_oracle : Z; currency_symbol : bytes }.
Definition version_oracle_try_from (datum : PlutusData) : DecodingResult VersionOracleDatum :=
  ok_or (items ← as_list datum;
         if (length items =? 2)%nat then
           v ← items !! 0%nat; version_oracle ← as_u32 v;
           c ← items !! 1%nat; c ← as_bytes c; currency_symbol ← to_array 28 c;
           Some (mkVersionOracleDatum version_oracle currency_symbol)
         else None) (mkDataDecodingError datum "VersionOracleDatum" "Expected [u32, [u8;32]]").
Definition version_oracle_to_plutus_data (d : VersionOracleDatum) : PlutusData :=
  new_list [new_integer (version_oracle d); new_bytes (currency_symbol d)].
End Extensions.

(** ** Round trips *)
Definition wf_register (v : RegisterValidatorDatum) : Prop :=
  let 'RegisterV0 v := v in
  length (abs_pub_key (rv_stake_ownership v)) = 32%nat /\ length (tx_hash (rv_consumed_input v)) = 32%nat /\
  in_width 16 (index (rv_consumed_input v)) /\ length (rv_own_pkh v) = 28%nat.

Section RoundTrips.
Context `{CslLaws}.

Lemma to_array_id n (b : bytes) : length b = n -> to_array n b = Some b.
Proof. intros Hl. unfold to_array. by rewrite decide_True. Qed.
Lemma as_u32_new n : in_width 32 n -> as_u32 (new_integer n) = Some n.
Proof.
  intros Hn. unfold as_u32. rewrite as_integer_new. cbn [mbind option_bind].
  rewrite (proj2 (try_into_width_Some 64 n n)) by (split; [by apply (in_width_le 32)|done]). cbn [mbind option_bind].
  by apply try_into_width_Some.
Qed.
Lemma as_u16_new n : in_width 16 n -> as_u16 (new_integer n) = Some n.
Proof.
  intros Hn. unfold as_u16. rewrite as_u32_new by (by apply (in_width_le 16)). by apply try_into_width_Some.
Qed.
Lemma payload_of_versioned c m v :
  in_width 32 v -> plutus_data_version_and_payload (versioned_generic_datum c m (v)) = Some (v, c, m).
Proof.
  intros Hv. unfold plutus_data_version_and_payload, versioned_generic_datum. rewrite as_list_new. cbn.
  by rewrite as_u32_new.
Qed.

Lemma decode_legacy_d d :
  wf_DParameter d ->
  decode_legacy_d_param (new_list [new_integer (num_permissioned_candidates d); new_integer (num_registered_candidates d)]) =
    Ok (DParamV0 (num_permissioned_candidates d) (num_registered_candidates d)).
Proof.
  intros [Hp Hr]. unfold decode_legacy_d_param. rewrite as_list_new. cbn. rewrite as_u16_new by done. cbn.
  by rewrite as_u16_new.
Qed.

Definition candidate_datum (c : PermissionedCandidateData) : PermissionedCandidateDatumV0 :=
  mkPermissionedCandidateDatumV0 (sidechain_public_key c) (aura_public_key c) (grandpa_public_key c).
Lemma decode_candidate c : decode_legacy_candidate_datum (candidate_to_plutus_data c) = Some (candidate_datum c).
Proof. unfold decode_legacy_candidate_datum, candidate_to_plutus_data. rewrite as_list_new. cbn. by rewrite !as_bytes_new. Qed.
Lemma decode_legacy_permissioned_list cs :
  decode_legacy_permissioned (new_list (map candidate_to_plutus_data cs)) = Ok (PermissionedV0 (map candidate_datum cs)).
Proof.
  unfold decode_legacy_permissioned. rewrite as_list_new. cbn [mbind option_bind].
  assert (mapM decode_legacy_candidate_datum (map candidate_to_plutus_data cs) = Some (map candidate_datum cs)) as ->; [|done].
  induction cs as [|c cs IH]; [done|]. cbn [map mapM]. rewrite decode_candidate. cbn. cbn in IH. by rewrite IH.
Qed.

Lemma constr0_fields_new n l : (n <=? length l)%nat = true -> constr0_fields n (new_constr_plutus_data 0 l) = Some l.
Proof. intros Hn. unfold constr0_fields. rewrite as_constr_new. cbn [mbind option_bind]. by rewrite Hn. Qed.
Lemma decode_utxo_id u :
  length (tx_hash u) = 32%nat -> in_width 16 (index u) -> decode_utxo_id_datum (utxo_id_to_plutus_data u) = Some u.
Proof.
  intros Hh Hi. unfold decode_utxo_id_datum, utxo_id_to_plutus_data. rewrite constr0_fields_new by done. cbn.
  unfold decode_tx_hash_datum, tx_hash_to_plutus_data. rewrite constr0_fields_new by done. cbn.
  rewrite as_bytes_new. cbn. rewrite to_array_id by done. cbn. rewrite as_u16_new by done. by destruct u.
Qed.
Lemma decode_stake_ownership v :
  length (abs_pub_key v) = 32%nat -> decode_ada_based_staking_datum (stake_ownership_to_plutus_data v) = Some v.
Proof.
  intros Hk. unfold decode_ada_based_staking_datum, stake_ownership_to_plutus_data. rewrite constr0_fields_new by done.
  cbn. rewrite !as_bytes_new. cbn. unfold MainchainPublicKey_try_from. rewrite to_array_id by done. cbn. by destruct v.
Qed.

(** The registration schema before versioning. *)
Definition legacy_registration (v : RegisterValidatorDatumV0) : PlutusData :=
  new_constr_plutus_data 0 [stake_ownership_to_plutus_data (rv_stake_ownership v); new_bytes (rv_sidechain_pub_key v);
    new_bytes (rv_sidechain_signature v); utxo_id_to_plutus_data (rv_consumed_input v); new_bytes (rv_own_pkh v);
    new_bytes (rv_aura_pub_key v); new_bytes (rv_grandpa_pub_key v)].

Lemma decode_versioned_registration v :
  wf_register (RegisterV0 v) -> decode (register_to_plutus_data (RegisterV0 v)) = Ok (RegisterV0 v).
Proof.
  intros (Hk & Hh & Hi & Hp). unfold decode, register_to_plutus_data. rewrite payload_of_versioned by (unfold in_width; lia).
  cbn [decode_versioned RegisterValidatorDatum_versioned Z.eqb]. unfold decode_v0_register_validator_datum.
  rewrite constr0_fields_new by done. cbn. rewrite decode_stake_ownership by done. cbn. rewrite !as_bytes_new. cbn.
  rewrite decode_utxo_id by done. cbn. rewrite ?as_bytes_new. cbn. rewrite to_array_id by done. cbn. by destruct v.
Qed.

Lemma decode_legacy_registration v :
  wf_register (RegisterV0 v) -> decode (legacy_registration v) = Ok (RegisterV0 v).
Proof.
  intros (Hk & Hh & Hi & Hp). unfold decode, plutus_data_version_and_payload, legacy_registration.
  rewrite as_list_constr. cbn [mbind option_bind decode_legacy RegisterValidatorDatum_versioned].
  unfold decode_legacy_register_validator_datum. rewrite constr0_fields_new by done. cbn.
  rewrite decode_stake_ownership by done. cbn. rewrite !as_bytes_new. cbn. rewrite decode_utxo_id by done. cbn.
  rewrite ?as_bytes_new. cbn. rewrite to_array_id by done. cbn. by destruct v.
Qed.

Lemma decode_d_parameter d :
  wf_DParameter d -> exists v, decode (d_parameter_to_plutus_data d) = Ok v /\ DParameter_from v = d.
Proof.
  intros Hd. eexists. unfold decode, d_parameter_to_plutus_data. rewrite payload_of_versioned by (unfold in_width; lia).
  cbn [decode_versioned DParamDatum_versioned Z.eqb]. rewrite decode_legacy_d by done. split; [done|]. by destruct d.
Qed.
Lemma decode_permissioned_candidates cs :
  exists v, decode (permissioned_candidates_to_plutus_data cs) = Ok v /\ PermissionedCandidates_from v = cs.
Proof.
  eexists. unfold decode, permissioned_candidates_to_plutus_data.
  rewrite payload_of_versioned by (unfold in_width; lia).
  cbn [decode_versioned PermissionedCandidateDatums_versioned Z.eqb]. rewrite decode_legacy_permissioned_list.
  split; [done|]. cbn. rewrite map_map. induction cs as [|[] cs IH]; [done|]. cbn. by rewrite IH.
Qed.

(** A list whose third element is a list is not versioned data. *)
Lemma legacy_permissioned_unversioned cs :
  plutus_data_version_and_payload (new_list (map candidate_to_plutus_data cs)) = None.
Proof.
  unfold plutus_data_version_and_payload. rewrite as_list_new. cbn [mbind option_bind].
  destruct (Nat.eqb_spec (length (map candidate_to_plutus_data cs)) 3) as [Hl|]; [|done].
  destruct cs as [|a [|b [|c [|]]]]; try done. cbn. unfold as_u32, candidate_to_plutus_data. by rewrite as_integer_list.
Qed.
End RoundTrips.

(** C25: What the off-chain code writes, the node reads: the D-parameter, the permissioned
    candidates, a registration and the version oracle survive encoding and decoding. *)
Theorem contract_datums_round_trip `{CslLaws} :
  (forall d, wf_DParameter d -> exists v, decode (d_parameter_to_plutus_data d) = Ok v /\ DParameter_from v = d) /\
  (forall cs, exists v, decode (permissioned_candidates_to_plutus_data cs) = Ok v /\ PermissionedCandidates_from v = cs) /\
  (forall v, wf_register v -> decode (register_to_plutus_data v) = Ok v) /\
  (forall v, in_width 32 (version_oracle v) -> length (currency_symbol v) = 28%nat ->
    version_oracle_try_from (version_oracle_to_plutus_data v) = Ok v).
Proof.
  split_and!.
  - apply decode_d_parameter.
  - apply decode_permissioned_candidates.
  - intros [v]. apply decode_versioned_registration.
  - intros v Hv Hl. unfold version_oracle_try_from, version_oracle_to_plutus_data. rewrite as_list_new. cbn.
    rewrite as_u32_new by done. cbn. rewrite as_bytes_new. cbn. rewrite to_array_id by done. by destruct v.
Qed.

(** Datums in the schema from before versioning are still read as the same values,
    whatever their length (a list of three permissioned candidates is not mistaken for
    versioned data), and a version other than 0 is refused. *)
Theorem legacy_datums_are_read `{CslLaws} :
  (forall d, wf_DParameter d ->
    decode (T := DParamDatum) (new_list [new_integer (num_permissioned_candidates d); new_integer (num_registered_candidates d)]) =
      decode (d_parameter_to_plutus_data d)) /\
  (forall cs, decode (new_list (map candidate_to_plutus_data cs)) = Ok (PermissionedV0 (map candidate_datum cs))) /\
  (forall v, wf_register (RegisterV0 v) -> decode (legacy_registration v) = Ok (RegisterV0 v)) /\
  (forall c m v, in_width 32 v -> v <> 0 ->
    (exists e, decode (T := DParamDatum) (versioned_generic_datum c m v) = Err e) /\
    (exists e, decode (T := PermissionedCandidateDatums) (versioned_generic_datum c m v) = Err e) /\
    (exists e, decode (T := RegisterValidatorDatum) (versioned_generic_datum c m v) = Err e)).
Proof.
  split_and!.
  - intros d Hd. unfold decode, d_parameter_to_plutus_data. rewrite payload_of_versioned by (unfold in_width; lia).
    unfold plutus_data_version_and_payload. rewrite as_list_new. cbn [mbind option_bind length Nat.eqb].
    cbn [decode_legacy decode_versioned DParamDatum_versioned Z.eqb]. by rewrite decode_legacy_d.
  - intros cs. unfold decode. rewrite legacy_permissioned_unversioned.
    cbn [decode_legacy PermissionedCandidateDatums_versioned]. by rewrite decode_legacy_permissioned_list.
  - intros v. apply decode_legacy_registration.
  - intros c m v Hv Hne. unfold decode. rewrite payload_of_versioned by done.
    cbn [decode_versioned DParamDatum_versioned PermissionedCandidateDatums_versioned RegisterValidatorDatum_versioned].
    rewrite (proj2 (Z.eqb_neq v 0)) by done. split_and!; eexists; reflexivity.
Qed.

(** ** Plutus data as a tree *)
Module CslTree.
Inductive tree := TInteger (n : Z) | TBytes (b : bytes) | TList (l : list tree) | TConstr (n : Z) (l : list tree).
#[export] Instance csl_tree : Csl := {|
  PlutusData := tree;
  as_integer t := match t with TInteger n => Some n | _ => None end;
  as_bytes t := match t with TBytes b => Some b | _ => None end;
  as_list t := match t with TList l => Some l | _ => None end;
  as_constr_plutus_data t := match t with TConstr n l => Some (n, l) | _ => None end;
  new_integer := TInteger; new_bytes := TBytes; new_list := TList; new_constr_plutus_data := TConstr
|}.
#[export] Instance csl_tree_laws : CslLaws.
Proof. by split. Qed.
End CslTree.

Section Witnesses.
Import CslTree.
#[local] Definition registration := RegisterV0 (mkRegisterValidatorDatumV0 (mkAdaBasedStaking (replicate 32 1) [2])
  [3] [4] (mkUtxoId (replicate 32 5) 1) (replicate 28 6) [7] [8]).
Lemma contract_datums_round_trip_witness :
  decode (register_to_plutus_data registration) = Ok registration /\
  exists v, decode (d_parameter_to_plutus_data (mkDParameter 17 42)) = Ok v /\ DParameter_from v = mkDParameter 17 42.
Proof.
  destruct contract_datums_round_trip as (Hd & _ & Hr & _). split.
  - apply Hr. cbn. unfold in_width. split_and!; done || lia.
  - apply Hd. unfold wf_DParameter, in_width. cbn. lia.
Defined.
Lemma legacy_datums_are_read_witness :
  decode (new_list [new_integer 17; new_integer 42]) = decode (T := DParamDatum) (d_parameter_to_plutus_data (mkDParameter 17 42)).
Proof.
  destruct legacy_datums_are_read as (Hd & _). apply (Hd (mkDParameter 17 42)).
  unfold wf_DParameter, in_width. cbn. lia.
Defined.
End Witnesses.
