(* ===== verification/Selection.v ===== *)
(** * Weighted pseudorandom selection of authorities

    [toolkit/primitives/selection]: [weighted_random.rs] draws a committee from
    weighted candidates and [impls.rs] derives the seed of an epoch.

    The random generator ([ChaCha20Rng]) and the 256-bit integers of [sp_core]
    are third-party: they are the classes [Rng] and [U256]. The laws of [Rng]
    are the documented behaviour of [Rng::gen_range] ("Panics if the range is
    empty", a result inside the range otherwise); those of [U256] say that the
    conversions are big-endian and the addition is modulo 2^256. *)

From S2P Require Import Prelude Domain.

(** [pub type Weight = u128]. *)
Abbreviation Weight := Z.

Record WeightedRandomSelectionConfig := mkSelectionConfig { size : Z }.

Class Rng := {
  rng : Type;
  from_seed : bytes -> rng;
  gen_range : rng -> Z -> outcome (Z * rng)
}.
Class RngLaws `{Rng} : Prop := {
  gen_range_empty : forall g, gen_range g 0 = Panic;
  gen_range_bounds : forall g hi, 0 < hi ->
    exists r g', gen_range g hi = Done (r, g') /\ 0 <= r < hi
}.

Section Selection.
Context `{Rng} {T : Type}.

Implicit Types wc : list (T * Weight).

(** The [for] loop of [select_with_weight]. *)
Fixpoint find_index (candidates : list (T * Weight)) (index : nat) (cumulative_weight random_number : Z)
    : outcome nat :=
  match candidates with
  | [] => Panic
  | (_, weight) :: rest =>
      let cumulative_weight := cumulative_weight +[128] weight in
      if random_number <? cumulative_weight then Done index
      else find_index rest (S index) cumulative_weight random_number
  end.

Definition select_with_weight (candidates : list (T * Weight)) (total_weight : Weight) (rand : rng)
    : outcome (nat * rng) :=
  '(random_number, rand) ← gen_range rand total_weight;
  index ← find_index candidates 0 0 random_number;
  Done (index, rand).

(** The [while] loop of [select_authorities], by recursion on the number of
    members the committee still misses (see [while_loop_unfold]). *)
Fixpoint select_loop (weighted_candidates : list (T * Weight)) (total_weight : Weight)
    (missing : nat) (committee : list T) (g : rng) : outcome (list T) :=
  match missing with
  | O => Done committee
  | S missing' =>
      if bool_decide (weighted_candidates = []) then Done committee
      else
        '(selected_index, g) ← select_with_weight weighted_candidates total_weight g;
        selected ← expect (weighted_candidates !! selected_index);
        select_loop weighted_candidates total_weight missing' (committee ++ [fst selected]) g
  end.

Definition while_loop (weighted_candidates : list (T * Weight)) (total_weight : Weight) (size : nat)
    (committee : list T) (g : rng) : outcome (list T) :=
  select_loop weighted_candidates total_weight (size - length committee) committee g.

Definition select_authorities (weighted_candidates : list (T * Weight)) (seed : bytes)
    (config : WeightedRandomSelectionConfig) : outcome (option (list T)) :=
  let size := Z.to_nat (size config) in
  let total_weight := sum_width 128 (map snd weighted_candidates) in
  let g := from_seed seed in
  committee ← while_loop weighted_candidates total_weight size [] g;
  if (size <=? length committee)%nat then Done (Some committee) else Done None.

(** The loop satisfies the equation of the [while] it models. *)
Lemma while_loop_unfold wc total size committee g :
  while_loop wc total size committee g =
    if (length committee <? size)%nat && negb (bool_decide (wc = [])) then
      '(i, g) ← select_with_weight wc total g;
      selected ← expect (wc !! i);
      while_loop wc total size (committee ++ [fst selected]) g
    else Done committee.
Proof.
  unfold while_loop at 1. destruct (size - length committee)%nat as [|m] eqn:Hm; cbn [select_loop].
  { by rewrite (proj2 (Nat.ltb_ge _ _)) by lia. }
  rewrite (proj2 (Nat.ltb_lt _ _)) by lia. cbn [andb].
  case_bool_decide; cbn [negb]; [done|].
  assert (forall x, (size - length (committee ++ [x]) = m)%nat) as Hlen
    by (intros; rewrite length_app; simpl; lia).
  unfold while_loop. cbn. destruct (select_with_weight wc total g) as [[i g']|]; [|done].
  cbn. destruct (expect _); cbn; [|done]. by rewrite Hlen.
Qed.

(** ** The index drawn *)

(** What remains to be added after the cumulative weight never lets the search run out. *)
Lemma find_index_some wc i cum r :
  wc <> [] -> r < wrap 128 (cum + sum_list (map snd wc)) ->
  exists j, find_index wc i cum r = Done (i + j)%nat /\ (j < length wc)%nat.
Proof.
  revert i cum; induction wc as [|[x w] wc IH]; intros i cum Hne Hr; [done|].
  cbn [find_index]. destruct (Z.ltb_spec r (cum +[128] w)) as [|Hge].
  { exists 0%nat. cbn. split; [f_equal; lia | lia]. }
  destruct wc as [|p wc].
  { unfold wrapping_add in Hge. cbn in Hr. rewrite Z.add_0_r in Hr. lia. }
  destruct (IH (S i) (cum +[128] w)) as (j & -> & Hj); [done| |].
  - unfold wrapping_add, wrap. rewrite Zplus_mod_idemp_l.
    unfold wrap in Hr. cbn [map snd sum_list foldr] in Hr |- *. unfold sum_list in *. cbn in *.
    by rewrite <- Z.add_assoc.
  - exists (S j). split; [f_equal; lia | simpl in *; lia].
Qed.

Lemma find_index_ge wc k cum r n : find_index wc k cum r = Done n -> (k <= n)%nat.
Proof.
  revert k cum; induction wc as [|[x w] wc IH]; intros k cum; cbn [find_index]; [done|].
  destruct (r <? _); [intros [= ->]; lia|]. intros Hn%IH. lia.
Qed.

(** Without overflow, index [i] is drawn for exactly the random numbers of the
    [i]-th weight interval. *)
Lemma find_index_interval wc k cum r i :
  Forall (fun c => 0 <= snd c) wc -> 0 <= cum -> cum <= r ->
  cum + sum_list (map snd wc) < 2 ^ 128 ->
  find_index wc k cum r = Done (k + i)%nat <->
    (i < length wc)%nat /\
    cum + sum_list (take i (map snd wc)) <= r < cum + sum_list (take (S i) (map snd wc)).
Proof.
  intros Hw. revert k cum i; induction Hw as [|[x w] wc Hw0 Hw IH]; intros k cum i Hcum Hr Hsum.
  { cbn. split; [done | lia]. }
  cbn [map snd sum_list foldr] in Hsum. fold (sum_list (map snd wc)) in Hsum. cbn in Hw0.
  assert (0 <= sum_list (map snd wc)) as Hpos.
  { apply sum_list_nonneg, Forall_map. eapply Forall_impl; [exact Hw|]. done. }
  cbn [find_index]. rewrite wrapping_add_small by (unfold in_width; lia).
  destruct (Z.ltb_spec r (cum + w)) as [Hlt|Hge].
  - split.
    + intros [= Heq]. assert (i = 0%nat) as -> by lia. cbn. rewrite take_0. cbn. lia.
    + intros (Hi & Hlo & Hhi). destruct i as [|i]; [f_equal; lia|].
      cbn in Hlo. assert (0 <= foldr Z.add 0 (take i (map snd wc))); [|lia].
      apply sum_list_nonneg, Forall_take, Forall_map. eapply Forall_impl; [exact Hw|]. done.
  - destruct i as [|i].
    + rewrite Nat.add_0_r. split.
      * intros Heq%find_index_ge. lia.
      * cbn. rewrite take_0. cbn. lia.
    + replace (k + S i)%nat with (S k + i)%nat by lia. rewrite IH by lia.
      cbn [length map snd take sum_list foldr]. unfold sum_list.
      split; intros (? & ? & ?); (split; [lia|]); lia.
Qed.

Context `{!RngLaws}.

(** One draw never fails when the (machine) total weight is not zero. *)
Lemma select_with_weight_done wc g :
  let total := sum_width 128 (map snd wc) in
  wc <> [] -> 0 < total ->
  exists i g', select_with_weight wc total g = Done (i, g') /\ (i < length wc)%nat.
Proof.
  intros total Hne Hpos. destruct (gen_range_bounds g total Hpos) as (r & g' & Hg & Hr).
  destruct (find_index_some wc 0 0 r Hne) as (j & Hj & Hlt).
  { rewrite Z.add_0_l, <- sum_width_spec by lia. apply Hr. }
  exists j, g'. unfold select_with_weight. cbn. rewrite Hg. cbn. by rewrite Hj.
Qed.

Lemma select_loop_done wc missing committee g :
  let total := sum_width 128 (map snd wc) in
  wc <> [] -> 0 < total ->
  exists committee', select_loop wc total missing committee g = Done committee' /\
    length committee' = (length committee + missing)%nat /\
    forall x, x ∈ committee' -> x ∈ committee \/ x ∈ map fst wc.
Proof.
  intros total Hne Hpos. revert committee g; induction missing as [|m IH]; intros committee g.
  { exists committee. cbn. split_and!; [done | lia | tauto]. }
  cbn [select_loop]. rewrite bool_decide_eq_false_2 by done.
  destruct (select_with_weight_done wc g Hne Hpos) as (i & g' & Hsel & Hi). fold total in Hsel.
  rewrite Hsel. simpl_monad. destruct (lookup_lt_is_Some_2 _ _ Hi) as [c Hc]. rewrite Hc. simpl_monad.
  destruct (IH (committee ++ [c.1]) g') as (committee' & Hl & Hlen & Hin).
  exists committee'. split_and!; [done | rewrite Hlen, length_app; cbn; lia |].
  intros x [Hx|Hx]%Hin; [|by right].
  apply elem_of_app in Hx as [Hx|Hx%list_elem_of_singleton]; [by left|right].
  subst. apply list_elem_of_fmap. exists c. split; [done|]. by apply list_elem_of_lookup_2 in Hc.
Qed.
End Selection.

Lemma select_authorities_cases `{RngLaws} {T} (wc : list (T * Weight)) seed config :
  0 <= size config ->
  match select_authorities wc seed config with
  | Panic => 0 < size config /\ wc <> [] /\ sum_width 128 (map snd wc) = 0
  | Done None => 0 < size config /\ wc = []
  | Done (Some committee) =>
      length committee = Z.to_nat (size config) /\ (forall x, x ∈ committee -> x ∈ map fst wc) /\
      (0 < size config -> sum_width 128 (map snd wc) <> 0)
  end.
Proof.
  intros Hsize. unfold select_authorities, while_loop. cbn [length].
  rewrite Nat.sub_0_r. remember (Z.to_nat (size config)) as n eqn:Hn.
  assert (0 <= sum_width 128 (map snd wc)) as Hnn.
  { rewrite sum_width_spec by lia. by apply wrap_in_width. }
  destruct n as [|n].
  { cbn. split_and!; [done | by intros x ?%elem_of_nil | lia]. }
  destruct (decide (wc = [])) as [->|Hne].
  { cbn. split; [lia | done]. }
  destruct (Z.eq_dec (sum_width 128 (map snd wc)) 0) as [Hz|Hz].
  { cbn. rewrite bool_decide_eq_false_2 by done. unfold select_with_weight. cbn.
    rewrite Hz, gen_range_empty. cbn. split_and!; [lia | done | done]. }
  destruct (select_loop_done wc (S n) [] (from_seed seed) Hne ltac:(lia)) as (committee & -> & Hlen & Hin).
  cbn [mbind outcome_bind length plus] in *. rewrite (proj2 (Nat.leb_le _ _)) by lia.
  split_and!; [done | | done]. by intros x [?%elem_of_nil|?]%Hin.
Qed.

(** Behaviour of [select_authorities] on every input: an empty committee is always
    filled; without candidates there is no committee; with candidates whose machine
    total weight is zero the draw panics (empty range); and otherwise the loop ends with
    a committee of exactly [size] members, all of them candidates. In particular
    "Did not select any candidate" is unreachable, even if the weights overflow. *)
Theorem select_authorities_total `{RngLaws} {T} (wc : list (T * Weight)) seed config :
  0 <= size config ->
  match select_authorities wc seed config with
  | Panic => 0 < size config /\ wc <> [] /\ sum_width 128 (map snd wc) = 0
  | Done None => 0 < size config /\ wc = []
  | Done (Some committee) =>
      length committee = Z.to_nat (size config) /\ (forall x, x ∈ committee -> x ∈ map fst wc) /\
      (0 < size config -> sum_width 128 (map snd wc) <> 0)
  end.
Proof. apply select_authorities_cases. Qed.

(** Without overflow of the total weight a draw picks candidate [i] for exactly the
    random numbers between the weights before it and those weights plus its own, so the
    number of favourable outcomes is the candidate's weight and a weight of zero is never
    picked. *)
Theorem select_with_weight_interval `{RngLaws} {T} (wc : list (T * Weight)) g r g' i :
  Forall (fun c => 0 <= snd c) wc -> sum_list (map snd wc) < 2 ^ 128 ->
  gen_range g (sum_list (map snd wc)) = Done (r, g') -> 0 <= r ->
  (select_with_weight wc (sum_width 128 (map snd wc)) g = Done (i, g') <->
   (i < length wc)%nat /\
   sum_list (take i (map snd wc)) <= r < sum_list (take (S i) (map snd wc))).
Proof.
  intros Hw Hsum Hg Hr.
  assert (0 <= sum_list (map snd wc)) by (by apply sum_list_nonneg, Forall_map).
  rewrite sum_width_small by (unfold in_width; lia).
  pose proof (find_index_interval wc 0 0 r i Hw ltac:(lia) Hr ltac:(lia)) as Hi. cbn in Hi.
  unfold select_with_weight. cbn. rewrite Hg. cbn. unfold sum_list in *. rewrite <- Hi.
  destruct (find_index wc 0 0 r) as [j|]; cbn; split; congruence.
Qed.

(** ** The seed of an epoch *)

Class U256 := {
  u256 : Type;
  u256_from_bytes : bytes -> u256;
  u256_from_u64 : Z -> u256;
  overflowing_add : u256 -> u256 -> u256 * bool;
  u256_to_bytes : u256 -> bytes
}.
Class U256Laws `{U256} (value : u256 -> Z) : Prop := {
  u256_value_bounds : forall x, in_width 256 (value x);
  u256_from_bytes_be : forall bs, wf_bytes bs -> length bs = 32%nat -> value (u256_from_bytes bs) = be_value bs;
  u256_from_u64_value : forall n, in_width 64 n -> value (u256_from_u64 n) = n;
  overflowing_add_value : forall x y, value (fst (overflowing_add x y)) = (value x + value y) mod 2 ^ 256;
  u256_to_bytes_be : forall x, length (u256_to_bytes x) = 32%nat /\ be_value (u256_to_bytes x) = value x
}.

(** [resize_with(32, || 0)] then [try_into] an array of 32 bytes. *)
Definition seed_from_nonce_and_sc_epoch `{U256} (epoch_nonce : EpochNonce)
    (sidechain_epoch_number : ScEpochNumber) : outcome bytes :=
  let epoch_nonce := resize 32 0 epoch_nonce in
  epoch_nonce ← expect (to_array 32 epoch_nonce);
  let seed_u256 := fst (overflowing_add (u256_from_bytes epoch_nonce) (u256_from_u64 sidechain_epoch_number)) in
  Done (u256_to_bytes seed_u256).

Lemma wf_bytes_resize n bs : wf_bytes bs -> wf_bytes (resize n 0 bs).
Proof. intros. apply Forall_resize; [unfold in_width; lia | done]. Qed.

Lemma seed_spec `{U256Laws} nonce epoch :
  wf_bytes nonce -> in_width 64 epoch ->
  exists s, seed_from_nonce_and_sc_epoch nonce epoch = Done s /\ length s = 32%nat /\
    be_value s = (be_value (resize 32 0 nonce) + epoch) mod 2 ^ 256.
Proof.
  intros Hn He. unfold seed_from_nonce_and_sc_epoch, to_array.
  rewrite decide_True by apply length_resize. cbn [expect mbind outcome_bind].
  eexists. split; [done|]. destruct (u256_to_bytes_be (overflowing_add
    (u256_from_bytes (resize 32 0 nonce)) (u256_from_u64 epoch)).1) as [Hl Hv].
  split; [done|]. rewrite Hv, overflowing_add_value.
  rewrite u256_from_bytes_be, u256_from_u64_value; [done | done | | apply length_resize].
  by apply wf_bytes_resize.
Qed.

(** The seed is always produced: the nonce cut or zero-padded to 32 bytes, plus the
    epoch number, modulo 2^256 and big-endian; and two different epochs under one nonce
    never share a seed. *)
Theorem seed_of_epochs_distinct `{U256Laws} nonce epoch epoch' :
  wf_bytes nonce -> in_width 64 epoch -> in_width 64 epoch' ->
  exists s s', seed_from_nonce_and_sc_epoch nonce epoch = Done s /\
    seed_from_nonce_and_sc_epoch nonce epoch' = Done s' /\
    be_value s = (be_value (resize 32 0 nonce) + epoch) mod 2 ^ 256 /\
    length s = 32%nat /\
    (s = s' <-> epoch = epoch').
Proof.
  intros Hn He He'. destruct (seed_spec nonce epoch Hn He) as (s & Hs & Hl & Hv).
  destruct (seed_spec nonce epoch' Hn He') as (s' & Hs' & Hl' & Hv').
  exists s, s'. split_and!; [done..|]. split; [|intros ->; congruence].
  intros <-. rewrite Hv in Hv'. unfold in_width in *.
  apply (f_equal (fun x => (x - be_value (resize 32 0 nonce)) mod 2 ^ 256)) in Hv'.
  rewrite !Zminus_mod_idemp_l, !Z.add_simpl_l, !Z.mod_small in Hv' by lia. done.
Qed.

(** ** Concrete instances

    A linear congruential generator and integers modulo 2^256, which satisfy the laws. *)
Module Concrete.
#[export] Instance lcg : Rng := {|
  rng := Z;
  from_seed := be_value;
  gen_range g hi := if hi <=? 0 then Panic
                    else Done (g mod hi, (g * 6364136223846793005 + 1442695040888963407) mod 2 ^ 64)
|}.
#[export] Instance lcg_laws : RngLaws.
Proof.
  split; [done|]. intros g hi Hhi. cbn. rewrite (proj2 (Z.leb_gt _ _)) by done.
  eexists _, _. split; [done|]. by apply Z.mod_pos_bound.
Qed.

#[export] Instance z256 : U256 := {|
  u256 := Z;
  u256_from_bytes := be_value;
  u256_from_u64 n := n;
  overflowing_add x y := ((x + y) mod 2 ^ 256, 2 ^ 256 <=? x + y);
  u256_to_bytes := to_be_bytes 32
|}.
Lemma pow256_32 : 256 ^ Z.of_nat 32 = 2 ^ 256.
Proof. vm_compute. reflexivity. Qed.
Lemma z256_from_bytes bs : wf_bytes bs -> length bs = 32%nat -> be_value bs mod 2 ^ 256 = be_value bs.
Proof.
  intros Hbs Hl. apply Z.mod_small. pose proof (be_value_bounds bs Hbs) as Hb.
  by rewrite Hl, pow256_32 in Hb.
Qed.
Lemma z256_from_u64 n : in_width 64 n -> n mod 2 ^ 256 = n.
Proof. unfold in_width. intros Hn. apply Z.mod_small. lia. Qed.
Lemma z256_add x y : ((x + y) mod 2 ^ 256) mod 2 ^ 256 = (x mod 2 ^ 256 + y mod 2 ^ 256) mod 2 ^ 256.
Proof. by rewrite Z.mod_mod, <- Zplus_mod by lia. Qed.
Lemma z256_to_bytes x :
  length (to_be_bytes 32 x) = 32%nat /\ be_value (to_be_bytes 32 x) = x mod 2 ^ 256.
Proof. split; [apply length_to_be_bytes|]. by rewrite be_value_to_be_bytes, pow256_32. Qed.
#[export] Instance z256_laws : U256Laws (fun x => x mod 2 ^ 256).
Proof.
  constructor; [intros x; by apply wrap_in_width | exact z256_from_bytes | exact z256_from_u64
    | exact z256_add | exact z256_to_bytes].
Qed.
End Concrete.

Section Witnesses.
Import Concrete.
#[local] Definition alice_bob : list (string * Weight) := [("alice"%string, 3); ("bob"%string, 1)].

#[local] Definition three : WeightedRandomSelectionConfig := mkSelectionConfig 3.

Lemma select_authorities_total_witness :
  select_authorities alice_bob (to_be_bytes 32 7) three = Done (Some ["bob"; "alice"; "alice"]%string) /\
  match select_authorities alice_bob (to_be_bytes 32 7) three with
  | Panic => 0 < size three /\ alice_bob <> [] /\ sum_width 128 (map snd alice_bob) = 0
  | Done None => 0 < size three /\ alice_bob = []
  | Done (Some committee) =>
      length committee = Z.to_nat (size three) /\ (forall x, x ∈ committee -> x ∈ map fst alice_bob) /\
      (0 < size three -> sum_width 128 (map snd alice_bob) <> 0)
  end.
Proof.
  split; [vm_compute; reflexivity|]. apply select_authorities_total. cbn. lia.
Defined.

#[local] Definition g7 : rng := 7.
#[local] Definition g8 : rng := (7 * 6364136223846793005 + 1442695040888963407) mod 2 ^ 64.

Lemma select_with_weight_interval_witness :
  select_with_weight alice_bob (sum_width 128 (map snd alice_bob)) g7 = Done (1%nat, g8) <->
  (1 < length alice_bob)%nat /\
  sum_list (take 1 (map snd alice_bob)) <= 3 < sum_list (take 2 (map snd alice_bob)).
Proof.
  apply select_with_weight_interval;
    [repeat constructor; cbn; lia | cbn; lia | vm_compute; reflexivity | lia].
Defined.

Lemma seed_of_epochs_distinct_witness :
  exists s s', seed_from_nonce_and_sc_epoch [1; 2] 5 = Done s /\
    seed_from_nonce_and_sc_epoch [1; 2] 6 = Done s' /\
    be_value s = (be_value (resize 32 0 [1; 2]) + 5) mod 2 ^ 256 /\
    length s = 32%nat /\ (s = s' <-> 5 = 6).
Proof.
  apply (seed_of_epochs_distinct [1; 2] 5 6); [repeat constructor; lia | split; lia | split; lia].
Defined.
End Witnesses.
