(* ===== verification/Ariadne.v ===== *)
(** * Ariadne: validating candidates and selecting the committee

    [toolkit/primitives/authority-selection-inherents]: registrations and
    permissioned candidates are validated ([filter_invalid_candidates.rs]), the
    valid candidates are weighted and a committee is drawn
    ([select_authorities.rs]).

    Signature verification is third-party ([Crypto], no laws are needed), as are the
    runtime's account and key types, whose conversions are [Accounts]. *)

From S2P Require Import Prelude Domain Cbor Selection.

Class Crypto := {
  ed25519_verify : bytes -> bytes -> bytes -> bool;  (* signature, message, public key *)
  ecdsa_verify : bytes -> bytes -> bytes -> bool
}.
Class Accounts := {
  TAccountId : Type;
  TAccountKeys : Type;
  account_from_ecdsa : bytes -> TAccountId;
  account_try_from : SidechainPublicKey -> option TAccountId;
  keys_from : bytes * bytes -> TAccountKeys;
  account_leb : TAccountId -> TAccountId -> bool
}.

(** ** Validation *)

Record RegisterValidatorSignedMessage := mkSignedMessage {
  sm_genesis_utxo : UtxoId;
  sm_sidechain_pub_key : bytes;
  sm_input_utxo : UtxoId
}.
Definition signed_message_to_datum (m : RegisterValidatorSignedMessage) : Datum :=
  impl_to_datum_derive false
    [to_datum (sm_genesis_utxo m); bytes_to_datum (sm_sidechain_pub_key m); to_datum (sm_input_utxo m)].

Record Candidate (A B : Type) := mkCandidate { account_id : A; account_keys : B }.
Arguments mkCandidate {A B} _ _.
Arguments account_id {A B} _.
Arguments account_keys {A B} _.
Record CandidateWithStake (A B : Type) := mkCandidateWithStake {
  candidate : Candidate A B;
  cws_stake_delegation : StakeDelegation
}.
Arguments mkCandidateWithStake {A B} _ _.
Arguments candidate {A B} _.
Arguments cws_stake_delegation {A B} _.

Inductive StakeError := InvalidStake | UnknownStake.
Inductive RegistrationDataError :=
| InvalidMainchainSignature | InvalidSidechainSignature | InvalidTxInput | InvalidMainchainPubKey
| InvalidSidechainPubKey | InvalidAuraKey | InvalidGrandpaKey.
Module Permissioned.
Inductive PermissionedCandidateDataError := InvalidSidechainPubKey | InvalidAuraKey | InvalidGrandpaKey.
End Permissioned.
Export (hints) Permissioned.
#[export] Instance StakeError_eq_dec : EqDecision StakeError.
Proof. solve_decision. Defined.
#[export] Instance RegistrationDataError_eq_dec : EqDecision RegistrationDataError.
Proof. solve_decision. Defined.

Definition NEGATIVE_POINT_SIGN : Z := 27.
Definition POSITIVE_POINT_SIGN : Z := 28.

Section Validation.
Context `{Minicbor, Crypto, Accounts}.

Definition validate_stake (stake : option StakeDelegation) : result StakeError StakeDelegation :=
  match stake with
  | None => Err UnknownStake
  | Some stake => if is_zero stake then Err InvalidStake else Ok stake
  end.

Definition validate_permissioned_candidate_data (c : PermissionedCandidateData)
    : result Permissioned.PermissionedCandidateDataError (TAccountId * bytes * bytes) :=
  account ← ok_or (account_try_from (sidechain_public_key c)) Permissioned.InvalidSidechainPubKey;
  aura ← ok_or (try_into_sr25519 (aura_public_key c)) Permissioned.InvalidAuraKey;
  grandpa ← ok_or (try_into_ed25519 (grandpa_public_key c)) Permissioned.InvalidGrandpaKey;
  Ok (account, aura, grandpa).

Definition verify_mainchain_signature (mainchain_pub_key : MainchainPublicKey) (r : RegistrationData)
    (signed_message_encoded : bytes) : result RegistrationDataError () :=
  mainchain_signature ← ok_or (to_array 64 (mainchain_signature r)) InvalidMainchainSignature;
  if ed25519_verify mainchain_signature signed_message_encoded mainchain_pub_key then Ok ()
  else Err InvalidMainchainSignature.

Definition verify_sidechain_signature (pub_key : bytes) (signature : SidechainSignature)
    (signed_message_encoded : bytes) : result RegistrationDataError () :=
  sidechain_signature ← ok_or (to_array 64 signature) InvalidSidechainSignature;
  let is_valid := existsb (fun v => ecdsa_verify (sidechain_signature ++ [v]) signed_message_encoded pub_key)
    [NEGATIVE_POINT_SIGN; POSITIVE_POINT_SIGN] in
  if is_valid : bool then Ok () else Err InvalidSidechainSignature.

Definition verify_tx_inputs (r : RegistrationData) : result RegistrationDataError () :=
  if bool_decide (consumed_input r ∈ tx_inputs r) then Ok () else Err InvalidTxInput.

Definition signed_message_bytes (r : RegistrationData) (genesis_utxo : UtxoId) : bytes :=
  encode_datum (signed_message_to_datum
    (mkSignedMessage genesis_utxo (sidechain_pub_key r) (consumed_input r))).

Definition validate_registration_data (mainchain_pub_key : MainchainPublicKey) (r : RegistrationData)
    (genesis_utxo : UtxoId) : result RegistrationDataError (Candidate bytes (bytes * bytes)) :=
  aura_pub_key ← ok_or (try_into_sr25519 (aura_pub_key r)) InvalidAuraKey;
  grandpa_pub_key ← ok_or (try_into_ed25519 (grandpa_pub_key r)) InvalidGrandpaKey;
  sc_pub_key ← ok_or (to_array 33 (sidechain_pub_key r)) InvalidSidechainPubKey;
  let signed_message_encoded := signed_message_bytes r genesis_utxo in
  _ ← verify_mainchain_signature mainchain_pub_key r signed_message_encoded;
  _ ← verify_sidechain_signature sc_pub_key (sidechain_signature r) signed_message_encoded;
  _ ← verify_tx_inputs r;
  Ok (mkCandidate sc_pub_key (aura_pub_key, grandpa_pub_key)).

(** The closure of the [filter_map]. *)
Definition validate_with_info (mainchain_pub_key : MainchainPublicKey) (genesis_utxo : UtxoId) (r : RegistrationData)
    : option (Candidate bytes (bytes * bytes) * UtxoInfo) :=
  match validate_registration_data mainchain_pub_key r genesis_utxo with
  | Ok candidate => Some (candidate, utxo_info r)
  | Err _ => None
  end.

(** [utxo_info.ordering_key()] order on the pairs that [max_by_key] compares. *)
Definition by_ordering_key {A} (x y : A * UtxoInfo) : bool :=
  ordering_key_leb (ordering_key (snd x)) (ordering_key (snd y)).

Definition select_latest_valid_candidate (cr : CandidateRegistrations) (genesis_utxo : UtxoId)
    : option (CandidateWithStake TAccountId TAccountKeys) :=
  stake_delegation ← ok (validate_stake (stake_delegation cr));
  let mainchain_pub_key := mainchain_pub_key cr in
  '(candidate_data, _) ← max_by by_ordering_key
    (omap (validate_with_info mainchain_pub_key genesis_utxo) (registrations cr));
  Some (mkCandidateWithStake
    (mkCandidate (account_from_ecdsa (account_id candidate_data)) (keys_from (account_keys candidate_data)))
    stake_delegation).

Definition filter_trustless_candidates_registrations (crs : list CandidateRegistrations) (genesis_utxo : UtxoId)
    : list (CandidateWithStake TAccountId TAccountKeys) :=
  omap (fun cr => select_latest_valid_candidate cr genesis_utxo) crs.

Definition filter_invalid_permissioned_candidates (cs : list PermissionedCandidateData)
    : list (Candidate TAccountId TAccountKeys) :=
  omap (fun c => '(account_id, aura_key, grandpa_key) ← ok (validate_permissioned_candidate_data c);
                 Some (mkCandidate account_id (keys_from (aura_key, grandpa_key)))) cs.
End Validation.

(** ** Selection *)

Record AuthoritySelectionInputs := mkAuthoritySelectionInputs {
  d_parameter : DParameter;
  permissioned_candidates : list PermissionedCandidateData;
  registered_candidates : list CandidateRegistrations;
  epoch_nonce : EpochNonce
}.

(** [BoundedVec::truncate_from]: the vector cut to the bound. *)
Class BoundedVecOps := truncate_from : forall {A}, nat -> list A -> list A.
Class BoundedVecLaws `{BoundedVecOps} : Prop :=
  truncate_from_take : forall A n (l : list A), truncate_from n l = take n l.

Section Weights.
Context {A B : Type}.
Implicit Types trustless : list (CandidateWithStake A B).
Implicit Types permissioned : list (Candidate A B).

Definition trustless_candidates_with_weights trustless (d : DParameter) (permissioned_candidates_count : nat)
    : list (Candidate A B * Weight) :=
  let weight_factor :=
    if (0 <? permissioned_candidates_count)%nat
    then num_registered_candidates d *[128] Z.of_nat permissioned_candidates_count else 1 in
  map (fun c => (candidate c, cws_stake_delegation c *[128] weight_factor)) trustless.

Definition permissioned_candidates_with_weights permissioned (d : DParameter) trustless
    : list (Candidate A B * Weight) :=
  let total_stake := sum_width 64 (map cws_stake_delegation trustless) in
  let weight :=
    if (0 <? total_stake) && (0 <? num_registered_candidates d)
    then num_permissioned_candidates d *[128] total_stake else 1 in
  map (fun c => (c, weight)) permissioned.

(** The candidates before sorting. *)
Definition candidates_with_weight trustless permissioned (d : DParameter) : list (Candidate A B * Weight) :=
  trustless_candidates_with_weights trustless d (length permissioned) ++
  permissioned_candidates_with_weights permissioned d trustless.

Definition weighted_selection `{Rng} (candidates : list (Candidate A B * Weight)) (size : Z) (random_seed : bytes)
    : outcome (option (list (A * B))) :=
  validators ← Selection.select_authorities candidates random_seed (mkSelectionConfig size);
  Done (option_map (map (fun c => (account_id c, account_keys c))) validators).
End Weights.

Section SelectAuthorities.
Context `{Minicbor, Crypto, Accounts, Rng, U256, BoundedVecOps}.
Context (MaxValidators : nat).

Definition by_account_id (a b : Candidate TAccountId TAccountKeys * Weight) : bool :=
  account_leb (account_id (fst a)) (account_id (fst b)).

Definition select_authorities (genesis_utxo : UtxoId) (input : AuthoritySelectionInputs)
    (sidechain_epoch : ScEpochNumber) : outcome (option (list (TAccountId * TAccountKeys))) :=
  let valid_trustless_candidates :=
    filter_trustless_candidates_registrations (registered_candidates input) genesis_utxo in
  let valid_permissioned_candidates :=
    filter_invalid_permissioned_candidates (permissioned_candidates input) in
  let candidates_with_weight := sort_by by_account_id
    (candidates_with_weight valid_trustless_candidates valid_permissioned_candidates (d_parameter input)) in
  random_seed ← seed_from_nonce_and_sc_epoch (epoch_nonce input) sidechain_epoch;
  let committee_size :=
    num_registered_candidates (d_parameter input) +[16] num_permissioned_candidates (d_parameter input) in
  validators ← weighted_selection candidates_with_weight committee_size random_seed;
  Done (option_map (truncate_from MaxValidators) validators).
End SelectAuthorities.

(** ** Properties of the weights *)

Section WeightsProps.
Context {A B : Type}.
Implicit Types trustless : list (CandidateWithStake A B).
Implicit Types permissioned : list (Candidate A B).

(** Stakes are positive [u64]s whose sum fits [u64], and the number of permissioned
    candidates fits [u32]: the total supply is below 2^56 lovelace. *)
Definition stakes_bounded trustless : Prop :=
  Forall (fun c => 0 < cws_stake_delegation c) trustless /\
  sum_list (map cws_stake_delegation trustless) < 2 ^ 64.

Definition total_stake trustless : Z := sum_list (map cws_stake_delegation trustless).

Lemma total_stake_pos trustless :
  stakes_bounded trustless -> 0 <= total_stake trustless /\ (trustless <> [] -> 0 < total_stake trustless).
Proof.
  unfold total_stake. intros [Hpos _]. induction Hpos as [|c l Hc Hl [IH _]]; cbn; [split; [lia|done]|].
  unfold sum_list in *. split; intros; lia.
Qed.

Lemma stake_le_total trustless c :
  stakes_bounded trustless -> c ∈ trustless -> 0 < cws_stake_delegation c <= total_stake trustless.
Proof.
  unfold total_stake. intros [Hpos _] Hc. split; [by eapply Forall_forall in Hc; [|exact Hpos]|].
  induction Hpos as [|x l Hx Hl IH]; [by apply elem_of_nil in Hc|].
  assert (0 <= sum_list (map cws_stake_delegation l)).
  { apply sum_list_nonneg, Forall_map. eapply Forall_impl; [exact Hl|]. cbn. lia. }
  cbn. fold (sum_list (map cws_stake_delegation l)).
  apply elem_of_cons in Hc as [->|Hc]; [lia|]. specialize (IH Hc). lia.
Qed.

(** The weights of both groups, without wrap-around. *)
Lemma trustless_weights trustless d n :
  stakes_bounded trustless -> wf_DParameter d -> Z.of_nat n < 2 ^ 32 ->
  trustless_candidates_with_weights trustless d n =
    map (fun c => (candidate c, cws_stake_delegation c *
      (if (0 <? n)%nat then num_registered_candidates d * Z.of_nat n else 1))) trustless.
Proof.
  intros Hst [_ HT] Hn. unfold trustless_candidates_with_weights, in_width in *.
  pose proof (proj2 Hst) as Hsum. change (total_stake trustless < 2 ^ 64) in Hsum.
  apply map_ext_in. intros c Hc%list_elem_of_In. apply (stake_le_total _ _ Hst) in Hc. f_equal.
  assert (in_width 48 (num_registered_candidates d * Z.of_nat n))
    by (apply (in_width_mul 16 32); unfold in_width; lia).
  destruct (Nat.ltb_spec 0 n).
  - rewrite (wrapping_mul_small 128 (num_registered_candidates d)) by (by apply (in_width_le 48)).
    apply wrapping_mul_small, (in_width_le 112); [lia|]. apply (in_width_mul 64 48); unfold in_width; lia || done.
  - apply wrapping_mul_small. unfold in_width. lia.
Qed.

Lemma permissioned_weights trustless permissioned d :
  stakes_bounded trustless -> wf_DParameter d ->
  permissioned_candidates_with_weights permissioned d trustless =
    map (fun c => (c, if (0 <? total_stake trustless) && (0 <? num_registered_candidates d)
                      then num_permissioned_candidates d * total_stake trustless else 1)) permissioned.
Proof.
  intros Hst [HP _]. unfold permissioned_candidates_with_weights.
  destruct (total_stake_pos _ Hst) as [Hnn _]. pose proof (proj2 Hst) as Hsum.
  change (total_stake trustless < 2 ^ 64) in Hsum.
  rewrite sum_width_small by (lia || (unfold in_width; fold (total_stake trustless); lia)).
  fold (total_stake trustless). rewrite (wrapping_mul_small 128); [done|].
  apply (in_width_le 80); [lia|]. apply (in_width_mul 16 64); unfold in_width in *; lia.
Qed.

Lemma sum_weights_trustless trustless d n :
  stakes_bounded trustless -> wf_DParameter d -> Z.of_nat n < 2 ^ 32 ->
  sum_list (map snd (trustless_candidates_with_weights trustless d n)) =
    total_stake trustless * (if (0 <? n)%nat then num_registered_candidates d * Z.of_nat n else 1).
Proof.
  intros. rewrite trustless_weights by done. rewrite map_map. cbn.
  set (f := if (0 <? n)%nat then num_registered_candidates d * Z.of_nat n else 1). unfold total_stake.
  by rewrite <- (sum_list_scale f), map_map.
Qed.

Lemma sum_weights_permissioned trustless permissioned d :
  stakes_bounded trustless -> wf_DParameter d ->
  sum_list (map snd (permissioned_candidates_with_weights permissioned d trustless)) =
    Z.of_nat (length permissioned) *
      (if (0 <? total_stake trustless) && (0 <? num_registered_candidates d)
       then num_permissioned_candidates d * total_stake trustless else 1).
Proof.
  intros. rewrite permissioned_weights by done. rewrite map_map. cbn. rewrite <- sum_list_const.
  f_equal. clear. induction permissioned as [|c l IH]; cbn; [done|]. by rewrite IH.
Qed.
End WeightsProps.

(** The D-parameter sets the odds. With both kinds of candidates, a positive number
    T of registered seats and P of permissioned ones, the trustless candidates together
    weigh [n * T * W] and the permissioned ones [n * P * W] (n permissioned candidates,
    W the total stake): the odds of a seat are T : P, whatever n and W are; and nothing
    overflows [u128]. *)
Theorem weights_follow_d_parameter {A B} (trustless : list (CandidateWithStake A B)) permissioned d :
  stakes_bounded trustless -> wf_DParameter d -> Z.of_nat (length permissioned) < 2 ^ 32 ->
  trustless <> [] -> permissioned <> [] -> 0 < num_registered_candidates d ->
  let n := Z.of_nat (length permissioned) in
  let W := total_stake trustless in
  sum_list (map snd (trustless_candidates_with_weights trustless d (length permissioned))) =
    n * num_registered_candidates d * W /\
  sum_list (map snd (permissioned_candidates_with_weights permissioned d trustless)) =
    n * num_permissioned_candidates d * W /\
  0 < n * W /\
  sum_list (map snd (candidates_with_weight trustless permissioned d)) < 2 ^ 128.
Proof.
  intros Hst Hd Hn Ht Hp HT n W. destruct (total_stake_pos _ Hst) as [_ HW]. specialize (HW Ht).
  assert (0 < length permissioned)%nat as Hlen by (destruct permissioned; [done | cbn; lia]).
  unfold candidates_with_weight. rewrite map_app, sum_list_app.
  rewrite sum_weights_trustless, sum_weights_permissioned by done.
  rewrite (proj2 (Nat.ltb_lt _ _)), !(proj2 (Z.ltb_lt _ _)) by done. cbn [andb]. subst n W.
  set (W := total_stake trustless) in *. set (n := Z.of_nat (length permissioned)) in *.
  pose proof (proj2 Hst) as Hsum. change (W < 2 ^ 64) in Hsum. destruct Hd as [HP HT'].
  assert (in_width 48 (num_registered_candidates d * n)) by (apply (in_width_mul 16 32); unfold in_width in *; lia).
  assert (in_width 112 (W * (num_registered_candidates d * n))) by (apply (in_width_mul 64 48); unfold in_width in *; lia).
  assert (in_width 80 (num_permissioned_candidates d * W)) by (apply (in_width_mul 16 64); unfold in_width in *; lia).
  assert (in_width 112 (n * (num_permissioned_candidates d * W))) by (apply (in_width_mul 32 80); unfold in_width in *; lia).
  unfold in_width in *. split_and!; lia.
Qed.

Lemma total_weight_bounds {A B} (trustless : list (CandidateWithStake A B)) permissioned d :
  stakes_bounded trustless -> wf_DParameter d -> Z.of_nat (length permissioned) < 2 ^ 32 ->
  trustless <> [] \/ permissioned <> [] ->
  0 < sum_list (map snd (candidates_with_weight trustless permissioned d)) < 2 ^ 128.
Proof.
  intros Hst Hd Hn Hne. destruct (total_stake_pos _ Hst) as [Hnn HW].
  pose proof (proj2 Hst) as Hsum. change (total_stake trustless < 2 ^ 64) in Hsum.
  unfold candidates_with_weight. rewrite map_app, sum_list_app.
  rewrite sum_weights_trustless, sum_weights_permissioned by done.
  destruct Hd as [HP HT]. set (W := total_stake trustless) in *.
  set (n := Z.of_nat (length permissioned)) in *.
  assert (in_width 48 (num_registered_candidates d * n)) by (apply (in_width_mul 16 32); unfold in_width in *; lia).
  assert (in_width 112 (W * (num_registered_candidates d * n))) by (apply (in_width_mul 64 48); unfold in_width in *; lia).
  assert (in_width 80 (num_permissioned_candidates d * W)) by (apply (in_width_mul 16 64); unfold in_width in *; lia).
  assert (in_width 112 (n * (num_permissioned_candidates d * W))) by (apply (in_width_mul 32 80); unfold in_width in *; lia).
  unfold in_width in *. destruct Hne as [Hne|Hne].
  - specialize (HW Hne). rewrite (proj2 (Z.ltb_lt 0 W)) by done. cbn [andb].
    destruct (Nat.ltb_spec 0 (length permissioned)), (Z.ltb_spec 0 (num_registered_candidates d)); nia.
  - assert (0 < length permissioned)%nat as Hlen by (destruct permissioned; [done | cbn; lia]).
    rewrite (proj2 (Nat.ltb_lt _ _)) by done.
    destruct (Z.ltb_spec 0 W), (Z.ltb_spec 0 (num_registered_candidates d)); cbn [andb]; nia.
Qed.

(** The draw never meets an empty range: whenever there is a valid candidate the
    total weight is positive, on every branch of both weight functions. *)
Theorem total_weight_positive {A B} (trustless : list (CandidateWithStake A B)) permissioned d :
  stakes_bounded trustless -> wf_DParameter d -> Z.of_nat (length permissioned) < 2 ^ 32 ->
  trustless <> [] \/ permissioned <> [] ->
  0 < sum_list (map snd (candidates_with_weight trustless permissioned d)) < 2 ^ 128.
Proof. apply total_weight_bounds. Qed.

(** ** Properties of validation *)

Section ValidationProps.
Context `{Minicbor, Crypto, Accounts}.

(** What makes a registration valid. *)
Record valid_registration (mainchain_pub_key : MainchainPublicKey) (r : RegistrationData)
    (genesis_utxo : UtxoId) : Prop := {
  valid_aura : length (aura_pub_key r) = 32%nat;
  valid_grandpa : length (grandpa_pub_key r) = 32%nat;
  valid_sidechain : length (sidechain_pub_key r) = 33%nat;
  valid_mainchain_signature : length (mainchain_signature r) = 64%nat /\
    ed25519_verify (mainchain_signature r) (signed_message_bytes r genesis_utxo) mainchain_pub_key = true;
  valid_sidechain_signature : length (sidechain_signature r) = 64%nat /\
    exists v, (v = NEGATIVE_POINT_SIGN \/ v = POSITIVE_POINT_SIGN) /\
      ecdsa_verify (sidechain_signature r ++ [v]) (signed_message_bytes r genesis_utxo) (sidechain_pub_key r) = true;
  valid_input : consumed_input r ∈ tx_inputs r
}.

Lemma to_array_Some n bs bs' : to_array n bs = Some bs' <-> length bs = n /\ bs' = bs.
Proof. unfold to_array. case_decide; split; [intros [= <-]; done | by intros [_ ->] | done | by intros []]. Qed.

Lemma ok_or_bind_Ok {E A B} (o : option A) (e : E) (k : A -> result E B) b :
  (x ← ok_or o e; k x) = Ok b <-> exists a, o = Some a /\ k a = Ok b.
Proof.
  destruct o as [a|]; cbn; split; [eauto | by intros (? & [= ->] & ?) | done | by intros (? & ? & _)].
Qed.

Lemma verify_mainchain_signature_Ok pk r msg :
  verify_mainchain_signature pk r msg = Ok () <->
  length (mainchain_signature r) = 64%nat /\ ed25519_verify (mainchain_signature r) msg pk = true.
Proof.
  unfold verify_mainchain_signature. rewrite ok_or_bind_Ok. split.
  - intros (s & [Hl ->]%to_array_Some & Hv). by destruct (ed25519_verify _ _ _).
  - intros [Hl Hv]. eexists. rewrite to_array_Some. split; [done|]. by rewrite Hv.
Qed.

Lemma verify_sidechain_signature_Ok pk s msg :
  verify_sidechain_signature pk s msg = Ok () <->
  length s = 64%nat /\ exists v, (v = NEGATIVE_POINT_SIGN \/ v = POSITIVE_POINT_SIGN) /\
    ecdsa_verify (s ++ [v]) msg pk = true.
Proof.
  unfold verify_sidechain_signature. rewrite ok_or_bind_Ok. split.
  - intros (s' & [Hl ->]%to_array_Some & Hv). split; [done|]. cbn in Hv.
    destruct (ecdsa_verify (s ++ [NEGATIVE_POINT_SIGN]) msg pk) eqn:?; [eauto|].
    destruct (ecdsa_verify (s ++ [POSITIVE_POINT_SIGN]) msg pk) eqn:?; [eauto|done].
  - intros (Hl & v & Hv & Hsig). eexists. rewrite to_array_Some. split; [done|]. cbn.
    destruct Hv as [->| ->]; rewrite Hsig; [done|]. by rewrite orb_true_r.
Qed.

Lemma verify_tx_inputs_Ok r : verify_tx_inputs r = Ok () <-> consumed_input r ∈ tx_inputs r.
Proof. unfold verify_tx_inputs. case_bool_decide; split; done. Qed.

Lemma unit_bind_Ok {E B} (m : result E ()) (k : result E B) b :
  (_ ← m; k) = Ok b <-> m = Ok () /\ k = Ok b.
Proof. destruct m as [[]|]; cbn; [tauto|]. split; [done | by intros [? _]]. Qed.

Lemma validate_registration_data_Ok pk r genesis c :
  validate_registration_data pk r genesis = Ok c <->
  valid_registration pk r genesis /\
  c = mkCandidate (sidechain_pub_key r) (aura_pub_key r, grandpa_pub_key r).
Proof.
  unfold validate_registration_data, try_into_sr25519, try_into_ed25519.
  rewrite ok_or_bind_Ok. setoid_rewrite to_array_Some. setoid_rewrite ok_or_bind_Ok.
  setoid_rewrite to_array_Some. setoid_rewrite ok_or_bind_Ok. setoid_rewrite to_array_Some.
  split.
  - intros (? & [Ha ->] & ? & [Hg ->] & ? & [Hs ->] & Hk). cbn zeta in Hk.
    rewrite !unit_bind_Ok, verify_mainchain_signature_Ok, verify_sidechain_signature_Ok, verify_tx_inputs_Ok in Hk.
    destruct Hk as (? & ? & ? & [= <-]). by split; [constructor|].
  - intros [[] ->]. repeat (eexists; split; [done|]). cbn zeta.
    by rewrite !unit_bind_Ok, verify_mainchain_signature_Ok, verify_sidechain_signature_Ok, verify_tx_inputs_Ok.
Qed.
End ValidationProps.

Section LatestProps.
Context `{Minicbor, Crypto, Accounts}.

Lemma validate_stake_Ok o s : validate_stake o = Ok s <-> o = Some s /\ s <> 0.
Proof.
  unfold validate_stake, is_zero. destruct o as [n|]; [|split; [done | by intros []]].
  destruct (Z.eqb_spec n 0); split; [done | by intros [[= ->] ?] | by intros [= ->] | by intros [[= ->] ?]].
Qed.

(** The valid registrations of a candidate, with the candidate data they give. *)
Lemma elem_of_valid_registrations pk (regs : list RegistrationData) genesis
    (x : Candidate bytes (bytes * bytes) * UtxoInfo) :
  x ∈ omap (validate_with_info pk genesis) regs <->
  exists r, r ∈ regs /\ valid_registration pk r genesis /\
    x = (mkCandidate (sidechain_pub_key r) (aura_pub_key r, grandpa_pub_key r), utxo_info r).
Proof.
  rewrite list_elem_of_omap. unfold validate_with_info. split.
  - intros (r & Hr & Hx). destruct (validate_registration_data pk r genesis) as [c|] eqn:Hv; [|done].
    apply validate_registration_data_Ok in Hv as [Hv ->]. injection Hx as <-. by exists r.
  - intros (r & Hr & Hv & ->). exists r. split; [done|].
    by rewrite (proj2 (validate_registration_data_Ok pk r genesis _) (conj Hv eq_refl)).
Qed.

Lemma by_ordering_key_total {A} (x y : A * UtxoInfo) : by_ordering_key x y = true \/ by_ordering_key y x = true.
Proof. apply ordering_key_leb_total. Qed.
Lemma by_ordering_key_trans {A} (x y z : A * UtxoInfo) :
  by_ordering_key x y = true -> by_ordering_key y z = true -> by_ordering_key x z = true.
Proof. apply ordering_key_leb_trans. Qed.

Lemma select_latest_cases cr genesis :
  match select_latest_valid_candidate cr genesis with
  | Some c => exists s r, stake_delegation cr = Some s /\ s <> 0 /\ r ∈ registrations cr /\
      valid_registration (mainchain_pub_key cr) r genesis /\
      (forall r', r' ∈ registrations cr -> valid_registration (mainchain_pub_key cr) r' genesis ->
        ordering_key_leb (ordering_key (utxo_info r')) (ordering_key (utxo_info r)) = true) /\
      c = mkCandidateWithStake (mkCandidate (account_from_ecdsa (sidechain_pub_key r))
            (keys_from (aura_pub_key r, grandpa_pub_key r))) s
  | None => stake_delegation cr = None \/ stake_delegation cr = Some 0 \/
      forall r, r ∈ registrations cr -> ~ valid_registration (mainchain_pub_key cr) r genesis
  end.
Proof.
  unfold select_latest_valid_candidate. cbn zeta.
  destruct (ok (validate_stake (stake_delegation cr))) as [s|] eqn:Hs; simpl_monad.
  2: { unfold validate_stake, is_zero in Hs. destruct (stake_delegation cr) as [n|]; [|by left].
       right; left. destruct (Z.eqb_spec n 0); [by subst|done]. }
  apply ok_Some, validate_stake_Ok in Hs as [Hs Hnz]. set (l := omap _ (registrations cr)).
  pose proof (elem_of_valid_registrations (mainchain_pub_key cr) (registrations cr) genesis) as Hl. fold l in Hl.
  destruct (max_by by_ordering_key l) as [[c u]|] eqn:Hm; simpl_monad.
  - pose proof (max_by_Some_elem _ by_ordering_key_total by_ordering_key_trans _ _ Hm) as Hin.
    apply Hl in Hin as (r & Hr & Hv & [= -> ->]). exists s, r. split_and!; try done.
    intros r' Hr' Hv'. set (x' := (mkCandidate (sidechain_pub_key r') (aura_pub_key r', grandpa_pub_key r'), utxo_info r')).
    apply (max_by_Some_max _ by_ordering_key_total by_ordering_key_trans _ _ x' Hm). apply Hl. by exists r'.
  - apply (max_by_None _ by_ordering_key_total by_ordering_key_trans) in Hm. right; right.
    intros r Hr Hv. eapply elem_of_nil. rewrite <- Hm. apply Hl. by exists r.
Qed.
End LatestProps.

(** C20: A registered candidate is represented by its latest valid registration: among the
    registrations that pass every check, the one with the greatest (block, transaction,
    output) position; a candidate with unknown or zero stake, or without a valid
    registration, is dropped. *)
Theorem latest_valid_registration `{Minicbor, Crypto, Accounts} cr genesis :
  match select_latest_valid_candidate cr genesis with
  | Some c => exists s r, stake_delegation cr = Some s /\ s <> 0 /\ r ∈ registrations cr /\
      valid_registration (mainchain_pub_key cr) r genesis /\
      (forall r', r' ∈ registrations cr -> valid_registration (mainchain_pub_key cr) r' genesis ->
        ordering_key_leb (ordering_key (utxo_info r')) (ordering_key (utxo_info r)) = true) /\
      c = mkCandidateWithStake (mkCandidate (account_from_ecdsa (sidechain_pub_key r))
            (keys_from (aura_pub_key r, grandpa_pub_key r))) s
  | None => stake_delegation cr = None \/ stake_delegation cr = Some 0 \/
      forall r, r ∈ registrations cr -> ~ valid_registration (mainchain_pub_key cr) r genesis
  end.
Proof. apply select_latest_cases. Qed.

(** C26: The signed message binds a registration: two registrations with the same signed
    bytes are for the same chain (genesis UTXO), partner chain key and consumed input, so
    a signature cannot be replayed for another of them. *)
Theorem signed_message_binds `{MinicborLaws} r r' genesis genesis' :
  0 <= index genesis -> 0 <= index genesis' ->
  0 <= index (consumed_input r) -> 0 <= index (consumed_input r') ->
  signed_message_bytes r genesis = signed_message_bytes r' genesis' ->
  genesis = genesis' /\ sidechain_pub_key r = sidechain_pub_key r' /\ consumed_input r = consumed_input r'.
Proof.
  intros Hg Hg' Hi Hi' Heq.
  assert (forall g k u, 0 <= index g -> 0 <= index u -> wf_datum (signed_message_to_datum (mkSignedMessage g k u))) as Hwf
    by (intros; cbn; unfold in_width; lia).
  apply encode_datum_inj in Heq; [|by apply Hwf|by apply Hwf].
  destruct genesis, genesis', (consumed_input r), (consumed_input r'). cbn in Heq.
  injection Heq; intros; subst. done.
Qed.

Section SelectProps.
Context `{Minicbor, Crypto, Accounts, Rng, U256, BoundedVecOps}.

(** The inputs fit their types and the stakes of the valid candidates add up in [u64]. *)
Record wf_inputs (input : AuthoritySelectionInputs) (genesis : UtxoId) : Prop := {
  wf_d : wf_DParameter (d_parameter input);
  wf_nonce : wf_bytes (epoch_nonce input);
  wf_stakes : Forall (fun cr => forall s, stake_delegation cr = Some s -> 0 <= s) (registered_candidates input);
  wf_total : total_stake (filter_trustless_candidates_registrations (registered_candidates input) genesis) < 2 ^ 64;
  wf_permissioned : Z.of_nat (length (permissioned_candidates input)) < 2 ^ 32
}.

(** A committee member comes from a valid candidate. *)
Definition valid_member (input : AuthoritySelectionInputs) (genesis : UtxoId) (m : TAccountId * TAccountKeys) : Prop :=
  (exists cr c, cr ∈ registered_candidates input /\ select_latest_valid_candidate cr genesis = Some c /\
     m = (account_id (candidate c), account_keys (candidate c))) \/
  (exists p a aura grandpa, p ∈ permissioned_candidates input /\
     validate_permissioned_candidate_data p = Ok (a, aura, grandpa) /\ m = (a, keys_from (aura, grandpa))).

Definition has_valid_candidate (input : AuthoritySelectionInputs) (genesis : UtxoId) : Prop :=
  filter_trustless_candidates_registrations (registered_candidates input) genesis <> [] \/
  filter_invalid_permissioned_candidates (permissioned_candidates input) <> [].

Lemma length_omap_le {A B} (f : A -> option B) (l : list A) : (length (omap f l) <= length l)%nat.
Proof. induction l as [|x l IH]; csimpl; [lia|]. destruct (f x); csimpl; lia. Qed.

Lemma filtered_stakes_bounded input genesis :
  wf_inputs input genesis ->
  stakes_bounded (filter_trustless_candidates_registrations (registered_candidates input) genesis).
Proof.
  intros [_ _ Hst Htot _]. split; [|done]. apply Forall_forall. intros c Hc.
  unfold filter_trustless_candidates_registrations in Hc.
  apply list_elem_of_omap in Hc as (cr & Hcr & Hc).
  pose proof (select_latest_cases cr genesis) as Hl. rewrite Hc in Hl.
  destruct Hl as (s & r & Hs & Hnz & _ & _ & _ & ->). cbn.
  rewrite Forall_forall in Hst. specialize (Hst cr Hcr s Hs). lia.
Qed.

Lemma elem_of_candidates input genesis c :
  c ∈ map fst (candidates_with_weight
    (filter_trustless_candidates_registrations (registered_candidates input) genesis)
    (filter_invalid_permissioned_candidates (permissioned_candidates input)) (d_parameter input)) ->
  valid_member input genesis (account_id c, account_keys c).
Proof.
  unfold candidates_with_weight, trustless_candidates_with_weights, permissioned_candidates_with_weights.
  rewrite map_app, !map_map, elem_of_app. cbn.
  intros [(x & -> & Hx)%list_elem_of_fmap|(x & -> & Hx)%list_elem_of_fmap]; [left|right].
  - apply list_elem_of_omap in Hx as (cr & Hcr & Hx). by exists cr, x.
  - apply list_elem_of_omap in Hx as (p & Hp & Hx).
    destruct (validate_permissioned_candidate_data p) as [[[a aura] grandpa]|] eqn:Hv; [|done].
    cbn in Hx. injection Hx as <-. by exists p, a, aura, grandpa.
Qed.

Lemma candidates_with_weight_nil {A B} (t : list (CandidateWithStake A B)) p d :
  candidates_with_weight t p d = [] <-> t = [] /\ p = [].
Proof.
  unfold candidates_with_weight, trustless_candidates_with_weights, permissioned_candidates_with_weights.
  destruct t, p; cbn; split; intros; intuition discriminate.
Qed.
End SelectProps.

Lemma ariadne_committee_cases `{Minicbor, Crypto, Accounts, RngLaws, U256Laws, BoundedVecLaws}
    MaxValidators genesis input epoch :
  wf_inputs input genesis -> in_width 64 epoch ->
  let size := (num_registered_candidates (d_parameter input) + num_permissioned_candidates (d_parameter input))
              mod 2 ^ 16 in
  match select_authorities MaxValidators genesis input epoch with
  | Panic => False
  | Done None => 0 < size /\ ~ has_valid_candidate input genesis
  | Done (Some committee) =>
      length committee = Nat.min MaxValidators (Z.to_nat size) /\
      (forall m, m ∈ committee -> valid_member input genesis m) /\
      (0 < size -> has_valid_candidate input genesis)
  end.
Proof.
  intros Hwf He size. pose proof (filtered_stakes_bounded _ _ Hwf) as Hst.
  destruct Hwf as [Hd Hn _ _ Hlen]. unfold select_authorities, has_valid_candidate.
  destruct (seed_spec _ epoch Hn He) as (seed & -> & _). simpl_monad.
  set (t := filter_trustless_candidates_registrations _ _) in *.
  set (p := filter_invalid_permissioned_candidates _).
  assert (Z.of_nat (length p) < 2 ^ 32) as Hp by (pose proof (length_omap_le
    (fun c => '(account_id, aura_key, grandpa_key) ← ok (validate_permissioned_candidate_data c);
      Some (mkCandidate account_id (keys_from (aura_key, grandpa_key)))) (permissioned_candidates input)) as Hle;
    change (length p <= length (permissioned_candidates input))%nat in Hle; lia).
  set (wc := sort_by by_account_id (candidates_with_weight t p (d_parameter input))).
  assert (wc ≡ₚ candidates_with_weight t p (d_parameter input)) as Hperm by apply sort_by_perm.
  unfold weighted_selection. change (num_registered_candidates _ +[16] _) with size.
  assert (0 <= size) as Hsize by (by apply Z.mod_pos_bound).
  pose proof (select_authorities_cases wc seed (mkSelectionConfig size) Hsize) as Hsel.
  cbn [Selection.size] in Hsel.
  assert (wc = [] <-> ~ (t <> [] \/ p <> [])) as Hnil.
  { transitivity (t = [] /\ p = []); [|destruct (decide (t = [])), (decide (p = [])); tauto].
    unfold wc. by rewrite sort_by_nil, candidates_with_weight_nil. }
  assert (wc <> [] -> sum_width 128 (map snd wc) <> 0) as Hpos.
  { intros Hne. assert (t <> [] \/ p <> []) as Hne' by (destruct (decide (t = [])), (decide (p = [])); tauto).
    pose proof (total_weight_bounds t p _ Hst Hd Hp Hne').
    assert (sum_list (map snd wc) = sum_list (map snd (candidates_with_weight t p (d_parameter input)))) as Heq
      by (apply sum_list_perm; by rewrite Hperm).
    rewrite sum_width_small by (unfold in_width; lia). lia. }
  destruct (Selection.select_authorities wc seed _) as [[committee|]|]; simpl_monad; cbn [option_map].
  - destruct Hsel as (Hl & Hin & Hz). rewrite truncate_from_take, length_take, length_map, Hl. split_and!; [done| |].
    + intros m Hm. assert (m ∈ map (fun c => (account_id c, account_keys c)) committee) as Hm'.
      { eapply elem_of_submseteq; [exact Hm|]. apply submseteq_take. }
      apply list_elem_of_fmap in Hm' as (c & -> & Hc). apply elem_of_candidates. fold t p. rewrite <- Hperm. by apply Hin.
    + intros Hs. destruct (decide (t = [])), (decide (p = [])); [|tauto..].
      exfalso. apply (Hz Hs). by rewrite (proj2 Hnil) by tauto.
  - destruct Hsel as [? Hw]. split; [done | by apply Hnil].
  - destruct Hsel as (_ & Hne & Hz). by apply Hpos.
Qed.

(** C6: [select_authorities] end to end. It never panics; there is no committee exactly
    when no candidate is valid and the committee is not empty; otherwise the committee has
    [T + P] seats (the [u16] sum, which wraps around), cut to [MaxValidators], and every
    seat goes to an account with a valid registration or permissioned entry. *)
Theorem ariadne_committee `{Minicbor, Crypto, Accounts, RngLaws, U256Laws, BoundedVecLaws}
    MaxValidators genesis input epoch :
  wf_inputs input genesis -> in_width 64 epoch ->
  let size := (num_registered_candidates (d_parameter input) + num_permissioned_candidates (d_parameter input))
              mod 2 ^ 16 in
  match select_authorities MaxValidators genesis input epoch with
  | Panic => False
  | Done None => 0 < size /\ ~ has_valid_candidate input genesis
  | Done (Some committee) =>
      length committee = Nat.min MaxValidators (Z.to_nat size) /\
      (forall m, m ∈ committee -> valid_member input genesis m) /\
      (0 < size -> has_valid_candidate input genesis)
  end.
Proof. apply ariadne_committee_cases. Qed.

(** ** Concrete instances and witnesses *)
Module ConcreteAccounts.
(** A toy signature scheme: a signature starts with the key that made it. *)
#[export] Instance toy_crypto : Crypto := {|
  ed25519_verify s _ pk := bool_decide (take 1 s = take 1 pk);
  ecdsa_verify s _ pk := bool_decide (take 1 s = take 1 pk) && bool_decide (drop 64 s = [NEGATIVE_POINT_SIGN])
|}.
#[export] Instance byte_accounts : Accounts := {|
  TAccountId := bytes; TAccountKeys := bytes * bytes;
  account_from_ecdsa k := k; account_try_from := to_array 33; keys_from k := k; account_leb := bytes_leb
|}.
#[export] Instance take_bounded : BoundedVecOps := fun A n l => take n l.
#[export] Instance take_bounded_laws : BoundedVecLaws.
Proof. done. Qed.
End ConcreteAccounts.

Section Witnesses.
Import ConcreteAccounts Selection.Concrete Rfc8949.

#[local] Definition utxo0 := mkUtxoId (replicate 32 0) 0.
#[local] Definition reg (block : Z) (key : Z) := mkRegistrationData utxo0 (replicate 64 key) (replicate 64 9) []
  (replicate 33 key) [] (mkUtxoInfo utxo0 1 block 100 0) [utxo0] (replicate 32 1) (replicate 32 2).
#[local] Definition cands := mkCandidateRegistrations (replicate 32 9) [reg 5 7; reg 8 6; reg 2 5] (Some 10).
#[local] Definition perm := mkPermissionedCandidateData (replicate 33 3) (replicate 32 1) (replicate 32 2).
#[local] Definition inputs := mkAuthoritySelectionInputs (mkDParameter 1 2) [perm] [cands] [1; 2; 3].

Lemma inputs_wf : wf_inputs inputs utxo0.
Proof.
  constructor; cbn.
  - unfold wf_DParameter, in_width. cbn. lia.
  - repeat constructor; lia.
  - repeat constructor. intros s [= <-]. lia.
  - vm_compute. reflexivity.
  - lia.
Qed.

Lemma ariadne_committee_witness :
  select_authorities 3 utxo0 inputs 4 =
    Done (Some (replicate 3 (replicate 33 6, (replicate 32 1, replicate 32 2)))) /\
  let size := (num_registered_candidates (d_parameter inputs) + num_permissioned_candidates (d_parameter inputs))
              mod 2 ^ 16 in
  match select_authorities 3 utxo0 inputs 4 with
  | Panic => False
  | Done None => 0 < size /\ ~ has_valid_candidate inputs utxo0
  | Done (Some committee) =>
      length committee = Nat.min 3 (Z.to_nat size) /\
      (forall m, m ∈ committee -> valid_member inputs utxo0 m) /\
      (0 < size -> has_valid_candidate inputs utxo0)
  end.
Proof.
  split; [vm_compute; reflexivity|]. apply ariadne_committee; [exact inputs_wf | unfold in_width; lia].
Defined.

#[local] Definition staked : CandidateWithStake bytes bytes := mkCandidateWithStake (mkCandidate [1] [2]) 7.
#[local] Definition permitted : list (Candidate bytes bytes) := [mkCandidate [3] [4]; mkCandidate [5] [6]].
#[local] Definition d32 : DParameter := mkDParameter 3 2.

Lemma staked_bounded : stakes_bounded [staked].
Proof. split; [repeat constructor; cbn; lia | cbn; lia]. Qed.

Lemma weights_follow_d_parameter_witness :
  let n := Z.of_nat (length permitted) in
  let W := total_stake [staked] in
  sum_list (map snd (trustless_candidates_with_weights [staked] d32 (length permitted))) =
    n * num_registered_candidates d32 * W /\
  sum_list (map snd (permissioned_candidates_with_weights permitted d32 [staked])) =
    n * num_permissioned_candidates d32 * W /\
  0 < n * W /\
  sum_list (map snd (candidates_with_weight [staked] permitted d32)) < 2 ^ 128.
Proof.
  apply weights_follow_d_parameter;
    [exact staked_bounded | unfold wf_DParameter, in_width; cbn; lia | cbn; lia | done | done | cbn; lia].
Defined.

Lemma total_weight_positive_witness :
  0 < sum_list (map snd (candidates_with_weight [staked] permitted (mkDParameter 3 0))) < 2 ^ 128.
Proof.
  apply total_weight_positive;
    [exact staked_bounded | unfold wf_DParameter, in_width; cbn; lia | cbn; lia | by left].
Defined.

Lemma signed_message_binds_witness :
  utxo0 = utxo0 /\ sidechain_pub_key (reg 1 7) = sidechain_pub_key (reg 2 7) /\
  consumed_input (reg 1 7) = consumed_input (reg 2 7).
Proof. apply signed_message_binds; cbn; try lia. vm_compute. reflexivity. Defined.
End Witnesses.
