(* ===== verification/Committee.v ===== *)
(** * Committee management

    The pallet [toolkit/pallets/session-validator-management], which stores the current
    committee and the one of the next epoch, with the types of
    [toolkit/primitives/session-validator-management].

    Storage items are the fields of [State]; a call returns the new state or the error
    that leaves it unchanged. The pallet's configuration (the trait [Config]) is the
    context of the section. Weights and events are not modelled. *)

From S2P Require Import Prelude Domain Selection Ariadne.

Record MainChainScripts := mkMainChainScripts {
  committee_candidate_address : MainchainAddress;
  d_parameter_policy_id : PolicyId;
  permissioned_candidates_policy_id : PolicyId
}.
#[export] Instance MainChainScripts_eq_dec : EqDecision MainChainScripts.
Proof. solve_decision. Defined.

Inductive InherentError := InvalidValidators | CommitteeNeedsToBeStoredOneEpochInAdvance.

(** Origins of FRAME dispatches and the errors of this pallet's calls. *)
Inductive Origin := OriginRoot | OriginSigned | OriginNone.
Inductive DispatchError := BadOrigin | InvalidEpoch | UnnecessarySetCall.
#[export] Instance Origin_eq_dec : EqDecision Origin.
Proof. solve_decision. Defined.
Definition ensure_none (o : Origin) : result DispatchError () :=
  match o with OriginNone => Ok () | _ => Err BadOrigin end.
Definition ensure_root (o : Origin) : result DispatchError () :=
  match o with OriginRoot => Ok () | _ => Err BadOrigin end.

Module CommitteeManagement.
Section Pallet.
Context {AuthorityId AuthorityKeys AccountId Inputs : Type}.
Context `{EqDecision AuthorityId, EqDecision AuthorityKeys, BoundedVecOps}.
(** [trait Config]. *)
Context (MaxValidators : nat) (into_account : AuthorityId -> AccountId).
Context (select_authorities : Inputs -> ScEpochNumber -> outcome (option (list (AuthorityId * AuthorityKeys)))).

Record CommitteeInfo := mkCommitteeInfo {
  epoch : ScEpochNumber;
  committee : list (AuthorityId * AuthorityKeys)
}.
Definition CommitteeInfo_default : CommitteeInfo := mkCommitteeInfo 0 [].

Record State := mkState {
  CurrentCommittee : CommitteeInfo;
  NextCommittee : option CommitteeInfo;
  MainChainScriptsConfiguration : MainChainScripts
}.

Record GenesisConfig := mkGenesisConfig {
  initial_authorities : list (AuthorityId * AuthorityKeys);
  main_chain_scripts : MainChainScripts
}.
Definition build (g : GenesisConfig) : State :=
  mkState (mkCommitteeInfo 0 (truncate_from MaxValidators (initial_authorities g))) None (main_chain_scripts g).

Definition on_initialize (block_nr : Z) (current_epoch_number : ScEpochNumber) (st : State) : State :=
  if block_nr =? 1 then
    mkState (mkCommitteeInfo current_epoch_number (committee (CurrentCommittee st)))
      (NextCommittee st) (MainChainScriptsConfiguration st)
  else st.

(** [data.get_data(&INHERENT_IDENTIFIER)]: an error when it does not decode, [None] when absent. *)
Definition InherentData : Type := result string (option Inputs).

Inductive Call :=
| call_set (validators : list (AuthorityId * AuthorityKeys)) (for_epoch_number : ScEpochNumber)
| call_set_main_chain_scripts (scripts : MainChainScripts).

Definition inherent_data_to_authority_selection_inputs (data : InherentData) : outcome Inputs :=
  data ← expect (ok data); expect data.
Definition calculate_committee_from_inherent_data (data : InherentData) (epoch_number : ScEpochNumber)
    : outcome (option (list (AuthorityId * AuthorityKeys))) :=
  authority_selection_inputs ← inherent_data_to_authority_selection_inputs data;
  select_authorities authority_selection_inputs epoch_number.

Definition create_inherent (st : State) (data : InherentData) : outcome (option Call) :=
  if bool_decide (is_Some (NextCommittee st)) then Done None
  else
    let for_epoch_number := epoch (CurrentCommittee st) +[64] 1 in
    validators ← calculate_committee_from_inherent_data data for_epoch_number;
    match validators with
    | Some validators => Done (Some (call_set validators for_epoch_number))
    | None => Done (Some (call_set (committee (CurrentCommittee st)) for_epoch_number))
    end.

Definition check_inherent (st : State) (call : Call) (data : InherentData) : outcome (result InherentError ()) :=
  match call with
  | call_set validators_param for_epoch_number_param =>
      validators ← calculate_committee_from_inherent_data data for_epoch_number_param;
      let validators := default (committee (default (CurrentCommittee st) (NextCommittee st))) validators in
      if bool_decide (validators_param = validators) then Done (Ok ()) else Done (Err InvalidValidators)
  | _ => Done (Ok ())
  end.

Definition is_inherent (call : Call) : bool := match call with call_set _ _ => true | _ => false end.
Definition is_inherent_required (st : State) : option InherentError :=
  if bool_decide (is_Some (NextCommittee st)) then None
  else Some CommitteeNeedsToBeStoredOneEpochInAdvance.

Definition set (st : State) (origin : Origin) (validators : list (AuthorityId * AuthorityKeys))
    (for_epoch_number : ScEpochNumber) : result DispatchError State :=
  _ ← ensure_none origin;
  let expected_epoch_number := epoch (CurrentCommittee st) +[64] 1 in
  if for_epoch_number =? expected_epoch_number then
    Ok (mkState (CurrentCommittee st) (Some (mkCommitteeInfo for_epoch_number validators))
          (MainChainScriptsConfiguration st))
  else Err InvalidEpoch.
Definition set_main_chain_scripts (st : State) (origin : Origin) (new_scripts : MainChainScripts)
    : result DispatchError State :=
  _ ← ensure_root origin; Ok (mkState (CurrentCommittee st) (NextCommittee st) new_scripts).
Definition dispatch (st : State) (origin : Origin) (call : Call) : result DispatchError State :=
  match call with
  | call_set validators for_epoch_number => set st origin validators for_epoch_number
  | call_set_main_chain_scripts scripts => set_main_chain_scripts st origin scripts
  end.

Definition get_next_unset_epoch_number (st : State) : ScEpochNumber :=
  match NextCommittee st with
  | Some next_committee => epoch next_committee +[64] 1
  | None => epoch (CurrentCommittee st) +[64] 1
  end.
Definition get_current_authority (st : State) (index : nat) : option AuthorityId :=
  option_map fst (committee (CurrentCommittee st) !! index).
Definition next_committee (st : State) : option (list AuthorityId) :=
  option_map (fun c => truncate_from MaxValidators (map fst (committee c))) (NextCommittee st).
Definition calculate_committee (inputs : Inputs) (sidechain_epoch : ScEpochNumber)
    : outcome (option (list (AuthorityId * AuthorityKeys))) := select_authorities inputs sidechain_epoch.

(** The storage value is taken first: without a next committee the state is unchanged. *)
Definition rotate_committee_to_next_epoch (st : State) : State * option (list (AccountId * AuthorityKeys)) :=
  match NextCommittee st with
  | None => (st, None)
  | Some next_committee =>
      (mkState next_committee None (MainChainScriptsConfiguration st),
       Some (map (fun m => (into_account (fst m), snd m)) (committee next_committee)))
  end.
Definition get_current_committee (st : State) : ScEpochNumber * list AuthorityId :=
  (epoch (CurrentCommittee st), map fst (committee (CurrentCommittee st))).
Definition get_next_committee (st : State) : option (ScEpochNumber * list AuthorityId) :=
  option_map (fun c => (epoch c, map fst (committee c))) (NextCommittee st).
Definition get_main_chain_scripts (st : State) : MainChainScripts := MainChainScriptsConfiguration st.

(** ** Invariant *)

(** The next committee, when there is one, is for the epoch after the current one, and
    both fit [MaxValidators]. *)
Record inv (st : State) : Prop := {
  inv_next_epoch : forall n, NextCommittee st = Some n -> epoch n = epoch (CurrentCommittee st) +[64] 1;
  inv_current_size : (length (committee (CurrentCommittee st)) <= MaxValidators)%nat;
  inv_next_size : forall n, NextCommittee st = Some n -> (length (committee n) <= MaxValidators)%nat
}.

(** A call as the runtime decodes it: its vector is a [BoundedVec]. *)
Definition bounded_call (call : Call) : Prop :=
  match call with call_set validators _ => (length validators <= MaxValidators)%nat | _ => True end.

Lemma inv_dispatch st origin call st' :
  inv st -> bounded_call call -> dispatch st origin call = Ok st' -> inv st'.
Proof.
  intros [He Hc Hn] Hb. destruct call as [v e|s]; cbn [dispatch].
  - unfold set. destruct origin; [done..|]. simpl_monad.
    destruct (Z.eqb_spec e (epoch (CurrentCommittee st) +[64] 1)) as [->|]; [|done].
    intros [= <-]. split; cbn; [by intros n [= <-] | done | by intros n [= <-]].
  - unfold set_main_chain_scripts. destruct origin; [|done..]. intros [= <-]. by split.
Qed.

Lemma inv_rotate st : inv st -> inv (fst (rotate_committee_to_next_epoch st)).
Proof.
  intros [He Hc Hn]. unfold rotate_committee_to_next_epoch.
  destruct (NextCommittee st) as [n|] eqn:Hnext; cbn; [|by split; rewrite ?Hnext].
  split; cbn; [done | by apply Hn | done].
Qed.

(** Setting the epoch of the genesis committee, in the first block. *)
Lemma inv_on_initialize block_nr current st :
  inv st -> (block_nr = 1 -> NextCommittee st = None) -> inv (on_initialize block_nr current st).
Proof.
  intros [He Hc Hn] H1. unfold on_initialize. destruct (Z.eqb_spec block_nr 1) as [Heq|]; [|by split].
  specialize (H1 Heq). by split; cbn; rewrite ?H1.
Qed.
End Pallet.
Arguments CommitteeInfo : clear implicits.
Arguments State : clear implicits.
Arguments Call : clear implicits.
Arguments GenesisConfig : clear implicits.
End CommitteeManagement.

(** ** Authoring and checking the inherent agree *)

Section Agreement.
Import CommitteeManagement.
Context {AuthorityId AuthorityKeys AccountId Inputs : Type}.
Context `{EqDecision AuthorityId, EqDecision AuthorityKeys}.
Context (into_account : AuthorityId -> AccountId).
Context (select_authorities : Inputs -> ScEpochNumber -> outcome (option (list (AuthorityId * AuthorityKeys)))).

(** How the state in which a block's inherents are created comes from the parent state, in
    which [check_inherent] runs: nothing happens, the first block fixes the epoch of the
    genesis committee, or the session pallet rotates the committee. *)
Inductive begins (st : State AuthorityId AuthorityKeys) : State AuthorityId AuthorityKeys -> Prop :=
| begins_same : begins st st
| begins_first epoch : NextCommittee st = None -> begins st (on_initialize 1 epoch st)
| begins_rotated : is_Some (NextCommittee st) -> begins st (fst (rotate_committee_to_next_epoch into_account st)).

Lemma begins_committee st st' :
  begins st st' -> NextCommittee st' = None ->
  committee (CurrentCommittee st') = committee (default (CurrentCommittee st) (NextCommittee st)).
Proof.
  intros [|e Hn|[n Hn]].
  - by intros ->.
  - intros _. by rewrite Hn.
  - intros _. unfold rotate_committee_to_next_epoch. by rewrite Hn.
Qed.

Lemma create_inherent_Some st data call :
  create_inherent select_authorities st data = Done (Some call) ->
  NextCommittee st = None /\ exists validators,
    call = call_set validators (epoch (CurrentCommittee st) +[64] 1) /\
    exists computed, calculate_committee_from_inherent_data select_authorities data (epoch (CurrentCommittee st) +[64] 1)
      = Done computed /\ validators = default (committee (CurrentCommittee st)) computed.
Proof.
  unfold create_inherent. case_bool_decide as Hn; [done|]. rewrite <- eq_None_not_Some in Hn.
  destruct (calculate_committee_from_inherent_data _ _ _) as [[v|]|]; simpl_monad; intros [= <-];
    split; try done; eexists; (split; [reflexivity|]); eexists; (split; [reflexivity|]); done.
Qed.
End Agreement.

(** C8: The inherent a block author creates is accepted: checked by an importing node in
    the parent state it passes, and dispatched in the author's state it succeeds and stores
    the committee of the epoch after the current one, so that no further inherent is
    required. This holds when the committee is computed and when the fallback to the
    previous committee is taken, in the first block and across a committee rotation. *)
Theorem created_inherent_is_accepted {AuthorityId AuthorityKeys AccountId Inputs : Type}
    `{EqDecision AuthorityId, EqDecision AuthorityKeys} (into_account : AuthorityId -> AccountId)
    (select_authorities : Inputs -> ScEpochNumber -> outcome (option (list (AuthorityId * AuthorityKeys))))
    st st' data call :
  begins into_account st st' ->
  CommitteeManagement.create_inherent select_authorities st' data = Done (Some call) ->
  CommitteeManagement.check_inherent select_authorities st call data = Done (Ok ()) /\
  exists st'', CommitteeManagement.dispatch st' OriginNone call = Ok st'' /\
    CommitteeManagement.is_inherent_required st'' = None /\
    CommitteeManagement.create_inherent select_authorities st'' data = Done None /\
    option_map CommitteeManagement.epoch (CommitteeManagement.NextCommittee st'') =
      Some (CommitteeManagement.epoch (CommitteeManagement.CurrentCommittee st') +[64] 1) /\
    CommitteeManagement.CurrentCommittee st'' = CommitteeManagement.CurrentCommittee st'.
Proof.
  intros Hb (Hn & v & -> & computed & Hc & Hv)%create_inherent_Some.
  pose proof (begins_committee _ _ _ Hb Hn) as Hcom. split.
  - cbn [CommitteeManagement.check_inherent]. rewrite Hc. simpl_monad. rewrite <- Hcom, <- Hv.
    by rewrite bool_decide_eq_true_2.
  - cbn [CommitteeManagement.dispatch]. unfold CommitteeManagement.set. simpl_monad. rewrite Z.eqb_refl.
    eexists. split; [reflexivity|].
    unfold CommitteeManagement.is_inherent_required, CommitteeManagement.create_inherent. done.
Qed.

(** A committee of two, a rotation, and an input from which no committee can be chosen. *)
Module Example2.
Definition scripts := mkMainChainScripts [] [] [].
Definition alice_bob : CommitteeManagement.CommitteeInfo Z Z :=
  CommitteeManagement.mkCommitteeInfo 6 [(1, 10); (2, 20)].
Definition parent : CommitteeManagement.State Z Z :=
  CommitteeManagement.mkState (CommitteeManagement.mkCommitteeInfo 5 [(3, 30)]) (Some alice_bob) scripts.
Definition no_committee (_ : unit) (_ : ScEpochNumber) : outcome (option (list (Z * Z))) := Done None.
End Example2.

Lemma created_inherent_is_accepted_witness :
  let call := CommitteeManagement.call_set [(1, 10); (2, 20)] 7 in
  let st' := fst (CommitteeManagement.rotate_committee_to_next_epoch id Example2.parent) in
  CommitteeManagement.check_inherent Example2.no_committee Example2.parent call (Ok (Some tt)) = Done (Ok ()) /\
  exists st'', CommitteeManagement.dispatch st' OriginNone call = Ok st'' /\
    CommitteeManagement.is_inherent_required st'' = None /\
    CommitteeManagement.create_inherent Example2.no_committee st'' (Ok (Some tt)) = Done None /\
    option_map CommitteeManagement.epoch (CommitteeManagement.NextCommittee st'') =
      Some (CommitteeManagement.epoch (CommitteeManagement.CurrentCommittee st') +[64] 1) /\
    CommitteeManagement.CurrentCommittee st'' = CommitteeManagement.CurrentCommittee st'.
Proof.
  cbn zeta. apply (created_inherent_is_accepted id Example2.no_committee).
  - apply begins_rotated. by eexists.
  - reflexivity.
Defined.
