(* ===== verification/AriadneInherent.v ===== *)
(** * The inherent data of committee selection

    [toolkit/primitives/authority-selection-inherents]: from the parent state and the slot
    of a block to the main chain epoch whose data selects the next committee, and the
    inputs of the selection, read through [AuthoritySelectionDataSource]
    ([authority_selection_inputs.rs], [ariadne_inherent_data_provider.rs]). *)

From S2P Require Import Prelude Domain McEpoch Slots Cbor Selection Ariadne Committee.

Record RawPermissionedCandidateData := mkRawPermissionedCandidateData {
  raw_sidechain_public_key : SidechainPublicKey;
  raw_aura_public_key : AuraPublicKey;
  raw_grandpa_public_key : GrandpaPublicKey
}.
Record AriadneParameters := mkAriadneParameters {
  ap_d_parameter : DParameter;
  ap_permissioned_candidates : list RawPermissionedCandidateData
}.

(** [trait AuthoritySelectionDataSource]: its answers at one moment. *)
Record AuthoritySelectionDataSource := mkAuthoritySelectionDataSource {
  get_ariadne_parameters : McEpochNumber -> PolicyId -> PolicyId -> result string AriadneParameters;
  get_candidates : McEpochNumber -> MainchainAddress -> result string (list CandidateRegistrations);
  get_epoch_nonce : McEpochNumber -> result string (option EpochNonce);
  data_epoch : McEpochNumber -> result string McEpochNumber
}.

Module AriadneIDP.
Inductive AuthoritySelectionInputsCreationError :=
| AriadneParametersQuery (epoch : McEpochNumber) (d_parameter permissioned : PolicyId) (e : string)
| GetCandidatesQuery (epoch : McEpochNumber) (address : MainchainAddress) (e : string)
| GetEpochNonceQuery (epoch : McEpochNumber) (e : string).

Inductive InherentProviderCreationError :=
| SlotTooBig
| McEpochDerivationError (e : EpochDerivationError)
| ApiError (e : string)
| InputsCreationError (e : AuthoritySelectionInputsCreationError)
| DataSourceError (e : string).

Definition from_raw (c : RawPermissionedCandidateData) : PermissionedCandidateData :=
  mkPermissionedCandidateData (raw_sidechain_public_key c) (raw_aura_public_key c) (raw_grandpa_public_key c).

(** [AuthoritySelectionInputs::from_mc_data]. *)
Definition inputs_from_mc_data (source : AuthoritySelectionDataSource) (for_epoch : McEpochNumber)
    (scripts : MainChainScripts) : result AuthoritySelectionInputsCreationError AuthoritySelectionInputs :=
  ariadne_parameters_response ←
    map_err (AriadneParametersQuery for_epoch (d_parameter_policy_id scripts) (permissioned_candidates_policy_id scripts))
      (get_ariadne_parameters source for_epoch (d_parameter_policy_id scripts) (permissioned_candidates_policy_id scripts));
  let d_parameter := ap_d_parameter ariadne_parameters_response in
  let permissioned_candidates := map from_raw (ap_permissioned_candidates ariadne_parameters_response) in
  registered_candidates ←
    map_err (GetCandidatesQuery for_epoch (committee_candidate_address scripts))
      (get_candidates source for_epoch (committee_candidate_address scripts));
  epoch_nonce_response ← map_err (GetEpochNonceQuery for_epoch) (get_epoch_nonce source for_epoch);
  let epoch_nonce := default [] epoch_nonce_response in
  Ok (mkAuthoritySelectionInputs d_parameter permissioned_candidates registered_candidates epoch_nonce).

(** The provider is its field [data]. *)
Definition from_mc_data (source : AuthoritySelectionDataSource) (for_epoch : McEpochNumber) (scripts : MainChainScripts)
    : result InherentProviderCreationError (option AuthoritySelectionInputs) :=
  inputs ← map_err InputsCreationError (inputs_from_mc_data source for_epoch scripts); Ok (Some inputs).

Section Provider.
Context `{SlotOps}.
Definition sc_epoch_to_mc_epoch (sc_epoch : ScEpochNumber) (sc_slot_config : Slots.ScSlotConfig)
    (epoch_config : MainchainEpochConfig) : fallible InherentProviderCreationError McEpochNumber :=
  timestamp ←? lift (ok_or (Slots.epoch_start_time sc_slot_config sc_epoch) SlotTooBig);
  match timestamp_to_mainchain_epoch epoch_config timestamp with
  | Panic => Panic
  | Done r => Done (map_err McEpochDerivationError r)
  end.

(** The runtime API of the parent block is given by its answers. *)
Definition mc_epoch_for_next_ariadne_cidp (next_unset_epoch_number : result string ScEpochNumber)
    (sc_slot_config : Slots.ScSlotConfig) (epoch_config : MainchainEpochConfig) (slot : Z)
    : fallible InherentProviderCreationError McEpochNumber :=
  next_unset_epoch ←? lift (map_err ApiError next_unset_epoch_number);
  for_sc_epoch_number ←? (if next_unset_epoch =? 1 then run (Slots.config_epoch_number sc_slot_config slot)
                          else Done (Ok next_unset_epoch));
  sc_epoch_to_mc_epoch for_sc_epoch_number sc_slot_config epoch_config.

Definition provider_new (next_unset_epoch_number : result string ScEpochNumber)
    (main_chain_scripts : result string MainChainScripts) (sc_slot_config : Slots.ScSlotConfig)
    (mc_epoch_config : MainchainEpochConfig) (slot : Z) (source : AuthoritySelectionDataSource)
    (mc_reference_epoch : McEpochNumber) : fallible InherentProviderCreationError (option AuthoritySelectionInputs) :=
  for_mc_epoch ←? mc_epoch_for_next_ariadne_cidp next_unset_epoch_number sc_slot_config mc_epoch_config slot;
  data_epoch ←? lift (map_err DataSourceError (data_epoch source for_mc_epoch));
  scripts ←? lift (map_err ApiError main_chain_scripts);
  if data_epoch <? mc_reference_epoch then lift (from_mc_data source for_mc_epoch scripts)
  else Done (Ok None).
End Provider.

(** What [put_data] followed by [get_data] delivers to the pallet. *)
Definition provide_inherent_data (data : option AuthoritySelectionInputs) : result string (option AuthoritySelectionInputs) :=
  Ok data.
End AriadneIDP.

(** ** The data is always available *)
Section Available.
Context `{SlotOpsLaws}.
Context (sc : Slots.ScSlotConfig) (c : MainchainEpochConfig).

Definition epoch_length : Z := Slots.slots_per_epoch sc * Slots.slot_duration sc.
(** The main chain epoch of a timestamp. *)
Definition mc_epoch_at (ts : Z) : Z :=
  first_epoch_number c + (ts - first_epoch_timestamp_millis c) / epoch_duration_millis c.

(** Timestamps up to [ts] belong to representable epochs of the main chain. *)
Record representable (ts : Z) : Prop := {
  rep_width : in_width 64 ts;
  rep_epochs : (ts - first_epoch_timestamp_millis c) / epoch_duration_millis c < 2 ^ 31;
  rep_number : mc_epoch_at ts < 2 ^ 32
}.

Lemma timestamp_to_epoch ts :
  wf_config c -> representable ts -> first_epoch_timestamp_millis c <= ts ->
  timestamp_to_mainchain_epoch c ts = Done (Ok (mc_epoch_at ts)).
Proof.
  intros Hc [Hw He Hn] Hle. cbn. unfold config_timestamp_to_mainchain_epoch.
  pose proof (epochs_passed_spec c Hc ts Hw) as Hp. cbn [epochs_passed MainchainEpochConfig_derivation] in Hp. rewrite Hp.
  rewrite (proj2 (Z.ltb_ge _ _)) by done. cbn zeta. rewrite (proj2 (Z.ltb_lt _ _)) by done. cbn [bind_fallible].
  unfold mc_epoch_at, saturating_add, max_value in *. by rewrite Z.min_r by lia.
Qed.

Lemma sc_to_mc_epoch e :
  wf_config c -> 0 < Slots.slots_per_epoch sc -> 0 < Slots.slot_duration sc -> 0 <= e ->
  representable (e * epoch_length) -> first_epoch_timestamp_millis c <= e * epoch_length ->
  AriadneIDP.sc_epoch_to_mc_epoch e sc c = Done (Ok (mc_epoch_at (e * epoch_length))).
Proof.
  intros Hc Hspe Hd He Hr Hle. pose proof (rep_width _ Hr) as Hw. unfold in_width, epoch_length in *.
  unfold AriadneIDP.sc_epoch_to_mc_epoch, Slots.epoch_start_time, Slots.config_first_slot_number.
  rewrite Slots.first_slot_number_small by (unfold in_width; nia). rewrite Slot_timestamp_spec by nia.
  rewrite (proj2 (Z.ltb_lt _ _)) by nia. simpl_monad.
  replace (e * Slots.slots_per_epoch sc * Slots.slot_duration sc) with
    (e * (Slots.slots_per_epoch sc * Slots.slot_duration sc)) by lia.
  by rewrite timestamp_to_epoch.
Qed.

(** Two main chain epochs back is before a reference that is not too old. *)
Lemma data_epoch_before_reference start reference :
  1000 <= epoch_duration_millis c -> start <= reference + epoch_duration_millis c ->
  mc_epoch_at start - 2 < mc_epoch_at reference.
Proof.
  intros Hd Hle. unfold mc_epoch_at.
  assert ((start - first_epoch_timestamp_millis c) / epoch_duration_millis c <=
    (reference - first_epoch_timestamp_millis c) / epoch_duration_millis c + 1); [|lia].
  rewrite <- Z.div_add by lia. apply Z.div_le_mono; lia.
Qed.
End Available.

(** C19: The committee's data is always available. The data source uses what was on the main
    chain two epochs before the epoch in which the committee starts to work. If the main
    chain reference of the block is not older than [age], the next unset epoch is at most
    two partner chain epochs ahead of the slot's, and [age] and two partner chain epochs
    together fit one main chain epoch, then the provider always delivers the inputs for
    the main chain epoch at the start of the committee's epoch ("the inequality below is
    always true"), and fails only if the data source does. *)
Theorem ariadne_data_available `{SlotOpsLaws} sc c source scripts slot next_unset reference age inputs :
  wf_config c -> 0 < Slots.slots_per_epoch sc -> 0 < Slots.slot_duration sc -> 0 <= slot ->
  0 <= next_unset -> next_unset <= slot / Slots.slots_per_epoch sc + 2 ->
  let for_sc_epoch := if next_unset =? 1 then slot / Slots.slots_per_epoch sc else next_unset in
  let start := for_sc_epoch * epoch_length sc in
  representable c start -> first_epoch_timestamp_millis c <= start ->
  slot * Slots.slot_duration sc - age <= reference -> age + 2 * epoch_length sc <= epoch_duration_millis c ->
  (forall e, data_epoch source e = if e <? 2 then Err "Minimum supported epoch of data usage is 2"%string else Ok (e - 2)) ->
  2 <= mc_epoch_at c start ->
  AriadneIDP.inputs_from_mc_data source (mc_epoch_at c start) scripts = Ok inputs ->
  AriadneIDP.provider_new (Ok next_unset) (Ok scripts) sc c slot source (mc_epoch_at c reference) = Done (Ok (Some inputs)).
Proof.
  intros Hc Hspe Hd Hs Hn0 Hn for_sc_epoch start Hr Hle Href Hage Hde H2 Hin.
  assert (0 <= slot / Slots.slots_per_epoch sc) by (apply Z.div_pos; lia).
  assert (0 <= for_sc_epoch <= slot / Slots.slots_per_epoch sc + 2) as Hfor by (unfold for_sc_epoch; destruct (_ =? _); lia).
  unfold AriadneIDP.provider_new.
  assert (AriadneIDP.mc_epoch_for_next_ariadne_cidp (Ok next_unset) sc c slot = Done (Ok (mc_epoch_at c start))) as ->.
  { transitivity (AriadneIDP.sc_epoch_to_mc_epoch for_sc_epoch sc c); [|apply sc_to_mc_epoch; done || lia].
    unfold AriadneIDP.mc_epoch_for_next_ariadne_cidp, for_sc_epoch, Slots.config_epoch_number.
    rewrite Slots.epoch_number_pos by done. simpl_monad. by destruct (next_unset =? 1). }
  simpl_monad.
  rewrite Hde, (proj2 (Z.ltb_ge _ 2)) by done. simpl_monad.
  rewrite (proj2 (Z.ltb_lt _ _)).
  - unfold AriadneIDP.from_mc_data. by rewrite Hin.
  - apply data_epoch_before_reference; [apply Hc|]. pose proof (Z_div_mod_eq_full slot (Slots.slots_per_epoch sc)).
    pose proof (Z.mod_pos_bound slot (Slots.slots_per_epoch sc) Hspe). unfold start, epoch_length in *. nia.
Qed.

Section Witnesses.
Import ConcreteSlot.
#[local] Definition empty_source := mkAuthoritySelectionDataSource
  (fun _ _ _ => Ok (mkAriadneParameters (mkDParameter 1 0) [])) (fun _ _ => Ok []) (fun _ => Ok (Some [1]))
  (fun e => if e <? 2 then Err "Minimum supported epoch of data usage is 2"%string else Ok (e - 2)).
#[local] Definition hour_epochs := Slots.mkScSlotConfig 600 6000.
#[local] Definition some_inputs := mkAuthoritySelectionInputs (mkDParameter 1 0) [] [] [1].

(** Partner chain epochs of an hour, a reference 36 hours old. *)
Lemma ariadne_data_available_witness :
  let reference := 277833340 * 6000 - 129600000 in
  AriadneIDP.provider_new (Ok 463057) (Ok Example2.scripts) hour_epochs preprod 277833340 empty_source
    (mc_epoch_at preprod reference) = Done (Ok (Some some_inputs)).
Proof.
  cbn zeta. apply (ariadne_data_available hour_epochs preprod empty_source Example2.scripts 277833340 463057
    (277833340 * 6000 - 129600000) 129600000); first [exact preprod_wf | done | vm_compute; intuition discriminate |
    constructor; unfold in_width; vm_compute; intuition discriminate].
Defined.
End Witnesses.
