(* ===== verification/Query.v ===== *)
(** * Queries about committees and registrations

    [toolkit/primitives/session-validator-management/query]: the answers of the node's
    [sidechain_getEpochCommittee], [sidechain_getRegistrations] and
    [sidechain_getAriadneParameters]. The client is that of [BlockSearch] with more of the
    runtime API; the data source is [AuthoritySelectionDataSource]. Rendering in hexadecimal
    ([HexCodec]) and SS58 ([Ss58]) is third-party. *)

From S2P Require Import Prelude Domain McEpoch Slots BlockSearch Cbor Json Selection Ariadne Committee AriadneInherent.

Class Ss58 := ss58_of_ecdsa : bytes -> str.

Definition string_to_str (s : string) : str := String.list_ascii_of_string s.

Module Query.
Inductive RegistrationError :=
| RegistrationStakeError (e : StakeError)
| InvalidRegistrationData (e : RegistrationDataError).

Record CandidateRegistrationEntry := mkEntry {
  e_sidechain_pub_key : str;
  e_sidechain_account_id : str;
  e_mainchain_pub_key : str;
  e_cross_chain_pub_key : str;
  e_aura_pub_key : str;
  e_grandpa_pub_key : str;
  e_sidechain_signature : str;
  e_mainchain_signature : str;
  e_cross_chain_signature : str;
  e_utxo : UtxoInfo;
  e_stake_delegation : option Z;
  is_valid : bool;
  invalid_reasons : option RegistrationError
}.

Section Entries.
Context `{HexCodec, Ss58}.
Definition sidechain_account_ss58 (sidechain_pub_key : SidechainPublicKey) : result bytes str :=
  key ← ok_or (to_array 33 sidechain_pub_key) sidechain_pub_key; Ok (ss58_of_ecdsa key).

Definition entry_new (r : RegistrationData) (mainchain_pub_key : MainchainPublicKey)
    (stake_delegation : option StakeDelegation) (invalid_reasons : option RegistrationDataError)
    : CandidateRegistrationEntry :=
  mkEntry (to_hex (sidechain_pub_key r))
    (default (string_to_str "Invalid Sidechain Public Key. Could not decode...") (ok (sidechain_account_ss58 (sidechain_pub_key r))))
    (to_hex mainchain_pub_key) (to_hex (cross_chain_pub_key r)) (to_hex (aura_pub_key r)) (to_hex (grandpa_pub_key r))
    (to_hex (sidechain_signature r)) (to_hex (mainchain_signature r)) (to_hex (cross_chain_signature r))
    (utxo_info r) stake_delegation
    (match invalid_reasons with None => true | Some _ => false end) (option_map InvalidRegistrationData invalid_reasons).

(** [first.is_valid = false; first.invalid_reasons = Some(err.into())]. *)
Definition invalidate (err : StakeError) (e : CandidateRegistrationEntry) : CandidateRegistrationEntry :=
  mkEntry (e_sidechain_pub_key e) (e_sidechain_account_id e) (e_mainchain_pub_key e) (e_cross_chain_pub_key e)
    (e_aura_pub_key e) (e_grandpa_pub_key e) (e_sidechain_signature e) (e_mainchain_signature e)
    (e_cross_chain_signature e) (e_utxo e) (e_stake_delegation e) false (Some (RegistrationStakeError err)).

(** [Iterator::rposition]. *)
Fixpoint rposition {A} (p : A -> bool) (l : list A) : option nat :=
  match l with
  | [] => None
  | x :: l' => match rposition p l' with
               | Some n => Some (S n)
               | None => if p x then Some O else None
               end
  end.

Definition by_utxo (a b : CandidateRegistrationEntry) : bool :=
  ordering_key_leb (ordering_key (e_utxo a)) (ordering_key (e_utxo b)).

Context (validate_registration_data : MainchainPublicKey -> RegistrationData ->
           result ApiError (option RegistrationDataError)).
Context (validate_stake : option StakeDelegation -> result ApiError (option StakeError)).

(** The body of the loop: the entries of one candidate. *)
Definition candidate_entries (cr : CandidateRegistrations) : result ApiError (list CandidateRegistrationEntry) :=
  registration_entries ← collect_results (fun r =>
    validation ← validate_registration_data (mainchain_pub_key cr) r;
    Ok (entry_new r (mainchain_pub_key cr) (stake_delegation cr) validation)) (registrations cr);
  let registration_entries := sort_by by_utxo registration_entries in
  let latest_valid_or_zero := default O (rposition is_valid registration_entries) in
  let registration_entries := drop latest_valid_or_zero registration_entries in
  err ← validate_stake (stake_delegation cr);
  Ok (match err, registration_entries with
      | Some err, first :: rest => if is_valid first then invalidate err first :: rest else first :: rest
      | _, _ => registration_entries
      end).

Definition GetRegistrationsResponseMap : Type := gmap str (list CandidateRegistrationEntry).
Definition get_registrations_response_map (candidates : list CandidateRegistrations)
    : result ApiError GetRegistrationsResponseMap :=
  foldl (fun map cr =>
    map ← map;
    entries ← candidate_entries cr;
    Ok (<[to_hex (mainchain_pub_key cr) := entries]> map)) (Ok ∅) candidates.
End Entries.

(** ** The query object *)
Record QueryClient := mkQueryClient {
  client : Client;
  genesis_hash : bytes;
  best_hash : bytes;
  api_get_current_committee : bytes -> result ApiError (ScEpochNumber * list bytes);
  api_get_next_committee : bytes -> result ApiError (option (ScEpochNumber * list bytes));
  api_get_main_chain_scripts : bytes -> result ApiError MainChainScripts;
  api_validate_registered_candidate_data : bytes -> MainchainPublicKey -> RegistrationData ->
    result ApiError (option RegistrationDataError);
  api_validate_stake : bytes -> option StakeDelegation -> result ApiError (option StakeError);
  api_validate_permissioned_candidate_data : bytes -> PermissionedCandidateData ->
    result ApiError (option Permissioned.PermissionedCandidateDataError)
}.
(** The errors are strings in the code; here they keep what they render. *)
Inductive QueryError :=
| DebugOf (e : ApiError)
| DataSourceFailure (e : string)
| OnlyGenesisExists
| EarlierThanInitialEpoch (epoch : ScEpochNumber)
| CommitteeUnknown (epoch : ScEpochNumber)
| NextCommitteeUnknown (epoch : ScEpochNumber).

Record GetCommitteeResponse := mkGetCommitteeResponse { sidechain_epoch : Z; response_committee : list str }.

Section Api.
Context `{HexCodec, Ss58}.
Definition committee_response (epoch : ScEpochNumber) (committee : list bytes) : GetCommitteeResponse :=
  mkGetCommitteeResponse epoch (map to_hex committee).

(** [None] only if the block search would run out of fuel. *)
Definition get_epoch_committee (q : QueryClient) (epoch_number : ScEpochNumber)
    : option (fallible QueryError GetCommitteeResponse) :=
  let debug {A} (r : result ApiError A) : fallible QueryError A := lift (map_err DebugOf r) in
  let answer (committee : fallible QueryError (ScEpochNumber * list bytes)) :=
    committee ←? committee; Done (Ok (committee_response epoch_number (snd committee))) in
  if epoch_number =? 0 then Some (answer (debug (api_get_current_committee q (genesis_hash q))))
  else
    let checks : fallible QueryError ScEpochNumber :=
      second_block ←? debug (hash (client q) 1);
      second_block ←? lift (ok_or second_block OnlyGenesisExists);
      status ←? debug (runtime_get_sidechain_status (client q) second_block);
      let first_epoch := SidechainPallet.epoch status in
      if epoch_number <? first_epoch then Done (Err (EarlierThanInitialEpoch epoch_number)) else
      epoch_of_latest_block ←? debug (get_epoch_of_block (client q) (best_number (client q)));
      if ScEpochNumber_next epoch_of_latest_block <? epoch_number then Done (Err (CommitteeUnknown epoch_number))
      else Done (Ok epoch_of_latest_block) in
    match checks with
    | Panic => Some Panic
    | Done (Err e) => Some (Done (Err e))
    | Done (Ok epoch_of_latest_block) =>
        if epoch_number =? ScEpochNumber_next epoch_of_latest_block then
          Some (answer (next ←? debug (api_get_next_committee q (best_hash q));
                        lift (ok_or next (NextCommitteeUnknown epoch_number))))
        else
          found ← find_block (client q) {| any_epoch := epoch_number |};
          Some (answer (block_hash ←? match found with Panic => Panic | Done r => Done (map_err DebugOf r) end;
                        debug (api_get_current_committee q block_hash)))
    end.

Definition candidates_registrations_for_epoch (q : QueryClient) (source : AuthoritySelectionDataSource)
    (mc_epoch_number : McEpochNumber) (address : MainchainAddress) : result QueryError GetRegistrationsResponseMap :=
  candidates ← map_err DataSourceFailure (get_candidates source mc_epoch_number address);
  map_err DebugOf (get_registrations_response_map (api_validate_registered_candidate_data q (best_hash q))
    (api_validate_stake q (best_hash q)) candidates).

Definition get_registrations (q : QueryClient) (source : AuthoritySelectionDataSource)
    (mc_epoch_number : McEpochNumber) (mc_public_key : MainchainPublicKey)
    : result QueryError (list CandidateRegistrationEntry) :=
  scripts ← map_err DebugOf (api_get_main_chain_scripts q (best_hash q));
  registrations_map ← candidates_registrations_for_epoch q source mc_epoch_number (committee_candidate_address scripts);
  Ok (default [] ((registrations_map : GetRegistrationsResponseMap) !! to_hex mc_public_key)).

Record QueryPermissionedCandidate := mkQueryPermissionedCandidate {
  qp_data : RawPermissionedCandidateData;
  qp_is_valid : bool;
  qp_invalid_reasons : option Permissioned.PermissionedCandidateDataError
}.
Record QueryAriadneParameters := mkQueryAriadneParameters {
  qa_d_parameter : DParameter;
  qa_permissioned_candidates : list QueryPermissionedCandidate;
  qa_candidate_registrations : GetRegistrationsResponseMap
}.
Definition query_ariadne_parameters (q : QueryClient) (source : AuthoritySelectionDataSource)
    (epoch_number : McEpochNumber) : result QueryError QueryAriadneParameters :=
  scripts ← map_err DebugOf (api_get_main_chain_scripts q (best_hash q));
  response ← map_err DataSourceFailure (get_ariadne_parameters source epoch_number
    (d_parameter_policy_id scripts) (permissioned_candidates_policy_id scripts));
  candidate_registrations ← candidates_registrations_for_epoch q source epoch_number (committee_candidate_address scripts);
  permissioned ← collect_results (fun candidate =>
    validation_result ← map_err DebugOf (api_validate_permissioned_candidate_data q (best_hash q) (AriadneIDP.from_raw candidate));
    Ok (mkQueryPermissionedCandidate candidate (match validation_result with None => true | Some _ => false end) validation_result))
    (ap_permissioned_candidates response);
  Ok (mkQueryAriadneParameters (ap_d_parameter response) permissioned candidate_registrations).
End Api.
End Query.

(** ** The query and the selection agree *)

(** [CandidateValidationApi] of the runtime. *)
Section RuntimeApi.
Context `{Minicbor, Crypto, Accounts}.
Definition runtime_validate_registered_candidate_data (genesis_utxo : UtxoId) (pk : MainchainPublicKey)
    (r : RegistrationData) : option RegistrationDataError := err (validate_registration_data pk r genesis_utxo).
Definition runtime_validate_stake (stake : option StakeDelegation) : option StakeError := err (validate_stake stake).
Definition runtime_validate_permissioned_candidate_data (c : PermissionedCandidateData)
    : option Permissioned.PermissionedCandidateDataError := err (validate_permissioned_candidate_data c).
End RuntimeApi.

Lemma collect_results_total {E A B} (f : A -> result E B) (g : A -> B) l :
  (forall x, f x = Ok (g x)) -> collect_results f l = Ok (map g l).
Proof. intros Hf. induction l as [|x l IH]; [done|]. cbn. by rewrite Hf, IH. Qed.

Lemma max_by_map {A B} (f : A -> B) leb l :
  max_by leb (map f l) = option_map f (max_by (fun a b => leb (f a) (f b)) l).
Proof.
  unfold max_by. change (@None B) with (option_map f None) at 1. generalize (@None A).
  induction l as [|x l IH]; intros acc; [done|]. cbn [map foldl]. rewrite <- IH. f_equal.
  destruct acc as [y|]; cbn; [|done]. by destruct (leb (f y) (f x)).
Qed.

Lemma filter_none {A} (p : A -> bool) l : Forall (fun y => p y = false) l -> filter p l = [].
Proof.
  induction 1 as [|y l Hy Hl IH]; [done|]. rewrite filter_cons, decide_False; [done|]. rewrite Hy. by intros [].
Qed.

(** The last element with a property, and what is after it. *)
Lemma rposition_spec {A} (p : A -> bool) l :
  match Query.rposition p l with
  | Some n => exists x rest, drop n l = x :: rest /\ p x = true /\ Forall (fun y => p y = false) rest /\
      last (filter p l) = Some x
  | None => Forall (fun y => p y = false) l
  end.
Proof.
  induction l as [|x l IH]; [constructor|]. cbn [Query.rposition].
  destruct (Query.rposition p l) as [n|].
  - destruct IH as (y & rest & Hd & Hy & Hr & Hl). exists y, rest. split_and!; try done.
    rewrite filter_cons. case_decide; [|done]. by rewrite last_cons, Hl.
  - destruct (p x) eqn:Hx; [|by constructor]. exists x, l. split_and!; try done.
    rewrite filter_cons, decide_True by (by rewrite Hx). rewrite last_cons.
    by rewrite filter_none.
Qed.

Section Agree.
Context `{Minicbor, Crypto, Accounts, HexCodec, Ss58}.
Context (genesis : UtxoId) (cr : CandidateRegistrations).

Let pk := mainchain_pub_key cr.
Let entry (r : RegistrationData) : Query.CandidateRegistrationEntry :=
  Query.entry_new r pk (stake_delegation cr) (runtime_validate_registered_candidate_data genesis pk r).
Let valid (r : RegistrationData) : bool :=
  match validate_registration_data pk r genesis with Ok _ => true | Err _ => false end.
Let by_position (a b : RegistrationData) : bool :=
  ordering_key_leb (ordering_key (utxo_info a)) (ordering_key (utxo_info b)).

Lemma entry_valid r : Query.is_valid (entry r) = valid r.
Proof.
  unfold entry, valid, runtime_validate_registered_candidate_data. cbn.
  by destruct (validate_registration_data pk r genesis).
Qed.

Lemma by_position_total a b : by_position a b = true \/ by_position b a = true.
Proof. apply ordering_key_leb_total. Qed.
Lemma by_position_trans a b c : by_position a b = true -> by_position b c = true -> by_position a c = true.
Proof. apply ordering_key_leb_trans. Qed.

Let candidate_of (r : RegistrationData) : Candidate bytes (bytes * bytes) * UtxoInfo :=
  (mkCandidate (sidechain_pub_key r) (aura_pub_key r, grandpa_pub_key r), utxo_info r).

Lemma valid_registrations regs :
  omap (validate_with_info pk genesis) regs = map candidate_of (filter valid regs).
Proof.
  induction regs as [|r regs IH]; [done|]. csimpl. rewrite filter_cons, IH. unfold validate_with_info, valid.
  destruct (validate_registration_data pk r genesis) as [c|] eqn:Hv; [|done].
  apply validate_registration_data_Ok in Hv as [_ ->]. done.
Qed.

(** The latest valid registration is the one that selection takes. *)
Lemma latest_valid_is_selected :
  max_by by_ordering_key (omap (validate_with_info pk genesis) (registrations cr)) =
    option_map candidate_of (last (filter valid (sort_by by_position (registrations cr)))).
Proof.
  rewrite valid_registrations, max_by_map.
  rewrite (sort_by_filter by_position by_position_total by_position_trans).
  by rewrite (last_sort_by _ by_position_total by_position_trans).
Qed.

Lemma candidate_entries_spec :
  exists entries,
    Query.candidate_entries (fun pk r => Ok (runtime_validate_registered_candidate_data genesis pk r))
      (fun s => Ok (runtime_validate_stake s)) cr = Ok entries /\
    match select_latest_valid_candidate cr genesis with
    | Some c => exists r rest, entries = Query.entry_new r pk (stake_delegation cr) None :: rest /\
        r ∈ registrations cr /\
        candidate c = mkCandidate (account_from_ecdsa (sidechain_pub_key r)) (keys_from (aura_pub_key r, grandpa_pub_key r)) /\
        Forall (fun e => Query.is_valid e = false) rest
    | None => Forall (fun e => Query.is_valid e = false) entries
    end.
Proof.
  unfold Query.candidate_entries. erewrite (collect_results_total _ entry) by done. simpl_monad.
  rewrite (sort_by_map _ (fun a b => Query.by_utxo (entry a) (entry b))) by done.
  change (fun a b => Query.by_utxo (entry a) (entry b)) with by_position.
  set (sorted := sort_by by_position (registrations cr)).
  eexists. split; [reflexivity|]. unfold select_latest_valid_candidate. cbn zeta.
  pose proof latest_valid_is_selected as Hsel. unfold pk in Hsel. fold sorted in Hsel.
  rewrite Hsel. unfold runtime_validate_stake.
  assert (forall l, Forall (fun e => Query.is_valid e = false) (map entry l) <-> Forall (fun r => valid r = false) l) as Hmap.
  { intros l. rewrite Forall_map. apply Forall_iff. intros r. by rewrite entry_valid. }
  assert (Query.rposition Query.is_valid (map entry sorted) = Query.rposition valid sorted) as ->.
  { generalize sorted as l. induction l as [|r l IH]; [done|]. cbn [map Query.rposition]. by rewrite IH, entry_valid. }
  pose proof (rposition_spec valid sorted) as Hpos. destruct (Query.rposition valid sorted) as [n|]; cbn [default from_option id].
  - destruct Hpos as (r & rest & Hd & Hr & Hrest & Hlast). rewrite Hlast, skipn_map, Hd. cbn [map option_map].
    rewrite entry_valid, Hr.
    destruct (validate_stake (stake_delegation cr)) as [s|e]; cbn [err ok]; simpl_monad.
    + exists r, (map entry rest). split_and!.
      * f_equal. unfold entry. f_equal. unfold runtime_validate_registered_candidate_data, valid in *.
        by destruct (validate_registration_data pk r genesis).
      * apply last_Some_elem_of, list_elem_of_filter in Hlast as [_ Hin]. unfold sorted in Hin. by rewrite sort_by_perm in Hin.
      * done.
      * by apply Hmap.
    + constructor; [done|]. by apply Hmap.
  - rewrite drop_0, filter_none by done.
    cbn [last option_map]. apply Hmap in Hpos.
    destruct (validate_stake (stake_delegation cr)) as [s|e]; cbn [err ok]; simpl_monad; [done|].
    destruct (map entry sorted) as [|x l]; [done|]. inversion Hpos; subst. by destruct (Query.is_valid x).
Qed.
End Agree.

Section Map.
Context `{Minicbor, Crypto, Accounts, HexCodecLaws, Ss58}.
Context (genesis : UtxoId).
Let entries_of := Query.candidate_entries (fun pk r => Ok (runtime_validate_registered_candidate_data genesis pk r))
  (fun s => Ok (runtime_validate_stake s)).

Lemma to_hex_inj_wf a b : wf_bytes a -> wf_bytes b -> to_hex a = to_hex b -> a = b.
Proof.
  intros Ha Hb Heq. pose proof (from_hex_to_hex a Ha) as Hra. pose proof (from_hex_to_hex b Hb) as Hrb.
  rewrite Heq, Hrb in Hra. by injection Hra.
Qed.

Lemma response_map_spec candidates :
  Forall (fun cr => wf_bytes (mainchain_pub_key cr)) candidates -> NoDup (map mainchain_pub_key candidates) ->
  exists m, Query.get_registrations_response_map
      (fun pk r => Ok (runtime_validate_registered_candidate_data genesis pk r))
      (fun s => Ok (runtime_validate_stake s)) candidates = Ok m /\
    forall cr, cr ∈ candidates -> exists entries, m !! to_hex (mainchain_pub_key cr) = Some entries /\
      entries_of cr = Ok entries.
Proof.
  intros Hwf. unfold Query.get_registrations_response_map, Query.GetRegistrationsResponseMap. fold entries_of.
  induction candidates as [|cr l IH] using rev_ind; intros Hnd.
  - exists ∅. split; [done|]. intros cr Hcr. by apply elem_of_nil in Hcr.
  - apply Forall_app in Hwf as [Hwf Hcr]. inversion Hcr; subst. rewrite map_app in Hnd.
    apply NoDup_app in Hnd as (Hnd & Hdisj & _). destruct (IH Hwf Hnd) as (m & Hm & Hall).
    rewrite foldl_app. cbn [foldl]. rewrite Hm. simpl_monad.
    destruct (candidate_entries_spec genesis cr) as (entries & He & _). fold entries_of in He. rewrite He. simpl_monad.
    eexists. split; [reflexivity|]. intros cr' [Hin| ->%list_elem_of_singleton]%elem_of_app.
    + rewrite lookup_insert_ne; [by apply Hall|]. intros Heq%to_hex_inj_wf.
      * apply (Hdisj (mainchain_pub_key cr')); [apply list_elem_of_fmap; eauto|]. rewrite <- Heq. by left.
      * done.
      * by eapply (proj1 (Forall_forall _ l)) in Hwf.
    + exists entries. by rewrite lookup_insert_eq.
Qed.
End Map.

(** C21: [sidechain_getRegistrations] agrees with the committee selection. For candidates
    with distinct keys the answer for each starts with the registration that the selection
    would use, marked valid, followed by newer registrations only, all marked invalid; if
    the selection would drop the candidate, every entry is marked invalid. *)
Theorem registrations_query_matches_selection `{Minicbor, Crypto, Accounts, HexCodecLaws, Ss58} genesis candidates :
  Forall (fun cr => wf_bytes (mainchain_pub_key cr)) candidates -> NoDup (map mainchain_pub_key candidates) ->
  exists m, Query.get_registrations_response_map
      (fun pk r => Ok (runtime_validate_registered_candidate_data genesis pk r))
      (fun s => Ok (runtime_validate_stake s)) candidates = Ok m /\
    forall cr, cr ∈ candidates -> exists entries, m !! to_hex (mainchain_pub_key cr) = Some entries /\
      match select_latest_valid_candidate cr genesis with
      | Some c => exists r rest,
          entries = Query.entry_new r (mainchain_pub_key cr) (stake_delegation cr) None :: rest /\
          r ∈ registrations cr /\
          candidate c = mkCandidate (account_from_ecdsa (sidechain_pub_key r)) (keys_from (aura_pub_key r, grandpa_pub_key r)) /\
          Forall (fun e => Query.is_valid e = false) rest
      | None => Forall (fun e => Query.is_valid e = false) entries
      end.
Proof.
  intros Hwf Hnd. destruct (response_map_spec genesis candidates Hwf Hnd) as (m & Hm & Hall).
  exists m. split; [done|]. intros cr Hcr. destruct (Hall cr Hcr) as (entries & Hlook & He).
  destruct (candidate_entries_spec genesis cr) as (entries' & He' & Hspec).
  exists entries. split; [done|]. assert (entries' = entries) as -> by congruence. exact Hspec.
Qed.

(** ** The committee of an epoch *)
Section EpochCommittee.
Context `{HexCodec, Ss58}.
Context (q : Query.QueryClient) (slot : Z -> ScSlotNumber) (spe : Z).
Context (V : chain_view (Query.client q) slot spe).
Let best := best_number (Query.client q).
Context (Hbest : 1 <= best) (Hslot : 0 <= slot best < 2 ^ 64 - 1).

Lemma next_epoch_of_best : ScEpochNumber_next (slot best / spe) = slot best / spe + 1.
Proof.
  apply wrapping_add_small. pose proof (cv_slots_per_epoch _ _ _ V). unfold in_width.
  pose proof (Z.div_pos (slot best) spe ltac:(lia) ltac:(lia)).
  pose proof (Z.div_le_upper_bound (slot best) spe (slot best) ltac:(lia) ltac:(nia)). lia.
Qed.

(** Past the checks of the first and the last epoch. *)
Lemma get_epoch_committee_unfold e :
  e <> 0 ->
  exists h1, hash (Query.client q) 1 = Ok (Some h1) /\
  Query.get_epoch_committee q e =
    if e <? slot 1 / spe then Some (Done (Err (Query.EarlierThanInitialEpoch e)))
    else if slot best / spe + 1 <? e then Some (Done (Err (Query.CommitteeUnknown e)))
    else if e =? slot best / spe + 1 then
      Some (c ←? (next ←? lift (map_err Query.DebugOf (Query.api_get_next_committee q (Query.best_hash q)));
                  lift (ok_or next (Query.NextCommitteeUnknown e)));
            Done (Ok (Query.committee_response e (snd c))))
    else
      found ← find_block (Query.client q) {| any_epoch := e |};
      Some (c ←? (block_hash ←? match found with Panic => Panic | Done r => Done (map_err Query.DebugOf r) end;
                  lift (map_err Query.DebugOf (Query.api_get_current_committee q block_hash)));
            Done (Ok (Query.committee_response e (snd c)))).
Proof.
  intros He. destruct (cv_known _ _ _ V 1) as (h1 & Hh1 & Hs1); [unfold best in *; lia|].
  exists h1. split; [done|]. unfold Query.get_epoch_committee. rewrite (proj2 (Z.eqb_neq e 0)) by done.
  rewrite Hh1. simpl_monad. rewrite Hs1. simpl_monad. cbn [SidechainPallet.epoch].
  destruct (e <? slot 1 / spe); [done|]. rewrite (epoch_of_known _ _ _ V) by (unfold best in *; lia). simpl_monad.
  fold best. rewrite next_epoch_of_best. destruct (slot best / spe + 1 <? e); [done|]. cbn iota beta. by rewrite next_epoch_of_best.
Qed.
End EpochCommittee.

(** [sidechain_getEpochCommittee] on every branch, for an epoch other than 0: an epoch
    before that of the first block or beyond the one after the latest is refused; the next
    epoch is answered with the committee stored for it at the best block; an epoch of the
    chain with the committee in office at one of its blocks, found by binary search, and
    an epoch without a block is an error. The search always ends, and nothing panics. *)
Theorem epoch_committee_query `{HexCodec, Ss58} q slot spe e :
  chain_view (Query.client q) slot spe -> 1 <= best_number (Query.client q) ->
  0 <= slot (best_number (Query.client q)) < 2 ^ 64 - 1 -> e <> 0 ->
  let last := slot (best_number (Query.client q)) / spe in
  (e < slot 1 / spe -> Query.get_epoch_committee q e = Some (Done (Err (Query.EarlierThanInitialEpoch e)))) /\
  (slot 1 / spe <= e -> last + 1 < e -> Query.get_epoch_committee q e = Some (Done (Err (Query.CommitteeUnknown e)))) /\
  (slot 1 / spe <= e -> e = last + 1 ->
    forall epoch committee, Query.api_get_next_committee q (Query.best_hash q) = Ok (Some (epoch, committee)) ->
    Query.get_epoch_committee q e = Some (Done (Ok (Query.committee_response e committee)))) /\
  (forall n, 1 <= n <= best_number (Query.client q) -> slot n / spe = e ->
    (forall m h, hash (Query.client q) m = Ok (Some h) -> exists epoch committee, Query.api_get_current_committee q h = Ok (epoch, committee)) ->
    exists m h epoch committee, 1 <= m <= best_number (Query.client q) /\ slot m / spe = e /\
      hash (Query.client q) m = Ok (Some h) /\ Query.api_get_current_committee q h = Ok (epoch, committee) /\
      Query.get_epoch_committee q e = Some (Done (Ok (Query.committee_response e committee)))) /\
  (slot 1 / spe <= e <= last -> (forall n, 1 <= n <= best_number (Query.client q) -> slot n / spe <> e) ->
    Query.get_epoch_committee q e =
      Some (Done (Err (Query.DebugOf (Application "Could not find block number"))))).
Proof.
  intros V Hbest Hslot He last.
  destruct (get_epoch_committee_unfold q slot spe V Hbest Hslot e He) as (h1 & Hh1 & ->). fold last.
  split_and!.
  - intros Hlt. by rewrite (proj2 (Z.ltb_lt _ _)).
  - intros Hge Hlt. rewrite (proj2 (Z.ltb_ge _ _)), (proj2 (Z.ltb_lt _ _)) by lia. done.
  - intros Hge -> epoch committee Hc. rewrite !(proj2 (Z.ltb_ge _ _)), Z.eqb_refl by lia. by rewrite Hc.
  - intros n Hn Hep Hcur. pose proof (epochs_sorted _ _ _ V 1 n ltac:(lia) ltac:(lia)).
    pose proof (epochs_sorted _ _ _ V n (best_number (Query.client q)) ltac:(lia) ltac:(lia)). unfold last in *.
    rewrite !(proj2 (Z.ltb_ge _ _)), (proj2 (Z.eqb_neq _ _)) by lia.
    destruct (find_any_epoch _ _ _ V e n Hn Hep) as (m & h & Hf & Hm & Hh & Hme).
    destruct (Hcur m h Hh) as (epoch & committee & Hc). exists m, h, epoch, committee.
    split_and!; try done; try lia. rewrite Hf. cbn [mbind option_bind]. simpl_monad. by rewrite Hc.
  - intros Hr Hno. rewrite !(proj2 (Z.ltb_ge _ _)), (proj2 (Z.eqb_neq _ _)) by lia.
    by rewrite (miss_any_epoch _ _ _ V e Hno).
Qed.

Section Witnesses.
Import ConcreteAccounts Rfc8949 ConcreteHex ExampleChain.
#[local] Instance no_ss58 : Ss58 := fun k => to_hex k.
#[local] Definition utxo0 := mkUtxoId (replicate 32 0) 0.
#[local] Definition reg (block : Z) (mc key : Z) := mkRegistrationData utxo0 (replicate 64 key) (replicate 64 mc) []
  (replicate 33 key) [] (mkUtxoInfo utxo0 1 block 100 0) [utxo0] (replicate 32 1) (replicate 32 2).
(** The latest registration (block 8) is signed with a wrong key; block 5 is the latest valid one. *)
#[local] Definition cands := mkCandidateRegistrations (replicate 32 9) [reg 5 9 7; reg 8 3 6; reg 2 9 5] (Some 10).

Lemma registrations_query_matches_selection_witness :
  exists m, Query.get_registrations_response_map
      (fun pk r => Ok (runtime_validate_registered_candidate_data utxo0 pk r))
      (fun s => Ok (runtime_validate_stake s)) [cands] = Ok m /\
    exists r rest, m !! to_hex (mainchain_pub_key cands) =
        Some (Query.entry_new r (mainchain_pub_key cands) (stake_delegation cands) None :: rest) /\
      sidechain_pub_key r = replicate 33 7 /\ Forall (fun e => Query.is_valid e = false) rest.
Proof.
  destruct (registrations_query_matches_selection utxo0 [cands]) as (m & Hm & Hall).
  - repeat constructor; lia.
  - constructor; [apply not_elem_of_nil | constructor].
  - exists m. split; [exact Hm|]. destruct (Hall cands) as (entries & Hlook & Hspec); [left|].
    assert (option_map (fun c => account_id (candidate c)) (select_latest_valid_candidate cands utxo0) =
      Some (replicate 33 7)) as Hsel by (vm_compute; reflexivity).
    destruct (select_latest_valid_candidate cands utxo0) as [c|]; [|discriminate Hsel].
    destruct Hspec as (r & rest & -> & _ & Hc & Hrest). exists r, rest.
    cbn [option_map] in Hsel. rewrite Hc in Hsel. injection Hsel as Hsel. by split_and!.
Defined.

#[local] Definition example_query : Query.QueryClient :=
  Query.mkQueryClient example_client [0] [10] (fun h => Ok (7, [h])) (fun _ => Ok (Some (5, [[1]; [2]])))
    (fun _ => Ok Example2.scripts) (fun _ _ _ => Ok None) (fun _ _ => Ok None) (fun _ _ => Ok None).
Lemma epoch_committee_query_witness :
  Query.get_epoch_committee example_query 5 = Some (Done (Ok (Query.committee_response 5 [[1]; [2]]))) /\
  Query.get_epoch_committee example_query 6 = Some (Done (Err (Query.CommitteeUnknown 6))).
Proof.
  destruct (epoch_committee_query example_query example_slot 5 5 example_view) as (_ & _ & H5 & _);
    [cbn; lia | cbn; unfold example_slot; lia | lia |].
  destruct (epoch_committee_query example_query example_slot 5 6 example_view) as (_ & H6 & _);
    [cbn; lia | cbn; unfold example_slot; lia | lia |].
  split; [apply (H5 ltac:(done) ltac:(done) 5); reflexivity | apply H6; done].
Defined.
End Witnesses.
