(* ===== verification/Agreement.v ===== *)
(** * Nodes agree on the committee

    The registrations reach [select_authorities] through a hash map
    ([group_candidates_by_mc_pub_key] of the candidates data source) and from
    queries without an order, so two nodes see the same candidates in different
    orders. An importing node recomputes the committee of the block's author:
    this file shows when the order does not matter, and when it does. *)

From S2P Require Import Prelude Domain Cbor Selection Ariadne Committee.

(** [TAccountId: Ord]. *)
Class AccountOrder `{Accounts} : Prop := {
  account_leb_total : forall a b, account_leb a b = true \/ account_leb b a = true;
  account_leb_trans : forall a b c, account_leb a b = true -> account_leb b c = true -> account_leb a c = true;
  account_leb_antisymm : forall a b, account_leb a b = true -> account_leb b a = true -> a = b
}.

(** The same registrations of a candidate, and the same candidates, in some order. *)
Record same_candidate (cr cr' : CandidateRegistrations) : Prop := {
  same_key : mainchain_pub_key cr = mainchain_pub_key cr';
  same_stake : stake_delegation cr = stake_delegation cr';
  same_registrations : registrations cr ≡ₚ registrations cr'
}.
Definition same_candidates (l l' : list CandidateRegistrations) : Prop :=
  exists k, l ≡ₚ k /\ Forall2 same_candidate k l'.
Record same_inputs (i i' : AuthoritySelectionInputs) : Prop := {
  same_d_parameter : d_parameter i = d_parameter i';
  same_permissioned : permissioned_candidates i = permissioned_candidates i';
  same_nonce : epoch_nonce i = epoch_nonce i';
  same_registered : same_candidates (registered_candidates i) (registered_candidates i')
}.

(** No two registrations of a candidate are the same output of the main chain. *)
Definition distinct_outputs (cr : CandidateRegistrations) : Prop :=
  NoDup (map (fun r => ordering_key (utxo_info r)) (registrations cr)).

(** Sorting by a key that tells the elements apart forgets their order. *)
Lemma sort_by_perm_eq {A} (leb : A -> A -> bool) l k :
  (forall x y, leb x y = true \/ leb y x = true) ->
  (forall x y z, leb x y = true -> leb y z = true -> leb x z = true) ->
  (forall x y, x ∈ l -> y ∈ l -> leb x y = true -> leb y x = true -> x = y) ->
  l ≡ₚ k -> sort_by leb l = sort_by leb k.
Proof.
  intros Htot Htrans Hanti Hp.
  apply (StronglySorted_unique_strong (fun x y => leb x y = true)); [|by apply sort_by_sorted..|].
  - intros x y Hx Hy. rewrite sort_by_perm in Hx. rewrite sort_by_perm, <- Hp in Hy. by apply Hanti.
  - by rewrite !sort_by_perm.
Qed.

Lemma NoDup_map_inj {A B} (f : A -> B) (l : list A) x y : NoDup (map f l) -> x ∈ l -> y ∈ l -> f x = f y -> x = y.
Proof.
  induction l as [|z l IH]; [by intros _ ?%elem_of_nil|]. cbn. rewrite NoDup_cons, !elem_of_cons.
  intros [Hz Hn] [->|Hx] [->|Hy] Heq; [done| | |by apply IH]; exfalso; apply Hz.
  - rewrite Heq. apply list_elem_of_fmap. eauto.
  - rewrite <- Heq. apply list_elem_of_fmap. eauto.
Qed.

Section Validation.
Context `{Minicbor, Crypto, Accounts}.

Lemma select_latest_order cr cr' genesis :
  same_candidate cr cr' -> distinct_outputs cr ->
  select_latest_valid_candidate cr genesis = select_latest_valid_candidate cr' genesis.
Proof.
  intros [Hk Hs Hr] Hd. unfold select_latest_valid_candidate. rewrite <- Hk, <- Hs. cbn zeta.
  destruct (ok (validate_stake (stake_delegation cr))); [|done]. simpl_monad.
  rewrite <- !(last_sort_by _ by_ordering_key_total by_ordering_key_trans).
  rewrite (sort_by_perm_eq _ _ (omap (validate_with_info (mainchain_pub_key cr) genesis) (registrations cr')));
    [done | apply by_ordering_key_total | apply by_ordering_key_trans | | by rewrite Hr].
  intros x y (r & Hr1 & _ & ->)%elem_of_valid_registrations (r' & Hr2 & _ & ->)%elem_of_valid_registrations Hxy Hyx.
  pose proof (ordering_key_leb_antisymm _ _ Hxy Hyx) as Heq. cbn in Heq.
  by rewrite (NoDup_map_inj _ _ r r' Hd Hr1 Hr2 Heq).
Qed.

Lemma filter_trustless_order l l' genesis :
  same_candidates l l' -> Forall distinct_outputs l ->
  filter_trustless_candidates_registrations l genesis ≡ₚ filter_trustless_candidates_registrations l' genesis.
Proof.
  intros (k & Hp & Hf) Hd. rewrite Hp in Hd. unfold filter_trustless_candidates_registrations.
  transitivity (omap (fun cr => select_latest_valid_candidate cr genesis) k).
  { by rewrite Hp. }
  clear Hp l. induction Hf as [|cr cr' k l' Hs Hf IH]; [done|]. inversion Hd; subst. csimpl.
  rewrite <- (select_latest_order cr cr') by done. specialize (IH ltac:(done)).
  destruct (select_latest_valid_candidate cr genesis); [by constructor|done].
Qed.
End Validation.

Lemma candidates_with_weight_order {A B} (t t' : list (CandidateWithStake A B)) p d :
  t ≡ₚ t' -> candidates_with_weight t p d ≡ₚ candidates_with_weight t' p d.
Proof.
  intros Ht. unfold candidates_with_weight, trustless_candidates_with_weights, permissioned_candidates_with_weights.
  rewrite !sum_width_spec by lia.
  assert (sum_list (map cws_stake_delegation t) = sum_list (map cws_stake_delegation t')) as ->
    by (apply sum_list_perm; by rewrite Ht).
  by rewrite Ht.
Qed.

Section Select.
Context `{Minicbor, Crypto, AccountOrder, Rng, U256, BoundedVecOps}.

(** The partner chain accounts of the valid candidates of both kinds. *)
Definition valid_accounts (i : AuthoritySelectionInputs) (genesis : UtxoId) : list TAccountId :=
  map (fun c => account_id (candidate c))
    (filter_trustless_candidates_registrations (registered_candidates i) genesis) ++
  map account_id (filter_invalid_permissioned_candidates (permissioned_candidates i)).

Lemma accounts_with_weight {A B} (t : list (CandidateWithStake A B)) p d :
  map (fun c => account_id (fst c)) (candidates_with_weight t p d) =
    map (fun c => account_id (candidate c)) t ++ map account_id p.
Proof.
  unfold candidates_with_weight, trustless_candidates_with_weights, permissioned_candidates_with_weights.
  by rewrite map_app, !map_map.
Qed.

Lemma select_authorities_order MaxValidators genesis i i' epoch :
  same_inputs i i' -> Forall distinct_outputs (registered_candidates i) -> NoDup (valid_accounts i genesis) ->
  select_authorities MaxValidators genesis i epoch = select_authorities MaxValidators genesis i' epoch.
Proof.
  intros [Hd Hp Hn Hr] Ho Ha. unfold select_authorities. rewrite <- Hd, <- Hp, <- Hn.
  rewrite (sort_by_perm_eq by_account_id _ (candidates_with_weight
    (filter_trustless_candidates_registrations (registered_candidates i') genesis)
    (filter_invalid_permissioned_candidates (permissioned_candidates i)) (d_parameter i))); [done|..].
  - intros. apply account_leb_total.
  - intros ???. apply account_leb_trans.
  - intros x y Hx Hy Hxy Hyx. eapply (NoDup_map_inj (fun c => account_id (fst c))); [|done|done|].
    + rewrite accounts_with_weight. exact Ha.
    + by apply account_leb_antisymm.
  - by apply candidates_with_weight_order, filter_trustless_order.
Qed.
End Select.

(** C9: Nodes agree on the committee. Two nodes whose data sources deliver the same data
    with candidates and registrations in different orders compute the same committee, and
    the one accepts the inherent the other has created, provided that no two valid
    candidates share a partner chain account. *)
Theorem nodes_agree_on_committee
    `{Minicbor, Crypto, AccountOrder, Rng, U256, BoundedVecOps, !EqDecision TAccountId, !EqDecision TAccountKeys}
    {AccountId} (into_account : TAccountId -> AccountId) MaxValidators genesis i i' epoch st st' call :
  same_inputs i i' -> Forall distinct_outputs (registered_candidates i) -> NoDup (valid_accounts i genesis) ->
  begins into_account st st' ->
  CommitteeManagement.create_inherent (select_authorities MaxValidators genesis) st' (Ok (Some i)) = Done (Some call) ->
  select_authorities MaxValidators genesis i epoch = select_authorities MaxValidators genesis i' epoch /\
  CommitteeManagement.check_inherent (select_authorities MaxValidators genesis) st call (Ok (Some i')) = Done (Ok ()).
Proof.
  intros Hi Ho Ha Hb Hc. split; [by apply select_authorities_order|].
  apply create_inherent_Some in Hc as (Hn & v & -> & computed & Hc & Hv).
  cbn [CommitteeManagement.check_inherent].
  unfold CommitteeManagement.calculate_committee_from_inherent_data,
    CommitteeManagement.inherent_data_to_authority_selection_inputs in *. simpl_monad.
  cbn [mbind outcome_bind expect ok] in Hc.
  rewrite <- (select_authorities_order _ _ i i') by done. rewrite Hc. simpl_monad.
  rewrite <- (begins_committee _ _ _ Hb Hn), <- Hv. by rewrite bool_decide_eq_true_2.
Qed.

(** ** Candidates that share an account

    The selection does not look at the candidates themselves: it draws positions in the list that is
    sorted by account, so that candidates of one account and one stake that change places in the
    input change places in the committee. *)
Definition exchange {A} `{EqDecision A} (a b x : A) : A := if decide (x = a) then b else if decide (x = b) then a else x.
Lemma exchange_id {A} `{EqDecision A} (a b x : A) : x <> a -> x <> b -> exchange a b x = x.
Proof. intros. unfold exchange. by rewrite !decide_False. Qed.
Lemma exchange_map_fixed {A} `{EqDecision A} (a b : A) l : a <> b -> (map (exchange a b) l = l <-> (a ∉ l) /\ (b ∉ l)).
Proof.
  intros Hab. rewrite <- (map_id l) at 2. rewrite <- Forall_fmap_ext, Forall_forall. unfold exchange. split.
  - intros Hf. split; intros Hin; specialize (Hf _ Hin); cbn in Hf; repeat case_decide; naive_solver.
  - intros [Ha Hb] x Hx. repeat case_decide; naive_solver.
Qed.

Lemma two_middle {A} (x y : A) p q r : p ++ x :: q ++ y :: r ≡ₚ x :: y :: p ++ q ++ r.
Proof. rewrite <- Permutation_middle. constructor. rewrite !(app_assoc p). by rewrite <- Permutation_middle. Qed.

Section Positions.
Context `{Rng} {T : Type} (f : T -> T).
Abbreviation at_place := (map (fun c : T * Weight => (f (fst c), snd c))).
Lemma find_index_map wc index cum r : find_index (at_place wc) index cum r = find_index wc index cum r.
Proof. revert index cum. induction wc as [|[x w] wc IH]; intros; cbn; [done|]. by rewrite IH. Qed.
Lemma select_loop_map wc total missing committee g :
  select_loop (at_place wc) total missing (map f committee) g = map f <$> select_loop wc total missing committee g.
Proof.
  revert committee g. induction missing as [|m IH]; intros committee g; [done|]. cbn [select_loop].
  destruct (decide (wc = [])) as [->|Hne]; [done|]. rewrite !bool_decide_eq_false_2 by (by destruct wc).
  unfold select_with_weight. destruct (gen_range g total) as [[r g']|]; [|done]. simpl_monad. rewrite find_index_map.
  destruct (find_index wc 0 0 r) as [k|]; [|done]. simpl_monad. rewrite list_lookup_fmap.
  destruct (wc !! k) as [c|]; [|done]. simpl_monad. cbn [fst]. rewrite <- IH, map_app. done.
Qed.
Lemma selection_map wc seed config :
  Selection.select_authorities (at_place wc) seed config = option_map (map f) <$> Selection.select_authorities wc seed config.
Proof.
  unfold Selection.select_authorities, while_loop. cbn [length]. rewrite map_map. cbn [snd].
  rewrite (select_loop_map _ _ _ [] _). destruct (select_loop wc _ _ _ _) as [c|]; [|done]. simpl_monad.
  rewrite length_map. by destruct (_ <=? _)%nat.
Qed.
End Positions.

Section SharedAccount.
Context `{Minicbor, Crypto, Accounts, Rng, U256, BoundedVecLaws, !EqDecision TAccountId, !EqDecision TAccountKeys}.
#[local] Instance Candidate_eq_dec : EqDecision (Candidate TAccountId TAccountKeys).
Proof. solve_decision. Defined.
(** What a candidate brings into the committee. *)
Definition seat_of (c : Candidate TAccountId TAccountKeys) : TAccountId * TAccountKeys := (account_id c, account_keys c).
(** The seats that the valid candidates of both kinds can take. *)
Definition valid_seats (i : AuthoritySelectionInputs) (genesis : UtxoId) : list (TAccountId * TAccountKeys) :=
  map (fun c => seat_of (candidate c)) (filter_trustless_candidates_registrations (registered_candidates i) genesis) ++
  map seat_of (filter_invalid_permissioned_candidates (permissioned_candidates i)).

Lemma exchange_seat a b c : seat_of (exchange a b c) = exchange (seat_of a) (seat_of b) (seat_of c).
Proof.
  unfold exchange. assert (forall x y, seat_of x = seat_of y <-> x = y) as Hinj.
  { intros [] []. unfold seat_of. cbn. split; [by intros [= -> ->]|by intros [= -> ->]]. }
  destruct (decide (c = a)) as [->|Ha]; [by rewrite decide_True|]. rewrite (decide_False (P := seat_of c = seat_of a)) by by rewrite Hinj.
  destruct (decide (c = b)) as [->|Hb]; [by rewrite decide_True|]. by rewrite decide_False by by rewrite Hinj.
Qed.

(** The inputs with two candidates in exchanged places. *)
Definition with_registered (i : AuthoritySelectionInputs) (l : list CandidateRegistrations) : AuthoritySelectionInputs :=
  mkAuthoritySelectionInputs (d_parameter i) (permissioned_candidates i) l (epoch_nonce i).

Context (MaxValidators : nat) (genesis : UtxoId) (i : AuthoritySelectionInputs).
Context (l1 l2 l3 : list CandidateRegistrations) (cr cr' : CandidateRegistrations).
Context (v v' : CandidateWithStake TAccountId TAccountKeys).
Context (Hi : registered_candidates i = l1 ++ cr :: l2 ++ cr' :: l3).
Context (Hv : select_latest_valid_candidate cr genesis = Some v) (Hv' : select_latest_valid_candidate cr' genesis = Some v').
Context (Hacc : account_id (candidate v) = account_id (candidate v')) (Hstake : cws_stake_delegation v = cws_stake_delegation v').
Context (Hdistinct : NoDup (valid_seats i genesis)).
#[local] Abbreviation a := (candidate v).
#[local] Abbreviation b := (candidate v').
#[local] Abbreviation valid l := (filter_trustless_candidates_registrations l genesis).
#[local] Abbreviation exchanged := (with_registered i (l1 ++ cr' :: l2 ++ cr :: l3)).

Definition exchange_candidate (c : CandidateWithStake TAccountId TAccountKeys) : CandidateWithStake TAccountId TAccountKeys :=
  mkCandidateWithStake (exchange a b (candidate c)) (cws_stake_delegation c).

Lemma exchanged_same_inputs : same_inputs i exchanged.
Proof.
  split; [done..|]. exists (l1 ++ cr' :: l2 ++ cr :: l3). split.
  - rewrite Hi, !two_middle. apply Permutation_swap.
  - clear. cbn. induction (l1 ++ cr' :: l2 ++ cr :: l3) as [|x l IH]; constructor; [by split|done].
Qed.
Lemma valid_split : valid (registered_candidates i) = valid l1 ++ v :: valid l2 ++ v' :: valid l3 /\
  valid (registered_candidates exchanged) = valid l1 ++ v' :: valid l2 ++ v :: valid l3.
Proof.
  unfold filter_trustless_candidates_registrations. cbn [with_registered registered_candidates]. rewrite Hi.
  split; rewrite omap_app; cbn [omap list_omap]; fold (@omap list); rewrite ?Hv, ?Hv', omap_app; cbn [omap list_omap]; by rewrite ?Hv, ?Hv'.
Qed.
(** The other candidates are not moved. *)
Lemma others_distinct : a <> b /\
  (forall c, c ∈ valid l1 ++ valid l2 ++ valid l3 -> candidate c <> a /\ candidate c <> b) /\
  (forall c, c ∈ filter_invalid_permissioned_candidates (permissioned_candidates i) -> c <> a /\ c <> b).
Proof.
  assert (seat_of a :: seat_of b :: map (fun c => seat_of (candidate c)) (valid l1 ++ valid l2 ++ valid l3) ++
    map seat_of (filter_invalid_permissioned_candidates (permissioned_candidates i)) ≡ₚ valid_seats i genesis) as Hp.
  { unfold valid_seats. rewrite (proj1 valid_split), !map_app. cbn [map]. rewrite !map_app. cbn [map].
    by rewrite two_middle. }
  pose proof Hdistinct as Hd. rewrite <- Hp, !NoDup_cons, !not_elem_of_cons in Hd.
  destruct Hd as [[Hab Ha] [Hb _]]. split_and!.
  - intros E. apply Hab. by rewrite E.
  - intros c Hc. split; intros E; [apply Ha|apply Hb]; apply elem_of_app; left; apply list_elem_of_fmap; exists c; (split; [by rewrite E|done]).
  - intros c Hc. split; intros E; [apply Ha|apply Hb]; apply elem_of_app; right; apply list_elem_of_fmap; exists c; (split; [by rewrite E|done]).
Qed.
Lemma exchange_candidates_id l : (forall c, c ∈ l -> candidate c <> a /\ candidate c <> b) -> map exchange_candidate l = l.
Proof.
  intros Hl. rewrite <- (map_id l) at 2. apply list_fmap_ext. intros k [c st] Hk. unfold exchange_candidate. cbn.
  apply list_elem_of_lookup_2, Hl in Hk as [? ?]. by rewrite exchange_id.
Qed.
Lemma valid_exchanged : valid (registered_candidates exchanged) = map exchange_candidate (valid (registered_candidates i)).
Proof.
  destruct valid_split as [-> ->]. destruct others_distinct as (Hab & Ho & _).
  rewrite map_app. cbn [map]. rewrite map_app. cbn [map].
  rewrite !exchange_candidates_id by (intros c Hc; apply Ho; rewrite !elem_of_app; tauto).
  assert (exchange_candidate v = v' /\ exchange_candidate v' = v) as [-> ->]; [|done].
  unfold exchange_candidate, exchange. split.
  - rewrite decide_True by done. rewrite Hstake. by destruct v'.
  - rewrite decide_False by (intros E; apply Hab; congruence). rewrite decide_True by done. rewrite <- Hstake. by destruct v.
Qed.

(** Candidates of one account and one stake in exchanged places: the two have exchanged their seats. *)
Lemma exchanged_committee epoch :
  select_authorities MaxValidators genesis exchanged epoch =
    option_map (map (exchange (seat_of a) (seat_of b))) <$> select_authorities MaxValidators genesis i epoch.
Proof.
  unfold select_authorities. rewrite valid_exchanged. cbn [with_registered permissioned_candidates d_parameter epoch_nonce].
  destruct others_distinct as (_ & _ & Hp).
  assert (candidates_with_weight (map exchange_candidate (valid (registered_candidates i)))
      (filter_invalid_permissioned_candidates (permissioned_candidates i)) (d_parameter i) =
    map (fun c => (exchange a b (fst c), snd c)) (candidates_with_weight (valid (registered_candidates i))
      (filter_invalid_permissioned_candidates (permissioned_candidates i)) (d_parameter i))) as ->.
  { unfold candidates_with_weight, trustless_candidates_with_weights, permissioned_candidates_with_weights.
    rewrite map_app, !map_map. cbn. f_equal. apply map_ext_in. intros c Hc%list_elem_of_In.
    by rewrite exchange_id by by apply Hp. }
  rewrite (sort_by_map _ by_account_id).
  2:{ intros [x ?] [y ?]. unfold by_account_id. cbn.
      assert (forall c, account_id (exchange a b c) = account_id c) as He.
      { intros c. unfold exchange. repeat case_decide; subst; done. }
      by rewrite !He. }
  destruct (seed_from_nonce_and_sc_epoch _ _) as [seed|]; [|done]. simpl_monad. unfold weighted_selection.
  rewrite selection_map. destruct (Selection.select_authorities _ _ _) as [[c|]|]; [|done..]. simpl_monad. cbn [option_map].
  rewrite !truncate_from_take, !firstn_map, !map_map. do 2 f_equal. apply map_ext. intros x. apply exchange_seat.
Qed.
End SharedAccount.

(** C10: Candidates that share a partner chain account make the committee depend on the order of
    the data source. Take inputs whose valid candidates differ in account or keys, and among them two
    with the same account and stake (one person registers a key from two stake pools, with different
    Aura or Grandpa keys). The same data with the two in exchanged places gives the committee in
    which they have exchanged their seats; a node that sees the data so rejects the inherent of an
    author who sees it otherwise, exactly when one of the two has a seat. *)
Theorem shared_account_splits_nodes
    `{Minicbor, Crypto, Accounts, Rng, U256, BoundedVecLaws, !EqDecision TAccountId, !EqDecision TAccountKeys}
    MaxValidators genesis i l1 l2 l3 cr cr' v v' (st : CommitteeManagement.State TAccountId TAccountKeys) committee :
  registered_candidates i = l1 ++ cr :: l2 ++ cr' :: l3 ->
  select_latest_valid_candidate cr genesis = Some v -> select_latest_valid_candidate cr' genesis = Some v' ->
  account_id (candidate v) = account_id (candidate v') -> cws_stake_delegation v = cws_stake_delegation v' ->
  NoDup (valid_seats i genesis) ->
  CommitteeManagement.NextCommittee st = None ->
  let i' := with_registered i (l1 ++ cr' :: l2 ++ cr :: l3) in
  let epoch := CommitteeManagement.epoch (CommitteeManagement.CurrentCommittee st) +[64] 1 in
  let a := seat_of (candidate v) in
  let b := seat_of (candidate v') in
  let call := CommitteeManagement.call_set committee epoch in
  select_authorities MaxValidators genesis i epoch = Done (Some committee) ->
  same_inputs i i' /\
  select_authorities MaxValidators genesis i' epoch = Done (Some (map (exchange a b) committee)) /\
  CommitteeManagement.create_inherent (select_authorities MaxValidators genesis) st (Ok (Some i)) = Done (Some call) /\
  CommitteeManagement.check_inherent (select_authorities MaxValidators genesis) st call (Ok (Some i)) = Done (Ok ()) /\
  (CommitteeManagement.check_inherent (select_authorities MaxValidators genesis) st call (Ok (Some i')) = Done (Err InvalidValidators) <->
   a ∈ committee \/ b ∈ committee).
Proof.
  intros Hi Hv Hv' Hacc Hst Hd Hn i' epoch a b call Hc.
  pose proof (exchanged_committee MaxValidators genesis i l1 l2 l3 cr cr' v v' Hi Hv Hv' Hacc Hst Hd epoch) as He.
  rewrite Hc in He. cbn in He. fold i' a b in He.
  assert (a <> b) as Hab.
  { destruct (others_distinct genesis i l1 l2 l3 cr cr' v v' Hi Hv Hv' Hd) as [Hab _]. intros E. apply Hab.
    destruct (candidate v), (candidate v'). unfold a, b, seat_of in E. cbn in E. by injection E as -> ->. }
  split_and!; [by eapply exchanged_same_inputs | done | | |].
  - unfold CommitteeManagement.create_inherent. rewrite Hn, bool_decide_eq_false_2 by (by intros [? ?]).
    unfold CommitteeManagement.calculate_committee_from_inherent_data, CommitteeManagement.inherent_data_to_authority_selection_inputs.
    simpl_monad. fold epoch. by rewrite Hc.
  - unfold call, CommitteeManagement.check_inherent, CommitteeManagement.calculate_committee_from_inherent_data,
      CommitteeManagement.inherent_data_to_authority_selection_inputs. simpl_monad. rewrite Hc. simpl_monad.
    by rewrite bool_decide_eq_true_2.
  - unfold call, CommitteeManagement.check_inherent, CommitteeManagement.calculate_committee_from_inherent_data,
      CommitteeManagement.inherent_data_to_authority_selection_inputs. simpl_monad. rewrite He. simpl_monad.
    pose proof (exchange_map_fixed a b committee Hab) as Hf. case_bool_decide as E; split; try done.
    + symmetry in E. cbn in E. apply Hf in E. tauto.
    + intros _. destruct (decide (a ∈ committee)), (decide (b ∈ committee)); [tauto..|].
      exfalso. apply E. symmetry. by apply Hf.
Qed.

(** ** Two candidates and two orders *)
Module TwoOrders.
Import ConcreteAccounts.
Definition utxo0 := mkUtxoId (replicate 32 0) 0.
(** The stake pool [mc] registers the partner chain key [key] with the Aura key [aura]. *)
Definition registration (mc key aura block : Z) := mkRegistrationData utxo0 (replicate 64 key) (replicate 64 mc) []
  (replicate 33 key) [] (mkUtxoInfo utxo0 1 block 100 0) [utxo0] (replicate 32 aura) (replicate 32 2).
Definition pool (mc key aura stake : Z) :=
  mkCandidateRegistrations (replicate 32 mc) [registration mc key aura 1] (Some stake).
Definition inputs (candidates : list CandidateRegistrations) :=
  mkAuthoritySelectionInputs (mkDParameter 0 2) [] candidates [1; 2; 3].
Definition seat (key aura : Z) : bytes * (bytes * bytes) := (replicate 33 key, (replicate 32 aura, replicate 32 2)).
Definition valid_pool (key aura stake : Z) : CandidateWithStake (@TAccountId byte_accounts) (@TAccountKeys byte_accounts) :=
  mkCandidateWithStake (mkCandidate (fst (seat key aura)) (snd (seat key aura))) stake.
Definition state0 : CommitteeManagement.State bytes (bytes * bytes) :=
  CommitteeManagement.mkState (CommitteeManagement.mkCommitteeInfo 4 []) None Example2.scripts.

#[export] Instance byte_account_order : AccountOrder.
Proof. split; [apply bytes_leb_total | apply bytes_leb_trans | apply bytes_leb_antisymm]. Qed.
End TwoOrders.

Section Witnesses.
Import ConcreteAccounts Selection.Concrete Rfc8949 TwoOrders.

Lemma shared_account_splits_nodes_witness :
  let i := inputs [pool 8 6 1 10; pool 9 6 7 10] in
  let i' := inputs [pool 9 6 7 10; pool 8 6 1 10] in
  CommitteeManagement.check_inherent (select_authorities 3 utxo0) state0
    (CommitteeManagement.call_set [seat 6 1; seat 6 7] 5) (Ok (Some i')) = Done (Err InvalidValidators) /\
  select_authorities 3 utxo0 i' 5 = Done (Some [seat 6 7; seat 6 1]).
Proof.
  cbn zeta.
  destruct (shared_account_splits_nodes 3 utxo0 (inputs [pool 8 6 1 10; pool 9 6 7 10]) [] [] [] (pool 8 6 1 10) (pool 9 6 7 10)
    (valid_pool 6 1 10) (valid_pool 6 7 10) state0 [seat 6 1; seat 6 7])
    as (_ & Hs & _ & _ & Hr); try reflexivity; try (vm_compute; reflexivity).
  - vm_compute. repeat constructor; rewrite ?elem_of_cons, ?elem_of_nil; intuition discriminate.
  - split; [|exact Hs]. apply Hr. left. by left.
Defined.

Lemma nodes_agree_on_committee_witness :
  let pools := [pool 8 5 1 10; pool 9 6 7 30] in
  let pools' := [pool 9 6 7 30; pool 8 5 1 10] in
  exists call, CommitteeManagement.create_inherent (select_authorities 3 utxo0) state0
      (Ok (Some (inputs pools))) = Done (Some call) /\
    select_authorities 3 utxo0 (inputs pools) 9 = select_authorities 3 utxo0 (inputs pools') 9 /\
    CommitteeManagement.check_inherent (select_authorities 3 utxo0) state0 call
      (Ok (Some (inputs pools'))) = Done (Ok ()).
Proof.
  cbn zeta. exists (CommitteeManagement.call_set [seat 6 7; seat 6 7] 5). split; [vm_compute; reflexivity|].
  apply (nodes_agree_on_committee (id : @TAccountId byte_accounts -> @TAccountId byte_accounts) 3 utxo0 (inputs [pool 8 5 1 10; pool 9 6 7 30])
    (inputs [pool 9 6 7 30; pool 8 5 1 10]) 9 state0 state0).
  - split; try done. exists [pool 9 6 7 30; pool 8 5 1 10]. split; [apply Permutation_swap|]. repeat constructor.
  - repeat constructor; apply not_elem_of_nil.
  - vm_compute. repeat constructor; rewrite ?elem_of_cons, ?elem_of_nil; intuition discriminate.
  - apply begins_same.
  - vm_compute. reflexivity.
Defined.
End Witnesses.
