(* ===== verification/Session.v ===== *)
(** * Sessions

    The pallet [toolkit/pallets/partner-chains-session] and the session managers of
    [toolkit/primitives/session-manager] that feed it with the committee.

    [SessionManager] is the interface between them: the pallet's theorems are proved
    against it and the managers are its instances, over the state of the committee
    pallet. The session handler (Aura, Grandpa) and [frame_system] are third-party: the
    handler's calls are recorded in a trace, and the provider references of accounts are
    the class [System]. *)

From S2P Require Import Prelude Domain Ariadne Committee.

(** [trait SessionManager], on a state [M]. *)
Class SessionManager (ValidatorId Keys M : Type) := {
  new_session : Z -> M -> outcome (M * option (list (ValidatorId * Keys)));
  new_session_genesis : Z -> M -> outcome (M * option (list (ValidatorId * Keys)));
  end_session : Z -> M -> M;
  start_session : Z -> M -> M
}.
(** [trait ShouldEndSession]. *)
Class ShouldEndSession (M : Type) := should_end_session : Z -> M -> bool.

(** [impl SessionManager for ()]. *)
#[export] Instance unit_session_manager {V K} : SessionManager V K () := {|
  new_session _ m := Done (m, None);
  new_session_genesis _ m := Done (m, None);
  end_session _ m := m;
  start_session _ m := m
|}.

(** Provider references of [frame_system]; [None] is the error of [dec_providers]. *)
Class System (AccountId : Type) := {
  Sys : Type;
  inc_providers : AccountId -> Sys -> Sys;
  dec_providers : AccountId -> Sys -> option Sys
}.

(** [slice::binary_search] of a sorted vector: the position of the element or, as an
    error, the position where it belongs. *)
Fixpoint binary_search (l : list Z) (x : Z) : result nat nat :=
  match l with
  | [] => Err 0%nat
  | y :: l' => if x <? y then Err 0%nat else if x =? y then Ok 0%nat
               else match binary_search l' x with Ok i => Ok (S i) | Err i => Err (S i) end
  end.

Module SessionPallet.
Section Pallet.
Context {ValidatorId Keys AccountId M : Type}.
Context `{EqDecision ValidatorId, EqDecision AccountId, System AccountId, SessionManager ValidatorId Keys M}.
Context `{ShouldEndSession M}.
(** [cfg(feature = "polkadot-js-compat")], [Into<AccountId>], [Ord for AccountId]. *)
Context (polkadot_js_compat : bool) (into_account : ValidatorId -> AccountId).
Context (account_leb : AccountId -> AccountId -> bool).

Definition SessionIndex : Type := Z.

(** Calls to the session handler. *)
Inductive HandlerCall :=
| on_genesis_session (validators : list (ValidatorId * Keys))
| on_new_session (changed : bool) (validators queued_validators : list (ValidatorId * Keys))
| on_before_session_ending
| on_disabled (validator_index : Z).

Record State := mkState {
  Validators : list ValidatorId;
  ValidatorsAndKeys : list (ValidatorId * Keys);
  CurrentIndex : SessionIndex;
  DisabledValidators : list Z;
  system : Sys;
  manager : M;
  handled : list HandlerCall;     (* the handler's calls, in order *)
  events : list SessionIndex      (* [Event::NewSession], in order *)
}.

Definition acc_ids (validators : list (ValidatorId * Keys)) : list AccountId :=
  map (fun v => into_account (fst v)) validators.

(** A [BTreeSet]: its elements in order, without duplicates. *)
Definition btree_set (ids : list AccountId) : list AccountId := remove_dups (sort_by account_leb ids).
Definition difference (a b : list AccountId) : list AccountId := filter (fun x => x ∉ b) a.

Fixpoint inc_all (ids : list AccountId) (s : Sys) : Sys :=
  match ids with [] => s | a :: ids' => inc_all ids' (inc_providers a s) end.
Fixpoint dec_all (ids : list AccountId) (s : Sys) : outcome Sys :=
  match ids with [] => Done s | a :: ids' => s ← expect (dec_providers a s); dec_all ids' s end.

Definition change_account_providers (new_ids old_ids : list AccountId) (s : Sys) : outcome Sys :=
  let new_ids := btree_set new_ids in
  let old_ids := btree_set old_ids in
  let to_inc := difference new_ids old_ids in
  let to_dec := difference old_ids new_ids in
  dec_all to_dec (inc_all to_inc s).

Definition rotate_validators (new_validators : list (ValidatorId * Keys)) (st : State) : outcome State :=
  (* [ValidatorsAndKeys] is put first and read again below *)
  let validators_and_keys := new_validators in
  let validators := if polkadot_js_compat then map fst new_validators else Validators st in
  sys ← change_account_providers (acc_ids new_validators) (acc_ids validators_and_keys) (system st);
  Done (mkState validators validators_and_keys (CurrentIndex st) [] sys (manager st) (handled st) (events st)).

Definition rotate_session (st : State) : outcome State :=
  let session_index := CurrentIndex st in
  let handled1 := handled st ++ [on_before_session_ending] in
  let m := end_session session_index (manager st) in
  let session_index := session_index +[32] 1 in
  '(m, new_validators) ← new_session session_index m;
  let st1 := mkState (Validators st) (ValidatorsAndKeys st) session_index (DisabledValidators st)
               (system st) m handled1 (events st) in
  '(st2, validators, changed) ← match new_validators with
    | Some validators => st2 ← rotate_validators validators st1; Done (st2, validators, true)
    | None => Done (st1, ValidatorsAndKeys st1, false)
    end;
  Done (mkState (Validators st2) (ValidatorsAndKeys st2) (CurrentIndex st2) (DisabledValidators st2) (system st2)
          (start_session session_index (manager st2))
          (handled st2 ++ [on_new_session changed validators []]) (events st2 ++ [session_index])).

Definition on_initialize (n : Z) (st : State) : outcome State :=
  if should_end_session n (manager st) then rotate_session st else Done st.

Definition build (initial_validators : list (ValidatorId * Keys)) (handler_key_ids keys_key_ids : list Z)
    (m : M) (sys : Sys) : outcome State :=
  if negb (bool_decide (handler_key_ids = keys_key_ids)) then Panic
  else
    '(m, maybe_genesis_validators) ← new_session_genesis 0 m;
    let initial_validators := default initial_validators maybe_genesis_validators in
    st ← rotate_validators initial_validators (mkState [] [] 0 [] sys m [] []);
    Done (mkState (Validators st) (ValidatorsAndKeys st) (CurrentIndex st) (DisabledValidators st) (system st)
            (start_session 0 (manager st)) (handled st ++ [on_genesis_session initial_validators]) (events st)).

Definition disable_index (i : Z) (st : State) : State * bool :=
  if Z.of_nat (length (Validators st)) <=? i then (st, false)
  else match binary_search (DisabledValidators st) i with
       | Err index =>
           (mkState (Validators st) (ValidatorsAndKeys st) (CurrentIndex st)
              (take index (DisabledValidators st) ++ i :: drop index (DisabledValidators st))
              (system st) (manager st) (handled st ++ [on_disabled i]) (events st), true)
       | Ok _ => (st, false)
       end.

Fixpoint position (c : ValidatorId) (l : list (ValidatorId * Keys)) : option nat :=
  match l with
  | [] => None
  | (v, _) :: l' => if decide (v = c) then Some 0%nat else option_map S (position c l')
  end.
Definition disable (c : ValidatorId) (st : State) : State * bool :=
  match position c (ValidatorsAndKeys st) with
  | Some i => disable_index (Z.of_nat i) st
  | None => (st, false)
  end.

Definition is_registered (id : ValidatorId) (st : State) : bool :=
  existsb (fun v => bool_decide (fst v = id)) (ValidatorsAndKeys st).
Definition is_disabled (index : Z) (st : State) : bool :=
  match binary_search (DisabledValidators st) index with Ok _ => true | Err _ => false end.
End Pallet.
Arguments State ValidatorId Keys {AccountId} M {_}.
Arguments HandlerCall : clear implicits.
End SessionPallet.

(** ** The session managers *)
Module Managers.
Section Managers.
Context {AuthorityId AuthorityKeys AccountId : Type} `{BoundedVecOps}.
Context (MaxValidators : nat) (into_account : AuthorityId -> AccountId).

(** What the managers see: the committee pallet, [pallet_session]'s index, and the epoch
    that [T::current_epoch_number()] returns in the block being executed. *)
Record ManagerState := mkManagerState {
  committee_pallet : CommitteeManagement.State AuthorityId AuthorityKeys;
  pallet_session_CurrentIndex : Z;
  current_epoch : ScEpochNumber
}.

(** [ValidatorManagementSessionManager]. *)
Definition vm_new_session_genesis (new_index : Z) (m : ManagerState)
    : outcome (ManagerState * option (list (AccountId * AuthorityKeys))) :=
  Done (m, Some (map (fun a => (into_account (fst a), snd a))
    (CommitteeManagement.committee (CommitteeManagement.CurrentCommittee (committee_pallet m))))).
Definition vm_new_session (new_index : Z) (m : ManagerState)
    : outcome (ManagerState * option (list (AccountId * AuthorityKeys))) :=
  let '(committee_pallet, validators) :=
    CommitteeManagement.rotate_committee_to_next_epoch into_account (committee_pallet m) in
  validators ← expect validators;
  Done (mkManagerState committee_pallet new_index (current_epoch m), Some validators).
Definition vm_should_end_session (n : Z) (m : ManagerState) : bool :=
  (CommitteeManagement.epoch (CommitteeManagement.CurrentCommittee (committee_pallet m)) <? current_epoch m) &&
  bool_decide (is_Some (CommitteeManagement.next_committee MaxValidators (committee_pallet m))).

#[export] Instance ValidatorManagementSessionManager : SessionManager AccountId AuthorityKeys ManagerState := {|
  new_session := vm_new_session;
  new_session_genesis := vm_new_session_genesis;
  end_session _ m := m;
  start_session _ m := m
|}.
#[export] Instance ValidatorManagementShouldEndSession : ShouldEndSession ManagerState := vm_should_end_session.

(** [PalletSessionSupport], the same for Substrate's own [pallet_session]. *)
Definition ps_new_session_genesis (new_index : Z) (m : ManagerState)
    : outcome (ManagerState * option (list AccountId)) :=
  Done (m, Some (map (fun a => into_account (fst a))
    (CommitteeManagement.committee (CommitteeManagement.CurrentCommittee (committee_pallet m))))).
Definition ps_new_session (new_index : Z) (m : ManagerState) : outcome (ManagerState * option (list AccountId)) :=
  let '(committee_pallet, validators) :=
    CommitteeManagement.rotate_committee_to_next_epoch into_account (committee_pallet m) in
  validators ← expect validators;
  Done (mkManagerState committee_pallet new_index (current_epoch m), Some (map fst validators)).
Definition ps_should_end_session (n : Z) (m : ManagerState) : bool :=
  let current_committee_epoch := CommitteeManagement.epoch (CommitteeManagement.CurrentCommittee (committee_pallet m)) in
  let next_committee_is_defined :=
    bool_decide (is_Some (CommitteeManagement.next_committee MaxValidators (committee_pallet m))) in
  if current_committee_epoch <? current_epoch m then
    if next_committee_is_defined then true else false
  else false.
End Managers.
Arguments ManagerState : clear implicits.
End Managers.

(** ** Properties of the pallet *)

Section BinarySearch.
Lemma binary_search_Ok l x i :
  StronglySorted Z.lt l -> (binary_search l x = Ok i <-> l !! i = Some x).
Proof.
  intros Hs. revert i; induction Hs as [|y l Hs IH Hall]; intros i; [done|].
  cbn [binary_search]. destruct (Z.ltb_spec x y), (Z.eqb_spec x y); try lia.
  - split; [done|]. destruct i as [|i]; [intros [= ->]; lia|]. cbn. intros Hx%list_elem_of_lookup_2.
    rewrite Forall_forall in Hall. specialize (Hall _ Hx). lia.
  - subst. split; [intros [= <-]; done|]. destruct i as [|i]; [done|]. cbn. intros Hx%list_elem_of_lookup_2.
    rewrite Forall_forall in Hall. specialize (Hall _ Hx). lia.
  - destruct i as [|i]; cbn.
    + split; [by destruct (binary_search l x) | intros [= ->]; lia].
    + rewrite <- IH. destruct (binary_search l x); split; congruence.
Qed.

Lemma binary_search_Err l x i :
  StronglySorted Z.lt l -> binary_search l x = Err i ->
  (i <= length l)%nat /\ (x ∉ l) /\ Forall (fun y => y < x) (take i l) /\ Forall (fun y => x < y) (drop i l).
Proof.
  intros Hs. revert i; induction Hs as [|y l Hs IH Hall]; intros i; cbn [binary_search].
  { intros [= <-]. cbn. split_and!; [lia | apply not_elem_of_nil | constructor | constructor]. }
  destruct (Z.ltb_spec x y), (Z.eqb_spec x y); try lia; [|done|].
  - intros [= <-]. assert (Forall (fun z => x < z) l) as Hx by (eapply Forall_impl; [exact Hall|]; cbn; lia).
    cbn. split_and!; [lia | | constructor | by constructor].
    rewrite not_elem_of_cons. split; [lia|]. intros Hin. rewrite Forall_forall in Hx. specialize (Hx _ Hin). lia.
  - destruct (binary_search l x) as [|j]; [done|]. intros [= <-].
    destruct (IH j eq_refl) as (? & ? & ? & ?). cbn. split_and!; [lia | | | done].
    + by rewrite not_elem_of_cons.
    + constructor; [lia | done].
Qed.

Lemma insert_sorted l x i :
  StronglySorted Z.lt l -> Forall (fun y => y < x) (take i l) -> Forall (fun y => x < y) (drop i l) ->
  StronglySorted Z.lt (take i l ++ x :: drop i l).
Proof.
  revert l; induction i as [|i IH]; intros l Hs Hlo Hhi.
  - rewrite take_0, drop_0 in *. cbn. by constructor.
  - destruct l as [|y l]; [cbn; by repeat constructor|]. cbn in *.
    inversion Hs as [|? ? Hs' Hall]; subst. inversion Hlo; subst.
    constructor; [by apply IH|]. rewrite Forall_app, Forall_cons. split_and!; [|done|].
    + by apply Forall_take.
    + by apply Forall_drop.
Qed.
End BinarySearch.

Section PalletProps.
Import SessionPallet.
Context {ValidatorId Keys AccountId M : Type}.
Context `{EqDecision ValidatorId, EqDecision AccountId, System AccountId, SessionManager ValidatorId Keys M}.
Context `{ShouldEndSession M}.
Context (polkadot_js_compat : bool) (into_account : ValidatorId -> AccountId).
Context (account_leb : AccountId -> AccountId -> bool).

Implicit Types st : State ValidatorId Keys M.

Lemma difference_self ids : difference ids ids = ([] : list AccountId).
Proof.
  unfold difference. assert (forall l, l ⊆ ids -> filter (fun x => x ∉ ids) l = []) as Hf; [|by apply Hf].
  induction l as [|x l IH]; intros Hl; [done|].
  rewrite filter_cons, decide_False by (intros Hx; apply Hx, Hl; left).
  apply IH. intros y Hy. apply Hl. by right.
Qed.

(** The "old" accounts are read after the new ones were written. *)
Lemma rotate_validators_done new_validators st :
  rotate_validators polkadot_js_compat into_account account_leb new_validators st =
    Done (mkState (if polkadot_js_compat then map fst new_validators else Validators st) new_validators
            (CurrentIndex st) [] (system st) (manager st) (handled st) (events st)).
Proof. unfold rotate_validators, change_account_providers. by rewrite !difference_self. Qed.

(** States of a running chain. *)
Inductive reachable (initial : list (ValidatorId * Keys)) (ids : list Z) (m : M) (sys : Sys)
    : State ValidatorId Keys M -> Prop :=
| reachable_genesis st :
    build polkadot_js_compat into_account account_leb initial ids ids m sys = Done st ->
    reachable initial ids m sys st
| reachable_block st n st' :
    reachable initial ids m sys st ->
    on_initialize polkadot_js_compat into_account account_leb n st = Done st' -> reachable initial ids m sys st'
| reachable_disable st c :
    reachable initial ids m sys st -> reachable initial ids m sys (fst (disable c st))
| reachable_manager st m' :  (* other pallets change the manager's state *)
    reachable initial ids m sys st ->
    reachable initial ids m sys (mkState (Validators st) (ValidatorsAndKeys st) (CurrentIndex st)
      (DisabledValidators st) (system st) m' (handled st) (events st)).

(** Disabled indices are sorted, distinct and in range. *)
Definition disabled_inv (st : State ValidatorId Keys M) : Prop :=
  StronglySorted Z.lt (DisabledValidators st) /\
  Forall (fun i => 0 <= i < Z.of_nat (length (Validators st))) (DisabledValidators st).

Lemma elem_of_is_disabled j (st : State ValidatorId Keys M) :
  disabled_inv st -> (is_disabled j st = true <-> j ∈ DisabledValidators st).
Proof.
  intros [Hs _]. unfold is_disabled. destruct (binary_search (DisabledValidators st) j) as [i|i] eqn:Hb.
  - apply binary_search_Ok in Hb; [|done]. split; [|done]. intros _. by eapply list_elem_of_lookup_2.
  - apply binary_search_Err in Hb as (_ & Hn & _); [|done]. by split.
Qed.

Lemma disable_index_spec i st st' b :
  disabled_inv st -> 0 <= i -> disable_index i st = (st', b) ->
  disabled_inv st' /\ (b = true <-> i < Z.of_nat (length (Validators st)) /\ is_disabled i st = false) /\
  (forall j, is_disabled j st' = is_disabled j st || (b && (j =? i))) /\
  handled st' = handled st ++ (if b then [on_disabled i] else []) /\ Validators st' = Validators st /\
  system st' = system st.
Proof.
  intros Hinv Hi. pose proof Hinv as [Hs Hr]. unfold disable_index.
  destruct (Z.leb_spec (Z.of_nat (length (Validators st))) i) as [Hle|Hlt].
  { intros [= <- <-]. split; [done|]. split; [split; [done | lia]|].
    split; [intros j; by rewrite orb_false_r|]. by rewrite app_nil_r. }
  destruct (binary_search (DisabledValidators st) i) as [k|k] eqn:Hb; intros [= <- <-].
  { split; [done|]. split; [|split; [intros j; by rewrite orb_false_r | by rewrite app_nil_r]].
    split; [done|]. unfold is_disabled. rewrite Hb. by intros [_ ?]. }
  apply binary_search_Err in Hb as (Hk & Hn & Hlo & Hhi); [|done].
  assert (disabled_inv (mkState (Validators st) (ValidatorsAndKeys st) (CurrentIndex st)
    (take k (DisabledValidators st) ++ i :: drop k (DisabledValidators st)) (system st) (manager st)
    (handled st ++ [on_disabled i]) (events st))) as Hinv'.
  { split; cbn; [by apply insert_sorted|]. rewrite Forall_app, Forall_cons.
    split; [by apply Forall_take | split; [lia | by apply Forall_drop]]. }
  split; [done|]. split; [|split; [|done]].
  - split; [intros _|done]. split; [done|]. apply not_true_is_false. by rewrite elem_of_is_disabled.
  - intros j. apply eq_bool_prop_intro. rewrite !Is_true_true, orb_true_iff.
    rewrite !elem_of_is_disabled by done. cbn. rewrite elem_of_app, elem_of_cons, Z.eqb_eq.
    rewrite <- (take_drop k (DisabledValidators st)) at 3. rewrite elem_of_app. tauto.
Qed.

(** What the blocks keep: the system's provider references, and, without
    [polkadot-js-compat], an empty [Validators]. *)
Lemma reachable_keeps initial ids m sys st :
  reachable initial ids m sys st ->
  system st = sys /\ disabled_inv st /\ (polkadot_js_compat = false -> Validators st = []).
Proof.
  induction 1 as [st Hb|st n st' _ (IH1 & IH2 & IH3) Hb|st c _ (IH1 & IH2 & IH3)|st m' _ (IH1 & IH2 & IH3)].
  - unfold build in Hb. rewrite bool_decide_eq_true_2 in Hb by done. cbn [negb] in Hb.
    destruct (new_session_genesis 0 m) as [[m1 v]|]; simpl_monad; [|done].
    cbn in Hb. rewrite rotate_validators_done in Hb. cbn in Hb. injection Hb as <-. cbn.
    split; [done|]. split; [by repeat constructor|]. by intros ->.
  - unfold on_initialize, rotate_session in Hb. destruct (should_end_session n (manager st)); [|by injection Hb as <-].
    destruct (new_session _ _) as [[m1 [v|]]|]; cbn in Hb; [| |done].
    + rewrite rotate_validators_done in Hb. cbn in Hb. injection Hb as <-. cbn.
      split; [done|]. split; [by repeat constructor|]. intros ->. by apply IH3.
    + injection Hb as <-. cbn. done.
  - unfold disable. destruct (position c (ValidatorsAndKeys st)) as [i|]; [|done].
    destruct (disable_index (Z.of_nat i) st) as [st' b] eqn:Hd.
    apply disable_index_spec in Hd as (? & _ & _ & _ & Hv & Hsys); [|done|lia].
    cbn. rewrite Hv, Hsys. done.
  - done.
Qed.
End PalletProps.

(** Disabling a validator, in every state a chain can reach: [disable_index] answers
    [true] exactly when the index is in range and not disabled yet, then that index and no
    other becomes disabled and the handler is told once; otherwise nothing changes. The
    vector stays sorted, so that [is_disabled]'s binary search is right. *)
Theorem disable_index_correct {ValidatorId Keys AccountId M : Type}
    `{EqDecision ValidatorId, EqDecision AccountId, System AccountId, SessionManager ValidatorId Keys M,
      ShouldEndSession M} compat (into_account : ValidatorId -> AccountId) account_leb initial ids m sys st i st' b :
  reachable compat into_account account_leb initial ids m sys st -> 0 <= i ->
  SessionPallet.disable_index i st = (st', b) ->
  StronglySorted Z.lt (SessionPallet.DisabledValidators st') /\
  (b = true <-> i < Z.of_nat (length (SessionPallet.Validators st)) /\ SessionPallet.is_disabled i st = false) /\
  (forall j, SessionPallet.is_disabled j st' = SessionPallet.is_disabled j st || (b && (j =? i))) /\
  SessionPallet.handled st' = SessionPallet.handled st ++ (if b then [SessionPallet.on_disabled i] else []).
Proof.
  intros (_ & Hinv & _)%reachable_keeps Hi Hd.
  destruct (disable_index_spec i st st' b Hinv Hi Hd) as ([Hs _] & Hb & Hj & Hh & _). done.
Qed.

(** Without the feature [polkadot-js-compat], [Validators] is never written while
    [disable_index] takes the number of validators from it: on such a chain (the runtime
    of this node among them) disabling a validator never has any effect. *)
Theorem disable_is_dead_without_compat {ValidatorId Keys AccountId M : Type}
    `{EqDecision ValidatorId, EqDecision AccountId, System AccountId, SessionManager ValidatorId Keys M,
      ShouldEndSession M} (into_account : ValidatorId -> AccountId) account_leb initial ids m sys st c :
  reachable false into_account account_leb initial ids m sys st ->
  SessionPallet.disable c st = (st, false) /\ SessionPallet.DisabledValidators st = [].
Proof.
  intros (_ & [_ Hr] & Hv)%reachable_keeps. specialize (Hv eq_refl). split.
  - unfold SessionPallet.disable. destruct (SessionPallet.position c _) as [i|]; [|done].
    unfold SessionPallet.disable_index. rewrite Hv. cbn [length]. by rewrite (proj2 (Z.leb_le _ _)) by lia.
  - destruct (SessionPallet.DisabledValidators st) as [|i l]; [done|]. rewrite Hv in Hr.
    inversion Hr as [|? ? Hi]; subst. cbn in Hi. lia.
Qed.

(** [rotate_validators] overwrites [ValidatorsAndKeys] before it reads the outgoing
    validators from it, so it compares the new set with itself: no provider reference is
    ever taken for a new validator or given back for an old one. *)
Theorem providers_never_change {ValidatorId Keys AccountId M : Type}
    `{EqDecision ValidatorId, EqDecision AccountId, System AccountId, SessionManager ValidatorId Keys M,
      ShouldEndSession M} compat (into_account : ValidatorId -> AccountId) account_leb initial ids m sys st :
  reachable compat into_account account_leb initial ids m sys st -> SessionPallet.system st = sys.
Proof. by intros (Hs & _ & _)%reachable_keeps. Qed.

(** ** Rotation with the committee pallet *)

Section Rotation.
Import SessionPallet Managers.
Context {AuthorityId AuthorityKeys AccountId : Type} `{BoundedVecOps, EqDecision AccountId, System AccountId}.
Context (MaxValidators : nat) (into : AuthorityId -> AccountId) (compat : bool).
Context (account_leb : AccountId -> AccountId -> bool).
#[local] Existing Instance ValidatorManagementSessionManager.

(** The pallet's block hook, wired with [ValidatorManagementSessionManager]. *)
Definition session_on_initialize (n : Z) (st : State AccountId AuthorityKeys (ManagerState AuthorityId AuthorityKeys))
    : outcome (State AccountId AuthorityKeys (ManagerState AuthorityId AuthorityKeys)) :=
  @on_initialize AccountId AuthorityKeys AccountId (ManagerState AuthorityId AuthorityKeys) _ _
    (ValidatorManagementSessionManager into) (ValidatorManagementShouldEndSession MaxValidators)
    compat id account_leb n st.

Lemma session_on_initialize_spec n st :
  let committee := committee_pallet (manager st) in
  session_on_initialize n st = Done (
    match CommitteeManagement.NextCommittee committee with
    | Some next =>
        if CommitteeManagement.epoch (CommitteeManagement.CurrentCommittee committee) <? current_epoch (manager st) then
          let validators := map (fun a => (into (fst a), snd a)) (CommitteeManagement.committee next) in
          let index := CurrentIndex st +[32] 1 in
          mkState (if compat then map fst validators else Validators st) validators index [] (system st)
            (mkManagerState (CommitteeManagement.mkState next None
               (CommitteeManagement.MainChainScriptsConfiguration committee)) index (current_epoch (manager st)))
            ((handled st ++ [on_before_session_ending]) ++ [on_new_session true validators []]) (events st ++ [index])
        else st
    | None => st
    end).
Proof.
  cbn zeta. unfold session_on_initialize, on_initialize.
  unfold should_end_session, ValidatorManagementShouldEndSession, vm_should_end_session,
    CommitteeManagement.next_committee.
  destruct (CommitteeManagement.NextCommittee (committee_pallet (manager st))) as [next|] eqn:Hn; cbn [option_map].
  - rewrite (bool_decide_eq_true_2 (is_Some (Some _))) by (by eexists). rewrite andb_true_r.
    destruct (_ <? current_epoch (manager st)); [|done].
    unfold rotate_session. cbn [end_session new_session start_session ValidatorManagementSessionManager].
    unfold vm_new_session, CommitteeManagement.rotate_committee_to_next_epoch. rewrite Hn. simpl_monad.
    by rewrite rotate_validators_done.
  - rewrite bool_decide_eq_false_2 by (by intros [? ?]). by rewrite andb_false_r.
Qed.

(** The same in terms of the committee pallet's rotation. *)
Lemma session_on_initialize_committee n st :
  let c := committee_pallet (manager st) in
  let rotates := (CommitteeManagement.epoch (CommitteeManagement.CurrentCommittee c) <? current_epoch (manager st)) &&
                 bool_decide (is_Some (CommitteeManagement.NextCommittee c)) in
  exists st', session_on_initialize n st = Done st' /\
    committee_pallet (manager st') =
      (if rotates then fst (CommitteeManagement.rotate_committee_to_next_epoch into c) else c) /\
    ValidatorsAndKeys st' =
      (if rotates then map (fun a => (into (fst a), snd a))
         (CommitteeManagement.committee (CommitteeManagement.CurrentCommittee (committee_pallet (manager st'))))
       else ValidatorsAndKeys st).
Proof.
  cbn zeta. rewrite session_on_initialize_spec. eexists. split; [reflexivity|].
  unfold CommitteeManagement.rotate_committee_to_next_epoch.
  destruct (CommitteeManagement.NextCommittee (committee_pallet (manager st))) as [next|].
  - rewrite bool_decide_eq_true_2 by (by eexists). rewrite andb_true_r. by destruct (_ <? _).
  - rewrite bool_decide_eq_false_2 by (by intros [? ?]). by rewrite andb_false_r.
Qed.
End Rotation.

(** The block hook of the session pallet over the committee pallet. It never panics
    ("Session should never end without current epoch validators defined" is
    unreachable); the session ends exactly when the partner chain epoch has passed the
    current committee's and the next committee is known, and then that committee becomes
    the current one, its accounts the validators, the next committee is unset, the session
    index grows by one (in both pallets), the disabled validators are cleared and the
    handler is called before and after. Otherwise nothing changes. *)
Theorem session_handover {AuthorityId AuthorityKeys AccountId : Type}
    `{BoundedVecOps, EqDecision AccountId, System AccountId} MaxValidators (into : AuthorityId -> AccountId) compat
    account_leb n (st : SessionPallet.State AccountId AuthorityKeys (Managers.ManagerState AuthorityId AuthorityKeys)) :
  let m := SessionPallet.manager st in
  let c := Managers.committee_pallet m in
  exists st', session_on_initialize MaxValidators into compat account_leb n st = Done st' /\
    let m' := SessionPallet.manager st' in
    let c' := Managers.committee_pallet m' in
    match CommitteeManagement.NextCommittee c with
    | Some next =>
        if CommitteeManagement.epoch (CommitteeManagement.CurrentCommittee c) <? Managers.current_epoch m then
          CommitteeManagement.CurrentCommittee c' = next /\ CommitteeManagement.NextCommittee c' = None /\
          SessionPallet.ValidatorsAndKeys st' =
            map (fun a => (into (fst a), snd a)) (CommitteeManagement.committee next) /\
          SessionPallet.CurrentIndex st' = SessionPallet.CurrentIndex st +[32] 1 /\
          Managers.pallet_session_CurrentIndex m' = SessionPallet.CurrentIndex st' /\
          SessionPallet.DisabledValidators st' = [] /\
          SessionPallet.handled st' = SessionPallet.handled st ++
            [SessionPallet.on_before_session_ending;
             SessionPallet.on_new_session true (SessionPallet.ValidatorsAndKeys st') []]
        else st' = st
    | None => st' = st
    end.
Proof.
  cbn zeta. rewrite session_on_initialize_spec. eexists. split; [reflexivity|].
  destruct (CommitteeManagement.NextCommittee _) as [next|]; [|done].
  destruct (_ <? _); [|done]. cbn. by rewrite <- app_assoc.
Qed.

(** [PalletSessionSupport] and [ValidatorManagementSessionManager] drive their session
    pallets alike: they end sessions at the same blocks, change the committee pallet and
    the session index in the same way, panic on the same states, and hand over the same
    accounts in the same order (the former without the keys). *)
Theorem session_managers_agree {AuthorityId AuthorityKeys AccountId : Type} `{BoundedVecOps}
    MaxValidators (into : AuthorityId -> AccountId) n (m : Managers.ManagerState AuthorityId AuthorityKeys) :
  Managers.ps_should_end_session MaxValidators n m = Managers.vm_should_end_session MaxValidators n m /\
  Managers.ps_new_session into n m =
    ('(m', v) ← Managers.vm_new_session into n m; Done (m', option_map (map fst) v)) /\
  Managers.ps_new_session_genesis into n m =
    ('(m', v) ← Managers.vm_new_session_genesis into n m; Done (m', option_map (map fst) v)).
Proof.
  split; [|split].
  - unfold Managers.ps_should_end_session, Managers.vm_should_end_session.
    by destruct (_ <? _), (bool_decide _).
  - unfold Managers.ps_new_session, Managers.vm_new_session.
    destruct (CommitteeManagement.rotate_committee_to_next_epoch _ _) as [c [v|]]; done.
  - unfold Managers.ps_new_session_genesis, Managers.vm_new_session_genesis. cbn. by rewrite map_map.
Qed.

(** ** Witnesses *)
Module ConcreteSystem.
(** Provider references as the list of accounts that hold one. *)
#[export] Instance reference_list : System Z := {|
  Sys := list Z;
  inc_providers a s := a :: s;
  dec_providers a s := if bool_decide (a ∈ s) then Some (list_difference s [a]) else None
|}.
#[export] Instance never_end : ShouldEndSession () := fun _ _ => false.
Definition no_refs : @Sys Z reference_list := [].
Definition built (compat : bool) : SessionPallet.State Z Z () :=
  SessionPallet.mkState (if compat then [7; 8] else []) [(7, 70); (8, 80)] 0 [] no_refs tt
    [SessionPallet.on_genesis_session [(7, 70); (8, 80)]] [].
Lemma built_reachable compat : reachable compat id Z.leb [(7, 70); (8, 80)] [1; 2] tt no_refs (built compat).
Proof. apply reachable_genesis. by destruct compat. Qed.
End ConcreteSystem.

Section Witnesses.
Import ConcreteSystem.
#[local] Definition disabled8 := fst (SessionPallet.disable_index 1 (built true)).

Lemma disable_index_correct_witness :
  StronglySorted Z.lt (SessionPallet.DisabledValidators disabled8) /\
  (true = true <-> 1 < Z.of_nat (length (SessionPallet.Validators (built true))) /\
                   SessionPallet.is_disabled 1 (built true) = false) /\
  (forall j, SessionPallet.is_disabled j disabled8 = SessionPallet.is_disabled j (built true) || (true && (j =? 1))) /\
  SessionPallet.handled disabled8 = SessionPallet.handled (built true) ++ [SessionPallet.on_disabled 1].
Proof.
  apply (disable_index_correct true id Z.leb [(7, 70); (8, 80)] [1; 2] tt no_refs (built true) 1 disabled8 true);
    [apply built_reachable | lia | reflexivity].
Defined.

Lemma disable_is_dead_without_compat_witness :
  SessionPallet.disable 8 (built false) = (built false, false) /\
  SessionPallet.DisabledValidators (built false) = [].
Proof.
  apply (disable_is_dead_without_compat id Z.leb [(7, 70); (8, 80)] [1; 2] tt no_refs), built_reachable.
Defined.

Lemma providers_never_change_witness : SessionPallet.system (built true) = no_refs.
Proof.
  apply (providers_never_change true id Z.leb [(7, 70); (8, 80)] [1; 2] tt), built_reachable.
Defined.
End Witnesses.
