(* ===== verification/NativeToken.v ===== *)
(** * Native token movement

    The pallet [toolkit/pallets/native-token-management], which hands tokens locked on the
    main chain to the partner chain's handler, and the inherent data provider of
    [toolkit/primitives/native-token-management], which finds out how many were locked
    since the parent block. The user's [TokenTransferHandler] is a parameter; the data
    source is the class [NativeTokenDataSource]. *)

From S2P Require Import Prelude Domain Committee.

Module NativeToken.
Record MainChainScripts := mkMainChainScripts {
  native_token_policy_id : PolicyId;
  native_token_asset_name : AssetName;
  illiquid_supply_validator_address : MainchainAddress
}.
#[export] Instance MainChainScripts_eq_dec : EqDecision MainChainScripts.
Proof. solve_decision. Defined.

Record TokenTransferData := mkTokenTransferData { token_amount : NativeTokenAmount }.
Inductive InherentError :=
| TokenTransferNotHandled (n : NativeTokenAmount)
| IncorrectTokenNumberTransfered (expected actual : NativeTokenAmount)
| UnexpectedTokenTransferInherent (n : NativeTokenAmount).

(** ** The pallet *)
Section Pallet.
(** [H] is the state the handler changes. *)
Context {H : Type} (handle_token_transfer : NativeTokenAmount -> H -> result DispatchError H).

Record State := mkState {
  MainChainScriptsConfiguration : option MainChainScripts;
  Initialized : bool;
  handler_state : H
}.
Definition build (main_chain_scripts : MainChainScripts) (h : H) : State :=
  mkState (Some main_chain_scripts) false h.

Inductive Call :=
| transfer_tokens_call (token_amount : NativeTokenAmount)
| set_main_chain_scripts_call (scripts : MainChainScripts).

(** [data.get_data(&INHERENT_IDENTIFIER)]. *)
Definition InherentData : Type := result string (option TokenTransferData).
Definition get_transfered_tokens_from_inherent_data (data : InherentData) : outcome (option TokenTransferData) :=
  expect (ok data).

Definition positive (d : option TokenTransferData) : option TokenTransferData :=
  match d with Some d => if 0 <? token_amount d then Some d else None | None => None end.

Definition create_inherent (data : InherentData) : outcome (option Call) :=
  d ← get_transfered_tokens_from_inherent_data data;
  Done (option_map (fun d => transfer_tokens_call (token_amount d)) (positive d)).
Definition check_inherent (call : Call) (data : InherentData) : outcome (result InherentError ()) :=
  match call with
  | transfer_tokens_call actual_transfer =>
      d ← get_transfered_tokens_from_inherent_data data;
      match d with
      | None => Done (Err (UnexpectedTokenTransferInherent actual_transfer))
      | Some d => if token_amount d =? actual_transfer then Done (Ok ())
                  else Done (Err (IncorrectTokenNumberTransfered (token_amount d) actual_transfer))
      end
  | _ => Done (Ok ())
  end.
Definition is_inherent (call : Call) : bool := match call with transfer_tokens_call _ => true | _ => false end.
Definition is_inherent_required (data : InherentData) : outcome (option InherentError) :=
  d ← get_transfered_tokens_from_inherent_data data;
  Done (option_map (fun d => TokenTransferNotHandled (token_amount d)) (positive d)).

(** A dispatch that fails is rolled back by FRAME: the error carries no state. *)
Definition transfer_tokens (st : State) (origin : Origin) (token_amount : NativeTokenAmount)
    : fallible DispatchError State :=
  _ ←? lift (ensure_none origin);
  if bool_decide (is_Some (MainChainScriptsConfiguration st)) then
    h ←? lift (handle_token_transfer token_amount (handler_state st));
    Done (Ok (mkState (MainChainScriptsConfiguration st) true h))
  else Panic.
Definition set_main_chain_scripts (st : State) (origin : Origin) (new_scripts : MainChainScripts)
    : result DispatchError State :=
  _ ← ensure_root origin; Ok (mkState (Some new_scripts) (Initialized st) (handler_state st)).
Definition get_main_chain_scripts (st : State) : option MainChainScripts := MainChainScriptsConfiguration st.
Definition initialized (st : State) : bool := Initialized st.
End Pallet.
Arguments State : clear implicits.

(** ** The inherent data provider *)

(** [Source] is the state of the data source: the main chain it follows and its cache. *)
Class NativeTokenDataSource (Source : Type) := get_total_native_token_transfer :
  option McBlockHash -> McBlockHash -> PolicyId -> AssetName -> MainchainAddress ->
  stateful Source string NativeTokenAmount.

Inductive IDPCreationError := DataSourceError (e : string) | ApiError (e : string) | McHashError (e : string).

(** [token_amount] of the provider. The runtime API of the parent block and the parent's
    main chain hash are the arguments [scripts], [initialized] and [parent_hash]. *)
Definition provider_new `{NativeTokenDataSource Source} (scripts : result string (option MainChainScripts))
    (initialized : result string bool) (parent_mc_hash : result string (option McBlockHash)) (mc_hash : McBlockHash)
    : stateful Source IDPCreationError (option NativeTokenAmount) :=
  scripts ←! stateless (lift (map_err ApiError scripts));
  match scripts with
  | None => stateless (lift (Ok None))
  | Some scripts =>
      initialized ←! stateless (lift (map_err ApiError initialized));
      parent_mc_hash ←! stateless (lift (if initialized : bool then map_err McHashError parent_mc_hash else Ok None));
      token_amount ←! map_err_stateful DataSourceError (get_total_native_token_transfer parent_mc_hash mc_hash
        (native_token_policy_id scripts) (native_token_asset_name scripts) (illiquid_supply_validator_address scripts));
      stateless (lift (Ok (if 0 <? token_amount then Some token_amount else None)))
  end.
Definition new_if_pallet_present `{NativeTokenDataSource Source} (has_api : result string bool)
    (scripts : result string (option MainChainScripts)) (initialized : result string bool)
    (parent_mc_hash : result string (option McBlockHash)) (mc_hash : McBlockHash)
    : stateful Source IDPCreationError (option NativeTokenAmount) :=
  has_api ←! stateless (lift (map_err ApiError has_api));
  if has_api : bool then provider_new scripts initialized parent_mc_hash mc_hash else stateless (lift (Ok None)).
(** What [put_data] followed by [get_data] delivers to the pallet. *)
Definition provide_inherent_data (token_amount : option NativeTokenAmount) : InherentData :=
  Ok (option_map mkTokenTransferData token_amount).
End NativeToken.

(** ** The protocol of the inherent *)

(** Creating, checking and requiring the token transfer agree for every inherent
    data: a transfer is created exactly when one is required, the created call passes the
    check, and a transfer passes the check exactly when its amount is the observed one. *)
Theorem token_inherent_protocol d :
  let data := Ok d : NativeToken.InherentData in
  (forall call, NativeToken.create_inherent data = Done (Some call) ->
     NativeToken.check_inherent call data = Done (Ok ()) /\ NativeToken.is_inherent call = true) /\
  (NativeToken.create_inherent data = Done None <-> NativeToken.is_inherent_required data = Done None) /\
  (forall n, NativeToken.check_inherent (NativeToken.transfer_tokens_call n) data = Done (Ok ()) <->
     option_map NativeToken.token_amount d = Some n).
Proof.
  cbn zeta. unfold NativeToken.create_inherent, NativeToken.is_inherent_required, NativeToken.check_inherent,
    NativeToken.get_transfered_tokens_from_inherent_data. simpl_monad.
  destruct d as [[n]|]; cbn; [|split_and!; [done | done | by intros]].
  split; [|split].
  - intros call. destruct (0 <? n); cbn; [|done]. intros [= <-]. cbn. by rewrite Z.eqb_refl.
  - by destruct (0 <? n).
  - intros m. destruct (Z.eqb_spec n m); [by subst|]. split; [done | congruence].
Qed.

(** ** Conservation along a chain *)

(** What the data source promises for the scripts it is asked about: [locked b] tokens were
    sent to the supply address up to main chain block [b]. [tokens_serves s a b] says that
    the source in state [s] knows the stable blocks [a] and [b], and [a] is not above [b]. *)
Class NativeTokenLaws {Source} `{NativeToken.NativeTokenDataSource Source}
    (scripts : NativeToken.MainChainScripts) (locked : McBlockHash -> Z) := {
  tokens_ok : Source -> Prop;
  tokens_serves : Source -> McBlockHash -> McBlockHash -> Prop;
  tokens_serves_refl : forall s a b, tokens_serves s a b -> tokens_serves s b b;
  tokens_locked : forall s a b, tokens_ok s -> tokens_serves s a b -> 0 <= locked a <= locked b;
  tokens_answer : forall s after to, tokens_ok s -> tokens_serves s (default to after) to -> exists s',
    NativeToken.get_total_native_token_transfer after to (NativeToken.native_token_policy_id scripts)
      (NativeToken.native_token_asset_name scripts) (NativeToken.illiquid_supply_validator_address scripts) s =
      (s', Done (Ok (locked to - default 0 (locked <$> after)))) /\
    tokens_ok s' /\ forall a b, tokens_serves s a b -> tokens_serves s' a b
}.

(** The same of a source that is asked about several scripts: [locked scripts b] tokens of these
    scripts were locked up to [b]. *)
Class TokenSourceLaws {Source} `{NativeToken.NativeTokenDataSource Source}
    (configured : NativeToken.MainChainScripts -> Prop) (locked : NativeToken.MainChainScripts -> McBlockHash -> Z) := {
  supply_ok : Source -> Prop;
  supply_serves : Source -> McBlockHash -> McBlockHash -> Prop;
  supply_serves_refl : forall s a b, supply_serves s a b -> supply_serves s b b;
  supply_locked : forall s a b scripts, configured scripts -> supply_ok s -> supply_serves s a b ->
    0 <= locked scripts a <= locked scripts b;
  supply_answer : forall s after to scripts, configured scripts -> supply_ok s -> supply_serves s (default to after) to -> exists s',
    NativeToken.get_total_native_token_transfer after to (NativeToken.native_token_policy_id scripts)
      (NativeToken.native_token_asset_name scripts) (NativeToken.illiquid_supply_validator_address scripts) s =
      (s', Done (Ok (locked scripts to - default 0 (locked scripts <$> after)))) /\
    supply_ok s' /\ forall a b, supply_serves s a b -> supply_serves s' a b
}.
#[export] Instance one_scripts_laws {Source} `{NativeToken.NativeTokenDataSource Source} scripts locked
    `{!NativeTokenLaws scripts locked} : TokenSourceLaws (eq scripts) (fun _ => locked).
Proof.
  refine {| supply_ok := tokens_ok; supply_serves := tokens_serves |}.
  - exact tokens_serves_refl.
  - intros s a b _ _. apply tokens_locked.
  - intros s after to _ <-. apply tokens_answer.
Defined.

Module TokenChain.
Section Chain.
Context `{NativeToken.NativeTokenDataSource Source}.
(** A handler that adds up what it is given. *)
Definition count_tokens (n : NativeTokenAmount) (released : Z) : result DispatchError Z := Ok (released + n).

(** One partner chain block on top of a block with main chain hash [parent], referencing [mc_hash]. *)
Definition block (parent : option McBlockHash) (mc_hash : McBlockHash) (s : Source)
    (st : NativeToken.State Z) : Source * outcome (option (NativeToken.State Z)) :=
  let '(s, r) := NativeToken.provider_new (Ok (NativeToken.get_main_chain_scripts st))
    (Ok (NativeToken.initialized st)) (Ok parent) mc_hash s in
  (s, amount ← r;
      match amount with
      | Err _ => Done None
      | Ok amount =>
          call ← NativeToken.create_inherent (NativeToken.provide_inherent_data amount);
          match call with
          | Some (NativeToken.transfer_tokens_call n) =>
              r ← NativeToken.transfer_tokens count_tokens st OriginNone n; Done (ok r)
          | _ => Done (Some st)
          end
      end).

Context (configured : NativeToken.MainChainScripts -> Prop) (locked : NativeToken.MainChainScripts -> McBlockHash -> Z).

(** *** The ledger

    What should be released, from the history of the chain alone: the scripts in force, the main
    chain block that the last block refers to and the total so far. As long as nothing was
    released a block is owed all that was locked under its scripts, later what was locked under them
    since its parent. *)
Inductive Event := Refers (mc_hash : McBlockHash) | Changes (scripts : NativeToken.MainChainScripts).
Record Ledger := mkLedger { l_scripts : NativeToken.MainChainScripts; l_last : option McBlockHash; l_total : Z }.
Definition account (l : Ledger) (e : Event) : Ledger :=
  match e with
  | Changes scripts => mkLedger scripts (l_last l) (l_total l)
  | Refers b =>
      let since := if l_total l =? 0 then None else l_last l in
      mkLedger (l_scripts l) (Some b)
        (l_total l + (locked (l_scripts l) b - default 0 (locked (l_scripts l) <$> since)))
  end.
Definition ledger (genesis : NativeToken.MainChainScripts) (events : list Event) : Ledger :=
  fold_left account events (mkLedger genesis None 0).
Definition is_reference (e : Event) : bool := match e with Refers _ => true | Changes _ => false end.

Context `{!TokenSourceLaws configured locked} (genesis : NativeToken.MainChainScripts).

(** The states a node reaches with a history of blocks and changes of the scripts. Between blocks
    the source observes more of the main chain; a block refers to a main chain block that is not
    behind its parent's; the scripts are changed by a call of root. *)
Inductive reachable : list Event -> Source -> NativeToken.State Z -> Prop :=
| reach_genesis s : configured genesis -> supply_ok s -> reachable [] s (NativeToken.build genesis 0)
| reach_observe events s st s' :
    reachable events s st -> supply_ok s' -> (forall a b, supply_serves s a b -> supply_serves s' a b) ->
    reachable events s' st
| reach_change events s st scripts st' :
    reachable events s st -> configured scripts ->
    NativeToken.set_main_chain_scripts st OriginRoot scripts = Ok st' -> reachable (events ++ [Changes scripts]) s st'
| reach_block events s st mc_hash s' st' :
    reachable events s st -> supply_serves s (default mc_hash (l_last (ledger genesis events))) mc_hash ->
    block (l_last (ledger genesis events)) mc_hash s st = (s', Done (Some st')) ->
    reachable (events ++ [Refers mc_hash]) s' st'.

(** The pallet agrees with the ledger; it is initialized once something was released. *)
Record agrees (l : Ledger) (st : NativeToken.State Z) : Prop := {
  ag_configured : configured (l_scripts l);
  ag_scripts : NativeToken.MainChainScriptsConfiguration st = Some (l_scripts l);
  ag_total : NativeToken.handler_state st = l_total l;
  ag_nonneg : 0 <= l_total l;
  ag_initialized : NativeToken.Initialized st = (0 <? l_total l);
  ag_referred : 0 < l_total l -> is_Some (l_last l)
}.

(** The amount the provider asks for. *)
Lemma provider_spec l mc_hash s st :
  agrees l st -> supply_ok s -> supply_serves s (default mc_hash (l_last l)) mc_hash ->
  let n := l_total (account l (Refers mc_hash)) - l_total l in
  0 <= n /\ exists s',
    NativeToken.provider_new (Ok (NativeToken.get_main_chain_scripts st)) (Ok (NativeToken.initialized st))
      (Ok (l_last l)) mc_hash s = (s', Done (Ok (if 0 <? n then Some n else None))) /\
    supply_ok s' /\ forall a b, supply_serves s a b -> supply_serves s' a b.
Proof.
  intros [Hc Hs Hh Hnn Hi Hg] Hok Hsrv. cbn [account l_total]. set (since := if l_total l =? 0 then None else l_last l).
  assert (since = if NativeToken.Initialized st then l_last l else None) as Hsince.
  { unfold since. rewrite Hi. destruct (Z.eqb_spec (l_total l) 0), (Z.ltb_spec 0 (l_total l)); done || lia. }
  assert (supply_serves s (default mc_hash since) mc_hash) as Hfrom.
  { unfold since. destruct (l_total l =? 0); [|done]. by eapply supply_serves_refl. }
  set (n := locked (l_scripts l) mc_hash - default 0 (locked (l_scripts l) <$> since)).
  replace (l_total l + n - l_total l) with n by lia.
  split. { destruct (supply_locked _ _ _ _ Hc Hok Hfrom). unfold n. destruct since; cbn in *; lia. }
  unfold NativeToken.provider_new, NativeToken.get_main_chain_scripts, NativeToken.initialized.
  rewrite Hs. unfold bind_stateful, stateless, map_err_stateful. simpl_monad.
  replace (if NativeToken.Initialized st then Ok (l_last l) else Ok None) with
    (Ok since : result NativeToken.IDPCreationError _) by (rewrite Hsince; by destruct (NativeToken.Initialized st)).
  destruct (supply_answer _ _ _ _ Hc Hok Hfrom) as (s' & -> & Hs'). by exists s'.
Qed.

Lemma token_block_spec l mc_hash s st :
  agrees l st -> supply_ok s -> supply_serves s (default mc_hash (l_last l)) mc_hash ->
  exists s' st', block (l_last l) mc_hash s st = (s', Done (Some st')) /\ agrees (account l (Refers mc_hash)) st' /\
    supply_ok s' /\ forall a b, supply_serves s a b -> supply_serves s' a b.
Proof.
  intros Hr Hok Hsrv. destruct (provider_spec l mc_hash s st Hr Hok Hsrv) as (Hn & s' & Hp & Hs').
  destruct Hr as [Hc Hs Hh Hnn Hi Hg]. unfold block. rewrite Hp. simpl_monad. cbn zeta in *.
  remember (account l (Refers mc_hash)) as l' eqn:Hl'.
  assert (l_scripts l' = l_scripts l /\ l_last l' = Some mc_hash) as [Hls Hll] by by rewrite Hl'.
  unfold NativeToken.create_inherent, NativeToken.get_transfered_tokens_from_inherent_data, NativeToken.provide_inherent_data.
  destruct (Z.ltb_spec 0 (l_total l' - l_total l)) as [Hpos|Hzero]; cbn [option_map]; simpl_monad;
    cbn [NativeToken.positive NativeToken.token_amount].
  - rewrite (proj2 (Z.ltb_lt _ _)) by done. cbn [option_map NativeToken.token_amount].
    unfold NativeToken.transfer_tokens. rewrite Hs. cbn [ensure_none]. simpl_monad.
    rewrite bool_decide_eq_true_2 by (by eexists). do 2 eexists. split; [reflexivity|].
    split; [|done]. split; cbn; rewrite ?Hls, ?Hll; [done | done | lia | lia | symmetry; apply Z.ltb_lt; lia | by eexists].
  - exists s', st. split; [done|]. split; [|done]. assert (l_total l' = l_total l) as Ht by lia.
    split; rewrite ?Hls, ?Hll, ?Ht; [done | done | done | done | done | by eexists].
Qed.

Lemma ledger_snoc events e : ledger genesis (events ++ [e]) = account (ledger genesis events) e.
Proof. unfold ledger. by rewrite fold_left_app. Qed.

Lemma reachable_inv events s st : reachable events s st -> agrees (ledger genesis events) st /\ supply_ok s.
Proof.
  induction 1 as [s Hc Hs|events s st s' _ [IH _] Hs' _|events s st scripts st' _ [IH Hs] Hc Hset|events s st mc_hash s' st' _ [IH Hs] Hsrv Hb].
  - by split.
  - done.
  - rewrite ledger_snoc. split; [|done]. unfold NativeToken.set_main_chain_scripts in Hset. cbn in Hset. injection Hset as <-.
    destruct IH as [H1 H2 H3 H4 H5 H6]. by split.
  - rewrite ledger_snoc. destruct (token_block_spec _ mc_hash s st IH Hs Hsrv) as (s1 & st1 & Heq & Hr & Hok & _).
    rewrite Heq in Hb. by simplify_eq.
Qed.

(** Without a change of the scripts the total is all that was locked. *)
Lemma ledger_without_changes events :
  forallb is_reference events = true ->
  l_scripts (ledger genesis events) = genesis /\
  l_total (ledger genesis events) = default 0 (locked genesis <$> l_last (ledger genesis events)).
Proof.
  induction events as [|e events IH] using rev_ind; [done|]. rewrite forallb_app, andb_true_iff, ledger_snoc. intros [He Hr].
  destruct e as [b|]; [|done]. destruct (IH He) as [Hs Ht]. cbn [account l_scripts l_total l_last]. rewrite Hs, Ht. split; [done|].
  cbn [fmap option_fmap option_map default from_option id].
  destruct (Z.eqb_spec (default 0 (locked genesis <$> l_last (ledger genesis events))) 0) as [E|]; [rewrite E; cbn|]; lia.
Qed.
End Chain.
End TokenChain.

(** C7: No token is lost or released twice, when the data source answers for the scripts that are
    configured with what was locked between the two blocks of a request ([TokenSourceLaws]). In
    every state that a node reaches by blocks, by observing more of the main chain and by changes of
    the scripts, the handler has been given the total of the ledger of the chain's history: the
    first transfer takes all that was locked under the scripts of the time (the pallet stays
    uninitialized until then), each later one what was locked under them since the parent. If the
    scripts were never changed that is all that was locked up to the main chain block that the last
    block refers to. And no block fails: whichever served main chain block the next one refers to,
    its provider, inherent and dispatch succeed. *)
Theorem native_tokens_conserved {Source} `{NativeToken.NativeTokenDataSource Source} configured locked
    `{!TokenSourceLaws configured locked} genesis events s st :
  TokenChain.reachable configured locked genesis events s st ->
  let l := TokenChain.ledger locked genesis events in
  NativeToken.handler_state st = TokenChain.l_total l /\
  NativeToken.MainChainScriptsConfiguration st = Some (TokenChain.l_scripts l) /\
  (NativeToken.Initialized st = true <-> 0 < NativeToken.handler_state st) /\
  (forallb TokenChain.is_reference events = true ->
     NativeToken.handler_state st = default 0 (locked genesis <$> TokenChain.l_last l)) /\
  forall mc_hash, supply_serves s (default mc_hash (TokenChain.l_last l)) mc_hash ->
    exists s' st', TokenChain.block (TokenChain.l_last l) mc_hash s st = (s', Done (Some st')) /\
      NativeToken.handler_state st' = TokenChain.l_total (TokenChain.account locked l (TokenChain.Refers mc_hash)).
Proof.
  intros Hr l. apply TokenChain.reachable_inv in Hr as [Hr Hok]. fold l in Hr. destruct (Hr) as [Hc Hs Ht Hnn Hi Hg]. split_and!.
  - done.
  - done.
  - rewrite Hi, Ht. apply Z.ltb_lt.
  - intros Hn. rewrite Ht. by apply TokenChain.ledger_without_changes.
  - intros mc_hash Hsrv. destruct (TokenChain.token_block_spec configured locked l mc_hash s st Hr Hok Hsrv)
      as (s' & st' & Hb & Hr' & _). exists s', st'. split; [done|]. apply (TokenChain.ag_total _ _ _ Hr').
Qed.
