(* ===== verification/DbNativeToken.v ===== *)
(** * Native token transfers from db-sync

    [toolkit/mainchain-follower/db-sync-follower]: the transfer queries of [db_model.rs]
    and the data source with its cache ([native_token/mod.rs]). It discharges the laws that
    [NativeToken] asks of a data source. *)

From S2P Require Import Prelude Domain Sql McEpoch Slots McHash DbBlocks Committee NativeToken.
#[local] Open Scope list_scope.

(** ** Tables and queries *)
Module Ledger.
Import Db.
(** Columns of db-sync's tables that the queries use; [block] rows come with their id. *)
Record TxRow := mkTxRow { tx_id : Z; tx_hash : bytes; tx_block_id : Z; tx_block_index : Z }.
Record TxOutRow := mkTxOutRow {
  out_id : Z; out_tx_id : Z; out_index : Z; out_address : bytes; out_data_hash : option bytes }.
Record MaTxOutRow := mkMaTxOutRow { ma_quantity : Z; ma_tx_out_id : Z; ma_ident : Z }.
Record MultiAssetRow := mkMultiAssetRow { asset_id : Z; asset_policy : bytes; asset_name : bytes }.
#[export] Instance MultiAssetRow_eq_dec : EqDecision MultiAssetRow.
Proof. solve_decision. Defined.
Record Tables := mkTables {
  block : list (Z * BlockRow);
  tx : list TxRow;
  tx_out : list TxOutRow;
  ma_tx_out : list MaTxOutRow;
  multi_asset : list MultiAssetRow
}.
Definition block_rows (db : Tables) : list BlockRow := map snd (block db).

Record Asset := mkAsset { a_policy_id : bytes; a_asset_name : bytes }.
Definition to_db_asset (policy_id : PolicyId) (asset_name : AssetName) : Asset := mkAsset policy_id asset_name.
Definition is_asset (asset : Asset) (a : MultiAssetRow) : bool :=
  bool_decide (asset_policy a = a_policy_id asset) && bool_decide (asset_name a = a_asset_name asset).

Record BlockTokenAmount := mkBlockTokenAmount { block_hash : bytes; amount : Z }.
(** [to_u128] of a [NUMERIC]. *)
Definition decode_amount (n : Z) : result string Z :=
  ok_or (try_into_width 128 n) "NativeTokenQuantity is always a u128"%string.

Definition quantity (m : option MaTxOutRow) : option Z := option_map ma_quantity m.

Definition get_total_native_tokens_transfered (db : Tables) (to_block : Z) (asset : Asset)
    (illiquid_supply_address : bytes) : result string Z :=
  let rows := left_join (fun o m => ma_tx_out_id m =? out_id o) (tx_out db) (ma_tx_out db) in
  let rows := left_join (fun '(_, m) a => sql_true (fun m => asset_id a =? ma_ident m) m) rows (multi_asset db) in
  let rows := inner_join (fun '(o, _, _) t => out_tx_id o =? tx_id t) rows (tx db) in
  let rows := inner_join (fun '(_, t) b => tx_block_id t =? fst b) rows (block db) in
  let rows := List.filter (fun '(o, _, a, _, b) =>
      bool_decide (out_address o = illiquid_supply_address) && sql_true (is_asset asset) a &&
      sql_true (fun n => n <=? sql_int 32 to_block) (row_block_no (snd b))) rows in
  decode_amount (sql_sum (fun '(_, m, _, _, _) => quantity m) rows).

Definition key_leb (a b : option Z * bytes) : bool := default (-1) (fst a) <=? default (-1) (fst b).
Definition get_native_token_transfers (db : Tables) (from_block to_block : Z) (asset : Asset)
    (illiquid_supply_address : bytes) : result string (list BlockTokenAmount) :=
  let rows := left_join (fun b t => fst b =? tx_block_id t) (block db) (tx db) in
  let rows := left_join (fun '(_, t) o => sql_true (fun t => tx_id t =? out_tx_id o) t &&
    bool_decide (out_address o = illiquid_supply_address)) rows (tx_out db) in
  let rows := left_join (fun '(_, o) m => sql_true (fun o => ma_tx_out_id m =? out_id o) o) rows (ma_tx_out db) in
  let rows := left_join (fun '(_, m) a => sql_true (fun m => asset_id a =? ma_ident m) m && is_asset asset a)
    rows (multi_asset db) in
  let rows := List.filter (fun '(b, _, _, _, _) =>
    numbered_between (sql_int 32 from_block) (sql_int 32 to_block) (snd b)) rows in
  let groups := group_by (fun '(b, _, _, _, _) => (row_block_no (snd b), row_hash (snd b))) rows in
  collect_results (fun '(k, rows) =>
      hash ← ok_or (to_array 32 (snd k)) "invalid length"%string;
      amount ← decode_amount (sql_sum (fun '(_, m, _) => quantity m) rows);
      Ok (mkBlockTokenAmount hash amount))
    (sort_by (fun g g' => key_leb (fst g) (fst g')) groups).
End Ledger.

(** ** The data source *)
Module TokenSource.
Import Db Ledger.
(** [Cache]: the blocks of an interval with their transfers. *)
Definition Cache : Type := list (McBlockHash * Z).
Record NativeTokenManagementDataSourceImpl := mkImpl { security_parameter : Z; cache_size : Z }.
Record Source := mkSource { impl : NativeTokenManagementDataSourceImpl; pool : Tables; cache : Cache }.
Definition update (c : Cache) (s : Source) : Source := mkSource (impl s) (pool s) c.

(** [iter().position(..)]. *)
Fixpoint position (h : McBlockHash) (c : Cache) : option nat :=
  match c with
  | [] => None
  | (block, _) :: c' => if bool_decide (block = h) then Some O else option_map S (position h c')
  end.
(** [slice.get(start..=end)]. *)
Definition get_range_inclusive {A} (l : list A) (start last : nat) : option (list A) :=
  if (S last <? start)%nat || (length l <? S last)%nat then None
  else Some (take (S last - start) (drop start l)).
Definition get_sum_in_range (c : Cache) (after to : McBlockHash) : option Z :=
  after_idx ← position after c;
  to_idx ← position to c;
  after_to ← get_range_inclusive c (after_idx + 1) to_idx;
  Some (sum_width 128 (map snd after_to)).

(** [take_while_inclusive] of itertools: up to and with the first element that fails [p]. *)
Fixpoint take_while_inclusive {A} (p : A -> bool) (l : list A) : list A :=
  match l with [] => [] | x :: l' => if p x then x :: take_while_inclusive p l' else [x] end.

Definition get_from_block_no (from_block : McBlockHash) (db : Tables) : result string Z :=
  b ← get_block_by_hash (block_rows db) from_block;
  b ← ok_or b "Lower bound block not found when querying for native token transfers"%string;
  Ok (block_no b).
Definition get_to_block_no (to_block : McBlockHash) (db : Tables) : result string Z :=
  b ← get_block_by_hash (block_rows db) to_block;
  b ← ok_or b "Upper bound block not found when querying for native token transfers"%string;
  Ok (block_no b).
Definition get_latest_block (db : Tables) : result string Block :=
  b ← get_latest_block_info (block_rows db);
  ok_or b "The latest block not found when querying for native token transfers"%string.

Definition query_db (s : Source) (from_block to_block : Z) (policy_id : PolicyId) (name : AssetName)
    (illiquid_supply_address : MainchainAddress) : fallible string (list BlockTokenAmount) :=
  address ←? run (MainchainAddress_to_string illiquid_supply_address);
  lift (get_native_token_transfers (pool s) from_block to_block (to_db_asset policy_id name) address).

Definition get_data_to_cache (s : Source) (from_block to_block : McBlockHash) (policy_id : PolicyId)
    (name : AssetName) (address : MainchainAddress) : fallible string Cache :=
  from_block_no ←? lift (get_from_block_no from_block (pool s));
  to_block_no ←? lift (get_to_block_no to_block (pool s));
  latest_block ←? lift (get_latest_block (pool s));
  let latest_stable_block := saturating_sub (block_no latest_block) (security_parameter (impl s)) in
  let cache_to_block_no := Z.min latest_stable_block
    (Z.max to_block_no (saturating_add 32 from_block_no (cache_size (impl s)))) in
  transfers ←? query_db s from_block_no cache_to_block_no policy_id name address;
  lift (Ok (map (fun t => (block_hash t, amount t)) transfers)).

Definition query_transfers_from_genesis (s : Source) (to_block : McBlockHash) (policy_id : PolicyId)
    (name : AssetName) (address : MainchainAddress) : fallible string Z :=
  to_block ←? lift (get_to_block_no to_block (pool s));
  address ←? run (MainchainAddress_to_string address);
  lift (get_total_native_tokens_transfered (pool s) to_block (to_db_asset policy_id name) address).

Definition total_native_token_transfer (after_block : option McBlockHash) (to_block : McBlockHash)
    (policy_id : PolicyId) (name : AssetName) (address : MainchainAddress) : stateful Source string NativeTokenAmount :=
  fun s =>
  match after_block with
  | Some after_block =>
      if bool_decide (after_block = to_block) then (s, Done (Ok 0))
      else match get_sum_in_range (cache s) after_block to_block with
      | Some amount => (s, Done (Ok amount))
      | None =>
          (block_to_amount ←! stateless (get_data_to_cache s after_block to_block policy_id name address);
           let amount := sum_width 128 (map snd
             (take_while_inclusive (fun e => negb (bool_decide (fst e = to_block))) (drop 1 block_to_amount))) in
           fun s => (update block_to_amount s, Done (Ok amount))) s
      end
  | None => stateless (query_transfers_from_genesis s to_block policy_id name address) s
  end.

#[export] Instance db_sync_native_token : NativeToken.NativeTokenDataSource Source := total_native_token_transfer.
End TokenSource.
Export (hints) TokenSource.

(** ** What the queries compute *)
Section Queries.
Import Db Ledger.
Implicit Types (db : Tables) (b : Z * BlockRow) (t : TxRow) (o : TxOutRow) (m : MaTxOutRow) (a : MultiAssetRow).

(** [m] is a token amount in output [o] of transaction [t] of block [b], at [addr]. *)
Definition at_address (addr : bytes) b t o m : bool :=
  (fst b =? tx_block_id t) && (tx_id t =? out_tx_id o) && bool_decide (out_address o = addr) && (ma_tx_out_id m =? out_id o).
Definition of_asset (asset : Asset) m a : bool := (asset_id a =? ma_ident m) && is_asset asset a.

(** All tokens sent to [addr] in a block, and those of one asset. *)
Definition received db (addr : bytes) b : Z :=
  sum_of (fun t => sum_of (fun o => sum_of (fun m =>
    if at_address addr b t o m then ma_quantity m else 0) (ma_tx_out db)) (tx_out db)) (tx db).
Definition received_asset db (asset : Asset) (addr : bytes) b : Z :=
  sum_of (fun t => sum_of (fun o => sum_of (fun m => sum_of (fun a =>
    if at_address addr b t o m && of_asset asset m a then ma_quantity m else 0)
    (multi_asset db)) (ma_tx_out db)) (tx_out db)) (tx db).

Definition up_to (n : Z) b : bool := sql_true (fun k => k <=? n) (row_block_no (snd b)).

Lemma total_query_sum db to asset addr :
  get_total_native_tokens_transfered db to asset addr =
    decode_amount (sum_of (received_asset db asset addr) (List.filter (up_to (sql_int 32 to)) (block db))).
Proof.
  unfold get_total_native_tokens_transfered, sql_sum. f_equal. rewrite sum_of_filter.
  rewrite sum_inner_join. rewrite sum_inner_join.
  rewrite sum_left_join.
  2:{ intros [o m]. apply sum_of_zero. intros t _. case_match; [|done]. apply sum_of_zero. intros b _.
      case_match; [|done]. by rewrite andb_false_r. }
  rewrite sum_left_join.
  2:{ intros o. apply sum_of_zero. by intros a _. }
  rewrite sum_of_filter. unfold received_asset.
  transitivity (sum_of (fun o => sum_of (fun m => sum_of (fun a => sum_of (fun t => sum_of (fun b =>
    if at_address addr b t o m && of_asset asset m a && up_to (sql_int 32 to) b then ma_quantity m else 0)
      (block db)) (tx db)) (multi_asset db)) (ma_tx_out db)) (tx_out db)).
  { apply sum_of_ext. intros o _. apply sum_of_ext. intros m _.
    destruct (ma_tx_out_id m =? out_id o) eqn:Hm.
    2:{ symmetry. do 3 (apply sum_of_zero; intros ? _). unfold at_address. by rewrite Hm, !andb_false_r. }
    apply sum_of_ext. intros a _. cbn [sql_true]. destruct (asset_id a =? ma_ident m) eqn:Ha.
    2:{ symmetry. do 2 (apply sum_of_zero; intros ? _). unfold of_asset. by rewrite Ha, !andb_false_r. }
    apply sum_of_ext. intros t _. cbn [sql_true]. rewrite (Z.eqb_sym (out_tx_id o)).
    destruct (tx_id t =? out_tx_id o) eqn:Ht.
    2:{ symmetry. apply sum_of_zero; intros ? _. unfold at_address. by rewrite Ht, !andb_false_r. }
    apply sum_of_ext. intros b _. cbn [sql_true quantity option_map default]. unfold at_address, of_asset, up_to.
    rewrite Ht, Hm, Ha, (Z.eqb_sym (fst b)).
    destruct (tx_block_id t =? fst b), (bool_decide _), (is_asset asset a), (sql_true _ _); done. }
  rewrite sum_pull4. apply sum_of_ext. intros b _. rewrite sum_pull3. destruct (up_to _ b).
  - do 4 (apply sum_of_ext; intros ? _). by rewrite andb_true_r.
  - do 4 (apply sum_of_zero; intros ? _). by rewrite andb_false_r.
Qed.

(** The database's keys, and amounts that fit. *)
Record wf_tables db (addr : bytes) : Prop := {
  wft_blocks : wf_db (block_rows db);
  wft_hashes : NoDup (map row_hash (block_rows db));
  wft_assets : NoDup (map asset_id (multi_asset db));
  wft_quantities : forall m, m ∈ ma_tx_out db -> 0 <= ma_quantity m;
  wft_total : sum_of (received db addr) (block db) < 2 ^ 128
}.

Definition block_key b : option Z * bytes := (row_block_no (snd b), row_hash (snd b)).
Definition transfer_rows db (asset : Asset) (addr : bytes) :=
  left_join (fun '(_, m) a => sql_true (fun m => asset_id a =? ma_ident m) m && is_asset asset a)
    (left_join (fun '(_, o) m => sql_true (fun o => ma_tx_out_id m =? out_id o) o)
      (left_join (fun '(_, t) o => sql_true (fun t => tx_id t =? out_tx_id o) t && bool_decide (out_address o = addr))
        (left_join (fun b t => fst b =? tx_block_id t) (block db) (tx db)) (tx_out db)) (ma_tx_out db)) (multi_asset db).

(** The amount of a group of joined rows, per block: the last join only adds a column. *)
Lemma transfer_rows_sum db asset addr (p : Z * BlockRow -> bool) :
  wf_tables db addr ->
  sum_of (fun '(b, _, _, m, _) => if p b then default 0 (quantity m) else 0) (transfer_rows db asset addr) =
  sum_of (fun b => if p b then received db addr b else 0) (block db).
Proof.
  intros Hw. unfold transfer_rows.
  rewrite (sum_of_ext _ (fun x => (fun '(b, _, _, m) => if p b then default 0 (quantity m) else 0) (fst x)))
    by by intros [[[[b t] o] m] a] _.
  rewrite (sum_left_join_unique _ _ _ (fun '(b, _, _, m) => if p b then default 0 (quantity m) else 0)).
  2:{ intros [? [m|]] a a' Ha Ha'; cbn; [|done]. intros [Hm%Z.eqb_eq _]%andb_prop [Hm'%Z.eqb_eq _]%andb_prop.
      apply (NoDup_key asset_id _ _ _ (wft_assets _ _ Hw)); [done | done | congruence]. }
  2:{ eapply NoDup_fmap_1, (wft_assets _ _ Hw). }
  rewrite sum_left_join by (intros [[b t] o]; cbn; by case_match).
  rewrite sum_left_join by (intros [b t]; by apply sum_of_zero).
  rewrite sum_left_join by (intros b; apply sum_of_zero; intros o _; done).
  apply sum_of_ext. intros b _. destruct (p b) eqn:Hp.
  2:{ apply sum_of_zero. intros t _. case_match; [|done]. apply sum_of_zero. intros o _. case_match; [|done].
      apply sum_of_zero. intros m _. by case_match. }
  apply sum_of_ext. intros t _. destruct (fst b =? tx_block_id t) eqn:Ht.
  2:{ symmetry. do 2 (apply sum_of_zero; intros ? _). unfold at_address. by rewrite Ht. }
  apply sum_of_ext. intros o _. cbn [sql_true].
  destruct (tx_id t =? out_tx_id o) eqn:Ho; cbn [andb].
  2:{ symmetry. apply sum_of_zero; intros ? _. unfold at_address. by rewrite Ht, Ho. }
  destruct (bool_decide (out_address o = addr)) eqn:Haddr.
  2:{ symmetry. apply sum_of_zero; intros ? _. unfold at_address. by rewrite Ht, Ho, Haddr. }
  apply sum_of_ext. intros m _. unfold at_address. by rewrite Ht, Ho, Haddr.
Qed.

Lemma block_key_NoDup db addr : wf_tables db addr -> NoDup (map block_key (block db)).
Proof.
  intros Hw. apply (NoDup_fmap_1 snd). pose proof (wft_hashes _ _ Hw) as Hh. unfold block_rows in Hh.
  rewrite map_map in Hh. change (NoDup (map snd (map block_key (block db)))). by rewrite map_map.
Qed.

(** Block numbers are a key too. *)
Lemma block_no_key db addr b b' n :
  wf_tables db addr -> b ∈ block db -> b' ∈ block db ->
  row_block_no (snd b) = Some n -> row_block_no (snd b') = Some n -> b = b'.
Proof.
  intros Hw Hb Hb' Hn Hn'. apply (NoDup_key block_key _ _ _ (block_key_NoDup _ _ Hw)); [done|done|].
  assert (forall c, c ∈ block db -> snd c ∈ block_rows db) as Hrow by (intros; by apply list_elem_of_fmap_2).
  destruct (wf_decode _ (wft_blocks _ _ Hw) (snd b)) as [c Hc]; [by apply Hrow | by eexists|].
  destruct (wf_decode _ (wft_blocks _ _ Hw) (snd b')) as [c' Hc']; [by apply Hrow | by eexists|].
  assert (c = c') as <-.
  { apply (wf_unique _ (wft_blocks _ _ Hw)); [apply elem_of_blocks; eauto..|].
    apply decode_block_Ok in Hc as [Hc _], Hc' as [Hc' _]. congruence. }
  apply decode_block_Ok in Hc as (? & ? & _), Hc' as (? & ? & _). unfold block_key. congruence.
Qed.

Definition in_range (from to : Z) b : bool := numbered_between from to (snd b).
Definition number b : Z := default (-1) (row_block_no (snd b)).
Definition blocks_in_range db (from to : Z) : list (Z * BlockRow) :=
  sort_by (fun b b' => key_leb (block_key b) (block_key b')) (List.filter (in_range from to) (block db)).
Definition group_of db asset addr (from to : Z) b :=
  (block_key b, List.filter (fun x => bool_decide ((fun '(b, _, _, _, _) => block_key b) x = block_key b))
    (List.filter (fun '(b, _, _, _, _) => in_range from to b) (transfer_rows db asset addr))).

Lemma elem_of_blocks_in_range db from to b : b ∈ blocks_in_range db from to <-> b ∈ block db /\ in_range from to b = true.
Proof.
  unfold blocks_in_range. rewrite sort_by_perm, list_elem_of_In, filter_In. by rewrite <- list_elem_of_In.
Qed.

Lemma groups_by_block db asset addr from to :
  wf_tables db addr ->
  group_by (fun '(b, _, _, _, _) => block_key b)
      (List.filter (fun '(b, _, _, _, _) => in_range from to b) (transfer_rows db asset addr)) ≡ₚ
    map (group_of db asset addr from to) (List.filter (in_range from to) (block db)).
Proof.
  intros Hw. set (key := fun _ => _). set (rows := List.filter _ _).
  apply NoDup_Permutation.
  - apply (NoDup_fmap_1 fst). change (NoDup (map fst (group_by key rows))). rewrite group_by_keys. apply NoDup_remove_dups.
  - apply (NoDup_fmap_1 fst). change (NoDup (map fst (map (group_of db asset addr from to) (List.filter (in_range from to) (block db))))).
    rewrite map_map. cbn [group_of fst]. apply NoDup_ListNoDup.
    by apply NoDup_ListNoDup, NoDup_map_filter, (block_key_NoDup _ addr).
  - intros [k g]. rewrite elem_of_group_by. split.
    + intros (-> & [[[[b t] o] m] a] & Hx & <-). unfold rows in Hx. apply list_elem_of_In, filter_In in Hx as [Hx Hr].
      apply list_elem_of_In in Hx. apply list_elem_of_In, in_map_iff. exists b. split; [done|]. apply filter_In. split; [|done].
      apply list_elem_of_In. unfold transfer_rows in Hx.
      do 4 (apply (ex_intro (fun y => (_, y) ∈ _)) in Hx; apply elem_of_left_join in Hx). done.
    + intros (b & [= -> ->] & Hb)%list_elem_of_fmap. split; [done|]. apply list_elem_of_In, filter_In in Hb as [Hb Hr].
      apply list_elem_of_In in Hb. unfold rows, transfer_rows.
      apply (elem_of_left_join (fun b t => fst b =? tx_block_id t) (block db) (tx db)) in Hb as [t Hb].
      eapply elem_of_left_join in Hb as [o Hb]. eapply elem_of_left_join in Hb as [m Hb]. eapply elem_of_left_join in Hb as [a Hb].
      exists (b, t, o, m, a). split; [|done]. apply list_elem_of_In, filter_In. split; [|done]. apply list_elem_of_In. exact Hb.
Qed.

Lemma key_leb_total k k' : key_leb k k' = true \/ key_leb k' k = true.
Proof. unfold key_leb. rewrite !Z.leb_le. lia. Qed.
Lemma key_leb_trans k k' k'' : key_leb k k' = true -> key_leb k' k'' = true -> key_leb k k'' = true.
Proof. unfold key_leb. rewrite !Z.leb_le. lia. Qed.

Lemma in_range_number from to b : in_range from to b = true -> exists n, row_block_no (snd b) = Some n /\ from <= n <= to.
Proof.
  unfold in_range, numbered_between. destruct (row_block_no (snd b)) as [n|]; [|done]. intros. zbool. by exists n.
Qed.

Lemma sorted_groups db asset addr from to :
  wf_tables db addr ->
  sort_by (fun g g' => key_leb (fst g) (fst g')) (group_by (fun '(b, _, _, _, _) => block_key b)
      (List.filter (fun '(b, _, _, _, _) => in_range from to b) (transfer_rows db asset addr))) =
    map (group_of db asset addr from to) (blocks_in_range db from to).
Proof.
  intros Hw. pose proof (groups_by_block db asset addr from to Hw) as Hperm.
  set (groups := group_by _ _) in *. unfold blocks_in_range.
  set (bs := List.filter (in_range from to) (block db)) in *.
  assert (forall b, b ∈ bs -> b ∈ block db /\ in_range from to b = true) as Hbs.
  { intros b Hb. apply elem_of_blocks_in_range. unfold blocks_in_range. by rewrite sort_by_perm. }
  eapply (StronglySorted_unique_strong (fun g g' => key_leb (fst g) (fst g') = true)).
  - intros g g' Hg Hg' Hle Hle'. rewrite sort_by_perm, Hperm in Hg. apply list_elem_of_fmap in Hg as (b & -> & Hb).
    apply list_elem_of_fmap in Hg' as (b' & -> & Hb'). rewrite sort_by_perm in Hb'.
    apply Hbs in Hb as [Hb Hr], Hb' as [Hb' Hr'].
    apply in_range_number in Hr as (n & Hn & _), Hr' as (n' & Hn' & _).
    unfold key_leb in Hle, Hle'. cbn [group_of fst block_key] in Hle, Hle'. rewrite Hn, Hn' in Hle, Hle'. cbn in Hle, Hle'. zbool.
    assert (n = n') as <- by lia. by rewrite (block_no_key db addr b b' n).
  - apply sort_by_sorted; intros; [apply key_leb_total | by eapply key_leb_trans].
  - pose proof (sort_by_sorted (fun b b' => key_leb (block_key b) (block_key b')) ltac:(intros; apply key_leb_total)
      ltac:(intros ? ? ?; apply key_leb_trans) bs) as Hs.
    induction Hs as [|b l Hl IH Hall]; cbn; constructor; [done|]. by rewrite Forall_map.
  - by rewrite sort_by_perm, Hperm, sort_by_perm.
Qed.

Lemma received_nonneg db addr b : wf_tables db addr -> 0 <= received db addr b.
Proof.
  intros Hw. do 3 (apply sum_of_nonneg; intros ? ?). case_match; [|done]. by apply (wft_quantities _ _ Hw).
Qed.

Lemma received_sum_bound db addr (p : Z * BlockRow -> bool) :
  wf_tables db addr -> 0 <= sum_of (received db addr) (List.filter p (block db)) < 2 ^ 128.
Proof.
  intros Hw. split; [apply sum_of_nonneg; intros; by apply received_nonneg|].
  eapply Z.le_lt_trans; [|apply (wft_total _ _ Hw)]. rewrite sum_of_filter. apply sum_of_le. intros b _.
  pose proof (received_nonneg db addr b Hw). case_match; lia.
Qed.

Lemma group_sum db asset addr from to b :
  wf_tables db addr -> b ∈ blocks_in_range db from to ->
  sql_sum (fun '(_, m, _) => quantity m) (snd (group_of db asset addr from to b)) = received db addr b.
Proof.
  intros Hw [Hb Hr]%elem_of_blocks_in_range. cbn [group_of snd]. unfold sql_sum. rewrite !sum_of_filter.
  rewrite (sum_of_ext _ (fun '(b', _, _, m, _) =>
    if in_range from to b' && bool_decide (block_key b' = block_key b) then default 0 (quantity m) else 0)).
  2:{ intros [[[[b' t] o] m] a] _. by destruct (in_range from to b'), (bool_decide _). }
  rewrite transfer_rows_sum by done. rewrite (sum_of_single _ _ b).
  - by rewrite Hr, bool_decide_eq_true_2.
  - by eapply NoDup_fmap_1, block_key_NoDup.
  - done.
  - intros b' Hb' Hne. rewrite (bool_decide_eq_false_2 (block_key b' = _)), andb_false_r; [done|].
    intros Heq. apply Hne. by apply (NoDup_key block_key _ _ _ (block_key_NoDup _ _ Hw)).
Qed.

(** The range query lists the blocks of the range with all the tokens they sent. *)
Lemma transfers_query db from to asset addr :
  wf_tables db addr -> 0 <= from < 2 ^ 31 -> 0 <= to < 2 ^ 31 ->
  get_native_token_transfers db from to asset addr =
    Ok (map (fun b => mkBlockTokenAmount (row_hash (snd b)) (received db addr b)) (blocks_in_range db from to)).
Proof.
  intros Hw Hf Ht. unfold get_native_token_transfers, sql_int. rewrite !(proj2 (Z.ltb_lt _ _)) by lia.
  change (group_by _ _) with (group_by (fun '(b, _, _, _, _) => block_key b)
    (List.filter (fun '(b, _, _, _, _) => in_range from to b) (transfer_rows db asset addr))).
  rewrite sorted_groups by done. apply collect_results_Ok, Forall2_fmap_2.
  apply Forall_Forall2_diag, Forall_forall. intros b Hb.
  pose proof Hb as [Hin Hr]%elem_of_blocks_in_range. apply in_range_number in Hr as (n & Hn & _).
  destruct (wf_decode _ (wft_blocks _ _ Hw) (snd b)) as [c Hc]; [by apply list_elem_of_fmap_2 | by eexists|].
  pose proof (decode_hash_length _ _ Hc) as Hlen. apply decode_block_Ok in Hc as (_ & Hh & _).
  pose proof (group_sum db asset addr from to b Hw Hb) as Hsum. cbn [snd group_of] in *. cbn [block_key snd].
  unfold to_array. rewrite decide_True by congruence. simpl_monad. unfold decode_amount.
  rewrite Hsum.
  rewrite (proj2 (try_into_width_Some 128 _ (received db addr b))); [done|]. split; [|done].
  split; [by apply received_nonneg|].
  eapply Z.le_lt_trans; [|apply (wft_total _ _ Hw)].
  apply (sum_of_elem_le (received db addr)); [|done]. intros; by apply received_nonneg.
Qed.
End Queries.

(** ** The totals of an address that only holds the token *)
Section Totals.
Import Db Ledger.
Implicit Types (db : Tables) (b c : Z * BlockRow).

Definition only_token db (asset : Asset) (addr : bytes) : Prop :=
  forall o m, o ∈ tx_out db -> m ∈ ma_tx_out db -> out_address o = addr -> ma_tx_out_id m = out_id o ->
    exists a, a ∈ multi_asset db /\ of_asset asset m a = true.
(** What the genesis query adds up. *)
Definition total db (asset : Asset) (addr : bytes) (n : Z) : Z :=
  sum_of (received_asset db asset addr) (List.filter (up_to n) (block db)).

Lemma received_only db asset addr b :
  wf_tables db addr -> only_token db asset addr -> received_asset db asset addr b = received db addr b.
Proof.
  intros Hw Honly. unfold received_asset, received. apply sum_of_ext. intros t _. apply sum_of_ext. intros o Ho.
  apply sum_of_ext. intros m Hm. destruct (at_address addr b t o m) eqn:Hat; [|by apply sum_of_zero].
  unfold at_address in Hat. zbool.
  destruct (Honly o m Ho Hm) as (a & Ha & Hof); [by eapply bool_decide_eq_true_1 | done |].
  rewrite (sum_of_single _ _ a).
  - by rewrite Hof.
  - by eapply NoDup_fmap_1, (wft_assets _ _ Hw).
  - done.
  - intros a' Ha' Hne. unfold of_asset in *. destruct (asset_id a' =? ma_ident m) eqn:Hid; [|done]. zbool. exfalso.
    apply Hne. apply (NoDup_key asset_id _ _ _ (wft_assets _ _ Hw)); [done | done | congruence].
Qed.

Lemma total_received db asset addr n :
  wf_tables db addr -> only_token db asset addr ->
  total db asset addr n = sum_of (received db addr) (List.filter (up_to n) (block db)).
Proof. intros. apply sum_of_ext. intros. by apply received_only. Qed.

Lemma total_bound db asset addr n : wf_tables db addr -> only_token db asset addr -> 0 <= total db asset addr n < 2 ^ 128.
Proof. intros. rewrite total_received by done. by apply received_sum_bound. Qed.

Lemma total_mono db asset addr n n' :
  wf_tables db addr -> only_token db asset addr -> n <= n' -> total db asset addr n <= total db asset addr n'.
Proof.
  intros Hw Ho Hle. rewrite !total_received by done. apply sum_of_filter_le.
  - intros. by apply received_nonneg.
  - intros b _. unfold up_to. destruct (row_block_no (snd b)); [|done]. cbn. rewrite !Z.leb_le. lia.
Qed.

(** Between two neighbouring blocks the total grows by what the second one received. *)
Lemma total_step db asset addr n b :
  wf_tables db addr -> only_token db asset addr -> b ∈ block db -> is_Some (row_block_no (snd b)) -> n < number b ->
  (forall c, c ∈ block db -> is_Some (row_block_no (snd c)) -> n < number c <= number b -> c = b) ->
  total db asset addr (number b) = total db asset addr n + received db addr b.
Proof.
  intros Hw Ho Hb Hs Hn Hc. rewrite !total_received, !sum_of_filter by done.
  assert (received db addr b = sum_of (fun c => if in_range (n + 1) (number b) c then received db addr c else 0) (block db)) as ->.
  { rewrite (sum_of_single _ _ b).
    - destruct Hs as [k Hk]. unfold in_range, numbered_between, number in *. rewrite Hk in *. cbn in *.
      by rewrite (proj2 (Z.leb_le _ _)), Z.leb_refl by lia.
    - by eapply NoDup_fmap_1, block_key_NoDup.
    - done.
    - intros c Hin Hne. destruct (in_range (n + 1) (number b) c) eqn:Hr; [|done]. exfalso.
      apply in_range_number in Hr as (k & Hk & ?). apply Hne, Hc; [done | by eexists|].
      unfold number at 1 2. rewrite Hk. cbn. lia. }
  rewrite <- sum_of_plus. apply sum_of_ext. intros c _. unfold up_to, in_range, numbered_between.
  destruct (row_block_no (snd c)) as [k|]; [|done]. cbn [sql_true].
  destruct (Z.leb_spec k (number b)), (Z.leb_spec k n), (Z.leb_spec (n + 1) k); cbn; lia.
Qed.
End Totals.

(** ** The data source keeps its promise *)
Section Source.
Import Db Ledger TokenSource.
Context (scripts : NativeToken.MainChainScripts) (locked : McBlockHash -> Z).
Implicit Types (s : Source) (b c : Z * BlockRow).
#[local] Abbreviation asset := (to_db_asset (NativeToken.native_token_policy_id scripts) (NativeToken.native_token_asset_name scripts)).
#[local] Abbreviation addr := (NativeToken.illiquid_supply_validator_address scripts : bytes).

(** A cache is right when each entry but the first is what was locked since the one before. *)
Fixpoint telescopes (prev : McBlockHash) (l : Cache) : Prop :=
  match l with [] => True | (h, n) :: l' => n = locked h - locked prev /\ telescopes h l' end.
Definition cache_right (l : Cache) : Prop := match l with [] => True | (h, _) :: l' => telescopes h l' end.

Definition stable_row s b : Prop :=
  b ∈ block (pool s) /\ is_Some (row_block_no (snd b)) /\
  exists l, get_latest_block_info (block_rows (pool s)) = Ok (Some l) /\
    number b + security_parameter (impl s) <= block_no l.

Record tokens_sound s : Prop := {
  ts_impl : 0 <= security_parameter (impl s) /\ 0 <= cache_size (impl s);
  ts_address : utf8_valid addr = true;
  ts_tables : wf_tables (pool s) addr;
  ts_only : only_token (pool s) asset addr;
  ts_locked : forall b, stable_row s b -> locked (row_hash (snd b)) = total (pool s) asset addr (number b);
  ts_cache : cache_right (cache s)
}.
(** The source knows both blocks, they are stable, and [a] is not above [b]. *)
Definition db_serves s (a b : McBlockHash) : Prop :=
  exists ra rb, stable_row s ra /\ stable_row s rb /\ row_hash (snd ra) = a /\ row_hash (snd rb) = b /\ number ra <= number rb.

Lemma telescopes_take l h prev :
  telescopes prev l -> h ∈ map fst l ->
  sum_list (map snd (take_while_inclusive (fun e => negb (bool_decide (fst e = h))) l)) = locked h - locked prev.
Proof.
  unfold sum_list. revert prev. induction l as [|[h' n] l IH]; cbn; intros prev Ht Hin; [by apply elem_of_nil in Hin|].
  destruct Ht as [-> Ht]. destruct (bool_decide_reflect (h' = h)) as [->|Hne]; cbn; [lia|].
  rewrite (IH h' Ht); [lia|]. by apply elem_of_cons in Hin as [->|].
Qed.

Lemma telescopes_prefix l prev j :
  telescopes prev l -> forall e, l !! j = Some e -> sum_list (map snd (take (S j) l)) = locked (fst e) - locked prev.
Proof.
  revert prev j. induction l as [|[h n] l IH]; intros prev j Ht e He; [done|]. destruct Ht as [-> Ht].
  destruct j as [|j]; cbn in He |- *; [injection He as <-; rewrite take_0; cbn; lia|].
  unfold sum_list in *. rewrite (IH h j Ht e He). lia.
Qed.

Lemma telescopes_drop l prev i e :
  telescopes prev l -> l !! i = Some e -> telescopes (fst e) (drop (S i) l).
Proof.
  revert prev i. induction l as [|[h n] l IH]; intros prev i Ht He; [done|]. destruct Ht as [_ Ht].
  destruct i as [|i]; cbn in He |- *; [by injection He as <- | by eapply IH].
Qed.

Lemma cache_right_drop l i e : cache_right l -> l !! i = Some e -> telescopes (fst e) (drop (S i) l).
Proof.
  destruct l as [|[h n] l]; cbn; [done|]. intros Ht. destruct i as [|i]; cbn; [by intros [= <-]|]. by apply (telescopes_drop _ h).
Qed.

Lemma position_Some h l i : position h l = Some i -> exists n, l !! i = Some (h, n).
Proof.
  revert i. induction l as [|[h' n] l IH]; cbn; intros i; [done|].
  destruct (bool_decide_reflect (h' = h)) as [->|Hne]; [intros [= <-]; by exists n|].
  destruct (position h l) as [j|]; cbn; [|done]. intros [= <-]. by apply IH.
Qed.

(** The cache answers right. *)
Lemma sum_in_range_right l after to x :
  cache_right l -> after <> to -> get_sum_in_range l after to = Some x -> x = wrap 128 (locked to - locked after).
Proof.
  intros Hl Hne. unfold get_sum_in_range. simpl_monad.
  destruct (position after l) as [i|] eqn:Hi; cbn; [|done]. destruct (position to l) as [j|] eqn:Hj; cbn; [|done].
  apply position_Some in Hi as [n Hi], Hj as [n' Hj]. unfold get_range_inclusive.
  destruct (_ || _) eqn:Hb; cbn; [done|]. apply orb_false_iff in Hb as [Hb _]. apply Nat.ltb_ge in Hb.
  intros [= <-]. rewrite sum_width_spec by done. f_equal.
  assert (i <> j) by congruence. pose proof (cache_right_drop _ _ _ Hl Hi) as Ht. cbn [fst] in Ht.
  replace (S j - (i + 1))%nat with (S (j - S i)) by lia. rewrite Nat.add_1_r.
  rewrite (telescopes_prefix _ _ _ Ht (to, n')); [done|]. etransitivity; [apply lookup_drop|].
  by replace (S i + (j - S i))%nat with j by lia.
Qed.

(** *** Reading the database *)
Lemma stable_row_block s b :
  tokens_sound s -> stable_row s b -> exists blk,
    get_block_by_hash (block_rows (pool s)) (row_hash (snd b)) = Ok (Some blk) /\ block_no blk = number b /\
    0 <= number b < 2 ^ 31.
Proof.
  intros Hs (Hb & [n Hn] & _). pose proof (wft_blocks _ _ (ts_tables _ Hs)) as Hw.
  assert (snd b ∈ block_rows (pool s)) as Hr by by apply list_elem_of_fmap_2.
  destruct (wf_decode _ Hw _ Hr) as [blk Hblk]; [by eexists|].
  assert (blk ∈ blocks (block_rows (pool s))) as Hin by (apply elem_of_blocks; eauto).
  pose proof (by_hash_found _ _ Hw Hin) as Hf. destruct (wf_numbers _ Hw _ Hin) as [Hlt _].
  apply decode_block_Ok in Hblk as (Hno & Hh & _ & _ & Hpos & _). exists blk. rewrite Hh.
  unfold number. rewrite Hno. cbn. done.
Qed.

Lemma blocks_in_range_sorted db from to :
  wf_tables db addr -> StronglySorted (fun b c => number b < number c) (blocks_in_range db from to).
Proof.
  intros Hw. pose proof (sort_by_sorted (fun b b' => key_leb (block_key b) (block_key b')) ltac:(intros; apply key_leb_total)
    ltac:(intros ? ? ?; apply key_leb_trans) (List.filter (in_range from to) (block db))) as Hs.
  fold (blocks_in_range db from to) in Hs. assert (NoDup (blocks_in_range db from to)) as Hnd.
  { unfold blocks_in_range. rewrite sort_by_perm. apply NoDup_ListNoDup, List.NoDup_filter, NoDup_ListNoDup.
    by eapply NoDup_fmap_1, (block_key_NoDup _ addr). }
  assert (forall b, b ∈ blocks_in_range db from to -> b ∈ block db /\ in_range from to b = true) as Hin
    by (intros; by apply elem_of_blocks_in_range).
  induction Hs as [|b l Hl IH Hall]; [constructor|]. apply NoDup_cons in Hnd as [Hb Hnd].
  constructor; [apply IH; [done | intros; apply Hin; by right]|]. apply Forall_forall. intros c Hc.
  pose proof (proj1 (Forall_forall _ _) Hall c Hc) as Hle. unfold key_leb in Hle. cbn in Hle. zbool.
  fold (number b) (number c) in Hle. destruct (Hin b ltac:(left)) as [Hbin (n & Hn & _)%in_range_number].
  destruct (Hin c ltac:(by right)) as [Hcin (n' & Hn' & _)%in_range_number].
  assert (number b = n) by (unfold number; by rewrite Hn). assert (number c = n') by (unfold number; by rewrite Hn').
  destruct (decide (n = n')) as [<-|]; [|lia]. exfalso. apply Hb. by rewrite (block_no_key db addr b c n).
Qed.

Definition entry s b : McBlockHash * Z := (row_hash (snd b), received (pool s) addr b).

Lemma sorted_telescopes s b rest upper :
  tokens_sound s -> stable_row s b -> (forall c, c ∈ rest -> stable_row s c /\ number c <= upper) ->
  StronglySorted (fun b c => number b < number c) (b :: rest) ->
  (forall c, c ∈ block (pool s) -> is_Some (row_block_no (snd c)) -> number b < number c <= upper -> c ∈ rest) ->
  telescopes (row_hash (snd b)) (map (entry s) rest).
Proof.
  intros Hs. revert b. induction rest as [|c rest IH]; intros b Hb Hrest Hsort Hall; [done|].
  inversion Hsort as [|? ? Hsort' Hlt]; subst. inversion Hlt as [|? ? Hbc _]; subst.
  destruct (Hrest c ltac:(left)) as [Hc Hup]. inversion Hsort' as [|? ? _ Hcrest]; subst. split.
  - rewrite (ts_locked _ Hs b Hb), (ts_locked _ Hs c Hc).
    rewrite (total_step (pool s) asset addr (number b) c); [lia | apply Hs | apply Hs | apply Hc | apply Hc | done |].
    intros d Hd Hsome Hbd. assert (d ∈ c :: rest) as [->|Hin]%elem_of_cons by (apply Hall; [done | done | lia]); [done|].
    pose proof (proj1 (Forall_forall _ _) Hcrest d Hin). cbn in *. lia.
  - apply IH; [done | intros; apply Hrest; by right | done |]. intros d Hd Hsome Hcd.
    assert (d ∈ c :: rest) as [->|Hin]%elem_of_cons by (apply Hall; [done | done | lia]); [lia | done].
Qed.

(** The interval that goes to the cache. *)
Lemma range_list s b upper :
  tokens_sound s -> stable_row s b -> number b <= upper ->
  (forall l, get_latest_block_info (block_rows (pool s)) = Ok (Some l) -> upper + security_parameter (impl s) <= block_no l) ->
  exists rest, blocks_in_range (pool s) (number b) upper = b :: rest /\
    telescopes (row_hash (snd b)) (map (entry s) rest) /\
    forall c, stable_row s c -> number b < number c <= upper -> c ∈ rest.
Proof.
  intros Hs Hb Hup Hst. pose proof (blocks_in_range_sorted (pool s) (number b) upper (ts_tables _ Hs)) as Hsort.
  assert (forall c, c ∈ blocks_in_range (pool s) (number b) upper <->
    c ∈ block (pool s) /\ is_Some (row_block_no (snd c)) /\ number b <= number c <= upper) as Hin.
  { intros c. rewrite elem_of_blocks_in_range. unfold in_range, numbered_between, number at 3 4.
    destruct (row_block_no (snd c)) as [k|]; cbn.
    - rewrite andb_true_iff, !Z.leb_le. split; [intros (? & ? & ?); split_and!; [done | by eexists | done | done] | tauto].
    - split; [by intros [_ [=]] | by intros (_ & [? [=]] & _)]. }
  destruct (blocks_in_range (pool s) (number b) upper) as [|b0 rest].
  { exfalso. apply (elem_of_nil b), Hin. split; [apply Hb|]. split; [apply Hb | lia]. }
  destruct (proj1 (Hin b0) ltac:(left)) as (Hb0 & Hs0 & Hn0). inversion Hsort as [|? ? Hsort' Hlt]; subst.
  assert (b0 = b) as ->.
  { assert (b ∈ b0 :: rest) as [->|Hbr]%elem_of_cons
      by (apply Hin; split; [apply Hb | split; [apply Hb | lia]]); [done|].
    pose proof (proj1 (Forall_forall _ _) Hlt b Hbr). cbn in *. lia. }
  assert (forall c, c ∈ block (pool s) -> is_Some (row_block_no (snd c)) -> number b < number c <= upper -> c ∈ rest) as Hall.
  { intros c Hc Hsome Hbc. assert (c ∈ b :: rest) as [->|]%elem_of_cons
      by (apply Hin; split_and!; [done | done | lia | lia]); [lia | done]. }
  exists rest. split; [done|]. split; [|intros c (Hc & Hsome & _); by apply Hall].
  apply (sorted_telescopes s b rest upper); try done. intros c Hc.
  destruct (proj1 (Hin c) ltac:(by right)) as (Hcin & Hsome & Hcn). split; [|lia]. split; [done|]. split; [done|].
  destruct Hb as (_ & _ & l & Hl & _). exists l. split; [done|]. specialize (Hst l Hl). lia.
Qed.

Lemma stable_locked s b : tokens_sound s -> stable_row s b -> 0 <= locked (row_hash (snd b)) < 2 ^ 128.
Proof. intros Hs Hb. rewrite (ts_locked _ Hs b Hb). apply total_bound; apply Hs. Qed.

Lemma data_to_cache_spec s after to :
  tokens_sound s -> after <> to -> db_serves s after to ->
  exists n l, get_data_to_cache s after to (NativeToken.native_token_policy_id scripts)
      (NativeToken.native_token_asset_name scripts) addr = Done (Ok ((after, n) :: l)) /\
    telescopes after l /\ to ∈ map fst l.
Proof.
  intros Hs Hne (ra & rb & Ha & Hb & <- & <- & Hle). unfold get_data_to_cache, get_from_block_no, get_to_block_no, get_latest_block.
  destruct (stable_row_block s ra Hs Ha) as (ka & Hka & Hkan & Hna). destruct (stable_row_block s rb Hs Hb) as (kb & Hkb & Hkbn & Hnb).
  pose proof Ha as (_ & _ & l & Hl & Hla). pose proof Hb as (_ & _ & l' & Hl' & Hlb). rewrite Hl in Hl'. injection Hl' as <-.
  rewrite Hka, Hkb, Hl. simpl_monad. rewrite Hkan, Hkbn. set (upper := Z.min _ _).
  pose proof (latest_spec _ (wft_blocks _ _ (ts_tables _ Hs))) as Hsp. rewrite Hl in Hsp. destruct Hsp as [Hlin _].
  destruct (wf_numbers _ (wft_blocks _ _ (ts_tables _ Hs)) l Hlin) as [Hln _]. destruct (ts_impl _ Hs) as [Hk Hcs].
  assert (number rb <= upper /\ upper + security_parameter (impl s) <= block_no l /\ upper < 2 ^ 31) as (Hub & Hul & Hu)
    by (unfold upper, saturating_sub, saturating_add, max_value; lia).
  destruct (range_list s ra upper Hs Ha ltac:(lia)) as (rest & Hrest & Htel & Hall).
  { intros l2 Hl2. rewrite Hl in Hl2. by injection Hl2 as <-. }
  unfold query_db, MainchainAddress_to_string, from_utf8. rewrite (ts_address _ Hs). simpl_monad.
  rewrite transfers_query by (apply Hs || lia). rewrite Hrest. simpl_monad.
  exists (received (pool s) addr ra), (map (entry s) rest). split; [|split; [done|]].
  - cbn [map block_hash amount]. do 3 f_equal. by rewrite map_map.
  - rewrite map_map. change (row_hash (snd rb)) with ((fun b => fst (entry s b)) rb). apply list_elem_of_fmap_2.
    apply Hall; [done|]. split; [|lia]. destruct (decide (number ra = number rb)) as [Heq|]; [|lia].
    exfalso. apply Hne. f_equal. f_equal. destruct Ha as (Hain & [n Hn] & _), Hb as (Hbin & [m Hm] & _).
    apply (block_no_key (pool s) addr ra rb n); [apply Hs | done | done | done |].
    unfold number in Heq. rewrite Hn, Hm in Heq. cbn in Heq. congruence.
Qed.

Lemma update_sound s l : tokens_sound s -> cache_right l -> tokens_sound (update l s).
Proof. by intros [H1 H2 H3 H4 H5 H6] Hl. Qed.

(** An answer is what was locked in between. *)
Lemma db_token_answer s after to :
  tokens_sound s -> db_serves s (default to after) to -> exists l,
    total_native_token_transfer after to (NativeToken.native_token_policy_id scripts)
      (NativeToken.native_token_asset_name scripts) addr s = (update l s, Done (Ok (locked to - default 0 (locked <$> after)))) /\
    cache_right l.
Proof.
  intros Hs Hsrv. assert (update (cache s) s = s) as Hid by by destruct s.
  destruct after as [after|]; cbn [default from_option id fmap option_fmap option_map] in *.
  - pose proof Hsrv as (ra & rb & Ha & Hb & Hha & Hhb & Hle).
    assert (0 <= locked to - locked after < 2 ^ 128) as Hrange.
    { assert (locked after = total (pool s) asset addr (number ra)) as -> by (rewrite <- Hha; by apply ts_locked).
      assert (locked to = total (pool s) asset addr (number rb)) as -> by (rewrite <- Hhb; by apply ts_locked).
      pose proof (total_mono (pool s) asset addr _ _ (ts_tables _ Hs) (ts_only _ Hs) Hle).
      pose proof (total_bound (pool s) asset addr (number ra) (ts_tables _ Hs) (ts_only _ Hs)).
      pose proof (total_bound (pool s) asset addr (number rb) (ts_tables _ Hs) (ts_only _ Hs)). lia. }
    unfold total_native_token_transfer. case_bool_decide as Heq.
    { exists (cache s). rewrite Hid, Heq, Z.sub_diag. split; [done | apply Hs]. }
    destruct (get_sum_in_range (cache s) after to) as [x|] eqn:Hsum.
    { apply sum_in_range_right in Hsum as ->; [|apply Hs|done]. exists (cache s). rewrite Hid, wrap_small by done.
      split; [done | apply Hs]. }
    destruct (data_to_cache_spec s after to Hs Heq Hsrv) as (n & l & Hd & Htel & Hin).
    unfold bind_stateful, stateless. rewrite Hd. exists ((after, n) :: l). split; [|done]. cbn [drop].
    rewrite sum_width_small by (done || by rewrite (telescopes_take _ _ after)). by rewrite (telescopes_take _ _ after).
  - destruct Hsrv as (_ & rb & _ & Hb & _ & <- & _). exists (cache s). rewrite Hid, Z.sub_0_r. split; [|apply Hs].
    unfold total_native_token_transfer, stateless, query_transfers_from_genesis, get_to_block_no.
    destruct (stable_row_block s rb Hs Hb) as (kb & Hkb & Hkbn & Hnb). rewrite Hkb. simpl_monad. rewrite Hkbn.
    unfold MainchainAddress_to_string, from_utf8. rewrite (ts_address _ Hs). simpl_monad.
    rewrite total_query_sum. unfold sql_int. rewrite (proj2 (Z.ltb_lt _ _)) by lia. fold (total (pool s) asset addr (number rb)).
    unfold decode_amount. rewrite (ts_locked _ Hs rb Hb).
    by rewrite (proj2 (try_into_width_Some 128 _ (total (pool s) asset addr (number rb)))) by (split; [apply total_bound; apply Hs | done]).
Qed.

#[export] Instance db_sync_native_token_laws : NativeTokenLaws scripts locked.
Proof.
  refine {| tokens_ok := tokens_sound; tokens_serves := db_serves |}.
  - intros s a b (ra & rb & _ & Hb & _ & Hh & _). by exists rb, rb.
  - intros s a b Hs (ra & rb & Ha & Hb & <- & <- & Hle). split; [by apply (stable_locked s)|].
    rewrite (ts_locked _ Hs ra Ha), (ts_locked _ Hs rb Hb). by apply total_mono; [apply Hs | apply Hs |].
  - intros s after to Hs Hsrv. destruct (db_token_answer s after to Hs Hsrv) as (l & Heq & Hl).
    exists (update l s). split; [exact Heq|]. split; [by apply update_sound | done].
Defined.
End Source.

(** ** Requests over time *)
Section Requests.
Import Db Ledger TokenSource.
(** A node asks for transfers while its database changes; the cache is kept. *)
Definition TokenRequest : Type := Tables * option McBlockHash * McBlockHash.
Fixpoint answer_tokens (scripts : NativeToken.MainChainScripts) (c : NativeTokenManagementDataSourceImpl) (l : Cache)
    (requests : list TokenRequest) : list (fallible string NativeTokenAmount) :=
  match requests with
  | [] => []
  | (db, after, to) :: requests' =>
      let '(s, r) := NativeToken.get_total_native_token_transfer after to (NativeToken.native_token_policy_id scripts)
        (NativeToken.native_token_asset_name scripts) (NativeToken.illiquid_supply_validator_address scripts) (mkSource c db l) in
      r :: answer_tokens scripts c (cache s) requests'
  end.
(** The database agrees with the main chain on stable blocks, and knows the blocks of the request. *)
Definition answerable scripts locked (c : NativeTokenManagementDataSourceImpl) (request : TokenRequest) : Prop :=
  let '(db, after, to) := request in
  tokens_sound scripts locked (mkSource c db []) /\ db_serves (mkSource c db []) (default to after) to.
End Requests.

Lemma answer_tokens_right scripts locked c requests l :
  cache_right locked l -> Forall (answerable scripts locked c) requests ->
  answer_tokens scripts c l requests =
    map (fun '(_, after, to) => Done (Ok (locked to - default 0 (locked <$> after)))) requests.
Proof.
  revert l. induction requests as [|[[db after] to] requests IH]; intros l Hl Hr; [done|].
  inversion Hr as [|? ? Ha Hr']; subst. cbn [answerable] in Ha. destruct Ha as [Hs Hsrv]. cbn [answer_tokens map].
  destruct (db_token_answer scripts locked (TokenSource.mkSource c db l) after to) as (l' & Heq & Hl').
  - destruct Hs as [H1 H2 H3 H4 H5 _]. by split.
  - exact Hsrv.
  - unfold NativeToken.get_total_native_token_transfer, TokenSource.db_sync_native_token. rewrite Heq. f_equal. by apply IH.
Qed.

(** C14: The native token data source answers with main chain facts, whatever is in its
    cache: over any sequence of requests, with any states of the database that agree with
    the main chain on stable blocks in between, each answer is what was locked at the
    supply address after one block and up to the other, when the address holds only the
    native token. No request fails and no sum overflows. *)
Theorem token_requests_answered scripts locked c requests :
  Forall (answerable scripts locked c) requests ->
  answer_tokens scripts c [] requests =
    map (fun '(_, after, to) => Done (Ok (locked to - default 0 (locked <$> after)))) requests.
Proof. by apply answer_tokens_right. Qed.

(** ** Examples *)
Module ExampleTokens.
Import ExampleChain2 Db Ledger TokenSource.
(** Every block has a transaction that sends five tokens to the supply address. *)
Definition policy : PolicyId := replicate 28 7.
Definition name : AssetName := [78; 73].
Definition supply : MainchainAddress := [97; 100; 100; 114].
Definition scripts := NativeToken.mkMainChainScripts policy name supply.
Definition tables (n : Z) : Tables := mkTables
  (map (fun i => (i, row i)) (seqZ 0 n))
  (map (fun i => mkTxRow (100 + i) (replicate 32 (100 + i)) i 0) (seqZ 0 n))
  (map (fun i => mkTxOutRow (200 + i) (100 + i) 0 supply None) (seqZ 0 n))
  (map (fun i => mkMaTxOutRow 5 (200 + i) 1) (seqZ 0 n))
  [mkMultiAssetRow 1 policy name].
Definition locked (h : McBlockHash) : Z := 5 * (hd 0 h + 1).
Definition impl := mkImpl 2 3.
Definition source (n : Z) : Source := mkSource impl (tables n) [].
(** The same chain where someone also sends another token in block 4. *)
Definition foreign : Tables :=
  let db := tables 9 in
  mkTables (block db) (tx db) (tx_out db) (mkMaTxOutRow 1000 204 2 :: ma_tx_out db)
    (mkMultiAssetRow 2 (replicate 28 9) [] :: multi_asset db).

Lemma elem_of_block n b : b ∈ block (tables n) <-> exists i, 0 <= i < n /\ b = (i, row i).
Proof.
  unfold tables. cbn [block]. rewrite list_elem_of_fmap. setoid_rewrite elem_of_seqZ. split.
  - intros (i & -> & Hi). exists i. split; [lia|done].
  - intros (i & Hi & ->). exists i. split; [done|lia].
Qed.
Lemma block_rows_tables n : block_rows (tables n) = rows n.
Proof. unfold block_rows, tables, rows. cbn [block]. by rewrite map_map. Qed.

Lemma tables_wf n : 1 <= n <= 9 -> wf_tables (tables n) supply.
Proof.
  intros Hn. split.
  - rewrite block_rows_tables. apply rows_wf. lia.
  - rewrite block_rows_tables. unfold rows. rewrite map_map. apply NoDup_fmap_2_strong; [|apply NoDup_seqZ].
    intros i j _ _ Heq. by injection Heq.
  - repeat constructor. apply not_elem_of_nil.
  - intros m (i & -> & _)%list_elem_of_fmap. done.
  - pose proof (check_range (fun n => sum_of (received (tables n) supply) (block (tables n)) <? 2 ^ 128) 1 9 n eq_refl ltac:(lia)).
    by apply Z.ltb_lt.
Qed.
Lemma tables_only n : only_token (tables n) (to_db_asset policy name) supply.
Proof.
  intros o m _ (i & -> & _)%list_elem_of_fmap _ _. exists (mkMultiAssetRow 1 policy name). split; [left|]. reflexivity.
Qed.
Lemma tables_total n i : 1 <= n <= 9 -> 0 <= i < n -> total (tables n) (to_db_asset policy name) supply i = 5 * (i + 1).
Proof.
  intros Hn Hi. pose proof (check_range (fun n => forallb (fun i => total (tables n) (to_db_asset policy name) supply i =? 5 * (i + 1))
    (seqZ 0 n)) 1 9 n eq_refl ltac:(lia)) as Hall. cbn beta in Hall. rewrite forallb_forall in Hall.
  apply Z.eqb_eq, Hall, list_elem_of_In, elem_of_seqZ. lia.
Qed.
Lemma source_tokens_sound n : 1 <= n <= 9 -> tokens_sound scripts locked (source n).
Proof.
  intros Hn. split; [done | done | by apply tables_wf | by apply tables_only | | done].
  intros b (Hb & _ & _). cbn [pool source] in *. apply elem_of_block in Hb as (i & Hi & ->).
  change (number (i, row i)) with i. cbn [snd row row_hash]. rewrite tables_total by done. reflexivity.
Qed.
Lemma source_serves n i j : 3 <= n <= 9 -> 0 <= i <= j -> j + 3 <= n -> db_serves (source n) (replicate 32 i) (replicate 32 j).
Proof.
  intros Hn Hi Hj.
  assert (get_latest_block_info (rows n) = Ok (Some (ExampleChain2.block (n - 1)))) as Hl.
  { pose proof (check_range (fun n => bool_decide (get_latest_block_info (rows n) = Ok (Some (ExampleChain2.block (n - 1))))) 3 7 n
      eq_refl ltac:(lia)) as Hb. by apply bool_decide_eq_true in Hb. }
  assert (forall k, 0 <= k -> k + 3 <= n -> stable_row (source n) (k, row k)) as Hs.
  { intros k Hk Hkn. split; [apply elem_of_block; exists k; split; [lia|done]|]. split; [by eexists|].
    exists (ExampleChain2.block (n - 1)). cbn [pool source]. rewrite block_rows_tables. split; [exact Hl|]. cbn. lia. }
  exists (i, row i), (j, row j). split_and!; [apply Hs; lia | apply Hs; lia | done | done | cbn; lia].
Qed.
End ExampleTokens.

(** The range query counts every token at the supply address, not only the native one:
    when someone sends other tokens there, what a block reports exceeds the native tokens
    locked since its parent (which the genesis query reports), so more are released than
    were locked. *)
Theorem foreign_tokens_are_counted :
  let asset := Ledger.to_db_asset ExampleTokens.policy ExampleTokens.name in
  wf_tables ExampleTokens.foreign ExampleTokens.supply /\
  Ledger.get_total_native_tokens_transfered ExampleTokens.foreign 3 asset ExampleTokens.supply = Ok 20 /\
  Ledger.get_total_native_tokens_transfered ExampleTokens.foreign 4 asset ExampleTokens.supply = Ok 25 /\
  snd (TokenSource.total_native_token_transfer (Some (replicate 32 3)) (replicate 32 4) ExampleTokens.policy
    ExampleTokens.name ExampleTokens.supply (TokenSource.mkSource ExampleTokens.impl ExampleTokens.foreign [])) = Done (Ok 1005).
Proof.
  cbn zeta. destruct (ExampleTokens.tables_wf 9 ltac:(lia)) as [H1 H2 H3 H4 H5].
  split; [|split; [reflexivity | split; [reflexivity | vm_compute; reflexivity]]]. split.
  - exact H1.
  - exact H2.
  - cbn. repeat constructor; [by intros ?%list_elem_of_singleton | apply not_elem_of_nil].
  - intros m [->|Hm]%elem_of_cons; [done|]. by apply H4.
  - vm_compute. reflexivity.
Qed.

Section Witnesses.
Import ExampleTokens.

(** The second request is answered from the cache, the third after the database grew. *)
Lemma token_requests_answered_witness :
  let requests := [(tables 6, Some (replicate 32 1), replicate 32 3); (tables 6, Some (replicate 32 2), replicate 32 3);
    (tables 9, Some (replicate 32 3), replicate 32 6); (tables 9, None, replicate 32 6)] in
  answer_tokens scripts impl [] requests = [Done (Ok 10); Done (Ok 5); Done (Ok 15); Done (Ok 35)].
Proof.
  cbn zeta. refine (token_requests_answered scripts locked impl _ _).
  repeat (apply Forall_cons; split); try apply Forall_nil; [..|done];
    (split; [apply source_tokens_sound; lia | apply source_serves; lia]).
Defined.

(** The first block of a chain, on the db-sync source. *)
Lemma native_tokens_conserved_witness :
  exists s st, NativeToken.handler_state st = 10 /\ NativeToken.Initialized st = true /\
    forall mc_hash, db_serves s (replicate 32 1) mc_hash ->
      exists s' st', TokenChain.block (Some (replicate 32 1)) mc_hash s st = (s', Done (Some st')) /\
        NativeToken.handler_state st' = 10 + (locked mc_hash - 10).
Proof.
  destruct (TokenChain.block None (replicate 32 1) (source 6) (NativeToken.build scripts 0)) as [s r] eqn:Hb.
  assert (r = Done (Some (NativeToken.mkState (Some scripts) true 10))) as -> by (vm_compute in Hb; by injection Hb as _ <-).
  exists s, (NativeToken.mkState (Some scripts) true 10). split; [reflexivity|]. split; [reflexivity|].
  apply (@native_tokens_conserved TokenSource.Source _ (eq scripts) (fun _ => locked)
    (@one_scripts_laws _ _ scripts locked (db_sync_native_token_laws scripts locked)) scripts [TokenChain.Refers (replicate 32 1)] s).
  apply (TokenChain.reach_block _ _ _ [] (source 6) (NativeToken.build scripts 0)); [| |exact Hb].
  - apply TokenChain.reach_genesis; [reflexivity|]. apply source_tokens_sound. lia.
  - apply source_serves; lia.
Defined.
End Witnesses.
