(* ===== verification/DbCandidates.v ===== *)
(** * Committee candidates from db-sync

    [toolkit/mainchain-follower/db-sync-follower]: the queries of [db_model.rs] on
    registrations, stake, tokens and nonces, and the candidates data source
    ([candidates/mod.rs], [candidates/datum.rs]); [CandidatesCache] has its cache.

    Third-party: the JSON form of datums ([DatumJson]) and [blake2b]. The order of a query without [ORDER BY] and of a [HashMap]'s entries is
    unspecified: it is the parameter [any_order]. *)

From S2P Require Import Prelude Domain Sql McEpoch Slots McHash DbBlocks DbNativeToken Json PlutusDatums Selection Cbor Ariadne Committee AriadneInherent Agreement.
#[local] Open Scope list_scope.

Class AnyOrder := any_order : forall {A : Type}, list A -> list A.
Class AnyOrderLaws `{AnyOrder} : Prop := any_order_perm : forall {A} (l : list A), any_order l ≡ₚ l.
Class DatumJson `{Csl} := {
  Jsonb : Type;
  jsonb_eq_dec : EqDecision Jsonb;
  encode_json_value_to_plutus_datum : Jsonb -> result string PlutusData
}.
#[export] Existing Instance jsonb_eq_dec.
Class Blake2b := blake2b : bytes -> bytes.

(** ** Tables and queries *)
Module CandidatesDb.
Import Db Ledger.
Section Queries.
Context `{HexCodec, DatumJson, AnyOrder}.

Record TxInRow := mkTxInRow { in_id : Z; in_tx_in_id : Z; in_tx_out_id : Z; in_tx_out_index : Z }.
Record DatumRow := mkDatumRow { datum_hash : bytes; datum_value : option Jsonb }.
Record EpochStakeRow := mkEpochStakeRow { es_pool_id : Z; es_amount : Z; es_epoch_no : Z }.
Record PoolHashRow := mkPoolHashRow { ph_id : Z; ph_hash_raw : bytes }.
Record EpochParamRow := mkEpochParamRow { ep_epoch_no : Z; ep_nonce : option bytes }.
Record Database := mkDatabase {
  ledger : Tables;
  tx_in : list TxInRow;
  datum : list DatumRow;
  epoch_stake : list EpochStakeRow;
  pool_hash : list PoolHashRow;
  epoch_param : list EpochParamRow
}.

(** [ORDER BY slot_no DESC LIMIT 1]. *)
Definition slot_leb (a b : BlockRow) : bool := default (-1) (row_slot_no a) <=? default (-1) (row_slot_no b).
Definition get_latest_block_for_epoch (db : Database) (epoch : Z) : result string (option Block) :=
  decode_optional (max_by slot_leb (List.filter (fun r =>
    sql_true (fun e => e <=? sql_int 32 epoch) (row_epoch_no r) &&
    bool_decide (is_Some (row_slot_no r)) && bool_decide (is_Some (row_block_no r))) (block_rows (ledger db)))).

Definition get_latest_stable_epoch (db : Database) (security_parameter : Z) : result string (option Z) :=
  let rows := inner_join (fun block stable => match row_block_no block, row_block_no stable with
      | Some n, Some m => n - sql_int 32 security_parameter =? m | _, _ => false end)
    (block_rows (ledger db)) (block_rows (ledger db)) in
  let rows := List.filter (fun x => bool_decide (is_Some (row_block_no (fst x)))) rows in
  match max_by (fun x y => row_no_leb (fst x) (fst y)) rows with
  | None => Ok None
  | Some (_, stable) => e ← decode_unsigned (option_map (fun e => e - 1) (row_epoch_no stable)); Ok (Some e)
  end.

Record StakePoolEntry := mkStakePoolEntry { spe_pool_hash : bytes; spe_stake : Z }.
Definition get_stake_distribution (db : Database) (epoch : Z) : result string (list StakePoolEntry) :=
  let rows := inner_join (fun es ph => es_pool_id es =? ph_id ph) (epoch_stake db) (pool_hash db) in
  let rows := List.filter (fun x => es_epoch_no (fst x) =? sql_int 32 epoch) rows in
  collect_results (fun '(hash, rows) =>
      hash ← ok_or (to_array 28 hash) "invalid length"%string;
      stake ← ok_or (try_into_width 64 (sum_of (fun x => es_amount (fst x)) rows)) "StakeDelegation is always a u64"%string;
      Ok (mkStakePoolEntry hash stake))
    (any_order (group_by (fun x => ph_hash_raw (snd x)) rows)).

(** [Option<DbDatum>]. *)
Definition decode_datum (d : option DatumRow) : result string (option PlutusData) :=
  match option_bind _ _ datum_value d with
  | None => Ok None
  | Some j => d ← encode_json_value_to_plutus_datum j; Ok (Some d)
  end.

Record TokenTxOutput := mkTokenTxOutput {
  tto_origin_tx_hash : bytes; tto_utxo_index : Z; tto_tx_epoch_no : Z; tto_tx_block_no : Z; tto_tx_slot_no : Z;
  tto_tx_block_index : Z; tto_datum : option PlutusData }.
(** [ORDER BY tx_block_no DESC, block_index DESC LIMIT 1]; nulls come first. *)
Definition null_first_leb (a b : option Z) : bool :=
  match a, b with _, None => true | None, Some _ => false | Some a, Some b => a <=? b end.
Definition position_leb (x y : option Z * Z) : bool :=
  if bool_decide (fst x = fst y) then snd x <=? snd y else null_first_leb (fst x) (fst y).
Definition TokenJoin : Type := MaTxOutRow * MultiAssetRow * TxOutRow * TxRow * (Z * BlockRow) * option DatumRow.
Definition token_joins (db : Database) : list TokenJoin :=
  let l := ledger db in
  let rows := inner_join (fun m a => ma_ident m =? asset_id a) (ma_tx_out l) (multi_asset l) in
  let rows := inner_join (fun '(m, _) o => ma_tx_out_id m =? out_id o) rows (tx_out l) in
  let rows := inner_join (fun '(_, o) t => out_tx_id o =? tx_id t) rows (tx l) in
  let rows := inner_join (fun '(_, t) b => tx_block_id t =? fst b) rows (block l) in
  left_join (fun '(_, _, o, _, _) d => sql_true (fun h => bool_decide (h = datum_hash d)) (out_data_hash o)) rows (datum db).
Definition token_where (asset : Asset) (epoch : Z) : TokenJoin -> bool := fun '(_, a, _, _, b, _) =>
  is_asset asset a && sql_true (fun e => e <=? epoch) (row_epoch_no (snd b)).
Definition token_position : TokenJoin -> option Z * Z := fun '(_, _, _, t, b, _) => (row_block_no (snd b), tx_block_index t).
Definition decode_token_output : TokenJoin -> result string TokenTxOutput := fun '(_, _, o, t, b, d) =>
  hash ← ok_or (to_array 32 (tx_hash t)) "invalid length"%string;
  index ← decode_unsigned (Some (out_index o));
  epoch_no ← decode_unsigned (row_epoch_no (snd b));
  block_no ← decode_unsigned (row_block_no (snd b));
  slot_no ← decode_unsigned (row_slot_no (snd b));
  block_index ← decode_unsigned (Some (tx_block_index t));
  datum ← decode_datum d;
  Ok (mkTokenTxOutput hash index epoch_no block_no slot_no block_index datum).
Definition get_token_utxo_for_epoch (db : Database) (asset : Asset) (epoch : Z) : result string (option TokenTxOutput) :=
  let rows := List.filter (token_where asset (sql_int 32 epoch)) (token_joins db) in
  match max_by (fun x y => position_leb (token_position x) (token_position y)) (any_order rows) with
  | None => Ok None
  | Some row => output ← decode_token_output row; Ok (Some output)
  end.

Definition get_epoch_nonce (db : Database) (epoch : Z) : result string (option bytes) :=
  match List.find (fun r => ep_epoch_no r =? sql_int 32 epoch) (any_order (epoch_param db)) with
  | None => Ok None
  | Some r => nonce ← ok_or (ep_nonce r) "unexpected null; try decoding as an `Option`"%string; Ok (Some nonce)
  end.

(** [concat_ws('#', a, b)] skips nulls. *)
Definition concat_ws (a b : option str) : str :=
  match a, b with
  | Some a, Some b => a ++ HASH_SIGN :: b
  | Some a, None => a
  | None, Some b => b
  | None, None => []
  end.

Record MainchainTxOutputRow := mkTxOutputRow {
  tor_utxo_id_tx_hash : bytes; tor_utxo_id_index : Z; tor_tx_block_no : option Z; tor_tx_slot_no : option Z;
  tor_tx_epoch_no : option Z; tor_tx_index_in_block : Z; tor_address : bytes; tor_datum : option Jsonb;
  tor_tx_inputs : list str }.
Record MainchainTxOutput := mkMainchainTxOutput {
  mto_utxo_id : UtxoId; mto_tx_block_no : Z; mto_tx_slot_no : Z; mto_tx_epoch_no : Z; mto_tx_index_in_block : Z;
  mto_address : bytes; mto_datum : option PlutusData; mto_tx_inputs : list UtxoId }.

(** The columns of [GROUP BY]. *)
Definition GroupKey : Type := bytes * Z * option Z * option Z * option Z * Z * bytes * option Jsonb.

Definition MainchainTxOutput_try_from (r : MainchainTxOutputRow) : result string MainchainTxOutput :=
  hash ← ok_or (to_array 32 (tor_utxo_id_tx_hash r)) "invalid length"%string;
  index ← decode_unsigned (Some (tor_utxo_id_index r));
  block_no ← decode_unsigned (tor_tx_block_no r);
  slot_no ← decode_unsigned (tor_tx_slot_no r);
  epoch_no ← decode_unsigned (tor_tx_epoch_no r);
  tx_index ← decode_unsigned (Some (tor_tx_index_in_block r));
  datum ← decode_datum (Some (mkDatumRow [] (tor_datum r)));
  tx_inputs ← collect_results UtxoId_from_str (tor_tx_inputs r);
  Ok (mkMainchainTxOutput (mkUtxoId hash index) block_no slot_no epoch_no tx_index (tor_address r) datum tx_inputs).

(** The joined row, in the order of the [JOIN]s. *)
Definition UtxoJoin : Type := TxOutRow * TxRow * (Z * BlockRow) * option TxInRow * option TxRow * option (Z * BlockRow) *
  option TxInRow * option TxOutRow * option TxRow * option DatumRow.
Definition utxo_group : UtxoJoin -> GroupKey := fun '(o, t, b, _, _, _, _, _, _, d) =>
  (tx_hash t, out_index o, row_block_no (snd b), row_slot_no (snd b), row_epoch_no (snd b), tx_block_index t,
   out_address o, option_bind _ _ datum_value d).
Definition consumed_output : UtxoJoin -> str := fun '(_, _, _, _, _, _, xi, _, xt, _) =>
  concat_ws (option_map (fun xt => hex_display (tx_hash xt)) xt) (option_map (fun xi => dec_display (in_tx_out_index xi)) xi).

Definition utxo_joins (db : Database) : list UtxoJoin :=
  let l := ledger db in
  let rows := inner_join (fun o t => out_tx_id o =? tx_id t) (tx_out l) (tx l) in
  let rows := inner_join (fun '(_, t) b => tx_block_id t =? fst b) rows (block l) in
  let rows := left_join (fun '(o, _, _) ci => (out_tx_id o =? in_tx_out_id ci) && (out_index o =? in_tx_out_index ci))
    rows (tx_in db) in
  let rows := left_join (fun '(_, ci) ct => sql_true (fun ci => in_tx_in_id ci =? tx_id ct) ci) rows (tx l) in
  let rows := left_join (fun '(_, ct) cb => sql_true (fun ct => tx_block_id ct =? fst cb) ct) rows (block l) in
  let rows := left_join (fun '(_, t, _, _, _, _) xi => in_tx_in_id xi =? tx_id t) rows (tx_in db) in
  let rows := left_join (fun '(_, xi) xo => sql_true (fun xi =>
    (out_tx_id xo =? in_tx_out_id xi) && (in_tx_out_index xi =? out_index xo)) xi) rows (tx_out l) in
  let rows := left_join (fun '(_, xo) xt => sql_true (fun xo => tx_id xt =? out_tx_id xo) xo) rows (tx l) in
  left_join (fun '(o, _, _, _, _, _, _, _, _) d => sql_true (fun h => bool_decide (h = datum_hash d)) (out_data_hash o))
    rows (datum db).
Definition utxo_where (address : bytes) (block : Z) : UtxoJoin -> bool := fun '(o, _, b, ci, _, cb, _, _, _, _) =>
  bool_decide (out_address o = address) && sql_true (fun n => n <=? block) (row_block_no (snd b)) &&
  (bool_decide (ci = None) || sql_true (fun cb => sql_true (fun n => block <? n) (row_block_no (snd cb))) cb).

Definition get_utxos_for_address (db : Database) (address : bytes) (block : Z) : result string (list MainchainTxOutput) :=
  let rows := List.filter (utxo_where address (sql_int 32 block)) (utxo_joins db) in
  collect_results (fun '((hash, index, block_no, slot_no, epoch_no, tx_index, address, datum), rows) =>
      MainchainTxOutput_try_from (mkTxOutputRow hash index block_no slot_no epoch_no tx_index address datum
        (map consumed_output rows)))
    (any_order (group_by utxo_group rows)).
End Queries.
End CandidatesDb.

(** ** The data source *)
Module CandidatesSource.
Import Db Ledger CandidatesDb.
Section Impl.
Context `{HexCodec, DatumJson, AnyOrder, Blake2b}.

Definition from_vkey (vkey : MainchainPublicKey) : MainchainAddressHash := blake2b vkey.

Record ParsedCandidate := mkParsedCandidate {
  pc_utxo_info : UtxoInfo; pc_datum : RegisterValidatorDatum; pc_tx_inputs : list UtxoId }.
Record RegisteredCandidate := mkRegisteredCandidate {
  rc_mainchain_pub_key : MainchainPublicKey; rc_consumed_input : UtxoId; rc_tx_inputs : list UtxoId;
  rc_sidechain_signature : SidechainSignature; rc_mainchain_signature : MainchainSignature;
  rc_cross_chain_signature : CrossChainSignature; rc_sidechain_pub_key : SidechainPublicKey;
  rc_cross_chain_pub_key : CrossChainPublicKey; rc_aura_pub_key : AuraPublicKey;
  rc_grandpa_pub_key : GrandpaPublicKey; rc_utxo_info : UtxoInfo }.

Definition get_epoch_of_data_storage (epoch_of_data_usage : McEpochNumber) : result string McEpochNumber :=
  if epoch_of_data_usage <? 2 then Err "Minimum supported epoch of data usage is 2"%string
  else Ok (epoch_of_data_usage - 2).

(** [parse_candidates]: outputs without a readable datum are logged and skipped. *)
Definition parse_candidate (output : MainchainTxOutput) : option ParsedCandidate :=
  datum ← mto_datum output;
  register_validator_datum ← ok (PlutusDatums.decode datum : DecodingResult RegisterValidatorDatum);
  Some (mkParsedCandidate
    (mkUtxoInfo (mto_utxo_id output) (mto_tx_epoch_no output) (mto_tx_block_no output) (mto_tx_slot_no output)
       (mto_tx_index_in_block output))
    register_validator_datum (mto_tx_inputs output)).
Definition parse_candidates (outputs : list MainchainTxOutput) : list ParsedCandidate := omap parse_candidate outputs.

Definition convert_candidate (c : ParsedCandidate) : RegisteredCandidate :=
  let 'RegisterV0 d := pc_datum c in
  mkRegisteredCandidate (abs_pub_key (rv_stake_ownership d)) (rv_consumed_input d) (pc_tx_inputs c)
    (rv_sidechain_signature d) (abs_signature (rv_stake_ownership d)) (rv_sidechain_signature d)
    (rv_sidechain_pub_key d) (rv_sidechain_pub_key d) (rv_aura_pub_key d) (rv_grandpa_pub_key d) (pc_utxo_info c).
Definition convert_utxos_to_candidates (outputs : list MainchainTxOutput) : result string (list RegisteredCandidate) :=
  Ok (map convert_candidate (parse_candidates outputs)).

Definition get_last_block_for_epoch (db : Database) (epoch : Z) : result string (option Z) :=
  block_option ← get_latest_block_for_epoch db epoch; Ok (option_map block_no block_option).
Definition get_registered_candidates (db : Database) (epoch : Z) (committee_candidate_address : MainchainAddress)
    : fallible string (list RegisteredCandidate) :=
  registrations_block_for_epoch ←? lift (get_last_block_for_epoch db epoch);
  address ←? run (MainchainAddress_to_string committee_candidate_address);
  active_utxos ←? lift (match registrations_block_for_epoch with
                        | Some block => get_utxos_for_address db address block
                        | None => Ok []
                        end);
  lift (convert_utxos_to_candidates active_utxos).

(** [into_group_map_by], a [HashMap]. *)
Definition group_candidates_by_mc_pub_key (candidates : list RegisteredCandidate)
    : list (MainchainPublicKey * list RegisteredCandidate) := group_by rc_mainchain_pub_key candidates.
Definition make_registration_data (c : RegisteredCandidate) : RegistrationData :=
  mkRegistrationData (rc_consumed_input c) (rc_sidechain_signature c) (rc_mainchain_signature c)
    (rc_cross_chain_signature c) (rc_sidechain_pub_key c) (rc_cross_chain_pub_key c) (rc_utxo_info c) (rc_tx_inputs c)
    (rc_aura_pub_key c) (rc_grandpa_pub_key c).

Definition make_stake_map (stake_pool_entries : list StakePoolEntry) : gmap bytes StakeDelegation :=
  foldl (fun m e => <[spe_pool_hash e := spe_stake e]> m) ∅ stake_pool_entries.
Definition get_stake_delegation (stake_map : gmap bytes StakeDelegation) (mainchain_pub_key : MainchainPublicKey)
    : option StakeDelegation :=
  if bool_decide (stake_map = ∅) then None else Some (default 0 (stake_map !! from_vkey mainchain_pub_key)).

Definition db_get_candidates (db : Database) (epoch : McEpochNumber) (committee_candidate_address : MainchainAddress)
    : fallible string (list CandidateRegistrations) :=
  epoch ←? lift (get_epoch_of_data_storage epoch);
  candidates ←? get_registered_candidates db epoch committee_candidate_address;
  stake_pool_entries ←? lift (get_stake_distribution db epoch);
  let stake_map := make_stake_map stake_pool_entries in
  lift (Ok (map (fun '(mainchain_pub_key, candidate_registrations) =>
      mkCandidateRegistrations mainchain_pub_key (map make_registration_data candidate_registrations)
        (get_stake_delegation stake_map mainchain_pub_key))
    (any_order (group_candidates_by_mc_pub_key candidates)))).

(** [candidates/datum.rs]. *)
Definition raw_permissioned_candidate_data_from (d : PermissionedCandidateDatumV0) : RawPermissionedCandidateData :=
  mkRawPermissionedCandidateData (pcd_sidechain_public_key d) (pcd_aura_public_key d) (pcd_grandpa_public_key d).
Definition raw_permissioned_candidate_data_vec_from (datums : PermissionedCandidateDatums) : list RawPermissionedCandidateData :=
  let 'PermissionedV0 datums := datums in map raw_permissioned_candidate_data_from datums.

(** [Asset::new]: the name is empty. *)
Definition Asset_new (policy_id : PolicyId) : Asset := mkAsset policy_id [].
Definition decoding_error (e : DataDecodingError) : string := msg e.
Definition db_get_ariadne_parameters (db : Database) (epoch : McEpochNumber)
    (d_parameter_policy permissioned_candidate_policy : PolicyId) : result string AriadneParameters :=
  epoch ← get_epoch_of_data_storage epoch;
  candidates_output_opt ← get_token_utxo_for_epoch db (Asset_new permissioned_candidate_policy) epoch;
  d_output_opt ← get_token_utxo_for_epoch db (Asset_new d_parameter_policy) epoch;
  d_output ← ok_or d_output_opt "DParameter"%string;
  d_datum ← ok_or (tto_datum d_output) "DParameter Datum"%string;
  d_parameter ← map_err decoding_error (PlutusDatums.decode d_datum : DecodingResult DParamDatum);
  candidates_output ← ok_or candidates_output_opt "Permissioned Candidates List"%string;
  candidates_datum ← ok_or (tto_datum candidates_output) "Permissioned Candidates List Datum"%string;
  permissioned_candidates ← map_err decoding_error (PlutusDatums.decode candidates_datum : DecodingResult PermissionedCandidateDatums);
  Ok (mkAriadneParameters (DParameter_from d_parameter) (raw_permissioned_candidate_data_vec_from permissioned_candidates)).

Definition db_get_epoch_nonce (db : Database) (epoch : McEpochNumber) : result string (option EpochNonce) :=
  epoch ← get_epoch_of_data_storage epoch; CandidatesDb.get_epoch_nonce db epoch.
Definition db_data_epoch (for_epoch : McEpochNumber) : result string McEpochNumber := get_epoch_of_data_storage for_epoch.
End Impl.
End CandidatesSource.

(** ** The outputs at an address *)
Section Utxos.
Import Db Ledger CandidatesDb.
Context `{HexCodec, DatumJson, AnyOrder}.
Implicit Types (db : Database) (o : TxOutRow) (t : TxRow) (b : Z * BlockRow).

(** Keys and references of the tables. *)
Record wf_database db : Prop := {
  wfd_blocks : wf_db (block_rows (ledger db));
  wfd_block_ids : NoDup (map fst (block (ledger db)));
  wfd_block_hashes : NoDup (map row_hash (block_rows (ledger db)));
  wfd_tx_ids : NoDup (map tx_id (tx (ledger db)));
  wfd_tx_hashes : NoDup (map tx_hash (tx (ledger db)));
  wfd_tx_positions : NoDup (map (fun t => (tx_block_id t, tx_block_index t)) (tx (ledger db)));
  wfd_outs : NoDup (map (fun o => (out_tx_id o, out_index o)) (tx_out (ledger db)));
  wfd_spent_once : NoDup (map (fun i => (in_tx_out_id i, in_tx_out_index i)) (tx_in db));
  wfd_datums : NoDup (map datum_hash (datum db));
  wfd_spender : forall i, i ∈ tx_in db -> exists t, t ∈ tx (ledger db) /\ tx_id t = in_tx_in_id i;
  wfd_spent : forall i, i ∈ tx_in db -> exists o, o ∈ tx_out (ledger db) /\ out_tx_id o = in_tx_out_id i /\ out_index o = in_tx_out_index i;
  wfd_out_tx : forall o, o ∈ tx_out (ledger db) -> exists t, t ∈ tx (ledger db) /\ tx_id t = out_tx_id o;
  wfd_tx_block : forall t, t ∈ tx (ledger db) -> exists b, b ∈ block (ledger db) /\ fst b = tx_block_id t;
  wfd_tx_columns : forall t, t ∈ tx (ledger db) -> length (tx_hash t) = 32%nat /\ wf_bytes (tx_hash t) /\ 0 <= tx_block_index t;
  wfd_out_columns : forall o, o ∈ tx_out (ledger db) -> 0 <= out_index o < 2 ^ 15;
  wfd_datum_columns : forall d j, d ∈ datum db -> datum_value d = Some j -> exists p, encode_json_value_to_plutus_datum j = Ok p
}.

Definition Base : Type := TxOutRow * TxRow * (Z * BlockRow) * option TxInRow * option TxRow * option (Z * BlockRow).
Definition tx_of db o : option TxRow := List.find (fun t => out_tx_id o =? tx_id t) (tx (ledger db)).
Definition block_of db t : option (Z * BlockRow) := List.find (fun b => tx_block_id t =? fst b) (block (ledger db)).
Definition spender_of db o : option TxInRow :=
  List.find (fun ci => (out_tx_id o =? in_tx_out_id ci) && (out_index o =? in_tx_out_index ci)) (tx_in db).
Definition spending_tx db (ci : option TxInRow) : option TxRow :=
  List.find (fun ct => sql_true (fun ci => in_tx_in_id ci =? tx_id ct) ci) (tx (ledger db)).
Definition spending_block db (ct : option TxRow) : option (Z * BlockRow) :=
  List.find (fun cb => sql_true (fun ct => tx_block_id ct =? fst cb) ct) (block (ledger db)).
Definition base_of db o : option Base :=
  t ← tx_of db o; b ← block_of db t;
  let ci := spender_of db o in let ct := spending_tx db ci in
  Some (o, t, b, ci, ct, spending_block db ct).
Definition spent_output db (xi : option TxInRow) : option TxOutRow :=
  List.find (fun xo => sql_true (fun xi => (out_tx_id xo =? in_tx_out_id xi) && (in_tx_out_index xi =? out_index xo)) xi)
    (tx_out (ledger db)).
Definition spent_tx db (xo : option TxOutRow) : option TxRow :=
  List.find (fun xt => sql_true (fun xo => tx_id xt =? out_tx_id xo) xo) (tx (ledger db)).
Definition datum_of db o : option DatumRow :=
  List.find (fun d => sql_true (fun h => bool_decide (h = datum_hash d)) (out_data_hash o)) (datum db).
Definition inputs_of db t : list (option TxInRow) :=
  match List.filter (fun xi => in_tx_in_id xi =? tx_id t) (tx_in db) with [] => [None] | xis => map Some xis end.
Definition rows_of db (x : Base) : list UtxoJoin :=
  let '(o, t, _, _, _, _) := x in
  map (fun xi => let xo := spent_output db xi in (x, xi, xo, spent_tx db xo, datum_of db o)) (inputs_of db t).

Lemma utxo_joins_nf db : wf_database db -> utxo_joins db = omap (base_of db) (tx_out (ledger db)) ≫= rows_of db.
Proof.
  intros Hw. unfold utxo_joins.
  assert (NoDup (tx (ledger db))) as Htx by by eapply NoDup_fmap_1, (wfd_tx_ids _ Hw).
  assert (NoDup (block (ledger db))) as Hbl by by eapply NoDup_fmap_1, (wfd_block_ids _ Hw).
  assert (NoDup (tx_in db)) as Hin by by eapply NoDup_fmap_1, (wfd_spent_once _ Hw).
  assert (forall (k : Z) t t', t ∈ tx (ledger db) -> t' ∈ tx (ledger db) -> k = tx_id t -> k = tx_id t' -> t = t') as Hkt.
  { intros k t t' Ht Ht' -> Heq. by apply (NoDup_key tx_id _ _ _ (wfd_tx_ids _ Hw)). }
  assert (forall (k : Z) b b', b ∈ block (ledger db) -> b' ∈ block (ledger db) -> k = fst b -> k = fst b' -> b = b') as Hkb.
  { intros k b b' Hb Hb' -> Heq. by apply (NoDup_key fst _ _ _ (wfd_block_ids _ Hw)). }
  rewrite left_join_key.
  2:{ intros [[[[[[[[o ?] ?] ?] ?] ?] ?] ?] ?] d d' _ Hd Hd' ? ?; cbn in *. destruct (out_data_hash o); [|done]. cbn in *.
      apply (NoDup_key datum_hash _ _ _ (wfd_datums _ Hw)); [done | done |].
      repeat match goal with H : bool_decide _ = true |- _ => apply bool_decide_eq_true in H end. congruence. }
  2: by eapply NoDup_fmap_1, (wfd_datums _ Hw).
  rewrite left_join_key; [|intros [? [xo|]] ? ? _ ? ? ? ?; cbn in *; zbool; [by eapply (Hkt (out_tx_id xo)) | done] | done].
  rewrite left_join_key.
  2:{ intros [? [xi|]] xo xo' _ Hxo Hxo' ? ?; cbn in *; [|done]. zbool.
      apply (NoDup_key (fun o => (out_tx_id o, out_index o)) _ _ _ (wfd_outs _ Hw)); [done | done | f_equal; congruence]. }
  2: by eapply NoDup_fmap_1, (wfd_outs _ Hw).
  rewrite (left_join_key (fun '(_, ct) cb => sql_true (fun ct => tx_block_id ct =? fst cb) ct));
    [|intros [? [ct|]] ? ? _ ? ? ? ?; cbn in *; zbool; [by eapply Hkb | done] | done].
  rewrite (left_join_key (fun '(_, ci) ct => sql_true (fun ci => in_tx_in_id ci =? tx_id ct) ci));
    [|intros [? [ci|]] ? ? _ ? ? ? ?; cbn in *; zbool; [by eapply Hkt | done] | done].
  rewrite (left_join_key (fun '(o, _, _) ci => (out_tx_id o =? in_tx_out_id ci) && (out_index o =? in_tx_out_index ci))).
  2:{ intros [[o ?] ?] i i' _ Hi Hi' ? ?. zbool. apply (NoDup_key (fun i => (in_tx_out_id i, in_tx_out_index i)) _ _ _ (wfd_spent_once _ Hw));
      [done | done | f_equal; congruence]. }
  2: done.
  rewrite (inner_join_key (fun '(_, t) b => tx_block_id t =? fst b)); [|intros [? ?] ? ? _ ? ? ? ?; zbool; by eapply Hkb | done].
  rewrite (inner_join_key (fun o t => out_tx_id o =? tx_id t)); [|intros; zbool; by eapply Hkt | done].
  unfold left_join. rewrite omap_omap, !map_omap, !map_bind. apply list_bind_ext.
  - intros [[[[[o t] b] ci] ct] cb]. unfold rows_of, inputs_of. destruct (List.filter _ _); [done|]. cbn [map].
    rewrite !map_map. done.
  - apply omap_pointwise. intros o. unfold base_of, tx_of, block_of. cbn [mbind option_bind].
    destruct (List.find _ (tx (ledger db))) as [t|]; [|done]. cbn [option_map option_bind mbind].
    by destruct (List.find _ (block (ledger db))).
Qed.

Lemma tx_of_Some db o t : wf_database db -> tx_of db o = Some t <-> t ∈ tx (ledger db) /\ tx_id t = out_tx_id o.
Proof. intros Hw. apply find_key; [apply Hw|]. intros y. rewrite Z.eqb_eq. done. Qed.
Lemma block_of_Some db t b : wf_database db -> block_of db t = Some b <-> b ∈ block (ledger db) /\ fst b = tx_block_id t.
Proof. intros Hw. apply find_key; [apply Hw|]. intros y. rewrite Z.eqb_eq. done. Qed.

(** [ci] spends [o]. *)
Definition spends (ci : TxInRow) o : Prop := in_tx_out_id ci = out_tx_id o /\ in_tx_out_index ci = out_index o.
Lemma spender_of_Some db o ci : wf_database db -> spender_of db o = Some ci <-> ci ∈ tx_in db /\ spends ci o.
Proof.
  intros Hw. unfold spender_of, spends.
  rewrite (find_key (fun i => (in_tx_out_id i, in_tx_out_index i)) _ (out_tx_id o, out_index o)).
  - split; [intros [? [= -> ->]]; done | intros [? [-> ->]]; done].
  - apply Hw.
  - intros i. rewrite andb_true_iff, !Z.eqb_eq. split; [intros []; f_equal; done | intros [= -> ->]; done].
Qed.

(** The outputs at [addr] that exist and are not spent as of block [n]. *)
Definition block_number_of db t (m : Z) : Prop :=
  exists b, b ∈ block (ledger db) /\ fst b = tx_block_id t /\ row_block_no (snd b) = Some m.
Record utxo_at db (addr : bytes) (n : Z) o : Prop := {
  ua_out : o ∈ tx_out (ledger db);
  ua_address : out_address o = addr;
  ua_created : exists t m, t ∈ tx (ledger db) /\ tx_id t = out_tx_id o /\ block_number_of db t m /\ m <= n;
  ua_unspent : forall ci ct, ci ∈ tx_in db -> spends ci o -> ct ∈ tx (ledger db) -> tx_id ct = in_tx_in_id ci ->
    exists m, block_number_of db ct m /\ n < m
}.

Definition base_where (addr : bytes) (n : Z) : Base -> bool := fun '(o, _, b, ci, _, cb) =>
  bool_decide (out_address o = addr) && sql_true (fun m => m <=? n) (row_block_no (snd b)) &&
  (bool_decide (ci = None) || sql_true (fun cb => sql_true (fun m => n <? m) (row_block_no (snd cb))) cb).
Definition active db (addr : bytes) (n : Z) : list Base :=
  List.filter (base_where addr n) (omap (base_of db) (tx_out (ledger db))).

Lemma base_of_Some db o x :
  wf_database db -> base_of db o = Some x <-> exists t b, t ∈ tx (ledger db) /\ tx_id t = out_tx_id o /\
    b ∈ block (ledger db) /\ fst b = tx_block_id t /\
    x = (o, t, b, spender_of db o, spending_tx db (spender_of db o), spending_block db (spending_tx db (spender_of db o))).
Proof.
  intros Hw. unfold base_of. split.
  - destruct (tx_of db o) as [t|] eqn:Ht; [|done]. cbn [mbind option_bind]. destruct (block_of db t) as [b|] eqn:Hb; [|done].
    cbn. intros [= <-]. apply tx_of_Some in Ht as [? ?]; [|done]. apply block_of_Some in Hb as [? ?]; [|done]. by exists t, b.
  - intros (t & b & Ht & Hid & Hb & Hbid & ->). rewrite (proj2 (tx_of_Some db o t Hw)) by done. cbn [mbind option_bind].
    by rewrite (proj2 (block_of_Some db t b Hw)) by done.
Qed.

(** The block number of the spending transaction, as the query sees it. *)
Lemma spending_number db o ci :
  wf_database db -> spender_of db o = Some ci -> exists ct, ct ∈ tx (ledger db) /\ tx_id ct = in_tx_in_id ci /\
    forall n, sql_true (fun cb => sql_true (fun m => n <? m) (row_block_no (snd cb)))
      (spending_block db (spending_tx db (Some ci))) = true <-> exists m, block_number_of db ct m /\ n < m.
Proof.
  intros Hw Hci. apply spender_of_Some in Hci as [Hin _]; [|done]. destruct (wfd_spender _ Hw ci Hin) as (ct & Hct & Hid).
  exists ct. split_and!; [done | done |]. intros n.
  assert (spending_tx db (Some ci) = Some ct) as ->.
  { unfold spending_tx. apply (find_key tx_id _ (in_tx_in_id ci)); [apply Hw | | done]. intros y. cbn. rewrite Z.eqb_eq. done. }
  destruct (wfd_tx_block _ Hw ct Hct) as (cb & Hcb & Hcbid).
  assert (spending_block db (Some ct) = Some cb) as ->.
  { unfold spending_block. apply (find_key fst _ (tx_block_id ct)); [apply Hw | | done]. intros y. cbn. rewrite Z.eqb_eq. done. }
  cbn [sql_true]. unfold block_number_of. split.
  - destruct (row_block_no (snd cb)) as [m|] eqn:Hm; cbn [sql_true]; [|done]. intros Hlt. zbool. exists m. split; [by exists cb | done].
  - intros (m & (cb' & Hcb' & Hid' & Hm) & Hlt). rewrite (NoDup_key fst _ cb cb' (wfd_block_ids _ Hw)) by (done || congruence).
    rewrite Hm. cbn. by apply Z.ltb_lt.
Qed.

Lemma elem_of_active db addr n x :
  wf_database db -> x ∈ active db addr n <-> exists o, utxo_at db addr n o /\ base_of db o = Some x.
Proof.
  intros Hw. unfold active. rewrite list_elem_of_In, filter_In, <- list_elem_of_In, list_elem_of_omap.
  assert (forall o, o ∈ tx_out (ledger db) -> base_of db o = Some x -> base_where addr n x = true <-> utxo_at db addr n o) as Hwh.
  { intros o Ho (t & b & Ht & Hid & Hb & Hbid & ->)%base_of_Some; [|done]. unfold base_where.
    rewrite !andb_true_iff, orb_true_iff, !bool_decide_eq_true.
    assert (sql_true (fun m => m <=? n) (row_block_no (snd b)) = true <-> exists m, block_number_of db t m /\ m <= n) as ->.
    { split.
      - destruct (row_block_no (snd b)) as [m|] eqn:Hm; cbn; [|done]. intros. zbool. exists m. split; [by exists b | done].
      - intros (m & (b' & Hb' & Hid' & Hm) & Hle). rewrite (NoDup_key fst _ b b' (wfd_block_ids _ Hw)) by (done || congruence).
        rewrite Hm. cbn. by apply Z.leb_le. }
    split.
    - intros [[Ha (m & Hm & Hle)] Hsp]. split; [done | done | exists t, m; done |].
      intros ci ct Hci Hs Hct Hctid. pose proof (proj2 (spender_of_Some db o ci Hw) (conj Hci Hs)) as Hsp'. rewrite Hsp' in Hsp.
      destruct Hsp as [|Hsp]; [done|]. destruct (spending_number db o ci Hw Hsp') as (ct' & Hct' & Hid' & Hiff).
      apply Hiff in Hsp. by rewrite (NoDup_key tx_id _ ct ct' (wfd_tx_ids _ Hw)) by (done || congruence).
    - intros [_ Ha (t' & m & Ht' & Hid' & Hm & Hle) Hun].
      assert (t' = t) as -> by (apply (NoDup_key tx_id _ _ _ (wfd_tx_ids _ Hw)); [done | done | congruence]).
      split; [split; [done | by exists m]|]. destruct (spender_of db o) as [ci|] eqn:Hsp; [right | by left].
      destruct (spending_number db o ci Hw Hsp) as (ct & Hct & Hctid & Hiff). apply Hiff.
      apply spender_of_Some in Hsp as [Hci Hs]; [|done]. by apply (Hun ci ct). }
  split.
  - intros [(o & Ho & Hx) Hb]. exists o. split; [by apply Hwh | done].
  - intros (o & Hu & Hx). split; [exists o; split; [apply Hu | done]|]. by apply (Hwh o); [apply Hu | |].
Qed.

(** *** What a row of the answer says *)
Record describes db o (u : MainchainTxOutput) : Prop := {
  de_position : exists t b blk, t ∈ tx (ledger db) /\ tx_id t = out_tx_id o /\ b ∈ block (ledger db) /\ fst b = tx_block_id t /\
    decode_block (snd b) = Ok blk /\ mto_utxo_id u = mkUtxoId (tx_hash t) (out_index o) /\
    mto_tx_block_no u = block_no blk /\ mto_tx_slot_no u = slot_no blk /\ mto_tx_epoch_no u = epoch_no blk /\
    mto_tx_index_in_block u = tx_block_index t /\
    forall v, v ∈ mto_tx_inputs u <-> exists xi xt, xi ∈ tx_in db /\ in_tx_in_id xi = tx_id t /\
      xt ∈ tx (ledger db) /\ tx_id xt = in_tx_out_id xi /\ v = mkUtxoId (tx_hash xt) (in_tx_out_index xi);
  de_address : mto_address u = out_address o;
  de_datum : decode_datum (datum_of db o) = Ok (mto_datum u)
}.

Definition base_key db (x : Base) : GroupKey := let '(o, t, b, _, _, _) := x in
  (tx_hash t, out_index o, row_block_no (snd b), row_slot_no (snd b), row_epoch_no (snd b), tx_block_index t,
   out_address o, option_bind _ _ datum_value (datum_of db o)).
Definition group_row : GroupKey * list UtxoJoin -> result string MainchainTxOutput :=
  fun '((hash, index, block_no, slot_no, epoch_no, tx_index, address, datum), rows) =>
    MainchainTxOutput_try_from (mkTxOutputRow hash index block_no slot_no epoch_no tx_index address datum
      (map consumed_output rows)).

Context `{!HexCodecLaws}.

Lemma consumed_output_spec db x xi :
  wf_database db -> xi ∈ tx_in db ->
  exists xt, xt ∈ tx (ledger db) /\ tx_id xt = in_tx_out_id xi /\ forall d,
    UtxoId_from_str (consumed_output (x, Some xi, spent_output db (Some xi), spent_tx db (spent_output db (Some xi)), d)) =
      Ok (mkUtxoId (tx_hash xt) (in_tx_out_index xi)).
Proof.
  intros Hw Hxi. destruct (wfd_spent _ Hw xi Hxi) as (xo & Hxo & Hid & Hidx).
  destruct (wfd_out_tx _ Hw xo Hxo) as (xt & Hxt & Hxtid). exists xt. split_and!; [done | congruence |]. intros d.
  assert (spent_output db (Some xi) = Some xo) as ->.
  { unfold spent_output. apply (find_key (fun o => (out_tx_id o, out_index o)) _ (in_tx_out_id xi, in_tx_out_index xi)); [apply Hw | |].
    - intros y. cbn. rewrite andb_true_iff, !Z.eqb_eq. split; [intros [? ?]; f_equal; congruence | intros [= ? ?]; split; congruence].
    - split; [done | f_equal; done]. }
  assert (spent_tx db (Some xo) = Some xt) as ->.
  { unfold spent_tx. apply (find_key tx_id _ (out_tx_id xo)); [apply Hw | | done]. intros y. cbn. by rewrite Z.eqb_eq. }
  destruct x as [[[[[? ?] ?] ?] ?] ?]. cbn [consumed_output option_map concat_ws].
  destruct (wfd_tx_columns _ Hw xt Hxt) as (Hlen & Hwf & _). pose proof (wfd_out_columns _ Hw xo Hxo).
  pose proof (UtxoId_from_str_display (mkUtxoId (tx_hash xt) (in_tx_out_index xi))) as Hd.
  rewrite (proj2 (Z.ltb_lt (index _) _)) in Hd by (cbn; lia). apply Hd. split_and!; cbn; [done | done | unfold in_width; lia].
Qed.

Lemma inputs_collect db x t d (xis : list TxInRow) :
  wf_database db -> (forall xi, xi ∈ xis -> xi ∈ tx_in db) ->
  exists us, collect_results UtxoId_from_str (map (fun xi =>
      consumed_output (x, Some xi, spent_output db (Some xi), spent_tx db (spent_output db (Some xi)), d)) xis) = Ok us /\
    forall v, v ∈ us <-> exists xi xt, xi ∈ xis /\ xt ∈ tx (ledger db) /\ tx_id xt = in_tx_out_id xi /\
      v = mkUtxoId (tx_hash xt) (in_tx_out_index xi).
Proof.
  intros Hw Hin. induction xis as [|xi xis IH]; cbn [map collect_results].
  - exists []. split; [done|]. intros v. split; [by intros ?%elem_of_nil | by intros (? & ? & ?%elem_of_nil & _)].
  - destruct (consumed_output_spec db x xi Hw) as (xt & Hxt & Hid & Hstr); [apply Hin; left|]. rewrite Hstr.
    destruct IH as (us & -> & Hus); [intros; apply Hin; by right|]. eexists. split; [done|]. intros v. rewrite elem_of_cons, Hus. split.
    + intros [->|(xi' & xt' & ? & ?)]; [exists xi, xt; split; [left | done] | exists xi', xt'; split; [by right | done]].
    + intros (xi' & xt' & [->|Hxi']%elem_of_cons & Hxt' & Hid' & ->); [left | right; by exists xi', xt'].
      by rewrite (NoDup_key tx_id _ xt' xt (wfd_tx_ids _ Hw)) by (done || congruence).
Qed.

Definition has_inputs db (addr : bytes) : Prop :=
  forall o t, o ∈ tx_out (ledger db) -> out_address o = addr -> t ∈ tx (ledger db) -> tx_id t = out_tx_id o ->
    exists xi, xi ∈ tx_in db /\ in_tx_in_id xi = tx_id t.

Lemma group_row_spec db addr n o x :
  wf_database db -> has_inputs db addr -> utxo_at db addr n o -> base_of db o = Some x ->
  exists u, group_row (base_key db x, rows_of db x) = Ok u /\ describes db o u.
Proof.
  intros Hw Hinp [Ho Haddr (t & m & Ht & Hid & Hm & Hle) _] Hx. pose proof Hx as (t' & b & Ht' & Hid' & Hb & Hbid & ->)%base_of_Some; [|done].
  assert (t' = t) as -> by (apply (NoDup_key tx_id _ _ _ (wfd_tx_ids _ Hw)); [done | done | congruence]).
  destruct Hm as (b' & Hb' & Hb'id & Hm).
  assert (b' = b) as -> by (apply (NoDup_key fst _ _ _ (wfd_block_ids _ Hw)); [done | done | congruence]).
  destruct (wf_decode _ (wfd_blocks _ Hw) (snd b)) as [blk Hblk]; [by apply list_elem_of_fmap_2 | by eexists|].
  destruct (wfd_tx_columns _ Hw t Ht) as (Hlen & _ & Hti). pose proof (wfd_out_columns _ Hw o Ho) as Hoi.
  cbn [base_key group_row rows_of]. unfold inputs_of.
  destruct (Hinp o t Ho Haddr Ht Hid) as (xi0 & Hxi0 & Hxi0t).
  assert (forall xi, xi ∈ List.filter (fun xi => in_tx_in_id xi =? tx_id t) (tx_in db) <-> xi ∈ tx_in db /\ in_tx_in_id xi = tx_id t) as Hxis
    by (intros; by rewrite !list_elem_of_In, filter_In, Z.eqb_eq).
  destruct (List.filter _ (tx_in db)) as [|xi1 xis]; [exfalso; by apply (elem_of_nil xi0), Hxis|].
  destruct (inputs_collect db (o, t, b, spender_of db o, spending_tx db (spender_of db o),
    spending_block db (spending_tx db (spender_of db o))) t (datum_of db o) (xi1 :: xis) Hw) as (us & Hus & Hv); [intros xi Hxi; by apply Hxis|].
  unfold MainchainTxOutput_try_from. cbn [tor_utxo_id_tx_hash tor_utxo_id_index tor_tx_block_no tor_tx_slot_no tor_tx_epoch_no
    tor_tx_index_in_block tor_datum tor_tx_inputs tor_address].
  rewrite !map_map. match goal with |- context [collect_results UtxoId_from_str ?l] =>
    replace (collect_results UtxoId_from_str l) with (Ok us : result string _) by (symmetry; exact Hus) end.
  unfold to_array. rewrite decide_True by done. simpl_monad.
  unfold decode_unsigned at 1 5. simpl_monad. rewrite !(proj2 (Z.leb_le 0 _)) by lia. simpl_monad.
  unfold decode_block in Hblk. destruct (decode_unsigned (row_block_no (snd b))) as [bn|] eqn:Ebn; simpl_monad; [|done].
  destruct (to_array 32 (row_hash (snd b))) as [h|] eqn:Eh; [|done].
  destruct (decode_unsigned (row_epoch_no (snd b))) as [e|] eqn:Ee; [|done].
  destruct (decode_unsigned (row_slot_no (snd b))) as [sl|] eqn:Es; [|done].
  assert (exists p, decode_datum (datum_of db o) = Ok p) as [p Hp].
  { unfold decode_datum. destruct (datum_of db o) as [d|] eqn:Hd; [|by eexists]. cbn [option_bind].
    unfold datum_of in Hd. apply List.find_some in Hd as [Hd _]. apply list_elem_of_In in Hd.
    destruct (datum_value d) as [j|] eqn:Hj; [|by eexists]. destruct (wfd_datum_columns _ Hw d j Hd Hj) as [p ->]. by eexists. }
  assert (decode_datum (Some (mkDatumRow [] (option_bind _ _ datum_value (datum_of db o)))) = Ok p) as -> by exact Hp.
  simpl_monad. eexists. split; [done|]. split; [|done|done].
  exists t, b, (mkBlock bn h e sl (row_time (snd b))). split_and!; try done.
  - unfold decode_block. rewrite Ebn, Eh. simpl_monad. by rewrite Ee, Es.
  - intros v. cbn [mto_tx_inputs]. rewrite Hv. split; intros (xi & xt & Hxi & ?); exists xi, xt.
    + apply Hxis in Hxi as [? ?]. tauto.
    + split; [apply Hxis; tauto | tauto].
Qed.

Lemma active_base db addr n x :
  wf_database db -> x ∈ active db addr n -> exists o, utxo_at db addr n o /\ exists t b, t ∈ tx (ledger db) /\
    tx_id t = out_tx_id o /\ b ∈ block (ledger db) /\ fst b = tx_block_id t /\
    x = (o, t, b, spender_of db o, spending_tx db (spender_of db o), spending_block db (spending_tx db (spender_of db o))).
Proof.
  intros Hw Hx. apply elem_of_active in Hx as (o & Ho & Hx); [|done]. exists o. split; [done|]. by apply base_of_Some.
Qed.

(** The groups of the query, one per output. *)
Lemma utxo_groups db addr n :
  wf_database db ->
  group_by utxo_group (List.filter (utxo_where addr n) (utxo_joins db)) =
    map (fun x => (base_key db x, rows_of db x)) (active db addr n).
Proof.
  intros Hw. pose proof (fun x => active_base db addr n x Hw) as Hact. rewrite utxo_joins_nf by done.
  rewrite (filter_bind _ _ (base_where addr n)).
  2:{ intros [[[[[o t] b] ci] ct] cb] y _ (xi & -> & _)%list_elem_of_fmap. done. }
  fold (active db addr n). apply group_by_blocks.
  - apply (NoDup_map_coarser (fun x : Base => let '(o, _, _, _, _, _) := x in (out_tx_id o, out_index o))).
    + apply NoDup_map_filter. apply (NoDup_omap_key (fun o => (out_tx_id o, out_index o))); [apply Hw|].
      intros o x Hx. by apply base_of_Some in Hx as (t & b & _ & _ & _ & _ & ->).
    + intros x y (o & _ & t & b & Ht & Hid & _ & _ & ->)%Hact (o' & _ & t' & b' & Ht' & Hid' & _ & _ & ->)%Hact.
      cbn. intros [= Hh Hi _ _ _ _ _ _]. f_equal; [|done].
      assert (t = t') as <- by by apply (NoDup_key tx_hash _ _ _ (wfd_tx_hashes _ Hw)). congruence.
  - intros [[[[[o t] b] ci] ct] cb] _. cbn [rows_of]. unfold inputs_of. by destruct (List.filter _ _).
  - intros [[[[[o t] b] ci] ct] cb] y _ (xi & -> & _)%list_elem_of_fmap. done.
Qed.

(** The query returns the outputs at the address, each once. *)
Lemma utxos_query `{!AnyOrderLaws} db addr n :
  wf_database db -> has_inputs db addr -> 0 <= n < 2 ^ 31 ->
  exists us, get_utxos_for_address db addr n = Ok us /\
    us ≡ₚ omap (fun x => ok (group_row (base_key db x, rows_of db x))) (active db addr n).
Proof.
  intros Hw Hinp Hn. unfold get_utxos_for_address, sql_int. rewrite (proj2 (Z.ltb_lt _ _)) by lia. rewrite utxo_groups by done.
  set (groups := map _ (active db addr n)).
  destruct (collect_results_perm group_row groups (any_order groups)
    (omap (fun x => ok (group_row (base_key db x, rows_of db x))) (active db addr n))) as (us & Hus & Hp).
  - symmetry. apply any_order_perm.
  - apply collect_results_omap. split.
    + intros g (x & -> & (o & Ho & Hx)%elem_of_active)%list_elem_of_fmap; [|done].
      destruct (group_row_spec db addr n o x) as (u & Hu & _); [done..|]. by exists u.
    + unfold groups. induction (active db addr n) as [|x l IH]; [done|]. cbn [map omap list_omap].
      destruct (ok (group_row _)); cbn; [by f_equal | done].
  - exists us. split; [exact Hus | done].
Qed.

Lemma utxos_describe db addr n :
  wf_database db -> has_inputs db addr ->
  exists os, NoDup os /\ (forall o, o ∈ os <-> utxo_at db addr n o) /\
    Forall2 (describes db) os (omap (fun x => ok (group_row (base_key db x, rows_of db x))) (active db addr n)).
Proof.
  intros Hw Hinp. pose proof (fun x => active_base db addr n x Hw) as Hact.
  exists (map (fun x : Base => let '(o, _, _, _, _, _) := x in o) (active db addr n)). split_and!.
  - apply (NoDup_map_coarser (base_key db)).
    + pose proof (utxo_groups db addr n Hw) as Hg. apply (f_equal (map fst)) in Hg. rewrite group_by_keys, map_map in Hg.
      cbn [fst] in Hg. exact (eq_ind _ NoDup (NoDup_remove_dups _) _ Hg).
    + intros x y (o & _ & t & b & Ht & Hid & Hb & Hbid & ->)%Hact
        (o' & _ & t' & b' & Ht' & Hid' & Hb' & Hbid' & ->)%Hact. intros <-.
      assert (t = t') as <- by (apply (NoDup_key tx_id _ _ _ (wfd_tx_ids _ Hw)); [done | done | congruence]).
      assert (b = b') as <- by (apply (NoDup_key fst _ _ _ (wfd_block_ids _ Hw)); [done | done | congruence]). done.
  - intros o. rewrite list_elem_of_fmap. split.
    + intros (x & -> & (o' & Ho' & Hx)%elem_of_active); [|done]. by apply base_of_Some in Hx as (? & ? & _ & _ & _ & _ & ->).
    + intros Ho. destruct (wfd_out_tx _ Hw o (ua_out _ _ _ _ Ho)) as (t & Ht & Hid). destruct (wfd_tx_block _ Hw t Ht) as (b & Hb & Hbid).
      exists (o, t, b, spender_of db o, spending_tx db (spender_of db o), spending_block db (spending_tx db (spender_of db o))).
      split; [done|]. apply elem_of_active; [done|]. exists o. split; [done|]. apply base_of_Some; [done|]. by exists t, b.
  - assert (forall x, x ∈ active db addr n -> exists u, group_row (base_key db x, rows_of db x) = Ok u /\
      describes db (let '(o, _, _, _, _, _) := x in o) u) as Hall.
    { intros x (o & Ho & Hx)%elem_of_active; [|done]. destruct (group_row_spec db addr n o x) as (u & Hu & Hd); [done..|].
      exists u. split; [done|]. by apply base_of_Some in Hx as (? & ? & _ & _ & _ & _ & ->). }
    clear Hact. induction (active db addr n) as [|x l IH]; [constructor|]. destruct (Hall x ltac:(left)) as (u & Hu & Hd).
    cbn [map omap list_omap]. rewrite Hu. cbn [ok]. constructor; [done|]. apply IH. intros; apply Hall; by right.
Qed.
End Utxos.

(** ** Stake *)
Section Stake.
Import Db Ledger CandidatesDb CandidatesSource.
Context `{HexCodec, DatumJson, AnyOrder, Blake2b}.
Implicit Types (db : Database) (es : EpochStakeRow) (ph : PoolHashRow).

Definition stake_of_pool (e : Z) (h : bytes) es ph : bool :=
  (es_pool_id es =? ph_id ph) && (es_epoch_no es =? e) && bool_decide (ph_hash_raw ph = h).
(** The stake delegated to the pool with hash [h] in epoch [e]. *)
Definition pool_stake db (e : Z) (h : bytes) : Z :=
  sum_of (fun es => sum_of (fun ph => if stake_of_pool e h es ph then es_amount es else 0) (pool_hash db)) (epoch_stake db).
Definition stake_is_known db (e : Z) : Prop :=
  exists es ph, es ∈ epoch_stake db /\ ph ∈ pool_hash db /\ es_pool_id es = ph_id ph /\ es_epoch_no es = e.

Record wf_stake db (e : Z) : Prop := {
  wfs_epoch : 0 <= e < 2 ^ 31;
  wfs_hashes : forall ph, ph ∈ pool_hash db -> length (ph_hash_raw ph) = 28%nat;
  wfs_stakes : forall h, 0 <= pool_stake db e h < 2 ^ 64
}.

Definition stake_rows db (e : Z) : list (EpochStakeRow * PoolHashRow) :=
  List.filter (fun x => es_epoch_no (fst x) =? e)
    (inner_join (fun es ph => es_pool_id es =? ph_id ph) (epoch_stake db) (pool_hash db)).

Lemma elem_of_stake_rows db e es ph :
  (es, ph) ∈ stake_rows db e <-> es ∈ epoch_stake db /\ ph ∈ pool_hash db /\ es_pool_id es = ph_id ph /\ es_epoch_no es = e.
Proof.
  unfold stake_rows. rewrite list_elem_of_In, filter_In, Z.eqb_eq, <- list_elem_of_In. unfold inner_join.
  rewrite list_elem_of_bind. setoid_rewrite list_elem_of_fmap. setoid_rewrite list_elem_of_In at 1. setoid_rewrite filter_In.
  setoid_rewrite Z.eqb_eq. setoid_rewrite <- list_elem_of_In. cbn [fst]. split.
  - by intros [(es' & (ph' & [= <- <-] & Hph & Hid) & Hes) He].
  - intros (Hes & Hph & Hid & He). split; [|done]. exists es. split; [|done]. by exists ph.
Qed.

Lemma stake_group_sum db e h :
  sum_of (fun x => es_amount (fst x)) (List.filter (fun x => bool_decide (ph_hash_raw (snd x) = h)) (stake_rows db e)) =
    pool_stake db e h.
Proof.
  unfold stake_rows. rewrite !sum_of_filter, sum_inner_join. apply sum_of_ext. intros es _. apply sum_of_ext. intros ph _.
  unfold stake_of_pool. cbn [fst snd]. by destruct (es_pool_id es =? ph_id ph), (es_epoch_no es =? e), (bool_decide _).
Qed.

(** The entries of the stake map. *)
Definition stake_entry db (e : Z) (h : bytes) : StakePoolEntry := mkStakePoolEntry h (pool_stake db e h).
Lemma stake_distribution `{!AnyOrderLaws} db e :
  wf_stake db e -> exists entries, get_stake_distribution db e = Ok entries /\
    entries ≡ₚ map (stake_entry db e) (remove_dups (map (fun x => ph_hash_raw (snd x)) (stake_rows db e))).
Proof.
  intros [He Hlen Hst]. unfold get_stake_distribution, sql_int. rewrite (proj2 (Z.ltb_lt _ _)) by lia. fold (stake_rows db e).
  set (rows := stake_rows db e). match goal with |- context [collect_results ?g _] => set (f := g) end.
  destruct (collect_results_perm f (group_by (fun x => ph_hash_raw (snd x)) rows)
    (any_order (group_by (fun x => ph_hash_raw (snd x)) rows))
    (map (stake_entry db e) (remove_dups (map (fun x => ph_hash_raw (snd x)) rows)))) as (entries & Hentries & Hp).
  - symmetry. apply any_order_perm.
  - apply collect_results_Ok. unfold group_by. apply Forall2_fmap_2, Forall_Forall2_diag, Forall_forall. intros h Hh.
    rewrite elem_of_remove_dups in Hh. apply list_elem_of_fmap in Hh as ([es ph] & -> & (_ & Hph & _)%elem_of_stake_rows).
    cbn [snd]. unfold f, rows. rewrite stake_group_sum. unfold to_array. rewrite decide_True by by apply Hlen. simpl_monad.
    by rewrite (proj2 (try_into_width_Some 64 _ (pool_stake db e (ph_hash_raw ph)))) by (split; [apply Hst | done]).
  - exists entries. split; [exact Hentries | by symmetry].
Qed.

Lemma stake_map_lookup (entries : list StakePoolEntry) h :
  NoDup (map spe_pool_hash entries) ->
  make_stake_map entries !! h = spe_stake <$> List.find (fun e => bool_decide (spe_pool_hash e = h)) entries.
Proof.
  unfold make_stake_map.
  assert (forall m : gmap bytes StakeDelegation, NoDup (map spe_pool_hash entries) ->
    foldl (fun m e => <[spe_pool_hash e := spe_stake e]> m) m entries !! h =
    match List.find (fun e => bool_decide (spe_pool_hash e = h)) entries with Some e => Some (spe_stake e) | None => m !! h end) as Hm.
  { induction entries as [|e l IH]; intros m Hnd; [done|]. cbn in Hnd |- *. apply NoDup_cons in Hnd as [He Hnd].
    rewrite IH by done. destruct (bool_decide_reflect (spe_pool_hash e = h)) as [<-|Hne].
    - rewrite (proj2 (find_key_None spe_pool_hash _ (spe_pool_hash e) l ltac:(intros; apply bool_decide_eq_true))).
      + by rewrite lookup_insert_eq.
      + intros x Hx Heq. apply He. rewrite <- Heq. by apply list_elem_of_fmap_2.
    - by rewrite lookup_insert_ne. }
  intros Hnd. rewrite Hm by done. by destruct (List.find _ entries).
Qed.

Lemma stake_delegation_spec `{!AnyOrderLaws} db e :
  wf_stake db e -> exists entries, get_stake_distribution db e = Ok entries /\
    forall key, (stake_is_known db e -> get_stake_delegation (make_stake_map entries) key = Some (pool_stake db e (blake2b key))) /\
      (~ stake_is_known db e -> get_stake_delegation (make_stake_map entries) key = None).
Proof.
  intros Hw. destruct (stake_distribution db e Hw) as (entries & Hentries & Hp). exists entries. split; [done|].
  set (hashes := remove_dups (map (fun x => ph_hash_raw (snd x)) (stake_rows db e))) in *.
  assert (map spe_pool_hash entries ≡ₚ hashes) as Hk by (rewrite Hp, map_map; cbn; by rewrite map_id).
  assert (NoDup (map spe_pool_hash entries)) as Hnd by (rewrite Hk; apply NoDup_remove_dups).
  assert (forall h, make_stake_map entries !! h = Some (pool_stake db e h) /\ h ∈ hashes \/
    make_stake_map entries !! h = None /\ h ∉ hashes) as Hlook.
  { intros h. rewrite !stake_map_lookup by done. destruct (List.find _ entries) as [x|] eqn:Hf.
    - apply List.find_some in Hf as [Hx Heq%bool_decide_eq_true]. apply list_elem_of_In in Hx. rewrite Hp in Hx.
      apply list_elem_of_fmap in Hx as (h' & -> & Hh'). cbn in *. subst. by left.
    - right. split; [done|]. rewrite <- Hk. intros (x & Hx & Hin)%list_elem_of_fmap.
      apply (find_key_None spe_pool_hash _ h entries) with (x := x) in Hf; [done | intros; apply bool_decide_eq_true | done]. }
  assert (make_stake_map entries = ∅ <-> ~ stake_is_known db e) as Hempty.
  { assert (stake_is_known db e <-> exists h, h ∈ hashes) as ->.
    { unfold hashes. setoid_rewrite elem_of_remove_dups. setoid_rewrite list_elem_of_fmap. split.
      - intros (es & ph & Hx). exists (ph_hash_raw ph), (es, ph). split; [done|]. by apply elem_of_stake_rows.
      - intros (h & [es ph] & _ & Hx). exists es, ph. by apply elem_of_stake_rows. }
    split.
    - intros He (h & Hh). destruct (Hlook h) as [[Hl _]|[_ ?]]; [|done]. by rewrite He, lookup_empty in Hl.
    - intros Hno. apply map_eq. intros h. rewrite lookup_empty. destruct (Hlook h) as [[_ ?]|[? _]]; [|done].
      exfalso. apply Hno. by exists h. }
  intros key. unfold get_stake_delegation, from_vkey. split; intros Hs.
  - rewrite bool_decide_eq_false_2 by tauto.
    assert (default 0 (make_stake_map entries !! (blake2b key : bytes)) = pool_stake db e (blake2b key)) as Hd;
      [|exact (f_equal Some Hd)].
    destruct (Hlook (blake2b key)) as [[Hl _]|[Hl Hno]]; [exact (f_equal (default 0) Hl)|].
    etransitivity; [exact (f_equal (default 0) Hl)|]. symmetry. unfold pool_stake. apply sum_of_zero. intros es Hes. apply sum_of_zero. intros ph Hph.
    destruct (stake_of_pool e (blake2b key) es ph) eqn:Hst; [|done]. exfalso. apply Hno. unfold hashes, stake_of_pool in *. zbool.
    apply elem_of_remove_dups, list_elem_of_fmap. exists (es, ph). split; [|by apply elem_of_stake_rows].
    by match goal with H : bool_decide _ = true |- _ => apply bool_decide_eq_true in H end.
  - by rewrite bool_decide_eq_true_2 by tauto.
Qed.
End Stake.

(** ** Candidates *)
Section Candidates.
Import Db Ledger CandidatesDb CandidatesSource.
Context `{HexCodecLaws, DatumJson, Blake2b}.
Implicit Types (db : Database).

(** [last] is the latest block up to the end of epoch [e]. *)
Record last_block db (e : Z) (last : Block) : Prop := {
  lb_block : last ∈ blocks (block_rows (ledger db));
  lb_epoch : epoch_no last <= e;
  lb_latest : forall b, b ∈ blocks (block_rows (ledger db)) -> epoch_no b <= e -> slot_no b <= slot_no last
}.

Lemma decode_block_epoch r b : decode_block r = Ok b -> row_epoch_no r = Some (epoch_no b).
Proof.
  unfold decode_block. destruct (decode_unsigned (row_block_no r)); simpl_monad; [|done].
  destruct (to_array 32 (row_hash r)); simpl_monad; [|done].
  destruct (decode_unsigned (row_epoch_no r)) eqn:He; simpl_monad; [|done].
  destruct (decode_unsigned (row_slot_no r)); simpl_monad; [|done]. intros [= <-]. by apply decode_unsigned_Ok in He as [-> _].
Qed.

Lemma latest_block_for_epoch db e :
  wf_db (block_rows (ledger db)) -> 0 <= e < 2 ^ 31 ->
  match get_latest_block_for_epoch db e with
  | Err _ => False
  | Ok None => forall b, b ∈ blocks (block_rows (ledger db)) -> e < epoch_no b
  | Ok (Some last) => last_block db e last /\ 0 <= block_no last < 2 ^ 31
  end.
Proof.
  intros Hw He. unfold get_latest_block_for_epoch, sql_int. rewrite (proj2 (Z.ltb_lt _ _)) by lia.
  set (p := fun r : BlockRow => _). assert (forall r b, decode_block r = Ok b -> p r = true <-> epoch_no b <= e) as Hp.
  { intros r b Hb. unfold p. pose proof (decode_block_epoch _ _ Hb) as Hre. apply decode_block_Ok in Hb as (Hno & _ & Hslot & _).
    rewrite Hre, Hno, Hslot. cbn [sql_true]. rewrite !(bool_decide_eq_true_2 (is_Some _)), !andb_true_r by by eexists. apply Z.leb_le. }
  assert (forall r, r ∈ block_rows (ledger db) -> p r = true -> exists b, decode_block r = Ok b) as Hdec.
  { intros r Hr Hpr. apply (wf_decode _ Hw r Hr). unfold p in Hpr. apply andb_prop in Hpr as [_ Hpr].
    by apply bool_decide_eq_true in Hpr. }
  assert (forall a b, slot_leb a b = true \/ slot_leb b a = true) as Htot by (intros; unfold slot_leb; rewrite !Z.leb_le; lia).
  assert (forall a b c, slot_leb a b = true -> slot_leb b c = true -> slot_leb a c = true) as Htrans
    by (intros ? ? ?; unfold slot_leb; rewrite !Z.leb_le; lia).
  destruct (max_by slot_leb (List.filter p (block_rows (ledger db)))) as [r|] eqn:Hm; cbn [decode_optional].
  - pose proof (max_by_Some_elem _ Htot Htrans _ _ Hm) as Hr. apply list_elem_of_In, filter_In in Hr as [Hr Hpr].
    apply list_elem_of_In in Hr. destruct (Hdec r Hr Hpr) as [last Hlast]. rewrite Hlast. simpl_monad.
    assert (last ∈ blocks (block_rows (ledger db))) as Hin by (apply elem_of_blocks; eauto).
    split; [split; [done | by apply (Hp r) |]|].
    + intros b Hb Heb. pose proof Hb as (rb & Hrb & Hdb)%elem_of_blocks.
      assert (slot_leb rb r = true) as Hle.
      { apply (max_by_Some_max _ Htot Htrans _ _ _ Hm), list_elem_of_In, filter_In. split; [by apply list_elem_of_In | by apply (Hp rb b)]. }
      apply decode_block_Ok in Hlast as (_ & _ & Hs & _), Hdb as (_ & _ & Hs' & _). unfold slot_leb in Hle. rewrite Hs, Hs' in Hle.
      cbn in Hle. by zbool.
    + destruct (wf_numbers _ Hw last Hin). apply decode_block_Ok in Hlast as (_ & _ & _ & _ & ? & _). done.
  - apply (max_by_None _ Htot Htrans) in Hm. intros b Hb. pose proof Hb as (r & Hr & Hdb)%elem_of_blocks.
    destruct (Z.leb_spec (epoch_no b) e); [|done]. exfalso. apply (elem_of_nil r). rewrite <- Hm.
    apply list_elem_of_In, filter_In. split; [by apply list_elem_of_In | by apply (Hp r b)].
Qed.

(** The stake pool key and the registration that an output holds, if its datum is readable. *)
Definition registration_of (u : MainchainTxOutput) : option (MainchainPublicKey * RegistrationData) :=
  datum ← mto_datum u;
  match PlutusDatums.decode datum with
  | Err _ => None
  | Ok (RegisterV0 d) => Some (abs_pub_key (rv_stake_ownership d),
      mkRegistrationData (rv_consumed_input d) (rv_sidechain_signature d) (abs_signature (rv_stake_ownership d))
        (rv_sidechain_signature d) (rv_sidechain_pub_key d) (rv_sidechain_pub_key d)
        (mkUtxoInfo (mto_utxo_id u) (mto_tx_epoch_no u) (mto_tx_block_no u) (mto_tx_slot_no u) (mto_tx_index_in_block u))
        (mto_tx_inputs u) (rv_aura_pub_key d) (rv_grandpa_pub_key d))
  end.
Lemma registration_of_converted u :
  registration_of u = option_map (fun c => (rc_mainchain_pub_key (convert_candidate c), make_registration_data (convert_candidate c)))
    (parse_candidate u).
Proof.
  unfold registration_of, parse_candidate. destruct (mto_datum u) as [d|]; [|done]. cbn [mbind option_bind].
  by destruct (PlutusDatums.decode d) as [[v]|].
Qed.

(** Grouping by the stake pool's key. *)
Definition group_candidates `{AnyOrder} (stake : MainchainPublicKey -> option StakeDelegation) (us : list MainchainTxOutput)
    : list CandidateRegistrations :=
  map (fun '(mainchain_pub_key, candidate_registrations) =>
      mkCandidateRegistrations mainchain_pub_key (map make_registration_data candidate_registrations) (stake mainchain_pub_key))
    (any_order (group_candidates_by_mc_pub_key (map convert_candidate (parse_candidates us)))).

Lemma elem_of_converted us k r :
  (exists c, c ∈ map convert_candidate (parse_candidates us) /\ rc_mainchain_pub_key c = k /\ make_registration_data c = r) <->
  exists u, u ∈ us /\ registration_of u = Some (k, r).
Proof.
  setoid_rewrite registration_of_converted. unfold parse_candidates. setoid_rewrite list_elem_of_fmap. setoid_rewrite list_elem_of_omap. split.
  - intros (c & (p & -> & u & Hu & Hp) & <- & <-). exists u. split; [done|]. by rewrite Hp.
  - intros (u & Hu & Hr). destruct (parse_candidate u) as [p|] eqn:Hp; [|done]. cbn in Hr. injection Hr as <- <-.
    exists (convert_candidate p). split; [|done]. exists p. split; [done|]. by exists u.
Qed.

Lemma group_candidates_spec `{AnyOrderLaws} stake us :
  NoDup (map mainchain_pub_key (group_candidates stake us)) /\
  (forall cr, cr ∈ group_candidates stake us -> stake_delegation cr = stake (mainchain_pub_key cr) /\ registrations cr <> []) /\
  forall k r, (exists cr, cr ∈ group_candidates stake us /\ mainchain_pub_key cr = k /\ r ∈ registrations cr) <->
    exists u, u ∈ us /\ registration_of u = Some (k, r).
Proof.
  unfold group_candidates, group_candidates_by_mc_pub_key. set (cs := map convert_candidate (parse_candidates us)).
  assert (forall k g, (k, g) ∈ any_order (group_by rc_mainchain_pub_key cs) <->
    g = List.filter (fun x => bool_decide (rc_mainchain_pub_key x = k)) cs /\ exists x, x ∈ cs /\ rc_mainchain_pub_key x = k) as Hg.
  { intros k g. rewrite any_order_perm. apply elem_of_group_by. }
  split_and!.
  - rewrite map_map. rewrite (map_ext _ fst) by by intros []. rewrite any_order_perm, group_by_keys. apply NoDup_remove_dups.
  - intros cr ([k g] & -> & (-> & x & Hx & Hk)%Hg)%list_elem_of_fmap. split; [done|]. cbn. intros Hnil%map_eq_nil.
    apply (elem_of_nil x). rewrite <- Hnil. apply list_elem_of_In, filter_In. split; [by apply list_elem_of_In | by apply bool_decide_eq_true].
  - intros k r. rewrite <- elem_of_converted. fold cs. split.
    + intros (cr & ([k' g] & -> & (-> & _)%Hg)%list_elem_of_fmap & Hk & (c & -> & Hc)%list_elem_of_fmap). cbn in Hk. subst k'.
      apply list_elem_of_In, filter_In in Hc as [Hc Hck%bool_decide_eq_true]. exists c. by rewrite list_elem_of_In.
    + intros (c & Hc & Hk & Hr). eexists. split; [apply list_elem_of_fmap; eexists (k, _); split; [reflexivity|]; apply Hg; split; [reflexivity | by exists c]|].
      cbn. split; [done|]. rewrite <- Hr. apply list_elem_of_fmap_2, list_elem_of_In, filter_In. split; [by apply list_elem_of_In | by apply bool_decide_eq_true].
Qed.
End Candidates.

(** C15: The candidates of an epoch are the registrations on the main chain. For a
    well-formed database, the candidates for epoch [epoch] are grouped by stake pool key,
    each key once and with at least one registration; the registrations of a key are
    exactly those that the outputs at the committee candidate address hold which exist and
    are unspent as of the last block of epoch [epoch - 2], outputs without a readable datum
    being skipped; and a candidate's stake is that of its pool in epoch [epoch - 2], unknown
    when the distribution of that epoch is. *)
Theorem candidates_are_active_registrations `{HexCodecLaws, DatumJson, Blake2b, AnyOrderLaws} db epoch addr b0 :
  let e := epoch - 2 in
  wf_database db -> has_inputs db addr -> wf_stake db e -> utf8_valid addr = true ->
  b0 ∈ blocks (Ledger.block_rows (CandidatesDb.ledger db)) -> Db.epoch_no b0 <= e ->
  exists last os us crs, last_block db e last /\
    (forall o, o ∈ os <-> utxo_at db addr (Db.block_no last) o) /\ NoDup os /\ Forall2 (describes db) os us /\
    CandidatesSource.db_get_candidates db epoch addr = Done (Ok crs) /\
    NoDup (map mainchain_pub_key crs) /\
    (forall cr, cr ∈ crs -> registrations cr <> [] /\
      (stake_is_known db e -> stake_delegation cr = Some (pool_stake db e (blake2b (mainchain_pub_key cr)))) /\
      (~ stake_is_known db e -> stake_delegation cr = None)) /\
    forall k r, (exists cr, cr ∈ crs /\ mainchain_pub_key cr = k /\ r ∈ registrations cr) <->
      exists u, u ∈ us /\ registration_of u = Some (k, r).
Proof.
  cbn zeta. intros Hw Hinp Hst Hutf Hb0 He0. pose proof (wfs_epoch _ _ Hst) as He.
  pose proof (latest_block_for_epoch db (epoch - 2) (wfd_blocks _ Hw) He) as Hlast.
  destruct (CandidatesDb.get_latest_block_for_epoch db (epoch - 2)) as [[last|]|] eqn:Hlb; [|specialize (Hlast b0 Hb0); lia | done].
  destruct Hlast as [Hlast Hn]. destruct (utxos_query db addr (Db.block_no last) Hw Hinp Hn) as (us & Hus & Hp).
  destruct (utxos_describe db addr (Db.block_no last) Hw Hinp) as (os & Hnd & Hos & Hd).
  destruct (stake_delegation_spec db (epoch - 2) Hst) as (entries & Hentries & Hstake).
  set (stake := CandidatesSource.get_stake_delegation (CandidatesSource.make_stake_map entries)) in *.
  destruct (group_candidates_spec stake us) as (Hg1 & Hg2 & Hg3).
  exists last, os, (omap (fun x => ok (group_row (base_key db x, rows_of db x))) (active db addr (Db.block_no last))), (group_candidates stake us).
  split_and!; try done.
  - unfold CandidatesSource.db_get_candidates, CandidatesSource.get_epoch_of_data_storage.
    rewrite (proj2 (Z.ltb_ge epoch 2)) by lia. simpl_monad.
    unfold CandidatesSource.get_registered_candidates, CandidatesSource.get_last_block_for_epoch. rewrite Hlb. simpl_monad.
    unfold MainchainAddress_to_string, from_utf8. rewrite Hutf. simpl_monad. cbn [option_map]. rewrite Hus. simpl_monad.
    cbn [CandidatesSource.convert_utxos_to_candidates]. rewrite Hentries. done.
  - intros cr Hcr. destruct (Hg2 cr Hcr) as [-> Hne]. split; [done|]. apply Hstake.
  - intros k r. rewrite Hg3. by setoid_rewrite Hp.
Qed.

(** ** Nodes with the same database agree *)
Section Orders.
Import Db Ledger CandidatesDb CandidatesSource.
Context `{HexCodecLaws, DatumJson, Blake2b}.
Implicit Types (db : Database).

(** The data source, as the interface that committee selection uses. A panic of the address
    conversion, which needs an address that is not UTF-8, counts as an error. *)
Definition data_source (order : AnyOrder) db : AuthoritySelectionDataSource := mkAuthoritySelectionDataSource
  (db_get_ariadne_parameters db)
  (fun epoch address => match db_get_candidates db epoch address with Done r => r | Panic => Err "panic"%string end)
  (db_get_epoch_nonce db) db_data_epoch.

Lemma position_leb_total x y : position_leb x y = true \/ position_leb y x = true.
Proof.
  unfold position_leb, null_first_leb. destruct x as [[a|] i], y as [[b|] j]; cbn [fst snd].
  - destruct (decide (a = b)) as [<-|Hne]; [rewrite !bool_decide_eq_true_2 by done; rewrite !Z.leb_le; lia|].
    rewrite !bool_decide_eq_false_2 by congruence. rewrite !Z.leb_le. lia.
  - by left.
  - by right.
  - rewrite !bool_decide_eq_true_2 by done. rewrite !Z.leb_le. lia.
Qed.
Lemma position_leb_trans x y z : position_leb x y = true -> position_leb y z = true -> position_leb x z = true.
Proof.
  unfold position_leb, null_first_leb. destruct x as [[a|] i], y as [[b|] j], z as [[c|] k]; cbn [fst snd];
    repeat case_bool_decide; simplify_eq; rewrite ?Z.leb_le; intros; try done; try lia.
  exfalso. match goal with H : Some _ <> Some _ |- _ => apply H; f_equal; lia end.
Qed.
Lemma position_leb_antisymm x y : position_leb x y = true -> position_leb y x = true -> x = y.
Proof.
  unfold position_leb, null_first_leb. destruct x as [[a|] i], y as [[b|] j]; cbn [fst snd];
    repeat case_bool_decide; simplify_eq; rewrite ?Z.leb_le; intros; try done; try (f_equal; lia).
  exfalso. assert (a = b) by lia. congruence.
Qed.

(** *** The order of the registrations *)
Definition output_key (u : MainchainTxOutput) : UtxoInfoOrderingKey :=
  mkOrderingKey (mto_tx_block_no u) (mto_tx_index_in_block u) (index (mto_utxo_id u)).

Lemma describes_key db o o' u u' :
  wf_database db -> o ∈ tx_out (ledger db) -> o' ∈ tx_out (ledger db) -> describes db o u -> describes db o' u' ->
  output_key u = output_key u' -> o = o'.
Proof.
  intros Hw Ho Ho' [(t & b & blk & Ht & Hid & Hb & Hbid & Hblk & Hu & Hn & _ & _ & Hi & _) _ _]
    [(t' & b' & blk' & Ht' & Hid' & Hb' & Hbid' & Hblk' & Hu' & Hn' & _ & _ & Hi' & _) _ _] Hkey.
  unfold output_key in Hkey. rewrite Hu, Hu' in Hkey. injection Hkey as Hkn Hki Hkx.
  assert (blk = blk') as <-.
  { apply (wf_unique _ (wfd_blocks _ Hw)); [| |congruence]; apply elem_of_blocks;
      [exists (snd b) | exists (snd b')]; (split; [by apply list_elem_of_fmap_2 | done]). }
  assert (b = b') as <-.
  { apply (NoDup_key (fun b => row_hash (snd b)) (block (ledger db))); [|done..|].
    - pose proof (wfd_block_hashes _ Hw) as Hh. unfold block_rows in Hh. by rewrite map_map in Hh.
    - apply decode_block_Ok in Hblk as (_ & ? & _), Hblk' as (_ & ? & _). congruence. }
  assert (t = t') as <-.
  { apply (NoDup_key (fun t => (tx_block_id t, tx_block_index t)) _ _ _ (wfd_tx_positions _ Hw)); [done | done | f_equal; congruence]. }
  apply (NoDup_key (fun o => (out_tx_id o, out_index o)) _ _ _ (wfd_outs _ Hw)); [done | done | f_equal; congruence].
Qed.

Lemma described_keys db os us :
  wf_database db -> NoDup os -> (forall o, o ∈ os -> o ∈ tx_out (ledger db)) -> Forall2 (describes db) os us ->
  NoDup (map output_key us).
Proof.
  intros Hw Hnd Hin Hd. induction Hd as [|o u os us Hou Hd IH]; cbn; [constructor|]. apply NoDup_cons in Hnd as [Ho Hnd].
  apply NoDup_cons. split; [|apply IH; [done | intros; apply Hin; by right]].
  intros (u' & Hk & Hu')%list_elem_of_fmap. apply list_elem_of_lookup in Hu' as [i Hi].
  destruct (Forall2_lookup_r _ _ _ _ _ Hd Hi) as (o' & Hoi & Hou'). apply Ho.
  assert (o' ∈ os) as Ho' by (by eapply list_elem_of_lookup_2).
  by rewrite (describes_key db o o' u u' Hw) by (done || apply Hin; (left || by right)).
Qed.

Lemma group_distinct `{AnyOrderLaws} stake us :
  NoDup (map output_key us) -> Forall distinct_outputs (group_candidates stake us).
Proof.
  intros Hnd. apply Forall_forall. intros cr ([k g] & -> & Hg)%list_elem_of_fmap. rewrite any_order_perm in Hg.
  apply elem_of_group_by in Hg as [-> _]. unfold distinct_outputs. cbn [registrations]. rewrite map_map.
  set (p := fun x => bool_decide _). unfold parse_candidates.
  apply (NoDup_map_filter (fun c => ordering_key (rc_utxo_info c))). rewrite map_map.
  apply (NoDup_omap_key output_key); [done|]. intros u c Hc. unfold parse_candidate in Hc.
  destruct (mto_datum u) as [d|]; [|done]. cbn [mbind option_bind] in Hc. destruct (ok _) as [[v]|]; [|done]. cbn in Hc.
  by injection Hc as <-.
Qed.

Lemma filter_perm {A} (p : A -> bool) l l' : l ≡ₚ l' -> List.filter p l ≡ₚ List.filter p l'.
Proof.
  induction 1 as [|x l l' _ IH|x y l|l l' l'' _ IH _ IH']; cbn; [done | by destruct (p x); [rewrite IH|] | | by rewrite IH].
  destruct (p x), (p y); done || apply Permutation_swap.
Qed.

Lemma group_order (ord ord' : AnyOrder) `{!@AnyOrderLaws ord, !@AnyOrderLaws ord'} stake us us' :
  us ≡ₚ us' -> same_candidates (@group_candidates _ ord stake us) (@group_candidates _ ord' stake us').
Proof.
  intros Hus. unfold group_candidates, group_candidates_by_mc_pub_key.
  set (cs := map convert_candidate (parse_candidates us)). set (cs' := map convert_candidate (parse_candidates us')).
  assert (cs ≡ₚ cs') as Hcs by (unfold cs, cs', parse_candidates; by rewrite Hus).
  set (F := fun _ => _). set (group := fun l k => (k, List.filter (fun x => bool_decide (rc_mainchain_pub_key x = k)) l)).
  exists (map F (map (group cs) (map fst (@any_order ord' _ (group_by rc_mainchain_pub_key cs'))))). split.
  - rewrite any_order_perm. unfold group_by at 1. apply Permutation_map. unfold group. apply Permutation_map.
    rewrite any_order_perm, group_by_keys. apply NoDup_Permutation; [apply NoDup_remove_dups..|].
    intros k. rewrite !elem_of_remove_dups. by rewrite Hcs.
  - rewrite map_map. apply Forall2_fmap_2.
    assert (forall g, g ∈ @any_order ord' _ (group_by rc_mainchain_pub_key cs') -> g = group cs' (fst g)) as Hg.
    { intros [k g] Hin. rewrite any_order_perm in Hin. apply elem_of_group_by in Hin as [-> _]. done. }
    induction (@any_order ord' _ _) as [|g l IH]; cbn [map]; [constructor|]. constructor.
    + rewrite (Hg g) by left. cbn. split; cbn; [done | done |]. apply Permutation_map, filter_perm, Hcs.
    + apply IH. intros; apply Hg; by right.
Qed.

(** *** The answers in two orders *)
(** What makes the answers independent of the order of rows: the tokens of the two policies
    are never twice at one position, and an epoch has one nonce. *)
Record wf_answers db (epoch : Z) (scripts : MainChainScripts) : Prop := {
  wfa_database : wf_database db;
  wfa_inputs : has_inputs db (committee_candidate_address scripts);
  wfa_stake : wf_stake db (epoch - 2);
  wfa_address : utf8_valid (committee_candidate_address scripts) = true;
  wfa_tokens : forall policy x y, policy ∈ [d_parameter_policy_id scripts; permissioned_candidates_policy_id scripts] ->
    x ∈ token_joins db -> y ∈ token_joins db -> token_where (Asset_new policy) (epoch - 2) x = true ->
    token_where (Asset_new policy) (epoch - 2) y = true -> token_position x = token_position y -> x = y;
  wfa_nonces : NoDup (map ep_epoch_no (epoch_param db))
}.

Context (ord ord' : AnyOrder) `{!@AnyOrderLaws ord, !@AnyOrderLaws ord'}.

Lemma token_utxo_order db epoch scripts policy :
  wf_answers db epoch scripts -> policy ∈ [d_parameter_policy_id scripts; permissioned_candidates_policy_id scripts] ->
  @get_token_utxo_for_epoch _ _ ord db (Asset_new policy) (epoch - 2) = @get_token_utxo_for_epoch _ _ ord' db (Asset_new policy) (epoch - 2).
Proof.
  intros Hw Hp. pose proof (wfs_epoch _ _ (wfa_stake _ _ _ Hw)) as He. unfold get_token_utxo_for_epoch, sql_int.
  rewrite !(proj2 (Z.ltb_lt _ _)) by lia. set (rows := List.filter _ _).
  set (leb := fun x y => position_leb (token_position x) (token_position y)).
  assert (forall x y, leb x y = true \/ leb y x = true) as Htot by (intros; apply position_leb_total).
  assert (forall x y z, leb x y = true -> leb y z = true -> leb x z = true) as Htrans by (intros ? ? ?; apply position_leb_trans).
  rewrite <- !(last_sort_by leb Htot Htrans). rewrite (sort_by_perm_eq leb _ (@any_order ord' _ rows)); [done | done | done | |].
  - intros x y Hx Hy Hxy Hyx. rewrite any_order_perm in Hx, Hy. apply list_elem_of_In, filter_In in Hx as [Hx Hwx], Hy as [Hy Hwy].
    apply (wfa_tokens _ _ _ Hw policy); [done | by apply list_elem_of_In.. | done | done |]. by apply position_leb_antisymm.
  - by rewrite !any_order_perm.
Qed.

Lemma nonce_order db epoch scripts :
  wf_answers db epoch scripts -> @get_epoch_nonce _ _ ord db (epoch - 2) = @get_epoch_nonce _ _ ord' db (epoch - 2).
Proof.
  intros Hw. unfold get_epoch_nonce. rewrite (find_perm ep_epoch_no _ (sql_int 32 (epoch - 2)) _ (@any_order ord' _ (epoch_param db))); [done | | |].
  - rewrite any_order_perm. apply Hw.
  - intros y. apply Z.eqb_eq.
  - by rewrite !any_order_perm.
Qed.

Lemma stake_is_known_dec db e : stake_is_known db e \/ ~ stake_is_known db e.
Proof.
  destruct (stake_rows db e) as [|[es ph] l] eqn:Hr; [right | left].
  - intros (es & ph & Hx). apply elem_of_stake_rows in Hx. rewrite Hr in Hx. by apply elem_of_nil in Hx.
  - exists es, ph. apply elem_of_stake_rows. rewrite Hr. left.
Qed.

Lemma parameters_order db epoch scripts :
  wf_answers db epoch scripts ->
  get_ariadne_parameters (data_source ord db) epoch (d_parameter_policy_id scripts) (permissioned_candidates_policy_id scripts) =
    get_ariadne_parameters (data_source ord' db) epoch (d_parameter_policy_id scripts) (permissioned_candidates_policy_id scripts) /\
  AriadneInherent.get_epoch_nonce (data_source ord db) epoch = AriadneInherent.get_epoch_nonce (data_source ord' db) epoch.
Proof.
  intros Hw. pose proof (wfs_epoch _ _ (wfa_stake _ _ _ Hw)) as He.
  cbn [get_ariadne_parameters AriadneInherent.get_epoch_nonce data_source].
  unfold db_get_ariadne_parameters, db_get_epoch_nonce, get_epoch_of_data_storage.
  rewrite (proj2 (Z.ltb_ge epoch 2)) by lia. simpl_monad. split.
  - rewrite !(token_utxo_order db epoch scripts) by (done || left || (right; left)). done.
  - by rewrite (nonce_order db epoch scripts).
Qed.

(** The candidates an order delivers. *)
Lemma candidates_delivered (o : AnyOrder) `{!@AnyOrderLaws o} db epoch scripts :
  wf_answers db epoch scripts -> exists us stake,
    AriadneInherent.get_candidates (data_source o db) epoch (committee_candidate_address scripts) = Ok (@group_candidates _ o stake us) /\
    NoDup (map output_key us) /\
    (forall key, stake_is_known db (epoch - 2) -> stake key = Some (pool_stake db (epoch - 2) (blake2b key))) /\
    (forall key, ~ stake_is_known db (epoch - 2) -> stake key = None) /\
    us ≡ₚ match get_latest_block_for_epoch db (epoch - 2) with
          | Ok (Some last) => omap (fun x => ok (group_row (base_key db x, rows_of db x)))
              (active db (committee_candidate_address scripts) (block_no last))
          | _ => [] end.
Proof.
  intros [Hw Hinp Hst Hutf _ _]. pose proof (wfs_epoch _ _ Hst) as He.
  destruct (stake_delegation_spec db (epoch - 2) Hst) as (entries & Hentries & Hstake).
  set (stake := get_stake_delegation (make_stake_map entries)) in *.
  assert (forall us, get_registered_candidates db (epoch - 2) (committee_candidate_address scripts) =
      Done (Ok (map convert_candidate (parse_candidates us))) ->
    AriadneInherent.get_candidates (data_source o db) epoch (committee_candidate_address scripts) = Ok (group_candidates stake us)) as Hget.
  { intros us Hus. cbn [AriadneInherent.get_candidates data_source]. unfold db_get_candidates, get_epoch_of_data_storage.
    rewrite (proj2 (Z.ltb_ge epoch 2)) by lia. simpl_monad. rewrite Hus. simpl_monad. by rewrite Hentries. }
  pose proof (latest_block_for_epoch db (epoch - 2) (wfd_blocks _ Hw) He) as Hlast.
  unfold get_registered_candidates, get_last_block_for_epoch, MainchainAddress_to_string, from_utf8 in Hget. rewrite Hutf in Hget.
  destruct (get_latest_block_for_epoch db (epoch - 2)) as [[last|]|]; [| |done].
  - destruct Hlast as [_ Hn]. destruct (utxos_query db (committee_candidate_address scripts) (block_no last) Hw Hinp Hn) as (us & Hus & Hp).
    exists us, stake. split_and!; [apply Hget; simpl_monad; cbn [option_map]; by rewrite Hus | | apply Hstake | apply Hstake | done].
    destruct (utxos_describe db (committee_candidate_address scripts) (block_no last) Hw Hinp) as (os & Hnd & Hos & Hd).
    rewrite Hp. eapply described_keys; [done | done | | done]. intros out Hout. by apply Hos in Hout as [? _ _ _].
  - exists [], stake. split_and!; [by apply Hget | constructor | apply Hstake | apply Hstake | done].
Qed.
End Orders.

(** C16: Nodes with the same database agree. Whatever order the database returns rows in
    and the hash maps iterate in, two nodes that read the same database for an epoch get the
    same selection inputs up to the order of candidates and registrations, and then, when no
    two valid candidates share a partner chain account, select the same committee. *)
Theorem db_nodes_agree
    `{HexCodecLaws, DatumJson, Blake2b, Minicbor, Crypto, AccountOrder, Rng, U256, BoundedVecOps}
    (ord ord' : AnyOrder) `{!@AnyOrderLaws ord, !@AnyOrderLaws ord'} MaxValidators genesis sc_epoch db epoch scripts i :
  wf_answers db epoch scripts ->
  AriadneIDP.inputs_from_mc_data (data_source ord db) epoch scripts = Ok i ->
  exists i', AriadneIDP.inputs_from_mc_data (data_source ord' db) epoch scripts = Ok i' /\ same_inputs i i' /\
    (NoDup (valid_accounts i genesis) ->
     Ariadne.select_authorities MaxValidators genesis i sc_epoch = Ariadne.select_authorities MaxValidators genesis i' sc_epoch).
Proof.
  intros Hw Hi.
  destruct (candidates_delivered ord db epoch scripts Hw) as (us & stake & Hc & Hk & Hs1 & Hs2 & Hp).
  destruct (candidates_delivered ord' db epoch scripts Hw) as (us' & stake' & Hc' & _ & Hs1' & Hs2' & Hp').
  assert (forall key, stake' key = stake key) as Hstake.
  { intros key. destruct (stake_is_known_dec db (epoch - 2)); [by rewrite Hs1, Hs1' | by rewrite Hs2, Hs2']. }
  assert (same_candidates (@group_candidates _ ord stake us) (@group_candidates _ ord' stake' us')) as Hsame.
  { replace (@group_candidates _ ord' stake' us') with (@group_candidates _ ord' stake us').
    - apply (group_order ord ord'). by rewrite Hp, Hp'.
    - unfold group_candidates. apply map_ext. intros [k g]. by rewrite Hstake. }
  destruct (parameters_order ord ord' db epoch scripts Hw) as [Hparams Hnonce].
  unfold AriadneIDP.inputs_from_mc_data in *. rewrite <- Hparams, <- Hnonce, Hc'. rewrite Hc in Hi.
  destruct (get_ariadne_parameters _ _ _ _) as [params|]; [|done]. simpl_monad. cbn [mbind result_bind map_err] in Hi.
  destruct (get_epoch_nonce _ _) as [nonce|]; [|done]. simpl_monad. cbn [mbind result_bind map_err] in Hi. injection Hi as <-.
  eexists. split; [done|]. split; [by split|]. intros Hacc. apply select_authorities_order; [by split | | done].
  by apply group_distinct.
Qed.

(** ** An example *)
Module ExampleRegistrations.
Import ExampleChain2 Db Ledger CandidatesDb CandidatesSource CslTree ConcreteHex.
(** Pools 1 and 2 register; pool 1 replaces its registration in block 4. The third output at
    the address has an unreadable datum. Blocks are those of [ExampleChain2], in epoch 0. *)
Definition register (pool key : Z) : PlutusData := register_to_plutus_data (RegisterV0 (mkRegisterValidatorDatumV0
  (mkAdaBasedStaking (replicate 32 pool) (replicate 64 pool)) (replicate 33 key) (replicate 64 key)
  (mkUtxoId (replicate 32 100) 0) (replicate 28 pool) (replicate 32 key) (replicate 32 2))).
#[export] Instance numbered_json : DatumJson := {|
  Jsonb := Z;
  jsonb_eq_dec := _;
  encode_json_value_to_plutus_datum j := Ok (
    if j =? 0 then d_parameter_to_plutus_data (mkDParameter 0 3)
    else if j =? 1 then permissioned_candidates_to_plutus_data []
    else if j <? 20 then register (j - 10) (j - 10) else new_integer j)
|}.
#[export] Instance prefix_blake2b : Blake2b := fun key => take 28 key.
Definition id_order : AnyOrder := fun A l => l.
Definition rev_order : AnyOrder := fun A l => rev l.
#[export] Instance id_order_laws : @AnyOrderLaws id_order.
Proof. by intros A l. Qed.
#[export] Instance rev_order_laws : @AnyOrderLaws rev_order.
Proof. intros A l. symmetry. apply Permutation_rev. Qed.

Definition address : MainchainAddress := [97; 100; 100; 114].
Definition elsewhere : MainchainAddress := [120].
Definition scripts := mkMainChainScripts address (replicate 28 50) (replicate 28 51).
Definition transaction (id block : Z) := mkTxRow id (replicate 32 id) block 0.
Definition database : Database := mkDatabase
  (mkTables (map (fun i => (i, row i)) (seqZ 0 9))
    [transaction 100 1; transaction 101 2; transaction 102 3; transaction 103 4; transaction 104 5]
    [mkTxOutRow 1 100 0 elsewhere (Some [0]); mkTxOutRow 2 100 1 elsewhere (Some [1]);
     mkTxOutRow 3 101 0 address (Some [11]); mkTxOutRow 4 102 0 address (Some [12]);
     mkTxOutRow 5 103 0 address (Some [13]); mkTxOutRow 6 104 0 address (Some [20])]
    [mkMaTxOutRow 1 1 1; mkMaTxOutRow 1 2 2]
    [mkMultiAssetRow 1 (replicate 28 50) []; mkMultiAssetRow 2 (replicate 28 51) []])
  [mkTxInRow 1 101 100 0; mkTxInRow 2 102 100 1; mkTxInRow 3 103 101 0; mkTxInRow 4 104 102 0]
  [mkDatumRow [0] (Some 0); mkDatumRow [1] (Some 1); mkDatumRow [11] (Some 11); mkDatumRow [12] (Some 12);
   mkDatumRow [13] (Some 11); mkDatumRow [20] (Some 20)]
  [mkEpochStakeRow 1 700 0; mkEpochStakeRow 1 11 0; mkEpochStakeRow 2 5 0]
  [mkPoolHashRow 1 (replicate 28 1); mkPoolHashRow 2 (replicate 28 2)]
  [mkEpochParamRow 0 (Some [7; 7])].

(** Pool 2's registration is spent in block 5; the one of pool 1 in block 4 remains. *)
Example database_candidates :
  match AriadneInherent.get_candidates (data_source id_order database) 2 address with
  | Ok [cr] => mainchain_pub_key cr = replicate 32 1 /\ stake_delegation cr = Some 711 /\
      map (fun r => utxo_id (utxo_info r)) (registrations cr) = [mkUtxoId (replicate 32 103) 0]
  | _ => False
  end.
Proof. vm_compute. split_and!; reflexivity. Qed.

Ltac each H := repeat (apply elem_of_cons in H as [->|H]); [..|by apply elem_of_nil in H].
Ltac concretely := apply (bool_decide_unpack _); vm_compute; exact I.
(** A foreign key: [forall i, i ∈ l -> exists t, t ∈ l' /\ P i t]. *)
Ltac referenced := let i := fresh in let Hi := fresh in
  intros i Hi; apply Exists_exists; revert i Hi; apply Forall_forall; concretely.

Lemma database_wf : wf_database database.
Proof.
  split; [exact (rows_wf 9 ltac:(done)) | concretely..| | | | | | |].
  - referenced.
  - referenced.
  - referenced.
  - referenced.
  - intros t Ht. each Ht; (split; [reflexivity|]; split; [repeat constructor; lia | cbn; lia]).
  - intros o Ho. each Ho; cbn; lia.
  - intros d j _ _. eexists. reflexivity.
Qed.
Lemma database_inputs : has_inputs database address.
Proof.
  assert (forall t, t ∈ tx (ledger database) -> tx_id t <> 100 -> exists xi, xi ∈ tx_in database /\ in_tx_in_id xi = tx_id t) as Htx.
  { intros t Ht Hne. each Ht; try done; apply Exists_exists; concretely. }
  intros o t Ho Ha Ht Hid. apply Htx; [done|]. rewrite Hid. by each Ho.
Qed.
Lemma database_stake : wf_stake database 0.
Proof.
  split; [lia | intros ph Hph; each Hph; reflexivity|]. intros h. unfold pool_stake. cbn [database epoch_stake pool_hash sum_of foldr map].
  unfold stake_of_pool. cbn. repeat case_bool_decide; lia.
Qed.

Lemma one_token policy : policy ∈ [d_parameter_policy_id scripts; permissioned_candidates_policy_id scripts] ->
  exists r, List.filter (token_where (Asset_new policy) 0) (token_joins database) = [r].
Proof. intros Hp. each Hp; eexists; vm_compute; reflexivity. Qed.
Lemma database_answers : wf_answers database 2 scripts.
Proof.
  split; [exact database_wf | exact database_inputs | exact database_stake | reflexivity | | concretely].
  intros policy x y Hp Hx Hy Hwx Hwy _. destruct (one_token policy Hp) as [r Hr].
  assert (forall z, z ∈ token_joins database -> token_where (Asset_new policy) 0 z = true -> z = r) as Hz.
  { intros z Hz Hwz. apply list_elem_of_singleton. rewrite <- Hr. apply list_elem_of_In, filter_In. by rewrite <- list_elem_of_In. }
  by rewrite (Hz x), (Hz y).
Qed.
End ExampleRegistrations.

Section RegistrationWitnesses.
Import ExampleChain2 ExampleRegistrations CslTree ConcreteHex CandidatesDb CandidatesSource.
Import ConcreteAccounts Selection.Concrete Rfc8949 TwoOrders.

Lemma candidates_are_active_registrations_witness :
  exists last os us crs, last_block database 0 last /\
    (forall o, o ∈ os <-> utxo_at database address (Db.block_no last) o) /\ NoDup os /\ Forall2 (describes database) os us /\
    @db_get_candidates _ _ _ rev_order _ database 2 address = Done (Ok crs) /\
    NoDup (map mainchain_pub_key crs) /\
    (forall cr, cr ∈ crs -> registrations cr <> [] /\
      (stake_is_known database 0 -> stake_delegation cr = Some (pool_stake database 0 (blake2b (mainchain_pub_key cr)))) /\
      (~ stake_is_known database 0 -> stake_delegation cr = None)) /\
    forall k r, (exists cr, cr ∈ crs /\ mainchain_pub_key cr = k /\ r ∈ registrations cr) <->
      exists u, u ∈ us /\ registration_of u = Some (k, r).
Proof.
  apply (candidates_are_active_registrations (H4 := rev_order) database 2 address (ExampleChain2.block 0));
    [exact database_wf | exact database_inputs | exact database_stake | reflexivity | | reflexivity].
  apply (elem_of_row_blocks 9). exists 0. split; [lia | reflexivity].
Defined.

Lemma db_nodes_agree_witness :
  exists i i', AriadneIDP.inputs_from_mc_data (data_source id_order database) 2 scripts = Ok i /\
    AriadneIDP.inputs_from_mc_data (data_source rev_order database) 2 scripts = Ok i' /\ same_inputs i i' /\
    (NoDup (valid_accounts i utxo0) ->
     Ariadne.select_authorities 3 utxo0 i 7 = Ariadne.select_authorities 3 utxo0 i' 7).
Proof.
  eexists. assert (AriadneIDP.inputs_from_mc_data (data_source id_order database) 2 scripts = Ok _) as Hi by (vm_compute; reflexivity).
  destruct (db_nodes_agree id_order rev_order 3 utxo0 7 database 2 scripts _ database_answers Hi) as (i' & Hi' & Hs & Hsel).
  exists i'. split; [exact Hi|]. split; [exact Hi'|]. split; [exact Hs | exact Hsel].
Defined.
End RegistrationWitnesses.
