(* ===== verification/DbInputs.v ===== *)
(** * The selection inputs that db-sync delivers fit their types

    What committee selection and the runtime rely on, [wf_inputs], holds of the inputs that
    [AuthoritySelectionInputs::from_mc_data] makes of the answers of the db-sync data source:
    [d_param.rs] reads numbers of 16 bits, stakes are those of distinct pools, so that their sum
    fits [u64] when the stake of the epoch does, and the nonce consists of bytes. *)

From S2P Require Import Prelude Domain Sql McEpoch Slots McHash DbBlocks DbNativeToken Cbor Json PlutusDatums Selection Ariadne Committee AriadneInherent Agreement DbCandidates.
#[local] Open Scope list_scope.

(** ** Decoders return values of their type *)
Section Decoders.
Context `{Csl}.
Lemma as_u16_width d n : as_u16 d = Some n -> in_width 16 n.
Proof.
  unfold as_u16. destruct (as_u32 d) as [m|]; [|done]. cbn [mbind option_bind].
  by intros [? ->]%try_into_width_Some.
Qed.
Lemma decoded_d_parameter d v : PlutusDatums.decode d = Ok (v : DParamDatum) -> wf_DParameter (DParameter_from v).
Proof.
  assert (forall d v, decode_legacy_d_param d = Ok v -> wf_DParameter (DParameter_from v)) as Hl.
  { intros d' v'. unfold decode_legacy_d_param. destruct (as_list d') as [items|]; [|done]. cbn [mbind option_bind].
    destruct (_ =? _)%nat; [|done]. destruct (items !! 0%nat) as [p|]; [|done]. cbn [mbind option_bind].
    destruct (as_u16 p) as [np|] eqn:Hp; [|done]. cbn [mbind option_bind]. destruct (items !! 1%nat) as [r|]; [|done]. cbn [mbind option_bind].
    destruct (as_u16 r) as [nr|] eqn:Hr; [|done]. intros [= <-]. split; by eapply as_u16_width. }
  unfold PlutusDatums.decode. destruct (plutus_data_version_and_payload d) as [[[version c] m]|]; cbn.
  - destruct (version =? 0); [|done]. destruct (decode_legacy_d_param m) as [v'|] eqn:Hm; [|done]. intros [= <-]. by eapply Hl.
  - destruct (decode_legacy_d_param d) as [v'|] eqn:Hm; [|done]. intros [= <-]. by eapply Hl.
Qed.
End Decoders.

(** ** Stake of distinct pools *)
Section StakeSums.
(** Parts of a sum by distinct keys. *)
Lemma sum_by_keys {A K} `{EqDecision K} (key : A -> K) (amount : A -> Z) (rows : list A) (keys : list K) :
  NoDup keys -> (forall x, x ∈ rows -> 0 <= amount x) ->
  sum_of (fun k => sum_of amount (List.filter (fun x => bool_decide (key x = k)) rows)) keys <= sum_of amount rows.
Proof.
  intros Hnd. induction rows as [|x rows IH]; intros Hpos.
  { cbn. rewrite sum_of_zero by done. done. }
  rewrite sum_of_cons. specialize (IH ltac:(intros; apply Hpos; by right)).
  assert (sum_of (fun k => if bool_decide (key x = k) then amount x else 0) keys <= amount x) as Hx.
  { specialize (Hpos x ltac:(left)). clear IH. induction Hnd as [|k keys Hk _ IHk]; [done|]. rewrite sum_of_cons. case_bool_decide as Hkx; [|lia].
    rewrite sum_of_zero; [lia|]. intros k' Hk'. rewrite bool_decide_eq_false_2; [done|]. congruence. }
  rewrite (sum_of_ext _ (fun k => (if bool_decide (key x = k) then amount x else 0) +
    sum_of amount (List.filter (fun x => bool_decide (key x = k)) rows))).
  - rewrite sum_of_plus. lia.
  - intros k _. cbn [List.filter]. case_bool_decide; [by rewrite sum_of_cons | done].
Qed.

Context `{Minicbor, Crypto, Accounts}.
(** Selecting candidates does not add stake. *)
Lemma selected_stake crs genesis :
  Forall (fun cr => forall s, stake_delegation cr = Some s -> 0 <= s) crs ->
  total_stake (filter_trustless_candidates_registrations crs genesis) <= sum_of (fun cr => default 0 (stake_delegation cr)) crs.
Proof.
  unfold filter_trustless_candidates_registrations, total_stake. induction 1 as [|cr crs Hcr _ IH]; [done|]. rewrite sum_of_cons.
  cbn [omap list_omap]. pose proof (select_latest_cases cr genesis) as Hc.
  destruct (select_latest_valid_candidate cr genesis) as [c|].
  - destruct Hc as (s & r & -> & _ & _ & _ & _ & ->). cbn. unfold sum_list in *. cbn in IH |- *. lia.
  - destruct (stake_delegation cr) as [s|]; cbn; [specialize (Hcr s eq_refl)|]; lia.
Qed.
End StakeSums.

(** ** The inputs *)
Section Inputs.
Import Db Ledger CandidatesDb CandidatesSource.
Context `{HexCodecLaws, DatumJson, Blake2b, Minicbor, Crypto, Accounts} (order : AnyOrder) `{!@AnyOrderLaws order}.

(** Stake amounts are not negative and those of the epoch fit [u64], and nonces are bytes. *)
Record wf_values (db : Database) (e : Z) : Prop := {
  wfv_amounts : forall es, es ∈ epoch_stake db -> 0 <= es_amount es;
  wfv_total : sum_of (fun x => es_amount (fst x)) (stake_rows db e) < 2 ^ 64;
  wfv_nonces : forall r n, r ∈ epoch_param db -> ep_nonce r = Some n -> wf_bytes n
}.

Lemma delivered_parameters db epoch d p params :
  get_ariadne_parameters (data_source order db) epoch d p = Ok params -> wf_DParameter (ap_d_parameter params).
Proof.
  cbn [get_ariadne_parameters data_source]. unfold db_get_ariadne_parameters.
  destruct (get_epoch_of_data_storage epoch) as [e|]; [|done]. cbn [mbind result_bind].
  destruct (get_token_utxo_for_epoch db (Asset_new p) e) as [co|]; [|done]. cbn [mbind result_bind].
  destruct (get_token_utxo_for_epoch db (Asset_new d) e) as [[dout|]|]; [|done..]. cbn [mbind result_bind ok_or].
  destruct (tto_datum dout) as [datum|]; [|done]. cbn [mbind result_bind ok_or].
  destruct (PlutusDatums.decode datum) as [v|] eqn:Hv; [|done]. cbn [mbind result_bind map_err].
  destruct co as [cout|]; [|done]. cbn [mbind result_bind ok_or]. destruct (tto_datum cout) as [cd|]; [|done]. cbn [mbind result_bind ok_or].
  destruct (PlutusDatums.decode cd) as [cv|]; [|done]. intros [= <-]. by apply (decoded_d_parameter datum).
Qed.
Lemma delivered_nonce db e epoch n :
  wf_values db e -> AriadneInherent.get_epoch_nonce (data_source order db) epoch = Ok n -> wf_bytes (default [] n).
Proof.
  intros Hv. cbn [AriadneInherent.get_epoch_nonce data_source]. unfold db_get_epoch_nonce, CandidatesDb.get_epoch_nonce.
  destruct (get_epoch_of_data_storage epoch) as [e'|]; [|done]. cbn [mbind result_bind].
  destruct (List.find _ _) as [r|] eqn:Hr; [|intros [= <-]; constructor]. destruct (ep_nonce r) as [x|] eqn:Hx; [|done]. intros [= <-].
  apply find_some in Hr as [Hr _]. apply list_elem_of_In in Hr. rewrite any_order_perm in Hr. by apply (wfv_nonces _ _ Hv r).
Qed.
(** The stakes of distinct candidates are stakes of distinct pools. *)
Lemma delivered_stake db epoch scripts crs :
  wf_answers db epoch scripts -> wf_values db (epoch - 2) ->
  AriadneInherent.get_candidates (data_source order db) epoch (committee_candidate_address scripts) = Ok crs ->
  NoDup (map (fun cr => blake2b (mainchain_pub_key cr)) crs) ->
  Forall (fun cr => forall s, stake_delegation cr = Some s -> 0 <= s) crs /\
  sum_of (fun cr => default 0 (stake_delegation cr)) crs < 2 ^ 64.
Proof.
  intros Ha Hv Hc Hnd. destruct (candidates_delivered order db epoch scripts Ha) as (us & stake & Hc' & _ & Hs1 & Hs2 & _).
  rewrite Hc in Hc'. injection Hc' as ->. destruct (group_candidates_spec stake us) as (_ & Hst & _).
  set (crs := group_candidates stake us) in *. pose proof (wfs_stakes _ _ (wfa_stake _ _ _ Ha)) as Hpool.
  assert (forall cr, cr ∈ crs -> 0 <= default 0 (stake_delegation cr) <= pool_stake db (epoch - 2) (blake2b (mainchain_pub_key cr)) /\
    forall s, stake_delegation cr = Some s -> 0 <= s) as Hcr.
  { intros cr Hin. destruct (Hst cr Hin) as [-> _]. specialize (Hpool (blake2b (mainchain_pub_key cr))).
    destruct (stake_is_known_dec db (epoch - 2)) as [Hk|Hk]; [rewrite Hs1 by done | rewrite Hs2 by done]; cbn; split; try lia;
      intros s [= <-]; lia. }
  split; [apply Forall_forall; intros cr Hin; by apply Hcr|].
  apply Z.le_lt_trans with (2 := wfv_total _ _ Hv).
  transitivity (sum_of (pool_stake db (epoch - 2)) (map (fun cr => blake2b (mainchain_pub_key cr)) crs)).
  - unfold sum_of. rewrite map_map. apply (sum_of_le _ (fun cr => pool_stake db (epoch - 2) (blake2b (mainchain_pub_key cr)))).
    intros cr Hin. by apply Hcr.
  - rewrite <- (sum_of_ext (fun h => sum_of (fun x => es_amount (fst x))
      (List.filter (fun x => bool_decide (ph_hash_raw (snd x) = h)) (stake_rows db (epoch - 2))))) by (intros; apply stake_group_sum).
    apply sum_by_keys; [done|]. intros [es ph] (Hes & _)%elem_of_stake_rows. by apply (wfv_amounts _ _ Hv).
Qed.
End Inputs.

(** C17: What db-sync delivers fits the types that committee selection relies on. For every database
    in which stake is not negative and fits 64 bits, and whatever order its rows come in,
    the inputs made of its answers have a D-parameter of two 16-bit numbers, a nonce of bytes,
    and stakes of the valid candidates that are not negative and add up without overflow, provided
    that the keys of the candidates have different hashes and the list of permissioned
    candidates is shorter than [2^32]: the inputs are well formed, as the theorems on the
    selection and on the runtime require, and selection never panics on them. *)
Theorem db_inputs_fit_types `{HexCodecLaws, DatumJson, Blake2b, Minicbor, Crypto, Accounts, RngLaws, U256Laws, BoundedVecLaws}
    (order : AnyOrder) `{!@AnyOrderLaws order} db epoch scripts genesis MaxValidators sc_epoch i :
  wf_answers db epoch scripts -> wf_values db (epoch - 2) ->
  AriadneIDP.inputs_from_mc_data (data_source order db) epoch scripts = Ok i ->
  NoDup (map (fun cr => blake2b (mainchain_pub_key cr)) (registered_candidates i)) ->
  Z.of_nat (length (permissioned_candidates i)) < 2 ^ 32 -> in_width 64 sc_epoch ->
  wf_inputs i genesis /\ select_authorities MaxValidators genesis i sc_epoch <> Panic.
Proof.
  intros Ha Hv Hi Hnd Hlen Hep. assert (wf_inputs i genesis) as Hwf.
  - unfold AriadneIDP.inputs_from_mc_data in Hi.
    destruct (get_ariadne_parameters _ _ _ _) as [params|] eqn:Hp; [|done]. cbn [mbind result_bind map_err] in Hi.
    destruct (AriadneInherent.get_candidates _ _ _) as [crs|] eqn:Hc; [|done]. cbn [mbind result_bind map_err] in Hi.
    destruct (AriadneInherent.get_epoch_nonce _ _) as [nonce|] eqn:Hn; [|done]. cbn [mbind result_bind map_err] in Hi. injection Hi as <-.
    cbn in Hnd, Hlen. destruct (delivered_stake order db epoch scripts crs Ha Hv Hc Hnd) as [Hs Ht].
    split; cbn; [by apply (delivered_parameters order db epoch _ _ _ Hp) | by apply (delivered_nonce order db (epoch - 2) epoch) | done | | done].
    exact (Z.le_lt_trans _ _ _ (selected_stake crs genesis Hs) Ht).
  - split; [done|]. pose proof (ariadne_committee_cases MaxValidators genesis i sc_epoch Hwf Hep) as Hs. by intros Hpanic; rewrite Hpanic in Hs.
Qed.

Section Witness.
Import ExampleChain2 ExampleRegistrations CslTree ConcreteHex CandidatesDb CandidatesSource.
Import ConcreteAccounts Selection.Concrete Rfc8949.
Lemma db_inputs_fit_types_witness :
  exists i, AriadneIDP.inputs_from_mc_data (data_source rev_order database) 2 scripts = Ok i /\ wf_inputs i Ariadne.utxo0 /\
    select_authorities 3 Ariadne.utxo0 i 7 <> Panic.
Proof.
  eexists. assert (AriadneIDP.inputs_from_mc_data (data_source rev_order database) 2 scripts = Ok _) as Hi by (vm_compute; reflexivity).
  split; [exact Hi|]. apply (db_inputs_fit_types rev_order database 2 scripts Ariadne.utxo0 3 7 _ database_answers); [|exact Hi|..].
  - split; [intros es Hes; each Hes; cbn; lia | vm_compute; reflexivity | intros r n Hr; each Hr; intros [= <-]; repeat constructor; lia].
  - apply (bool_decide_unpack _). vm_compute. exact I.
  - vm_compute. reflexivity.
  - unfold in_width. lia.
Defined.
End Witness.
