(* ===== verification/CandidatesCache.v ===== *)
(** * The cache of committee candidates

    [toolkit/mainchain-follower/db-sync-follower/src/candidates/cached.rs]: answers for
    epochs whose data can no longer change are kept in two least-recently-used caches. The
    [lru] crate is third-party ([Lru]). *)

From S2P Require Import Prelude Domain Sql McEpoch Slots McHash DbBlocks DbNativeToken PlutusDatums Selection Cbor Ariadne Committee AriadneInherent Agreement DbCandidates.
#[local] Open Scope list_scope.

(** [get] may reorder the entries, [put] may evict some. *)
Class Lru := {
  LruCache : Type -> Type -> Type;
  lru_new : forall {K V : Type}, nat -> LruCache K V;
  lru_get : forall {K V : Type} `{EqDecision K}, K -> LruCache K V -> option V * LruCache K V;
  lru_put : forall {K V : Type} `{EqDecision K}, K -> V -> LruCache K V -> LruCache K V
}.
Class LruLaws `{Lru} := {
  lru_peek : forall {K V : Type} `{EqDecision K}, LruCache K V -> K -> option V;
  lru_new_empty : forall {K V} `{EqDecision K} n k, lru_peek (lru_new n : LruCache K V) k = None;
  lru_get_value : forall {K V} `{EqDecision K} k (c : LruCache K V), fst (lru_get k c) = lru_peek c k;
  lru_get_keeps : forall {K V} `{EqDecision K} k (c : LruCache K V) k' v,
    lru_peek (snd (lru_get k c)) k' = Some v -> lru_peek c k' = Some v;
  lru_put_adds : forall {K V} `{EqDecision K} k v (c : LruCache K V) k' v',
    lru_peek (lru_put k v c) k' = Some v' -> k' = k /\ v' = v \/ lru_peek c k' = Some v'
}.

Module CachedSource.
Section Cached.
Context `{Lru}.
(** The wrapped data source and its database, at the moment of a request. *)
Record Inner := mkInner {
  inner : AuthoritySelectionDataSource;
  get_latest_stable_epoch : Z -> result string (option Z)
}.
Record CandidateDataSourceCached := mkCached {
  get_ariadne_parameters_for_epoch_cache : LruCache (McEpochNumber * PolicyId * PolicyId) AriadneParameters;
  get_candidates_for_epoch_cache : LruCache (McEpochNumber * bytes) (list CandidateRegistrations);
  security_parameter : Z;
  highest_seen_stable_epoch : option McEpochNumber
}.
Definition new (candidates_for_epoch_cache_size : nat) (security_parameter : Z) : outcome CandidateDataSourceCached :=
  if (candidates_for_epoch_cache_size =? 0)%nat then Panic
  else Done (mkCached (lru_new candidates_for_epoch_cache_size) (lru_new candidates_for_epoch_cache_size) security_parameter None).

Definition set_parameters c s :=
  mkCached c (get_candidates_for_epoch_cache s) (security_parameter s) (highest_seen_stable_epoch s).
Definition set_candidates c s :=
  mkCached (get_ariadne_parameters_for_epoch_cache s) c (security_parameter s) (highest_seen_stable_epoch s).
Definition set_stable_epoch e s :=
  mkCached (get_ariadne_parameters_for_epoch_cache s) (get_candidates_for_epoch_cache s) (security_parameter s) (Some e).

Definition can_use_caching_for_request (m : Inner) (request_epoch : McEpochNumber)
    : stateful CandidateDataSourceCached string bool := fun s =>
  match data_epoch (inner m) request_epoch with
  | Err e => (s, Done (Err e))
  | Ok data_epoch =>
      if match highest_seen_stable_epoch s with Some stable_epoch => data_epoch <=? stable_epoch | None => false end
      then (s, Done (Ok true))
      else match get_latest_stable_epoch m (security_parameter s) with
           | Err e => (s, Done (Err e))
           | Ok (Some stable_epoch) => (set_stable_epoch stable_epoch s, Done (Ok (data_epoch <=? stable_epoch)))
           | Ok None => (s, Done (Ok false))
           end
  end.

Definition get_candidates_with_caching (m : Inner) (epoch : McEpochNumber) (committee_candidate_address : MainchainAddress)
    : stateful CandidateDataSourceCached string (list CandidateRegistrations) := fun s =>
  match MainchainAddress_to_string committee_candidate_address with
  | Panic => (s, Panic)
  | Done address =>
      let key := (epoch, address) in
      let '(resp, c) := lru_get key (get_candidates_for_epoch_cache s) in
      let s := set_candidates c s in
      match resp with
      | Some resp => (s, Done (Ok resp))
      | None =>
          match get_candidates (inner m) epoch committee_candidate_address with
          | Err e => (s, Done (Err e))
          | Ok response => (set_candidates (lru_put key response (get_candidates_for_epoch_cache s)) s, Done (Ok response))
          end
      end
  end.

Definition get_ariadne_parameters_with_caching (m : Inner) (epoch : McEpochNumber)
    (d_parameter_validator permissioned_candidates_validator : PolicyId)
    : stateful CandidateDataSourceCached string AriadneParameters := fun s =>
  let key := (epoch, d_parameter_validator, permissioned_candidates_validator) in
  let '(resp, c) := lru_get key (get_ariadne_parameters_for_epoch_cache s) in
  let s := set_parameters c s in
  match resp with
  | Some resp => (s, Done (Ok resp))
  | None =>
      match get_ariadne_parameters (inner m) epoch d_parameter_validator permissioned_candidates_validator with
      | Err e => (s, Done (Err e))
      | Ok response => (set_parameters (lru_put key response (get_ariadne_parameters_for_epoch_cache s)) s, Done (Ok response))
      end
  end.

Definition cached_ariadne_parameters (m : Inner) (epoch : McEpochNumber) (d_parameter_policy permissioned_candidates_policy : PolicyId)
    : stateful CandidateDataSourceCached string AriadneParameters :=
  can_use_caching ←! can_use_caching_for_request m epoch;
  if can_use_caching : bool
  then get_ariadne_parameters_with_caching m epoch d_parameter_policy permissioned_candidates_policy
  else stateless (lift (get_ariadne_parameters (inner m) epoch d_parameter_policy permissioned_candidates_policy)).
Definition cached_candidates (m : Inner) (epoch : McEpochNumber) (committee_candidate_address : MainchainAddress)
    : stateful CandidateDataSourceCached string (list CandidateRegistrations) :=
  can_use_caching ←! can_use_caching_for_request m epoch;
  if can_use_caching : bool then get_candidates_with_caching m epoch committee_candidate_address
  else stateless (lift (get_candidates (inner m) epoch committee_candidate_address)).
Definition cached_epoch_nonce (m : Inner) (epoch : McEpochNumber) : stateful CandidateDataSourceCached string (option EpochNonce) :=
  stateless (lift (get_epoch_nonce (inner m) epoch)).
Definition cached_data_epoch (m : Inner) (for_epoch : McEpochNumber) : stateful CandidateDataSourceCached string McEpochNumber :=
  stateless (lift (data_epoch (inner m) for_epoch)).
End Cached.
End CachedSource.

(** ** Requests over time *)
Section Requests.
Import CachedSource.
Context `{LruLaws}.

Inductive CandidatesRequest :=
| AskParameters (epoch : McEpochNumber) (d_parameter_policy permissioned_policy : PolicyId)
| AskCandidates (epoch : McEpochNumber) (address : bytes).
Definition Answer : Type := fallible string (AriadneParameters + list CandidateRegistrations).
Definition as_answer {A} (f : A -> AriadneParameters + list CandidateRegistrations) (r : fallible string A) : Answer :=
  match r with Panic => Panic | Done (Err e) => Done (Err e) | Done (Ok a) => Done (Ok (f a)) end.

Definition serve (m : Inner) (q : CandidatesRequest) (s : CandidateDataSourceCached) : CandidateDataSourceCached * Answer :=
  match q with
  | AskParameters e p q => let '(s, r) := cached_ariadne_parameters m e p q s in (s, as_answer inl r)
  | AskCandidates e a => let '(s, r) := cached_candidates m e a s in (s, as_answer inr r)
  end.
Fixpoint serve_all (requests : list (Inner * CandidatesRequest)) (s : CandidateDataSourceCached) : list Answer :=
  match requests with
  | [] => []
  | (m, q) :: requests' => let '(s, r) := serve m q s in r :: serve_all requests' s
  end.

Definition request_epoch (q : CandidatesRequest) : McEpochNumber :=
  match q with AskParameters e _ _ => e | AskCandidates e _ => e end.
(** The answer of the wrapped source. *)
Definition fresh (m : Inner) (q : CandidatesRequest) : result string (AriadneParameters + list CandidateRegistrations) :=
  match q with
  | AskParameters e p q => a ← get_ariadne_parameters (inner m) e p q; Ok (inl a)
  | AskCandidates e a => a ← get_candidates (inner m) e a; Ok (inr a)
  end.

(** Answers that count as the same: equal, or candidates in another order. *)
Definition same_answer (r r' : result string (AriadneParameters + list CandidateRegistrations)) : Prop :=
  match r, r' with
  | Ok (inr l), Ok (inr l') => same_candidates l l'
  | _, _ => r = r'
  end.

(** The data of stable epochs is settled: answers about them stay the same from then on. *)
Definition settles (m : Inner) (k : Z) (later : list Inner) : Prop :=
  forall e q d, get_latest_stable_epoch m k = Ok (Some e) -> data_epoch (inner m) (request_epoch q) = Ok d -> d <= e ->
    forall m1 m2, m1 ∈ m :: later -> m2 ∈ m :: later -> same_answer (fresh m1 q) (fresh m2 q).
Fixpoint all_settle (k : Z) (ms : list Inner) : Prop :=
  match ms with [] => True | m :: ms' => settles m k ms' /\ all_settle k ms' end.

(** A request to a source that finds the epoch of the data as the db-sync source does, with an
    address that is text: others make both sources panic. *)
Record well_asked (m : Inner) (q : CandidatesRequest) : Prop := {
  wa_epoch : forall e, data_epoch (inner m) e = CandidatesSource.db_data_epoch e;
  wa_address : forall e a, q = AskCandidates e a -> utf8_valid a = true
}.
(** The cached source fails on its own account: there is no epoch of the data, or the query for the
    latest stable epoch fails. *)
Definition caching_fails (k : Z) (m : Inner) (q : CandidatesRequest) (e : string) : Prop :=
  data_epoch (inner m) (request_epoch q) = Err e \/ get_latest_stable_epoch m k = Err e.
(** What the cached source answers: the answer of the wrapped source, or an error of its own. *)
Definition answered (k : Z) (m : Inner) (q : CandidatesRequest) (r : Answer) : Prop :=
  (exists r', r = Done r' /\ same_answer r' (fresh m q)) \/ (exists e, caching_fails k m q e /\ r = Done (Err e)).

Lemma same_candidates_refl l : same_candidates l l.
Proof. exists l. split; [done|]. induction l; constructor; [by split | done]. Qed.
Lemma same_answer_refl r : same_answer r r.
Proof. destruct r as [[a|l]|e]; [done | apply same_candidates_refl | done]. Qed.

(** What the caches hold for a request. *)
Definition cached_answer (s : CandidateDataSourceCached) (q : CandidatesRequest) : option (AriadneParameters + list CandidateRegistrations) :=
  match q with
  | AskParameters e p q => inl <$> lru_peek (get_ariadne_parameters_for_epoch_cache s) (e, p, q)
  | AskCandidates e a => inr <$> lru_peek (get_candidates_for_epoch_cache s) (e, a)
  end.
Definition agreed (ms : list Inner) (q : CandidatesRequest) : Prop :=
  forall m1 m2, m1 ∈ ms -> m2 ∈ ms -> same_answer (fresh m1 q) (fresh m2 q).

(** The state, with respect to the moments to come. *)
Record cache_ok (k : Z) (s : CandidateDataSourceCached) (ms : list Inner) : Prop := {
  co_security : security_parameter s = k;
  co_cached : forall q v, cached_answer s q = Some v -> forall m, m ∈ ms -> same_answer (Ok v) (fresh m q);
  co_stable : forall e, highest_seen_stable_epoch s = Some e -> forall q, 2 <= request_epoch q -> request_epoch q - 2 <= e -> agreed ms q
}.

Lemma cache_ok_tail k s m ms : cache_ok k s (m :: ms) -> cache_ok k s ms.
Proof.
  intros [Hk Hc Hs]. split; [done | intros q v Hv m' Hm'; apply Hc; [done | by right]|].
  intros e He q H2 Hq m1 m2 H1 H3. apply (Hs e He q H2 Hq); by right.
Qed.

(** A state with fewer entries, and one more that is right. *)
Lemma cache_ok_add k s s' ms q0 v0 :
  cache_ok k s ms -> security_parameter s' = security_parameter s -> highest_seen_stable_epoch s' = highest_seen_stable_epoch s ->
  (forall q v, cached_answer s' q = Some v -> q = q0 /\ v = v0 \/ cached_answer s q = Some v) ->
  (forall m, m ∈ ms -> same_answer (Ok v0) (fresh m q0)) -> cache_ok k s' ms.
Proof.
  intros [Hk Hc Hs] Hk' Hh Hq Hv0. split; [congruence | | by rewrite Hh].
  intros q v Hv. destruct (Hq q v Hv) as [[-> ->]|Hv']; [done | by apply Hc].
Qed.
Lemma cache_ok_fewer k s s' ms :
  cache_ok k s ms -> security_parameter s' = security_parameter s -> highest_seen_stable_epoch s' = highest_seen_stable_epoch s ->
  (forall q v, cached_answer s' q = Some v -> cached_answer s q = Some v) -> cache_ok k s' ms.
Proof.
  intros [Hk Hc Hs] Hk' Hh Hq. split; [congruence | | by rewrite Hh]. intros q v Hv. by apply Hc, Hq.
Qed.

Lemma can_use_caching_spec k s m ms q :
  cache_ok k s (m :: ms) -> settles m k ms -> well_asked m q ->
  (exists e, caching_fails k m q e /\ can_use_caching_for_request m (request_epoch q) s = (s, Done (Err e))) \/
  exists s' b, can_use_caching_for_request m (request_epoch q) s = (s', Done (Ok b)) /\ cache_ok k s' (m :: ms) /\
    (b = true -> agreed (m :: ms) q).
Proof.
  intros Hok Hset [Hd _]. unfold can_use_caching_for_request, caching_fails.
  rewrite Hd. unfold CandidatesSource.db_data_epoch, CandidatesSource.get_epoch_of_data_storage.
  destruct (Z.ltb_spec (request_epoch q) 2) as [|Hr]; [left; eexists; split; [by left|done]|].
  rewrite (co_security _ _ _ Hok). destruct (get_latest_stable_epoch m k) as [stable|err] eqn:Hst.
  2:{ destruct (match highest_seen_stable_epoch s with Some _ => _ | None => false end) eqn:Hh;
        [|left; exists err; split; [by right|done]].
      right. exists s, true. split; [done|]. split; [done|]. intros _.
      destruct (highest_seen_stable_epoch s) as [e|] eqn:He; [|done]. zbool. by apply (co_stable _ _ _ Hok e He). }
  right.
  assert (forall q' e, stable = Some e -> 2 <= request_epoch q' -> request_epoch q' - 2 <= e -> agreed (m :: ms) q') as Hnow.
  { intros q' e -> H2 Hle m1 m2. apply (Hset e q' (request_epoch q' - 2)); [done | | done]. rewrite Hd.
    unfold CandidatesSource.db_data_epoch, CandidatesSource.get_epoch_of_data_storage. by rewrite (proj2 (Z.ltb_ge _ 2)) by lia. }
  destruct (match highest_seen_stable_epoch s with Some _ => _ | None => false end) eqn:Hh.
  { exists s, true. split; [done|]. split; [done|]. intros _. destruct (highest_seen_stable_epoch s) as [e|] eqn:He; [|done].
    zbool. by apply (co_stable _ _ _ Hok e He). }
  destruct stable as [e|].
  - exists (set_stable_epoch e s), (request_epoch q - 2 <=? e). split; [done|]. split.
    + destruct Hok as [Hk Hc _]. split; [done | exact Hc |]. intros e' [= <-] q' H2 Hle. by apply (Hnow q' e).
    + intros Hle. zbool. by apply (Hnow q e).
  - exists s, false. done.
Qed.

(** A request whose answer is agreed, through the cache. *)
Lemma parameters_through_cache k s1 m ms e p q :
  cache_ok k s1 (m :: ms) -> agreed (m :: ms) (AskParameters e p q) ->
  exists s' r, get_ariadne_parameters_with_caching m e p q s1 = (s', Done r) /\
    same_answer (a ← r; Ok (inl a)) (fresh m (AskParameters e p q)) /\ cache_ok k s' ms.
Proof.
  intros Hok1 Hagreed.
  unfold get_ariadne_parameters_with_caching.
  pose proof (lru_get_value (e, p, q) (get_ariadne_parameters_for_epoch_cache s1)) as Hv.
  pose proof (lru_get_keeps (e, p, q) (get_ariadne_parameters_for_epoch_cache s1)) as Hkeep.
  destruct (lru_get (e, p, q) (get_ariadne_parameters_for_epoch_cache s1)) as [resp c] eqn:Hget. cbn [fst snd] in Hv, Hkeep.
  assert (forall q' v, cached_answer (set_parameters c s1) q' = Some v -> cached_answer s1 q' = Some v) as Hfew.
  { intros [e' p' q'|e' a'] v; [|done]. cbn. destruct (lru_peek c (e', p', q')) as [w|] eqn:Hw; [|done]. cbn. intros [= <-].
    by rewrite (Hkeep _ _ Hw). }
  assert (cache_ok k (set_parameters c s1) (m :: ms)) as Hok2 by by apply (cache_ok_fewer k s1).
  destruct resp as [v|].
  + exists (set_parameters c s1), (Ok v). split; [done|]. split; [|by eapply cache_ok_tail].
    apply (co_cached _ _ _ Hok1 (AskParameters e p q)); [cbn; by rewrite <- Hv | left].
  + destruct (get_ariadne_parameters (inner m) e p q) as [v|err] eqn:Hf.
    * eexists _, (Ok v). split; [done|]. assert (fresh m (AskParameters e p q) = Ok (inl v)) as Hfresh by (cbn; by rewrite Hf).
      split; [rewrite Hfresh; apply same_answer_refl|].
      apply (cache_ok_add k (set_parameters c s1) _ ms (AskParameters e p q) (inl v)); [by eapply cache_ok_tail | done | done | |].
      -- intros [e' p' q'|e' a'] w; [|by right]. cbn. destruct (lru_peek (lru_put _ _ _) _) as [w'|] eqn:Hw; [|done]. cbn. intros [= <-].
         apply lru_put_adds in Hw as [[[= -> -> ->] ->]|Hw]; [by left | right]. by rewrite Hw.
      -- intros m' Hm'. rewrite <- Hfresh. apply Hagreed; [left | by right].
    * exists (set_parameters c s1), (Err err). split; [done|]. split; [cbn; by rewrite Hf | by eapply cache_ok_tail].
Qed.
Lemma candidates_through_cache k s1 m ms e (a : bytes) :
  cache_ok k s1 (m :: ms) -> agreed (m :: ms) (AskCandidates e a) -> utf8_valid a = true ->
  exists s' r, get_candidates_with_caching m e a s1 = (s', Done r) /\
    same_answer (l ← r; Ok (inr l)) (fresh m (AskCandidates e a)) /\ cache_ok k s' ms.
Proof.
  intros Hok1 Hagreed Hutf.
  unfold get_candidates_with_caching, MainchainAddress_to_string, from_utf8. rewrite Hutf. simpl_monad.
  pose proof (lru_get_value (K := McEpochNumber * bytes) (e, a) (get_candidates_for_epoch_cache s1)) as Hv.
  pose proof (lru_get_keeps (K := McEpochNumber * bytes) (e, a) (get_candidates_for_epoch_cache s1)) as Hkeep.
  destruct (lru_get (K := McEpochNumber * bytes) (e, a) (get_candidates_for_epoch_cache s1)) as [resp c] eqn:Hget. cbn [fst snd] in Hv, Hkeep.
  assert (forall q' v, cached_answer (set_candidates c s1) q' = Some v -> cached_answer s1 q' = Some v) as Hfew.
  { intros [e' p' q'|e' a'] v; [done|]. cbn. destruct (lru_peek (K := McEpochNumber * bytes) c (e', a')) as [w|] eqn:Hw; [|done]. cbn. intros [= <-].
    by rewrite (Hkeep _ _ Hw). }
  assert (cache_ok k (set_candidates c s1) (m :: ms)) as Hok2 by by apply (cache_ok_fewer k s1).
  destruct resp as [v|].
  + exists (set_candidates c s1), (Ok v). split; [done|]. split; [|by eapply cache_ok_tail].
    apply (co_cached _ _ _ Hok1 (AskCandidates e a)); [cbn; by rewrite <- Hv | left].
  + destruct (get_candidates (inner m) e a) as [v|err] eqn:Hf.
    * eexists _, (Ok v). split; [done|]. assert (fresh m (AskCandidates e a) = Ok (inr v)) as Hfresh by (cbn; by rewrite Hf).
      split; [rewrite Hfresh; apply same_answer_refl|].
      apply (cache_ok_add k (set_candidates c s1) _ ms (AskCandidates e a) (inr v)); [by eapply cache_ok_tail | done | done | |].
      -- intros [e' p' q'|e' a'] w; [by right|]. cbn. destruct (lru_peek (lru_put _ _ _) _) as [w'|] eqn:Hw; [|done]. cbn. intros [= <-].
         apply lru_put_adds in Hw as [[[= -> ->] ->]|Hw]; [by left | right]. by rewrite Hw.
      -- intros m' Hm'. rewrite <- Hfresh. apply Hagreed; [left | by right].
    * exists (set_candidates c s1), (Err err). split; [done|]. split; [cbn; by rewrite Hf | by eapply cache_ok_tail].
Qed.

Lemma serve_spec k s m ms q :
  cache_ok k s (m :: ms) -> settles m k ms -> well_asked m q ->
  exists s' r, serve m q s = (s', r) /\ answered k m q r /\ cache_ok k s' ms.
Proof.
  intros Hok Hset Hq. destruct (can_use_caching_spec k s m ms q Hok Hset Hq) as [(err & He & Hb)|(s1 & b & Hb & Hok1 & Hagreed)].
  { exists s, (Done (Err err)). split; [|split; [right; by exists err | by eapply cache_ok_tail]].
    destruct q as [e p q|e a]; cbn [serve request_epoch] in *;
      unfold cached_ariadne_parameters, cached_candidates, bind_stateful; by rewrite Hb. }
  assert (b = false -> exists s' r, (s1, Done (fresh m q)) = (s', r) /\ answered k m q r /\ cache_ok k s' ms) as Huncached.
  { intros _. eexists _, _. split; [done|]. split; [|by eapply cache_ok_tail]. left. eexists. split; [done|apply same_answer_refl]. }
  destruct q as [e p q|e a]; cbn [serve request_epoch] in *.
  - unfold cached_ariadne_parameters, bind_stateful. rewrite Hb. destruct b.
    + destruct (parameters_through_cache k s1 m ms e p q Hok1 (Hagreed eq_refl)) as (s' & r & -> & Hr & Hok').
      eexists _, _. split; [|split; [left; by eexists|done]]. by destruct r.
    + cbn [stateless lift fresh] in *. destruct (get_ariadne_parameters _ _ _ _); by apply Huncached.
  - unfold cached_candidates, bind_stateful. rewrite Hb. destruct b.
    + destruct (candidates_through_cache k s1 m ms e a Hok1 (Hagreed eq_refl)) as (s' & r & -> & Hr & Hok');
        [by apply (wa_address _ _ Hq e)|]. eexists _, _. split; [|split; [left; by eexists|done]]. by destruct r.
    + cbn [stateless lift fresh] in *. destruct (get_candidates _ _ _); by apply Huncached.
Qed.

Lemma serve_all_spec k requests s :
  cache_ok k s (map fst requests) -> all_settle k (map fst requests) -> Forall (fun '(m, q) => well_asked m q) requests ->
  Forall2 (fun r '(m, q) => answered k m q r) (serve_all requests s) requests.
Proof.
  revert s. induction requests as [|[m q] requests IH]; intros s Hok Hset Hall; [constructor|].
  cbn [map fst all_settle serve_all] in *. destruct Hset as [Hs Hset]. inversion Hall as [|? ? Hq Hall']; subst.
  destruct (serve_spec k s m _ q Hok Hs Hq) as (s' & r & -> & Hr & Hok'). constructor; [done | by apply IH].
Qed.
End Requests.

(** C18: The candidate cache is transparent. Over any sequence of requests, while the database grows
    in between, every answer of the cached data source is the one that the wrapped source gives at
    that moment, up to the order of candidates, or an error of its own: that the request is for an
    epoch without an epoch of data, or that of the query for the latest stable epoch when it fails
    at that moment. This holds provided that the data of an epoch no longer changes once the epoch is
    stable. *)
Theorem candidate_cache_transparent `{LruLaws} size k requests s :
  CachedSource.new size k = Done s ->
  all_settle k (map fst requests) -> Forall (fun '(m, q) => well_asked m q) requests ->
  Forall2 (fun r '(m, q) => answered k m q r) (serve_all requests s) requests.
Proof.
  intros Hnew. apply serve_all_spec. unfold CachedSource.new in Hnew. destruct (size =? 0)%nat; [done|]. injection Hnew as <-.
  split; [done | | done]. intros [e p q|e a] v; cbn; by rewrite lru_new_empty.
Qed.

(** ** A cache that keeps the most recently used entries *)
Module BoundedLru.
Fixpoint peek {K V} `{EqDecision K} (l : list (K * V)) (k : K) : option V :=
  match l with [] => None | (k', v) :: l' => if decide (k' = k) then Some v else peek l' k end.
Definition without {K V} `{EqDecision K} (k : K) (l : list (K * V)) := List.filter (fun x => bool_decide (fst x <> k)) l.
#[export] Instance bounded_lru : Lru := {|
  LruCache K V := (nat * list (K * V))%type;
  lru_new K V n := (n, []);
  lru_get K V _ k c := match peek (snd c) k with
    | Some v => (Some v, (fst c, (k, v) :: without k (snd c)))
    | None => (None, c) end;
  lru_put K V _ k v c := (fst c, take (fst c) ((k, v) :: without k (snd c)))
|}.

Section Laws.
Context {K V : Type} `{EqDecision K}.
Lemma peek_without k k' (l : list (K * V)) v : peek (without k l) k' = Some v -> peek l k' = Some v.
Proof.
  induction l as [|[k0 v0] l IH]; cbn; [done|]. case_bool_decide as Hk; cbn; destruct (decide (k0 = k')) as [->|]; try done.
  assert (k' = k) as -> by (destruct (decide (k' = k)); [done | tauto]). intros H'. exfalso. clear IH Hk v0.
  induction l as [|[k0 v0] l IH]; cbn in H'; [done|]. case_bool_decide; [|done]. cbn in H'. by destruct (decide (k0 = k)).
Qed.
Lemma peek_take n k (l : list (K * V)) v : peek (take n l) k = Some v -> peek l k = Some v.
Proof.
  revert n. induction l as [|[k0 v0] l IH]; intros [|n]; cbn; [done..|]. destruct (decide (k0 = k)); [done | apply IH].
Qed.
End Laws.

#[export] Instance bounded_lru_laws : LruLaws.
Proof.
  refine (@Build_LruLaws _ (fun K V _ c k => peek (snd c) k) _ _ _ _).
  - done.
  - intros K V ? k c. cbn. by destruct (peek (snd c) k).
  - intros K V ? k c k' v. cbn. destruct (peek (snd c) k) as [w|] eqn:Hw; [|done]. cbn.
    destruct (decide (k = k')) as [<-|]; [by intros [= <-] | apply peek_without].
  - intros K V ? k v c k' v'. cbn - [take]. intros Hp%peek_take. cbn in Hp.
    destruct (decide (k = k')) as [<-|]; [left; by injection Hp as <- | right; by eapply peek_without].
Defined.
End BoundedLru.

Section CacheWitness.
Import CachedSource BoundedLru.
(** A source that learns the candidates of the epochs up to the stable one. *)
Definition growing_source (stable : Z) : Inner := mkInner
  (mkAuthoritySelectionDataSource (fun _ _ _ => Err "no token"%string)
    (fun epoch _ => Ok (if epoch - 2 <=? stable then [mkCandidateRegistrations (replicate 32 1) [] None] else []))
    (fun _ => Ok None) CandidatesSource.db_data_epoch)
  (fun _ => Ok (Some stable)).
(** The query for the stable epoch fails. *)
Definition failing_source : Inner := mkInner (inner (growing_source 0)) (fun _ => Err "out of range"%string).
Definition growing_requests : list (Inner * CandidatesRequest) :=
  [(failing_source, AskCandidates 3 [97]); (growing_source 0, AskCandidates 3 [97]); (growing_source 1, AskCandidates 3 [97]); (growing_source 1, AskParameters 2 [] []);
   (growing_source 5, AskCandidates 3 [97])].

Lemma growing_settles s later : Forall (fun s' => s <= s') later -> forall k, settles (growing_source s) k (map growing_source later).
Proof.
  intros Hl k e q d [= <-] Hd Hle.
  assert (request_epoch q - 2 = d) as Hq.
  { cbn in Hd. unfold CandidatesSource.db_data_epoch, CandidatesSource.get_epoch_of_data_storage in Hd. by destruct (_ <? 2); [|injection Hd]. }
  assert (forall m, m ∈ growing_source s :: map growing_source later -> fresh m q = fresh (growing_source s) q) as Hm.
  { intros m [->|(s' & -> & Hs')%list_elem_of_fmap]%elem_of_cons; [done|]. rewrite Forall_forall in Hl. specialize (Hl s' Hs').
    destruct q as [| e a]; [done|]. cbn in *. by rewrite !(proj2 (Z.leb_le _ _)) by lia. }
  intros m1 m2 H1 H2. rewrite (Hm m1 H1), (Hm m2 H2). apply same_answer_refl.
Qed.

Lemma candidate_cache_transparent_witness : exists s, CachedSource.new 2 10 = Done s /\
  Forall2 (fun r '(m, q) => answered 10 m q r) (serve_all growing_requests s) growing_requests /\
  head (serve_all growing_requests s) = Some (Done (Err "out of range"%string)).
Proof.
  eexists. split; [reflexivity|]. split; [|reflexivity]. apply (candidate_cache_transparent 2 10 growing_requests); [reflexivity | |].
  - cbn [growing_requests map fst all_settle]. split_and!; [intros e q d H; discriminate H | apply (growing_settles 0 [1; 1; 5]) |
      apply (growing_settles 1 [1; 5]) | apply (growing_settles 1 [5]) | apply (growing_settles 5 []) | exact I]; repeat constructor; lia.
  - repeat constructor; cbn; intros e a H; try discriminate H; by injection H as _ <-.
Defined.
End CacheWitness.
