(* ===== verification/BlockRewards.v ===== *)
(** * Block rewards

    The pallet [toolkit/pallets/block-rewards], which counts the blocks of each
    beneficiary, with the types of [toolkit/primitives/block-rewards]. The storage map is
    a [gmap]; draining it returns its entries in the storage's own order. *)

From S2P Require Import Prelude Domain Committee.

Module BlockRewards.
Inductive InherentError := InherentRequired.

(** *** The provider ([toolkit/primitives/block-rewards]) *)
Inductive InherentProviderCreationError := InvalidHex (e : string) | InvalidBeneficiary (bs : bytes) | NotSet (env_var : string).
(** [env] are the environment variables, [from_hex] is [sp_core]'s and [try_from_vec] the
    runtime's conversion to a beneficiary. *)
Definition from_env {BeneficiaryId} (env : string -> option str) (from_hex : str -> result string bytes)
    (try_from_vec : bytes -> option BeneficiaryId) (env_var : string) : result InherentProviderCreationError BeneficiaryId :=
  beneficiary_string ← ok_or (env env_var) (NotSet env_var);
  beneficiary_bytes ← map_err InvalidHex (from_hex beneficiary_string);
  ok_or (try_from_vec beneficiary_bytes) (InvalidBeneficiary beneficiary_bytes).
(** What [put_data] followed by [get_data] delivers. *)
Definition provide_inherent_data {BeneficiaryId} (beneficiary_id : BeneficiaryId) : result string (option BeneficiaryId) :=
  Ok (Some beneficiary_id).

Section Pallet.
Context `{Countable BeneficiaryId}.
(** [BlockRewardPoints] is [u32] and [GetBlockRewardPoints] is [SimpleBlockCount]. *)
Definition get_block_reward : Z := 1.

Record State := mkState {
  CurrentBlockBeneficiary : option BeneficiaryId;
  PendingRewards : gmap BeneficiaryId Z
}.
Definition initial : State := mkState None ∅.

Definition InherentData : Type := result string (option BeneficiaryId).
Definition get_beneficiary_from_inherent_data (data : InherentData) : outcome BeneficiaryId :=
  d ← expect (ok data); expect d.
(** The only call, [set_current_block_beneficiary], is its argument. *)
Definition create_inherent (data : InherentData) : outcome (option BeneficiaryId) :=
  beneficiary ← get_beneficiary_from_inherent_data data; Done (Some beneficiary).
Definition check_inherent (call : BeneficiaryId) (data : InherentData) : result InherentError () := Ok ().
Definition is_inherent_required : option InherentError := Some InherentRequired.
Definition set_current_block_beneficiary (st : State) (origin : Origin) (beneficiary : BeneficiaryId)
    : result DispatchError State :=
  _ ← ensure_none origin; Ok (mkState (Some beneficiary) (PendingRewards st)).

Definition on_finalize (st : State) : outcome State :=
  beneficiary ← expect (CurrentBlockBeneficiary st);
  let reward := get_block_reward in
  let new_reward := match PendingRewards st !! beneficiary with
                    | None => reward
                    | Some old_reward => old_reward +[32] reward
                    end in
  Done (mkState None (<[beneficiary := new_reward]> (PendingRewards st))).

Definition get_rewards_and_clear (st : State) : State * list (BeneficiaryId * Z) :=
  (mkState (CurrentBlockBeneficiary st) ∅, map_to_list (PendingRewards st)).

(** A block by [beneficiary]. *)
Definition block (st : State) (beneficiary : BeneficiaryId) : outcome State :=
  match set_current_block_beneficiary st OriginNone beneficiary with
  | Ok st' => on_finalize st'
  | Err _ => Done st
  end.
Fixpoint run_blocks (beneficiaries : list BeneficiaryId) (st : State) : outcome State :=
  match beneficiaries with
  | [] => Done st
  | b :: rest => st' ← block st b; run_blocks rest st'
  end.

Definition count (b : BeneficiaryId) (l : list BeneficiaryId) : Z := Z.of_nat (length (filter (b =.) l)).

(** Rewards of a list of blocks, on top of rewards already pending. *)
Definition pending_matches (blocks : list BeneficiaryId) (m : gmap BeneficiaryId Z) : Prop :=
  forall b, m !! b = if count b blocks =? 0 then None else Some (count b blocks).

Lemma count_snoc b l x : count b (l ++ [x]) = count b l + (if decide (b = x) then 1 else 0).
Proof.
  unfold count. rewrite filter_app, length_app, filter_cons, filter_nil. repeat case_decide; cbn; lia || done.
Qed.

Lemma count_le_length b l : 0 <= count b l <= Z.of_nat (length l).
Proof. unfold count. split; [lia|]. apply Nat2Z.inj_le, length_filter. Qed.

Lemma count_zero b l : count b l = 0 <-> b ∉ l.
Proof.
  induction l as [|x l IH] using rev_ind; [split; [intros _; apply not_elem_of_nil | done]|].
  rewrite count_snoc, not_elem_of_app, list_elem_of_singleton. pose proof (count_le_length b l).
  case_decide; [split; [lia | by intros []]|]. rewrite Z.add_0_r, IH. tauto.
Qed.

Lemma block_spec blocks st b :
  pending_matches blocks (PendingRewards st) -> Z.of_nat (length blocks) + 1 < 2 ^ 32 ->
  exists m, block st b = Done (mkState None m) /\ pending_matches (blocks ++ [b]) m.
Proof.
  intros Hm Hlen. unfold block, set_current_block_beneficiary, on_finalize. cbn [ensure_none]. simpl_monad.
  cbn [CurrentBlockBeneficiary PendingRewards]. simpl_monad. eexists. split; [reflexivity|].
  intros b'. rewrite count_snoc. pose proof (count_le_length b' blocks).
  destruct (decide (b' = b)) as [->|Hne].
  - rewrite lookup_insert_eq, (Hm b). rewrite (proj2 (Z.eqb_neq (count b blocks + 1) 0)) by lia. f_equal.
    unfold get_block_reward. destruct (Z.eqb_spec (count b blocks) 0) as [->|]; [done|].
    rewrite wrapping_add_small; [done|]. unfold in_width. lia.
  - rewrite lookup_insert_ne by done. rewrite Z.add_0_r. apply Hm.
Qed.

Lemma run_blocks_spec rest blocks st :
  pending_matches blocks (PendingRewards st) -> Z.of_nat (length (blocks ++ rest)) < 2 ^ 32 ->
  CurrentBlockBeneficiary st = None ->
  exists m, run_blocks rest st = Done (mkState None m) /\ pending_matches (blocks ++ rest) m.
Proof.
  revert blocks st; induction rest as [|b rest IH]; intros blocks st Hm Hlen Hn.
  { exists (PendingRewards st). rewrite app_nil_r. destruct st; cbn in *. by subst. }
  rewrite length_app in Hlen. cbn in Hlen.
  destruct (block_spec blocks st b Hm ltac:(lia)) as (m & Hb & Hm').
  cbn [run_blocks]. rewrite Hb. simpl_monad.
  destruct (IH (blocks ++ [b]) (mkState None m) Hm') as (m' & Hr & Hm''); [|done|].
  { rewrite !length_app. cbn. lia. }
  exists m'. rewrite <- app_assoc in Hm''. done.
Qed.
End Pallet.
Arguments State _ {_ _}.
End BlockRewards.

(** C39: Block rewards are counted exactly. After any sequence of fewer than 2^32 blocks
    since the last payout no block has failed, and the payout returns every beneficiary of
    a block, once, with the number of its blocks, and leaves nothing pending. *)
Theorem rewards_count_blocks `{Countable BeneficiaryId} (beneficiaries : list BeneficiaryId) :
  Z.of_nat (length beneficiaries) < 2 ^ 32 ->
  exists st, BlockRewards.run_blocks beneficiaries BlockRewards.initial = Done st /\
    NoDup (map fst (snd (BlockRewards.get_rewards_and_clear st))) /\
    (forall b n, (b, n) ∈ snd (BlockRewards.get_rewards_and_clear st) <->
       b ∈ beneficiaries /\ n = BlockRewards.count b beneficiaries) /\
    BlockRewards.PendingRewards (fst (BlockRewards.get_rewards_and_clear st)) = ∅.
Proof.
  intros Hlen. destruct (BlockRewards.run_blocks_spec beneficiaries [] BlockRewards.initial) as (m & Hr & Hm);
    [by intros b | done | done |].
  eexists. split; [exact Hr|]. cbn. split; [apply NoDup_fst_map_to_list|]. split; [|done].
  intros b n. rewrite elem_of_map_to_list, (Hm b).
  pose proof (BlockRewards.count_zero b beneficiaries) as Hz.
  cbn [app]. destruct (Z.eqb_spec (BlockRewards.count b beneficiaries) 0) as [Hc|Hc].
  - split; [done|]. intros [Hb _]. by apply Hz in Hc.
  - split; [intros [= <-]|intros [_ ->]; done]. split; [|done].
    destruct (decide (b ∈ beneficiaries)) as [|Hn]; [done|]. by apply Hz in Hn.
Qed.

Lemma rewards_count_blocks_witness :
  exists st, BlockRewards.run_blocks [7; 8; 7] BlockRewards.initial = Done st /\
    NoDup (map fst (snd (BlockRewards.get_rewards_and_clear st))) /\
    (forall b n, (b, n) ∈ snd (BlockRewards.get_rewards_and_clear st) <->
       b ∈ [7; 8; 7] /\ n = BlockRewards.count b [7; 8; 7]) /\
    BlockRewards.PendingRewards (fst (BlockRewards.get_rewards_and_clear st)) = ∅.
Proof. apply rewards_count_blocks. cbn. lia. Defined.
