(* ===== verification/Runtime.v ===== *)
(** * The runtime

    How [node/runtime/src/lib.rs] wires the pallets, and what a block does to them: the
    hooks in the order of [construct_runtime!] (Sidechain, SessionCommitteeManagement,
    BlockRewards, ..., Session), the inherents, and [on_finalize]. Pallets of Substrate
    (System, Timestamp, Aura, Grandpa, Balances, Sudo) are left out: the slot is the one
    Aura reads from the block's digest. *)

From S2P Require Import Prelude Domain McEpoch Slots Cbor Selection Ariadne Committee Session NativeToken BlockRewards.

Module Runtime.
Section Runtime.
Context `{Minicbor, Crypto, Accounts, Rng, U256, BoundedVecOps}.
Context {AccountId : Type} `{EqDecision AccountId, System AccountId} (into : TAccountId -> AccountId).
Context (account_id_leb : AccountId -> AccountId -> bool).
Context `{Countable BeneficiaryId}.

Definition MaxValidators : nat := 32.
(** The workspace builds the session pallet without its default features. *)
Definition polkadot_js_compat : bool := false.

Record Runtime := mkRuntime {
  Sidechain : SidechainPallet.State;
  Session : SessionPallet.State AccountId TAccountKeys (Managers.ManagerState TAccountId TAccountKeys);
  Rewards : BlockRewards.State BeneficiaryId;
  NativeTokenManagement : NativeToken.State ();
  payouts : list (ScEpochNumber * list (BeneficiaryId * Z))  (* what [LogBeneficiaries] logged *)
}.
Definition committee_of (rt : Runtime) : CommitteeManagement.State TAccountId TAccountKeys :=
  Managers.committee_pallet (SessionPallet.manager (Session rt)).

(** [pallet_session_validator_management::Config]. *)
Definition runtime_select_authorities (genesis_utxo : UtxoId) (input : AuthoritySelectionInputs)
    (sidechain_epoch : ScEpochNumber) : outcome (option (list (TAccountId * TAccountKeys))) :=
  select_authorities MaxValidators genesis_utxo input sidechain_epoch.
(** [LogBeneficiaries], the [OnNewEpoch] of the sidechain pallet. *)
Definition log_beneficiaries
    : SidechainPallet.OnNewEpoch (BlockRewards.State BeneficiaryId * list (ScEpochNumber * list (BeneficiaryId * Z))) :=
  fun old_epoch _ '(rewards, payouts) =>
    let '(rewards, paid) := BlockRewards.get_rewards_and_clear rewards in (rewards, payouts ++ [(old_epoch, paid)]).
(** [TokenTransferHandler] only logs. *)
Definition handle_token_transfer (token_amount : NativeTokenAmount) (h : ()) : result DispatchError () := Ok h.

Definition with_manager {M'} (st : SessionPallet.State AccountId TAccountKeys M') (m : M')
    : SessionPallet.State AccountId TAccountKeys M' :=
  SessionPallet.mkState (SessionPallet.Validators st) (SessionPallet.ValidatorsAndKeys st)
    (SessionPallet.CurrentIndex st) (SessionPallet.DisabledValidators st) (SessionPallet.system st) m
    (SessionPallet.handled st) (SessionPallet.events st).

(** The [on_initialize] hooks of a block. *)
Definition initialize_block (block_nr slot : Z) (rt : Runtime) : outcome Runtime :=
  '(sidechain, (rewards, payouts)) ←
    SidechainPallet.on_initialize log_beneficiaries slot (Sidechain rt) (Rewards rt, payouts rt);
  epoch ← SidechainPallet.current_epoch_number sidechain slot;
  let committee := CommitteeManagement.on_initialize block_nr epoch (committee_of rt) in
  let m := SessionPallet.manager (Session rt) in
  session ← session_on_initialize MaxValidators into polkadot_js_compat account_id_leb block_nr
    (with_manager (Session rt) (Managers.mkManagerState committee (Managers.pallet_session_CurrentIndex m) epoch));
  Done (mkRuntime sidechain session rewards (NativeTokenManagement rt) payouts).

(** What a block's author puts in: Aura's slot and the inherent data. *)
Record BlockData := mkBlockData {
  bd_slot : Z;
  bd_inputs : AuthoritySelectionInputs;
  bd_beneficiary : BeneficiaryId;
  bd_tokens : option NativeTokenAmount
}.

(** Inherents that the author creates are applied; a mandatory dispatch that fails makes the
    block invalid ([None]). *)
Definition apply_committee_inherent (inputs : AuthoritySelectionInputs) (rt : Runtime) : outcome (option Runtime) :=
  call ← CommitteeManagement.create_inherent
    (runtime_select_authorities (SidechainPallet.GenesisUtxo (Sidechain rt))) (committee_of rt) (Ok (Some inputs));
  match call with
  | None => Done (Some rt)
  | Some call =>
      match CommitteeManagement.dispatch (committee_of rt) OriginNone call with
      | Err _ => Done None
      | Ok committee =>
          let m := SessionPallet.manager (Session rt) in
          Done (Some (mkRuntime (Sidechain rt)
            (with_manager (Session rt) (Managers.mkManagerState committee
               (Managers.pallet_session_CurrentIndex m) (Managers.current_epoch m)))
            (Rewards rt) (NativeTokenManagement rt) (payouts rt)))
      end
  end.
Definition apply_beneficiary_inherent (beneficiary : BeneficiaryId) (rt : Runtime) : outcome (option Runtime) :=
  call ← BlockRewards.create_inherent (Ok (Some beneficiary));
  match call with
  | None => Done (Some rt)
  | Some beneficiary =>
      match BlockRewards.set_current_block_beneficiary (Rewards rt) OriginNone beneficiary with
      | Err _ => Done None
      | Ok rewards => Done (Some (mkRuntime (Sidechain rt) (Session rt) rewards (NativeTokenManagement rt) (payouts rt)))
      end
  end.
Definition apply_token_inherent (tokens : option NativeTokenAmount) (rt : Runtime) : outcome (option Runtime) :=
  call ← NativeToken.create_inherent (NativeToken.provide_inherent_data tokens);
  match call with
  | Some (NativeToken.transfer_tokens_call n) =>
      r ← NativeToken.transfer_tokens handle_token_transfer (NativeTokenManagement rt) OriginNone n;
      match r with
      | Err _ => Done None
      | Ok native => Done (Some (mkRuntime (Sidechain rt) (Session rt) (Rewards rt) native (payouts rt)))
      end
  | _ => Done (Some rt)
  end.
Definition finalize_block (rt : Runtime) : outcome Runtime :=
  rewards ← BlockRewards.on_finalize (Rewards rt);
  Done (mkRuntime (Sidechain rt) (Session rt) rewards (NativeTokenManagement rt) (payouts rt)).

Definition bind_valid {A B} (m : outcome (option A)) (k : A -> outcome (option B)) : outcome (option B) :=
  o ← m; match o with Some a => k a | None => Done None end.
Definition execute_block (block_nr : Z) (b : BlockData) (rt : Runtime) : outcome (option Runtime) :=
  rt ← initialize_block block_nr (bd_slot b) rt;
  bind_valid (apply_committee_inherent (bd_inputs b) rt) (fun rt =>
  bind_valid (apply_beneficiary_inherent (bd_beneficiary b) rt) (fun rt =>
  bind_valid (apply_token_inherent (bd_tokens b) rt) (fun rt =>
  rt ← finalize_block rt; Done (Some rt)))).

Fixpoint run_chain (block_nr : Z) (bs : list BlockData) (rt : Runtime) : outcome (option Runtime) :=
  match bs with
  | [] => Done (Some rt)
  | b :: bs' => bind_valid (execute_block block_nr b rt) (fun rt => run_chain (block_nr + 1) bs' rt)
  end.

(** Genesis: every pallet's own. *)
Definition genesis (sidechain : SidechainPallet.GenesisConfig)
    (committee : CommitteeManagement.GenesisConfig TAccountId TAccountKeys) (native : NativeToken.MainChainScripts)
    (key_ids : list Z) (sys : Sys) : outcome Runtime :=
  let m := Managers.mkManagerState (CommitteeManagement.build MaxValidators committee) 0 0 in
  session ← @SessionPallet.build AccountId TAccountKeys AccountId (Managers.ManagerState TAccountId TAccountKeys) _ _
    (Managers.ValidatorManagementSessionManager into) polkadot_js_compat id account_id_leb [] key_ids key_ids m sys;
  Done (mkRuntime (SidechainPallet.build sidechain) session BlockRewards.initial
          (NativeToken.build native tt) []).
End Runtime.
End Runtime.

Section RuntimeProps.
Import Runtime.
Context `{Minicbor, Crypto, Accounts, RngLaws, U256Laws, BoundedVecLaws}.
Context {AccountId : Type} `{EqDecision AccountId, System AccountId} (into : TAccountId -> AccountId).
Context (account_id_leb : AccountId -> AccountId -> bool).
Context `{Countable BeneficiaryId}.
Implicit Types rt : @Runtime _ AccountId _ BeneficiaryId _ _.

Definition current_committee_epoch rt : ScEpochNumber :=
  CommitteeManagement.epoch (CommitteeManagement.CurrentCommittee (committee_of rt)).

(** The session's validators are the accounts of the current committee. *)
Definition in_sync rt : Prop :=
  SessionPallet.ValidatorsAndKeys (Session rt) =
    map (fun a => (into (fst a), snd a)) (CommitteeManagement.committee (CommitteeManagement.CurrentCommittee (committee_of rt))).

(** What every block needs and keeps. *)
Record base_inv (genesis : UtxoId) (spe : Z) rt : Prop := {
  base_committee : CommitteeManagement.inv MaxValidators (committee_of rt);
  base_sync : in_sync rt;
  base_spe : SidechainPallet.SlotsPerEpoch (Sidechain rt) = spe;
  base_genesis : SidechainPallet.GenesisUtxo (Sidechain rt) = genesis;
  base_native : is_Some (NativeToken.MainChainScriptsConfiguration (NativeTokenManagement rt))
}.

Lemma runtime_select_done genesis inputs epoch :
  wf_inputs inputs genesis -> in_width 64 epoch ->
  exists r, runtime_select_authorities genesis inputs epoch = Done r /\
    forall committee, r = Some committee -> (length committee <= MaxValidators)%nat.
Proof.
  intros Hwf He. pose proof (ariadne_committee_cases MaxValidators genesis inputs epoch Hwf He) as Hc.
  unfold runtime_select_authorities. cbn zeta in Hc.
  destruct (select_authorities MaxValidators genesis inputs epoch) as [[committee|]|]; [| |done];
    (eexists; split; [reflexivity|]); [|done]. intros c [= <-]. destruct Hc as [-> _]. lia.
Qed.

(** The committee inherent: it succeeds, and afterwards the next committee is known. *)
Lemma apply_committee_inherent_spec genesis spe inputs rt :
  base_inv genesis spe rt -> wf_inputs inputs genesis ->
  exists rt', apply_committee_inherent inputs rt = Done (Some rt') /\ base_inv genesis spe rt' /\
    is_Some (CommitteeManagement.NextCommittee (committee_of rt')) /\
    current_committee_epoch rt' = current_committee_epoch rt /\ Sidechain rt' = Sidechain rt /\
    Rewards rt' = Rewards rt /\ payouts rt' = payouts rt.
Proof.
  intros [Hinv Hsync Hspe Hgen Hnat] Hwf. unfold apply_committee_inherent, CommitteeManagement.create_inherent.
  case_bool_decide as Hn; [exists rt; by split|]. simpl_monad. rewrite <- eq_None_not_Some in Hn.
  set (e := CommitteeManagement.epoch (CommitteeManagement.CurrentCommittee (committee_of rt)) +[64] 1).
  destruct (runtime_select_done genesis inputs e Hwf) as (r & Hr & Hbound); [by apply wrap_in_width|].
  unfold CommitteeManagement.calculate_committee_from_inherent_data,
    CommitteeManagement.inherent_data_to_authority_selection_inputs. simpl_monad. rewrite Hgen, Hr. simpl_monad.
  assert (exists v, match r with
      | Some validators => Done (Some (CommitteeManagement.call_set validators e))
      | None => Done (Some (CommitteeManagement.call_set
          (CommitteeManagement.committee (CommitteeManagement.CurrentCommittee (committee_of rt))) e))
      end = Done (Some (CommitteeManagement.call_set v e)) /\ (length v <= MaxValidators)%nat) as (v & -> & Hv).
  { destruct r as [v|]; eexists; (split; [reflexivity|]); [by apply Hbound | apply Hinv]. }
  simpl_monad. cbn [CommitteeManagement.dispatch]. unfold CommitteeManagement.set. cbn [ensure_none]. simpl_monad.
  fold e. rewrite Z.eqb_refl. eexists. split; [reflexivity|]. split; [|by split_and!; [eexists|..]].
  split; try done. destruct Hinv as [_ Hc _]. split; cbn; [by intros n [= <-] | done | by intros n [= <-]].
Qed.

(** The hooks: the epoch is stored and the session rotates when it should. *)
Lemma initialize_block_spec genesis spe n slot rt :
  base_inv genesis spe rt -> 0 < spe -> (n = 1 -> CommitteeManagement.NextCommittee (committee_of rt) = None) ->
  exists rt', initialize_block into account_id_leb n slot rt = Done rt' /\ base_inv genesis spe rt' /\
    SidechainPallet.EpochNumber (Sidechain rt') = Some (slot / spe) /\
    current_committee_epoch rt' =
      if n =? 1 then slot / spe
      else if (current_committee_epoch rt <? slot / spe) &&
              bool_decide (is_Some (CommitteeManagement.NextCommittee (committee_of rt)))
           then current_committee_epoch rt +[64] 1 else current_committee_epoch rt.
Proof.
  intros [Hinv Hsync Hspe Hgen Hnat] Hpos Hfirst. unfold initialize_block.
  assert (exists sc r p, SidechainPallet.on_initialize log_beneficiaries slot (Sidechain rt) (Rewards rt, payouts rt)
      = Done (sc, (r, p)) /\ SidechainPallet.EpochNumber sc = Some (slot / spe) /\
    SidechainPallet.SlotsPerEpoch sc = spe /\ SidechainPallet.GenesisUtxo sc = genesis) as (sc & r & p & -> & He & Hs & Hg).
  { unfold SidechainPallet.on_initialize, SidechainPallet.current_epoch_number.
    rewrite Slots.epoch_number_pos, Hspe by (by rewrite Hspe). simpl_monad.
    destruct (SidechainPallet.EpochNumber (Sidechain rt)) as [e|] eqn:Hepoch; [|by do 3 eexists].
    destruct (Z.eqb_spec e (slot / spe)); [subst; by do 3 eexists|]. cbn. by do 3 eexists. }
  simpl_monad. unfold SidechainPallet.current_epoch_number. rewrite Slots.epoch_number_pos, Hs by (by rewrite Hs).
  simpl_monad. set (c := CommitteeManagement.on_initialize n (slot / spe) (committee_of rt)).
  assert (CommitteeManagement.inv MaxValidators c) as Hinv1 by (by apply CommitteeManagement.inv_on_initialize).
  assert (CommitteeManagement.NextCommittee c = CommitteeManagement.NextCommittee (committee_of rt) /\
    CommitteeManagement.committee (CommitteeManagement.CurrentCommittee c) =
      CommitteeManagement.committee (CommitteeManagement.CurrentCommittee (committee_of rt)) /\
    CommitteeManagement.epoch (CommitteeManagement.CurrentCommittee c) =
      if n =? 1 then slot / spe else current_committee_epoch rt) as (Hnext & Hcom & Hepoch)
    by (unfold c, CommitteeManagement.on_initialize; by destruct (n =? 1)).
  match goal with |- context [session_on_initialize _ _ _ _ _ ?s] =>
    destruct (session_on_initialize_committee MaxValidators into polkadot_js_compat account_id_leb n s)
      as (st' & -> & Hc' & Hv') end.
  cbn [SessionPallet.manager with_manager Managers.committee_pallet Managers.current_epoch
       SessionPallet.ValidatorsAndKeys] in Hc', Hv'. rewrite Hnext, Hepoch in Hc', Hv'.
  simpl_monad. eexists. split; [reflexivity|]. split; [|split; [done|]].
  - split; try done; unfold in_sync, committee_of; cbn [Session].
    + rewrite Hc'. destruct (_ && _); [by apply CommitteeManagement.inv_rotate | done].
    + rewrite Hv'. destruct (_ && _); [done|]. rewrite Hc', Hcom. exact Hsync.
  - unfold current_committee_epoch at 1, committee_of at 1. cbn [Session]. rewrite Hc'.
    destruct (Z.eqb_spec n 1) as [Hn|Hn].
    + rewrite Z.ltb_irrefl. cbn [andb]. exact Hepoch.
    + destruct (_ && bool_decide (is_Some (CommitteeManagement.NextCommittee (committee_of rt)))) eqn:Hb; [|exact Hepoch].
      apply andb_true_iff in Hb as [_ [next Hnx]%bool_decide_eq_true].
      unfold CommitteeManagement.rotate_committee_to_next_epoch. rewrite Hnext, Hnx. cbn.
      by apply (CommitteeManagement.inv_next_epoch _ _ Hinv).
Qed.

Lemma genesis_spec sidechain committee native key_ids sys :
  exists rt0, genesis into account_id_leb sidechain committee native key_ids sys = Done rt0 /\
    base_inv (SidechainPallet.genesis_utxo sidechain) (SidechainPallet.genesis_slots_per_epoch sidechain) rt0 /\
    CommitteeManagement.NextCommittee (committee_of rt0) = None.
Proof.
  unfold genesis, SessionPallet.build. rewrite bool_decide_eq_true_2 by done.
  cbn - [SessionPallet.rotate_validators]. rewrite rotate_validators_done. simpl_monad.
  eexists. split; [reflexivity|]. split; [|done]. split; try done.
  split; cbn; [done | | done]. rewrite truncate_from_take, length_take. lia.
Qed.

Lemma apply_token_inherent_spec genesis spe tokens rt :
  base_inv genesis spe rt ->
  exists native, apply_token_inherent tokens rt =
      Done (Some (mkRuntime (Sidechain rt) (Session rt) (Rewards rt) native (payouts rt))) /\
    is_Some (NativeToken.MainChainScriptsConfiguration native).
Proof.
  intros [_ _ _ _ Hnat]. unfold apply_token_inherent, NativeToken.create_inherent,
    NativeToken.get_transfered_tokens_from_inherent_data, NativeToken.provide_inherent_data. simpl_monad.
  assert (rt = mkRuntime (Sidechain rt) (Session rt) (Rewards rt) (NativeTokenManagement rt) (payouts rt)) as Hrt
    by (by destruct rt).
  destruct tokens as [n|]; cbn; [|exists (NativeTokenManagement rt); by rewrite <- Hrt].
  destruct (0 <? n); cbn; [|exists (NativeTokenManagement rt); by rewrite <- Hrt].
  unfold NativeToken.transfer_tokens. cbn [ensure_none]. simpl_monad.
  rewrite bool_decide_eq_true_2 by done. cbn. by eexists.
Qed.

Lemma execute_block_spec genesis spe n b rt :
  base_inv genesis spe rt -> 0 < spe -> wf_inputs (bd_inputs b) genesis ->
  (n = 1 -> CommitteeManagement.NextCommittee (committee_of rt) = None) ->
  exists rt', execute_block into account_id_leb n b rt = Done (Some rt') /\ base_inv genesis spe rt' /\
    is_Some (CommitteeManagement.NextCommittee (committee_of rt')) /\
    SidechainPallet.EpochNumber (Sidechain rt') = Some (bd_slot b / spe) /\
    current_committee_epoch rt' =
      if n =? 1 then bd_slot b / spe
      else if (current_committee_epoch rt <? bd_slot b / spe) &&
              bool_decide (is_Some (CommitteeManagement.NextCommittee (committee_of rt)))
           then current_committee_epoch rt +[64] 1 else current_committee_epoch rt.
Proof.
  intros Hbase Hpos Hwf Hfirst. unfold execute_block, bind_valid.
  destruct (initialize_block_spec genesis spe n (bd_slot b) rt Hbase Hpos Hfirst) as (rt1 & -> & Hb1 & He1 & Hc1).
  simpl_monad.
  destruct (apply_committee_inherent_spec genesis spe (bd_inputs b) rt1 Hb1 Hwf)
    as (rt2 & -> & Hb2 & Hn2 & Hc2 & Hs2 & _). simpl_monad.
  unfold apply_beneficiary_inherent, BlockRewards.create_inherent, BlockRewards.get_beneficiary_from_inherent_data,
    BlockRewards.set_current_block_beneficiary. cbn [ensure_none]. simpl_monad.
  match goal with |- context [apply_token_inherent _ ?r] => set (rt3 := r) end.
  assert (base_inv genesis spe rt3) as Hb3 by (by destruct Hb2).
  destruct (apply_token_inherent_spec genesis spe (bd_tokens b) rt3 Hb3) as (native & -> & Hnat). simpl_monad.
  unfold finalize_block, BlockRewards.on_finalize. cbn [Rewards rt3 BlockRewards.CurrentBlockBeneficiary]. simpl_monad.
  eexists. split; [reflexivity|].
  split; [by destruct Hb2|]. split; [exact Hn2|]. split; [cbn; by rewrite Hs2|].
  rewrite <- Hc1, <- Hc2. done.
Qed.

(** Blocks of a chain: well-formed inputs, slots in order and below the last of [u64]. *)
Definition wf_blocks (genesis : UtxoId) (last_slot : Z) (bs : list (@BlockData BeneficiaryId)) : Prop :=
  StronglySorted Z.le (last_slot :: map bd_slot bs) /\
  Forall (fun b => wf_inputs (bd_inputs b) genesis /\ 0 <= bd_slot b < 2 ^ 64 - 1) bs.

(** The state after a block at [slot]. *)
Record chain_inv (genesis : UtxoId) (spe slot : Z) rt : Prop := {
  chain_base : base_inv genesis spe rt;
  chain_next : is_Some (CommitteeManagement.NextCommittee (committee_of rt));
  chain_epoch : SidechainPallet.EpochNumber (Sidechain rt) = Some (slot / spe);
  chain_committee : 0 <= current_committee_epoch rt <= slot / spe
}.

Lemma chain_step genesis spe slot n b rt :
  chain_inv genesis spe slot rt -> 0 < spe -> wf_inputs (bd_inputs b) genesis ->
  slot <= bd_slot b < 2 ^ 64 - 1 -> 1 < n ->
  exists rt', execute_block into account_id_leb n b rt = Done (Some rt') /\
    chain_inv genesis spe (bd_slot b) rt' /\
    current_committee_epoch rt' = Z.min (current_committee_epoch rt + 1) (bd_slot b / spe).
Proof.
  intros [Hb Hn He Hc] Hpos Hwf Hslot Hgt.
  destruct (execute_block_spec genesis spe n b rt Hb Hpos Hwf ltac:(lia)) as (rt' & Hex & Hb' & Hn' & He' & Hc').
  exists rt'. split; [done|]. rewrite (proj2 (Z.eqb_neq n 1)), (bool_decide_eq_true_2 _ Hn), andb_true_r in Hc' by lia.
  assert (slot / spe <= bd_slot b / spe) by (apply Z.div_le_mono; lia).
  assert (bd_slot b / spe < 2 ^ 64 - 1) by (apply Z.div_lt_upper_bound; nia).
  assert (current_committee_epoch rt' = Z.min (current_committee_epoch rt + 1) (bd_slot b / spe)) as Hmin.
  { rewrite Hc'. destruct (Z.ltb_spec (current_committee_epoch rt) (bd_slot b / spe)); [|lia].
    rewrite wrapping_add_small by (unfold in_width; lia). lia. }
  split; [|done]. split; [done..|]. rewrite Hmin. lia.
Qed.

Lemma chain_run genesis spe slot n bs rt :
  chain_inv genesis spe slot rt -> 0 < spe -> wf_blocks genesis slot bs -> 1 < n ->
  exists rt', run_chain into account_id_leb n bs rt = Done (Some rt') /\
    chain_inv genesis spe (List.last (map bd_slot bs) slot) rt'.
Proof.
  intros Hinv Hpos [Hs Hwf] Hn. revert slot n rt Hinv Hs Hn; induction Hwf as [|b bs [Hw Hb] Hwf IH];
    intros slot n rt Hinv Hs Hn; [by exists rt|].
  inversion Hs as [|? ? Hs' Hall]; subst. inversion Hall as [|? ? Hle _]; subst.
  destruct (chain_step genesis spe slot n b rt Hinv Hpos Hw ltac:(lia) Hn) as (rt1 & Hex & Hinv1 & _).
  destruct (IH (bd_slot b) (n + 1) rt1 Hinv1 Hs' ltac:(lia)) as (rt' & Hr & Hinv').
  exists rt'. cbn [run_chain]. unfold bind_valid. rewrite Hex. simpl_monad. split; [done|].
  assert (forall l (x y : Z), List.last (x :: l) y = List.last l x) as Hlast.
  { clear. induction l as [|z l IH]; intros x y; [done|].
    transitivity (List.last (z :: l) y); [done|]. by rewrite !IH. }
  cbn [map]. by rewrite Hlast.
Qed.
End RuntimeProps.

(** C1: Safety of the whole runtime. From any genesis, over any chain of blocks at
    non-decreasing slots with well-formed inherent data, no hook, inherent or dispatch
    panics or fails, and after every block: the sidechain pallet holds the epoch of the
    last slot; the current committee is for that epoch or an earlier one; the committee of
    the following epoch is stored; neither exceeds [MaxValidators]; and the session's
    validators are exactly the current committee. *)
Theorem runtime_chain_is_safe `{Minicbor, Crypto, Accounts, RngLaws, U256Laws, BoundedVecLaws} {AccountId : Type}
    `{EqDecision AccountId, System AccountId} (into : TAccountId -> AccountId) account_id_leb
    `{Countable BeneficiaryId} sidechain committee native key_ids sys (b : @Runtime.BlockData BeneficiaryId) bs :
  let spe := SidechainPallet.genesis_slots_per_epoch sidechain in
  0 < spe -> wf_blocks (SidechainPallet.genesis_utxo sidechain) 0 (b :: bs) ->
  exists rt0 rt, Runtime.genesis into account_id_leb sidechain committee native key_ids sys = Done rt0 /\
    Runtime.run_chain into account_id_leb 1 (b :: bs) rt0 = Done (Some rt) /\
    let epoch := List.last (map Runtime.bd_slot bs) (Runtime.bd_slot b) / spe in
    let c := Runtime.committee_of rt in
    SidechainPallet.EpochNumber (Runtime.Sidechain rt) = Some epoch /\
    CommitteeManagement.epoch (CommitteeManagement.CurrentCommittee c) <= epoch /\
    (length (CommitteeManagement.committee (CommitteeManagement.CurrentCommittee c)) <= Runtime.MaxValidators)%nat /\
    (exists next, CommitteeManagement.NextCommittee c = Some next /\
       CommitteeManagement.epoch next = CommitteeManagement.epoch (CommitteeManagement.CurrentCommittee c) +[64] 1 /\
       (length (CommitteeManagement.committee next) <= Runtime.MaxValidators)%nat) /\
    SessionPallet.ValidatorsAndKeys (Runtime.Session rt) =
      map (fun a => (into (fst a), snd a)) (CommitteeManagement.committee (CommitteeManagement.CurrentCommittee c)).
Proof.
  intros spe Hpos [Hs Hwf]. set (g := SidechainPallet.genesis_utxo sidechain) in *.
  destruct (genesis_spec (BeneficiaryId := BeneficiaryId) into account_id_leb sidechain committee native key_ids sys) as (rt0 & -> & Hbase & Hnone).
  exists rt0. fold spe g in Hbase.
  inversion Hwf as [|? ? [Hw Hslot] Hwf']; subst.
  inversion Hs as [|? ? Hs' _]; subst.
  destruct (execute_block_spec into account_id_leb g spe 1 b rt0 Hbase Hpos Hw ltac:(by intros _))
    as (rt1 & Hex & Hb1 & Hn1 & He1 & Hc1).
  assert (0 <= Runtime.bd_slot b / spe) by (apply Z.div_pos; lia).
  destruct (chain_run into account_id_leb g spe (Runtime.bd_slot b) 2 bs rt1) as (rt & Hr & [Hbase' [next Hn] He Hc]);
    [split; [done..|]; rewrite Hc1; cbn; lia | done | by split | lia |].
  exists rt. split; [done|]. split; [cbn [Runtime.run_chain]; unfold Runtime.bind_valid; by rewrite Hex|].
  cbn zeta. destruct Hbase' as [[Hne Hcs Hns] Hsync _ _ _].
  split; [done|]. split; [apply Hc|]. split; [done|]. split; [|done]. exists next. eauto.
Qed.

(** C23: Liveness of committee rotation. Once a chain runs, a committee that is behind
    catches up one epoch per block: after [k] blocks inside epoch [e] its epoch has grown
    by [k], up to [e], where it stays. *)
Theorem committee_catches_up `{Minicbor, Crypto, Accounts, RngLaws, U256Laws, BoundedVecLaws} {AccountId : Type}
    `{EqDecision AccountId, System AccountId} (into : TAccountId -> AccountId) account_id_leb
    `{Countable BeneficiaryId} genesis spe slot e n (bs : list (@Runtime.BlockData BeneficiaryId)) rt :
  chain_inv into genesis spe slot rt -> 0 < spe -> 1 < n -> wf_blocks genesis slot bs ->
  slot / spe <= e -> Forall (fun b => Runtime.bd_slot b / spe = e) bs ->
  exists rt', Runtime.run_chain into account_id_leb n bs rt = Done (Some rt') /\
    (bs <> [] -> current_committee_epoch rt' = Z.min (current_committee_epoch rt + Z.of_nat (length bs)) e).
Proof.
  intros Hinv Hpos Hn [Hs Hwf] He Hbs. revert slot n rt Hinv Hs Hn He; induction Hwf as [|b bs [Hw Hb] Hwf IH];
    intros slot n rt Hinv Hs Hn He; [by exists rt|].
  inversion Hs as [|? ? Hs' Hall]; subst. inversion Hall as [|? ? Hle _]; subst. inversion Hbs as [|? ? Hbe Hbs']; subst.
  destruct (chain_step into account_id_leb genesis spe slot n b rt Hinv Hpos Hw ltac:(lia) Hn) as (rt1 & Hex & Hinv1 & Hc).
  destruct (IH Hbs' (Runtime.bd_slot b) (n + 1) rt1 Hinv1 Hs' ltac:(lia) ltac:(lia)) as (rt' & Hr & Hc').
  exists rt'. cbn [Runtime.run_chain]. unfold Runtime.bind_valid. rewrite Hex. simpl_monad. split; [done|].
  intros _. destruct bs as [|b' bs]; [injection Hr as <-; rewrite Hc; cbn; lia|].
  rewrite Hc' by done. rewrite Hc. cbn [length]. lia.
Qed.

(** ** Witnesses *)
Section Witnesses.
Import ConcreteAccounts Selection.Concrete Rfc8949 ConcreteSystem.
#[local] Instance bytes_system : System bytes := {|
  Sys := (); inc_providers _ s := s; dec_providers _ s := Some s
|}.
#[local] Definition block_at (slot : Z) : @Runtime.BlockData Z := Runtime.mkBlockData slot Ariadne.inputs 7 (Some 5).
#[local] Definition sidechain_genesis := SidechainPallet.mkGenesisConfig Ariadne.utxo0 60.
#[local] Definition committee_genesis : CommitteeManagement.GenesisConfig TAccountId TAccountKeys :=
  CommitteeManagement.mkGenesisConfig [(replicate 33 1, (replicate 32 1, replicate 32 1))] Example2.scripts.
#[local] Definition token_scripts := NativeToken.mkMainChainScripts [] [] [].
#[local] Definition acc : @TAccountId byte_accounts -> bytes := fun a => a.
#[local] Definition no_sys : @Sys bytes bytes_system := tt.

Lemma blocks_wf slots :
  StronglySorted Z.le slots -> Forall (fun s => 0 <= s < 2 ^ 64 - 1) slots ->
  wf_blocks Ariadne.utxo0 (List.hd 0 slots) (map block_at (List.tl slots)).
Proof.
  intros Hs Hf. destruct slots as [|s slots]; [split; repeat constructor|]. cbn [List.hd List.tl]. split.
  - rewrite map_map. cbn. by rewrite map_id.
  - apply Forall_map. inversion Hf as [|? ? _ Hf']; subst. eapply Forall_impl; [exact Hf'|].
    intros x Hx. split; [exact inputs_wf | exact Hx].
Qed.

Lemma runtime_chain_is_safe_witness :
  let spe := SidechainPallet.genesis_slots_per_epoch sidechain_genesis in
  exists rt0 rt, Runtime.genesis acc bytes_leb sidechain_genesis committee_genesis token_scripts [1] no_sys = Done rt0 /\
    Runtime.run_chain acc bytes_leb 1 (block_at 100 :: map block_at [130; 500]) rt0 = Done (Some rt) /\
    let epoch := List.last (map Runtime.bd_slot (map block_at [130; 500])) (Runtime.bd_slot (block_at 100)) / spe in
    let c := Runtime.committee_of rt in
    SidechainPallet.EpochNumber (Runtime.Sidechain rt) = Some epoch /\
    CommitteeManagement.epoch (CommitteeManagement.CurrentCommittee c) <= epoch /\
    (length (CommitteeManagement.committee (CommitteeManagement.CurrentCommittee c)) <= Runtime.MaxValidators)%nat /\
    (exists next, CommitteeManagement.NextCommittee c = Some next /\
       CommitteeManagement.epoch next = CommitteeManagement.epoch (CommitteeManagement.CurrentCommittee c) +[64] 1 /\
       (length (CommitteeManagement.committee next) <= Runtime.MaxValidators)%nat) /\
    SessionPallet.ValidatorsAndKeys (Runtime.Session rt) =
      map (fun a => (acc (fst a), snd a)) (CommitteeManagement.committee (CommitteeManagement.CurrentCommittee c)).
Proof.
  apply (runtime_chain_is_safe acc bytes_leb sidechain_genesis committee_genesis token_scripts [1] no_sys
    (block_at 100) (map block_at [130; 500])); [cbn; lia|].
  apply (blocks_wf [0; 100; 130; 500]); repeat constructor; lia.
Defined.

(** A running chain whose committee is two epochs behind. *)
#[local] Definition late : @Runtime.Runtime byte_accounts bytes bytes_system Z _ _ := Runtime.mkRuntime
  (SidechainPallet.mkState (Some 5) 60 Ariadne.utxo0)
  (SessionPallet.mkState [] [] 0 [] no_sys (Managers.mkManagerState
    (CommitteeManagement.mkState (CommitteeManagement.mkCommitteeInfo 3 [])
      (Some (CommitteeManagement.mkCommitteeInfo 4 [])) Example2.scripts : CommitteeManagement.State TAccountId TAccountKeys)
    0 5) [] [])
  (BlockRewards.initial : BlockRewards.State Z) (NativeToken.build token_scripts tt) [].

Lemma late_inv : chain_inv acc Ariadne.utxo0 60 300 late.
Proof.
  split; [|by eexists | done | vm_compute; split; discriminate]. split; try done.
  split; cbn; [by intros n [= <-] | lia | intros n [= <-]; cbn; lia].
Qed.

Lemma committee_catches_up_witness :
  exists rt', Runtime.run_chain acc bytes_leb 9 (map block_at [301; 310; 320]) late = Done (Some rt') /\
    (map block_at [301; 310; 320] <> [] -> current_committee_epoch rt' =
       Z.min (current_committee_epoch late + Z.of_nat (length (map block_at [301; 310; 320]))) 5).
Proof.
  apply (committee_catches_up acc bytes_leb Ariadne.utxo0 60 300 5 9 (map block_at [301; 310; 320]) late late_inv);
    [lia | lia | | done | repeat constructor].
  apply (blocks_wf [300; 301; 310; 320]); repeat constructor; lia.
Defined.
End Witnesses.
