(* ===== verification/ChainQueries.v ===== *)
(** * Queries on a chain of the runtime

    The runtime APIs of [node/runtime/src/lib.rs] on the state of a block, the client of a node
    that stores the blocks of a chain, and what the queries of [Query] answer on such a chain.
    [Committees] is an abstract specification of the committees in office, a pair of the current
    and the next one; the runtime refines it. *)

From S2P Require Import Prelude Domain McEpoch Slots BlockSearch Cbor Json Selection Ariadne Committee AriadneInherent Query Session NativeToken BlockRewards Runtime.

(** ** Specification: the committees of a chain *)
Module Committees.
Section Spec.
Context `{Minicbor, Crypto, Accounts, Rng, U256, BoundedVecOps} {BeneficiaryId : Type}.
Context (genesis : UtxoId) (spe : Z).
#[local] Abbreviation Info := (CommitteeManagement.CommitteeInfo TAccountId TAccountKeys).

(** What is selected for the epoch after that of a committee: the selection from the inputs of
    a block, or the committee itself when nobody can be selected. *)
Definition after (inputs : AuthoritySelectionInputs) (c : Info) : Info :=
  let e := CommitteeManagement.epoch c +[64] 1 in
  CommitteeManagement.mkCommitteeInfo e
    (match Runtime.runtime_select_authorities genesis inputs e with
     | Done (Some committee) => committee
     | _ => CommitteeManagement.committee c
     end).
(** The first block puts the genesis committee in office for its epoch. *)
Definition first (initial : list (TAccountId * TAccountKeys)) (b : @Runtime.BlockData BeneficiaryId) : Info * Info :=
  let current := CommitteeManagement.mkCommitteeInfo (Runtime.bd_slot b / spe) initial in
  (current, after (Runtime.bd_inputs b) current).
(** A later block hands over when its epoch is past that of the committee in office. *)
Definition step (s : Info * Info) (b : @Runtime.BlockData BeneficiaryId) : Info * Info :=
  let '(current, next) := s in
  if CommitteeManagement.epoch current <? Runtime.bd_slot b / spe then (next, after (Runtime.bd_inputs b) next) else s.

(** The committees after each block. *)
Fixpoint steps (s : Info * Info) (bs : list (@Runtime.BlockData BeneficiaryId)) : list (Info * Info) :=
  match bs with [] => [] | b :: bs' => step s b :: steps (step s b) bs' end.
Definition history (initial : list (TAccountId * TAccountKeys)) (b : @Runtime.BlockData BeneficiaryId)
    (bs : list (@Runtime.BlockData BeneficiaryId)) : list (Info * Info) :=
  first initial b :: steps (first initial b) bs.
End Spec.
End Committees.

(** ** The states of a chain *)
Module ChainStates.
Section States.
Context `{Minicbor, Crypto, Accounts, Rng, U256, BoundedVecOps}.
Context {AccountId : Type} `{EqDecision AccountId, System AccountId} (into : TAccountId -> AccountId).
Context (account_id_leb : AccountId -> AccountId -> bool).
Context `{Countable BeneficiaryId}.
(** The state after every block; [run_chain] keeps only the last. *)
Fixpoint run_states (block_nr : Z) (bs : list (@Runtime.BlockData BeneficiaryId)) (rt : @Runtime.Runtime _ AccountId _ BeneficiaryId _ _)
    : outcome (option (list (@Runtime.Runtime _ AccountId _ BeneficiaryId _ _))) :=
  match bs with
  | [] => Done (Some [])
  | b :: bs' =>
      Runtime.bind_valid (Runtime.execute_block into account_id_leb block_nr b rt) (fun rt =>
      Runtime.bind_valid (run_states (block_nr + 1) bs' rt) (fun rts => Done (Some (rt :: rts))))
  end.
End States.
End ChainStates.

(** ** The runtime APIs and the client *)
Module ChainClient.
Section Client.
Context `{Minicbor, Crypto, Accounts}.
Context {AccountId : Type} `{EqDecision AccountId, System AccountId} `{Countable BeneficiaryId}.
#[local] Abbreviation RT := (@Runtime.Runtime _ AccountId _ BeneficiaryId _ _).
(** [TAccountId], the cross-chain public key, as bytes ([AsRef<[u8]>]). *)
Context (as_ref : TAccountId -> bytes).

(** A block that the node stores: its hash, the slot in [pallet_aura::CurrentSlot] and the state after it. *)
Record StoredBlock := mkStoredBlock { block_hash : bytes; current_slot : ScSlotNumber; state : RT }.

Definition runtime_genesis_utxo (b : StoredBlock) : UtxoId := SidechainPallet.GenesisUtxo (Runtime.Sidechain (state b)).
Definition runtime_sidechain_status (b : StoredBlock) : outcome SidechainPallet.SidechainStatus :=
  SidechainPallet.get_sidechain_status (Runtime.Sidechain (state b)) (current_slot b).
Definition runtime_get_current_committee (b : StoredBlock) : ScEpochNumber * list TAccountId :=
  CommitteeManagement.get_current_committee (Runtime.committee_of (state b)).
Definition runtime_get_next_committee (b : StoredBlock) : option (ScEpochNumber * list TAccountId) :=
  CommitteeManagement.get_next_committee (Runtime.committee_of (state b)).
Definition runtime_get_main_chain_scripts (b : StoredBlock) : MainChainScripts :=
  CommitteeManagement.get_main_chain_scripts (Runtime.committee_of (state b)).
Definition runtime_native_token_scripts (b : StoredBlock) : option NativeToken.MainChainScripts :=
  NativeToken.get_main_chain_scripts (Runtime.NativeTokenManagement (state b)).
Definition runtime_native_token_initialized (b : StoredBlock) : bool :=
  NativeToken.initialized (Runtime.NativeTokenManagement (state b)).

(** The client of a node with these blocks, from genesis to the best one. *)
Definition find_state (blocks : list StoredBlock) (h : bytes) : result ApiError StoredBlock :=
  ok_or (List.find (fun b => bool_decide (block_hash b = h)) blocks) (ClientFailure "UnknownBlock").
Definition chain_client (blocks : list StoredBlock) : Client := mkClient
  (Z.of_nat (length blocks) - 1)
  (fun n => Ok (if n <? 0 then None else block_hash <$> blocks !! Z.to_nat n))
  (fun h => b ← find_state blocks h;
            match runtime_sidechain_status b with Done s => Ok s | Panic => Err (ClientFailure "Runtime panicked") end).
Definition keys_of (c : ScEpochNumber * list TAccountId) : ScEpochNumber * list bytes := (fst c, map as_ref (snd c)).
Definition chain_query (blocks : list StoredBlock) : Query.QueryClient := Query.mkQueryClient
  (chain_client blocks)
  (default [] (block_hash <$> head blocks)) (default [] (block_hash <$> last blocks))
  (fun h => b ← find_state blocks h; Ok (keys_of (runtime_get_current_committee b)))
  (fun h => b ← find_state blocks h; Ok (keys_of <$> runtime_get_next_committee b))
  (fun h => b ← find_state blocks h; Ok (runtime_get_main_chain_scripts b))
  (fun h pk r => b ← find_state blocks h; Ok (runtime_validate_registered_candidate_data (runtime_genesis_utxo b) pk r))
  (fun h s => _b ← find_state blocks h; Ok (runtime_validate_stake s))
  (fun h c => _b ← find_state blocks h; Ok (runtime_validate_permissioned_candidate_data c)).
End Client.
End ChainClient.

(** ** The runtime refines the specification *)
Section Refines.
Import Runtime.
Context `{Minicbor, Crypto, Accounts, RngLaws, U256Laws, BoundedVecLaws}.
Context {AccountId : Type} `{EqDecision AccountId, System AccountId} (into : TAccountId -> AccountId).
Context (account_id_leb : AccountId -> AccountId -> bool).
Context `{Countable BeneficiaryId}.
Implicit Types rt : @Runtime _ AccountId _ BeneficiaryId _ _.

(** The committees of a state. *)
Definition in_office rt (s : CommitteeManagement.CommitteeInfo TAccountId TAccountKeys * CommitteeManagement.CommitteeInfo TAccountId TAccountKeys) : Prop :=
  CommitteeManagement.CurrentCommittee (committee_of rt) = fst s /\ CommitteeManagement.NextCommittee (committee_of rt) = Some (snd s).

(** [on_initialize] of the sidechain pallet changes the epoch only. *)
Lemma sidechain_hook spe slot (st : SidechainPallet.State) (r : BlockRewards.State BeneficiaryId * list (ScEpochNumber * list (BeneficiaryId * Z))) :
  SidechainPallet.SlotsPerEpoch st = spe -> 0 < spe ->
  exists r', SidechainPallet.on_initialize log_beneficiaries slot st r =
    Done (SidechainPallet.mkState (Some (slot / spe)) spe (SidechainPallet.GenesisUtxo st), r').
Proof.
  intros Hspe Hpos. unfold SidechainPallet.on_initialize, SidechainPallet.current_epoch_number.
  rewrite Slots.epoch_number_pos, Hspe by (by rewrite Hspe). simpl_monad.
  destruct st as [[e|] s g]; cbn in Hspe |- *; subst; [|by eexists].
  destruct (Z.eqb_spec e (slot / spe)) as [->|]; by eexists.
Qed.

Lemma initialize_block_committee genesis spe n slot rt rt1 :
  base_inv into genesis spe rt -> 0 < spe -> initialize_block into account_id_leb n slot rt = Done rt1 ->
  let c := CommitteeManagement.on_initialize n (slot / spe) (committee_of rt) in
  SidechainPallet.GenesisUtxo (Sidechain rt1) = genesis /\
  committee_of rt1 =
    if (CommitteeManagement.epoch (CommitteeManagement.CurrentCommittee c) <? slot / spe) &&
       bool_decide (is_Some (CommitteeManagement.NextCommittee c))
    then fst (CommitteeManagement.rotate_committee_to_next_epoch into c) else c.
Proof.
  intros [_ _ Hspe Hgen _] Hpos. unfold initialize_block.
  destruct (sidechain_hook spe slot (Sidechain rt) (Rewards rt, payouts rt) Hspe Hpos) as ([r p] & ->). simpl_monad.
  unfold SidechainPallet.current_epoch_number. cbn [SidechainPallet.SlotsPerEpoch].
  rewrite Slots.epoch_number_pos by done. simpl_monad.
  match goal with |- context [session_on_initialize _ _ _ _ _ ?s] =>
    destruct (session_on_initialize_committee MaxValidators into polkadot_js_compat account_id_leb n s) as (st' & -> & Hc & _) end.
  simpl_monad. intros [= <-]. cbn zeta. split; [exact Hgen | exact Hc].
Qed.

Lemma inherent_committee genesis spe inputs rt rt' :
  base_inv into genesis spe rt -> wf_inputs inputs genesis -> apply_committee_inherent inputs rt = Done (Some rt') ->
  CommitteeManagement.CurrentCommittee (committee_of rt') = CommitteeManagement.CurrentCommittee (committee_of rt) /\
  CommitteeManagement.NextCommittee (committee_of rt') =
    Some (default (Committees.after genesis inputs (CommitteeManagement.CurrentCommittee (committee_of rt)))
            (CommitteeManagement.NextCommittee (committee_of rt))).
Proof.
  intros [_ _ _ Hgen _] Hwf. unfold apply_committee_inherent, CommitteeManagement.create_inherent.
  case_bool_decide as Hn; simpl_monad.
  { intros [= <-]. destruct Hn as [next ->]. done. }
  rewrite <- eq_None_not_Some in Hn. rewrite Hn. cbn [default from_option].
  set (e := CommitteeManagement.epoch (CommitteeManagement.CurrentCommittee (committee_of rt)) +[64] 1).
  destruct (runtime_select_done genesis inputs e Hwf) as (r & Hr & _); [by apply wrap_in_width|].
  unfold CommitteeManagement.calculate_committee_from_inherent_data,
    CommitteeManagement.inherent_data_to_authority_selection_inputs, Committees.after. simpl_monad. fold e. rewrite Hgen, Hr.
  destruct r as [v|]; simpl_monad; cbn [CommitteeManagement.dispatch]; unfold CommitteeManagement.set; cbn [ensure_none]; simpl_monad;
    fold e; rewrite Z.eqb_refl; by intros [= <-].
Qed.

(** The rest of a block leaves the session pallet alone. *)
Lemma beneficiary_keeps beneficiary rt rt' :
  apply_beneficiary_inherent beneficiary rt = Done (Some rt') -> Session rt' = Session rt.
Proof.
  unfold apply_beneficiary_inherent. destruct (BlockRewards.create_inherent _) as [[c|]|]; simpl_monad; [|by intros [= <-] | done].
  destruct (BlockRewards.set_current_block_beneficiary _ _ _); [by intros [= <-] | done].
Qed.
Lemma token_keeps tokens rt rt' : apply_token_inherent tokens rt = Done (Some rt') -> Session rt' = Session rt.
Proof.
  unfold apply_token_inherent. destruct (NativeToken.create_inherent _) as [[[]|]|]; simpl_monad; try done; try by intros [= <-].
  destruct (NativeToken.transfer_tokens _ _ _ _) as [[]|]; simpl_monad; [by intros [= <-] | done..].
Qed.
Lemma finalize_keeps rt rt' : finalize_block rt = Done rt' -> Session rt' = Session rt.
Proof. unfold finalize_block. destruct (BlockRewards.on_finalize _); simpl_monad; [by intros [= <-] | done]. Qed.
Lemma execute_block_parts n b rt rt' :
  execute_block into account_id_leb n b rt = Done (Some rt') ->
  exists rt1 rt2, initialize_block into account_id_leb n (bd_slot b) rt = Done rt1 /\
    apply_committee_inherent (bd_inputs b) rt1 = Done (Some rt2) /\ committee_of rt' = committee_of rt2.
Proof.
  unfold execute_block, bind_valid. destruct (initialize_block into account_id_leb n (bd_slot b) rt) as [rt1|]; [|done]. simpl_monad.
  destruct (apply_committee_inherent (bd_inputs b) rt1) as [[rt2|]|] eqn:E; [|done..]. simpl_monad.
  destruct (apply_beneficiary_inherent _ _) as [[rt3|]|] eqn:E3; [|done..]. simpl_monad.
  destruct (apply_token_inherent _ _) as [[rt4|]|] eqn:E4; [|done..]. simpl_monad.
  destruct (finalize_block _) as [rt5|] eqn:E5; [|done]. simpl_monad. intros [= <-]. exists rt1, rt2. split_and!; [done..|].
  unfold committee_of. by rewrite (finalize_keeps _ _ E5), (token_keeps _ _ _ E4), (beneficiary_keeps _ _ _ E3).
Qed.

(** One block refines one step. *)
Lemma block_refines_step genesis spe n b rt rt' s :
  base_inv into genesis spe rt -> 0 < spe -> wf_inputs (bd_inputs b) genesis -> n <> 1 ->
  execute_block into account_id_leb n b rt = Done (Some rt') -> in_office rt s -> in_office rt' (Committees.step genesis spe s b).
Proof.
  intros Hb Hpos Hwf Hn Hex [Hcur Hnext]. destruct s as [current next]. cbn [fst snd] in Hcur, Hnext.
  apply execute_block_parts in Hex as (rt1 & rt2 & Hi & Ha & Hc).
  destruct (initialize_block_spec into account_id_leb genesis spe n (bd_slot b) rt Hb Hpos ltac:(done)) as (rt1' & Hi' & Hb1 & _).
  rewrite Hi in Hi'. injection Hi' as <-.
  apply (initialize_block_committee genesis spe) in Hi as [_ Hi]; [|done..].
  apply (inherent_committee genesis spe) in Ha as [Ha1 Ha2]; [|done..]. unfold in_office. rewrite Hc, Ha1, Ha2, Hi.
  unfold CommitteeManagement.on_initialize. rewrite (proj2 (Z.eqb_neq n 1)) by done.
  rewrite Hnext, (bool_decide_eq_true_2 (is_Some _)), andb_true_r by (by eexists).
  unfold CommitteeManagement.rotate_committee_to_next_epoch, Committees.step. rewrite Hnext, Hcur.
  destruct (CommitteeManagement.epoch current <? bd_slot b / spe); cbn; [done | by rewrite Hnext, Hcur].
Qed.
Lemma first_block_refines genesis spe b rt rt' initial :
  base_inv into genesis spe rt -> 0 < spe -> wf_inputs (bd_inputs b) genesis ->
  CommitteeManagement.committee (CommitteeManagement.CurrentCommittee (committee_of rt)) = initial ->
  CommitteeManagement.NextCommittee (committee_of rt) = None ->
  execute_block into account_id_leb 1 b rt = Done (Some rt') -> in_office rt' (Committees.first genesis spe initial b).
Proof.
  intros Hb Hpos Hwf Hcur Hnext Hex.
  apply execute_block_parts in Hex as (rt1 & rt2 & Hi & Ha & Hc).
  destruct (initialize_block_spec into account_id_leb genesis spe 1 (bd_slot b) rt Hb Hpos ltac:(done)) as (rt1' & Hi' & Hb1 & _).
  rewrite Hi in Hi'. injection Hi' as <-.
  apply (initialize_block_committee genesis spe) in Hi as [_ Hi]; [|done..].
  apply (inherent_committee genesis spe) in Ha as [Ha1 Ha2]; [|done..]. unfold in_office. rewrite Hc, Ha1, Ha2, Hi.
  unfold CommitteeManagement.on_initialize. cbn. rewrite Z.ltb_irrefl. cbn. rewrite Hnext, Hcur. done.
Qed.

Lemma states_refine genesis spe slot n bs rt s :
  chain_inv into genesis spe slot rt -> 0 < spe -> wf_blocks genesis slot bs -> 1 < n -> in_office rt s ->
  exists rts, ChainStates.run_states into account_id_leb n bs rt = Done (Some rts) /\
    Forall2 in_office rts (Committees.steps genesis spe s bs) /\
    Forall2 (fun rt b => chain_inv into genesis spe (bd_slot b) rt) rts bs.
Proof.
  intros Hinv Hpos [Hs Hwf] Hn Ho. revert slot n rt s Hinv Hs Hn Ho; induction Hwf as [|b bs [Hw Hb] Hwf IH];
    intros slot n rt s Hinv Hs Hn Ho; [by exists []|].
  inversion Hs as [|? ? Hs' Hall]; subst. inversion Hall as [|? ? Hle _]; subst.
  destruct (chain_step into account_id_leb genesis spe slot n b rt Hinv Hpos Hw ltac:(lia) Hn) as (rt1 & Hex & Hinv1 & _).
  pose proof (block_refines_step genesis spe n b rt rt1 s (chain_base _ _ _ _ _ Hinv) Hpos Hw ltac:(lia) Hex Ho) as Ho1.
  destruct (IH (bd_slot b) (n + 1) rt1 _ Hinv1 Hs' ltac:(lia) Ho1) as (rts & Hr & Hf & Hi).
  exists (rt1 :: rts). cbn [ChainStates.run_states Committees.steps]. unfold bind_valid. rewrite Hex. simpl_monad. rewrite Hr.
  split; [done|]. by split; constructor.
Qed.
End Refines.

(** ** Labels: the committee in office is that of the epoch *)
Section Labels.
Import Committees.
Context `{Minicbor, Crypto, Accounts, Rng, U256, BoundedVecOps} {BeneficiaryId : Type}.
Context (genesis : UtxoId) (spe : Z).
Implicit Types (b : @Runtime.BlockData BeneficiaryId) (bs : list (@Runtime.BlockData BeneficiaryId)).
#[local] Abbreviation epoch_of b := (Runtime.bd_slot b / spe).

(** No epoch without a block. *)
Fixpoint consecutive (e : Z) bs : Prop :=
  match bs with [] => True | b :: bs' => e <= epoch_of b <= e + 1 /\ consecutive (epoch_of b) bs' end.
Definition labelled (s : CommitteeManagement.CommitteeInfo TAccountId TAccountKeys * CommitteeManagement.CommitteeInfo TAccountId TAccountKeys) (e : Z) : Prop :=
  CommitteeManagement.epoch (fst s) = e /\ CommitteeManagement.epoch (snd s) = e + 1.

Lemma step_labelled s e b :
  0 <= e -> e <= epoch_of b <= e + 1 -> epoch_of b < 2 ^ 64 - 1 -> labelled s e ->
  labelled (step genesis spe s b) (epoch_of b) /\ (epoch_of b = e -> step genesis spe s b = s).
Proof.
  intros He Hb Hmax [Hc Hn]. destruct s as [c n]. cbn [fst snd] in Hc, Hn. unfold step. rewrite Hc.
  destruct (Z.ltb_spec e (epoch_of b)); (split; [|intros; lia || done]); (split; cbn [fst snd after CommitteeManagement.epoch]).
  - lia.
  - rewrite wrapping_add_small by (unfold in_width; lia). lia.
  - lia.
  - lia.
Qed.
Lemma steps_labelled s e bs :
  0 <= e -> consecutive e bs -> Forall (fun b => epoch_of b < 2 ^ 64 - 1) bs -> labelled s e ->
  Forall2 (fun s b => labelled s (epoch_of b)) (steps genesis spe s bs) bs.
Proof.
  revert s e; induction bs as [|b bs IH]; intros s e He Hc Hf Hl; [constructor|].
  destruct Hc as [Hb Hc]. inversion Hf as [|? ? Hm Hf']; subst.
  destruct (step_labelled s e b He Hb Hm Hl) as [Hl' _]. constructor; [done|]. apply (IH _ (epoch_of b)); [lia|done..].
Qed.
(** Within an epoch nothing changes. *)
Lemma steps_same s e bs i s' b :
  0 <= e -> consecutive e bs -> Forall (fun b => epoch_of b < 2 ^ 64 - 1) bs -> labelled s e ->
  steps genesis spe s bs !! i = Some s' -> bs !! i = Some b -> e <= epoch_of b /\ (epoch_of b = e -> s' = s).
Proof.
  revert s e i; induction bs as [|b0 bs IH]; intros s e i He Hc Hf Hl; [done|].
  destruct Hc as [Hb Hc]. inversion Hf as [|? ? Hm Hf']; subst.
  destruct (step_labelled s e b0 He Hb Hm Hl) as [Hl' Hsame]. destruct i as [|i]; cbn [steps lookup list_lookup].
  - intros [= <-] [= <-]. split; [lia | exact Hsame].
  - intros Hs Hbi. destruct (IH _ (epoch_of b0) i ltac:(lia) Hc Hf' Hl' Hs Hbi) as [Hle Heq].
    split; [lia|]. intros Hee. rewrite Heq by lia. apply Hsame. lia.
Qed.
Lemma steps_office s e bs i j si sj bi bj :
  0 <= e -> consecutive e bs -> Forall (fun b => epoch_of b < 2 ^ 64 - 1) bs -> labelled s e -> (i <= j)%nat ->
  steps genesis spe s bs !! i = Some si -> bs !! i = Some bi ->
  steps genesis spe s bs !! j = Some sj -> bs !! j = Some bj -> epoch_of bi = epoch_of bj -> si = sj.
Proof.
  revert s e i j; induction bs as [|b0 bs IH]; intros s e i j He Hc Hf Hl Hij; [done|].
  destruct Hc as [Hb Hc]. inversion Hf as [|? ? Hm Hf']; subst.
  destruct (step_labelled s e b0 He Hb Hm Hl) as [Hl' _].
  destruct i as [|i], j as [|j]; cbn [steps lookup list_lookup]; [congruence | | lia |].
  - intros [= <-] [= <-] Hsj Hbj Hee. symmetry.
    exact (proj2 (steps_same _ (epoch_of b0) bs j sj bj ltac:(lia) Hc Hf' Hl' Hsj Hbj) (eq_sym Hee)).
  - intros. apply (IH (step genesis spe s b0) (epoch_of b0) i j); [lia | done | done | done | lia | done..].
Qed.
(** The same for a whole chain, whose first block starts the history. *)
Lemma history_labelled initial b bs :
  0 <= Runtime.bd_slot b -> 0 < spe -> consecutive (epoch_of b) bs ->
  Forall (fun b => epoch_of b < 2 ^ 64 - 1) (b :: bs) ->
  Forall2 (fun s b => labelled s (epoch_of b)) (history genesis spe initial b bs) (b :: bs) /\
  forall i j si sj bi bj, history genesis spe initial b bs !! i = Some si -> (b :: bs) !! i = Some bi ->
    history genesis spe initial b bs !! j = Some sj -> (b :: bs) !! j = Some bj -> epoch_of bi = epoch_of bj -> si = sj.
Proof.
  intros Hb Hpos Hc Hf. assert (0 <= epoch_of b) by (apply Z.div_pos; lia).
  inversion Hf as [|? ? Hm Hf']; subst.
  assert (labelled (first genesis spe initial b) (epoch_of b)) as Hl.
  { split; cbn [first fst snd after CommitteeManagement.epoch]; [done|]. rewrite wrapping_add_small by (unfold in_width; lia). done. }
  split; [constructor; [done | by apply (steps_labelled _ (epoch_of b))]|].
  assert (forall i j si sj bi bj, (i <= j)%nat -> history genesis spe initial b bs !! i = Some si -> (b :: bs) !! i = Some bi ->
    history genesis spe initial b bs !! j = Some sj -> (b :: bs) !! j = Some bj -> epoch_of bi = epoch_of bj -> si = sj) as Hle.
  { intros i j si sj bi bj Hij. destruct i as [|i], j as [|j]; unfold history; cbn [lookup list_lookup]; [congruence | | lia |].
    - intros [= <-] [= <-] Hsj Hbj Hee. symmetry.
      by apply (steps_same _ (epoch_of b) bs j sj bj).
    - intros. apply (steps_office (first genesis spe initial b) (epoch_of b) bs i j si sj bi bj); try done; lia. }
  intros i j si sj bi bj Hsi Hbi Hsj Hbj Hee. destruct (Nat.le_ge_cases i j) as [Hij|Hij].
  - by apply (Hle i j si sj bi bj).
  - symmetry. by apply (Hle j i sj si bj bi).
Qed.
End Labels.

(** ** A chain from its genesis *)
Section FromGenesis.
Context `{Minicbor, Crypto, Accounts, RngLaws, U256Laws, BoundedVecLaws} {AccountId : Type}.
Context `{EqDecision AccountId, System AccountId} (into : TAccountId -> AccountId) (account_id_leb : AccountId -> AccountId -> bool).
Context `{Countable BeneficiaryId}.

Lemma chain_from_genesis sidechain committee native key_ids sys (b : @Runtime.BlockData BeneficiaryId) bs :
  let spe := SidechainPallet.genesis_slots_per_epoch sidechain in let g := SidechainPallet.genesis_utxo sidechain in
  0 < spe -> wf_blocks g 0 (b :: bs) ->
  exists rt0 rts, Runtime.genesis into account_id_leb sidechain committee native key_ids sys = Done rt0 /\
    ChainStates.run_states into account_id_leb 1 (b :: bs) rt0 = Done (Some rts) /\ base_inv into g spe rt0 /\
    Forall2 in_office rts (Committees.history g spe (truncate_from Runtime.MaxValidators (CommitteeManagement.initial_authorities committee)) b bs) /\
    Forall2 (fun rt b => base_inv into g spe rt) rts (b :: bs).
Proof.
  intros spe g Hpos [Hs Hwf].
  assert (exists rt0, Runtime.genesis (BeneficiaryId := BeneficiaryId) into account_id_leb sidechain committee native key_ids sys = Done rt0 /\
    base_inv into g spe rt0 /\ Runtime.committee_of rt0 = CommitteeManagement.build Runtime.MaxValidators committee) as (rt0 & Hg & Hbase & Hcom).
  { destruct (genesis_spec (BeneficiaryId := BeneficiaryId) into account_id_leb sidechain committee native key_ids sys)
      as (rt0 & Hg & Hbase & _). exists rt0. split_and!; [done..|].
    revert Hg. unfold Runtime.genesis, SessionPallet.build. rewrite bool_decide_eq_true_2 by done.
    cbn - [SessionPallet.rotate_validators]. rewrite rotate_validators_done. simpl_monad. by intros [= <-]. }
  exists rt0. rewrite Hg.
  inversion Hwf as [|? ? [Hw Hslot] Hwf']; subst. inversion Hs as [|? ? Hs' _]; subst.
  assert (CommitteeManagement.NextCommittee (Runtime.committee_of rt0) = None) as Hnone by (by rewrite Hcom).
  destruct (execute_block_spec into account_id_leb g spe 1 b rt0 Hbase Hpos Hw ltac:(by intros _))
    as (rt1 & Hex & Hb1 & Hn1 & He1 & Hc1).
  pose proof (first_block_refines into account_id_leb g spe b rt0 rt1 _ Hbase Hpos Hw eq_refl Hnone Hex) as Ho.
  assert (0 <= Runtime.bd_slot b / spe) by (apply Z.div_pos; lia).
  assert (chain_inv into g spe (Runtime.bd_slot b) rt1) as Hinv1 by (split; [done..|]; rewrite Hc1; cbn; lia).
  destruct (states_refine into account_id_leb g spe (Runtime.bd_slot b) 2 bs rt1 _ Hinv1 Hpos (conj Hs' Hwf') ltac:(lia) Ho)
    as (rts & Hr & Hf & Hi).
  exists (rt1 :: rts). cbn [ChainStates.run_states]. unfold Runtime.bind_valid. rewrite Hex. simpl_monad. change (1 + 1) with 2. rewrite Hr. simpl_monad.
  rewrite Hcom in Ho, Hf. split_and!; [done | done | done | by constructor|]. constructor; [done|].
  eapply Forall2_impl; [exact Hi|]. by intros ? ? [].
Qed.
End FromGenesis.

(** C2: The committee pallet and the session pallet, driven by the blocks of a chain, refine
    the specification [Committees]: over any chain from genesis whose slots do not decrease
    and whose inputs are well formed, every block is executed, and after each the stored
    current and next committee are those of the specification: the committee of the genesis
    for the epoch of the first block, then for each hand-over the committee that was selected
    from the inputs of the block of the previous hand-over. *)
Theorem runtime_refines_committees `{Minicbor, Crypto, Accounts, RngLaws, U256Laws, BoundedVecLaws} {AccountId : Type}
    `{EqDecision AccountId, System AccountId} (into : TAccountId -> AccountId) account_id_leb
    `{Countable BeneficiaryId} sidechain committee native key_ids sys (b : @Runtime.BlockData BeneficiaryId) bs :
  let spe := SidechainPallet.genesis_slots_per_epoch sidechain in let g := SidechainPallet.genesis_utxo sidechain in
  0 < spe -> wf_blocks g 0 (b :: bs) ->
  exists rt0 rts, Runtime.genesis into account_id_leb sidechain committee native key_ids sys = Done rt0 /\
    ChainStates.run_states into account_id_leb 1 (b :: bs) rt0 = Done (Some rts) /\
    Forall2 in_office rts (Committees.history g spe (truncate_from Runtime.MaxValidators (CommitteeManagement.initial_authorities committee)) b bs).
Proof.
  intros spe g Hpos Hwf.
  destruct (chain_from_genesis into account_id_leb sidechain committee native key_ids sys b bs Hpos Hwf)
    as (rt0 & rts & Hg & Hr & _ & Hf & _). exists rt0, rts. by split_and!.
Qed.

(** ** What the node answers about its own chain *)
Section Answers.
Import ChainClient.
Context `{Minicbor, Crypto, Accounts} {AccountId : Type} `{EqDecision AccountId, System AccountId} `{Countable BeneficiaryId}.
Context (into : TAccountId -> AccountId) (as_ref : TAccountId -> bytes).
Implicit Types blocks : list (@StoredBlock _ AccountId _ BeneficiaryId _ _).

Definition slot_at blocks (n : Z) : ScSlotNumber := default 0 (current_slot <$> blocks !! Z.to_nat n).

Lemma sorted_lookup (l : list Z) i j x y :
  StronglySorted Z.le l -> l !! i = Some x -> l !! j = Some y -> (i <= j)%nat -> x <= y.
Proof.
  intros Hs. revert i j; induction Hs as [|z l Hs IH Hall]; intros i j Hi Hj Hij; [done|].
  destruct i as [|i], j as [|j]; cbn in Hi, Hj; [simplify_eq; lia | | lia |].
  - injection Hi as <-. rewrite Forall_forall in Hall. apply Hall. by eapply list_elem_of_lookup_2.
  - apply (IH i j Hi Hj). lia.
Qed.
Lemma find_stored blocks i sb :
  NoDup (map block_hash blocks) -> blocks !! i = Some sb -> find_state blocks (block_hash sb) = Ok sb.
Proof.
  intros Hnd Hi. unfold find_state. assert (List.find (fun b => bool_decide (block_hash b = block_hash sb)) blocks = Some sb) as ->; [|done].
  revert i Hi; induction blocks as [|b0 blocks IH]; intros i Hi; [done|]. inversion Hnd as [|? ? Hni Hnd']; subst. cbn [List.find].
  destruct i as [|i]; [injection Hi as <-; by rewrite bool_decide_eq_true_2|]. cbn in Hi.
  rewrite bool_decide_eq_false_2; [by apply (IH Hnd' i)|]. intros Heq. apply Hni. rewrite Heq.
  apply list_elem_of_fmap. exists sb. split; [done|]. by eapply list_elem_of_lookup_2.
Qed.

Lemma stored_chain_view g spe blocks :
  blocks <> [] -> Z.of_nat (length blocks) < 2 ^ 31 -> 0 < spe -> NoDup (map block_hash blocks) ->
  Forall (fun sb => base_inv into g spe (state sb)) blocks ->
  StronglySorted Z.le (map current_slot (tail blocks)) ->
  chain_view (chain_client blocks) (slot_at blocks) spe.
Proof.
  intros Hne Hlen Hpos Hnd Hbase Hs. assert (0 < length blocks)%nat by (by destruct blocks; cbn; [|lia]).
  split; cbn [best_number hash runtime_get_sidechain_status chain_client].
  - lia.
  - done.
  - intros n Hn. destruct (lookup_lt_is_Some_2 blocks (Z.to_nat n)) as [sb Hsb]; [lia|].
    exists (block_hash sb). rewrite (proj2 (Z.ltb_ge n 0)), Hsb by lia. split; [done|].
    rewrite (find_stored blocks _ sb Hnd Hsb). simpl_monad. unfold runtime_sidechain_status, SidechainPallet.get_sidechain_status,
      SidechainPallet.current_epoch_number, slot_at. rewrite Hsb. cbn [fmap option_fmap option_map default from_option].
    rewrite Forall_lookup in Hbase. destruct (Hbase _ _ Hsb) as [_ _ Hspe _ _]. rewrite Slots.epoch_number_pos, Hspe by (by rewrite Hspe). done.
  - intros n Hn. rewrite (proj2 (Z.ltb_ge n 0)) by lia. by rewrite lookup_ge_None_2 by lia.
  - intros m n Hm Hn. unfold slot_at. destruct blocks as [|sb0 blocks]; [done|]. cbn [tail] in Hs. cbn [length] in Hn.
    destruct (Z.to_nat m) as [|i] eqn:Hi; [lia|]. destruct (Z.to_nat n) as [|j] eqn:Hj; [lia|].
    change ((sb0 :: blocks) !! S i) with (blocks !! i). change ((sb0 :: blocks) !! S j) with (blocks !! j).
    destruct (lookup_lt_is_Some_2 blocks i) as [si Hsi]; [lia|]. destruct (lookup_lt_is_Some_2 blocks j) as [sj Hsj]; [lia|].
    rewrite Hsi, Hsj. apply (sorted_lookup (map current_slot blocks) i j); [done | | |lia];
      rewrite list_lookup_fmap; [by rewrite Hsi | by rewrite Hsj].
Qed.
End Answers.

(** The blocks that a node stores for a chain: genesis and the executed blocks. *)
Definition stores `{Accounts} {AccountId : Type} `{System AccountId} `{Countable BeneficiaryId}
    (blocks : list (@ChainClient.StoredBlock _ AccountId _ BeneficiaryId _ _)) rt0 rts (bs : list (@Runtime.BlockData BeneficiaryId)) : Prop :=
  map ChainClient.state blocks = rt0 :: rts /\ map ChainClient.current_slot blocks = 0 :: map Runtime.bd_slot bs /\
  NoDup (map ChainClient.block_hash blocks) /\ Z.of_nat (length blocks) < 2 ^ 31.

Section StoredChain.
Import ChainClient.
Context `{Minicbor, Crypto, Accounts, RngLaws, U256Laws, BoundedVecLaws} {AccountId : Type}.
Context `{EqDecision AccountId, System AccountId} (into : TAccountId -> AccountId) (account_id_leb : AccountId -> AccountId -> bool).
Context `{Countable BeneficiaryId}.

(** Block [i + 1] of the store and its committees in the history. *)
Lemma stored_block blocks rt0 rts (bs : list (@Runtime.BlockData BeneficiaryId)) (history : list _) i sb :
  stores (AccountId := AccountId) blocks rt0 rts bs -> Forall2 in_office rts history -> blocks !! S i = Some sb ->
  exists b s, bs !! i = Some b /\ history !! i = Some s /\ current_slot sb = Runtime.bd_slot b /\ in_office (state sb) s.
Proof.
  intros (Hst & Hsl & _ & _) Ho Hsb.
  assert (map state blocks !! S i = Some (state sb)) as Hstate by (rewrite list_lookup_fmap; by rewrite Hsb).
  assert (map current_slot blocks !! S i = Some (current_slot sb)) as Hslot by (rewrite list_lookup_fmap; by rewrite Hsb).
  rewrite Hst in Hstate. rewrite Hsl in Hslot. cbn in Hstate, Hslot. apply list_lookup_fmap_Some in Hslot as (b & -> & Hb).
  destruct (Forall2_lookup_l _ _ _ _ _ Ho Hstate) as (s & Hs & Hos). by exists b, s.
Qed.

(** What the theorem below needs of the stored chain. *)
Lemma stored_facts sidechain committee native key_ids sys (b : @Runtime.BlockData BeneficiaryId) bs rt0 rts blocks :
  let spe := SidechainPallet.genesis_slots_per_epoch sidechain in let g := SidechainPallet.genesis_utxo sidechain in
  0 < spe -> wf_blocks g 0 (b :: bs) ->
  Runtime.genesis into account_id_leb sidechain committee native key_ids sys = Done rt0 ->
  ChainStates.run_states into account_id_leb 1 (b :: bs) rt0 = Done (Some rts) -> stores blocks rt0 rts (b :: bs) ->
  chain_view (chain_client blocks) (slot_at blocks) spe /\
  length blocks = S (S (length bs)) /\
  Forall2 in_office rts (Committees.history g spe (truncate_from Runtime.MaxValidators (CommitteeManagement.initial_authorities committee)) b bs).
Proof.
  intros spe g Hpos Hwf Hg Hr Hst.
  destruct (chain_from_genesis into account_id_leb sidechain committee native key_ids sys b bs Hpos Hwf)
    as (rt0' & rts' & Hg' & Hr' & Hbase & Hf & Hi).
  rewrite Hg in Hg'. injection Hg' as <-. rewrite Hr in Hr'. injection Hr' as <-.
  destruct Hst as (Hstates & Hslots & Hnd & Hlen).
  assert (length blocks = S (S (length bs))) as Hl.
  { rewrite <- (length_map current_slot), Hslots. cbn. by rewrite length_map. }
  split_and!; [|done..]. apply (stored_chain_view into g spe blocks); [by destruct blocks | lia | done | done | |].
  - apply (Forall_map state (base_inv into g spe)). rewrite Hstates. constructor; [done|].
    apply Forall2_Forall_l with (1 := Hi). apply Forall_true. done.
  - destruct blocks as [|sb blocks]; [done|]. cbn [tail map] in Hslots |- *. injection Hslots as _ ->.
    destruct Hwf as [Hs _]. by inversion Hs.
Qed.
(** In consecutive epochs the committee in office has the label of the epoch and is the same at
    all blocks of the epoch. *)
Lemma stored_office g spe initial (b : @Runtime.BlockData BeneficiaryId) bs rt0 rts blocks :
  0 < spe -> wf_blocks g 0 (b :: bs) -> consecutive spe (Runtime.bd_slot b / spe) bs ->
  stores (AccountId := AccountId) blocks rt0 rts (b :: bs) -> Forall2 in_office rts (Committees.history g spe initial b bs) ->
  (forall i sb, blocks !! S i = Some sb -> 0 <= current_slot sb < 2 ^ 64 - 1 /\ exists s, in_office (state sb) s /\ labelled s (current_slot sb / spe)) /\
  (forall i j sb sb', blocks !! S i = Some sb -> blocks !! S j = Some sb' -> current_slot sb / spe = current_slot sb' / spe ->
    CommitteeManagement.CurrentCommittee (Runtime.committee_of (state sb)) = CommitteeManagement.CurrentCommittee (Runtime.committee_of (state sb'))).
Proof.
  intros Hpos [_ Hwf] Hcon Hst Ho.
  assert (Forall (fun b => Runtime.bd_slot b / spe < 2 ^ 64 - 1) (b :: bs)) as Hmax.
  { eapply Forall_impl; [exact Hwf|]. intros b' [_ Hb']. apply Z.div_lt_upper_bound; nia. }
  destruct (history_labelled g spe initial b bs) as [Hl Hsame]; [by inversion Hwf as [|? ? [_ ?]]; lia | done..|].
  split.
  - intros i sb Hsb. destruct (stored_block _ _ _ _ _ _ _ Hst Ho Hsb) as (b' & s & Hb' & Hs & -> & Hos).
    split; [rewrite Forall_lookup in Hwf; by apply (Hwf _ _ Hb')|]. exists s. split; [done|].
    by destruct (Forall2_lookup_lr _ _ _ _ _ _ Hl Hs Hb').
  - intros i j sb sb' Hsb Hsb' Hee.
    destruct (stored_block _ _ _ _ _ _ _ Hst Ho Hsb) as (b1 & s1 & Hb1 & Hs1 & E1 & [-> _]).
    destruct (stored_block _ _ _ _ _ _ _ Hst Ho Hsb') as (b2 & s2 & Hb2 & Hs2 & E2 & [-> _]).
    rewrite E1, E2 in Hee. by rewrite (Hsame i j s1 s2 b1 b2).
Qed.

(** The client's answer for the hash of a stored block. *)
Lemma stored_hash blocks m h :
  hash (chain_client (AccountId := AccountId) (BeneficiaryId := BeneficiaryId) blocks) m = Ok (Some h) -> NoDup (map block_hash blocks) ->
  exists sb, blocks !! Z.to_nat m = Some sb /\ h = block_hash sb /\ find_state blocks h = Ok sb.
Proof.
  cbn. destruct (m <? 0); [done|]. destruct (blocks !! Z.to_nat m) as [sb|] eqn:Hsb; [|done]. intros [= <-] Hnd.
  exists sb. split_and!; [done..|]. by apply (find_stored blocks (Z.to_nat m)).
Qed.
End StoredChain.

(** C22: What a node answers about the committees of its own chain. On a chain without an epoch
    that has no block, at every block the committee in office is the one of the block's epoch,
    and [sidechain_getEpochCommittee] answers for this epoch with exactly its members, whichever
    block of the epoch the search finds; for the epoch after the best block's it answers with the
    members of the committee that is stored for it. *)
Theorem node_answers_committees `{Minicbor, Crypto, Accounts, RngLaws, U256Laws, BoundedVecLaws, HexCodec, Ss58} {AccountId : Type}
    `{EqDecision AccountId, System AccountId} (into : TAccountId -> AccountId) account_id_leb (as_ref : TAccountId -> bytes)
    `{Countable BeneficiaryId} sidechain committee native key_ids sys (b : @Runtime.BlockData BeneficiaryId) bs rt0 rts blocks :
  let spe := SidechainPallet.genesis_slots_per_epoch sidechain in
  0 < spe -> wf_blocks (SidechainPallet.genesis_utxo sidechain) 0 (b :: bs) -> consecutive spe (Runtime.bd_slot b / spe) bs ->
  Runtime.genesis into account_id_leb sidechain committee native key_ids sys = Done rt0 ->
  ChainStates.run_states into account_id_leb 1 (b :: bs) rt0 = Done (Some rts) -> stores blocks rt0 rts (b :: bs) ->
  (forall sb, sb ∈ tail blocks ->
    let e := ChainClient.current_slot sb / spe in
    let c := CommitteeManagement.CurrentCommittee (Runtime.committee_of (ChainClient.state sb)) in
    CommitteeManagement.epoch c = e /\
    (e <> 0 -> Query.get_epoch_committee (ChainClient.chain_query as_ref blocks) e =
       Some (Done (Ok (Query.committee_response e (map as_ref (map fst (CommitteeManagement.committee c)))))))) /\
  (forall sb, last blocks = Some sb ->
    let e := ChainClient.current_slot sb / spe + 1 in
    exists c, CommitteeManagement.NextCommittee (Runtime.committee_of (ChainClient.state sb)) = Some c /\ CommitteeManagement.epoch c = e /\
      Query.get_epoch_committee (ChainClient.chain_query as_ref blocks) e =
        Some (Done (Ok (Query.committee_response e (map as_ref (map fst (CommitteeManagement.committee c))))))).
Proof.
  intros spe Hpos Hwf Hcon Hg Hr Hst.
  destruct (stored_facts into account_id_leb _ _ _ _ _ _ _ _ _ _ Hpos Hwf Hg Hr Hst) as (V & Hlen & Ho). fold spe in V, Ho.
  destruct (stored_office _ _ _ _ _ _ _ _ Hpos Hwf Hcon Hst Ho) as [Hoff Hsame]. destruct Hst as (_ & Hslots & Hnd & _).
  set (q := ChainClient.chain_query as_ref blocks).
  assert (best_number (Query.client q) = Z.of_nat (S (length bs))) as Hbest by (cbn [q ChainClient.chain_query Query.client ChainClient.chain_client best_number]; lia).
  assert (forall n sb, blocks !! n = Some sb -> slot_at blocks (Z.of_nat n) = ChainClient.current_slot sb) as Hat
    by (intros n sb Hsb; unfold slot_at; by rewrite Nat2Z.id, Hsb).
  destruct (lookup_lt_is_Some_2 blocks (S (length bs))) as [sbl Hsbl]; [lia|].
  assert (forall e, e <> 0 -> _) as Hq by (intros e He; refine (epoch_committee_query q (slot_at blocks) spe e V _ _ He);
    [lia | rewrite Hbest, (Hat _ _ Hsbl); exact (proj1 (Hoff _ _ Hsbl))]).
  split.
  - intros sb Hin. cbn zeta. apply list_elem_of_lookup in Hin as [i Hi]. assert (blocks !! S i = Some sb) as Hsb by (by destruct blocks).
    destruct (Hoff _ _ Hsb) as (_ & s & [Hcur _] & [Hlab _]). split; [by rewrite Hcur|]. intros He.
    assert (S i < length blocks)%nat by (by eapply lookup_lt_Some).
    destruct (Hq _ He) as (_ & _ & _ & Hin_epoch & _). destruct (Hin_epoch (Z.of_nat (S i))) as (m & h & ep & cs & Hm & Hme & Hh & Hc & ->);
      [lia | by rewrite (Hat _ _ Hsb) | |].
    + intros m h Hh. destruct (stored_hash _ _ _ Hh Hnd) as (sb' & _ & _ & Hf). cbn. rewrite Hf. cbn. by do 2 eexists.
    + destruct (stored_hash _ _ _ Hh Hnd) as (sb' & Hsb' & _ & Hf). cbn in Hc. rewrite Hf in Hc. cbn in Hc. injection Hc as _ <-.
      destruct (Z.to_nat m) as [|j] eqn:Hj; [lia|]. rewrite (Hsame i j sb sb' Hsb Hsb'); [done|].
      rewrite <- Hme, <- (Hat _ _ Hsb'), <- Hj. by rewrite Z2Nat.id by lia.
  - intros sb Hlast. cbn zeta.
    assert (sb = sbl) as ->. { rewrite last_lookup, Hlen in Hlast. cbn in Hlast. rewrite Hsbl in Hlast. by injection Hlast. }
    destruct (Hoff _ _ Hsbl) as (Hsl & s & [_ Hnext] & [_ Hlab]). exists (snd s). split_and!; [done..|].
    assert (0 <= ChainClient.current_slot sbl / spe) by (apply Z.div_pos; lia).
    destruct (Hq (ChainClient.current_slot sbl / spe + 1)) as (_ & _ & Hin_next & _); [lia|]. 
    pose proof (epochs_sorted _ _ _ V 1 (Z.of_nat (S (length bs)))) as Hle. rewrite (Hat _ _ Hsbl) in Hle.
    rewrite Hbest, (Hat _ _ Hsbl) in Hin_next. apply (Hin_next ltac:(specialize (Hle ltac:(lia) ltac:(cbn in Hbest |- *; lia)); lia) eq_refl (CommitteeManagement.epoch (snd s))).
    cbn. rewrite last_lookup, Hlen. cbn. rewrite Hsbl. cbn. rewrite (find_stored blocks _ sbl Hnd Hsbl). cbn.
    unfold ChainClient.runtime_get_next_committee, CommitteeManagement.get_next_committee. rewrite Hnext. done.
Qed.

(** ** Examples *)
Section Witnesses.
Import ConcreteAccounts Selection.Concrete Rfc8949 ConcreteSystem ConcreteHex ChainClient.
#[local] Instance account_bytes_system : System bytes := {| Sys := (); inc_providers _ s := s; dec_providers _ s := Some s |}.
#[local] Instance hex_ss58 : Ss58 := fun k => to_hex k.
#[local] Definition block_with (slot : Z) : @Runtime.BlockData Z := Runtime.mkBlockData slot Ariadne.inputs 7 None.
#[local] Definition example_sidechain := SidechainPallet.mkGenesisConfig Ariadne.utxo0 60.
#[local] Definition example_committee : CommitteeManagement.GenesisConfig TAccountId TAccountKeys :=
  CommitteeManagement.mkGenesisConfig [(replicate 33 1, (replicate 32 1, replicate 32 1))] Example2.scripts.
#[local] Definition example_tokens := NativeToken.mkMainChainScripts [] [] [].
#[local] Definition account : @TAccountId byte_accounts -> bytes := fun a => a.
#[local] Definition example_sys : @Sys bytes account_bytes_system := tt.
#[local] Abbreviation example_genesis := (Runtime.genesis (BeneficiaryId := Z) account bytes_leb example_sidechain example_committee example_tokens [1] example_sys).

Lemma example_blocks_wf slots :
  StronglySorted Z.le (0 :: slots) -> Forall (fun s => 0 <= s < 2 ^ 64 - 1) slots -> wf_blocks Ariadne.utxo0 0 (map block_with slots).
Proof.
  intros Hs Hf. split; [rewrite map_map; cbn; by rewrite map_id|]. apply Forall_map. eapply Forall_impl; [exact Hf|].
  intros x Hx. split; [exact inputs_wf | exact Hx].
Qed.

Lemma runtime_refines_committees_witness :
  exists rt0 rts, example_genesis = Done rt0 /\
    ChainStates.run_states account bytes_leb 1 (map block_with [100; 130; 500]) rt0 = Done (Some rts) /\
    Forall2 in_office rts (Committees.history Ariadne.utxo0 60
      (truncate_from Runtime.MaxValidators (CommitteeManagement.initial_authorities example_committee)) (block_with 100) (map block_with [130; 500])).
Proof.
  apply (runtime_refines_committees account bytes_leb example_sidechain example_committee example_tokens [1] example_sys
    (block_with 100) (map block_with [130; 500])); [cbn; lia|].
  apply (example_blocks_wf [100; 130; 500]); repeat constructor; lia.
Defined.

Lemma node_answers_committees_witness :
  exists blocks sb, blocks !! 3%nat = Some sb /\ current_slot sb = 150 /\
    Query.get_epoch_committee (chain_query account (AccountId := bytes) (BeneficiaryId := Z) blocks) 2 =
      Some (Done (Ok (Query.committee_response 2
        (map account (map fst (CommitteeManagement.committee (CommitteeManagement.CurrentCommittee (Runtime.committee_of (state sb))))))))).
Proof.
  assert (wf_blocks Ariadne.utxo0 0 (map block_with [100; 130; 150; 190])) as Hwf
    by (apply (example_blocks_wf [100; 130; 150; 190]); repeat constructor; lia).
  destruct (chain_from_genesis (BeneficiaryId := Z) account bytes_leb example_sidechain example_committee example_tokens [1] example_sys
    (block_with 100) (map block_with [130; 150; 190]) ltac:(cbn; lia) Hwf) as (rt0 & rts & Hg & Hr & _ & _ & Hlen).
  apply Forall2_length in Hlen. destruct rts as [|r1 [|r2 [|r3 [|r4 [|]]]]]; try discriminate Hlen.
  set (blocks := [mkStoredBlock [0] 0 rt0; mkStoredBlock [1] 100 r1; mkStoredBlock [2] 130 r2; mkStoredBlock [3] 150 r3; mkStoredBlock [4] 190 r4]).
  destruct (node_answers_committees account bytes_leb account example_sidechain example_committee example_tokens [1] example_sys
    (block_with 100) (map block_with [130; 150; 190]) rt0 [r1; r2; r3; r4] blocks ltac:(cbn; lia) Hwf) as [Hq _];
    [repeat split; cbn; vm_compute; discriminate | exact Hg | exact Hr
    | split_and!; [reflexivity | reflexivity | apply (bool_decide_unpack _); vm_compute; exact I | cbn; lia] |].
  exists blocks, (mkStoredBlock [3] 150 r3). split; [reflexivity|]. split; [reflexivity|].
  apply (Hq (mkStoredBlock [3] 150 r3)); [do 2 right; left | discriminate].
Defined.

(** When epochs are skipped the label is wrong: blocks 2 and 3 are both in epoch 4, in office are the
    committees of epoch 2 and then of epoch 3, and the answer for epoch 4 is the first of them. *)
Lemma skipped_epochs_are_mislabelled :
  match example_genesis with
  | Done rt0 =>
      match ChainStates.run_states account bytes_leb 1 (map block_with [100; 250; 260]) rt0 with
      | Done (Some [r1; r2; r3]) =>
          let blocks := [mkStoredBlock [0] 0 rt0; mkStoredBlock [1] 100 r1; mkStoredBlock [2] 250 r2; mkStoredBlock [3] 260 r3] in
          current_committee_epoch r2 = 2 /\ current_committee_epoch r3 = 3 /\
          exists c, CommitteeManagement.epoch c <> 4 /\ c = CommitteeManagement.CurrentCommittee (Runtime.committee_of r2) /\
            Query.get_epoch_committee (chain_query account blocks) 4 =
              Some (Done (Ok (Query.committee_response 4 (map account (map fst (CommitteeManagement.committee c))))))
      | _ => False
      end
  | Panic => False
  end.
Proof. vm_compute. repeat split. eexists. split; [|split; [reflexivity|reflexivity]]. discriminate. Qed.
End Witnesses.
