(* ===== verification/Aura.v ===== *)
(** * Aura: authoring and importing blocks

    [toolkit/client/consensus/aura]: the slot worker ([lib.rs]) and the verifier of
    imported blocks ([import_queue.rs]), forks of Substrate's that pass a value of the
    header digest (an [InherentDigest] of [toolkit/primitives/consensus/aura]) on to the
    inherent data providers; and the proposer that puts the value into the digest
    ([block_proposal.rs]).

    Third-party: sealing, slot assignment and the checks of [sc_consensus_aura::standalone]
    ([AuraStandalone]), the client with its runtime API ([AuraClient]), the wrapped proposer
    and the backoff strategy. Telemetry and logging are not modelled. *)

From S2P Require Import Prelude Domain McEpoch Slots McHash.
#[local] Open Scope list_scope.

(** ** Third-party types and operations *)
Record BlockHeader {Hash Roots : Type} := mkBlockHeader {
  bh_parent_hash : Hash;
  bh_header : Header;   (* number and digest *)
  bh_roots : Roots      (* of the state and the extrinsics *)
}.
Arguments BlockHeader : clear implicits.

Inductive SealVerificationError (H : Type) :=
| Deferred (header : H) (slot : Z)
| Unsealed
| BadSeal
| BadSignature
| SlotAuthorNotFound
| InvalidPreDigest (e : string).
Arguments Deferred {H}. Arguments Unsealed {H}. Arguments BadSeal {H}. Arguments BadSignature {H}.
Arguments SlotAuthorNotFound {H}. Arguments InvalidPreDigest {H}.

Class AuraStandalone (Hash Roots AuthorityId Keystore : Type) := {
  header_hash : BlockHeader Hash Roots -> Hash;
  find_pre_digest : Header -> result string Z;
  pre_digest : Z -> DigestItem;
  slot_author : Z -> list AuthorityId -> option AuthorityId;
  standalone_claim_slot : Z -> list AuthorityId -> Keystore -> option AuthorityId;
  standalone_seal : Hash -> AuthorityId -> Keystore -> result string DigestItem;
  check_header_slot_and_seal : Z -> BlockHeader Hash Roots -> list AuthorityId ->
    result (SealVerificationError (BlockHeader Hash Roots)) (BlockHeader Hash Roots * Z * DigestItem)
}.

Definition push_log {Hash Roots} (h : BlockHeader Hash Roots) (item : DigestItem) : BlockHeader Hash Roots :=
  mkBlockHeader _ _ (bh_parent_hash h)
    (mkHeader (header_number (bh_header h)) (digest_logs (bh_header h) ++ [item])) (bh_roots h).

Inductive CompatibilityMode := CompatNone | UseInitializeBlock (until : Z).
Inductive CheckForEquivocation := EquivocationYes | EquivocationNo.
Inductive ForkChoiceStrategy := LongestChain | Custom (best : bool).

(** The runtime API at a block, and the equivocation check on the client's store. *)
Record AuraClient {Hash Roots AuthorityId Body Data : Type} := mkAuraClient {
  api_initialize_block : Hash -> Z -> result string ();
  api_authorities : Hash -> result string (list AuthorityId);
  has_block_builder_api_2 : Hash -> result string bool;
  api_check_inherents : Hash -> BlockHeader Hash Roots -> Body -> Data -> outcome (result string (list (string * bytes)));
  check_equivocation : Z -> Z -> BlockHeader Hash Roots -> AuthorityId -> result string bool;
  finalized_number : Z
}.
Arguments AuraClient : clear implicits.

(** A block on its way into the client. [bp_with_state] and [bp_skip_execution_checks] are
    what the methods of its state action answer. *)
Record BlockImportParams {Hash Roots Body : Type} := mkBlockImportParams {
  bp_header : BlockHeader Hash Roots;
  bp_body : option Body;
  bp_post_digests : list DigestItem;
  bp_post_hash : option Hash;
  bp_fork_choice : option ForkChoiceStrategy;
  bp_with_state : bool;
  bp_skip_execution_checks : bool
}.
Arguments BlockImportParams : clear implicits.

(** [trait InherentDigest], for inherent data of type [Data]. *)
Class InherentDigest (Data Value : Type) := {
  digest_from_inherent_data : Data -> result string (list DigestItem);
  digest_value : list DigestItem -> result string Value
}.
#[export] Instance unit_digest {Data} : InherentDigest Data () := {|
  digest_from_inherent_data _ := Ok []; digest_value _ := Ok ()
|}.

(** Creating and reading inherent data: [CreateInherentDataProviders] with its extra
    argument, [InherentDataProvider] and [CurrentSlotProvider]. The providers may change the
    caches [S] of their sources. *)
Record Cidp {S Hash Extra Providers Data : Type} := mkCidp {
  create_inherent_data_providers : Hash -> Extra -> stateful S string Providers;
  create_inherent_data : Providers -> result string Data;
  try_handle_error : Providers -> string -> bytes -> outcome (option (result string ()));
  current_slot : outcome Z
}.
Arguments Cidp : clear implicits.

Module Aura.
Section Aura.
Context {Hash Roots AuthorityId Keystore Body Data : Type} `{!AuraStandalone Hash Roots AuthorityId Keystore}.
#[local] Abbreviation Header' := (BlockHeader Hash Roots).
#[local] Abbreviation Client := (AuraClient Hash Roots AuthorityId Body Data).
#[local] Abbreviation Params := (BlockImportParams Hash Roots Body).

Inductive ConsensusError := InvalidAuthoritiesSet | ClientImport (e : string) | CannotSign (e : string).

Definition authorities (client : Client) (parent_hash : Hash) (context_block_number : Z) (compatibility_mode : CompatibilityMode)
    : result ConsensusError (list AuthorityId) :=
  _ ← match compatibility_mode with
      | CompatNone => Ok ()
      | UseInitializeBlock until =>
          if context_block_number <? until
          then map_err (fun _ => InvalidAuthoritiesSet) (api_initialize_block client parent_hash context_block_number)
          else Ok ()
      end;
  ok_or (ok (api_authorities client parent_hash)) InvalidAuthoritiesSet.

(** *** The slot worker *)
Section Worker.
(** The backoff strategy and the environment that makes proposers. *)
Context (backoff_authoring_blocks : option (Z -> Z -> Z -> Z -> bool)).
Context {Proposer : Type} (env_init : Header' -> result string Proposer).

Definition aux_data (client : Client) (mode : CompatibilityMode) (header : Header') : result ConsensusError (list AuthorityId) :=
  authorities client (header_hash header) (header_number (bh_header header) +[32] 1) mode.
Definition authorities_len (authorities : list AuthorityId) : option nat := Some (length authorities).
Definition claim_slot (keystore : Keystore) (slot : Z) (authorities : list AuthorityId) : option AuthorityId :=
  standalone_claim_slot slot authorities keystore.
Definition pre_digest_data (slot : Z) : list DigestItem := [pre_digest slot].
Definition block_import_params (keystore : Keystore) (header : Header') (header_hash : Hash) (body : Body) (public : AuthorityId)
    : result ConsensusError Params :=
  signature_digest_item ← map_err CannotSign (standalone_seal header_hash public keystore);
  Ok (mkBlockImportParams _ _ _ header (Some body) [signature_digest_item] None (Some LongestChain) false false).
Definition should_backoff (client : Client) (slot : Z) (chain_head : Header') : bool :=
  match backoff_authoring_blocks with
  | Some strategy =>
      match find_pre_digest (bh_header chain_head) with
      | Ok chain_head_slot => strategy (header_number (bh_header chain_head)) chain_head_slot (finalized_number client) slot
      | Err _ => false
      end
  | None => false
  end.
Definition proposer (block : Header') : result ConsensusError Proposer := map_err ClientImport (env_init block).
(** The parent's slot that [proposing_remaining_duration] hands on. *)
Definition proposing_parent_slot (chain_head : Header') : option Z := ok (find_pre_digest (bh_header chain_head)).
End Worker.

(** *** The proposer *)
Section Proposer.
Context {Value : Type} `{!InherentDigest Data Value}.
Context {Proposal : Type} (inner_propose : Data -> list DigestItem -> Z -> option Z -> Proposal).
Definition propose (inherent_data : Data) (inherent_digests : list DigestItem) (max_duration : Z) (block_size_limit : option Z)
    : outcome Proposal :=
  inherent_logs ← expect (ok (digest_from_inherent_data inherent_data));
  Done (inner_propose inherent_data (inherent_digests ++ inherent_logs) max_duration block_size_limit).
End Proposer.

(** *** The verifier *)
Inductive CheckedHeader := Checked (header : Header') (slot : Z) (seal : DigestItem) | DeferredHeader (header : Header') (slot : Z).
Inductive Error :=
| ClientError (e : string)
| HeaderUnsealed (hash : Hash)
| HeaderBadSeal (hash : Hash)
| HeaderBadSignature (hash : Hash)
| NoSlotAuthor
| PreDigestError (e : string)
| InherentFailed (e : string)
| UnknownInherentError (id : string).

(** An equivocation is only logged. *)
Definition check_header (client : Client) (slot_now : Z) (header : Header') (hash : Hash) (authorities : list AuthorityId)
    (check_for_equivocation : CheckForEquivocation) : result Error CheckedHeader :=
  match check_header_slot_and_seal slot_now header authorities with
  | Ok (header, slot, seal) =>
      let expected_author := slot_author slot authorities in
      _ ← match check_for_equivocation, expected_author with
          | EquivocationYes, Some expected => map_err ClientError (check_equivocation client slot_now slot header expected)
          | _, _ => Ok false
          end;
      Ok (Checked header slot seal)
  | Err (Deferred header slot) => Ok (DeferredHeader header slot)
  | Err Unsealed => Err (HeaderUnsealed hash)
  | Err BadSeal => Err (HeaderBadSeal hash)
  | Err BadSignature => Err (HeaderBadSignature hash)
  | Err SlotAuthorNotFound => Err NoSlotAuthor
  | Err (InvalidPreDigest e) => Err (PreDigestError e)
  end.

Section Verifier.
Context {S Providers Value : Type} `{!InherentDigest Data Value}.
Context (cidp : Cidp S Hash (Z * Value) Providers Data).

(** Errors of the inherents are handled in order; one that a provider handles with success
    is dropped. *)
Fixpoint handle_errors (providers : Providers) (errors : list (string * bytes)) : fallible Error () :=
  match errors with
  | [] => Done (Ok ())
  | (i, e) :: errors =>
      match try_handle_error cidp providers i e with
      | Panic => Panic
      | Done (Some (Ok _)) => handle_errors providers errors
      | Done (Some (Err e)) => Done (Err (InherentFailed e))
      | Done None => Done (Err (UnknownInherentError i))
      end
  end.
Definition check_inherents (client : Client) (header : Header') (body : Body) (at_hash : Hash) (providers : Providers)
    : fallible Error () :=
  inherent_data ←? lift (map_err InherentFailed (create_inherent_data cidp providers));
  match api_check_inherents client at_hash header body inherent_data with
  | Panic => Panic
  | Done inherent_res =>
      errors ←? lift (map_err ClientError inherent_res);
      handle_errors providers errors
  end.

Inductive VerifyError :=
| NoAuthorities (e : ConsensusError)
| HeaderError (e : Error)
| NoInherentDigest (e : string)
| NoProviders (e : string)
| ApiVersionError (e : string)
| InherentsError (e : Error)
| TooFarInTheFuture (hash : Hash).

Record AuraVerifier := mkAuraVerifier {
  av_check_for_equivocation : CheckForEquivocation;
  av_compatibility_mode : CompatibilityMode
}.

Definition verify (v : AuraVerifier) (client : Client) (block : Params) : stateful S VerifyError Params :=
  if bp_with_state block || bp_skip_execution_checks block then
    stateless (lift (Ok (mkBlockImportParams _ _ _ (bp_header block) (bp_body block) (bp_post_digests block) (bp_post_hash block)
      (Some (Custom (bp_with_state block))) (bp_with_state block) (bp_skip_execution_checks block))))
  else
    let hash := header_hash (bp_header block) in
    let parent_hash := bh_parent_hash (bp_header block) in
    authorities ←! stateless (lift (map_err NoAuthorities
      (authorities client parent_hash (header_number (bh_header (bp_header block))) (av_compatibility_mode v))));
    slot_now ←! stateless (run (current_slot cidp));
    checked_header ←! stateless (lift (map_err HeaderError
      (check_header client (slot_now +[64] 1) (bp_header block) hash authorities (av_check_for_equivocation v))));
    inherent_digest ←! stateless (lift (map_err NoInherentDigest (digest_value (digest_logs (bh_header (bp_header block))))));
    match checked_header with
    | Checked pre_header slot seal =>
        _ ←! match bp_body block with
             | None => stateless (lift (Ok ()))
             | Some inner_body =>
                 inherent_data_providers ←! map_err_stateful NoProviders
                   (create_inherent_data_providers cidp parent_hash (slot, inherent_digest));
                 has_api ←! stateless (lift (map_err ApiVersionError (has_block_builder_api_2 client parent_hash)));
                 if has_api : bool then
                   stateless (match check_inherents client pre_header inner_body parent_hash inherent_data_providers with
                              | Panic => Panic | Done r => Done (map_err InherentsError r) end)
                 else stateless (lift (Ok ()))
             end;
        stateless (lift (Ok (mkBlockImportParams _ _ _ pre_header (bp_body block) (bp_post_digests block ++ [seal])
          (Some hash) (Some LongestChain) (bp_with_state block) (bp_skip_execution_checks block))))
    | DeferredHeader a b => stateless (lift (Err (TooFarInTheFuture hash)))
    end.
End Verifier.
End Aura.
End Aura.

(** ** Properties *)
(** [AURA_ENGINE_ID] is [b"aura"]. *)
Definition AURA_ENGINE_ID : bytes := [97; 117; 114; 97].
Definition is_aura_pre_digest (i : DigestItem) : bool :=
  match i with PreRuntime id _ => bool_decide (id = AURA_ENGINE_ID) | _ => false end.

(** Documented behaviour of [sc_consensus_aura]: the slot is read from the only Aura
    pre-digest, a node claims the slots of its own keys, and a header is accepted with the
    seal of its slot's author, from its slot on. *)
Class AuraStandaloneLaws (Hash Roots AuthorityId Keystore : Type) `{AuraStandalone Hash Roots AuthorityId Keystore} : Prop := {
  pre_digest_is_aura : forall slot, exists data, pre_digest slot = PreRuntime AURA_ENGINE_ID data;
  find_own_pre_digest : forall n slot logs, n <> 0 -> in_width 64 slot ->
    Forall (fun i => is_aura_pre_digest i = false) logs -> find_pre_digest (mkHeader n (pre_digest slot :: logs)) = Ok slot;
  claimed_slot_author : forall slot auths ks p, standalone_claim_slot slot auths ks = Some p -> slot_author slot auths = Some p;
  seal_is_not_pre_runtime : forall h p ks item, standalone_seal h p ks = Ok item -> forall id data, item <> PreRuntime id data;
  sealed_header_checks : forall slot_now h auths ks p item slot,
    find_pre_digest (bh_header h) = Ok slot -> slot <= slot_now -> slot_author slot auths = Some p ->
    standalone_seal (header_hash h) p ks = Ok item ->
    check_header_slot_and_seal slot_now (push_log h item) auths = Ok (h, slot, item);
  checked_header_sealed : forall slot_now h auths h' slot seal,
    check_header_slot_and_seal slot_now h auths = Ok (h', slot, seal) ->
    h = push_log h' seal /\ find_pre_digest (bh_header h') = Ok slot /\ slot <= slot_now /\ is_Some (slot_author slot auths)
}.

(** ** What an imported block satisfies *)

(** The conditions of the verifier on a block, and what it makes of it. *)
Section Acceptance.
Context {Hash Roots AuthorityId Keystore Body Data S Providers Value : Type}.
Context `{!AuraStandalone Hash Roots AuthorityId Keystore, !InherentDigest Data Value}.
Context (cidp : Cidp S Hash (Z * Value) Providers Data) (client : AuraClient Hash Roots AuthorityId Body Data).

(** The runtime of the parent can be asked for its authorities, after an initialization for old
    blocks. *)
Definition initializes (mode : CompatibilityMode) (parent : Hash) (number : Z) : Prop :=
  match mode with
  | CompatNone => True
  | UseInitializeBlock until => number < until -> api_initialize_block client parent number = Ok ()
  end.
(** The store can be searched for an equivocation; what is found does not matter. *)
Definition searchable (check : CheckForEquivocation) (slot_now slot : Z) (pre : BlockHeader Hash Roots) (auths : list AuthorityId) : Prop :=
  check = EquivocationYes -> forall author, slot_author slot auths = Some author ->
    exists found, check_equivocation client slot_now slot pre author = Ok found.
(** The runtime of the parent finds no error in the inherents that the providers do not excuse. *)
Definition inherents_hold (parent : Hash) (pre : BlockHeader Hash Roots) (body : Body) (providers : Providers) : Prop :=
  exists data errors,
    create_inherent_data cidp providers = Ok data /\
    api_check_inherents client parent pre body data = Done (Ok errors) /\
    forall id e, (id, e) ∈ errors -> try_handle_error cidp providers id e = Done (Some (Ok ())).
(** A block without a body has no inherents; the providers of one with a body are created for its
    slot and inherent digest, and the inherents hold unless the runtime is too old to check them. *)
Definition body_accepted (parent : Hash) (pre : BlockHeader Hash Roots) (slot : Z) (value : Value) (body : option Body) (s s' : S) : Prop :=
  match body with
  | None => s' = s
  | Some body => exists providers checks,
      create_inherent_data_providers cidp parent (slot, value) s = (s', Done (Ok providers)) /\
      has_block_builder_api_2 client parent = Ok checks /\
      (checks = true -> inherents_hold parent pre body providers)
  end.

Lemma authorities_iff mode parent number auths :
  Aura.authorities client parent number mode = Ok auths <->
  initializes mode parent number /\ api_authorities client parent = Ok auths.
Proof.
  assert (forall P : Prop, P -> ok_or (ok (api_authorities client parent)) Aura.InvalidAuthoritiesSet = Ok auths <->
    P /\ api_authorities client parent = Ok auths) as Hok.
  { intros P HP. destruct (api_authorities client parent); cbn; split; [by intros [= <-]|by intros [_ [= <-]]|done|by intros [_ ?]]. }
  unfold Aura.authorities, initializes. destruct mode as [|until]; [by apply Hok|].
  destruct (Z.ltb_spec number until); [|apply Hok; lia].
  destruct (api_initialize_block client parent number) as [[]|]; [by apply Hok|]. cbn. split; [done|]. intros [Hi _]. by specialize (Hi ltac:(done)).
Qed.
Lemma handle_errors_iff providers errors :
  Aura.handle_errors (Hash := Hash) cidp providers errors = Done (Ok ()) <->
  forall id e, (id, e) ∈ errors -> try_handle_error cidp providers id e = Done (Some (Ok ())).
Proof.
  induction errors as [|[i e] errors IH]; cbn; [split; [intros _ ? ? []%not_elem_of_nil|done]|].
  destruct (try_handle_error cidp providers i e) as [[[[]|]|]|] eqn:E;
    [|split; [done|]; intros Ha; specialize (Ha i e ltac:(by left)); congruence..].
  rewrite IH. split; intros Ha; [intros id x [[= -> ->]|Hin]%elem_of_cons; by auto | intros id x Hin; apply Ha; by right].
Qed.
Lemma check_inherents_iff parent pre body providers :
  Aura.check_inherents cidp client pre body parent providers = Done (Ok ()) <-> inherents_hold parent pre body providers.
Proof.
  unfold Aura.check_inherents, inherents_hold. destruct (create_inherent_data cidp providers) as [data|]; cbn; [|split; [done|by intros (? & ? & ? & _)]].
  simpl_monad. destruct (api_check_inherents client parent pre body data) as [[errors|]|] eqn:E; simpl_monad; cbn;
    [|split; [done|intros (? & ? & [= <-] & Hc & _); congruence]..].
  rewrite handle_errors_iff. split; [intros Ha; by exists data, errors|]. intros (? & ? & [= <-] & Hc & Ha).
  rewrite E in Hc. by injection Hc as <-.
Qed.
Lemma check_header_iff slot_now header hash auths mode pre slot seal :
  Aura.check_header client slot_now header hash auths mode = Ok (Aura.Checked pre slot seal) <->
  check_header_slot_and_seal slot_now header auths = Ok (pre, slot, seal) /\ searchable mode slot_now slot pre auths.
Proof.
  unfold Aura.check_header, searchable. destruct (check_header_slot_and_seal slot_now header auths) as [[[pre' slot'] seal']|[]];
    [|split; [done|by intros [? _]]..]. destruct mode; simpl_monad.
  - destruct (slot_author slot' auths) as [a|] eqn:Ea; simpl_monad.
    + destruct (check_equivocation client slot_now slot' pre' a) as [b|] eqn:Eb; cbn; split.
      * intros [= <- <- <-]. split; [done|]. intros _ a'. rewrite Ea. intros [= <-]. by exists b.
      * by intros [[= <- <- <-] _].
      * done.
      * intros [[= <- <- <-] Hs]. destruct (Hs eq_refl a Ea) as [? ?]. congruence.
    + cbn. split; [intros [= <- <- <-]; split; [done|congruence]|by intros [[= <- <- <-] _]].
  - cbn. split; [intros [= <- <- <-]; done|by intros [[= <- <- <-] _]].
Qed.
End Acceptance.

(** C5: The verifier accepts a block whose checks are not skipped exactly when the following holds,
    and then hands on the block without its seal. The authorities can be read from the parent; the
    header carries the seal of the author of its slot, which is at most one ahead of the clock; the
    search for an equivocation does not fail; the inherent digest can be read from the header; and
    if the block has a body, providers can be created for its slot and digest, and the parent's
    runtime, unless it is too old to check inherents, answers with no error that the providers do
    not excuse. *)
Theorem aura_verify_exact {Hash Roots AuthorityId Keystore Body Data S Providers Value : Type}
    `{AuraStandaloneLaws Hash Roots AuthorityId Keystore, !InherentDigest Data Value}
    (cidp : Cidp S Hash (Z * Value) Providers Data) v (client : AuraClient Hash Roots AuthorityId Body Data) block s s' block' :
  let header := bp_header block in
  let parent := bh_parent_hash header in
  bp_with_state block || bp_skip_execution_checks block = false ->
  Aura.verify cidp v client block s = (s', Done (Ok block')) <->
  exists auths slot_now pre seal slot author value,
    initializes client (Aura.av_compatibility_mode v) parent (header_number (bh_header header)) /\
    api_authorities client parent = Ok auths /\
    current_slot cidp = Done slot_now /\
    check_header_slot_and_seal (slot_now +[64] 1) header auths = Ok (pre, slot, seal) /\
    searchable client (Aura.av_check_for_equivocation v) (slot_now +[64] 1) slot pre auths /\
    header = push_log pre seal /\ find_pre_digest (bh_header pre) = Ok slot /\ slot <= slot_now +[64] 1 /\
    slot_author slot auths = Some author /\
    digest_value (digest_logs (bh_header header)) = Ok value /\
    body_accepted cidp client parent pre slot value (bp_body block) s s' /\
    block' = mkBlockImportParams _ _ _ pre (bp_body block) (bp_post_digests block ++ [seal])
      (Some (header_hash header)) (Some LongestChain) (bp_with_state block) (bp_skip_execution_checks block).
Proof.
  intros header parent Hskip. subst header parent. unfold Aura.verify. rewrite Hskip.
  unfold bind_stateful, stateless, map_err_stateful, lift, run. split.
  - destruct (Aura.authorities _ _ _ _) as [auths|] eqn:Ha; [|done]. apply authorities_iff in Ha as [Hi Ha].
    destruct (current_slot cidp) as [slot_now|]; [|done]. cbn [map_err].
    destruct (Aura.check_header _ _ _ _ _ _) as [checked|] eqn:Hc; [|done]. cbn [map_err].
    destruct (digest_value _) as [value|] eqn:Hv; [|done]. cbn [map_err].
    destruct checked as [pre slot seal|]; [|done]. apply check_header_iff in Hc as [Hs He].
    pose proof (checked_header_sealed _ _ _ _ _ _ Hs) as (Hh & Hp & Hle & author & Hauthor).
    intros Hres. exists auths, slot_now, pre, seal, slot, author, value. unfold body_accepted.
    destruct (bp_body block) as [body|]; [|injection Hres as <- <-; by split_and!].
    destruct (create_inherent_data_providers _ _ _ s) as [s1 [[providers|]|]] eqn:Hcreate; [|done..]. cbn [map_err] in Hres.
    destruct (has_block_builder_api_2 _ _) as [[|]|] eqn:Hapi; [| |done]; cbn [map_err] in Hres.
    + destruct (Aura.check_inherents _ _ _ _ _ _) as [[[]|]|] eqn:Hci; [|done..]. cbn [map_err] in Hres. injection Hres as <- <-.
      split_and!; try done. exists providers, true. split_and!; [done..|]. intros _. by apply check_inherents_iff.
    + injection Hres as <- <-. split_and!; try done. by exists providers, false.
  - intros (auths & slot_now & pre & seal & slot & author & value & Hi & Ha & Hnow & Hs & He & _ & _ & _ & _ & Hv & Hb & ->).
    rewrite (proj2 (authorities_iff client _ _ _ _) (conj Hi Ha)), Hnow. cbn [map_err].
    rewrite (proj2 (check_header_iff client _ _ _ _ _ _ _ _) (conj Hs He)). cbn [map_err]. rewrite Hv. cbn [map_err].
    unfold body_accepted in Hb. destruct (bp_body block) as [body|]; [|by subst].
    destruct Hb as (providers & checks & -> & Hapi & Hch). cbn [map_err]. rewrite Hapi. cbn [map_err]. destruct checks; [|done].
    by rewrite (proj2 (check_inherents_iff cidp client _ _ _ _) (Hch eq_refl)).
Qed.

(** Sealing and importing fit: the block a worker builds passes the header check. *)
Lemma sealed_block_checks {Hash Roots AuthorityId Keystore Body Data : Type}
    `{AuraStandaloneLaws Hash Roots AuthorityId Keystore}
    (client : AuraClient Hash Roots AuthorityId Body Data) mode slot_now slot auths ks p n logs parent roots (body : Body) params :
  n <> 0 -> in_width 64 slot -> Forall (fun i => is_aura_pre_digest i = false) logs ->
  slot <= slot_now -> Aura.claim_slot ks slot auths = Some p ->
  let header := mkBlockHeader _ _ parent (mkHeader n (Aura.pre_digest_data slot ++ logs)) roots in
  Aura.block_import_params ks header (header_hash header) body p = Ok params ->
  (forall h e, exists b, check_equivocation client slot_now slot h e = Ok b) ->
  exists seal, bp_post_digests params = [seal] /\
    Aura.check_header client slot_now (push_log header seal) (header_hash (push_log header seal)) auths mode =
      Ok (Aura.Checked header slot seal) /\ forall id data, seal <> PreRuntime id data.
Proof.
  intros Hn Hw Hl Hle Hclaim header Hparams Heq. unfold Aura.block_import_params in Hparams.
  destruct (standalone_seal (header_hash header) p ks) as [seal|] eqn:Hseal; [|done]. cbn in Hparams. injection Hparams as <-.
  exists seal. split; [done|]. split; [|by eapply seal_is_not_pre_runtime].
  unfold Aura.check_header. rewrite (sealed_header_checks slot_now header auths ks p seal slot);
    [|by apply find_own_pre_digest | done | by eapply claimed_slot_author | done].
  destruct mode; [|done]. destruct (slot_author slot auths) as [e|]; [|done]. by destruct (Heq header e) as [b ->].
Qed.

(** ** A small instance of Aura *)
Module ToyAura.
(** A seal names the author; the hash of a header is its number. *)
Definition toy_find (h : Header) : result string Z :=
  if header_number h =? 0 then Ok 0
  else match List.filter is_aura_pre_digest (digest_logs h) with
       | [PreRuntime _ [slot]] => Ok slot
       | _ => Err "no pre-digest"%string
       end.
Definition toy_author (slot : Z) (auths : list Z) : option Z := auths !! Z.to_nat (slot mod Z.of_nat (length auths)).
Definition toy_check (slot_now : Z) (h : BlockHeader Z ()) (auths : list Z)
    : result (SealVerificationError (BlockHeader Z ())) (BlockHeader Z () * Z * DigestItem) :=
  let logs := digest_logs (bh_header h) in
  match last logs with
  | None => Err Unsealed
  | Some seal =>
      let pre := mkBlockHeader _ _ (bh_parent_hash h) (mkHeader (header_number (bh_header h)) (removelast logs)) (bh_roots h) in
      match seal with
      | Seal _ [p] =>
          match toy_find (bh_header pre) with
          | Err e => Err (InvalidPreDigest e)
          | Ok slot =>
              if slot_now <? slot then Err (Deferred h slot)
              else match toy_author slot auths with
                   | None => Err SlotAuthorNotFound
                   | Some q => if p =? q then Ok (pre, slot, seal) else Err BadSignature
                   end
          end
      | _ => Err BadSeal
      end
  end.
#[export] Instance toy_aura : AuraStandalone Z () Z (list Z) := {|
  header_hash h := header_number (bh_header h);
  find_pre_digest := toy_find;
  pre_digest slot := PreRuntime AURA_ENGINE_ID [slot];
  slot_author := toy_author;
  standalone_claim_slot slot auths ks := p ← toy_author slot auths; if bool_decide (p ∈ ks) then Some p else None;
  standalone_seal _ p ks := if bool_decide (p ∈ ks) then Ok (Seal AURA_ENGINE_ID [p]) else Err "no key"%string;
  check_header_slot_and_seal := toy_check
|}.

Lemma removelast_snoc {A} (l : list A) x : removelast (l ++ [x]) = l.
Proof. rewrite removelast_app by done. by rewrite app_nil_r. Qed.
#[export] Instance toy_aura_laws : AuraStandaloneLaws Z () Z (list Z).
Proof.
  split.
  - intros slot. by eexists.
  - intros n slot logs Hn _ Hl. cbn. unfold toy_find. cbn [header_number digest_logs]. rewrite (proj2 (Z.eqb_neq _ _)) by done.
    cbn [List.filter is_aura_pre_digest]. rewrite bool_decide_eq_true_2 by done.
    replace (List.filter is_aura_pre_digest logs) with (@nil DigestItem); [done|].
    induction Hl as [|i logs Hi _ IH]; [done|]. cbn. by rewrite Hi.
  - intros slot auths ks p. cbn. destruct (toy_author slot auths) as [q|]; [|done]. cbn. by case_bool_decide.
  - intros h p ks item. cbn. case_bool_decide; [|done]. by intros [= <-].
  - intros slot_now h auths ks p item slot Hf Hle Ha Hs. cbn in Hs, Hf, Ha |- *. case_bool_decide; [|done]. injection Hs as <-.
    unfold toy_check, push_log. cbn [bh_header digest_logs bh_parent_hash header_number bh_roots]. rewrite last_snoc, removelast_snoc.
    destruct h as [par [n logs] []]. cbn [bh_header digest_logs bh_parent_hash header_number bh_roots] in *.
    rewrite Hf, (proj2 (Z.ltb_ge _ _)), Ha, Z.eqb_refl by lia. done.
  - intros slot_now h auths h' slot seal. cbn. unfold toy_check. destruct (last (digest_logs (bh_header h))) as [s|] eqn:Hl; [|done].
    destruct s as [| |id [|q [|]]| |]; try done. set (pre := mkBlockHeader _ _ _ _ _).
    destruct (toy_find (bh_header pre)) as [sl|] eqn:Hf; [|done]. destruct (Z.ltb_spec slot_now sl); [done|].
    destruct (toy_author sl auths) as [q'|] eqn:Ha; [|done]. destruct (q =? q'); [|done]. intros [= <- <- <-].
    split_and!; [|done | done | by eexists]. apply last_Some in Hl as [l Hl]. unfold pre, push_log.
    cbn [bh_header digest_logs bh_parent_hash header_number bh_roots]. rewrite Hl, removelast_snoc. destruct h as [? [? ?] ?]. cbn in *. by subst.
Qed.

(** A chain with one authority, on top of the block with number 4. *)
Definition header_at (n slot : Z) : BlockHeader Z () := mkBlockHeader _ _ (n - 1) (mkHeader n [pre_digest slot]) tt.
Definition client (n : Z) : AuraClient Z () Z () () := mkAuraClient _ _ _ _ _ (fun _ _ => Ok ()) (fun _ => Ok [7]) (fun _ => Ok true)
  (fun _ _ _ _ => Done (Ok [])) (fun _ _ _ _ => Ok false) n.
Definition cidp (now : Z) : Cidp () Z (Z * ()) () () := mkCidp _ _ _ _ _
  (fun _ _ => stateless (lift (Ok tt))) (fun _ => Ok tt) (fun _ _ _ => Done None) (Done now).
Definition sealed (n slot : Z) : BlockImportParams Z () () :=
  mkBlockImportParams _ _ _ (push_log (header_at n slot) (Seal AURA_ENGINE_ID [7])) (Some tt) [] None None false false.
Definition verifier := Aura.mkAuraVerifier EquivocationYes CompatNone.

(** One slot ahead of the clock is accepted, two are not. *)
Example future_block_rejected :
  Aura.verify (cidp 99) verifier (client 4) (sealed 5 101) tt = (tt, Done (Err (Aura.TooFarInTheFuture 5))).
Proof. vm_compute. reflexivity. Qed.
End ToyAura.

Section AuraWitness.
Import ToyAura.
Lemma aura_verify_exact_witness :
  Aura.verify (cidp 100) verifier (client 4) (sealed 5 101) tt =
    (tt, Done (Ok (mkBlockImportParams _ _ _ (header_at 5 101) (Some tt) [Seal AURA_ENGINE_ID [7]] (Some 5) (Some LongestChain) false false))).
Proof.
  apply (aura_verify_exact (cidp 100) verifier (client 4) (sealed 5 101) tt tt); [reflexivity|].
  exists [7], 100, (header_at 5 101), (Seal AURA_ENGINE_ID [7]), 101, 7, tt.
  split_and!; try reflexivity; try (vm_compute; congruence); try done.
  - intros _ author _. by exists false.
  - exists tt, true. split_and!; try reflexivity. intros _. exists tt, []. split_and!; try reflexivity. intros id e []%not_elem_of_nil.
Defined.
End AuraWitness.
