(* ===== verification/NodeInherents.v ===== *)
(** * The inherent data of a node's blocks

    [node/node/src/inherent_data.rs]: the providers a node creates for a block it proposes
    ([ProposalCIDP]) and for one it verifies ([VerifierCIDP]), composed of the main chain
    reference ([McHash]), the committee selection inputs ([AriadneInherent]), the block's
    beneficiary ([BlockRewards]) and the native tokens ([NativeToken]).

    A node's sources are a pair: the main chain block source and the native token source,
    with their caches. The client's answers about the parent block are [ParentView]; the
    clock is the argument [now]. SCALE coding of inherent errors and the timestamp
    provider are third-party ([InherentErrors]). *)

From S2P Require Import Prelude Domain McEpoch Slots McHash Cbor Selection Ariadne Committee AriadneInherent NativeToken BlockRewards Aura.
#[local] Open Scope list_scope.

Class InherentErrors := {
  encode_committee_error : InherentError -> bytes;
  encode_beneficiary_error : BlockRewards.InherentError -> bytes;
  encode_token_error : NativeToken.InherentError -> bytes;
  decode_committee_error : bytes -> option InherentError;
  display_committee_error : InherentError -> string;
  decode_token_error : bytes -> option NativeToken.InherentError;
  display_token_error : NativeToken.InherentError -> string;
  timestamp_try_handle_error : string -> bytes -> option (result string ())
}.

(** What the inherent data of a block holds; a missing entry is [Ok None]. *)
Record NodeInherentData {BeneficiaryId : Type} := mkNodeInherentData {
  nd_slot : option Z;
  nd_timestamp : option Z;
  nd_mc_hash : result string (option McBlockHash);
  nd_ariadne : result string (option AuthoritySelectionInputs);
  nd_beneficiary : result string (option BeneficiaryId);
  nd_tokens : NativeToken.InherentData
}.
Arguments NodeInherentData : clear implicits.
(** The digest item of [sidechain-mc-hash]. *)
#[export] Instance mc_hash_digest {BeneficiaryId} : InherentDigest (NodeInherentData BeneficiaryId) McBlockHash := {|
  digest_from_inherent_data d := McHash.from_inherent_data (nd_mc_hash d);
  digest_value := McHash.value_from_digest
|}.

Module NodeInherents.
(** *** Errors of providers *)
Section Errors.
Context `{InherentErrors}.
Definition ariadne_try_handle_error (identifier : string) (error : bytes) : option (result string ()) :=
  if bool_decide (identifier = "/ariadne"%string) then
    e ← decode_committee_error error; Some (Err (display_committee_error e))
  else None.
Definition native_token_try_handle_error (identifier : string) (error : bytes) : option (result string ()) :=
  if bool_decide (identifier = "nattoken"%string) then
    e ← decode_token_error error; Some (Err (display_token_error e))
  else None.
(** A tuple of providers asks them in order. *)
Definition verifier_try_handle_error (identifier : string) (error : bytes) : option (result string ()) :=
  match timestamp_try_handle_error identifier error with
  | Some r => Some r
  | None => match ariadne_try_handle_error identifier error with
            | Some r => Some r
            | None => native_token_try_handle_error identifier error
            end
  end.
End Errors.

(** *** The providers *)
Section Providers.
Context `{SlotOps} {M N BeneficiaryId : Type} `{McHashDataSource M, NativeToken.NativeTokenDataSource N}.
Context {Hash Roots AuthorityId Keystore : Type} `{!AuraStandalone Hash Roots AuthorityId Keystore}.
Context (beneficiary_from_env : string -> result BlockRewards.InherentProviderCreationError BeneficiaryId).

Record CreateInherentDataConfig := mkConfig {
  mc_epoch_config : MainchainEpochConfig;
  sc_slot_config : Slots.ScSlotConfig
}.
Definition slot_duration (c : CreateInherentDataConfig) : Z := Slots.slot_duration (sc_slot_config c).

(** The header of a block and the runtime API in its state. *)
Record ParentView := mkParentView {
  pv_header : result string (option Header);
  pv_next_unset_epoch_number : result string ScEpochNumber;
  pv_main_chain_scripts : result string MainChainScripts;
  pv_native_token_scripts : result string (option NativeToken.MainChainScripts);
  pv_native_token_initialized : result string bool
}.

Inductive CidpError :=
| McHashFailed (e : McHash.McHashInherentError)
| AriadneFailed (e : AriadneIDP.InherentProviderCreationError)
| BeneficiaryFailed (e : BlockRewards.InherentProviderCreationError)
| NativeTokenFailed (e : NativeToken.IDPCreationError)
| ClientFailed (e : string)
| DigestFailed (e : string).

Definition Sources : Type := M * N.
Definition on_blocks {E A} (m : stateful M E A) : stateful Sources E A := fun '(a, b) => let '(a, r) := m a in ((a, b), r).
Definition on_tokens {E A} (m : stateful N E A) : stateful Sources E A := fun '(a, b) => let '(b, r) := m b in ((a, b), r).

Record ProposalProviders := mkProposalProviders {
  pp_slot : Z;
  pp_timestamp : Z;
  pp_mc_hash : MainchainBlock;
  pp_ariadne : option AuthoritySelectionInputs;
  pp_beneficiary : BeneficiaryId;
  pp_native_token : option NativeTokenAmount
}.
Record VerifierProviders := mkVerifierProviders {
  vp_timestamp : Z;
  vp_ariadne : option AuthoritySelectionInputs;
  vp_native_token : option NativeTokenAmount
}.

Definition timestamp_and_slot_cidp (slot_duration now : Z) : outcome (Z * Z) :=
  slot ← Slot_from_timestamp now slot_duration; Done (slot, now).

Definition slot_from_predigest (header : Header) : result string (option Z) :=
  if header_number header =? 0 then Ok None
  else slot ← find_pre_digest header; Ok (Some slot).

Definition native_token_new (parent : ParentView) (mc_hash : McBlockHash) : stateful Sources CidpError (option NativeTokenAmount) :=
  map_err_stateful NativeTokenFailed (on_tokens (NativeToken.provider_new (pv_native_token_scripts parent)
    (pv_native_token_initialized parent) (McHash.get_mc_hash_for_block (pv_header parent)) mc_hash)).
Definition ariadne_new (config : CreateInherentDataConfig) (source : AuthoritySelectionDataSource) (parent : ParentView)
    (slot : Z) (mc_reference_epoch : McEpochNumber) : stateful Sources CidpError (option AuthoritySelectionInputs) :=
  map_err_stateful AriadneFailed (stateless (AriadneIDP.provider_new (pv_next_unset_epoch_number parent)
    (pv_main_chain_scripts parent) (sc_slot_config config) (mc_epoch_config config) slot source mc_reference_epoch)).

Definition create_proposal_providers (config : CreateInherentDataConfig) (source : AuthoritySelectionDataSource)
    (now : Z) (parent : ParentView) : stateful Sources CidpError ProposalProviders :=
  slot_timestamp ←! stateless (run (timestamp_and_slot_cidp (slot_duration config) now));
  let '(slot, timestamp) := slot_timestamp in
  mc_hash ←! map_err_stateful McHashFailed (fun s => (s, McHash.new_proposal slot (slot_duration config) (fst s)));
  ariadne ←! ariadne_new config source parent slot (McHash.provider_mc_epoch mc_hash);
  beneficiary ←! stateless (lift (map_err BeneficiaryFailed (beneficiary_from_env "SIDECHAIN_BLOCK_BENEFICIARY"%string)));
  native_token ←! native_token_new parent (McHash.provider_mc_hash mc_hash);
  stateless (lift (Ok (mkProposalProviders slot timestamp mc_hash ariadne beneficiary native_token))).

Definition verifier_slot (config : CreateInherentDataConfig) (now : Z) : outcome Z :=
  '(slot, _) ← timestamp_and_slot_cidp (slot_duration config) now; Done slot.

(** [expect_header] fails for an unknown block. *)
Definition expect_header (parent : ParentView) : result string Header :=
  header ← pv_header parent; ok_or header "UnknownBlock"%string.
Definition create_verifier_providers (config : CreateInherentDataConfig) (source : AuthoritySelectionDataSource)
    (now : Z) (parent : ParentView) (verified_block_slot : Z) (mc_hash : McBlockHash)
    : stateful Sources CidpError VerifierProviders :=
  parent_header ←! stateless (lift (map_err ClientFailed (expect_header parent)));
  parent_slot ←! stateless (lift (map_err DigestFailed (slot_from_predigest parent_header)));
  mc_state_reference ←! map_err_stateful McHashFailed (on_blocks (McHash.new_verification parent_header parent_slot
    verified_block_slot mc_hash (slot_duration config)));
  ariadne ←! ariadne_new config source parent verified_block_slot (mb_epoch mc_state_reference);
  native_token ←! native_token_new parent mc_hash;
  stateless (lift (Ok (mkVerifierProviders now ariadne native_token))).

(** *** The data the providers put in *)
Definition proposal_data (p : ProposalProviders) : NodeInherentData BeneficiaryId := mkNodeInherentData _
  (Some (pp_slot p)) (Some (pp_timestamp p)) (McHash.provide_inherent_data (pp_mc_hash p))
  (AriadneIDP.provide_inherent_data (pp_ariadne p)) (BlockRewards.provide_inherent_data (pp_beneficiary p))
  (NativeToken.provide_inherent_data (pp_native_token p)).
Definition verifier_data (p : VerifierProviders) : NodeInherentData BeneficiaryId := mkNodeInherentData _
  None (Some (vp_timestamp p)) (Ok None) (AriadneIDP.provide_inherent_data (vp_ariadne p)) (Ok None)
  (NativeToken.provide_inherent_data (vp_native_token p)).

(** The verifier as Aura's verifier uses it. [display] renders its errors. *)
Definition verifier_cidp `{InherentErrors} (display : CidpError -> string) (config : CreateInherentDataConfig)
    (source : AuthoritySelectionDataSource) (now : Z) (parent : Hash -> ParentView)
    : Cidp Sources Hash (Z * McBlockHash) VerifierProviders (NodeInherentData BeneficiaryId) := mkCidp _ _ _ _ _
  (fun parent_hash '(slot, mc_hash) => map_err_stateful display
    (create_verifier_providers config source now (parent parent_hash) slot mc_hash))
  (fun p => Ok (verifier_data p))
  (fun _ id e => Done (verifier_try_handle_error id e))
  (verifier_slot config now).
End Providers.
End NodeInherents.
