(* ===== verification/Authoring.v ===== *)
(** * From a block's author to its import

    The parts of a node put together: an author creates inherent data for its slot
    ([NodeInherents]), the runtime turns it into inherents ([Runtime]), the proposer puts
    the main chain reference into the header and Aura seals the block ([Aura]); another node
    checks header, reference and inherents with its own view of the main chain.

    The inherents of a block are created and checked by code that [construct_runtime!]
    generates, in the order of the pallets. The timestamp pallet's inherent and signed
    extrinsics are left out. *)

From S2P Require Import Prelude Domain McEpoch Slots McHash Cbor Selection Ariadne Committee AriadneInherent Session NativeToken BlockRewards Runtime Aura NodeInherents.
#[local] Open Scope list_scope.

Module Authoring.
Section Inherents.
Context `{Minicbor, Crypto, Accounts, Rng, U256, BoundedVecOps, InherentErrors, !EqDecision TAccountId, !EqDecision TAccountKeys}.
Context {AccountId : Type} `{EqDecision AccountId, System AccountId} `{Countable BeneficiaryId}.
#[local] Abbreviation Rt := (@Runtime.Runtime _ AccountId _ BeneficiaryId _ _).

Inductive InherentCall :=
| CommitteeCall (call : CommitteeManagement.Call TAccountId TAccountKeys)
| BeneficiaryCall (beneficiary : BeneficiaryId)
| TokenCall (call : NativeToken.Call).

Definition rt_select (rt : Rt) := Runtime.runtime_select_authorities (SidechainPallet.GenesisUtxo (Runtime.Sidechain rt)).

(** One inherent per pallet that has one, in the order of the pallets. *)
Definition in_order (committee : option (CommitteeManagement.Call TAccountId TAccountKeys)) (beneficiary : option BeneficiaryId)
    (tokens : option NativeToken.Call) : list InherentCall :=
  option_list (CommitteeCall <$> committee) ++ option_list (BeneficiaryCall <$> beneficiary) ++ option_list (TokenCall <$> tokens).
(** [inherent_extrinsics], in the state after the block's hooks. *)
Definition inherent_extrinsics (rt : Rt) (data : NodeInherentData BeneficiaryId) : outcome (list InherentCall) :=
  committee ← CommitteeManagement.create_inherent (rt_select rt) (Runtime.committee_of rt) (nd_ariadne data);
  beneficiary ← BlockRewards.create_inherent (nd_beneficiary data);
  tokens ← NativeToken.create_inherent (nd_tokens data);
  Done (in_order committee beneficiary tokens).

(** [check_inherents], in the parent's state. Every error is fatal: the first one ends it. *)
Definition check_call (rt : Rt) (data : NodeInherentData BeneficiaryId) (call : InherentCall) : outcome (list (string * bytes)) :=
  match call with
  | CommitteeCall call =>
      r ← CommitteeManagement.check_inherent (rt_select rt) (Runtime.committee_of rt) call (nd_ariadne data);
      Done (match r with Ok _ => [] | Err e => [("/ariadne"%string, encode_committee_error e)] end)
  | BeneficiaryCall b =>
      Done (match BlockRewards.check_inherent b (nd_beneficiary data) with
            | Ok _ => [] | Err e => [("beneficr"%string, encode_beneficiary_error e)] end)
  | TokenCall call =>
      r ← NativeToken.check_inherent call (nd_tokens data);
      Done (match r with Ok _ => [] | Err e => [("nattoken"%string, encode_token_error e)] end)
  end.
Fixpoint check_calls (rt : Rt) (data : NodeInherentData BeneficiaryId) (calls : list InherentCall) : outcome (list (string * bytes)) :=
  match calls with
  | [] => Done []
  | call :: calls => errors ← check_call rt data call;
                     match errors with [] => check_calls rt data calls | _ => Done errors end
  end.
Definition is_committee (c : InherentCall) : bool :=
  match c with CommitteeCall c => CommitteeManagement.is_inherent c | _ => false end.
Definition is_beneficiary (c : InherentCall) : bool := match c with BeneficiaryCall _ => true | _ => false end.
Definition is_token (c : InherentCall) : bool := match c with TokenCall c => NativeToken.is_inherent c | _ => false end.
Definition check_required (rt : Rt) (data : NodeInherentData BeneficiaryId) (calls : list InherentCall) : outcome (list (string * bytes)) :=
  match CommitteeManagement.is_inherent_required (Runtime.committee_of rt), existsb is_committee calls with
  | Some e, false => Done [("/ariadne"%string, encode_committee_error e)]
  | _, _ =>
      match BlockRewards.is_inherent_required, existsb is_beneficiary calls with
      | Some e, false => Done [("beneficr"%string, encode_beneficiary_error e)]
      | _, _ =>
          token ← NativeToken.is_inherent_required (nd_tokens data);
          Done (match token, existsb is_token calls with
                | Some e, false => [("nattoken"%string, encode_token_error e)]
                | _, _ => []
                end)
      end
  end.
Definition check_inherents (rt : Rt) (data : NodeInherentData BeneficiaryId) (calls : list InherentCall) : outcome (list (string * bytes)) :=
  errors ← check_calls rt data calls;
  match errors with [] => check_required rt data calls | _ => Done errors end.

(** What the client answers about a block from its state and header. *)
Definition view_of (rt : Rt) (header : Header) : NodeInherents.ParentView := NodeInherents.mkParentView
  (Ok (Some header))
  (Ok (CommitteeManagement.get_next_unset_epoch_number (Runtime.committee_of rt)))
  (Ok (CommitteeManagement.get_main_chain_scripts (Runtime.committee_of rt)))
  (Ok (NativeToken.get_main_chain_scripts (Runtime.NativeTokenManagement rt)))
  (Ok (NativeToken.initialized (Runtime.NativeTokenManagement rt))).
End Inherents.
End Authoring.

Section InherentProps.
Import Authoring.
Context `{Minicbor, Crypto, Accounts, RngLaws, U256Laws, BoundedVecLaws, InherentErrors, !EqDecision TAccountId, !EqDecision TAccountKeys}.
Context {AccountId : Type} `{EqDecision AccountId, System AccountId} (into : TAccountId -> AccountId).
Context (account_id_leb : AccountId -> AccountId -> bool).
Context `{Countable BeneficiaryId}.
Implicit Types (rt : @Runtime.Runtime _ AccountId _ BeneficiaryId _ _) (d : NodeInherentData BeneficiaryId).

(** The block's hooks begin the committee pallet's block. *)
Lemma initialize_block_begins n slot rt rt1 :
  (n = 1 -> CommitteeManagement.NextCommittee (Runtime.committee_of rt) = None) ->
  Runtime.initialize_block into account_id_leb n slot rt = Done rt1 ->
  begins into (Runtime.committee_of rt) (Runtime.committee_of rt1) /\
  SidechainPallet.GenesisUtxo (Runtime.Sidechain rt1) = SidechainPallet.GenesisUtxo (Runtime.Sidechain rt).
Proof.
  intros Hfirst Hinit. unfold Runtime.initialize_block in Hinit.
  destruct (SidechainPallet.on_initialize _ _ _ _) as [[sc [r p]]|] eqn:Hsc; [|done]. cbn [mbind outcome_bind] in Hinit.
  assert (SidechainPallet.GenesisUtxo sc = SidechainPallet.GenesisUtxo (Runtime.Sidechain rt)) as Hg.
  { unfold SidechainPallet.on_initialize in Hsc. destruct (SidechainPallet.current_epoch_number _ _) as [e|]; [|done]. cbn in Hsc.
    destruct (SidechainPallet.EpochNumber (Runtime.Sidechain rt)) as [e'|]; [destruct (e' =? e)|];
      try (destruct (Runtime.log_beneficiaries _ _ _)); by injection Hsc as <- _ _. }
  destruct (SidechainPallet.current_epoch_number sc slot) as [epoch|]; [|done]. cbn [mbind outcome_bind] in Hinit.
  match type of Hinit with context [session_on_initialize _ _ _ _ _ ?s] =>
    destruct (session_on_initialize_committee Runtime.MaxValidators into Runtime.polkadot_js_compat account_id_leb n s)
      as (st' & Hs & Hc & _) end.
  rewrite Hs in Hinit. cbn [mbind outcome_bind] in Hinit. injection Hinit as <-. split; [|exact Hg].
  unfold Runtime.committee_of at 2. cbn [Runtime.Session]. rewrite Hc. clear Hs Hc.
  cbn [SessionPallet.manager Runtime.with_manager Managers.committee_pallet Managers.current_epoch].
  unfold CommitteeManagement.on_initialize. destruct (Z.eqb_spec n 1) as [->|].
  - cbn [CommitteeManagement.CurrentCommittee CommitteeManagement.epoch]. rewrite Z.ltb_irrefl. cbn [andb].
    pose proof (begins_first into (Runtime.committee_of rt) epoch (Hfirst eq_refl)) as Hb.
    unfold CommitteeManagement.on_initialize in Hb. exact Hb.
  - destruct (_ && _) eqn:Hr; [|apply begins_same]. apply andb_true_iff in Hr as [_ Hr%bool_decide_eq_true]. by apply begins_rotated.
Qed.

(** Two nodes' inherent data agree when they select the same committees and report the same
    token transfers. *)
Record same_data rt (d d' : NodeInherentData BeneficiaryId) : Prop := {
  sd_committee : forall e, CommitteeManagement.calculate_committee_from_inherent_data (rt_select rt) (nd_ariadne d) e =
    CommitteeManagement.calculate_committee_from_inherent_data (rt_select rt) (nd_ariadne d') e;
  sd_tokens : nd_tokens d = nd_tokens d'
}.

Lemma created_committee_checks rt rt1 d d' call :
  begins into (Runtime.committee_of rt) (Runtime.committee_of rt1) -> same_data rt d d' ->
  CommitteeManagement.create_inherent (rt_select rt) (Runtime.committee_of rt1) (nd_ariadne d) = Done (Some call) ->
  check_call rt d' (CommitteeCall call) = Done [] /\ CommitteeManagement.is_inherent call = true.
Proof.
  intros Hb [Hsel _] (Hn & v & -> & computed & Hc & Hv)%create_inherent_Some.
  pose proof (begins_committee _ _ _ Hb Hn) as Hcom. split; [|done].
  cbn [check_call CommitteeManagement.check_inherent]. rewrite <- Hsel, Hc. simpl_monad. rewrite <- Hcom, <- Hv.
  by rewrite bool_decide_eq_true_2.
Qed.

Lemma committee_required rt rt1 d :
  begins into (Runtime.committee_of rt) (Runtime.committee_of rt1) ->
  CommitteeManagement.create_inherent (rt_select rt) (Runtime.committee_of rt1) (nd_ariadne d) = Done None ->
  CommitteeManagement.is_inherent_required (Runtime.committee_of rt) = None.
Proof.
  intros Hb. unfold CommitteeManagement.create_inherent, CommitteeManagement.is_inherent_required.
  case_bool_decide as Hn; [|destruct (CommitteeManagement.calculate_committee_from_inherent_data _ _ _) as [[]|]; done]. intros _.
  case_bool_decide as Hn'; [done|]. exfalso. apply Hn'. destruct Hb as [|epoch He|]; [done | | done].
  unfold CommitteeManagement.on_initialize in Hn. cbn in Hn. done.
Qed.

Lemma created_tokens_check rt d tokens :
  NativeToken.create_inherent (nd_tokens d) = Done tokens ->
  match tokens with None => True | Some t => check_call rt d (TokenCall t) = Done [] /\ NativeToken.is_inherent t = true end /\
  exists req, NativeToken.is_inherent_required (nd_tokens d) = Done req /\ (req = None <-> tokens = None).
Proof.
  cbn [check_call]. unfold NativeToken.is_inherent_required.
  destruct (nd_tokens d) as [x|]; [|done]. destruct (token_inherent_protocol x) as (Hp1 & _ & _). intros Ht.
  split; [destruct tokens as [t|]; [|done]; destruct (Hp1 t Ht) as [Hck Hin]; by rewrite Hck|].
  injection Ht as <-. eexists. split; [reflexivity | by destruct (NativeToken.positive x)].
Qed.

Lemma check_calls_all rt d calls :
  Forall (fun c => check_call rt d c = Done []) calls -> check_calls rt d calls = Done [].
Proof. induction 1 as [|c calls Hc _ IH]; [done|]. cbn [check_calls]. by rewrite Hc. Qed.

(** A block's inherents pass the check of a node with the same data. *)
Lemma created_inherents_check rt rt1 d d' body :
  begins into (Runtime.committee_of rt) (Runtime.committee_of rt1) ->
  SidechainPallet.GenesisUtxo (Runtime.Sidechain rt1) = SidechainPallet.GenesisUtxo (Runtime.Sidechain rt) ->
  same_data rt d d' -> inherent_extrinsics rt1 d = Done body -> check_inherents rt d' body = Done [].
Proof.
  intros Hb Hg Hsame. unfold inherent_extrinsics. replace (rt_select rt1) with (rt_select rt) by (unfold rt_select; by rewrite Hg).
  destruct (CommitteeManagement.create_inherent _ _ _) as [committee|] eqn:Hc; [|done]. simpl_monad.
  unfold BlockRewards.create_inherent. destruct (BlockRewards.get_beneficiary_from_inherent_data _) as [b|]; [|done]. simpl_monad.
  destruct (NativeToken.create_inherent _) as [tokens|] eqn:Ht; [|done]. simpl_monad. intros [= <-].
  rewrite (sd_tokens _ _ _ Hsame) in Ht. destruct (created_tokens_check rt d' tokens Ht) as (Htok & req & Hreq & Hiff).
  unfold check_inherents.
  assert (check_calls rt d' (in_order committee (Some b) tokens) = Done []) as ->.
  { apply check_calls_all, Forall_app; split; [|apply Forall_app; split].
    - destruct committee as [call|]; repeat constructor. by apply (created_committee_checks rt rt1 d).
    - by repeat constructor.
    - destruct tokens as [t|]; repeat constructor. apply Htok. }
  cbn [mbind outcome_bind]. unfold check_required. rewrite Hreq.
  assert (match CommitteeManagement.is_inherent_required (Runtime.committee_of rt), existsb is_committee (in_order committee (Some b) tokens)
    with Some _, false => False | _, _ => True end) as Hcom.
  { destruct committee as [call|].
    - destruct (created_committee_checks rt rt1 d d' call Hb Hsame Hc) as [_ Hin]. cbn. rewrite Hin. by destruct (CommitteeManagement.is_inherent_required _).
    - by rewrite (committee_required rt rt1 d Hb Hc). }
  destruct (CommitteeManagement.is_inherent_required (Runtime.committee_of rt)),
    (existsb is_committee (in_order committee (Some b) tokens)); try done.
  all: assert (existsb is_beneficiary (in_order committee (Some b) tokens) = true) as -> by (by destruct committee, tokens).
  all: cbn [mbind outcome_bind BlockRewards.is_inherent_required]; destruct req as [e|]; [|done];
    destruct tokens as [t|]; [|by destruct Hiff as [_ Hx]; specialize (Hx eq_refl)]; destruct Htok as [_ Hin];
    by destruct committee; cbn; rewrite Hin, ?orb_true_r.
Qed.
End InherentProps.

(** ** Two nodes, one main chain *)
Section TwoNodes.
Import Authoring.
Context `{SlotOps, Minicbor, Crypto, Accounts, Rng, U256, BoundedVecOps, InherentErrors, !EqDecision TAccountId, !EqDecision TAccountKeys}.
Context {AccountId : Type} `{EqDecision AccountId, System AccountId} `{Countable BeneficiaryId}.
Context {M N : Type} `{McHashDataSourceLaws M, NativeToken.NativeTokenDataSource N}.
Context {Hash Roots AuthorityId Keystore : Type} `{!AuraStandalone Hash Roots AuthorityId Keystore}.
Implicit Types (rt : @Runtime.Runtime _ AccountId _ BeneficiaryId _ _) (parent : Header) (mc : MainchainBlock).

(** The authority selection sources of two nodes: the same epochs, and inputs from which the
    same committees are selected. *)
Record same_sources rt (a b : AuthoritySelectionDataSource) : Prop := {
  ss_epoch : forall e, data_epoch a e = data_epoch b e;
  ss_inputs : forall e scripts i, AriadneIDP.inputs_from_mc_data a e scripts = Ok i ->
    exists i', AriadneIDP.inputs_from_mc_data b e scripts = Ok i' /\ forall sc_epoch, rt_select rt i sc_epoch = rt_select rt i' sc_epoch
}.
Definition same_selection rt (o o' : option AuthoritySelectionInputs) : Prop :=
  match o, o' with
  | None, None => True
  | Some i, Some i' => forall e, rt_select rt i e = rt_select rt i' e
  | _, _ => False
  end.

Lemma ariadne_agrees rt a b next scripts sc c slot reference o :
  same_sources rt a b -> AriadneIDP.provider_new next scripts sc c slot a reference = Done (Ok o) ->
  exists o', AriadneIDP.provider_new next scripts sc c slot b reference = Done (Ok o') /\ same_selection rt o o'.
Proof.
  intros [He Hi]. unfold AriadneIDP.provider_new.
  destruct (AriadneIDP.mc_epoch_for_next_ariadne_cidp _ _ _ _) as [[e|]|]; [|done..]. simpl_monad. rewrite <- He.
  destruct (data_epoch a e) as [de|]; [|done]. simpl_monad. destruct scripts as [scripts|]; [|done]. simpl_monad.
  destruct (de <? reference); [|intros [= <-]; by exists None]. unfold AriadneIDP.from_mc_data.
  destruct (AriadneIDP.inputs_from_mc_data a e scripts) as [i|] eqn:Ha; [|done]. simpl_monad. intros [= <-].
  destruct (Hi _ _ _ Ha) as (i' & -> & Hsel). simpl_monad. by exists (Some i').
Qed.

(** The verifying node has followed the main chain far enough to serve the references of
    the block and of its parent. *)
Record follows d parent slot mc (s : M) : Prop := {
  fo_ok : source_ok s;
  fo_reference : exists ts, Slot_timestamp slot d = Some ts /\ serves s ts mc;
  fo_parent : header_number parent = 0 \/ exists p bp ts, find_pre_digest parent = Ok p /\
    McHash.value_from_digest (digest_logs parent) = Ok (mb_hash bp) /\ Slot_timestamp p d = Some ts /\ serves s ts bp /\
    mb_number bp <= mb_number mc
}.

Lemma follows_verifies d parent slot mc s :
  follows d parent slot mc s -> exists s' parent_slot, NodeInherents.slot_from_predigest parent = Ok parent_slot /\
    McHash.new_verification parent parent_slot slot (mb_hash mc) d s = (s', Done (Ok mc)).
Proof.
  intros [Hok Hr Hp]. unfold NodeInherents.slot_from_predigest.
  destruct (Z.eqb_spec (header_number parent) 0) as [Hz|Hz].
  - destruct (proj2 (reference_verification_iff parent None slot (mb_hash mc) d s mc Hok)) as [s' Hs']; [done|].
    by exists s', None.
  - destruct Hp as [|(p & bp & ts & Hf & Hv & Hts & Hb & Hle)]; [done|]. rewrite Hf.
    destruct (proj2 (reference_verification_iff parent (Some p) slot (mb_hash mc) d s mc Hok)) as [s' Hs'].
    { split_and!; [done | done | by exists bp, ts]. }
    by exists s', (Some p).
Qed.

(** The first main chain block whose transfers the block releases. *)
Definition tokens_from rt parent : option McBlockHash :=
  if NativeToken.initialized (Runtime.NativeTokenManagement rt)
  then match McHash.get_mc_hash_for_block (Ok (Some parent)) with Ok h => h | Err _ => None end else None.
Definition parent_is_readable rt parent : Prop :=
  NativeToken.initialized (Runtime.NativeTokenManagement rt) = true ->
  exists h, McHash.get_mc_hash_for_block (Ok (Some parent)) = Ok h.

Lemma follows_readable d parent slot mc s rt : follows d parent slot mc s -> parent_is_readable rt parent.
Proof.
  intros [_ _ Hp] _. unfold McHash.get_mc_hash_for_block. simpl_monad. destruct (Z.eqb_spec (header_number parent) 0); [by eexists|].
  destruct Hp as [|(p & bp & ts & _ & -> & _)]; [done|]. by eexists.
Qed.

Context (scripts : NativeToken.MainChainScripts) (locked : McBlockHash -> Z) `{!NativeTokenLaws scripts locked}.

Lemma tokens_provided rt parent mc (s : N) :
  NativeToken.get_main_chain_scripts (Runtime.NativeTokenManagement rt) = Some scripts -> parent_is_readable rt parent ->
  tokens_ok s -> tokens_serves s (default (mb_hash mc) (tokens_from rt parent)) (mb_hash mc) ->
  exists s', NativeToken.provider_new (NodeInherents.pv_native_token_scripts (view_of rt parent))
      (NodeInherents.pv_native_token_initialized (view_of rt parent))
      (McHash.get_mc_hash_for_block (NodeInherents.pv_header (view_of rt parent))) (mb_hash mc) s =
    (s', Done (Ok (let n := locked (mb_hash mc) - default 0 (locked <$> tokens_from rt parent) in if 0 <? n then Some n else None))).
Proof.
  intros Hs Hr Hok Hsrv. unfold NativeToken.provider_new, view_of, tokens_from in *. cbn [NodeInherents.pv_native_token_scripts
    NodeInherents.pv_native_token_initialized NodeInherents.pv_header]. rewrite Hs.
  unfold bind_stateful, stateless, map_err_stateful, lift. cbn [map_err]. unfold parent_is_readable in Hr.
  destruct (NativeToken.initialized (Runtime.NativeTokenManagement rt)).
  - destruct (Hr eq_refl) as [h Hh]. rewrite Hh in *. cbn [map_err].
    destruct (tokens_answer _ _ _ Hok Hsrv) as (s' & -> & _). by exists s'.
  - destruct (tokens_answer _ _ _ Hok Hsrv) as (s' & -> & _). by exists s'.
Qed.

(** The providers of the author and of a verifying node. *)
Lemma verifier_agrees ben config a b now now' rt parent (sA sA' sV : M * N) (p : @NodeInherents.ProposalProviders BeneficiaryId) :
  NodeInherents.create_proposal_providers ben config a now (view_of rt parent) sA = (sA', Done (Ok p)) ->
  same_sources rt a b -> NativeToken.get_main_chain_scripts (Runtime.NativeTokenManagement rt) = Some scripts ->
  let mc := NodeInherents.pp_mc_hash p in let slot := NodeInherents.pp_slot p in
  follows (NodeInherents.slot_duration config) parent slot mc (fst sV) ->
  (forall s, s ∈ [snd sA; snd sV] -> tokens_ok s /\ tokens_serves s (default (mb_hash mc) (tokens_from rt parent)) (mb_hash mc)) ->
  Slot_from_timestamp now (NodeInherents.slot_duration config) = Done slot /\
  exists sV' p', NodeInherents.create_verifier_providers config b now' (view_of rt parent) slot (mb_hash mc) sV = (sV', Done (Ok p')) /\
    same_selection rt (NodeInherents.pp_ariadne p) (NodeInherents.vp_ariadne p') /\
    NodeInherents.pp_native_token p = NodeInherents.vp_native_token p'.
Proof.
  intros Hp Hsrc Hscripts mc slot Hfol Htok. destruct sA as [mA nA], sV as [mV nV]. cbn [fst snd] in *.
  unfold NodeInherents.create_proposal_providers, NodeInherents.timestamp_and_slot_cidp in Hp.
  unfold bind_stateful at 1, stateless at 1 in Hp.
  destruct (Slot_from_timestamp now _) as [slot0|] eqn:Hslot; [|done]. cbn [mbind outcome_bind run] in Hp.
  unfold bind_stateful at 1, map_err_stateful at 1 in Hp. cbn [fst] in Hp.
  destruct (McHash.new_proposal slot0 _ mA) as [[mc0|]|]; [|done..]. cbn [map_err] in Hp.
  unfold bind_stateful at 1, NodeInherents.ariadne_new, map_err_stateful at 1, stateless at 1 in Hp.
  destruct (AriadneIDP.provider_new _ _ _ _ _ _ _) as [[ariadne|]|] eqn:Ha; [|done..]. cbn [map_err] in Hp.
  unfold bind_stateful at 1, stateless at 1, lift at 1 in Hp. destruct (ben _) as [beneficiary|]; [|done]. cbn [map_err] in Hp.
  unfold bind_stateful at 1, NodeInherents.native_token_new, map_err_stateful at 1, NodeInherents.on_tokens in Hp.
  destruct (NativeToken.provider_new _ _ _ _ nA) as [nA' [[native|]|]] eqn:Hn; [|done..]. cbn in Hp.
  injection Hp as _ <-. cbn [NodeInherents.pp_mc_hash NodeInherents.pp_slot NodeInherents.pp_ariadne NodeInherents.pp_native_token] in *.
  subst mc slot. split; [done|].
  destruct (ariadne_agrees rt a b _ _ _ _ _ _ _ Hsrc Ha) as (o' & Ho & Hsel).
  destruct (follows_verifies _ _ _ _ _ Hfol) as (mV' & parent_slot & Hps & Hver).
  pose proof (follows_readable _ _ _ _ _ rt Hfol) as Hread.
  destruct (Htok nA ltac:(left)) as [HokA HsA], (Htok nV ltac:(right; left)) as [HokV HsV].
  destruct (tokens_provided rt parent mc0 nA Hscripts Hread HokA HsA) as [nA1 HnA].
  destruct (tokens_provided rt parent mc0 nV Hscripts Hread HokV HsV) as [nV' HnV].
  unfold McHash.provider_mc_hash in Hn. rewrite HnA in Hn. injection Hn as _ Hn.
  unfold NodeInherents.create_verifier_providers. replace (NodeInherents.expect_header (view_of rt parent)) with
    (Ok parent : result string Header) by done.
  unfold NodeInherents.ariadne_new, NodeInherents.native_token_new, NodeInherents.on_blocks, NodeInherents.on_tokens,
    bind_stateful, map_err_stateful, stateless, lift.
  cbn [map_err]. rewrite Hps. cbn [map_err]. rewrite Hver. unfold McHash.provider_mc_epoch in Ho. cbn [map_err]. rewrite Ho.
  cbn [map_err]. rewrite HnV. cbn [map_err]. eexists _, _. split; [reflexivity|]. split; [exact Hsel|]. cbn. by rewrite <- Hn.
Qed.
End TwoNodes.

(** ** The block of an author is imported *)
Section ImportingClient.
Import Authoring.
Context `{Minicbor, Crypto, Accounts, Rng, U256, BoundedVecOps, InherentErrors, !EqDecision TAccountId, !EqDecision TAccountKeys}.
Context {AccountId : Type} `{EqDecision AccountId, System AccountId} `{Countable BeneficiaryId}.
Context {Hash Roots AuthorityId : Type}.

(** The importing client at the parent block: its runtime is in state [rt]. *)
Record runs_parent (client : AuraClient Hash Roots AuthorityId (list InherentCall) (NodeInherentData BeneficiaryId))
    (parent_hash : Hash) (n : Z) mode (rt : @Runtime.Runtime _ AccountId _ BeneficiaryId _ _) (auths : list AuthorityId) : Prop := {
  rp_authorities : Aura.authorities client parent_hash n mode = Ok auths;
  rp_api : exists b, has_block_builder_api_2 client parent_hash = Ok b;
  rp_check : forall header body data, api_check_inherents client parent_hash header body data =
    (errors ← check_inherents rt data body; Done (Ok errors));
  rp_equivocation : forall now slot h e, exists b, check_equivocation client now slot h e = Ok b
}.
End ImportingClient.

(** The reference is read back from the digest of a proposed and sealed header. *)
Lemma proposed_digest {Hash Roots AuthorityId Keystore} `{AuraStandaloneLaws Hash Roots AuthorityId Keystore} slot h seal :
  length h = 32%nat -> McHash.value_from_digest ((Aura.pre_digest_data slot ++ McHash.from_mc_block_hash h) ++ [seal]) = Ok h.
Proof.
  intros Hl. unfold Aura.pre_digest_data. destruct (pre_digest_is_aura slot) as [data ->]. cbn - [McHash.from_mc_block_hash].
  rewrite bool_decide_eq_false_2 by done. by apply (McHash.value_from_own_digest h [seal]).
Qed.

(** A block that a node authors is imported by the others. The author reads its slot
    from the clock, creates the inherent data from its own view of the main chain, the
    runtime makes the inherents, the proposer puts the main chain reference into the header,
    Aura seals it. A node with the same parent state whose clock is at most one slot behind,
    which has followed the main chain far enough to serve the references, and whose sources
    know the same token transfers and lead to the same committees, accepts the block: slot,
    seal, reference and every inherent pass, and the block is imported unchanged. *)
Theorem authored_block_is_imported
    `{SlotOps, Minicbor, Crypto, Accounts, Rng, U256, BoundedVecOps, InherentErrors, !EqDecision TAccountId, !EqDecision TAccountKeys}
    {AccountId : Type} `{EqDecision AccountId, System AccountId} (into : TAccountId -> AccountId) account_id_leb
    `{Countable BeneficiaryId} {M N : Type} `{McHashDataSourceLaws M, NativeToken.NativeTokenDataSource N}
    {Hash Roots AuthorityId Keystore : Type} `{AuraStandaloneLaws Hash Roots AuthorityId Keystore}
    scripts locked `{!NativeTokenLaws scripts locked}
    ben config a b now now' (rt rt1 : @Runtime.Runtime _ AccountId _ BeneficiaryId _ _) parent parent_hash roots n
    (sA sA' sV : M * N) (p : @NodeInherents.ProposalProviders BeneficiaryId)
    (client : AuraClient Hash Roots AuthorityId (list Authoring.InherentCall) (NodeInherentData BeneficiaryId))
    parents v display auths ks key max_duration limit header body params slot_now :
  let slot := NodeInherents.pp_slot p in let mc := NodeInherents.pp_mc_hash p in
  (* the author *)
  NodeInherents.create_proposal_providers ben config a now (Authoring.view_of rt parent) sA = (sA', Done (Ok p)) ->
  Runtime.initialize_block into account_id_leb n slot rt = Done rt1 ->
  Authoring.inherent_extrinsics rt1 (NodeInherents.proposal_data p) = Done body ->
  Aura.claim_slot ks slot auths = Some key ->
  Aura.propose (fun _ logs _ _ => mkBlockHeader _ _ parent_hash (mkHeader n logs) roots) (NodeInherents.proposal_data p)
    (Aura.pre_digest_data slot) max_duration limit = Done header ->
  Aura.block_import_params ks header (header_hash header) body key = Ok params ->
  n <> 0 -> (n = 1 -> CommitteeManagement.NextCommittee (Runtime.committee_of rt) = None) ->
  in_width 64 slot -> length (mb_hash mc) = 32%nat ->
  (* the importing node *)
  same_sources rt a b -> NativeToken.get_main_chain_scripts (Runtime.NativeTokenManagement rt) = Some scripts ->
  follows (NodeInherents.slot_duration config) parent slot mc (fst sV) ->
  (forall s, s ∈ [snd sA; snd sV] -> tokens_ok s /\ tokens_serves s (default (mb_hash mc) (tokens_from rt parent)) (mb_hash mc)) ->
  parents parent_hash = Authoring.view_of rt parent -> runs_parent client parent_hash n (Aura.av_compatibility_mode v) rt auths ->
  NodeInherents.verifier_slot config now' = Done slot_now -> slot <= slot_now +[64] 1 ->
  exists seal sV', bp_post_digests params = [seal] /\
    Aura.verify (NodeInherents.verifier_cidp display config b now' parents) v client
      (mkBlockImportParams _ _ _ (push_log header seal) (bp_body params) [] None None false false) sV =
    (sV', Done (Ok (mkBlockImportParams _ _ _ header (bp_body params) [seal] (Some (header_hash (push_log header seal)))
      (Some LongestChain) false false))).
Proof.
  intros slot mc Hp Hinit Hbody Hclaim Hprop Hparams Hn Hfirst Hw Hlen Hsrc Hscripts Hfol Htok Hparents [Hauth [api Hapi] Hcheck Heq] Hnow Hle.
  destruct (verifier_agrees scripts locked ben config a b now now' rt parent sA sA' sV p Hp Hsrc Hscripts Hfol Htok)
    as (_ & sV' & p' & Hver & Hsel & Htokens). fold slot mc in Hver.
  assert (header = mkBlockHeader _ _ parent_hash (mkHeader n (Aura.pre_digest_data slot ++ McHash.from_mc_block_hash (mb_hash mc))) roots)
    as -> by (by injection Hprop as <-).
  pose proof (sealed_block_checks client (Aura.av_check_for_equivocation v) (slot_now +[64] 1) slot auths ks key n
    (McHash.from_mc_block_hash (mb_hash mc)) parent_hash roots body params Hn Hw) as Hseal.
  destruct Hseal as (seal & Hpost & Hchk & _); [by repeat constructor | done | done | exact Hparams | apply Heq |].
  exists seal, sV'. split; [done|].
  assert (bp_body params = Some body) as ->.
  { unfold Aura.block_import_params in Hparams. destruct (standalone_seal _ _ _); [|done]. cbn in Hparams. by injection Hparams as <-. }
  destruct (initialize_block_begins into account_id_leb n slot rt rt1 Hfirst Hinit) as [Hbegins Hgen].
  assert (Authoring.check_inherents rt (NodeInherents.verifier_data p') body = Done []) as Hok.
  { apply (created_inherents_check into rt rt1 (NodeInherents.proposal_data p) _ body Hbegins Hgen); [|done].
    split; [|cbn; by rewrite Htokens]. intros e. unfold same_selection in Hsel. cbn.
    destruct (NodeInherents.pp_ariadne p), (NodeInherents.vp_ariadne p'); try done. apply Hsel. }
  set (header := mkBlockHeader _ _ parent_hash _ roots) in *. unfold Aura.verify.
  cbn [bp_with_state bp_skip_execution_checks orb bp_header bp_body].
  change (current_slot _) with (NodeInherents.verifier_slot config now'). rewrite Hnow. unfold bind_stateful, stateless, map_err_stateful, lift, run.
  replace (bh_parent_hash (push_log header seal)) with parent_hash by done.
  replace (header_number (bh_header (push_log header seal))) with n by done. rewrite Hauth. cbn [map_err].
  rewrite Hchk. cbn [map_err]. replace (digest_value (digest_logs (bh_header (push_log header seal)))) with (Ok (mb_hash mc) : result string McBlockHash)
    by (symmetry; by apply proposed_digest).
  cbn [map_err create_inherent_data_providers NodeInherents.verifier_cidp].
  unfold map_err_stateful. rewrite Hparents, Hver. cbn [map_err]. rewrite Hapi. cbn [map_err]. destruct api; [|done].
  unfold Aura.check_inherents. cbn [create_inherent_data NodeInherents.verifier_cidp map_err bind_fallible]. unfold lift. cbn [bind_fallible]. rewrite Hcheck, Hok. done.
Qed.

(** ** Two nodes and their first block *)
Module FirstBlock.
Import ConcreteSlot ConcreteAccounts Selection.Concrete Rfc8949 ToyAura.
(** A block source that knows a list of stable main chain blocks, latest first. *)
Definition StableBlocks : Type := list MainchainBlock.
#[export] Instance stable_blocks : McHashDataSource StableBlocks := {|
  get_latest_stable_block_for ts s := Done (Ok (List.find (fun b => mb_timestamp b * 1000 <=? ts) s));
  get_stable_block_for h ts s := (s, Done (Ok (List.find (fun b => bool_decide (mb_hash b = h) && (mb_timestamp b * 1000 <=? ts)) s)))
|}.
#[export] Instance stable_blocks_laws : McHashDataSourceLaws StableBlocks.
Proof.
  refine {| serves s ts b := b ∈ s /\ mb_timestamp b * 1000 <= ts; source_ok s := NoDup (map mb_hash s) |}.
  - intros s ts b Hok [Hb Hts]. exists s. cbn. do 3 f_equal.
    induction s as [|b' s IH]; [by apply elem_of_nil in Hb|]. cbn in *. apply NoDup_cons in Hok as [Hn Hok].
    apply elem_of_cons in Hb as [->|Hb]; [by rewrite bool_decide_eq_true_2, (proj2 (Z.leb_le _ _)) by done|].
    rewrite bool_decide_eq_false_2; [by apply IH|]. intros Heq. apply Hn. rewrite Heq. by apply list_elem_of_fmap_2.
  - intros s ts h s' b _ [= _ Hf]. apply find_some in Hf as [Hin Hf]. zbool.
    split; [split; [by apply list_elem_of_In | done] | by eapply bool_decide_eq_true].
  - intros s ts h s' r Hok [= <- <-]. done.
Defined.

Definition mc6 := mkMainchainBlock 6 (replicate 32 6) 5 50 50.
Definition mc5 := mkMainchainBlock 5 (replicate 32 5) 5 40 40.
Definition locked (h : McBlockHash) : Z := if bool_decide (h = replicate 32 6) then 25 else 10.
Definition token_scripts := NativeToken.mkMainChainScripts [] [] [].
#[export] Instance known_tokens : NativeToken.NativeTokenDataSource () := fun after to _ _ _ s =>
  (s, Done (Ok (locked to - default 0 (locked <$> after)))).
#[export] Instance known_tokens_laws : NativeTokenLaws token_scripts locked.
Proof.
  refine {| tokens_ok _ := True; tokens_serves _ a b := locked a <= locked b |}.
  - done.
  - intros s a b _ Hab. unfold locked in *. repeat case_bool_decide; lia.
  - intros s after to _ _. exists s. done.
Defined.

#[export] Instance no_errors : InherentErrors := {|
  encode_committee_error _ := []; encode_beneficiary_error _ := []; encode_token_error _ := [];
  decode_committee_error _ := None; display_committee_error _ := ""%string; decode_token_error _ := None;
  display_token_error _ := ""%string; timestamp_try_handle_error _ _ := None
|}.
#[export] Instance bytes_system : System bytes := {| Sys := (); inc_providers _ s := s; dec_providers _ s := Some s |}.
Definition acc : @TAccountId byte_accounts -> bytes := fun a => a.
Definition genesis_state : @Runtime.Runtime byte_accounts bytes bytes_system Z _ _ := Runtime.mkRuntime
  (SidechainPallet.build (SidechainPallet.mkGenesisConfig (mkUtxoId (replicate 32 0) 0) 60))
  (SessionPallet.mkState [] [] 0 [] tt (Managers.mkManagerState
    (CommitteeManagement.build Runtime.MaxValidators (CommitteeManagement.mkGenesisConfig
      [(replicate 33 1, (replicate 32 1, replicate 32 1))] Example2.scripts) : CommitteeManagement.State TAccountId TAccountKeys) 0 0) [] [])
  (BlockRewards.initial : BlockRewards.State Z) (NativeToken.build token_scripts tt) [].
Definition genesis_header := mkHeader 0 [].

(** Both nodes know two permissioned candidates. *)
Definition candidates := mkAuthoritySelectionDataSource
  (fun _ _ _ => Ok (mkAriadneParameters (mkDParameter 2 0) (map (fun k => mkRawPermissionedCandidateData (replicate 33 k) (replicate 32 k) (replicate 32 k)) [3; 4])))
  (fun _ _ => Ok []) (fun _ => Ok (Some [1])) (fun e => if e <? 2 then Err "early"%string else Ok (e - 2)).
Definition config := NodeInherents.mkConfig (mkMainchainEpochConfig 0 30000 0 0) (Slots.mkScSlotConfig 60 1000).
Definition beneficiary (_ : string) : result BlockRewards.InherentProviderCreationError Z := Ok 7.
Definition author : StableBlocks * () := ([mc6; mc5], tt).
Definition importer : StableBlocks * () := ([mc6; mc5], tt).
Definition proposal := match NodeInherents.create_proposal_providers beneficiary config candidates 110500 (Authoring.view_of genesis_state genesis_header) author with
  | (_, Done (Ok p)) => p | _ => NodeInherents.mkProposalProviders 0 0 mc5 None 0 None end.
Definition begun := match Runtime.initialize_block acc bytes_leb 1 (NodeInherents.pp_slot proposal) genesis_state with Done rt => rt | Panic => genesis_state end.
Definition body := match Authoring.inherent_extrinsics begun (NodeInherents.proposal_data proposal) with Done body => body | Panic => [] end.
Definition block_header : BlockHeader Z () := mkBlockHeader _ _ 0
  (mkHeader 1 (Aura.pre_digest_data 110 ++ McHash.from_mc_block_hash (mb_hash (NodeInherents.pp_mc_hash proposal)))) tt.
Definition params : BlockImportParams Z () (list Authoring.InherentCall) :=
  mkBlockImportParams _ _ _ block_header (Some body) [Seal AURA_ENGINE_ID [7]] None (Some LongestChain) false false.
Definition import_client : AuraClient Z () Z (list Authoring.InherentCall) (NodeInherentData Z) := mkAuraClient _ _ _ _ _
  (fun _ _ => Ok ()) (fun _ => Ok [7]) (fun _ => Ok true)
  (fun _ _ body data => errors ← Authoring.check_inherents genesis_state data body; Done (Ok errors)) (fun _ _ _ _ => Ok false) 0.
Definition parents (_ : Z) := Authoring.view_of genesis_state genesis_header.

(** The first block sets a committee, rewards its author and releases the tokens. *)
Example body_contents : exists v, body =
  [Authoring.CommitteeCall (CommitteeManagement.call_set v 2); Authoring.BeneficiaryCall 7; Authoring.TokenCall (NativeToken.transfer_tokens_call 25)].
Proof. eexists. vm_compute. reflexivity. Qed.
End FirstBlock.

Section AuthoringWitness.
Import ConcreteSlot ConcreteAccounts Selection.Concrete Rfc8949 ToyAura FirstBlock.

(** The importing node's clock is half a slot behind. *)
Lemma authored_block_is_imported_witness :
  exists seal sV', bp_post_digests params = [seal] /\
    Aura.verify (NodeInherents.verifier_cidp (fun _ => ""%string) config candidates 109900 parents) verifier import_client
      (mkBlockImportParams _ _ _ (push_log block_header seal) (bp_body params) [] None None false false) importer =
    (sV', Done (Ok (mkBlockImportParams _ _ _ block_header (bp_body params) [seal] (Some (header_hash (push_log block_header seal)))
      (Some LongestChain) false false))).
Proof.
  apply (authored_block_is_imported acc bytes_leb token_scripts locked beneficiary config candidates candidates 110500 109900
    genesis_state begun genesis_header 0 tt 1 author author importer proposal import_client parents verifier (fun _ => ""%string)
    [7] [7] 7 0 None block_header body params 109).
  1-6: vm_compute; reflexivity.
  - discriminate.
  - reflexivity.
  - vm_compute. split; [discriminate | reflexivity].
  - reflexivity.
  - split; [done|]. intros e scripts i Hi. by exists i.
  - reflexivity.
  - split; [apply (bool_decide_unpack _); vm_compute; exact I | | by left]. exists 110000. split; [reflexivity|].
    split; [left | vm_compute; discriminate].
  - intros s _. split; [exact I | vm_compute; discriminate].
  - reflexivity.
  - split; [reflexivity | by exists true | reflexivity | by exists false].
  - reflexivity.
  - vm_compute. discriminate.
Defined.
End AuthoringWitness.
