(* ===== verification/Ogmios.v ===== *)
(** * Ogmios client

    [toolkit/utils/ogmios-client]: the types of the Ogmios API, the parser of values, and
    the requests. The transport is a JSON-RPC client ([OgmiosClient]); a response is one of
    the types of [Response], and its derived decoding belongs to [serde]. *)

From stdpp Require Import pretty.
From S2P Require Import Prelude Domain Cbor Json.
#[local] Open Scope string_scope.
#[local] Open Scope list_scope.
#[local] Set Warnings "-register-all".

(** ** Types *)
Record SlotLength := mkSlotLength { milliseconds : Z }.
Record TimeSeconds := mkTimeSeconds { seconds : Z }.
Record OgmiosBytesSize := mkOgmiosBytesSize { size_bytes : Z }.
Record OgmiosTx := mkOgmiosTx { tx_id : bytes }.
Record Datum := mkDatum { datum_bytes : bytes }.
Record DatumHash := mkDatumHash { datum_hash_bytes : bytes }.
Inductive NativeScript :=
| Signature (from : bytes)
| All (from : list NativeScript)
| Any (from : list NativeScript)
| AtLeast (from : list NativeScript) (at_least : Z)
| Before (slot : Z).
Inductive OgmiosScript :=
| Plutus (language : string) (cbor : bytes)
| Native (script : NativeScript).

Record Asset := mkAsset { asset_name : bytes; asset_amount : Z }.
Record OgmiosValue := mkOgmiosValue { lovelace : Z; native_tokens : gmap bytes (list Asset) }.
Definition new_lovelace (lovelace : Z) : OgmiosValue := mkOgmiosValue lovelace ∅.

Record OgmiosUtxo := mkOgmiosUtxo {
  transaction : OgmiosTx;
  utxo_index : Z;
  utxo_address : string;  (* bech32 *)
  value : OgmiosValue;
  datum : option Datum;
  datum_hash : option DatumHash;
  script : option OgmiosScript
}.

(** ** Parsers *)
Section Parsers.
Context `{Hex}.

Definition utxo_display (u : OgmiosUtxo) : str :=
  (hex_encode (tx_id (transaction u)) ++ HASH_SIGN :: dec_display (utxo_index u))%list.

(** [Number::as_i128]. *)
Definition as_i128 (v : JValue) : option Z :=
  match v with
  | JNumber n => if ((- 2 ^ 127 <=? n) && (n <? 2 ^ 127))%Z then Some n else None
  | _ => None
  end.
Definition as_object (v : JValue) : option (list (string * JValue)) :=
  match v with JObject map => Some map | _ => None end.

Definition parse_asset (entry : string * JValue) : result string Asset :=
  let '(asset_name, amount) := entry in
  let name := ok_or (hex_decode (String.list_ascii_of_string asset_name)) "expected asset name to be hexstring" in
  let amount := ok_or (as_i128 amount) "expected amount to be i128" in
  name ← name; amount ← amount; Ok (mkAsset name amount).

(** One step of the [try_for_each] over the top level entries; the state is the two
    captured variables. *)
Definition parse_value_entry (st : OgmiosValue) (entry : string * JValue) : result string OgmiosValue :=
  let '(policy_id, assets) := entry in
  asset_to_amount ← ok_or (as_object assets) "expected an object";
  if decide (policy_id = "ada") then
    amount ← ok_or (jget "lovelace" asset_to_amount) "expected lovelace amount";
    lovelace ← ok_or (as_u64 amount) "expected lovelace amount to be u64";
    Ok (mkOgmiosValue lovelace (native_tokens st))
  else
    policy_id ← ok_or (hex_decode (String.list_ascii_of_string policy_id)) "expected policy id to be hexstring";
    policy_id ← ok_or (to_array 28 policy_id) "expected policy id to be 28 bytes";
    assets ← collect_results parse_asset asset_to_amount;
    Ok (mkOgmiosValue (lovelace st) (<[policy_id := assets]> (native_tokens st))).
Definition OgmiosValue_try_from (value : JValue) : result string OgmiosValue :=
  value ← ok_or (as_object value) "expected top level object";
  try_fold parse_value_entry value (mkOgmiosValue 0 ∅).

(** [String::deserialize], then [hex::decode]; the array form also checks the length. *)
Definition parse_bytes (v : JValue) : option bytes :=
  match v with JString s => hex_decode s | _ => None end.
Definition parse_bytes_array (n : nat) (v : JValue) : option bytes := bs ← parse_bytes v; to_array n bs.
End Parsers.

(** ** Requests *)
Record EpochBoundary := mkEpochBoundary { eb_time : TimeSeconds; eb_slot : Z; eb_epoch : Z }.
Record EpochParameters := mkEpochParameters { ep_epoch_length : Z; ep_slot_length : SlotLength; ep_safe_zone : Z }.
Record EraSummary := mkEraSummary { era_start : EpochBoundary; era_end : EpochBoundary; parameters : EpochParameters }.
(** [fraction::Ratio<u64>]. *)
Record Ratio := mkRatio { numer : Z; denom : Z }.
Record ScriptExecutionPrices := mkScriptExecutionPrices { memory_price : Ratio; cpu_price : Ratio }.
Record PlutusCostModels := mkPlutusCostModels { plutus_v1 : list Z; plutus_v2 : list Z; plutus_v3 : list Z }.
Record ProtocolParametersResponse := mkProtocolParameters {
  min_fee_coefficient : Z;
  min_fee_constant : OgmiosValue;
  stake_pool_deposit : OgmiosValue;
  stake_credential_deposit : OgmiosValue;
  max_value_size : OgmiosBytesSize;
  max_transaction_size : OgmiosBytesSize;
  min_utxo_deposit_coefficient : Z;
  script_execution_prices : ScriptExecutionPrices;
  plutus_cost_models : PlutusCostModels;
  max_collateral_inputs : Z;
  collateral_percentage : Z
}.
(** The active slots coefficient is a decimal fraction, and the start time a date: their
    libraries' types are represented by a ratio and by seconds since the Unix epoch. *)
Record ShelleyGenesisConfigurationResponse := mkShelleyGenesis {
  network_magic : Z;
  network : NetworkType;
  security_parameter : Z;
  active_slots_coefficient : Ratio;
  sg_epoch_length : Z;
  sg_slot_length : SlotLength;
  start_time : Z
}.
Record OgmiosValidatorIndex := mkOgmiosValidatorIndex { validator_index : Z; purpose : string }.
Record OgmiosBudget := mkOgmiosBudget { memory : Z; cpu : Z }.
Record OgmiosEvaluateTransactionResponse := mkEvaluateResponse { validator : OgmiosValidatorIndex; budget : OgmiosBudget }.
Record SubmitTransactionResponse := mkSubmitResponse { submitted : OgmiosTx }.

Inductive OgmiosClientError :=
| ParametersError (e : string) | RequestError (e : string) | ResponseError (e : string).
Definition OgmiosClientError_display (e : OgmiosClientError) : string :=
  match e with
  | ParametersError e => "Couldn't construct parameters: '" +:+ e +:+ "'"
  | RequestError e => "JsonRPC request failed: '" +:+ e +:+ "'"
  | ResponseError e => "Could not parse response: '" +:+ e +:+ "'"
  end.

Inductive OgmiosParams :=
| Positional (params : list JValue)
| ByName (params : gmap string JValue).
Definition empty_positional : OgmiosParams := Positional [].
Definition empty_by_name : OgmiosParams := ByName ∅.

(** [ByNameParamsBuilder]: [insert] fails when the value cannot be serialized; the values
    inserted here are JSON values and strings, which can. *)
Definition ByNameParamsBuilder : Type := gmap string JValue.
Definition builder_new : ByNameParamsBuilder := ∅.
Definition builder_insert (key : string) (value : JValue) (self : ByNameParamsBuilder)
    : result OgmiosClientError ByNameParamsBuilder := Ok (<[key := value]> self).
Definition builder_build (self : ByNameParamsBuilder) : OgmiosParams := ByName self.

(** The types a response is decoded to. *)
Inductive Response := EraSummaries | Utxos | ProtocolParameters | ShelleyGenesis | Evaluation | Submission.
Definition response_type (r : Response) : Type :=
  match r with
  | EraSummaries => list EraSummary
  | Utxos => list OgmiosUtxo
  | ProtocolParameters => ProtocolParametersResponse
  | ShelleyGenesis => ShelleyGenesisConfigurationResponse
  | Evaluation => list OgmiosEvaluateTransactionResponse
  | Submission => SubmitTransactionResponse
  end.

(** [trait OgmiosClient]; [S] is the state of the node behind the client. *)
Class OgmiosClient (S : Type) :=
  request : forall r : Response, string -> OgmiosParams -> stateful S OgmiosClientError (response_type r).

(** The traits [QueryLedgerState], [QueryNetwork] and [Transactions]. *)
Class MainchainClient (S : Type) := {
  era_summaries : stateful S OgmiosClientError (list EraSummary);
  query_utxos : list string -> stateful S OgmiosClientError (list OgmiosUtxo);
  query_protocol_parameters : stateful S OgmiosClientError ProtocolParametersResponse;
  shelley_genesis_configuration : stateful S OgmiosClientError ShelleyGenesisConfigurationResponse;
  evaluate_transaction : bytes -> stateful S OgmiosClientError (list OgmiosEvaluateTransactionResponse);
  submit_transaction : bytes -> stateful S OgmiosClientError SubmitTransactionResponse
}.

Section Requests.
Context `{Hex} {S : Type} `{!OgmiosClient S}.

Definition json_string (s : string) : JValue := JString (String.list_ascii_of_string s).
Definition cbor_object (tx_bytes : bytes) : JValue := JObject [("cbor", JString (hex_encode tx_bytes))].

Definition query_utxos_request (addresses : list string) : stateful S OgmiosClientError (list OgmiosUtxo) :=
  params ←! stateless (lift (builder_insert "addresses" (JArray (map json_string addresses)) builder_new));
  request Utxos "queryLedgerState/utxo" (builder_build params).
Definition evaluate_transaction_request (tx_bytes : bytes)
    : stateful S OgmiosClientError (list OgmiosEvaluateTransactionResponse) :=
  params ←! stateless (lift (builder_insert "transaction" (cbor_object tx_bytes) builder_new));
  params ←! stateless (lift (builder_insert "additionalUtxo" (JArray []) params));
  request Evaluation "evaluateTransaction" (builder_build params).
Definition submit_transaction_request (tx_bytes : bytes) : stateful S OgmiosClientError SubmitTransactionResponse :=
  params ←! stateless (lift (builder_insert "transaction" (cbor_object tx_bytes) builder_new));
  request Submission "submitTransaction" (builder_build params).

(** [impl<T: OgmiosClient> QueryLedgerState, QueryNetwork, Transactions for T]. *)
#[export] Instance ogmios_mainchain_client : MainchainClient S := {|
  era_summaries := request EraSummaries "queryLedgerState/eraSummaries" empty_positional;
  query_utxos := query_utxos_request;
  query_protocol_parameters := request ProtocolParameters "queryLedgerState/protocolParameters" empty_by_name;
  shelley_genesis_configuration :=
    request ShelleyGenesis "queryNetwork/genesisConfiguration" (ByName {[ "era" := json_string "shelley" ]});
  evaluate_transaction := evaluate_transaction_request;
  submit_transaction := submit_transaction_request
|}.
End Requests.

(** ** The JSON-RPC transport *)
Inductive ClientError := ParseError (e : string) | OtherClientError (e : string).
Definition OgmiosClientError_from (e : ClientError) : OgmiosClientError :=
  match e with ParseError e => ResponseError e | OtherClientError e => RequestError e end.

Class JsonRpsee (S : Type) := {
  ArrayParams : Type;
  ObjectParams : Type;
  array_new : ArrayParams;
  object_new : ObjectParams;
  array_insert : JValue -> ArrayParams -> result string ArrayParams;
  object_insert : string -> JValue -> ObjectParams -> result string ObjectParams;
  request_array : forall r : Response, string -> ArrayParams -> S -> S * result ClientError (response_type r);
  request_object : forall r : Response, string -> ObjectParams -> S -> S * result ClientError (response_type r)
}.

Section Http.
Context {S : Type} `{!JsonRpsee S}.
Definition serde_error_to_parameters_error (e : string) : OgmiosClientError := ParametersError e.
Definition insert_all {P A} (insert : A -> P -> result string P) (entries : list A) (params : P) : result string P :=
  try_fold (fun params entry => insert entry params) entries params.
Definition respond {A} (r : S * result ClientError A) : S * fallible OgmiosClientError A :=
  (fst r, Done (map_err OgmiosClientError_from (snd r))).
#[export] Instance http_client : OgmiosClient S := fun r method params s =>
  match params with
  | ByName map =>
      match map_err serde_error_to_parameters_error
              (insert_all (fun kv => object_insert (fst kv) (snd kv)) (map_to_list map) object_new) with
      | Err e => (s, Done (Err e))
      | Ok object_params => respond (request_object r method object_params s)
      end
  | Positional v =>
      match map_err serde_error_to_parameters_error (insert_all array_insert v array_new) with
      | Err e => (s, Done (Err e))
      | Ok array_params => respond (request_array r method array_params s)
      end
  end.
End Http.

(** ** A value is read back from its JSON form *)
Section ValueRoundTrip.
Context `{HexLaws}.
Context (hex_even : hex_decode (String.list_ascii_of_string "ada") = None).

Definition hex_key (bs : bytes) : string := String.string_of_list_ascii (hex_encode bs).
Definition asset_entry (a : Asset) : string * JValue := (hex_key (asset_name a), JNumber (asset_amount a)).
Definition policy_entry (x : bytes * list Asset) : string * JValue :=
  (hex_key (fst x), JObject (map asset_entry (snd x))).
Definition json_of_value (v : OgmiosValue) : JValue :=
  JObject (("ada", JObject [("lovelace", JNumber (lovelace v))])
           :: map policy_entry (map_to_list (native_tokens v))).

Definition wf_asset (a : Asset) : Prop := wf_bytes (asset_name a) /\ (- 2 ^ 127 <= asset_amount a < 2 ^ 127)%Z.
Definition wf_policy (x : bytes * list Asset) : Prop :=
  wf_bytes (fst x) /\ length (fst x) = 28%nat /\ Forall wf_asset (snd x).
Definition wf_value (v : OgmiosValue) : Prop :=
  in_width 64 (lovelace v) /\ Forall wf_policy (map_to_list (native_tokens v)).

Lemma hex_key_decode bs : wf_bytes bs -> hex_decode (String.list_ascii_of_string (hex_key bs)) = Some bs.
Proof. intros Hb. unfold hex_key. rewrite String.list_ascii_of_string_of_list_ascii. by apply hex_decode_encode. Qed.
Lemma parse_asset_entry a : wf_asset a -> parse_asset (asset_entry a) = Ok a.
Proof.
  intros [Hn Ha]. unfold parse_asset, asset_entry. rewrite hex_key_decode by done. cbn [ok_or mbind result_bind as_i128].
  replace ((- 2 ^ 127 <=? asset_amount a) && (asset_amount a <? 2 ^ 127))%Z with true by (symmetry; lia).
  by destruct a.
Qed.
Lemma parse_assets_entries l : Forall wf_asset l -> collect_results parse_asset (map asset_entry l) = Ok l.
Proof.
  induction 1 as [|a l Ha _ IH]; [done|]. cbn [map collect_results].
  by rewrite parse_asset_entry, IH.
Qed.
Lemma parse_policy_entry st x :
  wf_policy x -> parse_value_entry st (policy_entry x) = Ok (mkOgmiosValue (lovelace st) (<[fst x := snd x]> (native_tokens st))).
Proof.
  intros (Hb & Hl & Ha). unfold parse_value_entry, policy_entry. cbn [as_object ok_or mbind result_bind].
  rewrite decide_False.
  - rewrite hex_key_decode by done. cbn [ok_or mbind result_bind]. unfold to_array. rewrite decide_True by done.
    cbn [ok_or mbind result_bind]. by rewrite parse_assets_entries.
  - intros E. pose proof (hex_key_decode (fst x) Hb) as D. by rewrite E, hex_even in D.
Qed.
Lemma parse_policies l st :
  Forall wf_policy l -> NoDup l.*1 ->
  (forall k, k ∈ l.*1 -> native_tokens st !! k = None) ->
  try_fold parse_value_entry (map policy_entry l) st = Ok (mkOgmiosValue (lovelace st) (list_to_map l ∪ native_tokens st)).
Proof.
  revert st. induction l as [|[p assets] l IH]; intros st Hwf Hnd Hfresh.
  - cbn. rewrite left_id by apply _. by destruct st.
  - apply Forall_cons in Hwf as [Hp Hwf]. apply NoDup_cons in Hnd as [Hnew Hnd].
    cbn [map try_fold]. rewrite parse_policy_entry by done. cbn [mbind result_bind fst snd]. rewrite IH; [..|done|done|].
    + cbn [lovelace native_tokens list_to_map foldr]. do 2 f_equal.
      rewrite <- insert_union_r, insert_union_l; [done|]. by apply not_elem_of_list_to_map_1.
    + cbn [native_tokens]. intros k Hk. rewrite lookup_insert_ne by (by intros ->). apply Hfresh. by right.
Qed.

Lemma value_round_trip v : wf_value v -> OgmiosValue_try_from (json_of_value v) = Ok v.
Proof.
  intros [Hl Hp]. unfold OgmiosValue_try_from, json_of_value. cbn [as_object ok_or mbind result_bind try_fold].
  unfold parse_value_entry at 1. cbn [as_object ok_or mbind result_bind]. rewrite decide_True by done. cbn [ok_or mbind result_bind jget].
  rewrite decide_True by done. cbn [ok_or mbind result_bind as_u64].
  rewrite (proj2 (try_into_width_Some 64 _ _)) by done. cbn [ok_or mbind result_bind].
  rewrite parse_policies; [|done|apply NoDup_fst_map_to_list|done]. cbn [lovelace native_tokens].
  rewrite right_id by apply _. rewrite list_to_map_to_list. by destruct v.
Qed.
End ValueRoundTrip.
