(* ===== verification/OffchainCsl.v ===== *)
(** * Transactions with the Cardano serialization library

    [toolkit/offchain/src/csl.rs] and [collateral_selection.rs]: addresses, conversions of
    Ogmios values, the transaction context, and balancing.

    Third-party: [cardano-serialization-lib] ([CslLib]: its plain structures are records
    here, its builders, addresses and values are operations of the class) and [blake2b]
    ([Blake2bHash]). [CslViews] are the fields that its getters read, and [CslLibLaws] what
    its documentation says of them. *)

From stdpp Require Import pretty.
From S2P Require Import Prelude Domain Cbor Json Ogmios PlutusDatums.
#[local] Open Scope string_scope.
#[local] Open Scope list_scope.

Class Blake2bHash := blake2b_hash : nat -> bytes -> bytes.

Abbreviation JsError := string.
Inductive LanguageKind := PlutusV1 | PlutusV2 | PlutusV3.
Inductive NetworkIdKind := NetMainnet | NetTestnet.
Inductive Credential := from_keyhash (h : bytes) | from_scripthash (h : bytes).
Record TransactionInput := mkTransactionInput { input_tx : bytes; input_index : Z }.
Record ExUnits := mkExUnits { ex_mem : Z; ex_steps : Z }.
Inductive RedeemerTag := new_mint | new_spend.
Record CslPlutusScript := mkCslPlutusScript { csl_script_bytes : bytes; csl_script_language : LanguageKind }.
Inductive CoinSelectionStrategyCIP2 := LargestFirst | RandomImprove | LargestFirstMultiAsset | RandomImproveMultiAsset.
#[export] Instance LanguageKind_eq_dec : EqDecision LanguageKind.
Proof. solve_decision. Defined.
#[export] Instance Credential_eq_dec : EqDecision Credential.
Proof. solve_decision. Defined.
#[export] Instance TransactionInput_eq_dec : EqDecision TransactionInput.
Proof. solve_decision. Defined.
#[export] Instance CslPlutusScript_eq_dec : EqDecision CslPlutusScript.
Proof. solve_decision. Defined.

Section Structures.
Context `{Csl}.
Record Redeemer := mkRedeemer { redeemer_tag : RedeemerTag; redeemer_index : Z; redeemer_data : PlutusData; redeemer_ex_units : ExUnits }.
(** [PlutusWitness::new_without_datum] and [MintWitness::new_plutus_script]. *)
Record PlutusWitness := mkPlutusWitness { witness_script : CslPlutusScript; witness_redeemer : Redeemer }.
Record MintWitness := mkMintWitness { mint_script : CslPlutusScript; mint_redeemer : Redeemer }.
End Structures.

Class CslLib `{Csl} := {
  Address : Type;
  enterprise_address : Z -> Credential -> Address;
  to_bech32 : Address -> result JsError string;
  from_bech32 : string -> result JsError Address;
  plutus_data_from_address : Address -> result JsError PlutusData;
  plutus_data_debug : PlutusData -> string;
  plutus_data_to_bytes : PlutusData -> bytes;
  plutus_data_from_bytes : bytes -> result JsError PlutusData;

  PrivateKey : Type;
  PublicKey : Type;
  Ed25519Signature : Type;
  from_normal_bytes : bytes -> result JsError PrivateKey;
  to_public : PrivateKey -> PublicKey;
  public_hash : PublicKey -> bytes;
  key_sign : PrivateKey -> bytes -> Ed25519Signature;

  CslAssetName : Type;
  Assets : Type;
  MultiAsset : Type;
  Value : Type;
  asset_name_new : bytes -> result JsError CslAssetName;
  assets_new : Assets;
  assets_insert : CslAssetName -> Z -> Assets -> Assets;
  multiasset_new : MultiAsset;
  multiasset_insert : bytes -> Assets -> MultiAsset -> MultiAsset;
  value_new : Z -> Value;
  value_new_with_assets : Z -> MultiAsset -> Value;
  value_coin : Value -> Z;

  TransactionOutput : Type;
  OutputBuilder : Type;
  OutputAmountBuilder : Type;
  transaction_output_new : Address -> Value -> TransactionOutput;
  output_builder_new : OutputBuilder;
  with_address : Address -> OutputBuilder -> OutputBuilder;
  with_plutus_data : PlutusData -> OutputBuilder -> OutputBuilder;
  with_script_ref : CslPlutusScript -> OutputBuilder -> OutputBuilder;
  output_next : OutputBuilder -> result JsError OutputAmountBuilder;
  with_coin_and_asset : Z -> MultiAsset -> OutputAmountBuilder -> OutputAmountBuilder;
  output_build : OutputAmountBuilder -> result JsError TransactionOutput;
  (* [MinOutputAdaCalculator::new(output, DataCost::new_coins_per_byte(c)).calculate_ada()] *)
  calculate_ada : TransactionOutput -> Z -> result JsError Z;

  TxInputsBuilder : Type;
  inputs_new : TxInputsBuilder;
  add_regular_input : Address -> TransactionInput -> Value -> TxInputsBuilder -> result JsError TxInputsBuilder;
  add_key_input : bytes -> TransactionInput -> Value -> TxInputsBuilder -> TxInputsBuilder;
  add_plutus_script_input : PlutusWitness -> TransactionInput -> Value -> TxInputsBuilder -> TxInputsBuilder;

  MintBuilder : Type;
  mint_new : MintBuilder;
  mint_add_asset : MintWitness -> CslAssetName -> Z -> MintBuilder -> result JsError MintBuilder;

  TransactionBuilderConfig : Type;
  (* [TransactionBuilderConfigBuilder]: fee, pool and key deposits, value and transaction
     sizes, memory and step prices, coins per UTXO byte *)
  build_config : Z * Z -> Z -> Z -> Z -> Z -> Ratio * Ratio -> Z -> result JsError TransactionBuilderConfig;

  TransactionBody : Type;
  TransactionWitnessSet : Type;
  AuxiliaryData : Type;
  Transaction : Type;
  transaction_new : TransactionBody -> TransactionWitnessSet -> option AuxiliaryData -> Transaction;
  body : Transaction -> TransactionBody;
  witness_set : Transaction -> TransactionWitnessSet;
  auxiliary_data : Transaction -> option AuxiliaryData;
  vkeys : TransactionWitnessSet -> option (list (PublicKey * Ed25519Signature));
  set_vkeys : list (PublicKey * Ed25519Signature) -> TransactionWitnessSet -> TransactionWitnessSet;
  body_to_bytes : TransactionBody -> bytes;
  tx_to_bytes : Transaction -> bytes;

  TransactionBuilder : Type;
  builder : TransactionBuilderConfig -> TransactionBuilder;
  set_inputs : TxInputsBuilder -> TransactionBuilder -> TransactionBuilder;
  add_output : TransactionOutput -> TransactionBuilder -> result JsError TransactionBuilder;
  set_mint_builder : MintBuilder -> TransactionBuilder -> TransactionBuilder;
  set_collateral : TxInputsBuilder -> TransactionBuilder -> TransactionBuilder;
  add_required_signer : bytes -> TransactionBuilder -> TransactionBuilder;
  set_script_data_hash : bytes -> TransactionBuilder -> TransactionBuilder;
  calc_script_data_hash : list (LanguageKind * list Z) -> TransactionBuilder -> result JsError TransactionBuilder;
  (* inputs to choose from, strategy, change address; the second also the percentage *)
  add_inputs_from_and_change : list (TransactionInput * TransactionOutput) -> CoinSelectionStrategyCIP2 -> Address ->
    TransactionBuilder -> result JsError TransactionBuilder;
  add_inputs_from_and_change_with_collateral_return : list (TransactionInput * TransactionOutput) ->
    CoinSelectionStrategyCIP2 -> Address -> Z -> TransactionBuilder -> result JsError TransactionBuilder;
  build_tx : TransactionBuilder -> result JsError Transaction
}.

(** ** Conversions *)
Section Conversions.
Context `{CslLib, Blake2bHash}.

Definition network_id_kind_to_u8 (network : NetworkIdKind) : Z :=
  match network with NetMainnet => 1 | NetTestnet => 0 end.
Definition language_kind_to_u8 (language : LanguageKind) : Z :=
  match language with PlutusV1 => 1 | PlutusV2 => 2 | PlutusV3 => 3 end.
Definition NetworkType_to_csl (n : NetworkType) : NetworkIdKind :=
  match n with Mainnet => NetMainnet | Testnet => NetTestnet end.

Definition plutus_script_hash (script_bytes : bytes) (language : LanguageKind) : bytes :=
  let buf := [language_kind_to_u8 language] in
  let buf := buf ++ script_bytes in
  blake2b_hash 28 buf.
Definition script_address (script_bytes : bytes) (network : NetworkIdKind) (language : LanguageKind) : Address :=
  let script_hash := plutus_script_hash script_bytes language in
  enterprise_address (network_id_kind_to_u8 network) (from_scripthash script_hash).
Definition payment_address_of_key (key_bytes : bytes) (network : NetworkIdKind) : Address :=
  let key_hash := blake2b_hash 28 key_bytes in
  enterprise_address (network_id_kind_to_u8 network) (from_keyhash key_hash).
Definition key_hash_address (pub_key_hash : bytes) (network : NetworkIdKind) : Address :=
  enterprise_address (network_id_kind_to_u8 network) (from_keyhash pub_key_hash).

Definition convert_asset (csl_assets : Assets) (asset : Asset) : result JsError Assets :=
  amount ← ok_or (try_into_width 64 (asset_amount asset))
    ("Could not convert Ogmios UTOX value, asset amount " +:+ pretty (asset_amount asset) +:+ " too large");
  asset_name ← map_err (fun e => "Could not convert Ogmios UTXO value, asset name is invalid: '" +:+ e +:+ "'")
    (asset_name_new (asset_name asset));
  Ok (assets_insert asset_name amount csl_assets).
Definition convert_policy (multiasset : MultiAsset) (entry : bytes * list Asset) : result JsError MultiAsset :=
  let '(policy_id, assets) := entry in
  csl_assets ← try_fold convert_asset assets assets_new;
  Ok (multiasset_insert policy_id csl_assets multiasset).
Definition convert_value (value : OgmiosValue) : result JsError Value :=
  if decide (native_tokens value = ∅) then Ok (value_new (lovelace value))
  else
    multiasset ← try_fold convert_policy (map_to_list (native_tokens value)) multiasset_new;
    Ok (value_new_with_assets (lovelace value) multiasset).

Definition convert_cost_models (m : PlutusCostModels) : list (LanguageKind * list Z) :=
  [(PlutusV1, plutus_v1 m); (PlutusV2, plutus_v2 m); (PlutusV3, plutus_v3 m)].
Definition convert_ex_units (v : OgmiosBudget) : ExUnits := mkExUnits (memory v) (cpu v).
Definition get_first_validator_budget (validators_budgets : list OgmiosEvaluateTransactionResponse) : result JsError ExUnits :=
  validator_budget ← ok_or (head validators_budgets) "Internal error: cannot use evaluateTransaction response";
  Ok (convert_ex_units (budget validator_budget)).
Definition empty_asset_name : outcome CslAssetName := expect (ok (asset_name_new [])).

(** [trait OgmiosUtxoExt]. *)
Definition to_csl_tx_input (u : OgmiosUtxo) : TransactionInput :=
  mkTransactionInput (tx_id (transaction u)) (utxo_index u).
Definition to_csl_tx_output (u : OgmiosUtxo) : result JsError TransactionOutput :=
  address ← map_err (fun e => "Couldn't convert address from ogmios: '" +:+ e +:+ "'") (from_bech32 (utxo_address u));
  value ← convert_value (value u);
  Ok (transaction_output_new address value).
Definition utxo_to_csl (u : OgmiosUtxo) : result JsError (TransactionInput * TransactionOutput) :=
  output ← to_csl_tx_output u; Ok (to_csl_tx_input u, output).
Definition utxos_to_csl (utxos : list OgmiosUtxo) : result JsError (list (TransactionInput * TransactionOutput)) :=
  try_fold (fun acc u => u ← utxo_to_csl u; Ok (acc ++ [u])) utxos [].
Definition to_domain (u : OgmiosUtxo) : UtxoId := mkUtxoId (tx_id (transaction u)) (utxo_index u).

(** ** The transaction context *)
Record TransactionContext := mkTransactionContext {
  payment_key : PrivateKey;
  payment_key_utxos : list OgmiosUtxo;
  ctx_network : NetworkIdKind;
  protocol_parameters : ProtocolParametersResponse
}.
Definition payment_key_hash (ctx : TransactionContext) : bytes := public_hash (to_public (payment_key ctx)).
Definition payment_address (ctx : TransactionContext) : Address :=
  key_hash_address (public_hash (to_public (payment_key ctx))) (ctx_network ctx).
Definition sign (ctx : TransactionContext) (tx : Transaction) : Transaction :=
  let tx_hash := blake2b_hash 32 (body_to_bytes (body tx)) in
  let signature := key_sign (payment_key ctx) tx_hash in
  let ws := witness_set tx in
  let vkeywitnesses := default [] (vkeys ws) in
  let vkeywitnesses := vkeywitnesses ++ [(to_public (payment_key ctx), signature)] in
  transaction_new (body tx) (set_vkeys vkeywitnesses ws) (auxiliary_data tx).

(** A client's error, displayed when it is turned into an [anyhow::Error]. *)
Definition ask {S A} (m : stateful S OgmiosClientError A) : stateful S string A :=
  map_err_stateful OgmiosClientError_display m.
Definition for_payment_key {S} `{!MainchainClient S} (payment_signing_key : bytes) : stateful S string TransactionContext :=
  payment_key ←! stateless (lift (from_normal_bytes payment_signing_key));
  genesis ←! ask shelley_genesis_configuration;
  let network := NetworkType_to_csl (network genesis) in
  protocol_parameters ←! ask query_protocol_parameters;
  let payment_address := key_hash_address (public_hash (to_public payment_key)) network in
  address ←! stateless (lift (to_bech32 payment_address));
  payment_key_utxos ←! ask (query_utxos [address]);
  stateless (lift (Ok (mkTransactionContext payment_key payment_key_utxos network protocol_parameters))).

(** ** Building *)
Definition linear_fee (p : ProtocolParametersResponse) : Z * Z :=
  (min_fee_coefficient p, lovelace (min_fee_constant p)).
Definition ratio_to_unit_interval (ratio : Ratio) : Ratio := mkRatio (numer ratio) (denom ratio).
Definition get_builder_config (ctx : TransactionContext) : result JsError TransactionBuilderConfig :=
  let p := protocol_parameters ctx in
  pool_deposit ← convert_value (stake_pool_deposit p);
  key_deposit ← convert_value (stake_credential_deposit p);
  build_config (linear_fee p) (value_coin pool_deposit) (value_coin key_deposit)
    (size_bytes (max_value_size p)) (size_bytes (max_transaction_size p))
    (ratio_to_unit_interval (memory_price (script_execution_prices p)),
     ratio_to_unit_interval (cpu_price (script_execution_prices p)))
    (min_utxo_deposit_coefficient p).

Definition add_collateral_inputs (ctx : TransactionContext) (inputs : list OgmiosUtxo) (self : TransactionBuilder)
    : result JsError TransactionBuilder :=
  collateral_builder ← try_fold (fun collateral_builder utxo =>
      amount ← convert_value (value utxo);
      add_regular_input (key_hash_address (payment_key_hash ctx) (ctx_network ctx)) (to_csl_tx_input utxo) amount
        collateral_builder) inputs inputs_new;
  Ok (set_collateral collateral_builder self).

Definition lovelace_geb (a b : OgmiosUtxo) : bool := (lovelace (value b) <=? lovelace (value a))%Z.
Definition max_possible_collaterals (ctx : TransactionContext) : list OgmiosUtxo :=
  take (Z.to_nat (max_collateral_inputs (protocol_parameters ctx))) (sort_by lovelace_geb (payment_key_utxos ctx)).

Definition try_balance (builder : TransactionBuilder) (collateral_inputs : list OgmiosUtxo) (ctx : TransactionContext)
    : result JsError Transaction :=
  let builder := add_required_signer (payment_key_hash ctx) builder in
  let change := key_hash_address (payment_key_hash ctx) (ctx_network ctx) in
  builder ←
    match collateral_inputs with
    | [] =>
        utxos ← utxos_to_csl (payment_key_utxos ctx);
        add_inputs_from_and_change utxos LargestFirstMultiAsset change builder
    | _ =>
        builder ← add_collateral_inputs ctx collateral_inputs builder;
        let builder := set_script_data_hash (replicate 32 0) builder in
        utxos ← utxos_to_csl (payment_key_utxos ctx);
        builder ← add_inputs_from_and_change_with_collateral_return utxos LargestFirstMultiAsset change
          (collateral_percentage (protocol_parameters ctx)) builder;
        calc_script_data_hash (convert_cost_models (plutus_cost_models (protocol_parameters ctx))) builder
    end;
  build_tx builder.

Definition balance_error (e : JsError) : JsError :=
  "Could not balance transaction. Usually it means that the payment key does not own UTXO set required to cover transaction outputs and fees or to provide collateral. Cause: " +:+ e.
Section BalanceLoop.
Context (self : TransactionBuilder) (ctx : TransactionContext).
Fixpoint balance_loop (inputs selected : list OgmiosUtxo) : result JsError Transaction :=
  match inputs with
  | [] => map_err balance_error (try_balance self selected ctx)
  | input :: inputs' =>
      match try_balance self selected ctx with
      | Ok tx => Ok tx
      | Err _ => balance_loop inputs' (selected ++ [input])
      end
  end.
End BalanceLoop.
Definition balance_update_and_build (ctx : TransactionContext) (self : TransactionBuilder) : result JsError Transaction :=
  balance_loop self ctx (max_possible_collaterals ctx) [].

Definition add_key_inputs (utxos : list OgmiosUtxo) (key : bytes) (self : TxInputsBuilder) : result JsError TxInputsBuilder :=
  try_fold (fun self utxo =>
    amount ← convert_value (value utxo); Ok (add_key_input key (to_csl_tx_input utxo) amount self)) utxos self.
Definition with_key_inputs (utxos : list OgmiosUtxo) (key : bytes) : result JsError TxInputsBuilder :=
  add_key_inputs utxos key inputs_new.

(** *** Balancing takes as few collateral inputs as it can *)
Definition fails {A} (r : result JsError A) : Prop := exists e, r = Err e.
Lemma balance_loop_spec self ctx inputs selected :
  match balance_loop self ctx inputs selected with
  | Ok tx => exists k, (k <= length inputs)%nat /\ try_balance self (selected ++ take k inputs) ctx = Ok tx /\
      forall j, (j < k)%nat -> fails (try_balance self (selected ++ take j inputs) ctx)
  | Err e => (forall k, (k <= length inputs)%nat -> fails (try_balance self (selected ++ take k inputs) ctx)) /\
      exists e', e = balance_error e' /\ try_balance self (selected ++ inputs) ctx = Err e'
  end.
Proof.
  revert selected. induction inputs as [|input inputs IH]; intros selected; cbn [balance_loop].
  - rewrite app_nil_r. destruct (try_balance self selected ctx) as [tx|e] eqn:He; cbn [map_err].
    + exists 0%nat. cbn [take]. rewrite app_nil_r. split_and!; [lia|done|lia].
    + split; [|by eauto]. intros k Hk. rewrite take_nil, app_nil_r. by exists e.
  - destruct (try_balance self selected ctx) as [tx|e] eqn:He.
    + exists 0%nat. cbn [take]. rewrite app_nil_r. split_and!; [lia|done|lia].
    + specialize (IH (selected ++ [input])). destruct (balance_loop self ctx inputs (selected ++ [input])) as [tx|e'].
      * destruct IH as (k & Hk & Ht & Hm). exists (S k). cbn [length take]. rewrite <- app_assoc in Ht.
        split_and!; [lia|done|]. intros [|j] Hj; cbn [take]; [rewrite app_nil_r; by exists e|].
        specialize (Hm j ltac:(lia)). by rewrite <- app_assoc in Hm.
      * destruct IH as [Hm (e'' & -> & Hl)]. split; [|rewrite <- app_assoc in Hl; by eauto].
        intros [|k] Hk; cbn [take]; [rewrite app_nil_r; by exists e|].
        specialize (Hm k ltac:(cbn in Hk; lia)). by rewrite <- app_assoc in Hm.
Qed.

Lemma sorted_weaken {A} (R Q : A -> A -> Prop) l :
  (forall x y, R x y -> Q x y) -> StronglySorted R l -> StronglySorted Q l.
Proof. intros Hi. induction 1; constructor; [done|]. eapply Forall_impl; [done|]. by apply Hi. Qed.
Lemma max_possible_collaterals_spec ctx :
  let max_inputs := Z.to_nat (max_collateral_inputs (protocol_parameters ctx)) in
  exists rest, max_possible_collaterals ctx ++ rest ≡ₚ payment_key_utxos ctx /\
    length (max_possible_collaterals ctx) = Nat.min max_inputs (length (payment_key_utxos ctx)) /\
    StronglySorted (fun a b => lovelace (value b) <= lovelace (value a))%Z (max_possible_collaterals ctx ++ rest).
Proof.
  intros max_inputs. exists (drop max_inputs (sort_by lovelace_geb (payment_key_utxos ctx))).
  unfold max_possible_collaterals. fold max_inputs. rewrite take_drop, length_take. pose proof (sort_by_perm lovelace_geb (payment_key_utxos ctx)) as Hp.
  split; [exact Hp|]. split; [by rewrite (Permutation_length Hp)|].
  apply (sorted_weaken (fun x y => lovelace_geb x y = true)); [intros x y; apply Z.leb_le|].
  clear. apply sort_by_sorted; unfold lovelace_geb; intros; lia.
Qed.

(** C31: Balancing tries the wallet's UTXOs as collateral from the largest on: the
    transaction it returns is balanced with the shortest such prefix that works, of at most
    [max_collateral_inputs] UTXOs; it fails only when every such prefix fails, with the
    error of the longest. *)
Theorem balance_takes_fewest_collaterals self ctx :
  let collaterals := max_possible_collaterals ctx in
  (exists rest, collaterals ++ rest ≡ₚ payment_key_utxos ctx /\
     StronglySorted (fun a b => lovelace (value b) <= lovelace (value a))%Z (collaterals ++ rest)) /\
  length collaterals = Nat.min (Z.to_nat (max_collateral_inputs (protocol_parameters ctx))) (length (payment_key_utxos ctx)) /\
  match balance_update_and_build ctx self with
  | Ok tx => exists k, (k <= length collaterals)%nat /\ try_balance self (take k collaterals) ctx = Ok tx /\
      forall j, (j < k)%nat -> fails (try_balance self (take j collaterals) ctx)
  | Err e => (forall k, (k <= length collaterals)%nat -> fails (try_balance self (take k collaterals) ctx)) /\
      exists e', e = balance_error e' /\ try_balance self collaterals ctx = Err e'
  end.
Proof.
  intros collaterals. destruct (max_possible_collaterals_spec ctx) as (rest & Hp & Hl & Hs).
  split; [by exists rest|]. split; [done|]. apply (balance_loop_spec self ctx collaterals []).
Qed.
End Conversions.

(** ** Collateral selection *)
Module Collateral.
#[local] Open Scope Z_scope.
Definition MIN_REQUIRED_COLLATERAL : Z := 5000000.

Definition lovelace_leb (a b : OgmiosUtxo) : bool := lovelace (value a) <=? lovelace (value b).
(** [Vec::pop]. *)
Definition pop {A} (l : list A) : option (A * list A) :=
  match rev l with [] => None | x :: r => Some (x, rev r) end.

(** The [while] loop; [None] when the fuel is not enough. An iteration that finds no input
    leaves the state as it is. *)
Section Loop.
Context (amount_required : Z).
Fixpoint select_loop (fuel : nat) (inputs_available_sorted : list OgmiosUtxo) (sum : Z) (inputs_selected : list OgmiosUtxo)
    : option (list OgmiosUtxo) :=
  if sum <? amount_required then
    match fuel with
    | O => None
    | S fuel =>
        match pop inputs_available_sorted with
        | Some (utxo, inputs_available_sorted) =>
            select_loop fuel inputs_available_sorted (sum +[64] lovelace (value utxo)) (inputs_selected ++ [utxo])
        | None => select_loop fuel inputs_available_sorted sum inputs_selected
        end
    end
  else Some inputs_selected.
End Loop.

(** The two error messages, by what they print. *)
Inductive CollateralError :=
| NotEnoughLovelace (amount_available amount_required : Z)
| TooManyInputs (amount_required max_collateral_inputs : Z).
#[export] Instance CollateralError_eq_dec : EqDecision CollateralError.
Proof. solve_decision. Defined.

Definition CollateralError_display (e : CollateralError) : string :=
  match e with
  | NotEnoughLovelace available required =>
      "The available amount of lovelace (" +:+ pretty available +:+ ") is less than the required collateral amount (" +:+
      pretty required +:+ ")"
  | TooManyInputs required max_inputs =>
      "Could not find " +:+ pretty required +:+ " lovelace required for collateral in the " +:+ pretty max_inputs +:+
      " maximum allowed inputs"
  end.

Definition largest_first (fuel : nat) (inputs_available : list OgmiosUtxo)
    (amount_required max_collateral_inputs min_required_collateral : Z)
    : option (result CollateralError (list OgmiosUtxo)) :=
  let amount_required := Z.max amount_required min_required_collateral in
  let amount_available := sum_width 64 (map (fun utxo => lovelace (value utxo)) inputs_available) in
  if amount_available <? amount_required then Some (Err (NotEnoughLovelace amount_available amount_required))
  else
    let inputs_available_sorted := sort_by lovelace_leb inputs_available in
    inputs_selected ← select_loop amount_required fuel inputs_available_sorted 0 [];
    if max_collateral_inputs <? wrap 32 (Z.of_nat (length inputs_selected)) then
      Some (Err (TooManyInputs amount_required max_collateral_inputs))
    else Some (Ok inputs_selected).

(** *** Termination and result *)
Abbreviation lovelaces l := (map (fun utxo : OgmiosUtxo => lovelace (value utxo)) l).
Definition total (l : list OgmiosUtxo) : Z := sum_list (lovelaces l).
(** The wallet from its largest input to its smallest. *)
Definition largest (inputs : list OgmiosUtxo) : list OgmiosUtxo := rev (sort_by lovelace_leb inputs).

Lemma pop_rev {A} (x : A) l : pop (rev (x :: l)) = Some (x, rev l).
Proof. unfold pop. by rewrite rev_involutive. Qed.
Lemma largest_perm inputs : largest inputs ≡ₚ inputs.
Proof. unfold largest. by rewrite <- Permutation_rev, sort_by_perm. Qed.
Lemma total_app l k : total (l ++ k) = total l + total k.
Proof. unfold total. by rewrite map_app, sum_list_app. Qed.
Lemma total_perm l k : l ≡ₚ k -> total l = total k.
Proof. intros Hp. unfold total. by apply sum_list_perm, Permutation_map. Qed.

(** The selected inputs are the shortest prefix whose sum (at 64 bits) reaches the amount. *)
Definition sum64 (l : list OgmiosUtxo) : Z := wrap 64 (total l).
Lemma sum64_snoc l u : sum64 l +[64] lovelace (value u) = sum64 (l ++ [u]).
Proof.
  unfold sum64, wrapping_add, wrap. rewrite total_app. unfold total at 3. cbn [map sum_list foldr].
  by rewrite Z.add_0_r, Zplus_mod_idemp_l.
Qed.
Lemma select_loop_spec required fuel rest selected :
  (length rest <= fuel)%nat -> required <= sum64 (selected ++ rest) ->
  exists k, (k <= length rest)%nat /\
    select_loop required fuel (rev rest) (sum64 selected) selected = Some (selected ++ take k rest) /\
    required <= sum64 (selected ++ take k rest) /\
    forall j, (j < k)%nat -> sum64 (selected ++ take j rest) < required.
Proof.
  revert rest selected. induction fuel as [|fuel IH]; intros rest selected Hf Hs.
  - destruct rest; [|cbn in Hf; lia]. rewrite app_nil_r in Hs. exists 0%nat. cbn [select_loop take].
    destruct (Z.ltb_spec (sum64 selected) required); [lia|]. rewrite app_nil_r. split_and!; [done|done|done|lia].
  - cbn [select_loop]. destruct (Z.ltb_spec (sum64 selected) required) as [Hlt|Hge].
    + destruct rest as [|u rest]; [rewrite app_nil_r in Hs; lia|]. rewrite pop_rev, sum64_snoc.
      destruct (IH rest (selected ++ [u])) as (k & Hk & Hl & Hr & Hm); [cbn in Hf; lia|by rewrite <- app_assoc|].
      exists (S k). cbn [take length]. rewrite <- app_assoc in Hl, Hr. split_and!; [lia|done|done|].
      intros [|j] Hj; [cbn [take]; by rewrite app_nil_r|]. cbn [take]. specialize (Hm j ltac:(lia)).
      by rewrite <- app_assoc in Hm.
    + exists 0%nat. cbn [take]. rewrite app_nil_r. split_and!; [lia|done|done|lia].
Qed.

Lemma available_total inputs : sum_width 64 (lovelaces inputs) = sum64 (largest inputs).
Proof. rewrite sum_width_spec by lia. unfold sum64. by rewrite (total_perm _ _ (largest_perm inputs)). Qed.

(** The loop stops after at most one iteration per input, also when sums overflow. *)
Lemma largest_first_spec fuel inputs amount max_inputs min_required :
  (length inputs <= fuel)%nat ->
  let required := Z.max amount min_required in
  let selection := largest inputs in
  (sum64 selection < required /\
   largest_first fuel inputs amount max_inputs min_required = Some (Err (NotEnoughLovelace (sum64 selection) required))) \/
  (exists k, (k <= length inputs)%nat /\ required <= sum64 (take k selection) /\
     (forall j, (j < k)%nat -> sum64 (take j selection) < required) /\
     largest_first fuel inputs amount max_inputs min_required =
       Some (if max_inputs <? wrap 32 (Z.of_nat k) then Err (TooManyInputs required max_inputs)
             else Ok (take k selection))).
Proof.
  intros Hf required selection. unfold largest_first. fold required. rewrite available_total. fold selection.
  destruct (Z.ltb_spec (sum64 selection) required) as [Hlt|Hge]; [by left|right].
  assert (length selection = length inputs) as Hlen by (apply Permutation_length, largest_perm).
  destruct (select_loop_spec required fuel selection []) as (k & Hk & Hl & Hr & Hm); [lia|done|].
  exists k. cbn [app] in Hl, Hr, Hm. split_and!; [lia|done|done|].
  assert (rev selection = sort_by lovelace_leb inputs) as Hrev by (unfold selection, largest; by rewrite rev_involutive).
  rewrite Hrev in Hl. change (sum64 []) with 0 in Hl. rewrite Hl. cbn [mbind option_bind].
  rewrite length_take_le by lia. by case_match.
Qed.

(** *** Optimality *)
Lemma lovelace_leb_total x y : lovelace_leb x y = true \/ lovelace_leb y x = true.
Proof. unfold lovelace_leb. lia. Qed.
Lemma lovelace_leb_trans x y z : lovelace_leb x y = true -> lovelace_leb y z = true -> lovelace_leb x z = true.
Proof. unfold lovelace_leb. lia. Qed.

Definition descending (l : list OgmiosUtxo) : Prop := StronglySorted (fun x y => lovelace_leb y x = true) l.
Lemma sorted_snoc {A} (R : A -> A -> Prop) l x :
  StronglySorted R l -> Forall (fun y => R y x) l -> StronglySorted R (l ++ [x]).
Proof.
  induction 1 as [|y l Hl IH Hy]; intros Hx; [by repeat constructor|]. apply Forall_cons in Hx as [Hyx Hx].
  cbn [app]. constructor; [by apply IH|]. apply Forall_app. by repeat constructor.
Qed.
Lemma sorted_rev {A} (R : A -> A -> Prop) l : StronglySorted R l -> StronglySorted (flip R) (rev l).
Proof.
  induction 1 as [|y l Hl IH Hy]; [constructor|]. cbn [rev]. apply sorted_snoc; [done|].
  by rewrite <- Permutation_rev.
Qed.
Lemma largest_descending inputs : descending (largest inputs).
Proof.
  unfold descending, largest. apply (sorted_rev (fun x y => lovelace_leb x y = true)).
  apply sort_by_sorted; eauto using lovelace_leb_total, lovelace_leb_trans.
Qed.

Definition nonnegative (l : list OgmiosUtxo) : Prop := Forall (fun u => 0 <= lovelace (value u)) l.
Lemma total_cons u l : total (u :: l) = lovelace (value u) + total l.
Proof. done. Qed.
Lemma total_nonneg l : nonnegative l -> 0 <= total l.
Proof. intros Hl. unfold total. apply sum_list_nonneg. by apply Forall_map. Qed.
Lemma total_take_le n l : nonnegative l -> total (take n l) <= total l.
Proof.
  intros Hl. rewrite <- (take_drop n l) at 2. rewrite total_app.
  pose proof (total_nonneg (drop n l) (Forall_drop _ n _ Hl)). lia.
Qed.

(** Replacing the first input by a later one does not increase a prefix. *)
Lemma total_shift n x l :
  descending (x :: l) -> nonnegative (x :: l) -> total (take n l) <= total (take n (x :: l)).
Proof.
  intros Hd Hn. apply StronglySorted_inv in Hd as [_ Hd]. apply Forall_cons in Hn as [Hx _].
  destruct n as [|n]; [done|]. cbn [take]. rewrite total_cons. destruct (l !! n) as [u|] eqn:Hu.
  - rewrite (take_S_r _ _ _ Hu), total_app, total_cons.
    pose proof (Forall_lookup_1 _ _ _ _ Hd Hu) as Hle. unfold lovelace_leb in Hle. change (total []) with 0. lia.
  - apply lookup_ge_None in Hu. rewrite !take_ge by lia. lia.
Qed.
(** No choice of as many inputs has a larger total than the largest ones. *)
Lemma total_prefix_max l s :
  descending l -> nonnegative l -> s ⊆+ l -> total s <= total (take (length s) l).
Proof.
  revert s. induction l as [|x l IH]; intros s Hd Hn Hs.
  - apply submseteq_nil_r in Hs as ->. done.
  - pose proof (StronglySorted_inv Hd) as [Hd' _]. pose proof Hn as Hn'. apply Forall_cons in Hn' as [Hx Hn'].
    apply submseteq_cons_r in Hs as [Hs|(s' & Hp & Hs)].
    + etransitivity; [by apply IH|by apply total_shift].
    + rewrite (total_perm _ _ Hp), (Permutation_length Hp). cbn [length take]. rewrite !total_cons.
      specialize (IH s' Hd' Hn' Hs). lia.
Qed.
Lemma total_prefix_mono l j k : nonnegative l -> (j <= k)%nat -> total (take j l) <= total (take k l).
Proof.
  intros Hn Hjk. replace (take j l) with (take j (take k l)) by (rewrite take_take; f_equal; lia).
  apply total_take_le. by apply Forall_take.
Qed.

Definition required_amount (amount min_required : Z) : Z := Z.max amount min_required.
(** What a selection of collateral inputs should be. *)
Definition optimal_selection (inputs : list OgmiosUtxo) (required max_inputs : Z)
    (r : result CollateralError (list OgmiosUtxo)) : Prop :=
  match r with
  | Ok selected =>
      selected ⊆+ inputs /\ required <= total selected /\ Z.of_nat (length selected) <= max_inputs /\
      forall s, s ⊆+ inputs -> required <= total s -> (length selected <= length s)%nat
  | Err (NotEnoughLovelace available r) => available = total inputs /\ r = required /\ available < required
  | Err (TooManyInputs r m) => r = required /\ m = max_inputs /\ required <= total inputs /\
      forall s, s ⊆+ inputs -> Z.of_nat (length s) <= max_inputs -> total s < required
  end.
Definition lovelace_fits (inputs : list OgmiosUtxo) : Prop :=
  nonnegative inputs /\ total inputs < 2 ^ 64 /\ in_width 32 (Z.of_nat (length inputs)).

Lemma prefix_sum64 inputs k : lovelace_fits inputs -> sum64 (take k (largest inputs)) = total (take k (largest inputs)).
Proof.
  intros (Hn & Ht & _). unfold sum64. apply wrap_small.
  assert (nonnegative (largest inputs)) as Hn' by (unfold nonnegative; by rewrite largest_perm).
  pose proof (total_take_le k _ Hn') as Hk. rewrite (total_perm _ _ (largest_perm inputs)) in Hk.
  pose proof (total_nonneg _ (Forall_take _ k _ Hn')). split; lia.
Qed.

Lemma select_loop_more required fuel fuel' rest sum selected r :
  (fuel <= fuel')%nat -> select_loop required fuel rest sum selected = Some r ->
  select_loop required fuel' rest sum selected = Some r.
Proof.
  revert fuel' rest sum selected. induction fuel as [|fuel IH]; intros fuel' rest sum selected Hf Hr.
  - cbn in Hr. destruct fuel'; cbn; destruct (sum <? required); done.
  - destruct fuel' as [|fuel']; [lia|]. cbn in Hr |- *. destruct (sum <? required); [|done].
    destruct (pop rest) as [[u rest']|]; apply (IH fuel'); (lia || done).
Qed.

(** The loop of [largest_first] terminates on every wallet, also when the 64-bit sums
    wrap: one iteration per input is enough, and more iterations do not change the result. *)
Theorem largest_first_terminates inputs amount max_inputs min_required :
  exists r, forall fuel, (length inputs <= fuel)%nat ->
    largest_first fuel inputs amount max_inputs min_required = Some r.
Proof.
  assert (exists r, largest_first (length inputs) inputs amount max_inputs min_required = Some r) as [r Hr].
  { destruct (largest_first_spec (length inputs) inputs amount max_inputs min_required) as [[_ ->]|(k & _ & _ & _ & ->)]; eauto. }
  exists r. intros fuel Hf. revert Hr. unfold largest_first. case_match; [done|].
  destruct (select_loop _ (length inputs) _ _ _) as [l|] eqn:Hl; [|done].
  by rewrite (select_loop_more _ _ _ _ _ _ _ Hf Hl).
Qed.

(** C33: For a wallet whose total fits in 64 bits, [largest_first] selects inputs of the
    wallet that cover the collateral with as few inputs as any choice could; it reports
    missing lovelace exactly when the whole wallet is not enough, and too many inputs only
    when no choice within the limit covers the amount. *)
Theorem largest_first_optimal fuel inputs amount max_inputs min_required :
  (length inputs <= fuel)%nat -> lovelace_fits inputs ->
  exists r, largest_first fuel inputs amount max_inputs min_required = Some r /\
    optimal_selection inputs (required_amount amount min_required) max_inputs r.
Proof.
  intros Hf Hfit. pose proof Hfit as (Hn & Ht & Hw).
  assert (nonnegative (largest inputs)) as Hn' by (unfold nonnegative; by rewrite largest_perm).
  assert (length (largest inputs) = length inputs) as Hlen by apply Permutation_length, largest_perm.
  pose proof (prefix_sum64 inputs (length (largest inputs)) Hfit) as Hall. rewrite take_ge in Hall by lia.
  rewrite (total_perm _ _ (largest_perm inputs)) in Hall.
  destruct (largest_first_spec fuel inputs amount max_inputs min_required Hf) as [[Hlt ->]|(k & Hk & Hr & Hm & ->)];
    eexists; (split; [done|]); [cbn; unfold required_amount; lia|].
  rewrite prefix_sum64 in Hr by done.
  rewrite wrap_small by (unfold in_width in *; lia).
  assert (forall s, s ⊆+ inputs -> (length s < k)%nat -> total s < required_amount amount min_required) as Hbest.
  { intros s Hs Hj. specialize (Hm _ Hj). rewrite prefix_sum64 in Hm by done. unfold required_amount.
    eapply Z.le_lt_trans; [|exact Hm]. apply total_prefix_max; [apply largest_descending|done|by rewrite largest_perm]. }
  destruct (Z.ltb_spec max_inputs (Z.of_nat k)) as [Hmax|Hmax]; cbn [optimal_selection].
  - split_and!; [done..|unfold required_amount; pose proof (total_take_le k _ Hn'); rewrite (total_perm _ _ (largest_perm inputs)) in *; lia|].
    intros s Hs Hl. apply Hbest; [done|lia].
  - rewrite length_take_le by lia. split_and!; [|done|done|].
    + transitivity (largest inputs); [apply sublist_submseteq, sublist_take|by rewrite largest_perm].
    + intros s Hs Hreq. destruct (decide (length s < k)%nat) as [Hc|]; [|lia]. specialize (Hbest s Hs Hc). lia.
Qed.
End Collateral.

(** The wallet of the tests of [largest_first]. *)
Module Wallet.
Definition utxo (n : Z) : OgmiosUtxo :=
  mkOgmiosUtxo (mkOgmiosTx []) 0 "" (new_lovelace n) None None None.
Definition utxos : list OgmiosUtxo := map utxo [10; 20; 30; 50]%Z.
End Wallet.
Lemma largest_first_optimal_witness :
  Collateral.lovelace_fits Wallet.utxos /\
  exists r, Collateral.largest_first 4 Wallet.utxos 55 3 10 = Some r /\
    Collateral.optimal_selection Wallet.utxos (Collateral.required_amount 55 10) 3 r.
Proof.
  assert (Collateral.lovelace_fits Wallet.utxos) as Hfit
    by (split; [repeat constructor; vm_compute; discriminate|split; [done|done]]).
  split; [exact Hfit|]. apply (Collateral.largest_first_optimal 4 Wallet.utxos 55 3 10); [done|exact Hfit].
Defined.
Example largest_first_of_tests :
  Collateral.largest_first 4 Wallet.utxos 55 3 10 = Some (Ok (map Wallet.utxo [50; 30]%Z)) /\
  Collateral.largest_first 4 Wallet.utxos 109 3 10 = Some (Err (Collateral.TooManyInputs 109 3)) /\
  Collateral.largest_first 4 Wallet.utxos 111 3 10 = Some (Err (Collateral.NotEnoughLovelace 110 111)).
Proof. done. Qed.
