(* ===== verification/Offchain.v ===== *)
(** * Smart contract clients

    [toolkit/offchain]: Plutus scripts and the scripts of the partner chain
    ([plutus_script.rs], [scripts_data.rs], [untyped_plutus.rs]), setting the D-parameter
    ([d_param.rs]) and the permissioned candidates ([permissioned_candidates.rs]), and the
    initialisation of governance ([init_governance]).

    Third-party: [uplc] ([Uplc]), the compiled contracts of [raw-scripts] ([RawScripts]) and
    those of [OffchainCsl]. *)

From stdpp Require Import pretty.
From S2P Require Import Prelude Domain Cbor Json Ogmios PlutusDatums OffchainCsl.
#[local] Open Scope string_scope.
#[local] Open Scope list_scope.

Class Uplc `{Csl} := {
  UplcData : Type;
  BoundedBytes : bytes -> UplcData;
  UplcArray : list UplcData -> UplcData;
  UplcInt : Z -> UplcData;
  as_bounded_bytes : UplcData -> option bytes;
  (* [uplc::plutus_data] and [minicbor::decode] *)
  uplc_plutus_data : bytes -> result string UplcData;
  minicbor_decode : bytes -> result string UplcData;
  (* [cbor_event]'s serialization of the library's Plutus data *)
  cbor_event_serialize : PlutusData -> result string bytes;
  Program : Type;
  program_from_cbor : bytes -> result string Program;
  program_apply_data : UplcData -> Program -> Program;
  program_to_cbor : Program -> option bytes
}.
Class RawScripts := {
  COMMITTEE_CANDIDATE_VALIDATOR : bytes;
  D_PARAMETER_VALIDATOR : bytes;
  D_PARAMETER_POLICY : bytes;
  ILLIQUID_CIRCULATION_SUPPLY_VALIDATOR : bytes;
  PERMISSIONED_CANDIDATES_VALIDATOR : bytes;
  PERMISSIONED_CANDIDATES_POLICY : bytes;
  RESERVE_VALIDATOR : bytes;
  RESERVE_AUTH_POLICY : bytes;
  VERSION_ORACLE_VALIDATOR : bytes;
  VERSION_ORACLE_POLICY : bytes;
  MULTI_SIG_POLICY : bytes
}.

(** ** Plutus scripts *)
Record PlutusScript := mkPlutusScript { script_bytes : bytes; language : LanguageKind }.

Section Scripts.
Context `{CslLib, Blake2bHash, !Uplc, Minicbor}.

(** [expect] in [untyped_plutus.rs]. *)
Definition datum_to_uplc_plutus_data (datum : Cbor.Datum) : outcome UplcData :=
  expect (ok (uplc_plutus_data (encode_datum datum))).
Definition csl_plutus_data_to_uplc (d : PlutusData) : result string UplcData :=
  bytes ← cbor_event_serialize d; minicbor_decode bytes.
Definition unwrap_one_layer_of_cbor (plutus_script_raw : bytes) : result string bytes :=
  plutus_script_bytes ← minicbor_decode plutus_script_raw;
  ok_or (as_bounded_bytes plutus_script_bytes) "expected validator raw to be BoundedBytes".

Definition from_cbor (cbor : bytes) (language : LanguageKind) : PlutusScript := mkPlutusScript cbor language.
Definition from_wrapped_cbor (cbor : bytes) (language : LanguageKind) : fallible string PlutusScript :=
  bytes ←? lift (unwrap_one_layer_of_cbor cbor); lift (Ok (from_cbor bytes language)).
Definition apply_uplc_data (data : UplcData) (self : PlutusScript) : fallible string PlutusScript :=
  lift (program ← program_from_cbor (script_bytes self);
        let program := program_apply_data data program in
        bytes ← ok_or (program_to_cbor program) "Couldn't encode resulting script as CBOR.";
        Ok (mkPlutusScript bytes (language self))).
Definition apply_data `{ToDatum A} (data : A) (self : PlutusScript) : fallible string PlutusScript :=
  data ←? run (datum_to_uplc_plutus_data (to_datum data)); apply_uplc_data data self.

Definition address (network : NetworkIdKind) (self : PlutusScript) : Address :=
  OffchainCsl.script_address (script_bytes self) network (language self).
Definition address_data (network : NetworkIdKind) (self : PlutusScript) : fallible string UplcData :=
  lift (d ← plutus_data_from_address (address network self); csl_plutus_data_to_uplc d).
Definition address_bech32 (network : NetworkIdKind) (self : PlutusScript) : fallible string string :=
  lift (map_err (fun _ => "Converting script address to bech32") (to_bech32 (address network self))).
Definition script_hash (self : PlutusScript) : bytes := plutus_script_hash (script_bytes self) (language self).
Definition script_address_hash (self : PlutusScript) : MainchainAddressHash := script_hash self.
Definition policy_id (self : PlutusScript) : PolicyId := script_hash self.
(** [PlutusScript::new], [new_v2] and [new_v3] of the library. *)
Definition script_to_csl (self : PlutusScript) : CslPlutusScript :=
  match language self with
  | PlutusV1 => mkCslPlutusScript (script_bytes self) PlutusV1
  | PlutusV2 => mkCslPlutusScript (script_bytes self) PlutusV2
  | PlutusV3 => mkCslPlutusScript (script_bytes self) PlutusV3
  end.
Definition to_uplc_plutus_data (u : OgmiosUtxo) : outcome UplcData := datum_to_uplc_plutus_data (to_datum (to_domain u)).

(** ** Transaction builder extensions *)
Definition add_output_with_one_script_token (validator policy : PlutusScript) (datum : PlutusData) (ctx : TransactionContext)
    (self : TransactionBuilder) : fallible JsError TransactionBuilder :=
  amount_builder ←? lift (output_next (with_plutus_data datum (with_address (address (ctx_network ctx) validator) output_builder_new)));
  empty_asset_name ←? run empty_asset_name;
  let assets := assets_insert empty_asset_name 1 assets_new in
  let ma := multiasset_insert (script_hash policy) assets multiasset_new in
  output ←? lift (output_build (with_coin_and_asset 0 ma amount_builder));
  min_ada ←? lift (calculate_ada output (min_utxo_deposit_coefficient (protocol_parameters ctx)));
  output ←? lift (output_build (with_coin_and_asset min_ada ma amount_builder));
  lift (add_output output self).

Definition add_mint_one_script_token (script : PlutusScript) (ex_units : ExUnits) (self : TransactionBuilder)
    : fallible JsError TransactionBuilder :=
  let mint_witness := mkMintWitness (script_to_csl script) (mkRedeemer new_mint 0 (new_constr_plutus_data 0 []) ex_units) in
  empty_asset_name ←? run empty_asset_name;
  mint_builder ←? lift (mint_add_asset mint_witness empty_asset_name 1 mint_new);
  lift (Ok (set_mint_builder mint_builder self)).

Definition add_script_utxo_input (utxo : OgmiosUtxo) (script : PlutusScript) (ex_units : ExUnits) (self : TxInputsBuilder)
    : result JsError TxInputsBuilder :=
  let input := to_csl_tx_input utxo in
  amount ← convert_value (value utxo);
  let witness := mkPlutusWitness (script_to_csl script) (mkRedeemer new_spend 0 (new_constr_plutus_data 0 []) ex_units) in
  Ok (add_plutus_script_input witness input amount self).

(** ** Scripts of the partner chain *)
Section Chain.
Context `{!RawScripts}.

Definition multisig_governance_policy_configuration (governance_authority : MainchainAddressHash) : UplcData :=
  UplcArray [UplcArray [BoundedBytes governance_authority]; UplcInt 1].

Definition version_oracle (genesis_utxo : UtxoId) (network : NetworkIdKind)
    : fallible string (PlutusScript * PolicyId * UplcData) :=
  validator ←? from_wrapped_cbor VERSION_ORACLE_VALIDATOR PlutusV2;
  validator ←? apply_data genesis_utxo validator;
  policy_script ←? from_wrapped_cbor VERSION_ORACLE_POLICY PlutusV2;
  policy_script ←? apply_data genesis_utxo policy_script;
  validator_data ←? address_data network validator;
  policy_script ←? apply_uplc_data validator_data policy_script;
  let policy := policy_id policy_script in
  let policy_data := BoundedBytes policy in
  lift (Ok (validator, policy, policy_data)).

(** The scripts of [d_parameter_scripts] and [permissioned_candidates_scripts], which
    differ in the compiled contracts: a validator with the genesis UTXO and the version
    oracle's policy, and a policy that also takes the validator's address. *)
Definition governed_scripts (raw_validator raw_policy : bytes) (genesis_utxo : UtxoId) (network : NetworkIdKind)
    : fallible string (PlutusScript * PlutusScript) :=
  oracle ←? version_oracle genesis_utxo network;
  let '(_, version_oracle_policy, _) := oracle in
  validator ←? from_wrapped_cbor raw_validator PlutusV2;
  validator ←? apply_data genesis_utxo validator;
  validator ←? apply_data (version_oracle_policy : bytes) validator;
  policy ←? from_wrapped_cbor raw_policy PlutusV2;
  policy ←? apply_data genesis_utxo policy;
  policy ←? apply_data (version_oracle_policy : bytes) policy;
  validator_data ←? address_data network validator;
  policy ←? apply_uplc_data validator_data policy;
  lift (Ok (validator, policy)).
Definition d_parameter_scripts : UtxoId -> NetworkIdKind -> fallible string (PlutusScript * PlutusScript) :=
  governed_scripts D_PARAMETER_VALIDATOR D_PARAMETER_POLICY.
Definition permissioned_candidates_scripts : UtxoId -> NetworkIdKind -> fallible string (PlutusScript * PlutusScript) :=
  governed_scripts PERMISSIONED_CANDIDATES_VALIDATOR PERMISSIONED_CANDIDATES_POLICY.

Record Addresses := mkAddresses {
  a_committee_candidate_validator : string;
  a_d_parameter_validator : string;
  a_illiquid_circulation_supply_validator : string;
  a_permissioned_candidates_validator : string;
  a_reserve_validator : string;
  a_version_oracle_validator : string
}.
Record ValidatorHashes := mkValidatorHashes {
  h_committee_candidate_validator : MainchainAddressHash;
  h_d_parameter_validator : MainchainAddressHash;
  h_illiquid_circulation_supply_validator : MainchainAddressHash;
  h_permissioned_candidates_validator : MainchainAddressHash;
  h_reserve_validator : MainchainAddressHash;
  h_version_oracle_validator : MainchainAddressHash
}.
Record PolicyIds := mkPolicyIds {
  p_d_parameter : PolicyId;
  p_permissioned_candidates : PolicyId;
  p_reserve_auth : PolicyId;
  p_version_oracle : PolicyId;
  p_governance : PolicyId
}.
Record ScriptsData := mkScriptsData {
  addresses : Addresses;
  validator_hashes : ValidatorHashes;
  policy_ids : PolicyIds
}.

(** [MainchainAddressHash::from_vkey]. *)
Definition hash_of_vkey (vkey : bytes) : MainchainAddressHash := blake2b_hash 28 vkey.
Definition get_scripts_data (genesis_utxo : UtxoId) (network : NetworkIdKind) : fallible string ScriptsData :=
  oracle ←? version_oracle genesis_utxo network;
  let '(version_oracle_validator, version_oracle_policy, version_oracle_policy_data) := oracle in
  committee_candidate_validator ←? from_wrapped_cbor COMMITTEE_CANDIDATE_VALIDATOR PlutusV2;
  committee_candidate_validator ←? apply_data genesis_utxo committee_candidate_validator;
  d_scripts ←? d_parameter_scripts genesis_utxo network;
  let '(d_parameter_validator, d_parameter_policy) := d_scripts in
  illiquid_circulation_supply_validator ←? from_wrapped_cbor ILLIQUID_CIRCULATION_SUPPLY_VALIDATOR PlutusV2;
  illiquid_circulation_supply_validator ←? apply_uplc_data version_oracle_policy_data illiquid_circulation_supply_validator;
  p_scripts ←? permissioned_candidates_scripts genesis_utxo network;
  let '(permissioned_candidates_validator, permissioned_candidates_policy) := p_scripts in
  reserve_validator ←? from_wrapped_cbor RESERVE_VALIDATOR PlutusV2;
  reserve_validator ←? apply_uplc_data version_oracle_policy_data reserve_validator;
  governance_policy ←? from_wrapped_cbor MULTI_SIG_POLICY PlutusV2;
  governance_policy ←? apply_uplc_data (multisig_governance_policy_configuration (hash_of_vkey (replicate 32 0%Z))) governance_policy;
  reserve_auth_policy ←? from_wrapped_cbor RESERVE_AUTH_POLICY PlutusV2;
  reserve_auth_policy ←? apply_uplc_data version_oracle_policy_data reserve_auth_policy;
  a1 ←? address_bech32 network committee_candidate_validator;
  a2 ←? address_bech32 network d_parameter_validator;
  a3 ←? address_bech32 network illiquid_circulation_supply_validator;
  a4 ←? address_bech32 network permissioned_candidates_validator;
  a5 ←? address_bech32 network reserve_validator;
  a6 ←? address_bech32 network version_oracle_validator;
  lift (Ok (mkScriptsData (mkAddresses a1 a2 a3 a4 a5 a6)
    (mkValidatorHashes (script_address_hash committee_candidate_validator) (script_address_hash d_parameter_validator)
       (script_address_hash illiquid_circulation_supply_validator) (script_address_hash permissioned_candidates_validator)
       (script_address_hash reserve_validator) (script_address_hash version_oracle_validator))
    (mkPolicyIds (policy_id d_parameter_policy) (policy_id permissioned_candidates_policy) (policy_id reserve_auth_policy)
       version_oracle_policy (policy_id governance_policy)))).

Inductive OffchainError := OgmiosError (e : string) | InternalError (e : string).
Definition get_scripts_data_of_client {S} `{!MainchainClient S} (genesis_utxo : UtxoId)
    : stateful S OffchainError ScriptsData :=
  configuration ←! map_err_stateful (fun e => OgmiosError (OgmiosClientError_display e)) shelley_genesis_configuration;
  map_err_stateful InternalError
    (stateless (get_scripts_data genesis_utxo (NetworkType_to_csl (network configuration)))).

(** ** Evaluating, signing and submitting

    The common body of the four operations below: build the transaction without execution
    units, have it evaluated, build it again with the budget of its first validator, sign
    and submit it. *)
Definition with_bytes `{!Hex} (message : string) (tx : Transaction) (e : OgmiosClientError) : string :=
  message +:+ OgmiosClientError_display e +:+ ", bytes: " +:+ String.string_of_list_ascii (hex_encode (tx_to_bytes tx)).
Definition zero_ex_units : ExUnits := mkExUnits 0 0.
Definition evaluate_and_submit `{!Hex} {S} `{!MainchainClient S} (evaluate_message submit_message : string)
    (ctx : TransactionContext) (build : ExUnits -> fallible JsError Transaction) : stateful S string McTxHash :=
  tx ←! stateless (build zero_ex_units);
  evaluate_response ←! map_err_stateful (with_bytes evaluate_message tx) (evaluate_transaction (tx_to_bytes tx));
  ex_units ←! stateless (lift (get_first_validator_budget evaluate_response));
  tx ←! stateless (build ex_units);
  let signed_tx := tx_to_bytes (sign ctx tx) in
  res ←! map_err_stateful (with_bytes submit_message tx) (submit_transaction signed_tx);
  stateless (lift (Ok (tx_id (submitted res)))).

(** A transaction that mints the token of [policy] to the validator with [datum], and one
    that spends [script_utxo], unlocked by [unlocking], and creates such an output. *)
Definition mint_token_tx (validator policy : PlutusScript) (datum : PlutusData) (ctx : TransactionContext)
    (mint_witness_ex_units : ExUnits) : fallible JsError Transaction :=
  config ←? lift (get_builder_config ctx);
  let tx_builder := builder config in
  tx_builder ←? add_mint_one_script_token policy mint_witness_ex_units tx_builder;
  tx_builder ←? add_output_with_one_script_token validator policy datum ctx tx_builder;
  lift (balance_update_and_build ctx tx_builder).
Definition update_token_tx (unlocking validator policy : PlutusScript) (datum : PlutusData) (script_utxo : OgmiosUtxo)
    (ctx : TransactionContext) (validator_redeemer_ex_units : ExUnits) : fallible JsError Transaction :=
  config ←? lift (get_builder_config ctx);
  let tx_builder := builder config in
  inputs ←? lift (add_script_utxo_input script_utxo unlocking validator_redeemer_ex_units inputs_new);
  let tx_builder := set_inputs inputs tx_builder in
  tx_builder ←? add_output_with_one_script_token validator policy datum ctx tx_builder;
  lift (balance_update_and_build ctx tx_builder).

(** ** D-parameter *)
Definition decoding_error (e : DataDecodingError) : string :=
  "Could not decode " +:+ plutus_data_debug (PlutusDatums.datum e) +:+ " to " +:+ to e +:+ ": " +:+ msg e.
Definition get_current_d_parameter (validator_utxos : list OgmiosUtxo) : result string (option (OgmiosUtxo * DParameter)) :=
  match head validator_utxos with
  | Some utxo =>
      datum ← ok_or (Ogmios.datum utxo) "Invalid state: an UTXO at the validator script address does not have a datum";
      datum_plutus_data ← map_err (fun e => "Internal error: could not decode datum of D-parameter validator script: " +:+ e)
        (plutus_data_from_bytes (datum_bytes datum));
      current ← map_err (fun e => "Internal error: could not decode datum of D-parameter validator script: " +:+ decoding_error e)
        (decode (T := DParamDatum) datum_plutus_data);
      Ok (Some (utxo, DParameter_from current))
  | None => Ok None
  end.

Section Operations.
Context `{!Hex} {S : Type} `{!MainchainClient S}.

Definition mint_d_param_token_tx (validator policy : PlutusScript) (d_parameter : DParameter) : TransactionContext -> ExUnits ->
    fallible JsError Transaction :=
  mint_token_tx validator policy (d_parameter_to_plutus_data d_parameter).
Definition update_d_param_tx (validator policy : PlutusScript) (d_parameter : DParameter) : OgmiosUtxo -> TransactionContext ->
    ExUnits -> fallible JsError Transaction :=
  update_token_tx validator validator policy (d_parameter_to_plutus_data d_parameter).
Definition insert_d_param (validator policy : PlutusScript) (d_parameter : DParameter) (ctx : TransactionContext)
    : stateful S string McTxHash :=
  evaluate_and_submit "Evaluate insert D-parameter transaction request failed: "
    "Submit insert D-parameter transaction request failed: " ctx (mint_d_param_token_tx validator policy d_parameter ctx).
Definition update_d_param (validator policy : PlutusScript) (d_parameter : DParameter) (current_utxo : OgmiosUtxo)
    (ctx : TransactionContext) : stateful S string McTxHash :=
  evaluate_and_submit "Evaluate update D-parameter transaction request failed: "
    "Submit D-parameter update transaction request failed: " ctx
    (update_d_param_tx validator policy d_parameter current_utxo ctx).
Definition upsert_d_param (genesis_utxo : UtxoId) (d_parameter : DParameter) (payment_signing_key : bytes)
    : stateful S string (option McTxHash) :=
  ctx ←! for_payment_key payment_signing_key;
  scripts ←! stateless (d_parameter_scripts genesis_utxo (ctx_network ctx));
  let '(validator, policy) := scripts in
  validator_address ←! stateless (address_bech32 (ctx_network ctx) validator);
  validator_utxos ←! ask (query_utxos [validator_address]);
  current ←! stateless (lift (get_current_d_parameter validator_utxos));
  match current with
  | Some (current_utxo, current_d_param) =>
      if decide (current_d_param = d_parameter) then stateless (lift (Ok None))
      else h ←! update_d_param validator policy d_parameter current_utxo ctx; stateless (lift (Ok (Some h)))
  | None => h ←! insert_d_param validator policy d_parameter ctx; stateless (lift (Ok (Some h)))
  end.

(** ** Permissioned candidates *)

(** [#[derive(Ord)]]: by the fields in order. *)
Definition candidate_leb (a b : PermissionedCandidateData) : bool :=
  if decide (sidechain_public_key a = sidechain_public_key b) then
    if decide (aura_public_key a = aura_public_key b) then bytes_leb (grandpa_public_key a) (grandpa_public_key b)
    else bytes_leb (aura_public_key a) (aura_public_key b)
  else bytes_leb (sidechain_public_key a) (sidechain_public_key b).
Definition get_current_permissioned_candidates (validator_utxos : list OgmiosUtxo)
    : result string (option (OgmiosUtxo * list PermissionedCandidateData)) :=
  match head validator_utxos with
  | Some utxo =>
      datum ← ok_or (Ogmios.datum utxo) "Invalid state: an UTXO at the validator script address does not have a datum";
      datum_plutus_data ← map_err
        (fun e => "Internal error: could not decode datum of permissioned candidates validator script: " +:+ e)
        (plutus_data_from_bytes (datum_bytes datum));
      current ← map_err
        (fun e => "Internal error: could not decode datum of permissioned candidates validator script: " +:+ decoding_error e)
        (decode (T := PermissionedCandidateDatums) datum_plutus_data);
      Ok (Some (utxo, sort_by candidate_leb (PermissionedCandidates_from current)))
  | None => Ok None
  end.

Definition mint_permissioned_candidates_token_tx (validator policy : PlutusScript)
    (permissioned_candidates : list PermissionedCandidateData) : TransactionContext -> ExUnits -> fallible JsError Transaction :=
  mint_token_tx validator policy (permissioned_candidates_to_plutus_data permissioned_candidates).
(** The script attached to the spent UTXO is the policy. *)
Definition update_permissioned_candidates_tx (validator policy : PlutusScript)
    (permissioned_candidates : list PermissionedCandidateData)
    : OgmiosUtxo -> TransactionContext -> ExUnits -> fallible JsError Transaction :=
  update_token_tx policy validator policy (permissioned_candidates_to_plutus_data permissioned_candidates).
Definition insert_permissioned_candidates (validator policy : PlutusScript) (candidates : list PermissionedCandidateData)
    (ctx : TransactionContext) : stateful S string McTxHash :=
  evaluate_and_submit "Evaluate insert permissioned candidates transaction request failed: "
    "Submit insert permissioned candidates transaction request failed: " ctx
    (mint_permissioned_candidates_token_tx validator policy candidates ctx).
Definition update_permissioned_candidates (validator policy : PlutusScript) (candidates : list PermissionedCandidateData)
    (current_utxo : OgmiosUtxo) (ctx : TransactionContext) : stateful S string McTxHash :=
  evaluate_and_submit "Evaluate update permissioned candidates transaction request failed: "
    "Submit update permissioned candidates transaction request failed: " ctx
    (update_permissioned_candidates_tx validator policy candidates current_utxo ctx).
Definition upsert_permissioned_candidates (genesis_utxo : UtxoId) (candidates : list PermissionedCandidateData)
    (payment_signing_key : bytes) : stateful S string (option McTxHash) :=
  ctx ←! for_payment_key payment_signing_key;
  scripts ←! stateless (permissioned_candidates_scripts genesis_utxo (ctx_network ctx));
  let '(validator, policy) := scripts in
  validator_address ←! stateless (address_bech32 (ctx_network ctx) validator);
  validator_utxos ←! ask (query_utxos [validator_address]);
  let candidates := sort_by candidate_leb candidates in
  current ←! stateless (lift (get_current_permissioned_candidates validator_utxos));
  match current with
  | Some (current_utxo, current_permissioned_candidates) =>
      if decide (current_permissioned_candidates = candidates) then stateless (lift (Ok None))
      else h ←! update_permissioned_candidates validator policy candidates current_utxo ctx; stateless (lift (Ok (Some h)))
  | None => h ←! insert_permissioned_candidates validator policy candidates ctx; stateless (lift (Ok (Some h)))
  end.

(** ** Governance *)
Definition SCRIPT_ID : Z := 32.
(** The bytes of "Version oracle". *)
Definition version_oracle_asset_name : outcome CslAssetName :=
  expect (ok (asset_name_new [86; 101; 114; 115; 105; 111; 110; 32; 111; 114; 97; 99; 108; 101]%Z)).
Definition mint_witness (version_oracle_policy multi_sig_policy : PlutusScript) (ex_units : ExUnits) : MintWitness :=
  mkMintWitness (script_to_csl version_oracle_policy)
    (mkRedeemer new_mint 0
       (new_constr_plutus_data 0 [new_integer SCRIPT_ID; new_bytes (script_hash multi_sig_policy)]) ex_units).
Definition version_oracle_datum_output (version_oracle_validator version_oracle_policy multi_sig_policy : PlutusScript)
    (network : NetworkIdKind) (tx_context : TransactionContext) : fallible string TransactionOutput :=
  let datum := version_oracle_to_plutus_data (mkVersionOracleDatum SCRIPT_ID (policy_id version_oracle_policy)) in
  amount_builder ←? lift (output_next (with_script_ref (script_to_csl multi_sig_policy)
    (with_plutus_data datum (with_address (address network version_oracle_validator) output_builder_new))));
  asset_name ←? run version_oracle_asset_name;
  let assets := assets_insert asset_name 1 assets_new in
  let ma := multiasset_insert (policy_id version_oracle_policy) assets multiasset_new in
  output ←? lift (output_build (with_coin_and_asset 0 ma amount_builder));
  min_ada ←? lift (calculate_ada output (min_utxo_deposit_coefficient (protocol_parameters tx_context)));
  lift (output_build (with_coin_and_asset min_ada ma amount_builder)).
Definition init_governance_transaction (multi_sig_policy version_oracle_validator version_oracle_policy : bytes)
    (governance_authority : MainchainAddressHash) (tx_context : TransactionContext) (genesis_utxo : OgmiosUtxo)
    (ex_units : ExUnits) : fallible string Transaction :=
  multi_sig_policy ←? from_wrapped_cbor multi_sig_policy PlutusV2;
  multi_sig_policy ←? apply_uplc_data (multisig_governance_policy_configuration governance_authority) multi_sig_policy;
  version_oracle_validator ←? from_wrapped_cbor version_oracle_validator PlutusV2;
  genesis ←? run (to_uplc_plutus_data genesis_utxo);
  version_oracle_validator ←? apply_uplc_data genesis version_oracle_validator;
  version_oracle_policy ←? from_wrapped_cbor version_oracle_policy PlutusV2;
  genesis ←? run (to_uplc_plutus_data genesis_utxo);
  version_oracle_policy ←? apply_uplc_data genesis version_oracle_policy;
  validator_data ←? address_data (ctx_network tx_context) version_oracle_validator;
  version_oracle_policy ←? apply_uplc_data validator_data version_oracle_policy;
  config ←? lift (get_builder_config tx_context);
  let tx_builder := builder config in
  asset_name ←? run version_oracle_asset_name;
  mint_builder ←? lift (mint_add_asset (mint_witness version_oracle_policy multi_sig_policy ex_units) asset_name 1 mint_new);
  let tx_builder := set_mint_builder mint_builder tx_builder in
  output ←? version_oracle_datum_output version_oracle_validator version_oracle_policy multi_sig_policy
    (ctx_network tx_context) tx_context;
  tx_builder ←? lift (add_output output tx_builder);
  inputs ←? lift (with_key_inputs [genesis_utxo] (payment_key_hash tx_context));
  let tx_builder := set_inputs inputs tx_builder in
  lift (balance_update_and_build tx_context tx_builder).

Definition is_utxo (utxo_id : UtxoId) (utxo : OgmiosUtxo) : bool :=
  bool_decide (tx_id (transaction utxo) = tx_hash utxo_id) && (utxo_index utxo =? index utxo_id)%Z.
Definition choose_genesis_utxo `{!HexCodec} (own_utxos : list OgmiosUtxo) (genesis_utxo_id : option UtxoId)
    : result string OgmiosUtxo :=
  match genesis_utxo_id with
  | None => ok_or (head own_utxos) "No UTXOs to choose from"
  | Some utxo_id => ok_or (List.find (is_utxo utxo_id) own_utxos)
      ("Could not find genesis UTXO: " +:+ String.string_of_list_ascii (UtxoId_display utxo_id))
  end.
(** The progress messages are not modelled, except that printing the address and the
    transaction may fail: [to_bech32] and [to_json] ([tx_to_json]). *)
Definition run_init_governance `{!HexCodec} (tx_to_json : Transaction -> result string string)
    (governance_authority : MainchainAddressHash) (payment_key : bytes) (genesis_utxo_id : option UtxoId)
    : stateful S string OgmiosTx :=
  payment_key ←! stateless (run (expect (ok (from_normal_bytes payment_key))));
  configuration ←! ask shelley_genesis_configuration;
  let network := NetworkType_to_csl (network configuration) in
  let own_address := key_hash_address (public_hash (to_public payment_key)) network in
  own_bech32 ←! stateless (run (expect (ok (to_bech32 own_address))));
  own_utxos ←! ask (query_utxos [own_bech32]);
  protocol_parameters ←! ask query_protocol_parameters;
  genesis_utxo ←! stateless (lift (choose_genesis_utxo own_utxos genesis_utxo_id));
  let tx_context := mkTransactionContext payment_key own_utxos network protocol_parameters in
  unsigned_transaction ←! stateless (init_governance_transaction MULTI_SIG_POLICY VERSION_ORACLE_VALIDATOR
    VERSION_ORACLE_POLICY governance_authority tx_context genesis_utxo zero_ex_units);
  _json ←! stateless (lift (tx_to_json unsigned_transaction));
  all_costs ←! ask (evaluate_transaction (tx_to_bytes unsigned_transaction));
  cost ←! stateless (lift (get_first_validator_budget all_costs));
  unsigned_transaction ←! stateless (init_governance_transaction MULTI_SIG_POLICY VERSION_ORACLE_VALIDATOR
    VERSION_ORACLE_POLICY governance_authority tx_context genesis_utxo cost);
  let signed_transaction := sign tx_context unsigned_transaction in
  result ←! ask (submit_transaction (tx_to_bytes signed_transaction));
  stateless (lift (Ok (submitted result))).
End Operations.
End Chain.
End Scripts.
