(* ===== verification/OffchainUpsert.v ===== *)
(** * What the smart contract clients achieve

    The transactions that [Offchain] submits, seen from the ledger: what a transaction
    spends, creates and carries as scripts, and the UTXOs at the contract's address once it
    is settled. *)

From S2P Require Import Prelude Domain Cbor Json Ogmios PlutusDatums OffchainCsl Offchain.
#[local] Open Scope string_scope.
#[local] Open Scope list_scope.

(** ** The library's documented behaviour *)
Record BuilderView `{CslLib} := mkBuilderView {
  bv_inputs : list TransactionInput;
  bv_outputs : list TransactionOutput;
  bv_scripts : list CslPlutusScript;
  bv_mint_scripts : list CslPlutusScript
}.
Class CslViews `{CslLib} := {
  body_inputs : TransactionBody -> list TransactionInput;
  body_outputs : TransactionBody -> list TransactionOutput;
  plutus_scripts : TransactionWitnessSet -> list CslPlutusScript;
  output_address : TransactionOutput -> Address;
  output_data : TransactionOutput -> option PlutusData;
  view : TransactionBuilder -> BuilderView;
  inputs_view : TxInputsBuilder -> list TransactionInput * list CslPlutusScript;
  mint_view : MintBuilder -> list CslPlutusScript
}.

(** What a builder holds after its selection of inputs and change: more inputs, and
    outputs to the change address. *)
Definition selects `{CslViews} (change : Address) (b b' : TransactionBuilder) : Prop :=
  exists more outputs, Forall (fun o => output_address o = change) outputs /\
    view b' = mkBuilderView _ _ (bv_inputs (view b) ++ more) (bv_outputs (view b) ++ outputs) (bv_scripts (view b))
                (bv_mint_scripts (view b)).
Class CslLibLaws `{CslViews} : Prop := {
  enterprise_address_inj : forall n c n' c', enterprise_address n c = enterprise_address n' c' -> n = n' /\ c = c';
  to_bech32_inj : forall a b s, to_bech32 a = Ok s -> to_bech32 b = Ok s -> a = b;
  plutus_data_from_to_bytes : forall d, plutus_data_from_bytes (plutus_data_to_bytes d) = Ok d;
  body_new : forall b w a, body (transaction_new b w a) = b;
  witness_set_new : forall b w a, witness_set (transaction_new b w a) = w;
  plutus_scripts_set_vkeys : forall v w, plutus_scripts (set_vkeys v w) = plutus_scripts w;
  built_output : forall a d ab c m o,
    output_next (with_plutus_data d (with_address a output_builder_new)) = Ok ab ->
    output_build (with_coin_and_asset c m ab) = Ok o -> output_address o = a /\ output_data o = Some d;
  built_script_output : forall a d r ab c m o,
    output_next (with_script_ref r (with_plutus_data d (with_address a output_builder_new))) = Ok ab ->
    output_build (with_coin_and_asset c m ab) = Ok o -> output_address o = a /\ output_data o = Some d;
  inputs_view_new : inputs_view inputs_new = ([], []);
  inputs_view_key : forall k i v b, inputs_view (add_key_input k i v b) = (fst (inputs_view b) ++ [i], snd (inputs_view b));
  inputs_view_script : forall w i v b, inputs_view (add_plutus_script_input w i v b) =
    (fst (inputs_view b) ++ [i], snd (inputs_view b) ++ [witness_script w]);
  mint_view_new : mint_view mint_new = [];
  mint_view_add : forall w n z m m', mint_add_asset w n z m = Ok m' -> mint_view m' = mint_view m ++ [mint_script w];
  view_new : forall c, view (builder c) = mkBuilderView _ _ [] [] [] [];
  view_set_inputs : forall i b, view (set_inputs i b) =
    mkBuilderView _ _ (fst (inputs_view i)) (bv_outputs (view b)) (snd (inputs_view i)) (bv_mint_scripts (view b));
  view_add_output : forall o b b', add_output o b = Ok b' -> view b' =
    mkBuilderView _ _ (bv_inputs (view b)) (bv_outputs (view b) ++ [o]) (bv_scripts (view b)) (bv_mint_scripts (view b));
  view_set_mint : forall m b, view (set_mint_builder m b) =
    mkBuilderView _ _ (bv_inputs (view b)) (bv_outputs (view b)) (bv_scripts (view b)) (mint_view m);
  view_set_collateral : forall i b, view (set_collateral i b) = view b;
  view_add_required_signer : forall k b, view (add_required_signer k b) = view b;
  view_set_script_data_hash : forall h b, view (set_script_data_hash h b) = view b;
  view_calc_script_data_hash : forall m b b', calc_script_data_hash m b = Ok b' -> view b' = view b;
  selects_inputs : forall us st change b b',
    add_inputs_from_and_change us st change b = Ok b' -> selects change b b';
  selects_inputs_with_return : forall us st change p b b',
    add_inputs_from_and_change_with_collateral_return us st change p b = Ok b' -> selects change b b';
  built_inputs : forall b tx, build_tx b = Ok tx -> body_inputs (body tx) ≡ₚ bv_inputs (view b);
  built_outputs : forall b tx, build_tx b = Ok tx -> body_outputs (body tx) = bv_outputs (view b);
  built_scripts : forall b tx s, build_tx b = Ok tx ->
    s ∈ plutus_scripts (witness_set tx) <-> s ∈ bv_scripts (view b) \/ s ∈ bv_mint_scripts (view b)
}.

(** ** The ledger *)
Section Ledger.
Context `{CslViews, Blake2bHash}.

Definition at_address (a : string) (o : TransactionOutput) : bool := bool_decide (to_bech32 (output_address o) = Ok a).
(** How a node shows an output of [tx]. *)
Definition shows (tx : Transaction) (o : TransactionOutput) (u : OgmiosUtxo) : Prop :=
  tx_id (transaction u) = blake2b_hash 32 (body_to_bytes (body tx)) /\
  to_bech32 (output_address o) = Ok (utxo_address u) /\
  Ogmios.datum u = option_map (fun d => mkDatum (plutus_data_to_bytes d)) (output_data o).
Definition spends (tx : Transaction) (u : OgmiosUtxo) : bool := bool_decide (to_csl_tx_input u ∈ body_inputs (body tx)).
(** [us] are the UTXOs at an address before a transaction, [us'] those after it. *)
Definition settled (tx : Transaction) (a : string) (us us' : list OgmiosUtxo) : Prop :=
  exists created, Forall2 (shows tx) (List.filter (at_address a) (body_outputs (body tx))) created /\
    us' ≡ₚ List.filter (fun u => negb (spends tx u)) us ++ created.
(** A script locked UTXO can only be spent by a transaction that carries its script. *)
Definition carries_script_of (tx : Transaction) (network : NetworkIdKind) (u : OgmiosUtxo) : Prop :=
  exists s, s ∈ plutus_scripts (witness_set tx) /\
    to_bech32 (OffchainCsl.script_address (csl_script_bytes s) network (csl_script_language s)) = Ok (utxo_address u).
End Ledger.

(** ** Transactions *)
Section Transactions.
Context `{CslLibLaws, Blake2bHash, !Uplc, Minicbor}.

(** [tx] spends [spent], carries exactly [scripts], and creates [out] and change. *)
Record carries_out (ctx : TransactionContext) (tx : Transaction) (spent : list TransactionInput)
    (out : TransactionOutput) (scripts : list CslPlutusScript) : Prop := {
  co_spends : forall i, i ∈ spent -> i ∈ body_inputs (body tx);
  co_outputs : exists change, body_outputs (body tx) = out :: change /\
    Forall (fun o => output_address o = payment_address ctx) change;
  co_scripts : forall s, s ∈ plutus_scripts (witness_set tx) <-> s ∈ scripts
}.

Lemma add_collateral_view ctx inputs b b' : add_collateral_inputs ctx inputs b = Ok b' -> view b' = view b.
Proof.
  unfold add_collateral_inputs, mbind, result_bind. intros Hb. destruct (try_fold _ inputs inputs_new); [|done].
  simplify_eq. apply view_set_collateral.
Qed.
Lemma selects_ext change b c b' : view c = view b -> selects change c b' -> selects change b b'.
Proof. unfold selects. by intros ->. Qed.

Lemma try_balance_selects b collaterals ctx tx :
  try_balance b collaterals ctx = Ok tx -> exists b', build_tx b' = Ok tx /\ selects (payment_address ctx) b b'.
Proof.
  unfold try_balance, mbind, result_bind. intros Ht. destruct collaterals as [|c cs].
  - destruct (utxos_to_csl _); [|done]. destruct (add_inputs_from_and_change _ _ _ _) as [b'|] eqn:E; [|done].
    exists b'. split; [done|]. eapply selects_ext, selects_inputs; [apply view_add_required_signer|done].
  - destruct (add_collateral_inputs _ _ _) as [b1|] eqn:E1; [|done].
    destruct (utxos_to_csl _); [|done].
    destruct (add_inputs_from_and_change_with_collateral_return _ _ _ _ _) as [b2|] eqn:E2; [|done].
    destruct (calc_script_data_hash _ b2) as [b3|] eqn:E3; [|done].
    exists b3. split; [done|]. apply selects_inputs_with_return in E2. apply view_calc_script_data_hash in E3.
    apply add_collateral_view in E1. destruct E2 as (more & outs & Ho & Hv). exists more, outs. split; [done|].
    rewrite E3, Hv, view_set_script_data_hash, E1. by rewrite view_add_required_signer.
Qed.

Lemma balanced ctx b tx out :
  balance_update_and_build ctx b = Ok tx -> bv_outputs (view b) = [out] ->
  carries_out ctx tx (bv_inputs (view b)) out (bv_scripts (view b) ++ bv_mint_scripts (view b)).
Proof.
  intros Hb Hout. pose proof (balance_loop_spec b ctx (max_possible_collaterals ctx) []) as Hs.
  unfold balance_update_and_build in Hb. rewrite Hb in Hs. destruct Hs as (k & _ & Ht & _).
  apply try_balance_selects in Ht as (b' & Hbuild & more & change & Hc & Hv). split.
  - intros i Hi. rewrite (built_inputs _ _ Hbuild), Hv. cbn. set_solver.
  - exists change. rewrite (built_outputs _ _ Hbuild), Hv, Hout. done.
  - intros s. rewrite (built_scripts _ _ _ Hbuild), Hv. cbn. set_solver.
Qed.

Lemma signed ctx tx spent out scripts :
  carries_out ctx tx spent out scripts -> carries_out ctx (sign ctx tx) spent out scripts.
Proof.
  intros [Hi Ho Hs]. unfold sign.
  split; rewrite ?body_new, ?witness_set_new, ?plutus_scripts_set_vkeys; done.
Qed.

(** The output of the validator, with the token of the policy and the datum. *)
Definition contract_output (ctx : TransactionContext) (validator : PlutusScript) (datum : PlutusData) (out : TransactionOutput) : Prop :=
  output_address out = address (ctx_network ctx) validator /\ output_data out = Some datum.
Lemma add_token_output validator policy datum ctx b b' :
  add_output_with_one_script_token validator policy datum ctx b = Done (Ok b') ->
  exists out, contract_output ctx validator datum out /\ view b' =
    mkBuilderView _ _ (bv_inputs (view b)) (bv_outputs (view b) ++ [out]) (bv_scripts (view b)) (bv_mint_scripts (view b)).
Proof.
  unfold add_output_with_one_script_token, bind_fallible, lift, run. intros Hb.
  destruct (output_next _) as [ab|] eqn:Ea; [|done].
  destruct empty_asset_name as [n|]; [|done]. destruct (output_build _); [|done].
  destruct (calculate_ada _ _) as [ada|]; [|done].
  destruct (output_build (with_coin_and_asset ada _ ab)) as [out|] eqn:Eo; [|done]. injection Hb as Hb.
  exists out. split; [by apply (built_output _ _ _ _ _ _ Ea Eo)|by apply view_add_output].
Qed.

Lemma script_to_csl_fields s : script_to_csl s = mkCslPlutusScript (script_bytes s) (language s).
Proof. unfold script_to_csl. by destruct s as [? []]. Qed.

Lemma minted validator policy datum ctx ex tx :
  mint_token_tx validator policy datum ctx ex = Done (Ok tx) ->
  exists out, contract_output ctx validator datum out /\ carries_out ctx (sign ctx tx) [] out [script_to_csl policy].
Proof.
  unfold mint_token_tx, bind_fallible, lift. intros Hb.
  destruct (get_builder_config ctx) as [config|]; [|done].
  destruct (add_mint_one_script_token _ _ _) as [[b1|]|] eqn:E1; [|done..].
  destruct (add_output_with_one_script_token _ _ _ _ b1) as [[b2|]|] eqn:E2; [|done..]. injection Hb as Hb.
  apply add_token_output in E2 as (out & Hout & Hv). exists out. split; [done|]. apply signed.
  unfold add_mint_one_script_token, bind_fallible, lift, run in E1.
  destruct empty_asset_name; [|done]. destruct (mint_add_asset _ _ _ _) as [m|] eqn:Em; [|done]. injection E1 as <-.
  apply mint_view_add in Em. rewrite mint_view_new in Em. rewrite view_set_mint, view_new, Em in Hv. cbn in Hv.
  pose proof (balanced ctx b2 tx out Hb) as Hc. rewrite Hv in Hc. by apply Hc.
Qed.
Lemma updated unlocking validator policy datum u ctx ex tx :
  update_token_tx unlocking validator policy datum u ctx ex = Done (Ok tx) ->
  exists out, contract_output ctx validator datum out /\
    carries_out ctx (sign ctx tx) [to_csl_tx_input u] out [script_to_csl unlocking].
Proof.
  unfold update_token_tx, bind_fallible, lift. intros Hb.
  destruct (get_builder_config ctx) as [config|]; [|done].
  destruct (add_script_utxo_input _ _ _ _) as [ins|] eqn:E1; [|done].
  destruct (add_output_with_one_script_token _ _ _ _ _) as [[b2|]|] eqn:E2; [|done..]. injection Hb as Hb.
  apply add_token_output in E2 as (out & Hout & Hv). exists out. split; [done|]. apply signed.
  unfold add_script_utxo_input, mbind, result_bind in E1. destruct (convert_value _); [|done]. simplify_eq.
  rewrite view_set_inputs, inputs_view_script, inputs_view_new, view_new in Hv. cbn in Hv.
  pose proof (balanced ctx b2 tx out Hb) as Hc. rewrite Hv in Hc. by apply Hc.
Qed.

(** Of the outputs, only the contract's is at the validator's address: the change goes to
    the payment key. *)
Lemma outputs_at_validator ctx tx spent out scripts validator datum a :
  carries_out ctx tx spent out scripts -> contract_output ctx validator datum out ->
  to_bech32 (address (ctx_network ctx) validator) = Ok a ->
  List.filter (at_address a) (body_outputs (body tx)) = [out].
Proof.
  intros [_ (change & -> & Hc) _] [Ha _] Hv. cbn [List.filter]. unfold at_address at 1.
  rewrite Ha, bool_decide_true by done. f_equal. induction Hc as [|o change Ho _ IH]; [done|]. cbn [List.filter].
  unfold at_address at 1. rewrite bool_decide_false; [done|]. rewrite Ho. intros Hb.
  pose proof (to_bech32_inj _ _ _ Hb Hv) as He. unfold payment_address, key_hash_address, address, OffchainCsl.script_address in He.
  apply enterprise_address_inj in He as [_ He]. done.
Qed.

(** The one UTXO at the validator's address after the transaction. *)
Lemma settled_contract ctx tx spent out scripts validator datum a us us' :
  carries_out ctx tx spent out scripts -> contract_output ctx validator datum out ->
  to_bech32 (address (ctx_network ctx) validator) = Ok a ->
  Forall (fun u => to_csl_tx_input u ∈ spent) us -> settled tx a us us' ->
  exists u, us' = [u] /\ Ogmios.datum u = Some (mkDatum (plutus_data_to_bytes datum)).
Proof.
  intros Hc Ho Ha Hus (created & Hcr & Hp). rewrite (outputs_at_validator _ _ _ _ _ _ _ _ Hc Ho Ha) in Hcr.
  apply Forall2_cons_inv_l in Hcr as (u & [|] & Hsh & Hnil & ->); [|by inversion Hnil].
  exists u. destruct Ho as [_ Hd]. destruct Hsh as (_ & _ & Hdat). rewrite Hd in Hdat. split; [|done].
  assert (List.filter (fun u => negb (spends tx u)) us = []) as E.
  { clear Hp. induction Hus as [|v us Hv _ IH]; [done|]. cbn [List.filter]. unfold spends at 1.
    rewrite bool_decide_true by (by apply (co_spends _ _ _ _ _ Hc)). exact IH. }
  rewrite E in Hp. by apply Permutation_singleton_r in Hp.
Qed.
End Transactions.

(** ** A client with a record of the transactions the node accepted *)
(** Queries do not change the node's state. *)
Class ReadOnlyQueries (S : Type) `{!MainchainClient S} : Prop := {
  query_utxos_reads : forall a s, fst (query_utxos a s) = s;
  query_protocol_parameters_reads : forall s, fst (query_protocol_parameters s) = s;
  shelley_genesis_configuration_reads : forall s, fst (shelley_genesis_configuration s) = s
}.

Section Logged.
Context {S : Type} `{!MainchainClient S}.
Definition keep {E A} (m : stateful S E A) : stateful (S * list bytes) E A := fun st =>
  let '(s, r) := m (fst st) in ((s, snd st), r).
Definition submit_logged (tx_bytes : bytes) : stateful (S * list bytes) OgmiosClientError SubmitTransactionResponse := fun st =>
  let '(s, r) := submit_transaction tx_bytes (fst st) in
  ((s, match r with Done (Ok _) => snd st ++ [tx_bytes] | _ => snd st end), r).
#[export] Instance logged_client : MainchainClient (S * list bytes) := {|
  era_summaries := keep era_summaries;
  query_utxos addresses := keep (query_utxos addresses);
  query_protocol_parameters := keep query_protocol_parameters;
  shelley_genesis_configuration := keep shelley_genesis_configuration;
  evaluate_transaction tx_bytes := keep (evaluate_transaction tx_bytes);
  submit_transaction := submit_logged
|}.

Context `{CslLib, Blake2bHash, !ReadOnlyQueries S}.
Definition reads {T E A} (m : stateful T E A) : Prop := forall st, fst (m st) = st.
Lemma reads_bind {T E A B} (m : stateful T E A) (k : A -> stateful T E B) :
  reads m -> (forall a, reads (k a)) -> reads (bind_stateful m k).
Proof.
  intros Hm Hk st. unfold bind_stateful. specialize (Hm st). destruct (m st) as [st' [[a|e]|]]; cbn in *; subst; [apply Hk|done|done].
Qed.
Lemma reads_stateless {T E A} (m : fallible E A) : reads (stateless (S := T) m).
Proof. done. Qed.
Lemma reads_ask {T A} (m : stateful T OgmiosClientError A) : reads m -> reads (ask m).
Proof. intros Hm st. unfold ask, map_err_stateful. specialize (Hm st). by destruct (m st) as [st' []]. Qed.
Lemma for_payment_key_reads key : reads (T := S) (for_payment_key key).
Proof.
  unfold for_payment_key. repeat (apply reads_bind; [|intros ?]); try apply reads_stateless; apply reads_ask; intros st.
  - apply shelley_genesis_configuration_reads.
  - apply query_protocol_parameters_reads.
  - apply query_utxos_reads.
Qed.

Lemma bind_keep {E A B} (m : stateful S E A) m' (k : A -> stateful S E B) k' st :
  (forall st, m' st = keep m st) -> (forall a st, k' a st = keep (k a) st) ->
  bind_stateful m' k' st = keep (bind_stateful m k) st.
Proof.
  intros Hm Hk. unfold bind_stateful. rewrite Hm. unfold keep at 1 2. destruct st as [s log]. cbn.
  destruct (m s) as [s' [[]|]]; [apply Hk|done|done].
Qed.
Lemma ask_keep {A} (m : stateful S OgmiosClientError A) st : ask (keep m) st = keep (ask m) st.
Proof. unfold ask, map_err_stateful, keep. destruct st as [s log]. cbn. by destruct (m s) as [s' []]. Qed.
Lemma stateless_keep {E A} (m : fallible E A) st : stateless m st = keep (stateless m) st.
Proof. by destruct st. Qed.
Lemma for_payment_key_logged key st : for_payment_key key st = keep (for_payment_key key) st.
Proof.
  unfold for_payment_key.
  repeat (apply bind_keep; [intros; first [apply ask_keep|apply stateless_keep]|intros]).
  apply stateless_keep.
Qed.
End Logged.

(** ** Upserts *)
Section Upserts.
Context `{CslLibLaws, Blake2bHash, !Uplc, Minicbor, !RawScripts, !CslLaws, !Hex}.
Context {S : Type} `{!MainchainClient S, !ReadOnlyQueries S}.

(** The shape that the two upserts share. *)
Definition upsert_with {X} `{EqDecision X} (scripts : UtxoId -> NetworkIdKind -> fallible string (PlutusScript * PlutusScript))
    (current : list OgmiosUtxo -> result string (option (OgmiosUtxo * X))) (x : X)
    (evaluate_update submit_update evaluate_insert submit_insert : string)
    (unlocking : PlutusScript -> PlutusScript -> PlutusScript) (datum : PlutusData)
    (genesis_utxo : UtxoId) (payment_signing_key : bytes) {T} `{!MainchainClient T} : stateful T string (option McTxHash) :=
  ctx ←! for_payment_key payment_signing_key;
  scripts ←! stateless (scripts genesis_utxo (ctx_network ctx));
  let '(validator, policy) := scripts in
  validator_address ←! stateless (address_bech32 (ctx_network ctx) validator);
  validator_utxos ←! ask (query_utxos [validator_address]);
  current ←! stateless (lift (current validator_utxos));
  match current with
  | Some (current_utxo, current_x) =>
      if decide (current_x = x) then stateless (lift (Ok None))
      else h ←! evaluate_and_submit evaluate_update submit_update ctx
                  (update_token_tx (unlocking validator policy) validator policy datum current_utxo ctx);
           stateless (lift (Ok (Some h)))
  | None => h ←! evaluate_and_submit evaluate_insert submit_insert ctx (mint_token_tx validator policy datum ctx);
            stateless (lift (Ok (Some h)))
  end.

(** The contract as an upsert finds it: the context of the payment key, the scripts, the
    validator's address and the UTXOs there. *)
Record at_contract (scripts : UtxoId -> NetworkIdKind -> fallible string (PlutusScript * PlutusScript)) (genesis_utxo : UtxoId)
    (payment_signing_key : bytes) (s : S) (ctx : TransactionContext) (validator policy : PlutusScript) (a : string)
    (us : list OgmiosUtxo) : Prop := {
  ac_context : snd (for_payment_key payment_signing_key s) = Done (Ok ctx);
  ac_scripts : scripts genesis_utxo (ctx_network ctx) = Done (Ok (validator, policy));
  ac_address : to_bech32 (address (ctx_network ctx) validator) = Ok a;
  ac_utxos : snd (query_utxos [a] s) = Done (Ok us)
}.

(** What is submitted was built with the budget the node computed. *)
Lemma evaluate_and_submit_inv em sm ctx build (st st' : S * list bytes) h :
  evaluate_and_submit em sm ctx build st = (st', Done (Ok h)) ->
  exists ex tx, build ex = Done (Ok tx) /\ snd st' = snd st ++ [tx_to_bytes (sign ctx tx)] /\
    exists tx0 s0 response, build zero_ex_units = Done (Ok tx0) /\
      evaluate_transaction (tx_to_bytes tx0) (fst st) = (s0, Done (Ok response)) /\
      get_first_validator_budget response = Ok ex.
Proof.
  destruct st as [s log]. unfold evaluate_and_submit, bind_stateful, stateless, map_err_stateful, lift. cbn [fst snd].
  destruct (build zero_ex_units) as [[tx0|]|] eqn:E0; [|done..].
  cbn [evaluate_transaction logged_client]. unfold keep. cbn [fst snd].
  destruct (evaluate_transaction (tx_to_bytes tx0) s) as [s0 [[response|]|]] eqn:E1; cbn [map_err]; [|done..].
  destruct (get_first_validator_budget response) as [ex|] eqn:E2; [|done].
  destruct (build ex) as [[tx|]|] eqn:E3; [|done..].
  cbn [submit_transaction logged_client]. unfold submit_logged. cbn [fst snd].
  destruct (submit_transaction _ s0) as [s1 [[res|]|]] eqn:E4; cbn [map_err]; [|done..].
  intros He. simplify_eq. exists ex, tx. split_and!; [done|done|]. by exists tx0, s0, response.
Qed.

Lemma upsert_with_inv {X} `{EqDecision X} scripts (current : _ -> result string (option (_ * X))) x eu su ei si unlocking datum
    genesis_utxo key s s' log r :
  upsert_with scripts current x eu su ei si unlocking datum genesis_utxo key (s, []) = ((s', log), Done (Ok r)) ->
  exists ctx validator policy a us c, at_contract scripts genesis_utxo key s ctx validator policy a us /\
    current us = Ok c /\
    match r with
    | None => log = [] /\ exists u, c = Some (u, x)
    | Some _ => exists ex tx, log = [tx_to_bytes (sign ctx tx)] /\
        match c with
        | None => mint_token_tx validator policy datum ctx ex = Done (Ok tx)
        | Some (u, y) => y <> x /\ update_token_tx (unlocking validator policy) validator policy datum u ctx ex = Done (Ok tx)
        end
    end.
Proof.
  unfold upsert_with. unfold bind_stateful at 1. rewrite for_payment_key_logged. unfold keep. cbn [fst snd].
  pose proof (for_payment_key_reads key s) as Hreads.
  destruct (for_payment_key key s) as [s1 [[ctx|]|]] eqn:E1; [|done..]. cbn in Hreads. subst s1.
  unfold bind_stateful at 1, stateless at 1. destruct (scripts genesis_utxo (ctx_network ctx)) as [[[validator policy]|]|] eqn:E2; [|done..].
  unfold bind_stateful at 1, stateless at 1, address_bech32, lift.
  destruct (to_bech32 (address (ctx_network ctx) validator)) as [a|] eqn:E3; cbn [map_err]; [|done].
  unfold bind_stateful at 1. cbn [query_utxos logged_client]. rewrite ask_keep. unfold keep, ask, map_err_stateful. cbn [fst snd].
  pose proof (query_utxos_reads [a] s) as Hq.
  destruct (query_utxos [a] s) as [s2 [[us|]|]] eqn:E4; cbn [map_err]; [|done..]. cbn in Hq. subst s2.
  unfold bind_stateful at 1, stateless at 1. destruct (current us) as [c|] eqn:E5; [|done].
  intros Hr. exists ctx, validator, policy, a, us, c. split; [split; [by rewrite E1|done|done|by rewrite E4]|]. split; [done|].
  destruct c as [[u y]|]; [destruct (decide (y = x)) as [->|Hne]|].
  - unfold stateless in Hr. simplify_eq. by eauto.
  - unfold bind_stateful in Hr. destruct (evaluate_and_submit _ _ _ _ _) as [st' [[h|]|]] eqn:E6; [|done..].
    apply evaluate_and_submit_inv in E6 as (ex & tx & Hb & Hl & _). unfold stateless in Hr. simplify_eq. cbn in Hl. by eauto 6.
  - unfold bind_stateful in Hr. destruct (evaluate_and_submit _ _ _ _ _) as [st' [[h|]|]] eqn:E6; [|done..].
    apply evaluate_and_submit_inv in E6 as (ex & tx & Hb & Hl & _). unfold stateless in Hr. simplify_eq. cbn in Hl. by eauto 6.
Qed.

(** What an upsert leaves behind: nothing exactly when the value is already set, and
    otherwise one transaction. Its one output at the validator's address [a] holds [datum];
    it spends the UTXO that was there and carries exactly the script [unlocking], or the
    policy when there was none. Once it is settled, the one UTXO at the address holds
    [datum] and decodes to the value. *)
Definition upserted {X} (current : list OgmiosUtxo -> result string (option (OgmiosUtxo * X))) (x : X) (datum : PlutusData)
    (unlocking policy : PlutusScript) (a : string) (us : list OgmiosUtxo) (log : list bytes) (r : option McTxHash) : Prop :=
  (r = None <-> exists u, current us = Ok (Some (u, x))) /\
  match r with
  | None => log = []
  | Some _ => exists tx out, log = [tx_to_bytes tx] /\
      List.filter (at_address a) (body_outputs (body tx)) = [out] /\ output_data out = Some datum /\
      (forall u, head us = Some u -> to_csl_tx_input u ∈ body_inputs (body tx)) /\
      (forall sc, sc ∈ plutus_scripts (witness_set tx) <->
        sc = script_to_csl (match us with [] => policy | _ => unlocking end)) /\
      (forall us', (length us <= 1)%nat -> settled tx a us us' ->
        exists u, us' = [u] /\ Ogmios.datum u = Some (mkDatum (plutus_data_to_bytes datum)) /\
          current us' = Ok (Some (u, x)))
  end.

Lemma upsert_with_settles {X} `{EqDecision X} scripts (current : _ -> result string (option (_ * X))) x eu su ei si unlocking datum
    genesis_utxo key s s' log r :
  (forall us c, current us = Ok c -> fst <$> c = head us) ->
  (forall u, Ogmios.datum u = Some (mkDatum (plutus_data_to_bytes datum)) -> current [u] = Ok (Some (u, x))) ->
  upsert_with scripts current x eu su ei si unlocking datum genesis_utxo key (s, []) = ((s', log), Done (Ok r)) ->
  exists ctx validator policy a us, at_contract scripts genesis_utxo key s ctx validator policy a us /\
    upserted current x datum (unlocking validator policy) policy a us log r.
Proof.
  intros Hhead Hread Hr. apply upsert_with_inv in Hr as (ctx & validator & policy & a & us & c & Hat & Hc & Hr).
  exists ctx, validator, policy, a, us. split; [done|]. pose proof (Hhead _ _ Hc) as Hh. unfold upserted. rewrite Hc.
  destruct r as [h|]; [|destruct Hr as [-> (u & ->)]; split; [split; [by exists u|done]|done]].
  destruct Hr as (ex & tx & -> & Hb). split.
  { split; [done|]. intros (u & [= ->]). by destruct Hb. }
  assert (exists spent out, contract_output ctx validator datum out /\
    carries_out ctx (sign ctx tx) spent out [script_to_csl (match us with [] => policy | _ => unlocking validator policy end)] /\
    forall u, head us = Some u -> to_csl_tx_input u ∈ spent) as (spent & out & Ho & Hco & Hsp).
  { destruct c as [[u y]|].
    - destruct Hb as [_ Hb]. apply updated in Hb as (out & Ho & Hco). destruct us as [|v us]; [done|]. injection Hh as <-.
      exists [to_csl_tx_input u], out. split_and!; [done|done|]. cbn. intros w [= <-]. set_solver.
    - apply minted in Hb as (out & Ho & Hco). destruct us; [|done]. by exists [], out. }
  exists (sign ctx tx), out. split_and!; [done| |apply Ho|..].
  - eapply outputs_at_validator; [done|done|apply Hat].
  - intros u Hu. by eapply co_spends, Hsp.
  - intros sc. rewrite (co_scripts _ _ _ _ _ Hco). apply list_elem_of_singleton.
  - intros us' Hl Hs. eapply settled_contract in Hs as (u & -> & Hd); [by eauto|done|done|apply Hat|].
    destruct us as [|u [|]]; [done| |cbn in Hl; lia]. apply Forall_singleton. by apply Hsp.
Qed.

Lemma upsert_d_param_settles genesis_utxo d key (s s' : S) log r :
  wf_DParameter d ->
  upsert_d_param genesis_utxo d key (s, []) = ((s', log), Done (Ok r)) ->
  exists ctx validator policy a us, at_contract d_parameter_scripts genesis_utxo key s ctx validator policy a us /\
    upserted get_current_d_parameter d (d_parameter_to_plutus_data d) validator policy a us log r.
Proof.
  intros Hd. apply (upsert_with_settles d_parameter_scripts get_current_d_parameter d _ _ _ _ (fun v _ => v)).
  - intros us c. unfold get_current_d_parameter. destruct us as [|u us]; [by intros [= <-]|]. cbn [head hd_error].
    unfold mbind, result_bind. destruct (ok_or _ _); [|done]. destruct (map_err _ _); [|done].
    destruct (map_err _ _); [|done]. by intros [= <-].
  - intros u Hu. unfold get_current_d_parameter. cbn [head hd_error]. rewrite Hu. cbn [ok_or mbind result_bind datum_bytes].
    rewrite plutus_data_from_to_bytes. cbn [map_err mbind result_bind].
    destruct (decode_d_parameter d Hd) as (v & -> & Hv). cbn. by rewrite Hv.
Qed.

(** C27: A successful [upsert_d_param] submits nothing exactly when the D-parameter already
    has the requested value, and one transaction otherwise: it spends the UTXO that held
    the old value, carries the validator's script that unlocks it (or the minting policy
    when there was none), and its one output at the validator's address holds the requested
    value. Once it is settled, the one UTXO at the address decodes to that value, so that a
    second upsert would change nothing. *)
Theorem upsert_sets_d_parameter genesis_utxo d key (s s' : S) log r :
  wf_DParameter d ->
  upsert_d_param genesis_utxo d key (s, []) = ((s', log), Done (Ok r)) ->
  exists ctx validator policy a us, at_contract d_parameter_scripts genesis_utxo key s ctx validator policy a us /\
    upserted get_current_d_parameter d (d_parameter_to_plutus_data d) validator policy a us log r.
Proof. apply upsert_d_param_settles. Qed.

(** *** Permissioned candidates *)
Lemma candidate_leb_total x y : candidate_leb x y = true \/ candidate_leb y x = true.
Proof.
  unfold candidate_leb. repeat case_decide; try congruence; apply bytes_leb_total.
Qed.
Lemma candidate_leb_antisymm x y : candidate_leb x y = true -> candidate_leb y x = true -> x = y.
Proof.
  destruct x as [x1 x2 x3], y as [y1 y2 y3]. unfold candidate_leb. cbn.
  repeat case_decide; subst; try congruence; intros Ha Hb; pose proof (bytes_leb_antisymm _ _ Ha Hb); congruence.
Qed.
Lemma candidate_leb_trans x y z : candidate_leb x y = true -> candidate_leb y z = true -> candidate_leb x z = true.
Proof.
  destruct x as [x1 x2 x3], y as [y1 y2 y3], z as [z1 z2 z3]. unfold candidate_leb. cbn.
  repeat case_decide; subst; try done; try congruence; intros Ha Hb;
    try (pose proof (bytes_leb_antisymm _ _ Ha Hb); congruence); eauto using bytes_leb_trans.
Qed.
Lemma sort_candidates_perm cs cs' : cs ≡ₚ cs' -> sort_by candidate_leb cs = sort_by candidate_leb cs'.
Proof.
  intros Hp. apply (sorted_unique candidate_leb candidate_leb_antisymm);
    [apply sort_by_sorted; eauto using candidate_leb_total, candidate_leb_trans ..|].
  by rewrite !sort_by_perm.
Qed.

Lemma upsert_permissioned_candidates_settles genesis_utxo cs key (s s' : S) log r :
  upsert_permissioned_candidates genesis_utxo cs key (s, []) = ((s', log), Done (Ok r)) ->
  exists ctx validator policy a us,
    at_contract permissioned_candidates_scripts genesis_utxo key s ctx validator policy a us /\
    upserted get_current_permissioned_candidates (sort_by candidate_leb cs)
      (permissioned_candidates_to_plutus_data (sort_by candidate_leb cs)) policy policy a us log r.
Proof.
  apply (upsert_with_settles permissioned_candidates_scripts get_current_permissioned_candidates
    (sort_by candidate_leb cs) _ _ _ _ (fun _ p => p)).
  - intros us c. unfold get_current_permissioned_candidates. destruct us as [|u us]; [by intros [= <-]|]. cbn [head hd_error].
    unfold mbind, result_bind. destruct (ok_or _ _); [|done]. destruct (map_err _ _); [|done].
    destruct (map_err _ _); [|done]. by intros [= <-].
  - intros u Hu. unfold get_current_permissioned_candidates. cbn [head hd_error]. rewrite Hu.
    cbn [ok_or mbind result_bind datum_bytes]. rewrite plutus_data_from_to_bytes. cbn [map_err mbind result_bind].
    destruct (decode_permissioned_candidates (sort_by candidate_leb cs)) as (v & -> & Hv). cbn. rewrite Hv.
    by rewrite (sort_candidates_perm _ cs (sort_by_perm _ _)).
Qed.

(** C28: A successful [upsert_permissioned_candidates] submits nothing exactly when the
    contract already holds the requested candidates, and one transaction otherwise: it
    spends the UTXO that was there and its one output at the validator's address holds a
    datum that lists the candidates in key order, which is what the one UTXO at the address
    holds once the transaction is settled. The order in which the candidates are given does
    not matter. *)
Theorem upsert_sets_permissioned_candidates genesis_utxo cs key (s s' : S) log r :
  upsert_permissioned_candidates genesis_utxo cs key (s, []) = ((s', log), Done (Ok r)) ->
  (exists ctx validator policy a us,
    at_contract permissioned_candidates_scripts genesis_utxo key s ctx validator policy a us /\
    upserted get_current_permissioned_candidates (sort_by candidate_leb cs)
      (permissioned_candidates_to_plutus_data (sort_by candidate_leb cs)) policy policy a us log r) /\
  forall cs', cs' ≡ₚ cs ->
    upsert_permissioned_candidates genesis_utxo cs' key (s, []) = upsert_permissioned_candidates genesis_utxo cs key (s, []).
Proof.
  intros Hr. split; [by eapply upsert_permissioned_candidates_settles|].
  intros cs' Hp. unfold upsert_permissioned_candidates. by rewrite (sort_candidates_perm cs' cs Hp).
Qed.

(** C29: A transaction that updates the permissioned candidates spends the UTXO at the
    validator's address but carries only the policy, so that the script which locks the
    UTXO is missing (unless both scripts have the same hash); the transaction that updates
    the D-parameter carries it. *)
Theorem permissioned_update_lacks_validator ctx validator policy cs d u ex tx dtx :
  to_bech32 (address (ctx_network ctx) validator) = Ok (utxo_address u) ->
  script_hash validator <> script_hash policy ->
  update_permissioned_candidates_tx validator policy cs u ctx ex = Done (Ok tx) ->
  update_d_param_tx validator policy d u ctx ex = Done (Ok dtx) ->
  (to_csl_tx_input u ∈ body_inputs (body (sign ctx tx)) /\ ~ carries_script_of (sign ctx tx) (ctx_network ctx) u) /\
  (to_csl_tx_input u ∈ body_inputs (body (sign ctx dtx)) /\ carries_script_of (sign ctx dtx) (ctx_network ctx) u).
Proof.
  intros Ha Hne Htx Hdtx. apply updated in Htx as (out & _ & Hc). apply updated in Hdtx as (dout & _ & Hd). split; split.
  - apply (co_spends _ _ _ _ _ Hc). set_solver.
  - intros (sc & Hsc & Hb). apply (co_scripts _ _ _ _ _ Hc), list_elem_of_singleton in Hsc as ->.
    pose proof (to_bech32_inj _ _ _ Ha Hb) as He. rewrite script_to_csl_fields in He.
    apply enterprise_address_inj in He as [_ He]. injection He as He. by apply Hne.
  - apply (co_spends _ _ _ _ _ Hd). set_solver.
  - exists (script_to_csl validator). split; [apply (co_scripts _ _ _ _ _ Hd); set_solver|].
    by rewrite script_to_csl_fields.
Qed.
End Upserts.

(** ** One set of scripts *)
Section OneSetOfScripts.
Context `{CslLibLaws, Blake2bHash, !Uplc, Minicbor, !RawScripts, !CslLaws, !Hex, !HexCodec}.
Context {S : Type} `{!MainchainClient S, !ReadOnlyQueries S}.

(** The scripts that [version_oracle] reports, with the policy's script itself. *)
Lemma version_oracle_inv genesis_utxo network validator policy policy_data :
  Offchain.version_oracle genesis_utxo network = Done (Ok (validator, policy, policy_data)) ->
  exists g v p vd policy_script, datum_to_uplc_plutus_data (to_datum genesis_utxo) = Done g /\
    from_wrapped_cbor VERSION_ORACLE_VALIDATOR PlutusV2 = Done (Ok v) /\ apply_uplc_data g v = Done (Ok validator) /\
    from_wrapped_cbor VERSION_ORACLE_POLICY PlutusV2 = Done (Ok p) /\ address_data network validator = Done (Ok vd) /\
    bind_fallible (apply_uplc_data g p) (apply_uplc_data vd) = Done (Ok policy_script) /\ policy = policy_id policy_script.
Proof.
  unfold Offchain.version_oracle, apply_data. intros Hv.
  destruct (datum_to_uplc_plutus_data (to_datum genesis_utxo)) as [g|]; cbn [run bind_fallible] in Hv;
    [|by destruct (from_wrapped_cbor _ _) as [[]|]].
  inv_fallible Hv. unfold lift in Hv. simplify_eq.
  eexists _, _, _, _, _. split_and!; [done|done|done|done|done| |done]. cbn [bind_fallible].
  by match goal with E : apply_uplc_data _ _ = Done (Ok ?p) |- context [apply_uplc_data g _] => rewrite E end.
Qed.

Lemma bech32_inv network sc a : address_bech32 network sc = Done (Ok a) -> to_bech32 (address network sc) = Ok a.
Proof. unfold address_bech32, lift. destruct (to_bech32 _); [by intros [= ->]|done]. Qed.

Lemma governance_output_inv validator policy multi_sig network ctx out :
  version_oracle_datum_output validator policy multi_sig network ctx = Done (Ok out) ->
  output_address out = address network validator /\
  output_data out = Some (version_oracle_to_plutus_data (mkVersionOracleDatum SCRIPT_ID (policy_id policy))).
Proof.
  unfold version_oracle_datum_output. intros Ho. inv_fallible Ho. unfold lift in *.
  repeat match goal with E : Done _ = Done _ |- _ => injection E as E end. by eapply built_script_output.
Qed.

(** The scripts of [init_governance_transaction] are the version oracle's. *)
Lemma governance_inv validator policy policy_data authority ctx u ex tx :
  Offchain.version_oracle (to_domain u) (ctx_network ctx) = Done (Ok (validator, policy, policy_data)) ->
  init_governance_transaction MULTI_SIG_POLICY VERSION_ORACLE_VALIDATOR VERSION_ORACLE_POLICY authority ctx u ex = Done (Ok tx) ->
  exists out script, policy_id script = policy /\ output_address out = address (ctx_network ctx) validator /\
    output_data out = Some (version_oracle_to_plutus_data (mkVersionOracleDatum SCRIPT_ID policy)) /\
    carries_out ctx tx [to_csl_tx_input u] out [script_to_csl script].
Proof.
  intros Hv Ht. apply version_oracle_inv in Hv as (g & v & p & vd & script & Hg & Hfv & Hav & Hfp & Had & Hap & ->).
  unfold init_governance_transaction, to_uplc_plutus_data in Ht. rewrite Hg, Hfv, Hfp in Ht.
  cbn [run bind_fallible] in Ht. rewrite Hav in Ht. inv_fallible Ht.
  cbn [bind_fallible] in Hap. unfold lift in *. simplify_eq.
  match goal with E : apply_uplc_data vd _ = Done (Ok _) |- _ => rewrite Hap in E; injection E as <- end.
  match goal with E : version_oracle_datum_output _ _ _ _ _ = _ |- _ => apply governance_output_inv in E as [Ha Hdat] end.
  match goal with E : mint_add_asset _ _ _ _ = Ok _ |- _ => apply mint_view_add in E as Hm; rewrite mint_view_new in Hm end.
  match goal with E : add_output ?o _ = Ok _ |- _ => apply view_add_output in E as Hv; exists o, script end.
  rewrite view_set_mint, view_new, Hm in Hv. cbn in Hv. split_and!; [done|done|done|].
  match goal with E : with_key_inputs _ _ = Ok _ |- _ => rename E into Hin end.
  unfold with_key_inputs, add_key_inputs in Hin. cbn [try_fold] in Hin. unfold mbind, result_bind in Hin.
  destruct (convert_value (value u)); [|done]. injection Hin as <-.
  match goal with |- carries_out _ _ _ ?o _ => pose proof (balanced ctx _ tx o Ht) as Hb end.
  rewrite view_set_inputs, inputs_view_key, inputs_view_new, Hv in Hb. by apply Hb.
Qed.

(** The network of a payment key's context is the node's. *)
Lemma for_payment_key_network key (s : S) ctx :
  snd (for_payment_key key s) = Done (Ok ctx) ->
  exists configuration, snd (shelley_genesis_configuration s) = Done (Ok configuration) /\
    ctx_network ctx = NetworkType_to_csl (network configuration).
Proof.
  unfold for_payment_key, bind_stateful, stateless, ask, map_err_stateful, lift. intros Hc.
  destruct (from_normal_bytes key); [|done].
  destruct (shelley_genesis_configuration s) as [s1 [[configuration|]|]]; cbn [map_err snd] in *; [|done..].
  destruct (query_protocol_parameters s1) as [s2 [[]|]]; cbn [map_err] in Hc; [|done..].
  destruct (to_bech32 _); [|done]. destruct (query_utxos _ s2) as [s3 [[]|]]; cbn [map_err snd] in Hc; [|done..].
  exists configuration. split; [done|]. by injection Hc as <-.
Qed.
Lemma get_scripts_data_of_client_inv genesis_utxo (s : S) data :
  snd (get_scripts_data_of_client genesis_utxo s) = Done (Ok data) ->
  exists configuration, snd (shelley_genesis_configuration s) = Done (Ok configuration) /\
    get_scripts_data genesis_utxo (NetworkType_to_csl (network configuration)) = Done (Ok data).
Proof.
  unfold get_scripts_data_of_client, bind_stateful, stateless, map_err_stateful. intros Hd.
  destruct (shelley_genesis_configuration s) as [s1 [[configuration|]|]]; cbn [map_err snd] in *; [|done..].
  exists configuration. split; [done|]. destruct (get_scripts_data _ _) as [[]|]; cbn in Hd; congruence.
Qed.

(** What [get_scripts_data] reports of the contracts that the clients use. *)
Lemma get_scripts_data_inv genesis_utxo network data :
  get_scripts_data genesis_utxo network = Done (Ok data) ->
  (exists validator policy, d_parameter_scripts genesis_utxo network = Done (Ok (validator, policy)) /\
    to_bech32 (address network validator) = Ok (a_d_parameter_validator (addresses data)) /\
    policy_id policy = p_d_parameter (policy_ids data)) /\
  (exists validator policy, permissioned_candidates_scripts genesis_utxo network = Done (Ok (validator, policy)) /\
    to_bech32 (address network validator) = Ok (a_permissioned_candidates_validator (addresses data)) /\
    policy_id policy = p_permissioned_candidates (policy_ids data)) /\
  (exists validator policy_data, Offchain.version_oracle genesis_utxo network =
      Done (Ok (validator, p_version_oracle (policy_ids data), policy_data)) /\
    to_bech32 (address network validator) = Ok (a_version_oracle_validator (addresses data))).
Proof.
  unfold get_scripts_data. intros Hd. inv_fallible Hd. unfold lift in Hd. injection Hd as <-. cbn.
  repeat match goal with E : address_bech32 _ _ = _ |- _ => apply bech32_inv in E end. split_and!; by eexists _, _.
Qed.

(** An upsert of [x] at the address [a], with the policy of id [p]. *)
Definition upserts_at {X} (current : list OgmiosUtxo -> result string (option (OgmiosUtxo * X))) (x : X) (datum : PlutusData)
    (unlocking : PlutusScript -> PlutusScript -> PlutusScript) (s : S) (a : string) (p : PolicyId) (log : list bytes)
    (r : option McTxHash) : Prop :=
  exists us network validator policy, snd (query_utxos [a] s) = Done (Ok us) /\
    to_bech32 (address network validator) = Ok a /\ policy_id policy = p /\
    upserted current x datum (unlocking validator policy) policy a us log r.
Lemma upserts_at_reported {X} scripts (current : _ -> result string (option (_ * X))) x datum unlocking genesis_utxo key s
    ctx validator policy a us log r configuration validator' policy' a' p :
  at_contract scripts genesis_utxo key s ctx validator policy a us ->
  upserted current x datum (unlocking validator policy) policy a us log r ->
  snd (shelley_genesis_configuration s) = Done (Ok configuration) ->
  scripts genesis_utxo (NetworkType_to_csl (network configuration)) = Done (Ok (validator', policy')) ->
  to_bech32 (address (NetworkType_to_csl (network configuration)) validator') = Ok a' -> policy_id policy' = p ->
  upserts_at current x datum unlocking s a' p log r.
Proof.
  intros [Hctx Hsc Ha Hus] Hup Hconf Hsc' Ha' Hp. apply for_payment_key_network in Hctx as (conf & Hc & Hn). rewrite Hn in *.
  rewrite Hconf in Hc. injection Hc as <-. rewrite Hsc in Hsc'. injection Hsc' as <- <-. rewrite Ha in Ha'. injection Ha' as <-.
  by exists us, (NetworkType_to_csl (network configuration)), validator, policy.
Qed.

(** A successful initialisation of the governance submits one transaction, built for the
    genesis UTXO and the node's network. *)
Lemma choose_genesis_utxo_inv own g u : choose_genesis_utxo own (Some g) = Ok u -> u ∈ own /\ to_domain u = g.
Proof.
  unfold choose_genesis_utxo. destruct (List.find (is_utxo g) own) as [v|] eqn:Ef; [|done]. intros [= <-].
  apply List.find_some in Ef as [Hin Hv]. split; [by apply list_elem_of_In|].
  unfold is_utxo in Hv. apply andb_true_iff in Hv as [Hv Hi]. apply bool_decide_eq_true in Hv. apply Z.eqb_eq in Hi.
  unfold to_domain. rewrite Hv, Hi. by destruct g.
Qed.
Lemma run_init_governance_inv tx_to_json authority key g (s s' : S) log r :
  run_init_governance tx_to_json authority key (Some g) (s, []) = ((s', log), Done (Ok r)) ->
  exists configuration ctx u ex tx, snd (shelley_genesis_configuration s) = Done (Ok configuration) /\
    ctx_network ctx = NetworkType_to_csl (network configuration) /\ to_domain u = g /\ log = [tx_to_bytes (sign ctx tx)] /\
    init_governance_transaction MULTI_SIG_POLICY VERSION_ORACLE_VALIDATOR VERSION_ORACLE_POLICY authority ctx u ex = Done (Ok tx).
Proof.
  unfold run_init_governance, bind_stateful, stateless, ask, map_err_stateful, lift. cbn [shelley_genesis_configuration
    query_utxos query_protocol_parameters evaluate_transaction submit_transaction logged_client]. unfold keep, submit_logged.
  intros Hr. destruct (run (expect (ok (from_normal_bytes key)))) as [[k|]|]; [|done..]. cbn [fst snd] in Hr.
  destruct (shelley_genesis_configuration s) as [s1 [[configuration|]|]]; cbn [map_err fst snd] in *; [|done..].
  destruct (run (expect (ok (to_bech32 _)))) as [[own|]|]; [|done..].
  destruct (query_utxos [own] s1) as [s2 [[us|]|]]; cbn [map_err fst snd] in Hr; [|done..].
  destruct (query_protocol_parameters s2) as [s3 [[pp|]|]]; cbn [map_err fst snd] in Hr; [|done..].
  destruct (choose_genesis_utxo us (Some g)) as [u|] eqn:Eu; [|done].
  destruct (init_governance_transaction _ _ _ _ _ u zero_ex_units) as [[tx0|]|]; [|done..].
  destruct (tx_to_json tx0); [|done].
  destruct (evaluate_transaction _ s3) as [s4 [[costs|]|]]; cbn [map_err fst snd] in Hr; [|done..].
  destruct (get_first_validator_budget costs) as [ex|]; [|done].
  destruct (init_governance_transaction _ _ _ _ _ u ex) as [[tx|]|] eqn:Et; [|done..].
  destruct (submit_transaction _ s4) as [s5 [[res|]|]]; cbn [map_err fst snd] in Hr; [|done..]. simplify_eq.
  apply choose_genesis_utxo_inv in Eu as [_ Eu]. eexists configuration, _, u, ex, tx. split_and!; [done| |done| |exact Et]; done.
Qed.

(** C30: The scripts that [get_scripts_data] reports for a genesis UTXO are those that the
    clients of the same node work with. A successful upsert of the D-parameter or of the
    permissioned candidates is one at the reported validator address with the reported
    policy: it decides by the UTXOs at that address whether to submit anything, its
    transaction has its one contract output there, and when it mints the token it carries
    exactly a script with the reported policy id. A successful initialisation of the
    governance on that UTXO submits one transaction that spends it, with one output at the
    reported version oracle, which names the reported oracle policy, and carries exactly a
    script with that id. *)
Theorem clients_use_reported_scripts genesis_utxo (s : S) data :
  snd (get_scripts_data_of_client genesis_utxo s) = Done (Ok data) ->
  (forall d key s' log r, wf_DParameter d ->
    upsert_d_param genesis_utxo d key (s, []) = ((s', log), Done (Ok r)) ->
    upserts_at get_current_d_parameter d (d_parameter_to_plutus_data d) (fun validator _ => validator) s
      (a_d_parameter_validator (addresses data)) (p_d_parameter (policy_ids data)) log r) /\
  (forall cs key s' log r,
    upsert_permissioned_candidates genesis_utxo cs key (s, []) = ((s', log), Done (Ok r)) ->
    upserts_at get_current_permissioned_candidates (sort_by candidate_leb cs)
      (permissioned_candidates_to_plutus_data (sort_by candidate_leb cs)) (fun _ policy => policy) s
      (a_permissioned_candidates_validator (addresses data)) (p_permissioned_candidates (policy_ids data)) log r) /\
  (forall tx_to_json authority key s' log r,
    run_init_governance tx_to_json authority key (Some genesis_utxo) (s, []) = ((s', log), Done (Ok r)) ->
    exists u tx out policy, log = [tx_to_bytes tx] /\ to_domain u = genesis_utxo /\
      to_csl_tx_input u ∈ body_inputs (body tx) /\
      List.filter (at_address (a_version_oracle_validator (addresses data))) (body_outputs (body tx)) = [out] /\
      output_data out = Some (version_oracle_to_plutus_data (mkVersionOracleDatum SCRIPT_ID (p_version_oracle (policy_ids data)))) /\
      (forall sc, sc ∈ plutus_scripts (witness_set tx) <-> sc = script_to_csl policy) /\
      policy_id policy = p_version_oracle (policy_ids data)).
Proof.
  intros Hd. apply get_scripts_data_of_client_inv in Hd as (configuration & Hconf & Hd).
  apply get_scripts_data_inv in Hd as ((dv & dp & Hds & Hda & Hdp) & (pv & pp & Hps & Hpa & Hpp) & (ov & od & Ho & Hoa)). split_and!.
  - intros d key s' log r Hwf Hr. apply upsert_d_param_settles in Hr as (ctx & v & p & a & us & Hat & Hup); [|done].
    by eapply upserts_at_reported.
  - intros cs key s' log r Hr. apply upsert_permissioned_candidates_settles in Hr as (ctx & v & p & a & us & Hat & Hup).
    by eapply (upserts_at_reported _ _ _ _ (fun _ policy => policy)).
  - intros tx_to_json authority key s' log r Hr.
    apply run_init_governance_inv in Hr as (conf & ctx & u & ex & tx & Hc & Hn & <- & -> & Ht).
    rewrite Hconf in Hc. injection Hc as <-. rewrite <- Hn in *.
    destruct (governance_inv _ _ _ _ _ _ _ _ Ho Ht) as (out & script & Hp & Ha & Hod & Hco). apply signed in Hco.
    exists u, (sign ctx tx), out, script. split_and!; [done|done| | |done| |done].
    + apply (co_spends _ _ _ _ _ Hco). set_solver.
    + by eapply outputs_at_validator.
    + intros sc. rewrite (co_scripts _ _ _ _ _ Hco). apply list_elem_of_singleton.
Qed.
End OneSetOfScripts.

(** ** A small library and node *)
Module SmallCsl.
(** Plutus data as trees; its bytes are one number. *)
Abbreviation data := (gen_tree (Z + list Z)).
#[export] Instance csl_data : Csl := {|
  PlutusData := data;
  as_integer t := match t with GenLeaf (inl n) => Some n | _ => None end;
  as_bytes t := match t with GenLeaf (inr b) => Some b | _ => None end;
  as_list t := match t with GenNode 0 l => Some l | _ => None end;
  as_constr_plutus_data t := match t with GenNode 1 (GenLeaf (inl n) :: l) => Some (n, l) | _ => None end;
  new_integer n := GenLeaf (inl n); new_bytes b := GenLeaf (inr b); new_list := GenNode 0;
  new_constr_plutus_data n l := GenNode 1 (GenLeaf (inl n) :: l)
|}.
#[export] Instance csl_data_laws : CslLaws.
Proof. by split. Qed.

Definition is_byte (b : Z) : bool := ((0 <=? b) && (b <? 256))%Z.
Definition text (bs : list Z) : string := String.string_of_list_ascii (map (fun b => Ascii.ascii_of_nat (Z.to_nat b)) bs).
Lemma text_inj bs bs' : forallb is_byte bs = true -> forallb is_byte bs' = true -> text bs = text bs' -> bs = bs'.
Proof.
  unfold text. intros Hb Hb' Ht. apply (f_equal String.list_ascii_of_string) in Ht.
  rewrite !String.list_ascii_of_string_of_list_ascii in Ht. revert bs' Hb' Ht.
  induction bs as [|b bs IH]; intros [|b' bs']; try done. cbn [forallb map]. rewrite !andb_true_iff in *. unfold is_byte at 1.
  cbn [forallb] in Hb. rewrite andb_true_iff in Hb. destruct Hb as [Hb Hbs]. unfold is_byte in Hb.
  intros [Hb' Hbs'] [= Hc Ht]. f_equal; [|by apply IH].
  apply (f_equal Ascii.nat_of_ascii) in Hc. rewrite !Ascii.nat_ascii_embedding in Hc by lia. lia.
Qed.
Definition address_bytes (a : Z * Credential) : list Z :=
  match a with (n, from_keyhash h) => 107 :: n :: h | (n, from_scripthash h) => 115 :: n :: h end%Z.

Record Output := mkOutput { o_address : Z * Credential; o_data : option data; o_coin : Z; o_assets : list (bytes * list (bytes * Z)) }.
Record Tx := mkTx { t_inputs : list TransactionInput; t_outputs : list Output; t_scripts : list CslPlutusScript;
  t_mint_scripts : list CslPlutusScript; t_vkeys : list (bytes * bytes) }.
Definition add_change (us : list (TransactionInput * Output)) (change : Z * Credential) (b : Tx) : result string Tx :=
  match us with
  | [] => Err "no inputs"
  | (i, o) :: _ => Ok (mkTx (t_inputs b ++ [i]) (t_outputs b ++ [mkOutput change None (o_coin o) []]) (t_scripts b)
      (t_mint_scripts b) (t_vkeys b))
  end.
#[export] Instance csl_lib : CslLib := {|
  Address := Z * Credential;
  enterprise_address n c := (n, c);
  to_bech32 a := if forallb is_byte (address_bytes a) then Ok (text (address_bytes a)) else Err "not bytes";
  from_bech32 _ := Ok (0%Z, from_keyhash []);
  plutus_data_from_address a := Ok (GenLeaf (inr (address_bytes a)));
  plutus_data_debug _ := "";
  plutus_data_to_bytes d := [Zpos (countable.encode d)];
  plutus_data_from_bytes b :=
    match b with [Zpos p] => match countable.decode p with Some d => Ok d | None => Err "data" end | _ => Err "data" end;
  PrivateKey := bytes; PublicKey := bytes; Ed25519Signature := bytes;
  from_normal_bytes := Ok; to_public k := k; public_hash k := k; key_sign k b := b;
  CslAssetName := bytes; Assets := list (bytes * Z); MultiAsset := list (bytes * list (bytes * Z));
  Value := Z * list (bytes * list (bytes * Z));
  asset_name_new := Ok; assets_new := []; assets_insert n z l := (n, z) :: l;
  multiasset_new := []; multiasset_insert p l m := (p, l) :: m;
  value_new n := (n, []); value_new_with_assets n m := (n, m); value_coin := fst;
  TransactionOutput := Output; OutputBuilder := option (Z * Credential) * option data; OutputAmountBuilder := Output;
  transaction_output_new a v := mkOutput a None (fst v) (snd v);
  output_builder_new := (None, None);
  with_address a b := (Some a, snd b);
  with_plutus_data d b := (fst b, Some d);
  with_script_ref _ b := b;
  output_next b := match fst b with Some a => Ok (mkOutput a (snd b) 0 []) | None => Err "no address" end;
  with_coin_and_asset c m o := mkOutput (o_address o) (o_data o) c m;
  output_build := Ok;
  calculate_ada _ c := Ok (100 * c)%Z;
  TxInputsBuilder := list TransactionInput * list CslPlutusScript;
  inputs_new := ([], []);
  add_regular_input _ i _ b := Ok (fst b ++ [i], snd b);
  add_key_input _ i _ b := (fst b ++ [i], snd b);
  add_plutus_script_input w i _ b := (fst b ++ [i], snd b ++ [witness_script w]);
  MintBuilder := list CslPlutusScript; mint_new := []; mint_add_asset w _ _ m := Ok (m ++ [mint_script w]);
  TransactionBuilderConfig := unit; build_config _ _ _ _ _ _ _ := Ok tt;
  TransactionBody := Tx; TransactionWitnessSet := Tx; AuxiliaryData := unit; Transaction := Tx * Tx;
  transaction_new b w _ := (b, w); body := fst; witness_set := snd; auxiliary_data _ := None;
  vkeys w := Some (t_vkeys w);
  set_vkeys v w := mkTx (t_inputs w) (t_outputs w) (t_scripts w) (t_mint_scripts w) v;
  body_to_bytes b := concat (map input_tx (t_inputs b)); tx_to_bytes t := concat (map input_tx (t_inputs (fst t)));
  TransactionBuilder := Tx; builder _ := mkTx [] [] [] [] [];
  set_inputs i b := mkTx (fst i) (t_outputs b) (snd i) (t_mint_scripts b) (t_vkeys b);
  add_output o b := Ok (mkTx (t_inputs b) (t_outputs b ++ [o]) (t_scripts b) (t_mint_scripts b) (t_vkeys b));
  set_mint_builder m b := mkTx (t_inputs b) (t_outputs b) (t_scripts b) m (t_vkeys b);
  set_collateral _ b := b; add_required_signer _ b := b; set_script_data_hash _ b := b; calc_script_data_hash _ b := Ok b;
  add_inputs_from_and_change _ _ _ _ := Err "no collateral";
  add_inputs_from_and_change_with_collateral_return us _ change _ b := add_change us change b;
  build_tx b := Ok (b, b)
|}.
#[export] Instance csl_views : CslViews := {|
  body_inputs := t_inputs; body_outputs := t_outputs; plutus_scripts w := t_scripts w ++ t_mint_scripts w;
  output_address := o_address; output_data := o_data;
  view b := mkBuilderView _ _ (t_inputs b) (t_outputs b) (t_scripts b) (t_mint_scripts b);
  inputs_view i := i; mint_view m := m
|}.
#[export] Instance csl_lib_laws : CslLibLaws.
Proof.
  split; try done; cbn - [countable.encode countable.decode]; try (intros; by simplify_eq).
  - intros a b s. destruct (forallb is_byte (address_bytes a)) eqn:Ea, (forallb is_byte (address_bytes b)) eqn:Eb; try done.
    intros [= <-] [= Ht]. apply text_inj in Ht; [|done..]. destruct a as [n []], b as [m []]; cbn in Ht; congruence.
  - intros d. rewrite countable.decode_encode. done.
  - intros us st change p b b'. unfold add_change. destruct us as [|[i o] us]; [done|]. intros [= <-].
    exists [i], [mkOutput change None (o_coin o) []]. split; [by repeat constructor|done].
  - intros b tx sc [= <-]. cbn. by rewrite elem_of_app.
Qed.
End SmallCsl.

(** A node with the UTXOs of a ledger. *)
Module SmallNode.
Export SmallCsl ConcreteHex Rfc8949.
#[export] Instance plain_hash : Blake2bHash := fun _ b => b.
#[export] Instance small_uplc : Uplc := {|
  UplcData := bytes; BoundedBytes b := b; UplcArray l := concat l; UplcInt n := [n];
  as_bounded_bytes := Some; uplc_plutus_data := Ok; minicbor_decode := Ok; cbor_event_serialize _ := Ok [7]%Z;
  Program := bytes; program_from_cbor := Ok; program_apply_data d p := p ++ d; program_to_cbor := Some
|}.
#[export] Instance small_scripts : RawScripts := {|
  COMMITTEE_CANDIDATE_VALIDATOR := [1]; D_PARAMETER_VALIDATOR := [2]; D_PARAMETER_POLICY := [3];
  ILLIQUID_CIRCULATION_SUPPLY_VALIDATOR := [4]; PERMISSIONED_CANDIDATES_VALIDATOR := [5];
  PERMISSIONED_CANDIDATES_POLICY := [6]; RESERVE_VALIDATOR := [7]; RESERVE_AUTH_POLICY := [8];
  VERSION_ORACLE_VALIDATOR := [9]; VERSION_ORACLE_POLICY := [10]; MULTI_SIG_POLICY := [11]
|}%Z.
Definition parameters : ProtocolParametersResponse :=
  mkProtocolParameters 44 (new_lovelace 155381) (new_lovelace 500000000) (new_lovelace 2000000) (mkOgmiosBytesSize 5000)
    (mkOgmiosBytesSize 16384) 4310 (mkScriptExecutionPrices (mkRatio 577 10000) (mkRatio 721 10000000))
    (mkPlutusCostModels [] [] []) 3 150.
#[export] Instance small_node : MainchainClient (list OgmiosUtxo) := {|
  era_summaries s := (s, Done (Ok []));
  query_utxos addresses s := (s, Done (Ok (List.filter (fun u => bool_decide (utxo_address u ∈ addresses)) s)));
  query_protocol_parameters s := (s, Done (Ok parameters));
  shelley_genesis_configuration s :=
    (s, Done (Ok (mkShelleyGenesis 2 Testnet 432 (mkRatio 1 20) 86400 (mkSlotLength 1000) 1666656000)));
  evaluate_transaction _ s := (s, Done (Ok [mkEvaluateResponse (mkOgmiosValidatorIndex 0 "spend") (mkOgmiosBudget 519278 155707522)]));
  submit_transaction tx s := (s, Done (Ok (mkSubmitResponse (mkOgmiosTx tx))))
|}.
#[export] Instance small_node_reads : ReadOnlyQueries (list OgmiosUtxo).
Proof. by split. Qed.

Definition genesis : UtxoId := mkUtxoId (replicate 32 5%Z) 1.
Definition wallet : list OgmiosUtxo :=
  [mkOgmiosUtxo (mkOgmiosTx [1]%Z) 0 (text (address_bytes (0, from_keyhash [42])))%Z (new_lovelace 15000000) None None None].
Definition context : TransactionContext := mkTransactionContext [42]%Z wallet NetTestnet parameters.
Definition scripts_of (r : fallible string (PlutusScript * PlutusScript)) : PlutusScript * PlutusScript :=
  match r with Done (Ok s) => s | _ => (from_cbor [] PlutusV2, from_cbor [] PlutusV2) end.
(** The UTXO of a contract that holds a datum. *)
Definition contract_utxo (scripts : UtxoId -> NetworkIdKind -> fallible string (PlutusScript * PlutusScript)) (d : data) : OgmiosUtxo :=
  mkOgmiosUtxo (mkOgmiosTx [15]%Z) 0 (text (address_bytes (address NetTestnet (fst (scripts_of (scripts genesis NetTestnet))))))
    (new_lovelace 10000000) (Some (mkDatum (plutus_data_to_bytes d))) None None.
Definition ledger : list OgmiosUtxo := wallet ++ [contract_utxo d_parameter_scripts (d_parameter_to_plutus_data (mkDParameter 1 2))].
(** A wallet that holds the genesis UTXO. *)
Definition funded : list OgmiosUtxo :=
  wallet ++ [mkOgmiosUtxo (mkOgmiosTx (tx_hash genesis)) (index genesis) (text (address_bytes (0, from_keyhash [42])))%Z
    (new_lovelace 5000000) None None None].
Definition candidate (k : Z) : PermissionedCandidateData := mkPermissionedCandidateData [k] [k] [k].
End SmallNode.

Section Witnesses.
Import SmallNode.
Lemma upsert_sets_d_parameter_witness :
  (exists log h ctx validator policy a us,
    upsert_d_param genesis (mkDParameter 3 4) [42]%Z (ledger, []) = ((ledger, log), Done (Ok (Some h))) /\
    at_contract d_parameter_scripts genesis [42]%Z ledger ctx validator policy a us /\
    upserted get_current_d_parameter (mkDParameter 3 4) (d_parameter_to_plutus_data (mkDParameter 3 4)) validator policy a us
      log (Some h)) /\
  upsert_d_param genesis (mkDParameter 1 2) [42]%Z (ledger, []) = ((ledger, []), Done (Ok None)).
Proof.
  split; [|vm_compute; reflexivity].
  destruct (upsert_d_param genesis (mkDParameter 3 4) [42]%Z (ledger, [])) as [[s log] [[[h|]|]|]] eqn:E;
    [|exfalso; revert E; vm_compute; congruence ..].
  assert (s = ledger) as -> by (revert E; vm_compute; congruence).
  destruct (upsert_sets_d_parameter genesis (mkDParameter 3 4) [42]%Z ledger ledger log (Some h))
    as (ctx & validator & policy & a & us & Hat & Hup); [by vm_compute|exact E|].
  exists log, h, ctx, validator, policy, a, us. split; [done|]. split; [exact Hat|exact Hup].
Defined.
Lemma upsert_sets_permissioned_candidates_witness :
  exists log h, upsert_permissioned_candidates genesis [candidate 2; candidate 1] [42]%Z (ledger, []) =
      ((ledger, log), Done (Ok (Some h))) /\
    (exists tx out, log = [tx_to_bytes tx] /\
      output_data out = Some (permissioned_candidates_to_plutus_data [candidate 1; candidate 2])) /\
    upsert_permissioned_candidates genesis [candidate 1; candidate 2] [42]%Z (ledger, []) =
      upsert_permissioned_candidates genesis [candidate 2; candidate 1] [42]%Z (ledger, []).
Proof.
  destruct (upsert_permissioned_candidates genesis [candidate 2; candidate 1] [42]%Z (ledger, [])) as [[s log] [[[h|]|]|]] eqn:E;
    [|exfalso; revert E; vm_compute; congruence ..].
  assert (s = ledger) as -> by (revert E; vm_compute; congruence).
  exists log, h. split; [done|].
  destruct (upsert_sets_permissioned_candidates genesis [candidate 2; candidate 1] [42]%Z ledger ledger log (Some h) E)
    as [(ctx & validator & policy & a & us & _ & _ & tx & out & Hl & _ & Hd & _) Ho].
  split; [exists tx, out; split; [exact Hl|exact Hd]|].
  rewrite <- E. apply Ho. apply perm_swap.
Defined.

Lemma permissioned_update_lacks_validator_witness :
  exists tx, let '(validator, policy) := scripts_of (permissioned_candidates_scripts genesis NetTestnet) in
    let u := contract_utxo permissioned_candidates_scripts (permissioned_candidates_to_plutus_data [candidate 1]) in
    update_permissioned_candidates_tx validator policy [candidate 2] u context zero_ex_units = Done (Ok tx) /\
    ~ carries_script_of (sign context tx) NetTestnet u.
Proof.
  destruct (scripts_of (permissioned_candidates_scripts genesis NetTestnet)) as [validator policy] eqn:Es.
  vm_compute in Es. injection Es as <- <-.
  match goal with |- exists tx, let u := ?c in update_permissioned_candidates_tx ?v ?p _ _ _ _ = _ /\ _ =>
    set (validator := v); set (policy := p); set (u := c) end.
  destruct (update_permissioned_candidates_tx validator policy [candidate 2] u context zero_ex_units) as [[tx|]|] eqn:E;
    [|exfalso; revert E; vm_compute; congruence ..].
  destruct (update_d_param_tx validator policy (mkDParameter 1 2) u context zero_ex_units) as [[dtx|]|] eqn:D;
    [|exfalso; revert D; vm_compute; congruence ..].
  exists tx. split; [done|].
  apply (permissioned_update_lacks_validator context validator policy [candidate 2] (mkDParameter 1 2) u zero_ex_units tx dtx);
    [vm_compute; reflexivity|vm_compute; congruence|exact E|exact D].
Defined.

Lemma clients_use_reported_scripts_witness :
  exists data log h, snd (get_scripts_data_of_client genesis ledger) = Done (Ok data) /\
    upsert_d_param genesis (mkDParameter 3 4) [42]%Z (ledger, []) = ((ledger, log), Done (Ok (Some h))) /\
    upserts_at get_current_d_parameter (mkDParameter 3 4) (d_parameter_to_plutus_data (mkDParameter 3 4))
      (fun validator _ => validator) ledger (a_d_parameter_validator (addresses data)) (p_d_parameter (policy_ids data)) log (Some h) /\
    exists governance_log tx, run_init_governance (fun _ => Ok "") (replicate 28 1%Z) [42]%Z (Some genesis)
        (funded, []) = ((funded, governance_log), Done (Ok (mkOgmiosTx tx))) /\
      exists t out, governance_log = [tx_to_bytes t] /\
        List.filter (at_address (a_version_oracle_validator (addresses data))) (body_outputs (body t)) = [out].
Proof.
  destruct (snd (get_scripts_data_of_client genesis ledger)) as [[data|]|] eqn:E; [|exfalso; revert E; vm_compute; congruence ..].
  destruct (upsert_d_param genesis (mkDParameter 3 4) [42]%Z (ledger, [])) as [[s log] [[[h|]|]|]] eqn:U;
    [|exfalso; revert U; vm_compute; congruence ..].
  assert (s = ledger) as -> by (revert U; vm_compute; congruence).
  destruct (run_init_governance (fun _ => Ok "") (replicate 28 1%Z) [42]%Z (Some genesis) (funded, []))
    as [[s glog] [[[tx]|]|]] eqn:G; [|exfalso; revert G; vm_compute; congruence ..].
  assert (s = funded) as -> by (revert G; vm_compute; congruence).
  exists data, log, h. split; [done|]. split; [done|]. split.
  - apply (proj1 (clients_use_reported_scripts genesis ledger data E) (mkDParameter 3 4) [42]%Z ledger); [by vm_compute|exact U].
  - exists glog, tx. split; [done|].
    assert (snd (get_scripts_data_of_client genesis funded) = Done (Ok data)) as E' by (rewrite <- E; vm_compute; reflexivity).
    destruct (proj2 (proj2 (clients_use_reported_scripts genesis funded data E')) _ _ _ _ _ _ G)
      as (_ & t & out & _ & Hl & _ & _ & Ho & _). exists t, out. split; [exact Hl|exact Ho].
Defined.
End Witnesses.
