(* ===== verification/CliPrepare.v ===== *)
(** * The prepare-configuration wizard

    [toolkit/partner-chains-cli/src]: [prepare_configuration/], and what it uses of
    [ogmios/mod.rs], [select_utxo.rs], [cardano_key.rs], [pc_contracts_cli_resources.rs]
    and [smart_contracts.rs].

    Errors are their texts, without the details that third-party code gives. Third-party:
    the identity of a network key ([Libp2p]). The theorem on a run says what
    [load_chain_config] reads afterwards. *)

From S2P Require Import Prelude Domain McEpoch Cbor Json PlutusDatums Ogmios OffchainCsl Offchain OffchainUpsert CliConfig.
#[local] Open Scope string_scope.
#[local] Open Scope list_scope.

(** [Keypair::ed25519_from_bytes], and the peer id of its public key in base58. *)
Class Libp2p := ed25519_peer_id : bytes -> option string.

Definition return_err {W E A} (e : E) : stateful W E A := stateless (lift (Err e)).
Definition return_ok {W E A} (a : A) : stateful W E A := stateless (lift (Ok a)).
Definition checked_add64 (a b : Z) : option Z := try_into_width 64 (a + b).
Definition checked_mul64 (a b : Z) : option Z := try_into_width 64 (a * b).

(** ** Ogmios *)
Section OgmiosModule.
Context `{F64}.
Definition CliEpochBoundary_from (b : EpochBoundary) : CliEpochBoundary :=
  mkCliEpochBoundary (seconds (eb_time b)) (eb_slot b) (eb_epoch b).
Definition CliEpochParameters_from (p : EpochParameters) : CliEpochParameters :=
  mkCliEpochParameters (ep_epoch_length p) (milliseconds (ep_slot_length p)).
Definition CliEraSummary_from (e : EraSummary) : CliEraSummary :=
  mkCliEraSummary (CliEpochBoundary_from (era_start e)) (CliEpochParameters_from (parameters e)).
Definition ShelleyGenesisConfiguration_try_from (g : ShelleyGenesisConfigurationResponse)
    : result string ShelleyGenesisConfiguration :=
  coefficient ← ok_or (f64_try_from (active_slots_coefficient g)) "Cannot convert active_slots_coefficient";
  start ← ok_or (try_into_width 64 (start_time g)) "out of range integral type conversion attempted";
  Ok (mkShelleyGenesisConfiguration (network g) (security_parameter g) coefficient (sg_epoch_length g)
        (milliseconds (sg_slot_length g)) start).

(** With the client that [HttpClient::builder().build(addr)] connects. *)
Definition ogmios_request {S} `{!MainchainClient S} (req : OgmiosRequest) : stateful S string OgmiosResponse :=
  match req with
  | QueryLedgerStateEraSummaries =>
      eras ←! map_err_stateful OgmiosClientError_display era_summaries;
      return_ok (EraSummariesResponse (map CliEraSummary_from eras))
  | QueryNetworkShelleyGenesis =>
      genesis ←! map_err_stateful OgmiosClientError_display shelley_genesis_configuration;
      genesis ←! stateless (lift (ShelleyGenesisConfiguration_try_from genesis));
      return_ok (ShelleyGenesisResponse genesis)
  | QueryUtxo address =>
      utxos ←! map_err_stateful OgmiosClientError_display (query_utxos [address]);
      return_ok (UtxoResponse utxos)
  end.
End OgmiosModule.

(** ** Choosing a UTXO *)
Record ValidUtxo := mkValidUtxo { utxo_id : UtxoId; vu_lovelace : Z }.
Section SelectUtxo.
Context `{F64, HexCodec, SerdeJson} {W : Type} `{!IOContext W}.

Definition to_display_string (self : ValidUtxo) : string :=
  utxo_text (utxo_id self) +:+ " (" +:+ dec_text (vu_lovelace self) +:+ " lovelace)".

Definition query_address_utxos (ogmios_config : ServiceConfig) (address : string) : stateful W string (list OgmiosUtxo) :=
  let ogmios_addr := ServiceConfig_display ogmios_config in
  _x ←! act (print ("⚙️ Querying UTXOs of " +:+ address +:+ " from Ogmios at " +:+ ogmios_addr +:+ "..."));
  response ←! ogmios_rpc ogmios_addr (QueryUtxo address);
  match response with
  | UtxoResponse utxos => return_ok utxos
  | _ => return_err "Unexpected response from Ogmios when querying for utxos"
  end.

Definition to_valid_utxo (utxo : OgmiosUtxo) : option ValidUtxo :=
  if bool_decide (native_tokens (value utxo) = ∅)
  then Some (mkValidUtxo (mkUtxoId (tx_id (transaction utxo)) (utxo_index utxo)) (lovelace (value utxo)))
  else None.
Definition filter_utxos (utxos : list OgmiosUtxo) : list ValidUtxo :=
  sort_by (fun a b => vu_lovelace b <=? vu_lovelace a)%Z (omap to_valid_utxo utxos).

Definition select_from_utxos (prompt : string) (utxos : list ValidUtxo) : stateful W string UtxoId :=
  let utxo_display_options := map to_display_string utxos in
  selected_utxo_display_string ←! act (prompt_multi_option prompt utxo_display_options);
  selected_utxo ←! stateless (lift (ok_or
    (utxo_text ∘ utxo_id <$> find (fun utxo => bool_decide (to_display_string utxo = selected_utxo_display_string)) utxos)
    "⚠️ Failed to find selected UTXO"));
  map_err_with (stateless (lift (utxo_from_text selected_utxo)))
    (fun e => _x ←# eprint ("⚠️ Failed to parse selected UTXO: " +:+ e); pure e).
End SelectUtxo.

(** ** Keys and services *)
Section Services.
Context `{F64, Hex, HexCodec, SerdeJson, CslLib, Blake2bHash} {W : Type} `{!IOContext W}.

Definition CBOR_KEY_PREFIX : string := "5820".
(** [strip_prefix]. *)
Fixpoint strip_prefix (prefix s : string) : option string :=
  match prefix, s with
  | EmptyString, _ => Some s
  | String c p, String d s' => if decide (c = d) then strip_prefix p s' else None
  | _, _ => None
  end.
Definition CardanoKeyFileContent_from_value (v : JValue) : option string := s ← json_get "cborHex" v; string_from_value s.
Definition get_key_bytes_from_file (n : nat) (path : string) : stateful W string bytes :=
  file_content ←! act (read_file path);
  match file_content with
  | None => return_err ("Failed to read Cardano key file " +:+ path)
  | Some file_content =>
      cbor_hex ←! stateless (lift (ok_or (json ← from_json file_content; CardanoKeyFileContent_from_value json)
        ("Failed to parse Cardano key file " +:+ path)));
      match strip_prefix CBOR_KEY_PREFIX cbor_hex with
      | None => return_err ("Invalid cbor value of Cardano key - missing prefix " +:+ CBOR_KEY_PREFIX +:+ ": " +:+ cbor_hex)
      | Some vkey =>
          bytes ←! stateless (lift (ok_or (hex_decode (str_of vkey))
            ("Invalid cbor value of Cardano key - not valid hex: " +:+ cbor_hex)));
          stateless (lift (ok_or (to_array n bytes)
            ("Invalid cbor value of Cardano key - incorrect length: " +:+ cbor_hex)))
      end
  end.
Definition derive_address (cardano_network : NetworkType) : stateful W string string :=
  cardano_payment_verification_key_file ←! act (prompt_with_default_from_file_and_save CARDANO_PAYMENT_VERIFICATION_KEY_FILE);
  key_bytes ←! get_key_bytes_from_file 32 cardano_payment_verification_key_file;
  stateless (lift (to_bech32 (payment_address_of_key key_bytes (NetworkType_to_csl cardano_network)))).

Record PcContractsCliResources := mkPcContractsCliResources { kupo : ServiceConfig; ogmios : ServiceConfig }.
Definition select_protocol (field : ConfigFieldDefinition NetworkProtocol) : stateful W string NetworkProtocol :=
  select_options_with_default_from_file_and_save field protocol_text NetworkProtocol_select_options (name field).
Definition prompt_ogmios_configuration : stateful W string ServiceConfig :=
  ogmios_protocol ←! select_protocol OGMIOS_PROTOCOL;
  ogmios_hostname ←! act (prompt_with_default_from_file_and_save OGMIOS_HOSTNAME);
  ogmios_port ←! prompt_with_default_from_file_parse_and_save OGMIOS_PORT u16_text;
  return_ok (mkServiceConfig ogmios_protocol ogmios_hostname ogmios_port).
Definition KUPO_AND_OGMIOS_REQUIRED : string :=
  "Partner Chains Smart Contracts require access to Kupo and Ogmios. Please provide their configuration.".
Definition establish_pc_contracts_cli_configuration : stateful W string PcContractsCliResources :=
  _x ←! act (print KUPO_AND_OGMIOS_REQUIRED);
  kupo_protocol ←! select_protocol KUPO_PROTOCOL;
  kupo_hostname ←! act (prompt_with_default_from_file_and_save KUPO_HOSTNAME);
  kupo_port ←! prompt_with_default_from_file_parse_and_save KUPO_PORT u16_text;
  ogmios ←! prompt_ogmios_configuration;
  return_ok (mkPcContractsCliResources (mkServiceConfig kupo_protocol kupo_hostname kupo_port) ogmios).

Definition sidechain_params_arguments (genesis_utxo : UtxoId) : string := "--genesis-utxo " +:+ utxo_text genesis_utxo.
Definition runtime_config_arguments (runtime_config : PcContractsCliResources) (payment_signing_key_path : string) : string :=
  "--kupo-host " +:+ hostname (kupo runtime_config) +:+ " --kupo-port " +:+ dec_text (port (kupo runtime_config)) +:+ " " +:+
  (if is_secure (protocol (kupo runtime_config)) then "--kupo-secure" else "") +:+
  " --ogmios-host " +:+ hostname (ogmios runtime_config) +:+ " --ogmios-port " +:+ dec_text (port (ogmios runtime_config)) +:+ " " +:+
  (if is_secure (protocol (ogmios runtime_config)) then "--ogmios-secure" else "") +:+
  " --payment-signing-key-file " +:+ payment_signing_key_path.
End Services.

(** ** Bootnodes *)
Inductive Protocol := Dns | Ipv4.
#[export] Instance Protocol_eq_dec : EqDecision Protocol.
Proof. solve_decision. Defined.
Definition default_address (self : Protocol) : string := match self with Dns => "localhost" | Ipv4 => "127.0.0.1" end.
Definition Protocol_into (p : Protocol) : string := match p with Dns => "hostname" | Ipv4 => "IP address" end.
Definition Protocol_from_str (s : string) : result string Protocol :=
  if decide (s = "hostname") then Ok Dns else if decide (s = "dns") then Ok Dns
  else if decide (s = "IP address") then Ok Ipv4 else if decide (s = "ip4") then Ok Ipv4
  else Err "Invalid protocol".

Definition SLASH : Ascii.ascii := Ascii.ascii_of_nat 47.
Definition DOT : Ascii.ascii := Ascii.ascii_of_nat 46.
(** [Ipv4Addr::from_str]: four numbers of at most three digits, none with a leading zero. *)
Definition octet_from_str (s : str) : option Z :=
  digits ← mapM to_digit s;
  match digits with
  | [] => None
  | d :: ds =>
      if bool_decide (d = 0%Z /\ ds <> []) || (3 <? length digits)%nat then None
      else try_into_width 8 (fold_left (fun acc d => acc * 10 + d)%Z digits 0%Z)
  end.
Definition Ipv4Addr_from_str (s : string) : option (list Z) :=
  octets ← mapM octet_from_str (split_on DOT (str_of s));
  if decide (length octets = 4%nat) then Some octets else None.

Definition dns_bootnode (hostname : string) (port : Z) (peer_id : string) : string :=
  "/dns/" +:+ hostname +:+ "/tcp/" +:+ dec_text port +:+ "/p2p/" +:+ peer_id.
Definition ipv4_bootnode (ip_address : string) (port : Z) (peer_id : string) : string :=
  "/ip4/" +:+ ip_address +:+ "/tcp/" +:+ dec_text port +:+ "/p2p/" +:+ peer_id.
Definition deconstruct_bootnode (bootnode_opt : option string) : option (Protocol * string * Z) :=
  bootnode ← bootnode_opt;
  let parts := map of_str (drop 1 (split_on SLASH (str_of bootnode))) in
  protocol ← parts !! 0%nat; protocol ← ok (Protocol_from_str protocol);
  hostname ← parts !! 1%nat;
  _x ← parts !! 2%nat;
  port ← parts !! 3%nat; port ← ok (uint_from_str 16 port);
  Some (protocol, hostname, port).

Definition network_key_path (substrate_node_base_path chain_name : string) : string :=
  substrate_node_base_path +:+ "/chains/" +:+ chain_name +:+ "/network/secret_ed25519".

Section Bootnodes.
Context `{F64, Hex, HexCodec, SerdeJson, Libp2p} {W : Type} `{!IOContext W}.

Definition DEFAULT_PORT : Z := 3033.
Definition read_bootnode_defaults : action W (Protocol * string * Z) :=
  bootnodes ←# load_from_file BOOTNODES;
  pure (default (Dns, default_address Dns, DEFAULT_PORT) (deconstruct_bootnode (bootnodes ← bootnodes; head bootnodes))).
Definition choose_protocol (default_protocol : Protocol) : action W Protocol :=
  let key protocol := if decide (protocol <> Protocol_into default_protocol) then 1 else 0 in
  let protocols := sort_by (fun a b => key a <=? key b)%Z [Protocol_into Dns; Protocol_into Ipv4] in
  chosen ←# prompt_multi_option "Your bootnode should be accessible via:" protocols;
  fun w => (w, expect (ok (Protocol_from_str chosen))).
Definition peer_id_from_network_key (key_str : string) : result string string :=
  hex_vec ← ok_or (hex_decode (str_of key_str)) "Invalid hex";
  ok_or (ed25519_peer_id hex_vec) "Invalid Ed25519 bytes".
Definition peer_id_from_config : stateful W string string :=
  substrate_node_base_path ←! act (prompt_with_default_from_file_and_save SUBSTRATE_NODE_DATA_BASE_PATH);
  let network_key_path := network_key_path substrate_node_base_path DEFAULT_CHAIN_NAME in
  key ←! act (read_file network_key_path);
  key ←! stateless (lift (ok_or key ("⚠️ Network key not found under " +:+ network_key_path +:+
    ". Please run the `generate-keys` command first")));
  stateless (lift (peer_id_from_network_key key)).
Definition bootnodes_outro : string :=
  "Bootnode saved successfully. Keep in mind that you can manually modify " +:+ config_file BOOTNODES +:+ ", to edit bootnodes.".
Definition establish_bootnodes : stateful W string () :=
  _x ←! act (eprint "This 🧙 wizard will generate chain config file");
  peer_id ←! peer_id_from_config;
  defaults ←! act read_bootnode_defaults;
  let '(default_protocol, default_hostname_or_ip, default_port) := defaults in
  protocol ←! act (choose_protocol default_protocol);
  port ←! act (prompt "Enter bootnode TCP port" (Some (dec_text default_port)));
  port ←! stateless (lift (map_err (fun _ => "⚠️ Port must be a valid number") (uint_from_str 16 port)));
  let default_address := if decide (default_protocol = protocol) then default_hostname_or_ip else default_address protocol in
  bootnode ←! match protocol with
    | Dns =>
        hostname ←! act (prompt "Enter bootnode hostname" (Some default_address));
        return_ok (dns_bootnode hostname port peer_id)
    | Ipv4 =>
        ipv4_address ←! act (prompt "Enter bootnode IP address" (Some default_address));
        _x ←! stateless (lift (ok_or (Ipv4Addr_from_str ipv4_address) "⚠️ Invalid IP address"));
        return_ok (ipv4_bootnode ipv4_address port peer_id)
    end;
  _x ←! act (save_to_file BOOTNODES [bootnode]);
  _x ←! act (eprint bootnodes_outro);
  return_ok tt.
End Bootnodes.

(** ** Cardano parameters *)
Section CardanoParams.
Context `{F64, HexCodec, SerdeJson} {W : Type} `{!IOContext W}.

Definition get_eras_summaries (addr : string) : stateful W string (list CliEraSummary) :=
  eras_summaries ←! ogmios_rpc addr QueryLedgerStateEraSummaries;
  match eras_summaries with
  | EraSummariesResponse eras_summaries => return_ok eras_summaries
  | _ => return_err "Unexpected response from Ogmios when quering for era summaries"
  end.
Definition get_shelley_config (addr : string) : stateful W string ShelleyGenesisConfiguration :=
  response ←! ogmios_rpc addr QueryNetworkShelleyGenesis;
  match response with
  | ShelleyGenesisResponse shelley_config => return_ok shelley_config
  | _ => return_err "Unexpected response from Ogmios when quering for shelley genesis configuration"
  end.
Definition get_first_epoch_era (eras_summaries : list CliEraSummary) : result string CliEraSummary :=
  latest ← ok_or (last eras_summaries) "No eras found";
  let latest_era_parameters := cli_parameters latest in
  if negb (slot_length_millis latest_era_parameters =? 1000)%Z
  then Err "Unexpected slot length in latest era, Partner Chains support only 1 second slots"
  else ok_or (find (fun era => bool_decide (cli_parameters era = latest_era_parameters)) eras_summaries) "No eras found".
Definition caradano_parameters (eras_summaries : list CliEraSummary) (shelley_config : ShelleyGenesisConfiguration)
    : result string CardanoParameters :=
  first_epoch_era ← get_first_epoch_era eras_summaries;
  epoch_duration_millis ← ok_or (checked_mul64 (sgc_epoch_length shelley_config) (sgc_slot_length_millis shelley_config))
    "Epoch duration overflow";
  first_epoch_timestamp_millis ← ok_or
    (seconds ← checked_add64 (sgc_start_time shelley_config) (time_seconds (cli_start first_epoch_era)); checked_mul64 seconds 1000)
    "First epoch timestamp overflow";
  Ok (mkCardanoParameters (sgc_security_parameter shelley_config) (sgc_active_slots_coefficient shelley_config)
        (cli_epoch (cli_start first_epoch_era)) (cli_slot (cli_start first_epoch_era)) epoch_duration_millis
        first_epoch_timestamp_millis (sgc_network shelley_config)).
Definition prepare_cardano_params (ogmios_config : ServiceConfig) : stateful W string CardanoParameters :=
  let addr := ServiceConfig_display ogmios_config in
  eras_summaries ←! get_eras_summaries addr;
  shelley_config ←! get_shelley_config addr;
  stateless (lift (caradano_parameters eras_summaries shelley_config)).
End CardanoParams.

(** ** The wizard *)
Section Prepare.
Context `{F64, Hex, HexCodec, SerdeJson, Libp2p, CslLib, Blake2bHash} {W : Type} `{!IOContext W}.

Definition save_if_missing {T} (text : TextOf T) (field : ConfigFieldDefinition T) (new_value : T) : action W () :=
  loaded ←# load_from_file_and_print field text;
  match loaded with None => save_to_file field new_value | Some _ => pure tt end.

Definition CHAIN_PARAMS_INTRO : string := "Now, let's set up the genesis utxo. It identifies a partner chain. This wizard will query Ogmios for your UTXOs using address derived from the payment verification key. Please provide required data.".
Definition CAUTION : string := "Please do not spend this UTXO, it needs to be consumed by the governance initialization.
".
Definition prepare_chain_params : stateful W string (UtxoId * ServiceConfig) :=
  _x ←! act (eprint CHAIN_PARAMS_INTRO);
  ogmios_configuration ←! prompt_ogmios_configuration;
  shelley_config ←! get_shelley_config (ServiceConfig_display ogmios_configuration);
  address ←! derive_address (sgc_network shelley_config);
  utxo_query_result ←! query_address_utxos ogmios_configuration address;
  let valid_utxos := filter_utxos utxo_query_result in
  if bool_decide (valid_utxos = []) then
    _x ←! act (eprint "⚠️ No UTXOs found for the given address");
    _x ←! act (eprint "There has to be at least one UTXO in the governance authority wallet.");
    return_err "No UTXOs found"
  else
    genesis_utxo ←! select_from_utxos "Select an UTXO to use as the genesis UTXO" valid_utxos;
    _x ←! act (print CAUTION);
    _x ←! act (save_if_missing utxo_text_of GENESIS_UTXO genesis_utxo);
    return_ok (genesis_utxo, ogmios_configuration).

Definition set_up_cardano_addresses (genesis_utxo : UtxoId) (ogmios_config : ServiceConfig) : stateful W string () :=
  offchain_impl ←! offchain_impl ogmios_config;
  scripts_data ←! map_err_stateful (fun _ => "Offchain call failed!") (scripts_data_of offchain_impl genesis_utxo);
  let committee_candidate_validator_addr := a_committee_candidate_validator (addresses scripts_data) in
  let d_parameter_policy_id := of_str (hex_encode (p_d_parameter (policy_ids scripts_data))) in
  let permissioned_candidates_policy_id := of_str (hex_encode (p_permissioned_candidates (policy_ids scripts_data))) in
  let illiquid_supply_addr := a_illiquid_circulation_supply_validator (addresses scripts_data) in
  _x ←! act (save_to_file COMMITTEE_CANDIDATES_ADDRESS committee_candidate_validator_addr);
  _x ←! act (save_to_file D_PARAMETER_POLICY_ID d_parameter_policy_id);
  _x ←! act (save_to_file PERMISSIONED_CANDIDATES_POLICY_ID permissioned_candidates_policy_id);
  _x ←! act (save_to_file ILLIQUID_SUPPLY_ADDRESS illiquid_supply_addr);
  _x ←! act (print ("Cardano addresses have been set up:
- Committee Candidates Address: " +:+ committee_candidate_validator_addr +:+ "
- D Parameter Policy ID: " +:+ d_parameter_policy_id +:+ "
- Permissioned Candidates Policy ID: " +:+ permissioned_candidates_policy_id +:+ "
- Illiquid Supply Address: " +:+ illiquid_supply_addr));
  return_ok tt.

Definition prepare_native_token : action W () :=
  _x ←# print "Partner Chains can store their initial token supply on Cardano as Cardano native tokens.";
  _x ←# print "Creation of the native token is not supported by this wizard and must be performed manually before this step.";
  configure ←# prompt_yes_no "Do you want to configure a native token for you Partner Chain?" true;
  if configure : bool then
    _x ←# prompt_with_default_from_file_and_save NATIVE_TOKEN_POLICY;
    _x ←# prompt_with_default_from_file_and_save NATIVE_TOKEN_ASSET_NAME;
    pure tt
  else
    _x ←# save_to_file NATIVE_TOKEN_POLICY (of_str (ByteString.to_hex_string (replicate 28 0%Z)));
    save_to_file NATIVE_TOKEN_ASSET_NAME "0x".

(** The text that [prepare_main_chain_config] ends with is an argument. *)
Definition prepare_main_chain_config (outro : string) (ogmios_config : ServiceConfig) (genesis_utxo : UtxoId)
    : stateful W string () :=
  cardano_parameteres ←! prepare_cardano_params ogmios_config;
  _x ←! act (cardano_save cardano_parameteres);
  _x ←! set_up_cardano_addresses genesis_utxo ogmios_config;
  initial ←! act (load_from_file INITIAL_PERMISSIONED_CANDIDATES);
  _x ←! act (match initial with None => save_to_file INITIAL_PERMISSIONED_CANDIDATES [] | Some _ => pure tt end);
  _x ←! act prepare_native_token;
  _x ←! act (eprint outro);
  return_ok tt.

Definition prepare_configuration_run (outro : string) : stateful W string () :=
  _x ←! establish_bootnodes;
  chain_params ←! prepare_chain_params;
  _x ←! prepare_main_chain_config outro (snd chain_params) (fst chain_params);
  _x ←! act (eprint "🚀 All done!");
  return_ok tt.
End Prepare.

Section PromptFrames.
Context `{F64, Hex, HexCodec, SerdeJsonLaws, CslLib, Blake2bHash} {W : Type} `{!IOContext W, !IOFiles, !IOFilesLaws}.
Lemma frame_prompt_string l (f : ConfigFieldDefinition string) :
  location f ∈ l -> frame l (prompt_with_default_from_file_and_save (W := W) f).
Proof. intros Hl. unfold prompt_with_default_from_file_and_save. frames. Qed.
Lemma frame_prompt_parse {T} l (f : ConfigFieldDefinition T) text :
  location f ∈ l -> frame l (prompt_with_default_from_file_parse_and_save (W := W) f text).
Proof. intros Hl. unfold prompt_with_default_from_file_parse_and_save. frames. Qed.
Lemma frame_select_protocol l f : location f ∈ l -> frame l (select_protocol (W := W) f).
Proof. intros Hl. unfold select_protocol, select_options_with_default_from_file_and_save. frames. Qed.
#[local] Hint Resolve frame_prompt_string frame_prompt_parse frame_select_protocol : frame.

Definition chain_params_locations : list (string * list string) :=
  [location OGMIOS_PROTOCOL; location OGMIOS_HOSTNAME; location OGMIOS_PORT; location CARDANO_PAYMENT_VERIFICATION_KEY_FILE].
Lemma frame_ogmios_configuration l :
  chain_params_locations ⊆ l -> frame l (prompt_ogmios_configuration (W := W)).
Proof. intros Hl. unfold prompt_ogmios_configuration, return_ok. unfold chain_params_locations in Hl. frames. Qed.
Lemma frame_derive_address l n : chain_params_locations ⊆ l -> frame l (derive_address (W := W) n).
Proof.
  intros Hl. unfold derive_address, get_key_bytes_from_file, return_err. unfold chain_params_locations in Hl. frames.
Qed.
End PromptFrames.
#[export] Hint Resolve frame_prompt_string frame_prompt_parse frame_select_protocol frame_ogmios_configuration
  frame_derive_address : frame.
#[export] Hint Extern 1 (chain_params_locations ⊆ _) => solve [reflexivity | set_solver] : frame.

(** ** What a run leaves *)
Section Run.
Context `{F64Laws, Hex, HexCodecLaws, SerdeJsonLaws, Libp2p, CslLib, Blake2bHash} {W : Type} `{!IOContext W, !IOFiles, !IOFilesLaws}.

Lemma frame_establish_bootnodes : frame [location SUBSTRATE_NODE_DATA_BASE_PATH; location BOOTNODES] (establish_bootnodes (W := W)).
Proof. unfold establish_bootnodes, peer_id_from_config, read_bootnode_defaults, choose_protocol, return_ok. frames. Qed.

(** The responses of Ogmios have the widths of their Rust types. *)
Definition wf_utxo (u : OgmiosUtxo) : Prop := wf_UtxoId (mkUtxoId (tx_id (transaction u)) (utxo_index u)).
Definition wf_response (r : OgmiosResponse) : Prop :=
  match r with
  | EraSummariesResponse eras => Forall (fun e => in_width 32 (cli_epoch (cli_start e)) /\ in_width 64 (cli_slot (cli_start e))) eras
  | ShelleyGenesisResponse g => in_width 32 (sgc_security_parameter g)
  | UtxoResponse utxos => Forall wf_utxo utxos
  end.
Context (wf_responses : forall addr req (w w' : W) r, ogmios_rpc addr req w = (w', Done (Ok r)) -> wf_response r).

Lemma UtxoId_value_round_trip u : wf_UtxoId u -> (index u < 2 ^ 15)%Z -> UtxoId_from_value (UtxoId_to_value u) = Some u.
Proof.
  intros Hu Hi. unfold UtxoId_from_value, UtxoId_to_value. rewrite string_round_trip. cbn [mbind option_bind].
  unfold utxo_from_text, utxo_text, str_of, of_str. rewrite String.list_ascii_of_string_of_list_ascii.
  rewrite UtxoId_from_str_display by done. by rewrite (proj2 (Z.ltb_lt _ _) Hi).
Qed.
Lemma select_from_utxos_spec p utxos (w w' : W) g :
  Forall (fun u => wf_UtxoId (utxo_id u)) utxos ->
  select_from_utxos p utxos w = (w', Done (Ok g)) ->
  (exists u w1, u ∈ utxos /\ utxo_id u = g /\ prompt_multi_option p (map to_display_string utxos) w = (w1, Done (to_display_string u))) /\
  wf_UtxoId g /\ (index g < 2 ^ 15)%Z.
Proof.
  intros Hwf. unfold select_from_utxos. intros (w1 & chosen & Hask%act_Ok & Hr)%bind_stateful_Ok.
  apply bind_stateful_Ok in Hr as (w2 & text & [-> Ht]%stateless_Ok & Hr). unfold lift in Ht. injection Ht as Ht.
  destruct (find _ utxos) as [u|] eqn:Hfind; [|done]. cbn in Ht. injection Ht as <-. apply find_some in Hfind as [Hin Hu].
  apply bool_decide_eq_true in Hu. subst chosen. apply list_elem_of_In in Hin. rewrite Forall_forall in Hwf. specialize (Hwf u Hin). unfold map_err_with, stateless, lift in Hr.
  unfold utxo_from_text, utxo_text, str_of, of_str in Hr. rewrite String.list_ascii_of_string_of_list_ascii in Hr.
  rewrite UtxoId_from_str_display in Hr by done. destruct (index (utxo_id u) <? 2 ^ 15)%Z eqn:E.
  - injection Hr as <- <-. split_and!; [by exists u, w1|done|lia].
  - by destruct (bind_action _ _ w1) as [w3 []].
Qed.
Lemma valid_utxos_wf utxos : Forall wf_utxo utxos -> Forall (fun u => wf_UtxoId (utxo_id u)) (filter_utxos utxos).
Proof.
  rewrite !Forall_forall. intros Hwf v Hv. unfold filter_utxos in Hv. rewrite sort_by_perm in Hv.
  apply list_elem_of_omap in Hv as (u & Hu & Hv). unfold to_valid_utxo in Hv. case_bool_decide; [|done]. simplify_eq. by apply Hwf.
Qed.

Lemma save_if_missing_spec {T} text (f : ConfigFieldDefinition T) v (w w' : W) :
  from_value f (to_value f v) = Some v -> save_if_missing text f v w = (w', Done tt) ->
  field_value f w' = Some (default v (field_value f w)).
Proof.
  intros Hrt. unfold save_if_missing, load_from_file_and_print. intros (w1 & o & Hl & Hs)%bind_action_Done.
  apply bind_action_Done in Hl as (w2 & o' & (Hf & ->)%load_from_file_spec & Hl).
  destruct (field_value f w) as [x|] eqn:E.
  - apply bind_action_Done in Hl as (w3 & [] & Hp & Hl). unfold pure in Hl. injection Hl as <- <-. injection Hs as <-.
    change (field_value f w3 = Some x). rewrite <- E. apply field_value_same. rewrite <- Hf. pose proof (eprint_keeps (loaded_from_config_msg f text x) w2) as Hk.
    by rewrite Hp in Hk.
  - unfold pure in Hl. injection Hl as <- <-. apply saved_and_framed in Hs as [-> _]. by rewrite Hrt.
Qed.


(** The UTXO that the user chose: Ogmios reported the UTXOs of an address, those without tokens
    were offered, and the answer to [question] is the text of the one with this id. *)
Definition chosen_utxo (question : string) (g : UtxoId) : Prop := exists addr a (w1 w2 w3 : W) utxos u,
  ogmios_rpc addr (QueryUtxo a) w1 = (w2, Done (Ok (UtxoResponse utxos))) /\
  prompt_multi_option question (map to_display_string (filter_utxos utxos)) w2 = (w3, Done (to_display_string u)) /\
  u ∈ filter_utxos utxos /\ utxo_id u = g.
Definition genesis_question : string := "Select an UTXO to use as the genesis UTXO".

Lemma prepare_chain_params_spec (w w' : W) g oc :
  prepare_chain_params w = (w', Done (Ok (g, oc))) ->
  chosen_utxo genesis_question g /\ field_value GENESIS_UTXO w' = Some (default g (field_value GENESIS_UTXO w)).
Proof.
  unfold prepare_chain_params. intros Hr.
  apply bind_stateful_Ok in Hr as (w1 & [] & H1'%act_Ok & Hr).
  apply bind_stateful_Ok in Hr as (w2 & oc' & H2' & Hr).
  apply bind_stateful_Ok in Hr as (w3 & shelley & H3' & Hr).
  apply bind_stateful_Ok in Hr as (w4 & a & H4' & Hr).
  apply bind_stateful_Ok in Hr as (w5 & utxos & H5' & Hr).
  assert (field_value GENESIS_UTXO w5 = field_value GENESIS_UTXO w) as Hkeep.
  { rewrite (frame_run [] _ _ _ _ _ H5' ltac:(unfold query_address_utxos, return_ok, return_err; frames)) by done.
    rewrite (frame_run chain_params_locations _ _ _ _ _ H4' ltac:(frames)) by done.
    rewrite (frame_run [] _ _ _ _ _ H3' ltac:(unfold get_shelley_config, return_ok, return_err; frames)) by done.
    rewrite (frame_run chain_params_locations _ _ _ _ _ H2' ltac:(frames)) by done.
    by rewrite (frame_run [] _ _ _ _ _ H1' ltac:(frames)). }
  unfold query_address_utxos in H5'. apply bind_stateful_Ok in H5' as (wa & [] & _ & H5').
  apply bind_stateful_Ok in H5' as (wb & resp & Hrpc & H5'). destruct resp as [| |us]; try done.
  apply stateless_Ok in H5' as [-> [= ->]]. pose proof (wf_responses _ _ _ _ _ Hrpc) as Hwf.
  case_bool_decide.
  { apply bind_stateful_Ok in Hr as (? & [] & _ & Hr). by apply bind_stateful_Ok in Hr as (? & [] & _ & Hr). }
  apply bind_stateful_Ok in Hr as (w6 & g' & H6' & Hr). apply bind_stateful_Ok in Hr as (w7 & [] & H7'%act_Ok & Hr).
  apply bind_stateful_Ok in Hr as (w8 & [] & H8'%act_Ok & Hr). apply stateless_Ok in Hr as [-> [= -> ->]].
  pose proof (select_from_utxos_spec _ _ _ _ _ (valid_utxos_wf _ Hwf) H6') as ((u & wc & Hin & Hu & Hask) & Hg & Hi).
  split; [by exists (ServiceConfig_display oc), a, wa, wb, wc, utxos, u|].
  rewrite (save_if_missing_spec utxo_text_of GENESIS_UTXO g w7 w8 (UtxoId_value_round_trip _ Hg Hi) H8').
  rewrite (frame_run [] _ _ _ _ _ H7' ltac:(frames)) by done.
  by rewrite (frame_run [] _ _ _ _ _ H6' ltac:(unfold select_from_utxos; frames)), Hkeep.
Qed.

(** Parameters computed from what Ogmios reported. *)
Definition reported_parameters (p : CardanoParameters) : Prop := exists addr (w1 w2 w3 w4 : W) eras shelley,
  ogmios_rpc addr QueryLedgerStateEraSummaries w1 = (w2, Done (Ok (EraSummariesResponse eras))) /\
  ogmios_rpc addr QueryNetworkShelleyGenesis w3 = (w4, Done (Ok (ShelleyGenesisResponse shelley))) /\
  caradano_parameters eras shelley = Ok p.
Lemma caradano_parameters_wf eras shelley p :
  wf_response (EraSummariesResponse eras) -> wf_response (ShelleyGenesisResponse shelley) ->
  caradano_parameters eras shelley = Ok p -> wf_cardano p.
Proof.
  cbn [wf_response]. intros He Hs Hp. unfold caradano_parameters in Hp.
  destruct (get_first_epoch_era eras) as [era|] eqn:Hera; [|done]. cbn [mbind result_bind] in Hp.
  assert (era ∈ eras) as Hin.
  { unfold get_first_epoch_era in Hera. destruct (last eras) as [e|]; [|done]. cbn [ok_or mbind result_bind] in Hera.
    destruct (negb _); [done|]. destruct (find _ eras) as [e'|] eqn:Hf; [|done]. injection Hera as <-.
    apply find_some in Hf as [Hf _]. by apply list_elem_of_In. }
  rewrite Forall_forall in He. destruct (He era Hin) as [He1 He2]. unfold checked_add64, checked_mul64 in Hp.
  destruct (try_into_width 64 (_ * sgc_slot_length_millis _)) as [d|] eqn:Hd; [|done]. cbn [ok_or mbind result_bind] in Hp.
  destruct (try_into_width 64 (_ + _)) as [t|]; [|done]. cbn [mbind option_bind] in Hp.
  destruct (try_into_width 64 (t * 1000)) as [t'|] eqn:Ht'; [|done]. cbn [ok_or mbind result_bind] in Hp. injection Hp as <-.
  unfold wf_cardano; cbn. apply try_into_width_Some in Hd as [Hd ->], Ht' as [Ht' ->].
  split_and!; try done. unfold in_width in *. lia.
Qed.
Lemma prepare_cardano_params_spec oc (w w' : W) p :
  prepare_cardano_params oc w = (w', Done (Ok p)) -> reported_parameters p /\ wf_cardano p.
Proof.
  unfold prepare_cardano_params, get_eras_summaries, get_shelley_config. intros Hr.
  apply bind_stateful_Ok in Hr as (w1 & eras & He & Hr). apply bind_stateful_Ok in He as (w2 & r1 & Hr1 & He).
  destruct r1 as [eras'| |]; try done. apply stateless_Ok in He as [-> [= ->]].
  apply bind_stateful_Ok in Hr as (w3 & shelley & Hs & Hr). apply bind_stateful_Ok in Hs as (w4 & r2 & Hr2 & Hs).
  destruct r2 as [|shelley'|]; try done. apply stateless_Ok in Hs as [-> [= ->]].
  apply stateless_Ok in Hr as [-> [= Hp]]. split; [by exists (ServiceConfig_display oc), w, w2, w2, w4, eras, shelley|].
  eapply caradano_parameters_wf; [by eapply (wf_responses _ _ _ _ (EraSummariesResponse eras))| |done].
  by eapply (wf_responses _ _ _ _ (ShelleyGenesisResponse shelley)).
Qed.

(** The addresses and policy ids of a set of scripts are in the file. *)
Definition holds_addresses (sd : ScriptsData) (w : W) : Prop :=
  field_value COMMITTEE_CANDIDATES_ADDRESS w = Some (a_committee_candidate_validator (addresses sd)) /\
  field_value D_PARAMETER_POLICY_ID w = Some (of_str (hex_encode (p_d_parameter (policy_ids sd)))) /\
  field_value PERMISSIONED_CANDIDATES_POLICY_ID w = Some (of_str (hex_encode (p_permissioned_candidates (policy_ids sd)))) /\
  field_value ILLIQUID_SUPPLY_ADDRESS w = Some (a_illiquid_circulation_supply_validator (addresses sd)).
Definition address_locations : list (string * list string) :=
  [location COMMITTEE_CANDIDATES_ADDRESS; location D_PARAMETER_POLICY_ID; location PERMISSIONED_CANDIDATES_POLICY_ID;
   location ILLIQUID_SUPPLY_ADDRESS].
Lemma frame_set_up_cardano_addresses g oc : frame address_locations (set_up_cardano_addresses (W := W) g oc).
Proof. unfold set_up_cardano_addresses, return_ok, address_locations. frames. Qed.
Lemma set_up_cardano_addresses_spec g oc (w w' : W) :
  set_up_cardano_addresses g oc w = (w', Done (Ok tt)) ->
  exists impl w1 w2 sd, scripts_data_of impl g w1 = (w2, Done (Ok sd)) /\ holds_addresses sd w'.
Proof.
  unfold set_up_cardano_addresses. intros Hr.
  apply bind_stateful_Ok in Hr as (w1 & impl & _ & Hr). apply bind_stateful_Ok in Hr as (w2 & sd & Hsd%map_err_stateful_Ok & Hr).
  exists impl, w1, w2, sd. split; [done|].
  apply bind_stateful_Ok in Hr as (w3 & [] & [V1 F1]%act_Ok%saved_and_framed & Hr).
  apply bind_stateful_Ok in Hr as (w4 & [] & [V2 F2]%act_Ok%saved_and_framed & Hr).
  apply bind_stateful_Ok in Hr as (w5 & [] & [V3 F3]%act_Ok%saved_and_framed & Hr).
  apply bind_stateful_Ok in Hr as (w6 & [] & [V4 F4]%act_Ok%saved_and_framed & Hr).
  apply bind_stateful_Ok in Hr as (w7 & [] & Hp%act_Ok & Hr). apply stateless_Ok in Hr as [-> _].
  unfold holds_addresses. rewrite !(frame_run [] _ _ _ _ _ Hp ltac:(frames)) by done.
  rewrite V4, !F4, V3, !F3, V2, F2, V1 by (vm_compute; reflexivity). split_and!; apply string_round_trip.
Qed.

Definition native_token_locations : list (string * list string) := [location NATIVE_TOKEN_POLICY; location NATIVE_TOKEN_ASSET_NAME].
Lemma frame_prepare_native_token : frame native_token_locations (prepare_native_token (W := W)).
Proof. unfold prepare_native_token, native_token_locations. frames. Qed.
Lemma prompt_string_spec (f : ConfigFieldDefinition string) (w w' : W) v :
  prompt_with_default_from_file_and_save f w = (w', Done v) -> field_value f w' = from_value f (to_value f v).
Proof.
  unfold prompt_with_default_from_file_and_save. intros (w1 & o & _ & Hr)%bind_action_Done.
  apply bind_action_Done in Hr as (w2 & x & _ & Hr). apply bind_action_Done in Hr as (w3 & [] & [Hv _]%saved_and_framed & Hr).
  unfold pure in Hr. by injection Hr as <- <-.
Qed.
Lemma prepare_native_token_spec (w w' : W) :
  prepare_native_token w = (w', Done tt) ->
  is_Some (field_value NATIVE_TOKEN_POLICY w') /\ is_Some (field_value NATIVE_TOKEN_ASSET_NAME w').
Proof.
  unfold prepare_native_token. intros Hr. do 2 apply bind_action_Done in Hr as (? & [] & _ & Hr).
  apply bind_action_Done in Hr as (w3 & [] & _ & Hr).
  - apply bind_action_Done in Hr as (w4 & p & Hp & Hr). apply bind_action_Done in Hr as (w5 & n & Hn & Hr).
    injection Hr as <-. rewrite (prompt_string_spec _ _ _ _ Hn).
    rewrite (frame_run [location NATIVE_TOKEN_ASSET_NAME] _ _ _ _ _ Hn ltac:(frames)) by done.
    rewrite (prompt_string_spec _ _ _ _ Hp). cbn [from_value to_value NATIVE_TOKEN_POLICY NATIVE_TOKEN_ASSET_NAME chain_field].
    rewrite !string_round_trip. by split; eexists.
  - apply save_bind in Hr as (w4 & Hr & V1 & _). apply saved_and_framed in Hr as [V2 F2].
    rewrite V2, F2, V1 by (vm_compute; reflexivity).
    cbn [from_value to_value NATIVE_TOKEN_POLICY NATIVE_TOKEN_ASSET_NAME chain_field].
    rewrite !string_round_trip. by split; eexists.
Qed.

Lemma holds_cardano_run {X} l (m : W -> W * X) p w w' x :
  m w = (w', x) -> frame l m -> forallb (fun y => diverge ["cardano"] (snd y)) l = true -> holds_cardano p w -> holds_cardano p w'.
Proof.
  intros Hm Hf Hl. assert (forall T (f : ConfigFieldDefinition T), head (path f) = Some "cardano" ->
    field_value f w' = field_value f w) as Hk.
  { intros T f Hloc. eapply frame_run; [done..|]. rewrite forallb_forall in Hl |- *. intros y Hy.
    specialize (Hl y Hy). unfold separate, location. apply orb_true_iff. right. cbn [snd].
    destruct (path f) as [|c cs]; [done|]. destruct (snd y) as [|s ss]; [done|]. cbn [diverge head] in *.
    repeat case_decide; congruence. }
  unfold holds_cardano. by rewrite !Hk by done.
Qed.
Lemma holds_addresses_run {X} l (m : W -> W * X) sd w w' x :
  m w = (w', x) -> frame l m -> forallb (fun y => forallb (separate y) address_locations) l = true ->
  holds_addresses sd w -> holds_addresses sd w'.
Proof.
  intros Hm Hf Hl. assert (forall T (f : ConfigFieldDefinition T), location f ∈ address_locations ->
    field_value f w' = field_value f w) as Hk.
  { intros T f Hin. eapply frame_run; [done..|]. rewrite forallb_forall in Hl |- *. intros y Hy.
    specialize (Hl y Hy). rewrite forallb_forall in Hl. apply Hl. by apply list_elem_of_In. }
  unfold holds_addresses. by rewrite !Hk by set_solver.
Qed.

Lemma prepare_main_chain_config_spec outro oc g (w w' : W) :
  prepare_main_chain_config outro oc g w = (w', Done (Ok tt)) ->
  exists p impl w1 w2 sd, reported_parameters p /\ holds_cardano p w' /\
    scripts_data_of impl g w1 = (w2, Done (Ok sd)) /\ holds_addresses sd w' /\
    is_Some (field_value NATIVE_TOKEN_POLICY w') /\ is_Some (field_value NATIVE_TOKEN_ASSET_NAME w') /\
    field_value GENESIS_UTXO w' = field_value GENESIS_UTXO w.
Proof.
  unfold prepare_main_chain_config. intros Hr.
  apply bind_stateful_Ok in Hr as (w1 & p & H1' & Hr). apply bind_stateful_Ok in Hr as (w2 & [] & H2'%act_Ok & Hr).
  apply bind_stateful_Ok in Hr as (w3 & [] & H3' & Hr). apply bind_stateful_Ok in Hr as (w4 & o & H4'%act_Ok & Hr).
  apply bind_stateful_Ok in Hr as (w5 & [] & H5'%act_Ok & Hr). apply bind_stateful_Ok in Hr as (w6 & [] & H6'%act_Ok & Hr).
  apply bind_stateful_Ok in Hr as (w7 & [] & H7'%act_Ok & Hr). apply stateless_Ok in Hr as [-> _].
  destruct (prepare_cardano_params_spec _ _ _ _ H1') as [Hrep Hwf].
  destruct (cardano_save_spec _ _ _ Hwf H2') as [Hc2 Hk2].
  destruct (set_up_cardano_addresses_spec _ _ _ _ H3') as (impl & wa & wb & sd & Hsd & Ha3).
  destruct (prepare_native_token_spec _ _ H6') as [Hn1 Hn2].
  assert (frame [location INITIAL_PERMISSIONED_CANDIDATES] (load_from_file (W := W) INITIAL_PERMISSIONED_CANDIDATES)) as Hf4 by frames.
  assert (frame (W := W) [location INITIAL_PERMISSIONED_CANDIDATES]
    (match o with None => save_to_file INITIAL_PERMISSIONED_CANDIDATES [] | Some _ => pure tt end)) as Hf5 by frames.
  assert (frame [] (eprint (W := W) outro)) as Hf7 by frames.
  assert (frame [] (prepare_cardano_params (W := W) oc)) as Hf1.
  { unfold prepare_cardano_params, get_eras_summaries, get_shelley_config, return_ok, return_err. frames. }
  pose proof (frame_set_up_cardano_addresses g oc) as Hf3. pose proof frame_prepare_native_token as Hf6.
  exists p, impl, wa, wb, sd. split_and!; try done.
  - eapply holds_cardano_run; [exact H7'|exact Hf7|done|]. eapply holds_cardano_run; [exact H6'|exact Hf6|done|].
    eapply holds_cardano_run; [exact H5'|exact Hf5|done|]. eapply holds_cardano_run; [exact H4'|exact Hf4|done|].
    by eapply holds_cardano_run; [exact H3'|exact Hf3|done|].
  - eapply holds_addresses_run; [exact H7'|exact Hf7|done|]. eapply holds_addresses_run; [exact H6'|exact Hf6|done|].
    eapply holds_addresses_run; [exact H5'|exact Hf5|done|]. by eapply holds_addresses_run; [exact H4'|exact Hf4|done|].
  - by rewrite (frame_run _ _ _ _ _ _ H7' Hf7) by done.
  - by rewrite (frame_run _ _ _ _ _ _ H7' Hf7) by done.
  - rewrite (frame_run _ _ _ _ _ _ H7' Hf7), (frame_run _ _ _ _ _ _ H6' Hf6), (frame_run _ _ _ _ _ _ H5' Hf5),
      (frame_run _ _ _ _ _ _ H4' Hf4), (frame_run _ _ _ _ _ _ H3' Hf3), Hk2 by done.
    by rewrite (frame_run _ _ _ _ _ _ H1' Hf1).
Qed.

(** The chain configuration that the fields of a file make. *)
Lemma load_chain_config_runs p g sd policy asset (w : W) :
  holds_cardano p w -> holds_addresses sd w -> field_value GENESIS_UTXO w = Some g ->
  field_value NATIVE_TOKEN_POLICY w = Some policy -> field_value NATIVE_TOKEN_ASSET_NAME w = Some asset ->
  snd (load_chain_config w) = Done (Ok (mkChainConfig p g
    (mkCliMainChainAddresses (a_committee_candidate_validator (addresses sd)) (of_str (hex_encode (p_d_parameter (policy_ids sd))))
       (of_str (hex_encode (p_permissioned_candidates (policy_ids sd))))
       (mkNativeTokenConfig (mkAssetConfig policy asset) (a_illiquid_circulation_supply_validator (addresses sd)))))).
Proof.
  intros (C1 & C2 & C3 & C4 & C5 & C6 & C7) (A1 & A2 & A3 & A4) G1 T1 T2.
  unfold load_chain_config, bind_stateful, act. destruct (read_file_files CHAIN_CONFIG_FILE_PATH w) as (w1 & -> & _).
  pose proof G1 as Hv. unfold field_value in Hv. change (config_file GENESIS_UTXO) with CHAIN_CONFIG_FILE_PATH in Hv.
  destruct (config_value CHAIN_CONFIG_FILE_PATH w) as [v|] eqn:Ev; [clear Hv|done].
  unfold config_value in Ev. destruct (files w !! CHAIN_CONFIG_FILE_PATH) as [c|] eqn:Ec; [|done]. cbn [mbind option_bind] in Ev.
  unfold stateless, lift, chain_config_from_value. cbn [snd]. rewrite Ev. cbn [mbind option_bind].
  assert (forall T (f : ConfigFieldDefinition T) x, field_value f w = Some x -> config_file f = CHAIN_CONFIG_FILE_PATH ->
    extract_from_json_object f v = Some x) as Hx.
  { intros T f x. unfold field_value, config_value. intros Hfv Hfile. rewrite Hfile, Ec in Hfv. cbn [mbind option_bind] in Hfv.
    by rewrite Ev in Hfv. }
  rewrite (Hx _ _ _ C1 eq_refl), (Hx _ _ _ G1 eq_refl), (Hx _ _ _ C2 eq_refl), (Hx _ _ _ C3 eq_refl), (Hx _ _ _ C4 eq_refl),
    (Hx _ _ _ C5 eq_refl), (Hx _ _ _ C6 eq_refl), (Hx _ _ _ C7 eq_refl), (Hx _ _ _ A1 eq_refl), (Hx _ _ _ A2 eq_refl),
    (Hx _ _ _ A3 eq_refl), (Hx _ _ _ A4 eq_refl), (Hx _ _ _ T1 eq_refl), (Hx _ _ _ T2 eq_refl).
  cbn [mbind option_bind ok_or]. by destruct p.
Qed.

(** C36: After a run of the prepare-configuration wizard that ends without an error, the
    chain configuration loads. Its Cardano parameters are computed from the eras and the
    Shelley genesis that Ogmios reported, and its addresses and policy ids are those of
    the scripts of the UTXO that the user chose, by the answer to the prompt that offers the
    reported ones. Its genesis UTXO is the chosen one only if the file had none before: otherwise the old one stays,
    beside the addresses of the scripts of another. *)
Theorem prepared_configuration outro (w w' : W) :
  prepare_configuration_run outro w = (w', Done (Ok tt)) ->
  exists chosen impl w1 w2 sd config,
    chosen_utxo genesis_question chosen /\ scripts_data_of impl chosen w1 = (w2, Done (Ok sd)) /\
    snd (load_chain_config w') = Done (Ok config) /\
    reported_parameters (cc_cardano config) /\
    cc_genesis_utxo config = default chosen (field_value GENESIS_UTXO w) /\
    ma_committee_candidates_address (cc_cardano_addresses config) = a_committee_candidate_validator (addresses sd) /\
    ma_d_parameter_policy_id (cc_cardano_addresses config) = of_str (hex_encode (p_d_parameter (policy_ids sd))) /\
    ma_permissioned_candidates_policy_id (cc_cardano_addresses config) =
      of_str (hex_encode (p_permissioned_candidates (policy_ids sd))) /\
    nt_illiquid_supply_address (ma_native_token (cc_cardano_addresses config)) =
      a_illiquid_circulation_supply_validator (addresses sd).
Proof.
  unfold prepare_configuration_run. intros Hr.
  apply bind_stateful_Ok in Hr as (w1 & [] & H1' & Hr). apply bind_stateful_Ok in Hr as (w2 & [g oc] & H2' & Hr).
  apply bind_stateful_Ok in Hr as (w3 & [] & H3' & Hr). apply bind_stateful_Ok in Hr as (w4 & [] & H4'%act_Ok & Hr).
  apply stateless_Ok in Hr as [-> _]. cbn [fst snd] in H3'.
  destruct (prepare_chain_params_spec _ _ _ _ H2') as [Hchosen Hg].
  destruct (prepare_main_chain_config_spec _ _ _ _ _ H3') as (p & impl & wa & wb & sd & Hrep & Hc & Hsd & Ha & [po Hp] & [na Hn] & Hk).
  assert (frame [] (eprint (W := W) "🚀 All done!")) as Hf by frames.
  rewrite (frame_run _ _ _ _ _ _ H1' frame_establish_bootnodes) in Hg by done. rewrite Hg in Hk.
  rewrite <- (frame_run _ _ _ _ _ _ H4' Hf) in Hk by done. rewrite <- (frame_run _ _ _ _ _ _ H4' Hf) in Hp by done.
  rewrite <- (frame_run _ _ _ _ _ _ H4' Hf) in Hn by done.
  apply (holds_cardano_run _ _ _ _ _ _ H4' Hf) in Hc; [|done]. apply (holds_addresses_run _ _ _ _ _ _ H4' Hf) in Ha; [|done].
  exists g, impl, wa, wb, sd, (mkChainConfig p (default g (field_value GENESIS_UTXO w))
    (mkCliMainChainAddresses (a_committee_candidate_validator (addresses sd)) (of_str (hex_encode (p_d_parameter (policy_ids sd))))
       (of_str (hex_encode (p_permissioned_candidates (policy_ids sd))))
       (mkNativeTokenConfig (mkAssetConfig po na) (a_illiquid_circulation_supply_validator (addresses sd))))).
  split_and!; try done. by apply load_chain_config_runs.
Qed.
End Run.

(** ** Bootnodes that are read back *)
Section BootnodeText.
Lemma str_of_app s t : str_of (s +:+ t) = str_of s ++ str_of t.
Proof.
  unfold str_of. induction s as [|c s IH]; [done|].
  change (String c s +:+ t) with (String c (s +:+ t)). cbn. by rewrite IH.
Qed.
Lemma of_str_of s : of_str (str_of s) = s.
Proof. unfold of_str, str_of. apply String.string_of_list_ascii_of_string. Qed.
Lemma str_of_of s : str_of (of_str s) = s.
Proof. unfold of_str, str_of. apply String.list_ascii_of_string_of_list_ascii. Qed.
Lemma bootnode_parts kind hostname port peer_id :
  SLASH ∉ str_of kind -> SLASH ∉ str_of hostname -> in_width 16 port ->
  deconstruct_bootnode (Some ("/" +:+ kind +:+ "/" +:+ hostname +:+ "/tcp/" +:+ dec_text port +:+ "/p2p/" +:+ peer_id)) =
    protocol ← ok (Protocol_from_str kind); Some (protocol, hostname, port).
Proof.
  intros Hk Hh Hp. unfold deconstruct_bootnode. cbn [mbind option_bind].
  assert (SLASH ∉ dec_display port) as Hd
    by (apply dec_aux_digits; [unfold in_width in Hp; lia|done|apply not_elem_of_nil]).
  replace (str_of _) with ([] ++ SLASH :: str_of kind ++ SLASH :: str_of hostname ++ SLASH :: str_of "tcp" ++
    SLASH :: dec_display port ++ SLASH :: str_of ("p2p/" +:+ peer_id))
    by (rewrite !str_of_app; unfold dec_text; by rewrite str_of_of).
  rewrite !split_on_app by (first [done | apply not_elem_of_nil | by apply (bool_decide_unpack _); vm_compute]).
  cbn [drop map lookup list_lookup mbind option_bind]. rewrite !of_str_of.
  destruct (Protocol_from_str kind) as [protocol|]; [|done]. cbn [ok mbind option_bind].
  unfold uint_from_str. rewrite str_of_of. unfold in_width in Hp.
  rewrite int_from_str_dec_display by (unfold max_value; lia). unfold max_value.
  destruct (Z.leb_spec port (2 ^ 16 - 1)); [done|lia].
Qed.
(** The wizard offers the bootnode that it saved last as the default, unless the host has
    a slash. *)
Lemma saved_bootnode_is_default hostname port peer_id :
  SLASH ∉ str_of hostname -> in_width 16 port ->
  deconstruct_bootnode (Some (dns_bootnode hostname port peer_id)) = Some (Dns, hostname, port) /\
  deconstruct_bootnode (Some (ipv4_bootnode hostname port peer_id)) = Some (Ipv4, hostname, port).
Proof.
  intros Hh Hp. split.
  - apply (bootnode_parts "dns"); [by apply (bool_decide_unpack _); vm_compute|done|done].
  - apply (bootnode_parts "ip4"); [by apply (bool_decide_unpack _); vm_compute|done|done].
Qed.
End BootnodeText.

(** ** The first era *)
Section FirstEra.
(** The era has the parameters of the last one, and slots of one second. *)
Lemma get_first_epoch_era_spec eras era :
  get_first_epoch_era eras = Ok era ->
  era ∈ eras /\ slot_length_millis (cli_parameters era) = 1000%Z /\
  exists before after, eras = before ++ era :: after /\ Forall (fun e => cli_parameters e <> cli_parameters era) before.
Proof.
  unfold get_first_epoch_era. destruct (last eras) as [l|]; [|done]. cbn [ok_or mbind result_bind].
  destruct (Z.eqb_spec (slot_length_millis (cli_parameters l)) 1000) as [Hs|]; [|done]. cbn [negb].
  destruct (find _ eras) as [e|] eqn:Hf; [|done]. intros [= <-].
  assert (cli_parameters e = cli_parameters l) as He.
  { apply find_some in Hf as [_ Hf]. by apply bool_decide_eq_true in Hf. }
  split_and!.
  - apply find_some in Hf as [Hf _]. by apply list_elem_of_In.
  - by rewrite He.
  - clear Hs. induction eras as [|x eras IH]; [done|]. cbn [find] in Hf. case_bool_decide as Hx.
    + injection Hf as ->. by exists [], eras.
    + destruct (IH Hf) as (before & after & -> & Hb). exists (x :: before), after. split; [done|].
      constructor; [congruence|done].
Qed.
(** Eras after it may have other parameters. *)
Example later_era_differs :
  let era t s := mkCliEraSummary (mkCliEpochBoundary t t t) (mkCliEpochParameters s 1000) in
  get_first_epoch_era [era 0 10; era 1 20; era 2 10]%Z = Ok (era 0 10)%Z.
Proof. reflexivity. Qed.
End FirstEra.

Section Witness.
Import Console SmallNode.
#[local] Instance example_libp2p : Libp2p := fun bs => Some (of_str (hex bs)).
#[local] Instance prepare_console : IOContext World := console example_rpc example_scripts (fun _ => Ok "").
Definition old_genesis : UtxoId := mkUtxoId (replicate 32 9%Z) 3.
Definition key_text : string := of_str (hex (replicate 32 4%Z)).
Definition prepare_world : World := mkWorld
  (<[network_key_path "./data" DEFAULT_CHAIN_NAME := key_text]>
     (<["payment.vkey" := to_string_pretty (JObject [("cborHex", string_to_value ("5820" +:+ key_text))])]>
        {[ CHAIN_CONFIG_FILE_PATH := to_string_pretty
             (JObject [("chain_parameters", JObject [("genesis_utxo", UtxoId_to_value old_genesis)])]) ]}))
  ["./data"; "3033"; "localhost"; "localhost"; "1337"; "payment.vkey"; "aa"; "bb"] [].
Lemma example_responses addr req (w w' : World) r : ogmios_rpc addr req w = (w', Done (Ok r)) -> wf_response r.
Proof.
  intros [= _ <-]. destruct req; cbn; repeat constructor; cbn; try done; apply Forall_replicate; done.
Qed.

(** A run in a directory that has a configuration of another chain. *)
Lemma prepared_configuration_witness : exists w' config,
  prepare_configuration_run "done" prepare_world = (w', Done (Ok tt)) /\
  snd (load_chain_config w') = Done (Ok config) /\ cc_genesis_utxo config = old_genesis /\
  exists chosen, chosen <> old_genesis /\ ma_committee_candidates_address (cc_cardano_addresses config) = utxo_text chosen.
Proof.
  destruct (prepare_configuration_run "done" prepare_world) as [w' r] eqn:Hr.
  assert (r = Done (Ok tt)) as -> by (change r with (snd (w', r)); rewrite <- Hr; vm_compute; reflexivity).
  destruct (prepared_configuration example_responses _ _ _ Hr)
    as (chosen & impl & w1 & w2 & sd & config & Hc & Hsd & Hl & _ & Hg & Ha & _).
  exists w', config. split; [reflexivity|]. split; [exact Hl|]. split; [rewrite Hg; vm_compute; reflexivity|].
  exists chosen. injection Hsd as <- <-. split; [|exact Ha].
  destruct Hc as (? & ? & ? & ? & ? & utxos & u & [= _ <-] & _ & Hin & Hu). intros ->.
  apply (list_elem_of_fmap_2 utxo_id) in Hin. rewrite Hu in Hin. revert Hin. apply (bool_decide_unpack _). vm_compute. exact I.
Defined.
End Witness.
