(* ===== verification/CliRegister.v ===== *)
(** * Registration of a candidate

    [toolkit/cli/commands/src]: the registration message, its signatures
    ([registration_signatures.rs], [signing.rs]) and key arguments ([key_params.rs]);
    [toolkit/partner-chains-cli/src]: the three registration wizards ([register/]) and
    [deregister/], with [keystore.rs] and [main_chain_follower.rs].

    Third-party: key pairs and signing ([SigningKeys]), whose laws say that what is signed
    verifies. The theorems say that Ariadne's validation ([Ariadne.v]) accepts what the
    commands sign. *)

From S2P Require Import Prelude Domain McEpoch Cbor Json PlutusDatums Selection Ariadne Ogmios OffchainCsl Offchain OffchainUpsert CliConfig CliPrepare.
#[local] Open Scope string_scope.
#[local] Open Scope list_scope.

(** [ed25519_zebra], [secp256k1] and [sp_core::ecdsa::Pair]. *)
Class SigningKeys := {
  SecretKey : Type;
  PublicKey : Type;
  ed25519_sign : bytes -> bytes -> bytes;
  ed25519_public : bytes -> bytes;
  ed25519_try_from : bytes -> result string bytes;
  secret_from_slice : bytes -> result string SecretKey;
  secret_from_str : string -> result string SecretKey;
  public_from_secret : SecretKey -> PublicKey;
  public_from_str : string -> result string PublicKey;
  public_serialize : PublicKey -> bytes;
  sign_ecdsa : SecretKey -> bytes -> bytes;  (* of a digest; serialized compactly *)
  pair_seed_from_string : string -> result string bytes
}.
Class SigningLaws `{SigningKeys, Crypto, Blake2bHash} : Prop := {
  ed25519_verifies : forall k m, ed25519_verify (ed25519_sign k m) m (ed25519_public k) = true;
  ed25519_length : forall k m, length (ed25519_sign k m) = 64%nat;
  ecdsa_verifies : forall k m, exists v, (v = NEGATIVE_POINT_SIGN \/ v = POSITIVE_POINT_SIGN) /\
    ecdsa_verify (sign_ecdsa k (blake2b_hash 32 m) ++ [v]) m (public_serialize (public_from_secret k)) = true;
  ecdsa_length : forall k d, length (sign_ecdsa k d) = 64%nat;
  ed25519_sign_wf : forall k m, wf_bytes (ed25519_sign k m);
  ed25519_public_wf : forall k, wf_bytes (ed25519_public k);
  ecdsa_wf : forall k d, wf_bytes (sign_ecdsa k d);
  public_length : forall k, length (public_serialize k) = 33%nat
}.

(** ** Key arguments *)
(** [trim_start_matches(0x)] and [replace(0x, )]. *)
Fixpoint trim_0x (s : string) : string :=
  match s with
  | String a (String b rest) => if decide (a = chr 48 /\ b = chr 120) then trim_0x rest else s
  | _ => s
  end.
Fixpoint remove_0x (s : string) : string :=
  match s with
  | String a ((String b rest) as tail) => if decide (a = chr 48 /\ b = chr 120) then remove_0x rest else String a (remove_0x tail)
  | _ => s
  end.
(** [trim_matches] of a character. *)
Fixpoint trim_start (c : Ascii.ascii) (s : str) : str :=
  match s with x :: s' => if decide (x = c) then trim_start c s' else s | [] => [] end.
Definition trim_matches (c : Ascii.ascii) (s : string) : string :=
  of_str (rev (trim_start c (rev (trim_start c (str_of s))))).

Section KeyParams.
Context `{SigningKeys, Hex}.
Definition SidechainSigningKeyParam_from_str (s : string) : result string SecretKey := secret_from_str (trim_0x s).
Definition to_pub_key (self : SecretKey) : PublicKey := public_from_secret self.
Definition SidechainPublicKeyParam_from_str (s : string) : result string SidechainPublicKey :=
  pk ← public_from_str (trim_0x s); Ok (public_serialize pk).
Definition SidechainPublicKeyParam_display (k : SidechainPublicKey) : string := "0x" +:+ of_str (hex_encode k).
Definition MainchainSigningKeyParam_from_str (s : string) : result string bytes :=
  bytes ← ok_or (hex_decode (str_of (trim_0x s))) "invalid hex"; ed25519_try_from bytes.
End KeyParams.

(** ** Signatures *)
Record RegisterValidatorMessage := mkRegisterValidatorMessage {
  rvm_genesis_utxo : UtxoId;
  rvm_sidechain_pub_key : SidechainPublicKey;
  rvm_input_utxo : UtxoId
}.
(** The derived [ToDatum]. *)
#[export] Instance RegisterValidatorMessage_to_datum : ToDatum RegisterValidatorMessage := fun m =>
  impl_to_datum_derive false
    [to_datum (rvm_genesis_utxo m); bytes_to_datum (rvm_sidechain_pub_key m); to_datum (rvm_input_utxo m)].

Record RegistrationCmdOutput := mkRegistrationCmdOutput {
  spo_public_key : MainchainPublicKey;
  spo_signature : MainchainSignature;
  out_sidechain_public_key : SidechainPublicKey;
  out_sidechain_signature : SidechainSignature
}.
Section Signing.
Context `{Minicbor, SigningKeys, Blake2bHash}.
Definition hash_datum {T} `{ToDatum T} (msg : T) : bytes := blake2b_hash 32 (to_datum_cbor_bytes msg).
Definition sc_public_key_and_signature (key : SecretKey) (hashed : bytes) : PublicKey * bytes :=
  (public_from_secret key, sign_ecdsa key hashed).
Definition sc_public_key_and_signature_for_datum {T} `{ToDatum T} (key : SecretKey) (datum_msg : T) : PublicKey * bytes :=
  sc_public_key_and_signature key (hash_datum datum_msg).
Definition mainchain_public_key_and_signature {T} `{ToDatum T} (key : bytes) (datum_msg : T) : bytes * bytes :=
  let message := to_datum_cbor_bytes datum_msg in
  (ed25519_public key, ed25519_sign key message).

Definition RegisterValidatorMessage_new (genesis_utxo : UtxoId) (pub_key : PublicKey) (input_utxo : UtxoId) : RegisterValidatorMessage :=
  mkRegisterValidatorMessage genesis_utxo (public_serialize pub_key) input_utxo.
Definition sign_and_prepare_registration_cmd_output (self : RegisterValidatorMessage) (mainchain_key : bytes)
    (sidechain_key : SecretKey) : RegistrationCmdOutput :=
  let '(mc_pub_key, mc_signature) := mainchain_public_key_and_signature mainchain_key self in
  let '(sc_pub_key, sc_signature) := sc_public_key_and_signature_for_datum sidechain_key self in
  mkRegistrationCmdOutput mc_pub_key mc_signature (public_serialize sc_pub_key) sc_signature.

Record RegistrationSignaturesCmd := mkRegistrationSignaturesCmd {
  rs_genesis_utxo : UtxoId;
  rs_mainchain_signing_key : bytes;
  rs_sidechain_signing_key : SecretKey;
  rs_registration_utxo : UtxoId
}.
Definition to_register_validator_message (self : RegistrationSignaturesCmd) (genesis_utxo : UtxoId) : RegisterValidatorMessage :=
  RegisterValidatorMessage_new genesis_utxo (to_pub_key (rs_sidechain_signing_key self)) (rs_registration_utxo self).
Definition registration_signatures_execute (self : RegistrationSignaturesCmd) : RegistrationCmdOutput :=
  sign_and_prepare_registration_cmd_output (to_register_validator_message self (rs_genesis_utxo self))
    (rs_mainchain_signing_key self) (rs_sidechain_signing_key self).
End Signing.
Arguments mkRegistrationSignaturesCmd {_}.

(** ** Keystore *)
Record KeyDefinition := mkKeyDefinition { kd_name : string; scheme : string; key_type : string }.
Section Keystore.
Context `{Hex}.
(** [hex::encode] of the UTF-8 bytes. *)
Definition key_type_hex (self : KeyDefinition) : string :=
  of_str (hex_encode (map (fun c => Z.of_nat (Ascii.nat_of_ascii c)) (str_of (key_type self)))).
Definition AURA : KeyDefinition := mkKeyDefinition "Aura" "sr25519" "aura".
Definition GRANDPA : KeyDefinition := mkKeyDefinition "Grandpa" "ed25519" "gran".
Definition CROSS_CHAIN : KeyDefinition := mkKeyDefinition "Cross-chain" "ecdsa" "crch".
Definition keystore_path (substrate_node_base_path chain_name : string) : string :=
  substrate_node_base_path +:+ "/chains/" +:+ chain_name +:+ "/keystore".
Definition find_existing_key (existing_keys : list string) (key_def : KeyDefinition) : option string :=
  head (omap (strip_prefix (key_type_hex key_def)) existing_keys).
End Keystore.

(** ** The wizards *)
Section Wizards.
Context `{F64, Hex, HexCodec, SerdeJson, CslLib, Blake2bHash, Minicbor, SigningKeys} {W : Type} `{!IOContext W}.

Definition load_chain_config_field {T} (field : ConfigFieldDefinition T) : stateful W string T :=
  value ←! act (load_from_file field);
  ok_or_else value (_x ←# eprint "⚠️ The chain configuration file `partner-chains-cli-chain-config.json` is missing or invalid.
 If you are the governance authority, please make sure you have run the `prepare-configuration` command to generate the chain configuration file.
 If you are a validator, you can obtain the chain configuration file from the governance authority.";
    pure ("failed to read " +:+ String.concat "." (path field))).

(** [GeneratedKeysFileContent] has the members of [PermissionedCandidateKeys]. *)
Definition read_generated_keys : stateful W string PermissionedCandidateKeys :=
  keys_file_content ←! act (read_file KEYS_FILE_PATH);
  keys_file_content ←! stateless (lift (ok_or keys_file_content "failed to read keys file"));
  stateless (lift (ok_or (json ← from_json keys_file_content; keys_from_value json) "invalid keys file")).
Definition QUOTE : Ascii.ascii := chr 34.
Definition get_ecdsa_pair_from_file (keystore_path sidechain_pub_key : string) : stateful W string bytes :=
  let seed_phrase_file_name := key_type_hex CROSS_CHAIN +:+ remove_0x sidechain_pub_key in
  let seed_phrase_file_path := keystore_path +:+ "/" +:+ seed_phrase_file_name in
  seed ←! act (read_file seed_phrase_file_path);
  seed ←! stateless (lift (ok_or seed "seed phrase file not found"));
  stateless (lift (pair_seed_from_string (trim_matches QUOTE seed))).
(** The pair is represented by its seed. *)
Definition sign_registration_message_with_sidechain_key (message : RegisterValidatorMessage) (seed : bytes) : result string string :=
  secret_key ← secret_from_slice seed;
  let '(_, sig) := sc_public_key_and_signature_for_datum secret_key message in
  Ok (of_str (hex_encode sig)).

Definition register2_command (genesis_utxo input_utxo : UtxoId) (keys : PermissionedCandidateKeys) (sidechain_signature : string) : string :=
  "./partner-chains-cli register2 \
 --genesis-utxo " +:+ utxo_text genesis_utxo +:+ " \
 --registration-utxo " +:+ utxo_text input_utxo +:+ " \
 --aura-pub-key " +:+ pck_aura_pub_key keys +:+ " \
 --grandpa-pub-key " +:+ pck_grandpa_pub_key keys +:+ " \
 --sidechain-pub-key " +:+ pck_sidechain_pub_key keys +:+ " \
 --sidechain-signature " +:+ sidechain_signature.
Definition register1_run : stateful W string () :=
  _x ←! act (print "⚙️ Registering as a committee candidate (step 1/3)");
  genesis_utxo ←! load_chain_config_field GENESIS_UTXO;
  cardano_network ←! act (load_from_file CARDANO_NETWORK);
  cardano_network ←! ok_or_else cardano_network
    (_x ←# eprint "⚠️ Cardano network is not specified in the chain configuration file `partner-chains-cli-chain-config.json`";
     pure "failed to read cardano network");
  node_data_base_path ←! act (load_from_file SUBSTRATE_NODE_DATA_BASE_PATH);
  node_data_base_path ←! stateless (lift (ok_or node_data_base_path
    "⚠️ Keystore not found. Please run the `generate-keys` command first"));
  keys ←! map_err_with read_generated_keys (fun e =>
    _x ←# eprint "⚠️ The keys file `partner-chains-cli-keys.json` is missing or invalid. Please run the `generate-keys` command first";
    pure e);
  _x ←! act (print "This wizard will query your UTXOs using address derived from the payment verification key and Ogmios service");
  address ←! derive_address cardano_network;
  ogmios_configuration ←! prompt_ogmios_configuration;
  utxo_query_result ←! query_address_utxos ogmios_configuration address;
  let valid_utxos := filter_utxos utxo_query_result in
  if bool_decide (valid_utxos = []) then
    _x ←! act (eprint "⚠️ No UTXOs found for the given address");
    _x ←! act (eprint "The registering transaction requires at least one UTXO to be present at the address.");
    return_err "No UTXOs found"
  else
    input_utxo ←! select_from_utxos "Select UTXO to use for registration" valid_utxos;
    _x ←! act (print "Please do not spend this UTXO, it needs to be consumed by the registration transaction.");
    _x ←! act (print "");
    sidechain_pub_key_typed ←! map_err_with (stateless (lift (from_hex (str_of (pck_sidechain_pub_key keys))))) (fun e =>
      _x ←# eprint ("⚠️ Failed to decode sidechain public key: " +:+ e); pure e);
    let registration_message := mkRegisterValidatorMessage genesis_utxo sidechain_pub_key_typed input_utxo in
    ecdsa_pair ←! map_err_with
      (get_ecdsa_pair_from_file (keystore_path node_data_base_path DEFAULT_CHAIN_NAME) (pck_sidechain_pub_key keys)) (fun e =>
      _x ←# eprint ("⚠️ Failed to read sidechain key from the keystore: " +:+ e); pure e);
    sidechain_signature ←! stateless (lift (sign_registration_message_with_sidechain_key registration_message ecdsa_pair));
    _x ←! act (print "Run the following command to generate signatures on the next step. It has to be executed on the machine with your SPO cold signing key.");
    _x ←! act (print "");
    _x ←! act (print (register2_command genesis_utxo input_utxo keys sidechain_signature));
    return_ok tt.

(** The arguments that register2 and register3 share. *)
Record Register2Cmd := mkRegister2Cmd {
  r_genesis_utxo : UtxoId;
  r_registration_utxo : UtxoId;
  r_sidechain_pub_key : SidechainPublicKey;
  r_aura_pub_key : string;
  r_grandpa_pub_key : string;
  r_sidechain_signature : string
}.
(** The arguments' parsers are [FromStr]. *)
Definition Register2Cmd_parse (genesis_utxo registration_utxo sidechain_pub_key aura_pub_key grandpa_pub_key sidechain_signature : string)
    : result string Register2Cmd :=
  genesis_utxo ← utxo_from_text genesis_utxo;
  registration_utxo ← utxo_from_text registration_utxo;
  sidechain_pub_key ← SidechainPublicKeyParam_from_str sidechain_pub_key;
  Ok (mkRegister2Cmd genesis_utxo registration_utxo sidechain_pub_key aura_pub_key grandpa_pub_key sidechain_signature).
Definition get_mainchain_cold_skey (keys_path : string) : stateful W string bytes := get_key_bytes_from_file 32 keys_path.
Definition register3_command (self : Register2Cmd) (spo_public_key spo_signature : string) : string :=
  "./partner-chains-cli register3 \
--genesis-utxo " +:+ utxo_text (r_genesis_utxo self) +:+ " \
--registration-utxo " +:+ utxo_text (r_registration_utxo self) +:+ " \
--aura-pub-key " +:+ r_aura_pub_key self +:+ " \
--grandpa-pub-key " +:+ r_grandpa_pub_key self +:+ " \
--sidechain-pub-key " +:+ SidechainPublicKeyParam_display (r_sidechain_pub_key self) +:+ " \
--sidechain-signature " +:+ r_sidechain_signature self +:+ " \
--spo-public-key " +:+ spo_public_key +:+ " \
--spo-signature " +:+ spo_signature.
Definition register2_run (self : Register2Cmd) : stateful W string () :=
  _x ←! act (print "⚙️ Register as a committee candidate (step 2/3)");
  _x ←! act (print "  This command will use SPO cold signing key for signing the registration message.");
  mainchain_signing_key_path ←! act (prompt "Path to mainchain signing key file" (Some "cold.skey"));
  mainchain_signing_key ←! map_err_with (get_mainchain_cold_skey mainchain_signing_key_path)
    (fun e => _x ←# eprint "Unable to read mainchain signing key file"; pure e);
  let registration_message :=
    mkRegisterValidatorMessage (r_genesis_utxo self) (r_sidechain_pub_key self) (r_registration_utxo self) in
  let '(verification_key, mc_signature) := mainchain_public_key_and_signature mainchain_signing_key registration_message in
  let spo_public_key := of_str (hex_encode verification_key) in
  let spo_signature := of_str (hex_encode mc_signature) in
  _x ←! act (print "To finish the registration process, run the following command on the machine with the partner chain dependencies running:
");
  _x ←! act (print (register3_command self spo_public_key spo_signature));
  return_ok tt.

(** [set_main_chain_follower_env]. *)
Definition set_main_chain_follower_env (config : CardanoParameters) (postgres_connection_string : string) : action W () :=
  _x ←# set_env_var "DB_SYNC_POSTGRES_CONNECTION_STRING" postgres_connection_string;
  _x ←# set_env_var "CARDANO_SECURITY_PARAMETER" (dec_text (cp_security_parameter config));
  _x ←# set_env_var "CARDANO_ACTIVE_SLOTS_COEFF" (f64_display (cp_active_slots_coeff config));
  _x ←# set_env_var "BLOCK_STABILITY_MARGIN" "0";
  _x ←# set_env_var "MC__FIRST_EPOCH_TIMESTAMP_MILLIS" (dec_text (cp_first_epoch_timestamp_millis config));
  _x ←# set_env_var "MC__FIRST_EPOCH_NUMBER" (dec_text (cp_first_epoch_number config));
  _x ←# set_env_var "MC__EPOCH_DURATION_MILLIS" (dec_text (cp_epoch_duration_millis config));
  set_env_var "MC__FIRST_SLOT_NUMBER" (dec_text (cp_first_slot_number config)).

(** The derived [Deserialize] of [McEpochConfigJson]. *)
Definition McEpochConfigJson_from_value (v : JValue) : option MainchainEpochConfig :=
  first_epoch_timestamp_millis ← extract_from_json_object CARDANO_FIRST_EPOCH_TIMESTAMP_MILLIS v;
  epoch_duration_millis ← extract_from_json_object CARDANO_EPOCH_DURATION_MILLIS v;
  first_epoch_number ← extract_from_json_object CARDANO_FIRST_EPOCH_NUMBER v;
  first_slot_number ← extract_from_json_object CARDANO_FIRST_SLOT_NUMBER v;
  Some (mkMainchainEpochConfig first_epoch_timestamp_millis epoch_duration_millis first_epoch_number first_slot_number).
Definition get_current_mainchain_epoch : stateful W string McEpochNumber :=
  chain_config_json ←! act (read_file CHAIN_CONFIG_FILE_PATH);
  chain_config_json ←! stateless (lift (ok_or chain_config_json
    "⚠️ The chain configuration file `partner-chains-cli-chain-config.json` is missing or invalid."));
  mc_epoch_config ←! stateless (lift (ok_or (json ← from_json chain_config_json; McEpochConfigJson_from_value json)
    "invalid chain configuration"));
  now ←! act current_timestamp;
  map_err_stateful (fun _ => "cannot derive the epoch") (stateless (timestamp_to_mainchain_epoch mc_epoch_config now)).
Definition prepare_mc_follower_env : stateful W string () :=
  postgres_connection_string ←! act (prompt_with_default_from_file_and_save POSTGRES_CONNECTION_STRING);
  chain_config ←! load_chain_config;
  _x ←! act (set_main_chain_follower_env (cc_cardano chain_config) postgres_connection_string);
  return_ok tt.
Definition show_registration_status (mc_epoch_number : McEpochNumber) (mc_public_key : string) : stateful W string () :=
  temp_dir_path ←! act new_tmp_dir;
  node_executable ←! act (load_from_file NODE_EXECUTABLE);
  node_executable ←! stateless (lift (ok_or node_executable "⚠️ Unable to load node executable"));
  output ←! run_command (node_executable +:+ " registration-status --mainchain-pub-key " +:+ mc_public_key +:+
    " --mc-epoch-number " +:+ dec_text mc_epoch_number +:+ " --chain chain-spec.json --base-path " +:+ temp_dir_path);
  _x ←! act (print "Registration status:");
  _x ←! act (print output);
  return_ok tt.

Record Register3Cmd := mkRegister3Cmd { r_signed : Register2Cmd; r_spo_public_key : string; r_spo_signature : string }.
Definition register_command (network : NetworkType) (self : Register3Cmd) (runtime_config_arguments : string) : string :=
  PC_CONTRACTS_CLI_PATH +:+ " register --network " +:+ NetworkType_display network +:+ " " +:+
  sidechain_params_arguments (r_genesis_utxo (r_signed self)) +:+ " --registration-utxo " +:+
  utxo_text (r_registration_utxo (r_signed self)) +:+ " --sidechain-public-keys " +:+
  SidechainPublicKeyParam_display (r_sidechain_pub_key (r_signed self)) +:+ ":" +:+ r_aura_pub_key (r_signed self) +:+ ":" +:+
  r_grandpa_pub_key (r_signed self) +:+ " --sidechain-signature " +:+ r_sidechain_signature (r_signed self) +:+
  " --spo-public-key " +:+ r_spo_public_key self +:+ " --spo-signature " +:+ r_spo_signature self +:+
  " --ada-based-staking " +:+ runtime_config_arguments.
Definition register3_run (self : Register3Cmd) : stateful W string () :=
  _x ←! act (print "⚙️ Register as a committee candidate (step 3/3)");
  _x ←! act (print "This command will submit the registration message to the mainchain.");
  configured ←! act (load_from_file GENESIS_UTXO);
  _x ←! ok_or_else configured
    (_x ←# eprint ("⚠️ The chain configuration file `" +:+ CHAIN_CONFIG_FILE_PATH +:+ "` is missing or invalid.
");
     _x ←# eprint "⚠️ If you are the governance authority, please make sure you have run the `prepare-configuration` command to generate the chain configuration file.
";
     _x ←# eprint "⚠️ If you are a validator, you can obtain the chain configuration file from the governance authority.
";
     pure "Chain config missing or invalid");
  _x ←! act (print "To proceed with the next command, a payment signing key is required. Please note that this key will not be stored or communicated over the network.");
  cardano_payment_signing_key_path ←! act (prompt "Path to mainchain payment signing key file" (Some "payment.skey"));
  pc_contracts_cli_resources ←! establish_pc_contracts_cli_configuration;
  cardano_network ←! get_cardano_network_from_file;
  _x ←! map_err_stateful (fun _ => "The registration transaction could not be submitted")
    (run_command (register_command cardano_network self
       (runtime_config_arguments pc_contracts_cli_resources cardano_payment_signing_key_path)));
  show ←! act (prompt_yes_no "Show registration status?" true);
  if show : bool then
    _x ←! act (print "The registration status will be queried from a db-sync instance for which a valid connection string is required. Please note that this db-sync instance needs to be up and synced with the main chain.");
    current_mc_epoch_number ←! map_err_with get_current_mainchain_epoch
      (fun e => _x ←# eprint ("Unable to derive current mainchain epoch: " +:+ e); pure e);
    let mc_epoch_number_to_query := McEpochNumber_next (McEpochNumber_next current_mc_epoch_number) in
    _x ←! prepare_mc_follower_env;
    _x ←! act (print ("Registrations status for epoch " +:+ dec_text mc_epoch_number_to_query +:+ ":"));
    show_registration_status mc_epoch_number_to_query (r_spo_public_key self)
  else return_ok tt.

(** ** Deregistration *)
(** The slice [key[4..]]: it panics on a shorter string, and inside of a character. *)
Definition is_continuation (c : Ascii.ascii) : bool :=
  let n := Ascii.nat_of_ascii c in ((128 <=? n) && (n <? 192))%nat.
Definition slice_from_4 (key : string) : outcome string :=
  if (String.length key <? 4)%nat then Panic
  else if from_option is_continuation false (String.get 4 key) then Panic
  else Done (String.substring 4 (String.length key - 4) key).
Definition get_mainchain_key_hex (key_path : string) : stateful W string string :=
  cold_key ←! act (read_file key_path);
  cold_key ←! stateless (lift (ok_or cold_key ("Unable to read Cardano key file: " +:+ key_path)));
  json ←! stateless (lift (ok_or (from_json cold_key) (key_path +:+ " is not a valid Cardano key file")));
  key ←! stateless (lift (ok_or (json_get "cborHex" json) (key_path +:+ " is not a valid Cardano key file")));
  key ←! stateless (lift (ok_or (string_from_value key) (key_path +:+ " is not a valid Cardano key file")));
  stateless (run (slice_from_4 key)).
Definition get_cardano_keys : stateful W string (string * string) :=
  _x ←! act (print "Payment signing key and verification key of cold key used for registration are required to deregister.");
  payment_signing_key_path ←! act (prompt_with_default_from_file_and_save CARDANO_PAYMENT_SIGNING_KEY_FILE);
  _x ←! get_mainchain_key_hex payment_signing_key_path;
  cold_vkey_path ←! act (prompt_with_default_from_file_and_save CARDANO_COLD_VERIFICATION_KEY_FILE);
  cold_vkey ←! get_mainchain_key_hex cold_vkey_path;
  return_ok (payment_signing_key_path, cold_vkey).
(** Both are read before either error is returned. *)
Definition read_chain_config_file : stateful W string (ChainConfig * NetworkType) := fun w =>
  match load_chain_config w with
  | (w, Panic) => (w, Panic)
  | (w, Done chain_config) =>
      map_err_stateful (fun _ => "Couldn't parse chain configuration file " +:+ CHAIN_CONFIG_FILE_PATH +:+
        ". The chain configuration file that was used for registration is required in the working directory.")
        (cardano_network ←! (fun w => match get_cardano_network_from_file w with
                                      | (w, Panic) => (w, Panic)
                                      | (w, Done r) => (w, Done (Ok r))
                                      end);
         stateless (lift (chain_config ← chain_config; cardano_network ← cardano_network; Ok (chain_config, cardano_network)))) w
  end.
Definition deregister_command (cardano_network : NetworkType) (cold_vkey : string) (chain_config : ChainConfig)
    (resources : PcContractsCliResources) (payment_signing_key_path : string) : string :=
  PC_CONTRACTS_CLI_PATH +:+ " deregister --network " +:+ NetworkType_display cardano_network +:+
  " --ada-based-staking --spo-public-key " +:+ cold_vkey +:+ " " +:+
  sidechain_params_arguments (cc_genesis_utxo chain_config) +:+ " " +:+
  runtime_config_arguments resources payment_signing_key_path.
(** The chain parameters are printed as JSON. *)
Definition deregister_run : stateful W string () :=
  config ←! read_chain_config_file;
  let '(chain_config, cardano_network) := config in
  _x ←! act (print ("This wizard will remove the specified candidate from the committee candidates based on the following chain parameters:
" +:+ to_string_pretty (JObject [("genesis_utxo", UtxoId_to_value (cc_genesis_utxo chain_config))]) +:+ ".
Committee Candidate Validator Address is '" +:+ ma_committee_candidates_address (cc_cardano_addresses chain_config) +:+ "'
"));
  keys ←! get_cardano_keys;
  let '(payment_signing_key_path, cold_vkey) := keys in
  pc_contracts_cli_resources ←! establish_pc_contracts_cli_configuration;
  output ←! map_err_stateful (fun _ => "Deregistration failed")
    (run_command (deregister_command cardano_network cold_vkey chain_config pc_contracts_cli_resources payment_signing_key_path));
  _x ←! act (print ("Deregistration successful: " +:+ output));
  return_ok tt.
End Wizards.

(** ** What is signed is accepted *)
Section Acceptance.
Context `{Minicbor, Accounts, SigningLaws}.

(** Both sides encode the same message. *)
Lemma same_message genesis pk u r :
  sidechain_pub_key r = pk -> consumed_input r = u ->
  to_datum_cbor_bytes (mkRegisterValidatorMessage genesis pk u) = signed_message_bytes r genesis.
Proof. by intros <- <-. Qed.

(** A registration that carries these signatures of the message is valid. *)
Lemma signatures_accepted genesis u mk sk r :
  sidechain_pub_key r = public_serialize (public_from_secret sk) -> consumed_input r = u -> u ∈ tx_inputs r ->
  length (aura_pub_key r) = 32%nat -> length (grandpa_pub_key r) = 32%nat ->
  (let message := mkRegisterValidatorMessage genesis (public_serialize (public_from_secret sk)) u in
   mainchain_signature r = snd (mainchain_public_key_and_signature mk message) /\
   sidechain_signature r = snd (sc_public_key_and_signature_for_datum sk message)) ->
  validate_registration_data (ed25519_public mk) r genesis =
    Ok (mkCandidate (sidechain_pub_key r) (aura_pub_key r, grandpa_pub_key r)).
Proof.
  intros Hpk Hu Hin Ha Hg [Hms Hss].
  unfold mainchain_public_key_and_signature in Hms. cbn zeta in Hms. cbn [snd] in Hms.
  unfold sc_public_key_and_signature_for_datum, sc_public_key_and_signature, hash_datum in Hss. cbn [snd] in Hss.
  rewrite (same_message _ _ _ r) in Hms, Hss by done.
  apply validate_registration_data_Ok. split; [|done]. constructor; [done|done|..].
  - rewrite Hpk. apply public_length.
  - rewrite Hms. split; [apply ed25519_length | apply ed25519_verifies].
  - rewrite Hss. split; [apply ecdsa_length|]. rewrite Hpk. apply ecdsa_verifies.
  - by rewrite Hu.
Qed.

(** The signatures that the registration command computes are accepted: a registration
    with them, with the keys that the command reports, that consumes the registration UTXO
    and has session keys of the right size is valid for the chain of the genesis UTXO. *)
Theorem registration_signatures_are_accepted (self : RegistrationSignaturesCmd) r :
  let out := registration_signatures_execute self in
  sidechain_pub_key r = out_sidechain_public_key out ->
  mainchain_signature r = spo_signature out -> sidechain_signature r = out_sidechain_signature out ->
  consumed_input r = rs_registration_utxo self -> rs_registration_utxo self ∈ tx_inputs r ->
  length (aura_pub_key r) = 32%nat -> length (grandpa_pub_key r) = 32%nat ->
  validate_registration_data (spo_public_key out) r (rs_genesis_utxo self) =
    Ok (mkCandidate (out_sidechain_public_key out) (aura_pub_key r, grandpa_pub_key r)).
Proof.
  intros out Hpk Hms Hss Hu Hin Ha Hg. rewrite <- Hpk. by eapply (signatures_accepted _ _ _ (rs_sidechain_signing_key self)).
Qed.
End Acceptance.

(** ** The printed commands *)
(** How a shell reads the words of a text without quotes and expansions: blanks end a word, and a
    backslash before a newline joins two lines. *)
Definition BACKSLASH : Ascii.ascii := Ascii.ascii_of_nat 92.
Definition NEWLINE : Ascii.ascii := Ascii.ascii_of_nat 10.
Definition BLANK : Ascii.ascii := Ascii.ascii_of_nat 32.
Definition end_word (words : list string) (word : str) : list string :=
  match word with [] => words | _ => words ++ [of_str word] end.
(** The words so far, the word that is read, and whether the last character was a backslash. *)
Definition read_char (st : list string * str * bool) (c : Ascii.ascii) : list string * str * bool :=
  let '(words, word, escaped) := st in
  if escaped then (words, if Ascii.eqb c NEWLINE then word else word ++ [c], false)
  else if Ascii.eqb c BACKSLASH then (words, word, true)
  else if Ascii.eqb c BLANK || Ascii.eqb c NEWLINE then (end_word words word, [], false)
  else (words, word ++ [c], false).
Definition shell_words (text : string) : list string :=
  let '(words, word, _) := fold_left read_char (str_of text) ([], [], false) in end_word words word.
(** Letters, digits and the sign in the text of a UTXO. *)
Definition plain_char (c : Ascii.ascii) : bool :=
  let n := Ascii.nat_of_ascii c in
  ((48 <=? n) && (n <=? 57) || (65 <=? n) && (n <=? 90) || (97 <=? n) && (n <=? 122) || (n =? 35))%nat.
Definition plain_word (s : string) : Prop := s <> "" /\ forallb plain_char (str_of s) = true.
Lemma plain_char_spec c : plain_char c = true ->
  Ascii.eqb c BACKSLASH = false /\ Ascii.eqb c BLANK = false /\ Ascii.eqb c NEWLINE = false.
Proof.
  intros Hc. split_and!; apply Ascii.eqb_neq; intros ->; vm_compute in Hc; done.
Qed.
Lemma read_plain words word v : forallb plain_char v = true ->
  fold_left read_char v (words, word, false) = (words, word ++ v, false).
Proof.
  revert word. induction v as [|c v IH]; intros word; cbn [forallb fold_left]; [by rewrite app_nil_r|].
  rewrite andb_true_iff. intros [(E1 & E2 & E3)%plain_char_spec Hv]. unfold read_char at 2. rewrite E1, E2, E3. cbn [orb].
  by rewrite IH, <- app_assoc.
Qed.
Lemma read_shift words l words' word escaped :
  fold_left read_char l (words ++ words', word, escaped) =
  let '(ws, w, e) := fold_left read_char l (words', word, escaped) in (words ++ ws, w, e).
Proof.
  revert words' word escaped. induction l as [|c l IH]; intros words' word escaped; cbn [fold_left]; [done|].
  unfold read_char at 2 4. destruct escaped; [apply IH|]. destruct (Ascii.eqb c BACKSLASH); [apply IH|].
  destruct (_ || _); [|apply IH]. rewrite <- IH. f_equal. destruct word; cbn; by rewrite ?app_assoc.
Qed.
Lemma end_plain_word words v : plain_word v -> end_word words (str_of v) = words ++ [v].
Proof.
  intros [Hne _]. unfold end_word. destruct (str_of v) as [|c l] eqn:E; [|by rewrite <- E, of_str_of].
  destruct Hne. by rewrite <- (of_str_of v), E.
Qed.
(** A value, and the text from it to the next value, which holds one flag. *)
Lemma read_value words v between flag rest : plain_word v -> head (str_of between) = Some BLANK ->
  fold_left read_char (str_of between) ([], [], false) = ([flag], [], false) ->
  fold_left read_char (str_of (v +:+ between +:+ rest)) (words, [], false) =
  fold_left read_char (str_of rest) (words ++ [v; flag], [], false).
Proof.
  intros Hv Hh Hb. rewrite !str_of_app, !fold_left_app, (read_plain _ _ _ (proj2 Hv)). f_equal. cbn [app].
  destruct (str_of between) as [|c l]; [done|]. injection Hh as ->. cbn [fold_left] in *.
  change (fold_left read_char l ([], [], false) = ([flag], [], false)) in Hb.
  change (fold_left read_char l (end_word words (str_of v), [], false) = (words ++ [v; flag], [], false)).
  pose proof (read_shift (words ++ [v]) l [] [] false) as Hs. rewrite (Hb : fold_left read_char l (@pair (list string * str) bool (@pair (list string) str [] []) false) = _),
    app_nil_r, <- app_assoc in Hs.
  by rewrite (end_plain_word _ _ Hv).
Qed.
Lemma read_last words v : plain_word v ->
  (let '(words, word, _) := fold_left read_char (str_of v) (words, [], false) in end_word words word) = words ++ [v].
Proof. intros Hv. rewrite (read_plain _ _ _ (proj2 Hv)). by apply end_plain_word. Qed.
Lemma read_program text words rest : fold_left read_char (str_of text) ([], [], false) = (words, [], false) ->
  fold_left read_char (str_of (text +:+ rest)) ([], [], false) = fold_left read_char (str_of rest) (words, [], false).
Proof. intros Ht. by rewrite str_of_app, fold_left_app, Ht. Qed.
Ltac read_words := unfold shell_words; erewrite read_program by (vm_compute; reflexivity);
  repeat (erewrite read_value; [|assumption|vm_compute; reflexivity|vm_compute; reflexivity]);
  rewrite read_last by assumption; reflexivity.

Section PrintedCommands.
Context `{Hex, HexCodec}.
Definition register2_words (g u : UtxoId) (keys : PermissionedCandidateKeys) (sig : string) : list string :=
  ["./partner-chains-cli"; "register2"; "--genesis-utxo"; utxo_text g; "--registration-utxo"; utxo_text u;
   "--aura-pub-key"; pck_aura_pub_key keys; "--grandpa-pub-key"; pck_grandpa_pub_key keys;
   "--sidechain-pub-key"; pck_sidechain_pub_key keys; "--sidechain-signature"; sig].
Lemma read_register2_command g u keys sig :
  Forall plain_word [utxo_text g; utxo_text u; pck_aura_pub_key keys; pck_grandpa_pub_key keys; pck_sidechain_pub_key keys; sig] ->
  shell_words (register2_command g u keys sig) = register2_words g u keys sig.
Proof.
  rewrite !Forall_cons. intros (? & ? & ? & ? & ? & ? & _). unfold register2_command, register2_words. read_words.
Qed.
Definition register3_words (g u : UtxoId) (aura grandpa sidechain sig spo_key spo_sig : string) : list string :=
  ["./partner-chains-cli"; "register3"; "--genesis-utxo"; utxo_text g; "--registration-utxo"; utxo_text u;
   "--aura-pub-key"; aura; "--grandpa-pub-key"; grandpa; "--sidechain-pub-key"; sidechain; "--sidechain-signature"; sig;
   "--spo-public-key"; spo_key; "--spo-signature"; spo_sig].
Lemma read_register3_command cmd spo_key spo_sig :
  Forall plain_word [utxo_text (r_genesis_utxo cmd); utxo_text (r_registration_utxo cmd); r_aura_pub_key cmd; r_grandpa_pub_key cmd;
    SidechainPublicKeyParam_display (r_sidechain_pub_key cmd); r_sidechain_signature cmd; spo_key; spo_sig] ->
  shell_words (register3_command cmd spo_key spo_sig) =
    register3_words (r_genesis_utxo cmd) (r_registration_utxo cmd) (r_aura_pub_key cmd) (r_grandpa_pub_key cmd)
      (SidechainPublicKeyParam_display (r_sidechain_pub_key cmd)) (r_sidechain_signature cmd) spo_key spo_sig.
Proof.
  rewrite !Forall_cons. intros (? & ? & ? & ? & ? & ? & ? & ? & _). unfold register3_command, register3_words. read_words.
Qed.
End PrintedCommands.

(** ** From the first wizard to the chain *)
Section WizardRegistration.
Context `{F64Laws, HexLaws, HexCodecLaws, SerdeJsonLaws, CslLib, Minicbor, Accounts, SigningLaws} {W : Type}
  `{!IOContext W, !IOFiles, !IOFilesLaws}.
(** Compressed public keys in hexadecimal, with or without a prefix. *)
Context (public_key_text : forall k p, from_hex (str_of k) = Ok (public_serialize p) -> public_from_str (trim_0x k) = Ok p).
Context (wf_responses : forall addr req (w w' : W) r, ogmios_rpc addr req w = (w', Done (Ok r)) -> wf_response r).

(** What generate-keys leaves: the keys file, and the secret of its sidechain key. *)
Definition keystore_file (base k : string) : string :=
  keystore_path base DEFAULT_CHAIN_NAME +:+ "/" +:+ key_type_hex CROSS_CHAIN +:+ remove_0x k.
Definition generated (base : string) (keys : PermissionedCandidateKeys) (sk : SecretKey) (w : W) : Prop :=
  field_value SUBSTRATE_NODE_DATA_BASE_PATH w = Some base /\
  (json ← config_value KEYS_FILE_PATH w; keys_from_value json) = Some keys /\
  from_hex (str_of (pck_sidechain_pub_key keys)) = Ok (public_serialize (public_from_secret sk)) /\
  exists text seed, files w !! keystore_file base (pck_sidechain_pub_key keys) = Some text /\
    pair_seed_from_string (trim_matches QUOTE text) = Ok seed /\ secret_from_slice seed = Ok sk.

Lemma map_err_with_Ok {E F A} (m : stateful W E A) (report : E -> action W F) w w' a :
  map_err_with m report w = (w', Done (Ok a)) -> m w = (w', Done (Ok a)).
Proof.
  unfold map_err_with. destruct (m w) as [w1 [[x|e]|]]; [intros ?; by simplify_eq|by destruct (report e w1) as [? []]|done].
Qed.
Lemma ok_or_else_Ok {E A} (o : option A) (report : action W E) w w' a :
  ok_or_else o report w = (w', Done (Ok a)) -> w' = w /\ o = Some a.
Proof.
  unfold ok_or_else. destruct o; [intros ?; by simplify_eq|]. by destruct (report w) as [? []].
Qed.
Lemma read_file_run p (w w' : W) c : read_file p w = (w', Done c) -> c = files w !! p.
Proof. destruct (read_file_files p w) as (w1 & -> & _). intros ?. by simplify_eq. Qed.

Lemma read_generated_keys_spec (w w' : W) keys :
  read_generated_keys w = (w', Done (Ok keys)) -> (json ← config_value KEYS_FILE_PATH w; keys_from_value json) = Some keys.
Proof.
  unfold read_generated_keys, config_value. intros (w1 & c & Hc%act_Ok%read_file_run & Hr)%bind_stateful_Ok.
  apply bind_stateful_Ok in Hr as (w2 & c' & [-> Hc']%stateless_Ok & Hr). apply stateless_Ok in Hr as [-> Hr].
  rewrite <- Hc. destruct c as [c|]; [|done]. injection Hc' as ->. injection Hr as Hr. cbn [mbind option_bind].
  by destruct (json ← from_json c'; keys_from_value json) as [k|] eqn:E; [injection Hr as ->|].
Qed.

Lemma keystore_file_slash base k : keystore_file base k <> RESOURCES_CONFIG_FILE_PATH.
Proof.
  intros Heq. assert (SLASH ∈ str_of (keystore_file base k)) as Hin.
  { unfold keystore_file, keystore_path. rewrite !str_of_app. change (str_of "/") with [SLASH]. set_solver. }
  rewrite Heq in Hin. revert Hin. apply (bool_decide_unpack _). vm_compute. exact I.
Qed.

Lemma get_ecdsa_pair_spec base k (w w' : W) seed :
  get_ecdsa_pair_from_file (keystore_path base DEFAULT_CHAIN_NAME) k w = (w', Done (Ok seed)) ->
  exists text, files w !! keystore_file base k = Some text /\ pair_seed_from_string (trim_matches QUOTE text) = Ok seed.
Proof.
  unfold get_ecdsa_pair_from_file. intros (w1 & c & Hc%act_Ok%read_file_run & Hr)%bind_stateful_Ok.
  apply bind_stateful_Ok in Hr as (w2 & c' & [-> Hc']%stateless_Ok & Hr). apply stateless_Ok in Hr as [-> Hr].
  destruct c as [c|]; [|done]. injection Hc' as ->. injection Hr as Hr. by exists c'.
Qed.
Lemma signed_text message seed sk s :
  secret_from_slice seed = Ok sk -> sign_registration_message_with_sidechain_key message seed = Ok s ->
  s = of_str (hex_encode (snd (sc_public_key_and_signature_for_datum sk message))).
Proof. unfold sign_registration_message_with_sidechain_key. intros ->. cbn. by intros [= <-]. Qed.


Lemma query_address_utxos_spec oc a (w w' : W) utxos :
  query_address_utxos oc a w = (w', Done (Ok utxos)) ->
  Forall wf_utxo utxos /\ exists addr (w1 : W), ogmios_rpc addr (QueryUtxo a) w1 = (w', Done (Ok (UtxoResponse utxos))).
Proof.
  unfold query_address_utxos. intros (w1 & [] & _ & Hr)%bind_stateful_Ok. apply bind_stateful_Ok in Hr as (w2 & r & Hrpc & Hr).
  destruct r as [| |us]; try done. apply stateless_Ok in Hr as [-> [= ->]]. split; [|by eexists _, _].
  exact (wf_responses _ _ _ _ _ Hrpc).
Qed.
Lemma load_chain_config_field_spec {T} (f : ConfigFieldDefinition T) (w w' : W) v :
  load_chain_config_field f w = (w', Done (Ok v)) -> field_value f w = Some v.
Proof.
  unfold load_chain_config_field. intros (w1 & o & [_ ->]%act_Ok%load_from_file_spec & Hr)%bind_stateful_Ok.
  by apply ok_or_else_Ok in Hr as [_ ?].
Qed.

Lemma frame_load_chain_config_field {T} l (f : ConfigFieldDefinition T) : frame l (load_chain_config_field (W := W) f).
Proof. unfold load_chain_config_field. frames. Qed.
Lemma frame_read_generated_keys l : frame l (read_generated_keys (W := W)).
Proof. unfold read_generated_keys. frames. Qed.
Lemma frame_query_address_utxos l oc a : frame l (query_address_utxos (W := W) oc a).
Proof. unfold query_address_utxos, return_ok, return_err. frames. Qed.
Lemma frame_select_from_utxos l p us : frame l (select_from_utxos (W := W) p us).
Proof. unfold select_from_utxos. frames. Qed.
#[local] Hint Resolve frame_load_chain_config_field frame_read_generated_keys frame_query_address_utxos frame_select_from_utxos : frame.

(** The first wizard ends by printing the command of the second. *)
Definition registration_question : string := "Select UTXO to use for registration".
Lemma register1_spec base keys sk g (w w' : W) :
  generated base keys sk w -> field_value GENESIS_UTXO w = Some g ->
  register1_run w = (w', Done (Ok tt)) ->
  exists u w0, wf_UtxoId u /\ chosen_utxo (W := W) registration_question u /\
    print (register2_command g u keys (of_str (hex_encode (snd (sc_public_key_and_signature_for_datum sk
      (mkRegisterValidatorMessage g (public_serialize (public_from_secret sk)) u)))))) w0 = (w', Done tt).
Proof.
  intros (Hbase & Hkeys & Hpk & text & seed & Htext & Hseed & Hsk) Hg. unfold register1_run. intros Hr.
  apply bind_stateful_Ok in Hr as (w1 & [] & E1%act_Ok & Hr). apply bind_stateful_Ok in Hr as (w2 & g' & E2 & Hr).
  apply bind_stateful_Ok in Hr as (w3 & n & E3%act_Ok & Hr). apply bind_stateful_Ok in Hr as (w3' & n' & [-> _]%ok_or_else_Ok & Hr).
  apply bind_stateful_Ok in Hr as (w4 & b & E4%act_Ok & Hr). apply bind_stateful_Ok in Hr as (w4' & b' & [-> Hb]%stateless_Ok & Hr).
  apply bind_stateful_Ok in Hr as (w5 & keys' & E5%map_err_with_Ok & Hr). apply bind_stateful_Ok in Hr as (w6 & [] & E6%act_Ok & Hr).
  apply bind_stateful_Ok in Hr as (w7 & a & E7 & Hr). apply bind_stateful_Ok in Hr as (w8 & oc & E8 & Hr).
  apply bind_stateful_Ok in Hr as (w9 & utxos & E9 & Hr).
  pose proof (frame_same [] _ _ _ _ E1 ltac:(frames)) as S1. pose proof (frame_same [] _ _ _ _ E2 ltac:(frames)) as S2.
  pose proof (frame_same [] _ _ _ _ E3 ltac:(frames)) as S3.
  pose proof (frame_same chain_params_locations _ _ _ _ E5 ltac:(frames)) as S5.
  pose proof (frame_same chain_params_locations _ _ _ _ E6 ltac:(frames)) as S6.
  pose proof (frame_same chain_params_locations _ _ _ _ E7 ltac:(frames)) as S7.
  pose proof (frame_same chain_params_locations _ _ _ _ E8 ltac:(frames)) as S8.
  pose proof (frame_same chain_params_locations _ _ _ _ E9 ltac:(frames)) as S9.
  apply load_chain_config_field_spec in E2. rewrite (proj1 S1) in E2 by done. assert (g' = g) as -> by congruence.
  assert (files w3 = files w) as F3 by (apply same_outside_nil; by repeat (etransitivity; [eassumption|])).
  apply load_from_file_spec in E4 as [F4 ->]. rewrite (field_value_same _ w w3), Hbase in Hb by done. injection Hb as <-.
  apply read_generated_keys_spec in E5. unfold config_value in E5, Hkeys. rewrite F4, F3, Hkeys in E5. injection E5 as <-.
  assert (same_outside chain_params_locations w w9) as S.
  { transitivity w4; [apply same_files; congruence|]. by repeat (etransitivity; [eassumption|]). }
  destruct (query_address_utxos_spec _ _ _ _ _ E9) as (Hwf & addr & wx & Hrpc).
  case_bool_decide.
  { apply bind_stateful_Ok in Hr as (? & [] & _ & Hr). by apply bind_stateful_Ok in Hr as (? & [] & _ & Hr). }
  apply bind_stateful_Ok in Hr as (wa & u & Eu & Hr). apply bind_stateful_Ok in Hr as (wb & [] & Eb%act_Ok & Hr).
  apply bind_stateful_Ok in Hr as (wc & [] & Ec%act_Ok & Hr).
  apply bind_stateful_Ok in Hr as (wd & pk & Hd%map_err_with_Ok & Hr). apply stateless_Ok in Hd as [-> Hd].
  apply bind_stateful_Ok in Hr as (we & seed' & He%map_err_with_Ok & Hr).
  apply bind_stateful_Ok in Hr as (wf & sig & [-> Hsig]%stateless_Ok & Hr).
  apply bind_stateful_Ok in Hr as (wg & [] & _ & Hr). apply bind_stateful_Ok in Hr as (wh & [] & _ & Hr).
  apply bind_stateful_Ok in Hr as (wi & [] & Hprint%act_Ok & Hr). apply stateless_Ok in Hr as [-> _].
  pose proof (select_from_utxos_spec _ _ _ _ _ (valid_utxos_wf _ Hwf) Eu) as ((vu & wz & Hin & Hid & Hask) & Hu & Hi).
  exists u, wh. split; [done|]. split; [by exists addr, a, wx, w9, wz, utxos, vu|].
  injection Hd as Hd. rewrite Hpk in Hd. injection Hd as <-.
  assert (seed' = seed) as ->.
  { apply get_ecdsa_pair_spec in He as (text' & Ht & Hs).
    assert (same_outside chain_params_locations w wc) as Sc.
    { transitivity w9; [exact S|]. transitivity wa; [exact (frame_same _ _ _ _ _ Eu ltac:(frames))|].
      transitivity wb; [exact (frame_same _ _ _ _ _ Eb ltac:(frames))|exact (frame_same _ _ _ _ _ Ec ltac:(frames))]. }
    rewrite (proj2 Sc) in Ht by (cbn; rewrite !not_elem_of_cons; split_and!; try apply keystore_file_slash; apply not_elem_of_nil).
    congruence. }
  injection Hsig as Hsig. by rewrite (signed_text _ _ _ _ Hsk Hsig) in Hprint.
Qed.

(** The second wizard ends by printing the command of the third. *)
Lemma register2_spec cmd (w w' : W) :
  register2_run cmd w = (w', Done (Ok tt)) ->
  exists mk w0, let message := mkRegisterValidatorMessage (r_genesis_utxo cmd) (r_sidechain_pub_key cmd) (r_registration_utxo cmd) in
    print (register3_command cmd (of_str (hex_encode (ed25519_public mk)))
      (of_str (hex_encode (snd (mainchain_public_key_and_signature mk message))))) w0 = (w', Done tt).
Proof.
  unfold register2_run. intros Hr. do 2 apply bind_stateful_Ok in Hr as (? & [] & _ & Hr).
  apply bind_stateful_Ok in Hr as (w3 & p & _ & Hr). apply bind_stateful_Ok in Hr as (w4 & mk & _ & Hr).
  apply bind_stateful_Ok in Hr as (w5 & [] & _ & Hr). apply bind_stateful_Ok in Hr as (w6 & [] & Hp%act_Ok & Hr).
  apply stateless_Ok in Hr as [-> _]. by exists mk, w5.
Qed.

Lemma parse_own_utxo u u' : wf_UtxoId u -> utxo_from_text (utxo_text u) = Ok u' -> u' = u.
Proof.
  intros Hu. unfold utxo_from_text, utxo_text, str_of, of_str. rewrite String.list_ascii_of_string_of_list_ascii.
  rewrite UtxoId_from_str_display by done. destruct (_ <? _)%Z; [by intros [= <-]|done].
Qed.
Lemma parse_register2_own g u k p aura grandpa sig cmd :
  wf_UtxoId g -> wf_UtxoId u -> from_hex (str_of k) = Ok (public_serialize p) ->
  Register2Cmd_parse (utxo_text g) (utxo_text u) k aura grandpa sig = Ok cmd ->
  cmd = mkRegister2Cmd g u (public_serialize p) aura grandpa sig.
Proof.
  intros Hg Hu Hk. unfold Register2Cmd_parse, SidechainPublicKeyParam_from_str.
  destruct (utxo_from_text (utxo_text g)) as [g'|] eqn:Eg; [|done]. apply parse_own_utxo in Eg as ->; [|done].
  cbn [mbind result_bind]. destruct (utxo_from_text (utxo_text u)) as [u'|] eqn:Eu; [|done].
  apply parse_own_utxo in Eu as ->; [|done]. cbn [mbind result_bind]. rewrite (public_key_text _ _ Hk). cbn [mbind result_bind].
  by intros [= <-].
Qed.

(** C34: From the first wizard to the chain. On a machine with generated keys and a chain
    configuration, the first wizard ends by printing the command of the second for a UTXO
    that the user chose, and a shell reads the genesis UTXO, the chosen one, the keys and the
    signature from it under the flags of that command; the second, run on the machine with the
    cold key with these arguments, ends by printing the command of the third, from which a
    shell reads the same, the key of the stake pool and its signature; and a registration with
    the keys and signatures of that command, which consumes the UTXO, is valid for the chain
    of the configuration. *)
Theorem wizards_register_a_valid_candidate base keys sk g (w w' : W) :
  generated base keys sk w -> field_value GENESIS_UTXO w = Some g -> wf_UtxoId g ->
  register1_run w = (w', Done (Ok tt)) ->
  exists u sig w0,
    chosen_utxo (W := W) registration_question u /\ print (register2_command g u keys sig) w0 = (w', Done tt) /\
    (Forall plain_word [utxo_text g; utxo_text u; pck_aura_pub_key keys; pck_grandpa_pub_key keys; pck_sidechain_pub_key keys; sig] ->
     shell_words (register2_command g u keys sig) = register2_words g u keys sig) /\
    forall cmd v v',
      Register2Cmd_parse (utxo_text g) (utxo_text u) (pck_sidechain_pub_key keys) (pck_aura_pub_key keys)
        (pck_grandpa_pub_key keys) sig = Ok cmd ->
      register2_run cmd v = (v', Done (Ok tt)) ->
      exists spo_key spo_sig v0,
        print (register3_command cmd spo_key spo_sig) v0 = (v', Done tt) /\
        (Forall plain_word [utxo_text g; utxo_text u; pck_aura_pub_key keys; pck_grandpa_pub_key keys;
           SidechainPublicKeyParam_display (r_sidechain_pub_key cmd); sig; spo_key; spo_sig] ->
         shell_words (register3_command cmd spo_key spo_sig) =
           register3_words g u (pck_aura_pub_key keys) (pck_grandpa_pub_key keys)
             (SidechainPublicKeyParam_display (r_sidechain_pub_key cmd)) sig spo_key spo_sig) /\
        forall r mk,
          hex_decode (str_of spo_key) = Some mk -> hex_decode (str_of spo_sig) = Some (mainchain_signature r) ->
          hex_decode (str_of sig) = Some (sidechain_signature r) -> sidechain_pub_key r = r_sidechain_pub_key cmd ->
          consumed_input r = u -> u ∈ tx_inputs r -> length (aura_pub_key r) = 32%nat -> length (grandpa_pub_key r) = 32%nat ->
          validate_registration_data mk r g = Ok (mkCandidate (sidechain_pub_key r) (aura_pub_key r, grandpa_pub_key r)).
Proof.
  intros Hgen Hg Hwf Hr. destruct (register1_spec _ _ _ _ _ _ Hgen Hg Hr) as (u & w0 & Hu & Hc & Hp).
  eexists u, _, w0. split; [done|]. split; [exact Hp|]. split; [apply read_register2_command|]. intros cmd v v' Hparse Hr2.
  destruct Hgen as (_ & _ & Hpk & _). apply (parse_register2_own _ _ _ (public_from_secret sk)) in Hparse as ->; [|done..].
  destruct (register2_spec _ _ _ Hr2) as (mk & v0 & Hp2). eexists _, _, v0. split; [exact Hp2|].
  split; [apply (read_register3_command (mkRegister2Cmd g u _ (pck_aura_pub_key keys) (pck_grandpa_pub_key keys) _))|].
  cbn [r_genesis_utxo r_registration_utxo r_sidechain_pub_key]. intros r mk' Hmk Hms Hss Hkr Hur Hin Ha Hgr.
  rewrite str_of_of, hex_decode_encode in Hmk, Hms, Hss by
    (apply ed25519_public_wf || apply ed25519_sign_wf || apply ecdsa_wf).
  injection Hmk as <-. injection Hms as Hms. injection Hss as Hss.
  by eapply (signatures_accepted _ u _ sk).
Qed.
End WizardRegistration.

(** ** Toy keys

    A key is one byte, which its signatures repeat. *)
Module ToyKeys.
Export ConcreteAccounts ConcreteHex.
Definition byte_of (c : Ascii.ascii) : Z := Z.of_nat (Ascii.nat_of_ascii c).
Definition char_of (b : Z) : Ascii.ascii := Ascii.ascii_of_nat (Z.to_nat b).
Lemma byte_of_wf c : in_width 8 (byte_of c).
Proof. unfold in_width, byte_of. pose proof (Ascii.nat_ascii_bounded c). lia. Qed.
Lemma char_of_byte c : char_of (byte_of c) = c.
Proof. unfold char_of, byte_of. rewrite Nat2Z.id. apply Ascii.ascii_nat_embedding. Qed.
#[export] Instance toy_keys : SigningKeys := {|
  SecretKey := Ascii.ascii; PublicKey := Ascii.ascii;
  ed25519_sign k _ := replicate 64 (byte_of (char_of (default 0%Z (head k))));
  ed25519_public k := replicate 32 (byte_of (char_of (default 0%Z (head k))));
  ed25519_try_from := Ok;
  secret_from_slice b := Ok (char_of (default 0%Z (head b)));
  secret_from_str s := Ok (default (chr 0) (head (str_of s)));
  public_from_secret k := k;
  public_from_str s := match unhex (str_of s) with Some (b :: _) => Ok (char_of b) | _ => Err "invalid key" end;
  public_serialize p := replicate 33 (byte_of p);
  sign_ecdsa k _ := replicate 64 (byte_of k);
  pair_seed_from_string s := Ok (map byte_of (str_of s))
|}.
#[export] Instance toy_hash : Blake2bHash := fun _ b => b.
#[export] Instance toy_laws : SigningLaws.
Proof.
  split; intros; cbn [ed25519_verify ecdsa_verify toy_crypto ed25519_sign ed25519_public sign_ecdsa public_serialize public_from_secret toy_keys].
  - by rewrite bool_decide_eq_true_2.
  - apply length_replicate.
  - exists NEGATIVE_POINT_SIGN. split; [by left|]. by rewrite !bool_decide_eq_true_2.
  - apply length_replicate.
  - apply Forall_replicate, byte_of_wf.
  - apply Forall_replicate, byte_of_wf.
  - apply Forall_replicate, byte_of_wf.
  - apply length_replicate.
Qed.
Lemma trim_0x_other k : take 2 (str_of k) <> ConcreteHex.prefix -> trim_0x k = k.
Proof.
  destruct k as [|a [|b k]]; [done|done|]. intros Hk. cbn [trim_0x]. rewrite decide_False; [done|].
  intros [-> ->]. by apply Hk.
Qed.
Lemma unhex_no_prefix s bs : unhex s = Some bs -> take 2 s <> ConcreteHex.prefix.
Proof. intros Hu Hs. destruct s as [|a [|b s]]; try done. injection Hs as -> ->. by vm_compute in Hu. Qed.
Lemma toy_public_key_text k p : from_hex (str_of k) = Ok (public_serialize p) -> public_from_str (trim_0x k) = Ok p.
Proof.
  cbn [from_hex concrete_codec]. intros Hk. destruct (unhex (strip (str_of k))) as [bs|] eqn:Hu; [|done].
  injection Hk as ->.
  assert (str_of (trim_0x k) = strip (str_of k)) as Ht.
  { unfold strip in *. case_decide as Hp; [|by rewrite trim_0x_other].
    destruct k as [|a [|b k]]; try done. injection Hp as -> ->. cbn [trim_0x]. rewrite decide_True by done.
    rewrite trim_0x_other; [done|]. exact (unhex_no_prefix _ _ Hu). }
  cbn [public_from_str toy_keys]. rewrite Ht, Hu. cbn. by rewrite char_of_byte.
Qed.
End ToyKeys.

Section Witnesses.
Import Console ToyKeys SmallCsl Rfc8949.
Definition example_genesis : UtxoId := mkUtxoId (replicate 32 9%Z) 3.
Definition example_utxo : UtxoId := mkUtxoId (replicate 32 2%Z) 1.
Definition example_cmd : RegistrationSignaturesCmd := mkRegistrationSignaturesCmd example_genesis [5%Z] (chr 55) example_utxo.
Definition example_registration : RegistrationData :=
  mkRegistrationData example_utxo (replicate 64 55) (replicate 64 5) [] (replicate 33 55) []
    (mkUtxoInfo example_utxo 1 1 1 0) [example_utxo] (replicate 32 1) (replicate 32 2).

Lemma registration_signatures_are_accepted_witness :
  validate_registration_data (spo_public_key (registration_signatures_execute example_cmd)) example_registration example_genesis =
    Ok (mkCandidate (out_sidechain_public_key (registration_signatures_execute example_cmd)) (replicate 32 1%Z, replicate 32 2%Z)).
Proof.
  apply (registration_signatures_are_accepted example_cmd example_registration);
    first [vm_compute; reflexivity | apply (bool_decide_unpack _); vm_compute; exact I].
Defined.

#[local] Instance register_console : IOContext World := console example_rpc example_scripts (fun _ => Ok "").
Definition example_keys : PermissionedCandidateKeys :=
  mkPermissionedCandidateKeys ("0x" +:+ of_str (hex (replicate 33 55))) "0xaa" "0xbb".
Definition register_world : World := mkWorld
  (<[CHAIN_CONFIG_FILE_PATH := to_string_pretty (JObject [("cardano", JObject [("network", string_to_value "testnet")]);
       ("chain_parameters", JObject [("genesis_utxo", UtxoId_to_value example_genesis)])])]>
   (<[RESOURCES_CONFIG_FILE_PATH := to_string_pretty (JObject [("substrate_node_base_path", string_to_value "./data")])]>
    (<[KEYS_FILE_PATH := to_string_pretty (keys_to_value example_keys)]>
     (<[keystore_file "./data" (pck_sidechain_pub_key example_keys) := "7"]>
      {[ "key" := to_string_pretty (JObject [("cborHex", string_to_value ("5820" +:+ of_str (hex (replicate 32 5%Z))))]) ]}))))
  ["key"; "localhost"; "1337"] [].
Lemma example_generated : generated "./data" example_keys (chr 55) register_world.
Proof.
  split_and!; [vm_compute; reflexivity..|]. exists "7", [55%Z]. split_and!; vm_compute; reflexivity.
Qed.

Lemma example_register2 u sig : u ∈ [example_utxo; mkUtxoId (replicate 32 1%Z) 0] ->
  exists cmd v', Register2Cmd_parse (utxo_text example_genesis) (utxo_text u) (pck_sidechain_pub_key example_keys)
      (pck_aura_pub_key example_keys) (pck_grandpa_pub_key example_keys) sig = Ok cmd /\
    register2_run cmd register_world = (v', Done (Ok tt)).
Proof.
  intros Hu. exists (mkRegister2Cmd example_genesis u (replicate 33 55%Z) "0xaa" "0xbb" sig).
  exists (fst (register2_run (mkRegister2Cmd example_genesis u (replicate 33 55%Z) "0xaa" "0xbb" sig) register_world)).
  rewrite (surjective_pairing (register2_run _ _)).
  apply elem_of_cons in Hu as [-> | [-> | Hu]%elem_of_cons]; [..|destruct (not_elem_of_nil _ Hu)];
    (split; [vm_compute; reflexivity|]); (apply (f_equal2 pair); [reflexivity|]); vm_compute; reflexivity.
Qed.
(** Both machines: the second reads the cold key from the file [key] too. *)
Lemma wizards_register_a_valid_candidate_witness :
  exists w' v' cmd u sig spo_key spo_sig,
    register1_run register_world = (w', Done (Ok tt)) /\
    Register2Cmd_parse (utxo_text example_genesis) (utxo_text u) (pck_sidechain_pub_key example_keys)
      (pck_aura_pub_key example_keys) (pck_grandpa_pub_key example_keys) sig = Ok cmd /\
    register2_run cmd register_world = (v', Done (Ok tt)) /\
    exists v0, print (register3_command cmd spo_key spo_sig) v0 = (v', Done tt).
Proof.
  destruct (register1_run register_world) as [w' r] eqn:Hr.
  assert (r = Done (Ok tt)) as -> by (change r with (snd (w', r)); rewrite <- Hr; vm_compute; reflexivity).
  destruct (wizards_register_a_valid_candidate toy_public_key_text example_responses "./data" example_keys (chr 55) example_genesis
    register_world w' example_generated ltac:(vm_compute; reflexivity) ltac:(repeat constructor; vm_compute; done) Hr)
    as (u & sig & w0 & (? & ? & ? & ? & ? & utxos & vu & [= _ <-] & _ & Hin & Hid) & _ & _ & Hcmd).
  apply (list_elem_of_fmap_2 utxo_id) in Hin. rewrite Hid in Hin. rename Hin into Hu.
  change (u ∈ [example_utxo; mkUtxoId (replicate 32 1%Z) 0]) in Hu.
  destruct (example_register2 u sig Hu) as (cmd & v' & Hp & Hr2).
  destruct (Hcmd cmd register_world v' Hp Hr2) as (spo_key & spo_sig & v0 & Hprint & _ & _).
  exists w', v', cmd, u, sig, spo_key, spo_sig. split; [reflexivity|]. split; [exact Hp|]. split; [exact Hr2|]. exists v0. exact Hprint.
Defined.
Example printed_words :
  shell_words (register2_command example_genesis example_utxo example_keys "77") =
    register2_words example_genesis example_utxo example_keys "77" /\
  Forall (fun s => forallb plain_char (str_of s) = true) [utxo_text example_genesis; utxo_text example_utxo; "0xaa"; "0xbb"; "77"].
Proof. split; [vm_compute; reflexivity|]. repeat constructor; vm_compute; reflexivity. Qed.
End Witnesses.
