(* ===== verification/CliNode.v ===== *)
(** * Keys, chain specification, main chain state and node start

    [toolkit/partner-chains-cli/src]: [generate_keys/], [permissioned_candidates.rs],
    [create_chain_spec/], [setup_main_chain_state/] and [start_node/].

    Third-party: accounts and their JSON form ([ChainSpecJson]), seeds of network keys
    ([NetworkKeys]) and colours of text ([Colorize]). *)

From S2P Require Import Prelude Domain McEpoch Cbor Json PlutusDatums Selection Ariadne Ogmios OffchainCsl Offchain OffchainUpsert CliConfig CliPrepare CliRegister.
#[local] Open Scope string_scope.
#[local] Open Scope list_scope.

(** [ed25519::Pair::from_seed_slice]. *)
Class NetworkKeys := seed_slice_is_valid : bytes -> bool.
Class Colorize := { red : string -> string; yellow : string -> string }.
(** [MultiSigner::into_account], and [to_value] of accounts, public keys and session keys. *)
Class ChainSpecJson := {
  into_account : bytes -> bytes;
  account_to_value : bytes -> JValue;
  ecdsa_public_to_value : bytes -> JValue;
  session_keys_to_value : bytes -> bytes -> JValue
}.

(** ** Generating keys *)
Section GenerateKeys.
Context `{F64, Hex, HexCodec, SerdeJson, NetworkKeys} {W : Type} `{!IOContext W}.

Record GenerateKeysConfig := mkGenerateKeysConfig {
  chain_name : string;
  substrate_node_base_path : string;
  node_executable : string
}.
Definition GenerateKeysConfig_load : action W GenerateKeysConfig :=
  node_executable ←# save_if_empty NODE_EXECUTABLE NODE_EXECUTABLE_DEFAULT;
  substrate_node_base_path ←# load_or_prompt_and_save SUBSTRATE_NODE_DATA_BASE_PATH;
  pure (mkGenerateKeysConfig DEFAULT_CHAIN_NAME substrate_node_base_path node_executable).
Definition config_keystore_path (self : GenerateKeysConfig) : string :=
  keystore_path (substrate_node_base_path self) (chain_name self).
Definition config_network_key_path (self : GenerateKeysConfig) : string :=
  network_key_path (substrate_node_base_path self) (chain_name self).

Definition zeros56 : string := "00000000000000000000000000000000000000000000000000000000".
Definition set_dummy_env_vars : action W () :=
  _x ←# set_env_var "GENESIS_UTXO" "0000000000000000000000000000000000000000000000000000000000000000#0";
  _x ←# set_env_var "COMMITTEE_CANDIDATE_ADDRESS" "addr_10000";
  _x ←# set_env_var "D_PARAMETER_POLICY_ID" zeros56;
  _x ←# set_env_var "PERMISSIONED_CANDIDATES_POLICY_ID" zeros56;
  _x ←# set_env_var "NATIVE_TOKEN_POLICY_ID" zeros56;
  _x ←# set_env_var "NATIVE_TOKEN_ASSET_NAME" zeros56;
  set_env_var "ILLIQUID_SUPPLY_VALIDATOR_ADDRESS" zeros56.

Record KeyGenerationOutput := mkKeyGenerationOutput { public_key : string; secret_phrase : string }.
Definition KeyGenerationOutput_from_value (v : JValue) : option KeyGenerationOutput :=
  p ← json_get "publicKey" v; p ← string_from_value p;
  s ← json_get "secretPhrase" v; s ← string_from_value s;
  Some (mkKeyGenerationOutput p s).
Definition generate_keys (executable : string) (key_def : KeyDefinition) : stateful W string KeyGenerationOutput :=
  _x ←! act (eprint ("⚙️ Generating " +:+ kd_name key_def +:+ " (" +:+ scheme key_def +:+ ") key"));
  output ←! run_command (executable +:+ " key generate --scheme " +:+ scheme key_def +:+ " --output-type json");
  stateless (lift (ok_or (json ← from_json output; KeyGenerationOutput_from_value json)
    ("Failed to parse generated keys json: " +:+ output))).
Definition store_keys (config : GenerateKeysConfig) (key_def : KeyDefinition) (output : KeyGenerationOutput) : stateful W string () :=
  _x ←! act (eprint ("💾 Inserting " +:+ kd_name key_def +:+ " (" +:+ scheme key_def +:+ ") key"));
  _x ←! run_command (node_executable config +:+ " key insert --base-path " +:+ substrate_node_base_path config +:+ " --scheme " +:+
    scheme key_def +:+ " --key-type " +:+ key_type key_def +:+ " --suri '" +:+ secret_phrase output +:+ "'");
  let store_path := substrate_node_base_path config +:+ "/chains/" +:+ chain_name config +:+ "/keystore/" +:+
    key_type_hex key_def +:+ public_key output in
  _x ←! act (eprint ("💾 " +:+ kd_name key_def +:+ " key stored at " +:+ store_path));
  return_ok tt.
Definition generate_or_load_key (config : GenerateKeysConfig) (key_def : KeyDefinition) : stateful W string string :=
  let keystore_path := config_keystore_path config in
  existing_keys ←! list_directory keystore_path;
  let existing_keys := default [] existing_keys in
  match find_existing_key existing_keys key_def with
  | Some key =>
      overwrite ←! act (prompt_yes_no ("A " +:+ kd_name key_def +:+ " key already exists in store: " +:+ key +:+ " - overwrite it?") false);
      if overwrite : bool then
        new_key ←! generate_keys (node_executable config) key_def;
        _x ←! store_keys config key_def new_key;
        let old_key_path := keystore_path +:+ "/" +:+ key_type_hex key_def +:+ key in
        _x ←! map_err_stateful (fun _ => "Failed to overwrite " +:+ kd_name key_def +:+ " key at " +:+ old_key_path)
          (delete_file old_key_path);
        return_ok (public_key new_key)
      else return_ok ("0x" +:+ key)
  | None =>
      new_key ←! generate_keys (node_executable config) key_def;
      _x ←! store_keys config key_def new_key;
      return_ok (public_key new_key)
  end.
(** The fields of the struct, in the order of their declaration. *)
Definition keys_fields (k : PermissionedCandidateKeys) : list (string * JValue) :=
  [("sidechain_pub_key", string_to_value (pck_sidechain_pub_key k)); ("aura_pub_key", string_to_value (pck_aura_pub_key k));
   ("grandpa_pub_key", string_to_value (pck_grandpa_pub_key k))].
Definition generate_spo_keys (config : GenerateKeysConfig) : stateful W string () :=
  can_write ←! act (prompt_can_write "keys file" KEYS_FILE_PATH);
  if can_write : bool then
    cross_chain_key ←! generate_or_load_key config CROSS_CHAIN;
    _x ←! act enewline;
    grandpa_key ←! generate_or_load_key config GRANDPA;
    _x ←! act enewline;
    aura_key ←! generate_or_load_key config AURA;
    _x ←! act enewline;
    let public_keys_json := struct_to_string_pretty (keys_fields (mkPermissionedCandidateKeys cross_chain_key aura_key grandpa_key)) in
    _x ←! act (write_file KEYS_FILE_PATH public_keys_json);
    _x ←! act (eprint ("🔑 The following public keys were generated and saved to the " +:+ KEYS_FILE_PATH +:+ " file:"));
    _x ←! act (print public_keys_json);
    _x ←! act (eprint "You may share them with your chain governance authority");
    _x ←! act (eprint "if you wish to be included as a permissioned candidate.");
    return_ok tt
  else
    _x ←! act (eprint "Refusing to overwrite keys file - skipping");
    return_ok tt.

Definition run_generate_network_key (config : GenerateKeysConfig) : stateful W string () :=
  _x ←! run_command (node_executable config +:+ " key generate-node-key --base-path " +:+ substrate_node_base_path config);
  return_ok tt.
Definition decode_network_key (key_str : string) : result string bytes :=
  slice ← ok_or (hex_decode (str_of key_str)) "Invalid hex";
  if seed_slice_is_valid slice then Ok slice else Err "Invalid ed25519 bytes".
Definition generate_network_key (config : GenerateKeysConfig) : stateful W string () :=
  content ←! act (read_file (config_network_key_path config));
  match option_map decode_network_key content with
  | Some (Ok _) =>
      _x ←! act (eprint "🔑 A valid network key is already present in the keystore, skipping generation");
      return_ok tt
  | None =>
      _x ←! act (eprint "⚙️ Generating network key");
      run_generate_network_key config
  | Some (Err err) =>
      _x ←! act (eprint ("⚠️ Network key in keystore is invalid (" +:+ err +:+ "), wizard will regenerate it"));
      _x ←! act (eprint "⚙️ Regenerating the network key");
      _x ←! delete_file (config_network_key_path config);
      run_generate_network_key config
  end.
Definition verify_executable (config : GenerateKeysConfig) : stateful W string () :=
  exists_ ←! act (file_exists (node_executable config));
  if exists_ : bool then return_ok tt
  else return_err ("Partner Chains Node executable file (" +:+ node_executable config +:+ ") is missing").
Definition generate_keys_run : stateful W string () :=
  _x ←! act (eprint "This 🧙 wizard will generate the following keys and save them to your node's keystore:");
  _x ←! act (eprint "→  an ECDSA Cross-chain key");
  _x ←! act (eprint "→  an ED25519 Grandpa key");
  _x ←! act (eprint "→  an SR25519 Aura key");
  _x ←! act (eprint "It will also generate a network key for your node if needed.");
  _x ←! act enewline;
  _x ←! act set_dummy_env_vars;
  config ←! act GenerateKeysConfig_load;
  _x ←! act enewline;
  _x ←! generate_spo_keys config;
  _x ←! act enewline;
  _x ←! generate_network_key config;
  _x ←! act enewline;
  _x ←! act (eprint "🚀 All done!");
  return_ok tt.
End GenerateKeys.

(** ** Permissioned candidates *)
Record ParsedPermissionedCandidatesKeys := mkParsed { p_sidechain : bytes; p_aura : bytes; p_grandpa : bytes }.
#[export] Instance ParsedPermissionedCandidatesKeys_eq_dec : EqDecision ParsedPermissionedCandidatesKeys.
Proof. solve_decision. Defined.
Section PermissionedKeys.
Context `{Hex, HexCodec}.
Definition keys_display (k : PermissionedCandidateKeys) : string :=
  "Partner Chains Key: " +:+ pck_sidechain_pub_key k +:+ ", AURA: " +:+ pck_aura_pub_key k +:+ ", GRANDPA: " +:+ pck_grandpa_pub_key k.
Definition keys_of_parsed (k : ParsedPermissionedCandidatesKeys) : PermissionedCandidateKeys :=
  mkPermissionedCandidateKeys (of_str (to_hex (p_sidechain k))) (of_str (to_hex (p_aura k))) (of_str (to_hex (p_grandpa k))).
Definition parse_public (n : nat) (value : string) : option bytes :=
  bytes ← ok (from_hex (str_of value)); to_array n bytes.
Definition parsed_try_from (value : PermissionedCandidateKeys) : result string ParsedPermissionedCandidatesKeys :=
  sidechain ← ok_or (parse_public 33 (pck_sidechain_pub_key value)) (pck_sidechain_pub_key value +:+ " is invalid ECDSA public key");
  aura ← ok_or (parse_public 32 (pck_aura_pub_key value)) (pck_aura_pub_key value +:+ " is invalid sr25519 public key");
  grandpa ← ok_or (parse_public 32 (pck_grandpa_pub_key value)) (pck_grandpa_pub_key value +:+ " is invalid Ed25519 public key");
  Ok (mkParsed sidechain aura grandpa).
Definition to_smart_contracts_args_triple (self : ParsedPermissionedCandidatesKeys) : string :=
  of_str (hex_encode (p_sidechain self)) +:+ ":" +:+ of_str (hex_encode (p_aura self)) +:+ ":" +:+ of_str (hex_encode (p_grandpa self)).
(** The derived [Ord]: the members in order. *)
Definition parsed_leb (a b : ParsedPermissionedCandidatesKeys) : bool :=
  if decide (p_sidechain a = p_sidechain b) then
    if decide (p_aura a = p_aura b) then bytes_leb (p_grandpa a) (p_grandpa b) else bytes_leb (p_aura a) (p_aura b)
  else bytes_leb (p_sidechain a) (p_sidechain b).
End PermissionedKeys.

(** ** Chain specification *)
(** [Value::pointer] and [pointer_mut]: the tokens between slashes; these paths have no
    escapes. *)
Definition pointer_tokens (pointer : string) : list string := map of_str (drop 1 (split_on SLASH (str_of pointer))).
Definition parse_index (s : string) : option nat :=
  match str_of s with
  | c :: rest =>
      if bool_decide (c = PLUS) || (bool_decide (c = chr 48) && negb (bool_decide (rest = []))) then None
      else Z.to_nat <$> ok (int_from_str false 0 (max_value 64) (c :: rest))
  | [] => None
  end.
Fixpoint pointer_get (tokens : list string) (v : JValue) : option JValue :=
  match tokens with
  | [] => Some v
  | token :: tokens =>
      match v with
      | JObject map => child ← jget token map; pointer_get tokens child
      | JArray vs => i ← parse_index token; child ← vs !! i; pointer_get tokens child
      | _ => None
      end
  end.
(** Replaces the value of a key that is present. *)
Fixpoint jreplace (key : string) (v : JValue) (map : list (string * JValue)) : list (string * JValue) :=
  match map with
  | [] => []
  | (k, x) :: map' => if decide (k = key) then (k, v) :: map' else (k, x) :: jreplace key v map'
  end.
Fixpoint pointer_set (tokens : list string) (value v : JValue) : option JValue :=
  match tokens with
  | [] => Some value
  | token :: tokens =>
      match v with
      | JObject map => child ← jget token map; child ← pointer_set tokens value child; Some (JObject (jreplace token child map))
      | JArray vs => i ← parse_index token; child ← vs !! i; child ← pointer_set tokens value child; Some (JArray (<[i := child]> vs))
      | _ => None
      end
  end.

Definition SESSION_INITIAL_VALIDATORS_PATH : string := "/genesis/runtimeGenesis/config/session/initialValidators".
Definition SESSION_VALIDATOR_MANAGEMENT_INITIAL_AUTHORITIES_PATH : string :=
  "/genesis/runtimeGenesis/config/sessionCommitteeManagement/initialAuthorities".
Definition update_field (chain_spec : JValue) (field_name : string) (value : JValue) : result string JValue :=
  ok_or (pointer_set (pointer_tokens field_name) value chain_spec)
    ("Internal error: Could not find " +:+ field_name +:+
     " in chain spec file! Possibly this wizard does not support the current chain spec version.").

Record CreateChainSpecConfig := mkCreateChainSpecConfig {
  ccs_genesis_utxo : UtxoId;
  initial_permissioned_candidates_raw : list PermissionedCandidateKeys;
  initial_permissioned_candidates_parsed : list ParsedPermissionedCandidatesKeys;
  ccs_committee_candidate_address : string;
  ccs_d_parameter_policy_id : string;
  ccs_permissioned_candidates_policy_id : string;
  ccs_native_token_policy : string;
  ccs_native_token_asset_name : string;
  ccs_illiquid_supply_address : string
}.
Section CreateChainSpec.
Context `{F64, Hex, HexCodec, SerdeJson, ChainSpecJson, Colorize} {W : Type} `{!IOContext W}.

Definition load_config_field {T} (field : ConfigFieldDefinition T) : stateful W string T :=
  value ←! act (load_from_file field);
  ok_or_else value (_x ←# eprint ("The '" +:+ config_file field +:+ "' configuration file is missing or invalid.
If you are the governance authority, please make sure you have run the `prepare-configuration` command to generate the chain configuration file.
If you are a validator, you can obtain the chain configuration file from the governance authority.");
    pure ("failed to read '" +:+ String.concat "." (path field) +:+ "'")).
Definition CreateChainSpecConfig_load : stateful W string CreateChainSpecConfig :=
  raw ←! load_config_field INITIAL_PERMISSIONED_CANDIDATES;
  parsed ←! stateless (lift (collect_results parsed_try_from raw));
  genesis_utxo ←! load_config_field GENESIS_UTXO;
  committee_candidate_address ←! load_config_field COMMITTEE_CANDIDATES_ADDRESS;
  d_parameter_policy_id ←! load_config_field D_PARAMETER_POLICY_ID;
  permissioned_candidates_policy_id ←! load_config_field PERMISSIONED_CANDIDATES_POLICY_ID;
  native_token_policy ←! load_config_field NATIVE_TOKEN_POLICY;
  native_token_asset_name ←! load_config_field NATIVE_TOKEN_ASSET_NAME;
  illiquid_supply_address ←! load_config_field ILLIQUID_SUPPLY_ADDRESS;
  return_ok (mkCreateChainSpecConfig genesis_utxo raw parsed committee_candidate_address d_parameter_policy_id
    permissioned_candidates_policy_id native_token_policy native_token_asset_name illiquid_supply_address).

(** [for x in l], for actions. *)
Fixpoint for_each {A} (f : A -> action W ()) (l : list A) : action W () :=
  match l with [] => pure tt | x :: l' => _x ←# f x; for_each f l' end.
(** The text of the example of candidates is an argument. *)
Definition print_config (candidates_example : string) (config : CreateChainSpecConfig) : action W () :=
  _x ←# print "Chain parameters:";
  _x ←# print ("- Genesis UTXO: " +:+ utxo_text (ccs_genesis_utxo config));
  _x ←# print "SessionValidatorManagement Main Chain Configuration:";
  _x ←# print ("- committee_candidate_address: " +:+ ccs_committee_candidate_address config);
  _x ←# print ("- d_parameter_policy_id: " +:+ ccs_d_parameter_policy_id config);
  _x ←# print ("- permissioned_candidates_policy_id: " +:+ ccs_permissioned_candidates_policy_id config);
  _x ←# print "Native Token Management Configuration (unused if empty):";
  _x ←# print ("- asset name: " +:+ ccs_native_token_asset_name config);
  _x ←# print ("- asset policy ID: " +:+ ccs_native_token_policy config);
  _x ←# print ("- illiquid supply address: " +:+ ccs_illiquid_supply_address config);
  match initial_permissioned_candidates_raw config with
  | [] =>
      _x ←# print (red "WARNING: The list of initial permissioned candidates is empty. Generated chain spec will not allow the chain to start.");
      _x ←# print (red ("Update 'initial_permissioned_candidates' field of " +:+ config_file INITIAL_PERMISSIONED_CANDIDATES +:+
        " file with keys of initial committee."));
      print (yellow candidates_example)
  | candidates =>
      _x ←# print "Initial permissioned candidates:";
      for_each (fun candidate => print ("- " +:+ keys_display candidate)) candidates
  end.
Definition run_build_spec_command (config : CreateChainSpecConfig) : stateful W string string :=
  node_executable ←! act (save_if_empty NODE_EXECUTABLE NODE_EXECUTABLE_DEFAULT);
  _x ←! act (set_env_var "GENESIS_UTXO" (utxo_text (ccs_genesis_utxo config)));
  _x ←! act (set_env_var "COMMITTEE_CANDIDATE_ADDRESS" (ccs_committee_candidate_address config));
  _x ←! act (set_env_var "D_PARAMETER_POLICY_ID" (ccs_d_parameter_policy_id config));
  _x ←! act (set_env_var "PERMISSIONED_CANDIDATES_POLICY_ID" (ccs_permissioned_candidates_policy_id config));
  _x ←! act (set_env_var "NATIVE_TOKEN_POLICY_ID" (ccs_native_token_policy config));
  _x ←! act (set_env_var "NATIVE_TOKEN_ASSET_NAME" (ccs_native_token_asset_name config));
  _x ←! act (set_env_var "ILLIQUID_SUPPLY_VALIDATOR_ADDRESS" (ccs_illiquid_supply_address config));
  run_command (node_executable +:+ " build-spec --disable-default-bootnode > chain-spec.json").

Definition initial_validator (c : ParsedPermissionedCandidatesKeys) : JValue :=
  JArray [account_to_value (into_account (p_sidechain c)); session_keys_to_value (p_aura c) (p_grandpa c)].
Definition initial_authority (c : ParsedPermissionedCandidatesKeys) : JValue :=
  JArray [ecdsa_public_to_value (p_sidechain c); session_keys_to_value (p_aura c) (p_grandpa c)].
Definition update_chain_spec_authorities (config : CreateChainSpecConfig) : stateful W string () :=
  json ←! act (read_file CHAIN_SPEC_PATH);
  json ←! stateless (lift (ok_or json "Could not read chain-spec.json file. File is expected to exists."));
  chain_spec ←! stateless (lift (ok_or (from_json json) "invalid JSON"));
  let initial_validators := JArray (map initial_validator (initial_permissioned_candidates_parsed config)) in
  chain_spec ←! stateless (lift (update_field chain_spec SESSION_INITIAL_VALIDATORS_PATH initial_validators));
  let initial_authorities := JArray (map initial_authority (initial_permissioned_candidates_parsed config)) in
  chain_spec ←! stateless (lift (update_field chain_spec SESSION_VALIDATOR_MANAGEMENT_INITIAL_AUTHORITIES_PATH initial_authorities));
  _x ←! act (write_file CHAIN_SPEC_PATH (to_string_pretty chain_spec));
  return_ok tt.
Definition create_chain_spec_run (candidates_example : string) : stateful W string () :=
  config ←! CreateChainSpecConfig_load;
  _x ←! act (print "This wizard will create a chain spec JSON file according to the provided configuration, using WASM runtime code from the compiled node binary.");
  _x ←! act (print_config candidates_example config);
  continue ←! act (prompt_yes_no "Do you want to continue?" true);
  if continue : bool then
    _x ←! run_build_spec_command config;
    _x ←! update_chain_spec_authorities config;
    _x ←! act (print "chain-spec.json file has been created.");
    _x ←! act (print "If you are the governance authority, you can distribute it to the validators.");
    _x ←! act (print "Run 'setup-main-chain-state' command to set D-parameter and permissioned candidates on Cardano.");
    return_ok tt
  else
    _x ←! act (print "Aborted.");
    return_ok tt.
End CreateChainSpec.

(** ** Main chain state *)
Record DParameterOutput := mkDParameterOutput { o_num_permissioned_candidates : Z; o_num_registered_candidates : Z }.
Record CandidateOutput := mkCandidateOutput { o_keys : PermissionedCandidateKeys; o_is_valid : bool }.
Record AriadneParametersOutput := mkAriadneParametersOutput {
  o_d_parameter : DParameterOutput;
  o_permissioned_candidates : list CandidateOutput
}.
Definition bool_from_value (v : JValue) : option bool := match v with JBool b => Some b | _ => None end.
Definition string_member (name : string) (v : JValue) : option string := m ← json_get name v; string_from_value m.
Definition u64_member (name : string) (v : JValue) : option Z := m ← json_get name v; uint_from_value 64 m.
(** The derived [Deserialize], with names in camel case. *)
Definition CandidateOutput_from_value (v : JValue) : option CandidateOutput :=
  sidechain_public_key ← string_member "sidechainPublicKey" v;
  aura_public_key ← string_member "auraPublicKey" v;
  grandpa_public_key ← string_member "grandpaPublicKey" v;
  is_valid ← json_get "isValid" v; is_valid ← bool_from_value is_valid;
  Some (mkCandidateOutput (mkPermissionedCandidateKeys sidechain_public_key aura_public_key grandpa_public_key) is_valid).
Definition DParameterOutput_from_value (v : JValue) : option DParameterOutput :=
  p ← u64_member "numPermissionedCandidates" v; r ← u64_member "numRegisteredCandidates" v; Some (mkDParameterOutput p r).
Definition AriadneParametersOutput_from_value (v : JValue) : option AriadneParametersOutput :=
  d ← json_get "dParameter" v; d ← DParameterOutput_from_value d;
  cs ← json_get "permissionedCandidates" v; cs ← list_from_value CandidateOutput_from_value cs;
  Some (mkAriadneParametersOutput d cs).

Inductive InsertOrUpdate := Insert | Update.
Definition d_parameter_command (self : InsertOrUpdate) : string :=
  match self with Insert => "insert-d-parameter" | Update => "update-d-parameter" end.
Definition permissioned_candidates_command (self : InsertOrUpdate) : string := "update-permissioned-candidates --remove-all-candidates".
(** [SortedPermissionedCandidates::new]. *)
Definition sorted_candidates (keys : list ParsedPermissionedCandidatesKeys) : list ParsedPermissionedCandidatesKeys :=
  sort_by parsed_leb keys.
(** [str::contains]. *)
Definition contains (pattern s : string) : bool := match String.index 0 pattern s with Some _ => true | None => false end.

Section SetupMainChainState.
Context `{F64, Hex, HexCodec, SerdeJson} {W : Type} `{!IOContext W}.

Definition load_setup_field {T} (field : ConfigFieldDefinition T) : stateful W string T :=
  value ←! act (load_from_file field);
  ok_or_else value (_x ←# eprint ("The '" +:+ CHAIN_CONFIG_FILE_PATH +:+ "' configuration file is missing or invalid.
It should have been created and updated with initial permissioned candidates before running this wizard.");
    pure ("failed to read '" +:+ String.concat "." (path field) +:+ "'")).
Definition initial_permissioned_candidates_from_chain_config : stateful W string (list ParsedPermissionedCandidatesKeys) :=
  candidates ←! load_setup_field INITIAL_PERMISSIONED_CANDIDATES;
  candidates ←! stateless (lift (collect_results parsed_try_from candidates));
  return_ok (sorted_candidates candidates).
Definition epoch_of_chain_config (chain_config : ChainConfig) : stateful W string McEpochNumber :=
  now ←! act current_timestamp;
  map_err_stateful (fun _ => "cannot derive the epoch")
    (stateless (timestamp_to_mainchain_epoch (MainchainEpochConfig_from (cc_cardano chain_config)) now)).
(** What the wizard makes of the output of the command. *)
Definition parse_ariadne_parameters (output : string)
    : result string (DParameterOutput * list ParsedPermissionedCandidatesKeys) :=
  json ← ok_or (from_json output) "invalid JSON";
  result ← ok_or (AriadneParametersOutput_from_value json) "invalid Ariadne parameters";
  valid ← map_err (fun e => "Internal error. Could not parse candidate keys from the main chain. " +:+ e +:+ ")")
    (collect_results parsed_try_from (map o_keys (List.filter o_is_valid (o_permissioned_candidates result))));
  Ok (o_d_parameter result, sorted_candidates valid).
Definition get_ariadne_parameters (chain_config : ChainConfig)
    : stateful W string (option (DParameterOutput * list ParsedPermissionedCandidatesKeys)) :=
  _x ←! act (print "Will read the current D-Parameter and Permissioned Candidates from the main chain, using 'partner-chains-node ariadne-parameters' command.");
  postgres_connection_string ←! act (prompt_with_default_from_file_and_save POSTGRES_CONNECTION_STRING);
  _x ←! act (set_main_chain_follower_env (cc_cardano chain_config) postgres_connection_string);
  executable ←! prompt_with_default_from_file_parse_and_save NODE_EXECUTABLE string_text;
  epoch ←! epoch_of_chain_config chain_config;
  let epoch := epoch +[32] 2 in
  temp_dir_path ←! act new_tmp_dir;
  output ←! run_command (executable +:+ " ariadne-parameters --base-path " +:+ temp_dir_path +:+
    " --chain chain-spec.json --mc-epoch-number " +:+ dec_text epoch);
  _x ←! act (print output);
  if contains "NotFound" output then
    _x ←! act (print "Ariadne parameters not found.");
    return_ok None
  else
    result ←! stateless (lift (parse_ariadne_parameters output));
    return_ok (Some result).

Definition print_on_chain_and_config_permissioned_candidates (on_chain config : list ParsedPermissionedCandidatesKeys) : action W () :=
  _x ←# print ("Permissioned candidates in the " +:+ CHAIN_CONFIG_FILE_PATH +:+
    " file does not match the most recent on-chain initial permissioned candidates.");
  _x ←# print "The most recent on-chain initial permissioned candidates are:";
  _x ←# for_each (fun c => print (keys_display (keys_of_parsed c))) on_chain;
  _x ←# print "The permissioned candidates in the configuration file are:";
  for_each (fun c => print (keys_display (keys_of_parsed c))) config.
Definition candidates_command (command : string) (network : NetworkType) (candidates : list ParsedPermissionedCandidatesKeys)
    (genesis_utxo : UtxoId) (resources : PcContractsCliResources) (payment_signing_key_path : string) : string :=
  let candidate_keys := String.concat " " (map (fun c => "--add-candidate " +:+ to_smart_contracts_args_triple c) candidates) in
  PC_CONTRACTS_CLI_PATH +:+ " " +:+ command +:+ " --network " +:+ NetworkType_display network +:+ " " +:+ candidate_keys +:+ " " +:+
  sidechain_params_arguments genesis_utxo +:+ " " +:+ runtime_config_arguments resources payment_signing_key_path.
Definition set_candidates_on_main_chain (candidates : list ParsedPermissionedCandidatesKeys) (genesis_utxo : UtxoId)
    (insert_or_update : InsertOrUpdate) : stateful W string () :=
  update ←! act (prompt_yes_no "Do you want to set/update the permissioned candidates on the main chain with values from configuration file?" false);
  if update : bool then
    pc_contracts_cli_resources ←! establish_pc_contracts_cli_configuration;
    payment_signing_key_path ←! act (prompt_with_default_from_file_and_save CARDANO_PAYMENT_SIGNING_KEY_FILE);
    cardano_network ←! get_cardano_network_from_file;
    _x ←! map_err_stateful (fun _ => "Permissioned candidates update failed")
      (run_command (candidates_command (permissioned_candidates_command insert_or_update) cardano_network candidates genesis_utxo
         pc_contracts_cli_resources payment_signing_key_path));
    _x ←! act (print "Permissioned candidates updated. The change will be effective in two main chain epochs.");
    return_ok tt
  else return_ok tt.
Definition set_d_parameter_command (command : string) (network : NetworkType) (p r : Z) (genesis_utxo : UtxoId)
    (resources : PcContractsCliResources) (payment_signing_key_path : string) : string :=
  PC_CONTRACTS_CLI_PATH +:+ " " +:+ command +:+ " --network " +:+ NetworkType_display network +:+
  " --d-parameter-permissioned-candidates-count " +:+ dec_text p +:+ " --d-parameter-registered-candidates-count " +:+ dec_text r +:+ " " +:+
  sidechain_params_arguments genesis_utxo +:+ " " +:+ runtime_config_arguments resources payment_signing_key_path.
Definition set_d_parameter_on_main_chain (default_d_parameter : DParameterOutput) (genesis_utxo : UtxoId) (insert : InsertOrUpdate)
    : stateful W string () :=
  update ←! act (prompt_yes_no "Do you want to set/update the D-parameter on the main chain?" false);
  if update : bool then
    p ←! act (prompt "Enter P, the number of permissioned candidates seats, as a non-negative integer."
                (Some (dec_text (o_num_permissioned_candidates default_d_parameter))));
    p ←! stateless (lift (uint_from_str 64 p));
    r ←! act (prompt "Enter R, the number of registered candidates seats, as a non-negative integer."
                (Some (dec_text (o_num_registered_candidates default_d_parameter))));
    r ←! stateless (lift (uint_from_str 64 r));
    pc_contracts_cli_resources ←! establish_pc_contracts_cli_configuration;
    payment_signing_key_path ←! act (prompt_with_default_from_file_and_save CARDANO_PAYMENT_SIGNING_KEY_FILE);
    cardano_network ←! get_cardano_network_from_file;
    _x ←! map_err_stateful (fun _ => "Setting D-parameter failed")
      (run_command (set_d_parameter_command (d_parameter_command insert) cardano_network p r genesis_utxo pc_contracts_cli_resources
         payment_signing_key_path));
    _x ←! act (print ("D-parameter updated to (" +:+ dec_text p +:+ ", " +:+ dec_text r +:+
      "). The change will be effective in two main chain epochs."));
    return_ok tt
  else return_ok tt.

Definition setup_main_chain_state_run : stateful W string () :=
  chain_config ←! load_chain_config;
  _x ←! act (print "This wizard will set or update D-Parameter and Permissioned Candidates on the main chain. Setting either of these costs ADA!");
  present ←! act (file_exists PC_CONTRACTS_CLI_PATH);
  if present : bool then
    config_initial_authorities ←! initial_permissioned_candidates_from_chain_config;
    ariadne_parameters ←! get_ariadne_parameters chain_config;
    _x ←! match ariadne_parameters with
      | Some (d_parameter, permissioned_candidates) =>
          _x ←! (if decide (permissioned_candidates = config_initial_authorities) then
                   act (print ("Permissioned candidates in the " +:+ CHAIN_CONFIG_FILE_PATH +:+
                     " file match the most recent on-chain initial permissioned candidates."))
                 else
                   _x ←! act (print_on_chain_and_config_permissioned_candidates permissioned_candidates config_initial_authorities);
                   set_candidates_on_main_chain config_initial_authorities (cc_genesis_utxo chain_config) Update);
          _x ←! act (print ("D-Parameter on the main chain is: (P=" +:+ dec_text (o_num_permissioned_candidates d_parameter) +:+
            ", R=" +:+ dec_text (o_num_registered_candidates d_parameter) +:+ ")"));
          set_d_parameter_on_main_chain d_parameter (cc_genesis_utxo chain_config) Update
      | None =>
          _x ←! set_candidates_on_main_chain config_initial_authorities (cc_genesis_utxo chain_config) Insert;
          set_d_parameter_on_main_chain (mkDParameterOutput 0 0) (cc_genesis_utxo chain_config) Insert
      end;
    _x ←! act (print "Done. Main chain state is set. Please remember that any changes can be observed immediately, but from the Partner Chain point of view they will be effective in two main chain epochs.");
    return_ok tt
  else return_err ("Partner Chains Smart Contracts executable file (" +:+ PC_CONTRACTS_CLI_PATH +:+ ") is missing").
End SetupMainChainState.

(** ** Starting the node *)
Record StartNodeConfig := mkStartNodeConfig { sn_base_path : string; sn_node_executable : string }.
Record StartNodeChainConfig `{F64} := mkStartNodeChainConfig { sn_cardano : CardanoParameters; sn_bootnodes : list string }.
Arguments mkStartNodeChainConfig {_}.
Section StartNode.
Context `{F64, Hex, HexCodec, SerdeJson, SigningKeys, ChainSpecJson} {W : Type} `{!IOContext W}.

Definition StartNodeConfig_load : action W StartNodeConfig :=
  substrate_node_base_path ←# load_or_prompt_and_save SUBSTRATE_NODE_DATA_BASE_PATH;
  node_executable ←# load_or_prompt_and_save NODE_EXECUTABLE;
  pure (mkStartNodeConfig substrate_node_base_path node_executable).
Definition start_keystore_path (self : StartNodeConfig) : string := keystore_path (sn_base_path self) DEFAULT_CHAIN_NAME.
Definition verify_config (config : StartNodeConfig) : stateful W string () :=
  exists_ ←! act (file_exists (sn_node_executable config));
  if exists_ : bool then return_ok tt
  else return_err ("Partner Chains Node executable file (" +:+ sn_node_executable config +:+ ") is missing").

(** The derived [Deserialize]. *)
Definition StartNodeChainConfig_from_value (v : JValue) : option StartNodeChainConfig :=
  security_parameter ← extract_from_json_object CARDANO_SECURITY_PARAMETER v;
  active_slots_coeff ← extract_from_json_object CARDANO_ACTIVE_SLOTS_COEFF v;
  first_epoch_number ← extract_from_json_object CARDANO_FIRST_EPOCH_NUMBER v;
  first_slot_number ← extract_from_json_object CARDANO_FIRST_SLOT_NUMBER v;
  epoch_duration_millis ← extract_from_json_object CARDANO_EPOCH_DURATION_MILLIS v;
  first_epoch_timestamp_millis ← extract_from_json_object CARDANO_FIRST_EPOCH_TIMESTAMP_MILLIS v;
  network ← extract_from_json_object CARDANO_NETWORK v;
  bootnodes ← extract_from_json_object BOOTNODES v;
  Some (mkStartNodeChainConfig (mkCardanoParameters security_parameter active_slots_coeff first_epoch_number first_slot_number
    epoch_duration_millis first_epoch_timestamp_millis network) bootnodes).
Definition load_start_chain_config : action W (option StartNodeChainConfig) :=
  chain_config_file ←# read_file CHAIN_CONFIG_FILE_PATH;
  match chain_config_file with
  | None =>
      _x ←# eprint ("⚠️ Chain config file " +:+ CHAIN_CONFIG_FILE_PATH +:+ " does not exists. Run prepare-configuration wizard first.");
      pure None
  | Some chain_config_file =>
      match json ← from_json chain_config_file; StartNodeChainConfig_from_value json with
      | Some chain_config => pure (Some chain_config)
      | None =>
          _x ←# eprint ("⚠️ Chain config file " +:+ CHAIN_CONFIG_FILE_PATH +:+
            " is invalid. Run prepare-configuration wizard or fix errors manually.");
          pure None
      end
  end.

Definition prompt_values_fine (config : StartNodeConfig) (chain_config : StartNodeChainConfig) (db_connection_string beneficiary : string)
    : action W bool :=
  let cardano := sn_cardano chain_config in
  _x ←# eprint "The following values will be used to run the node:";
  _x ←# eprint ("    executable = " +:+ sn_node_executable config);
  _x ←# eprint ("    base path  = " +:+ sn_base_path config);
  _x ←# eprint ("    chain spec = " +:+ CHAIN_SPEC_PATH);
  _x ←# eprint ("    bootnodes  = [" +:+ String.concat ", " (sn_bootnodes chain_config) +:+ "]");
  _x ←# eprint "    environment:";
  _x ←# eprint "        BLOCK_STABILITY_MARGIN             = 0";
  _x ←# eprint ("        CARDANO_SECURITY_PARAMETER         = " +:+ dec_text (cp_security_parameter cardano));
  _x ←# eprint ("        CARDANO_ACTIVE_SLOTS_COEFF         = " +:+ f64_display (cp_active_slots_coeff cardano));
  _x ←# eprint ("        FIRST_EPOCH_TIMESTAMP_MILLIS       = " +:+ dec_text (cp_first_epoch_timestamp_millis cardano));
  _x ←# eprint ("        EPOCH_DURATION_MILLIS              = " +:+ dec_text (cp_epoch_duration_millis cardano));
  _x ←# eprint ("        FIRST_EPOCH_NUMBER                 = " +:+ dec_text (cp_first_epoch_number cardano));
  _x ←# eprint ("        FIRST_SLOT_NUMBER                  = " +:+ dec_text (cp_first_slot_number cardano));
  _x ←# eprint ("        DB_SYNC_POSTGRES_CONNECTION_STRING = " +:+ db_connection_string);
  _x ←# eprint ("        SIDECHAIN_BLOCK_BENEFICIARY        = " +:+ beneficiary);
  prompt_yes_no "Proceed?" true.

Definition check_chain_spec : action W bool :=
  exists_ ←# file_exists CHAIN_SPEC_PATH;
  if exists_ : bool then pure true
  else
    _x ←# eprint ("Chain spec file " +:+ CHAIN_SPEC_PATH +:+ " missing.");
    _x ←# eprint "Please run the create-chain-spec wizard first or you can get it from your chain governance.";
    pure false.
Definition key_present (key : KeyDefinition) (existing_keys : list string) : action W bool :=
  match find_existing_key existing_keys key with
  | None =>
      _x ←# eprint ("⚠️ " +:+ kd_name key +:+ " key is missing from the keystore. Please run generate-keys wizard first.");
      pure false
  | Some _ => pure true
  end.
(** [a && b] on actions. *)
Definition and_then (a b : action W bool) : action W bool := x ←# a; if x : bool then b else pure false.
Definition check_keystore (config : StartNodeConfig) : stateful W string bool :=
  existing_keys ←! list_directory (start_keystore_path config);
  let existing_keys := default [] existing_keys in
  act (and_then (key_present AURA existing_keys)
        (and_then (key_present GRANDPA existing_keys) (key_present CROSS_CHAIN existing_keys))).

Definition account_id_hex_from_ecdsa_key (key : string) : result string string :=
  pk ← public_from_str (trim_0x key);
  Ok (of_str (hex_encode (into_account (public_serialize pk)))).
Definition block_beneficiary_from_cross_chain_key (config : StartNodeConfig) : stateful W string string :=
  existing_keys ←! list_directory (start_keystore_path config);
  let existing_keys := default [] existing_keys in
  key ←! stateless (lift (ok_or (find_existing_key existing_keys CROSS_CHAIN)
    ("⚠️ " +:+ kd_name CROSS_CHAIN +:+ " key is missing from the keystore. Please run generate-keys wizard first.")));
  stateless (lift (account_id_hex_from_ecdsa_key key)).

Definition environment_prefix (cardano : CardanoParameters) (db_connection_string beneficiary : string) : string :=
  "CARDANO_SECURITY_PARAMETER='" +:+ dec_text (cp_security_parameter cardano) +:+ "' \
         CARDANO_ACTIVE_SLOTS_COEFF='" +:+ f64_display (cp_active_slots_coeff cardano) +:+ "' \
         DB_SYNC_POSTGRES_CONNECTION_STRING='" +:+ db_connection_string +:+ "' \
         MC__FIRST_EPOCH_TIMESTAMP_MILLIS='" +:+ dec_text (cp_first_epoch_timestamp_millis cardano) +:+ "' \
         MC__EPOCH_DURATION_MILLIS='" +:+ dec_text (cp_epoch_duration_millis cardano) +:+ "' \
         MC__FIRST_EPOCH_NUMBER='" +:+ dec_text (cp_first_epoch_number cardano) +:+ "' \
         MC__FIRST_SLOT_NUMBER='" +:+ dec_text (cp_first_slot_number cardano) +:+ "' \
         BLOCK_STABILITY_MARGIN='0' \
		 SIDECHAIN_BLOCK_BENEFICIARY='" +:+ beneficiary +:+ "' \
".
(** The default port is a constant of the program that parses. *)
Definition start_node (config : StartNodeConfig) (chain_config : StartNodeChainConfig) (db_connection_string beneficiary : string)
    : stateful W string () :=
  let bootnodes := String.concat " " (map (fun bootnode => "--bootnodes " +:+ bootnode) (sn_bootnodes chain_config)) in
  default_port ←! stateless (run (d ← expect (default_text NODE_P2P_PORT); expect (ok (uint_from_str 16 d))));
  ws_port ←! act (save_if_empty NODE_P2P_PORT default_port);
  _x ←! run_command (environment_prefix (sn_cardano chain_config) db_connection_string beneficiary +:+ " " +:+
    sn_node_executable config +:+ " --validator --chain " +:+ CHAIN_SPEC_PATH +:+ " --base-path " +:+ sn_base_path config +:+
    " --port " +:+ dec_text ws_port +:+ " " +:+ bootnodes);
  return_ok tt.

Definition start_node_run (silent : bool) : stateful W string () :=
  config ←! act StartNodeConfig_load;
  _x ←! verify_config config;
  keystore_ok ←! check_keystore config;
  spec_ok ←! (if keystore_ok : bool then act check_chain_spec else return_ok false);
  if spec_ok : bool then
    db_connection_string ←! act (load_or_prompt_and_save POSTGRES_CONNECTION_STRING);
    chain_config ←! act load_start_chain_config;
    match chain_config with
    | None => return_ok tt
    | Some chain_config =>
        from_key ←! block_beneficiary_from_cross_chain_key config;
        beneficiary ←! act (save_if_empty SIDECHAIN_BLOCK_BENEFICIARY from_key);
        fine ←! (if silent then return_ok true else act (prompt_values_fine config chain_config db_connection_string beneficiary));
        if fine : bool then start_node config chain_config db_connection_string beneficiary
        else
          _x ←! act (eprint "Aborting. Edit configuration files and rerun the command.");
          return_ok tt
    end
  else return_ok tt.
End StartNode.

(** ** The program *)
Section Main.
Context `{F64, Hex, HexCodec, SerdeJson, NetworkKeys, Colorize, Libp2p, ChainSpecJson, CslLib, Blake2bHash, Minicbor, SigningKeys} {W : Type} `{!IOContext W}.
Inductive Command :=
| GenerateKeys | PrepareConfiguration | CreateChainSpec | SetupMainChainState | StartNode (silent : bool)
| Register1 | Register2 (cmd : Register2Cmd) | Register3 (cmd : Register3Cmd) | Deregister.
(** With the texts that two commands print. *)
Definition main (outro candidates_example : string) (args : Command) : stateful W string () :=
  match args with
  | GenerateKeys => generate_keys_run
  | PrepareConfiguration => prepare_configuration_run outro
  | CreateChainSpec => create_chain_spec_run candidates_example
  | SetupMainChainState => setup_main_chain_state_run
  | StartNode silent => start_node_run silent
  | Register1 => register1_run
  | Register2 cmd => register2_run cmd
  | Register3 cmd => register3_run cmd
  | Deregister => deregister_run
  end.
End Main.

(** ** Pointers *)
Section Pointers.
Lemma jget_jreplace key v map : is_Some (jget key map) -> jget key (jreplace key v map) = Some v.
Proof.
  induction map as [|[k x] map IH]; cbn [jget jreplace]; [by intros [? ?]|].
  destruct (decide (k = key)) as [->|Hne]; cbn [jget]; [by rewrite decide_True|]. rewrite decide_False by done. apply IH.
Qed.
Lemma jget_jreplace_ne key key' v map : key' <> key -> jget key' (jreplace key v map) = jget key' map.
Proof.
  intros Hne. induction map as [|[k x] map IH]; cbn [jget jreplace]; [done|].
  destruct (decide (k = key)) as [->|Hk]; cbn [jget]; [by rewrite !decide_False by done|]. by rewrite IH.
Qed.
(** Names of members, which are no indices of arrays. *)
Definition names (tokens : list string) : Prop := Forall (fun t => parse_index t = None) tokens.
Lemma pointer_set_object t tokens value v v' :
  parse_index t = None -> pointer_set (t :: tokens) value v = Some v' ->
  exists map child child', v = JObject map /\ jget t map = Some child /\ pointer_set tokens value child = Some child' /\
    v' = JObject (jreplace t child' map).
Proof.
  intros Ht. cbn [pointer_set]. destruct v as [| | | | |vs|map]; try done; [by rewrite Ht|].
  destruct (jget t map) as [child|] eqn:Ec; [|done]. cbn [mbind option_bind].
  destruct (pointer_set tokens value child) as [child'|] eqn:Es; [|done]. cbn [mbind option_bind]. intros [= <-].
  by exists map, child, child'.
Qed.
Lemma pointer_set_get tokens value v v' : names tokens -> pointer_set tokens value v = Some v' -> pointer_get tokens v' = Some value.
Proof.
  intros Hn. revert v v'. induction Hn as [|t tokens Ht Hn IH]; intros v v'; [by intros [= <-]|].
  intros (map & child & child' & -> & Hc & Hs & ->)%pointer_set_object; [|done]. cbn [pointer_get].
  rewrite jget_jreplace by done. cbn [mbind option_bind]. by eapply IH.
Qed.
Lemma pointer_set_other tokens q value v v' :
  names tokens -> diverge tokens q = true -> pointer_set tokens value v = Some v' -> pointer_get q v' = pointer_get q v.
Proof.
  intros Hn. revert q v v'. induction Hn as [|t tokens Ht Hn IH]; intros [|x q] v v'; cbn [diverge]; try done.
  intros Hd (map & child & child' & -> & Hc & Hs & ->)%pointer_set_object; [|done]. cbn [pointer_get].
  case_decide as Hx; [subst x|by rewrite jget_jreplace_ne].
  rewrite jget_jreplace, Hc by done. cbn [mbind option_bind]. by eapply IH.
Qed.
Lemma pointer_set_present tokens value v : is_Some (pointer_set tokens value v) -> is_Some (pointer_get tokens v).
Proof.
  revert v. induction tokens as [|t tokens IH]; intros v; [done|]. cbn [pointer_get pointer_set].
  destruct v as [| | | | |vs|map]; try (by intros [? ?]).
  - destruct (parse_index t) as [i|]; [|by intros [? ?]]. cbn [mbind option_bind].
    destruct (vs !! i) as [child|]; [|by intros [? ?]]. cbn [mbind option_bind]. intros [x Hs]. apply IH.
    by destruct (pointer_set tokens value child).
  - destruct (jget t map) as [child|]; [|by intros [? ?]]. cbn [mbind option_bind]. intros [x Hs]. apply IH.
    by destruct (pointer_set tokens value child).
Qed.
Lemma pointer_set_runs tokens value v : is_Some (pointer_get tokens v) -> is_Some (pointer_set tokens value v).
Proof.
  revert v. induction tokens as [|t tokens IH]; intros v; [done|]. cbn [pointer_get pointer_set].
  destruct v as [| | | | |vs|map]; try (by intros [? ?]).
  - destruct (parse_index t) as [i|]; [|by intros [? ?]]. cbn [mbind option_bind].
    destruct (vs !! i) as [child|]; [|by intros [? ?]]. cbn [mbind option_bind]. intros Hg. destruct (IH _ Hg) as [c' ->]. done.
  - destruct (jget t map) as [child|]; [|by intros [? ?]]. cbn [mbind option_bind]. intros Hg. destruct (IH _ Hg) as [c' ->]. done.
Qed.
End Pointers.

(** ** The chain specification has the initial candidates *)
Section ChainSpec.
Context `{F64, Hex, HexCodec, SerdeJsonLaws, ChainSpecJson} {W : Type} `{!IOContext W, !IOFiles, !IOFilesLaws}.
#[local] Abbreviation validators_path := (pointer_tokens SESSION_INITIAL_VALIDATORS_PATH).
#[local] Abbreviation authorities_path := (pointer_tokens SESSION_VALIDATOR_MANAGEMENT_INITIAL_AUTHORITIES_PATH).

(** When the built chain specification has the two lists of the session pallets, the
    wizard replaces both by the configured permissioned candidates and changes nothing
    else in the file; when one is missing it fails and leaves the file. *)
Theorem chain_spec_gets_candidates config spec (w : W) :
  config_value CHAIN_SPEC_PATH w = Some spec ->
  exists w' r, update_chain_spec_authorities config w = (w', Done r) /\
    if bool_decide (is_Some (pointer_get validators_path spec) /\ is_Some (pointer_get authorities_path spec)) then
      r = Ok tt /\ exists spec', config_value CHAIN_SPEC_PATH w' = Some spec' /\
        pointer_get validators_path spec' = Some (JArray (map initial_validator (initial_permissioned_candidates_parsed config))) /\
        pointer_get authorities_path spec' = Some (JArray (map initial_authority (initial_permissioned_candidates_parsed config))) /\
        forall q, diverge validators_path q = true -> diverge authorities_path q = true -> pointer_get q spec' = pointer_get q spec
    else err r <> None /\ files w' = files w.
Proof.
  intros Hspec. unfold update_chain_spec_authorities, bind_stateful, act.
  destruct (read_file_files CHAIN_SPEC_PATH w) as (w1 & -> & Hf1). unfold config_value in Hspec.
  destruct (files w !! CHAIN_SPEC_PATH) as [c|]; [|done]. cbn [mbind option_bind] in Hspec.
  unfold stateless, lift. cbn [ok_or]. rewrite Hspec. cbn [ok_or]. unfold update_field.
  assert (names validators_path /\ names authorities_path) as [Nv Na] 
    by (unfold names; split; apply (bool_decide_unpack _); vm_compute; exact I).
  destruct (pointer_set validators_path _ spec) as [spec1|] eqn:E1.
  2:{ cbn [ok_or]. rewrite bool_decide_eq_false_2; [eexists _, _; split; [reflexivity|]; by split|]. intros [Hv _].
      apply (pointer_set_runs _ (JArray (map initial_validator (initial_permissioned_candidates_parsed config)))) in Hv as [x Hx].
      congruence. }
  assert (forall q, diverge validators_path q = true -> pointer_get q spec1 = pointer_get q spec) as Ho1
    by (intros q Hq; exact (pointer_set_other _ _ _ _ _ Nv Hq E1)).
  cbn [ok_or]. destruct (pointer_set authorities_path _ spec1) as [spec2|] eqn:E2.
  2:{ cbn [ok_or]. rewrite bool_decide_eq_false_2; [eexists _, _; split; [reflexivity|]; by split|]. intros [_ Ha]. rewrite <- Ho1 in Ha by done.
      apply (pointer_set_runs _ (JArray (map initial_authority (initial_permissioned_candidates_parsed config)))) in Ha as [x Hx].
      congruence. }
  cbn [ok_or]. destruct (write_file_files CHAIN_SPEC_PATH (to_string_pretty spec2) w1) as (w2 & -> & Hf2).
  eexists _, _. split; [reflexivity|]. rewrite bool_decide_eq_true_2.
  - split; [done|]. exists spec2. split_and!.
    + unfold config_value. rewrite Hf2, lookup_insert_eq. cbn [mbind option_bind]. apply from_json_pretty.
    + rewrite (pointer_set_other authorities_path validators_path _ _ _ Na ltac:(vm_compute; reflexivity) E2). exact (pointer_set_get _ _ _ _ Nv E1).
    + exact (pointer_set_get _ _ _ _ Na E2).
    + intros q Hq1 Hq2. rewrite (pointer_set_other authorities_path _ _ _ _ Na Hq2 E2). by apply Ho1.
  - split; [exact (pointer_set_present _ _ _ (mk_is_Some _ _ E1))|]. rewrite <- Ho1 by done.
    exact (pointer_set_present _ _ _ (mk_is_Some _ _ E2)).
Qed.
End ChainSpec.

(** ** Candidates are compared as sets of keys *)
Section SortedCandidates.
Definition data_of_parsed (k : ParsedPermissionedCandidatesKeys) : PermissionedCandidateData :=
  mkPermissionedCandidateData (p_sidechain k) (p_aura k) (p_grandpa k).
Lemma parsed_leb_data a b : parsed_leb a b = candidate_leb (data_of_parsed a) (data_of_parsed b).
Proof. done. Qed.
Lemma data_of_parsed_inj a b : data_of_parsed a = data_of_parsed b -> a = b.
Proof. destruct a, b. unfold data_of_parsed. cbn. by intros [= -> -> ->]. Qed.
(** The wizard finds the configured candidates on the chain exactly when they are a
    permutation of those there. *)
Lemma sorted_candidates_eq cs cs' : sorted_candidates cs = sorted_candidates cs' <-> cs ≡ₚ cs'.
Proof.
  unfold sorted_candidates. split.
  - intros Hs. by rewrite <- (sort_by_perm parsed_leb cs), Hs, sort_by_perm.
  - intros Hp. apply (sorted_unique parsed_leb);
      [intros x y; rewrite !parsed_leb_data; intros; by apply data_of_parsed_inj, candidate_leb_antisymm|..].
    + apply sort_by_sorted; intros; rewrite ?parsed_leb_data in *; eauto using candidate_leb_total, candidate_leb_trans.
    + apply sort_by_sorted; intros; rewrite ?parsed_leb_data in *; eauto using candidate_leb_total, candidate_leb_trans.
    + by rewrite !sort_by_perm.
Qed.
End SortedCandidates.

(** ** Generated keys are read back *)
Section GeneratedKeys.
Context `{F64, Hex, HexCodec, SerdeJsonLaws} {W : Type} `{!IOContext W, !IOFiles, !IOFilesLaws}.
Lemma keys_round_trip k : keys_from_value (keys_to_value k) = Some k.
Proof.
  destruct k as [s a g]. unfold keys_from_value, keys_to_value. cbn [json_get jget].
  repeat first [rewrite decide_True by done | rewrite decide_False by done]. cbn [mbind option_bind pck_sidechain_pub_key].
  repeat (rewrite string_round_trip; cbn [mbind option_bind pck_aura_pub_key pck_grandpa_pub_key]). done.
Qed.
Lemma keys_are_written k : from_json (struct_to_string_pretty (keys_fields k)) = Some (keys_to_value k).
Proof. rewrite from_json_struct; [reflexivity|]. apply (bool_decide_unpack _). vm_compute. exact I. Qed.
(** The wizard leaves the keys file, or writes keys to it that registration reads. *)
Lemma generated_keys_are_read config (w w' : W) :
  generate_spo_keys config w = (w', Done (Ok tt)) ->
  files w' = files w \/
  exists keys w1, files w' !! KEYS_FILE_PATH = Some (struct_to_string_pretty (keys_fields keys)) /\
    read_generated_keys w' = (w1, Done (Ok keys)).
Proof.
  unfold generate_spo_keys. intros Hr. apply bind_stateful_Ok in Hr as (w1 & [] & E1%act_Ok & Hr).
  - right. do 3 (apply bind_stateful_Ok in Hr as (? & ? & _ & Hr); apply bind_stateful_Ok in Hr as (? & [] & _ & Hr)).
    apply bind_stateful_Ok in Hr as (w2 & [] & E2%act_Ok & Hr).
    match type of E2 with write_file _ (struct_to_string_pretty (keys_fields ?k)) ?wx = _ => set (keys := k) in *;
      destruct (write_file_files KEYS_FILE_PATH (struct_to_string_pretty (keys_fields keys)) wx) as (w3 & Hw & Hf) end.
    rewrite E2 in Hw. injection Hw as <-.
    apply bind_stateful_Ok in Hr as (w4 & [] & E4%act_Ok & Hr). apply bind_stateful_Ok in Hr as (w5 & [] & E5%act_Ok & Hr).
    apply bind_stateful_Ok in Hr as (w6 & [] & E6%act_Ok & Hr). apply bind_stateful_Ok in Hr as (w7 & [] & E7%act_Ok & Hr).
    apply stateless_Ok in Hr as [-> _].
    assert (files w7 = files w2) as Hf7.
    { apply same_outside_nil. transitivity w4; [exact (frame_same _ _ _ _ _ E4 ltac:(frames))|].
      transitivity w5; [exact (frame_same _ _ _ _ _ E5 ltac:(frames))|].
      transitivity w6; [exact (frame_same _ _ _ _ _ E6 ltac:(frames))|exact (frame_same _ _ _ _ _ E7 ltac:(frames))]. }
    assert (files w7 !! KEYS_FILE_PATH = Some (struct_to_string_pretty (keys_fields keys))) as Hk by (rewrite Hf7, Hf; apply lookup_insert_eq).
    destruct (read_file_files KEYS_FILE_PATH w7) as (w8 & Hread & _). exists keys, w8. split; [done|].
    unfold read_generated_keys, bind_stateful, act, stateless, lift. rewrite Hread, Hk. cbn [ok_or].
    rewrite keys_are_written. cbn [mbind option_bind]. by rewrite keys_round_trip.
  - left. apply bind_stateful_Ok in Hr as (w2 & [] & E2%act_Ok & Hr). apply stateless_Ok in Hr as [-> _].
    apply same_outside_nil. transitivity w1; [|exact (frame_same _ _ _ _ _ E2 ltac:(frames))].
    exact (frame_same _ _ _ _ _ E1 ltac:(unfold prompt_can_write; frames)).
Qed.
End GeneratedKeys.

Section Witness.
Import Console ConcreteHex.
#[local] Instance spec_json : ChainSpecJson := {|
  into_account k := k; account_to_value k := JString (hex k); ecdsa_public_to_value k := JString (hex k);
  session_keys_to_value a g := JObject [("aura", JString (hex a)); ("grandpa", JString (hex g))]
|}.
#[local] Instance spec_console : IOContext World := console example_rpc example_scripts (fun _ => Ok "").
Definition example_spec : JValue :=
  JObject [("genesis", JObject [("runtimeGenesis", JObject [("config", JObject
    [("session", JObject [("initialValidators", JArray [])]);
     ("sessionCommitteeManagement", JObject [("initialAuthorities", JArray [])])])])]); ("name", JString [])].
Definition example_spec_config : CreateChainSpecConfig :=
  mkCreateChainSpecConfig example_genesis [] [mkParsed (replicate 33 1) (replicate 32 2) (replicate 32 3)]%Z "" "" "" "" "" "".
Definition example_spec_world : World := mkWorld {[ CHAIN_SPEC_PATH := to_string_pretty example_spec ]} [] [].
Lemma chain_spec_gets_candidates_witness :
  exists w' spec', update_chain_spec_authorities example_spec_config example_spec_world = (w', Done (Ok tt)) /\
    config_value CHAIN_SPEC_PATH w' = Some spec' /\ pointer_get ["name"] spec' = Some (JString []).
Proof.
  assert (config_value CHAIN_SPEC_PATH example_spec_world = Some example_spec) as Hw by (vm_compute; reflexivity).
  destruct (chain_spec_gets_candidates example_spec_config example_spec example_spec_world Hw) as (w' & r & Hr & Hc).
  rewrite bool_decide_eq_true_2 in Hc by (split; eexists; vm_compute; reflexivity).
  destruct Hc as (-> & spec' & Hs & _ & _ & Ho). exists w', spec'. split; [exact Hr|]. split; [exact Hs|].
  rewrite Ho; vm_compute; reflexivity.
Defined.
End Witness.
