(* ===== verification/NodeCommands.v ===== *)
(** * The commands of the node

    [toolkit/primitives/session-validator-management/query/src/commands.rs], the JSON form of
    the queries' answers, [toolkit/primitives/sidechain/src/query.rs],
    [toolkit/cli/node-commands] and [toolkit/cli/smart-contracts-commands], and the RPC server
    of [pallets/session-validator-management/rpc]: what
    [partner-chains-node] prints for [sidechain-params], [registration-status] and
    [ariadne-parameters], and the subcommand that initialises governance. The setup wizard of
    [CliNode] reads what [ariadne-parameters] prints; the main theorem shows that it finds the
    permissioned candidates that the committee selection accepts. Rendering of foreign errors
    ([DebugText]) and of compact JSON is third-party. *)

From S2P Require Import Prelude Domain McEpoch Slots BlockSearch Cbor Json PlutusDatums Selection Ariadne Committee AriadneInherent Query Ogmios OffchainCsl Offchain OffchainUpsert CliConfig CliPrepare CliRegister CliNode.

#[local] Open Scope string_scope.

Class DebugText := { debug_api_error : ApiError -> string; display_api_error : ApiError -> string; debug_source_error : string -> string }.
Class SerdeCompact := to_json_string : JValue -> string.

(** ** The accounts of the node's runtime *)

(** [opaque::cross_chain_app::Public] is an ECDSA key: [Public::try_from(&[u8])] accepts 33 bytes. *)
Definition CrossChainPublic_try_from (pubkey : SidechainPublicKey) : result SidechainPublicKey bytes :=
  ok_or (to_array 33 pubkey) pubkey.
Record SessionKeys := mkSessionKeys { sk_aura : bytes; sk_grandpa : bytes }.
Definition SessionKeys_from (keys : bytes * bytes) : SessionKeys := let '(aura, grandpa) := keys in mkSessionKeys aura grandpa.
#[export] Instance runtime_accounts : Accounts := {|
  TAccountId := bytes; TAccountKeys := SessionKeys; account_from_ecdsa k := k;
  account_try_from k := ok (CrossChainPublic_try_from k); keys_from := SessionKeys_from; account_leb := bytes_leb
|}.

(** ** The JSON form of the answers *)

(** [serde_json::to_value] of a struct or a map: [Value::Object] keeps its keys in order. *)
Definition json_object (entries : list (string * JValue)) : JValue :=
  JObject (foldl (fun map e => jset (fst e) (snd e) map) [] entries).
(** [#[serde(skip_serializing_if = "Option::is_none")]]. *)
Definition member_if_some {A} (name : string) (to_value : A -> JValue) (o : option A) : list (string * JValue) :=
  match o with None => [] | Some a => [(name, to_value a)] end.

Definition StakeError_to_value (e : StakeError) : JValue :=
  string_to_value match e with InvalidStake => "InvalidStake" | UnknownStake => "UnknownStake" end.
Definition RegistrationDataError_to_value (e : RegistrationDataError) : JValue :=
  string_to_value match e with
  | InvalidMainchainSignature => "InvalidMainchainSignature"
  | InvalidSidechainSignature => "InvalidSidechainSignature"
  | InvalidTxInput => "InvalidTxInput"
  | InvalidMainchainPubKey => "InvalidMainchainPubKey"
  | InvalidSidechainPubKey => "InvalidSidechainPubKey"
  | InvalidAuraKey => "InvalidAuraKey"
  | InvalidGrandpaKey => "InvalidGrandpaKey"
  end.
Definition PermissionedCandidateDataError_to_value (e : Permissioned.PermissionedCandidateDataError) : JValue :=
  string_to_value match e with
  | Permissioned.InvalidSidechainPubKey => "InvalidSidechainPubKey"
  | Permissioned.InvalidAuraKey => "InvalidAuraKey"
  | Permissioned.InvalidGrandpaKey => "InvalidGrandpaKey"
  end.
Definition RegistrationError_to_value (e : Query.RegistrationError) : JValue :=
  match e with
  | Query.RegistrationStakeError e => json_object [("StakeError", StakeError_to_value e)]
  | Query.InvalidRegistrationData e => json_object [("InvalidRegistrationData", RegistrationDataError_to_value e)]
  end.

Section Values.
Context `{HexCodec}.
Definition UtxoInfo_to_value (u : UtxoInfo) : JValue :=
  json_object
    [("utxoId", UtxoId_to_value (Domain.utxo_id u)); ("epochNumber", JNumber (ui_epoch_number u));
     ("blockNumber", JNumber (ui_block_number u)); ("slotNumber", JNumber (ui_slot_number u));
     ("txIndexWithinBlock", JNumber (ui_tx_index_within_block u))].
Definition CandidateRegistrationEntry_to_value (e : Query.CandidateRegistrationEntry) : JValue :=
  json_object ([("sidechainPubKey", JString (Query.e_sidechain_pub_key e));
     ("sidechainAccountId", JString (Query.e_sidechain_account_id e));
     ("mainchainPubKey", JString (Query.e_mainchain_pub_key e));
     ("crossChainPubKey", JString (Query.e_cross_chain_pub_key e));
     ("auraPubKey", JString (Query.e_aura_pub_key e));
     ("grandpaPubKey", JString (Query.e_grandpa_pub_key e));
     ("sidechainSignature", JString (Query.e_sidechain_signature e));
     ("mainchainSignature", JString (Query.e_mainchain_signature e));
     ("crossChainSignature", JString (Query.e_cross_chain_signature e));
     ("utxo", UtxoInfo_to_value (Query.e_utxo e))]
    ++ member_if_some "stakeDelegation" JNumber (Query.e_stake_delegation e)
    ++ [("isValid", JBool (Query.is_valid e))]
    ++ member_if_some "invalidReasons" RegistrationError_to_value (Query.invalid_reasons e)).
Definition GetCommitteeResponse_to_value (r : Query.GetCommitteeResponse) : JValue :=
  json_object
    [("sidechainEpoch", JNumber (Query.sidechain_epoch r));
     ("committee", JArray (map (fun key => json_object [("sidechainPubKey", JString key)]) (Query.response_committee r)))].

Definition QueryDParameter_to_value (d : DParameter) : JValue :=
  json_object
    [("numPermissionedCandidates", JNumber (num_permissioned_candidates d));
     ("numRegisteredCandidates", JNumber (num_registered_candidates d))].
Definition QueryPermissionedCandidate_to_value (c : Query.QueryPermissionedCandidate) : JValue :=
  let data := Query.qp_data c in
  json_object ([("sidechainPublicKey", JString (ByteString.hex_serialize (raw_sidechain_public_key data)));
     ("auraPublicKey", JString (ByteString.hex_serialize (raw_aura_public_key data)));
     ("grandpaPublicKey", JString (ByteString.hex_serialize (raw_grandpa_public_key data)));
     ("isValid", JBool (Query.qp_is_valid c))]
    ++ member_if_some "invalidReasons" PermissionedCandidateDataError_to_value (Query.qp_invalid_reasons c)).
Definition registrations_to_value (l : list Query.CandidateRegistrationEntry) : JValue :=
  JArray (map CandidateRegistrationEntry_to_value l).
Definition QueryAriadneParameters_to_value (p : Query.QueryAriadneParameters) : JValue :=
  json_object
    [("dParameter", QueryDParameter_to_value (Query.qa_d_parameter p));
     ("permissionedCandidates", JArray (map QueryPermissionedCandidate_to_value (Query.qa_permissioned_candidates p)));
     ("candidateRegistrations", json_object (map (fun '(key, entries) => (of_str key, registrations_to_value entries))
        (map_to_list (Query.qa_candidate_registrations p : gmap str (list Query.CandidateRegistrationEntry)))))].
End Values.

(** ** The query commands *)
Section Commands.
Context `{HexCodec, Ss58, SerdeJson, DebugText}.
Definition query_error_text (e : Query.QueryError) : string :=
  match e with
  | Query.DebugOf e => debug_api_error e
  | Query.DataSourceFailure e => debug_source_error e
  | Query.OnlyGenesisExists => "Only the Genesis Block exists at the moment!"
  | Query.EarlierThanInitialEpoch epoch => "Epoch " +:+ dec_text epoch +:+ " is earlier than the Initial Epoch!"
  | Query.CommitteeUnknown epoch => "Committee is unknown for epoch " +:+ dec_text epoch
  | Query.NextCommitteeUnknown epoch => "Committee is unknown for the next epoch: " +:+ dec_text epoch
  end.
Definition cli_get_ariadne_parameters (query : Query.QueryClient) (source : AuthoritySelectionDataSource)
    (mc_epoch_number : McEpochNumber) : result string string :=
  ariadne_parameters ← map_err query_error_text (Query.query_ariadne_parameters query source mc_epoch_number);
  Ok (to_string_pretty (QueryAriadneParameters_to_value ariadne_parameters)).
Definition cli_get_registration_status (query : Query.QueryClient) (source : AuthoritySelectionDataSource)
    (mc_epoch_number : McEpochNumber) (mainchain_pub_key : MainchainPublicKey) : result string string :=
  registrations ← map_err query_error_text (Query.get_registrations query source mc_epoch_number mainchain_pub_key);
  Ok (to_string_pretty (registrations_to_value registrations)).
(** [sp_sidechain::query::get_genesis_utxo], with [genesis_utxo] the runtime API. *)
Definition get_genesis_utxo (genesis_utxo : bytes -> result ApiError UtxoId) (client : Query.QueryClient) : result string string :=
  genesis_utxo ← map_err display_api_error (genesis_utxo (Query.best_hash client));
  Ok (to_string_pretty (json_object [("genesis_utxo", UtxoId_to_value genesis_utxo)])).
(** [unwrap_or_else(|e| e)]: an error is printed like an answer. *)
Definition print_result (result : result string string) : string := match result with Ok s => s | Err e => e end.

(** ** The RPC server *)
Record ErrorObject := mkErrorObject { code : Z; message : string }.
Definition error_object_from_str (msg : string) : ErrorObject := mkErrorObject (-1) msg.
Definition rpc_get_epoch_committee (query_api : Query.QueryClient) (epoch_number : ScEpochNumber)
    : option (fallible ErrorObject Query.GetCommitteeResponse) :=
  answer ← Query.get_epoch_committee query_api epoch_number;
  Some (match answer with
        | Panic => Panic
        | Done r => Done (map_err (fun e => error_object_from_str (query_error_text e)) r)
        end).
Definition rpc_get_registrations (query_api : Query.QueryClient) (source : AuthoritySelectionDataSource)
    (mc_epoch_number : McEpochNumber) (mc_public_key : MainchainPublicKey)
    : result ErrorObject (list Query.CandidateRegistrationEntry) :=
  map_err (fun e => error_object_from_str (query_error_text e)) (Query.get_registrations query_api source mc_epoch_number mc_public_key).
Definition rpc_get_ariadne_parameters (query_api : Query.QueryClient) (source : AuthoritySelectionDataSource)
    (epoch_number : McEpochNumber) : result ErrorObject Query.QueryAriadneParameters :=
  map_err (fun e => error_object_from_str (query_error_text e)) (Query.query_ariadne_parameters query_api source epoch_number).
(** [error_object_from]: the [Debug] form of an API error. *)
Definition rpc_error_object_from (e : ApiError) : ErrorObject := mkErrorObject (-1) (debug_api_error e).
Definition rpc_get_params (genesis_utxo : bytes -> result ApiError UtxoId) (client : Query.QueryClient) : result ErrorObject UtxoId :=
  map_err rpc_error_object_from (genesis_utxo (Query.best_hash client)).

(** The commands print what the RPC server answers, and its message when it fails. *)
Definition rendered {A} (to_value : A -> JValue) (r : result ErrorObject A) : string :=
  match r with Ok a => to_string_pretty (to_value a) | Err e => message e end.
Lemma commands_print_rpc_answers q source epoch key :
  print_result (cli_get_ariadne_parameters q source epoch) = rendered QueryAriadneParameters_to_value (rpc_get_ariadne_parameters q source epoch) /\
  print_result (cli_get_registration_status q source epoch key) = rendered registrations_to_value (rpc_get_registrations q source epoch key).
Proof.
  unfold cli_get_ariadne_parameters, cli_get_registration_status, rpc_get_ariadne_parameters, rpc_get_registrations.
  split; [by destruct (Query.query_ariadne_parameters q source epoch) | by destruct (Query.get_registrations q source epoch key)].
Qed.
End Commands.

(** ** Smart contract commands *)

(** [std::fs::read] followed by [String::from_utf8]. *)
Class FileSystem := read_to_string : string -> result string string.
(** [HttpClient::builder().build(url)]. *)
Class HttpClient := http_client_error : string -> option string.

Section SmartContracts.
Context `{CslLib, Blake2bHash, !Uplc, Minicbor, !RawScripts, !Hex, !HexCodec} {S : Type} `{!MainchainClient S}.
Context `{!SerdeJson, !FileSystem, !HttpClient}.

Definition read_private_key_from_file (path : string) : result string bytes :=
  file_content_str ← read_to_string path;
  cbor_hex ← ok_or (json ← from_json file_content_str; CardanoKeyFileContent_from_value json) "invalid key file";
  key_hex ← ok_or (strip_prefix "5820" cbor_hex) "CBOR prefix missing in payment key";
  bytes ← ok_or (hex_decode (str_of key_hex)) "invalid hexadecimal";
  ok_or (to_array 32 bytes) (key_hex +:+ " is not the valid lengh of 32").

Record InitGovernanceCmd := mkInitGovernanceCmd {
  ogmios_host : string;
  ig_governance_authority : MainchainAddressHash;
  payment_key_file : string;
  ig_genesis_utxo : option UtxoId
}.
Definition init_governance_execute (tx_to_json : Transaction -> result string string) (self : InitGovernanceCmd)
    : stateful S string () :=
  payment_key ←! stateless (lift (read_private_key_from_file (payment_key_file self)));
  _client ←! stateless (lift (match http_client_error (ogmios_host self) with Some e => Err e | None => Ok tt end));
  _tx ←! run_init_governance tx_to_json (ig_governance_authority self) payment_key (ig_genesis_utxo self);
  stateless (lift (Ok tt)).

Inductive SmartContractsCmd := InitGovernance (cmd : InitGovernanceCmd).
Definition smart_contracts_execute (tx_to_json : Transaction -> result string string) (self : SmartContractsCmd)
    : stateful S string () :=
  match self with InitGovernance cmd => init_governance_execute tx_to_json cmd end.
End SmartContracts.

(** ** The dispatcher *)
Section Run.
Context `{CslLib, Blake2bHash, !Uplc, Minicbor, !RawScripts, !Hex, !HexCodec} {S : Type} `{!MainchainClient S}.
Context `{!SerdeJson, !SerdeCompact, !FileSystem, !HttpClient, !SigningKeys, !Ss58, !DebugText}.

Definition RegistrationCmdOutput_display (self : RegistrationCmdOutput) : string :=
  to_json_string (JObject
    [("spo_public_key", JString (ByteString.hex_serialize (spo_public_key self)));
     ("spo_signature", JString (ByteString.hex_serialize (spo_signature self)));
     ("sidechain_public_key", JString (ByteString.hex_serialize (out_sidechain_public_key self)));
     ("sidechain_signature", JString (ByteString.hex_serialize (out_sidechain_signature self)))]).

Inductive PartnerChainsSubcommand :=
| SidechainParams
| RegistrationStatus (mainchain_pub_key : MainchainPublicKey) (mc_epoch_number : McEpochNumber)
| AriadneParametersCmd (mc_epoch_number : McEpochNumber)
| RegistrationSignatures (cmd : RegistrationSignaturesCmd)
| SmartContracts (cmd : SmartContractsCmd).

(** The line printed, if any. [get_deps] builds the client and the data source; only the three
    query commands call it. *)
Definition run (genesis_utxo : bytes -> result ApiError UtxoId) (tx_to_json : Transaction -> result string string)
    (get_deps : fallible string (Query.QueryClient * AuthoritySelectionDataSource)) (cmd : PartnerChainsSubcommand)
    : stateful S string (option string) :=
  match cmd with
  | SidechainParams =>
      deps ←! stateless get_deps;
      stateless (lift (Ok (Some (print_result (get_genesis_utxo genesis_utxo (fst deps))))))
  | RegistrationStatus mainchain_pub_key mc_epoch_number =>
      deps ←! stateless get_deps;
      stateless (lift (Ok (Some (print_result
        (cli_get_registration_status (fst deps) (snd deps) mc_epoch_number mainchain_pub_key)))))
  | AriadneParametersCmd mc_epoch_number =>
      deps ←! stateless get_deps;
      stateless (lift (Ok (Some (print_result (cli_get_ariadne_parameters (fst deps) (snd deps) mc_epoch_number)))))
  | RegistrationSignatures cmd => stateless (lift (Ok (Some (RegistrationCmdOutput_display (registration_signatures_execute cmd)))))
  | SmartContracts cmd => _done ←! smart_contracts_execute tx_to_json cmd; stateless (lift (Ok None))
  end.
End Run.

(** ** The setup wizard and the committee selection see the same candidates *)
Section WizardReadsNode.
Context `{F64, Hex, HexCodecLaws, Ss58, SerdeJsonLaws, DebugText}.

Definition keys_of_raw (c : RawPermissionedCandidateData) : ParsedPermissionedCandidatesKeys :=
  mkParsed (raw_sidechain_public_key c) (raw_aura_public_key c) (raw_grandpa_public_key c).
Definition output_of (c : Query.QueryPermissionedCandidate) : CandidateOutput :=
  mkCandidateOutput (keys_of_parsed (keys_of_raw (Query.qp_data c))) (Query.qp_is_valid c).
Definition wf_raw (c : RawPermissionedCandidateData) : Prop :=
  wf_bytes (raw_sidechain_public_key c) /\ wf_bytes (raw_aura_public_key c) /\ wf_bytes (raw_grandpa_public_key c).
(** The candidates of the selection, as the wizard's keys. *)
Definition candidate_of_keys (k : ParsedPermissionedCandidatesKeys) : Candidate TAccountId TAccountKeys :=
  mkCandidate (p_sidechain k) (mkSessionKeys (p_aura k) (p_grandpa k)).

Lemma candidate_value_read c :
  CandidateOutput_from_value (QueryPermissionedCandidate_to_value c) = Some (output_of c).
Proof. destruct c as [[s a g] v [[]|]]; reflexivity. Qed.

Lemma parameters_value_read p :
  in_width 16 (num_permissioned_candidates (Query.qa_d_parameter p)) ->
  in_width 16 (num_registered_candidates (Query.qa_d_parameter p)) ->
  AriadneParametersOutput_from_value (QueryAriadneParameters_to_value p) =
    Some (mkAriadneParametersOutput
      (mkDParameterOutput (num_permissioned_candidates (Query.qa_d_parameter p)) (num_registered_candidates (Query.qa_d_parameter p)))
      (map output_of (Query.qa_permissioned_candidates p))).
Proof.
  intros [Hp Hp'] [Hr Hr'].
  change (AriadneParametersOutput_from_value (QueryAriadneParameters_to_value p)) with
    (d ← (p' ← try_into_width 64 (num_permissioned_candidates (Query.qa_d_parameter p));
          r' ← try_into_width 64 (num_registered_candidates (Query.qa_d_parameter p));
          Some (mkDParameterOutput p' r'));
     cs ← mapM CandidateOutput_from_value (map QueryPermissionedCandidate_to_value (Query.qa_permissioned_candidates p));
     Some (mkAriadneParametersOutput d cs)).
  rewrite (proj2 (try_into_width_Some 64 _ _) (conj (conj Hp (Z.lt_trans _ _ (2 ^ 64) Hp' eq_refl)) eq_refl)),
    (proj2 (try_into_width_Some 64 _ _) (conj (conj Hr (Z.lt_trans _ _ (2 ^ 64) Hr' eq_refl)) eq_refl)).
  simpl_monad.
  assert (mapM CandidateOutput_from_value (map QueryPermissionedCandidate_to_value (Query.qa_permissioned_candidates p)) =
    Some (map output_of (Query.qa_permissioned_candidates p))) as ->; [|reflexivity].
  induction (Query.qa_permissioned_candidates p) as [|c cs IH]; [reflexivity|].
  cbn - [QueryPermissionedCandidate_to_value]. by rewrite candidate_value_read, IH.
Qed.

(** What the runtime validates is what the wizard parses and what the selection keeps. *)
Definition accepted (c : RawPermissionedCandidateData) : bool :=
  match runtime_validate_permissioned_candidate_data (AriadneIDP.from_raw c) with None => true | Some _ => false end.
Lemma validate_raw c :
  validate_permissioned_candidate_data (AriadneIDP.from_raw c) =
    if accepted c then Ok (raw_sidechain_public_key c, raw_aura_public_key c, raw_grandpa_public_key c)
    else validate_permissioned_candidate_data (AriadneIDP.from_raw c).
Proof.
  unfold accepted, runtime_validate_permissioned_candidate_data, validate_permissioned_candidate_data,
    try_into_sr25519, try_into_ed25519, account_try_from, runtime_accounts, CrossChainPublic_try_from, to_array.
  destruct c as [s a g]; cbn. repeat (case_decide; cbn; try reflexivity).
Qed.
Lemma accepted_lengths c : accepted c = true ->
  length (raw_sidechain_public_key c) = 33%nat /\ length (raw_aura_public_key c) = 32%nat /\ length (raw_grandpa_public_key c) = 32%nat.
Proof.
  unfold accepted, runtime_validate_permissioned_candidate_data, validate_permissioned_candidate_data,
    try_into_sr25519, try_into_ed25519, account_try_from, runtime_accounts, CrossChainPublic_try_from, to_array.
  destruct c as [s a g]; cbn. repeat (case_decide; cbn; try discriminate). intros _. by split_and!.
Qed.
Lemma accepted_parses c : wf_raw c -> accepted c = true ->
  parsed_try_from (keys_of_parsed (keys_of_raw c)) = Ok (keys_of_raw c).
Proof.
  intros (Hs & Ha & Hg) (Ls & La & Lg)%accepted_lengths. unfold parsed_try_from, parse_public, to_array. cbn.
  rewrite !str_of_of, !from_hex_to_hex by assumption. cbn. by rewrite !decide_True by assumption.
Qed.
Lemma accepted_selected cs :
  filter_invalid_permissioned_candidates (map AriadneIDP.from_raw cs) = map (candidate_of_keys ∘ keys_of_raw) (List.filter accepted cs).
Proof.
  induction cs as [|c cs IH]; [reflexivity|]. unfold filter_invalid_permissioned_candidates in *.
  cbn [map List.filter omap list_omap]. rewrite IH. rewrite validate_raw. destruct (accepted c) eqn:E; [reflexivity|].
  unfold accepted, runtime_validate_permissioned_candidate_data in E.
  destruct (validate_permissioned_candidate_data _); [discriminate E | reflexivity].
Qed.
Lemma accepted_collected cs : Forall wf_raw cs ->
  collect_results parsed_try_from (map (keys_of_parsed ∘ keys_of_raw) (List.filter accepted cs)) =
    Ok (map keys_of_raw (List.filter accepted cs)).
Proof.
  induction 1 as [|c cs Hc _ IH]; [reflexivity|]. cbn [List.filter]. destruct (accepted c) eqn:E; [|exact IH].
  cbn [map collect_results compose]. rewrite (accepted_parses c Hc E). simpl_monad. by rewrite IH.
Qed.

(** The permissioned candidates of the query, when the runtime API is the runtime's. *)
Definition query_candidate (c : RawPermissionedCandidateData) : Query.QueryPermissionedCandidate :=
  Query.mkQueryPermissionedCandidate c (accepted c) (runtime_validate_permissioned_candidate_data (AriadneIDP.from_raw c)).
Lemma valid_outputs cs :
  map o_keys (List.filter o_is_valid (map (output_of ∘ query_candidate) cs)) = map (keys_of_parsed ∘ keys_of_raw) (List.filter accepted cs).
Proof. induction cs as [|c cs IH]; [reflexivity|]. cbn. destruct (accepted c); cbn; by rewrite IH. Qed.

(** C35: What the setup wizard reads from the node's [ariadne-parameters] command: when the node
    answers, the printed JSON is parsed without an error, the D-parameter is the data source's and
    the candidates are, in order of the wizard, exactly those that the committee selection of the
    same runtime accepts; so the wizard finds the configured candidates up to date exactly when
    they are a permutation of these. *)
Theorem wizard_finds_selectable_candidates q source epoch scripts response registrations :
  (forall c, Query.api_validate_permissioned_candidate_data q (Query.best_hash q) c = Ok (runtime_validate_permissioned_candidate_data c)) ->
  Query.api_get_main_chain_scripts q (Query.best_hash q) = Ok scripts ->
  AriadneInherent.get_ariadne_parameters source epoch (d_parameter_policy_id scripts) (permissioned_candidates_policy_id scripts) = Ok response ->
  Query.candidates_registrations_for_epoch q source epoch (committee_candidate_address scripts) = Ok registrations ->
  Forall wf_raw (ap_permissioned_candidates response) ->
  in_width 16 (num_permissioned_candidates (ap_d_parameter response)) ->
  in_width 16 (num_registered_candidates (ap_d_parameter response)) ->
  exists keys,
    parse_ariadne_parameters (print_result (cli_get_ariadne_parameters q source epoch)) =
      Ok (mkDParameterOutput (num_permissioned_candidates (ap_d_parameter response)) (num_registered_candidates (ap_d_parameter response)),
          sorted_candidates keys) /\
    map candidate_of_keys keys = filter_invalid_permissioned_candidates (map AriadneIDP.from_raw (ap_permissioned_candidates response)) /\
    (forall config, sorted_candidates keys = sorted_candidates config <-> keys ≡ₚ config).
Proof.
  intros Hapi Hs Hr Hc Hwf Hp Hq. exists (map keys_of_raw (List.filter accepted (ap_permissioned_candidates response))).
  split_and!; [| by rewrite map_map, accepted_selected | intros config; apply sorted_candidates_eq].
  unfold cli_get_ariadne_parameters, Query.query_ariadne_parameters. rewrite Hs. simpl_monad. rewrite Hr. simpl_monad. rewrite Hc.
  simpl_monad. rewrite (collect_results_total _ query_candidate) by (intros c; by rewrite Hapi). simpl_monad.
  unfold parse_ariadne_parameters, print_result. rewrite from_json_pretty. simpl_monad.
  rewrite parameters_value_read by assumption. simpl_monad. cbn [o_permissioned_candidates Query.qa_permissioned_candidates].
  rewrite map_map. change (fun x => output_of (query_candidate x)) with (output_of ∘ query_candidate).
  rewrite valid_outputs, (accepted_collected _ Hwf). reflexivity.
Qed.
End WizardReadsNode.

(** The wizard asks the node for the state two epochs after the current one, and what it returns
    is its reading of what the node prints. *)
Section WizardRunsNode.
Context `{F64, Hex, HexCodec, SerdeJson} {W : Type} `{!IOContext W}.
Lemma setup_wizard_reads_output chain_config (output : McEpochNumber -> string) (w w' : W) r :
  (forall executable dir epoch (w w' : W) out,
    run_command (executable +:+ " ariadne-parameters --base-path " +:+ dir +:+ " --chain chain-spec.json --mc-epoch-number " +:+
      dec_text epoch) w = (w', Done (Ok out)) -> out = output epoch) ->
  CliNode.get_ariadne_parameters chain_config w = (w', Done (Ok r)) ->
  exists now epoch, timestamp_to_mainchain_epoch (MainchainEpochConfig_from (cc_cardano chain_config)) now = Done (Ok epoch) /\
    match r with
    | None => contains "NotFound" (output (epoch +[32] 2)) = true
    | Some parsed => contains "NotFound" (output (epoch +[32] 2)) = false /\
                     parse_ariadne_parameters (output (epoch +[32] 2)) = Ok parsed
    end.
Proof.
  intros Hcmd Hrun. unfold CliNode.get_ariadne_parameters in Hrun.
  do 4 apply bind_stateful_Ok in Hrun as (? & ? & _ & Hrun).
  apply bind_stateful_Ok in Hrun as (? & epoch & He & Hrun).
  apply bind_stateful_Ok in He as (? & now & _ & He). apply map_err_stateful_Ok in He. apply stateless_Ok in He as [_ He].
  exists now, epoch. split; [exact He|].
  apply bind_stateful_Ok in Hrun as (? & dir & _ & Hrun).
  apply bind_stateful_Ok in Hrun as (? & out & Hout & Hrun). apply Hcmd in Hout as ->.
  apply bind_stateful_Ok in Hrun as (? & [] & _ & Hrun). destruct (contains _ _).
  - apply bind_stateful_Ok in Hrun as (? & ? & _ & Hrun). apply stateless_Ok in Hrun as [_ Hrun]. by injection Hrun as <-.
  - apply bind_stateful_Ok in Hrun as (? & parsed & Hp & Hrun). apply stateless_Ok in Hp as [_ Hp].
    apply stateless_Ok in Hrun as [_ Hrun]. injection Hrun as <-. by injection Hp.
Qed.
End WizardRunsNode.

(** ** Key files *)
Section KeyFiles.
Context `{F64, HexLaws, SerdeJsonLaws, FileSystem} {W : Type} `{!IOContext W}.

(** The wizards and the smart contract commands read the same key from the same file. *)
Lemma key_readers_agree path content key (w w' : W) :
  read_to_string path = Ok content -> read_file path w = (w', Done (Some content)) ->
  get_key_bytes_from_file 32 path w = (w', Done (Ok key)) <-> read_private_key_from_file path = Ok key.
Proof.
  intros Hc Hw. unfold get_key_bytes_from_file, read_private_key_from_file, bind_stateful, act, stateless. rewrite Hc, Hw.
  simpl_monad. destruct (from_json content) as [json|]; simpl_monad; [|split; discriminate].
  destruct (CardanoKeyFileContent_from_value json) as [cbor_hex|]; simpl_monad; [|split; discriminate].
  change CBOR_KEY_PREFIX with "5820". destruct (strip_prefix "5820" cbor_hex) as [key_hex|]; simpl_monad; [|split; discriminate].
  destruct (hex_decode (str_of key_hex)) as [bytes|]; simpl_monad; [|split; discriminate].
  unfold lift. destruct (to_array 32 bytes); cbn; split; intros E; by simplify_eq.
Qed.

(** A signing key written the way [cardano-cli] does is read back. *)
Lemma key_file_is_read path key :
  wf_bytes key -> length key = 32%nat ->
  read_to_string path = Ok (to_string_pretty (json_object [("cborHex", string_to_value ("5820" +:+ of_str (hex_encode key)))])) ->
  read_private_key_from_file path = Ok key.
Proof.
  intros Hwf Hlen Hf. unfold read_private_key_from_file. rewrite Hf. simpl_monad. rewrite from_json_pretty. simpl_monad.
  change (CardanoKeyFileContent_from_value _) with (Some (of_str (str_of ("5820" +:+ of_str (hex_encode key))))).
  rewrite of_str_of. simpl_monad. change (strip_prefix "5820" ("5820" +:+ of_str (hex_encode key))) with (Some (of_str (hex_encode key))).
  simpl_monad. rewrite str_of_of, hex_decode_encode by assumption. simpl_monad. unfold to_array. by rewrite decide_True by exact Hlen.
Qed.
End KeyFiles.

Section Witness.
Import Console ConcreteHex.
#[local] Instance example_debug : DebugText := {| debug_api_error _ := "api"; display_api_error _ := "api"; debug_source_error e := e |}.
#[local] Instance example_ss58 : Ss58 := fun k => to_hex k.
#[local] Definition raw (n : nat) (k : Z) : RawPermissionedCandidateData :=
  mkRawPermissionedCandidateData (replicate n k) (replicate 32 2%Z) (replicate 32 3%Z).
(** Two candidates, the second with a key of 32 bytes. *)
#[local] Definition example_source : AuthoritySelectionDataSource := mkAuthoritySelectionDataSource
  (fun _ _ _ => Ok (mkAriadneParameters (mkDParameter 3 2) [raw 33 9; raw 32 1; raw 33 4])) (fun _ _ => Ok []) (fun _ => Ok None) Ok.
#[local] Definition example_node : Query.QueryClient :=
  Query.mkQueryClient ExampleChain.example_client [0%Z] [10%Z] (fun h => Ok (7%Z, [h])) (fun _ => Ok None)
    (fun _ => Ok Example2.scripts) (fun _ _ _ => Ok None) (fun _ _ => Ok None)
    (fun _ c => Ok (runtime_validate_permissioned_candidate_data c)).
Lemma wizard_finds_selectable_candidates_witness :
  exists keys, parse_ariadne_parameters (print_result (cli_get_ariadne_parameters example_node example_source 303%Z)) =
    Ok (mkDParameterOutput 3 2, sorted_candidates keys) /\
    map p_sidechain keys = [replicate 33 9%Z; replicate 33 4%Z].
Proof.
  destruct (wizard_finds_selectable_candidates example_node example_source 303 Example2.scripts
    (mkAriadneParameters (mkDParameter 3 2) [raw 33 9; raw 32 1; raw 33 4]) ∅) as (keys & Hp & Hk & _);
    [reflexivity | reflexivity | reflexivity | reflexivity | apply (bool_decide_unpack _); vm_compute; exact I
    | cbn; split; lia | cbn; split; lia |].
  exists keys. split; [exact Hp|]. apply (f_equal (map account_id)) in Hk. rewrite map_map in Hk. exact Hk.
Defined.
End Witness.
