(* ===== verification/NodeSpec.v ===== *)
(** * Chain specifications

    What the node builds its genesis from: the readers of environment variables
    ([sidechain/src/lib.rs], [session-validator-management/src/lib.rs],
    [native-token-management/src/lib.rs], [sidechain-slots/src/lib.rs]), the template, staging
    and test chain specifications of [node/node/src], and [build_state] of the runtime; and
    what the wizard [create-chain-spec] makes of the template.

    Third-party: [envy], the JSON of Substrate's own pallets and of keys, text of accounts,
    [sc_chain_spec], and the shell that runs the node. *)

From S2P Require Import Prelude Domain McEpoch Slots Cbor Json Selection Ariadne Committee AriadneInherent Session NativeToken BlockRewards Runtime Ogmios OffchainCsl Offchain CliConfig CliPrepare CliRegister CliNode NodeCommands.
#[local] Open Scope string_scope.
#[local] Open Scope list_scope.

(** ** Environment variables *)

Abbreviation Env := (gmap string string).
Inductive EnvyError := MissingValue (field : string) | EnvyCustom (message : string).
(** [envy]: the value of the variable whose name, in lower case, is that of the field. *)
Class Envy := { envy_var : Env -> string -> option string; envy_display : EnvyError -> string }.

Definition upper (c : Ascii.ascii) : Ascii.ascii :=
  let n := Ascii.nat_of_ascii c in if ((97 <=? n) && (n <=? 122))%nat then chr (n - 32) else c.
Definition lower (c : Ascii.ascii) : Ascii.ascii :=
  let n := Ascii.nat_of_ascii c in if ((65 <=? n) && (n <=? 90))%nat then chr (n + 32) else c.
Definition uppercase (s : string) : string := of_str (map upper (str_of s)).
Definition lowercase (s : string) : string := of_str (map lower (str_of s)).
(** No other variable stands for the field. *)
Definition unambiguous (env : Env) (field : string) : Prop :=
  forall name, is_Some (env !! name) -> lowercase name = field -> name = uppercase field.
Class EnvyLaws `{Envy} : Prop :=
  envy_reads : forall env field, unambiguous env field -> envy_var env field = env !! uppercase field.

(** [MainchainAddress::from_str] keeps the bytes of the text. *)
Definition MainchainAddress_from_str (s : string) : result string MainchainAddress :=
  ok_or (to_bounded MAX_MAINCHAIN_ADDRESS_BYTES (map (fun c => Z.of_nat (Ascii.nat_of_ascii c)) (str_of s))) "Invalid length".

Section ReadFromEnv.
Context `{HexCodec, Envy}.
(** One field of a struct read by [envy::from_env]. When several are missing or malformed, which
    of them is reported is up to [envy]; here it is the first of the struct. *)
Definition envy_field {A} (env : Env) (field : string) (parse : string -> result string A) : result EnvyError A :=
  value ← ok_or (envy_var env field) (MissingValue field); map_err EnvyCustom (parse value).
Definition envy_field_default {A} (env : Env) (field : string) (default_value : A) (parse : string -> result string A)
    : result EnvyError A :=
  match envy_var env field with None => Ok default_value | Some value => map_err EnvyCustom (parse value) end.

Definition PolicyId_deserialize (s : string) : result string PolicyId :=
  ByteString.hex_deserialize (ByteString.Array POLICY_ID_LEN) (str_of s).
Definition AssetName_deserialize (s : string) : result string AssetName :=
  ByteString.hex_deserialize (ByteString.BoundedVec MAX_ASSET_NAME_LEN) (str_of s).

Definition read_genesis_utxo_from_env_with_defaults (env : Env) : result EnvyError UtxoId :=
  envy_field env "genesis_utxo" utxo_from_text.
Definition address_from_env (s : string) : result EnvyError MainchainAddress :=
  map_err (fun err => EnvyCustom ("Incorrect main chain address: " +:+ err)) (MainchainAddress_from_str s).
Definition committee_scripts_read_from_env (env : Env) : result EnvyError MainChainScripts :=
  committee_candidate_address ← envy_field env "committee_candidate_address" Ok;
  d_parameter_policy_id ← envy_field env "d_parameter_policy_id" PolicyId_deserialize;
  permissioned_candidates_policy_id ← envy_field env "permissioned_candidates_policy_id" PolicyId_deserialize;
  committee_candidate_address ← address_from_env committee_candidate_address;
  Ok (mkMainChainScripts committee_candidate_address d_parameter_policy_id permissioned_candidates_policy_id).
Definition native_token_scripts_read_from_env (env : Env) : result EnvyError NativeToken.MainChainScripts :=
  native_token_policy_id ← envy_field env "native_token_policy_id" PolicyId_deserialize;
  native_token_asset_name ← envy_field env "native_token_asset_name" AssetName_deserialize;
  illiquid_supply_validator_address ← envy_field env "illiquid_supply_validator_address" Ok;
  illiquid_supply_validator_address ← address_from_env illiquid_supply_validator_address;
  Ok (NativeToken.mkMainChainScripts native_token_policy_id native_token_asset_name illiquid_supply_validator_address).

Definition SlotsPerEpoch_default : Z := 60.
Definition SlotsPerEpoch_read_from_env (env : Env) : result EnvyError Z :=
  envy_field_default env "slots_per_epoch" Slots.default_slots_per_epoch (uint_from_str 32).
End ReadFromEnv.

(** ** The genesis configuration of the runtime *)

(** Substrate's own pallets of [RuntimeGenesisConfig]. [substrate_config] has the given balances
    and sudo key and no Aura and Grandpa authorities, the rest is [Default::default()]. *)
Inductive SubstratePallet := PSystem | PAura | PGrandpa | PBalances | PTransactionPayment | PSudo | PPalletSession.
Class SubstrateGenesis := {
  SubstrateConfig : Type;
  substrate_config : list (bytes * Z) -> option bytes -> SubstrateConfig;
  substrate_to_value : SubstratePallet -> SubstrateConfig -> JValue;
  substrate_from_values : (SubstratePallet -> JValue) -> option SubstrateConfig
}.
Class SubstrateGenesisLaws `{SubstrateGenesis} : Prop :=
  substrate_round_trip : forall c f, (forall p, f p = substrate_to_value p c) -> substrate_from_values f = Some c.
(** [Deserialize] of what [ChainSpecJson] serializes. *)
Class ChainSpecRead := {
  account_from_value : JValue -> option bytes;
  ecdsa_public_from_value : JValue -> option bytes;
  session_keys_from_value : JValue -> option SessionKeys
}.
Class ChainSpecReadLaws `{ChainSpecJson, ChainSpecRead} : Prop := {
  account_round_trip : forall k, ByteString.wf (ByteString.Array 33) k ->
    account_from_value (account_to_value (into_account k)) = Some (into_account k);
  ecdsa_round_trip : forall k, ByteString.wf (ByteString.Array 33) k -> ecdsa_public_from_value (ecdsa_public_to_value k) = Some k;
  session_keys_round_trip : forall a g, ByteString.wf (ByteString.Array 32) a -> ByteString.wf (ByteString.Array 32) g ->
    session_keys_from_value (session_keys_to_value a g) = Some (mkSessionKeys a g)
}.

Record RuntimeGenesisConfig `{SubstrateGenesis} := mkRuntimeGenesisConfig {
  rg_substrate : SubstrateConfig;
  rg_session : list (bytes * SessionKeys);
  rg_sidechain : SidechainPallet.GenesisConfig;
  rg_session_committee_management : CommitteeManagement.GenesisConfig bytes SessionKeys;
  rg_native_token_management : NativeToken.MainChainScripts
}.
Arguments mkRuntimeGenesisConfig {_}.

(** [#[serde(deny_unknown_fields)]], which FRAME puts on genesis configurations. *)
Definition only_members (names : list string) (v : JValue) : bool :=
  match v with JObject map => forallb (fun m => bool_decide (fst m ∈ names)) map | _ => false end.

Section GenesisJson.
Context `{HexCodec, ChainSpecJson, ChainSpecRead, SubstrateGenesis}.

Definition bytes_to_value (b : bytes) : JValue := JString (ByteString.hex_serialize b).
Definition bytes_from_value (ty : ByteString.SupportedType) (v : JValue) : option bytes :=
  match v with JString s => ok (ByteString.hex_deserialize ty s) | _ => None end.

(** The members of the generated structs, in the order of their keys. *)
Definition committee_scripts_to_value (s : MainChainScripts) : JValue :=
  JObject [("committee_candidate_address", bytes_to_value (committee_candidate_address s));
           ("d_parameter_policy_id", bytes_to_value (d_parameter_policy_id s));
           ("permissioned_candidates_policy_id", bytes_to_value (permissioned_candidates_policy_id s))].
Definition committee_scripts_from_value (v : JValue) : option MainChainScripts :=
  a ← json_get "committee_candidate_address" v; a ← bytes_from_value (ByteString.BoundedVec MAX_MAINCHAIN_ADDRESS_BYTES) a;
  d ← json_get "d_parameter_policy_id" v; d ← bytes_from_value (ByteString.Array POLICY_ID_LEN) d;
  p ← json_get "permissioned_candidates_policy_id" v; p ← bytes_from_value (ByteString.Array POLICY_ID_LEN) p;
  Some (mkMainChainScripts a d p).
Definition native_token_scripts_to_value (s : NativeToken.MainChainScripts) : JValue :=
  JObject [("illiquid_supply_validator_address", bytes_to_value (NativeToken.illiquid_supply_validator_address s));
           ("native_token_asset_name", bytes_to_value (NativeToken.native_token_asset_name s));
           ("native_token_policy_id", bytes_to_value (NativeToken.native_token_policy_id s))].
Definition native_token_scripts_from_value (v : JValue) : option NativeToken.MainChainScripts :=
  p ← json_get "native_token_policy_id" v; p ← bytes_from_value (ByteString.Array POLICY_ID_LEN) p;
  n ← json_get "native_token_asset_name" v; n ← bytes_from_value (ByteString.BoundedVec MAX_ASSET_NAME_LEN) n;
  a ← json_get "illiquid_supply_validator_address" v; a ← bytes_from_value (ByteString.BoundedVec MAX_MAINCHAIN_ADDRESS_BYTES) a;
  Some (NativeToken.mkMainChainScripts p n a).

Definition validator_to_value (v : bytes * SessionKeys) : JValue :=
  JArray [account_to_value (fst v); session_keys_to_value (sk_aura (snd v)) (sk_grandpa (snd v))].
Definition authority_to_value (v : bytes * SessionKeys) : JValue :=
  JArray [ecdsa_public_to_value (fst v); session_keys_to_value (sk_aura (snd v)) (sk_grandpa (snd v))].
Definition pair_from_value (from : JValue -> option bytes) (v : JValue) : option (bytes * SessionKeys) :=
  match v with JArray [k; keys] => k ← from k; keys ← session_keys_from_value keys; Some (k, keys) | _ => None end.

(** [GenesisConfig] of the session, sidechain, committee and native token pallets. *)
Definition session_to_value (validators : list (bytes * SessionKeys)) : JValue :=
  JObject [("initialValidators", JArray (map validator_to_value validators))].
Definition session_from_value (v : JValue) : option (list (bytes * SessionKeys)) :=
  if only_members ["initialValidators"] v then vs ← json_get "initialValidators" v; list_from_value (pair_from_value account_from_value) vs
  else None.
Definition sidechain_to_value (g : SidechainPallet.GenesisConfig) : JValue :=
  JObject [("genesisUtxo", UtxoId_to_value (SidechainPallet.genesis_utxo g));
           ("slotsPerEpoch", JNumber (SidechainPallet.genesis_slots_per_epoch g))].
Definition sidechain_from_value (v : JValue) : option SidechainPallet.GenesisConfig :=
  if only_members ["genesisUtxo"; "slotsPerEpoch"] v then
    u ← json_get "genesisUtxo" v; u ← UtxoId_from_value u;
    n ← json_get "slotsPerEpoch" v; n ← uint_from_value 32 n;
    Some (SidechainPallet.mkGenesisConfig u n)
  else None.
Definition committee_to_value (g : CommitteeManagement.GenesisConfig bytes SessionKeys) : JValue :=
  JObject [("initialAuthorities", JArray (map authority_to_value (CommitteeManagement.initial_authorities g)));
           ("mainChainScripts", committee_scripts_to_value (CommitteeManagement.main_chain_scripts g))].
Definition committee_from_value (v : JValue) : option (CommitteeManagement.GenesisConfig bytes SessionKeys) :=
  if only_members ["initialAuthorities"; "mainChainScripts"] v then
    authorities ← json_get "initialAuthorities" v; authorities ← list_from_value (pair_from_value ecdsa_public_from_value) authorities;
    scripts ← json_get "mainChainScripts" v; scripts ← committee_scripts_from_value scripts;
    Some (CommitteeManagement.mkGenesisConfig authorities scripts)
  else None.
(** [_marker] is serialized as the unit, under the name [marker]. *)
Definition native_token_to_value (s : NativeToken.MainChainScripts) : JValue :=
  JObject [("mainChainScripts", native_token_scripts_to_value s); ("marker", JNull)].
Definition native_token_from_value (v : JValue) : option NativeToken.MainChainScripts :=
  if only_members ["mainChainScripts"; "marker"] v then
    scripts ← json_get "mainChainScripts" v; scripts ← native_token_scripts_from_value scripts;
    marker ← json_get "marker" v;
    match marker with JNull => Some scripts | _ => None end
  else None.

Definition substrate_name (p : SubstratePallet) : string :=
  match p with
  | PSystem => "system" | PAura => "aura" | PGrandpa => "grandpa" | PBalances => "balances"
  | PTransactionPayment => "transactionPayment" | PSudo => "sudo" | PPalletSession => "palletSession"
  end.
Definition RuntimeGenesisConfig_to_value (g : RuntimeGenesisConfig) : JValue :=
  let substrate p := (substrate_name p, substrate_to_value p (rg_substrate g)) in
  JObject [substrate PAura; substrate PBalances; substrate PGrandpa;
           ("nativeTokenManagement", native_token_to_value (rg_native_token_management g)); substrate PPalletSession;
           ("session", session_to_value (rg_session g));
           ("sessionCommitteeManagement", committee_to_value (rg_session_committee_management g));
           ("sidechain", sidechain_to_value (rg_sidechain g)); substrate PSudo; substrate PSystem; substrate PTransactionPayment].
Definition RuntimeGenesisConfig_from_value (v : JValue) : option RuntimeGenesisConfig :=
  let substrate_pallets := [PSystem; PAura; PGrandpa; PBalances; PTransactionPayment; PSudo; PPalletSession] in
  let names := ["sidechain"; "sessionCommitteeManagement"; "session"; "nativeTokenManagement"] ++ map substrate_name substrate_pallets in
  if only_members names v then
    _members ← mapM (fun p => json_get (substrate_name p) v) substrate_pallets;
    substrate ← substrate_from_values (fun p => default JNull (json_get (substrate_name p) v));
    sidechain ← json_get "sidechain" v; sidechain ← sidechain_from_value sidechain;
    committee ← json_get "sessionCommitteeManagement" v; committee ← committee_from_value committee;
    session ← json_get "session" v; session ← session_from_value session;
    native ← json_get "nativeTokenManagement" v; native ← native_token_from_value native;
    Some (mkRuntimeGenesisConfig substrate session sidechain committee native)
  else None.
End GenesisJson.

(** ** The specifications *)

(** [ChainType], and [GenericChainSpec] with what the builder sets. *)
Inductive ChainType := Development | Local | Live.
Record ChainSpec := mkChainSpec { cs_name : string; cs_id : string; cs_chain_type : ChainType; cs_genesis_config : JValue }.
(** [AccountId::from_str], [get_account_id_from_seed] and [ChainSpec::from_json_file]. *)
Class Keyring := { account_from_str : string -> option bytes; account_id_from_seed : string -> option bytes }.
Class SpecFiles := spec_from_json_file : string -> result string ChainSpec.

Record AuthorityKeys := mkAuthorityKeys { ak_session : SessionKeys; ak_cross_chain : bytes }.

Section Specs.
Context `{HexCodec, ChainSpecJson, SubstrateGenesis, Envy, Keyring}.

(** The template, to be completed by the wizard. *)
Definition template_config (env : Env) : result EnvyError RuntimeGenesisConfig :=
  genesis_utxo ← read_genesis_utxo_from_env_with_defaults env;
  committee_scripts ← committee_scripts_read_from_env env;
  native_token_scripts ← native_token_scripts_read_from_env env;
  Ok (mkRuntimeGenesisConfig (substrate_config [] None) []
        (SidechainPallet.mkGenesisConfig genesis_utxo SlotsPerEpoch_default)
        (CommitteeManagement.mkGenesisConfig [] committee_scripts) native_token_scripts).
Definition chain_spec (env : Env) : result EnvyError ChainSpec :=
  runtime_genesis_config ← template_config env;
  let genesis_json := RuntimeGenesisConfig_to_value runtime_genesis_config in
  Ok (mkChainSpec "Partner Chains Template" "partner_chains_template" Live genesis_json).

Definition authority_keys (aura_pub_key grandpa_pub_key sidechain_pub_key : string) : outcome AuthorityKeys :=
  aura_pk ← expect (parse_public 32 aura_pub_key);
  granda_pk ← expect (parse_public 32 grandpa_pub_key);
  sidechain_pk ← expect (ok (from_hex (str_of sidechain_pub_key)));
  cross_chain ← expect (ok (CrossChainPublic_try_from sidechain_pk));
  Done (mkAuthorityKeys (SessionKeys_from (aura_pk, granda_pk)) cross_chain).
Definition authorities_of (keys : list (string * string * string)) : outcome (list AuthorityKeys) :=
  mapM (fun '(aura, grandpa, sidechain) => authority_keys aura grandpa sidechain) keys.

(** The genesis with the given authorities; [slots_per_epoch] is [SlotsPerEpoch_default] in
    [staging_genesis] and read from the environment in [testnet_genesis]. *)
Definition preset_genesis (slots_per_epoch : result EnvyError Z) (initial_authorities : list AuthorityKeys)
    (root_key : option bytes) (endowed_accounts : list bytes) (env : Env) : result EnvyError RuntimeGenesisConfig :=
  genesis_utxo ← read_genesis_utxo_from_env_with_defaults env;
  slots_per_epoch ← slots_per_epoch;
  committee_scripts ← committee_scripts_read_from_env env;
  native_token_scripts ← native_token_scripts_read_from_env env;
  Ok (mkRuntimeGenesisConfig (substrate_config (map (fun k => (k, Z.shiftl 1 60)) endowed_accounts) root_key)
        (map (fun keys => (into_account (ak_cross_chain keys), ak_session keys)) initial_authorities)
        (SidechainPallet.mkGenesisConfig genesis_utxo slots_per_epoch)
        (CommitteeManagement.mkGenesisConfig (map (fun keys => (ak_cross_chain keys, ak_session keys)) initial_authorities) committee_scripts)
        native_token_scripts).
Definition staging_genesis (initial_authorities : list AuthorityKeys) (root_key : option bytes) (endowed_accounts : list bytes)
    (env : Env) : result EnvyError JValue :=
  RuntimeGenesisConfig_to_value <$> preset_genesis (Ok SlotsPerEpoch_default) initial_authorities root_key endowed_accounts env.
Definition testnet_genesis (initial_authorities : list AuthorityKeys) (root_key : option bytes) (endowed_accounts : list bytes)
    (env : Env) : result EnvyError JValue :=
  RuntimeGenesisConfig_to_value <$> preset_genesis (SlotsPerEpoch_read_from_env env) initial_authorities root_key endowed_accounts env.

Definition sudo_seed : string := "assist draw loud island six improve van gas slam urban penalty lyrics".
Definition sudo_key : outcome bytes := expect (account_id_from_seed sudo_seed).
Definition accounts_of (texts : list string) : outcome (list bytes) := mapM (fun s => expect (account_from_str s)) texts.
(** A specification from its authorities, sudo key and endowed accounts. *)
Definition preset_config (nm id : string) (ty : ChainType)
    (genesis : list AuthorityKeys -> option bytes -> list bytes -> Env -> result EnvyError JValue)
    (authorities : outcome (list AuthorityKeys)) (endowed : outcome (list bytes)) (env : Env)
    : outcome (result EnvyError ChainSpec) :=
  authorities ← authorities; key ← sudo_key; endowed ← endowed;
  Done (mkChainSpec nm id ty <$> genesis authorities (Some key) endowed env).

Definition staging_keys : list (string * string * string) :=
  [("0xba94651de6279a38a416b97b9720c3df76224435e951ac73e9e302a4ee9fcf73",
    "0xdde2501588713ddad5daf5a898c19d82cd591609c9184679868640c8cfe8287d",
    "0x03b827f4da9711bab7292e5695576a841a4d20af9a07b1ba7a230168d2a78e9df4");
   ("0x36128fff2acc04f206ccaf4e9f8e9995998efced29075a58b7d76d3735c21208",
    "0x8f9a9856a27cc114ce85b64f41144f0c907c4bd8b3102b083b52b6b61aff6c47",
    "0x02ef5bcd94d54a18ad199559782cd72ac3ccd850976aaaafbca8f9d2625afbf7c4");
   ("0x9a32d3896a56e822321f7bc915befc8ce112c5d67e3c6497295bd3d7b020f94c",
    "0x4f3c0ecc6dc474f27ad7967f5cdbd50da047ffedbc91b65f5cd247515489c98f",
    "0x02f2762ab6e1a125dc03908a7b738f8023d13763f28a11d7633c6c8bc463478430");
   ("0xc41992b8eb2f3a8a6c46211df584827f9eeb0175e2c75e1242392262b55b6874",
    "0x34b71fdad96431bf115350d8ad21eec07a2b154ff32dc31125f988e308bebea8",
    "0x025e19f82c5e2bac5e8869d49ff26359e442628bc5cfa38eeb5275f43d04015da8");
   ("0x500d7ff6d903c85db5ee5624df9510c2a085cf30da260166bd370010d0bdc97a",
    "0xa04d74c1539550876d04e4d2de4e0531087c3b6810ce96ddc16d78ccf4ac4f11",
    "0x03f38a062a4b372c045c1dddc4fe98a2c9cb1d6eec8bf02f973fd29b1096cd8155")].
Definition staging_accounts : list string :=
  ["0xba94651de6279a38a416b97b9720c3df76224435e951ac73e9e302a4ee9fcf73";
   "0x36128fff2acc04f206ccaf4e9f8e9995998efced29075a58b7d76d3735c21208";
   "0x9a32d3896a56e822321f7bc915befc8ce112c5d67e3c6497295bd3d7b020f94c";
   "0xc41992b8eb2f3a8a6c46211df584827f9eeb0175e2c75e1242392262b55b6874";
   "0x500d7ff6d903c85db5ee5624df9510c2a085cf30da260166bd370010d0bdc97a";
   "0xc2a8354c3928ffacf21eb8b2c3e6bceda9d54b0e2ce10f48fe8b9afafb7d8a3a";
   "0x22c9f9d51022b7ad2204131e6268ab079c84bcdb44a4c6907affed5779da9c7b"].
Definition staging_test_accounts : list string := ["5F1N52dZx48UpXNLtcCzSMHZEroqQDuYKfidg46Tp37SjPcE";
   "5C7C2Z5sWbytvHpuLTvzKunnnRwQxft1jiqrLD5rhucQ5S9X"].
Definition staging_initial_authorities : outcome (list AuthorityKeys) := authorities_of staging_keys.
Definition staging_endowed_accounts : outcome (list bytes) :=
  accounts ← accounts_of staging_accounts; key ← sudo_key; test_accounts ← accounts_of staging_test_accounts;
  Done (accounts ++ key :: test_accounts).
Definition staging_config (env : Env) : fallible EnvyError ChainSpec :=
  preset_config "Staging" "staging" Local staging_genesis staging_initial_authorities staging_endowed_accounts env.

Definition dev_keys : list (string * string * string) :=
  [("0xd43593c715fdd31c61141abd04a99fd6822c8558854ccde39a5684e7a56da27d",
    "0x88dc3417d5058ec4b4503e0c12ea1a0a89be200fe98922423d4334014fa6b0ee",
    "0x020a1091341fe5664bfa1782d5e04779689068c916b04cb365ec3153755684d9a1")].
Definition dev_accounts : list string :=
  ["0xd43593c715fdd31c61141abd04a99fd6822c8558854ccde39a5684e7a56da27d";
   "0x8eaf04151687736326c9fea17e25fc5287613693c912909cb226aa4794f26a48";
   "5F1N52dZx48UpXNLtcCzSMHZEroqQDuYKfidg46Tp37SjPcE"].
Definition development_config (env : Env) : fallible EnvyError ChainSpec :=
  preset_config "Development" "dev" Development testnet_genesis (authorities_of dev_keys) (accounts_of dev_accounts) env.

Definition testnet_keys : list (string * string * string) :=
  [("0xd43593c715fdd31c61141abd04a99fd6822c8558854ccde39a5684e7a56da27d",
    "0x88dc3417d5058ec4b4503e0c12ea1a0a89be200fe98922423d4334014fa6b0ee",
    "0x020a1091341fe5664bfa1782d5e04779689068c916b04cb365ec3153755684d9a1");
   ("0x8eaf04151687736326c9fea17e25fc5287613693c912909cb226aa4794f26a48",
    "0xd17c2d7823ebf260fd138f2d7e27d114c0145d968b5ff5006125f2414fadae69",
    "0x0390084fdbf27d2b79d26a4f13f0ccd982cb755a661969143c37cbc49ef5b91f27");
   ("0x90b5ab205c6974c9ea841be688864633dc9ca8a357843eeacf2314649965fe22",
    "0x439660b36c6c03afafca027b910b4fecf99801834c62a5e6006f27d978de234f",
    "0x0389411795514af1627765eceffcbd002719f031604fadd7d188e2dc585b4e1afb");
   ("0x306721211d5404bd9da88e0204360a1a9ab8b87c66c1bc2fcdd37f3c2222cc20",
    "0x5e639b43e0052c47447dac87d6fd2b6ec50bdd4d0f614e4299c665249bbd09d9",
    "0x03bc9d0ca094bd5b8b3225d7651eac5d18c1c04bf8ae8f8b263eebca4e1410ed0c");
   ("0xe659a7a1628cdd93febc04a4e0646ea20e9f5f0ce097d9a05290d4a9e054df4e",
    "0x1dfe3e22cc0d45c70779c1095f7489a8ef3cf52d62fbd8c2fa38c9f1723502b5",
    "0x031d10105e323c4afce225208f71a6441ee327a65b9e646e772500c74d31f669aa");
   ("0x1cbd2d43530a44705ad088af313e18f80b53ef16b36177cd4b77b846f2a5f07c",
    "0x568cb4a574c6d178feb39c27dfc8b3f789e5f5423e19c71633c748b9acf086b5",
    "0x0291f1217d5a04cb83312ee3d88a6e6b33284e053e6ccfc3a90339a0299d12967c");
   ("0x2c4ed1038f6e4131c21b6b89885ed232c5b81bae09009376e9079cc8aa518a1c",
    "0xfa41bacb202b0529288b05af1b324f85fe561091c2d29d9df1df37c3aa687c23",
    "0x02dacce90fca29ca80404d9b4e8ff3d9dabd03def6a82e412acb2ad04dd734dbfc")].
Definition testnet_accounts : list string :=
  ["0xd43593c715fdd31c61141abd04a99fd6822c8558854ccde39a5684e7a56da27d";
   "0x8eaf04151687736326c9fea17e25fc5287613693c912909cb226aa4794f26a48";
   "0x90b5ab205c6974c9ea841be688864633dc9ca8a357843eeacf2314649965fe22";
   "0x306721211d5404bd9da88e0204360a1a9ab8b87c66c1bc2fcdd37f3c2222cc20";
   "0xe659a7a1628cdd93febc04a4e0646ea20e9f5f0ce097d9a05290d4a9e054df4e";
   "0x1cbd2d43530a44705ad088af313e18f80b53ef16b36177cd4b77b846f2a5f07c";
   "0x2c4ed1038f6e4131c21b6b89885ed232c5b81bae09009376e9079cc8aa518a1c";
   "0x9cedc9f7b926191f64d68ee77dd90c834f0e73c0f53855d77d3b0517041d5640"].
Definition testnet_test_accounts : list string := ["5F1N52dZx48UpXNLtcCzSMHZEroqQDuYKfidg46Tp37SjPcE"].
Definition testnet_initial_authorities : outcome (list AuthorityKeys) := authorities_of testnet_keys.
Definition testnet_endowed_accounts : outcome (list bytes) :=
  accounts ← accounts_of testnet_accounts; key ← sudo_key; test_accounts ← accounts_of testnet_test_accounts;
  Done (accounts ++ key :: test_accounts).
Definition local_testnet_config (env : Env) : fallible EnvyError ChainSpec :=
  preset_config "Local Testnet" "local_testnet" Local testnet_genesis testnet_initial_authorities testnet_endowed_accounts env.

(** [SubstrateCli::load_spec]; the printed help is left out. *)
Definition load_spec `{SpecFiles} (id : string) (env : Env) : fallible string ChainSpec :=
  let from_env (r : outcome (result EnvyError ChainSpec)) : outcome (result string ChainSpec) :=
    r ← r; Done (map_err (fun err => "Reading configuration from environment failed: " +:+ envy_display err) r) in
  if decide (id = "dev") then from_env (development_config env)
  else if decide (id = "staging") then from_env (staging_config env)
  else if decide (id = "local") then from_env (local_testnet_config env)
  else if decide (id = "") then from_env (lift (chain_spec env))
  else lift (map_err (fun err => "Parsing chain spec file failed: " +:+ err) (spec_from_json_file id)).
End Specs.

(** ** Genesis from a specification *)

(** [GenesisBuilder::build_state] of the runtime. *)
Section BuildState.
Context `{Minicbor, Crypto, Rng, U256, BoundedVecOps, HexCodec, ChainSpecJson, ChainSpecRead, SubstrateGenesis, System bytes}.
Context `{Countable BeneficiaryId}.
Definition build_state (config : JValue) (key_ids : list Z) (sys : Sys)
    : fallible string (@Runtime.Runtime runtime_accounts bytes _ BeneficiaryId _ _) :=
  match RuntimeGenesisConfig_from_value config with
  | None => Done (Err "Invalid JSON blob")
  | Some g => rt ← Runtime.genesis into_account bytes_leb (rg_sidechain g) (rg_session_committee_management g)
                     (rg_native_token_management g) key_ids sys; Done (Ok rt)
  end.
End BuildState.

Section RoundTrip.
Context `{HexCodecLaws, ChainSpecReadLaws, SubstrateGenesisLaws}.
#[local] Abbreviation array n := (ByteString.wf (ByteString.Array n)).
#[local] Abbreviation bounded n := (ByteString.wf (ByteString.BoundedVec n)).

Definition wf_keys (k : SessionKeys) : Prop := array 32 (sk_aura k) /\ array 32 (sk_grandpa k).
Definition wf_authority (a : bytes * SessionKeys) : Prop := array 33 (fst a) /\ wf_keys (snd a).
Definition wf_utxo (u : UtxoId) : Prop := wf_UtxoId u /\ index u < 2 ^ 15.
Record wf_committee_scripts (s : MainChainScripts) : Prop := {
  wf_address : bounded MAX_MAINCHAIN_ADDRESS_BYTES (committee_candidate_address s);
  wf_d_parameter : array POLICY_ID_LEN (d_parameter_policy_id s);
  wf_permissioned : array POLICY_ID_LEN (permissioned_candidates_policy_id s)
}.
Record wf_token_scripts (s : NativeToken.MainChainScripts) : Prop := {
  wf_policy : array POLICY_ID_LEN (NativeToken.native_token_policy_id s);
  wf_asset : bounded MAX_ASSET_NAME_LEN (NativeToken.native_token_asset_name s);
  wf_supply : bounded MAX_MAINCHAIN_ADDRESS_BYTES (NativeToken.illiquid_supply_validator_address s)
}.
(** The accounts of the session are those of authorities. *)
Record wf_genesis (g : RuntimeGenesisConfig) : Prop := {
  wf_authorities : Forall wf_authority (CommitteeManagement.initial_authorities (rg_session_committee_management g));
  wf_validators : exists l, Forall wf_authority l /\ rg_session g = map (fun a => (into_account (fst a), snd a)) l;
  wf_genesis_utxo : wf_utxo (SidechainPallet.genesis_utxo (rg_sidechain g));
  wf_slots : in_width 32 (SidechainPallet.genesis_slots_per_epoch (rg_sidechain g));
  wf_scripts : wf_committee_scripts (CommitteeManagement.main_chain_scripts (rg_session_committee_management g));
  wf_tokens : wf_token_scripts (rg_native_token_management g)
}.

Lemma bytes_round_trip ty b : ByteString.wf ty b -> bytes_from_value ty (bytes_to_value b) = Some b.
Proof. intros Hb. cbn. by rewrite (proj1 (ByteString.hex_round_trip ty b Hb)). Qed.
Lemma utxo_text_round_trip u : wf_utxo u -> utxo_from_text (utxo_text u) = Ok u.
Proof.
  intros [Hu Hi]. unfold utxo_from_text, utxo_text, of_str, str_of. rewrite String.list_ascii_of_string_of_list_ascii.
  rewrite UtxoId_from_str_display by done. by rewrite (proj2 (Z.ltb_lt _ _) Hi).
Qed.
Lemma utxo_value_round_trip u : wf_utxo u -> UtxoId_from_value (UtxoId_to_value u) = Some u.
Proof.
  intros Hu. unfold UtxoId_from_value, UtxoId_to_value. cbn [mbind option_bind]. rewrite string_round_trip. cbn [mbind option_bind].
  by rewrite utxo_text_round_trip.
Qed.
Lemma pairs_round_trip (from : JValue -> option bytes) (to : bytes * SessionKeys -> JValue) (name : bytes -> JValue) l :
  (forall a, to a = JArray [name (fst a); session_keys_to_value (sk_aura (snd a)) (sk_grandpa (snd a))]) ->
  Forall (fun a => from (name (fst a)) = Some (fst a) /\ wf_keys (snd a)) l ->
  list_from_value (pair_from_value from) (JArray (map to l)) = Some l.
Proof.
  intros Hto. cbn [list_from_value]. induction 1 as [|[k [a g]] l [Hk [Ha Hg]] _ IH]; [done|]. cbn [map mapM].
  rewrite Hto. cbn [pair_from_value fst snd sk_aura sk_grandpa]. cbn [fst] in Hk. rewrite Hk. cbn [mbind option_bind].
  rewrite session_keys_round_trip by done. cbn [mbind option_bind]. by rewrite IH.
Qed.
Lemma authorities_round_trip l :
  Forall wf_authority l -> list_from_value (pair_from_value ecdsa_public_from_value) (JArray (map authority_to_value l)) = Some l.
Proof.
  intros Hl. apply (pairs_round_trip _ _ ecdsa_public_to_value); [done|]. eapply Forall_impl; [exact Hl|].
  intros a [Ha Hk]. split; [by apply ecdsa_round_trip | done].
Qed.
Lemma validators_round_trip l :
  Forall wf_authority l ->
  let vs := map (fun a => (into_account (fst a), snd a)) l in
  list_from_value (pair_from_value account_from_value) (JArray (map validator_to_value vs)) = Some vs.
Proof.
  intros Hl vs. apply (pairs_round_trip _ _ account_to_value); [done|]. apply Forall_map. eapply Forall_impl; [exact Hl|].
  intros a [Ha Hk]. split; [by apply account_round_trip | done].
Qed.

(** Rewrites [json_get] of a known member, and [only_members]. *)
Ltac member name v := match goal with |- context [json_get name ?o] => replace (json_get name o) with (Some v) by reflexivity end;
  cbn [mbind option_bind].
Lemma committee_scripts_round_trip s : wf_committee_scripts s -> committee_scripts_from_value (committee_scripts_to_value s) = Some s.
Proof.
  intros [Ha Hd Hp]. destruct s as [a d p]. cbn in Ha, Hd, Hp. unfold committee_scripts_from_value.
  member "committee_candidate_address" (bytes_to_value a). rewrite bytes_round_trip by done. cbn [mbind option_bind].
  member "d_parameter_policy_id" (bytes_to_value d). rewrite bytes_round_trip by done. cbn [mbind option_bind].
  member "permissioned_candidates_policy_id" (bytes_to_value p). by rewrite bytes_round_trip.
Qed.
Lemma native_token_round_trip s : wf_token_scripts s -> native_token_from_value (native_token_to_value s) = Some s.
Proof.
  intros [Hp Hn Ha]. destruct s as [p n a]. cbn in Hp, Hn, Ha. unfold native_token_from_value.
  replace (only_members ["mainChainScripts"; "marker"] _) with true by reflexivity.
  member "mainChainScripts" (native_token_scripts_to_value (NativeToken.mkMainChainScripts p n a)). unfold native_token_scripts_from_value.
  member "native_token_policy_id" (bytes_to_value p). rewrite bytes_round_trip by done. cbn [mbind option_bind].
  member "native_token_asset_name" (bytes_to_value n). rewrite bytes_round_trip by done. cbn [mbind option_bind].
  member "illiquid_supply_validator_address" (bytes_to_value a). by rewrite bytes_round_trip.
Qed.

(** What the node writes into a specification is what the runtime reads from it. *)
Lemma genesis_value_round_trip g : wf_genesis g -> RuntimeGenesisConfig_from_value (RuntimeGenesisConfig_to_value g) = Some g.
Proof.
  intros [Hau (l & Hl & Hv) Hu Hs Hsc Ht]. destruct g as [sub session [u n] [authorities scripts] tokens].
  cbn in Hau, Hv, Hu, Hs, Hsc, Ht. subst session. unfold RuntimeGenesisConfig_from_value.
  set (v := RuntimeGenesisConfig_to_value _).
  replace (only_members _ v) with true by reflexivity.
  replace (mapM _ _) with (Some (map (fun p => substrate_to_value p sub)
    [PSystem; PAura; PGrandpa; PBalances; PTransactionPayment; PSudo; PPalletSession])) by reflexivity. cbn [mbind option_bind].
  rewrite (substrate_round_trip sub) by (by intros []). cbn [mbind option_bind].
  member "sidechain" (sidechain_to_value (SidechainPallet.mkGenesisConfig u n)). unfold sidechain_from_value.
  replace (only_members _ _) with true by reflexivity. member "genesisUtxo" (UtxoId_to_value u).
  rewrite utxo_value_round_trip by done. cbn [mbind option_bind]. member "slotsPerEpoch" (JNumber n).
  cbn [uint_from_value]. unfold try_into_width. unfold in_width in Hs.
  rewrite (proj2 (Z.leb_le 0 n)), (proj2 (Z.ltb_lt n _)) by lia. cbn [andb mbind option_bind].
  member "sessionCommitteeManagement" (committee_to_value (CommitteeManagement.mkGenesisConfig authorities scripts)).
  unfold committee_from_value. replace (only_members _ _) with true by reflexivity.
  member "initialAuthorities" (JArray (map authority_to_value authorities)). rewrite authorities_round_trip by done. cbn [mbind option_bind].
  member "mainChainScripts" (committee_scripts_to_value scripts). rewrite committee_scripts_round_trip by done. cbn [mbind option_bind].
  member "session" (session_to_value (map (fun a => (into_account (fst a), snd a)) l)). unfold session_from_value.
  replace (only_members _ _) with true by reflexivity.
  member "initialValidators" (JArray (map validator_to_value (map (fun a => (into_account (fst a), snd a)) l))).
  rewrite validators_round_trip by done. cbn [mbind option_bind].
  member "nativeTokenManagement" (native_token_to_value tokens). by rewrite native_token_round_trip.
Qed.
End RoundTrip.

(** ** The wizard and the node *)

(** [ChainSpec::as_json]: the genesis configuration is at this path. *)
Definition GENESIS_CONFIG : list string := ["genesis"; "runtimeGenesis"; "config"].
Class SpecJson := spec_to_value : ChainSpec -> JValue.
Class SpecJsonLaws `{SpecJson} : Prop :=
  spec_genesis_config : forall s, pointer_get GENESIS_CONFIG (spec_to_value s) = Some (cs_genesis_config s).

(** The environment that commands of the wizard inherit. *)
Class IOEnv {W : Type} `{IOContext W} := environment : W -> Env.
Definition keeps_env `{IOEnv W} {X} (m : W -> W * X) : Prop := forall w, environment (fst (m w)) = environment w.
Class IOEnvLaws {W : Type} `{IOEnv W, !IOFiles} : Prop := {
  set_env_var_runs : forall k v w, exists w',
    set_env_var k v w = (w', Done tt) /\ environment w' = <[k := v]> (environment w) /\ files w' = files w;
  print_runs : forall m w, snd (print m w) = Done tt;
  print_keeps_env : forall m, keeps_env (print m);
  prompt_yes_no_keeps_env : forall m d, keeps_env (prompt_yes_no m d);
  file_exists_keeps_env : forall p, keeps_env (file_exists p);
  read_file_keeps_env : forall p, keeps_env (read_file p)
}.

Section Pointers.
(** Setting a value below a node changes the node. *)
Lemma pointer_set_under p q value v c c' :
  names p -> pointer_get p v = Some c -> pointer_set q value c = Some c' ->
  exists v', pointer_set (p ++ q) value v = Some v' /\ pointer_get p v' = Some c'.
Proof.
  intros Hn. revert v. induction Hn as [|t p Ht Hp IH]; intros v; cbn [pointer_get app pointer_set].
  { intros [= ->] Hs. eauto. }
  destruct v as [| | | | |vs|m]; try done.
  - by rewrite Ht.
  - destruct (jget t m) as [child|] eqn:Hj; [|done]. cbn [mbind option_bind]. intros Hg Hs.
    destruct (IH child Hg Hs) as (child' & -> & Hg'). cbn [mbind option_bind]. eexists. split; [done|].
    cbn [pointer_get]. rewrite jget_jreplace by (by eexists). done.
Qed.
End Pointers.

Section UpdateAuthorities.
Context `{F64, Hex, HexCodec, SerdeJsonLaws, ChainSpecJson} {W : Type} `{!IOContext W, !IOFiles, !IOFilesLaws}.
Lemma update_authorities_runs config spec spec1 spec2 (w : W) :
  config_value CHAIN_SPEC_PATH w = Some spec ->
  pointer_set (pointer_tokens SESSION_INITIAL_VALIDATORS_PATH)
    (JArray (map initial_validator (initial_permissioned_candidates_parsed config))) spec = Some spec1 ->
  pointer_set (pointer_tokens SESSION_VALIDATOR_MANAGEMENT_INITIAL_AUTHORITIES_PATH)
    (JArray (map initial_authority (initial_permissioned_candidates_parsed config))) spec1 = Some spec2 ->
  exists w', update_chain_spec_authorities config w = (w', Done (Ok tt)) /\ config_value CHAIN_SPEC_PATH w' = Some spec2.
Proof.
  intros Hspec E1 E2. unfold update_chain_spec_authorities, bind_stateful, act.
  destruct (read_file_files CHAIN_SPEC_PATH w) as (w1 & -> & Hf1). unfold config_value in Hspec.
  destruct (files w !! CHAIN_SPEC_PATH) as [c|]; [|done]. cbn [mbind option_bind] in Hspec.
  unfold stateless, lift. cbn [ok_or]. rewrite Hspec. cbn [ok_or]. unfold update_field. rewrite E1. cbn [ok_or]. rewrite E2. cbn [ok_or].
  destruct (write_file_files CHAIN_SPEC_PATH (to_string_pretty spec2) w1) as (w2 & -> & Hf2).
  exists w2. split; [done|]. unfold config_value. rewrite Hf2, lookup_insert_eq. apply from_json_pretty.
Qed.
End UpdateAuthorities.

(** What the configuration of the wizard stands for. *)
Definition authority_of (c : ParsedPermissionedCandidatesKeys) : bytes * SessionKeys :=
  (p_sidechain c, mkSessionKeys (p_aura c) (p_grandpa c)).
Record denotes `{HexCodec} (config : CreateChainSpecConfig) (scripts : MainChainScripts) (tokens : NativeToken.MainChainScripts) : Prop := {
  denotes_address : MainchainAddress_from_str (ccs_committee_candidate_address config) = Ok (committee_candidate_address scripts);
  denotes_d_parameter : PolicyId_deserialize (ccs_d_parameter_policy_id config) = Ok (d_parameter_policy_id scripts);
  denotes_permissioned : PolicyId_deserialize (ccs_permissioned_candidates_policy_id config) = Ok (permissioned_candidates_policy_id scripts);
  denotes_policy : PolicyId_deserialize (ccs_native_token_policy config) = Ok (NativeToken.native_token_policy_id tokens);
  denotes_asset : AssetName_deserialize (ccs_native_token_asset_name config) = Ok (NativeToken.native_token_asset_name tokens);
  denotes_supply : MainchainAddress_from_str (ccs_illiquid_supply_address config) = Ok (NativeToken.illiquid_supply_validator_address tokens);
  denotes_utxo : wf_utxo (ccs_genesis_utxo config);
  denotes_scripts : wf_committee_scripts scripts;
  denotes_tokens : wf_token_scripts tokens;
  denotes_candidates : Forall (fun c => wf_authority (authority_of c)) (initial_permissioned_candidates_parsed config)
}.

(** ** The environment of the wizard reaches the template *)
Section TemplateEnv.
Context `{HexCodecLaws, ChainSpecJson, SubstrateGenesis, EnvyLaws}.

Definition env_fields : list string :=
  ["genesis_utxo"; "committee_candidate_address"; "d_parameter_policy_id"; "permissioned_candidates_policy_id";
   "native_token_policy_id"; "native_token_asset_name"; "illiquid_supply_validator_address"].
Definition wizard_env (config : CreateChainSpecConfig) (env : Env) : Env :=
  foldl (fun env kv => <[uppercase (fst kv) := snd kv]> env) env
    (zip env_fields
      [utxo_text (ccs_genesis_utxo config); ccs_committee_candidate_address config; ccs_d_parameter_policy_id config;
       ccs_permissioned_candidates_policy_id config; ccs_native_token_policy config; ccs_native_token_asset_name config;
       ccs_illiquid_supply_address config]).

Lemma unambiguous_insert env f g v :
  lowercase (uppercase g) = g -> unambiguous env f -> unambiguous (<[uppercase g := v]> env) f.
Proof.
  intros Hg Hu nm Hn Hl. destruct (decide (nm = uppercase g)) as [->|Hne]; [congruence|].
  rewrite lookup_insert_ne in Hn by done. by apply Hu.
Qed.
Lemma unambiguous_inserts l env f :
  Forall (fun kv => lowercase (uppercase (fst kv)) = fst kv) l -> unambiguous env f ->
  unambiguous (foldl (fun env kv => <[uppercase (fst kv) := snd kv]> env) env l) f.
Proof. intros Hl. revert env. induction Hl as [|kv l Hkv _ IH]; intros env Hu; [done|]. cbn. by apply IH, unambiguous_insert. Qed.

Lemma wizard_env_reads config env f :
  (forall f, f ∈ env_fields -> unambiguous env f) -> f ∈ env_fields ->
  envy_var (wizard_env config env) f = wizard_env config ∅ !! uppercase f.
Proof.
  intros Hu Hf. rewrite envy_reads.
  2:{ apply unambiguous_inserts; [repeat constructor; vm_compute; reflexivity | by apply Hu]. }
  unfold env_fields in Hf. rewrite !elem_of_cons in Hf.
  destruct_or! Hf; subst; try (by apply not_elem_of_nil in Hf); unfold wizard_env, env_fields; cbn [zip_with foldl fst snd];
    repeat first [rewrite lookup_insert_eq | rewrite lookup_insert_ne by (vm_compute; discriminate)]; reflexivity.
Qed.

Lemma template_of_wizard config scripts tokens env :
  denotes config scripts tokens -> (forall f, f ∈ env_fields -> unambiguous env f) ->
  template_config (wizard_env config env) =
    Ok (mkRuntimeGenesisConfig (substrate_config [] None) []
      (SidechainPallet.mkGenesisConfig (ccs_genesis_utxo config) SlotsPerEpoch_default)
      (CommitteeManagement.mkGenesisConfig [] scripts) tokens).
Proof.
  intros [Ha Hd Hp Hpol Has Hs Hu _ _ _] Hun.
  assert (forall f, f ∈ env_fields -> envy_var (wizard_env config env) f = wizard_env config ∅ !! uppercase f) as Hr
    by (intros; by apply wizard_env_reads).
  unfold template_config, read_genesis_utxo_from_env_with_defaults, committee_scripts_read_from_env, native_token_scripts_read_from_env,
    envy_field, address_from_env.
  rewrite !Hr by (apply (bool_decide_unpack _); vm_compute; exact I).
  replace (wizard_env config ∅ !! uppercase "genesis_utxo") with (Some (utxo_text (ccs_genesis_utxo config))) by reflexivity.
  replace (wizard_env config ∅ !! uppercase "committee_candidate_address") with (Some (ccs_committee_candidate_address config)) by reflexivity.
  replace (wizard_env config ∅ !! uppercase "d_parameter_policy_id") with (Some (ccs_d_parameter_policy_id config)) by reflexivity.
  replace (wizard_env config ∅ !! uppercase "permissioned_candidates_policy_id") with
    (Some (ccs_permissioned_candidates_policy_id config)) by reflexivity.
  replace (wizard_env config ∅ !! uppercase "native_token_policy_id") with (Some (ccs_native_token_policy config)) by reflexivity.
  replace (wizard_env config ∅ !! uppercase "native_token_asset_name") with (Some (ccs_native_token_asset_name config)) by reflexivity.
  replace (wizard_env config ∅ !! uppercase "illiquid_supply_validator_address") with (Some (ccs_illiquid_supply_address config)) by reflexivity.
  cbn [ok_or mbind result_bind]. rewrite utxo_text_round_trip by done. cbn [map_err mbind result_bind].
  rewrite Hd, Hp, Hpol, Has. cbn [map_err mbind result_bind]. rewrite Ha, Hs. cbn [map_err mbind result_bind].
  by destruct scripts, tokens.
Qed.
End TemplateEnv.

(** ** From the configuration to the first state of the chain *)
Section CreatedChain.
Context `{F64, Hex, HexCodecLaws, SerdeJsonLaws, ChainSpecReadLaws, SubstrateGenesisLaws, EnvyLaws, Keyring, SpecFiles, SpecJsonLaws, Colorize}.
Context {W : Type} `{!IOContext W, !IOFiles, !IOFilesLaws, !IOEnv, !IOEnvLaws}.
Context `{Minicbor, Crypto, RngLaws, U256Laws, BoundedVecLaws, System bytes} `{Countable BeneficiaryId}.

(** [build-spec] of the node at this path prints the specification of its environment. *)
Definition node_at (exe : string) : Prop := forall (w : W) spec,
  load_spec "" (environment w) = Done (Ok spec) ->
  exists w' out text, run_command (exe +:+ " build-spec --disable-default-bootnode > chain-spec.json") w = (w', Done (Ok out)) /\
    files w' = <[CHAIN_SPEC_PATH := text]> (files w) /\ from_json text = Some (spec_to_value spec).

(** Actions that return and change neither files nor environment. *)
Definition quiet (m : action W ()) : Prop := forall w, exists w', m w = (w', Done tt) /\ environment w' = environment w /\ files w' = files w.
Lemma print_quiet m : quiet (print m).
Proof.
  intros w. destruct (print m w) as [w' r] eqn:Hp. exists w'. pose proof (print_runs m w) as Hr. pose proof (print_keeps_env m w) as He.
  pose proof (print_keeps m w) as Hf. rewrite Hp in *. cbn in *. by subst.
Qed.
Lemma bind_quiet m k : quiet m -> (forall x, quiet (k x)) -> quiet (bind_action m k).
Proof.
  intros Hm Hk w. unfold bind_action. destruct (Hm w) as (w1 & -> & He & Hf). destruct (Hk tt w1) as (w2 & -> & He2 & Hf2).
  exists w2. split; [done|]. split; congruence.
Qed.
Lemma for_each_quiet {A} (f : A -> action W ()) l : (forall x, quiet (f x)) -> quiet (for_each f l).
Proof. intros Hf. induction l as [|x l IH]; [by intros w; exists w|]. cbn [for_each]. by apply bind_quiet. Qed.
Lemma load_file_keeps_env {T} (self : ConfigFieldDefinition T) : keeps_env (load_file self).
Proof.
  intros w. unfold load_file, bind_action. pose proof (file_exists_keeps_env (config_file self) w) as He.
  destruct (file_exists _ w) as [w1 [[|]|]]; cbn in He |- *; try done.
  pose proof (read_file_keeps_env (config_file self) w1) as Hr. destruct (read_file _ w1) as [w2 [[c|]|]]; cbn in Hr |- *; try congruence.
  destruct (from_json c); cbn; congruence.
Qed.
Lemma print_config_quiet example config : quiet (print_config example config).
Proof.
  unfold print_config. repeat (apply bind_quiet; [apply print_quiet|intros _]).
  destruct (initial_permissioned_candidates_raw config) as [|c cs].
  - repeat (apply bind_quiet; [apply print_quiet|intros _]). apply print_quiet.
  - apply bind_quiet; [apply print_quiet|intros _]. apply for_each_quiet. intros. apply print_quiet.
Qed.
Lemma act_quiet {B} m (k : () -> stateful W string B) w :
  quiet m -> exists w', bind_stateful (act m) k w = k tt w' /\ environment w' = environment w /\ files w' = files w.
Proof. intros Hm. destruct (Hm w) as (w' & Hw & He & Hf). exists w'. unfold bind_stateful, act. by rewrite Hw. Qed.

Lemma save_if_empty_present {T} (self : ConfigFieldDefinition T) v d (w : W) : field_value self w = Some v ->
  exists w', save_if_empty self d w = (w', Done v) /\ environment w' = environment w /\ files w' = files w.
Proof.
  intros Hv. destruct (load_file_runs self w) as (w1 & Hf & Hl). exists w1.
  pose proof (load_file_keeps_env self w) as He. rewrite Hl in He. split; [|done].
  unfold save_if_empty, load_from_file, bind_action, pure. rewrite Hl. unfold field_value, config_value in Hv.
  destruct (files w !! config_file self) as [c|]; [|done]. cbn [mbind option_bind] in Hv.
  destruct (from_json c) as [j|]; [|done]. cbn [mbind option_bind] in Hv |- *. by rewrite Hv.
Qed.
Lemma act_set_env {B} k v (m : () -> stateful W string B) w :
  exists w', bind_stateful (act (set_env_var k v)) m w = m tt w' /\ environment w' = <[k := v]> (environment w) /\ files w' = files w.
Proof. destruct (set_env_var_runs k v w) as (w' & Hw & He & Hf). exists w'. unfold bind_stateful, act. by rewrite Hw. Qed.

(** The node's file of the wizard's configuration. *)
Lemma build_spec_runs config scripts tokens exe (w : W) :
  denotes config scripts tokens -> (forall f, f ∈ env_fields -> unambiguous (environment w) f) ->
  field_value NODE_EXECUTABLE w = Some exe -> node_at exe ->
  exists w' out spec, run_build_spec_command config w = (w', Done (Ok out)) /\ config_value CHAIN_SPEC_PATH w' = Some spec /\
    pointer_get GENESIS_CONFIG spec = Some (RuntimeGenesisConfig_to_value (mkRuntimeGenesisConfig (substrate_config [] None) []
      (SidechainPallet.mkGenesisConfig (ccs_genesis_utxo config) SlotsPerEpoch_default)
      (CommitteeManagement.mkGenesisConfig [] scripts) tokens)).
Proof.
  intros Hden Hun Hexe Hnode. unfold run_build_spec_command.
  destruct (save_if_empty_present NODE_EXECUTABLE exe NODE_EXECUTABLE_DEFAULT w Hexe) as (w0 & Hs & He & Hf).
  unfold bind_stateful at 1, act at 1. rewrite Hs. rewrite <- He in Hun. clear Hs He Hf Hexe w.
  do 7 (match goal with |- context [bind_stateful (act (set_env_var ?k ?v)) ?m ?w] =>
    let Hr := fresh in let w' := fresh "w" in destruct (act_set_env k v m w) as (w' & Hr & ? & ?); rewrite Hr; clear Hr end).
  match goal with |- context [run_command _ ?w] => assert (environment w = wizard_env config (environment w0)) as Hw
    by (repeat match goal with He : environment _ = <[_ := _]> _ |- _ => rewrite He; clear He end; reflexivity) end.
  set (g := mkRuntimeGenesisConfig _ _ _ _ _).
  assert (load_spec "" (wizard_env config (environment w0)) =
    Done (Ok (mkChainSpec "Partner Chains Template" "partner_chains_template" Live (RuntimeGenesisConfig_to_value g)))) as Hload.
  { unfold load_spec. change (chain_spec (wizard_env config (environment w0))) with
      (runtime_genesis_config ← template_config (wizard_env config (environment w0));
       Ok (mkChainSpec "Partner Chains Template" "partner_chains_template" Live (RuntimeGenesisConfig_to_value runtime_genesis_config))).
    rewrite (template_of_wizard config scripts tokens) by done. reflexivity. }
  rewrite <- Hw in Hload. destruct (Hnode _ _ Hload) as (w' & out & text & Hrun & Hfiles & Hjson).
  exists w', out, (spec_to_value (mkChainSpec "Partner Chains Template" "partner_chains_template" Live (RuntimeGenesisConfig_to_value g))).
  split; [exact Hrun|]. split; [|apply spec_genesis_config]. unfold config_value. rewrite Hfiles, lookup_insert_eq. exact Hjson.
Qed.

(** The wizard's authorities in the configuration of the node. *)
Lemma update_genesis_config config g spec :
  pointer_get GENESIS_CONFIG spec = Some (RuntimeGenesisConfig_to_value g) ->
  let cs := map authority_of (initial_permissioned_candidates_parsed config) in
  exists spec1 spec2,
    pointer_set (pointer_tokens SESSION_INITIAL_VALIDATORS_PATH)
      (JArray (map initial_validator (initial_permissioned_candidates_parsed config))) spec = Some spec1 /\
    pointer_set (pointer_tokens SESSION_VALIDATOR_MANAGEMENT_INITIAL_AUTHORITIES_PATH)
      (JArray (map initial_authority (initial_permissioned_candidates_parsed config))) spec1 = Some spec2 /\
    pointer_get GENESIS_CONFIG spec2 = Some (RuntimeGenesisConfig_to_value (mkRuntimeGenesisConfig (rg_substrate g)
      (map (fun a => (into_account (fst a), snd a)) cs) (rg_sidechain g)
      (CommitteeManagement.mkGenesisConfig cs (CommitteeManagement.main_chain_scripts (rg_session_committee_management g)))
      (rg_native_token_management g))).
Proof.
  intros Hg cs. assert (names GENESIS_CONFIG) as Hn by (unfold names; apply (bool_decide_unpack _); vm_compute; exact I).
  destruct (pointer_set_under GENESIS_CONFIG ["session"; "initialValidators"]
    (JArray (map initial_validator (initial_permissioned_candidates_parsed config))) spec _
    (RuntimeGenesisConfig_to_value (mkRuntimeGenesisConfig (rg_substrate g) (map (fun a => (into_account (fst a), snd a)) cs)
      (rg_sidechain g) (rg_session_committee_management g) (rg_native_token_management g))) Hn Hg) as (spec1 & E1 & Hg1).
  { assert (map initial_validator (initial_permissioned_candidates_parsed config) =
      map validator_to_value (map (fun a => (into_account (fst a), snd a)) cs)) as -> by (unfold cs; by rewrite !map_map).
    reflexivity. }
  destruct (pointer_set_under GENESIS_CONFIG ["sessionCommitteeManagement"; "initialAuthorities"]
    (JArray (map initial_authority (initial_permissioned_candidates_parsed config))) spec1 _
    (RuntimeGenesisConfig_to_value (mkRuntimeGenesisConfig (rg_substrate g) (map (fun a => (into_account (fst a), snd a)) cs) (rg_sidechain g)
      (CommitteeManagement.mkGenesisConfig cs (CommitteeManagement.main_chain_scripts (rg_session_committee_management g)))
      (rg_native_token_management g))) Hn Hg1) as (spec2 & E2 & Hg2).
  { assert (map initial_authority (initial_permissioned_candidates_parsed config) = map authority_to_value cs) as ->
      by (unfold cs; by rewrite map_map).
    reflexivity. }
  exists spec1, spec2. split; [exact E1|]. split; [exact E2 | exact Hg2].
Qed.


(** The state that genesis builds. *)
Lemma build_state_of_config g key_ids sys :
  wf_genesis g -> exists rt0, build_state (BeneficiaryId := BeneficiaryId) (RuntimeGenesisConfig_to_value g) key_ids sys = Done (Ok rt0) /\
    Runtime.Sidechain rt0 = SidechainPallet.build (rg_sidechain g) /\
    Runtime.committee_of rt0 = CommitteeManagement.build Runtime.MaxValidators (rg_session_committee_management g) /\
    Runtime.NativeTokenManagement rt0 = NativeToken.build (rg_native_token_management g) tt /\
    in_sync (into_account : @TAccountId runtime_accounts -> bytes) rt0.
Proof.
  intros Hg. unfold build_state. rewrite genesis_value_round_trip by done.
  destruct (genesis_spec (BeneficiaryId := BeneficiaryId) (into_account : @TAccountId runtime_accounts -> bytes) bytes_leb (rg_sidechain g) (rg_session_committee_management g)
    (rg_native_token_management g) key_ids sys) as (rt0 & Hrt & [_ Hsync _ _ _] & _).
  exists rt0. rewrite Hrt. split; [done|]. revert Hrt. unfold Runtime.genesis, SessionPallet.build. rewrite bool_decide_eq_true_2 by done.
  cbn - [SessionPallet.rotate_validators]. rewrite rotate_validators_done. simpl_monad. by intros [= <-].
Qed.


(** The chain configuration has the fields of [config]. *)
Record configured (config : CreateChainSpecConfig) (w : W) : Prop := {
  configured_raw : field_value INITIAL_PERMISSIONED_CANDIDATES w = Some (initial_permissioned_candidates_raw config);
  configured_parsed : collect_results parsed_try_from (initial_permissioned_candidates_raw config) =
    Ok (initial_permissioned_candidates_parsed config);
  configured_utxo : field_value GENESIS_UTXO w = Some (ccs_genesis_utxo config);
  configured_address : field_value COMMITTEE_CANDIDATES_ADDRESS w = Some (ccs_committee_candidate_address config);
  configured_d_parameter : field_value D_PARAMETER_POLICY_ID w = Some (ccs_d_parameter_policy_id config);
  configured_permissioned : field_value PERMISSIONED_CANDIDATES_POLICY_ID w = Some (ccs_permissioned_candidates_policy_id config);
  configured_policy : field_value NATIVE_TOKEN_POLICY w = Some (ccs_native_token_policy config);
  configured_asset : field_value NATIVE_TOKEN_ASSET_NAME w = Some (ccs_native_token_asset_name config);
  configured_supply : field_value ILLIQUID_SUPPLY_ADDRESS w = Some (ccs_illiquid_supply_address config)
}.
Lemma load_config_field_runs {T B} (f : ConfigFieldDefinition T) v (k : T -> stateful W string B) w0 w : files w = files w0 -> field_value f w0 = Some v ->
  exists w', bind_stateful (load_config_field f) k w = k v w' /\ environment w' = environment w /\ files w' = files w0.
Proof.
  intros Hw Hv. rewrite <- (field_value_same _ _ _ Hw) in Hv. rewrite <- Hw. destruct (load_file_runs f w) as (w1 & Hf & Hl). exists w1.
  pose proof (load_file_keeps_env f w) as He. rewrite Hl in He. split; [|done].
  unfold bind_stateful at 1, load_config_field, bind_stateful, act, load_from_file, bind_action, pure. rewrite Hl.
  unfold field_value, config_value in Hv.
  destruct (files w !! config_file f) as [c|]; [|done]. cbn [mbind option_bind] in Hv.
  destruct (from_json c) as [j|]; [|done]. cbn [mbind option_bind] in Hv |- *. by rewrite Hv.
Qed.
Ltac loading Hw Hc w E F := match goal with |- context [bind_stateful (load_config_field ?f) ?k ?w0] =>
  destruct (load_config_field_runs f _ k _ w0 Hw Hc) as (w & -> & E & F) end.
Lemma create_config_loads config w : configured config w ->
  exists w', CreateChainSpecConfig_load w = (w', Done (Ok config)) /\ environment w' = environment w /\ files w' = files w.
Proof.
  intros [C1 C2 C3 C4 C5 C6 C7 C8 C9]. unfold CreateChainSpecConfig_load. loading (eq_refl (files w)) C1 w1 E1 F1.
  unfold bind_stateful at 1, stateless, lift. rewrite C2. loading F1 C3 w2 E2 F2. loading F2 C4 w3 E3 F3. loading F3 C5 w4 E4 F4.
  loading F4 C6 w5 E5 F5. loading F5 C7 w6 E6 F6. loading F6 C8 w7 E7 F7. loading F7 C9 w8 E8 F8.
  exists w8. split; [by destruct config | split; congruence].
Qed.

Ltac quietly w He Hf := match goal with |- context [bind_stateful (act ?m) ?k ?w0] =>
  destruct (act_quiet m k w0 ltac:(first [apply print_quiet | apply print_config_quiet])) as (w & -> & He & Hf) end.

(** The genesis configuration that the wizard and the node make. *)
Lemma denoted_genesis config scripts tokens :
  denotes config scripts tokens ->
  let cs := map authority_of (initial_permissioned_candidates_parsed config) in
  wf_genesis (mkRuntimeGenesisConfig (substrate_config [] None) (map (fun a => (into_account (fst a), snd a)) cs)
    (SidechainPallet.mkGenesisConfig (ccs_genesis_utxo config) SlotsPerEpoch_default)
    (CommitteeManagement.mkGenesisConfig cs scripts) tokens).
Proof.
  intros [_ _ _ _ _ _ Hu Hs Ht Hc] cs. assert (Forall wf_authority cs) by (unfold cs; by apply Forall_map).
  split; [done | by exists cs | done | | done | done]. unfold in_width, SlotsPerEpoch_default. cbn. lia.
Qed.

(** The committee is empty exactly when the wizard warns of an empty list of candidates. *)
Lemma parsed_length config (w : W) : configured config w ->
  length (initial_permissioned_candidates_parsed config) = length (initial_permissioned_candidates_raw config).
Proof. intros Hc. apply configured_parsed in Hc. apply collect_results_Ok, Forall2_length in Hc. done. Qed.
Lemma committee_empty config (w : W) : configured config w ->
  take 32 (map authority_of (initial_permissioned_candidates_parsed config)) = [] <->
  initial_permissioned_candidates_raw config = [].
Proof.
  intros Hl%parsed_length. destruct (initial_permissioned_candidates_parsed config), (initial_permissioned_candidates_raw config); done.
Qed.

(** C37: From the configuration to the genesis state. When the operator's chain configuration can be
    read and its texts denote a genesis UTXO, main chain addresses and policies, and the operator
    agrees, then the wizard [create-chain-spec], running the node's [build-spec] with the
    environment it sets, succeeds; and the runtime accepts the genesis configuration of the
    file it leaves and builds a state with the configured genesis UTXO, main chain scripts and
    native token, 60 slots per epoch, the first 32 configured candidates (the runtime's
    [MaxValidators]) as the committee, and their accounts and keys as the validators of the
    session. The committee is empty exactly when the list of candidates is: then the wizard warns
    that the chain will not start, and still succeeds. *)
Theorem created_chain_spec_is_accepted example config scripts tokens exe key_ids sys (w : W) :
  configured config w -> denotes config scripts tokens ->
  (forall w', snd (prompt_yes_no (W := W) "Do you want to continue?" true w') = Done true) ->
  field_value NODE_EXECUTABLE w = Some exe -> node_at exe -> (forall f, f ∈ env_fields -> unambiguous (environment w) f) ->
  exists w' spec genesis rt0, create_chain_spec_run example w = (w', Done (Ok tt)) /\
    config_value CHAIN_SPEC_PATH w' = Some spec /\ pointer_get GENESIS_CONFIG spec = Some genesis /\
    build_state (BeneficiaryId := BeneficiaryId) genesis key_ids sys = Done (Ok rt0) /\
    SidechainPallet.GenesisUtxo (Runtime.Sidechain rt0) = ccs_genesis_utxo config /\
    SidechainPallet.SlotsPerEpoch (Runtime.Sidechain rt0) = 60%Z /\
    CommitteeManagement.get_main_chain_scripts (Runtime.committee_of rt0) = scripts /\
    NativeToken.get_main_chain_scripts (Runtime.NativeTokenManagement rt0) = Some tokens /\
    let committee := take 32 (map authority_of (initial_permissioned_candidates_parsed config)) in
    CommitteeManagement.committee (CommitteeManagement.CurrentCommittee (Runtime.committee_of rt0)) = committee /\
    SessionPallet.ValidatorsAndKeys (Runtime.Session rt0) = map (fun a => (into_account (fst a), snd a)) committee /\
    (committee = [] <-> initial_permissioned_candidates_raw config = []).
Proof.
  intros Hconf. pose proof (committee_empty _ _ Hconf) as Hempty. revert Hconf.
  intros (w1 & Hload & He1 & Hf1)%create_config_loads Hden Hyes Hexe Hnode Hun. unfold create_chain_spec_run, bind_stateful at 1. rewrite Hload.
  quietly w2 He2 Hf2. quietly w3 He3 Hf3.
  pose proof (Hyes w3) as Hy. pose proof (prompt_yes_no_keeps_env "Do you want to continue?" true w3) as He4.
  pose proof (prompt_yes_no_keeps "Do you want to continue?" true w3) as Hf4. unfold bind_stateful at 1, act at 1.
  destruct (prompt_yes_no "Do you want to continue?" true w3) as [w4 r]. cbn in Hy, He4, Hf4. subst r. cbn beta iota.
  assert (environment w4 = environment w /\ files w4 = files w) as [Hew Hfw] by (split; congruence).
  destruct (build_spec_runs config scripts tokens exe w4 Hden) as (w5 & out & spec & Hb & Hspec & Hg);
    [by rewrite Hew | by rewrite <- Hexe; apply field_value_same | done|].
  destruct (update_genesis_config config _ spec Hg) as (spec1 & spec2 & E1 & E2 & Hg2).
  destruct (update_authorities_runs config spec spec1 spec2 w5 Hspec E1 E2) as (w6 & Hu & Hspec2).
  unfold bind_stateful at 1. rewrite Hb. unfold bind_stateful at 1. rewrite Hu.
  quietly w7 He7 Hf7. quietly w8 He8 Hf8. quietly w9 He9 Hf9.
  edestruct build_state_of_config as (rt0 & Hrt & Hsc & Hc & Hn & Hsync); [apply (denoted_genesis config scripts tokens Hden)|].
  exists w9, spec2. do 2 eexists. split; [done|]. split; [unfold config_value in *; by rewrite Hf9, Hf8, Hf7|].
  split; [exact Hg2|]. split; [exact Hrt|]. rewrite Hsc, Hn. unfold in_sync in Hsync. rewrite Hsync, Hc. cbn.
  rewrite truncate_from_take. split_and!; try done; apply Hempty.
Qed.
End CreatedChain.

(** ** The preset specifications *)
Definition authority_pair (k : AuthorityKeys) : bytes * SessionKeys := (ak_cross_chain k, ak_session k).
Section Presets.
Context `{HexCodecLaws, ChainSpecReadLaws, SubstrateGenesisLaws, Envy, Keyring}.
Context `{Minicbor, Crypto, RngLaws, U256Laws, BoundedVecLaws, System bytes} `{Countable BeneficiaryId}.

(** Genesis with given authorities: what the environment says is read back by the runtime, and the
    validators of the session are the accounts of the committee. *)
Lemma preset_starts_chain spe authorities root_key endowed env g key_ids sys :
  preset_genesis (Ok spe) authorities root_key endowed env = Ok g ->
  in_width 32 spe -> Forall (fun k => wf_authority (authority_pair k)) authorities -> (length authorities <= 32)%nat ->
  wf_utxo (SidechainPallet.genesis_utxo (rg_sidechain g)) ->
  wf_committee_scripts (CommitteeManagement.main_chain_scripts (rg_session_committee_management g)) ->
  wf_token_scripts (rg_native_token_management g) ->
  exists rt0, build_state (BeneficiaryId := BeneficiaryId) (RuntimeGenesisConfig_to_value g) key_ids sys = Done (Ok rt0) /\
    CommitteeManagement.committee (CommitteeManagement.CurrentCommittee (Runtime.committee_of rt0)) = map authority_pair authorities /\
    SessionPallet.ValidatorsAndKeys (Runtime.Session rt0) = rg_session g.
Proof.
  intros Hg Hspe Hwf Hlen Hu Hs Ht. unfold preset_genesis in Hg.
  destruct (read_genesis_utxo_from_env_with_defaults env) as [u|]; [|done]. cbn [mbind result_bind] in Hg.
  destruct (committee_scripts_read_from_env env) as [scripts|]; [|done]. cbn [mbind result_bind] in Hg.
  destruct (native_token_scripts_read_from_env env) as [tokens|]; [|done]. cbn [mbind result_bind] in Hg. injection Hg as <-.
  cbn in Hu, Hs, Ht. match goal with |- context [RuntimeGenesisConfig_to_value ?g] =>
    destruct (build_state_of_config (BeneficiaryId := BeneficiaryId) g key_ids sys) as (rt0 & Hrt & _ & Hc & _ & Hsync) end.
  { split; [by apply Forall_map | exists (map authority_pair authorities); split; [by apply Forall_map | by rewrite map_map] | done..]. }
  exists rt0. split; [exact Hrt|]. unfold in_sync in Hsync. rewrite Hsync, Hc. cbn. rewrite truncate_from_take, take_ge by (by rewrite length_map).
  split; [done | by rewrite map_map].
Qed.
End Presets.

(** The keys of the presets are well formed and distinct. *)
#[export] Instance SessionKeys_eq_dec : EqDecision SessionKeys.
Proof. solve_decision. Defined.
Section PresetKeys.
Import ConcreteHex.
Definition good_keys (n : nat) (keys : list (string * string * string)) : bool :=
  match authorities_of keys with
  | Done l => bool_decide (length l = n /\ NoDup (map ak_cross_chain l) /\ NoDup (map ak_session l))
  | Panic => false
  end.
Lemma preset_keys_parse : good_keys 5 staging_keys && good_keys 1 dev_keys && good_keys 7 testnet_keys = true.
Proof. vm_compute. reflexivity. Qed.
End PresetKeys.

(** ** A console with an environment and a node *)
Module SpecConsole.
Import Console ConcreteHex.
#[export] Instance plain_envy : Envy := {| envy_var env field := env !! uppercase field; envy_display _ := "" |}.
#[export] Instance plain_envy_laws : EnvyLaws.
Proof. done. Qed.
#[export] Instance hex_spec_json : ChainSpecJson := {|
  into_account k := take 32 k; account_to_value k := JString (to_hex k); ecdsa_public_to_value k := JString (to_hex k);
  session_keys_to_value a g := JArray [JString (to_hex a); JString (to_hex g)]
|}.
Definition hex_value (v : JValue) : option bytes := match v with JString s => ok (from_hex s) | _ => None end.
#[export] Instance hex_spec_read : ChainSpecRead := {|
  account_from_value := hex_value; ecdsa_public_from_value := hex_value;
  session_keys_from_value v :=
    match v with JArray [a; g] => a ← hex_value a; g ← hex_value g; Some (mkSessionKeys a g) | _ => None end
|}.
Lemma hex_value_round_trip b : wf_bytes b -> hex_value (JString (to_hex b)) = Some b.
Proof. intros Hb. unfold hex_value. by rewrite from_hex_to_hex. Qed.
#[export] Instance hex_spec_laws : ChainSpecReadLaws.
Proof.
  split; [intros k [Hk _]|intros k [Hk _]|intros a g [Ha _] [Hg _]]; cbn - [to_hex from_hex hex_value].
  - apply hex_value_round_trip. by apply Forall_take.
  - by apply hex_value_round_trip.
  - rewrite hex_value_round_trip by done. cbn [mbind option_bind]. rewrite hex_value_round_trip by done. done.
Qed.
#[export] Instance unit_substrate : SubstrateGenesis := {|
  SubstrateConfig := (); substrate_config _ _ := tt; substrate_to_value _ _ := JNull; substrate_from_values _ := Some tt
|}.
#[export] Instance unit_substrate_laws : SubstrateGenesisLaws.
Proof. by intros [] f _. Qed.
#[export] Instance hex_keyring : Keyring := {| account_from_str s := Some [1]; account_id_from_seed s := Some [2] |}%Z.
#[export] Instance no_spec_files : SpecFiles := fun _ => Err "no file".
#[export] Instance plain_spec : SpecJson := fun s =>
  JObject [("genesis", JObject [("runtimeGenesis", JObject [("config", cs_genesis_config s)])]); ("id", string_to_value (cs_id s))].
#[export] Instance plain_spec_laws : SpecJsonLaws.
Proof. by intros s. Qed.
#[export] Instance no_colours : Colorize := {| red s := s; yellow s := s |}.

Record EnvWorld := mkEnvWorld { ew_console : World; ew_env : Env }.
Definition on_console {X} (m : World -> World * X) (w : EnvWorld) : EnvWorld * X :=
  let '(c, x) := m (ew_console w) in (mkEnvWorld c (ew_env w), x).
#[local] Instance base_console : IOContext World := console example_rpc example_scripts (fun _ => Ok "").
Definition node_command : string := "./node build-spec --disable-default-bootnode > chain-spec.json".
Definition run_node (command : string) (w : EnvWorld) : EnvWorld * outcome (result string string) :=
  if decide (command = node_command) then
    match load_spec "" (ew_env w) with
    | Done (Ok spec) =>
        let c := ew_console w in
        (mkEnvWorld (mkWorld (<[CHAIN_SPEC_PATH := to_string_pretty (spec_to_value spec)]> (world_files c)) (answers c) (log c)) (ew_env w),
         Done (Ok ""))
    | _ => (w, Done (Err "failed"))
    end
  else (w, Done (Ok "")).
#[export] Instance env_console : IOContext EnvWorld := {|
  OffchainImpl := unit;
  run_command := run_node;
  print m := on_console (print m);
  eprint m := on_console (eprint m);
  enewline := on_console enewline;
  prompt m d := on_console (prompt m d);
  prompt_yes_no m d := on_console (prompt_yes_no m d);
  prompt_multi_option m o := on_console (prompt_multi_option m o);
  write_file p c := on_console (write_file p c);
  new_tmp_dir := on_console new_tmp_dir;
  read_file p := on_console (read_file p);
  file_exists p := on_console (file_exists p);
  list_directory p := on_console (list_directory p);
  delete_file p := on_console (delete_file p);
  set_env_var k v w := (mkEnvWorld (ew_console w) (<[k := v]> (ew_env w)), Done tt);
  current_timestamp := on_console current_timestamp;
  ogmios_rpc a r := on_console (ogmios_rpc a r);
  offchain_impl c := on_console (offchain_impl c);
  scripts_data_of o g := on_console (scripts_data_of o g)
|}.
#[export] Instance env_console_files : IOFiles := fun w => world_files (ew_console w).
#[export] Instance env_console_laws : IOFilesLaws.
Proof.
  split; try done.
  - by eexists.
  - by eexists.
  - by eexists.
  - intros m d w. cbn. unfold on_console, answer. cbn. by destruct (answers (ew_console w)).
Qed.
#[export] Instance env_console_env : IOEnv := ew_env.
#[export] Instance env_console_env_laws : IOEnvLaws.
Proof. split; try done. by eexists. Qed.
Lemma node_is_there : node_at "./node".
Proof.
  intros w spec Hl. cbn [run_command env_console]. unfold run_node. change ("./node" +:+ _) with node_command. rewrite decide_True by done.
  change (ew_env w) with (environment w). rewrite Hl. do 3 eexists. split; [reflexivity|]. split; [reflexivity|]. apply from_json_pretty.
Qed.
End SpecConsole.

Section Witness.
Import Console ConcreteHex SpecConsole ConcreteAccounts Selection.Concrete Rfc8949.
#[local] Instance no_references : System bytes := {| Sys := (); inc_providers _ s := s; dec_providers _ s := Some s |}.
#[local] Definition sys1 : @Sys bytes no_references := tt.
#[local] Definition hex_text (b : bytes) : string := of_str (to_hex b).
#[local] Definition candidate1 : ParsedPermissionedCandidatesKeys := mkParsed (replicate 33 1) (replicate 32 2) (replicate 32 3)%Z.
#[local] Definition config_file1 : JValue :=
  JObject [("cardano_addresses", JObject
      [("committee_candidates_address", string_to_value "addr_test1");
       ("d_parameter_policy_id", string_to_value (hex_text (replicate 28 4%Z)));
       ("native_token", JObject
          [("asset", JObject [("asset_name", string_to_value "0x"); ("policy_id", string_to_value (hex_text (replicate 28 0%Z)))]);
           ("illiquid_supply_address", string_to_value "addr_test2")]);
       ("permissioned_candidates_policy_id", string_to_value (hex_text (replicate 28 5%Z)))]);
     ("chain_parameters", JObject [("genesis_utxo", UtxoId_to_value example_genesis)]);
     ("initial_permissioned_candidates", JArray [keys_to_value (keys_of_parsed candidate1)])].
#[local] Definition resources1 : JValue := JObject [("substrate_node_executable_path", string_to_value "./node")].
#[local] Definition world1 : EnvWorld := mkEnvWorld (mkWorld
  (<[CHAIN_CONFIG_FILE_PATH := to_string_pretty config_file1]> (<[RESOURCES_CONFIG_FILE_PATH := to_string_pretty resources1]> ∅)) [] [])
  {[ "PATH" := "/bin" ]}.
#[local] Definition config1 : CreateChainSpecConfig :=
  mkCreateChainSpecConfig example_genesis [keys_of_parsed candidate1] [candidate1] "addr_test1"
    (hex_text (replicate 28 4%Z)) (hex_text (replicate 28 5%Z)) (hex_text (replicate 28 0%Z)) "0x" "addr_test2".
#[local] Definition text_bytes (s : string) : bytes := map (fun c => Z.of_nat (Ascii.nat_of_ascii c)) (str_of s).
#[local] Definition scripts1 : MainChainScripts := mkMainChainScripts (text_bytes "addr_test1") (replicate 28 4) (replicate 28 5)%Z.
#[local] Definition tokens1 : NativeToken.MainChainScripts := NativeToken.mkMainChainScripts (replicate 28 0%Z) [] (text_bytes "addr_test2").

Lemma written_value p v m answers log env :
  config_value p (mkEnvWorld (mkWorld (<[p := to_string_pretty v]> m) answers log) env) = Some v.
Proof. unfold config_value. cbn [files env_console_files ew_console world_files]. rewrite lookup_insert_eq. apply from_json_pretty. Qed.
Lemma written_value_ne p q c m answers log env : q <> p ->
  config_value p (mkEnvWorld (mkWorld (<[q := c]> m) answers log) env) = config_value p (mkEnvWorld (mkWorld m answers log) env).
Proof. intros Hne. unfold config_value. cbn [files env_console_files ew_console world_files]. by rewrite lookup_insert_ne. Qed.
Lemma config_file1_value : config_value CHAIN_CONFIG_FILE_PATH world1 = Some config_file1.
Proof. unfold world1. apply written_value. Qed.
Lemma resources1_value : config_value RESOURCES_CONFIG_FILE_PATH world1 = Some resources1.
Proof. unfold world1. rewrite written_value_ne by done. apply written_value. Qed.
Lemma world1_configured : configured config1 world1.
Proof.
  split; unfold field_value; try (change (config_file _) with CHAIN_CONFIG_FILE_PATH; rewrite config_file1_value); vm_compute; reflexivity.
Qed.
Lemma config1_denotes : denotes config1 scripts1 tokens1.
Proof.
  split; try (vm_compute; reflexivity); repeat split; try (vm_compute; reflexivity || lia);
    repeat constructor; vm_compute; intuition congruence.
Qed.
Lemma created_chain_spec_is_accepted_witness :
  exists w' spec genesis rt0, create_chain_spec_run "" world1 = (w', Done (Ok tt)) /\
    config_value CHAIN_SPEC_PATH w' = Some spec /\ pointer_get GENESIS_CONFIG spec = Some genesis /\
    build_state (BeneficiaryId := Z) genesis [1%Z] sys1 = Done (Ok rt0) /\
    CommitteeManagement.committee (CommitteeManagement.CurrentCommittee (Runtime.committee_of rt0)) = [authority_of candidate1].
Proof.
  destruct (created_chain_spec_is_accepted (BeneficiaryId := Z) "" config1 scripts1 tokens1 "./node" [1%Z] sys1 world1)
    as (w' & spec & genesis & rt0 & Hr & Hs & Hg & Hb & _ & _ & _ & _ & Hc & _).
  - exact world1_configured.
  - exact config1_denotes.
  - reflexivity.
  - unfold field_value. change (config_file _) with RESOURCES_CONFIG_FILE_PATH. rewrite resources1_value. vm_compute. reflexivity.
  - exact node_is_there.
  - intros f Hf nm Hn. change (environment world1) with ({[ "PATH" := "/bin" ]} : Env) in Hn.
    destruct (decide (nm = "PATH")) as [->|Hne]; [|rewrite lookup_singleton_ne in Hn by done; by destruct Hn].
    intros Hl. exfalso. rewrite <- Hl in Hf. revert Hf. apply (bool_decide_unpack _). vm_compute. exact I.
  - exists w', spec, genesis, rt0. split_and!; [exact Hr | exact Hs | exact Hg | exact Hb | exact Hc].
Defined.
End Witness.
