(* ===== verification/Consensus.v ===== *)
(** * The consensus pallets

    What the session pallet tells Aura and Grandpa: the implementation of [SessionHandler] for
    tuples in [pallets/partner-chains-session], which gives every pallet its own keys of the
    validators, the session keys of [node/runtime/src/lib.rs] and the runtime APIs that the
    clients of the two pallets call. The handler's calls are those that [Session] records; the
    pallets do not call back, so that they are delivered after the runtime's part of a block.

    [pallet_aura] and [pallet_grandpa] are third-party ([ConsensusPallets]), with their
    documented behaviour as laws: Aura changes its authorities at once and ignores an empty
    set; Grandpa schedules a change, which takes effect when the block is finalized. *)

From S2P Require Import Prelude Domain McEpoch Slots Cbor Selection Ariadne Committee Session NativeToken BlockRewards Runtime ChainQueries NodeCommands.

(** ** Session keys *)

(** [KeyTypeId], four bytes as a number. *)
#[local] Abbreviation KeyTypeId := Z (only parsing).
(** [OpaqueKeys]: the key types in order, and the key of a type. *)
Class OpaqueKeys (Keys : Type) := {
  key_ids : list KeyTypeId;
  get_key : KeyTypeId -> Keys -> option bytes
}.
Definition KEY_TYPE_AURA : KeyTypeId := 0x61757261.         (* b"aura" *)
Definition KEY_TYPE_GRANDPA : KeyTypeId := 0x6772616e.      (* b"gran" *)
Definition KEY_TYPE_CROSS_CHAIN : KeyTypeId := 0x63726368.  (* b"crch" *)

(** What [impl_opaque_keys!] generates for [SessionKeys]. *)
#[export] Instance session_opaque_keys : OpaqueKeys SessionKeys := {|
  key_ids := [KEY_TYPE_AURA; KEY_TYPE_GRANDPA];
  get_key i k := if i =? KEY_TYPE_AURA then Some (sk_aura k) else if i =? KEY_TYPE_GRANDPA then Some (sk_grandpa k) else None
|}.

(** ** Handlers *)

(** [OneSessionHandler] of a pallet with storage [St]. *)
Record OneSessionHandler {ValidatorId St : Type} := mkOneSessionHandler {
  key_type_id : KeyTypeId;
  one_on_genesis_session : list (ValidatorId * bytes) -> St -> outcome St;
  one_on_new_session : bool -> list (ValidatorId * bytes) -> list (ValidatorId * bytes) -> St -> outcome St;
  one_on_before_session_ending : St -> outcome St;
  one_on_disabled : Z -> St -> outcome St
}.
Arguments OneSessionHandler : clear implicits.

Module SessionHandler.
Section Tuple.
Context {ValidatorId Keys : Type} `{OpaqueKeys Keys}.

(** A tuple of pallets, and the tuple of their storages. *)
Inductive Tuple : Type -> Type :=
| tuple_nil : Tuple ()
| tuple_cons {A B : Type} (h : OneSessionHandler ValidatorId A) (t : Tuple B) : Tuple (A * B).

(** The keys of a pallet's type; validators without one are left out. *)
Definition our_keys (i : KeyTypeId) (validators : list (ValidatorId * Keys)) : list (ValidatorId * bytes) :=
  omap (fun k => k1 ← get_key i (snd k); Some (fst k, k1)) validators.

Fixpoint KEY_TYPE_IDS {S} (t : Tuple S) : list KeyTypeId :=
  match t with tuple_nil => [] | tuple_cons h t => key_type_id h :: KEY_TYPE_IDS t end.
Fixpoint on_genesis_session (validators : list (ValidatorId * Keys)) {S} (t : Tuple S) : S -> outcome S :=
  match t with
  | tuple_nil => fun s => Done s
  | tuple_cons h t => fun '(a, b) =>
      a ← one_on_genesis_session h (our_keys (key_type_id h) validators) a;
      b ← on_genesis_session validators t b; Done (a, b)
  end.
Fixpoint on_new_session (changed : bool) (validators queued_validators : list (ValidatorId * Keys)) {S} (t : Tuple S) : S -> outcome S :=
  match t with
  | tuple_nil => fun s => Done s
  | tuple_cons h t => fun '(a, b) =>
      a ← one_on_new_session h changed (our_keys (key_type_id h) validators) (our_keys (key_type_id h) queued_validators) a;
      b ← on_new_session changed validators queued_validators t b; Done (a, b)
  end.
Fixpoint on_before_session_ending {S} (t : Tuple S) : S -> outcome S :=
  match t with
  | tuple_nil => fun s => Done s
  | tuple_cons h t => fun '(a, b) => a ← one_on_before_session_ending h a; b ← on_before_session_ending t b; Done (a, b)
  end.
Fixpoint on_disabled (i : Z) {S} (t : Tuple S) : S -> outcome S :=
  match t with
  | tuple_nil => fun s => Done s
  | tuple_cons h t => fun '(a, b) => a ← one_on_disabled h i a; b ← on_disabled i t b; Done (a, b)
  end.

(** The calls that the session pallet makes, in order. *)
Definition handle {S} (t : Tuple S) (call : SessionPallet.HandlerCall ValidatorId Keys) : S -> outcome S :=
  match call with
  | SessionPallet.on_genesis_session validators => on_genesis_session validators t
  | SessionPallet.on_new_session changed validators queued => on_new_session changed validators queued t
  | SessionPallet.on_before_session_ending => on_before_session_ending t
  | SessionPallet.on_disabled i => on_disabled i t
  end.
Fixpoint deliver {S} (t : Tuple S) (calls : list (SessionPallet.HandlerCall ValidatorId Keys)) (s : S) : outcome S :=
  match calls with [] => Done s | call :: calls => s ← handle t call s; deliver t calls s end.
End Tuple.
Arguments Tuple : clear implicits.
End SessionHandler.

(** ** Aura and Grandpa *)
Class ConsensusPallets (ValidatorId : Type) := {
  AuraState : Type;
  GrandpaState : Type;
  (* the handlers, in the block of a number *)
  aura_handler : Z -> OneSessionHandler ValidatorId AuraState;
  grandpa_handler : Z -> OneSessionHandler ValidatorId GrandpaState;
  pallet_aura_authorities : AuraState -> list bytes;
  pallet_grandpa_authorities : GrandpaState -> list (bytes * Z);
  current_set_id : GrandpaState -> Z;
  grandpa_on_finalize : Z -> GrandpaState -> GrandpaState;
  (* no change is pending, and none is forced *)
  grandpa_idle : GrandpaState -> Prop
}.

Module Consensus.
Section Runtime.
Context `{Minicbor, Crypto, Accounts, Rng, U256, BoundedVecOps}.
Context {AccountId : Type} `{EqDecision AccountId, System AccountId} `{Countable BeneficiaryId}.
Context `{OpaqueKeys TAccountKeys, ConsensusPallets AccountId}.
#[local] Abbreviation RT := (@Runtime.Runtime _ AccountId _ BeneficiaryId _ _).

Definition MaxAuthorities : nat := Runtime.MaxValidators.
Definition State : Type := AuraState * (GrandpaState * ()).
(** [KeyTypeIdProviders] of the session keys: [(Aura, Grandpa)]. *)
Definition handlers (block_nr : Z) : SessionHandler.Tuple AccountId State :=
  SessionHandler.tuple_cons (aura_handler block_nr) (SessionHandler.tuple_cons (grandpa_handler block_nr) SessionHandler.tuple_nil).
Definition finalize (block_nr : Z) (c : State) : State :=
  let '(aura, (grandpa, _)) := c in (aura, (grandpa_on_finalize block_nr grandpa, ())).

(** A block that takes the runtime from [rt] to [rt']. *)
Definition block_calls (rt rt' : RT) : list (SessionPallet.HandlerCall AccountId TAccountKeys) :=
  drop (length (SessionPallet.handled (Runtime.Session rt))) (SessionPallet.handled (Runtime.Session rt')).
Definition consensus_block (block_nr : Z) (rt rt' : RT) (c : State) : outcome State :=
  c ← SessionHandler.deliver (handlers block_nr) (block_calls rt rt') c; Done (finalize block_nr c).
(** After every block. *)
Fixpoint consensus_states (block_nr : Z) (rt : RT) (rts : list RT) (c : State) : outcome (list State) :=
  match rts with
  | [] => Done []
  | rt' :: rts => c ← consensus_block block_nr rt rt' c;
                  cs ← consensus_states (block_nr + 1) rt' rts c; Done (c :: cs)
  end.
(** Genesis: the pallets' own configurations have no authorities; the session pallet's genesis
    provides them. *)
Definition consensus_genesis (rt0 : RT) (c : State) : outcome State :=
  SessionHandler.deliver (handlers 0) (SessionPallet.handled (Runtime.Session rt0)) c.

(** The runtime APIs. *)
Definition MILLISECS_PER_BLOCK : Z := 6000.
Definition SLOT_DURATION : Z := MILLISECS_PER_BLOCK.
Definition runtime_slot_duration : Z := SLOT_DURATION.
Definition runtime_authorities (c : State) : list bytes := pallet_aura_authorities (fst c).
Definition runtime_grandpa_authorities (c : State) : list (bytes * Z) := pallet_grandpa_authorities (fst (snd c)).
Definition runtime_current_set_id (c : State) : Z := current_set_id (fst (snd c)).
Definition runtime_slot_config (rt : RT) : Slots.ScSlotConfig :=
  Slots.mkScSlotConfig (SidechainPallet.SlotsPerEpoch (Runtime.Sidechain rt)) runtime_slot_duration.
Definition runtime_get_next_unset_epoch_number (rt : RT) : ScEpochNumber :=
  CommitteeManagement.get_next_unset_epoch_number (Runtime.committee_of rt).
Definition runtime_calculate_committee (rt : RT) (authority_selection_inputs : AuthoritySelectionInputs) (sidechain_epoch : ScEpochNumber)
    : outcome (option (list (TAccountId * TAccountKeys))) :=
  CommitteeManagement.calculate_committee
    (Runtime.runtime_select_authorities (SidechainPallet.GenesisUtxo (Runtime.Sidechain rt))) authority_selection_inputs sidechain_epoch.
End Runtime.
End Consensus.

(** ** Generating keys *)

(** The keystore: a new key of a type, from a seed if there is one. *)
Class KeyGenerator (KS : Type) := generate_key : KeyTypeId -> option bytes -> KS -> KS * bytes.
Section GenerateKeys.
Context `{KeyGenerator KS}.
(** [CrossChainKey::generate] and [SessionKeys::generate], which returns the encoded keys. *)
Definition CrossChainKey_generate (seed : option bytes) (ks : KS) : KS * bytes := generate_key KEY_TYPE_CROSS_CHAIN seed ks.
Definition SessionKeys_encode (k : SessionKeys) : bytes := sk_aura k ++ sk_grandpa k.
Definition SessionKeys_generate (seed : option bytes) (ks : KS) : KS * bytes :=
  let '(ks, aura) := generate_key KEY_TYPE_AURA seed ks in
  let '(ks, grandpa) := generate_key KEY_TYPE_GRANDPA seed ks in
  (ks, SessionKeys_encode (mkSessionKeys aura grandpa)).
Definition runtime_generate_session_keys (seed : option bytes) (ks : KS) : KS * bytes :=
  let '(ks, _) := CrossChainKey_generate seed ks in SessionKeys_generate seed ks.
(** Two arrays of 32 bytes; SCALE's decoding ignores what follows. *)
Definition SessionKeys_decode (encoded : bytes) : option SessionKeys :=
  if (64 <=? length encoded)%nat then Some (mkSessionKeys (take 32 encoded) (take 32 (drop 32 encoded))) else None.
Definition runtime_decode_session_keys (encoded : bytes) : option (list (bytes * KeyTypeId)) :=
  k ← SessionKeys_decode encoded; Some [(sk_aura k, KEY_TYPE_AURA); (sk_grandpa k, KEY_TYPE_GRANDPA)].

(** What [generate_session_keys] returns decodes to the keys that it put into the keystore. *)
Theorem generated_keys_decode seed ks :
  (forall i s k, length (snd (generate_key i s k)) = 32%nat) ->
  let ks1 := fst (generate_key KEY_TYPE_CROSS_CHAIN seed ks) in
  let '(ks2, aura) := generate_key KEY_TYPE_AURA seed ks1 in
  let '(ks3, grandpa) := generate_key KEY_TYPE_GRANDPA seed ks2 in
  fst (runtime_generate_session_keys seed ks) = ks3 /\
  runtime_decode_session_keys (snd (runtime_generate_session_keys seed ks)) = Some [(aura, KEY_TYPE_AURA); (grandpa, KEY_TYPE_GRANDPA)].
Proof.
  intros Hlen ks1. unfold runtime_generate_session_keys, CrossChainKey_generate, SessionKeys_generate.
  destruct (generate_key KEY_TYPE_CROSS_CHAIN seed ks) as [ks1' cross] eqn:E1. subst ks1. cbn [fst].
  destruct (generate_key KEY_TYPE_AURA seed ks1') as [ks2 aura] eqn:E2. destruct (generate_key KEY_TYPE_GRANDPA seed ks2) as [ks3 grandpa] eqn:E3.
  pose proof (Hlen KEY_TYPE_AURA seed ks1') as Ha. rewrite E2 in Ha. pose proof (Hlen KEY_TYPE_GRANDPA seed ks2) as Hg. rewrite E3 in Hg. cbn in Ha, Hg.
  split; [done|]. unfold runtime_decode_session_keys, SessionKeys_decode, SessionKeys_encode. cbn [snd sk_aura sk_grandpa].
  rewrite length_app, Ha, Hg. cbn [Nat.add Nat.leb mbind option_bind sk_aura sk_grandpa].
  by rewrite take_app_length', drop_app_length', take_ge by lia.
Qed.
End GenerateKeys.

(** Documented behaviour of the two pallets, each with room for [MaxAuthorities]. *)
Class ConsensusPalletsLaws (ValidatorId : Type) `{ConsensusPallets ValidatorId} : Prop := {
  aura_id : forall n, key_type_id (aura_handler n) = KEY_TYPE_AURA;
  grandpa_id : forall n, key_type_id (grandpa_handler n) = KEY_TYPE_GRANDPA;
  aura_genesis : forall vs a, pallet_aura_authorities a = [] -> (length vs <= Consensus.MaxAuthorities)%nat ->
    exists a', one_on_genesis_session (aura_handler 0) vs a = Done a' /\ pallet_aura_authorities a' = map snd vs;
  (* [change_authorities] is a no-op for an empty set *)
  aura_new_session : forall n vs queued a,
    exists a', one_on_new_session (aura_handler n) true vs queued a = Done a' /\
      pallet_aura_authorities a' =
        match vs with [] => pallet_aura_authorities a | _ => take Consensus.MaxAuthorities (map snd vs) end;
  aura_session_ending : forall n a, one_on_before_session_ending (aura_handler n) a = Done a;
  grandpa_genesis : forall vs g, grandpa_idle g -> pallet_grandpa_authorities g = [] -> (length vs <= Consensus.MaxAuthorities)%nat ->
    exists g', one_on_genesis_session (grandpa_handler 0) vs g = Done g' /\ grandpa_idle g' /\
      pallet_grandpa_authorities g' = map (fun v => (snd v, 1)) vs;
  (* a change without delay takes effect at the end of its block *)
  grandpa_new_session : forall n vs queued g, grandpa_idle g ->
    exists g', one_on_new_session (grandpa_handler n) true vs queued g = Done g' /\ grandpa_idle (grandpa_on_finalize n g') /\
      pallet_grandpa_authorities (grandpa_on_finalize n g') = map (fun v => (snd v, 1)) vs;
  grandpa_session_ending : forall n g, one_on_before_session_ending (grandpa_handler n) g = Done g;
  grandpa_finalize_idle : forall n g, grandpa_idle g -> grandpa_idle (grandpa_on_finalize n g) /\
    pallet_grandpa_authorities (grandpa_on_finalize n g) = pallet_grandpa_authorities g
}.

(** Keys that have one of each of the two types. *)
Class HasConsensusKeys (Keys : Type) `{OpaqueKeys Keys} := {
  aura_key : Keys -> bytes;
  grandpa_key : Keys -> bytes;
  get_aura_key : forall k, get_key KEY_TYPE_AURA k = Some (aura_key k);
  get_grandpa_key : forall k, get_key KEY_TYPE_GRANDPA k = Some (grandpa_key k)
}.
#[export] Instance session_consensus_keys : HasConsensusKeys SessionKeys.
Proof. by refine {| aura_key := sk_aura; grandpa_key := sk_grandpa |}. Defined.

(** ** Specification: who authors the blocks of a chain *)
Module Authors.
Section Spec.
Context {AuthorityId Keys : Type}.
#[local] Abbreviation Info := (CommitteeManagement.CommitteeInfo AuthorityId Keys).
(** The committee in office, unless it is empty: then the authors stay. *)
Definition unless_empty (authors committee : list (AuthorityId * Keys)) : list (AuthorityId * Keys) :=
  match committee with [] => authors | m :: committee => m :: committee end.
Definition next (authors : list (AuthorityId * Keys)) (s : Info * Info) : list (AuthorityId * Keys) :=
  unless_empty authors (CommitteeManagement.committee (fst s)).
Fixpoint history (authors : list (AuthorityId * Keys)) (h : list (Info * Info)) : list (list (AuthorityId * Keys)) :=
  match h with [] => [] | s :: h => next authors s :: history (next authors s) h end.
End Spec.
End Authors.

(** ** The calls of a block *)
Section Calls.
Import Runtime.
Context `{Minicbor, Crypto, Accounts, Rng, U256, BoundedVecOps}.
Context {AccountId : Type} `{EqDecision AccountId, System AccountId} (into : TAccountId -> AccountId).
Context (account_id_leb : AccountId -> AccountId -> bool).
Context `{Countable BeneficiaryId}.
Implicit Types rt : @Runtime _ AccountId _ BeneficiaryId _ _.

(** A block rotates the session or leaves it alone. *)
Inductive handles rt rt' : Prop :=
| handles_rotation :
    SessionPallet.handled (Session rt') = SessionPallet.handled (Session rt) ++
      [SessionPallet.on_before_session_ending; SessionPallet.on_new_session true (SessionPallet.ValidatorsAndKeys (Session rt')) []] ->
    handles rt rt'
| handles_nothing :
    SessionPallet.handled (Session rt') = SessionPallet.handled (Session rt) ->
    SessionPallet.ValidatorsAndKeys (Session rt') = SessionPallet.ValidatorsAndKeys (Session rt) -> handles rt rt'.

Lemma initialize_block_handles n slot rt rt1 : initialize_block into account_id_leb n slot rt = Done rt1 -> handles rt rt1.
Proof.
  unfold initialize_block. destruct (SidechainPallet.on_initialize _ _ _ _) as [[sc [r p]]|]; [|done]. simpl_monad.
  destruct (SidechainPallet.current_epoch_number _ _) as [e|]; [|done]. simpl_monad.
  rewrite session_on_initialize_spec. simpl_monad. intros [= <-].
  destruct (CommitteeManagement.NextCommittee _) as [next|]; [|by apply handles_nothing].
  destruct (_ <? _); [|by apply handles_nothing]. apply handles_rotation. cbn. by rewrite <- app_assoc.
Qed.
Lemma committee_inherent_keeps inputs rt rt' :
  apply_committee_inherent inputs rt = Done (Some rt') ->
  SessionPallet.handled (Session rt') = SessionPallet.handled (Session rt) /\
  SessionPallet.ValidatorsAndKeys (Session rt') = SessionPallet.ValidatorsAndKeys (Session rt).
Proof.
  unfold apply_committee_inherent. destruct (CommitteeManagement.create_inherent _ _ _) as [[call|]|]; simpl_monad; [|by intros [= <-]|done].
  destruct (CommitteeManagement.dispatch _ _ _); [by intros [= <-] | done].
Qed.
Lemma execute_block_handles n b rt rt' : execute_block into account_id_leb n b rt = Done (Some rt') -> handles rt rt'.
Proof.
  unfold execute_block, bind_valid. destruct (initialize_block into account_id_leb n (bd_slot b) rt) as [rt1|] eqn:E1; [|done]. simpl_monad.
  destruct (apply_committee_inherent (bd_inputs b) rt1) as [[rt2|]|] eqn:E2; [|done..]. simpl_monad.
  destruct (apply_beneficiary_inherent _ _) as [[rt3|]|] eqn:E3; [|done..]. simpl_monad.
  destruct (apply_token_inherent _ _) as [[rt4|]|] eqn:E4; [|done..]. simpl_monad.
  destruct (finalize_block _) as [rt5|] eqn:E5; [|done]. simpl_monad. intros [= <-].
  apply finalize_keeps in E5. apply token_keeps in E4. apply beneficiary_keeps in E3.
  apply committee_inherent_keeps in E2 as [Hh Hv]. rewrite <- E3, <- E4, <- E5 in Hh, Hv.
  destruct (initialize_block_handles _ _ _ _ E1) as [Hr | Hn Hn2].
  - apply handles_rotation. by rewrite Hh, Hv.
  - apply handles_nothing; congruence.
Qed.
Lemma genesis_handles sidechain committee native key_ids sys rt0 :
  genesis into account_id_leb sidechain committee native key_ids sys = Done rt0 ->
  SessionPallet.handled (Session rt0) = [SessionPallet.on_genesis_session (SessionPallet.ValidatorsAndKeys (Session rt0))] /\
  CommitteeManagement.committee (CommitteeManagement.CurrentCommittee (committee_of rt0)) =
    truncate_from MaxValidators (CommitteeManagement.initial_authorities committee).
Proof.
  unfold genesis, SessionPallet.build. rewrite bool_decide_eq_true_2 by done.
  cbn - [SessionPallet.rotate_validators]. rewrite rotate_validators_done. simpl_monad. by intros [= <-].
Qed.
End Calls.

(** ** The pallets follow the committees *)
Section Follows.
Import Runtime Consensus.
Context `{Minicbor, Crypto, Accounts, RngLaws, U256Laws, BoundedVecLaws}.
Context {AccountId : Type} `{EqDecision AccountId, System AccountId} (into : TAccountId -> AccountId).
Context (account_id_leb : AccountId -> AccountId -> bool).
Context `{Countable BeneficiaryId}.
Context `{HasConsensusKeys TAccountKeys, ConsensusPalletsLaws AccountId}.
Implicit Types (rt : @Runtime _ AccountId _ BeneficiaryId _ _) (c : State).
#[local] Abbreviation Member := (prod (@TAccountId _) (@TAccountKeys _)) (only parsing).

Definition aura_keys (committee : list (TAccountId * TAccountKeys)) : list bytes := map (fun m => aura_key (snd m)) committee.
Definition grandpa_weights (committee : list (TAccountId * TAccountKeys)) : list (bytes * Z) :=
  map (fun m => (grandpa_key (snd m), 1)) committee.
Definition committee_now rt : list (TAccountId * TAccountKeys) :=
  CommitteeManagement.committee (CommitteeManagement.CurrentCommittee (committee_of rt)).

(** Aura's and Grandpa's authorities in a state of the runtime with these authors. *)
Record pallets_follow (authors : list (TAccountId * TAccountKeys)) (committee : list (TAccountId * TAccountKeys)) c : Prop := {
  follows_aura : runtime_authorities c = aura_keys authors;
  follows_grandpa : runtime_grandpa_authorities c = grandpa_weights committee;
  follows_idle : grandpa_idle (fst (snd c))
}.

Lemma our_aura_keys (committee : list (TAccountId * TAccountKeys)) :
  SessionHandler.our_keys KEY_TYPE_AURA (map (fun a => (into (fst a), snd a)) committee) = map (fun a => (into (fst a), aura_key (snd a))) committee.
Proof. induction committee as [|a l IH]; [done|]. unfold SessionHandler.our_keys in *. cbn. rewrite get_aura_key. cbn. by rewrite IH. Qed.
Lemma our_grandpa_keys (committee : list (TAccountId * TAccountKeys)) :
  SessionHandler.our_keys KEY_TYPE_GRANDPA (map (fun a => (into (fst a), snd a)) committee) = map (fun a => (into (fst a), grandpa_key (snd a))) committee.
Proof. induction committee as [|a l IH]; [done|]. unfold SessionHandler.our_keys in *. cbn. rewrite get_grandpa_key. cbn. by rewrite IH. Qed.

Lemma genesis_delivered (committee : list (TAccountId * TAccountKeys)) c :
  (length committee <= MaxAuthorities)%nat -> pallets_follow [] [] c ->
  exists c', SessionHandler.deliver (handlers 0) [SessionPallet.on_genesis_session (map (fun a => (into (fst a), snd a)) committee)] c = Done c' /\
    pallets_follow committee committee c'.
Proof.
  intros Hlen [Ha Hg Hi]. destruct c as [a [g []]]. cbn in Ha, Hg, Hi.
  cbn [SessionHandler.deliver SessionHandler.handle SessionHandler.on_genesis_session handlers]. rewrite aura_id, grandpa_id, our_aura_keys, our_grandpa_keys.
  destruct (aura_genesis (map (fun m => (into (fst m), aura_key (snd m))) committee) a Ha) as (a' & -> & Ha'); [by rewrite length_map|].
  destruct (grandpa_genesis (map (fun m => (into (fst m), grandpa_key (snd m))) committee) g Hi Hg) as (g' & -> & Hi' & Hg'); [by rewrite length_map|].
  simpl_monad. eexists. split; [reflexivity|]. rewrite map_map in Ha', Hg'. by split.
Qed.
Lemma rotation_delivered n authors committee committee' c :
  (length committee' <= MaxAuthorities)%nat -> pallets_follow authors committee c ->
  exists c', SessionHandler.deliver (handlers n)
      [SessionPallet.on_before_session_ending; SessionPallet.on_new_session true (map (fun a => (into (fst a), snd a)) committee') []] c = Done c' /\
    pallets_follow (Authors.unless_empty authors committee') committee' (finalize n c').
Proof.
  intros Hlen [Ha Hg Hi]. destruct c as [a [g []]]. cbn in Ha, Hg, Hi.
  cbn [SessionHandler.deliver SessionHandler.handle SessionHandler.on_before_session_ending SessionHandler.on_new_session handlers].
  rewrite aura_session_ending, grandpa_session_ending. simpl_monad. rewrite aura_id, grandpa_id, our_aura_keys, our_grandpa_keys.
  match goal with |- context [one_on_new_session (aura_handler n) true ?vs ?q a] => destruct (aura_new_session n vs q a) as (a' & -> & Ha') end.
  match goal with |- context [one_on_new_session (grandpa_handler n) true ?vs ?q g] => destruct (grandpa_new_session n vs q g Hi) as (g' & -> & Hi' & Hg') end.
  simpl_monad. eexists. split; [reflexivity|]. rewrite map_map in Hg'. split; [|exact Hg' | exact Hi'].
  unfold runtime_authorities. cbn [finalize fst]. rewrite Ha'. destruct committee' as [|m l]; [exact Ha|].
  cbn [map]. rewrite take_ge by (cbn; rewrite !length_map; exact Hlen). cbn. by rewrite map_map.
Qed.

(** The keys are the same when the session's validators are. *)
Lemma same_validators_keys (l l' : list (TAccountId * TAccountKeys)) :
  map (fun a => (into (fst a), snd a)) l = map (fun a => (into (fst a), snd a)) l' ->
  aura_keys l = aura_keys l' /\ grandpa_weights l = grandpa_weights l' /\ (l = [] <-> l' = []).
Proof.
  revert l'; induction l as [|a l IH]; intros [|a' l'] Heq; [done | discriminate Heq..|].
  injection Heq as _ Hk Heq. destruct (IH l' Heq) as (Ha & Hg & _). unfold aura_keys, grandpa_weights in *. cbn.
  rewrite Hk, Ha, Hg. split; [done|]. split; [done|]. by split.
Qed.

(** One block. *)
Lemma consensus_follows_block g spe n rt rt' authors c :
  base_inv into g spe rt -> base_inv into g spe rt' -> handles rt rt' -> pallets_follow authors (committee_now rt) c ->
  (committee_now rt <> [] -> aura_keys authors = aura_keys (committee_now rt)) ->
  exists c', consensus_block n rt rt' c = Done c' /\
    pallets_follow (Authors.unless_empty authors (committee_now rt')) (committee_now rt') c'.
Proof.
  intros [_ Hs _ _ _] [[_ Hlen' _] Hs' _ _ _] Hh Hf Hauth. unfold in_sync in Hs, Hs'. fold (committee_now rt) in Hs. fold (committee_now rt') in Hs', Hlen'.
  unfold consensus_block, block_calls. destruct Hh as [Hr|Hn Hv].
  - rewrite Hr, drop_app_length, Hs'.
    destruct (rotation_delivered n authors (committee_now rt) (committee_now rt') c Hlen' Hf) as (c' & -> & Hf'). simpl_monad.
    eexists. split; [reflexivity | exact Hf'].
  - rewrite Hn, drop_all. cbn [SessionHandler.deliver]. simpl_monad. eexists. split; [reflexivity|].
    rewrite Hs, Hs' in Hv. apply same_validators_keys in Hv as (Ha & Hg & Hnil). destruct Hf as [Hfa Hfg Hfi]. destruct c as [a [gr []]].
    cbn in Hfi. destruct (grandpa_finalize_idle n gr Hfi) as [Hi Hsame]. unfold runtime_authorities, runtime_grandpa_authorities in *. cbn in Hfa, Hfg.
    split; unfold runtime_authorities, runtime_grandpa_authorities; cbn [finalize fst snd]; [|by rewrite Hsame, Hfg, <- Hg | exact Hi].
    rewrite Hfa. destruct (committee_now rt') as [|m l] eqn:Hl; [done|]. rewrite Hauth; [by rewrite <- Ha|]. intros Hnow. by apply Hnil in Hnow.
Qed.

(** All blocks. *)
Lemma consensus_follows g spe n bs rt rts h authors c :
  ChainStates.run_states into account_id_leb n bs rt = Done (Some rts) -> base_inv into g spe rt ->
  Forall2 (fun rt _ => base_inv into g spe rt) rts bs -> Forall2 in_office rts h -> pallets_follow authors (committee_now rt) c ->
  (committee_now rt <> [] -> aura_keys authors = aura_keys (committee_now rt)) ->
  exists cs, consensus_states n rt rts c = Done cs /\
    Forall3 (fun c authors s => pallets_follow authors (CommitteeManagement.committee (fst s)) c) cs (Authors.history authors h) h.
Proof.
  revert n rt rts h authors c; induction bs as [|b bs IH]; intros n rt rts h authors c Hr Hb Hbs Ho Hf Hauth.
  { injection Hr as <-. inversion Ho; subst. exists []. split; [done | constructor]. }
  cbn [ChainStates.run_states] in Hr. unfold bind_valid in Hr.
  destruct (execute_block into account_id_leb n b rt) as [[rt1|]|] eqn:E; [|discriminate Hr..]. cbn [mbind outcome_bind] in Hr.
  destruct (ChainStates.run_states into account_id_leb (n + 1) bs rt1) as [[rts1|]|] eqn:E1; [|discriminate Hr..]. injection Hr as <-.
  inversion Hbs as [|? ? ? ? Hb1 Hbs1]; subst. inversion Ho as [|? s ? h1 [Hcur _] Ho1]; subst.
  destruct (consensus_follows_block g spe n rt rt1 authors c Hb Hb1 (execute_block_handles _ _ _ _ _ _ E) Hf Hauth) as (c1 & Hc1 & Hf1).
  assert (committee_now rt1 = CommitteeManagement.committee (fst s)) as Hnow by (unfold committee_now; by rewrite Hcur).
  destruct (IH (n + 1) rt1 rts1 h1 (Authors.next authors s) c1 E1 Hb1 Hbs1 Ho1) as (cs & Hcs & Hf3).
  { unfold Authors.next. by rewrite <- Hnow. }
  { unfold Authors.next. rewrite <- Hnow. by destruct (committee_now rt1). }
  exists (c1 :: cs). cbn [consensus_states]. rewrite Hc1. simpl_monad. rewrite Hcs. split; [done|].
  cbn [Authors.history]. constructor; [|done]. unfold Authors.next. by rewrite <- Hnow.
Qed.
End Follows.

(** C3: Block production and finality follow the committees. On any chain from genesis (slots
    that do not decrease, well-formed inputs) the calls of the session pallet are accepted by
    both consensus pallets, and after every block Grandpa's authorities, which the runtime API
    reports, are the Grandpa keys of the committee in office, in order and each with weight 1,
    and Aura's are the Aura keys of that committee, or, when it is empty, of the last one that
    was not. The history of the committees is that of the specification [Committees]. *)
Theorem consensus_follows_committees `{Minicbor, Crypto, Accounts, RngLaws, U256Laws, BoundedVecLaws} {AccountId : Type}
    `{EqDecision AccountId, System AccountId} (into : TAccountId -> AccountId) account_id_leb
    `{Countable BeneficiaryId, HasConsensusKeys TAccountKeys, ConsensusPalletsLaws AccountId}
    sidechain committee native sys (b : @Runtime.BlockData BeneficiaryId) bs (c : Consensus.State) :
  let spe := SidechainPallet.genesis_slots_per_epoch sidechain in let g := SidechainPallet.genesis_utxo sidechain in
  let initial := truncate_from Runtime.MaxValidators (CommitteeManagement.initial_authorities committee) in
  0 < spe -> wf_blocks g 0 (b :: bs) ->
  Consensus.runtime_authorities c = [] -> Consensus.runtime_grandpa_authorities c = [] -> grandpa_idle (fst (snd c)) ->
  exists rt0 rts c0 cs,
    Runtime.genesis into account_id_leb sidechain committee native (SessionHandler.KEY_TYPE_IDS (Consensus.handlers 0)) sys = Done rt0 /\
    ChainStates.run_states into account_id_leb 1 (b :: bs) rt0 = Done (Some rts) /\
    Consensus.consensus_genesis rt0 c = Done c0 /\ Consensus.consensus_states 1 rt0 rts c0 = Done cs /\
    Consensus.runtime_authorities c0 = aura_keys initial /\ Consensus.runtime_grandpa_authorities c0 = grandpa_weights initial /\
    let h := Committees.history g spe initial b bs in
    Forall3 (fun c authors s => Consensus.runtime_authorities c = aura_keys authors /\
      Consensus.runtime_grandpa_authorities c = grandpa_weights (CommitteeManagement.committee (fst s))) cs (Authors.history initial h) h.
Proof.
  intros spe g initial Hpos Hwf Ha Hg Hi.
  destruct (chain_from_genesis into account_id_leb sidechain committee native (SessionHandler.KEY_TYPE_IDS (Consensus.handlers 0)) sys b bs Hpos Hwf)
    as (rt0 & rts & Hgen & Hr & Hb & Ho & Hbs).
  destruct (genesis_handles _ _ _ _ _ _ _ _ Hgen) as [Hh Hc]. fold initial in Hc, Ho. fold (committee_now rt0) in Hc.
  pose proof (base_sync _ _ _ _ Hb) as Hs. unfold in_sync in Hs. fold (committee_now rt0) in Hs. rewrite Hc in Hs.
  destruct (genesis_delivered into initial c) as (c0 & Hc0 & Hf0); [|by split|].
  { unfold initial. rewrite truncate_from_take, length_take. unfold Consensus.MaxAuthorities. lia. }
  rewrite <- Hc in Hf0. destruct (consensus_follows into account_id_leb g spe 1 (b :: bs) rt0 rts _ initial c0 Hr Hb Hbs Ho) as (cs & Hcs & Hf3);
    [by rewrite <- Hc at 1 | by rewrite Hc |].
  exists rt0, rts, c0, cs. unfold Consensus.consensus_genesis. rewrite Hh, Hs. rewrite Hc in Hf0. destruct Hf0 as [Hf0 Hf1 _].
  split_and!; [done..|]. eapply Forall3_impl; [exact Hf3|]. by intros c' authors s [].
Qed.

(** ** Concrete pallets *)
Module ConcreteConsensus.
(** Grandpa's authorities, the change that is pending with its block, and the set's number. *)
Record Grandpa := mkGrandpa { g_authorities : list (bytes * Z); g_pending : option (Z * list (bytes * Z)); g_set_id : Z }.
Definition apply_pending (n : Z) (g : Grandpa) : Grandpa :=
  match g_pending g with
  | Some (at_block, authorities) => if at_block =? n then mkGrandpa authorities None (g_set_id g) else g
  | None => g
  end.
Section Pallets.
Context {ValidatorId : Type}.
Definition aura (n : Z) : OneSessionHandler ValidatorId (list bytes) := {|
  key_type_id := KEY_TYPE_AURA;
  one_on_genesis_session vs a :=
    match vs, a with
    | [], _ => Done a
    | _, [] => if (length vs <=? Consensus.MaxAuthorities)%nat then Done (map snd vs) else Panic
    | _, _ => Panic
    end;
  one_on_new_session changed vs _ a :=
    Done (if changed then match vs with [] => a | _ => take Consensus.MaxAuthorities (map snd vs) end else a);
  one_on_before_session_ending a := Done a;
  one_on_disabled _ a := Done a
|}.
Definition grandpa (n : Z) : OneSessionHandler ValidatorId Grandpa := {|
  key_type_id := KEY_TYPE_GRANDPA;
  one_on_genesis_session vs g :=
    match vs, g_authorities g with
    | [], _ => Done g
    | _, [] => if (length vs <=? Consensus.MaxAuthorities)%nat
               then Done (mkGrandpa (map (fun v => (snd v, 1)) vs) (g_pending g) (g_set_id g)) else Panic
    | _, _ => Panic
    end;
  one_on_new_session changed vs _ g :=
    Done (match changed, g_pending g with
          | true, None => mkGrandpa (g_authorities g) (Some (n, map (fun v => (snd v, 1)) vs)) (g_set_id g +[64] 1)
          | _, _ => g
          end);
  one_on_before_session_ending g := Done g;
  one_on_disabled _ g := Done g
|}.
End Pallets.
#[export] Instance pallets {ValidatorId} : ConsensusPallets ValidatorId := {|
  AuraState := list bytes; GrandpaState := Grandpa; aura_handler := aura; grandpa_handler := grandpa;
  pallet_aura_authorities a := a; pallet_grandpa_authorities := g_authorities; current_set_id := g_set_id;
  grandpa_on_finalize := apply_pending; grandpa_idle g := g_pending g = None
|}.
#[export] Instance pallets_laws {ValidatorId} : ConsensusPalletsLaws ValidatorId.
Proof.
  split; cbn; try done.
  - intros vs a -> Hlen. destruct vs as [|v vs]; [by exists []|]. rewrite (proj2 (Nat.leb_le _ _) Hlen). by eexists.
  - intros n vs queued a. eexists. split; [reflexivity|]. by destruct vs.
  - intros vs [l p i] Hp Hl Hlen. cbn in Hp, Hl. subst. cbn. destruct vs as [|v vs]; [by eexists|].
    rewrite (proj2 (Nat.leb_le _ _) Hlen). by eexists.
  - intros n vs queued [l p i] Hp. cbn in Hp. subst. cbn. eexists. split; [reflexivity|]. unfold apply_pending. cbn. by rewrite Z.eqb_refl.
  - intros n [l p i] Hp. cbn in Hp. by subst.
Qed.
Definition no_authorities {ValidatorId} : @Consensus.State ValidatorId pallets := ([], (mkGrandpa [] None 0, ())).

(** Pairs of keys as session keys. *)
#[export] Instance pair_opaque_keys : OpaqueKeys (bytes * bytes) := {|
  key_ids := [KEY_TYPE_AURA; KEY_TYPE_GRANDPA];
  get_key i k := if i =? KEY_TYPE_AURA then Some (fst k) else if i =? KEY_TYPE_GRANDPA then Some (snd k) else None
|}.
#[export] Instance pair_consensus_keys : HasConsensusKeys (bytes * bytes).
Proof. by refine {| aura_key := fst; grandpa_key := snd |}. Defined.
End ConcreteConsensus.

(** ** Witnesses *)
Section Witnesses.
Import ConcreteAccounts Selection.Concrete Rfc8949 ConcreteConsensus.
#[local] Instance account_providers : System bytes := {| Sys := (); inc_providers _ s := s; dec_providers _ s := Some s |}.
#[local] Instance pair_keys : @OpaqueKeys (@TAccountKeys byte_accounts) := pair_opaque_keys.
#[local] Instance pair_has_keys : HasConsensusKeys (@TAccountKeys byte_accounts) := pair_consensus_keys.
#[local] Definition block_at_slot (inputs : AuthoritySelectionInputs) (slot : Z) : @Runtime.BlockData Z := Runtime.mkBlockData slot inputs 7 None.
#[local] Definition genesis_sidechain := SidechainPallet.mkGenesisConfig Ariadne.utxo0 60.
#[local] Definition genesis_committee : CommitteeManagement.GenesisConfig TAccountId TAccountKeys :=
  CommitteeManagement.mkGenesisConfig [(replicate 33 1, (replicate 32 1, replicate 32 2))] Example2.scripts.
#[local] Definition genesis_tokens := NativeToken.mkMainChainScripts [] [] [].
#[local] Definition same_account : @TAccountId byte_accounts -> bytes := fun a => a.
#[local] Definition genesis_sys : @Sys bytes account_providers := tt.

Lemma consensus_follows_committees_witness :
  exists rt0 rts c0 cs,
    Runtime.genesis same_account bytes_leb genesis_sidechain genesis_committee genesis_tokens [KEY_TYPE_AURA; KEY_TYPE_GRANDPA] genesis_sys = Done rt0 /\
    ChainStates.run_states same_account bytes_leb 1 (map (block_at_slot Ariadne.inputs) [100; 130; 500]) rt0 = Done (Some rts) /\
    Consensus.consensus_genesis rt0 no_authorities = Done c0 /\ Consensus.consensus_states 1 rt0 rts c0 = Done cs /\
    Consensus.runtime_authorities c0 = [replicate 32 1] /\ Consensus.runtime_grandpa_authorities c0 = [(replicate 32 2, 1)] /\ length cs = 3%nat.
Proof.
  destruct (consensus_follows_committees same_account bytes_leb genesis_sidechain genesis_committee genesis_tokens genesis_sys
    (block_at_slot Ariadne.inputs 100) (map (block_at_slot Ariadne.inputs) [130; 500]) no_authorities)
    as (rt0 & rts & c0 & cs & Hg & Hr & Hc0 & Hcs & Ha & Hgr & Hf); [cbn; lia | | reflexivity | reflexivity | reflexivity |].
  - split; [repeat constructor; cbn; lia|]. repeat (constructor; [split; [exact inputs_wf | cbn; lia]|]). constructor.
  - exists rt0, rts, c0, cs. split_and!; [exact Hg | exact Hr | exact Hc0 | exact Hcs | exact Ha | exact Hgr|].
    apply Forall3_length_lr in Hf. exact Hf.
Defined.

(** A D-parameter of [0 + 0] seats selects an empty committee, although there are candidates. Once
    it is in office Grandpa has no authorities, while the previous committee goes on authoring. *)
#[local] Definition no_seats := mkAuthoritySelectionInputs (mkDParameter 0 0) [Ariadne.perm] [Ariadne.cands] [1; 2; 3].
Lemma empty_committee_stops_finality :
  match Runtime.genesis same_account bytes_leb genesis_sidechain genesis_committee genesis_tokens [KEY_TYPE_AURA; KEY_TYPE_GRANDPA] genesis_sys with
  | Done rt0 =>
      match ChainStates.run_states same_account bytes_leb 1 (map (block_at_slot no_seats) [100; 130]) rt0, Consensus.consensus_genesis rt0 no_authorities with
      | Done (Some rts), Done c0 =>
          exists c1 c2, Consensus.consensus_states 1 rt0 rts c0 = Done [c1; c2] /\
            Consensus.runtime_grandpa_authorities c1 = [(replicate 32 2, 1)] /\ Consensus.runtime_grandpa_authorities c2 = [] /\
            Consensus.runtime_authorities c1 = [replicate 32 1] /\ Consensus.runtime_authorities c2 = [replicate 32 1]
      | _, _ => False
      end
  | Panic => False
  end.
Proof. vm_compute. do 2 eexists. split_and!; reflexivity. Qed.

(** [SessionHandler] documents that the validators of the genesis session are used for the second
    session too. They are not: the first rotation hands over the selected committee. *)
Lemma second_session_differs :
  match Runtime.genesis same_account bytes_leb genesis_sidechain genesis_committee genesis_tokens [KEY_TYPE_AURA; KEY_TYPE_GRANDPA] genesis_sys with
  | Done rt0 =>
      match ChainStates.run_states same_account bytes_leb 1 (map (block_at_slot Ariadne.inputs) [100; 130]) rt0 with
      | Done (Some rts) =>
          exists rt1 rt2 genesis second, rts = [rt1; rt2] /\ SessionPallet.handled (Runtime.Session rt2) =
            [SessionPallet.on_genesis_session genesis; SessionPallet.on_before_session_ending; SessionPallet.on_new_session true second []] /\
          length genesis <> length second
      | _ => False
      end
  | Panic => False
  end.
Proof. vm_compute. do 4 eexists. split_and!; [reflexivity..|]. discriminate. Qed.
End Witnesses.
