(* ===== verification/MockSources.v ===== *)
(** * Mock data sources

    [toolkit/mainchain-follower/mock] and [node/node/src/main_chain_follower.rs]: the data
    sources of a node that runs without a main chain, their configuration from the environment
    and a JSON file, and the choice between them and db-sync. *)

From S2P Require Import Prelude Domain McEpoch Slots McHash Cbor Json Selection Ariadne Committee AriadneInherent NativeToken BlockRewards Aura NodeInherents Ogmios OffchainCsl Offchain CliConfig CliRegister CliNode NodeCommands NodeSpec.
#[local] Open Scope string_scope.
#[local] Open Scope list_scope.

(** ** Blocks *)
Module MockBlocks.
(** The duration of a main chain epoch, of 32 bits. *)
Record BlockDataSourceMock := mkBlockDataSourceMock { mc_epoch_duration_millis : Z }.

Definition block_per_epoch (self : BlockDataSourceMock) : Z := mc_epoch_duration_millis self / 20000.
Definition get_latest_stable_block_for (self : BlockDataSourceMock) (reference_timestamp : Z) : fallible string (option MainchainBlock) :=
  let block_number := wrap 32 (reference_timestamp / 20000) in
  epoch ← checked_div block_number (block_per_epoch self);
  let hash_arr := to_be_bytes 4 block_number ++ replicate 28 0%Z in
  Done (Ok (Some (mkMainchainBlock block_number hash_arr epoch block_number reference_timestamp))).
Definition get_stable_block_for (self : BlockDataSourceMock) (_hash : McBlockHash) (reference_timestamp : Z)
    : fallible string (option MainchainBlock) := get_latest_stable_block_for self reference_timestamp.
(** [millis_now] is the argument [now]. *)
Definition get_latest_block_info (self : BlockDataSourceMock) (now : Z) : fallible string MainchainBlock :=
  r ← get_latest_stable_block_for self now;
  block ← expect (ok r);
  block ← expect block;
  Done (Ok block).

(** [McHashDataSourceMock]. *)
#[export] Instance mock_mc_hash : McHashDataSource BlockDataSourceMock := {|
  McHash.get_latest_stable_block_for ts self := get_latest_stable_block_for self ts;
  McHash.get_stable_block_for h ts self := (self, get_stable_block_for self h ts)
|}.
(** [SidechainRpcDataSourceMock]. *)
Definition rpc_get_latest_block_info (self : BlockDataSourceMock) (now : Z) : fallible string MainchainBlock :=
  get_latest_block_info self now.

Definition new_from_env (env : Env) : result string BlockDataSourceMock :=
  text ← ok_or (env !! "MC__EPOCH_DURATION_MILLIS") "environment variable not found";
  mc_epoch_duration_millis ← uint_from_str 32 text;
  Ok (mkBlockDataSourceMock mc_epoch_duration_millis).
End MockBlocks.

(** ** Native tokens *)
Module MockTokens.
Inductive NativeTokenDataSourceMock := mkNativeTokenDataSourceMock.
#[export] Instance mock_native_token : NativeToken.NativeTokenDataSource NativeTokenDataSourceMock :=
  fun _after_block _to_block _policy _asset _address self => (self, Done (Ok 1000%Z)).
End MockTokens.

(** ** Candidates *)
Module MockCandidates.
Inductive MockRegistrationStatus :=
| Active
| PendingActivation (effective_at : Z)
| PendingDeregistration (effective_at : Z).
Record MockRegistration := mkMockRegistration {
  mr_name : option string;
  mr_sidechain_pub_key : bytes;
  mr_mainchain_pub_key : bytes;
  mr_mainchain_signature : bytes;
  mr_sidechain_signature : bytes;
  mr_input_utxo : UtxoId;
  mr_status : MockRegistrationStatus;
  mr_aura_pub_key : bytes;
  mr_grandpa_pub_key : bytes
}.
Record MockPermissionedCandidate := mkMockPermissionedCandidate {
  mp_name : option string;
  mp_sidechain_pub_key : bytes;
  mp_aura_pub_key : bytes;
  mp_grandpa_pub_key : bytes
}.
Record MockDParam := mkMockDParam { md_permissioned : Z; md_registered : Z }.
Record MockEpochCandidates := mkMockEpochCandidates {
  me_permissioned : list MockPermissionedCandidate;
  me_registrations : list MockRegistration;
  me_nonce : bytes;
  me_d_parameter : MockDParam
}.
Record AuthoritySelectionDataSourceMock := mkAuthoritySelectionDataSourceMock {
  epoch_rotation : list MockEpochCandidates;
  mc_epoch_config : MainchainEpochConfig
}.

Section Text.
Context `{HexCodec}.
(** [short_addr.replace_range(5..len - 4, "...")] panics when the range is not in order. *)
Definition short_address (key : bytes) : outcome string :=
  let s := to_hex key in
  let end_ := Z.of_nat (length s) -[64] 4 in
  if ((5 <=? end_) && (end_ <=? Z.of_nat (length s)))%Z then
    Done (of_str (take 5 s) +:+ "..." +:+ of_str (drop (Z.to_nat end_) s))
  else Panic.
Definition registration_info_string (self : MockRegistration) : outcome string :=
  let name := default "<Unnamed>" (mr_name self) in
  let status := match mr_status self with
                | Active => "active"
                | PendingActivation effective_at => "active at " +:+ dec_text effective_at
                | PendingDeregistration effective_at => "active until " +:+ dec_text effective_at
                end in
  short_addr ← short_address (mr_sidechain_pub_key self);
  Done (name +:+ "(" +:+ short_addr +:+ ", " +:+ status +:+ ")").
Definition permissioned_info_string (self : MockPermissionedCandidate) : outcome string :=
  let name := default "<unnamed>" (mp_name self) in
  short_addr ← short_address (mp_sidechain_pub_key self);
  Done (name +:+ "(" +:+ short_addr +:+ ")").
Definition d_param_info_string (self : MockDParam) : string :=
  "permissioned: " +:+ dec_text (md_permissioned self) +:+ ", registered: " +:+ dec_text (md_registered self).

(** *** Conversions *)
(** [hex!("5a9b57731df0e008c5aa7296482c033212b71a3c1796ff00c10db7150c1f3d1d")]. *)
Definition mock_tx_hash : bytes :=
  [90; 155; 87; 115; 29; 240; 224; 8; 197; 170; 114; 150; 72; 44; 3; 50; 18; 183; 26; 60; 23; 150; 255; 0; 193; 13; 183; 21; 12; 31; 61; 29]%Z.
Definition CandidateRegistrations_from_mock (mock : MockRegistration) : outcome CandidateRegistrations :=
  mainchain_pub_key ← expect (to_array 32 (mr_mainchain_pub_key mock));
  let registrations := [mkRegistrationData (mr_input_utxo mock) (mr_sidechain_signature mock) (mr_mainchain_signature mock)
    (mr_sidechain_signature mock) (mr_sidechain_pub_key mock) (mr_sidechain_pub_key mock)
    (mkUtxoInfo (mkUtxoId mock_tx_hash 9) 123 12345 123456 12) [mr_input_utxo mock] (mr_aura_pub_key mock) (mr_grandpa_pub_key mock)]%Z in
  let stake_delegation := Some 333%Z in
  Done (mkCandidateRegistrations mainchain_pub_key registrations stake_delegation).
Definition RawPermissionedCandidateData_from_mock (c : MockPermissionedCandidate) : RawPermissionedCandidateData :=
  mkRawPermissionedCandidateData (mp_sidechain_pub_key c) (mp_aura_pub_key c) (mp_grandpa_pub_key c).
Definition DParameter_from_mock (d : MockDParam) : DParameter := mkDParameter (md_permissioned d) (md_registered d).

(** *** The data source *)
Definition epoch_data (self : AuthoritySelectionDataSourceMock) (epoch_number : Z) : outcome MockEpochCandidates :=
  let n := Z.of_nat (length (epoch_rotation self)) in
  if (n =? 0)%Z then Panic
  else expect (epoch_rotation self !! Z.to_nat (epoch_number mod n)).
(** The arguments of [debug!] are evaluated when the log level is [debug]. *)
Definition debug_args {A} (debug : bool) (f : A -> outcome string) (l : list A) : outcome () :=
  if debug then _strings ← mapM f l; Done tt else Done tt.
Definition mock_get_ariadne_parameters (debug : bool) (self : AuthoritySelectionDataSourceMock) (epoch_number : McEpochNumber)
    (_d_parameter_validator _permissioned_candidates_validator : PolicyId) : outcome (result string AriadneParameters) :=
  data ← epoch_data self epoch_number;
  let d_parameter := me_d_parameter data in
  data ← epoch_data self epoch_number;
  let candidates := me_permissioned data in
  _x ← debug_args debug permissioned_info_string candidates;
  Done (Ok (mkAriadneParameters (DParameter_from_mock d_parameter) (map RawPermissionedCandidateData_from_mock candidates))).
Definition mock_get_candidates (debug : bool) (self : AuthoritySelectionDataSourceMock) (epoch : McEpochNumber)
    (_committee_candidate_address : MainchainAddress) : outcome (result string (list CandidateRegistrations)) :=
  epoch_conf ← epoch_data self epoch;
  let registrations := me_registrations epoch_conf in
  _x ← debug_args debug registration_info_string registrations;
  candidates ← mapM CandidateRegistrations_from_mock registrations;
  Done (Ok candidates).
Definition mock_get_epoch_nonce (self : AuthoritySelectionDataSourceMock) (epoch_number : McEpochNumber)
    : outcome (result string (option EpochNonce)) :=
  epoch_conf ← epoch_data self epoch_number; Done (Ok (Some (me_nonce epoch_conf))).
Definition mock_data_epoch (for_epoch : McEpochNumber) : result string McEpochNumber := Ok (for_epoch -[32] 2).

(** The source as an interface of committee selection; a panic counts as an error. *)
Definition settle {A} (r : outcome (result string A)) : result string A := match r with Done r => r | Panic => Err "panic" end.
Definition mock_source (debug : bool) (self : AuthoritySelectionDataSourceMock) : AuthoritySelectionDataSource :=
  mkAuthoritySelectionDataSource
    (fun e d p => settle (mock_get_ariadne_parameters debug self e d p)) (fun e a => settle (mock_get_candidates debug self e a))
    (fun e => settle (mock_get_epoch_nonce self e)) mock_data_epoch.
End Text.

(** *** Configuration *)
Section Config.
Context `{HexCodec}.
Definition byte_string_member (name : string) (v : JValue) : option bytes :=
  m ← json_get name v; bytes_from_value ByteString.Vec m.
(** A missing or [null] member of type [Option<String>] is [None]. *)
Definition name_member (v : JValue) : option (option string) :=
  match json_get "name" v with None | Some JNull => Some None | Some s => Some <$> string_from_value s end.
(** The derived [Deserialize] of an enum: the name of a variant, or an object with its fields. *)
Definition MockRegistrationStatus_from_value (v : JValue) : option MockRegistrationStatus :=
  match v with
  | JString s => if decide (of_str s = "Active") then Some Active else None
  | JObject [(variant, fields)] =>
      effective_at ← u64_member "effective_at" fields;
      if decide (variant = "PendingActivation") then Some (PendingActivation effective_at)
      else if decide (variant = "PendingDeregistration") then Some (PendingDeregistration effective_at) else None
  | _ => None
  end.
Definition MockRegistration_from_value (v : JValue) : option MockRegistration :=
  name ← name_member v;
  sidechain_pub_key ← byte_string_member "sidechain_pub_key" v;
  mainchain_pub_key ← byte_string_member "mainchain_pub_key" v;
  mainchain_signature ← byte_string_member "mainchain_signature" v;
  sidechain_signature ← byte_string_member "sidechain_signature" v;
  input_utxo ← json_get "input_utxo" v; input_utxo ← UtxoId_from_value input_utxo;
  status ← json_get "status" v; status ← MockRegistrationStatus_from_value status;
  aura_pub_key ← byte_string_member "aura_pub_key" v;
  grandpa_pub_key ← byte_string_member "grandpa_pub_key" v;
  Some (mkMockRegistration name sidechain_pub_key mainchain_pub_key mainchain_signature sidechain_signature input_utxo status
    aura_pub_key grandpa_pub_key).
Definition MockPermissionedCandidate_from_value (v : JValue) : option MockPermissionedCandidate :=
  name ← name_member v;
  sidechain_pub_key ← byte_string_member "sidechain_pub_key" v;
  aura_pub_key ← byte_string_member "aura_pub_key" v;
  grandpa_pub_key ← byte_string_member "grandpa_pub_key" v;
  Some (mkMockPermissionedCandidate name sidechain_pub_key aura_pub_key grandpa_pub_key).
Definition MockDParam_from_value (v : JValue) : option MockDParam :=
  p ← json_get "permissioned" v; p ← uint_from_value 16 p;
  r ← json_get "registered" v; r ← uint_from_value 16 r;
  Some (mkMockDParam p r).
Definition MockEpochCandidates_from_value (v : JValue) : option MockEpochCandidates :=
  permissioned ← json_get "permissioned" v; permissioned ← list_from_value MockPermissionedCandidate_from_value permissioned;
  registrations ← json_get "registrations" v; registrations ← list_from_value MockRegistration_from_value registrations;
  nonce ← byte_string_member "nonce" v;
  d_parameter ← json_get "d_parameter" v; d_parameter ← MockDParam_from_value d_parameter;
  Some (mkMockEpochCandidates permissioned registrations nonce d_parameter).

Context `{SerdeJson, FileSystem}.
Definition read_registrations (path : string) : result string (list MockEpochCandidates) :=
  text ← read_to_string path;
  value ← ok_or (from_json text) "invalid JSON";
  ok_or (list_from_value MockEpochCandidates_from_value value) "invalid registrations".
Definition MockRegistrationsConfig_read (env : Env) : result string (list MockEpochCandidates) :=
  registrations_file_path ← ok_or (env !! "MAIN_CHAIN_FOLLOWER_MOCK_REGISTRATIONS_FILE") "environment variable not found";
  read_registrations registrations_file_path.

(** [figment]: a member of a struct that [Env::prefixed("MC__")] provides, an unsigned integer. *)
Class Figment := figment_uint : Env -> string -> Z -> result string Z.
Context `{Figment}.
Definition MainchainEpochConfig_read_from_env (env : Env) : result string MainchainEpochConfig :=
  first_epoch_timestamp_millis ← figment_uint env "first_epoch_timestamp_millis" 64;
  epoch_duration_millis ← figment_uint env "epoch_duration_millis" 64;
  first_epoch_number ← figment_uint env "first_epoch_number" 32;
  first_slot_number ← figment_uint env "first_slot_number" 64;
  Ok (mkMainchainEpochConfig first_epoch_timestamp_millis epoch_duration_millis first_epoch_number first_slot_number).
Definition candidates_new_from_env (env : Env) : result string AuthoritySelectionDataSourceMock :=
  registrations_data ← MockRegistrationsConfig_read env;
  mc_epoch_config ← MainchainEpochConfig_read_from_env env;
  Ok (mkAuthoritySelectionDataSourceMock registrations_data mc_epoch_config).
End Config.
End MockCandidates.

(** ** The data sources of the node *)
Section DataSources.
Import MockBlocks MockTokens MockCandidates.
Context `{HexCodec, SerdeJson, FileSystem, Figment}.

(** [DataSources]: the mock ones, with the block source shared by two of them, or those of db-sync. *)
Record MockDataSources := mkMockDataSources {
  ds_sidechain_rpc : BlockDataSourceMock;
  ds_mc_hash : BlockDataSourceMock;
  ds_authority_selection : AuthoritySelectionDataSourceMock;
  ds_native_token : NativeTokenDataSourceMock
}.
Definition bool_from_str (s : string) : option bool :=
  if decide (s = "true") then Some true else if decide (s = "false") then Some false else None.
Definition use_mock_follower (env : Env) : bool := default false (v ← env !! "USE_MAIN_CHAIN_FOLLOWER_MOCK"; bool_from_str v).
Definition create_mock_data_sources (env : Env) : result string MockDataSources :=
  block ← MockBlocks.new_from_env env;
  authority_selection ← candidates_new_from_env env;
  Ok (mkMockDataSources block block authority_selection mkNativeTokenDataSourceMock).
(** [create_cached_data_sources], the sources of db-sync, is an argument. *)
Definition create_cached_main_chain_follower_data_sources {D} (create_cached_data_sources : Env -> result string D) (env : Env)
    : result string (MockDataSources + D) :=
  if use_mock_follower env then
    map_err (fun err => "Failed to create main chain follower mock: " +:+ err +:+ ". Check configuration.")
      (inl <$> create_mock_data_sources env)
  else
    map_err (fun err => "Failed to create db-sync main chain follower: " +:+ err) (inr <$> create_cached_data_sources env).
End DataSources.

(** ** Blocks of the mock *)
Section MockReference.
Import MockBlocks.
Context `{SlotOpsLaws}.

(** The block of a timestamp. *)
Definition mock_block (self : BlockDataSourceMock) (ts : Z) : MainchainBlock :=
  let n := (ts / 20000)%Z in
  mkMainchainBlock n (to_be_bytes 4 n ++ replicate 28 0%Z) (n / block_per_epoch self) n ts.
Definition representable (ts : Z) : Prop := (0 <= ts < 20000 * 2 ^ 32)%Z.
Lemma mock_block_found self ts :
  (20000 <= mc_epoch_duration_millis self)%Z -> representable ts ->
  MockBlocks.get_latest_stable_block_for self ts = Done (Ok (Some (mock_block self ts))).
Proof.
  intros Hd [Hlo Hhi]. unfold MockBlocks.get_latest_stable_block_for, checked_div.
  assert (1 <= block_per_epoch self)%Z by (unfold block_per_epoch; apply Z.div_le_lower_bound; lia).
  rewrite (proj2 (Z.eqb_neq _ _)) by lia. cbn [mbind outcome_bind]. rewrite wrap_small; [done|].
  split; [apply Z.div_pos; lia | apply Z.div_lt_upper_bound; lia].
Qed.
(** The mock verifies any hash for a block whose slot is not before its parent's. *)
Lemma mock_reference parent_header parent_slot slot h d self :
  (20000 <= mc_epoch_duration_millis self)%Z -> (0 < d)%Z -> (0 <= slot)%Z -> representable (slot * d) ->
  match parent_slot with
  | None => True
  | Some p => (0 <= p <= slot)%Z /\ err (McHash.value_from_digest (digest_logs parent_header)) = None
  end ->
  McHash.new_proposal slot d self = Done (Ok (mock_block self (slot * d))) /\
  McHash.new_verification parent_header parent_slot slot h d self = (self, Done (Ok (mock_block self (slot * d)))).
Proof.
  intros Hdur Hd Hs Hr Hp. unfold representable in Hr.
  assert (forall s h, (0 <= s <= slot)%Z -> McHash.get_mc_state_reference s h d self = (self, Done (Ok (mock_block self (s * d))))) as Href.
  { intros s h' Hs'. unfold McHash.get_mc_state_reference, bind_stateful, map_err_stateful, stateless, lift.
    rewrite Slot_timestamp_spec, (proj2 (Z.ltb_lt _ _)) by nia. cbn [ok_or McHash.get_stable_block_for mock_mc_hash].
    unfold MockBlocks.get_stable_block_for. rewrite mock_block_found by (done || unfold representable; nia). done. }
  split.
  - unfold McHash.new_proposal. rewrite Slot_timestamp_spec, (proj2 (Z.ltb_lt _ _)) by nia. simpl_monad.
    cbn [McHash.get_latest_stable_block_for mock_mc_hash]. by rewrite mock_block_found.
  - unfold McHash.new_verification, bind_stateful. rewrite Href by lia. destruct parent_slot as [p|]; [|done].
    destruct Hp as [Hp Hdig]. destruct (McHash.value_from_digest (digest_logs parent_header)) as [ph|]; [|done].
    unfold stateless, lift. cbn [map_err]. rewrite Href by done. rewrite (proj2 (Z.ltb_ge _ _)); [done|].
    unfold mock_block. cbn [mb_number]. apply Z.div_le_mono; nia.
Qed.
End MockReference.

(** ** Epochs rotate *)
Section Rotation.
Import MockCandidates.
Context `{HexCodec}.

(** The configuration on which the mock answers: a rotation that is not empty, with keys of 32
    bytes; when the log level is [debug], partner chain keys of at least four bytes. *)
Definition wf_registration (debug : bool) (r : MockRegistration) : Prop :=
  length (mr_mainchain_pub_key r) = 32%nat /\ (debug = true -> registration_info_string r <> Panic).
Definition wf_mock (debug : bool) (self : AuthoritySelectionDataSourceMock) : Prop :=
  epoch_rotation self <> [] /\
  Forall (fun e => Forall (wf_registration debug) (me_registrations e) /\
                   Forall (fun c => debug = true -> permissioned_info_string c <> Panic) (me_permissioned e)) (epoch_rotation self).
(** The inputs of an entry; status and names do not matter. *)
Definition mock_registrations (r : MockRegistration) : CandidateRegistrations :=
  mkCandidateRegistrations (mr_mainchain_pub_key r)
    [mkRegistrationData (mr_input_utxo r) (mr_sidechain_signature r) (mr_mainchain_signature r) (mr_sidechain_signature r)
       (mr_sidechain_pub_key r) (mr_sidechain_pub_key r) (mkUtxoInfo (mkUtxoId mock_tx_hash 9) 123 12345 123456 12) [mr_input_utxo r]
       (mr_aura_pub_key r) (mr_grandpa_pub_key r)]%Z (Some 333%Z).
Definition entry_inputs (e : MockEpochCandidates) : AuthoritySelectionInputs :=
  mkAuthoritySelectionInputs (DParameter_from_mock (me_d_parameter e))
    (map (fun c => mkPermissionedCandidateData (mp_sidechain_pub_key c) (mp_aura_pub_key c) (mp_grandpa_pub_key c)) (me_permissioned e))
    (map mock_registrations (me_registrations e)) (me_nonce e).

Lemma mapM_Done {A B} (f : A -> outcome B) (g : A -> B) l : Forall (fun x => f x = Done (g x)) l -> mapM f l = Done (map g l).
Proof. induction 1 as [|x l Hx _ IH]; [done|]. cbn [mapM map]. rewrite Hx. cbn [mbind outcome_bind]. by rewrite IH. Qed.
Lemma debug_args_Done {A} debug (f : A -> outcome string) l : Forall (fun x => debug = true -> f x <> Panic) l -> debug_args debug f l = Done tt.
Proof.
  unfold debug_args. destruct debug; [|done]. intros Hl.
  rewrite (mapM_Done f (fun x => match f x with Done s => s | Panic => "" end)); [done|].
  eapply Forall_impl; [exact Hl|]. intros x Hx. destruct (f x) eqn:Hf; [done|]. by destruct (Hx eq_refl).
Qed.
Lemma epoch_data_entry debug self epoch : wf_mock debug self -> (0 <= epoch)%Z ->
  exists e, epoch_rotation self !! Z.to_nat (epoch mod Z.of_nat (length (epoch_rotation self))) = Some e /\ epoch_data self epoch = Done e.
Proof.
  intros [Hne _] He. unfold epoch_data. assert (0 < length (epoch_rotation self))%nat by (by destruct (epoch_rotation self); [|cbn; lia]).
  rewrite (proj2 (Z.eqb_neq _ 0)) by lia.
  destruct (lookup_lt_is_Some_2 (epoch_rotation self) (Z.to_nat (epoch mod Z.of_nat (length (epoch_rotation self))))) as [e ->].
  - pose proof (Z.mod_pos_bound epoch (Z.of_nat (length (epoch_rotation self)))). lia.
  - by exists e.
Qed.

(** The inputs of an epoch are those of the entry that the rotation has reached, whatever the
    scripts are and whatever the status of the registrations is. *)
Lemma mock_inputs_rotate debug self epoch scripts : wf_mock debug self -> (0 <= epoch)%Z ->
  exists e, epoch_rotation self !! Z.to_nat (epoch mod Z.of_nat (length (epoch_rotation self))) = Some e /\
    AriadneIDP.inputs_from_mc_data (mock_source debug self) epoch scripts = Ok (entry_inputs e).
Proof.
  intros Hwf He. destruct (epoch_data_entry debug self epoch Hwf He) as (e & Hl & Hd). exists e. split; [done|].
  destruct Hwf as [_ Hwf]. rewrite Forall_lookup in Hwf. destruct (Hwf _ _ Hl) as [Hr Hp].
  unfold AriadneIDP.inputs_from_mc_data, mock_source, settle. cbn [AriadneInherent.get_ariadne_parameters AriadneInherent.get_candidates AriadneInherent.get_epoch_nonce].
  unfold mock_get_ariadne_parameters, mock_get_candidates, mock_get_epoch_nonce. rewrite Hd. cbn [mbind outcome_bind].
  rewrite (debug_args_Done debug permissioned_info_string) by done. cbn [mbind outcome_bind result_bind map_err].
  rewrite (debug_args_Done debug registration_info_string) by (eapply Forall_impl; [exact Hr|]; by intros r [_ ?]).
  cbn [mbind outcome_bind]. rewrite (mapM_Done _ mock_registrations).
  - cbn [mbind outcome_bind result_bind map_err]. cbn [ap_d_parameter ap_permissioned_candidates default]. unfold entry_inputs. by rewrite map_map.
  - eapply Forall_impl; [exact Hr|]. intros r [Hlen _]. unfold CandidateRegistrations_from_mock, to_array. by rewrite decide_True.
Qed.
End Rotation.

Section MockNodes.
Import MockBlocks MockTokens.
Lemma mock_tokens_ignore_hash (parent : NodeInherents.ParentView) h h' (s : BlockDataSourceMock * NativeTokenDataSourceMock) :
  NodeInherents.native_token_new parent h s = NodeInherents.native_token_new parent h' s.
Proof. done. Qed.

(** A network of nodes on the mock follower. With main chain epochs of at least 20 seconds,
    whatever inherent data a node proposes a block with, a node that verifies the block at the
    proposed slot, on a parent whose slot is not later, reaches the same selection inputs and
    the same token amount, and fails for no reason of its own. It does so for every main chain
    hash in the block: the mock, unlike db-sync, does not look at it. *)
Theorem mock_nodes_agree `{SlotOpsLaws, !AuraStandalone Hash Roots AuthorityId Keystore} {BeneficiaryId : Type}
    (beneficiary : string -> result BlockRewards.InherentProviderCreationError BeneficiaryId)
    config source now now' parent header parent_slot mock p (mc_hash : McBlockHash) :
  let sources := (mock, MockTokens.mkNativeTokenDataSourceMock) in
  (20000 <= MockBlocks.mc_epoch_duration_millis mock)%Z -> (0 < NodeInherents.slot_duration config)%Z ->
  NodeInherents.create_proposal_providers beneficiary config source now parent sources = (sources, Done (Ok p)) ->
  representable (NodeInherents.pp_slot p * NodeInherents.slot_duration config) -> (0 <= NodeInherents.pp_slot p)%Z ->
  NodeInherents.pv_header parent = Ok (Some header) -> NodeInherents.slot_from_predigest header = Ok parent_slot ->
  match parent_slot with
  | None => True
  | Some s => (0 <= s <= NodeInherents.pp_slot p)%Z /\ err (McHash.value_from_digest (digest_logs header)) = None
  end ->
  NodeInherents.pp_mc_hash p = mock_block mock (NodeInherents.pp_slot p * NodeInherents.slot_duration config) /\
  NodeInherents.create_verifier_providers config source now' parent (NodeInherents.pp_slot p) mc_hash sources =
    (sources, Done (Ok (NodeInherents.mkVerifierProviders now' (NodeInherents.pp_ariadne p) (NodeInherents.pp_native_token p)))).
Proof.
  intros sources Hdur Hd Hp Hr Hs Hh Hps Hparent. subst sources.
  unfold NodeInherents.create_proposal_providers in Hp.
  apply bind_stateful_Ok in Hp as (s1 & [slot ts] & [-> _]%stateless_Ok & Hp).
  apply bind_stateful_Ok in Hp as (s2 & block & Hblock%map_err_stateful_Ok & Hp). injection Hblock as <- Hblock.
  apply bind_stateful_Ok in Hp as (s3 & inputs & Ha & Hp).
  assert (s3 = (mock, mkNativeTokenDataSourceMock)) as -> by (apply map_err_stateful_Ok, stateless_Ok in Ha as [-> _]; done).
  apply bind_stateful_Ok in Hp as (s4 & b & [-> _]%stateless_Ok & Hp).
  apply bind_stateful_Ok in Hp as (s5 & tokens & Ht & Hp). apply stateless_Ok in Hp as [<- Hp]. injection Hp as <-.
  cbn [NodeInherents.pp_slot NodeInherents.pp_mc_hash NodeInherents.pp_ariadne NodeInherents.pp_native_token] in *.
  destruct (mock_reference header parent_slot slot mc_hash (NodeInherents.slot_duration config) mock Hdur Hd Hs Hr Hparent) as [Hprop Hver].
  cbn [fst] in Hblock. rewrite Hprop in Hblock. injection Hblock as <-. split; [done|].
  unfold NodeInherents.create_verifier_providers, NodeInherents.expect_header. rewrite Hh. unfold bind_stateful at 1, stateless at 1, lift at 1.
  cbn [mbind result_bind ok_or map_err]. unfold bind_stateful at 1, stateless at 1, lift at 1. rewrite Hps. cbn [map_err].
  unfold bind_stateful at 1, map_err_stateful at 1, NodeInherents.on_blocks. rewrite Hver. cbn [map_err].
  unfold bind_stateful at 1. change (mb_epoch ?b) with (McHash.provider_mc_epoch b). rewrite Ha.
  unfold bind_stateful at 1. rewrite (mock_tokens_ignore_hash parent mc_hash (McHash.provider_mc_hash (mock_block mock (slot * NodeInherents.slot_duration config)))).
  by rewrite Ht.
Qed.
End MockNodes.

(** ** Examples *)
Section Examples.
Import MockBlocks MockCandidates ConcreteHex.
(** Epochs of two blocks: the block of second 250 is number 12, in epoch 6. *)
Example mock_block_example :
  MockBlocks.get_latest_stable_block_for (mkBlockDataSourceMock 40000) 250000 =
    Done (Ok (Some (mkMainchainBlock 12 ([0; 0; 0; 12] ++ replicate 28 0)%Z 6 12 250000))).
Proof. reflexivity. Qed.
(** Epochs shorter than a block make the mock panic. *)
Example short_epochs_panic : MockBlocks.get_latest_stable_block_for (mkBlockDataSourceMock 19999) 250000 = Panic.
Proof. reflexivity. Qed.
(** Text of a registration, and a key that is too short for it. *)
Example info_string_example :
  permissioned_info_string (mkMockPermissionedCandidate (Some "Bob") [3; 144; 8; 31; 39]%Z [] []) = Done "Bob(0x039...1f27)" /\
  permissioned_info_string (mkMockPermissionedCandidate None [3; 144; 8]%Z [] []) = Panic.
Proof. split; vm_compute; reflexivity. Qed.
End Examples.
