(* ===== verification/DbSources.v ===== *)
(** * The sources of db-sync: settings, metrics and command line

    How the sources of [DbBlocks], [CandidatesCache] and [DbNativeToken] are set up from the
    environment ([data_sources.rs], [DbSyncBlockDataSourceConfig] and
    [CandidateDataSourceCacheConfig] of [db-sync-follower], [create_cached_data_sources] of
    [node/node/src/main_chain_follower.rs]); the metrics around their methods
    ([metrics.rs]); and the program [main-chain-follower-cli], which asks a source once.

    Third-party: the PostgreSQL pool, [figment]'s reading of variables, floating point division
    and Prometheus' registry, whose names are unique. *)

From S2P Require Import Prelude Domain McEpoch Slots McHash DbBlocks Cbor Selection Ariadne AriadneInherent NativeToken DbNativeToken DbCandidates CandidatesCache Json CliConfig NodeCommands NodeSpec MockSources.

(** ** Metrics *)
Module Metrics.
(** The registry: its names. *)
Definition Registry : Type := gset string.
Definition TIME_ELAPSED : string := "mc_follower_method_time_elapsed".
Definition CALL_COUNT : string := "mc_follower_method_call_count".
Definition register_name (name : string) (r : Registry) : Registry * result string () :=
  if decide (name ∈ r) then (r, Err "Duplicate metrics collector registration attempted") else ({[name]} ∪ r, Ok ()).

(** Calls and finished timers per method, and the lines of the log. *)
Inductive LogLine := Called (method : string) | Returned (method : string) | Failed (method : string).
Record McFollowerMetrics := mkMcFollowerMetrics { call_count : gmap string Z; time_elapsed : gmap string Z }.
Definition McFollowerMetrics_register (r : Registry) : Registry * result string McFollowerMetrics :=
  let '(r, time_elapsed) := register_name TIME_ELAPSED r in
  match time_elapsed with
  | Err e => (r, Err e)
  | Ok _ =>
      let '(r, call_count) := register_name CALL_COUNT r in
      match call_count with Err e => (r, Err e) | Ok _ => (r, Ok (mkMcFollowerMetrics ∅ ∅)) end
  end.
Definition register_metrics_warn_errors (metrics_registry_opt : option Registry) : option Registry * option McFollowerMetrics :=
  match metrics_registry_opt with
  | None => (None, None)
  | Some r => let '(r, m) := McFollowerMetrics_register r in (Some r, ok m)
  end.

(** The body of a method: it ends with a value, or returns early from the function, as [?] does. *)
Inductive Flow (A : Type) := Ends (r : A) | Returns (r : A).
Arguments Ends {A}. Arguments Returns {A}.
Definition flow_value {A} (f : Flow A) : A := match f with Ends r => r | Returns r => r end.

Definition count (method : string) (m : gmap string Z) : gmap string Z := <[method := (default 0 (m !! method) + 1)%Z]> m.
(** [observed_async_trait!]: the timer stops when the function is left; the result is only logged
    when the body ends with it. *)
Definition observed {A} (method : string) (body : Flow (result string A)) (metrics_opt : option McFollowerMetrics) (log : list LogLine)
    : option McFollowerMetrics * list LogLine * result string A :=
  let started := (fun m => mkMcFollowerMetrics (count method (call_count m)) (time_elapsed m)) <$> metrics_opt in
  let log := log ++ [Called method] in
  let stopped := (fun m => mkMcFollowerMetrics (call_count m) (count method (time_elapsed m))) <$> started in
  match body with
  | Returns r => (stopped, log, r)
  | Ends r => (stopped, log ++ [match r with Ok _ => Returned method | Err _ => Failed method end], r)
  end.

(** Observation does not change an answer, and counts every call and its time once. *)
Lemma observed_answer {A} method (body : Flow (result string A)) metrics_opt log :
  snd (observed method body metrics_opt log) = flow_value body.
Proof. by destruct body. Qed.
Lemma observed_counts {A} method (body : Flow (result string A)) m log :
  exists m' log', observed method body (Some m) log = (Some m', log', flow_value body) /\
    (forall k, default 0%Z (call_count m' !! k) = default 0%Z (call_count m !! k) + if decide (k = method) then 1 else 0)%Z /\
    (forall k, default 0%Z (time_elapsed m' !! k) = default 0%Z (time_elapsed m !! k) + if decide (k = method) then 1 else 0)%Z.
Proof.
  assert (forall (c : gmap string Z) k, default 0%Z (count method c !! k) = (default 0 (c !! k) + if decide (k = method) then 1 else 0)%Z) as Hc.
  { intros c k. unfold count. destruct (decide (k = method)) as [->|]; [by rewrite lookup_insert_eq | rewrite lookup_insert_ne by done; lia]. }
  destruct body; (do 2 eexists; split; [reflexivity|]; split; intros k; apply Hc).
Qed.
(** The macro documents that it logs each returned result. An error that [?] returns is not. *)
Example early_error_is_not_logged :
  observed (A := Z) "get_candidates" (Returns (Err "Internal error")) None [] = (None, [Called "get_candidates"], Err "Internal error").
Proof. reflexivity. Qed.
(** A node that registers its metrics twice goes on without them. *)
Lemma second_registration_fails r r' m :
  register_metrics_warn_errors (Some r) = (Some r', Some m) -> snd (register_metrics_warn_errors (Some r')) = None.
Proof.
  unfold register_metrics_warn_errors, McFollowerMetrics_register, register_name.
  repeat case_decide; cbn; intros [= <- _]; repeat case_decide; cbn; try done; set_solver.
Qed.
End Metrics.

(** ** Settings *)
Open Scope Z_scope.
(** [figment] with [Env::raw()]: a field of a struct, from the variable of that name in any case. *)
Class FigmentRaw := {
  f64_setting : Type;
  raw_uint : Env -> string -> Z -> result string Z;
  raw_f64 : Env -> string -> result string f64_setting;
  raw_string : Env -> string -> result string string;
  (* [(k / coefficient).round() as i64] *)
  divide_round : Z -> f64_setting -> Z
}.
(** An unsigned number written in decimal is read, and the quotient is an [i64]. *)
Class FigmentRawLaws `{FigmentRaw} : Prop := {
  raw_uint_value : forall (env : Env) field w s n, 0 <= w -> unambiguous env field -> env !! uppercase field = Some s ->
    uint_from_str w s = Ok n -> raw_uint env field w = Ok n;
  raw_uint_range : forall env field w n, raw_uint env field w = Ok n -> in_width w n;
  divide_round_range : forall k c, - 2 ^ 63 <= divide_round k c < 2 ^ 63
}.

Module Settings.
Section Settings.
Context `{FigmentRaw, MockCandidates.Figment}.

Definition read_mc_epoch_config (env : Env) : result string MainchainEpochConfig :=
  map_err (fun e => "Failed to read main chain config: " +:+ e) (MockCandidates.MainchainEpochConfig_read_from_env env).

(** The connection string holds a password: it is a [SecretString]. *)
Record ConnectionConfig := mkConnectionConfig { db_sync_postgres_connection_string : string }.
Definition SecretString_debug (_ : string) : string := "***".
Definition ConnectionConfig_from_env (env : Env) : result string ConnectionConfig :=
  map_err (fun e => "Failed to read main chain follower connection: " +:+ e)
    (s ← raw_string env "db_sync_postgres_connection_string"; Ok (mkConnectionConfig s)).

(** [sqlx]: the options of a connection string, and a pool with them. *)
Record PgConnectOptions := mkPgConnectOptions {
  pg_host : string; pg_port : Z; pg_database : option string; pg_username : string; pg_password : option string
}.
Section Connection.
Context {Pool : Type} (options_from_str : string -> result string PgConnectOptions).
Context (connect_with : Z -> Z -> PgConnectOptions -> result string Pool).
Definition PostgresConnectionError_display (host : string) (port : Z) (database e : string) : string :=
  "Could not connect to database: postgres://***:***@" +:+ host +:+ ":" +:+ dec_text port +:+ "/" +:+ database +:+ "; error: " +:+ e.
Definition get_connection (connection_string : string) (acquire_timeout_secs : Z) : result string Pool :=
  connect_options ← options_from_str connection_string;
  map_err (fun e => PostgresConnectionError_display (pg_host connect_options) (pg_port connect_options)
                      (default "cexplorer" (pg_database connect_options)) e)
    (connect_with 5 acquire_timeout_secs connect_options).
Definition get_connection_from_env (env : Env) : result string Pool :=
  config ← ConnectionConfig_from_env env;
  get_connection (db_sync_postgres_connection_string config) 30.
End Connection.

Record DbSyncBlockDataSourceConfig := mkDbSyncBlockDataSourceConfig {
  cardano_security_parameter : Z;
  cardano_active_slots_coeff : f64_setting;
  setting_block_stability_margin : Z
}.
Definition DbSyncBlockDataSourceConfig_from_env (env : Env) : result string DbSyncBlockDataSourceConfig :=
  map_err (fun e => "Failed to read block data source config: " +:+ e)
    (k ← raw_uint env "cardano_security_parameter" 32;
     c ← raw_f64 env "cardano_active_slots_coeff";
     margin ← raw_uint env "block_stability_margin" 32;
     Ok (mkDbSyncBlockDataSourceConfig k c margin)).
(** [TimeDelta::seconds] panics out of its range of milliseconds. *)
Definition TimeDelta_seconds (n : Z) : outcome Z :=
  if (- ((2 ^ 63 - 1) / 1000) <=? n) && (n <=? (2 ^ 63 - 1) / 1000) then Done n else Panic.
(** [i64]'s multiplication wraps. *)
Definition wrap_i64 (n : Z) : Z := (n + 2 ^ 63) mod 2 ^ 64 - 2 ^ 63.
Definition from_config (config : DbSyncBlockDataSourceConfig) (mc_epoch_config : MainchainEpochConfig)
    : outcome BlockDataSource.BlockDataSourceImpl :=
  let min_slot_boundary := divide_round (cardano_security_parameter config) (cardano_active_slots_coeff config) in
  let max_slot_boundary := wrap_i64 (3 * min_slot_boundary) in
  let cache_size := 100 in
  min_slot_boundary ← TimeDelta_seconds min_slot_boundary;
  max_slot_boundary ← TimeDelta_seconds max_slot_boundary;
  Done (BlockDataSource.mkBlockDataSourceImpl (cardano_security_parameter config) min_slot_boundary max_slot_boundary
    mc_epoch_config (setting_block_stability_margin config) cache_size).
Definition block_new_from_env (env : Env) : fallible string BlockDataSource.BlockDataSourceImpl :=
  config ←? lift (DbSyncBlockDataSourceConfig_from_env env);
  mc_epoch_config ←? lift (read_mc_epoch_config env);
  Prelude.run (from_config config mc_epoch_config).

Definition CandidateDataSourceCacheConfig_from_env (env : Env) : result string Z :=
  map_err (fun e => "Failed to read candidates data source config: " +:+ e) (raw_uint env "cardano_security_parameter" 32).
Section Sources.
Context `{Lru}.
Definition cached_new_from_env (env : Env) (candidates_for_epoch_cache_size : nat) : fallible string CachedSource.CandidateDataSourceCached :=
  security_parameter ←? lift (CandidateDataSourceCacheConfig_from_env env);
  Prelude.run (CachedSource.new candidates_for_epoch_cache_size security_parameter).
Definition tokens_new_from_env (env : Env) : result string TokenSource.NativeTokenManagementDataSourceImpl :=
  security_parameter ← ok_or (s ← env !! "CARDANO_SECURITY_PARAMETER"; ok (uint_from_str 32 s))
    "Couldn't read env variable CARDANO_SECURITY_PARAMETER as u32";
  Ok (TokenSource.mkImpl security_parameter 1000).

Definition CANDIDATES_FOR_EPOCH_CACHE_SIZE : nat := 64.
(** The sources of a node, on one pool; the block source is shared by two of them, with its cache. *)
Record DbDataSources {Pool : Type} := mkDbDataSources {
  db_pool : Pool;
  db_blocks : BlockDataSource.BlockDataSourceImpl;
  db_candidates : CachedSource.CandidateDataSourceCached;
  db_tokens : TokenSource.NativeTokenManagementDataSourceImpl
}.
Context {Pool : Type} (options_from_str : string -> result string PgConnectOptions).
Context (connect_with : Z -> Z -> PgConnectOptions -> result string Pool) (create_index : Pool -> result string ()).
Definition create_cached_data_sources (env : Env) : fallible string (@DbDataSources Pool) :=
  pool ←? lift (get_connection_from_env options_from_str connect_with env);
  block ←? block_new_from_env env;
  _index ←? lift (create_index pool);
  candidates ←? cached_new_from_env env CANDIDATES_FOR_EPOCH_CACHE_SIZE;
  tokens ←? lift (tokens_new_from_env env);
  lift (Ok (mkDbDataSources _ pool block candidates tokens)).
End Sources.
End Settings.
End Settings.

(** ** The command line of the follower *)
Module FollowerCli.
Import BlockDataSource Settings.
Inductive Command :=
| latest_block_info
| latest_stable_block (reference_timestamp : Z)
| stable_block (hash : McBlockHash) (reference_timestamp : Z)
| ariadne_parameters (epoch_number : McEpochNumber) (d_parameter_policy permissioned_candidates_policy : PolicyId)
| candidates (epoch_number : McEpochNumber) (committee_candidate_validator : MainchainAddress)
| epoch_nonce (epoch_number : McEpochNumber).
Inductive Response :=
| BlockInfo (b : MainchainBlock)
| OptionalBlock (b : option MainchainBlock)
| Parameters (p : AriadneParameters)
| Registrations (l : list CandidateRegistrations)
| Nonce (n : option EpochNonce).

Section Cli.
Context `{FigmentRaw, MockCandidates.Figment, Chrono} {Pool : Type}.
Context (options_from_str : string -> result string PgConnectOptions).
Context (connect_with : Z -> Z -> PgConnectOptions -> result string Pool) (create_index : Pool -> result string ()).
(** The tables behind a pool. *)
Context (rows : Pool -> list Db.BlockRow) (candidate_source : Pool -> AuthoritySelectionDataSource).
(** [serde_json::to_string_pretty]. *)
Context (to_text : Response -> result string string).

(** Module [data_source]: the block source with an empty cache, and the candidate source without one. *)
Definition block (env : Env) : fallible string Source :=
  pool ←? lift (get_connection_from_env options_from_str connect_with env);
  config ←? lift (DbSyncBlockDataSourceConfig_from_env env);
  mc_epoch_config ←? lift (read_mc_epoch_config env);
  impl ←? Prelude.run (from_config config mc_epoch_config);
  lift (Ok (mkSource impl (rows pool) [])).
Definition candidate (env : Env) : fallible string AuthoritySelectionDataSource :=
  pool ←? lift (get_connection_from_env options_from_str connect_with env);
  _index ←? lift (create_index pool);
  lift (Ok (candidate_source pool)).
Definition on_block (env : Env) (ask : Source -> fallible string Response) : fallible string Response :=
  match block env with Done (Ok data_source) => ask data_source | _ => Panic end.  (* [expect] *)
Definition on_candidate (env : Env) (ask : AuthoritySelectionDataSource -> result string Response) : fallible string Response :=
  match candidate env with Done (Ok data_source) => Done (ask data_source) | _ => Panic end.
Definition respond (command : Command) (env : Env) : fallible string Response :=
  match command with
  | latest_block_info => on_block env (fun s => b ←? source_latest_block_info s; lift (Ok (BlockInfo b)))
  | latest_stable_block ts => on_block env (fun s => b ←? latest_stable_block_for ts s; lift (Ok (OptionalBlock b)))
  | stable_block h ts => on_block env (fun s => b ←? snd (stable_block_for h ts s); lift (Ok (OptionalBlock b)))
  | ariadne_parameters e d p => on_candidate env (fun s => a ← get_ariadne_parameters s e d p; Ok (Parameters a))
  | candidates e a => on_candidate env (fun s => l ← get_candidates s e a; Ok (Registrations l))
  | epoch_nonce e => on_candidate env (fun s => n ← get_epoch_nonce s e; Ok (Nonce n))
  end.
Definition run (command : Command) (env : Env) : fallible string string :=
  result ←? respond command env; lift (to_text result).
(** What [main] does with it. *)
Inductive Output := Stdout (text : string) | ErrorLog (text : string).
Definition main (command : Command) (env : Env) : outcome Output :=
  match run command env with Panic => Panic | Done (Ok resp) => Done (Stdout resp) | Done (Err err) => Done (ErrorLog err) end.
End Cli.
End FollowerCli.

(** ** Properties *)
Section FromEnv.
Import Settings BlockDataSource.
Context `{FigmentRawLaws, MockCandidates.Figment, Lru} {Pool : Type}.
Context (options_from_str : string -> result string PgConnectOptions).
Context (connect_with : Z -> Z -> PgConnectOptions -> result string Pool) (create_index : Pool -> result string ()).

(** Bounds on the settings: the security parameter of Cardano is 2160, its slots coefficient 0.05. *)
Record sane_settings (env : Env) : Prop := {
  sane_offset : forall k m, raw_uint env "cardano_security_parameter" 32 = Ok k -> raw_uint env "block_stability_margin" 32 = Ok m -> k + m < 2 ^ 31;
  sane_boundary : forall k c, raw_uint env "cardano_security_parameter" 32 = Ok k -> raw_f64 env "cardano_active_slots_coeff" = Ok c ->
    0 <= 3 * divide_round k c <= 10 ^ 12
}.

Lemma block_new_from_env_spec env c :
  block_new_from_env env = Done (Ok c) -> sane_settings env ->
  wf_impl c /\ raw_uint env "cardano_security_parameter" 32 = Ok (security_parameter c) /\
  max_slot_boundary_as_seconds c = 3 * min_slot_boundary_as_seconds c /\
  MockCandidates.MainchainEpochConfig_read_from_env env = Ok (mainchain_epoch_config c).
Proof.
  unfold block_new_from_env, DbSyncBlockDataSourceConfig_from_env, read_mc_epoch_config. intros Hc [Hoff Hbound].
  destruct (raw_uint env "cardano_security_parameter" 32) as [k|] eqn:Hk; [|done]. cbn [mbind result_bind] in Hc.
  destruct (raw_f64 env "cardano_active_slots_coeff") as [q|] eqn:Hq; [|done]. cbn [mbind result_bind] in Hc.
  destruct (raw_uint env "block_stability_margin" 32) as [m|] eqn:Hm; [|done]. cbn in Hc.
  destruct (MockCandidates.MainchainEpochConfig_read_from_env env) as [e|]; [|done]. cbn - [from_config] in Hc.
  unfold from_config in Hc. cbn [cardano_security_parameter cardano_active_slots_coeff setting_block_stability_margin] in Hc.
  specialize (Hoff k m eq_refl eq_refl). specialize (Hbound k q eq_refl eq_refl).
  pose proof (raw_uint_range _ _ _ _ Hk) as [? ?]. pose proof (raw_uint_range _ _ _ _ Hm) as [? ?].
  assert (wrap_i64 (3 * divide_round k q) = 3 * divide_round k q) as Hw by (unfold wrap_i64; rewrite Z.mod_small by lia; lia).
  assert (forall n, 0 <= n <= 10 ^ 12 -> TimeDelta_seconds n = Done n) as Ht.
  { intros n Hn. unfold TimeDelta_seconds. rewrite !(proj2 (Z.leb_le _ _)); [done | |].
    - transitivity (10 ^ 12); [lia | by vm_compute].
    - transitivity 0; [by vm_compute | lia]. }
  rewrite Hw, !Ht in Hc by lia. cbn in Hc. injection Hc as <-.
  split; [|done]. split; cbn; lia.
Qed.

(** The three sources of a node are set up from one security parameter, the one in the
    environment; the block source is fit for use and the caches are empty. *)
Theorem sources_share_settings env d :
  create_cached_data_sources options_from_str connect_with create_index env = Done (Ok d) ->
  unambiguous env "cardano_security_parameter" -> sane_settings env ->
  wf_impl (db_blocks d) /\
  TokenSource.security_parameter (db_tokens d) = security_parameter (db_blocks d) /\
  db_candidates d = CachedSource.mkCached (lru_new 64) (lru_new 64) (security_parameter (db_blocks d)) None.
Proof.
  intros Hd Hu Hs. unfold create_cached_data_sources in Hd. inv_fallible Hd. injection Hd as <-. cbn [db_blocks db_tokens db_candidates].
  match goal with E : block_new_from_env env = Done (Ok _) |- _ => destruct (block_new_from_env_spec _ _ E Hs) as (Hwf & Hk & _) end.
  split; [exact Hwf|]. split.
  - match goal with E : lift (tokens_new_from_env env) = _ |- _ => rename E into Ht end. unfold tokens_new_from_env in Ht.
    destruct (env !! "CARDANO_SECURITY_PARAMETER") as [text|] eqn:Hv; [|done]. cbn in Ht.
    destruct (uint_from_str 32 text) as [n|] eqn:Hn; [|done]. cbn in Ht. injection Ht as <-. cbn.
    rewrite (raw_uint_value env "cardano_security_parameter" 32 text n ltac:(lia) Hu Hv Hn) in Hk. by injection Hk.
  - match goal with E : cached_new_from_env env _ = _ |- _ => rename E into Hc end. unfold cached_new_from_env, CandidateDataSourceCacheConfig_from_env in Hc.
    rewrite Hk in Hc. cbn in Hc. by injection Hc as <-.
Qed.
End FromEnv.

(** Errors of the connection tell no credentials: they depend on host, port, database and the
    error of the database only. *)
Lemma connection_error_hides_credentials {Pool} `{FigmentRaw} from_str (connect : Z -> Z -> Settings.PgConnectOptions -> result string Pool) a b oa ob timeout e :
  from_str a = Ok oa -> from_str b = Ok ob ->
  Settings.pg_host oa = Settings.pg_host ob -> Settings.pg_port oa = Settings.pg_port ob -> Settings.pg_database oa = Settings.pg_database ob ->
  connect 5 timeout oa = Err e -> connect 5 timeout ob = Err e ->
  Settings.get_connection from_str connect a timeout = Settings.get_connection from_str connect b timeout.
Proof. intros Ha Hb Hh Hp Hd Hea Heb. unfold Settings.get_connection. rewrite Ha, Hb. cbn. by rewrite Hea, Heb, Hh, Hp, Hd. Qed.

(** The command line answers what a node with the same environment and database answers, whatever
    the node has in its cache. *)
Section CliAnswers.
Import Settings BlockDataSource FollowerCli.
Context `{FigmentRaw, MockCandidates.Figment, ChronoLaws} {Pool : Type}.
Context (options_from_str : string -> result string PgConnectOptions).
Context (connect_with : Z -> Z -> PgConnectOptions -> result string Pool) (create_index : Pool -> result string ()).
Context (rows : Pool -> list Db.BlockRow) (candidate_source : Pool -> AuthoritySelectionDataSource).

Theorem cli_answers_as_node env pool c cache command :
  get_connection_from_env options_from_str connect_with env = Ok pool ->
  block_new_from_env env = Done (Ok c) -> sound (mkSource c (rows pool) cache) ->
  let node := mkSource c (rows pool) cache in
  let answer := respond options_from_str connect_with create_index rows candidate_source command env in
  match command with
  | latest_block_info => answer = (b ←? source_latest_block_info node; lift (Ok (BlockInfo b)))
  | latest_stable_block ts => answer = (b ←? latest_stable_block_for ts node; lift (Ok (OptionalBlock b)))
  | stable_block h ts => answer = (b ←? snd (stable_block_for h ts node); lift (Ok (OptionalBlock b)))
  | _ => True
  end.
Proof.
  intros Hpool Hc Hsound node answer.
  assert (block options_from_str connect_with rows env = Done (Ok (mkSource c (rows pool) []))) as Hb.
  { unfold block. rewrite Hpool. unfold block_new_from_env in Hc. simpl_monad. inv_fallible Hc.
    repeat match goal with E : lift _ = Done (Ok _) |- _ => injection E as E; rewrite E; clear E end. simpl_monad. by rewrite Hc. }
  unfold answer, respond, on_block. rewrite Hb. destruct command as [|ts|h ts| | |]; try done.
  assert (sound (mkSource c (rows pool) [])) as Hs0.
  { destruct Hsound as [Hi Hd _]. split; [exact Hi | exact Hd|]. cbn. intros b Hin. by apply elem_of_nil in Hin. }
  destruct (stable_block_for_spec _ h ts Hsound) as (cache1 & E1 & _), (stable_block_for_spec _ h ts Hs0) as (cache2 & E2 & _).
  unfold node. by rewrite E1, E2.
Qed.
End CliAnswers.

(** Numbers that are read fit their type. *)
Lemma to_digit_range c d : to_digit c = Some d -> 0 <= d.
Proof. unfold to_digit. repeat case_match; intros; simplify_eq; lia. Qed.
Lemma parse_positive_range max acc s n : 0 <= acc <= max -> parse_positive max acc s = Ok n -> 0 <= n <= max.
Proof.
  revert acc; induction s as [|c s IH]; intros acc Hacc; cbn; [intros [= <-]; lia|].
  destruct (to_digit c) as [d|] eqn:Hd; [|done]. apply to_digit_range in Hd.
  destruct (Z.ltb_spec max (acc * 10)); [done|]. destruct (Z.ltb_spec max (acc * 10 + d)); [done|]. apply IH. lia.
Qed.
Lemma uint_from_str_range w s n : 0 <= w -> uint_from_str w s = Ok n -> in_width w n.
Proof.
  intros Hw. unfold uint_from_str. destruct (int_from_str false 0 (max_value w) (str_of s)) as [m|] eqn:E; [|done]. intros [= <-].
  assert (0 <= max_value w) by (unfold max_value; pose proof (Z.pow_pos_nonneg 2 w); lia).
  assert (0 <= m <= max_value w) as [? ?]; [|unfold max_value, in_width in *; lia].
  revert E. unfold int_from_str. destruct (str_of s) as [|c rest]; [done|].
  destruct (_ && bool_decide (rest = [])); [done|]. rewrite andb_false_r.
  destruct (bool_decide (c = PLUS)); apply parse_positive_range; lia.
Qed.

(** ** An environment *)
Module ExampleEnv.
Import Settings BoundedLru ConcreteHex.
(** Coefficients are fractions, written with one bar. *)
Definition fraction (s : string) : option (Z * Z) :=
  match String.index 0 "/" s with
  | Some i => n ← ok (uint_from_str 64 (String.substring 0 i s)); d ← ok (uint_from_str 64 (String.substring (S i) (String.length s) s)); Some (n, d)
  | None => None
  end.
#[export] Instance plain_raw : FigmentRaw := {|
  f64_setting := Z * Z;
  raw_uint env field w :=
    match env !! uppercase field with
    | None => Err "missing field"
    | Some s => n ← uint_from_str w s; if (0 <=? n) && (n <? 2 ^ w) then Ok n else Err "out of range"
    end;
  raw_f64 env field := ok_or (s ← env !! uppercase field; fraction s) "missing field";
  raw_string env field := ok_or (env !! uppercase field) "missing field";
  divide_round k c := Z.max (- 2 ^ 63) (Z.min (2 ^ 63 - 1) ((2 * k * snd c + fst c) / (2 * fst c)))
|}.
#[export] Instance plain_raw_laws : FigmentRawLaws.
Proof.
  split.
  - intros env field w s n Hw _ Hv Hn. cbn. rewrite Hv, Hn. cbn.
    destruct (uint_from_str_range w s n Hw Hn). by rewrite (proj2 (Z.leb_le _ _)), (proj2 (Z.ltb_lt _ _)) by lia.
  - intros env field w n. cbn. destruct (env !! uppercase field) as [s|]; [|done]. destruct (uint_from_str w s) as [m|]; [|done]. cbn.
    destruct (0 <=? m) eqn:E1, (m <? 2 ^ w) eqn:E2; try done. intros [= <-]. zbool. split; lia.
  - intros k c. cbn. lia.
Qed.
#[export] Instance test_epochs : MockCandidates.Figment := fun _ field _ => Ok (if decide (field = "epoch_duration_millis") then 432000000 else 0).
Definition env : Env := <["CARDANO_SECURITY_PARAMETER" := "2160"]> (<["CARDANO_ACTIVE_SLOTS_COEFF" := "1/20"]>
  (<["BLOCK_STABILITY_MARGIN" := "10"]> (<["DB_SYNC_POSTGRES_CONNECTION_STRING" := "postgres://u:p@h/db"]> ∅))).
Definition sources : fallible string (@DbDataSources _ ()) :=
  create_cached_data_sources (fun _ => Ok (mkPgConnectOptions "h" 5432 (Some "db") "u" (Some "p"))) (fun _ _ _ => Ok ()) (fun _ => Ok ()) env.

(** Mainnet's settings: blocks are stable after half a day, and a reference is at most a day and a
    half old. *)
Example mainnet_sources : exists d, sources = Done (Ok d) /\
  db_blocks d = BlockDataSource.mkBlockDataSourceImpl 2160 43200 129600 (mkMainchainEpochConfig 0 432000000 0 0) 10 100.
Proof. eexists. split; vm_compute; reflexivity. Qed.
Lemma env_unambiguous : unambiguous env "cardano_security_parameter".
Proof.
  intros name [v Hv] Hl. unfold env in Hv. rewrite !lookup_insert_Some, lookup_empty in Hv.
  destruct Hv as [[<- _]|[_ [[<- _]|[_ [[<- _]|[_ [[<- _]|[_ Hv]]]]]]]]; [reflexivity | vm_compute in Hl; discriminate Hl.. | discriminate Hv].
Qed.
Lemma env_sane : sane_settings env.
Proof.
  split; [intros k m Hk Hm|intros k c Hk Hm]; vm_compute in Hk, Hm; injection Hk as <-; injection Hm as <-; [reflexivity|].
  split; vm_compute; discriminate.
Qed.
Lemma sources_share_settings_witness : exists d, sources = Done (Ok d) /\ wf_impl (db_blocks d) /\
  TokenSource.security_parameter (db_tokens d) = BlockDataSource.security_parameter (db_blocks d).
Proof.
  destruct mainnet_sources as (d & Hd & _). exists d. split; [exact Hd|].
  destruct (sources_share_settings _ _ _ env d Hd env_unambiguous env_sane) as (Hw & Ht & _). by split.
Qed.
End ExampleEnv.
