(* ===== verification/Service.v ===== *)
(** * The node's service

    [node/node/src/service.rs]: what a node is built of and which tasks it runs. [new_partial]
    reads the configuration and makes the import queue, [new_full] starts authoring and finality.
    With them the remaining parts of the consensus code: [import_queue], [start_aura] and
    [build_aura_worker] of [toolkit/client/consensus/aura], and the factory of proposers of
    [toolkit/primitives/consensus/aura/src/block_proposal.rs].

    Third-party: the client, the network, telemetry, the transaction pool and Grandpa's tasks are
    results of [sc_service] and its neighbours ([SubstrateService]); the loop that calls the slot
    worker is [sc_consensus_slots]'s. *)

From S2P Require Import Prelude Domain McEpoch Slots McHash Cbor Selection Ariadne Committee AriadneInherent Session NativeToken BlockRewards Runtime Json Query Aura NodeInherents Authoring CliConfig NodeCommands NodeSpec MockSources Consensus.
#[local] Open Scope list_scope.

(** ** The consensus components *)
Module AuraService.
Section Worker.
Context {Hash Roots AuthorityId Keystore Body Data : Type} `{!AuraStandalone Hash Roots AuthorityId Keystore}.
#[local] Abbreviation Header' := (BlockHeader Hash Roots).
#[local] Abbreviation Client := (AuraClient Hash Roots AuthorityId Body Data).

(** A proposer of Substrate: inherent data, digest, duration and size limit to a proposal. *)
#[local] Abbreviation Propose Proposal := (Data -> list DigestItem -> Z -> option Z -> Proposal).
(** [PartnerChainsProposer], the wrapped one. *)
Record PartnerChainsProposer {Proposal : Type} := mkPartnerChainsProposer { wrapped : Propose Proposal }.
Arguments PartnerChainsProposer : clear implicits.
(** [PartnerChainsProposerFactory]: an environment that makes such proposers. *)
Record PartnerChainsProposerFactory {Proposal : Type} := mkPartnerChainsProposerFactory { env : Header' -> result string (Propose Proposal) }.
Arguments PartnerChainsProposerFactory : clear implicits.
Definition factory_init {Proposal} (f : PartnerChainsProposerFactory Proposal) (parent_header : Header')
    : result string (PartnerChainsProposer Proposal) :=
  proposer ← env f parent_header; Ok (mkPartnerChainsProposer Proposal proposer).
Definition proposer_propose {Value Proposal} `{!InherentDigest Data Value} (p : PartnerChainsProposer Proposal)
    (inherent_data : Data) (inherent_digests : list DigestItem) (max_duration : Z) (block_size_limit : option Z) : outcome Proposal :=
  Aura.propose (wrapped p) inherent_data inherent_digests max_duration block_size_limit.

(** Parameters and worker. What only Substrate's loop uses is left out: the chain selection, the
    block import, the sync oracle, the link for justifications and telemetry.

    A share of the slot is a numerator and a denominator. *)
Definition SlotProportion : Type := Z * Z.
Section Types.
Context (Proposal ProposalConfig : Type).
Record StartAuraParams := mkStartAuraParams {
  sa_slot_duration : Z;
  sa_client : Client;
  sa_proposer_factory : PartnerChainsProposerFactory Proposal;
  sa_create_inherent_data_providers : ProposalConfig;
  sa_force_authoring : bool;
  sa_backoff_authoring_blocks : option (Z -> Z -> Z -> Z -> bool);
  sa_keystore : Keystore;
  sa_block_proposal_slot_portion : SlotProportion;
  sa_max_block_proposal_slot_portion : option SlotProportion;
  sa_compatibility_mode : CompatibilityMode
}.
Record AuraWorker := mkAuraWorker {
  aw_client : Client;
  aw_env : PartnerChainsProposerFactory Proposal;
  aw_keystore : Keystore;
  aw_force_authoring : bool;
  aw_backoff_authoring_blocks : option (Z -> Z -> Z -> Z -> bool);
  aw_block_proposal_slot_portion : SlotProportion;
  aw_max_block_proposal_slot_portion : option SlotProportion;
  aw_compatibility_mode : CompatibilityMode
}.
(** What [start_slot_worker] is called with. *)
Record SlotWorkerTask := mkSlotWorkerTask {
  sw_slot_duration : Z;
  sw_worker : AuraWorker;
  sw_create_inherent_data_providers : ProposalConfig
}.
Definition build_aura_worker (p : StartAuraParams) : AuraWorker := mkAuraWorker (sa_client p) (sa_proposer_factory p)
  (sa_keystore p) (sa_force_authoring p) (sa_backoff_authoring_blocks p) (sa_block_proposal_slot_portion p)
  (sa_max_block_proposal_slot_portion p) (sa_compatibility_mode p).
Definition start_aura (p : StartAuraParams) : SlotWorkerTask :=
  mkSlotWorkerTask (sa_slot_duration p) (build_aura_worker p) (sa_create_inherent_data_providers p).
End Types.
Arguments aw_client {_}. Arguments aw_env {_}. Arguments aw_keystore {_}. Arguments aw_backoff_authoring_blocks {_}. Arguments aw_compatibility_mode {_}.

(** The worker's methods. *)
Definition worker_aux_data {P} (w : AuraWorker P) (header : Header') := Aura.aux_data (aw_client w) (aw_compatibility_mode w) header.
Definition worker_claim_slot {P} (w : AuraWorker P) (slot : Z) (authorities : list AuthorityId) : option AuthorityId :=
  Aura.claim_slot (aw_keystore w) slot authorities.
Definition worker_proposer {P} (w : AuraWorker P) (block : Header') := Aura.proposer (factory_init (aw_env w)) block.
Definition worker_block_import_params {P} (w : AuraWorker P) (header : Header') (hash : Hash) (body : Body) (public : AuthorityId) :=
  Aura.block_import_params (aw_keystore w) header hash body public.
Definition worker_should_backoff {P} (w : AuraWorker P) (slot : Z) (chain_head : Header') : bool :=
  Aura.should_backoff (aw_backoff_authoring_blocks w) (aw_client w) slot chain_head.
End Worker.
Arguments StartAuraParams : clear implicits. Arguments AuraWorker : clear implicits. Arguments SlotWorkerTask : clear implicits.
Arguments PartnerChainsProposerFactory : clear implicits. Arguments PartnerChainsProposer : clear implicits.
End AuraService.

(** ** The service *)
Module Service.
Import AuraService.
Inductive Role := RoleFull | RoleAuthority.
Definition is_authority (r : Role) : bool := match r with RoleAuthority => true | RoleFull => false end.
Record Configuration := mkConfiguration {
  cfg_role : Role;
  cfg_force_authoring : bool;
  cfg_disable_grandpa : bool;
  cfg_offchain_worker_enabled : bool;
  cfg_node_name : string
}.
Inductive ServiceError := Application (e : string) | SubstrateError (e : string).

Record GrandpaConfig {Keystore : Type} := mkGrandpaConfig {
  gc_gossip_duration : Z;   (* milliseconds *)
  gc_justification_generation_period : Z;
  gc_name : string;
  gc_observer_enabled : bool;
  gc_keystore : option Keystore;
  gc_local_role : Role
}.
Arguments GrandpaConfig : clear implicits.
Definition GRANDPA_JUSTIFICATION_PERIOD : Z := 512.

Section Service.
Context `{HexCodec, SerdeJson, FileSystem, MockCandidates.Figment}.
Context {Hash Roots AuthorityId Keystore Body Data Proposal D : Type} `{!AuraStandalone Hash Roots AuthorityId Keystore}.
#[local] Abbreviation Client := (AuraClient Hash Roots AuthorityId Body Data).

(** What the calls of Substrate return. *)
Record SubstrateService := mkSubstrateService {
  new_telemetry : Configuration -> result string ();
  new_full_parts : Configuration -> result string (Client * Keystore);
  grandpa_block_import : Client -> Z -> result string ();
  slot_config : Client -> result string Slots.ScSlotConfig;   (* the runtime API at the best block *)
  genesis_hash : Client -> result string (option Hash);
  build_network : Client -> result string ();
  spawn_tasks : Client -> result string ();
  basic_authorship : Client -> BlockHeader Hash Roots -> result string (Data -> list DigestItem -> Z -> option Z -> Proposal);
  run_grandpa_voter : GrandpaConfig Keystore -> result string ()
}.
Context (s : SubstrateService).
(** The sources that follow db-sync, which [MockSources] replaces when it is told to. *)
Context (create_cached_data_sources : Env -> result string D).
#[local] Abbreviation DataSources := (MockDataSources + D)%type.

(** The verifier of imported blocks, with what its inherent data providers are created from. *)
Record ImportQueue := mkImportQueue {
  iq_verifier : Aura.AuraVerifier;
  iq_inherent_config : NodeInherents.CreateInherentDataConfig;
  iq_data_sources : DataSources
}.
Definition import_queue (check_for_equivocation : CheckForEquivocation) (compatibility_mode : CompatibilityMode)
    (inherent_config : NodeInherents.CreateInherentDataConfig) (data_sources : DataSources) : ImportQueue :=
  mkImportQueue (Aura.mkAuraVerifier check_for_equivocation compatibility_mode) inherent_config data_sources.

Record PartialComponents := mkPartialComponents {
  pc_client : Client;
  pc_keystore : Keystore;
  pc_import_queue : ImportQueue;
  pc_data_sources : DataSources
}.
Definition new_partial (env : Env) (config : Configuration) : result ServiceError PartialComponents :=
  data_sources ← map_err Application (create_cached_main_chain_follower_data_sources create_cached_data_sources env);
  _telemetry ← map_err SubstrateError (new_telemetry s config);
  '(client, keystore) ← map_err SubstrateError (new_full_parts s config);
  _import ← map_err SubstrateError (grandpa_block_import s client GRANDPA_JUSTIFICATION_PERIOD);
  sc_slot_config ← map_err SubstrateError (slot_config s client);
  epoch_config ← map_err Application (MockCandidates.MainchainEpochConfig_read_from_env env);
  let inherent_config := NodeInherents.mkConfig epoch_config sc_slot_config in
  Ok (mkPartialComponents client keystore (import_queue EquivocationYes CompatNone inherent_config data_sources) data_sources).

(** A running node: its tasks, and whether each takes the service down when it ends. *)
Record Node := mkNode {
  node_client : Client;
  node_keystore : Keystore;
  node_import_queue : ImportQueue;
  node_aura : option (SlotWorkerTask Hash Roots AuthorityId Keystore Body Data Proposal (NodeInherents.CreateInherentDataConfig * DataSources));
  node_grandpa : option (GrandpaConfig Keystore);
  node_tasks : list (string * bool)
}.

Definition authoring (env : Env) (config : Configuration) (p : PartialComponents)
    : result ServiceError (SlotWorkerTask Hash Roots AuthorityId Keystore Body Data Proposal (NodeInherents.CreateInherentDataConfig * DataSources)) :=
  let client := pc_client p in
  let proposer_factory := mkPartnerChainsProposerFactory Proposal (basic_authorship s client) in
  sc_slot_config ← map_err SubstrateError (slot_config s client);
  mc_epoch_config ← map_err Application (MockCandidates.MainchainEpochConfig_read_from_env env);
  let inherent_config := NodeInherents.mkConfig mc_epoch_config sc_slot_config in
  Ok (start_aura _ _ (mkStartAuraParams _ _ (Slots.slot_duration sc_slot_config) client proposer_factory
    (inherent_config, pc_data_sources p) (cfg_force_authoring config) None (pc_keystore p) (2, 3) None CompatNone)).
Definition finality (config : Configuration) (p : PartialComponents) : result ServiceError (GrandpaConfig Keystore) :=
  let keystore := if is_authority (cfg_role config) then Some (pc_keystore p) else None in
  let grandpa_config := mkGrandpaConfig _ 333 GRANDPA_JUSTIFICATION_PERIOD (cfg_node_name config) false keystore (cfg_role config) in
  _voter ← map_err SubstrateError (run_grandpa_voter s grandpa_config);
  Ok grandpa_config.

Definition new_full (env : Env) (config : Configuration) : fallible ServiceError Node :=
  p ←? lift (new_partial env config);
  let client := pc_client p in
  _hash ←? Prelude.run (g ← expect (ok (genesis_hash s client)); expect g);
  _network ←? lift (map_err SubstrateError (build_network s client));
  let offchain := if cfg_offchain_worker_enabled config then [("offchain-workers-runner"%string, false)] else [] in
  let enable_grandpa := negb (cfg_disable_grandpa config) in
  _rpc ←? lift (map_err SubstrateError (spawn_tasks s client));
  aura ←? lift (if is_authority (cfg_role config) then t ← authoring env config p; Ok (Some t) else Ok None);
  grandpa ←? lift (if enable_grandpa then g ← finality config p; Ok (Some g) else Ok None);
  lift (Ok (mkNode client (pc_keystore p) (pc_import_queue p) aura grandpa
    (offchain ++ match aura with Some _ => [("aura"%string, true)] | None => [] end ++
     match grandpa with Some _ => [("grandpa-voter"%string, true)] | None => [] end))).
End Service.
End Service.

(** ** What a started node runs *)
Section Started.
Import AuraService Service.
Context `{HexCodec, SerdeJson, FileSystem, MockCandidates.Figment}.
Context {Hash Roots AuthorityId Keystore Body Data Proposal D : Type} `{!AuraStandalone Hash Roots AuthorityId Keystore}.
Context (s : @SubstrateService Hash Roots AuthorityId Keystore Body Data Proposal) (create : Env -> result string D).

(** One configuration: authoring and verification of a node agree on it, whenever each read it. *)
Record runs (env : Env) (config : Configuration) (node : @Node Hash Roots AuthorityId Keystore Body Data Proposal D) (c : NodeInherents.CreateInherentDataConfig) : Prop := {
  runs_epochs : MockCandidates.MainchainEpochConfig_read_from_env env = Ok (NodeInherents.mc_epoch_config c);
  runs_slots : slot_config s (node_client node) = Ok (NodeInherents.sc_slot_config c);
  runs_sources : create_cached_main_chain_follower_data_sources create env = Ok (iq_data_sources (node_import_queue node));
  runs_queue : node_import_queue node =
    import_queue EquivocationYes CompatNone c (iq_data_sources (node_import_queue node));
  runs_aura : node_aura node = (if is_authority (cfg_role config) then Some (mkSlotWorkerTask _ _ (NodeInherents.slot_duration c)
    (mkAuraWorker _ (node_client node) (mkPartnerChainsProposerFactory Proposal (basic_authorship s (node_client node)))
      (node_keystore node) (cfg_force_authoring config) None (2, 3) None CompatNone) (c, iq_data_sources (node_import_queue node))) else None);
  runs_grandpa : node_grandpa node = (if cfg_disable_grandpa config then None else Some (mkGrandpaConfig _ 333 GRANDPA_JUSTIFICATION_PERIOD
    (cfg_node_name config) false (if is_authority (cfg_role config) then Some (node_keystore node) else None) (cfg_role config)))
}.
Lemma new_partial_runs env config p :
  new_partial s create env config = Ok p -> exists c,
    MockCandidates.MainchainEpochConfig_read_from_env env = Ok (NodeInherents.mc_epoch_config c) /\
    slot_config s (pc_client p) = Ok (NodeInherents.sc_slot_config c) /\
    create_cached_main_chain_follower_data_sources create env = Ok (pc_data_sources p) /\
    pc_import_queue p = import_queue EquivocationYes CompatNone c (pc_data_sources p).
Proof.
  unfold new_partial. destruct (create_cached_main_chain_follower_data_sources create env) as [ds|]; [|done]. simpl_monad.
  destruct (new_telemetry s config); [|done]. simpl_monad. destruct (new_full_parts s config) as [[client keystore]|]; [|done]. simpl_monad.
  destruct (grandpa_block_import s client _); [|done]. simpl_monad. destruct (slot_config s client) as [sc|] eqn:Hsc; [|done]. simpl_monad.
  destruct (MockCandidates.MainchainEpochConfig_read_from_env env) as [ec|]; [|done]. simpl_monad. intros [= <-].
  exists (NodeInherents.mkConfig ec sc). by split_and!.
Qed.
Lemma new_full_runs env config node : new_full s create env config = Done (Ok node) -> exists c, runs env config node c.
Proof.
  unfold new_full. intros Hn. inv_fallible Hn. injection Hn as <-.
  match goal with E : lift (new_partial _ _ _ _) = Done (Ok ?p) |- _ => injection E as Hp end.
  destruct (new_partial_runs _ _ _ Hp) as ([ec sc] & He & Hs & Hd & Hq). exists (NodeInherents.mkConfig ec sc).
  match goal with E : lift (if is_authority _ then _ else _) = _ |- _ => rename E into Ha end.
  match goal with E : lift (if negb _ then _ else _) = _ |- _ => rename E into Hg end.
  split; cbn [node_client node_import_queue node_aura node_grandpa node_keystore]; [done.. | by rewrite Hq | by rewrite Hq | |].
  - unfold authoring in Ha. rewrite Hs, He in Ha. rewrite Hq. destruct (is_authority (cfg_role config)); cbn in Ha; injection Ha as <-; done.
  - unfold finality in Hg. destruct (cfg_disable_grandpa config); cbn in Hg; [injection Hg as <-; done|].
    destruct (run_grandpa_voter s _); cbn in Hg; [injection Hg as <-; done | discriminate Hg].
Qed.
End Started.

(** ** Nodes that run import each other's blocks *)
(** C4: Two started nodes of one chain. Let node A, an authority, and node B be started by
    [new_full], each with its own environment, role and database; their environments give the
    same main chain epochs, and the runtimes at their best blocks the same epoch length. When
    A's slot worker claims a slot, creates inherent data with the configuration that its service
    was started with, proposes on a parent block with the proposer of its factory and seals the
    block, B's import queue accepts it unchanged, under the conditions on what B knows of the
    main chain: its clock is at most one slot behind, it can serve the references, and its
    sources know the same token transfers and lead to the same committees. *)
Theorem running_nodes_import_blocks
    `{HexCodec, SerdeJson, FileSystem, MockCandidates.Figment}
    `{SlotOps, Minicbor, Crypto, Accounts, Rng, U256, BoundedVecOps, InherentErrors, !EqDecision TAccountId, !EqDecision TAccountKeys}
    {AccountId : Type} `{EqDecision AccountId, System AccountId} (into : TAccountId -> AccountId) account_id_leb
    `{Countable BeneficiaryId} {M N : Type} `{McHashDataSourceLaws M, NativeToken.NativeTokenDataSource N}
    {Hash Roots AuthorityId Keystore D : Type} `{AuraStandaloneLaws Hash Roots AuthorityId Keystore}
    scripts locked `{!NativeTokenLaws scripts locked}
    (* the nodes *)
    (serviceA serviceB : @Service.SubstrateService Hash Roots AuthorityId Keystore (list Authoring.InherentCall)
       (NodeInherentData BeneficiaryId) (BlockHeader Hash Roots))
    (createA createB : Env -> result string D) envA envB configA configB nodeA nodeB task
    (selection : MockDataSources + D -> AuthoritySelectionDataSource)
    (* the block *)
    ben now now' (rtA rtB rt rt1 : @Runtime.Runtime _ AccountId _ BeneficiaryId _ _) parent roots
    (sA sA' sV : M * N) (p : @NodeInherents.ProposalProviders BeneficiaryId)
    parents display auths key proposer max_duration limit header body params slot_now :
  let slot := NodeInherents.pp_slot p in let mc := NodeInherents.pp_mc_hash p in
  let worker := AuraService.sw_worker _ _ task in let '(config, sources) := AuraService.sw_create_inherent_data_providers _ _ task in
  let n := header_number (bh_header parent) +[32] 1 in
  let queue := Service.node_import_queue nodeB in
  Service.new_full serviceA createA envA configA = Done (Ok nodeA) -> Service.node_aura nodeA = Some task ->
  Service.new_full serviceB createB envB configB = Done (Ok nodeB) ->
  MockCandidates.MainchainEpochConfig_read_from_env envA = MockCandidates.MainchainEpochConfig_read_from_env envB ->
  Service.slot_config serviceA (Service.node_client nodeA) = Ok (Consensus.runtime_slot_config rtA) ->
  Service.slot_config serviceB (Service.node_client nodeB) = Ok (Consensus.runtime_slot_config rtB) ->
  SidechainPallet.SlotsPerEpoch (Runtime.Sidechain rtA) = SidechainPallet.SlotsPerEpoch (Runtime.Sidechain rtB) ->
  (* the author *)
  AuraService.worker_aux_data worker parent = Ok auths ->
  AuraService.worker_claim_slot worker slot auths = Some key ->
  NodeInherents.create_proposal_providers ben config (selection sources) now (Authoring.view_of rt (bh_header parent)) sA = (sA', Done (Ok p)) ->
  Service.basic_authorship serviceA (Service.node_client nodeA) parent =
    Ok (fun _ logs _ _ => mkBlockHeader _ _ (header_hash parent) (mkHeader n logs) roots) ->
  AuraService.worker_proposer worker parent = Ok proposer ->
  Runtime.initialize_block into account_id_leb n slot rt = Done rt1 ->
  Authoring.inherent_extrinsics rt1 (NodeInherents.proposal_data p) = Done body ->
  AuraService.proposer_propose proposer (NodeInherents.proposal_data p) (Aura.pre_digest_data slot) max_duration limit = Done header ->
  AuraService.worker_block_import_params worker header (header_hash header) body key = Ok params ->
  n <> 0 -> (n = 1 -> CommitteeManagement.NextCommittee (Runtime.committee_of rt) = None) ->
  in_width 64 slot -> length (mb_hash mc) = 32%nat ->
  (* the importing node *)
  same_sources rt (selection sources) (selection (Service.iq_data_sources queue)) ->
  NativeToken.get_main_chain_scripts (Runtime.NativeTokenManagement rt) = Some scripts ->
  Authoring.follows (NodeInherents.slot_duration config) (bh_header parent) slot mc (fst sV) ->
  (forall s, s ∈ [snd sA; snd sV] -> tokens_ok s /\ tokens_serves s (default (mb_hash mc) (tokens_from rt (bh_header parent))) (mb_hash mc)) ->
  parents (header_hash parent) = Authoring.view_of rt (bh_header parent) ->
  runs_parent (Service.node_client nodeB) (header_hash parent) n CompatNone rt auths ->
  NodeInherents.verifier_slot (Service.iq_inherent_config queue) now' = Done slot_now -> slot <= slot_now +[64] 1 ->
  exists seal sV', bp_post_digests params = [seal] /\
    Aura.verify (NodeInherents.verifier_cidp display (Service.iq_inherent_config queue) (selection (Service.iq_data_sources queue)) now' parents)
      (Service.iq_verifier queue) (Service.node_client nodeB)
      (mkBlockImportParams _ _ _ (push_log header seal) (bp_body params) [] None None false false) sV =
    (sV', Done (Ok (mkBlockImportParams _ _ _ header (bp_body params) [seal] (Some (header_hash (push_log header seal)))
      (Some LongestChain) false false))).
Proof.
  intros slot mc worker. destruct (AuraService.sw_create_inherent_data_providers _ _ task) as [config sources] eqn:Hcreate.
  intros n queue HA Htask HB Henv HslotA HslotB Hspe Hauths Hclaim Hprov Hbasic Hproposer Hinit Hbody Hpropose Hparams
    Hn Hfirst Hw Hlen Hsrc Hscripts Hfol Htok Hparents Hrp Hnow Hle.
  destruct (new_full_runs _ _ _ _ _ HA) as (cA & [HeA HsA _ _ HaA _]), (new_full_runs _ _ _ _ _ HB) as (cB & [HeB HsB _ HqB _ _]).
  rewrite Htask in HaA. destruct (Service.is_authority (Service.cfg_role configA)); [|discriminate HaA]. injection HaA as ->.
  cbn [AuraService.sw_create_inherent_data_providers] in Hcreate. injection Hcreate as Hc1 Hc2. subst cA sources.
  assert (Service.iq_inherent_config queue = config) as Hc.
  { unfold queue. rewrite HqB. cbn. destruct config as [ecA scA], cB as [ecB scB]. cbn in HeA, HsA, HeB, HsB.
    rewrite HeA, HeB in Henv. rewrite HsA in HslotA. rewrite HsB in HslotB. injection Henv as ->. injection HslotA as ->. injection HslotB as ->.
    unfold Consensus.runtime_slot_config. by rewrite Hspe. }
  rewrite Hc in *. assert (Service.iq_verifier queue = Aura.mkAuraVerifier EquivocationYes CompatNone) as -> by (unfold queue; by rewrite HqB).
  unfold AuraService.worker_proposer, Aura.proposer, AuraService.factory_init, worker in Hproposer.
  cbn [AuraService.sw_worker AuraService.aw_env AuraService.env] in Hproposer. rewrite Hbasic in Hproposer. cbn in Hproposer. injection Hproposer as <-.
  apply (authored_block_is_imported into account_id_leb scripts locked ben config _ _ now now' rt rt1 (bh_header parent) (header_hash parent) roots n
    sA sA' sV p (Service.node_client nodeB) parents _ display auths _ key max_duration limit header body params slot_now
    Hprov Hinit Hbody Hclaim Hpropose Hparams); done.
Qed.

(** ** Two nodes and their first block *)
Module TwoServices.
Import Service AuraService ConcreteSlot ConcreteAccounts Selection.Concrete Rfc8949 ToyAura FirstBlock ConcreteHex Console.
(** The epochs of the main chain from the environment. *)
#[export] Instance fixed_epochs : MockCandidates.Figment := fun env field _ =>
  Ok (if bool_decide (field = "epoch_duration_millis"%string) then 180000 else 0).
#[export] Instance empty_files : FileSystem := fun _ => Err "no file"%string.
Definition genesis_block : BlockHeader Z () := mkBlockHeader _ _ 0 genesis_header tt.
Definition substrate : @SubstrateService Z () Z (list Z) (list Authoring.InherentCall) (NodeInherentData Z) (BlockHeader Z ()) :=
  mkSubstrateService (fun _ => Ok ()) (fun config => Ok (import_client, if is_authority (cfg_role config) then [7] else [])) (fun _ _ => Ok ())
    (fun _ => Ok (Consensus.runtime_slot_config genesis_state)) (fun _ => Ok (Some 0)) (fun _ => Ok ()) (fun _ => Ok ())
    (fun _ parent => Ok (fun _ logs _ _ =>
       mkBlockHeader _ _ (header_hash parent) (mkHeader (header_number (bh_header parent) +[32] 1) logs) tt))
    (fun _ => Ok ()).
Definition db_sync (_ : Env) : result string () := Ok tt.
Definition authority := mkConfiguration RoleAuthority false false true "alice".
Definition full_node := mkConfiguration RoleFull false true false "bob".
Definition started (config : Configuration) : option Node :=
  match new_full substrate db_sync ∅ config with Done (Ok node) => Some node | _ => None end.
Definition selection_of (_ : MockDataSources + ()) : AuthoritySelectionDataSource := candidates.
Definition config6 := NodeInherents.mkConfig (mkMainchainEpochConfig 0 180000 0 0) (Slots.mkScSlotConfig 60 6000).
Definition proposal6 := match NodeInherents.create_proposal_providers beneficiary config6 candidates 663000 (Authoring.view_of genesis_state genesis_header) author with
  | (_, Done (Ok p)) => p | _ => NodeInherents.mkProposalProviders 0 0 mc5 None 0 None end.
Definition begun6 := match Runtime.initialize_block acc bytes_leb 1 (NodeInherents.pp_slot proposal6) genesis_state with Done rt => rt | Panic => genesis_state end.
Definition body6 := match Authoring.inherent_extrinsics begun6 (NodeInherents.proposal_data proposal6) with Done body => body | Panic => [] end.
Definition header6 : BlockHeader Z () := mkBlockHeader _ _ 0
  (mkHeader 1 (Aura.pre_digest_data 110 ++ McHash.from_mc_block_hash (mb_hash (NodeInherents.pp_mc_hash proposal6)))) tt.
Definition params6 : BlockImportParams Z () (list Authoring.InherentCall) :=
  mkBlockImportParams _ _ _ header6 (Some body6) [Seal AURA_ENGINE_ID [7]] None (Some LongestChain) false false.

Definition queue6 : @ImportQueue () := import_queue EquivocationYes CompatNone config6 (inr tt).
Definition task6 : SlotWorkerTask Z () Z (list Z) (list Authoring.InherentCall) (NodeInherentData Z) (BlockHeader Z ())
    (NodeInherents.CreateInherentDataConfig * (MockDataSources + ())) :=
  mkSlotWorkerTask _ _ 6000 (mkAuraWorker _ import_client (mkPartnerChainsProposerFactory _ (basic_authorship substrate import_client))
    [7] false None (2, 3) None CompatNone) (config6, inr tt).
Definition alice := mkNode import_client [7] queue6 (Some task6) (Some (mkGrandpaConfig _ 333 512 "alice" false (Some [7]) RoleAuthority))
  [("offchain-workers-runner"%string, false); ("aura"%string, true); ("grandpa-voter"%string, true)].
Definition bob : @Node Z () Z (list Z) (list Authoring.InherentCall) (NodeInherentData Z) (BlockHeader Z ()) () :=
  mkNode import_client [] queue6 None None [].

Example tasks_of_nodes :
  (node_tasks <$> started authority, node_tasks <$> started full_node) =
  (Some [("offchain-workers-runner"%string, false); ("aura"%string, true); ("grandpa-voter"%string, true)], Some []).
Proof. vm_compute. reflexivity. Qed.
End TwoServices.

Section ServiceWitness.
Import Service AuraService ConcreteSlot ConcreteAccounts Selection.Concrete Rfc8949 ToyAura FirstBlock ConcreteHex Console TwoServices.
Lemma running_nodes_import_blocks_witness :
  exists seal sV', bp_post_digests params6 = [seal] /\
    Aura.verify (NodeInherents.verifier_cidp (fun _ => ""%string) config6 candidates 659000 parents) (iq_verifier queue6) import_client
      (mkBlockImportParams _ _ _ (push_log header6 seal) (bp_body params6) [] None None false false) importer =
    (sV', Done (Ok (mkBlockImportParams _ _ _ header6 (bp_body params6) [seal] (Some (header_hash (push_log header6 seal)))
      (Some LongestChain) false false))).
Proof.
  apply (running_nodes_import_blocks acc bytes_leb token_scripts locked substrate substrate db_sync db_sync ∅ ∅ authority full_node alice bob task6
    selection_of beneficiary 663000 659000 genesis_state genesis_state genesis_state begun6 genesis_block tt author author importer proposal6
    parents (fun _ => ""%string) [7] 7 (mkPartnerChainsProposer _ (fun _ logs _ _ => mkBlockHeader _ _ 0 (mkHeader 1 logs) tt)) 0 None header6 body6 params6 109).
  1-9: reflexivity.
  1: vm_compute; reflexivity.
  1-2: reflexivity.
  1-4: vm_compute; reflexivity.
  - discriminate.
  - reflexivity.
  - vm_compute. split; [discriminate | reflexivity].
  - reflexivity.
  - split; [done|]. intros e scripts i Hi. by exists i.
  - reflexivity.
  - split; [apply (bool_decide_unpack _); vm_compute; exact I | | by left]. exists 660000. split; [reflexivity|].
    split; [left | vm_compute; discriminate].
  - intros x _. split; [exact I | vm_compute; discriminate].
  - reflexivity.
  - split; [reflexivity | by exists true | reflexivity | by exists false].
  - vm_compute; reflexivity.
  - vm_compute. discriminate.
Defined.
End ServiceWitness.
