(* ===== verification/NodeMain.v ===== *)
(** * The node's RPC server and command line

    [node/node/src/rpc.rs]: the methods that a node serves, merged into one table, and
    [node/node/src/command/mod.rs]: which command needs which parts of the service.

    Third-party: the methods of Substrate's own RPC modules, and the commands of [sc_cli] and
    [frame_benchmarking_cli] with the runner that reads their arguments. *)

From S2P Require Import Prelude Domain McEpoch Slots BlockSearch McHash Cbor Json PlutusDatums Selection Ariadne Committee AriadneInherent Query Session NativeToken BlockRewards Runtime ChainQueries Aura NodeInherents Authoring Ogmios OffchainCsl Offchain CliConfig CliRegister CliNode NodeCommands NodeSpec MockSources Service.
#[local] Open Scope string_scope.
#[local] Open Scope list_scope.
#[local] Open Scope Z_scope.

(** ** RPC *)
Module NodeRpc.
(** A method of the table: Substrate's, or one of the node's with what its server was made of. *)
Inductive Method :=
| Substrate
| GetParams
| GetStatus (mc_epoch_config : MainchainEpochConfig)
| GetEpochCommittee
| GetRegistrations
| GetAriadneParameters.
Definition RpcModule : Type := list (string * Method).
(** [merge] refuses a module with a name that is taken. *)
Definition merge (self other : RpcModule) : result string RpcModule :=
  if bool_decide (Forall (fun m => fst m ∉ map fst self) other) then Ok (self ++ other) else Err "Method already registered".

Definition SidechainRpc_into_rpc (mc_epoch_config : MainchainEpochConfig) : RpcModule :=
  [("sidechain_getParams", GetParams); ("sidechain_getStatus", GetStatus mc_epoch_config)].
Definition SessionValidatorManagementRpc_into_rpc : RpcModule :=
  [("sidechain_getEpochCommittee", GetEpochCommittee); ("sidechain_getRegistrations", GetRegistrations);
   ("sidechain_getAriadneParameters", GetAriadneParameters)].

(** The names that [System], [TransactionPayment] and [Grandpa] register. *)
Class SubstrateRpc := { system_methods : list string; payment_methods : list string; grandpa_methods : list string }.
Definition foreign (names : list string) : RpcModule := map (fun n => (n, Substrate)) names.
(** Names have the prefix of their module and are distinct. *)
Class SubstrateRpcLaws `{SubstrateRpc} : Prop := {
  substrate_nodup : NoDup (system_methods ++ payment_methods ++ grandpa_methods);
  substrate_prefix : forall n, n ∈ (system_methods ++ payment_methods ++ grandpa_methods) -> String.prefix "sidechain_" n = false
}.

Section CreateFull.
Context `{SubstrateRpc, MockCandidates.Figment}.
Definition create_full (env : Env) : fallible string RpcModule :=
  let module := [] in
  module ←? lift (merge module (foreign system_methods));
  module ←? lift (merge module (foreign payment_methods));
  mc_epoch_config ←? Prelude.run (expect (ok (MockCandidates.MainchainEpochConfig_read_from_env env)));
  module ←? lift (merge module (SidechainRpc_into_rpc mc_epoch_config));
  module ←? lift (merge module (foreign grandpa_methods));
  lift (merge module SessionValidatorManagementRpc_into_rpc).
End CreateFull.

(** What the partner chain's servers are made of: the client with the runtime API at its best
    block, the sources of the main chain and the clock. The pool and Grandpa's parts are for
    Substrate's servers. *)
Record FullDeps := mkFullDeps {
  fd_client : Query.QueryClient;
  fd_genesis_utxo : bytes -> result ApiError UtxoId;
  fd_slot_config : result string Slots.ScSlotConfig;
  fd_authority_selection : AuthoritySelectionDataSource;
  fd_latest_block : result string MainchainBlock;
  fd_now : Z
}.
Inductive Request :=
| AskParams | AskStatus | AskEpochCommittee (epoch : ScEpochNumber)
| AskRegistrations (mc_epoch : McEpochNumber) (key : MainchainPublicKey) | AskAriadneParameters (mc_epoch : McEpochNumber).
Definition method_name (r : Request) : string :=
  match r with
  | AskParams => "sidechain_getParams" | AskStatus => "sidechain_getStatus" | AskEpochCommittee _ => "sidechain_getEpochCommittee"
  | AskRegistrations _ _ => "sidechain_getRegistrations" | AskAriadneParameters _ => "sidechain_getAriadneParameters"
  end.
Inductive Answer :=
| MethodNotFound
| InvalidParams
| ParamsAnswer (r : result ErrorObject UtxoId)
| StatusAnswer (r : fallible Rpc.GetStatusRpcError Rpc.GetStatusResponse)
| CommitteeAnswer (r : option (fallible ErrorObject Query.GetCommitteeResponse))
| RegistrationsAnswer (r : result ErrorObject (list Query.CandidateRegistrationEntry))
| ParametersAnswer (r : result ErrorObject Query.QueryAriadneParameters).

Section Serve.
Context `{SlotOps, HexCodec, Ss58, DebugText}.
Definition call (m : Method) (d : FullDeps) (r : Request) : Answer :=
  match m, r with
  | GetParams, AskParams => ParamsAnswer (rpc_get_params (fd_genesis_utxo d) (fd_client d))
  | GetStatus c, AskStatus => StatusAnswer (Rpc.get_status c (fd_slot_config d) (fd_latest_block d) (fd_now d))
  | GetEpochCommittee, AskEpochCommittee e => CommitteeAnswer (rpc_get_epoch_committee (fd_client d) e)
  | GetRegistrations, AskRegistrations e k => RegistrationsAnswer (rpc_get_registrations (fd_client d) (fd_authority_selection d) e k)
  | GetAriadneParameters, AskAriadneParameters e => ParametersAnswer (rpc_get_ariadne_parameters (fd_client d) (fd_authority_selection d) e)
  | _, _ => InvalidParams
  end.
Definition serve (module : RpcModule) (d : FullDeps) (r : Request) : Answer :=
  match List.find (fun m => bool_decide (fst m = method_name r)) module with
  | None => MethodNotFound
  | Some m => call (snd m) d r
  end.
End Serve.
End NodeRpc.

(** ** Benchmarking data *)

(** [node/node/src/benchmarking.rs]: blocks and extrinsics of the benchmark commands. *)
Module Benchmarking.
Definition BlockHashCount : Z := 2400.
Definition EXISTENTIAL_DEPOSIT : Z := 500.
(** The runtime's version, without the table of its APIs. *)
Record RuntimeVersion := mkRuntimeVersion {
  spec_name : string; impl_name : string; authoring_version : Z; spec_version : Z; impl_version : Z; transaction_version : Z; state_version : Z
}.
Definition VERSION : RuntimeVersion := mkRuntimeVersion "cardano-sidechain" "cardano-sidechain" 1 116 1 1 1.
(** [u32::checked_next_power_of_two]. *)
Definition checked_next_power_of_two (n : Z) : option Z :=
  let p := 2 ^ Z.log2_up n in if p <? 2 ^ 32 then Some p else None.

Inductive RuntimeCall := Remark (remark : bytes) | TransferKeepAlive (dest : bytes) (value : Z).
(** [SignedExtra], of its extensions those with content, and what is signed with it. *)
Record SignedExtra := mkSignedExtra { era_period : Z; era_current : Z; extra_nonce : Z; tip : Z }.
Record AdditionalSigned {Hash : Type} := mkAdditionalSigned {
  as_spec_version : Z; as_transaction_version : Z; as_genesis_hash : Hash; as_mortality_hash : Hash
}.
Arguments AdditionalSigned : clear implicits. Arguments mkAdditionalSigned {_}.
Record UncheckedExtrinsic := mkUncheckedExtrinsic { function : RuntimeCall; signer : bytes; signature : bytes; extra : SignedExtra }.

Section Extrinsics.
Context {Hash : Type}.
(** What the client knows, and a key pair: its public key and how it signs a payload. *)
Record BenchClient := mkBenchClient { block_hash : Z -> result string (option Hash); best_hash : Hash; best_number : Z }.
Record Pair := mkPair { public : bytes; sign : RuntimeCall -> SignedExtra -> AdditionalSigned Hash -> bytes }.

Definition create_benchmark_extrinsic (client : BenchClient) (sender : Pair) (call : RuntimeCall) (nonce : Z) : outcome UncheckedExtrinsic :=
  genesis ← expect (ok (block_hash client 0));
  genesis_hash ← expect genesis;
  let period := default 2 (option_map (fun c => c / 2) (checked_next_power_of_two BlockHashCount)) in
  let extra := mkSignedExtra period (best_number client) nonce 0 in
  let signature := sign sender call extra
    (mkAdditionalSigned (spec_version VERSION) (transaction_version VERSION) genesis_hash (best_hash client)) in
  Done (mkUncheckedExtrinsic call (public sender) signature extra).

(** The builders; both sign as Bob. *)
Record TransferKeepAliveBuilder := mkTransferKeepAliveBuilder { tka_client : BenchClient; dest : bytes; value : Z }.
Definition remark_build (bob : Pair) (client : BenchClient) (nonce : Z) : outcome UncheckedExtrinsic :=
  create_benchmark_extrinsic client bob (Remark []) nonce.
Definition transfer_build (bob : Pair) (self : TransferKeepAliveBuilder) (nonce : Z) : outcome UncheckedExtrinsic :=
  create_benchmark_extrinsic (tka_client self) bob (TransferKeepAlive (dest self) (value self)) nonce.
End Extrinsics.
Arguments BenchClient : clear implicits. Arguments Pair : clear implicits. Arguments TransferKeepAliveBuilder : clear implicits.

Definition DUMMY_EPOCH_NONCE : bytes := [1; 2; 3].
Definition benchmark_candidates : list PermissionedCandidateData :=
  map (fun i => let key := replicate 32 (Z.of_nat i) in mkPermissionedCandidateData key key key) (seq 1 100).
Definition benchmark_inputs : AuthoritySelectionInputs :=
  mkAuthoritySelectionInputs (mkDParameter 1 0) benchmark_candidates [] DUMMY_EPOCH_NONCE.
Definition inherent_benchmark_data {BeneficiaryId} (beneficiary_from_env : string -> result BlockRewards.InherentProviderCreationError BeneficiaryId)
    : result BlockRewards.InherentProviderCreationError (NodeInherentData BeneficiaryId) :=
  beneficiary_id ← beneficiary_from_env "SIDECHAIN_BLOCK_BENEFICIARY";
  Ok (mkNodeInherentData _ None (Some 0) (Ok None) (Ok (Some benchmark_inputs))
    (BlockRewards.provide_inherent_data beneficiary_id) (Ok None)).
End Benchmarking.

Section BenchmarkBlocks.
Import Benchmarking.
Context `{Minicbor, Crypto, Rng, U256, BoundedVecOps}.
(** The candidates of the benchmark have keys of 32 bytes, which is no key of the partner chain. *)
Lemma benchmark_candidates_invalid : filter_invalid_permissioned_candidates benchmark_candidates = [].
Proof. reflexivity. Qed.
Lemma benchmark_selects_nobody genesis epoch : Runtime.runtime_select_authorities genesis benchmark_inputs epoch = Done None.
Proof.
  unfold Runtime.runtime_select_authorities, select_authorities. cbn [permissioned_candidates registered_candidates benchmark_inputs].
  rewrite benchmark_candidates_invalid. reflexivity.
Qed.
(** The inherents of a benchmark's block: the current committee again, and the beneficiary. *)
Theorem benchmark_block_keeps_committee {AccountId : Type} `{EqDecision AccountId, System AccountId} `{Countable BeneficiaryId}
    (rt : @Runtime.Runtime runtime_accounts AccountId _ BeneficiaryId _ _) from_env b data :
  CommitteeManagement.NextCommittee (Runtime.committee_of rt) = None ->
  from_env "SIDECHAIN_BLOCK_BENEFICIARY" = Ok b -> inherent_benchmark_data from_env = Ok data ->
  Authoring.inherent_extrinsics rt data = Done
    [Authoring.CommitteeCall (CommitteeManagement.call_set (CommitteeManagement.committee (CommitteeManagement.CurrentCommittee (Runtime.committee_of rt)))
       (CommitteeManagement.epoch (CommitteeManagement.CurrentCommittee (Runtime.committee_of rt)) +[64] 1)); Authoring.BeneficiaryCall b].
Proof.
  intros Hnext Hb. unfold inherent_benchmark_data. rewrite Hb. simpl_monad. intros [= <-].
  unfold Authoring.inherent_extrinsics, CommitteeManagement.create_inherent. rewrite Hnext. cbn [nd_ariadne].
  unfold CommitteeManagement.calculate_committee_from_inherent_data. cbn. unfold Authoring.rt_select. rewrite benchmark_selects_nobody. reflexivity.
Qed.
End BenchmarkBlocks.

(** ** The command line *)
Module Command.
Import Service.
(** Commands of Substrate, with their arguments, are values of [Cmd]. *)
Section Commands.
Context {Cmd : Type}.
Inductive BenchmarkCmd :=
| BenchPallet (cmd : Cmd) | BenchBlock (cmd : Cmd) | BenchStorage (cmd : Cmd) | BenchOverhead (cmd : Cmd)
| BenchExtrinsic (cmd : Cmd) | BenchMachine (cmd : Cmd).
Definition bench_args (b : BenchmarkCmd) : Cmd :=
  match b with BenchPallet c | BenchBlock c | BenchStorage c | BenchOverhead c | BenchExtrinsic c | BenchMachine c => c end.
Context `{CslLib, Blake2bHash, !Uplc, Minicbor, !RawScripts, !Hex, !HexCodec} {S : Type} `{!MainchainClient S}.
Context `{!SerdeJson, !SerdeCompact, !FileSystem, !HttpClient, !SigningKeys, !Ss58, !DebugText}.
(** [PartnerChains] has the arguments that its query commands share with Substrate's. *)
Inductive Subcommand :=
| Key (cmd : Cmd)
| PartnerChains (shared_params : Cmd) (cmd : PartnerChainsSubcommand)
| BuildSpec (cmd : Cmd) | CheckBlock (cmd : Cmd) | ExportBlocks (cmd : Cmd) | ExportState (cmd : Cmd) | ImportBlocks (cmd : Cmd)
| PurgeChain (cmd : Cmd) | Revert (cmd : Cmd) | Benchmark (cmd : BenchmarkCmd) | ChainInfo (cmd : Cmd).
Record Cli := mkCli { subcommand : option Subcommand; cli_run : Cmd }.

Context `{ChainSpecJson, SubstrateGenesis, Envy, Keyring, SpecFiles, MockCandidates.Figment}.
Context {Hash Roots AuthorityId Keystore Body Data Proposal D BeneficiaryId : Type} `{!AuraStandalone Hash Roots AuthorityId Keystore}.
#[local] Abbreviation Client := (AuraClient Hash Roots AuthorityId Body Data).
#[local] Abbreviation RunningNode := (@Node Hash Roots AuthorityId Keystore Body Data Proposal D).

(** The runner: configuration from the arguments and the chain specification. What each command
    of Substrate does with the parts of the service that it is given. *)
Record SubstrateCommands := mkSubstrateCommands {
  chain_id : Cmd -> string;
  create_configuration : Cmd -> ChainSpec -> result string Configuration;
  key_run : Cmd -> result string ();
  build_spec_run : Cmd -> ChainSpec -> result string ();
  check_block_run : Cmd -> Client -> @ImportQueue D -> result string ();
  export_blocks_run : Cmd -> Client -> result string ();
  export_state_run : Cmd -> Client -> ChainSpec -> result string ();
  import_blocks_run : Cmd -> Client -> @ImportQueue D -> result string ();
  purge_chain_run : Cmd -> Configuration -> result string ();
  revert_run : Cmd -> Client -> (Client -> Z -> result string ()) -> result string ();
  grandpa_revert : Client -> Z -> result string ();
  chain_info_run : Cmd -> Configuration -> result string ();
  bench_pallet_run : Cmd -> ChainSpec -> result string ();
  bench_block_run : Cmd -> Client -> result string ();
  bench_storage_run : Cmd -> Configuration -> Client -> result string ();
  bench_overhead_run : Cmd -> Configuration -> Client -> NodeInherentData BeneficiaryId ->
    (Z -> outcome Benchmarking.UncheckedExtrinsic) -> result string ();
  bench_extrinsic_run : Cmd -> Client -> NodeInherentData BeneficiaryId ->
    list (Z -> outcome Benchmarking.UncheckedExtrinsic) -> result string ();
  bench_machine_run : Cmd -> Configuration -> result string ();
  run_until_exit : RunningNode -> result string ()
}.
Context (sc : SubstrateCommands) (s : @SubstrateService Hash Roots AuthorityId Keystore Body Data Proposal)
  (create : Env -> result string D) (env : Env).
(** How errors are shown, the parts of a client that queries and benchmarks use, the features of
    the build and the keys of Substrate's development accounts. *)
Record NodeParts := mkNodeParts {
  error_text : ServiceError -> string;
  creation_error_text : BlockRewards.InherentProviderCreationError -> string;
  query_of : Client -> Query.QueryClient;
  selection_of : MockDataSources + D -> AuthoritySelectionDataSource;
  genesis_utxo_of : bytes -> result ApiError UtxoId;
  tx_to_json : Transaction -> result string string;
  bench_client : Client -> Benchmarking.BenchClient Hash;
  runtime_benchmarks : bool;
  alice_account : bytes;
  bob_pair : Benchmarking.Pair Hash;
  beneficiary_from_env : string -> result BlockRewards.InherentProviderCreationError BeneficiaryId
}.
Context (parts : NodeParts).

Definition create_runner (cmd : Cmd) : fallible string (Configuration * ChainSpec) :=
  spec ←? load_spec (chain_id sc cmd) env;
  config ←? lift (create_configuration sc cmd spec);
  lift (Ok (config, spec)).
Definition partial (config : Configuration) : result string (@PartialComponents Hash Roots AuthorityId Keystore Body Data D) :=
  map_err (error_text parts) (new_partial s create env config).
Definition make_dependencies (config : Configuration) : result string (Query.QueryClient * AuthoritySelectionDataSource) :=
  components ← partial config;
  Ok (query_of parts (pc_client components), selection_of parts (pc_data_sources components)).
Definition benchmark_data : result string (NodeInherentData BeneficiaryId) :=
  map_err (creation_error_text parts) (Benchmarking.inherent_benchmark_data (beneficiary_from_env parts)).

Definition run_benchmark (cmd : BenchmarkCmd) (config : Configuration) (spec : ChainSpec) : result string () :=
  match cmd with
  | BenchPallet cmd =>
      if negb (runtime_benchmarks parts) then
        Err "Runtime benchmarking wasn't enabled when building the node. You can enable it with `--features runtime-benchmarks`."
      else bench_pallet_run sc cmd spec
  | BenchBlock cmd => p ← partial config; bench_block_run sc cmd (pc_client p)
  | BenchStorage cmd =>
      if negb (runtime_benchmarks parts) then
        Err "Storage benchmarking can be enabled with `--features runtime-benchmarks`."
      else p ← partial config; bench_storage_run sc cmd config (pc_client p)
  | BenchOverhead cmd =>
      p ← partial config;
      let ext_builder := Benchmarking.remark_build (bob_pair parts) (bench_client parts (pc_client p)) in
      data ← benchmark_data;
      bench_overhead_run sc cmd config (pc_client p) data ext_builder
  | BenchExtrinsic cmd =>
      p ← partial config;
      let client := bench_client parts (pc_client p) in
      let ext_factory :=
        [Benchmarking.remark_build (bob_pair parts) client;
         Benchmarking.transfer_build (bob_pair parts)
           (Benchmarking.mkTransferKeepAliveBuilder client (alice_account parts) Benchmarking.EXISTENTIAL_DEPOSIT)] in
      data ← benchmark_data;
      bench_extrinsic_run sc cmd (pc_client p) data ext_factory
  | BenchMachine cmd => bench_machine_run sc cmd config
  end.
(** [runner.sync_run] and [runner.async_run]. *)
Definition with_runner (cmd : Cmd) (k : Configuration -> ChainSpec -> fallible string ()) : stateful S string (option string) :=
  stateless (r ←? create_runner cmd; _done ←? k (fst r) (snd r); lift (Ok None)).
Definition with_partial (cmd : Cmd) (k : @PartialComponents Hash Roots AuthorityId Keystore Body Data D -> ChainSpec -> result string ())
    : stateful S string (option string) :=
  with_runner cmd (fun config spec => lift (p ← partial config; k p spec)).

Definition run (cli : Cli) : stateful S string (option string) :=
  match subcommand cli with
  | Some (Key cmd) => stateless (lift (_done ← key_run sc cmd; Ok None))
  | Some (PartnerChains shared cmd) =>
      NodeCommands.run (genesis_utxo_of parts) (tx_to_json parts) (r ←? create_runner shared; lift (make_dependencies (fst r))) cmd
  | Some (BuildSpec cmd) => with_runner cmd (fun _ spec => lift (build_spec_run sc cmd spec))
  | Some (CheckBlock cmd) => with_partial cmd (fun p _ => check_block_run sc cmd (pc_client p) (pc_import_queue p))
  | Some (ExportBlocks cmd) => with_partial cmd (fun p _ => export_blocks_run sc cmd (pc_client p))
  | Some (ExportState cmd) => with_partial cmd (fun p spec => export_state_run sc cmd (pc_client p) spec)
  | Some (ImportBlocks cmd) => with_partial cmd (fun p _ => import_blocks_run sc cmd (pc_client p) (pc_import_queue p))
  | Some (PurgeChain cmd) => with_runner cmd (fun config _ => lift (purge_chain_run sc cmd config))
  | Some (Revert cmd) => with_partial cmd (fun p _ =>
      let aux_revert (client : Client) (blocks : Z) : result string () := _reverted ← grandpa_revert sc client blocks; Ok tt in
      revert_run sc cmd (pc_client p) aux_revert)
  | Some (Benchmark cmd) => with_runner (bench_args cmd) (fun config spec => lift (run_benchmark cmd config spec))
  | Some (ChainInfo cmd) => with_runner cmd (fun config _ => lift (chain_info_run sc cmd config))
  | None => with_runner (cli_run cli) (fun config _ =>
      r ← new_full s create env config;
      Done (node ← map_err (error_text parts) r; run_until_exit sc node))
  end.
End Commands.
End Command.

(** ** The RPC of a running node *)
Section RunningRpc.
Import NodeRpc.
Context `{SubstrateRpcLaws, MockCandidates.Figment}.

Lemma merge_disjoint self other :
  Forall (fun m => fst m ∉ map fst self) other -> merge self other = Ok (self ++ other).
Proof. intros Hd. unfold merge. by rewrite bool_decide_eq_true_2. Qed.
Definition own_methods (c : MainchainEpochConfig) : RpcModule := SidechainRpc_into_rpc c ++ SessionValidatorManagementRpc_into_rpc.
Definition node_methods (c : MainchainEpochConfig) : RpcModule :=
  foreign system_methods ++ foreign payment_methods ++ SidechainRpc_into_rpc c ++ foreign grandpa_methods ++ SessionValidatorManagementRpc_into_rpc.
Lemma map_fst_foreign names : map fst (foreign names) = names.
Proof. unfold foreign. rewrite map_map. apply map_id. Qed.
Lemma own_method_prefix c n : n ∈ map fst (own_methods c) -> String.prefix "sidechain_" n = true.
Proof. cbn. rewrite !elem_of_cons, elem_of_nil. intros H'. destruct_or!; subst; done. Qed.
Lemma own_not_foreign c n : n ∈ map fst (own_methods c) -> n ∈ system_methods ++ payment_methods ++ grandpa_methods -> False.
Proof. intros Hn%own_method_prefix Hf%substrate_prefix. congruence. Qed.
Lemma own_nodup c : NoDup (map fst (own_methods c)).
Proof. apply (bool_decide_unpack _). vm_compute. exact I. Qed.
Lemma node_methods_nodup c : NoDup (map fst (node_methods c)).
Proof.
  assert (map fst (node_methods c) ≡ₚ (system_methods ++ payment_methods ++ grandpa_methods) ++ map fst (own_methods c)) as ->.
  { unfold node_methods, own_methods. rewrite !map_app, !map_fst_foreign. solve_Permutation. }
  apply NoDup_app. split_and!; [apply substrate_nodup | | apply own_nodup]. intros n Hf Hn. by eapply own_not_foreign.
Qed.
(** A table without duplicates is the result of merging its parts in any split. *)
Lemma merge_nodup self other : NoDup (map fst (self ++ other)) -> merge self other = Ok (self ++ other).
Proof.
  rewrite map_app. intros (_ & Hd & _)%NoDup_app. apply merge_disjoint, Forall_forall. intros m Hm Hin.
  apply (Hd _ Hin). by apply list_elem_of_fmap_2.
Qed.
Lemma names_prefix (l k : RpcModule) : NoDup (map fst (l ++ k)) -> NoDup (map fst l).
Proof. rewrite map_app. by intros (? & _)%NoDup_app. Qed.
Lemma create_full_methods env c :
  MockCandidates.MainchainEpochConfig_read_from_env env = Ok c -> create_full env = Done (Ok (node_methods c)).
Proof.
  intros Hc. unfold create_full. rewrite Hc. pose proof (node_methods_nodup c) as Hn. unfold node_methods in Hn.
  rewrite !app_assoc in Hn. pose proof names_prefix as Hp.
  assert (merge [] (foreign system_methods) = Ok (foreign system_methods)) as -> by (apply merge_disjoint, Forall_forall; intros ?? []%not_elem_of_nil).
  simpl_monad. rewrite merge_nodup by eauto. simpl_monad. rewrite merge_nodup by eauto. simpl_monad.
  rewrite merge_nodup by eauto. simpl_monad. rewrite merge_nodup by done. unfold node_methods. by rewrite <- !app_assoc.
Qed.

Lemma find_method (module : RpcModule) name m :
  NoDup (map fst module) -> (name, m) ∈ module -> List.find (fun m => bool_decide (fst m = name)) module = Some (name, m).
Proof.
  induction module as [|[n m'] module IH]; [by intros _ []%not_elem_of_nil|]. cbn. intros [Hn Hd]%NoDup_cons [[= -> ->]|Hm]%elem_of_cons.
  - by rewrite bool_decide_eq_true_2.
  - rewrite bool_decide_eq_false_2; [auto|]. intros ->. apply Hn. by apply (list_elem_of_fmap_2 fst _ _ Hm).
Qed.
End RunningRpc.

(** What a started node answers to each request. *)
Section Answers.
Import NodeRpc.
Context `{SlotOps, HexCodec, Ss58, DebugText, SerdeJson, FileSystem, SubstrateRpcLaws, MockCandidates.Figment}.
Definition answer (c : MainchainEpochConfig) (d : FullDeps) (r : Request) : Answer :=
  match r with
  | AskParams => ParamsAnswer (rpc_get_params (fd_genesis_utxo d) (fd_client d))
  | AskStatus => StatusAnswer (Rpc.get_status c (fd_slot_config d) (fd_latest_block d) (fd_now d))
  | AskEpochCommittee e => CommitteeAnswer (rpc_get_epoch_committee (fd_client d) e)
  | AskRegistrations e k => RegistrationsAnswer (rpc_get_registrations (fd_client d) (fd_authority_selection d) e k)
  | AskAriadneParameters e => ParametersAnswer (rpc_get_ariadne_parameters (fd_client d) (fd_authority_selection d) e)
  end.
Definition server_of (c : MainchainEpochConfig) (r : Request) : Method :=
  match r with
  | AskParams => GetParams | AskStatus => GetStatus c | AskEpochCommittee _ => GetEpochCommittee
  | AskRegistrations _ _ => GetRegistrations | AskAriadneParameters _ => GetAriadneParameters
  end.
Lemma server_listed c r : (method_name r, server_of c r) ∈ node_methods c.
Proof. unfold node_methods. rewrite !elem_of_app. destruct r; cbn; set_solver. Qed.
Lemma node_serves c d r : serve (node_methods c) d r = answer c d r.
Proof.
  unfold serve. rewrite (find_method _ _ (server_of c r)); [by destruct r | apply node_methods_nodup | apply server_listed].
Qed.

(** The RPC server of a node that started is created without an error or a panic, registers no
    name twice, and answers each request of the partner chain by its own method, the status with
    the epochs that the node's inherent data is made with. *)
Theorem started_node_answers {Hash Roots AuthorityId Keystore Body Data Proposal D : Type}
    (s : @Service.SubstrateService Hash Roots AuthorityId Keystore Body Data Proposal) (create : Env -> result string D) env config node :
  Service.new_full s create env config = Done (Ok node) ->
  exists module, create_full env = Done (Ok module) /\ NoDup (map fst module) /\
    forall d r, serve module d r = answer (NodeInherents.mc_epoch_config (Service.iq_inherent_config (Service.node_import_queue node))) d r.
Proof.
  intros [c Hr]%new_full_runs. exists (node_methods (NodeInherents.mc_epoch_config c)). rewrite (runs_queue _ _ _ _ _ _ Hr). split_and!.
  - apply create_full_methods, (runs_epochs _ _ _ _ _ _ Hr).
  - apply node_methods_nodup.
  - intros d r. apply node_serves.
Qed.
End Answers.

(** ** Commands and the node *)
Section CommandProps.
Import Service Command.
Context {Cmd : Type} `{CslLib, Blake2bHash, !Uplc, Minicbor, !RawScripts, !Hex, !HexCodec} {S : Type} `{!MainchainClient S}.
Context `{!SerdeJson, !SerdeCompact, !FileSystem, !HttpClient, !SigningKeys, !Ss58, !DebugText}.
Context `{ChainSpecJson, SubstrateGenesis, Envy, Keyring, SpecFiles, MockCandidates.Figment}.
Context {Hash Roots AuthorityId Keystore Body Data Proposal D BeneficiaryId : Type}.
Context (sc : @SubstrateCommands Cmd Hash Roots AuthorityId Keystore Body Data Proposal D BeneficiaryId)
  (s : @SubstrateService Hash Roots AuthorityId Keystore Body Data Proposal)
  (parts : @NodeParts _ _ Hash Roots AuthorityId Body Data D BeneficiaryId).
Implicit Types (create : Env -> result string D) (w : S).

(** Commands that prepare a chain: keys, specification, registration and contracts. *)
Definition without_sources (c : @Subcommand Cmd _) : bool :=
  match c with
  | Key _ | BuildSpec _ | PurgeChain _ | ChainInfo _ => true
  | PartnerChains _ (RegistrationSignatures _) | PartnerChains _ (SmartContracts _) => true
  | Benchmark (BenchPallet _) | Benchmark (BenchMachine _) => true
  | Benchmark (BenchStorage _) => negb (runtime_benchmarks parts)
  | _ => false
  end.
Theorem setup_needs_no_sources create create' env c cmd w :
  without_sources c = true -> run sc s create env parts (mkCli (Some c) cmd) w = run sc s create' env parts (mkCli (Some c) cmd) w.
Proof.
  destruct c as [|? []| | | | | | | |[]|]; intros Hc; try discriminate Hc; try reflexivity.
  unfold run, with_runner, run_benchmark. cbn in *. by rewrite Hc.
Qed.
(** All others need the sources of the main chain: without them they end with the error. *)
Theorem chain_commands_need_sources create env cli w config spec e :
  match subcommand cli with Some c => without_sources c = false | None => True end ->
  create_runner sc env (match subcommand cli with
    | Some (PartnerChains c _) | Some (CheckBlock c) | Some (ExportBlocks c) | Some (ExportState c) | Some (ImportBlocks c) | Some (Revert c)
    | Some (Key c) | Some (BuildSpec c) | Some (PurgeChain c) | Some (ChainInfo c) => c
    | Some (Benchmark b) => bench_args b
    | None => cli_run cli
    end) = Done (Ok (config, spec)) ->
  create_cached_main_chain_follower_data_sources create env = Err e ->
  run sc s create env parts cli w = (w, Done (Err (error_text parts (Application e)))).
Proof.
  intros Hc Hr Hs. assert (new_partial s create env config = Err (Application e)) as Hp by (unfold new_partial; by rewrite Hs).
  assert (partial s create env parts config = Err (error_text parts (Application e))) as Hp' by (unfold partial; by rewrite Hp).
  unfold run. destruct cli as [[[|? []| | | | | | | |[]|]|] c']; cbn [subcommand] in *; try discriminate Hc;
    unfold NodeCommands.run, bind_stateful, with_partial, with_runner, stateless; rewrite Hr; cbn [bind_fallible fst];
    unfold make_dependencies, run_benchmark, new_full; cbn in Hc |- *; rewrite ?Hc, ?Hp', ?Hp; reflexivity.
Qed.
(** Blocks that are checked or imported from a file are verified by the queue of the node. *)
Theorem files_are_verified_as_by_node create env config spec node c cmd w :
  create_runner sc env c = Done (Ok (config, spec)) -> new_full s create env config = Done (Ok node) ->
  run sc s create env parts (mkCli (Some (ImportBlocks c)) cmd) w =
    (w, Done (_done ← import_blocks_run sc c (node_client node) (node_import_queue node); Ok None)) /\
  run sc s create env parts (mkCli (Some (CheckBlock c)) cmd) w =
    (w, Done (_done ← check_block_run sc c (node_client node) (node_import_queue node); Ok None)).
Proof.
  intros Hr Hn. assert (exists p, new_partial s create env config = Ok p /\ pc_client p = node_client node /\ pc_import_queue p = node_import_queue node)
    as (p & Hp & Hcl & Hq).
  { unfold new_full in Hn. inv_fallible Hn. injection Hn as <-.
    match goal with E : lift (new_partial _ _ _ _) = Done (Ok ?p) |- _ => injection E as Hp end. eexists. split; [exact Hp | done]. }
  unfold run, with_partial, with_runner, partial. cbn [subcommand]. rewrite Hr. cbn [bind_fallible fst]. rewrite Hp, <- Hcl, <- Hq. simpl_monad.
  split; [destruct (import_blocks_run _ _ _ _) | destruct (check_block_run _ _ _ _)]; reflexivity.
Qed.
End CommandProps.

(** ** Examples *)
Module NodeMainExamples.
Import NodeRpc TwoServices ConcreteHex Console.
(** Names of Substrate's modules. *)
#[export] Instance substrate_rpc : SubstrateRpc := {|
  system_methods := ["system_accountNextIndex"; "system_dryRun"];
  payment_methods := ["payment_queryInfo"; "payment_queryFeeDetails"];
  grandpa_methods := ["grandpa_roundState"; "grandpa_proveFinality"]
|}.
#[export] Instance substrate_rpc_laws : SubstrateRpcLaws.
Proof.
  split; [apply (bool_decide_unpack _); vm_compute; exact I|].
  intros n. cbn. rewrite !elem_of_cons, elem_of_nil. intros Hn. destruct_or!; subst; done.
Qed.
(** The table of the authority of [TwoServices], and a module with a name that is taken. *)
Example authority_methods :
  (match create_full ∅ with Done (Ok module) => map fst module | _ => [] end, merge (foreign ["a"]) (foreign ["b"; "a"])) =
  (["system_accountNextIndex"; "system_dryRun"; "payment_queryInfo"; "payment_queryFeeDetails"; "sidechain_getParams"; "sidechain_getStatus";
    "grandpa_roundState"; "grandpa_proveFinality"; "sidechain_getEpochCommittee"; "sidechain_getRegistrations"; "sidechain_getAriadneParameters"],
   Err "Method already registered").
Proof. vm_compute. reflexivity. Qed.
(** Benchmark extrinsics live for 2048 blocks, below the 2400 hashes that are kept. *)
Example benchmark_era (bob : Benchmarking.Pair Z) :
  (fun e => Benchmarking.era_period (Benchmarking.extra e)) <$>
    (match Benchmarking.remark_build bob (Benchmarking.mkBenchClient (fun _ => Ok (Some 0)) 5 17) 3 with Done e => Some e | Panic => None end) = Some 2048.
Proof. reflexivity. Qed.
End NodeMainExamples.
