(* ===== verification/CliIo.v ===== *)
(** * The wizard's console, files and processes

    [DefaultCmdRunContext] of [toolkit/partner-chains-cli/src/io.rs], the [IOContext] that the
    wizard runs with, over the operations of an operating system ([OperatingSystem]). It keeps the
    promises that the wizard's theorems are proved against ([IOFilesLaws], [IOEnvLaws]) on a system
    whose files are text and can be written ([PlainSystem]).

    Text is [string], and its UTF-8 form a parameter. [run_command] reads one pipe of the process
    to its end and then the other: [Pipes] runs it beside the process and shows for which processes
    it returns what [default_run_command] says. *)

From stdpp Require Import relations.
From S2P Require Import Prelude Domain McEpoch Cbor Json PlutusDatums Selection Ariadne Committee Query Session NativeToken BlockRewards Runtime Ogmios OffchainCsl Offchain CliConfig CliPrepare CliNode NodeCommands NodeSpec.
#[local] Open Scope string_scope.
#[local] Open Scope list_scope.
#[local] Open Scope Z_scope.

Class Utf8 := { from_utf8 : bytes -> option string; as_bytes : string -> bytes }.
Class Utf8Laws `{Utf8} : Prop := from_utf8_as_bytes : forall s, from_utf8 (as_bytes s) = Some s.

(** A process that has run: the lines of its error output, its output and its status. *)
Record ExitStatus := mkExitStatus { success : bool; code : option Z; status_display : string }.
Record Child := mkChild {
  child_stderr : list (result string string);
  child_stdout : result string bytes;
  child_wait : result string ExitStatus
}.

(** [std::fs], [std::process], [std::env], [inquire], [tempfile] and the clock. *)
Class OperatingSystem (W : Type) := {
  spawn_shell : string -> W -> W * result string Child;
  println : string -> W -> W;
  eprintln : string -> W -> W;
  inquire_text : string -> option string -> W -> W * result string string;
  inquire_confirm : string -> bool -> W -> W * result string bool;
  inquire_select : string -> list string -> W -> W * result string string;
  fs_write : string -> bytes -> W -> W * result string ();
  fs_read : string -> W -> result string bytes;
  fs_metadata : string -> W -> result string ();
  fs_read_dir : string -> W -> result string (list (result string (option string)));
  fs_remove_file : string -> W -> W * result string ();
  named_temp_file : W -> W * result string (option string);
  temp_dir : W -> W * result string string;
  env_set_var : string -> string -> W -> W;
  millis_since_epoch : W -> result string Z;
  tokio_runtime : W -> result string ()
}.

Module DefaultContext.
Section Context_.
Context `{F64, Utf8, CslLib, Blake2bHash, !Uplc, Minicbor, !RawScripts, !Hex, !HexCodec} {W : Type} `{!OperatingSystem W}.
(** The clients that connect to an address, if it is one. *)
Record HttpClients := mkHttpClients { http_build : string -> result string (); client_at : string -> MainchainClient W }.
Context (http : HttpClients).

Definition say (f : W -> W) : action W () := fun w => (f w, Done tt).
Definition unwrap {A} (m : W -> W * result string A) : action W A := fun w => let '(w, r) := m w in (w, expect (ok r)).
Definition attempt {A} (m : W -> W * result string A) : stateful W string A := fun w => let '(w, r) := m w in (w, Done r).
Definition context {A} (message : string) (r : result string A) : result string A := map_err (fun _ => message) r.

Definition default_print (msg : string) : action W () := say (println msg).
Definition default_eprint (msg : string) : action W () := say (eprintln msg).
Definition default_enewline : action W () := say (eprintln "").

(** The error output with a prefix, up to the first line that cannot be read. *)
Fixpoint pass_stderr (lines : list (result string string)) : stateful W string () :=
  match lines with
  | [] => return_ok tt
  | line :: lines =>
      line ←! stateless (lift (context "Failed to read error output line" line));
      _shown ←! act (default_eprint ("command output: " +:+ line));
      pass_stderr lines
  end.
Definition report_status (status : ExitStatus) (output : bytes) : stateful W string string :=
  if negb (success status) then
    _shown ←! act (default_eprint ("Running executable failed with status " +:+ status_display status));
    _hint ←! act (if decide (code status = Some 127) then default_eprint "Make sure all executables are in path" else pure tt);
    return_err "Failed to run command"
  else stateless (lift (ok_or (from_utf8 output) "invalid utf-8 sequence")).
Definition default_run_command (cmd : string) : stateful W string string :=
  _shown ←! act (default_eprint ("running external command: " +:+ cmd));
  child ←! map_err_stateful (fun _ => "Running executable failed: " +:+ cmd) (attempt (spawn_shell cmd));
  _passed ←! pass_stderr (child_stderr child);
  output ←! stateless (lift (context "Failed to read child process output stream" (child_stdout child)));
  status ←! stateless (lift (child_wait child));
  report_status status output.

Definition default_prompt (prompt : string) (default : option string) : action W string := unwrap (inquire_text prompt default).
Definition default_prompt_yes_no (prompt : string) (default : bool) : action W bool := unwrap (inquire_confirm prompt default).
Definition default_prompt_multi_option (msg : string) (options : list string) : action W string := unwrap (inquire_select msg options).

Definition default_write_file (path content : string) : action W () := unwrap (fs_write path (as_bytes content)).
(** The path of the file, which is deleted when the value goes out of scope. *)
Definition default_new_tmp_file (content : string) : action W string :=
  file ←# unwrap named_temp_file;
  path ←# (fun w => (w, expect file));
  _written ←# default_write_file path content;
  pure path.
Definition default_new_tmp_dir : action W string := unwrap temp_dir.
Definition default_read_file (path : string) : action W (option string) := fun w =>
  (w, match fs_read path w with
      | Err _ => Done None
      | Ok content => s ← expect (from_utf8 content); Done (Some s)
      end).
Definition default_file_exists (path : string) : action W bool := fun w =>
  (w, Done (match fs_metadata path w with Ok _ => true | Err _ => false end)).
Definition default_list_directory (path : string) : stateful W string (option (list string)) :=
  exists_ ←! act (default_file_exists path);
  if negb exists_ then return_ok None
  else
    entries ←! (fun w => (w, Done (fs_read_dir path w)));
    return_ok (Some (omap (fun file => name ← ok file; name) entries)).
Definition default_delete_file (path : string) : stateful W string () :=
  map_err_stateful (fun _ => "Failed to delete file: " +:+ path) (attempt (fs_remove_file path)).
Definition default_set_env_var (key value : string) : action W () := say (env_set_var key value).
(** The cast to [u64] cuts the 128 bits of [as_millis]. *)
Definition default_current_timestamp : action W Z := fun w =>
  (w, duration ← expect (ok (millis_since_epoch w)); Done (duration mod 2 ^ 64)).
Definition default_ogmios_rpc (addr : string) (req : OgmiosRequest) : stateful W string OgmiosResponse :=
  _runtime ←! (fun w => (w, Done (tokio_runtime w)));
  _client ←! stateless (lift (http_build http addr));
  @ogmios_request _ W (client_at http addr) req.
(** The client is its address. *)
Definition default_offchain_impl (ogmios_config : ServiceConfig) : stateful W string string :=
  let ogmios_address := ServiceConfig_display ogmios_config in
  _client ←! stateless (lift (map_err (fun _ => "Couldn't open connection to Ogmios at " +:+ ogmios_address) (http_build http ogmios_address)));
  return_ok ogmios_address.

Definition DefaultCmdRunContext : IOContext W := {|
  OffchainImpl := string;
  run_command := default_run_command;
  print := default_print;
  eprint := default_eprint;
  enewline := default_enewline;
  prompt := default_prompt;
  prompt_yes_no := default_prompt_yes_no;
  prompt_multi_option := default_prompt_multi_option;
  write_file := default_write_file;
  new_tmp_dir := default_new_tmp_dir;
  read_file := default_read_file;
  file_exists := default_file_exists;
  list_directory := default_list_directory;
  delete_file := default_delete_file;
  set_env_var := default_set_env_var;
  current_timestamp := default_current_timestamp;
  ogmios_rpc := default_ogmios_rpc;
  offchain_impl := default_offchain_impl;
  scripts_data_of client genesis_utxo := @get_scripts_data_of_client _ _ _ _ _ _ W (client_at http client) genesis_utxo
|}.
End Context_.
Arguments HttpClients : clear implicits.
End DefaultContext.

(** ** What the system promises *)

(** A system whose paths name files, all of them text, that can be written; consoles, prompts and
    clients that change neither files nor environment. *)
Class SystemFiles (W : Type) := { fs_files : W -> gmap string bytes; fs_env : W -> Env }.
Definition same_disk `{SystemFiles W} (w w' : W) : Prop := fs_files w' = fs_files w /\ fs_env w' = fs_env w.
#[export] Instance same_disk_refl `{SystemFiles W} : Reflexive same_disk.
Proof. by intros w. Qed.
#[export] Instance same_disk_trans `{SystemFiles W} : Transitive same_disk.
Proof. intros w1 w2 w3 [Hf He] [Hf2 He2]. split; congruence. Qed.
Definition keeps_disk `{SystemFiles W} {X} (m : W -> W * X) : Prop := forall w, same_disk w (fst (m w)).
Class PlainSystem {W : Type} `{Utf8, !OperatingSystem W, !SystemFiles W} : Prop := {
  fs_read_files : forall p w, ok (fs_read p w) = fs_files w !! p;
  fs_metadata_files : forall p w, is_Some (ok (fs_metadata p w)) <-> is_Some (fs_files w !! p);
  files_are_text : forall p w c, fs_files w !! p = Some c -> is_Some (from_utf8 c);
  fs_write_files : forall p c w, exists w', fs_write p c w = (w', Ok tt) /\ fs_files w' = <[p := c]> (fs_files w);
  println_keeps : forall m w, same_disk w (println m w);
  eprintln_keeps : forall m w, same_disk w (eprintln m w);
  inquire_text_keeps : forall m d, keeps_disk (inquire_text m d);
  inquire_confirm_keeps : forall m d, keeps_disk (inquire_confirm m d);
  inquire_select_keeps : forall m o, keeps_disk (inquire_select m o);
  env_set_var_env : forall k v w, fs_env (env_set_var k v w) = <[k := v]> (fs_env w) /\ fs_files (env_set_var k v w) = fs_files w
}.
Create HintDb disk discriminated.
#[export] Hint Resolve println_keeps eprintln_keeps inquire_text_keeps inquire_confirm_keeps inquire_select_keeps : disk.

Section Promises.
Import DefaultContext.
Context `{F64, Utf8Laws, CslLib, Blake2bHash, !Uplc, Minicbor, !RawScripts, !Hex, !HexCodec} {W : Type}.
Context `{!OperatingSystem W, !SystemFiles W, !PlainSystem}.
Context (http : HttpClients W).
(** The clients talk to a server. *)
Context (server_keeps : forall addr, let client := client_at http addr in
  (forall addresses, keeps_disk (query_utxos addresses)) /\ keeps_disk era_summaries /\ keeps_disk shelley_genesis_configuration).

#[local] Instance wizard_context : IOContext W := DefaultCmdRunContext http.
(** The files that the wizard sees. *)
#[local] Instance wizard_files : IOFiles := fun w => omap from_utf8 (fs_files w).
#[local] Instance wizard_env : IOEnv := fs_env.

Lemma same_disk_files w w' : same_disk w w' -> files w' = files w.
Proof. intros [Hf _]. unfold files, wizard_files. by rewrite Hf. Qed.
Lemma keeps_disk_keeps {X} (m : W -> W * X) : keeps_disk m -> keeps m.
Proof. intros Hm w. apply same_disk_files, Hm. Qed.
Lemma unwrap_keeps {A} (m : W -> W * result string A) : keeps_disk m -> keeps_disk (unwrap m).
Proof. intros Hm w. unfold unwrap. specialize (Hm w). by destruct (m w). Qed.
Lemma stateless_keeps {E A} (m : fallible E A) : keeps_disk (stateless (S := W) m).
Proof. by intros w. Qed.
Lemma pure_read_keeps {X} (f : W -> X) : keeps_disk (fun w => (w, f w)).
Proof. by intros w. Qed.
Lemma bind_keeps {E A B} (m : stateful W E A) (k : A -> stateful W E B) :
  keeps_disk m -> (forall a, keeps_disk (k a)) -> keeps_disk (bind_stateful m k).
Proof.
  intros Hm Hk w. unfold bind_stateful. specialize (Hm w). destruct (m w) as [w1 [[a|]|]]; [|exact Hm..]. etransitivity; [exact Hm | apply Hk].
Qed.
Lemma map_err_keeps {E F A} (f : E -> F) (m : stateful W E A) : keeps_disk m -> keeps_disk (map_err_stateful f m).
Proof. intros Hm w. unfold map_err_stateful. specialize (Hm w). by destruct (m w) as [w1 [[|]|]]. Qed.
#[local] Hint Resolve unwrap_keeps stateless_keeps pure_read_keeps bind_keeps map_err_keeps : disk.

Lemma file_text p w c : fs_files w !! p = Some c -> files w !! p = from_utf8 c.
Proof. intros Hc. unfold files, wizard_files. by rewrite lookup_omap, Hc. Qed.
Lemma no_file p w : fs_files w !! p = None -> files w !! p = None.
Proof. intros Hc. unfold files, wizard_files. by rewrite lookup_omap, Hc. Qed.
Lemma file_exists_iff p w : is_Some (files w !! p) <-> is_Some (fs_files w !! p).
Proof.
  destruct (fs_files w !! p) as [c|] eqn:Hc; [rewrite (file_text p w c Hc); split; [by eexists | intros _; by eapply files_are_text] | by rewrite no_file].
Qed.

Lemma default_reads p w : read_file p w = (w, Done (files w !! p)).
Proof.
  cbn [read_file wizard_context DefaultCmdRunContext]. unfold default_read_file. pose proof (fs_read_files p w) as Hr.
  destruct (fs_read p w) as [c|e]; cbn [ok] in Hr; symmetry in Hr.
  - rewrite (file_text p w c Hr). destruct (files_are_text p w c Hr) as [s ->]. done.
  - by rewrite no_file.
Qed.
Lemma default_exists p w : file_exists p w = (w, Done (bool_decide (is_Some (files w !! p)))).
Proof.
  cbn [file_exists wizard_context DefaultCmdRunContext]. unfold default_file_exists. do 2 f_equal. pose proof (fs_metadata_files p w) as Hm.
  rewrite <- file_exists_iff in Hm. destruct (fs_metadata p w); cbn [ok] in Hm; symmetry.
  - apply bool_decide_eq_true_2, Hm. by eexists.
  - apply bool_decide_eq_false_2. rewrite <- Hm. by intros [? ?].
Qed.
Lemma default_writes p c w : exists w', write_file p c w = (w', Done tt) /\ files w' = <[p := c]> (files w).
Proof.
  destruct (fs_write_files p (as_bytes c) w) as (w' & Hw & Hf). exists w'. split.
  - cbn [write_file wizard_context DefaultCmdRunContext]. unfold default_write_file, unwrap. by rewrite Hw.
  - unfold files, wizard_files. rewrite Hf. apply omap_insert_Some, from_utf8_as_bytes.
Qed.
Lemma ogmios_rpc_keeps_disk a r : keeps_disk (default_ogmios_rpc http a r).
Proof.
  destruct (server_keeps a) as (Hu & He & Hg). unfold default_ogmios_rpc, ogmios_request, return_ok. destruct r; auto 10 with disk.
Qed.
Lemma scripts_keep_disk o u : keeps_disk (scripts_data_of o u).
Proof. destruct (server_keeps o) as (_ & _ & Hg). cbn. unfold get_scripts_data_of_client. auto 10 with disk. Qed.

(** The wizard's context keeps what its theorems ask of a context. *)
Theorem default_context_files : IOFilesLaws.
Proof.
  split.
  - intros p w. exists w. by rewrite default_exists.
  - intros p w. exists w. by rewrite default_reads.
  - apply default_writes.
  - intros m w. apply same_disk_files, println_keeps.
  - intros m w. apply same_disk_files, eprintln_keeps.
  - intros m d. apply keeps_disk_keeps, unwrap_keeps, inquire_text_keeps.
  - intros m d. apply keeps_disk_keeps, unwrap_keeps, inquire_confirm_keeps.
  - intros m o. apply keeps_disk_keeps, unwrap_keeps, inquire_select_keeps.
  - intros a r. apply keeps_disk_keeps, ogmios_rpc_keeps_disk.
  - intros c. apply keeps_disk_keeps. cbn. unfold default_offchain_impl, return_ok. auto with disk.
  - intros o u. apply keeps_disk_keeps, scripts_keep_disk.
Qed.
Theorem default_context_env : IOEnvLaws.
Proof.
  split.
  - intros k v w. destruct (env_set_var_env k v w) as [He Hf]. eexists. split; [reflexivity|]. split; [exact He|].
    unfold files, wizard_files. by rewrite Hf.
  - done.
  - intros m w. apply println_keeps.
  - intros m d w. apply unwrap_keeps, inquire_confirm_keeps.
  - intros p w. by rewrite default_exists.
  - intros p w. by rewrite default_reads.
Qed.
End Promises.

(** ** Commands *)
Section RunCommand.
Import DefaultContext.
Context `{Utf8} {W : Type} `{!OperatingSystem W}.
Definition shown (lines : list string) (w : W) : W := fold_left (fun w l => eprintln ("command output: " +:+ l) w) lines w.
Lemma pass_stderr_lines lines w : pass_stderr (map Ok lines) w = (shown lines w, Done (Ok tt)).
Proof. revert w. induction lines as [|l lines IH]; intros w; [reflexivity|]. apply IH. Qed.

(** A command that was read to its end: its error output is shown in order, and the result is its
    output exactly when it succeeded. *)
Theorem run_command_reports cmd w w' lines output status :
  spawn_shell cmd (eprintln ("running external command: " +:+ cmd) w) = (w', Ok (mkChild (map Ok lines) (Ok output) (Ok status))) ->
  exists w'', default_run_command cmd w = (w'', Done (if success status then ok_or (from_utf8 output) "invalid utf-8 sequence"
    else Err "Failed to run command")) /\
  (success status = true -> w'' = shown lines w').
Proof.
  intros Hs. unfold default_run_command, bind_stateful, act, default_eprint, say, map_err_stateful, attempt. rewrite Hs.
  cbn [child_stderr child_stdout child_wait map_err]. rewrite pass_stderr_lines. unfold report_status. cbn.
  destruct (success status); cbn; [eexists; split; [reflexivity|done]|].
  destruct (decide _); eexists; (split; [reflexivity|done]).
Qed.
End RunCommand.

(** ** Reading one pipe before the other

    [default_run_command] is given all that the process wrote. Here the process runs beside
    [run_command]: it writes to two pipes of bounded capacity, and a write to a full pipe waits.
    [run_command] takes the lines of the error output until the process has closed it (or a line
    is not text), then reads the output until it is closed, and then waits for the process. *)
Module Pipes.
Import DefaultContext.
Inductive Action := ToStdout (b : Z) | ToStderr (b : Z) | CloseStdout | CloseStderr.
#[export] Instance Action_eq_dec : EqDecision Action.
Proof. solve_decision. Defined.
Fixpoint stdout_of (actions : list Action) : bytes :=
  match actions with
  | [] | CloseStdout :: _ => []
  | ToStdout b :: actions => b :: stdout_of actions
  | _ :: actions => stdout_of actions
  end.
Fixpoint stderr_of (actions : list Action) : bytes :=
  match actions with
  | [] | CloseStderr :: _ => []
  | ToStderr b :: actions => b :: stderr_of actions
  | _ :: actions => stderr_of actions
  end.

(** [BufRead::lines]: lines end with a newline, which is dropped with a carriage return before
    it; the last one may lack it. *)
Definition newline : Z := 10.
Definition pop (c : Ascii.ascii) (s : string) : option string :=
  match rev (str_of s) with d :: l => if decide (d = c) then Some (of_str (rev l)) else None | [] => None end.
Section Lines.
Context `{Utf8}.
Definition read_line (line : bytes) : result string string :=
  match from_utf8 line with
  | Some s => Ok (match pop (Ascii.ascii_of_nat 10) s with Some s => default s (pop (Ascii.ascii_of_nat 13) s) | None => s end)
  | None => Err "stream did not contain valid UTF-8"
  end.
Fixpoint lines_of (line bs : bytes) : list (result string string) :=
  match bs with
  | [] => match line with [] => [] | _ => [read_line line] end
  | b :: bs => if b =? newline then read_line (line ++ [b]) :: lines_of [] bs else lines_of (line ++ [b]) bs
  end.
(** The lines that have their newline. *)
Fixpoint whole_lines (line bs : bytes) : list (result string string) :=
  match bs with
  | [] => []
  | b :: bs => if b =? newline then read_line (line ++ [b]) :: whole_lines [] bs else whole_lines (line ++ [b]) bs
  end.
End Lines.

(** A pipe: what is written and not yet read, and whether the process may still write. *)
Record Pipe := mkPipe { held : bytes; is_open : bool }.
Inductive Reader :=
| Lines (line : bytes)
| Output (output : bytes)
| Wait (output : bytes)
| Returned (r : outcome (result string string)).

Section Run.
Context `{Utf8} {W : Type} `{!OperatingSystem W} (capacity : nat) (status : ExitStatus).
Record State := mkState { todo : list Action; stderr : Pipe; stdout : Pipe; reader : Reader; world : W }.
(** What a process has open is closed when it ends. *)
Definition start (actions : list Action) (w : W) : State :=
  mkState (actions ++ [CloseStdout; CloseStderr]) (mkPipe [] true) (mkPipe [] true) (Lines []) w.

Definition write (b : Z) (p : Pipe) : option Pipe :=
  if negb (is_open p) then Some p
  else if (length (held p) <? capacity)%nat then Some (mkPipe (held p ++ [b]) true) else None.
Definition process_step (s : State) : option State :=
  match todo s with
  | [] => None
  | ToStdout b :: actions => p ← write b (stdout s); Some (mkState actions (stderr s) p (reader s) (world s))
  | ToStderr b :: actions => p ← write b (stderr s); Some (mkState actions p (stdout s) (reader s) (world s))
  | CloseStdout :: actions => Some (mkState actions (stderr s) (mkPipe (held (stdout s)) false) (reader s) (world s))
  | CloseStderr :: actions => Some (mkState actions (mkPipe (held (stderr s)) false) (stdout s) (reader s) (world s))
  end.

Definition line_step (line : bytes) (w : W) : Reader * W :=
  match read_line line with
  | Ok l => (Lines [], eprintln ("command output: " +:+ l) w)
  | Err _ => (Returned (Done (Err "Failed to read error output line")), w)
  end.
Definition reader_step (s : State) : option State :=
  match reader s with
  | Lines line =>
      match held (stderr s) with
      | b :: h =>
          let '(r, w) := if b =? newline then line_step (line ++ [b]) (world s) else (Lines (line ++ [b]), world s) in
          Some (mkState (todo s) (mkPipe h (is_open (stderr s))) (stdout s) r w)
      | [] =>
          if is_open (stderr s) then None
          else let '(r, w) := match line with [] => (Output [], world s) | _ => line_step line (world s) end in
               Some (mkState (todo s) (stderr s) (stdout s) r w)
      end
  | Output output =>
      match held (stdout s) with
      | b :: h => Some (mkState (todo s) (stderr s) (mkPipe h (is_open (stdout s))) (Output (output ++ [b])) (world s))
      | [] => if is_open (stdout s) then None
              else Some (mkState (todo s) (stderr s) (stdout s) (Wait output) (world s))
      end
  | Wait output =>
      match todo s with
      | [] => let '(w, r) := report_status status output (world s) in
              Some (mkState [] (stderr s) (stdout s) (Returned r) w)
      | _ => None
      end
  | Returned _ => None
  end.
Definition returned (s : State) : bool := match reader s with Returned _ => true | _ => false end.
(** The two run side by side, until [run_command] returns. *)
Definition step (s s' : State) : Prop := returned s = false /\ (process_step s = Some s' \/ reader_step s = Some s').

(** *** Every run ends *)
Definition stage (r : Reader) : nat :=
  match r with Lines [] => 4 | Lines _ => 5 | Output _ => 3 | Wait _ => 2 | Returned _ => 1 end.
Definition work (s : State) : nat :=
  3 * length (todo s) + 2 * (length (held (stderr s)) + length (held (stdout s))) + stage (reader s).
Lemma write_held b p p' : write b p = Some p' -> (length (held p') <= S (length (held p)))%nat.
Proof. unfold write. repeat case_match; intros; simplify_eq; cbn; rewrite ?length_app; cbn; lia. Qed.
Lemma line_stage line w r w' : line_step line w = (r, w') -> (stage r <= 4)%nat.
Proof. unfold line_step. case_match; intros; simplify_eq; cbn; lia. Qed.
Lemma stage_bounds r : (1 <= stage r <= 5)%nat.
Proof. destruct r as [[]|?|?|?]; cbn; lia. Qed.
Lemma step_work s s' : step s s' -> (work s' < work s)%nat.
Proof.
  intros [_ [Hs|Hs]]; unfold work.
  - unfold process_step in Hs. destruct (todo s) as [|[b|b| |] actions]; simplify_option_eq; cbn; try lia;
      match goal with E : write _ _ = Some _ |- _ => apply write_held in E end; lia.
  - unfold reader_step in Hs. destruct (reader s) as [line|o|o|r] eqn:Er; [| | |done].
    + destruct (held (stderr s)) as [|b h] eqn:Eh.
      * destruct (is_open (stderr s)); [done|]. destruct line as [|c line]; simplify_eq; cbn; rewrite ?Eh; cbn; [lia|].
        destruct (line_step (c :: line) (world s)) as [r w] eqn:El. apply line_stage in El. simplify_eq. cbn. rewrite Eh. cbn. lia.
      * destruct (b =? newline).
        -- destruct (line_step (line ++ [b]) (world s)) as [r w] eqn:El. apply line_stage in El. simplify_eq. cbn.
           pose proof (stage_bounds (Lines line)). destruct line; cbn in *; lia.
        -- simplify_eq. cbn. destruct line; cbn; lia.
    + destruct (held (stdout s)) as [|b h] eqn:Eh; [destruct (is_open (stdout s)); [done|]|]; simplify_eq; cbn; rewrite ?Eh; cbn; lia.
    + destruct (todo s); [|done]. destruct (report_status status o (world s)). simplify_eq. cbn. lia.
Qed.
Lemma step_sn s : sn step s.
Proof.
  remember (work s) as n eqn:Hn. assert (work s <= n)%nat as Hle by lia. clear Hn. revert s Hle.
  induction n as [n IH] using lt_wf_ind. intros s Hle. constructor. intros s' Hs. apply step_work in Hs.
  apply (IH (work s')); lia.
Qed.

(** *** What a run comes to *)
(** The rest of [default_run_command], from the lines of the error output on. *)
Definition collect (lines : list (result string string)) (output : bytes) : stateful W string string :=
  _passed ←! pass_stderr lines; report_status status output.
Definition rest (p : Pipe) (more : bytes) : bytes := held p ++ if is_open p then more else [].
Definition answer (s : State) : W * outcome (result string string) :=
  let output := rest (stdout s) (stdout_of (todo s)) in
  match reader s with
  | Lines line => collect (lines_of line (rest (stderr s) (stderr_of (todo s)))) output (world s)
  | Output o => collect [] (o ++ output) (world s)
  | Wait o => collect [] o (world s)
  | Returned r => (world s, r)
  end.
Lemma write_rest b p p' more : write b p = Some p' -> rest p' more = rest p (b :: more).
Proof.
  unfold write, rest. destruct (is_open p) eqn:Eo; cbn; [|intros [= <-]; by rewrite Eo].
  case_match; [|done]. intros [= <-]. cbn. by rewrite <- app_assoc.
Qed.
Lemma process_step_rest s s' : process_step s = Some s' ->
  rest (stdout s') (stdout_of (todo s')) = rest (stdout s) (stdout_of (todo s)) /\
  rest (stderr s') (stderr_of (todo s')) = rest (stderr s) (stderr_of (todo s)) /\ reader s' = reader s /\ world s' = world s.
Proof.
  unfold process_step. intros Hs. destruct (todo s) as [|[b|b| |] actions]; simplify_option_eq; cbn.
  - match goal with E : write _ _ = Some _ |- _ => by rewrite (write_rest _ _ _ _ E) end.
  - match goal with E : write _ _ = Some _ |- _ => by rewrite (write_rest _ _ _ _ E) end.
  - split_and!; try done. unfold rest. cbn. by destruct (is_open (stdout s)).
  - split_and!; try done. unfold rest. cbn. by destruct (is_open (stderr s)).
Qed.
Lemma collect_line line w r w' lines output :
  line_step line w = (r, w') ->
  collect (read_line line :: lines) output w = match r with Returned r => (w', r) | _ => collect lines output w' end.
Proof.
  unfold line_step, collect, bind_stateful. cbn [pass_stderr]. destruct (read_line line) as [l|e]; intros [= <- <-]; done.
Qed.
Lemma line_step_reader line w r w' : line_step line w = (r, w') -> r = Lines [] \/ exists e, r = Returned e.
Proof. unfold line_step. case_match; intros [= <- <-]; eauto. Qed.
Lemma reader_step_answer s s' : reader_step s = Some s' -> answer s' = answer s.
Proof.
  unfold reader_step, answer. destruct s as [t [he oe] [ho oo] [line|o|o|r] w]; cbn; [| | |done].
  - destruct he as [|b h].
    + destruct oe; [done|]. destruct line as [|c line]; [by intros [= <-]|].
      destruct (line_step (c :: line) w) as [r w'] eqn:El. intros [= <-]. unfold rest. cbn.
      pose proof (collect_line _ _ _ _ [] (ho ++ if oo then stdout_of t else []) El) as ->.
      by destruct (line_step_reader _ _ _ _ El) as [->|[e ->]].
    + unfold rest. cbn. destruct (b =? newline); [|by intros [= <-]].
      destruct (line_step (line ++ [b]) w) as [r w'] eqn:El. intros [= <-]. cbn.
      rewrite (collect_line _ _ _ _ _ _ El). by destruct (line_step_reader _ _ _ _ El) as [->|[e ->]].
  - unfold rest. destruct ho as [|b h]; [destruct oo; [done|]|]; intros [= <-]; cbn.
    + by rewrite app_nil_r.
    + by rewrite <- !app_assoc.
  - destruct t; [|done]. unfold collect, bind_stateful. cbn. destruct (report_status status o w) as [w' r]. by intros [= <-].
Qed.
Lemma step_answer s s' : step s s' -> answer s' = answer s.
Proof.
  intros [_ [Hs|Hs]]; [|by apply reader_step_answer].
  apply process_step_rest in Hs as (Ho & He & Hr & Hw). unfold answer. by rewrite Ho, He, Hr, Hw.
Qed.
Lemma default_run_command_collect cmd w w' lines output :
  spawn_shell cmd (eprintln ("running external command: " +:+ cmd) w) = (w', Ok (mkChild lines (Ok output) (Ok status))) ->
  default_run_command cmd w = collect lines output w'.
Proof.
  intros Hs. unfold default_run_command, bind_stateful at 1 2, act, default_eprint, say, map_err_stateful, attempt. by rewrite Hs.
Qed.

(** *** When [run_command] waits for ever *)
(** From a state of the loop over the error output: does the process come to a write to a full
    pipe before the loop ends? *)
Fixpoint waits (line : bytes) (n : nat) (open : bool) (actions : list Action) : bool :=
  match actions with
  | [] | CloseStderr :: _ => false
  | CloseStdout :: actions => waits line n false actions
  | ToStdout b :: actions =>
      if open then if (n <? capacity)%nat then waits line (Datatypes.S n) open actions else true else waits line n open actions
  | ToStderr b :: actions =>
      if b =? newline then match read_line (line ++ [b]) with Ok _ => waits [] n open actions | Err _ => false end
      else waits (line ++ [b]) n open actions
  end.
Definition will_wait (s : State) : bool :=
  match reader s with
  | Lines line => is_open (stderr s) &&
      waits line (length (held (stdout s))) (is_open (stdout s)) (map ToStderr (held (stderr s)) ++ todo s)
  | _ => false
  end.
(** What is still to be read of the error output comes first. *)
Lemma waits_stdout h line n b actions : (n < capacity)%nat ->
  waits line n true (map ToStderr h ++ ToStdout b :: actions) = waits line (Datatypes.S n) true (map ToStderr h ++ actions).
Proof.
  intros Hn. revert line. induction h as [|c h IH]; intros line; cbn [map app waits].
  - by rewrite (proj2 (Nat.ltb_lt _ _) Hn).
  - repeat case_match; auto.
Qed.
Lemma waits_skip h line n b actions :
  waits line n false (map ToStderr h ++ ToStdout b :: actions) = waits line n false (map ToStderr h ++ actions).
Proof. revert line. induction h as [|c h IH]; intros line; cbn [map app waits]; repeat case_match; auto. Qed.
Lemma waits_close h line n o actions :
  waits line n o (map ToStderr h ++ CloseStdout :: actions) = waits line n false (map ToStderr h ++ actions).
Proof. revert line. induction h as [|c h IH]; intros line; cbn [map app waits]; repeat case_match; auto. Qed.
Lemma waits_closed h line n o actions : waits line n o (map ToStderr h ++ CloseStderr :: actions) = false.
Proof. revert line. induction h as [|c h IH]; intros line; cbn [map app waits]; repeat case_match; auto. Qed.
Lemma write_inv b p p' : write b p = Some p' ->
  is_open p = false /\ p' = p \/ is_open p = true /\ (length (held p) < capacity)%nat /\ p' = mkPipe (held p ++ [b]) true.
Proof.
  unfold write. destruct (is_open p); cbn [negb]; [|intros [= <-]; by left].
  destruct (Nat.ltb_spec (length (held p)) capacity); [|done]. intros [= <-]. by right.
Qed.
Lemma write_none b p : write b p = None -> is_open p = true /\ (capacity <= length (held p))%nat.
Proof.
  unfold write. destruct (is_open p); cbn [negb]; [|done]. by destruct (Nat.ltb_spec (length (held p)) capacity).
Qed.
Lemma process_step_waits s s' : process_step s = Some s' -> will_wait s' = will_wait s.
Proof.
  unfold process_step, will_wait. destruct s as [[|[b|b| |] t] [he oe] [ho oo] [line|o|o|r] w]; cbn; intros Hs;
    simplify_option_eq; cbn; try done;
    try match goal with E : write _ _ = Some _ |- _ => apply write_inv in E; cbn in E; destruct E as [[-> ->]|(-> & Hl & ->)]; cbn end.
  - by rewrite waits_skip.
  - rewrite waits_stdout, length_app by done. cbn. by rewrite Nat.add_1_r.
  - done.
  - by rewrite map_app, <- app_assoc.
  - by rewrite waits_close.
  - by rewrite waits_closed, andb_false_r.
Qed.
Lemma line_step_waits line w r w' : line_step line w = (r, w') ->
  match read_line line with Ok _ => r = Lines [] | Err _ => exists e, r = Returned e end.
Proof. unfold line_step. case_match; intros [= <- <-]; eauto. Qed.
Lemma reader_step_waits s s' : reader_step s = Some s' -> will_wait s' = will_wait s.
Proof.
  unfold reader_step, will_wait. destruct s as [t [he oe] [ho oo] [line|o|o|r] w]; cbn; [| | |done].
  - destruct he as [|b h].
    + destruct oe; [done|]. destruct line as [|c line]; [by intros [= <-]|].
      destruct (line_step (c :: line) w) as [r w'] eqn:El. intros [= <-]. cbn.
      by destruct (line_step_reader _ _ _ _ El) as [->|[e ->]].
    + destruct (b =? newline) eqn:Eb; cbn [map app waits]; rewrite ?Eb; [|by intros [= <-]].
      destruct (line_step (line ++ [b]) w) as [r w'] eqn:El. intros [= <-]. cbn. apply line_step_waits in El.
      destruct (read_line (line ++ [b])); [by subst|]. destruct El as [x ->]. by rewrite andb_false_r.
  - destruct ho as [|b h]; [destruct oo; [done|]|]; by intros [= <-].
  - destruct t; [|done]. destruct (report_status status o w) as [w' r]. by intros [= <-].
Qed.
Lemma step_waits s s' : step s s' -> will_wait s' = will_wait s.
Proof. intros [_ [Hs|Hs]]; [by apply process_step_waits|by apply reader_step_waits]. Qed.

(** What is open will be closed, and the loops read up to there. *)
Record closes (s : State) : Prop := {
  cl_stderr : is_open (stderr s) = true -> CloseStderr ∈ todo s;
  cl_stdout : is_open (stdout s) = true -> CloseStdout ∈ todo s;
  cl_output : match reader s with Lines _ | Returned _ => True | _ => is_open (stderr s) = false end;
  cl_wait : match reader s with Wait _ => is_open (stdout s) = false | _ => True end
}.
Lemma closes_start actions w : closes (start actions w).
Proof. split; cbn; try done; set_solver. Qed.
Lemma write_open b p p' : write b p = Some p' -> is_open p' = is_open p.
Proof. unfold write. destruct (is_open p) eqn:E; cbn; [case_match|]; intros; by simplify_eq. Qed.
Lemma closes_step s s' : step s s' -> closes s -> closes s'.
Proof.
  intros [_ [Hs|Hs]] [He Ho Hr Hw].
  - unfold process_step in Hs. destruct (todo s) as [|[b|b| |] t] eqn:Et; simplify_option_eq;
      try match goal with E : write _ _ = Some _ |- _ => apply write_open in E as Hopen; rewrite <- Hopen in * end;
      split; cbn; try done; try (intros Hx; first [apply He in Hx|apply Ho in Hx]; apply elem_of_cons in Hx as [[=]|Hx]; exact Hx);
      by destruct (reader s).
  - unfold reader_step in Hs. destruct (reader s) as [line|o|o|r] eqn:Er; [| | |done].
    + destruct (held (stderr s)) as [|b h]; [destruct (is_open (stderr s)) eqn:Eo; [done|]|];
        [destruct line as [|c line]; [simplify_eq; split; cbn; by rewrite ?Eo|]|destruct (b =? newline); [|by simplify_eq]];
        match type of Hs with context [line_step ?l ?w] => destruct (line_step l w) as [r w'] eqn:El end;
        destruct (line_step_reader _ _ _ _ El) as [->|[e ->]]; simplify_eq; split; cbn; try done; by rewrite ?Eo.
    + destruct (held (stdout s)) as [|b h]; [destruct (is_open (stdout s)) eqn:Eo; [done|]|]; simplify_eq; split; cbn; try done; by rewrite ?Eo.
    + destruct (todo s) eqn:Et; [|done]. destruct (report_status status o (world s)). simplify_eq. split; cbn; done.
Qed.
Lemma run_keeps actions w s : rtc step (start actions w) s ->
  closes s /\ answer s = answer (start actions w) /\ will_wait s = will_wait (start actions w).
Proof.
  intros Hr. assert (forall s0, rtc step s0 s -> closes s0 -> closes s /\ answer s = answer s0 /\ will_wait s = will_wait s0) as Hi;
    [|exact (Hi _ Hr (closes_start actions w))].
  clear Hr. intros s0 Hr. induction Hr as [|s0 s1 s2 Hs Hr IH]; [done|]. intros Hc.
  destruct (IH (closes_step _ _ Hs Hc)) as (Hc2 & -> & ->). by rewrite (step_answer _ _ Hs), (step_waits _ _ Hs).
Qed.

(** A run that stops has returned, or waits at a full pipe. *)
Lemma stopped s : (0 < capacity)%nat -> closes s -> nf step s -> returned s = negb (will_wait s).
Proof.
  intros Hcap [He Ho Hr Hw] Hnf. destruct (returned s) eqn:Ert; [unfold returned, will_wait in *; by destruct (reader s)|].
  assert (process_step s = None) as Hp by (destruct (process_step s) as [s'|] eqn:E; [|done]; destruct Hnf; exists s'; by split; [|left]).
  assert (reader_step s = None) as Hd by (destruct (reader_step s) as [s'|] eqn:E; [|done]; destruct Hnf; exists s'; by split; [|right]).
  clear Hnf. destruct s as [t [he oe] [ho oo] [line|o|o|r] w]; cbn in *; unfold reader_step, process_step, will_wait in *; cbn in *; [| | |done].
  - destruct he as [|b h]; [|by destruct (b =? newline); [destruct (line_step _ _)|]].
    destruct oe; [|by destruct line as [|c line]; [|destruct (line_step _ _)]]. cbn.
    destruct t as [|[b|b| |] t]; [by apply not_elem_of_nil in He| | |done|done].
    + destruct (write b _) eqn:Ew; [done|]. apply write_none in Ew as [Hopen Hfull]. cbn in Hopen. subst oo. cbn [held] in Hfull. cbn [waits].
      by rewrite (proj2 (Nat.ltb_ge _ _) Hfull).
    + destruct (write b _) eqn:Ew; [done|]. apply write_none in Ew as [_ Hfull]. cbn in Hfull. lia.
  - subst oe. destruct ho as [|b h]; [|done]. destruct oo; [|done].
    destruct t as [|[b|b| |] t]; [by apply not_elem_of_nil in Ho| |done|done|done].
    destruct (write b _) eqn:Ew; [done|]. apply write_none in Ew as [_ Hfull]. cbn in Hfull. lia.
  - subst oe oo. destruct t as [|[b|b| |] t]; [|done..]. by destruct (report_status status o w).
Qed.

(** The output of the process does not fit: while its error output is open, and all its lines so
    far are text, it writes to a full pipe. *)
Definition exceeds (actions : list Action) : Prop :=
  exists before b after, actions = before ++ ToStdout b :: after /\ (CloseStdout ∉ before) /\ (CloseStderr ∉ before) /\
    length (stdout_of before) = capacity /\ Forall (fun l => is_Some (ok l)) (whole_lines [] (stderr_of before)).
Lemma waits_closed_stdout line n actions : waits line n false actions = false.
Proof. revert line. induction actions as [|[b|b| |] actions IH]; intros line; cbn; repeat case_match; auto. Qed.
Lemma not_elem_cons (a c : Action) l : a <> c -> c ∉ a :: l <-> c ∉ l.
Proof. intros Hn. rewrite not_elem_of_cons. split; [by intros [_ ?]|]. intros Hl. split; congruence. Qed.
(** A process that comes to a full pipe does so now or after its first action. *)
Lemma now_or_later (P : list Action -> Prop) a actions :
  (exists before b after, a :: actions = before ++ ToStdout b :: after /\ P before) <->
  (exists b, a = ToStdout b /\ P []) \/ (exists before b after, actions = before ++ ToStdout b :: after /\ P (a :: before)).
Proof.
  split.
  - intros ([|a' before] & b & after & He & HP); injection He as -> ->; [left|right]; eauto.
  - intros [(b & -> & HP)|(before & b & after & -> & HP)]; [by exists [], b, actions|by exists (a :: before), b, after].
Qed.
Definition fills (line : bytes) (n : nat) (before : list Action) : Prop :=
  (CloseStdout ∉ before) /\ (CloseStderr ∉ before) /\ (n + length (stdout_of before) = capacity)%nat /\
  Forall (fun l => is_Some (ok l)) (whole_lines line (stderr_of before)).
Lemma fills_stdout line n b before : fills line n (ToStdout b :: before) <-> fills line (Datatypes.S n) before.
Proof. unfold fills. rewrite !not_elem_cons by done. cbn. by rewrite Nat.add_succ_r. Qed.
Lemma fills_stderr line n b before : fills line n (ToStderr b :: before) <->
  if b =? newline then is_Some (ok (read_line (line ++ [b]))) /\ fills [] n before else fills (line ++ [b]) n before.
Proof.
  unfold fills. rewrite !not_elem_cons by done. cbn. destruct (b =? newline); [|done]. rewrite Forall_cons. tauto.
Qed.
Lemma waits_exceeds line n actions : (n <= capacity)%nat ->
  waits line n true actions = true <->
  (exists before b after, actions = before ++ ToStdout b :: after /\ fills line n before).
Proof.
  revert line n. induction actions as [|a actions IH]; intros line n Hn.
  { split; [done|]. intros ([|] & ? & ? & [=] & _). }
  rewrite now_or_later. destruct a as [b|b| |]; cbn [waits].
  - setoid_rewrite fills_stdout. destruct (Nat.ltb_spec n capacity) as [Hlt|Hge].
    + rewrite IH by lia. split; [by right|]. intros [(b' & _ & _ & _ & Hf & _)|Hl]; [cbn in Hf; lia|done].
    + split; [intros _; left; exists b; split; [done|]|done]. split_and!; [apply not_elem_of_nil ..|cbn; lia|constructor].
  - setoid_rewrite fills_stderr. destruct (b =? newline).
    + destruct (read_line (line ++ [b])) as [l|e]; cbn [ok].
      * rewrite IH by done. split; [intros (before & b' & after & Ha & Hf); right; by exists before, b', after|].
        intros [(b' & [=] & _)|(before & b' & after & Ha & _ & Hf)]. by exists before, b', after.
      * split; [done|]. intros [(b' & [=] & _)|(before & b' & after & _ & [x [=]] & _)].
    + rewrite IH by done. split; [by right|]. by intros [(b' & [=] & _)|Hl].
  - rewrite waits_closed_stdout. split; [done|]. intros [(b' & [=] & _)|(before & b' & after & _ & Hf & _)]. destruct Hf. left.
  - split; [done|]. intros [(b' & [=] & _)|(before & b' & after & _ & _ & Hf & _)]. destruct Hf. left.
Qed.
(** The end of the process changes none of this. *)
Lemma stdout_of_end actions : stdout_of (actions ++ [CloseStdout; CloseStderr]) = stdout_of actions.
Proof. induction actions as [|[b|b| |] actions IH]; cbn; congruence. Qed.
Lemma stderr_of_end actions : stderr_of (actions ++ [CloseStdout; CloseStderr]) = stderr_of actions.
Proof. induction actions as [|[b|b| |] actions IH]; cbn; congruence. Qed.
Lemma waits_end line n o actions : waits line n o (actions ++ [CloseStdout; CloseStderr]) = waits line n o actions.
Proof. revert line n o. induction actions as [|[b|b| |] actions IH]; intros line n o; cbn; repeat case_match; auto. Qed.

(** C32: [run_command] beside a process that writes to two pipes of a given capacity: every
    interleaving of the two ends, whatever the process writes and whichever of its outputs it
    closes first. Where [run_command] returns, its answer and what it has shown are those of
    [default_run_command] on all that the process writes, a line of the error output that is not
    text included. A run stops without an answer, with both waiting for ever, exactly when
    the process writes more to its output than the pipe holds before it has closed its error output
    or written a line that is not text there. *)
Theorem run_command_ends cmd w w' actions :
  (0 < capacity)%nat ->
  spawn_shell cmd (eprintln ("running external command: " +:+ cmd) w) =
    (w', Ok (mkChild (lines_of [] (stderr_of actions)) (Ok (stdout_of actions)) (Ok status))) ->
  sn step (start actions w') /\
  forall s, rtc step (start actions w') s ->
    (forall r, reader s = Returned r -> default_run_command cmd w = (world s, r)) /\
    (nf step s -> returned s = true <-> ~ exceeds actions).
Proof.
  intros Hcap Hs. split; [apply step_sn|]. intros s Hr. apply run_keeps in Hr as (Hc & Ha & Hw). split.
  - intros r Er. rewrite (default_run_command_collect _ _ _ _ _ Hs). unfold answer at 1 in Ha. rewrite Er in Ha.
    rewrite Ha. unfold answer, start, rest. cbn. by rewrite stdout_of_end, stderr_of_end.
  - intros Hnf. rewrite (stopped _ Hcap Hc Hnf), Hw. unfold will_wait, start. cbn [reader stderr stdout is_open held map app length todo andb].
    rewrite waits_end, negb_true_iff, <- not_true_iff_false. unfold exceeds.
    by rewrite (waits_exceeds [] 0 actions) by lia.
Qed.
End Run.
End Pipes.

(** ** A system *)
Module ToySystem.
Import DefaultContext Console ConcreteHex.
#[export] Instance bytes_text : Utf8 := {|
  from_utf8 bs := Some (of_str (map (fun b => Ascii.ascii_of_N (Z.to_N b)) bs));
  as_bytes s := map (fun c => Z.of_N (Ascii.N_of_ascii c)) (str_of s)
|}.
#[export] Instance bytes_text_laws : Utf8Laws.
Proof.
  intros s. cbn. f_equal. rewrite map_map. unfold of_str, str_of. erewrite map_ext; [|intros c; by rewrite N2Z.id, Ascii.ascii_N_embedding].
  rewrite map_id. apply String.string_of_list_ascii_of_string.
Qed.
(** Files, variables, what was shown, and the process that every command starts. *)
Record Machine := mkMachine { m_files : gmap string bytes; m_env : Env; m_screen : list string; m_child : result string Child }.
Definition show (l : string) (m : Machine) : Machine := mkMachine (m_files m) (m_env m) (m_screen m ++ [l]) (m_child m).
Definition on_disk (f : gmap string bytes -> gmap string bytes) (m : Machine) : Machine := mkMachine (f (m_files m)) (m_env m) (m_screen m) (m_child m).
#[export] Instance toy_system : OperatingSystem Machine := {|
  spawn_shell c m := (m, m_child m);
  println := show;
  eprintln := show;
  inquire_text _ d m := (m, ok_or d "cancelled");
  inquire_confirm _ d m := (m, Ok d);
  inquire_select _ o m := (m, ok_or (head o) "cancelled");
  fs_write p c m := (on_disk (insert p c) m, Ok tt);
  fs_read p m := ok_or (m_files m !! p) "not found";
  fs_metadata p m := map_err id (_c ← ok_or (m_files m !! p) "not found"; Ok tt);
  fs_read_dir p m := Err "not a directory";
  fs_remove_file p m := (on_disk (delete p) m, Ok tt);
  named_temp_file m := (m, Ok (Some "/tmp/a"));
  temp_dir m := (m, Ok "/tmp/b");
  env_set_var k v m := mkMachine (m_files m) (<[k := v]> (m_env m)) (m_screen m) (m_child m);
  millis_since_epoch m := Ok 1700000000000;
  tokio_runtime m := Ok tt
|}.
#[export] Instance toy_files : SystemFiles Machine := {| fs_files := m_files; fs_env := m_env |}.
#[export] Instance toy_plain : PlainSystem.
Proof.
  split; try done.
  - intros p w. cbn. by destruct (m_files w !! p).
  - intros p w. cbn. destruct (m_files w !! p) as [c|]; cbn; [split; intros _; [by exists c | by exists tt] | split; by intros [? [=]]].
  - intros p c w. by eexists.
Qed.
(** Clients without a server. *)
Definition offline : MainchainClient Machine := {|
  era_summaries := return_err (RequestError "offline");
  query_utxos _ := return_err (RequestError "offline");
  query_protocol_parameters := return_err (RequestError "offline");
  shelley_genesis_configuration := return_err (RequestError "offline");
  evaluate_transaction _ := return_err (RequestError "offline");
  submit_transaction _ := return_err (RequestError "offline")
|}.
Definition no_servers : HttpClients Machine := mkHttpClients (fun _ => Ok tt) (fun _ => offline).
Lemma offline_keeps addr : let client := client_at no_servers addr in
  (forall addresses, keeps_disk (query_utxos addresses)) /\ keeps_disk era_summaries /\ keeps_disk shelley_genesis_configuration.
Proof. done. Qed.
(** A failed command. *)
Example failing_command :
  let m := mkMachine ∅ ∅ [] (Ok (mkChild [Ok "sh: node: not found"] (Ok []) (Ok (mkExitStatus false (Some 127) "exit status: 127")))) in
  let '(m', r) := default_run_command "node" m in (m_screen m', r) =
  (["running external command: node"; "command output: sh: node: not found"; "Running executable failed with status exit status: 127";
    "Make sure all executables are in path"], Done (Err "Failed to run command")).
Proof. vm_compute. reflexivity. Qed.
(** A process that fits, one that writes too much while its error output is open, and one whose
    error output is not text; the process runs first. *)
Fixpoint schedule {U : Utf8} (capacity : nat) (status : ExitStatus) (fuel : nat) (s : Pipes.State) : Pipes.State :=
  match fuel with
  | O => s
  | Datatypes.S fuel =>
      if Pipes.returned s then s
      else match Pipes.process_step capacity s with
           | Some s' => schedule capacity status fuel s'
           | None => match Pipes.reader_step status s with Some s' => schedule capacity status fuel s' | None => s end
           end
  end.
Lemma schedule_runs {U : Utf8} capacity status fuel s : rtc (Pipes.step capacity status) s (schedule capacity status fuel s).
Proof.
  revert s. induction fuel as [|fuel IH]; intros s; cbn; [reflexivity|]. destruct (Pipes.returned s) eqn:Er; [reflexivity|].
  destruct (Pipes.process_step capacity s) as [s'|] eqn:Ep; [eapply rtc_l; [|apply IH]; by split; [|left]|].
  destruct (Pipes.reader_step status s) as [s'|] eqn:Ed; [eapply rtc_l; [|apply IH]; by split; [|right]|]. reflexivity.
Qed.
Definition fine : ExitStatus := mkExitStatus true (Some 0) "exit status: 0".
Definition talks : list Pipes.Action :=
  [Pipes.ToStderr 97; Pipes.ToStdout 98; Pipes.ToStderr 10; Pipes.ToStdout 99; Pipes.CloseStderr; Pipes.ToStdout 100; Pipes.ToStdout 101].
Definition overflows : list Pipes.Action := [Pipes.ToStdout 1; Pipes.ToStdout 2; Pipes.ToStdout 3; Pipes.CloseStderr].
Definition machine_of (actions : list Pipes.Action) : Machine :=
  mkMachine ∅ ∅ [] (Ok (mkChild (Pipes.lines_of [] (Pipes.stderr_of actions)) (Ok (Pipes.stdout_of actions)) (Ok fine))).
Definition started (actions : list Pipes.Action) : Machine := eprintln "running external command: c" (machine_of actions).
Lemma run_command_ends_witness :
  (exists s, rtc (Pipes.step 2 fine) (Pipes.start talks (started talks)) s /\ Pipes.reader s = Pipes.Returned (Done (Ok "bcde")) /\
    default_run_command "c" (machine_of talks) = (Pipes.world s, Done (Ok "bcde"))) /\
  (exists s, rtc (Pipes.step 2 fine) (Pipes.start overflows (started overflows)) s /\ nf (Pipes.step 2 fine) s /\
    Pipes.returned s = false /\ Pipes.exceeds 2 overflows).
Proof.
  split.
  - exists (schedule 2 fine 40 (Pipes.start talks (started talks))). split; [apply schedule_runs|].
    assert (Pipes.reader (schedule 2 fine 40 (Pipes.start talks (started talks))) = Pipes.Returned (Done (Ok "bcde"))) as Hr
      by (vm_compute; reflexivity).
    split; [exact Hr|].
    apply (Pipes.run_command_ends 2 fine "c" (machine_of talks) (started talks) talks); [lia|reflexivity|apply schedule_runs|exact Hr].
  - exists (schedule 2 fine 40 (Pipes.start overflows (started overflows))).
    assert (Pipes.exceeds 2 overflows) as Hx.
    { exists [Pipes.ToStdout 1; Pipes.ToStdout 2], 3, [Pipes.CloseStderr]. split_and!; [done|rewrite !Pipes.not_elem_cons by done; apply not_elem_of_nil ..|done|by constructor]. }
    assert (nf (Pipes.step 2 fine) (schedule 2 fine 40 (Pipes.start overflows (started overflows)))) as Hn.
    { intros [s' [_ [Hs|Hs]]]; revert Hs; vm_compute; discriminate. }
    split; [apply schedule_runs|]. split; [exact Hn|]. split; [|exact Hx].
    destruct (Pipes.run_command_ends 2 fine "c" (machine_of overflows) (started overflows) overflows ltac:(lia) eq_refl) as [_ Hall].
    destruct (Hall _ (schedule_runs 2 fine 40 _)) as [_ Hiff]. apply not_true_is_false. intros Ht. by apply (Hiff Hn).
Defined.
Definition strict_text : Utf8 := {|
  from_utf8 bs := if forallb (fun b => b <? 128) bs then from_utf8 bs else None;
  as_bytes := as_bytes
|}.
Example unreadable_line_returns :
  let actions := [Pipes.ToStderr 300; Pipes.ToStderr 10; Pipes.ToStdout 1; Pipes.ToStdout 2; Pipes.ToStdout 3] in
  @Pipes.reader Machine (@schedule strict_text 2 fine 40 (Pipes.start actions (started actions))) =
    Pipes.Returned (Done (Err "Failed to read error output line")).
Proof. vm_compute. reflexivity. Qed.
End ToySystem.
