(* ===== verification/PalletTests.v ===== *)
(** * The tests of the pallets

    The test suites of the committee, native token, sidechain and block rewards pallets
    ([src/tests.rs] of each, with its [src/mock.rs]), run on the pallets of this development: what
    the repository expects of the pallets is what the definitions compute. A test is a sequence of
    steps on the pallet's storage; a failed assertion or [unwrap] is a [Panic]. *)

From S2P Require Import Prelude Domain McEpoch Slots Cbor PlutusDatums Selection Ariadne Committee Session NativeToken BlockRewards.
#[local] Open Scope list_scope.

(** A test over storage [S]. *)
Definition Test (S : Type) : Type := S -> outcome S.
Definition assert_that {S} (p : S -> bool) : Test S := fun s => if p s then Done s else Panic.
Fixpoint run_test {S} (steps : list (Test S)) : Test S :=
  fun s => match steps with [] => Done s | t :: steps => s ← t s; run_test steps s end.
Definition passes {S} (genesis : S) (steps : list (Test S)) : bool :=
  match run_test steps genesis with Done _ => true | Panic => false end.

(** ** The committee pallet *)
Module CommitteeTests.
Import CommitteeManagement ConcreteAccounts.
#[local] Abbreviation Validators := (list (Z * Z)).
Record MockValidator := mkMockValidator { name : string; authority_keys : Z; authority_id : Z }.
Definition ALICE := mkMockValidator "Alice"%string 11 21.
Definition BOB := mkMockValidator "Bob"%string 12 22.
Definition CHARLIE := mkMockValidator "Charlie"%string 13 23.
Definition DAVE := mkMockValidator "Dave"%string 14 24.
Definition EVE := mkMockValidator "Eve"%string 15 25.
Definition ids_and_keys (v : MockValidator) : Z * Z := (authority_id v, authority_keys v).
Definition ids_and_keys_fn (vs : list MockValidator) : Validators := truncate_from 32 (map ids_and_keys vs).
Definition authority_ids (vs : list MockValidator) : list Z := truncate_from 32 (map authority_id vs).

(** [MainChainScripts::default()]. *)
Definition default_scripts : MainChainScripts := mkMainChainScripts [] (replicate 28 0) (replicate 28 0).
(** The pallet, and the mock pallet's [CurrentEpoch]. *)
Record Ext := mkExt { pallet : State Z Z; CurrentEpoch : Z }.
Definition mock_select_authorities (input : Validators) (_sidechain_epoch : Z) : outcome (option Validators) :=
  Done (if bool_decide (input = []) then None else Some input).
Definition new_test_ext_with_genesis_initial_authorities (validators : list MockValidator) : Ext :=
  mkExt (build 32 (mkGenesisConfig (map ids_and_keys validators) default_scripts)) 0.
Definition new_test_ext : Ext := new_test_ext_with_genesis_initial_authorities [ALICE; BOB].

Definition on_pallet (f : State Z Z -> outcome (State Z Z)) : Test Ext := fun e => s ← f (pallet e); Done (mkExt s (CurrentEpoch e)).
Definition create_inherent_data (validators : list MockValidator) : InherentData := Ok (Some (ids_and_keys_fn validators)).
Definition create_inherent_set_validators_call (expected : list MockValidator) (s : State Z Z) : outcome (option (Call Z Z)) :=
  create_inherent mock_select_authorities s (create_inherent_data expected).
Definition set_validators_through_inherents (expected : list MockValidator) : Test Ext := on_pallet (fun s =>
  call ← create_inherent_set_validators_call expected s; call ← expect call; expect (ok (dispatch s OriginNone call))).
Definition set_validators_directly (expected : list MockValidator) (for_epoch : Z) (s : State Z Z) : result DispatchError (State Z Z) :=
  set s OriginNone (ids_and_keys_fn expected) for_epoch.
Definition set_epoch (epoch : Z) : Test Ext := fun e => Done (mkExt (pallet e) epoch).
Definition increment_epoch : Test Ext := fun e => Done (mkExt (pallet e) (CurrentEpoch e + 1)).
Definition ARBITRARY_FIRST_EPOCH : Z := 189374234.
Definition initialize_first_committee : Test Ext := fun e =>
  e ← set_epoch ARBITRARY_FIRST_EPOCH e; Done (mkExt (on_initialize 1 (CurrentEpoch e) (pallet e)) (CurrentEpoch e)).
(** Rotation, and the identifiers that it is expected to return. *)
Definition rotate_committee (expected : option (list Z)) : Test Ext := fun e =>
  let '(s, committee) := rotate_committee_to_next_epoch (fun a : Z => a) (pallet e) in
  if bool_decide (option_map (map fst) committee = expected) then Done (mkExt s (CurrentEpoch e)) else Panic.

Definition current_is (vs : list MockValidator) : Test Ext :=
  assert_that (fun e => bool_decide (committee (CurrentCommittee (pallet e)) = ids_and_keys_fn vs)).
Definition current_epoch_is (f : Ext -> Z) : Test Ext := assert_that (fun e => epoch (CurrentCommittee (pallet e)) =? f e).
Definition next_is (vs : option (list MockValidator)) : Test Ext :=
  assert_that (fun e => bool_decide (next_committee 32 (pallet e) = option_map authority_ids vs)).
Definition next_epoch_is (f : Ext -> Z) : Test Ext :=
  assert_that (fun e => bool_decide (option_map epoch (NextCommittee (pallet e)) = Some (f e))).
Definition invalid_epoch (r : result DispatchError (State Z Z)) : bool := match r with Err InvalidEpoch => true | _ => false end.
Definition check_ok (r : outcome (result InherentError ())) : bool := match r with Done (Ok _) => true | _ => false end.
Definition check_call (vs data : list MockValidator) (for_epoch : Z) : Test Ext := assert_that (fun e =>
  check_ok (check_inherent mock_select_authorities (pallet e) (call_set (ids_and_keys_fn vs) for_epoch) (create_inherent_data data))).

(** The sorted committees are equal: one is a permutation of the other. *)
Definition test_validators_change_through_inherents (new_validators : list MockValidator) : list (Test Ext) :=
  [set_validators_through_inherents new_validators;
   assert_that (fun e => match NextCommittee (pallet e) with
     | Some c => bool_decide (committee c ≡ₚ ids_and_keys_fn new_validators)
     | None => false
     end)].
Definition changes_validator_vec_based_on_inherent_data : list (Test Ext) :=
  current_is [ALICE; BOB] :: test_validators_change_through_inherents [ALICE].
Definition prevent_overwriting_committee : list (Test Ext) :=
  [assert_that (fun e => invalid_epoch (set_validators_directly [ALICE; BOB] 0 (pallet e)));
   assert_that (fun e => invalid_epoch (set_validators_directly [ALICE] 0 (pallet e)))].
Definition check_inherent_works : list (Test Ext) :=
  [initialize_first_committee; assert_that (fun e =>
     match create_inherent_set_validators_call [ALICE] (pallet e) with
     | Done (Some call) => check_ok (check_inherent mock_select_authorities (pallet e) call (create_inherent_data [ALICE]))
     | _ => false
     end)].
Definition check_inherent_uses_next_committee_if_cannot_calculate_from_data : list (Test Ext) :=
  [on_pallet (fun s => Done (mkState (mkCommitteeInfo 42 (ids_and_keys_fn [CHARLIE; DAVE]))
     (Some (mkCommitteeInfo 43 (ids_and_keys_fn [ALICE; BOB]))) (MainChainScriptsConfiguration s)));
   check_call [ALICE; BOB] [] 43].
Definition check_inherent_uses_current_committee : list (Test Ext) :=
  [assert_that (fun e => bool_decide (NextCommittee (pallet e) = None)); check_call [ALICE; BOB] [] 43].
Definition test_current_committee_epoch : list (Test Ext) :=
  [initialize_first_committee; set_validators_through_inherents [ALICE];
   assert_that (fun e => fst (get_current_committee (pallet e)) =? CurrentEpoch e)].
Definition test_next_committee : list (Test Ext) :=
  [initialize_first_committee; next_is None; set_validators_through_inherents [ALICE]; next_is (Some [ALICE])].
Definition test_rotate_committee : list (Test Ext) :=
  [initialize_first_committee; current_is [ALICE; BOB]; current_epoch_is CurrentEpoch; next_is None;
   set_validators_through_inherents [ALICE]; next_is (Some [ALICE]); increment_epoch; rotate_committee (Some [authority_id ALICE]);
   current_is [ALICE]; current_epoch_is CurrentEpoch; next_is None].
Definition test_recover_from_stale_committee : list (Test Ext) :=
  [initialize_first_committee; current_is [ALICE; BOB]; next_is None; set_validators_through_inherents [ALICE];
   increment_epoch; increment_epoch; increment_epoch; current_is [ALICE; BOB]; next_is (Some [ALICE]);
   next_epoch_is (fun e => CurrentEpoch e - 2); rotate_committee (Some [authority_id ALICE]); current_epoch_is (fun e => CurrentEpoch e - 2);
   set_validators_through_inherents [CHARLIE]; next_epoch_is (fun e => CurrentEpoch e - 1); rotate_committee (Some [authority_id CHARLIE]);
   current_epoch_is (fun e => CurrentEpoch e - 1); set_validators_through_inherents [DAVE]; next_epoch_is CurrentEpoch;
   rotate_committee (Some [authority_id DAVE]); current_epoch_is CurrentEpoch; set_validators_through_inherents [EVE]; next_is (Some [EVE])].
Definition store_committee_only_up_to_next_epoch : list (Test Ext) :=
  [initialize_first_committee; set_validators_through_inherents [BOB; ALICE];
   assert_that (fun e => match create_inherent_set_validators_call [ALICE] (pallet e) with Done None => true | _ => false end)].
Definition do_not_rotate_committee_if_next_committee_is_not_defined : list (Test Ext) :=
  [initialize_first_committee; next_is None; rotate_committee None; current_is [ALICE; BOB]].
Definition authority_is (i : nat) (v : option MockValidator) : Test Ext :=
  assert_that (fun e => bool_decide (get_current_authority (pallet e) i = option_map authority_id v)).
Definition get_authority_works : list (Test Ext) :=
  [initialize_first_committee; set_validators_through_inherents [BOB]; increment_epoch;
   authority_is 0 (Some ALICE); authority_is 1 (Some BOB); authority_is 2 None; rotate_committee (Some [authority_id BOB]);
   authority_is 0 (Some BOB); authority_is 1 None].
End CommitteeTests.

Example committee_tests_pass :
  forallb (passes CommitteeTests.new_test_ext)
    [CommitteeTests.changes_validator_vec_based_on_inherent_data; CommitteeTests.prevent_overwriting_committee;
     CommitteeTests.check_inherent_works; CommitteeTests.check_inherent_uses_next_committee_if_cannot_calculate_from_data;
     CommitteeTests.check_inherent_uses_current_committee; CommitteeTests.test_current_committee_epoch; CommitteeTests.test_next_committee;
     CommitteeTests.test_rotate_committee; CommitteeTests.test_recover_from_stale_committee;
     CommitteeTests.store_committee_only_up_to_next_epoch; CommitteeTests.do_not_rotate_committee_if_next_committee_is_not_defined;
     CommitteeTests.get_authority_works] = true.
Proof. vm_compute. reflexivity. Qed.
(** The assertions can fail: a committee that was not set is not there. *)
Example committee_test_fails :
  passes CommitteeTests.new_test_ext [CommitteeTests.initialize_first_committee; CommitteeTests.next_is (Some [CommitteeTests.ALICE])] = false.
Proof. vm_compute. reflexivity. Qed.

(** ** The native token pallet *)
Module NativeTokenTests.
Import NativeToken.
(** The mock handler keeps the last transfer. *)
Definition Ext : Type := State (option NativeTokenAmount).
Definition mock_handle_token_transfer (token_amount : NativeTokenAmount) (_ : option NativeTokenAmount)
    : result DispatchError (option NativeTokenAmount) := Ok (Some token_amount).
Definition new_test_ext : Ext := build (mkMainChainScripts (replicate 28 0) [] []) None.
Definition test_inherent_data (token_amount : Z) : InherentData := Ok (Some (mkTokenTransferData token_amount)).
Definition no_data : InherentData := Ok None.

Definition creates (data : InherentData) (expected : option Z) : Test Ext := assert_that (fun _ =>
  match create_inherent data, expected with
  | Done (Some (transfer_tokens_call n)), Some m => n =? m
  | Done None, None => true
  | _, _ => false
  end).
Definition checks (n : Z) (data : InherentData) (expected : result InherentError ()) : Test Ext := assert_that (fun _ =>
  match check_inherent (transfer_tokens_call n) data, expected with
  | Done (Ok _), Ok _ => true
  | Done (Err (IncorrectTokenNumberTransfered a b)), Err (IncorrectTokenNumberTransfered a' b') => (a =? a') && (b =? b')
  | Done (Err (UnexpectedTokenTransferInherent a)), Err (UnexpectedTokenTransferInherent a') => a =? a'
  | _, _ => false
  end).
Definition requires (data : InherentData) (expected : option Z) : Test Ext := assert_that (fun _ =>
  match is_inherent_required data, expected with
  | Done (Some (TokenTransferNotHandled n)), Some m => n =? m
  | Done None, None => true
  | _, _ => false
  end).
Definition creates_inherent_from_inherent_data := [creates (test_inherent_data 1001) (Some 1001)].
Definition skips_inherent_if_no_data := [creates no_data None].
Definition pass_when_inherent_matches_data := [checks 1002 (test_inherent_data 1002) (Ok ())].
Definition fail_when_token_amount_mismatch := [checks 9999 (test_inherent_data 1002) (Err (IncorrectTokenNumberTransfered 1002 9999))].
Definition fail_when_unexpected_inherent := [checks 1002 no_data (Err (UnexpectedTokenTransferInherent 1002))].
Definition yes_when_nonzero_data_present := [requires (test_inherent_data 1001) (Some 1001)].
Definition no_when_data_present_but_is_zero := [requires (test_inherent_data 0) None].
Definition no_when_data_absent := [requires no_data None].
Definition succeeds_and_calls_transfer_handler : list (Test Ext) :=
  [assert_that (fun s => negb (Initialized s));
   (fun s => r ← transfer_tokens mock_handle_token_transfer s OriginNone 1000; expect (ok r));
   assert_that (fun s => bool_decide (handler_state s = Some 1000)); assert_that (fun s => Initialized s)].
Definition fails_when_not_root : list (Test Ext) :=
  [assert_that (fun s => match transfer_tokens mock_handle_token_transfer s OriginSigned 1000 with Done (Err BadOrigin) => true | _ => false end);
   assert_that (fun s => bool_decide (handler_state s = None))].
End NativeTokenTests.
Example native_token_tests_pass :
  forallb (passes NativeTokenTests.new_test_ext)
    [NativeTokenTests.creates_inherent_from_inherent_data; NativeTokenTests.skips_inherent_if_no_data;
     NativeTokenTests.pass_when_inherent_matches_data; NativeTokenTests.fail_when_token_amount_mismatch;
     NativeTokenTests.fail_when_unexpected_inherent; NativeTokenTests.yes_when_nonzero_data_present;
     NativeTokenTests.no_when_data_present_but_is_zero; NativeTokenTests.no_when_data_absent;
     NativeTokenTests.succeeds_and_calls_transfer_handler; NativeTokenTests.fails_when_not_root] = true.
Proof. vm_compute. reflexivity. Qed.

(** ** The sidechain pallet *)
Module SidechainTests.
Import SidechainPallet.
Definition MOCK_GENESIS_UTXO : UtxoId := mkUtxoId (replicate 32 0) 0.
Definition MOCK_SLOTS_PER_EPOCH : Z := 10.
Record Ext := mkExt { pallet : State; CurrentSlot : Z; OnNewEpochCallCount : Z }.
Definition mock_on_new_epoch : OnNewEpoch Z := fun _old_epoch _new_epoch c => c + 1.
Definition new_test_ext : Ext := mkExt (build (mkGenesisConfig MOCK_GENESIS_UTXO MOCK_SLOTS_PER_EPOCH)) 0 0.
Definition set_slot (slot : Z) : Test Ext := fun e => Done (mkExt (pallet e) slot (OnNewEpochCallCount e)).
Definition initialize : Test Ext := fun e =>
  '(s, c) ← on_initialize mock_on_new_epoch (CurrentSlot e) (pallet e) (OnNewEpochCallCount e); Done (mkExt s (CurrentSlot e) c).
Definition call_count_is (n : Z) : Test Ext := assert_that (fun e => OnNewEpochCallCount e =? n).
Definition on_new_epoch_is_triggered_by_epoch_change : list (Test Ext) :=
  [set_slot 4; initialize; call_count_is 0; set_slot MOCK_SLOTS_PER_EPOCH; initialize; call_count_is 1].
Definition on_new_epoch_is_not_triggered_without_epoch_change : list (Test Ext) :=
  [set_slot 1; initialize; initialize; set_slot (MOCK_SLOTS_PER_EPOCH - 1); initialize; call_count_is 0].
Definition read_genesis_utxo : list (Test Ext) := [assert_that (fun e => bool_decide (GenesisUtxo (pallet e) = MOCK_GENESIS_UTXO))].
End SidechainTests.
Example sidechain_tests_pass :
  forallb (passes SidechainTests.new_test_ext)
    [SidechainTests.on_new_epoch_is_triggered_by_epoch_change; SidechainTests.on_new_epoch_is_not_triggered_without_epoch_change;
     SidechainTests.read_genesis_utxo] = true.
Proof. vm_compute. reflexivity. Qed.

(** ** The block rewards pallet *)
Module BlockRewardsTests.
Import BlockRewards.
Definition Ext : Type := State Z.
Definition new_test_ext : Ext := initial.
Definition put_beneficiary (b : Z) : Test Ext := fun s => Done (mkState (Some b) (PendingRewards s)).
Definition set_reward (b r : Z) : Test Ext := fun s => Done (mkState (CurrentBlockBeneficiary s) (<[b := r]> (PendingRewards s))).
Definition reward_is (b : Z) (r : option Z) : Test Ext := assert_that (fun s => bool_decide (PendingRewards s !! b = r)).
Definition beneficiary_is (b : option Z) : Test Ext := assert_that (fun s => bool_decide (CurrentBlockBeneficiary s = b)).
Definition on_finalize_should_create_initial_beneficiary_reward : list (Test Ext) :=
  [put_beneficiary 1; reward_is 1 None; on_finalize; reward_is 1 (Some 1)].
Definition on_finalize_should_increase_beneficiary_reward : list (Test Ext) :=
  [put_beneficiary 2; set_reward 1 2; set_reward 2 3; on_finalize; reward_is 1 (Some 2); reward_is 2 (Some 4)].
Definition inherent_is_created : list (Test Ext) :=
  [assert_that (fun _ => match create_inherent (Ok (Some 4)) with Done (Some b) => b =? 4 | _ => false end)].
Definition inherent_sets_current_beneficiary : list (Test Ext) :=
  [beneficiary_is None; (fun s => expect (ok (set_current_block_beneficiary s OriginNone 42))); beneficiary_is (Some 42)].
End BlockRewardsTests.
Example block_rewards_tests_pass :
  forallb (passes BlockRewardsTests.new_test_ext)
    [BlockRewardsTests.on_finalize_should_create_initial_beneficiary_reward; BlockRewardsTests.on_finalize_should_increase_beneficiary_reward;
     BlockRewardsTests.inherent_is_created; BlockRewardsTests.inherent_sets_current_beneficiary] = true.
Proof. vm_compute. reflexivity. Qed.
