(* ===== verification/RuntimeTests.v ===== *)
(** * The rotation tests of the runtime

    [node/runtime/src/mock.rs] composes the pallets for tests, and the tests of
    [node/runtime/src/lib.rs] watch the authorities of Aura and Grandpa and the next committee over
    several epochs. Here the mock runtime is composed of the pallets of this development, and the
    tests are run: what the repository expects of the pallets is what the definitions compute.

    Test keys and their signatures are the toy scheme of [ConcreteAccounts]; Aura and Grandpa are
    those of [ConcreteConsensus]. A failed assertion is a [Panic]. *)

From S2P Require Import Prelude Domain McEpoch Slots Cbor PlutusDatums Selection Ariadne Committee Session NativeToken BlockRewards Runtime ChainQueries NodeCommands Consensus.
#[local] Open Scope list_scope.

Module MockRuntime.
Import ConcreteAccounts Selection.Concrete Rfc8949 ConcreteConsensus.
#[export] Instance account_refs : System bytes := {| Sys := (); inc_providers _ s := s; dec_providers _ s := Some s |}.
#[export] Instance test_keys : @OpaqueKeys (@TAccountKeys byte_accounts) := pair_opaque_keys.

(** ** Keys *)

(** A key pair: its public key, and the signature of a message. *)
Record TestPair := mkTestPair { public : bytes; sign : bytes -> bytes }.
Record TestKeys := mkTestKeys { cross_chain : TestPair; aura : TestPair; grandpa : TestPair }.
Definition account (k : TestKeys) : bytes := public (cross_chain k).
Definition session (k : TestKeys) : bytes * bytes := (public (aura k), public (grandpa k)).
(** Keys from a seed: a signature is the key's first byte, repeated. *)
Definition pair_from_seed (length seed signature : nat) : TestPair :=
  mkTestPair (replicate length (Z.of_nat seed)) (fun _ => replicate signature (Z.of_nat seed)).
Definition from_seed (s : nat) : TestKeys := mkTestKeys (pair_from_seed 33 s 65) (pair_from_seed 32 (s + 10) 64) (pair_from_seed 32 (s + 20) 64).
Definition alice : TestKeys := from_seed 1.
Definition bob : TestKeys := from_seed 2.
(** The main chain key, whose seed is the hash of the partner chain key. *)
Definition mainchain_pair (validator_pub_key : bytes) : TestPair := pair_from_seed 32 (100 + Z.to_nat (hd 0 validator_pub_key)) 64.

(** ** The runtime *)
Definition SLOTS_PER_EPOCH : Z := 7.
Definition ARBITRARY_FIRST_SLOT : Z := 389374234.
Definition ARBITRARY_FIRST_EPOCH : Z := ARBITRARY_FIRST_SLOT / SLOTS_PER_EPOCH.
Definition MOCK_EPOCH_NONCE : bytes := [1; 2; 3].
Definition MockMaxValidators : nat := 32.
#[local] Abbreviation Manager := (Managers.ManagerState bytes (bytes * bytes)).
Record Ext := mkExt {
  block_number : Z;
  CurrentSlot : Z;
  Sidechain : SidechainPallet.State;
  Session : SessionPallet.State bytes (bytes * bytes) Manager;
  consensus : @Consensus.State bytes pallets
}.
Definition manager (e : Ext) : Manager := SessionPallet.manager (Session e).
Definition SessionCommitteeManagement (e : Ext) : CommitteeManagement.State bytes (bytes * bytes) := Managers.committee_pallet (manager e).
Definition with_session (e : Ext) (s : SessionPallet.State bytes (bytes * bytes) Manager) : Ext :=
  mkExt (block_number e) (CurrentSlot e) (Sidechain e) s (consensus e).
Definition mock_current_epoch_number (e : Ext) : outcome ScEpochNumber := SidechainPallet.current_epoch_number (Sidechain e) (CurrentSlot e).
Definition genesis_utxo (e : Ext) : UtxoId := SidechainPallet.GenesisUtxo (Sidechain e).

(** The mock selects all valid registered candidates. *)
Definition mock_select_authorities (genesis_utxo : UtxoId) (input : AuthoritySelectionInputs) (_sidechain_epoch : ScEpochNumber)
    : outcome (option (list (bytes * (bytes * bytes)))) :=
  let candidates := map (fun c => (account_id (candidate c), account_keys (candidate c)))
    (filter_trustless_candidates_registrations (registered_candidates input) genesis_utxo) in
  Done (match candidates with [] => None | _ => Some (truncate_from MockMaxValidators candidates) end).

Definition genesis_committee : CommitteeManagement.GenesisConfig bytes (bytes * bytes) :=
  CommitteeManagement.mkGenesisConfig [(public (cross_chain alice), session alice); (public (cross_chain bob), session bob)]
    (mkMainChainScripts [] (replicate 28 0) (replicate 28 0)).
(** The session's calls to Aura and Grandpa, delivered in the block that makes them. *)
Definition deliver_calls (n : Z) (e : Ext) (s : SessionPallet.State bytes (bytes * bytes) Manager) : outcome Ext :=
  let calls := drop (length (SessionPallet.handled (Session e))) (SessionPallet.handled s) in
  c ← SessionHandler.deliver (Consensus.handlers n) calls (consensus e);
  Done (mkExt (block_number e) (CurrentSlot e) (Sidechain e) s c).
Definition new_test_ext : outcome Ext :=
  let m := Managers.mkManagerState (CommitteeManagement.build MockMaxValidators genesis_committee) 0 0 in
  let ids := [KEY_TYPE_AURA; KEY_TYPE_GRANDPA] in
  let session_keys := [(account alice, session alice); (account bob, session bob)] in
  s ← @SessionPallet.build bytes (bytes * bytes) bytes Manager _ _ (Managers.ValidatorManagementSessionManager (fun a => a))
    Runtime.polkadot_js_compat id bytes_leb session_keys ids ids m tt;
  deliver_calls 0 (mkExt 0 0 (SidechainPallet.build (SidechainPallet.mkGenesisConfig (mkUtxoId (concat (replicate 16 [171; 205])) 0) SLOTS_PER_EPOCH))
    (SessionPallet.mkState [] [] 0 [] tt m [] []) no_authorities) s.

(** ** Blocks *)
Definition initialize_block (e : Ext) : outcome Ext :=
  let slot := CurrentSlot e + 1 in
  let slot := if slot =? 1 then slot + ARBITRARY_FIRST_SLOT else slot in
  let e := mkExt (block_number e + 1) slot (Sidechain e) (Session e) (consensus e) in
  epoch ← mock_current_epoch_number e;
  let committee := CommitteeManagement.on_initialize (block_number e) epoch (SessionCommitteeManagement e) in
  let started := Runtime.with_manager (Session e)
    (Managers.mkManagerState committee (Managers.pallet_session_CurrentIndex (manager e)) epoch) in
  s ← session_on_initialize MockMaxValidators (fun a => a) Runtime.polkadot_js_compat bytes_leb (block_number e) started;
  deliver_calls (block_number e) e s.
(** Of the hooks only Grandpa's changes the state. *)
Definition finalize_block (e : Ext) : outcome Ext :=
  Done (if 0 <? block_number e then
          mkExt (block_number e) (CurrentSlot e) (Sidechain e) (Session e) (Consensus.finalize (block_number e) (consensus e))
        else e).
Definition advance_block (e : Ext) : outcome Ext := e ← finalize_block e; initialize_block e.

Definition Assertion : Type := Ext -> outcome ().
Fixpoint for_next_n_blocks (n : nat) (f : Assertion) (e : Ext) : outcome Ext :=
  match n with O => Done e | S n => _checked ← f e; e ← advance_block e; for_next_n_blocks n f e end.
Fixpoint for_next_n_blocks_after_finalizing (n : nat) (f : Assertion) (e : Ext) : outcome Ext :=
  match n with
  | O => Done e
  | S n => e ← finalize_block e; _checked ← f e; e ← initialize_block e; for_next_n_blocks_after_finalizing n f e
  end.
Definition slots_to_epoch (epoch slots_per_epoch : Z) (e : Ext) : outcome Z :=
  let epoch := ARBITRARY_FIRST_EPOCH + epoch in
  let to_slot := epoch * slots_per_epoch in
  expect (checked_sub to_slot (CurrentSlot e)).
Definition until_epoch (epoch : Z) (f : Assertion) (e : Ext) : outcome Ext :=
  n ← slots_to_epoch epoch SLOTS_PER_EPOCH e; n ← expect (try_into_width 32 n); for_next_n_blocks (Z.to_nat n) f e.
Definition until_epoch_after_finalizing (epoch : Z) (f : Assertion) (e : Ext) : outcome Ext :=
  n ← slots_to_epoch epoch SLOTS_PER_EPOCH e; n ← expect (try_into_width 32 n); for_next_n_blocks_after_finalizing (Z.to_nat n) f e.

(** ** Inherents *)
Definition mock_registration_of (genesis_utxo : UtxoId) (validator : TestKeys) : CandidateRegistrations :=
  let validator_pub_key := public (cross_chain validator) in
  let dummy_mainchain_pub_key := mainchain_pair validator_pub_key in
  let input_utxo := mkUtxoId (replicate 32 0) 0 in
  let signed_message_encoded := encode_datum (signed_message_to_datum (mkSignedMessage genesis_utxo validator_pub_key input_utxo)) in
  let mainchain_signature := sign dummy_mainchain_pub_key signed_message_encoded in
  let sidechain_signature := sign (cross_chain validator) signed_message_encoded in
  mkCandidateRegistrations (public dummy_mainchain_pub_key)
    [mkRegistrationData input_utxo (take 64 sidechain_signature) mainchain_signature [] validator_pub_key []
       (mkUtxoInfo input_utxo 0 0 0 0) [input_utxo] (public (aura validator)) (public (grandpa validator))]
    (Some 7).
Definition create_inherent_data_struct (expected_authorities : list TestKeys) (e : Ext) : AuthoritySelectionInputs :=
  let candidates := map (mock_registration_of (genesis_utxo e)) expected_authorities in
  mkAuthoritySelectionInputs (mkDParameter 0 (Z.max (Z.of_nat (length candidates) mod 2 ^ 16) 1)) [] candidates MOCK_EPOCH_NONCE.
Definition set_committee_through_inherent_data (expected_authorities : list TestKeys) (e : Ext) : outcome Ext :=
  let inherent_data := create_inherent_data_struct expected_authorities e in
  call ← CommitteeManagement.create_inherent (mock_select_authorities (genesis_utxo e)) (SessionCommitteeManagement e) (Ok (Some inherent_data));
  call ← expect call;
  committee ← expect (ok (CommitteeManagement.dispatch (SessionCommitteeManagement e) OriginNone call));
  Done (with_session e (Runtime.with_manager (Session e)
    (Managers.mkManagerState committee (Managers.pallet_session_CurrentIndex (manager e)) (Managers.current_epoch (manager e))))).

(** ** Assertions *)
Definition assert (b : bool) : outcome () := if b then Done tt else Panic.
Definition assert_current_epoch (epoch : Z) : Assertion := fun e =>
  now ← mock_current_epoch_number e; assert (now =? epoch + ARBITRARY_FIRST_EPOCH).
Definition assert_next_committee (members : list TestKeys) : Assertion := fun e =>
  next ← expect (CommitteeManagement.next_committee MockMaxValidators (SessionCommitteeManagement e));
  assert (bool_decide (next = map (fun k => public (cross_chain k)) members)).
(** The sets of Grandpa's authorities are equal; the order is not compared. *)
Definition assert_grandpa_authorities (members : list TestKeys) : Assertion := fun e =>
  let actual := map fst (Consensus.runtime_grandpa_authorities (consensus e)) in
  let expected := map (fun k => public (grandpa k)) members in
  assert (bool_decide (list_to_set actual =@{gset bytes} list_to_set expected)).
Definition assert_grandpa_weights : Assertion := fun e =>
  assert (forallb (fun a => snd a =? 1) (Consensus.runtime_grandpa_authorities (consensus e))).
Definition assert_aura_authorities (members : list TestKeys) : Assertion := fun e =>
  assert (bool_decide (Consensus.runtime_authorities (consensus e) = map (fun k => public (aura k)) members)).
Definition both (f g : Assertion) : Assertion := fun e => _checked ← f e; g e.

(** ** The tests *)
Definition check_grandpa_authorities_rotation : outcome Ext :=
  e ← new_test_ext;
  e ← advance_block e;
  e ← set_committee_through_inherent_data [alice] e;
  e ← until_epoch_after_finalizing 1
        (both (assert_current_epoch 0) (both assert_grandpa_weights (assert_grandpa_authorities [alice; bob]))) e;
  e ← set_committee_through_inherent_data [bob] e;
  e ← for_next_n_blocks_after_finalizing (Z.to_nat SLOTS_PER_EPOCH)
        (both (assert_current_epoch 1) (both assert_grandpa_weights (assert_grandpa_authorities [alice]))) e;
  e ← for_next_n_blocks_after_finalizing (Z.to_nat SLOTS_PER_EPOCH)
        (both (assert_current_epoch 2) (both assert_grandpa_weights (assert_grandpa_authorities [bob]))) e;
  e ← set_committee_through_inherent_data [alice] e;
  e ← advance_block e;
  _checked ← both (assert_current_epoch 3) (assert_grandpa_authorities [bob]) e;
  e ← set_committee_through_inherent_data [alice; bob] e;
  e ← for_next_n_blocks_after_finalizing (Z.to_nat (SLOTS_PER_EPOCH - 1))
        (both (assert_current_epoch 3) (both assert_grandpa_weights (assert_grandpa_authorities [alice]))) e;
  for_next_n_blocks_after_finalizing (Z.to_nat (SLOTS_PER_EPOCH * 3)) (both assert_grandpa_weights (assert_grandpa_authorities [alice; bob])) e.
Definition check_aura_authorities_rotation : outcome Ext :=
  e ← new_test_ext;
  e ← advance_block e;
  e ← set_committee_through_inherent_data [alice] e;
  e ← until_epoch 1 (both (assert_current_epoch 0) (assert_aura_authorities [alice; bob])) e;
  e ← for_next_n_blocks (Z.to_nat SLOTS_PER_EPOCH) (both (assert_current_epoch 1) (assert_aura_authorities [alice])) e;
  e ← set_committee_through_inherent_data [bob] e;
  _checked ← both (assert_current_epoch 2) (assert_aura_authorities [alice]) e;
  e ← advance_block e;
  e ← set_committee_through_inherent_data [alice; bob] e;
  e ← for_next_n_blocks (Z.to_nat (SLOTS_PER_EPOCH - 1)) (both (assert_current_epoch 2) (assert_aura_authorities [bob])) e;
  e ← set_committee_through_inherent_data [alice; bob] e;
  for_next_n_blocks (Z.to_nat (SLOTS_PER_EPOCH * 3)) (assert_aura_authorities [alice; bob]) e.
Definition check_cross_chain_committee_rotation : outcome Ext :=
  e ← new_test_ext;
  e ← advance_block e;
  e ← set_committee_through_inherent_data [alice] e;
  e ← until_epoch 1 (both (assert_current_epoch 0) (assert_next_committee [alice])) e;
  e ← set_committee_through_inherent_data [bob] e;
  e ← for_next_n_blocks (Z.to_nat SLOTS_PER_EPOCH) (both (assert_current_epoch 1) (assert_next_committee [bob])) e;
  e ← set_committee_through_inherent_data [] e;
  for_next_n_blocks (Z.to_nat SLOTS_PER_EPOCH) (both (assert_current_epoch 2) (assert_next_committee [bob])) e.
Definition passes (t : outcome Ext) : bool := match t with Done _ => true | Panic => false end.
End MockRuntime.

(** The rotation tests of the runtime pass. *)
Example rotation_tests_pass :
  map MockRuntime.passes [MockRuntime.check_grandpa_authorities_rotation; MockRuntime.check_aura_authorities_rotation;
    MockRuntime.check_cross_chain_committee_rotation] = [true; true; true].
Proof. vm_compute. reflexivity. Qed.
(** The assertions can fail: the committee that was set does not author in the epoch in which it is set. *)
Example rotation_test_fails :
  MockRuntime.passes (e ← MockRuntime.new_test_ext; e ← MockRuntime.advance_block e;
    e ← MockRuntime.set_committee_through_inherent_data [MockRuntime.alice] e;
    MockRuntime.until_epoch 1 (MockRuntime.assert_aura_authorities [MockRuntime.alice]) e) = false.
Proof. vm_compute. reflexivity. Qed.
