(* ===== verification/Weights.v ===== *)
(** * Weights

    What the blocks and calls of the runtime cost: the generated weights in
    [node/runtime/src/weights] and [pallets/session-validator-management/src/weights.rs], the
    limits of a block in [node/runtime/src/lib.rs], and the weights that the hooks of the pallets
    return.

    Third-party: weights and their arithmetic ([SpWeights]), how FRAME builds the limits of a block
    from the configuration and checks a transaction against them ([FrameLimits]). Times are in
    picoseconds. *)

From S2P Require Import Prelude Domain McEpoch Slots Cbor Selection Ariadne Committee Session NativeToken BlockRewards Runtime.
#[local] Open Scope list_scope.

(** ** [sp_weights] *)
Definition U64_MAX : Z := 2 ^ 64 - 1.
Class SpWeights := {
  Weight : Type;
  from_parts : Z -> Z -> Weight;
  ref_time : Weight -> Z;
  saturating_add : Weight -> Weight -> Weight;
  saturating_mul : Weight -> Z -> Weight;
  RuntimeDbWeight : Type;
  mkRuntimeDbWeight : Z -> Z -> RuntimeDbWeight;   (* the time of a read and of a write *)
  reads : RuntimeDbWeight -> Z -> Weight;
  writes : RuntimeDbWeight -> Z -> Weight;
  db_reads_writes : RuntimeDbWeight -> Z -> Z -> Weight;
  WEIGHT_REF_TIME_PER_NANOS : Z;
  WEIGHT_REF_TIME_PER_SECOND : Z
}.
Class SpWeightsLaws `{SpWeights} : Prop := {
  ref_time_from_parts : forall t p, ref_time (from_parts t p) = t;
  ref_time_add : forall a b, ref_time (saturating_add a b) = Z.min U64_MAX (ref_time a + ref_time b);
  ref_time_mul : forall a n, ref_time (saturating_mul a n) = Z.min U64_MAX (ref_time a * n);
  ref_time_reads : forall r w n, ref_time (reads (mkRuntimeDbWeight r w) n) = Z.min U64_MAX (r * n);
  ref_time_writes : forall r w n, ref_time (writes (mkRuntimeDbWeight r w) n) = Z.min U64_MAX (w * n);
  ref_time_reads_writes : forall r w n m, ref_time (db_reads_writes (mkRuntimeDbWeight r w) n m) = Z.min U64_MAX (r * n + w * m);
  nanos : WEIGHT_REF_TIME_PER_NANOS = 1000;
  seconds : WEIGHT_REF_TIME_PER_SECOND = 10 ^ 12
}.
(** [u64::saturating_mul]. *)
Definition u64_saturating_mul (a b : Z) : Z := Z.min U64_MAX (a * b).

(** ** Generated weights *)
#[local] Notation "a ⊕ b" := (saturating_add a b) (at level 50, left associativity).
Section Generated.
Context `{SpWeights}.

(** [rocksdb_weights.rs], [block_weights.rs], [extrinsic_weights.rs]. *)
Definition RocksDbWeight : RuntimeDbWeight := mkRuntimeDbWeight (20301 * WEIGHT_REF_TIME_PER_NANOS) (416545 * WEIGHT_REF_TIME_PER_NANOS).
Definition ParityDbWeight : RuntimeDbWeight := mkRuntimeDbWeight (3790 * WEIGHT_REF_TIME_PER_NANOS) (22524 * WEIGHT_REF_TIME_PER_NANOS).
Definition DbWeight : RuntimeDbWeight := RocksDbWeight.
Definition BlockExecutionWeight : Weight := from_parts (u64_saturating_mul WEIGHT_REF_TIME_PER_NANOS 158172) 0.
Definition ExtrinsicBaseWeight : Weight := from_parts (u64_saturating_mul WEIGHT_REF_TIME_PER_NANOS 64178) 0.
Definition Weight_zero : Weight := from_parts 0 0.
End Generated.

(** [frame_system.rs]. *)
Module SystemWeights.
Section W.
Context `{SpWeights}.
Definition remark (b : Z) : Weight :=
  from_parts 3196749 0 ⊕ from_parts 0 0 ⊕ saturating_mul (from_parts 264 0) b.
Definition remark_with_event (b : Z) : Weight :=
  from_parts 3700000 0 ⊕ from_parts 0 0 ⊕ saturating_mul (from_parts 1028 0) b.
Definition set_heap_pages : Weight :=
  from_parts 2620000 0 ⊕ from_parts 0 1485 ⊕ reads DbWeight 1 ⊕ writes DbWeight 2.
Definition set_code : Weight :=
  from_parts 56314742000 0 ⊕ from_parts 0 1485 ⊕ reads DbWeight 1 ⊕ writes DbWeight 2.
Definition set_storage (i : Z) : Weight :=
  from_parts 1550000 0 ⊕ from_parts 0 0 ⊕ saturating_mul (from_parts 550895 0) i ⊕ writes DbWeight (u64_saturating_mul 1 i).
Definition kill_storage (i : Z) : Weight :=
  from_parts 1460000 0 ⊕ from_parts 0 0 ⊕ saturating_mul (from_parts 431853 0) i ⊕ writes DbWeight (u64_saturating_mul 1 i).
Definition kill_prefix (p : Z) : Weight :=
  from_parts 2660000 0 ⊕ from_parts 0 43 ⊕ saturating_mul (from_parts 861832 0) p ⊕ reads DbWeight (u64_saturating_mul 1 p) ⊕ writes DbWeight (u64_saturating_mul 1 p) ⊕ saturating_mul (from_parts 0 70) p.
Definition authorize_upgrade : Weight :=
  from_parts 5130000 0 ⊕ from_parts 0 0 ⊕ writes DbWeight 1.
Definition apply_authorized_upgrade : Weight :=
  from_parts 59379038000 0 ⊕ from_parts 0 1518 ⊕ reads DbWeight 2 ⊕ writes DbWeight 3.
End W.
End SystemWeights.

(** [pallet_balances.rs]. *)
Module BalancesWeights.
Section W.
Context `{SpWeights}.
Definition transfer_allow_death : Weight :=
  from_parts 32970000 0 ⊕ from_parts 0 3593 ⊕ reads DbWeight 1 ⊕ writes DbWeight 1.
Definition transfer_keep_alive : Weight :=
  from_parts 26011000 0 ⊕ from_parts 0 3593 ⊕ reads DbWeight 1 ⊕ writes DbWeight 1.
Definition force_set_balance_creating : Weight :=
  from_parts 10610000 0 ⊕ from_parts 0 3593 ⊕ reads DbWeight 1 ⊕ writes DbWeight 1.
Definition force_set_balance_killing : Weight :=
  from_parts 14050000 0 ⊕ from_parts 0 3593 ⊕ reads DbWeight 1 ⊕ writes DbWeight 1.
Definition force_transfer : Weight :=
  from_parts 34440000 0 ⊕ from_parts 0 6196 ⊕ reads DbWeight 2 ⊕ writes DbWeight 2.
Definition transfer_all : Weight :=
  from_parts 31930000 0 ⊕ from_parts 0 3593 ⊕ reads DbWeight 1 ⊕ writes DbWeight 1.
Definition force_unreserve : Weight :=
  from_parts 12530000 0 ⊕ from_parts 0 3593 ⊕ reads DbWeight 1 ⊕ writes DbWeight 1.
Definition upgrade_accounts (u : Z) : Weight :=
  from_parts 12420000 0 ⊕ from_parts 0 990 ⊕ saturating_mul (from_parts 9998986 0) u ⊕ reads DbWeight (u64_saturating_mul 1 u) ⊕ writes DbWeight (u64_saturating_mul 1 u) ⊕ saturating_mul (from_parts 0 2603) u.
Definition force_adjust_total_issuance : Weight :=
  from_parts 4270000 0 ⊕ from_parts 0 0.
Definition burn_allow_death : Weight :=
  from_parts 21010000 0 ⊕ from_parts 0 0.
Definition burn_keep_alive : Weight :=
  from_parts 14240000 0 ⊕ from_parts 0 0.
End W.
End BalancesWeights.

(** [pallet_sudo.rs]. *)
Module SudoWeights.
Section W.
Context `{SpWeights}.
Definition set_key : Weight :=
  from_parts 7100000 0 ⊕ from_parts 0 1517 ⊕ reads DbWeight 1 ⊕ writes DbWeight 1.
Definition sudo : Weight :=
  from_parts 7440000 0 ⊕ from_parts 0 1517 ⊕ reads DbWeight 1.
Definition sudo_as : Weight :=
  from_parts 7470000 0 ⊕ from_parts 0 1517 ⊕ reads DbWeight 1.
Definition remove_key : Weight :=
  from_parts 6440000 0 ⊕ from_parts 0 1517 ⊕ reads DbWeight 1 ⊕ writes DbWeight 1.
End W.
End SudoWeights.

(** [pallet_timestamp.rs]. *)
Module TimestampWeights.
Section W.
Context `{SpWeights}.
Definition timestamp_set : Weight :=
  from_parts 5630000 0 ⊕ from_parts 0 1493 ⊕ reads DbWeight 2 ⊕ writes DbWeight 1.
Definition timestamp_on_finalize : Weight :=
  from_parts 2470000 0 ⊕ from_parts 0 0.
End W.
End TimestampWeights.

(** [pallet_session_validator_management.rs]. *)
Module CommitteeWeights.
Section W.
Context `{SpWeights}.
Definition committee_set (v : Z) : Weight :=
  from_parts 7070352 0 ⊕ from_parts 0 4598 ⊕ saturating_mul (from_parts 58063 0) v ⊕ reads DbWeight 1 ⊕ writes DbWeight 1.
End W.
End CommitteeWeights.

(** [pallets/session-validator-management/src/weights.rs], which the runtime does not use. *)
Module PalletWeights.
Section W.
Context `{SpWeights}.
Definition substrate_set (db : RuntimeDbWeight) (v : Z) : Weight :=
  from_parts 180296622 4538 ⊕ saturating_mul (from_parts 1617743 0) v ⊕ reads db 2 ⊕ writes db 1.
End W.
End PalletWeights.

(** ** Calls

    The calls of the runtime whose weight a pallet or a generated file states, with the ranges of
    their components. *)
Inductive PricedCall :=
| Remark (b : Z) | RemarkWithEvent (b : Z) | SetHeapPages | SetCode | SetStorage (i : Z) | KillStorage (i : Z) | KillPrefix (p : Z)
| AuthorizeUpgrade | ApplyAuthorizedUpgrade
| TransferAllowDeath | TransferKeepAlive | ForceSetBalanceCreating | ForceSetBalanceKilling | ForceTransfer | TransferAll | ForceUnreserve
| UpgradeAccounts (u : Z) | ForceAdjustTotalIssuance | BurnAllowDeath | BurnKeepAlive
| SetKey | Sudo | SudoAs | RemoveKey
| SetTimestamp | SetCommittee (v : Z) | SetCommitteeScripts | SetBeneficiary | TransferTokens | SetTokenScripts.
Definition in_range (c : PricedCall) : Prop :=
  match c with
  | Remark b | RemarkWithEvent b => 0 <= b <= 3932160
  | SetStorage i | KillStorage i | KillPrefix i => 0 <= i <= 1000
  | UpgradeAccounts u => 1 <= u <= 1000
  | SetCommittee v => 0 <= v <= 32
  | _ => True
  end.
(** Inherents are mandatory. *)
Definition mandatory (c : PricedCall) : bool :=
  match c with SetTimestamp | SetCommittee _ | SetBeneficiary | TransferTokens => true | _ => false end.
Section CallWeight.
Context `{SpWeights}.
Definition call_weight (c : PricedCall) : Weight :=
  match c with
  | Remark b => SystemWeights.remark b
  | RemarkWithEvent b => SystemWeights.remark_with_event b
  | SetHeapPages => SystemWeights.set_heap_pages
  | SetCode => SystemWeights.set_code
  | SetStorage i => SystemWeights.set_storage i
  | KillStorage i => SystemWeights.kill_storage i
  | KillPrefix p => SystemWeights.kill_prefix p
  | AuthorizeUpgrade => SystemWeights.authorize_upgrade
  | ApplyAuthorizedUpgrade => SystemWeights.apply_authorized_upgrade
  | TransferAllowDeath => BalancesWeights.transfer_allow_death
  | TransferKeepAlive => BalancesWeights.transfer_keep_alive
  | ForceSetBalanceCreating => BalancesWeights.force_set_balance_creating
  | ForceSetBalanceKilling => BalancesWeights.force_set_balance_killing
  | ForceTransfer => BalancesWeights.force_transfer
  | TransferAll => BalancesWeights.transfer_all
  | ForceUnreserve => BalancesWeights.force_unreserve
  | UpgradeAccounts u => BalancesWeights.upgrade_accounts u
  | ForceAdjustTotalIssuance => BalancesWeights.force_adjust_total_issuance
  | BurnAllowDeath => BalancesWeights.burn_allow_death
  | BurnKeepAlive => BalancesWeights.burn_keep_alive
  | SetKey => SudoWeights.set_key
  | Sudo => SudoWeights.sudo
  | SudoAs => SudoWeights.sudo_as
  | RemoveKey => SudoWeights.remove_key
  | SetTimestamp => TimestampWeights.timestamp_set
  | SetCommittee v => CommitteeWeights.committee_set v
  | SetCommitteeScripts => CommitteeWeights.committee_set 1
  | SetBeneficiary | TransferTokens => from_parts 0 0
  | SetTokenScripts => from_parts 1 0
  end.
End CallWeight.

(** ** Limits of a block *)

(** [BlockWeights::builder()] with what the runtime sets; ratios are percentages. *)
Record BlockWeightsConfig `{SpWeights} := mkBlockWeightsConfig {
  base_block : Weight;
  base_extrinsic : Weight;
  normal_max_total : Weight;
  operational_max_total : Weight;
  operational_reserved : Weight;
  avg_block_initialization : Z
}.
Section Limits.
Context `{SpWeights}.
Definition AVERAGE_ON_INITIALIZE_RATIO : Z := 10.
Definition NORMAL_DISPATCH_RATIO : Z := 75.
(** [Perbill] times a weight, exact for the percentages here, and subtraction. *)
Definition percent (p : Z) (t : Z) : Z := t * p / 100.
Definition MAXIMUM_BLOCK_TIME : Z := u64_saturating_mul WEIGHT_REF_TIME_PER_SECOND 2.
Definition MAXIMUM_BLOCK_WEIGHT : Weight := from_parts MAXIMUM_BLOCK_TIME U64_MAX.
Definition NORMAL_WEIGHT : Weight := from_parts (percent NORMAL_DISPATCH_RATIO MAXIMUM_BLOCK_TIME) (percent NORMAL_DISPATCH_RATIO U64_MAX).
Definition RuntimeBlockWeights : BlockWeightsConfig := mkBlockWeightsConfig _ BlockExecutionWeight ExtrinsicBaseWeight NORMAL_WEIGHT
  MAXIMUM_BLOCK_WEIGHT (from_parts (MAXIMUM_BLOCK_TIME - percent NORMAL_DISPATCH_RATIO MAXIMUM_BLOCK_TIME)
    (U64_MAX - percent NORMAL_DISPATCH_RATIO U64_MAX)) AVERAGE_ON_INITIALIZE_RATIO.
End Limits.
(** The limits that FRAME builds, and whether [CheckWeight] lets a call of the normal class into
    a block that has consumed [all], of which [normal] by its class. *)
Class FrameLimits `{SpWeights} := {
  max_block : BlockWeightsConfig -> Weight;
  normal_max_extrinsic : BlockWeightsConfig -> Weight;
  includes_normal : BlockWeightsConfig -> Weight -> Weight -> Weight -> bool
}.
Class FrameLimitsLaws `{FrameLimits} : Prop := {
  (* the largest limit of a class *)
  max_block_time : forall c, ref_time (max_block c) = Z.max (ref_time (normal_max_total c)) (ref_time (operational_max_total c));
  (* the limit of the class, less an average initialization and what every call costs *)
  normal_max_extrinsic_time : forall c, ref_time (normal_max_extrinsic c) =
    Z.max 0 (Z.max 0 (ref_time (normal_max_total c) - percent (avg_block_initialization c) (ref_time (max_block c))) - ref_time (base_extrinsic c));
  (* a call is admitted only while its class and the block have room; the normal class has no reserve *)
  includes_normal_fits : forall c all normal w, includes_normal c all normal w = true ->
    ref_time normal + (ref_time w + ref_time (base_extrinsic c)) <= ref_time (normal_max_total c) /\
    ref_time all + (ref_time w + ref_time (base_extrinsic c)) <= ref_time (max_block c) /\
    ref_time w <= ref_time (normal_max_extrinsic c)
}.

(** ** Hooks

    What [on_initialize] of the partner chain's pallets returns in a block, in the order of
    [Runtime.initialize_block]; [LogBeneficiaries] is the sidechain pallet's [OnNewEpoch]. *)
Section Hooks.
Import Runtime.
Context `{FrameLimits}.
Definition log_beneficiaries_weight : Weight := db_reads_writes DbWeight 1 1.
Definition sidechain_on_initialize_weight (slot : Z) (st : SidechainPallet.State) : outcome Weight :=
  real_epoch ← SidechainPallet.current_epoch_number st slot;
  Done (match SidechainPallet.EpochNumber st with
        | Some saved_epoch =>
            if saved_epoch =? real_epoch then db_reads_writes DbWeight 2 0
            else log_beneficiaries_weight ⊕ db_reads_writes DbWeight 2 1
        | None => db_reads_writes DbWeight 2 1
        end).
Definition committee_on_initialize_weight (block_nr : Z) : Weight :=
  if block_nr =? 1 then db_reads_writes DbWeight 2 1 else Weight_zero.
Definition session_on_initialize_weight (ends : bool) : Weight := if ends then max_block RuntimeBlockWeights else Weight_zero.

Context `{Minicbor, Crypto, Accounts, Rng, U256, BoundedVecOps}.
Context {AccountId : Type} `{EqDecision AccountId, System AccountId} `{Countable BeneficiaryId}.
Implicit Types rt : @Runtime _ AccountId _ BeneficiaryId _ _.
(** Whether the block ends the session: the question that [session_on_initialize] asks. *)
Definition ends_session (block_nr slot : Z) rt : outcome bool :=
  epoch ← SidechainPallet.current_epoch_number (Sidechain rt) slot;
  let committee := CommitteeManagement.on_initialize block_nr epoch (committee_of rt) in
  Done (Managers.vm_should_end_session MaxValidators block_nr
    (Managers.mkManagerState committee (Managers.pallet_session_CurrentIndex (SessionPallet.manager (Session rt))) epoch)).
(** What a block has consumed before its extrinsics. *)
Definition initialization_weight (block_nr slot : Z) rt : outcome Weight :=
  sidechain ← sidechain_on_initialize_weight slot (Sidechain rt);
  ends ← ends_session block_nr slot rt;
  Done (base_block RuntimeBlockWeights ⊕ sidechain ⊕ committee_on_initialize_weight block_nr ⊕ session_on_initialize_weight ends).
End Hooks.

(** ** Bounds *)

(** Times as integers, and the definitions of the weights. *)
Ltac weigh := unfold DbWeight, RocksDbWeight in *;
  rewrite ?ref_time_add, ?ref_time_mul, ?ref_time_reads, ?ref_time_writes, ?ref_time_reads_writes, ?ref_time_from_parts, ?nanos;
  unfold u64_saturating_mul, U64_MAX; lia.
Ltac weights_unfold := unfold SystemWeights.remark, SystemWeights.remark_with_event, SystemWeights.set_heap_pages, SystemWeights.set_code,
  SystemWeights.set_storage, SystemWeights.kill_storage, SystemWeights.kill_prefix, SystemWeights.authorize_upgrade,
  SystemWeights.apply_authorized_upgrade, BalancesWeights.transfer_allow_death, BalancesWeights.transfer_keep_alive,
  BalancesWeights.force_set_balance_creating, BalancesWeights.force_set_balance_killing, BalancesWeights.force_transfer,
  BalancesWeights.transfer_all, BalancesWeights.force_unreserve, BalancesWeights.upgrade_accounts, BalancesWeights.force_adjust_total_issuance,
  BalancesWeights.burn_allow_death, BalancesWeights.burn_keep_alive, SudoWeights.set_key, SudoWeights.sudo, SudoWeights.sudo_as,
  SudoWeights.remove_key, TimestampWeights.timestamp_set, CommitteeWeights.committee_set.
Section Bounds.
Context `{SpWeightsLaws, !FrameLimits, !FrameLimitsLaws}.
Lemma base_extrinsic_time : ref_time (base_extrinsic RuntimeBlockWeights) = 64178000.
Proof. cbn. unfold ExtrinsicBaseWeight. rewrite ref_time_from_parts, nanos. reflexivity. Qed.
Lemma maximum_block_time : MAXIMUM_BLOCK_TIME = 2 * 10 ^ 12.
Proof. unfold MAXIMUM_BLOCK_TIME. rewrite seconds. reflexivity. Qed.
Lemma max_block_seconds : ref_time (max_block RuntimeBlockWeights) = 2 * 10 ^ 12.
Proof.
  rewrite max_block_time. cbn [normal_max_total operational_max_total RuntimeBlockWeights].
  unfold NORMAL_WEIGHT, MAXIMUM_BLOCK_WEIGHT. rewrite !ref_time_from_parts, maximum_block_time. reflexivity.
Qed.
Lemma normal_max_extrinsic_seconds : ref_time (normal_max_extrinsic RuntimeBlockWeights) = 1299935822000.
Proof.
  rewrite normal_max_extrinsic_time, max_block_seconds, base_extrinsic_time. cbn [normal_max_total avg_block_initialization RuntimeBlockWeights].
  unfold NORMAL_WEIGHT. rewrite ref_time_from_parts, maximum_block_time. reflexivity.
Qed.
(** The longest call takes 450 milliseconds. *)
Lemma call_weight_bounds c : in_range c -> 0 <= ref_time (call_weight c) <= 450 * 10 ^ 9.
Proof. destruct c; cbn [in_range call_weight]; intros Hr; weights_unfold; weigh. Qed.
(** Every call fits a block: for components in their range, no call is refused for its own weight. *)
Theorem calls_fit_a_block c : in_range c -> ref_time (call_weight c) <= ref_time (normal_max_extrinsic RuntimeBlockWeights).
Proof. intros Hr%call_weight_bounds. rewrite normal_max_extrinsic_seconds. lia. Qed.
End Bounds.

(** ** Blocks that end a session *)
Section Blocks.
Import Runtime.
Context `{SpWeightsLaws, !FrameLimits, !FrameLimitsLaws, Minicbor, Crypto, Accounts, Rng, U256, BoundedVecOps}.
Context {AccountId : Type} `{EqDecision AccountId, System AccountId} (into : TAccountId -> AccountId).
Context (account_id_leb : AccountId -> AccountId -> bool) `{Countable BeneficiaryId}.
Implicit Types rt : @Runtime _ AccountId _ BeneficiaryId _ _.

Lemma initialize_block_ends n slot rt rt1 :
  initialize_block into account_id_leb n slot rt = Done rt1 ->
  exists ends w, ends_session n slot rt = Done ends /\ initialization_weight n slot rt = Done w /\
    SessionPallet.CurrentIndex (Session rt1) = (if ends : bool then SessionPallet.CurrentIndex (Session rt) +[32] 1 else SessionPallet.CurrentIndex (Session rt)).
Proof.
  unfold initialize_block, initialization_weight, ends_session, sidechain_on_initialize_weight, SidechainPallet.on_initialize.
  destruct (SidechainPallet.current_epoch_number (Sidechain rt) slot) as [e|] eqn:He; [|done]. simpl_monad.
  set (step := match SidechainPallet.EpochNumber (Sidechain rt) with Some _ => _ | None => _ end).
  assert (exists sc r, step = Done (sc, r) /\ SidechainPallet.current_epoch_number sc slot = Done e) as (sc & [r p] & -> & He').
  { subst step. destruct (SidechainPallet.EpochNumber (Sidechain rt)) as [saved|]; [destruct (saved =? e)|]; eauto. }
  simpl_monad. rewrite He'. simpl_monad. rewrite session_on_initialize_spec. simpl_monad. intros [= <-].
  do 2 eexists. split; [reflexivity|]. split; [reflexivity|]. cbn [Session]. unfold Managers.vm_should_end_session, CommitteeManagement.next_committee.
  cbn [Managers.committee_pallet Managers.current_epoch SessionPallet.manager with_manager].
  destruct (CommitteeManagement.NextCommittee _) as [next|]; cbn [option_map].
  - rewrite (bool_decide_eq_true_2 (is_Some (Some _))) by (by eexists). rewrite andb_true_r. by destruct (_ <? _).
  - rewrite bool_decide_eq_false_2 by (by intros [? ?]). by rewrite andb_false_r.
Qed.
Lemma initialization_times n slot rt w :
  initialization_weight n slot rt = Done w -> exists ends, ends_session n slot rt = Done ends /\
    (if ends : bool then 2 * 10 ^ 12 else 0) <= ref_time w <= (if ends then 2 * 10 ^ 12 else 0) + 2 * 10 ^ 9.
Proof.
  unfold initialization_weight. destruct (sidechain_on_initialize_weight slot (Sidechain rt)) as [a|] eqn:Ha; [|done]. simpl_monad.
  destruct (ends_session n slot rt) as [ends|]; [|done]. simpl_monad. intros [= <-]. exists ends. split; [done|].
  assert (0 <= ref_time a <= 1000 * 10 ^ 6) as Hs.
  { unfold sidechain_on_initialize_weight in Ha. destruct (SidechainPallet.current_epoch_number _ _) as [e|]; [|done]. simpl_monad.
    injection Ha as <-. unfold log_beneficiaries_weight.
    destruct (SidechainPallet.EpochNumber (Sidechain rt)) as [saved|]; [destruct (saved =? e)|]; weigh. }
  assert (0 <= ref_time (committee_on_initialize_weight n) <= 500 * 10 ^ 6) as Hc
    by (unfold committee_on_initialize_weight, Weight_zero; destruct (n =? 1); weigh).
  assert (ref_time (session_on_initialize_weight ends) = if ends then 2 * 10 ^ 12 else 0) as He
    by (destruct ends; [apply max_block_seconds | apply ref_time_from_parts]).
  rewrite !ref_time_add, He. cbn [base_block RuntimeBlockWeights]. unfold BlockExecutionWeight. rewrite ref_time_from_parts, nanos.
  unfold u64_saturating_mul, U64_MAX. destruct ends; lia.
Qed.

(** In the block that ends a session the initialization alone takes the whole weight of a block:
    no transaction of the normal class is let in, whatever it is, only inherents. *)
Theorem session_ends_without_transactions n slot rt rt1 all normal c w :
  initialize_block into account_id_leb n slot rt = Done rt1 ->
  SessionPallet.CurrentIndex (Session rt1) <> SessionPallet.CurrentIndex (Session rt) ->
  initialization_weight n slot rt = Done w -> ref_time w <= ref_time all -> in_range c ->
  includes_normal RuntimeBlockWeights all normal (call_weight c) = false.
Proof.
  intros Hi Hx Hw Hall Hc%call_weight_bounds. destruct (initialize_block_ends n slot rt rt1 Hi) as (ends & w' & He & Hw' & Hidx).
  destruct (initialization_times n slot rt w Hw) as (ends' & He' & Hb). assert (ends' = ends) as -> by congruence. destruct ends; [|done].
  destruct (includes_normal _ all normal _) eqn:Hin; [|done]. apply includes_normal_fits in Hin as (_ & Hle & _).
  rewrite max_block_seconds, base_extrinsic_time in Hle. lia.
Qed.

(** In every other block there is room for all inherents and any transaction. *)
Definition inherents_time (v : Z) : Z :=
  ref_time (call_weight SetTimestamp) + ref_time (call_weight (SetCommittee v)) + ref_time (call_weight SetBeneficiary) +
  ref_time (call_weight TransferTokens) + 4 * ref_time (base_extrinsic RuntimeBlockWeights).
Theorem other_blocks_have_room n slot rt rt1 w v c :
  initialize_block into account_id_leb n slot rt = Done rt1 ->
  SessionPallet.CurrentIndex (Session rt1) = SessionPallet.CurrentIndex (Session rt) -> 0 <= SessionPallet.CurrentIndex (Session rt) < 2 ^ 32 ->
  initialization_weight n slot rt = Done w -> 0 <= v <= 32 -> in_range c ->
  ref_time w + inherents_time v + ref_time (call_weight c) + ref_time (base_extrinsic RuntimeBlockWeights) <= ref_time (max_block RuntimeBlockWeights).
Proof.
  intros Hi Hx Hr Hw Hv Hc%call_weight_bounds. destruct (initialize_block_ends n slot rt rt1 Hi) as (ends & w' & He & Hw' & Hidx).
  destruct (initialization_times n slot rt w Hw) as (ends' & He' & Hb). assert (ends' = ends) as -> by congruence. destruct ends.
  { rewrite Hx in Hidx. unfold wrapping_add, wrap in Hidx. exfalso. pose proof (Z.mod_pos_bound (SessionPallet.CurrentIndex (Session rt) + 1) (2 ^ 32) ltac:(lia)).
    destruct (decide (SessionPallet.CurrentIndex (Session rt) = 2 ^ 32 - 1)) as [E|]; [rewrite E in Hidx; vm_compute in Hidx; discriminate|].
    rewrite Z.mod_small in Hidx; lia. }
  rewrite max_block_seconds, base_extrinsic_time. unfold inherents_time. rewrite base_extrinsic_time. cbn [call_weight].
  assert (ref_time TimestampWeights.timestamp_set <= 500 * 10 ^ 6) as Ht by (weights_unfold; weigh).
  assert (ref_time (CommitteeWeights.committee_set v) <= 500 * 10 ^ 6) as Hs by (weights_unfold; weigh).
  rewrite !ref_time_from_parts. lia.
Qed.
End Blocks.

(** ** Weights as pairs *)
Module ConcreteWeights.
Record PairWeight := mkPairWeight { time : Z; size : Z }.
#[export] Instance pair_weights : SpWeights := {|
  Weight := PairWeight;
  from_parts := mkPairWeight;
  ref_time := time;
  saturating_add a b := mkPairWeight (Z.min U64_MAX (time a + time b)) (Z.min U64_MAX (size a + size b));
  saturating_mul a n := mkPairWeight (Z.min U64_MAX (time a * n)) (Z.min U64_MAX (size a * n));
  RuntimeDbWeight := Z * Z;
  mkRuntimeDbWeight := pair;
  reads db n := mkPairWeight (Z.min U64_MAX (fst db * n)) 0;
  writes db n := mkPairWeight (Z.min U64_MAX (snd db * n)) 0;
  db_reads_writes db n m := mkPairWeight (Z.min U64_MAX (fst db * n + snd db * m)) 0;
  WEIGHT_REF_TIME_PER_NANOS := 1000;
  WEIGHT_REF_TIME_PER_SECOND := 10 ^ 12
|}.
#[export] Instance pair_weights_laws : SpWeightsLaws.
Proof. by split. Qed.
Definition limit_block (c : BlockWeightsConfig) : PairWeight :=
  mkPairWeight (Z.max (time (normal_max_total c)) (time (operational_max_total c))) U64_MAX.
Definition limit_extrinsic (c : BlockWeightsConfig) : PairWeight := mkPairWeight
  (Z.max 0 (Z.max 0 (time (normal_max_total c) - percent (avg_block_initialization c) (time (limit_block c))) - time (base_extrinsic c))) U64_MAX.
#[export] Instance pair_limits : FrameLimits := {|
  max_block := limit_block;
  normal_max_extrinsic := limit_extrinsic;
  includes_normal c all normal w :=
    (time normal + (time w + time (base_extrinsic c)) <=? time (normal_max_total c)) &&
    (time all + (time w + time (base_extrinsic c)) <=? time (limit_block c)) && (time w <=? time (limit_extrinsic c))
|}.
#[export] Instance pair_limits_laws : FrameLimitsLaws.
Proof. split; [done..|]. intros c all normal w. cbn. zbool. lia. Qed.
(** A transfer costs less than half a millisecond, an upgrade of a thousand accounts 447. *)
Example weights_of_calls :
  (time (call_weight TransferKeepAlive), time (call_weight (UpgradeAccounts 1000)), time (normal_max_extrinsic RuntimeBlockWeights)) =
  (462857000, 446857406000, 1299935822000).
Proof. vm_compute. reflexivity. Qed.
(** The generated values are sane, as their tests ask. *)
Example weights_are_sane :
  (10 * 10 ^ 6 <= time ExtrinsicBaseWeight <= 10 ^ 9) /\ (100 * 10 ^ 6 <= time BlockExecutionWeight <= 50 * 10 ^ 9) /\
  (10 ^ 6 <= time (reads RocksDbWeight 1) <= 10 ^ 9) /\ (10 ^ 6 <= time (writes RocksDbWeight 1) <= 10 ^ 9) /\
  (10 ^ 6 <= time (reads ParityDbWeight 1) <= 10 ^ 9) /\ (10 ^ 6 <= time (writes ParityDbWeight 1) <= 10 ^ 9).
Proof. vm_compute. split_and!; discriminate. Qed.
End ConcreteWeights.
