(* ===== verification/CliMock.v ===== *)
(** * The wizard's mock context

    [toolkit/partner-chains-cli/src/tests/mod.rs]: a context with files in memory and a list of the
    interactions that are expected, in order. An interaction that is not the next expected one is a
    [Panic], and so is a test that ends with expected interactions left.

    Third-party: the text form of JSON is written out here as far as the tests use it ([JsonText]:
    no escapes by code and no exponents), so that files can be given as text; all floating point numbers of a test are one number, with a given text. *)

From S2P Require Import Prelude Domain McEpoch Cbor Json Ogmios OffchainCsl Offchain CliConfig.
#[local] Open Scope string_scope.
#[local] Open Scope list_scope.

(** [~] for the quotation mark. *)
Fixpoint q (s : string) : string :=
  match s with
  | EmptyString => EmptyString
  | String c s => String (if Ascii.eqb c (chr 126) then chr 34 else c) (q s)
  end.

(** ** JSON as text *)
Module JsonText.
Definition code (n : nat) (c : Ascii.ascii) : bool := Ascii.eqb c (chr n).
Definition NEWLINE : string := String (chr 10) "".
(** The escapes [\b], [\t], [\n], [\f] and [\r] of control characters. *)
Definition escapes : list (nat * nat) := [(98, 8); (116, 9); (110, 10); (102, 12); (114, 13)]%nat.
Definition escape_of (c : Ascii.ascii) : option Ascii.ascii :=
  (chr ∘ fst) <$> find (fun e => code (snd e) c) escapes.
Definition escaped_by (c : Ascii.ascii) : Ascii.ascii := from_option (chr ∘ snd) c (find (fun e => code (fst e) c) escapes).
Fixpoint escape (s : str) : string :=
  match s with
  | [] => ""
  | c :: s =>
      if code 34 c || code 92 c then String (chr 92) (String c (escape s))
      else match escape_of c with Some e => String (chr 92) (String e (escape s)) | None => String c (escape s) end
  end.
Definition quoted (s : str) : string := String (chr 34) (escape s +:+ String (chr 34) "").
(** [serde_json]'s pretty form, with two spaces. *)
Fixpoint pretty (float indent : string) (v : JValue) : string :=
  let inner := indent +:+ "  " in
  match v with
  | JNull => "null"
  | JBool b => if b then "true" else "false"
  | JNumber n => dec_text n
  | JFloat => float
  | JString s => quoted s
  | JArray [] => "[]"
  | JArray vs =>
      "[" +:+ NEWLINE +:+ String.concat ("," +:+ NEWLINE) (map (fun v => inner +:+ pretty float inner v) vs) +:+ NEWLINE +:+ indent +:+ "]"
  | JObject [] => "{}"
  | JObject m =>
      "{" +:+ NEWLINE +:+
      String.concat ("," +:+ NEWLINE) (map (fun e => inner +:+ quoted (str_of (fst e)) +:+ ": " +:+ pretty float inner (snd e)) m) +:+
      NEWLINE +:+ indent +:+ "}"
  end.

(** [serde_json::to_string]. *)
Fixpoint compact (float : string) (v : JValue) : string :=
  match v with
  | JNull => "null"
  | JBool b => if b then "true" else "false"
  | JNumber n => dec_text n
  | JFloat => float
  | JString s => quoted s
  | JArray vs => "[" +:+ String.concat "," (map (compact float) vs) +:+ "]"
  | JObject m => "{" +:+ String.concat "," (map (fun e => quoted (str_of (fst e)) +:+ ":" +:+ compact float (snd e)) m) +:+ "}"
  end.

Definition is_space (c : Ascii.ascii) : bool := code 32 c || code 10 c || code 9 c || code 13 c.
Fixpoint skip (s : string) : string := match s with String c s' => if is_space c then skip s' else s | EmptyString => "" end.
(** The text of a string after its opening quotation mark, and what follows it. *)
Fixpoint read_string (s : string) : option (str * string) :=
  match s with
  | EmptyString => None
  | String c s' =>
      if code 34 c then Some ([], s')
      else if code 92 c then
        match s' with String d s'' => '(t, rest) ← read_string s''; Some (escaped_by d :: t, rest) | EmptyString => None end
      else '(t, rest) ← read_string s'; Some (c :: t, rest)
  end.
Fixpoint read_digits (acc : Z) (s : string) : Z * string :=
  match s with
  | String c s' => match to_digit c with Some d => read_digits (acc * 10 + d)%Z s' | None => (acc, s) end
  | EmptyString => (acc, s)
  end.
Fixpoint expect_text (t s : string) : option string :=
  match t, s with
  | EmptyString, _ => Some s
  | String a t, String b s => if Ascii.eqb a b then expect_text t s else None
  | _, _ => None
  end.
Definition read_number (s : string) : option (JValue * string) :=
  let '(sign, s) := match s with String c s' => if code 45 c then ((-1)%Z, s') else (1%Z, s) | _ => (1%Z, s) end in
  match s with
  | String c _ =>
      _d ← to_digit c;
      let '(n, rest) := read_digits 0 s in
      match rest with
      | String c rest' => if code 46 c then Some (JFloat, snd (read_digits 0 rest')) else Some (JNumber (sign * n)%Z, rest)
      | EmptyString => Some (JNumber (sign * n)%Z, rest)
      end
  | EmptyString => None
  end.
Definition jadd (k : string) (v : JValue) (m : list (string * JValue)) : list (string * JValue) :=
  match jget k m with Some _ => m | None => jset k v m end.
Fixpoint read_value (fuel : nat) (s : string) : option (JValue * string) :=
  match fuel with
  | O => None
  | S fuel =>
      match skip s with
      | String c rest =>
          if code 34 c then '(t, rest) ← read_string rest; Some (JString t, rest)
          else if code 123 c then
            match skip rest with
            | String d rest' => if code 125 d then Some (JObject [], rest') else '(m, rest) ← read_members fuel rest; Some (JObject m, rest)
            | EmptyString => None
            end
          else if code 91 c then
            match skip rest with
            | String d rest' => if code 93 d then Some (JArray [], rest') else '(vs, rest) ← read_elements fuel rest; Some (JArray vs, rest)
            | EmptyString => None
            end
          else if code 116 c then rest ← expect_text "rue" rest; Some (JBool true, rest)
          else if code 102 c then rest ← expect_text "alse" rest; Some (JBool false, rest)
          else if code 110 c then rest ← expect_text "ull" rest; Some (JNull, rest)
          else read_number (String c rest)
      | EmptyString => None
      end
  end
(** The members of an object, kept in the order of their names; the last one of a name counts. *)
with read_members (fuel : nat) (s : string) : option (list (string * JValue) * string) :=
  match fuel with
  | O => None
  | S fuel =>
      rest ← expect_text (String (chr 34) "") (skip s);
      '(k, rest) ← read_string rest;
      rest ← expect_text ":" (skip rest);
      '(v, rest) ← read_value fuel rest;
      match skip rest with
      | String c rest =>
          if code 44 c then '(m, rest) ← read_members fuel rest; Some (jadd (of_str k) v m, rest)
          else if code 125 c then Some ([(of_str k, v)], rest) else None
      | EmptyString => None
      end
  end
with read_elements (fuel : nat) (s : string) : option (list JValue * string) :=
  match fuel with
  | O => None
  | S fuel =>
      '(v, rest) ← read_value fuel s;
      match skip rest with
      | String c rest =>
          if code 44 c then '(vs, rest) ← read_elements fuel rest; Some (v :: vs, rest)
          else if code 93 c then Some ([v], rest) else None
      | EmptyString => None
      end
  end.
Definition parse (s : string) : option JValue :=
  '(v, rest) ← read_value (String.length s) s;
  if String.eqb (skip rest) "" then Some v else None.
Definition text_json (float : string) : SerdeJson := {|
  from_json := parse; to_string_pretty := pretty float ""; struct_to_string_pretty fields := pretty float "" (JObject fields)
|}.
Definition one_float (float : string) : F64 := {|
  f64 := unit; f64_to_value _ := JFloat; f64_from_value v := match v with JFloat => Some tt | _ => None end;
  f64_display _ := float; f64_try_from _ := Some tt
|}.
End JsonText.

(** ** Expected interactions *)

(** [serde_json::json!] keeps the members of an object in the order of their names. *)
Definition json_object (members : list (string * JValue)) : JValue :=
  JObject (foldr (fun e m => JsonText.jadd (fst e) (snd e) m) [] members).
Fixpoint jvalue_eqb (a b : JValue) : bool :=
  let fix all2 vs ws := match vs, ws with [], [] => true | v :: vs, w :: ws => jvalue_eqb v w && all2 vs ws | _, _ => false end in
  let fix members m n :=
    match m, n with
    | [], [] => true
    | (k, v) :: m, (l, w) :: n => String.eqb k l && jvalue_eqb v w && members m n
    | _, _ => false
    end in
  match a, b with
  | JNull, JNull | JFloat, JFloat => true
  | JBool x, JBool y => Bool.eqb x y
  | JNumber x, JNumber y => (x =? y)%Z
  | JString x, JString y => String.eqb (of_str x) (of_str y)
  | JArray vs, JArray ws => all2 vs ws
  | JObject m, JObject n => members m n
  | _, _ => false
  end.

(** [Value::to_string]. *)
Class ValueText := value_to_string : JValue -> string.
Section Mock.
Context `{F64, SerdeJson, ValueText}.
Inductive MockIO :=
| RunCommand (expected_cmd : string) (output : result string string)
| Print (expected_msg : string)
| EPrint (expected_msg : string)
| Prompt (expected_prompt : string) (expected_default : option string) (input : string)
| PromptYN (expected_prompt : string) (expected_default choice : bool)
| PromptMultiOption (expected_prompt : string) (expected_options : list string) (choice : string)
| FileRead (expected_path : string)
| FileWrite (expected_path expected_input : string)
| FileWriteJson (expected_path : string) (expected_input : JValue)
| FileWriteJsonField (expected_path expected_key expected_value : string)
| NewTmpDir
| ListDirectory (expected_path : string) (entries : option (list string))
| DeleteFile (expected_path : string)
| SetEnvVar (expected_key expected_value : string)
| SystemTimeNow (time : Z)
| Group (group : list MockIO)
| OgmiosRPC (expected_addr : string) (expected_req : OgmiosRequest) (res : result string OgmiosResponse).

Record OffchainMock := mkOffchainMock { mock_scripts_data : list (UtxoId * result OffchainError ScriptsData) }.
Record MockIOContext := mkMockIOContext {
  expected_io : list MockIO;
  mock_files : list (string * string);
  offchain_mocks : list (string * OffchainMock)
}.
Definition new_context : MockIOContext := mkMockIOContext [] [] [].
(** A file that is written again is found first. *)
Definition with_file (path content : string) (self : MockIOContext) : MockIOContext :=
  mkMockIOContext (expected_io self) ((path, content) :: mock_files self) (offchain_mocks self).
Definition with_json_file (path : string) (content : JValue) (self : MockIOContext) : MockIOContext :=
  with_file path (to_string_pretty content) self.
Definition with_expected_io (expected_commands : list MockIO) (self : MockIOContext) : MockIOContext :=
  mkMockIOContext expected_commands (mock_files self) (offchain_mocks self).
Definition with_offchain_mocks (mocks : list (string * OffchainMock)) (self : MockIOContext) : MockIOContext :=
  mkMockIOContext (expected_io self) (mock_files self) mocks.
Definition with_files (files : list (string * string)) (self : MockIOContext) : MockIOContext :=
  mkMockIOContext (expected_io self) files (offchain_mocks self).
Definition mock_file (path : string) (self : MockIOContext) : option string :=
  snd <$> find (fun f => String.eqb (fst f) path) (mock_files self).

(** A group is replaced by its members when it is the next one; the depth of groups bounds the
    replacements. *)
Fixpoint size (io : MockIO) : nat := match io with Group group => S (list_sum (map size group)) | _ => 1 end.
Fixpoint mock_pop (fuel : nat) (ios : list MockIO) : option (MockIO * list MockIO) :=
  match fuel, ios with
  | S fuel, Group group :: rest => mock_pop fuel (group ++ rest)
  | S _, io :: rest => Some (io, rest)
  | _, _ => None
  end.
Definition pop_next_action (self : MockIOContext) : option (MockIO * MockIOContext) :=
  '(next, rest) ← mock_pop (S (list_sum (map size (expected_io self)))) (expected_io self);
  Some (next, with_expected_io rest self).
(** The next interaction, which [answer] accepts with a result and new files. *)
Definition next {A} (answer : MockIO -> MockIOContext -> option (A * list (string * string))) : action MockIOContext A := fun self =>
  match pop_next_action self with
  | Some (io, self') =>
      match answer io self' with Some (a, files) => (with_files files self', Done a) | None => (self', Panic) end
  | None => (self, Panic)
  end.
Definition as_result {A} (m : action MockIOContext (result string A)) : stateful MockIOContext string A := m.

Definition options_eqb (a b : option string) : bool :=
  match a, b with Some a, Some b => String.eqb a b | None, None => true | _, _ => false end.
Definition lists_eqb (a b : list string) : bool := bool_decide (a = b).
Definition requests_eqb (a b : OgmiosRequest) : bool :=
  match a, b with
  | QueryLedgerStateEraSummaries, QueryLedgerStateEraSummaries | QueryNetworkShelleyGenesis, QueryNetworkShelleyGenesis => true
  | QueryUtxo a, QueryUtxo b => String.eqb a b
  | _, _ => false
  end.
(** [value.to_string().replace(quotation mark, )]. *)
Fixpoint unquote (s : string) : string :=
  match s with EmptyString => "" | String c s => if JsonText.code 34 c then unquote s else String c (unquote s) end.
(** [Value::pointer] on objects. *)
Fixpoint pointer (tokens : list string) (v : JValue) : option JValue :=
  match tokens with [] => Some v | t :: tokens => v ← json_get t v; pointer tokens v end.
Definition tokens (key : string) : list string := map of_str (drop 1 (split_on (chr 47) (str_of key))).

Definition accept {A} (b : bool) (a : A) (self : MockIOContext) : option (A * list (string * string)) :=
  if b then Some (a, mock_files self) else None.
Definition mock_run_command (cmd : string) : stateful MockIOContext string string := as_result (next (fun io self =>
  match io with RunCommand expected_cmd output => accept (String.eqb cmd expected_cmd) output self | _ => None end)).
Definition mock_print (msg : string) : action MockIOContext () := next (fun io self =>
  match io with Print expected_msg => accept (String.eqb msg expected_msg) tt self | _ => None end).
Definition mock_eprint (msg : string) : action MockIOContext () := next (fun io self =>
  match io with EPrint expected_msg => accept (String.eqb msg expected_msg) tt self | _ => None end).
Definition mock_prompt (prompt : string) (default : option string) : action MockIOContext string := next (fun io self =>
  match io with
  | Prompt expected_prompt expected_default input =>
      accept (String.eqb prompt expected_prompt && options_eqb default expected_default) input self
  | _ => None
  end).
Definition mock_prompt_yes_no (prompt : string) (default : bool) : action MockIOContext bool := next (fun io self =>
  match io with
  | PromptYN expected_prompt expected_default choice =>
      accept (String.eqb prompt expected_prompt && Bool.eqb default expected_default) choice self
  | _ => None
  end).
Definition mock_prompt_multi_option (prompt : string) (options : list string) : action MockIOContext string := next (fun io self =>
  match io with
  | PromptMultiOption expected_prompt expected_options choice =>
      accept (String.eqb prompt expected_prompt && lists_eqb options expected_options) choice self
  | _ => None
  end).
Definition mock_write_file (path input : string) : action MockIOContext () := next (fun io self =>
  let written (b : bool) := if b then Some (tt, (path, input) :: mock_files self) else None in
  match io with
  | FileWriteJsonField expected_path expected_key expected_value =>
      match parsed ← from_json input; pointer (tokens expected_key) parsed with
      | Some value => written (String.eqb path expected_path && String.eqb expected_value (unquote (value_to_string value)))
      | None => None
      end
  | FileWriteJson expected_path expected_input =>
      match from_json input with
      | Some parsed_input => written (String.eqb path expected_path && jvalue_eqb parsed_input expected_input)
      | None => None
      end
  | FileWrite expected_path expected_input => written (String.eqb path expected_path && String.eqb input expected_input)
  | _ => None
  end).
Definition mock_read_file (path : string) : action MockIOContext (option string) := next (fun io self =>
  match io with FileRead expected_path => accept (String.eqb path expected_path) (mock_file path self) self | _ => None end).
Definition mock_file_exists (path : string) : action MockIOContext bool := fun self =>
  (self, Done (bool_decide (is_Some (mock_file path self)))).
Definition mock_list_directory (path : string) : stateful MockIOContext string (option (list string)) := as_result (next (fun io self =>
  match io with ListDirectory expected_path entries => accept (String.eqb path expected_path) (Ok entries) self | _ => None end)).
Definition mock_delete_file (path : string) : stateful MockIOContext string () := as_result (next (fun io self =>
  match io with DeleteFile expected_path => accept (String.eqb path expected_path) (Ok tt) self | _ => None end)).
Definition mock_set_env_var (key value : string) : action MockIOContext () := next (fun io self =>
  match io with
  | SetEnvVar expected_key expected_value => accept (String.eqb key expected_key && String.eqb value expected_value) tt self
  | _ => None
  end).
Definition mock_current_timestamp : action MockIOContext Z := next (fun io self =>
  match io with SystemTimeNow time => accept true time self | _ => None end).
Definition mock_new_tmp_dir : action MockIOContext string := next (fun io self =>
  match io with NewTmpDir => accept true "/tmp/MockIOContext_tmp_dir" self | _ => None end).
Definition mock_ogmios_rpc (addr : string) (req : OgmiosRequest) : stateful MockIOContext string OgmiosResponse := as_result (next (fun io self =>
  match io with
  | OgmiosRPC expected_addr expected_req res => accept (String.eqb addr expected_addr && requests_eqb req expected_req) res self
  | _ => None
  end)).
Definition mock_offchain_impl (ogmios_config : ServiceConfig) : stateful MockIOContext string OffchainMock := fun self =>
  let addr := ServiceConfig_display ogmios_config in
  (self, Done (ok_or (snd <$> find (fun m => String.eqb (fst m) addr) (offchain_mocks self)) "No mock for Offchain implementation")).
Definition mock_get_scripts_data (self : OffchainMock) (genesis_utxo : UtxoId) : stateful MockIOContext OffchainError ScriptsData := fun w =>
  (w, Done (default (Err (InternalError "No mock for shelley_genesis_configuration"))
    (snd <$> find (fun m => bool_decide (fst m = genesis_utxo)) (mock_scripts_data self)))).
#[export] Instance mock_context : IOContext MockIOContext := {|
  OffchainImpl := OffchainMock;
  run_command := mock_run_command;
  print := mock_print;
  eprint := mock_eprint;
  enewline := mock_eprint "";
  prompt := mock_prompt;
  prompt_yes_no := mock_prompt_yes_no;
  prompt_multi_option := mock_prompt_multi_option;
  write_file := mock_write_file;
  new_tmp_dir := mock_new_tmp_dir;
  read_file := mock_read_file;
  file_exists := mock_file_exists;
  list_directory := mock_list_directory;
  delete_file := mock_delete_file;
  set_env_var := mock_set_env_var;
  current_timestamp := mock_current_timestamp;
  ogmios_rpc := mock_ogmios_rpc;
  offchain_impl := mock_offchain_impl;
  scripts_data_of := mock_get_scripts_data
|}.

(** ** Tests *)

(** A run ends without a panic, with the result that [check] accepts; [Drop] then finds no
    interaction left. *)
Definition test_run {A} (check : A -> bool) (run : action MockIOContext A) (context : MockIOContext) : bool :=
  match run context with
  | (w, Done a) => check a && match expected_io w with [] => true | _ => false end
  | _ => false
  end.
Definition should_succeed {A} : result string A -> bool := fun r => match r with Ok _ => true | Err _ => false end.
Definition should_return_error {A} : result string A -> bool := fun r => match r with Ok _ => false | Err _ => true end.
Definition returns_error {A} (message : string) : result string A -> bool := fun r =>
  match r with Ok _ => false | Err e => String.eqb e message end.

(** The interactions that several tests expect. *)
Definition save_to_existing_file {T} (field : ConfigFieldDefinition T) (value : string) : MockIO :=
  Group [FileRead (config_file field); FileWriteJsonField (config_file field) (json_pointer field) value].
Definition save_to_new_file {T} (field : ConfigFieldDefinition T) (value : string) : MockIO :=
  Group [FileWriteJsonField (config_file field) (json_pointer field) value].
Definition prompt_with_default_and_save_to_existing_file {T} (field : ConfigFieldDefinition T) (default : option string) (value : string) : MockIO :=
  Group [FileRead (config_file field); Prompt (name field) default value; save_to_existing_file field value].
Definition prompt_and_save_to_existing_file {T} (field : ConfigFieldDefinition T) (value : string) : MockIO :=
  prompt_with_default_and_save_to_existing_file field (default_text field) value.
Definition prompt_multi_option_with_default_and_save_to_existing_file {T} (options : list string) (field : ConfigFieldDefinition T)
    (default : option string) (value : string) : MockIO :=
  Group [FileRead (config_file field); PromptMultiOption (name field) (select_options_with_default options default) value;
         save_to_existing_file field value].
End Mock.

(** The floating point number of a test. *)
Module Float01.
#[export] Instance float : F64 := JsonText.one_float "0.1".
#[export] Instance json_text : SerdeJson := JsonText.text_json "0.1".
#[export] Instance value_text : ValueText := JsonText.compact "0.1".
End Float01.
Module Float005.
#[export] Instance float : F64 := JsonText.one_float "0.05".
#[export] Instance json_text : SerdeJson := JsonText.text_json "0.05".
#[export] Instance value_text : ValueText := JsonText.compact "0.05".
End Float005.
