(* ===== verification/RegisterTests.v ===== *)
(** * The tests of the registration wizards

    The tests of [register/], [deregister/] and [select_utxo.rs] of
    [toolkit/partner-chains-cli/src], run on the wizards of this development in the mock context:
    the texts that the wizards print, the files that they read and write and the commands that they
    run are those that the repository expects.

    Third-party: signatures and key pairs are tables of what the tests expect ([WizardKeys]);
    addresses are those of [SmallCsl]. Messages are compared without the details that [serde_json]
    adds to its errors. *)

From S2P Require Import Prelude Domain McEpoch Cbor Json PlutusDatums Selection Ariadne Ogmios OffchainCsl Offchain OffchainUpsert CliConfig CliPrepare CliRegister CliNode CliMock.
#[local] Open Scope string_scope.
#[local] Open Scope list_scope.
Export ConcreteHex SmallCsl Rfc8949.

Definition hexb (s : string) : bytes := default [] (hex_decode (str_of s)).

Module WizardKeys.
(** What the tests expect of the keys that they use. *)
#[export] Instance test_keys : SigningKeys := {|
  SecretKey := bytes; PublicKey := bytes;
  ed25519_sign _ _ := hexb "aaa39fbf163ed77c69820536f5dc22854e7e13f964f1e077efde0844a09bde64c1aab4d2b401e0fe39b43c91aa931cad26fa55c8766378462c06d86c85134801";
  ed25519_public _ := hexb "cef2d1630c034d3b9034eb7903d61f419a3074a1ad01d4550cc72f2b733de6e7";
  ed25519_try_from := Ok;
  secret_from_slice := Ok;
  secret_from_str s := ok_or (hex_decode (str_of s)) "invalid key";
  public_from_secret k := k;
  public_from_str s := ok_or (hex_decode (str_of s)) "invalid key";
  public_serialize p := p;
  sign_ecdsa _ _ := hexb "6e295e36a6b11d8b1c5ec01ac8a639b466fbfbdda94b39ea82b0992e303d58543341345fc705e09c7838786ba0bc746d9038036f66a36d1127d924c4a0228bec";
  pair_seed_from_string s :=
    if decide (s = "end fury stamp spatial focus tired video tumble good critic tail hood") then Ok [1%Z] else Err "Invalid phrase"
|}.
#[export] Instance test_hash : Blake2bHash := fun n b => take n b.
End WizardKeys.
Export WizardKeys.
Definition address_of_key (cbor_hex : string) : string :=
  default "" (ok (to_bech32 (payment_address_of_key (hexb (String.substring 4 64 cbor_hex)) NetTestnet))).
Definition test_address : string := address_of_key "5820a35ef86f1622172816bb9e916aea86903b2c8d32c728ad5c9b9472be7e3c5e88".
Definition test_address2 : string := address_of_key "5820516c971f57d5db063161b3240dfa95cdd8030242dd8756c5a003978b4113788c".

(** ** What several tests expect *)

(** [pc_contracts_cli_resources.rs]: the defaults. *)
Definition service_default (protocol : ConfigFieldDefinition NetworkProtocol) (hostname : ConfigFieldDefinition string)
    (port : ConfigFieldDefinition Z) (default_port : string) : ServiceConfig :=
  mkServiceConfig (default Http (d ← default_text protocol; ok (NetworkProtocol_from_str d))) (default "localhost" (default_text hostname))
    (default 0%Z (ok (uint_from_str 16 (default default_port (default_text port))))).
Definition default_ogmios_service_config : ServiceConfig := service_default OGMIOS_PROTOCOL OGMIOS_HOSTNAME OGMIOS_PORT "1337".
Definition default_resources : PcContractsCliResources :=
  mkPcContractsCliResources (service_default KUPO_PROTOCOL KUPO_HOSTNAME KUPO_PORT "1442") default_ogmios_service_config.
Section Expected.
Context `{F64}.
Definition service_io (protocol_field : ConfigFieldDefinition NetworkProtocol) (hostname_field : ConfigFieldDefinition string)
    (port_field : ConfigFieldDefinition Z) (default_config config_to_set : ServiceConfig) : list MockIO :=
  [prompt_multi_option_with_default_and_save_to_existing_file NetworkProtocol_select_options protocol_field
     (Some (NetworkProtocol_display (protocol default_config))) (NetworkProtocol_display (protocol config_to_set));
   prompt_with_default_and_save_to_existing_file hostname_field (Some (hostname default_config)) (hostname config_to_set);
   prompt_with_default_and_save_to_existing_file port_field (Some (dec_text (port default_config))) (dec_text (port config_to_set))].
Definition prompt_ogmios_configuration_io (default_config config_to_set : ServiceConfig) : MockIO :=
  Group (service_io OGMIOS_PROTOCOL OGMIOS_HOSTNAME OGMIOS_PORT default_config config_to_set).
Definition establish_pc_contracts_cli_configuration_io (existing_config : option PcContractsCliResources)
    (config_to_set : PcContractsCliResources) : MockIO :=
  let default_config := default default_resources existing_config in
  Group (Print KUPO_AND_OGMIOS_REQUIRED :: service_io KUPO_PROTOCOL KUPO_HOSTNAME KUPO_PORT (kupo default_config) (kupo config_to_set) ++
         [prompt_ogmios_configuration_io (ogmios default_config) (ogmios config_to_set)]).

(** [select_utxo.rs]. *)
Definition default_utxo (id : string) (index lovelace : Z) (tokens : list (string * (string * Z))) : OgmiosUtxo :=
  mkOgmiosUtxo (mkOgmiosTx (hexb id)) index "" (mkOgmiosValue lovelace
    (list_to_map (map (fun t => (hexb (fst t), [mkAsset (hexb (fst (snd t))) (snd (snd t))])) tokens))) None None None.
Definition mock_result_5_valid : list OgmiosUtxo :=
  [default_utxo "4704a903b01514645067d851382efd4a6ed5d2ff07cf30a538acc78fed7c4c02" 93 1100000 [];
   default_utxo "76ddb0a474eb893e6e17de4cc692bce12e57271351cccb4c0e7e2ad864347b64" 0 1200000 [];
   default_utxo "b9da3bfe0c7c177d494aeea0937ce4da9827c8dfc80bedb5825cd08887cbedb8" 0 1300000
     [("244d83c5418732113e891db15ede8f0d15df75b705a1542d86937875", ("4c757854657374546f6b656e54727932", 1%Z))];
   default_utxo "917e3dba3ed5faee7855d99b4a797859ac7b1941b381aef36080d767127bdaba" 0 1400000 [];
   default_utxo "b031cda9c257fed6eed781596ab5ca9495ae88a860e807763b2cd67c72c4cc1e" 0 1500000 [];
   default_utxo "b9da3bfe0c7c177d494aeea0937ce4da9827c8dfc80bedb5825cd08887cbedb8" 0 1600000
     [("7726c67e096e60ff24757de0ec0a78c659ce73c9b12e98df7d2fda2c", ("", 1%Z))];
   default_utxo "f5f58c0d5ab357a3562ca043a4dd67567a8399da77968cef59fb271d72db57bd" 0 1700000 []].
Definition mock_5_valid_utxos_rows : list string :=
  ["f5f58c0d5ab357a3562ca043a4dd67567a8399da77968cef59fb271d72db57bd#0 (1700000 lovelace)";
   "b031cda9c257fed6eed781596ab5ca9495ae88a860e807763b2cd67c72c4cc1e#0 (1500000 lovelace)";
   "917e3dba3ed5faee7855d99b4a797859ac7b1941b381aef36080d767127bdaba#0 (1400000 lovelace)";
   "76ddb0a474eb893e6e17de4cc692bce12e57271351cccb4c0e7e2ad864347b64#0 (1200000 lovelace)";
   "4704a903b01514645067d851382efd4a6ed5d2ff07cf30a538acc78fed7c4c02#93 (1100000 lovelace)"].
Definition mock_result_0_valid : list OgmiosUtxo :=
  [default_utxo "8a0d3e5644b3e84a775556b44e6407971d01b8bfa3f339294b7228ac18ddb29c" 0 10000000
     [("244d83c5418732113e891db15ede8f0d15df75b705a1542d86937875", ("4c757854657374546f6b656e54727932", 1%Z))]].
Definition query_address_utxos_io (cardano_addr ogmios_addr : string) (result : list OgmiosUtxo) : MockIO :=
  Group [Print ("⚙️ Querying UTXOs of " +:+ cardano_addr +:+ " from Ogmios at " +:+ ogmios_addr +:+ "...");
         OgmiosRPC ogmios_addr (QueryUtxo cardano_addr) (Ok (UtxoResponse result))].
End Expected.
Definition test_parse_utxo_query_output : bool :=
  bool_decide (map (fun u => Ok (utxo_id u, vu_lovelace u)) (filter_utxos mock_result_5_valid) = map
    (fun e => u ← utxo_from_text (fst e); Ok (u, snd e))
    [("f5f58c0d5ab357a3562ca043a4dd67567a8399da77968cef59fb271d72db57bd#0", 1700000%Z);
     ("b031cda9c257fed6eed781596ab5ca9495ae88a860e807763b2cd67c72c4cc1e#0", 1500000%Z);
     ("917e3dba3ed5faee7855d99b4a797859ac7b1941b381aef36080d767127bdaba#0", 1400000%Z);
     ("76ddb0a474eb893e6e17de4cc692bce12e57271351cccb4c0e7e2ad864347b64#0", 1200000%Z);
     ("4704a903b01514645067d851382efd4a6ed5d2ff07cf30a538acc78fed7c4c02#93", 1100000%Z)]) &&
  bool_decide (length (filter_utxos mock_result_0_valid) = 0%nat).

Module Register1Tests.
Import Float01.
Definition PAYMENT_VKEY_PATH : string := "payment.vkey".
Definition CHAIN_CONFIG_PATH : string := "partner-chains-cli-chain-config.json".
Definition RESOURCE_CONFIG_PATH : string := "partner-chains-cli-resources-config.json".
Definition chain_config_content :=
  json_object [("chain_parameters", json_object [("genesis_utxo", string_to_value "0000000000000000000000000000000000000000000000000000000000000001#0")]); ("cardano", json_object [("network", string_to_value "testnet")])].
Definition generated_keys_file_content :=
  json_object [("sidechain_pub_key", string_to_value "0x031e75acbf45ef8df98bbe24b19b28fff807be32bf88838c30c0564d7bec5301f6"); ("aura_pub_key", string_to_value "0xdf883ee0648f33b6103017b61be702017742d501b8fe73b1d69ca0157460b777"); ("grandpa_pub_key", string_to_value "0x5a091a06abd64f245db11d2987b03218c6bd83d64c262fe10e3a2a1230e90327")].
Definition PAYMENT_VKEY_CONTENT : string := (q "
{
    ~type~: ~StakePoolVerificationKey_ed25519~,
    ~description~: ~Stake Pool Operator Verification Key~,
    ~cborHex~: ~5820a35ef86f1622172816bb9e916aea86903b2c8d32c728ad5c9b9472be7e3c5e88~
}
").
Definition ECDSA_KEY_FILE_CONTENT : string := (q "~end fury stamp spatial focus tired video tumble good critic tail hood~").
Definition intro_msg_io :=
  [Print "⚙️ Registering as a committee candidate (step 1/3)"].
Definition read_chain_config_io :=
  [FileRead CHAIN_CONFIG_PATH; FileRead CHAIN_CONFIG_PATH].
Definition read_resource_config_io :=
  [FileRead RESOURCE_CONFIG_PATH; FileRead KEYS_FILE_PATH].
Definition address_and_utxo_msg_io :=
  Group [Print "This wizard will query your UTXOs using address derived from the payment verification key and Ogmios service"].
Definition prompt_cardano_payment_verification_key_file_io :=
  Group ([FileRead RESOURCE_CONFIG_PATH; Prompt "path to the payment verification file" (Some PAYMENT_VKEY_PATH) PAYMENT_VKEY_PATH; FileRead RESOURCE_CONFIG_PATH; FileWriteJson RESOURCE_CONFIG_PATH (json_object [("substrate_node_base_path", string_to_value "/path/to/data"); ("cardano_payment_verification_key_file", string_to_value PAYMENT_VKEY_PATH)])]).
Definition read_payment_verification_key_file_io :=
  FileRead "payment.vkey".
Definition derive_address_io :=
  [address_and_utxo_msg_io; prompt_cardano_payment_verification_key_file_io; read_payment_verification_key_file_io].
Definition query_utxos_io :=
  [prompt_ogmios_configuration_io default_ogmios_service_config default_ogmios_service_config; query_address_utxos_io test_address "http://localhost:1337" mock_result_5_valid].
Definition select_utxo_io :=
  [PromptMultiOption "Select UTXO to use for registration" mock_5_valid_utxos_rows "4704a903b01514645067d851382efd4a6ed5d2ff07cf30a538acc78fed7c4c02#93 (1100000 lovelace)"; Print "Please do not spend this UTXO, it needs to be consumed by the registration transaction."; Print ""].
Definition output_io :=
  [Print "Run the following command to generate signatures on the next step. It has to be executed on the machine with your SPO cold signing key."; Print ""; Print "./partner-chains-cli register2 \
 --genesis-utxo 0000000000000000000000000000000000000000000000000000000000000001#0 \
 --registration-utxo 4704a903b01514645067d851382efd4a6ed5d2ff07cf30a538acc78fed7c4c02#93 \
 --aura-pub-key 0xdf883ee0648f33b6103017b61be702017742d501b8fe73b1d69ca0157460b777 \
 --grandpa-pub-key 0x5a091a06abd64f245db11d2987b03218c6bd83d64c262fe10e3a2a1230e90327 \
 --sidechain-pub-key 0x031e75acbf45ef8df98bbe24b19b28fff807be32bf88838c30c0564d7bec5301f6 \
 --sidechain-signature 6e295e36a6b11d8b1c5ec01ac8a639b466fbfbdda94b39ea82b0992e303d58543341345fc705e09c7838786ba0bc746d9038036f66a36d1127d924c4a0228bec"].
Definition ECDSA_KEY_PATH : string := "/path/to/data/chains/partner_chains_template/keystore/63726368031e75acbf45ef8df98bbe24b19b28fff807be32bf88838c30c0564d7bec5301f6".
Definition sign_registration_message_io :=
  [FileRead ECDSA_KEY_PATH].
Definition happy_path : bool :=
  let resource_config_without_cardano_fields := json_object [("substrate_node_base_path", string_to_value "/path/to/data")] in
  test_run should_succeed (register1_run)
    (with_expected_io (concat [intro_msg_io; read_chain_config_io; read_resource_config_io; derive_address_io; query_utxos_io; select_utxo_io; sign_registration_message_io; output_io]) (with_file PAYMENT_VKEY_PATH PAYMENT_VKEY_CONTENT (with_file ECDSA_KEY_PATH ECDSA_KEY_FILE_CONTENT (with_json_file KEYS_FILE_PATH generated_keys_file_content (with_json_file RESOURCE_CONFIG_PATH resource_config_without_cardano_fields (with_json_file CHAIN_CONFIG_PATH chain_config_content new_context)))))).
Definition invalid_chain_config_io :=
  [EPrint "⚠️ The chain configuration file `partner-chains-cli-chain-config.json` is missing or invalid.
 If you are the governance authority, please make sure you have run the `prepare-configuration` command to generate the chain configuration file.
 If you are a validator, you can obtain the chain configuration file from the governance authority."].
Definition report_error_if_chain_config_file_is_missing : bool :=
  test_run should_return_error (register1_run)
    (with_expected_io (concat [intro_msg_io; invalid_chain_config_io]) new_context).
Definition report_error_if_chain_config_fields_are_missing : bool :=
  test_run should_return_error (register1_run)
    (with_expected_io (concat ([intro_msg_io; [FileRead "partner-chains-cli-chain-config.json"]; invalid_chain_config_io])) (with_json_file "partner-chains-cli-chain-config.json" (json_object []) new_context)).
Definition resource_config_content :=
  json_object [("substrate_node_base_path", string_to_value "/path/to/data"); ("cardano_payment_verification_key_file", string_to_value "payment.vkey")].
Definition saved_prompt_fields_are_loaded_without_prompting : bool :=
  test_run should_succeed (register1_run)
    (with_expected_io (concat [intro_msg_io; read_chain_config_io; read_resource_config_io; derive_address_io; query_utxos_io; select_utxo_io; sign_registration_message_io; output_io]) (with_file ECDSA_KEY_PATH ECDSA_KEY_FILE_CONTENT (with_file PAYMENT_VKEY_PATH PAYMENT_VKEY_CONTENT (with_json_file KEYS_FILE_PATH generated_keys_file_content (with_json_file RESOURCE_CONFIG_PATH resource_config_content (with_json_file CHAIN_CONFIG_PATH chain_config_content new_context)))))).
Definition fail_if_cardano_network_is_not_specified : bool :=
  let chain_config_without_cardano_network := json_object [("chain_parameters", json_object [("genesis_utxo", string_to_value "0000000000000000000000000000000000000000000000000000000000000001#0")])] in
  test_run should_return_error (register1_run)
    (with_expected_io (concat ([intro_msg_io; read_chain_config_io; [EPrint "⚠️ Cardano network is not specified in the chain configuration file `partner-chains-cli-chain-config.json`"]])) (with_json_file KEYS_FILE_PATH generated_keys_file_content (with_json_file RESOURCE_CONFIG_PATH resource_config_content (with_json_file CHAIN_CONFIG_PATH chain_config_without_cardano_network new_context)))).
Definition utxo_query_error : bool :=
  test_run (returns_error "Ogmios request failed!") (register1_run)
    (with_expected_io (concat ([intro_msg_io; read_chain_config_io; read_resource_config_io; [address_and_utxo_msg_io; prompt_cardano_payment_verification_key_file_io; read_payment_verification_key_file_io; prompt_ogmios_configuration_io default_ogmios_service_config default_ogmios_service_config; Print ("⚙️ Querying UTXOs of " +:+ test_address +:+ " from Ogmios at http://localhost:1337..."); OgmiosRPC "http://localhost:1337" (QueryUtxo test_address) (Err "Ogmios request failed!")]])) (with_file PAYMENT_VKEY_PATH PAYMENT_VKEY_CONTENT (with_json_file KEYS_FILE_PATH generated_keys_file_content (with_json_file RESOURCE_CONFIG_PATH resource_config_content (with_json_file CHAIN_CONFIG_PATH chain_config_content new_context))))).
Definition should_error_with_missing_public_keys_file : bool :=
  test_run should_return_error (register1_run)
    (with_expected_io (concat ([intro_msg_io; read_chain_config_io; read_resource_config_io; [EPrint "⚠️ The keys file `partner-chains-cli-keys.json` is missing or invalid. Please run the `generate-keys` command first"]])) (with_json_file RESOURCE_CONFIG_PATH resource_config_content (with_json_file CHAIN_CONFIG_PATH chain_config_content new_context))).
Definition should_error_with_missing_private_keys_in_storage : bool :=
  test_run should_return_error (register1_run)
    (with_expected_io (concat ([intro_msg_io; read_chain_config_io; read_resource_config_io; derive_address_io; query_utxos_io; select_utxo_io; [FileRead ECDSA_KEY_PATH; EPrint "⚠️ Failed to read sidechain key from the keystore: seed phrase file not found"]])) (with_json_file KEYS_FILE_PATH generated_keys_file_content (with_file PAYMENT_VKEY_PATH PAYMENT_VKEY_CONTENT (with_json_file RESOURCE_CONFIG_PATH resource_config_content (with_json_file CHAIN_CONFIG_PATH chain_config_content new_context))))).
Definition should_error_on_invalid_seed_phrase : bool :=
  test_run should_return_error (register1_run)
    (with_expected_io (concat ([intro_msg_io; read_chain_config_io; read_resource_config_io; derive_address_io; query_utxos_io; select_utxo_io; [FileRead ECDSA_KEY_PATH; EPrint "⚠️ Failed to read sidechain key from the keystore: Invalid phrase"]])) (with_file ECDSA_KEY_PATH "invalid seed phrase" (with_file PAYMENT_VKEY_PATH PAYMENT_VKEY_CONTENT (with_json_file KEYS_FILE_PATH generated_keys_file_content (with_json_file RESOURCE_CONFIG_PATH resource_config_content (with_json_file CHAIN_CONFIG_PATH chain_config_content new_context)))))).
Definition run : stateful MockIOContext string () := register1_run.
Definition with_invalid_payment_file : MockIOContext :=
  with_expected_io (concat [intro_msg_io; read_chain_config_io; read_resource_config_io; derive_address_io])
    (with_file PAYMENT_VKEY_PATH "invalid content" (with_json_file KEYS_FILE_PATH generated_keys_file_content
      (with_json_file RESOURCE_CONFIG_PATH resource_config_content (with_json_file CHAIN_CONFIG_PATH chain_config_content new_context)))).
End Register1Tests.

Module Register2Tests.
Import Float01.
Definition mock_register2_cmd : result string Register2Cmd := Register2Cmd_parse
  "0000000000000000000000000000000000000000000000000000000000000001#0" "7e9ebd0950ae1bec5606f0cd7ac88b3c60b1103d7feb6ffa36402edae4d1b617#0"
  "0x031e75acbf45ef8df98bbe24b19b28fff807be32bf88838c30c0564d7bec5301f6" "0xdf883ee0648f33b6103017b61be702017742d501b8fe73b1d69ca0157460b777"
  "0x5a091a06abd64f245db11d2987b03218c6bd83d64c262fe10e3a2a1230e90327"
  "7a7e3e585a5dc248d4a2772814e1b58c90313443dd99369f994e960ecc4931442a08305743db7ab42ab9b8672e00250e1cc7c08bc018b0630a8197c4f95528a301".
Definition run : stateful MockIOContext string () := cmd ←! stateless (lift mock_register2_cmd); register2_run cmd.
Definition intro_msg_io :=
  [Print "⚙️ Register as a committee candidate (step 2/3)"; Print "  This command will use SPO cold signing key for signing the registration message."].
Definition prompt_mc_cold_key_path_io :=
  [Prompt "Path to mainchain signing key file" (Some "cold.skey") "/path/to/cold.skey"; FileRead "/path/to/cold.skey"].
Definition output_result_io :=
  [Print "To finish the registration process, run the following command on the machine with the partner chain dependencies running:
"; Print "./partner-chains-cli register3 \
--genesis-utxo 0000000000000000000000000000000000000000000000000000000000000001#0 \
--registration-utxo 7e9ebd0950ae1bec5606f0cd7ac88b3c60b1103d7feb6ffa36402edae4d1b617#0 \
--aura-pub-key 0xdf883ee0648f33b6103017b61be702017742d501b8fe73b1d69ca0157460b777 \
--grandpa-pub-key 0x5a091a06abd64f245db11d2987b03218c6bd83d64c262fe10e3a2a1230e90327 \
--sidechain-pub-key 0x031e75acbf45ef8df98bbe24b19b28fff807be32bf88838c30c0564d7bec5301f6 \
--sidechain-signature 7a7e3e585a5dc248d4a2772814e1b58c90313443dd99369f994e960ecc4931442a08305743db7ab42ab9b8672e00250e1cc7c08bc018b0630a8197c4f95528a301 \
--spo-public-key cef2d1630c034d3b9034eb7903d61f419a3074a1ad01d4550cc72f2b733de6e7 \
--spo-signature aaa39fbf163ed77c69820536f5dc22854e7e13f964f1e077efde0844a09bde64c1aab4d2b401e0fe39b43c91aa931cad26fa55c8766378462c06d86c85134801"].
Definition coldkey_content :=
  json_object [("type", string_to_value "StakePoolSigningKey_ed25519"); ("description", string_to_value "Stake Pool Operator Signing Key"); ("cborHex", string_to_value "58200c049bb92212b779ee8ba9550536d8103cc1892634f0d21dcaa8944f5e4bf718")].
Definition happy_path : bool :=
  test_run should_succeed (run)
    (with_expected_io (concat [intro_msg_io; prompt_mc_cold_key_path_io; output_result_io]) (with_json_file "/path/to/cold.skey" coldkey_content new_context)).
Definition invalid_mc_signing_key : bool :=
  test_run should_return_error (run)
    (with_expected_io [Group intro_msg_io; Prompt "Path to mainchain signing key file" (Some "cold.skey") "/invalid/cold.skey"; FileRead "/invalid/cold.skey"; EPrint "Unable to read mainchain signing key file"] new_context).
End Register2Tests.

Module Register3Tests.
Import Float01.
Definition mock_register3_cmd : result string Register3Cmd :=
  cmd ← Register2Cmd_parse "f17e6d3aa72095e04489d13d776bf05a66b5a8c49d89397c28b18a1784b9950e#0"
    "cdefe62b0a0016c2ccf8124d7dda71f6865283667850cc7b471f761d2bc1eb13#0" "020a1091341fe5664bfa1782d5e04779689068c916b04cb365ec3153755684d9a1"
    "79c3b7fc0b7697b9414cb87adcb37317d1cab32818ae18c0e97ad76395d1fdcf"
    "1a55db596380bc63f5ee964565359b5ea8e0096c798c3281692df097abbd9aa4b657f887915ad2a52fc85c674ef4044baeaf7149546af93a2744c379b9798f07"
    "cb6df9de1efca7a3998a8ead4e02159d5fa99c3e0d4fd6432667390bb4726854";
  Ok (mkRegister3Cmd cmd "cef2d1630c034d3b9034eb7903d61f419a3074a1ad01d4550cc72f2b733de6e7"
    "aaa39fbf163ed77c69820536f5dc22854e7e13f964f1e077efde0844a09bde64c1aab4d2b401e0fe39b43c91aa931cad26fa55c8766378462c06d86c85134801").
Definition run : stateful MockIOContext string () := cmd ←! stateless (lift mock_register3_cmd); register3_run cmd.
Definition intro_msg_io :=
  [Print "⚙️ Register as a committee candidate (step 3/3)"; Print "This command will submit the registration message to the mainchain."; FileRead CHAIN_CONFIG_FILE_PATH; Print "To proceed with the next command, a payment signing key is required. Please note that this key will not be stored or communicated over the network."].
Definition prompt_mc_payment_key_path_io :=
  [Prompt "Path to mainchain payment signing key file" (Some "payment.skey") "/path/to/payment.skey"].
Definition prompt_for_registration_status_y :=
  [PromptYN "Show registration status?" true true].
Definition mock_timestamp :=
  1668658000000.
Definition show_registration_status_io :=
  [Print "The registration status will be queried from a db-sync instance for which a valid connection string is required. Please note that this db-sync instance needs to be up and synced with the main chain."; FileRead CHAIN_CONFIG_FILE_PATH; SystemTimeNow mock_timestamp; FileRead RESOURCES_CONFIG_FILE_PATH; Prompt "DB-Sync Postgres connection string" (default_text POSTGRES_CONNECTION_STRING) (from_option id "" (default_text POSTGRES_CONNECTION_STRING)); FileRead RESOURCES_CONFIG_FILE_PATH; FileWriteJsonField RESOURCES_CONFIG_FILE_PATH (json_pointer POSTGRES_CONNECTION_STRING) (from_option id "" (default_text POSTGRES_CONNECTION_STRING)); FileRead CHAIN_CONFIG_FILE_PATH; SetEnvVar "DB_SYNC_POSTGRES_CONNECTION_STRING" (from_option id "" (default_text POSTGRES_CONNECTION_STRING)); SetEnvVar "CARDANO_SECURITY_PARAMETER" "1234"; SetEnvVar "CARDANO_ACTIVE_SLOTS_COEFF" "0.1"; SetEnvVar "BLOCK_STABILITY_MARGIN" "0"; SetEnvVar "MC__FIRST_EPOCH_TIMESTAMP_MILLIS" "1666742400000"; SetEnvVar "MC__FIRST_EPOCH_NUMBER" "1"; SetEnvVar "MC__EPOCH_DURATION_MILLIS" "86400000"; SetEnvVar "MC__FIRST_SLOT_NUMBER" "4320"; Print "Registrations status for epoch 25:"; NewTmpDir; FileRead RESOURCES_CONFIG_FILE_PATH; RunCommand "/path/to/node registration-status --mainchain-pub-key cef2d1630c034d3b9034eb7903d61f419a3074a1ad01d4550cc72f2b733de6e7 --mc-epoch-number 25 --chain chain-spec.json --base-path /tmp/MockIOContext_tmp_dir" (Ok (q "{~epoch~:1,~validators~:[{~public_key~:~cef2d1630c034d3b9034eb7903d61f419a3074a1ad01d4550cc72f2b733de6e7~,~status~:~Registered~}]}")); Print "Registration status:"; Print (q "{~epoch~:1,~validators~:[{~public_key~:~cef2d1630c034d3b9034eb7903d61f419a3074a1ad01d4550cc72f2b733de6e7~,~status~:~Registered~}]}")].
Definition run_registration_command_io :=
  [FileRead CHAIN_CONFIG_FILE_PATH; RunCommand "./pc-contracts-cli register --network mainnet --genesis-utxo f17e6d3aa72095e04489d13d776bf05a66b5a8c49d89397c28b18a1784b9950e#0 --registration-utxo cdefe62b0a0016c2ccf8124d7dda71f6865283667850cc7b471f761d2bc1eb13#0 --sidechain-public-keys 0x020a1091341fe5664bfa1782d5e04779689068c916b04cb365ec3153755684d9a1:79c3b7fc0b7697b9414cb87adcb37317d1cab32818ae18c0e97ad76395d1fdcf:1a55db596380bc63f5ee964565359b5ea8e0096c798c3281692df097abbd9aa4b657f887915ad2a52fc85c674ef4044baeaf7149546af93a2744c379b9798f07 --sidechain-signature cb6df9de1efca7a3998a8ead4e02159d5fa99c3e0d4fd6432667390bb4726854 --spo-public-key cef2d1630c034d3b9034eb7903d61f419a3074a1ad01d4550cc72f2b733de6e7 --spo-signature aaa39fbf163ed77c69820536f5dc22854e7e13f964f1e077efde0844a09bde64c1aab4d2b401e0fe39b43c91aa931cad26fa55c8766378462c06d86c85134801 --ada-based-staking --kupo-host localhost --kupo-port 1442  --ogmios-host localhost --ogmios-port 1337  --payment-signing-key-file /path/to/payment.skey" (Ok (q "{~endpoint~:~CommitteeCandidateReg~,~transactionId~:~1ab93b52d20ce114bfdb48a256ac48f3d8d46d00aec585c38a904b672a70e3a3~}"))].
Definition payment_skey_content :=
  json_object [("type", string_to_value "PaymentSigningKeyShelley_ed25519"); ("description", string_to_value "Payment Signing Key"); ("cborHex", string_to_value "5820d75c630516c33a66b11b3444a70b65083aeb21353bd919cc5e3daa02c9732a84")].
Definition chain_parameters_json :=
  json_object [("genesis_utxo", string_to_value "0000000000000000000000000000000000000000000000000000000000000000#0")].
Definition chain_config_content :=
  json_object [("chain_parameters", chain_parameters_json); ("cardano", json_object [("security_parameter", JNumber 1234); ("active_slots_coeff", JFloat); ("first_epoch_timestamp_millis", JNumber 1666742400000); ("epoch_duration_millis", JNumber 86400000); ("first_epoch_number", JNumber 1); ("first_slot_number", JNumber 4320); ("network", string_to_value "mainnet")]); ("cardano_addresses", json_object [("committee_candidates_address", string_to_value "addr_test1wz5qc7fk2pat0058w4zwvkw35ytptej3nuc3je2kgtan5dq3rt4sc"); ("d_parameter_policy_id", string_to_value "d0ebb61e2ba362255a7c4a253c6578884603b56fb0a68642657602d6"); ("permissioned_candidates_policy_id", string_to_value "58b4ba68f641d58f7f1bba07182eca9386da1e88a34d47a14638c3fe"); ("native_token", json_object [("asset", json_object [("policy_id", string_to_value "ada83ddd029614381f00e28de0922ab0dec6983ea9dd29ae20eef9b4"); ("asset_name", string_to_value "5043546f6b656e44656d6f")]); ("illiquid_supply_address", string_to_value "addr_test1wqn2pkvvmesmxtfa4tz7w8gh8vumr52lpkrhcs4dkg30uqq77h5z4")])]); ("initial_permissioned_candidates", JArray [json_object [("aura_pub_key", string_to_value "0xd43593c715fdd31c61141abd04a99fd6822c8558854ccde39a5684e7a56da27d"); ("grandpa_pub_key", string_to_value "0x88dc3417d5058ec4b4503e0c12ea1a0a89be200fe98922423d4334014fa6b0ee"); ("sidechain_pub_key", string_to_value "0x020a1091341fe5664bfa1782d5e04779689068c916b04cb365ec3153755684d9a1")]; json_object [("aura_pub_key", string_to_value "0x8eaf04151687736326c9fea17e25fc5287613693c912909cb226aa4794f26a48"); ("grandpa_pub_key", string_to_value "0xd17c2d7823ebf260fd138f2d7e27d114c0145d968b5ff5006125f2414fadae69"); ("sidechain_pub_key", string_to_value "0x0390084fdbf27d2b79d26a4f13f0ccd982cb755a661969143c37cbc49ef5b91f27")]])].
Definition resource_config_content :=
  json_object [("substrate_node_base_path", string_to_value "/path/to/data"); ("substrate_node_executable_path", string_to_value "/path/to/node"); ("cardano_payment_verification_key_file", string_to_value "payment.vkey")].
Definition happy_path : bool :=
  test_run should_succeed (run)
    (with_expected_io (concat ([intro_msg_io; prompt_mc_payment_key_path_io; [establish_pc_contracts_cli_configuration_io None default_resources]; run_registration_command_io; prompt_for_registration_status_y; show_registration_status_io])) (with_json_file RESOURCES_CONFIG_FILE_PATH resource_config_content (with_json_file CHAIN_CONFIG_FILE_PATH chain_config_content (with_json_file "/path/to/payment.skey" payment_skey_content new_context)))).
Definition run_registration_command_fail_io :=
  [FileRead CHAIN_CONFIG_FILE_PATH; RunCommand "./pc-contracts-cli register --network mainnet --genesis-utxo f17e6d3aa72095e04489d13d776bf05a66b5a8c49d89397c28b18a1784b9950e#0 --registration-utxo cdefe62b0a0016c2ccf8124d7dda71f6865283667850cc7b471f761d2bc1eb13#0 --sidechain-public-keys 0x020a1091341fe5664bfa1782d5e04779689068c916b04cb365ec3153755684d9a1:79c3b7fc0b7697b9414cb87adcb37317d1cab32818ae18c0e97ad76395d1fdcf:1a55db596380bc63f5ee964565359b5ea8e0096c798c3281692df097abbd9aa4b657f887915ad2a52fc85c674ef4044baeaf7149546af93a2744c379b9798f07 --sidechain-signature cb6df9de1efca7a3998a8ead4e02159d5fa99c3e0d4fd6432667390bb4726854 --spo-public-key cef2d1630c034d3b9034eb7903d61f419a3074a1ad01d4550cc72f2b733de6e7 --spo-signature aaa39fbf163ed77c69820536f5dc22854e7e13f964f1e077efde0844a09bde64c1aab4d2b401e0fe39b43c91aa931cad26fa55c8766378462c06d86c85134801 --ada-based-staking --kupo-host localhost --kupo-port 1442  --ogmios-host localhost --ogmios-port 1337  --payment-signing-key-file /path/to/payment.skey" (Err "TxRefNotFound")].
Definition registration_call_fails : bool :=
  test_run should_return_error (run)
    (with_expected_io (concat ([intro_msg_io; prompt_mc_payment_key_path_io; [establish_pc_contracts_cli_configuration_io None default_resources]; run_registration_command_fail_io])) (with_json_file RESOURCES_CONFIG_FILE_PATH resource_config_content (with_json_file CHAIN_CONFIG_FILE_PATH chain_config_content (with_json_file "/path/to/payment.skey" payment_skey_content new_context)))).
Definition prompt_for_registration_status_n :=
  [PromptYN "Show registration status?" true false].
Definition not_show_registration_status : bool :=
  test_run should_succeed (run)
    (with_expected_io (concat ([intro_msg_io; prompt_mc_payment_key_path_io; [establish_pc_contracts_cli_configuration_io None default_resources]; run_registration_command_io; prompt_for_registration_status_n])) (with_json_file RESOURCES_CONFIG_FILE_PATH resource_config_content (with_json_file CHAIN_CONFIG_FILE_PATH chain_config_content (with_json_file "/path/to/payment.skey" payment_skey_content new_context)))).
End Register3Tests.

Module DeregisterTests.
Import Float01.
Definition print_info_io : MockIO := Print (q "This wizard will remove the specified candidate from the committee candidates based on the following chain parameters:
{
  ~genesis_utxo~: ~0000000000000000000000000000000000000000000000000000000000000000#0~
}.
Committee Candidate Validator Address is 'addr_test1wz5qc7fk2pat0058w4zwvkw35ytptej3nuc3je2kgtan5dq3rt4sc'
").
Definition MY_PAYMEMENT_SKEY : string := "my_payment.skey".
Definition MY_COLD_VKEY : string := "my_cold.vkey".
Definition read_config_twice_io :=
  Group [FileRead CHAIN_CONFIG_FILE_PATH; FileRead CHAIN_CONFIG_FILE_PATH].
Definition read_payment_signing_key :=
  Group [FileRead RESOURCES_CONFIG_FILE_PATH; Prompt "path to the payment signing key file" (Some "payment.skey") MY_PAYMEMENT_SKEY; FileRead RESOURCES_CONFIG_FILE_PATH; FileWriteJsonField RESOURCES_CONFIG_FILE_PATH "/cardano_payment_signing_key_file" MY_PAYMEMENT_SKEY; FileRead MY_PAYMEMENT_SKEY].
Definition read_cold_verification_key :=
  Group [FileRead RESOURCES_CONFIG_FILE_PATH; Prompt "path to the cold verification key file" (Some "cold.vkey") MY_COLD_VKEY; FileRead RESOURCES_CONFIG_FILE_PATH; FileWriteJsonField RESOURCES_CONFIG_FILE_PATH "/cardano_cold_verification_key_file" MY_COLD_VKEY; FileRead MY_COLD_VKEY].
Definition read_keys_io :=
  Group [Print "Payment signing key and verification key of cold key used for registration are required to deregister."; read_payment_signing_key; read_cold_verification_key].
Definition run_smart_contract_io (output : result string string) :=
  RunCommand "./pc-contracts-cli deregister --network testnet --ada-based-staking --spo-public-key 1111111111111111111111111111111111111111111111111111111111111111 --genesis-utxo 0000000000000000000000000000000000000000000000000000000000000000#0 --kupo-host localhost --kupo-port 1442  --ogmios-host localhost --ogmios-port 1337  --payment-signing-key-file my_payment.skey" output.
Definition chain_parameters_json :=
  json_object [("genesis_utxo", string_to_value "0000000000000000000000000000000000000000000000000000000000000000#0")].
Definition test_chain_config_content :=
  json_object [("chain_parameters", chain_parameters_json); ("cardano", json_object [("security_parameter", JNumber 1234); ("active_slots_coeff", JFloat); ("first_epoch_timestamp_millis", JNumber 1666742400000); ("epoch_duration_millis", JNumber 86400000); ("first_epoch_number", JNumber 1); ("first_slot_number", JNumber 4320); ("network", string_to_value "testnet")]); ("cardano_addresses", json_object [("committee_candidates_address", string_to_value "addr_test1wz5qc7fk2pat0058w4zwvkw35ytptej3nuc3je2kgtan5dq3rt4sc"); ("d_parameter_policy_id", string_to_value "d0ebb61e2ba362255a7c4a253c6578884603b56fb0a68642657602d6"); ("permissioned_candidates_policy_id", string_to_value "58b4ba68f641d58f7f1bba07182eca9386da1e88a34d47a14638c3fe"); ("native_token", json_object [("asset", json_object [("policy_id", string_to_value "ada83ddd029614381f00e28de0922ab0dec6983ea9dd29ae20eef9b4"); ("asset_name", string_to_value "5043546f6b656e44656d6f")]); ("illiquid_supply_address", string_to_value "addr_test1wrhvtvx3f0g9wv9rx8kfqc60jva3e07nqujk2cspekv4mqs9rjdvz")])]); ("initial_permissioned_candidates", JArray [])].
Definition test_resources_config_content :=
  json_object [("substrate_node_executable_path", string_to_value "./partner-chains-node")].
Definition valid_payment_signing_key_content :=
  json_object [("type", string_to_value "PaymentSigningKeyShelley_ed25519"); ("description", string_to_value "Payment Signing Key"); ("cborHex", string_to_value "58200000000000000000000000000000000000000000000000000000000000000001")].
Definition valid_cold_verification_key_content :=
  json_object [("type", string_to_value "StakePoolVerificationKey_ed25519"); ("description", string_to_value "Stake Pool Operator Verification Key"); ("cborHex", string_to_value "58201111111111111111111111111111111111111111111111111111111111111111")].
Definition happy_path : bool :=
  test_run should_succeed (deregister_run)
    (with_expected_io [read_config_twice_io; print_info_io; read_keys_io; establish_pc_contracts_cli_configuration_io None default_resources; run_smart_contract_io (Ok (q "{~endpoint~:~CommitteeCandidateDereg~,~transactionId~:~9aebb6d1d7f92f773f7d3025dd2fca67804ad6aea4a84a7696cd5ad15a4ee432~}")); Print (q "Deregistration successful: {~endpoint~:~CommitteeCandidateDereg~,~transactionId~:~9aebb6d1d7f92f773f7d3025dd2fca67804ad6aea4a84a7696cd5ad15a4ee432~}")] (with_json_file MY_COLD_VKEY valid_cold_verification_key_content (with_json_file MY_PAYMEMENT_SKEY valid_payment_signing_key_content (with_json_file RESOURCES_CONFIG_FILE_PATH test_resources_config_content (with_json_file CHAIN_CONFIG_FILE_PATH test_chain_config_content new_context))))).
Definition errors_if_smart_contracts_dont_output_transaction_id : bool :=
  test_run (returns_error "Deregistration failed") (deregister_run)
    (with_expected_io [read_config_twice_io; print_info_io; read_keys_io; establish_pc_contracts_cli_configuration_io None default_resources; run_smart_contract_io (Err (q "(NotFoundInputUtxo ~Couldn't find registration UTxO~)"))] (with_json_file MY_COLD_VKEY valid_cold_verification_key_content (with_json_file MY_PAYMEMENT_SKEY valid_payment_signing_key_content (with_json_file RESOURCES_CONFIG_FILE_PATH test_resources_config_content (with_json_file CHAIN_CONFIG_FILE_PATH test_chain_config_content new_context))))).
Definition invalid_chain_config_content :=
  json_object [("cardano", json_object [("security_parameter", JNumber 1234); ("active_slots_coeff", JFloat); ("first_epoch_timestamp_millis", JNumber 1666742400000); ("epoch_duration_millis", JNumber 86400000); ("first_epoch_number", JNumber 1); ("first_slot_number", JNumber 4320); ("network", string_to_value "testnet")])].
Definition fails_when_chain_config_is_not_valid : bool :=
  test_run (returns_error "Couldn't parse chain configuration file partner-chains-cli-chain-config.json. The chain configuration file that was used for registration is required in the working directory.") (deregister_run)
    (with_expected_io [read_config_twice_io] (with_json_file CHAIN_CONFIG_FILE_PATH invalid_chain_config_content new_context)).
Definition fails_when_payment_signing_key_is_not_valid : bool :=
  test_run (returns_error "my_payment.skey is not a valid Cardano key file") (deregister_run)
    (with_expected_io [read_config_twice_io; print_info_io; Print "Payment signing key and verification key of cold key used for registration are required to deregister."; read_payment_signing_key] (with_file MY_PAYMEMENT_SKEY "not a proper Cardano key json" (with_json_file RESOURCES_CONFIG_FILE_PATH test_resources_config_content (with_json_file CHAIN_CONFIG_FILE_PATH test_chain_config_content new_context)))).
Definition fails_when_cold_key_is_not_valid : bool :=
  test_run (returns_error "my_cold.vkey is not a valid Cardano key file") (deregister_run)
    (with_expected_io [read_config_twice_io; print_info_io; read_keys_io] (with_file MY_COLD_VKEY "not a proper Cardano key json" (with_json_file MY_PAYMEMENT_SKEY valid_payment_signing_key_content (with_json_file RESOURCES_CONFIG_FILE_PATH test_resources_config_content (with_json_file CHAIN_CONFIG_FILE_PATH test_chain_config_content new_context))))).
End DeregisterTests.

(** The messages contain the path of the file. *)
Definition report_error_if_payment_file_is_invalid : bool :=
  let ctx := Register1Tests.with_invalid_payment_file in
  test_run (returns_error "Failed to parse Cardano key file payment.vkey") Register1Tests.run ctx.

Example registration_wizard_tests_pass :
  forallb id
    [test_parse_utxo_query_output;
     Register1Tests.happy_path; Register1Tests.report_error_if_chain_config_file_is_missing;
     Register1Tests.report_error_if_chain_config_fields_are_missing; Register1Tests.saved_prompt_fields_are_loaded_without_prompting;
     Register1Tests.fail_if_cardano_network_is_not_specified; report_error_if_payment_file_is_invalid; Register1Tests.utxo_query_error;
     Register1Tests.should_error_with_missing_public_keys_file; Register1Tests.should_error_with_missing_private_keys_in_storage;
     Register1Tests.should_error_on_invalid_seed_phrase;
     Register2Tests.happy_path; Register2Tests.invalid_mc_signing_key;
     Register3Tests.happy_path; Register3Tests.registration_call_fails; Register3Tests.not_show_registration_status;
     DeregisterTests.happy_path; DeregisterTests.errors_if_smart_contracts_dont_output_transaction_id;
     DeregisterTests.fails_when_chain_config_is_not_valid; DeregisterTests.fails_when_payment_signing_key_is_not_valid;
     DeregisterTests.fails_when_cold_key_is_not_valid] = true.
Proof. vm_compute. reflexivity. Qed.
Module Strict.
Import Float01.
(** The mock context is strict: without the last expected interaction the test fails. *)
Example registration_wizard_test_fails :
  test_run should_succeed Register2Tests.run
    (with_expected_io (concat [Register2Tests.intro_msg_io; Register2Tests.prompt_mc_cold_key_path_io])
      (with_json_file "/path/to/cold.skey" Register2Tests.coldkey_content new_context)) = false.
Proof. vm_compute. reflexivity. Qed.
End Strict.
